(* ===== verification/_CoqProject ===== *)
-Q . S2P
Prelude.v
Cxx.v
Files.v
Calendar.v
Codec.v
Auc.v
Access.v
Work.v
Sync.v
Threads.v
Json.v
Diameter.v
Fd.v
FdJson.v
DataAccess.v
Scassandra.v
World.v
Proc.v
Air.v
Ulr.v
UlrPhase2.v
UlrRuns.v
UlrPhase3.v
Stats.v
Pur.v
Schemas.v
Classes.v
S6aClasses.v
S6tClasses.v
S6cClasses.v
ClassProps.v
Srr.v
Monitoring.v
Rir.v
Idr.v
Cir.v
Nir.v
Fdhss.v
Options.v
Sms.v
Dns.v
DnsCache.v
EpcNames.v
Epc.v
