(* ===== verification/Prelude.v ===== *)
(** * A verification library for the OpenAirInterface HSS

    The program is the Home Subscriber Server of a 4G core network
    (src/hss_rel14).  It answers Diameter requests of mobility management
    entities (MMEs) and of service exposure functions from subscriber data in a
    Cassandra database, and computes the vectors that authenticate subscribers.

    ** How the program works

    The freeDiameter engine calls a command object's [process] on each request.
    Most requests are worked off at once ([PUURcmd::process], [SERIFSRcmd::process],
    [NIIRcmd::process]).  An Update-Location-Request (ULR) or an
    Authentication-Information-Request (AIR) becomes a processor object that
    waits in the worker queue for one of a bounded number of slots
    ([QueueManager] in include/worker.h).  A processor runs in phases: a worker
    thread loops over the phases that are ready, each phase may issue
    asynchronous queries ([DataAccess]), and their callbacks, on driver threads,
    store the rows, record completion in bit masks and counters and post a
    message that resumes the loop.  In the final phase the processor deletes
    itself and frees its slot.

    A Configuration-Information-Request (CIR) asks to monitor events of one
    subscriber or of a group ([COIRcmd::process]).  Its events are stored, and
    passed on to the MMEs in Insert-Subscriber-Data-Requests (IDRs).  For one
    subscriber the answer waits for the MME's; for a group it is sent at once and
    a thread ([RIRBuilder]) collects the MMEs' answers and sends one
    Reporting-Information-Request (RIR).

    Results are counted by a statistics thread ([StatsHss]), fed also by hooks on
    the engine ([HookEvent]).  Monitoring configurations are kept in the database
    as JSON text, which util/src/fdjson.cpp turns into AVPs and back.

    ** The files

    - Prelude (this file): machine integers, the outcomes of C++ code ([Ok],
      [Throw], [UB]), the state-and-outcome monad [M] of the handlers with its
      weakest preconditions and tactics, bounded arrays, bytes and strings,
      termination by measure.
    - Cxx: the C++ library as the program uses it: numbers in text, [getline] on
      a string stream, the stable sort of a list, loops that carry a value.
    - Files: masks of file names, the listing of a directory, texts and paths
      (util/src/sdir.cpp, sutility.cpp, spath.cpp).
    - Calendar: dates, their formatter and parser, weeks and the arithmetic of
      [STime] (util/src/stime.cpp).
    - Codec: sequence numbers, hexadecimal text, TBCD digits and PLMN identities
      (include/util.h, src/util.cpp, util/src/fd.cpp, include/common_def.h).
    - Auc: Rijndael, MILENAGE, key derivation, the authentication vector, the
      resynchronisation and the random challenge (hsssec/src).
    - Access: the conversions and the roaming check of hsssec/src.
    - Work: the message queue, the thread pool with its shutdown and the
      admission queue (util/src/squeue.cpp, src/worker.cpp, include/worker.h),
      each as a step relation over its threads.
    - Sync: the mutex, the semaphore and the event of util/src/ssync.cpp, and the
      message queue built on the first two, one lock, post or wait to a step; it
      refines the queue of Work.  Its section [Explore] checks a finite system by
      computing a closed set of states.
    - Threads: the thread object and its event loop, with the calls of its owner
      interleaved with the thread itself, its timers and [STimerElapsed]
      (util/src/sthread.cpp, stimer.cpp).
    - Json: the values of a JSON document.
    - Diameter: messages, reading an AVP, the extractors and their [resolve]
      (util/src/fd.cpp, util/include/fd.h, src/s6as6d.cpp).
    - Fd: the objects behind those messages (util/src/fd.cpp, util/include/fd.h):
      [FDAvp] with every [set] and [get], who frees a message, how a request
      reaches its handler, the registration of handlers, sessions.
    - FdJson: both directions between JSON text and AVPs and the look-up of an
      access point (util/src/fdjson.cpp).
    - DataAccess: every query of src/dataaccess.cpp as the text it hands to the
      driver, and the reading of its rows.
    - Scassandra: who frees the handles of the driver (util/src/scassandra.cpp).
    - World: what handlers act on: the database, the messages sent, the
      statistics posted, the random generator.
    - Proc: the runtime ULR and AIR share.  [processor] is the interface; [step]
      the threads around one processor; [schedule] runs it on a concrete list of
      choices.
    - Air: [AIRProcessor] (src/s6as6d_impl.cpp 1740-2135), its phases, callbacks
      and all theorems about them.
    - Ulr, UlrPhase2, UlrPhase3, UlrRuns: [ULRProcessor] (src/s6as6d_impl.cpp
      880-1737): its definitions; what phase2 lets pass; what phase3 sends; its
      runs, with the concrete runs that go wrong.
    - Stats: the collectors and the statistics thread (util/src/sstats.cpp,
      src/statshss.cpp) and the engine hooks (src/msg_event.cpp).
    - Pur: [PUURcmd::process] (src/s6as6d_impl.cpp).
    - Schemas: the extractor classes of the S6a, S6t, S6c and SGd applications
      (src/s6as6d.cpp, src/s6t.cpp, src/s6c.cpp, smsrouter/src/sgd.cpp).
    - Classes, S6aClasses, S6tClasses, S6cClasses, ClassProps: the dictionaries, the
      extractor, list and command classes of these applications as their headers
      declare them and their sources construct them; that they make the extractors
      of Schemas.
    - Srr: [SERIFSRcmd::process] (src/s6c_impl.cpp).
    - Monitoring: the statuses of monitoring events and the ordered maps that
      hold them (include/fdhss.h, src/fdhss.cpp).
    - Rir: [RIRBuilder] (src/fdhss.cpp) with the event loop of its base class
      (util/src/sthread.cpp), and [Collector], the abstract component it
      implements.
    - Idr: the sending of an IDR and the processing of its answer
      (src/s6as6d_impl.cpp), the state of a peer (util/src/fd.cpp).
    - Cir: [COIRcmd::process] (src/s6t_impl.cpp), and its composition with Idr
      and Rir.
    - Nir: [NIIRcmd::process] and the answer to a RIR (src/s6t_impl.cpp).
    - Fdhss: peer validation, the recomputation of the OPc column, the
      resynchronisation by hand, the report of a changed IMEI and the REST request
      that causes it, and what [main] does before it serves (src/fdhss.cpp,
      src/resthandler.cpp, src/main.cpp).
    - Options: the options of the command line and of the JSON file, and the
      configuration filled from them (src/options.cpp).
    - Sms: the SMS router (smsrouter/src), a program of its own, and its routing
      request at the handler of Srr.
    - Dns: the DNS records and the parser of DNS messages, with the grammar of the
      messages (util/src/cdnsparser.cpp, util/include/cdnsrecord.h, cdnsquery.h).
    - DnsCache: the cache of queries, called by one thread and by many
      (util/src/cdnscache.cpp).
    - EpcNames: the DNS names of a core network's nodes and the tags of their
      services (util/src/epc.cpp 24-819).
    - Epc: the selection of nodes and of Diameter servers from DNS answers
      (util/src/epc.cpp 824-1349).
    The last four are library code of util/ that the HSS itself does not call.

    Definitions keep the names of the source.  A member function of a processor
    is a computation in [M] over the processor and the world; a phase assigns
    [m_nextphase] as the code does.  A 32-bit counter is a [Z] wrapped by [u32]
    at each update; an access outside an array, or to a deleted object, is an
    outcome of its own ([UB], [UseAfterFree]) and never a default value.

    ** What the theorems show

    - Requests are answered once: [ulr_answered_once], [air_answered_once] (every
      interleaving), [pur_answered_once], [srr_answered_once],
      [nir_answer_has_two_results], [cir_answered_at_most_once]; a CIR is
      answered or waits for an MME ([cir_answered_or_awaiting]).
    - No processor is used after it is deleted: [air_no_use_after_free]; for a
      ULR this fails, and [ulr_use_after_free] is a run in which it does; the
      request of a group CIR is always used after it is deleted
      ([group_answer_use_after_free]).
    - Runs end: [ulr_runs_are_finite], [air_runs_settle].  No fuel is involved:
      the step relation has no infinite path.
    - What is answered: [phase2_accepts_or_rejects] and
      [phase3_answers_then_reports] for a ULR, [phase2_answers_with_vectors] for
      an AIR, [pur_purges_whatever_the_origin] for a PUR,
      [hssdb_status_of_every_event] and [single_unreachable_answer] for a CIR.
    - Group reports: the builder's thread refines an abstract collector
      ([builder_refines_collector]), so a group is reported once, whatever the
      interleaving ([group_reported_once]); together with the handler that
      starts it, every subscriber is reported
      ([group_cir_reports_every_subscriber]).
    - The SMS router: its routing request is located by the HSS
      ([router_subscriber_located]); a short message comes back as the router's own
      ([short_message_sent_back]); its menu and options ([menu_spins],
      [sms_uninitialised_options]).
    - Configuration: what [parse] accepts and which source an option comes from
      ([options_parsed]); a key in hexadecimal is decoded
      ([operator_key_decoded]), but one given on the command line is lost
      ([operator_key_option_lost]).
    - A changed IMEI is reported to every function that asked for it
      ([imei_change_reported]); a peer is accepted when its host has a row
      ([peer_validated]).
    - Authentication works: a vector is accepted by a USIM with the same key
      ([generate_vector_authenticates]; the USIM is specified in Auc from its
      own side), resynchronisation accepts exactly what such a USIM sends
      ([sqn_ms_derive_correct]), the stored data is read back
      ([security_data_roundtrip]), the resynchronisation by hand does the same from
      an option of the command line ([synch_fix_accepts_usim]), every stored OPc is
      that of its key after a start with a new operator key
      ([opc_keys_recomputed]), the cipher's mixing is the matrix product of
      its definition ([mix_column_reference]).
    - Admission: at most [m_concurrent] processors run, in arrival order, and no
      wakeup is lost ([admission_control]); slots that leak block the queue
      ([air_rejected_slot_leaks], [leaked_slots_block]); the thread pool's
      shutdown is safe but can hang ([shutdown_waits_for_workers],
      [shutdown_can_hang]).
    - Threads: the message queue with its mutex and semaphore behaves like the
      atomic one, in order and without loss ([locked_queue_refines],
      [queue_no_lost_wakeup]), but a pop that is not to wait may wait
      ([nonwaiting_pop_waits]); a thread starts ([init_starts_thread]), stops at a
      suspension with the messages before it handled ([suspend_stops_thread]) and
      ends after [quit] ([quit_then_join_drains]); a thread suspended twice does
      not come back ([nested_suspension_never_ends]), the destructor of a running
      one hangs ([destructor_of_running_thread_hangs]), [init] and [join] touch a
      thread that ends by itself ([self_destruct_init_race],
      [join_returns_before_the_end]); a timer expires at every interval
      ([timer_expires_every_interval]).
    - Files: the mask matcher ends and decides what the wildcards mean
      ([match_decides], [filemask_kept]), a directory is listed by it
      ([directory_listed]), a path is taken apart as it was put together
      ([path_roundtrip]); where paths and texts go wrong ([combine_with_empty],
      [extension_not_added], [path_root_empty], [cleanPath_loses_character],
      [indexOf_inverted], [string_format_cuts]).
    - Messages: [resolve] finds every field, or throws on a repeated AVP
      ([resolve_finds_every_field], [resolve_repeated_avp_throws]); the extractor
      classes are well formed ([schemas_well_formed]), and as they are declared and
      constructed every member of them reads the AVP it is named after
      ([members_read_their_avps]); JSON text and AVPs convert
      back and forth ([json_roundtrip], [json_octets_after_text_truncated],
      [apn_lookup_ignores_arrays]).
    - The objects of the library: a value that is added to a message is read back
      ([values_read_back]), the messages of the handlers are what these objects
      add ([string_added], [number_added]), but a 64-bit signed integer gets no
      value ([i64_added_without_value]); no message is released twice, and an answer
      that is not sent is lost ([messages_released_once], [unsent_answer_lost],
      [own_request_released]); a command has one handler
      ([one_handler_per_code]), a session one identifier ([session_id_stable]).
    - The database driver: its handles are freed once ([handles_freed_once]), unless a
      callback's future is assigned to another ([callback_future_freed]).
    - Dates: when a format is overrun ([format_overruns_exactly]), what is read
      ([DateFromStr_iso]), universal time ([timegm_is_utc]).
    - Codecs: round trips, capacities and overruns of the encoders in Codec and
      Access.
    - DNS: the parser reads exactly the messages of the grammar
      ([dns_message_parsed]), never ends on a cycle of pointers
      ([dns_pointer_loop]); the cache answers until its records expire
      ([cache_answers_until_expiry]) and every query object has one owner
      ([cache_objects_owned_once]), which does not keep a caller from using a
      deleted one ([cache_use_after_free]).
    - Node selection: names identify nodes ([names_identify_nodes]); the results
      are those of the eligible NAPTR records, in order ([node_selection],
      [diameter_selection], [candidates_sorted]); the weights of SRV records play
      no part ([srv_weights_ignored]).
    - Statistics: every collector holds the number of messages posted for it
      ([stats_count_messages]); rows have equal columns; the SRR row shows
      another collector ([stats_srr_never_reported]); what the hooks count.

    Several theorems state that the code does not do what it means to; they are
    statements about the code as it is, each with a concrete run or a general
    characterisation.

    ** Parameters

    Code outside the repository is a type class with no assumption in it:
    [FreeDiameter] (the dictionary, the local identity, the result of sending,
    addresses as text, the parser and writer of JSON texts, the clock),
    [LocalZone] (the time zone of the process), [FdCalls], [MsgCalls],
    [Commands] and [SessCalls] of Fd (the results of its functions), [Peers] (the
    peers of freeDiameter and their states), [PeerFlags] (its flags of a peer), [Cassandra] (the driver),
    [Paging] (its pages), [Nettle] (HMAC-SHA-256), [LibcRand] ([rand]), [Getopt]
    ([getopt_long]), [Files] of Options (the text of a file), [Directories] (the entries of a directory), [Network] (addresses as text,
    random orders), [Commands] of Stats (the dictionaries' command codes).  A theorem
    that relies on their behaviour says so in a hypothesis ([SmsDictionary] of Sms
    is a class of such hypotheses), and its witness
    instantiates the class with a concrete function.  What the source leaves
    uninitialised is a parameter too ([uninit], [locals] and [u_msisdn] of the
    handlers), and so are the order of a hash table ([bucket_order]), the replies
    of c-ares and the clock ([reply], [now] of DnsCache), and the order in which
    [std::sort] leaves equal elements ([std_sort] of Epc).

    ** Bounds and granularity

    [ascii_to_hex] of Access runs on fuel, one more than the characters of its
    input; each turn consumes at least one, and [ascii_to_hex_fuel_enough] shows
    that more fuel changes nothing.  The loops of Calendar run on fuel as well:
    two turns for [cal_year_week], the length of its text for the date parser.
    A domain name is read with one turn more than the message has octets: a name
    that takes more never ends ([name_fuel_enough]); [getlines] of Cxx takes one
    turn more than the text has characters ([getlines_fuel_enough]).  The
    recomputation of the OPc column takes one turn for each page the driver has.
    The matcher of file masks runs on fuel; [turns] is enough for any string and
    mask ([match_decides]).  Small systems of two threads are explored by
    computation; the set found is closed under every step, so the number of
    rounds, at most 100, bounds nothing ([model_checked_sound]).
    The menu of the SMS router has no bound; [menu_spins] shows that it may not end.
    A phase of a processor is one step, and so is the part of a callback before
    it takes the processor's mutex: races inside them on the event lists are not
    modelled.  In Work a locked region is one step, which
    [locked_queue_refines] justifies for the message queue; in Rir it is one turn
    of the event loop.  One CIR is processed at a time and its [process] is one step; the
    builder's turns and the MMEs' answers come in any order.

    ** Not modelled

    Logging, the contents of files (util/src/sfile.cpp), start-up and shutdown of
    the applications, which are input and output; the stubs of commands the HSS
    neither sends nor receives; sleeping, yielding, priorities and the deprecated
    cancellation of a wait in util/src/sthread.cpp and ssync.cpp; the start of the
    engine, the adding of peers and the printing of messages in util/src/fd.cpp,
    which only call freeDiameter, and [getNext] and [getChild], which nothing calls;
    the thread that runs an asynchronous DNS query, which calls [query]. *)
From Stdlib Require Export ZArith Lia Ascii String.
From stdpp Require Export base tactics relations list option strings pretty gmap.
From coqutil Require Export Datatypes.RecordSettersUsingExistingGetters.
#[export] Set Default Proof Using "Type".
#[local] Open Scope Z_scope.
#[global] Arguments const {E} newValue _ /.

(** ** Machine integers: a w-bit value is a [Z]; a store wraps it. *)

Definition u8 (z : Z) : Z := z mod 2 ^ 8.
Definition u16 (z : Z) : Z := z mod 2 ^ 16.
Definition u32 (z : Z) : Z := z mod 2 ^ 32.
Definition u64 (z : Z) : Z := z mod 2 ^ 64.
Definition i32 (z : Z) : Z := (z + 2 ^ 31) mod 2 ^ 32 - 2 ^ 31.
Definition i64 (z : Z) : Z := (z + 2 ^ 63) mod 2 ^ 64 - 2 ^ 63.

(** A byte and a byte array. *)
Definition is_byte (z : Z) : Prop := 0 <= z < 256.
Abbreviation bytes := (list Z).
Definition are_bytes (l : bytes) : Prop := Forall is_byte l.

#[export] Instance is_byte_dec z : Decision (is_byte z).
Proof. unfold is_byte; apply _. Defined.
#[export] Instance are_bytes_dec l : Decision (are_bytes l).
Proof. unfold are_bytes; apply _. Defined.

(** C's truth value of an integer and the [FLAG_IS_SET] test. *)
Definition truth (z : Z) : bool := negb (z =? 0).

(** ** Outcomes of C++ code

    [Ok v] is a normal return, [Throw e] a C++ exception in flight, [UB] an
    access the language leaves undefined (an index past an array, a use of a
    deleted object). *)

Inductive exn := DAException | FDException | StdException.
#[export] Instance exn_eq_dec : EqDecision exn.
Proof. solve_decision. Defined.

Inductive outcome (A : Type) := Ok (a : A) | Throw (e : exn) | UB.
Arguments Ok {A} a.
Arguments Throw {A} e.
Arguments UB {A}.

#[export] Instance outcome_ret : MRet outcome := λ A a, Ok a.
#[export] Instance outcome_bind : MBind outcome := λ A B f m,
  match m with Ok a => f a | Throw e => Throw e | UB => UB end.
#[export] Instance outcome_eq_dec {A} `{EqDecision A} : EqDecision (outcome A).
Proof. solve_decision. Defined.

Definition is_Ok {A} (o : outcome A) : Prop := ∃ a, o = Ok a.
Lemma is_Ok_Ok {A} (a : A) : is_Ok (Ok a).
Proof. by exists a. Qed.
#[global] Hint Resolve is_Ok_Ok : core.

(** ** The state-and-outcome monad of the handlers: a C++ exception keeps the
    state reached so far. *)

Definition M (S A : Type) : Type := S → outcome A * S.

#[export] Instance M_ret {S} : MRet (M S) := λ A a s, (Ok a, s).
#[export] Instance M_bind {S} : MBind (M S) := λ A B f m s,
  match m s with
  | (Ok a, s') => f a s'
  | (Throw e, s') => (Throw e, s')
  | (UB, s') => (UB, s')
  end.

Definition gets {S A} (f : S → A) : M S A := λ s, (Ok (f s), s).
Definition modify {S} (f : S → S) : M S unit := λ s, (Ok tt, f s).
Definition throw {S A} (e : exn) : M S A := λ s, (Throw e, s).
Definition undefined {S A} : M S A := λ s, (UB, s).
Definition lift {S A} (o : outcome A) : M S A := λ s, (o, s).
(** [try { m } catch (...) { h }]: the handler sees which exception it was. *)
Definition catch {S A} (m : M S A) (h : exn → M S A) : M S A := λ s,
  match m s with
  | (Throw e, s') => h e s'
  | r => r
  end.
(** A computation on a part of the state. *)
Definition zoom {S T A} (get : S → T) (put : T → S → S) (m : M T A) : M S A := λ s,
  let '(o, t) := m (get s) in (o, put t s).
(** [for (it : l) body] with the loop's effects in order. *)
Fixpoint for_each {S A} (l : list A) (body : A → M S unit) : M S unit :=
  match l with
  | [] => mret tt
  | x :: l' => _ ← body x; for_each l' body
  end.

Lemma bind_Ok {S A B} (m : M S A) (f : A → M S B) s a s' :
  m s = (Ok a, s') → (m ≫= f) s = f a s'.
Proof. intros H. unfold mbind, M_bind. by rewrite H. Qed.

Lemma bind_Throw {S A B} (m : M S A) (f : A → M S B) s e s' :
  m s = (Throw e, s') → (m ≫= f) s = (Throw e, s').
Proof. intros H. unfold mbind, M_bind. by rewrite H. Qed.

Lemma bind_inv {S A B} (m : M S A) (f : A → M S B) s b s'' :
  (m ≫= f) s = (Ok b, s'') →
  ∃ a s', m s = (Ok a, s') ∧ f a s' = (Ok b, s'').
Proof.
  unfold mbind, M_bind. destruct (m s) as [[a|e|] s'] eqn:E; naive_solver.
Qed.

(** Case analysis on the next effect of a monadic run in a hypothesis. *)
Ltac run_inv :=
  repeat match goal with
  | H : (mbind _ _) _ = (Ok _, _) |- _ =>
      let a := fresh "a" in let s := fresh "s" in
      let H1 := fresh "Hr" in let H2 := fresh "Hr" in
      apply bind_inv in H as (a & s & H1 & H2); simpl in H1, H2
  | H : (mret _) _ = (_, _) |- _ => unfold mret, M_ret in H; simplify_eq
  | H : (gets _) _ = (_, _) |- _ => unfold gets in H; simplify_eq
  | H : (modify _) _ = (_, _) |- _ => unfold modify in H; simplify_eq
  end.

(** Weakest preconditions: what holds of the outcome and of the final state. *)
Definition wp {S A} (m : M S A) (Q : outcome A → S → Prop) (s : S) : Prop :=
  let '(o, s') := m s in Q o s'.

Definition keep_fault {A B} (Q : outcome B → Prop) (f : A → Prop) (o : outcome A) : Prop :=
  match o with Ok a => f a | Throw e => Q (Throw e) | UB => Q UB end.

Lemma wp_bind {S A B} (m : M S A) (f : A → M S B) Q s :
  wp m (λ o s', keep_fault (λ o', Q o' s') (λ a, wp (f a) Q s') o) s → wp (m ≫= f) Q s.
Proof. unfold wp, mbind, M_bind. by destruct (m s) as [[a|e|] s']. Qed.

Lemma wp_ret {S A} (a : A) (Q : outcome A → S → Prop) s : Q (Ok a) s → wp (mret a) Q s.
Proof. done. Qed.
Lemma wp_gets {S A} (f : S → A) Q s : Q (Ok (f s)) s → wp (gets f) Q s.
Proof. done. Qed.
Lemma wp_modify {S} (f : S → S) Q s : Q (Ok tt) (f s) → wp (modify f) Q s.
Proof. done. Qed.
Lemma wp_throw {S A} e (Q : outcome A → S → Prop) s : Q (Throw e) s → wp (throw e) Q s.
Proof. done. Qed.
Lemma wp_undefined {S A} (Q : outcome A → S → Prop) s : Q UB s → wp undefined Q s.
Proof. done. Qed.
Lemma wp_lift {S A} (o : outcome A) Q (s : S) : Q o s → wp (lift o) Q s.
Proof. done. Qed.
Lemma wp_zoom {S T A} (get : S → T) put (m : M T A) Q s :
  wp m (λ o t, Q o (put t s)) (get s) → wp (zoom get put m) Q s.
Proof. unfold wp, zoom. by destruct (m (get s)). Qed.
Lemma wp_mono {S A} (m : M S A) (P Q : outcome A → S → Prop) s :
  wp m P s → (∀ o s', P o s' → Q o s') → wp m Q s.
Proof. unfold wp. destruct (m s). auto. Qed.
Lemma wp_run {S A} (m : M S A) Q s o s' : wp m Q s → m s = (o, s') → Q o s'.
Proof. unfold wp. intros H E. by rewrite E in H. Qed.

Lemma wp_catch {S A} (m : M S A) h Q s :
  wp m (λ o s', match o with Throw e => wp (h e) Q s' | _ => Q o s' end) s → wp (catch m h) Q s.
Proof. unfold wp, catch. by destruct (m s) as [[]]. Qed.
(** A loop keeps what its body keeps, however it ends. *)
Lemma wp_for_each {S A} (I : S → Prop) (l : list A) (body : A → M S unit) s :
  (∀ x s, I s → wp (body x) (λ _ s', I s') s) → I s → wp (for_each l body) (λ _ s', I s') s.
Proof.
  intros Hb. revert s. induction l as [|x l IH]; intros s Hs; cbn [for_each]; [by apply wp_ret|].
  apply wp_bind. eapply wp_mono; [by apply Hb|]. intros [] s' Hs'; cbn; [by apply IH|done..].
Qed.

(** One step of symbolic execution. *)
Ltac wp_step :=
  lazymatch goal with
  | |- wp (mbind _ _) _ _ => apply wp_bind
  | |- wp (mret _) _ _ => apply wp_ret
  | |- wp (gets _) _ _ => apply wp_gets
  | |- wp (modify _) _ _ => apply wp_modify
  | |- wp (throw _) _ _ => apply wp_throw
  | |- wp undefined _ _ => apply wp_undefined
  | |- wp (lift _) _ _ => apply wp_lift
  | |- wp (zoom _ _ _) _ _ => apply wp_zoom
  | |- wp (if ?b then _ else _) _ _ => let E := fresh "E" in destruct b eqn:E
  | |- wp (let '(_, _) := ?p in _) _ _ => let E := fresh "E" in destruct p eqn:E
  | |- keep_fault _ _ ?o =>
      lazymatch o with
      | Ok _ => cbn [keep_fault]
      | Throw _ => cbn [keep_fault]
      | UB => cbn [keep_fault]
      | _ => let E := fresh "E" in destruct o eqn:E; cbn [keep_fault]
      end
  end.
Ltac wp_steps := repeat (wp_step; cbn beta).

(** ** Arrays *)

(** A store [a[i] = v] and a load [a[i]]: outside the array both are undefined. *)
Definition array_set (a : bytes) (i : nat) (v : Z) : outcome bytes :=
  if decide (i < length a)%nat then Ok (<[i := v]> a) else UB.
Definition array_get (a : bytes) (i : nat) : outcome Z :=
  match a !! i with Some v => Ok v | None => UB end.

Lemma array_set_Ok a i v : (i < length a)%nat → array_set a i v = Ok (<[i := v]> a).
Proof. intros H. unfold array_set. by rewrite decide_True. Qed.
Lemma array_set_UB a i v : (length a <= i)%nat → array_set a i v = UB.
Proof. intros H. unfold array_set. rewrite decide_False; [done|lia]. Qed.

Lemma array_get_middle pre x post : array_get (pre ++ x :: post) (length pre) = Ok x.
Proof. unfold array_get. by rewrite list_lookup_middle. Qed.
Lemma array_get_middle_1 pre x y post :
  array_get (pre ++ x :: y :: post) (length pre + 1) = Ok y.
Proof.
  unfold array_get. rewrite lookup_app_r by lia.
  by replace (length pre + 1 - length pre)%nat with 1%nat by lia.
Qed.

(** [memcpy(dst, src, n)] of a whole source into the front of [dst]. *)
Definition memcpy (dst src : bytes) : bytes := src ++ drop (length src) dst.

Definition xor_bytes (a b : bytes) : bytes := zip_with Z.lxor a b.

Lemma xor_bytes_length a b : length a = length b → length (xor_bytes a b) = length a.
Proof. intros H. unfold xor_bytes. rewrite length_zip_with. lia. Qed.

Lemma xor_bytes_comm a b : xor_bytes a b = xor_bytes b a.
Proof.
  unfold xor_bytes. revert b. induction a as [|x a IH]; intros [|y b]; cbn; [done..|].
  by rewrite IH, Z.lxor_comm.
Qed.

Lemma xor_bytes_involutive a b : length a = length b → xor_bytes (xor_bytes a b) b = a.
Proof.
  unfold xor_bytes. revert b. induction a as [|x a IH]; intros [|y b] H; try done.
  cbn. rewrite IH by (simpl in H; lia).
  by rewrite Z.lxor_assoc, Z.lxor_nilpotent, Z.lxor_0_r.
Qed.

Lemma xor_bytes_cancel a b c :
  length a = length b → length c = length b → xor_bytes a b = c ↔ a = xor_bytes c b.
Proof. intros Ha Hc. split; [intros <-|intros ->]; by rewrite xor_bytes_involutive. Qed.

(** Induction two elements at a time. *)
Lemma list_pair_ind {A} (P : list A → Prop) :
  P [] → (∀ x, P [x]) → (∀ x y l, P l → P (x :: y :: l)) → ∀ l, P l.
Proof.
  intros H0 H1 H2 l.
  enough (P l ∧ ∀ x, P (x :: l)) as [? _] by done.
  induction l as [|y l [IH1 IH2]]; auto.
Qed.

(** ** Little-endian composition of bytes *)

Fixpoint le_value (l : bytes) : Z :=
  match l with [] => 0 | b :: l' => b + 256 * le_value l' end.
Fixpoint le_bytes (n : nat) (z : Z) : bytes :=
  match n with O => [] | S n' => z mod 256 :: le_bytes n' (z / 256) end.

Lemma le_bytes_length n z : length (le_bytes n z) = n.
Proof. revert z; induction n; intros; simpl; auto. Qed.

Lemma le_bytes_are_bytes n z : are_bytes (le_bytes n z).
Proof.
  revert z; induction n as [|n IH]; intros z; constructor; [|apply IH].
  apply Z.mod_pos_bound. lia.
Qed.

Lemma le_value_bound l : are_bytes l → 0 <= le_value l < 256 ^ Z.of_nat (length l).
Proof.
  induction 1 as [|b l Hb Hl IH]; [simpl; lia|].
  cbn [le_value length]. rewrite Nat2Z.inj_succ, Z.pow_succ_r by lia.
  unfold is_byte in Hb. nia.
Qed.

Lemma le_bytes_value l : are_bytes l → le_bytes (length l) (le_value l) = l.
Proof.
  induction 1 as [|b l Hb Hl IH]; [done|]. cbn [le_value length le_bytes].
  unfold is_byte in Hb. f_equal.
  - rewrite Z.mul_comm, Z_mod_plus_full. by apply Z.mod_small.
  - rewrite Z.mul_comm, Z.div_add by lia. rewrite Z.div_small by lia.
    by rewrite Z.add_0_l.
Qed.

Lemma le_value_bytes n z : le_value (le_bytes n z) = z mod 256 ^ Z.of_nat n.
Proof.
  revert z; induction n as [|n IH]; intros z; [simpl; by rewrite Z.mod_1_r|].
  cbn [le_bytes le_value]. rewrite IH, Nat2Z.inj_succ, Z.pow_succ_r by lia.
  by rewrite Z.rem_mul_r by lia.
Qed.

(** ** Characters and strings: the C view of a string is its byte array. *)

Definition chr (z : Z) : ascii := ascii_of_N (Z.to_N z).
Definition ord (c : ascii) : Z := Z.of_N (Ascii.N_of_ascii c).

Fixpoint bytes_of_string (s : string) : bytes :=
  match s with
  | EmptyString => []
  | String c s' => ord c :: bytes_of_string s'
  end.
Fixpoint string_of_bytes (l : bytes) : string :=
  match l with
  | [] => EmptyString
  | b :: l' => String (chr b) (string_of_bytes l')
  end.

Lemma ord_chr z : is_byte z → ord (chr z) = z.
Proof.
  intros [H1 H2]. unfold ord, chr.
  rewrite Ascii.N_ascii_embedding by lia. lia.
Qed.
Lemma chr_ord c : chr (ord c) = c.
Proof. unfold ord, chr. rewrite N2Z.id. apply Ascii.ascii_N_embedding. Qed.
Lemma ord_byte c : is_byte (ord c).
Proof.
  unfold ord, is_byte. pose proof (Ascii.N_ascii_bounded c). lia.
Qed.
Lemma bytes_of_string_of_bytes l :
  are_bytes l → bytes_of_string (string_of_bytes l) = l.
Proof. induction 1; simpl; [done|]. rewrite ord_chr by done. congruence. Qed.
Lemma string_of_bytes_of_string s : string_of_bytes (bytes_of_string s) = s.
Proof. induction s; simpl; [done|]. rewrite chr_ord. congruence. Qed.
Lemma bytes_of_string_are_bytes s : are_bytes (bytes_of_string s).
Proof. induction s; constructor; auto using ord_byte. Qed.
Lemma bytes_of_string_length s : length (bytes_of_string s) = String.length s.
Proof. induction s; simpl; auto. Qed.

(** The C view of a [std::string]: [c_str()] read up to its first NUL. *)
Fixpoint upto_nul (s : string) : string :=
  match s with
  | EmptyString => EmptyString
  | String c s' => if Ascii.eqb c Ascii.zero then EmptyString else String c (upto_nul s')
  end.

(** [ss << n] for an integer. *)
Definition dec (z : Z) : string := pretty z.

(** A relation whose steps decrease a measure has no infinite run. *)
Lemma measure_Acc {A} (R : relation A) (measure : A → nat) :
  (∀ x y, R x y → (measure y < measure x)%nat) → ∀ x, Acc (flip R) x.
Proof.
  intros HR. enough (∀ n x, (measure x < n)%nat → Acc (flip R) x) as H by eauto.
  induction n as [|n IH]; intros x Hx; [lia|]. constructor. intros y Hy. apply IH.
  apply HR in Hy. lia.
Qed.

(** The lexicographic order of two orders. *)
Definition lex {A B} (R1 : relation A) (R2 : relation B) : relation (A * B) := λ x y,
  R1 x.1 y.1 ∨ (x.1 = y.1 ∧ R2 x.2 y.2).

Lemma lex_wf {A B} (R1 : relation A) (R2 : relation B) : well_founded R1 → well_founded R2 → well_founded (lex R1 R2).
Proof.
  intros H1 H2 [a b]. revert b. induction (H1 a) as [a _ IHa]. intros b.
  induction (H2 b) as [b _ IHb]. constructor. intros [a' b'] [Ha|[Ha Hb]]; cbn in *.
  - by apply IHa.
  - subst. by apply IHb.
Qed.

(** So has none one whose steps decrease a measure in a well-founded order. *)
Lemma wf_measure_Acc {A B} (R : relation A) (RB : relation B) (measure : A → B) :
  well_founded RB → (∀ x y, R x y → RB (measure y) (measure x)) → ∀ x, Acc (flip R) x.
Proof.
  intros Hwf HR x. remember (measure x) as b eqn:E. revert x E.
  induction (Hwf b) as [b _ IH]. intros x ->. constructor. intros y Hy.
  by eapply IH; [apply HR, Hy|].
Qed.

(** What every step preserves holds of every reachable state. *)
Lemma rtc_preserves {A} (R : relation A) (P : A → Prop) x y :
  (∀ a b, R a b → P a → P b) → rtc R x y → P x → P y.
Proof. intros HR. induction 1; eauto. Qed.

(** ** Automation *)

Create HintDb hss.
Create Rewrite HintDb hss_rw.
#[export] Hint Resolve le_bytes_are_bytes bytes_of_string_are_bytes ord_byte : hss.
#[export] Hint Rewrite le_bytes_length bytes_of_string_length
  string_of_bytes_of_string chr_ord : hss_rw.

(** Splits every [if] and [match] on a boolean or decision in the goal. *)
Ltac split_ifs :=
  repeat match goal with
  | |- context [if ?b then _ else _] => let E := fresh "E" in destruct b eqn:E
  | |- context [match ?x with Some _ => _ | None => _ end] =>
      let E := fresh "E" in destruct x eqn:E
  end.

Lemma truth_true z : truth z = true ↔ z ≠ 0.
Proof. unfold truth. rewrite negb_true_iff, Z.eqb_neq. done. Qed.
Lemma truth_false z : truth z = false ↔ z = 0.
Proof. unfold truth. rewrite negb_false_iff, Z.eqb_eq. done. Qed.

Lemma u32_range z : 0 <= u32 z < 2 ^ 32.
Proof. apply Z.mod_pos_bound. lia. Qed.
Lemma u64_range z : 0 <= u64 z < 2 ^ 64.
Proof. apply Z.mod_pos_bound. lia. Qed.
Lemma u32_small z : 0 <= z < 2 ^ 32 → u32 z = z.
Proof. apply Z.mod_small. Qed.
Lemma u64_small z : 0 <= z < 2 ^ 64 → u64 z = z.
Proof. apply Z.mod_small. Qed.
#[export] Hint Resolve u32_range u64_range : hss.
