(* ===== verification/Cxx.v ===== *)
(** * The C++ library, as far as the program uses it

    Numbers in text, NUL-terminated arrays, [std::getline] on a string stream,
    [std::list::sort]; and loops that carry a value. *)

From Stdlib Require Import Sorted.
From S2P Require Import Prelude.
#[local] Open Scope Z_scope.

(** ** Numbers in text *)

Definition isspace (c : Z) : bool := (c =? 32) || ((9 <=? c) && (c <=? 13)).
Definition isdigit (c : Z) : bool := (48 <=? c) && (c <=? 57).
Fixpoint skip_spaces (s : bytes) : bytes :=
  match s with c :: s' => if isspace c then skip_spaces s' else s | [] => [] end.
Fixpoint digits_value (s : bytes) (acc : Z) : Z :=
  match s with
  | c :: s' => if isdigit c then digits_value s' (acc * 10 + (c - 48)) else acc
  | [] => acc
  end.

(** Spaces, a sign, and what is left. *)
Definition signed (s : bytes) : bool * bytes :=
  match skip_spaces s with
  | c :: s' => if c =? 45 then (true, s') else if c =? 43 then (false, s') else (false, c :: s')
  | [] => (false, [])
  end.

(** [std::stoll] in base ten: throws without a digit and out of range. *)
Definition stoll (s : bytes) : outcome Z :=
  let '(neg, s) := signed s in
  match s with
  | c :: _ =>
      if isdigit c then
        let v := if (neg : bool) then - digits_value s 0 else digits_value s 0 in
        if (- 2 ^ 63 <=? v) && (v <? 2 ^ 63) then Ok v else Throw StdException
      else Throw StdException
  | [] => Throw StdException
  end.

(** [atoi]: 0 without a digit, undefined out of range. *)
Definition atoi (s : bytes) : outcome Z :=
  let '(neg, s) := signed s in
  let v := if (neg : bool) then - digits_value s 0 else digits_value s 0 in
  if (- 2 ^ 31 <=? v) && (v <? 2 ^ 31) then Ok v else UB.
(** [atol] *)
Definition atol (s : bytes) : outcome Z :=
  let '(neg, s) := signed s in
  let v := if (neg : bool) then - digits_value s 0 else digits_value s 0 in
  if (- 2 ^ 63 <=? v) && (v <? 2 ^ 63) then Ok v else UB.

(** A [char] array as a string: undefined without a NUL. *)
Fixpoint c_string (buf : bytes) : outcome bytes :=
  match buf with
  | [] => UB
  | c :: buf' => if c =? 0 then mret [] else s ← c_string buf'; mret (c :: s)
  end.

(** ** Loops that carry a value *)

Fixpoint fold_each {S A B} (l : list A) (body : B → A → M S B) (b : B) : M S B :=
  match l with
  | [] => mret b
  | x :: l' => b ← body b x; fold_each l' body b
  end.

Lemma wp_fold_each {S A B} (I : list A → B → S → Prop) (l : list A) (body : B → A → M S B) b s
    (Q : outcome B → S → Prop) :
  I l b s →
  (∀ x l' b s, I (x :: l') b s → wp (body b x)
     (λ o s', match o with Ok b' => I l' b' s' | Throw e => Q (Throw e) s' | UB => Q UB s' end) s) →
  (∀ b s, I [] b s → Q (Ok b) s) →
  wp (fold_each l body b) Q s.
Proof.
  intros HI Hbody Hend. revert b s HI. induction l as [|x l IH]; intros b s HI; [by apply Hend|].
  cbn [fold_each]. apply wp_bind. eapply wp_mono; [by apply Hbody|].
  intros [b'| |] s'; cbn; [apply IH|done..].
Qed.

(** ** Characters a text does not have *)

Fixpoint without (d : ascii) (s : string) : Prop :=
  match s with EmptyString => True | String c s' => c ≠ d ∧ without d s' end.
#[export] Instance without_dec d s : Decision (without d s).
Proof. induction s; cbn; apply _. Defined.

Lemma without_app d a b : without d (a +:+ b) ↔ without d a ∧ without d b.
Proof.
  induction a as [|c a IH]; [cbn; tauto|]. change (String c a +:+ b) with (String c (a +:+ b)).
  cbn [without]. rewrite IH. tauto.
Qed.

Lemma upto_nul_without s : without Ascii.zero s → upto_nul s = s.
Proof.
  induction s as [|c s IH]; cbn; [done|]. intros [Hc H]. rewrite (proj2 (Ascii.eqb_neq _ _) Hc). by rewrite IH.
Qed.

(** ** Decimal text *)

Lemma pretty_N_char_digit n : (n < 10)%N → ord (pretty_N_char n) = 48 + Z.of_N n.
Proof.
  intros H. assert (n = 0 ∨ n = 1 ∨ n = 2 ∨ n = 3 ∨ n = 4 ∨ n = 5 ∨ n = 6 ∨ n = 7 ∨ n = 8 ∨ n = 9)%N as Hn
    by lia. by repeat destruct Hn as [->|Hn]; subst.
Qed.

Lemma pretty_N_go_value n s : digits_value (bytes_of_string (pretty_N_go n s)) 0 =
  digits_value (bytes_of_string s) (Z.of_N n).
Proof.
  revert s. induction (N.lt_wf_0 n) as [n _ IH]; intros s.
  destruct (decide (n = 0%N)) as [->|Hn]; [by rewrite pretty_N_go_0|].
  rewrite pretty_N_go_step, IH by (try apply N.div_lt; lia). cbn [bytes_of_string digits_value].
  pose proof (N.mod_lt n 10 ltac:(lia)). rewrite pretty_N_char_digit by done.
  pose proof (N.div_mod n 10 ltac:(lia)) as Hdm. revert H Hdm.
  generalize (n `div` 10)%N (n `mod` 10)%N. clear. intros q m H Hdm.
  replace (isdigit (48 + Z.of_N m)) with true by (unfold isdigit; lia). f_equal. lia.
Qed.

Lemma pretty_N_go_Forall (P : ascii → Prop) n s : (∀ m, (m < 10)%N → P (pretty_N_char m)) →
  Forall P (String.list_ascii_of_string s) → Forall P (String.list_ascii_of_string (pretty_N_go n s)).
Proof.
  intros HP. revert s. induction (N.lt_wf_0 n) as [n _ IH]; intros s Hs.
  destruct (decide (n = 0%N)) as [->|Hn]; [by rewrite pretty_N_go_0|].
  rewrite pretty_N_go_step by lia. apply IH; [apply N.div_lt; lia|].
  constructor; [apply HP, N.mod_lt; lia|done].
Qed.

(** [dec] of a number is its digits, and reading them gives it back. *)
Lemma dec_value z : 0 <= z → digits_value (bytes_of_string (dec z)) 0 = z.
Proof. intros H. destruct z as [|p|p]; [done| |lia]. exact (pretty_N_go_value (N.pos p) ""). Qed.

Lemma dec_Forall (P : ascii → Prop) z : (∀ m, (m < 10)%N → P (pretty_N_char m)) → 0 <= z →
  Forall P (String.list_ascii_of_string (dec z)).
Proof.
  intros HP H. destruct z as [|p|p]; [|by apply (pretty_N_go_Forall P (N.pos p) "")|lia].
  repeat constructor. exact (HP 0%N ltac:(lia)).
Qed.

Lemma without_Forall d s : without d s ↔ Forall (λ c, c ≠ d) (String.list_ascii_of_string s).
Proof. induction s as [|c s IH]; cbn; [split; [constructor|done]|]. by rewrite Forall_cons, IH. Qed.

Lemma dec_without d z : ¬ (48 <= ord d <= 57) → 0 <= z → without d (dec z).
Proof.
  intros Hd Hz. apply without_Forall, dec_Forall; [|done]. intros m Hm <-.
  rewrite pretty_N_char_digit in Hd by done. lia.
Qed.

Lemma dec_head z : 0 <= z → ∃ c l, bytes_of_string (dec z) = c :: l ∧ isdigit c = true.
Proof.
  intros Hz. assert (Forall (λ c, isdigit (ord c) = true) (String.list_ascii_of_string (dec z))) as H.
  { apply dec_Forall; [|done]. intros m Hm. rewrite pretty_N_char_digit by done. unfold isdigit. lia. }
  destruct (dec z) as [|c l] eqn:E; [|eexists _, _; split; [done|by inversion H]].
  exfalso. pose proof (dec_value z Hz) as V. rewrite E in V. cbn in V. by subst.
Qed.

Lemma atoi_dec z : 0 <= z < 2 ^ 31 → atoi (bytes_of_string (dec z)) = Ok z.
Proof.
  intros Hz. destruct (dec_head z) as (c & l & Hc & Hd); [lia|]. unfold atoi, signed.
  assert (skip_spaces (bytes_of_string (dec z)) = c :: l) as ->.
  { rewrite Hc. cbn. by replace (isspace c) with false by (unfold isspace, isdigit in *; lia). }
  replace (c =? 45) with false by (unfold isdigit in *; lia).
  replace (c =? 43) with false by (unfold isdigit in *; lia).
  rewrite <- Hc, dec_value by lia. by replace ((- 2 ^ 31 <=? z) && (z <? 2 ^ 31)) with true by lia.
Qed.

(** ** [std::getline] on an [std::istringstream]

    Once the end has been reached the stream is no longer good, and every further
    call fails; a call that finds nothing but the end fails as well. *)
Record stream := mk_stream { rest : string; good : bool }.
Definition istringstream (s : string) : stream := mk_stream s true.

(** The characters before the first [d], and those after it if there is one. *)
Fixpoint span (d : ascii) (s : string) : string * option string :=
  match s with
  | EmptyString => (EmptyString, None)
  | String c s' => if Ascii.eqb c d then (EmptyString, Some s')
                   else let '(a, r) := span d s' in (String c a, r)
  end.

(** [getline(ss, arg, d)]: whether it succeeded, and [arg]. *)
Definition getline (d : ascii) (ss : stream) (arg : string) : bool * string * stream :=
  if negb (good ss) then (false, arg, ss)
  else match span d (rest ss) with
       | (a, Some r) => (true, a, mk_stream r true)
       | (a, None) => (match a with EmptyString => false | _ => true end, a, mk_stream EmptyString false)
       end.

(** [while (getline(ss, arg, d))]: what [arg] is turn after turn. *)
Fixpoint getlines_fuel (fuel : nat) (d : ascii) (ss : stream) : list string :=
  match fuel with
  | O => []
  | S fuel' =>
      let '(ok, arg, ss') := getline d ss EmptyString in
      if (ok : bool) then arg :: getlines_fuel fuel' d ss' else []
  end.
(** Every turn but the last consumes a character. *)
Definition getlines (d : ascii) (ss : stream) : list string :=
  getlines_fuel (S (String.length (rest ss))) d ss.

Lemma span_length d s a r : span d s = (a, Some r) →
  (String.length s = String.length a + S (String.length r))%nat.
Proof.
  revert a. induction s as [|c s IH]; intros a; [done|]. cbn. case_match; [by intros [= <- <-]|].
  destruct (span d s) as [a' r'] eqn:E. intros [= <- ->]. cbn. rewrite (IH a' eq_refl). lia.
Qed.

Lemma getlines_fuel_enough fuel d ss : (String.length (rest ss) < fuel)%nat →
  getlines_fuel fuel d ss = getlines d ss.
Proof.
  unfold getlines. enough (∀ k k' ss, (String.length (rest ss) < k)%nat →
    (String.length (rest ss) < k')%nat →
    getlines_fuel k d ss = getlines_fuel k' d ss) by (intros; auto with lia).
  induction k as [|k IH]; intros [|k'] ss' Hk Hk'; [lia..|]. cbn [getlines_fuel].
  unfold getline. destruct (good ss') eqn:G; [|done]. cbn [negb].
  destruct (span d (rest ss')) as [a [r|]] eqn:E.
  - apply span_length in E. f_equal. apply IH; cbn; lia.
  - destruct a as [|c a]; [done|]. f_equal. destruct k, k'; done.
Qed.

Lemma getlines_end d s : getlines d (mk_stream s false) = [].
Proof. done. Qed.

Lemma span_at d a r : without d a → span d (a +:+ String d r) = (a, Some r).
Proof.
  induction a as [|c a IH]; intros H.
  { change (EmptyString +:+ String d r) with (String d r). cbn [span]. by rewrite Ascii.eqb_refl. }
  destruct H as [Hc H].
  change (String c a +:+ String d r) with (String c (a +:+ String d r)). cbn [span].
  rewrite (proj2 (Ascii.eqb_neq c d)) by done. by rewrite IH.
Qed.
Lemma span_end d a : without d a → span d a = (a, None).
Proof.
  induction a as [|c a IH]; [done|]. intros [Hc H]. cbn [span].
  rewrite (proj2 (Ascii.eqb_neq c d)) by done. by rewrite IH.
Qed.

Lemma getline_at d a r arg : without d a →
  getline d (istringstream (a +:+ String d r)) arg = (true, a, istringstream r).
Proof. intros H. unfold getline, istringstream. cbn [good negb rest]. by rewrite span_at. Qed.
Lemma getline_end d a arg : without d a → a ≠ EmptyString →
  getline d (istringstream a) arg = (true, a, mk_stream EmptyString false).
Proof. intros H Ha. unfold getline, istringstream. cbn [good negb rest]. rewrite span_end by done. by destruct a. Qed.

(** Text put together with a delimiter is taken apart again. *)
Fixpoint join (d : ascii) (l : list string) : string :=
  match l with [] => EmptyString | [a] => a | a :: l' => a +:+ String d (join d l') end.

Lemma getlines_step d ss : getlines d ss =
  let '(ok, arg, ss') := getline d ss EmptyString in
  if (ok : bool) then arg :: getlines d ss' else [].
Proof.
  unfold getlines at 1. cbn [getlines_fuel]. destruct (getline d ss EmptyString) as [[ok arg] ss0] eqn:E.
  destruct ok; [|done].
  f_equal. unfold getline in E. destruct (good ss); cbn [negb] in E; [|done].
  destruct (span d (rest ss)) as [a [r|]] eqn:Es; simplify_eq.
  - apply span_length in Es. apply getlines_fuel_enough. cbn. lia.
  - by destruct (String.length (rest ss)).
Qed.

Lemma getlines_join d l : Forall (without d) l → last l ≠ Some EmptyString →
  getlines d (istringstream (join d l)) = l.
Proof.
  induction 1 as [|a l Ha Hl IH]; intros Hlast; [done|]. rewrite getlines_step. destruct l as [|b l].
  - cbn [join]. rewrite getline_end; [done|done|]. intros ->. by apply Hlast.
  - change (join d (a :: b :: l)) with (a +:+ String d (join d (b :: l))).
    rewrite getline_at by done. f_equal. by apply IH.
Qed.

Lemma join_cons d a l : l ≠ [] → join d (a :: l) = a +:+ String d (join d l).
Proof. by destruct l. Qed.

Lemma append_assoc a b c : (a +:+ b) +:+ c = a +:+ (b +:+ c).
Proof. induction a as [|x a IH]; [done|]. exact (f_equal (String x) IH). Qed.

Lemma join_app d l l' : l ≠ [] → l' ≠ [] → join d (l ++ l') = join d l +:+ String d (join d l').
Proof.
  intros Hl Hl'. induction l as [|a l IH]; [done|].
  destruct l as [|b l]; [exact (join_cons d a l' Hl')|].
  change ((a :: b :: l) ++ l') with (a :: ((b :: l) ++ l')).
  rewrite !join_cons by done. by rewrite IH, append_assoc.
Qed.

Lemma without_join c d l : c ≠ d → Forall (without c) l → without c (join d l).
Proof.
  intros Hc. induction 1 as [|a l Ha Hl IH]; [done|]. destruct l as [|b l]; [done|].
  rewrite join_cons by done. apply without_app. split; [done|]. by split.
Qed.
Lemma join_nonempty d a l : a ≠ EmptyString → join d (a :: l) ≠ EmptyString.
Proof. intros Ha. destruct l as [|b l]; [done|]. rewrite join_cons by done. by destruct a. Qed.

(** ** [std::list::sort]: stable *)

Section Sort.
Context {A : Type} (less : A → A → bool).

Fixpoint insert_sorted (x : A) (l : list A) : list A :=
  match l with
  | [] => [x]
  | y :: l' => if less x y then x :: l else y :: insert_sorted x l'
  end.
Definition list_sort (l : list A) : list A := foldl (λ l x, insert_sorted x l) [] l.

Lemma insert_sorted_perm x l : insert_sorted x l ≡ₚ x :: l.
Proof.
  induction l as [|y l IH]; [done|]. cbn. case_match; [done|]. rewrite IH. apply Permutation_swap.
Qed.

Lemma list_sort_perm l : list_sort l ≡ₚ l.
Proof.
  unfold list_sort. enough (∀ acc, foldl (λ l x, insert_sorted x l) acc l ≡ₚ acc ++ l) as H by apply H.
  induction l as [|x l IH]; intros acc; cbn; [by rewrite app_nil_r|].
  rewrite IH, insert_sorted_perm. apply Permutation_middle.
Qed.

(** Nothing that comes later is less, for an order that ranks by a key. *)
Definition ordered : list A → Prop := StronglySorted (λ x y, less y x = false).

Hypothesis less_trans : ∀ x y z, less x y = true → less z y = false → less z x = false.
Hypothesis less_asym : ∀ x y, less x y = true → less y x = false.

Lemma insert_sorted_ordered x l : ordered l → ordered (insert_sorted x l).
Proof using less_trans less_asym.
  induction 1 as [|y l Hl IH Hy]; cbn; [repeat constructor|]. destruct (less x y) eqn:E.
  - constructor; [by constructor|]. constructor; [by apply less_asym|].
    eapply Forall_impl; [exact Hy|]. intros z Hz. by eapply less_trans.
  - constructor; [done|]. rewrite insert_sorted_perm. by constructor.
Qed.

Lemma list_sort_ordered l : ordered (list_sort l).
Proof using less_trans less_asym.
  unfold list_sort. enough (∀ acc, ordered acc → ordered (foldl (λ l x, insert_sorted x l) acc l)) as H
    by (apply H; constructor).
  induction l as [|x l IH]; intros acc H; [done|]. cbn. by apply IH, insert_sorted_ordered.
Qed.
End Sort.

(** Ranking by a list of numbers, the first ones first. *)
Fixpoint lex_less (a b : list Z) : bool :=
  match a, b with
  | x :: a', y :: b' => if x <? y then true else if y <? x then false else lex_less a' b'
  | _, _ => false
  end.

Lemma lex_less_asym a b : lex_less a b = true → lex_less b a = false.
Proof.
  revert b. induction a as [|x a IH]; intros [|y b]; cbn; [done..|].
  destruct (Z.ltb_spec x y), (Z.ltb_spec y x); try lia; auto.
Qed.
Lemma lex_less_trans a b c : length a = length b → length b = length c →
  lex_less a b = true → lex_less c b = false → lex_less c a = false.
Proof.
  revert b c. induction a as [|x a IH]; intros [|y b] [|z c]; cbn; try done. intros [= H1] [= H2].
  destruct (Z.ltb_spec x y), (Z.ltb_spec y x), (Z.ltb_spec z y), (Z.ltb_spec y z),
    (Z.ltb_spec z x), (Z.ltb_spec x z); try lia; try done; eauto.
Qed.

(** Sorting by rank: nothing later ranks lower. *)
Definition ranked {A} (rank : A → list Z) : list A → Prop :=
  StronglySorted (λ x y, lex_less (rank y) (rank x) = false).

Lemma list_sort_ranked {A} (less : A → A → bool) (rank : A → list Z) k l :
  (∀ x y, less x y = lex_less (rank x) (rank y)) → (∀ x, length (rank x) = k) →
  ranked rank (list_sort less l).
Proof.
  intros Hless Hk. assert (ordered less (list_sort less l)) as H.
  { apply list_sort_ordered.
    - intros x y z. rewrite !Hless. apply lex_less_trans; by rewrite !Hk.
    - intros x y. rewrite !Hless. apply lex_less_asym. }
  unfold ranked. unfold ordered in H. clear Hk. induction H; constructor; [done|].
  eapply Forall_impl; [done|]. intros y Hy. by rewrite <- Hless.
Qed.

(** ** Loops that may fail, over a value *)

Fixpoint foldM {A B} (f : B → A → outcome B) (b : B) (l : list A) : outcome B :=
  match l with [] => Ok b | x :: l' => b ← f b x; foldM f b l' end.

Lemma foldM_fmap {A B C} (f : B → C → outcome B) (g : A → C) b l :
  foldM f b (g <$> l) = foldM (λ b x, f b (g x)) b l.
Proof. revert b. induction l as [|x l IH]; intros b; [done|]. cbn. destruct (f b (g x)); cbn; auto. Qed.

(** A loop that appends a result for some of its items. *)
Lemma foldM_results {A B R} (f : B → A → outcome B) (res : B → list R) (keep : A → bool)
    (rel : A → R → Prop) (I : B → Prop) l b :
  (∀ b x, x ∈ l → I b → ∃ b', f b x = Ok b' ∧ I b' ∧
     if keep x then ∃ y, rel x y ∧ res b' = res b ++ [y] else res b' = res b) →
  I b → ∃ b' new, foldM f b l = Ok b' ∧ I b' ∧ res b' = res b ++ new ∧
    Forall2 rel (List.filter keep l) new.
Proof.
  revert b. induction l as [|x l IH]; intros b Hf Hb.
  { exists b, []. split_and!; [done|done|by rewrite app_nil_r|constructor]. }
  destruct (Hf b x ltac:(left) Hb) as (b1 & Hb1 & HI1 & Hx).
  destruct (IH b1 ltac:(intros; apply Hf; [by right|done]) HI1) as (b' & new & Hl & HI' & Hres & Hrel).
  cbn [foldM List.filter]. rewrite Hb1. cbn. rewrite Hl. destruct (keep x).
  - destruct Hx as (y & Hy & Hres1). exists b', (y :: new). split_and!; [done|done| |by constructor].
    by rewrite Hres, Hres1, <- (assoc_L (++)).
  - exists b', new. split_and!; [done|done|by rewrite Hres, Hx|done].
Qed.
