(* ===== verification/Files.v ===== *)
(** * Strings, file names and directories

    Models util/src/sutility.cpp, util/src/spath.cpp with util/include/spath.h,
    and util/src/sdir.cpp with util/include/sdir.h.  A C string is the list of its
    characters before the NUL, as [unsigned char]s; a pointer into it is what is
    left of it, or an index.  The directory is what [opendir] and [readdir_r] give
    of it. *)

From S2P Require Import Prelude.
From S2P Require Import Cxx.
#[local] Open Scope Z_scope.

(** ** [SDirectory]: file masks *)

Module SDirectory.

Definition star : Z := 42.
Definition question : Z := 63.

(** *** [setFilemask] *)

(** The loop from index [i] on; [pLastAsterisk] as an index. *)
Fixpoint setFilemask_loop (pMask : bytes) (i : nat) (pLastAsterisk : option nat) (m_filemask : bytes) : bytes :=
  match pMask with
  | [] => m_filemask
  | c :: p =>
      if c =? star then
        let m := match pLastAsterisk with
                 | None => m_filemask ++ [c]
                 | Some j => if negb (S j =? i)%nat then m_filemask ++ [c] else m_filemask
                 end in
        setFilemask_loop p (S i) (Some i) m
      else setFilemask_loop p (S i) pLastAsterisk (m_filemask ++ [c])
  end.
Definition setFilemask (filemask : bytes) : bytes := setFilemask_loop filemask 0 None [].

(** *** [match] *)

(** The table of upper-case letters; [char] is signed, so that an index from 128 on
    is negative and outside it. *)
Definition m_table : bytes :=
  (λ i, if (97 <=? i) && (i <=? 122) then 65 + i - 97 else i) <$> (Z.of_nat <$> seq 0 256).
Definition table_at (c : Z) : outcome Z := if c <? 128 then array_get m_table (Z.to_nat c) else UB.

(** [MATCH(a, b, ignoreCase)] *)
Definition MATCH (a b : Z) (ignoreCase : bool) : outcome bool :=
  if ignoreCase then x ← table_at a; y ← table_at b; Ok (x =? y) else Ok (a =? b).

(** [*p] *)
Definition deref (p : bytes) : Z := match p with c :: _ => c | [] => 0 end.

(** Whether the mask's character is a question mark or matches. *)
Definition fits (c m : Z) (ignoreCase : bool) : outcome bool :=
  if m =? question then Ok true else MATCH c m ignoreCase.

(** The first loop: [None] when [match] returns false there, else where [str] and
    [mask] are. *)
Fixpoint match_prefix (str mask : bytes) (ignoreCase : bool) : outcome (option (bytes * bytes)) :=
  match str with
  | [] => Ok (Some (str, mask))
  | c :: str' =>
      if deref mask =? star then Ok (Some (str, mask))
      else
        b ← fits c (deref mask) ignoreCase;
        if negb b then Ok None
        else match_prefix str' (tail mask) ignoreCase
  end.

(** The second loop's variables; [mp] and [sp] are null until the first ['*']. *)
Record scan := mk { str : bytes; mask : bytes; mp : option bytes; sp : option bytes }.

(** One turn, when [*str] is not the NUL: the answer, or the variables.  A null
    [mask] would be read at the next turn. *)
Definition turn (ignoreCase : bool) (s : scan) : outcome (bool + scan) :=
  match mask s with
  | m :: mask' =>
      if m =? star then
        match mask' with
        | [] => Ok (inl true)
        | _ => Ok (inr (s <| mask := mask' |> <| mp := Some mask' |> <| sp := Some (tail (str s)) |>))
        end
      else
        b ← fits (deref (str s)) m ignoreCase;
        if (b : bool) then Ok (inr (s <| str := tail (str s) |> <| mask := mask' |>))
        else match mp s, sp s with
             | Some p, Some q => Ok (inr (s <| mask := p |> <| str := q |> <| sp := Some (tail q) |>))
             | _, _ => UB
             end
  | [] =>
      b ← fits (deref (str s)) 0 ignoreCase;
      if (b : bool) then UB
      else match mp s, sp s with
           | Some p, Some q => Ok (inr (s <| mask := p |> <| str := q |> <| sp := Some (tail q) |>))
           | _, _ => UB
           end
  end.

(** The last loop skips asterisks; the answer is whether nothing else is left. *)
Fixpoint only_stars (mask : bytes) : bool :=
  match mask with [] => true | m :: l => if m =? star then only_stars l else false end.

Fixpoint match_scan (fuel : nat) (ignoreCase : bool) (s : scan) : option (outcome bool) :=
  match str s with
  | [] => Some (Ok (only_stars (mask s)))
  | _ =>
      match fuel with
      | O => None
      | S n =>
          match turn ignoreCase s with
          | Ok (inl b) => Some (Ok b)
          | Ok (inr s') => match_scan n ignoreCase s'
          | Throw e => Some (Throw e)
          | UB => Some UB
          end
      end
  end.

(** [match]: [None] only without enough fuel. *)
Definition match_fuel (fuel : nat) (str mask : bytes) (ignoreCase : bool) : option (outcome bool) :=
  match match_prefix str mask ignoreCase with
  | Ok None => Some (Ok false)
  | Ok (Some (str', mask')) => match_scan fuel ignoreCase (mk str' mask' None None)
  | Throw e => Some (Throw e)
  | UB => Some UB
  end.

(** The turns the second loop can take, as [match_total] shows. *)
Definition turns (str mask : bytes) : nat :=
  S (S (length str) * S (length str + length mask) + length str + length mask).
Definition match_ (str mask : bytes) (ignoreCase : bool) : outcome bool :=
  match match_fuel (turns str mask) str mask ignoreCase with Some r => r | None => UB end.

(** *** What a mask means *)

Section Meaning.
Context (same : Z → Z → bool).

(** A ['*'] stands for any characters, a ['?'] for any one, another character for
    itself. *)
Inductive wild : bytes → bytes → Prop :=
  | wild_end : wild [] []
  | wild_one m c mask str :
      m ≠ star → (m = question ∨ same c m = true) → wild mask str → wild (m :: mask) (c :: str)
  | wild_skip mask str : wild mask str → wild (star :: mask) str
  | wild_take c mask str : wild (star :: mask) str → wild (star :: mask) (c :: str).

Lemma wild_star mask str : wild (star :: mask) str ↔ ∃ a b, str = a ++ b ∧ wild mask b.
Proof.
  split.
  - intros H. remember (star :: mask) as m eqn:E. induction H as [|m c mask' str' Hm _ _ _|mask' str' H _|c mask' str' H IH];
      simplify_eq.
    + exists [], str'. auto.
    + destruct (IH eq_refl) as (a&b&->&?). by exists (c :: a), b.
  - intros (a&b&->&H). induction a as [|c a IH]; [by apply wild_skip|by apply wild_take].
Qed.

Lemma wild_star_app mask a b : wild (star :: mask) b → wild (star :: mask) (a ++ b).
Proof. rewrite !wild_star. intros (x&y&->&?). exists (a ++ x), y. by rewrite (assoc_L (++)). Qed.

Lemma wild_star_cons mask c str : wild (star :: mask) (c :: str) ↔ wild mask (c :: str) ∨ wild (star :: mask) str.
Proof.
  split; [|by intros [?|?]; [apply wild_skip|apply wild_take]].
  rewrite !wild_star. intros (a&b&E&H). destruct a as [|x a]; simplify_eq/=; [by left|right; by exists a, b].
Qed.

Lemma wild_cons m c mask str :
  m ≠ star → wild (m :: mask) (c :: str) ↔ (m = question ∨ same c m = true) ∧ wild mask str.
Proof. intros Hm. split; [intros H; inversion H; simplify_eq; auto|intros [??]; by constructor]. Qed.

Lemma wild_nil_r mask : wild mask [] ↔ only_stars mask = true.
Proof.
  induction mask as [|m mask IH]; cbn; [split; [done|constructor]|].
  destruct (Z.eqb_spec m star) as [->|Hm].
  - rewrite <-IH, wild_star. split; [by intros ([]&[]&?&?)|]. intros H. by exists [], [].
  - split; [|done]. intros H. inversion H; simplify_eq.
Qed.

Lemma wild_nil_l str : wild [] str ↔ str = [].
Proof. split; [intros H; by inversion H|intros ->; constructor]. Qed.

(** Characters that are no ['*'] stand for as many characters. *)
Lemma wild_app seg mask str :
  Forall (λ m, m ≠ star) seg → wild (seg ++ mask) str →
  ∃ a b, str = a ++ b ∧ length a = length seg ∧ wild mask b.
Proof.
  revert str. induction seg as [|m seg IH]; intros str Hs H; [by exists [], str|].
  apply Forall_cons in Hs as [Hm Hs]. cbn in H. inversion H as [|m' c k str' ? ? Hw| |]; simplify_eq.
  destruct (IH str' Hs Hw) as (a&b&->&Hl&?). exists (c :: a), b. cbn. by rewrite Hl.
Qed.
End Meaning.

(** *** [match] decides what the mask means *)

Definition upper (c : Z) : Z := if (97 <=? c) && (c <=? 122) then 65 + c - 97 else c.
Definition same (ignoreCase : bool) (a b : Z) : bool :=
  if ignoreCase then upper a =? upper b else a =? b.
(** What [match] may be given: without case, letters the table has. *)
Definition text (ignoreCase : bool) (s : bytes) : Prop :=
  Forall (λ c, 0 < c < if ignoreCase then 128 else 256) s.

Lemma table_at_upper c : 0 <= c < 128 → table_at c = Ok (upper c).
Proof.
  intros Hc. unfold table_at, array_get, m_table. rewrite (proj2 (Z.ltb_lt _ _)) by lia.
  rewrite !list_lookup_fmap, lookup_seq_lt by lia. cbn -[Z.of_nat]. by rewrite Z2Nat.id by lia.
Qed.

Lemma fits_text (ic : bool) c m :
  0 < c < (if ic then 128 else 256) → 0 <= m < (if ic then 128 else 256) →
  fits c m ic = Ok ((m =? question) || same ic c m).
Proof.
  intros Hc Hm. unfold fits, MATCH, same. destruct (m =? question); [done|].
  destruct ic; [|done]. rewrite !table_at_upper by lia. done.
Qed.

Lemma fits_end (ic : bool) c : 0 < c < (if ic then 128 else 256) → fits c 0 ic = Ok false.
Proof.
  intros Hc. rewrite fits_text by (destruct ic; lia). cbn. unfold same, upper.
  destruct ic; [|f_equal; lia]. f_equal. apply Z.eqb_neq. change (if (97 <=? 0) && _ then _ else _) with 0. case_match; lia.
Qed.

Lemma text_cons (ic : bool) c s : text ic (c :: s) ↔ 0 < c < (if ic then 128 else 256) ∧ text ic s.
Proof. unfold text. by rewrite Forall_cons. Qed.

Section Decides.
Context (ic : bool).
#[local] Abbreviation wildcard := (wild (same ic)).

Lemma prefix_decides s m :
  text ic s → text ic m →
  (match_prefix s m ic = Ok None ∧ ¬ wildcard m s) ∨
  ∃ a b s' m', match_prefix s m ic = Ok (Some (s', m')) ∧ s = a ++ s' ∧ m = b ++ m' ∧
    (s' = [] ∨ deref m' = star) ∧ (wildcard m s ↔ wildcard m' s').
Proof.
  revert m. induction s as [|c s IH]; intros m Hs Hm; cbn [match_prefix].
  { right. exists [], [], [], m. split_and!; [done..|by left|done]. }
  apply text_cons in Hs as [Hc Hs]. destruct (Z.eqb_spec (deref m) star) as [E|E].
  { right. exists [], [], (c :: s), m. split_and!; [done..|by right|done]. }
  destruct m as [|k m]; cbn [deref tail] in *.
  { rewrite fits_end by done. left. split; [done|]. by intros ?%wild_nil_l. }
  apply text_cons in Hm as [Hk Hm]. rewrite fits_text by (destruct ic; lia). cbn [mbind outcome_bind].
  destruct ((k =? question) || same ic c k) eqn:Ef; cbn [negb].
  - assert (k = question ∨ same ic c k = true) as Hf
      by (apply orb_true_iff in Ef as [?%Z.eqb_eq|?]; auto).
    destruct (IH m Hs Hm) as [[-> Hn]|(a&b&s'&m'&->&->&->&He&Hw)].
    + left. split; [done|]. rewrite wild_cons by done. naive_solver.
    + right. exists (c :: a), (k :: b), s', m'. split_and!; try done. rewrite wild_cons by done.
      rewrite <-Hw. naive_solver.
  - apply orb_false_iff in Ef as [?%Z.eqb_neq Ef]. left. split; [done|]. rewrite wild_cons by done.
    rewrite Ef. naive_solver.
Qed.

(** The answer the rest of the scan is to give: the current attempt succeeds, or one
    that starts further on. *)
Definition pending (s : scan) : Prop :=
  wildcard (mask s) (str s) ∨
  ∃ p q, mp s = Some p ∧ sp s = Some q ∧ wildcard (star :: p) q.

(** Between two turns of the second loop, for a string and a mask of [n] and [k]
    characters: since the last asterisk the same number of characters was passed
    in both, none of them an asterisk. *)
Record scanning (n k : nat) (s : scan) (p q : bytes) : Prop := {
  scan_text : text ic (str s) ∧ text ic (mask s) ∧ text ic p ∧ text ic q;
  scan_mp : mp s = Some p; scan_sp : sp s = Some q;
  scan_sizes : (length (str s) <= n ∧ length (mask s) <= k ∧ length p <= k ∧ length q <= n)%nat;
  scan_passed :
    (∃ seg x passed, p = seg ++ mask s ∧ x :: q = passed ++ str s ∧ length passed = length seg ∧
       Forall (λ m, m ≠ star) seg) ∨
    (str s = [] ∧ mask s = p ∧ q = []) }.

(** At an asterisk earlier attempts need not be resumed: wherever they would
    succeed, the current one does. *)
Lemma star_absorbs seg passed x q m s :
  Forall (λ m, m ≠ star) seg → length passed = length seg → x :: q = passed ++ s →
  wildcard (star :: seg ++ star :: m) q → wildcard (star :: m) s.
Proof.
  intros Hseg Hl E (a&b&->&Hw)%wild_star.
  destruct (wild_app _ _ _ _ Hseg Hw) as (u&v&->&Hu&Hv).
  rewrite app_comm_cons, (assoc_L (++)) in E.
  destruct (app_eq_inv _ _ _ _ E) as [(w&Ew&->)|(w&Ew&->)]; [by apply wild_star_app|].
  exfalso. apply (f_equal length) in Ew. rewrite !length_app in Ew. cbn in Ew. lia.
Qed.

(** Too short a rest matches nothing. *)
Lemma rest_too_short seg m q :
  Forall (λ m, m ≠ star) seg → (length q < length seg)%nat → ¬ wildcard (star :: seg ++ m) q.
Proof.
  intros Hseg Hl (a&b&->&Hw)%wild_star.
  destruct (wild_app _ _ _ _ Hseg Hw) as (u&v&->&Hu&Hv). rewrite !length_app in Hl. lia.
Qed.

Definition measure (n k : nat) (s : scan) (q : bytes) : nat :=
  length q * (n + k + 1) + length (str s) + length (mask s).

(** The first asterisk of a scan, or a later one. *)
Lemma asterisk_turn n k s x r m :
  str s = x :: r → mask s = star :: m → text ic (x :: r) → text ic m →
  (length (x :: r) <= n)%nat → (length m <= k)%nat →
  (m = [] ∧ turn ic s = Ok (inl true)) ∨
  ∃ s', turn ic s = Ok (inr s') ∧ scanning n k s' m r ∧
    (measure n k s' r = length r * (n + k + 1) + length (x :: r) + length m)%nat ∧
    (pending s' ↔ wildcard (star :: m) (x :: r)).
Proof.
  intros Es Em Ht Htm Hn Hk. unfold turn. rewrite Em, Es. cbn [Z.eqb star Pos.eqb tail].
  destruct m as [|c m]; [by left|]. right. eexists. split; [done|]. split_and!; [split; cbn; rewrite ?Es; try done| |].
  - apply text_cons in Ht as [? ?]. split_and!; try done. by apply text_cons.
  - cbn in *. lia.
  - left. exists [], x, []. split_and!; done.
  - unfold measure; cbn. by rewrite Es.
  - unfold pending; cbn. rewrite Es, wild_star_cons. naive_solver.
Qed.

(** The attempt has failed: the next one starts a character further. *)
Definition retry (p q : bytes) (s : scan) : scan :=
  s <| mask := p |> <| str := q |> <| sp := Some (tail q) |>.

Lemma retry_turn n k s p q :
  scanning n k s p q → str s ≠ [] → ¬ wildcard (mask s) (str s) →
  scanning n k (retry p q s) p (tail q) ∧ (pending s ↔ pending (retry p q s)) ∧
  (str (retry p q s) = [] ∨ measure n k (retry p q s) (tail q) < measure n k s q)%nat.
Proof.
  intros [Ht Hmp Hsp Hsz Hp] Hs Hw.
  assert (pending s ↔ wildcard (star :: p) q) as ->.
  { unfold pending. split; [intros [?|(?&?&?&?&?)]; [done|congruence]|]. intros ?. right. by exists p, q. }
  destruct Ht as (_&_&Htp&Htq), Hsz as (_&_&Hk&Hn).
  destruct q as [|y q]; unfold retry, pending, measure; cbn.
  - split_and!; [split; cbn; try done; [split_and!; done..|by right]| |by left].
    split; [intros H; right; by exists p, []|]. intros [?|(?&?&?&?&?)]; [by apply wild_skip|congruence].
  - apply text_cons in Htq as [? ?]. cbn in Hn. split_and!; [split; cbn; try done| |right; nia].
    + split_and!; try done. by apply text_cons.
    + lia.
    + left. by exists [], y, [].
    + rewrite wild_star_cons. naive_solver.
Qed.

Lemma turn_decides n k s p q :
  scanning n k s p q → str s ≠ [] →
  (turn ic s = Ok (inl true) ∧ pending s) ∨
  ∃ s' p' q', turn ic s = Ok (inr s') ∧ scanning n k s' p' q' ∧ (pending s ↔ pending s') ∧
    (str s' = [] ∨ measure n k s' q' < measure n k s q)%nat.
Proof.
  intros Hscan Hs. pose proof Hscan as [Ht Hmp Hsp Hsz [(seg&x&passed&Ep&Eq&Hl&Hseg)|(?&_)]]; [|done].
  destruct Ht as (Hts&Htm&Htp&Htq), Hsz as (Hn&Hk&Hpk&Hqn).
  destruct (str s) as [|c r] eqn:Es; [done|]. destruct (mask s) as [|m mask'] eqn:Em.
  { right. exists (retry p q s), p, (tail q). split.
    - unfold turn. rewrite Em, Es. cbn [deref]. apply text_cons in Hts as [Hc _].
      rewrite fits_end by done. cbn. by rewrite Hmp, Hsp.
    - apply retry_turn; rewrite ?Es, ?Em; try done. by intros ?%wild_nil_l. }
  apply text_cons in Htm as [Hm Htm].
  destruct (Z.eqb_spec m star) as [->|Hstar].
  { destruct (asterisk_turn n k s c r mask' Es Em Hts Htm Hn) as [[-> E]|(s'&E&Hs'&Hms&Hps)]; [cbn in Hk; lia|..].
    - left. split; [done|]. left. rewrite Es, Em, wild_star. exists (c :: r), []. split; [by rewrite app_nil_r|constructor].
    - right. exists s', mask', r. split_and!; [done|done| |].
      + rewrite Hps. unfold pending. rewrite Es, Em. split; [|by left].
        intros [?|(p0&q0&E1&E2&Hw)]; [done|]. rewrite Hmp in E1. rewrite Hsp in E2. simplify_eq.
        exact (star_absorbs _ _ _ _ _ _ Hseg Hl Eq Hw).
      + right. rewrite Hms. unfold measure. rewrite Es, Em.
        apply (f_equal length) in Eq. rewrite length_app in Eq. cbn in *. nia. }
  pose proof Hts as [Hc Htr]%text_cons.
  assert (turn ic s = b ← Ok ((m =? question) || same ic c m);
    if (b : bool) then Ok (inr (s <| str := tail (str s) |> <| mask := mask' |>)) else Ok (inr (retry p q s))) as Et.
  { unfold turn. rewrite Em, Es. cbn [deref]. rewrite (proj2 (Z.eqb_neq _ _) Hstar).
    rewrite fits_text by (destruct ic; lia). cbn. by rewrite Hmp, Hsp. }
  destruct ((m =? question) || same ic c m) eqn:Ef; cbn in Et; right.
  - assert (m = question ∨ same ic c m = true) as Hf by (apply orb_true_iff in Ef as [?%Z.eqb_eq|?]; auto).
    eexists _, p, q. split; [done|]. split_and!; [split; cbn; rewrite ?Es; try done| |].
    + cbn in *. lia.
    + left. exists (seg ++ [m]), x, (passed ++ [c]). rewrite <-!(assoc_L (++)), !length_app, Hl. cbn.
      split_and!; try done. apply Forall_app. by split; [|apply Forall_singleton].
    + unfold pending; cbn. rewrite Es, Em. cbn. rewrite wild_cons by done. naive_solver.
    + right. unfold measure; cbn. rewrite Es, Em. cbn. lia.
  - exists (retry p q s), p, (tail q). split; [done|].
    apply orb_false_iff in Ef as [?%Z.eqb_neq Ef]. apply retry_turn; rewrite ?Es, ?Em; try done.
    rewrite wild_cons by done. rewrite Ef. naive_solver.
Qed.

Lemma end_decides n k s p q :
  scanning n k s p q → str s = [] → only_stars (mask s) = true ↔ pending s.
Proof.
  intros [_ Hmp Hsp _ Hp] Es. unfold pending. rewrite Es, <-(wild_nil_r (same ic)).
  split; [by left|]. intros [?|(p0&q0&E1&E2&Hw)]; [done|]. rewrite Hmp in E1. rewrite Hsp in E2. simplify_eq.
  destruct Hp as [(seg&x&passed&->&Eq&Hl&Hseg)|(_&->&->)].
  - exfalso. eapply rest_too_short, Hw; [done|]. rewrite Es, app_nil_r in Eq. rewrite <-Hl, <-Eq. cbn. lia.
  - apply wild_star in Hw as ([]&[]&?&?); done.
Qed.

Lemma scan_decides fuel n k s p q :
  scanning n k s p q → (str s = [] ∨ measure n k s q < fuel)%nat →
  ∃ b, match_scan fuel ic s = Some (Ok b) ∧ (b = true ↔ pending s).
Proof.
  revert s p q. induction fuel as [|fuel IH]; intros s p q Hs Hf.
  { destruct Hf as [Hf|]; [|lia]. cbn. rewrite Hf. eexists. split; [done|]. by eapply end_decides. }
  cbn [match_scan]. destruct (str s) as [|c r] eqn:Es.
  { eexists. split; [done|]. by eapply end_decides. }
  destruct Hf as [|Hf]; [done|].
  destruct (turn_decides n k s p q Hs) as [[-> ?]|(s'&p'&q'&->&Hs'&Hp&Hm)]; [by rewrite Es|by exists true|].
  destruct (IH s' p' q' Hs') as (b&Eb&Hb); [destruct Hm; [by left|right; lia]|].
  exists b. by rewrite Hp.
Qed.

(** C40: [match] returns for every string and mask, reads nothing outside them, and
    says yes exactly when the string is one the mask stands for: an asterisk for
    any characters, a question mark for any one, another character for itself, or
    for its other case when case is ignored.  Without case both must be ASCII. *)
Theorem match_decides fuel s m :
  text ic s → text ic m → (turns s m <= fuel)%nat →
  ∃ b, match_fuel fuel s m ic = Some (Ok b) ∧ match_ s m ic = Ok b ∧ (b = true ↔ wildcard m s).
Proof.
  intros Hs Hm Hf.
  assert (∀ fuel, (turns s m <= fuel)%nat → ∃ b, match_fuel fuel s m ic = Some (Ok b) ∧ (b = true ↔ wildcard m s)) as H.
  { clear fuel Hf. intros fuel Hf. unfold match_fuel.
    destruct (prefix_decides s m Hs Hm) as [[-> Hn]|(a&b&s'&m'&->&->&->&He&Hw)].
    { exists false. split; [done|]. by split. }
    destruct s' as [|c s'].
    { exists (only_stars m'). split; [by destruct fuel|]. by rewrite Hw, <-wild_nil_r. }
    destruct He as [|He]; [done|]. destruct m' as [|x m']; cbn in He; [done|]. subst.
    apply Forall_app in Hs as [_ Hs]. apply Forall_app in Hm as [_ [_ Hm]%text_cons].
    unfold turns in Hf. rewrite !length_app in Hf. cbn [length] in Hf.
    destruct fuel as [|fuel]; [lia|]. cbn [match_scan str].
    destruct (asterisk_turn (length (c :: s')) (length m') (mk (c :: s') (star :: m') None None) c s' m')
      as [[-> E]|(s1&E&Hs1&Hms&Hp)]; try done.
    - exists true. rewrite E. split; [done|]. rewrite Hw. split; [|done]. intros _. apply wild_star.
      exists (c :: s'), []. split; [by rewrite app_nil_r|constructor].
    - rewrite E. destruct (scan_decides fuel _ _ s1 m' s' Hs1) as (r&Er&Hr).
      + right. rewrite Hms. cbn [length]. nia.
      + exists r. by rewrite Hw, <-Hp. }
  destruct (H _ (le_n _)) as (b&Eb&Hb). destruct (H _ Hf) as (b'&Eb'&Hb'). exists b'.
  split_and!; [done| |done]. unfold match_. rewrite Eb. f_equal. destruct b, b'; naive_solver.
Qed.

End Decides.

(** *** [setFilemask] *)

(** No two asterisks in a row. *)
Fixpoint no_double (last_star : bool) (m : bytes) : Prop :=
  match m with
  | [] => True
  | c :: m' => (c = star → last_star = false) ∧ no_double (c =? star) m'
  end.

(** What the loop appends, with whether the character before was an asterisk. *)
Fixpoint squeezed (last_star : bool) (m : bytes) : bytes :=
  match m with
  | [] => []
  | c :: m' =>
      if c =? star then (if last_star then [] else [c]) ++ squeezed true m' else c :: squeezed false m'
  end.

Lemma setFilemask_loop_squeezed m i last acc :
  (∀ j, last = Some j → (j < i)%nat) →
  setFilemask_loop m i last acc =
    acc ++ squeezed (match last with Some j => (S j =? i)%nat | None => false end) m.
Proof.
  revert i last acc. induction m as [|c m IH]; intros i last acc Hl; cbn [setFilemask_loop squeezed]; [by rewrite app_nil_r|].
  destruct (c =? star).
  - rewrite IH by (intros j [= <-]; lia). rewrite Nat.eqb_refl.
    destruct last as [j|]; [destruct (S j =? i)%nat|]; cbn; by rewrite <-?(assoc_L (++)).
  - rewrite IH by (intros j Hj; specialize (Hl j Hj); lia). rewrite <-(assoc_L (++)). f_equal. cbn. f_equal.
    f_equal. destruct last as [j|]; [|done]. specialize (Hl j eq_refl). apply Nat.eqb_neq. lia.
Qed.

(** Masks that mean the same. *)
Lemma wild_star_star same m s : wild same (star :: star :: m) s ↔ wild same (star :: m) s.
Proof.
  split; [|apply wild_skip]. intros (a&b&->&H)%wild_star. by apply wild_star_app.
Qed.

Lemma wild_under_star same m m' :
  (∀ s, wild same m s ↔ wild same m' s) → ∀ s, wild same (star :: m) s ↔ wild same (star :: m') s.
Proof. intros H s. rewrite !wild_star. by setoid_rewrite H. Qed.

Lemma wild_under_char same c m m' :
  c ≠ star → (∀ s, wild same m s ↔ wild same m' s) → ∀ s, wild same (c :: m) s ↔ wild same (c :: m') s.
Proof.
  intros Hc H [|x s]; [|by rewrite !wild_cons, H].
  split; intros Hw; inversion Hw; simplify_eq.
Qed.

Lemma squeezed_same same m s :
  (wild same (squeezed false m) s ↔ wild same m s) ∧
  (wild same (star :: squeezed true m) s ↔ wild same (star :: m) s).
Proof.
  revert s. induction m as [|c m IH]; intros s; [done|]. cbn [squeezed]. destruct (Z.eqb_spec c star) as [->|Hc]; cbn [app].
  - split; [apply IH|]. rewrite wild_star_star. apply IH.
  - assert (∀ s, wild same (c :: squeezed false m) s ↔ wild same (c :: m) s) as H
      by (apply wild_under_char; [done|apply IH]).
    split; [done|]. by apply wild_under_star.
Qed.

Lemma squeezed_no_double b m : no_double b (squeezed b m).
Proof.
  revert b. induction m as [|c m IH]; intros b; cbn; [done|].
  destruct (Z.eqb_spec c star) as [->|Hc].
  - destruct b; cbn; [|done]. apply IH.
  - cbn. split; [done|]. rewrite (proj2 (Z.eqb_neq _ _) Hc). apply IH.
Qed.

(** A mask means the same once its runs of asterisks are one asterisk each, which
    is how it is kept. *)
Lemma filemask_kept same m s :
  no_double false (setFilemask m) ∧ (wild same (setFilemask m) s ↔ wild same m s).
Proof.
  unfold setFilemask. rewrite setFilemask_loop_squeezed by done.
  split; [apply squeezed_no_double|apply squeezed_same].
Qed.

End SDirectory.

(** ** [SDirectory]: the entries of a directory *)

Module Listing.
Import SDirectory.

(** [opendir], and what [readdir_r] then gives turn after turn: a name or an error. *)
Class Directories := opendir : bytes → option (list (bytes + Z)).

Section Listing.
Context `{Dirs : Directories}.

(** [m_handle]: what is left to read. *)
Record t := mk {
  m_handle : option (list (bytes + Z)); m_directory : bytes; m_filemask : bytes; m_filename : bytes }.
Definition SDirectory_ctor : t := mk None [] [] [].

Definition closeHandle (d : t) : t := d <| m_handle := None |>.
Definition setDirectory (directory : bytes) (d : t) : t := d <| m_directory := directory |>.
Definition setMask (filemask : bytes) (d : t) : t := d <| m_filemask := setFilemask filemask |>.

(** A [const char*] that is null for the empty name. *)
Definition name_or_null (d : t) : option bytes :=
  match m_filename d with [] => None | n => Some n end.

(** The loop of [getNextEntry]: the name it stops at, empty at the end, and what is
    left. *)
Fixpoint next_match (entries : list (bytes + Z)) (pMask : bytes) : outcome bytes * list (bytes + Z) :=
  match entries with
  | [] => (Ok [], [])
  | inr _ :: l => (Throw StdException, l)
  | inl name :: l =>
      match match_ name pMask false with
      | Ok true => (Ok name, l)
      | Ok false => next_match l pMask
      | Throw e => (Throw e, l)
      | UB => (UB, l)
      end
  end.

Definition getNextEntry : M t (option bytes) :=
  d ← gets id;
  match m_handle d with
  | None => undefined
  | Some entries =>
      let '(r, l) := next_match entries (m_filemask d) in
      _ ← modify (λ d, d <| m_handle := Some l |>);
      name ← lift r;
      _ ← modify (λ d, d <| m_filename := name |>);
      gets name_or_null
  end.

Definition getFirstEntry : M t (option bytes) :=
  _ ← modify closeHandle;
  _ ← modify (λ d, d <| m_handle := opendir (m_directory d) |>);
  d ← gets id;
  match m_handle d with
  | None => throw StdException
  | Some _ =>
      _ ← catch getNextEntry (λ _, throw StdException);
      gets name_or_null
  end.

(** [std::string]'s order. *)
Fixpoint str_less (a b : bytes) : bool :=
  match a, b with
  | [], _ :: _ => true
  | _, [] => false
  | x :: a', y :: b' => if x <? y then true else if y <? x then false else str_less a' b'
  end.

(** [while (de) { dl.push_back(de); de = getNextEntry(); }] with [fuel] turns. *)
Fixpoint listing (fuel : nat) (de : option bytes) (dl : list bytes) : M t (list bytes) :=
  match de, fuel with
  | None, _ => mret dl
  | Some s, S n => de' ← getNextEntry; listing n de' (dl ++ [s])
  | Some _, O => undefined
  end.

(** One turn for each entry is enough. *)
Definition getListing : M t (list bytes) :=
  de ← getFirstEntry;
  d ← gets id;
  dl ← listing (S (length (default [] (m_handle d)))) de [];
  mret (list_sort str_less dl).

Definition getListing_of (directory filemask : bytes) : M t (list bytes) :=
  _ ← modify (setDirectory directory);
  _ ← modify (setMask filemask);
  getListing.

Lemma str_less_asym a b : str_less a b = true → str_less b a = false.
Proof.
  revert b. induction a as [|x a IH]; intros [|y b]; cbn; try done.
  destruct (Z.ltb_spec x y), (Z.ltb_spec y x); try lia; auto.
Qed.

Lemma str_less_trans x y z : str_less x y = true → str_less z y = false → str_less z x = false.
Proof.
  revert y z. induction x as [|a x IH]; intros [|b y] [|c z]; cbn; try done.
  destruct (Z.ltb_spec a b), (Z.ltb_spec b a), (Z.ltb_spec c b), (Z.ltb_spec b c),
    (Z.ltb_spec c a), (Z.ltb_spec a c); try lia; try done; eauto.
Qed.

(** The names that a mask lets through. *)
Definition chosen (mask : bytes) (names : list bytes) : list bytes :=
  filter (λ n, match_ n mask false = Ok true) names.

Lemma match_total n m : text false n → text false m → ∃ b, match_ n m false = Ok b.
Proof.
  intros Hn Hm. destruct (match_decides false (turns n m) n m Hn Hm) as (b&_&?&_); [done|]. by exists b.
Qed.

Lemma next_match_chosen mask names :
  text false mask → Forall (text false) names → Forall (λ n, n ≠ []) names →
  match chosen mask names with
  | [] => next_match (inl <$> names) mask = (Ok [], [])
  | n :: l => ∃ rest, next_match (inl <$> names) mask = (Ok n, inl <$> rest) ∧
      n ≠ [] ∧ chosen mask rest = l ∧ Forall (text false) rest ∧ Forall (λ n, n ≠ []) rest ∧
      (length rest < length names)%nat
  end.
Proof.
  intros Hm Ht Hn. unfold chosen. induction names as [|n names IH]; [done|].
  apply Forall_cons in Ht as [Hn1 Ht]. apply Forall_cons in Hn as [Hn2 Hn]. specialize (IH Ht Hn).
  rewrite filter_cons. cbn [next_match fmap list_fmap].
  destruct (match_total n mask Hn1 Hm) as [[] E]; rewrite E.
  - rewrite decide_True by done. exists names. split_and!; try done. cbn. lia.
  - rewrite decide_False by done. destruct (filter _ names); [done|].
    destruct IH as (rest&?&?&?&?&?&?). exists rest. split_and!; try done. cbn. lia.
Qed.

Lemma listing_chosen fuel names d dl :
  text false (m_filemask d) → Forall (text false) names → Forall (λ n, n ≠ []) names →
  (length names <= fuel)%nat →
  m_handle d = Some (inl <$> names) →
  ∃ d', (de ← getNextEntry; listing fuel de dl) d = (Ok (dl ++ chosen (m_filemask d) names), d').
Proof.
  revert names d dl. induction fuel as [|fuel IH]; intros names d dl Hm Ht Hn Hf Hh.
  { destruct names; [|cbn in Hf; lia]. eexists. unfold getNextEntry, mbind, M_bind, gets, id. cbn.
    rewrite Hh. cbn. by rewrite app_nil_r. }
  pose proof (next_match_chosen (m_filemask d) names Hm Ht Hn) as H.
  destruct (chosen (m_filemask d) names) as [|n l] eqn:Ec.
  - eexists. unfold getNextEntry, mbind, M_bind, gets, id. cbn. rewrite Hh, H. cbn. by rewrite app_nil_r.
  - destruct H as (rest&Hnext&Hne&Hl&Ht'&Hn'&Hlt).
    destruct (IH rest (d <| m_handle := Some (inl <$> rest) |> <| m_filename := n |>) (dl ++ [n])) as (d'&E);
      try done; [lia|].
    exists d'. cbn in E. rewrite Hl, <-(assoc_L (++)) in E. cbn in E. rewrite <-E.
    unfold getNextEntry at 1, mbind at 1 2 3 4 5 6, M_bind at 1, gets, id. cbn. rewrite Hh, Hnext. cbn.
    unfold name_or_null. cbn. by destruct n.
Qed.
Lemma text_squeezed b m : text false m → text false (squeezed b m).
Proof.
  unfold text. revert b. induction m as [|c m IH]; intros b H; [done|]. apply Forall_cons in H as [Hc H].
  cbn. case_match; [destruct b; cbn|]; try apply Forall_cons; auto.
Qed.

(** The listing of a directory is the sorted list of the names in it that the mask
    stands for, each as often as the directory has it. *)
Theorem directory_listed dir mask names d :
  opendir dir = Some (inl <$> names) →
  text false mask → Forall (text false) names → Forall (λ n, n ≠ []) names →
  ∃ l d', getListing_of dir mask d = (Ok l, d') ∧
    ordered str_less l ∧ l ≡ₚ chosen (setFilemask mask) names ∧
    ∀ n, n ∈ l ↔ n ∈ names ∧ wild (same false) mask n.
Proof.
  intros Ho Hm Ht Hn.
  assert (text false (setFilemask mask)) as Hm'.
  { unfold setFilemask. rewrite setFilemask_loop_squeezed by done. by apply text_squeezed. }
  assert (∃ d', getListing_of dir mask d = (Ok (list_sort str_less (chosen (setFilemask mask) names)), d')) as [d' E].
  { set (d0 := mk (Some (inl <$> names)) dir (setFilemask mask) (m_filename d)).
    assert (getListing_of dir mask d = (de ← catch getNextEntry (λ _, throw StdException);
      de ← gets name_or_null; d ← gets id;
      dl ← listing (S (length (default [] (m_handle d)))) de [];
      mret (list_sort str_less dl)) d0) as ->.
    { unfold getListing_of, getListing, getFirstEntry, mbind, M_bind, gets, modify, id. cbn. rewrite Ho.
      change (_ <| m_handle := _ |>) with d0. by destruct (catch getNextEntry _ d0) as [[]?]. }
    pose proof (next_match_chosen (setFilemask mask) names Hm' Ht Hn) as H.
    unfold catch, getNextEntry at 1, mbind, M_bind, gets, modify, lift, id. cbn.
    destruct (chosen (setFilemask mask) names) as [|n l] eqn:Ec.
    - rewrite H. cbn. by eexists.
    - destruct H as (rest&Hnext&Hne&Hl&Ht'&Hn'&_). rewrite Hnext. cbn. destruct n as [|c n]; [done|]. cbn.
      set (d1 := mk (Some (inl <$> rest)) dir (setFilemask mask) (c :: n)).
      destruct (listing_chosen (length rest) rest d1 [c :: n]) as (d'&E); try done.
      cbn [m_filemask d1] in E. rewrite Hl in E. exists d'.
      change ((dl ← (de ← getNextEntry; listing (length (inl <$> rest : list (bytes + Z))) de [c :: n]);
        mret (list_sort str_less dl)) d1 = (Ok (list_sort str_less ((c :: n) :: l)), d')).
      rewrite length_fmap. by rewrite (bind_Ok _ _ _ _ _ E). }
  exists (list_sort str_less (chosen (setFilemask mask) names)), d'.
  split_and!; [done|apply list_sort_ordered; [exact str_less_trans|exact str_less_asym]|apply list_sort_perm|].
  intros n. rewrite list_sort_perm. unfold chosen. rewrite list_elem_of_filter.
  rewrite <-(proj2 (filemask_kept (same false) mask n)).
  assert (n ∈ names → match_ n (setFilemask mask) false = Ok true ↔ wild (same false) (setFilemask mask) n) as Hw.
  { intros Hin. rewrite Forall_forall in Ht.
    destruct (match_decides false _ n (setFilemask mask) (Ht n Hin) Hm' (le_n _)) as (b&_&->&Hb).
    rewrite <-Hb. split; [by intros [= ->]|by intros ->]. }
  naive_solver.
Qed.
End Listing.
End Listing.

(** ** [SUtility] *)

Module SUtility.

(** [indexOf]: a negative start reads before the string. *)
Fixpoint find_char (path : bytes) (search : Z) (ofs : Z) : Z * bytes :=
  match path with
  | c :: p => if c =? search then (ofs, path) else find_char p search (ofs + 1)
  | [] => (ofs, [])
  end.
Definition indexOf (path : bytes) (search start : Z) : outcome Z :=
  if Z.of_nat (length path) <? start then Ok (-1)
  else if start <? 0 then UB
  else let '(ofs, p) := find_char (drop (Z.to_nat start) path) search start in
       Ok (match p with _ :: _ => -1 | [] => ofs end).

(** Whether the inner loop stops before the end of [search]. *)
Definition any_of (search : bytes) (c : Z) : bool := existsb (Z.eqb c) search.

Fixpoint indexOfAny_loop (p search : bytes) (ofs : Z) : Z :=
  match p with
  | c :: p' => if any_of search c then ofs else indexOfAny_loop p' search (ofs + 1)
  | [] => -1
  end.
Definition indexOfAny (path search : bytes) : Z := indexOfAny_loop path search 0.

(** The loop down from [p], [n] characters into the string. *)
Fixpoint lastIndexOfAny_loop (path search : bytes) (n : nat) : Z :=
  match n with
  | O => -1
  | S n' =>
      match path !! n' with
      | Some c => if any_of search c then Z.of_nat n' else lastIndexOfAny_loop path search n'
      | None => -1
      end
  end.
Definition lastIndexOfAny (path search : bytes) : Z := lastIndexOfAny_loop path search (length path).

(** [split]: [while (ss.good()) { getline(ss, f, delim); a.push_back(f); }]; every turn
    but the last consumes a character. *)
Fixpoint split_fuel (fuel : nat) (d : ascii) (ss : stream) (f : string) : list string :=
  match fuel with
  | O => []
  | S n =>
      if good ss then
        let '(_, f', ss') := getline d ss f in f' :: split_fuel n d ss' f'
      else []
  end.
Definition split (s : string) (delim : ascii) : list string :=
  split_fuel (S (S (String.length s))) delim (istringstream s) EmptyString.

(** [_string_format]: [out] is what [vsnprintf] makes of the arguments, [None] when it
    fails; it writes at most 2047 characters and a NUL. *)
Definition string_format (out : option bytes) : outcome bytes :=
  match out with
  | Some t => Ok (if (length t <? 2048)%nat then t else take 2047 t ++ [0])
  | None => UB
  end.

Lemma find_char_spec path search ofs :
  find_char path search ofs =
    match list_find (λ c, c = search) path with
    | Some (i, _) => (ofs + Z.of_nat i, drop i path)
    | None => (ofs + Z.of_nat (length path), [])
    end.
Proof.
  revert ofs. induction path as [|c p IH]; intros ofs; cbn; [f_equal; lia|].
  destruct (Z.eqb_spec c search) as [->|Hc].
  - rewrite decide_True by done. cbn. f_equal. lia.
  - rewrite decide_False by done. rewrite IH. destruct (list_find _ p) as [[i x]|]; cbn; f_equal; lia.
Qed.

(** [indexOf] has its answers the wrong way round: -1 when the character is there, and
    the length of the string when it is not. *)
Lemma indexOf_inverted path search :
  indexOf path search 0 = Ok (if decide (search ∈ path) then -1 else Z.of_nat (length path)).
Proof.
  unfold indexOf. rewrite (proj2 (Z.ltb_ge _ _)) by lia. change (drop (Z.to_nat 0) path) with path.
  cbn [Z.ltb Z.compare]. rewrite find_char_spec.
  destruct (list_find (λ c, c = search) path) as [[i x]|] eqn:E.
  - apply list_find_Some in E as (Hi&->&_). rewrite decide_True by (by eapply list_elem_of_lookup_2).
    pose proof (lookup_lt_Some _ _ _ Hi). destruct (drop i path) as [|y l] eqn:Ed; [|done].
    apply (f_equal length) in Ed. rewrite length_drop in Ed. cbn in Ed. lia.
  - apply list_find_None in E. rewrite Forall_forall in E. by rewrite decide_False by naive_solver.
Qed.

Lemma lastIndexOfAny_bounds path search : -1 <= lastIndexOfAny path search < Z.of_nat (length path) ∨ path = [].
Proof.
  unfold lastIndexOfAny. destruct path as [|c p]; [by right|left].
  enough (∀ n, -1 <= lastIndexOfAny_loop (c :: p) search n ∧ lastIndexOfAny_loop (c :: p) search n < Z.of_nat (S n))
    as H by (specialize (H (length p)); cbn [length lastIndexOfAny_loop] in *; destruct ((c :: p) !! length p); [case_match|]; lia).
  induction n as [|n IH]; cbn [lastIndexOfAny_loop]; [lia|].
  destruct ((c :: p) !! n); [destruct (any_of search z)|]; lia.
Qed.

Lemma loop_S path search n :
  lastIndexOfAny_loop path search (S n) =
  match path !! n with
  | Some c => if any_of search c then Z.of_nat n else lastIndexOfAny_loop path search n
  | None => -1
  end.
Proof. done. Qed.

(** The last separator of a path that ends in a part without one. *)
Lemma lastIndexOfAny_last a c b search :
  any_of search c = true → Forall (λ x, any_of search x = false) b →
  lastIndexOfAny (a ++ c :: b) search = Z.of_nat (length a).
Proof.
  intros Hc. unfold lastIndexOfAny. rewrite length_app. cbn [length].
  replace (length a + S (length b))%nat with (S (length a + length b)) by lia.
  induction b as [|x b IH] using rev_ind; intros Hb.
  - rewrite Nat.add_0_r. cbn [lastIndexOfAny_loop]. rewrite list_lookup_middle by done. by rewrite Hc.
  - apply Forall_app in Hb as [Hb [Hx _]%Forall_cons]. rewrite length_app. cbn [length].
    replace (length a + (length b + 1))%nat with (S (length a + length b)) by lia.
    rewrite (loop_S (a ++ c :: b ++ [x]) search (S (length a + length b))).
    assert ((a ++ c :: b ++ [x]) !! S (length a + length b) = Some x) as ->.
    { rewrite lookup_app_r by lia. replace (S (length a + length b) - length a)%nat with (S (length b)) by lia.
      change ((b ++ [x]) !! length b = Some x). by rewrite list_lookup_middle. }
    rewrite Hx. rewrite <-(IH Hb).
    enough (∀ n l l', (n <= length l)%nat → lastIndexOfAny_loop (l ++ l') search n = lastIndexOfAny_loop l search n) as E.
    { change (a ++ c :: b ++ [x]) with (a ++ (c :: b) ++ [x]). rewrite (assoc_L (++)). apply E.
      rewrite length_app. cbn. lia. }
    clear. induction n as [|n IH]; intros l l' Hn; [done|]. cbn [lastIndexOfAny_loop].
    rewrite lookup_app_l by lia. by rewrite IH by lia.
Qed.

Lemma lastIndexOfAny_before a b search :
  Forall (λ x, any_of search x = false) b → lastIndexOfAny (a ++ b) search < Z.of_nat (length a).
Proof.
  intros Hb. unfold lastIndexOfAny. generalize (length (a ++ b)).
  induction n as [|n IH]; cbn [lastIndexOfAny_loop]; [lia|].
  destruct ((a ++ b) !! n) as [x|] eqn:Ex; [|lia]. destruct (any_of search x) eqn:Hx; [|done].
  destruct (decide (n < length a)%nat); [lia|exfalso]. rewrite lookup_app_r in Ex by lia.
  rewrite Forall_forall in Hb. by rewrite (Hb x) in Hx by (by eapply list_elem_of_lookup_2).
Qed.

Lemma lastIndexOfAny_none p search :
  Forall (λ x, any_of search x = false) p → lastIndexOfAny p search = -1.
Proof.
  intros Hp. unfold lastIndexOfAny. generalize (length p). induction n as [|n IH]; [done|]. cbn.
  destruct (p !! n) as [c|] eqn:E; [|done]. rewrite Forall_forall in Hp.
  by rewrite (Hp c) by (by eapply list_elem_of_lookup_2).
Qed.

Lemma span_whole d s a r : span d s = (a, r) →
  s = match r with Some r => a +:+ String d r | None => a end.
Proof.
  revert a r. induction s as [|c s IH]; intros a r; cbn [span]; [by intros [= <- <-]|].
  destruct (Ascii.eqb_spec c d) as [->|]; [by intros [= <- <-]|].
  destruct (span d s) as [a' r'] eqn:E. intros [= <- <-]. rewrite (IH a' r' eq_refl). by destruct r'.
Qed.

Lemma split_fuel_step fuel d s f :
  split_fuel (S fuel) d (istringstream s) f =
  match span d s with
  | (a, Some r) => a :: split_fuel fuel d (istringstream r) a
  | (a, None) => [a]
  end.
Proof.
  change (split_fuel (S fuel) d (istringstream s) f) with
    (let '(_, f', ss') := getline d (istringstream s) f in f' :: split_fuel fuel d ss' f').
  unfold getline. cbn [istringstream good negb rest].
  destruct (span d s) as [a [r|]]; [done|]. by destruct fuel.
Qed.

(** Joining what [split] returns gives the text back, delimiters at its end included. *)
Lemma split_fuel_join fuel d s f :
  (String.length s < fuel)%nat → join d (split_fuel fuel d (istringstream s) f) = s ∧
    split_fuel fuel d (istringstream s) f ≠ [].
Proof.
  revert s f. induction fuel as [|fuel IH]; intros s f Hf; [lia|].
  rewrite split_fuel_step. destruct (span d s) as [a [r|]] eqn:E; pose proof (span_whole _ _ _ _ E) as Es.
  - destruct (IH r a) as [Hj Hn]; [apply span_length in E; lia|].
    by rewrite join_cons, Hj.
  - by subst.
Qed.

Lemma split_join s d : join d (split s d) = s.
Proof. apply split_fuel_join. lia. Qed.

(** A text is formatted whole when it fits; otherwise the result is 2047 characters and
    a NUL that belongs to it. *)
Lemma string_format_cuts t :
  string_format (Some t) = Ok t ∨
  ∃ r, string_format (Some t) = Ok r ∧ length r = 2048%nat ∧ last r = Some 0.
Proof.
  unfold string_format. destruct (Nat.ltb_spec (length t) 2048); [by left|right].
  eexists. split; [done|]. rewrite length_app, length_take, last_snoc. cbn [length]. split; [lia|done].
Qed.

End SUtility.

(** ** [SPath] *)

Module SPath.
Import SUtility.

(** A [const char*]: [None] is null.  '/' is 47, ':' 58, '.' 46, a backslash 92. *)
Abbreviation ptr := (option bytes).
Definition DirectorySeparatorChar : Z := 47.
Definition AltDirectorySeparatorChar : Z := 47.
Definition VolumeSeparatorChar : Z := 58.
Definition PathSeparatorChars : bytes := [47; 58].
Definition InvalidPathChars : bytes := [].

Definition isDsc (c : Z) : bool := (c =? DirectorySeparatorChar) || (c =? AltDirectorySeparatorChar).

(** No path character is invalid, so that this test never throws. *)
Definition check_path (path : bytes) : outcome unit :=
  if negb (indexOfAny path InvalidPathChars =? -1) then Throw StdException else Ok tt.

Definition findExtension (path : bytes) : Z :=
  let iLastDot := lastIndexOfAny path [46] in
  let iLastSep := lastIndexOfAny path PathSeparatorChars in
  if iLastSep <? iLastDot then iLastDot else -1.

(** [assign(path, &path[i])] is undefined before the beginning. *)
Definition assign_upto (path : bytes) (i : Z) : outcome bytes :=
  if i <? 0 then UB else Ok (take (Z.to_nat i) path).

Definition changeExtension (path extension : ptr) : outcome bytes :=
  match path with
  | None | Some [] => Ok []
  | Some p =>
      _ ← check_path p;
      let iExt := findExtension p in
      match extension with
      | None | Some [] => if iExt <? 0 then Ok p else assign_upto p iExt
      | Some (e :: ext') =>
          if iExt <? 0 then
            n ← assign_upto p iExt;
            Ok (n ++ (if negb (e =? 46) then [46] else []) ++ e :: ext')
          else if 0 <? iExt then
            n ← assign_upto p (iExt + 1);
            Ok (n ++ if e =? 46 then ext' else e :: ext')
          else Ok (e :: ext')
      end
  end.

Definition isPathRooted (path : ptr) : outcome bool :=
  match path with
  | None | Some [] => Ok false
  | Some (c :: p) =>
      _ ← check_path (c :: p);
      Ok ((c =? DirectorySeparatorChar) || (c =? AltDirectorySeparatorChar) ||
          ((DirectorySeparatorChar =? VolumeSeparatorChar) && (1 <? Z.of_nat (length (c :: p))) &&
           (SDirectory.deref p =? VolumeSeparatorChar)))
  end.

(** [path1[strlen(path1) - 1]] of an empty path is before it. *)
Definition last_char (p : bytes) : outcome Z := match last p with Some c => Ok c | None => UB end.

Definition combine (path1 path2 : ptr) : outcome bytes :=
  match path1, path2 with
  | None, _ | _, None => Throw StdException
  | Some p1, Some p2 =>
      _ ← match p1, p2 with
          | [], _ | _, [] => Ok tt
          | _, _ => _ ← check_path p1; check_path p2
          end;
      r ← isPathRooted path2;
      if (r : bool) then Ok p2
      else
        p1end ← last_char p1;
        Ok (p1 ++
            (if negb (p1end =? DirectorySeparatorChar) && negb (p1end =? AltDirectorySeparatorChar) &&
                negb (p1end =? VolumeSeparatorChar) then [DirectorySeparatorChar] else []) ++ p2)
  end.

(** *** [cleanPath] *)

Definition FILENAME_MAX : nat := 4096.

(** The first loop, from an index on: [sub]. *)
Fixpoint count_sub (path : bytes) : nat :=
  match path with
  | [] => O
  | c :: p =>
      if isDsc c then
        match p with
        | [] => 1
        | d :: _ => (if isDsc d then 1 else 0) + count_sub p
        end
      else count_sub p
  end.

(** [for (; i < l - i; i++) { c = path[i + 1]; if (!isDsc(c)) break; }] *)
Fixpoint skip_separators (fuel : nat) (path : bytes) (i : nat) : nat :=
  match fuel with
  | O => i
  | S n =>
      if (Z.of_nat i <? Z.of_nat (length path) - Z.of_nat i) then
        if isDsc (default 0 (path !! S i)) then skip_separators n path (S i) else i
      else i
  end.

(** The second loop from [i] on, with what is in [copy]; it turns at most once for
    each character. *)
Fixpoint clean_loop (fuel : nat) (path : bytes) (len i : nat) (copy : bytes) : bytes :=
  match fuel with
  | O => copy
  | S n =>
      if (i <? length path)%nat && (length copy <? len)%nat then
        let c := default 0 (path !! i) in
        if negb (isDsc c) then clean_loop n path len (S i) (copy ++ [c])
        else if negb (length copy + 1 =? len)%nat then
          clean_loop n path len (S (skip_separators n path i)) (copy ++ [DirectorySeparatorChar])
        else clean_loop n path len (S i) copy
      else copy
  end.

(** [cleanPath]: [copy] holds 4096 characters, and those that the loop has not set are
    read uninitialised. *)
Definition cleanPath (path : bytes) : outcome bytes :=
  let start := match path with a :: b :: _ :: _ => if (a =? 92) && (b =? 92) then 2%nat else O | _ => O end in
  if (length path =? 1)%nat && isDsc (hd 0 path) then Ok path
  else
    let sub := count_sub (drop start path) in
    if (sub =? 0)%nat then Ok path
    else
      let len := (length path - sub)%nat in
      if (FILENAME_MAX <=? len)%nat then UB
      else
        let copy := clean_loop (length path) path len start (take start path) in
        if (length copy =? len)%nat then Ok copy else UB.

Definition getDirectoryName (path : ptr) : outcome bytes :=
  match path with
  | None | Some [] => Throw StdException
  | Some p =>
      _ ← check_path p;
      let nLast := lastIndexOfAny p PathSeparatorChars in
      let nLast := if nLast =? 0 then nLast + 1 else nLast in
      if 0 <? nLast then cleanPath (take (Z.to_nat nLast) p) else Ok []
  end.

Definition getExtension (path : ptr) : outcome bytes :=
  match path with
  | None | Some [] => Ok []
  | Some p =>
      _ ← check_path p;
      let iExt := findExtension p in
      Ok (if -1 <? iExt then
            if iExt <? Z.of_nat (length p) - 1 then drop (Z.to_nat iExt) p else []
          else [])
  end.

Definition getFileName (path : ptr) : outcome bytes :=
  match path with
  | None | Some [] => Ok []
  | Some p =>
      _ ← check_path p;
      let nLast := lastIndexOfAny p PathSeparatorChars in
      Ok (if 0 <=? nLast then drop (Z.to_nat (nLast + 1)) p else p)
  end.

Definition getFileNameWithoutExtension (path : ptr) : outcome bytes :=
  fileName ← getFileName path; changeExtension (Some fileName) None.

Definition getPathRoot (path : ptr) : outcome bytes :=
  match path with
  | None => UB
  | Some [] => Throw StdException
  | Some (c :: p) =>
      r ← isPathRooted path;
      Ok (if (r : bool) then [] else if isDsc c then [DirectorySeparatorChar] else [])
  end.

(** *** Facts *)

Definition separator (c : Z) : bool := any_of PathSeparatorChars c.
Definition plain (p : bytes) : Prop := Forall (λ c, separator c = false) p.

Lemma separator_spec c : separator c = (c =? 47) || (c =? 58).
Proof. unfold separator, any_of, PathSeparatorChars. cbn. by rewrite orb_false_r. Qed.

Lemma check_path_Ok p : check_path p = Ok tt.
Proof.
  unfold check_path, indexOfAny. enough (∀ ofs, indexOfAny_loop p InvalidPathChars ofs = -1) as -> by done.
  induction p as [|c p IH]; intros ofs; [done|]. cbn. apply IH.
Qed.

(** No separator follows another, and none is at the end. *)
Fixpoint clean (p : bytes) : Prop :=
  match p with
  | [] => True
  | c :: p' => (isDsc c = true → match p' with [] => False | d :: _ => isDsc d = false end) ∧ clean p'
  end.

Lemma count_sub_clean p : clean p → count_sub p = O.
Proof.
  induction p as [|c p IH]; cbn; [done|]. intros [Hc Hp]. destruct (isDsc c); [|auto].
  destruct p as [|d p]; [by destruct Hc|]. rewrite Hc by done. cbn [Nat.add]. auto.
Qed.

Lemma clean_drop n p : clean p → clean (drop n p).
Proof.
  revert p. induction n as [|n IH]; intros [|c p] H; try done. apply IH, H.
Qed.

Lemma cleanPath_clean p : clean p → cleanPath p = Ok p.
Proof.
  intros Hp. unfold cleanPath. rewrite count_sub_clean by (by apply clean_drop). by case_match.
Qed.

(** A clean directory and a file name put together are taken apart again:
    [combine] puts one separator between them, [getDirectoryName] gives the
    directory back and [getFileName] the name. *)
Theorem path_roundtrip dir c name :
  clean (dir ++ [c]) → separator c = false → name ≠ [] → plain name →
  combine (Some (dir ++ [c])) (Some name) = Ok (dir ++ [c] ++ [47] ++ name) ∧
  getDirectoryName (Some (dir ++ [c] ++ [47] ++ name)) = Ok (dir ++ [c]) ∧
  getFileName (Some (dir ++ [c] ++ [47] ++ name)) = Ok name.
Proof.
  intros Hd Hc Hn Hp. pose proof Hc as Hc'. rewrite separator_spec in Hc'.
  apply orb_false_iff in Hc' as [H47 H58].
  assert (lastIndexOfAny (dir ++ [c] ++ [47] ++ name) PathSeparatorChars = Z.of_nat (length (dir ++ [c]))) as Hl.
  { rewrite (assoc_L (++)). by apply lastIndexOfAny_last. }
  assert (∃ y l, dir ++ [c] ++ [47] ++ name = y :: l) as (y&l&E)
    by (destruct dir; cbn; by eexists _, _).
  split_and!.
  - unfold combine. destruct name as [|x name]; [done|].
    assert (isPathRooted (Some (x :: name)) = Ok false) as Hr.
    { apply Forall_cons in Hp as [Hx _]. rewrite separator_spec in Hx. apply orb_false_iff in Hx as [Hx _].
      unfold isPathRooted. rewrite check_path_Ok. cbn. unfold DirectorySeparatorChar, AltDirectorySeparatorChar.
      by rewrite Hx. }
    rewrite Hr, !check_path_Ok. unfold last_char. rewrite last_snoc.
    assert (∀ (m : outcome unit), m = Ok tt → match dir ++ [c] with [] => Ok tt | _ => m end = Ok tt) as Hm
      by (intros m ->; by destruct dir).
    replace (match dir ++ [c] with [] => Ok tt | _ :: _ => _ end) with (Ok tt) by (symmetry; by apply Hm).
    cbn [mbind outcome_bind]. unfold DirectorySeparatorChar, AltDirectorySeparatorChar, VolumeSeparatorChar. rewrite H47, H58. cbn. by rewrite <-(assoc_L (++)).
  - unfold getDirectoryName. rewrite E, <-E, check_path_Ok, Hl. cbn [mbind outcome_bind].
    rewrite length_app. cbn [length]. rewrite (proj2 (Z.eqb_neq _ _)) by lia.
    rewrite (proj2 (Z.ltb_lt _ _)) by lia. rewrite Nat2Z.id, (assoc_L (++)).
    rewrite take_app_length' by (rewrite length_app; cbn; lia). by apply cleanPath_clean.
  - unfold getFileName. rewrite E, <-E, check_path_Ok, Hl. cbn [mbind outcome_bind].
    rewrite (proj2 (Z.leb_le _ _)) by lia. f_equal. rewrite !(assoc_L (++)).
    replace (Z.to_nat (Z.of_nat (length (dir ++ [c])) + 1)) with (length ((dir ++ [c]) ++ [47]))
      by (rewrite !length_app; cbn; lia).
    by rewrite drop_app_length.
Qed.

(** The extension of a name is what follows its last dot, and it can be replaced by
    another, given with its dot or without. *)
Lemma extension_replaced base e ext f :
  base ≠ [] → plain (e :: ext) → Forall (λ c, c ≠ 46) (e :: ext) → hd 0 f ≠ 46 → f ≠ [] →
  getExtension (Some (base ++ 46 :: e :: ext)) = Ok (46 :: e :: ext) ∧
  changeExtension (Some (base ++ 46 :: e :: ext)) (Some f) = Ok (base ++ 46 :: f) ∧
  changeExtension (Some (base ++ 46 :: e :: ext)) (Some (46 :: f)) = Ok (base ++ 46 :: f) ∧
  changeExtension (Some (base ++ 46 :: e :: ext)) None = Ok base.
Proof.
  intros Hb Hp Hd Hf Hf0.
  assert (lastIndexOfAny (base ++ 46 :: e :: ext) [46] = Z.of_nat (length base)) as Hdot.
  { apply lastIndexOfAny_last; [done|]. eapply Forall_impl; [exact Hd|]. intros c Hc. cbn.
    by rewrite (proj2 (Z.eqb_neq _ _)). }
  assert (lastIndexOfAny (base ++ 46 :: e :: ext) PathSeparatorChars < Z.of_nat (length base)) as Hsep.
  { apply lastIndexOfAny_before. by constructor. }
  assert (findExtension (base ++ 46 :: e :: ext) = Z.of_nat (length base)) as He.
  { unfold findExtension. rewrite Hdot. by rewrite (proj2 (Z.ltb_lt _ _)). }
  assert (0 < Z.of_nat (length base)) as Hl by (destruct base; cbn in *; [done|lia]).
  assert (∃ y l, base ++ 46 :: e :: ext = y :: l) as (y&l&E) by (destruct base; cbn; by eexists _, _).
  split_and!.
  - unfold getExtension. rewrite E, <-E, check_path_Ok, He. cbn [mbind outcome_bind].
    rewrite !(proj2 (Z.ltb_lt _ _)) by (rewrite ?length_app; cbn [length]; lia).
    by rewrite Nat2Z.id, drop_app_length.
  - unfold changeExtension. rewrite E, <-E, check_path_Ok, He. cbn [mbind outcome_bind]. destruct f as [|x f]; [done|].
    rewrite (proj2 (Z.ltb_ge _ _)) by lia. rewrite (proj2 (Z.ltb_lt _ _)) by lia.
    unfold assign_upto. rewrite (proj2 (Z.ltb_ge _ _)) by lia. cbn [mbind outcome_bind].
    cbn in Hf. rewrite (proj2 (Z.eqb_neq _ _) Hf).
    replace (Z.to_nat (Z.of_nat (length base) + 1)) with (length (base ++ [46])) by (rewrite length_app; cbn; lia).
    change (base ++ 46 :: e :: ext) with (base ++ [46] ++ e :: ext). rewrite (assoc_L (++)), take_app_length.
    by rewrite <-(assoc_L (++)).
  - unfold changeExtension. rewrite E, <-E, check_path_Ok, He. cbn [mbind outcome_bind].
    rewrite (proj2 (Z.ltb_ge _ _)) by lia. rewrite (proj2 (Z.ltb_lt _ _)) by lia.
    unfold assign_upto. rewrite (proj2 (Z.ltb_ge _ _)) by lia. cbn [mbind outcome_bind Z.eqb Pos.eqb].
    replace (Z.to_nat (Z.of_nat (length base) + 1)) with (length (base ++ [46])) by (rewrite length_app; cbn; lia).
    change (base ++ 46 :: e :: ext) with (base ++ [46] ++ e :: ext). rewrite (assoc_L (++)), take_app_length.
    by rewrite <-(assoc_L (++)).
  - unfold changeExtension. rewrite E, <-E, check_path_Ok, He. cbn [mbind outcome_bind].
    rewrite (proj2 (Z.ltb_ge _ _)) by lia. unfold assign_upto. rewrite (proj2 (Z.ltb_ge _ _)) by lia.
    by rewrite Nat2Z.id, take_app_length.
Qed.

(** A name without an extension cannot be given one: the code reads before it. *)
Lemma extension_not_added p e ext :
  p ≠ [] → Forall (λ c, c ≠ 46) p → changeExtension (Some p) (Some (e :: ext)) = UB.
Proof.
  intros Hn Hp. unfold changeExtension. destruct p as [|x p]; [done|]. rewrite check_path_Ok. cbn [mbind outcome_bind].
  assert (findExtension (x :: p) = -1) as ->; [|done].
  unfold findExtension. rewrite (lastIndexOfAny_none (x :: p) [46]).
  - destruct (lastIndexOfAny_bounds (x :: p) PathSeparatorChars) as [H|]; [|done].
    by rewrite (proj2 (Z.ltb_ge _ _)) by lia.
  - eapply Forall_impl; [exact Hp|]. intros c Hc. cbn. by rewrite (proj2 (Z.eqb_neq _ _)).
Qed.

(** Combining with an empty first path reads before it, and with an empty second path
    appends a separator, although both cases have a branch of their own. *)
Lemma combine_with_empty p c :
  separator c = false →
  combine (Some []) (Some (c :: p)) = UB ∧ combine (Some [c]) (Some []) = Ok [c; 47].
Proof.
  intros Hc. rewrite separator_spec in Hc. apply orb_false_iff in Hc as [H1 H2].
  unfold combine, isPathRooted. rewrite !check_path_Ok. cbn.
  unfold DirectorySeparatorChar, AltDirectorySeparatorChar, VolumeSeparatorChar. by rewrite !H1, H2.
Qed.

(** The root of a path is never anything but empty. *)
Lemma path_root_empty p : p ≠ [] → getPathRoot (Some p) = Ok [].
Proof.
  destruct p as [|c p]; [done|]. intros _. unfold getPathRoot, isPathRooted. rewrite check_path_Ok. cbn.
  unfold isDsc. by destruct (c =? DirectorySeparatorChar), (c =? AltDirectorySeparatorChar).
Qed.

(** A doubled separator in the second half of a path is kept, and the last character
    is lost instead: "aaaaaa//bb". *)
Lemma cleanPath_loses_character :
  cleanPath [97; 97; 97; 97; 97; 97; 47; 47; 98; 98] = Ok [97; 97; 97; 97; 97; 97; 47; 47; 98].
Proof. done. Qed.

Lemma path_roundtrip_witness :
  combine (Some ([97] ++ [98])) (Some [99]) = Ok ([97] ++ [98] ++ [47] ++ [99]) ∧
  getDirectoryName (Some ([97] ++ [98] ++ [47] ++ [99])) = Ok ([97] ++ [98]) ∧
  getFileName (Some ([97] ++ [98] ++ [47] ++ [99])) = Ok [99].
Proof.
  apply (path_roundtrip [97] 98 [99]); [by repeat split|done|done|by repeat constructor].
Defined.

End SPath.

Module FilesWitness.
Import SDirectory Listing.

(** "ab.c" and "*.?". *)
Lemma match_decides_witness :
  ∃ b, match_fuel 100 [97; 98; 46; 99] [42; 46; 63] false = Some (Ok b) ∧
    match_ [97; 98; 46; 99] [42; 46; 63] false = Ok b ∧
    (b = true ↔ wild (same false) [42; 46; 63] [97; 98; 46; 99]).
Proof.
  apply (match_decides false 100 [97; 98; 46; 99] [42; 46; 63]).
  - repeat constructor.
  - repeat constructor.
  - vm_compute. repeat constructor.
Defined.

#[local] Instance two_files : Directories := λ _, Some [inl [98]; inl [97]].
Lemma directory_listed_witness :
  ∃ l d', getListing_of [46] [42] SDirectory_ctor = (Ok l, d') ∧
    ordered str_less l ∧ l ≡ₚ chosen (setFilemask [42]) [[98]; [97]] ∧
    ∀ n, n ∈ l ↔ n ∈ [[98]; [97]] ∧ wild (same false) [42] n.
Proof.
  apply (directory_listed [46] [42] [[98]; [97]]); [reflexivity|repeat constructor|repeat constructor|].
  repeat constructor; discriminate.
Defined.

End FilesWitness.
