(* ===== verification/Calendar.v ===== *)
(** * Dates and times

    Models util/src/stime.cpp and util/include/stime.h: the broken-down time of
    the C library, the week of the year, the formatter, the parser of dates and
    the arithmetic of [STime].  The zone of the process is the class
    [LocalZone]. *)

From S2P Require Import Prelude Cxx.
From Stdlib Require Import SpecFloat.
#[local] Open Scope Z_scope.

(** ** The C library: [struct tm] and [gmtime_r] *)

Module Tm.

Record t := mk {
  tm_sec : Z; tm_min : Z; tm_hour : Z; tm_mday : Z; tm_mon : Z; tm_year : Z;
  tm_wday : Z; tm_yday : Z; tm_isdst : Z }.
#[export] Instance eq_dec : EqDecision t.
Proof. solve_decision. Defined.

Definition IF_LEAPYEAR (year : Z) : bool :=
  negb (truth (Z.rem year 4)) && (truth (Z.rem year 100) || negb (truth (Z.rem year 400))).

(** Days before a year, counted from 1 January of year 1. *)
Definition days_before_year (y : Z) : Z :=
  365 * (y - 1) + (y - 1) / 4 - (y - 1) / 100 + (y - 1) / 400.
Definition days_before_month (leap : bool) (mon : Z) : Z :=
  nth (Z.to_nat mon) [0; 31; 59; 90; 120; 151; 181; 212; 243; 273; 304; 334] 0
  + (if leap && (2 <=? mon) then 1 else 0).

(** The proleptic Gregorian year of a day, and the month of a day of the year. *)
Definition year_of_day (d : Z) : Z :=
  let y := 400 * d / 146097 + 1 in
  if d <? days_before_year y then y - 1
  else if days_before_year (y + 1) <=? d then y + 1 else y.
Definition month_of_yday (leap : bool) (yday : Z) : Z :=
  Z.of_nat (length (filter (λ m, days_before_month leap m <= yday)
                           [1; 2; 3; 4; 5; 6; 7; 8; 9; 10; 11])).

(** 1 January 1970. *)
Definition epoch_day : Z := days_before_year 1970.

Definition gmtime (time : Z) : t :=
  let days := time / 86400 + epoch_day in
  let secs := time mod 86400 in
  let y := year_of_day days in
  let yday := days - days_before_year y in
  let mon := month_of_yday (IF_LEAPYEAR y) yday in
  mk (secs mod 60) (secs / 60 mod 60) (secs / 3600)
     (yday - days_before_month (IF_LEAPYEAR y) mon + 1) mon (y - 1900)
     ((days + 1) mod 7) yday 0.

(** The seconds of a broken-down time in universal time. *)
Definition utc (tm : t) : Z :=
  86400 * (days_before_year (tm_year tm + 1900)
           + days_before_month (IF_LEAPYEAR (tm_year tm + 1900)) (tm_mon tm)
           + tm_mday tm - 1 - epoch_day)
  + 3600 * tm_hour tm + 60 * tm_min tm + tm_sec tm.

(** The ranges the C standard gives the fields [gmtime_r] fills. *)
Definition ok (tm : t) : Prop :=
  0 <= tm_sec tm < 60 ∧ 0 <= tm_min tm < 60 ∧ 0 <= tm_hour tm < 24 ∧
  1 <= tm_mday tm <= 31 ∧ 0 <= tm_mon tm < 12 ∧ 0 <= tm_wday tm < 7 ∧ 0 <= tm_yday tm < 366.

Lemma utc_gmtime time : utc (gmtime time) = time.
Proof.
  unfold utc, gmtime. cbn [tm_sec tm_min tm_hour tm_mday tm_mon tm_year].
  set (days := time / 86400 + epoch_day). set (y := year_of_day days).
  replace (y - 1900 + 1900) with y by lia.
  set (m := days_before_month _ _). set (b := days_before_year y).
  replace (b + m + (days - b - m + 1) - 1 - epoch_day) with (time / 86400) by lia.
  clearbody m b. clear y days.
  pose proof (Z.div_mod time 86400 ltac:(lia)) as H1.
  pose proof (Z.div_mod (time mod 86400) 60 ltac:(lia)) as H2.
  pose proof (Z.div_mod (time mod 86400 / 60) 60 ltac:(lia)) as H3.
  rewrite Z.div_div in H3 by lia. change (60 * 60) with 3600 in H3. lia.
Qed.

(** The year's first day is not after the day, and its last not before. *)
Lemma days_before_year_bounds y :
  146097 * (y - 1) - 3 * 400 < 400 * days_before_year y < 146097 * (y - 1) + 3 * 400.
Proof.
  unfold days_before_year.
  Z.to_euclidean_division_equations. lia.
Qed.

Lemma year_of_day_spec d :
  days_before_year (year_of_day d) <= d < days_before_year (year_of_day d + 1).
Proof.
  unfold year_of_day. set (y := 400 * d / 146097 + 1).
  pose proof (days_before_year_bounds (y - 1)) as B0.
  pose proof (days_before_year_bounds (y + 2)) as B2.
  assert (146097 * (y - 1) <= 400 * d < 146097 * y) as Hy.
  { unfold y. pose proof (Z.div_mod (400 * d) 146097 ltac:(lia)).
    pose proof (Z.mod_pos_bound (400 * d) 146097 ltac:(lia)). lia. }
  destruct (Z.ltb_spec d (days_before_year y)).
  - split; [lia|]. by replace (y - 1 + 1) with y by lia.
  - destruct (Z.leb_spec (days_before_year (y + 1)) d); [|lia].
    split; [done|]. replace (y + 1 + 1) with (y + 2) by lia. lia.
Qed.

Lemma truth_rem y k : k ≠ 0 → truth (Z.rem y k) = truth (y mod k).
Proof.
  intros Hk. unfold truth. f_equal. apply eq_bool_prop_intro. rewrite !Is_true_true, !Z.eqb_eq.
  by rewrite Z.rem_divide, Z.mod_divide by done.
Qed.

(** A year has 365 days, or 366 in a leap year. *)
Lemma days_before_year_step y :
  days_before_year (y + 1) = days_before_year y + if IF_LEAPYEAR y then 366 else 365.
Proof.
  unfold days_before_year, IF_LEAPYEAR. rewrite !truth_rem by lia. unfold truth.
  destruct (Z.eqb_spec (y mod 4) 0), (Z.eqb_spec (y mod 100) 0), (Z.eqb_spec (y mod 400) 0);
    cbn; Z.to_euclidean_division_equations; lia.
Qed.

(** The days of the year in their months. *)
Definition month_ok (leap : bool) (yday : Z) : bool :=
  let m := month_of_yday leap yday in
  (0 <=? m) && (m <? 12) && (1 <=? yday - days_before_month leap m + 1)
  && (yday - days_before_month leap m + 1 <=? 31).

Lemma month_ok_all leap yday :
  0 <= yday < (if leap : bool then 366 else 365) → month_ok leap yday = true.
Proof.
  intros H. assert (Forall (λ d, month_ok leap d = true) (seqZ 0 (if leap then 366 else 365))) as Hall
    by (apply (bool_decide_unpack _); destruct leap; vm_compute; exact I).
  rewrite Forall_forall in Hall. apply Hall, elem_of_seqZ. destruct leap; lia.
Qed.

Lemma gmtime_yday time : let tm := gmtime time in
  0 <= tm_yday tm < (if IF_LEAPYEAR (tm_year tm + 1900) then 366 else 365).
Proof.
  cbn. set (d := time / 86400 + epoch_day). pose proof (year_of_day_spec d) as Hy.
  replace (year_of_day d - 1900 + 1900) with (year_of_day d) by lia.
  rewrite days_before_year_step in Hy. destruct (IF_LEAPYEAR _); lia.
Qed.

(** Every time has a calendar date. *)
Lemma gmtime_ok time : ok (gmtime time).
Proof.
  pose proof (gmtime_yday time) as Hy. cbn in Hy.
  replace (year_of_day (time / 86400 + epoch_day) - 1900 + 1900)
    with (year_of_day (time / 86400 + epoch_day)) in Hy by lia.
  pose proof (month_ok_all _ _ Hy) as Hm. unfold month_ok in Hm.
  rewrite !andb_true_iff, !Z.leb_le, Z.ltb_lt in Hm.
  unfold ok, gmtime. cbn [tm_sec tm_min tm_hour tm_mday tm_mon tm_wday tm_yday].
  pose proof (Z.mod_pos_bound time 86400 ltac:(lia)).
  destruct (IF_LEAPYEAR _); Z.to_euclidean_division_equations; lia.
Qed.

End Tm.

(** ** The week of the year *)

Module Week.
Import Tm.

(** One turn of the loop of [cal_year_week]: the result, or the year and the day
    to go on with. *)
Definition cal_year_week_step (year yday wday : Z) : (Z * Z) + (Z * Z) :=
  let length := if IF_LEAPYEAR year then 366 else 365 in
  let bottom := Z.rem (yday + 11 - wday) 7 - 3 in
  let top := bottom - Z.rem length 7 in
  let top := (if top <? -3 then top + 7 else top) + length in
  if top <=? yday then inl (year + 1, 1)
  else if bottom <=? yday then inl (year, 1 + Z.quot (yday - bottom) 7)
  else inr (year - 1, yday + if IF_LEAPYEAR (year - 1) then 366 else 365).

Fixpoint cal_year_week_loop (fuel : nat) (year yday wday : Z) : option (Z * Z) :=
  match fuel with
  | O => None
  | S fuel =>
      match cal_year_week_step year yday wday with
      | inl r => Some r
      | inr (year, yday) => cal_year_week_loop fuel year yday wday
      end
  end.
(** Two turns are enough: [cal_year_week_is_iso]. *)
Definition cal_year_week (t : Tm.t) : option (Z * Z) :=
  cal_year_week_loop 2 (tm_year t + 1900) (tm_yday t) (tm_wday t).

(** ISO 8601: a week belongs to the year of its Thursday. *)
Definition iso_week (t : Tm.t) : Z * Z :=
  let year := tm_year t + 1900 in
  let len y := if IF_LEAPYEAR y then 366 else 365 in
  let thursday := tm_yday t - (tm_wday t + 6) mod 7 + 3 in
  if thursday <? 0 then (year - 1, (thursday + len (year - 1)) / 7 + 1)
  else if len year <=? thursday then (year + 1, (thursday - len year) / 7 + 1)
  else (year, thursday / 7 + 1).

(** Only the leap years decide: the result moves with the year. *)
Definition shift (n : Z) (r : Z * Z) : Z * Z := (r.1 + n, r.2).

Lemma cal_year_week_step_shift y n yday wday :
  IF_LEAPYEAR (y + n) = IF_LEAPYEAR y →
  match cal_year_week_step y yday wday with
  | inl r => cal_year_week_step (y + n) yday wday = inl (shift n r)
  | inr (y', yday') => y' = y - 1 ∧ (IF_LEAPYEAR (y + n - 1) = IF_LEAPYEAR (y - 1) →
      cal_year_week_step (y + n) yday wday = inr (y + n - 1, yday'))
  end.
Proof.
  intros H1. unfold cal_year_week_step. rewrite H1. clear H1.
  set (len := if IF_LEAPYEAR y then 366 else 365). clearbody len.
  set (top := if _ <? -3 then _ else (_ : Z)). clearbody top.
  destruct (top + len <=? yday); [unfold shift; cbn; do 2 f_equal; lia|].
  destruct (_ <=? yday); [done|]. split; [done|]. by intros ->.
Qed.

Lemma cal_year_week_shift y n yday wday r :
  IF_LEAPYEAR (y + n) = IF_LEAPYEAR y → IF_LEAPYEAR (y + n - 1) = IF_LEAPYEAR (y - 1) →
  cal_year_week_loop 2 y yday wday = Some r →
  cal_year_week_loop 2 (y + n) yday wday = Some (shift n r).
Proof.
  intros H1 H2. cbn [cal_year_week_loop].
  pose proof (cal_year_week_step_shift y n yday wday H1) as Hs.
  destruct (cal_year_week_step y yday wday) as [r1|[y' yday']].
  { rewrite Hs. by intros [= <-]. }
  destruct Hs as [-> Hs]. rewrite (Hs H2).
  pose proof (cal_year_week_step_shift (y - 1) n yday' wday) as Hs'.
  replace (y - 1 + n) with (y + n - 1) in Hs' by lia. specialize (Hs' H2).
  destruct (cal_year_week_step (y - 1) yday' wday) as [r1|[]]; [|done].
  rewrite Hs'. by intros [= <-].
Qed.

Lemma iso_week_shift y n tm :
  tm_year tm + 1900 = y + n →
  IF_LEAPYEAR (y + n) = IF_LEAPYEAR y → IF_LEAPYEAR (y + n - 1) = IF_LEAPYEAR (y - 1) →
  iso_week tm = shift n (iso_week (mk 0 0 0 0 0 (y - 1900) (tm_wday tm) (tm_yday tm) 0)).
Proof.
  intros E H1 H2. unfold iso_week. cbn [tm_year tm_wday tm_yday]. rewrite E.
  replace (y - 1900 + 1900) with y by lia. rewrite H1, H2.
  destruct (_ <? 0); [unfold shift; cbn; f_equal; lia|].
  destruct (_ <=? _); unfold shift; cbn; f_equal; lia.
Qed.

(** 2000, 2001 and 2002 show every pattern of leap years. *)
Definition like (year : Z) : Z :=
  if IF_LEAPYEAR year then 2000 else if IF_LEAPYEAR (year - 1) then 2001 else 2002.

Lemma like_leaps year : IF_LEAPYEAR (like year) = IF_LEAPYEAR year ∧
  IF_LEAPYEAR (like year - 1) = IF_LEAPYEAR (year - 1).
Proof.
  unfold like. destruct (IF_LEAPYEAR year) eqn:E; [|by destruct (IF_LEAPYEAR (year - 1))].
  split; [done|]. symmetry. change (IF_LEAPYEAR (2000 - 1)) with false.
  revert E. unfold IF_LEAPYEAR. rewrite !truth_rem by lia. unfold truth.
  destruct (Z.eqb_spec (year mod 4) 0); [|done].
  destruct (Z.eqb_spec ((year - 1) mod 4) 0); [|done].
  exfalso. Z.to_euclidean_division_equations. lia.
Qed.

Lemma cal_year_week_checked y : y ∈ [2000; 2001; 2002] →
  Forall (λ yday, Forall (λ wday, cal_year_week_loop 2 y yday wday
      = Some (iso_week (mk 0 0 0 0 0 (y - 1900) wday yday 0))) (seqZ 0 7))
    (seqZ 0 (if IF_LEAPYEAR y then 366 else 365)).
Proof.
  intros Hy. apply (bool_decide_unpack _).
  rewrite !elem_of_cons in Hy. destruct Hy as [-> | [-> | [-> | []%elem_of_nil]]];
    vm_compute; exact I.
Qed.

(** [cal_year_week] terminates within two turns of its loop and computes the
    ISO 8601 week and week-year of every date. *)
Theorem cal_year_week_is_iso t :
  0 <= tm_yday t < (if IF_LEAPYEAR (tm_year t + 1900) then 366 else 365) →
  0 <= tm_wday t < 7 →
  cal_year_week t = Some (iso_week t).
Proof.
  unfold cal_year_week. set (year := tm_year t + 1900). intros Hy Hw.
  destruct (like_leaps year) as [H1 H2]. set (n := year - like year).
  assert (year = like year + n) as E by (unfold n; lia).
  rewrite (iso_week_shift (like year) n t) by (rewrite <- ?E; done).
  rewrite E at 1. apply cal_year_week_shift; [by rewrite <- E..|].
  assert (like year ∈ [2000; 2001; 2002]) as Hl.
  { unfold like. repeat case_match; set_solver. }
  pose proof (cal_year_week_checked (like year) Hl) as Hall.
  rewrite Forall_forall in Hall. rewrite <- H1 in Hy.
  specialize (Hall (tm_yday t)). rewrite Forall_forall in Hall.
  rewrite (Hall ltac:(rewrite elem_of_seqZ; destruct (IF_LEAPYEAR _); lia) (tm_wday t)); [done|].
  rewrite elem_of_seqZ. lia.
Qed.

Lemma cal_year_week_is_iso_witness :
  cal_year_week (gmtime 1483228800) = Some (2016, 52).
Proof.
  rewrite (cal_year_week_is_iso (gmtime 1483228800)); [done|split; vm_compute; congruence..].
Defined.

End Week.

(** ** The zone of the process: [mktime], [localtime_r] and [timezone] of the C
    library, the last in seconds west of Greenwich *)
Class LocalZone := {
  mktime : Tm.t → Z;
  localtime : Z → Tm.t;
  timezone : Z }.

(** ** The formatter *)

Module Format.
Import Tm.

Definition g_day_names : list string :=
  ["Sunday"; "Monday"; "Tuesday"; "Wednesday"; "Thursday"; "Friday"; "Saturday"].
Definition g_day_names_short : list string := ["Sun"; "Mon"; "Tue"; "Wed"; "Thu"; "Fri"; "Sat"].
Definition g_mnth_names : list string :=
  ["January"; "February"; "March"; "April"; "May"; "June"; "July"; "August"; "September";
   "October"; "November"; "December"].
Definition g_mnth_names_short : list string :=
  ["Jan"; "Feb"; "Mar"; "Apr"; "May"; "Jun"; "Jul"; "Aug"; "Sep"; "Oct"; "Nov"; "Dec"].

(** [snprintf] of ["%0wd"] and of ["%wd"]. *)
Definition sprintf_int (zero : bool) (width : nat) (n : Z) : bytes :=
  let sign := if n <? 0 then [45] else [] in
  let digits := bytes_of_string (dec (Z.abs n)) in
  let pad := (width - length sign - length digits)%nat in
  if zero then sign ++ replicate pad 48 ++ digits else replicate pad 32 ++ sign ++ digits.

(** [names[i]] when the index is one of the table, or a question mark. *)
Definition name_or_mark (names : list string) (i : Z) : bytes :=
  bytes_of_string (if (i <? 0) || (Z.of_nat (length names) <=? i) then "?"
                   else nth (Z.to_nat i) names "").

(** What a conversion specification prints: a text, or another format. *)
Inductive directive := Text (b : outcome bytes) | Nested (fmt : string) | Unknown.

Section Format.
Context `{LocalZone}.
Variables (t : Tm.t) (usec : Z) (max_limit : nat).

Definition d2 : Z → bytes := sprintf_int true 2.
Definition s2 : Z → bytes := sprintf_int false 2.

(** The comparisons of [ISO_WEEK_NUM] and [TWO_DIG_YEAR] look at
    [time_format[i]], the percent sign, so all three print the year. *)
Definition iso_year_text : outcome bytes :=
  match Week.cal_year_week t with
  | Some (yr, _) => Ok (sprintf_int true 4 yr)
  | None => UB
  end.

Definition hour_min_offset : bytes :=
  (if 0 <=? timezone then [43] else [45])
  ++ d2 (i32 (Z.quot timezone 3600)) ++ d2 (i32 (Z.quot (Z.rem timezone 3600) 60)).

(** The [switch] of [format_time_into_specs]. *)
Definition directives : list (string * directive) :=
  [("A", Text (Ok (name_or_mark g_day_names (tm_wday t))));
   ("a", Text (Ok (name_or_mark g_day_names_short (tm_wday t))));
   ("0", Text (Ok (sprintf_int true 3 (Z.quot usec 1000))));
   ("1", Text (Ok (sprintf_int true 6 usec)));
   ("B", Text (Ok (name_or_mark g_mnth_names (tm_mon t))));
   ("bh", Text (Ok (name_or_mark g_mnth_names_short (tm_mon t))));
   ("c", Nested "%a %b %e %H:%M:%S %Y");
   ("D", Nested "%m/%d/%y");
   ("C", Text (Ok (d2 (Z.quot (tm_year t + 1900) 100))));
   ("d", Text (Ok (d2 (tm_mday t))));
   ("F", Nested "%Y-%m-%d");
   ("e", Text (Ok (s2 (tm_mday t))));
   ("H", Text (Ok (d2 (tm_hour t))));
   ("i", Nested "%Y-%m-%dT%H:%M:%S.%0");
   ("I", Text (Ok (d2 (if Z.rem (tm_hour t) 12 =? 0 then 12 else Z.rem (tm_hour t) 12))));
   ("k", Text (Ok (s2 (tm_hour t))));
   ("l", Text (Ok (s2 (if Z.rem (tm_hour t) 12 =? 0 then 12 else Z.rem (tm_hour t) 12))));
   ("j", Text (Ok (sprintf_int true 3 (tm_yday t + 1))));
   ("M", Text (Ok (d2 (tm_min t))));
   ("m", Text (Ok (d2 (tm_mon t + 1))));
   ("p", Text (Ok (bytes_of_string (if 12 <=? tm_hour t then "pm" else "am"))));
   ("n", Text (Ok [10]));
   ("R", Nested "%H:%M");
   ("r", Nested "%I:%M:%S %p");
   ("S", Text (Ok (d2 (tm_sec t))));
   ("s", Text (Ok (bytes_of_string (dec (u64 (mktime t))))));
   ("t", Text (Ok [9]));
   ("T", Nested "%H:%M:%S");
   ("u", Text (Ok (sprintf_int false 0 (if tm_wday t =? 0 then 7 else tm_wday t))));
   ("U", Text (Ok (d2 (Z.quot (tm_yday t + 7 - tm_wday t) 7))));
   ("VGg", Text iso_year_text);
   ("v", Nested "%e-%b-%Y");
   ("w", Text (Ok (sprintf_int false 0 (tm_wday t))));
   ("W", Text (Ok (d2 (Z.quot (tm_yday t + 7
     - (if truth (tm_wday t) then tm_wday t - 1 else 6)) 7))));
   ("x", Nested "%m/%d/%y");
   ("X", Nested "%H:%M:%S");
   ("Y", Text (Ok (sprintf_int true 4 (tm_year t + 1900))));
   ("y", Text (Ok (d2 (Z.rem (tm_year t + 1900) 100))));
   ("Z", Text (Ok (bytes_of_string "?")));
   ("z", Text (Ok hour_min_offset));
   ("+", Nested "%a, %d %b %Y %H:%M:%S %z")].
Definition directive_of (c : ascii) : directive :=
  match List.find (λ e, existsb (Z.eqb (ord c)) (bytes_of_string e.1)) directives with
  | Some (_, d) => d
  | None => Unknown
  end.

(** [add_timeformat_to_string]: what fits. *)
Definition add (out b : bytes) : bytes := out ++ take (max_limit - length out) b.
Definition full (out : bytes) : bool := (max_limit <=? length out)%nat.

(** The loop on [time_format + i].  A specification advances [i] by one, to its
    letter; anything else copies the {e next} character and advances by two,
    which steps over the final NUL when the letter was the last. *)
Fixpoint specs (nested : string → bytes → outcome bytes) (fmt out : bytes) : outcome bytes :=
  match fmt with
  | [] => Ok out
  | c :: rest =>
      match rest with
      | [] =>
          if full out then Ok out
          else if c =? 37 then Ok (out ++ [37]) else UB
      | s :: rest' =>
          let copy (_ : unit) := if full out then Ok out else specs nested rest' (out ++ [s]) in
          if c =? 37 then
            match directive_of (chr s) with
            | Text b => b ← b; specs nested rest (add out b)
            | Nested f => out ← nested f out; specs nested rest out
            | Unknown => copy tt
            end
          else copy tt
      end
  end.

(** The formats of [Nested] directives hold no further one:
    [directive_kind]. *)
Definition format_time_into_specs (fmt : bytes) (out : bytes) : outcome bytes :=
  specs (λ f out, specs (λ _ _, UB) (bytes_of_string f) out) fmt out.

(** The number returned, and the characters before the NUL; nothing is
    terminated when the buffer is full. *)
Definition format_time_into_string (fmt : string) : outcome (nat * bytes) :=
  out ← format_time_into_specs (bytes_of_string fmt) [];
  mret (if (length out =? max_limit)%nat then 0%nat else length out, out).

End Format.

(** *** Which formats run past their end *)

Inductive kind := KText | KNested | KUnknown.
Definition kind_of (c : Z) : kind :=
  if existsb (Z.eqb c) (bytes_of_string "AaBbhCdeHIklj01MmpnSstuUVGgwWYyZz") then KText
  else if existsb (Z.eqb c) (bytes_of_string "cDFiRrTvxX+") then KNested
  else KUnknown.

(** The loop steps over the final NUL; [nested] stands for what the formats of
    [Nested] directives do. *)
Fixpoint overruns (nested : bool) (fmt : bytes) : bool :=
  match fmt with
  | [] => false
  | c :: rest =>
      match rest with
      | [] => negb (c =? 37)
      | s :: rest' =>
          if c =? 37 then
            match kind_of s with
            | KText => overruns nested rest
            | KNested => nested
            | KUnknown => overruns nested rest'
            end
          else overruns nested rest'
      end
  end.

(** A number below [10 ^ k] has at most [k] digits. *)
Lemma pretty_N_go_length k n s :
  (n < 10 ^ N.of_nat k)%N → (String.length (pretty_N_go n s) <= k + String.length s)%nat.
Proof.
  revert n s. induction k as [|k IH]; intros n s Hn.
  { rewrite N.pow_0_r in Hn. assert (n = 0%N) as -> by lia. by rewrite pretty_N_go_0. }
  destruct (decide (n = 0%N)) as [->|Hn0]; [rewrite pretty_N_go_0; lia|].
  rewrite pretty_N_go_step by lia. etrans; [apply IH|cbn; lia].
  apply N.Div0.div_lt_upper_bound. rewrite Nat2N.inj_succ, N.pow_succ_r' in Hn. lia.
Qed.

Lemma dec_length z k : 0 <= z < 10 ^ Z.of_nat (S k) → (length (bytes_of_string (dec z)) <= S k)%nat.
Proof.
  intros Hz. rewrite bytes_of_string_length. destruct z as [|z|z]; [cbn; lia| |lia].
  change (dec (Z.pos z)) with (pretty_N_go (N.pos z) "").
  etrans; [apply (pretty_N_go_length (S k))|cbn; lia].
  assert (Z.pos z < 10 ^ Z.of_nat (S k)) as H by lia. clear Hz. revert H.
  generalize (S k). intros m H. apply N2Z.inj_lt. rewrite N2Z.inj_pow. cbn [Z.of_N].
  by rewrite nat_N_Z.
Qed.

Lemma sprintf_int_length zero w n : (w <= 6)%nat → Z.abs n < 10 ^ 10 →
  (length (sprintf_int zero w n) <= 11)%nat.
Proof.
  intros Hw Hn. pose proof (dec_length (Z.abs n) 9 ltac:(cbn [Z.of_nat]; lia)) as Hd.
  unfold sprintf_int. destruct (n <? 0), zero; rewrite ?length_app, ?length_replicate; cbn; lia.
Qed.

Section FormatFacts.
Context `{LocalZone}.
Variables (t : Tm.t) (usec : Z).

Lemma directive_kind_ascii c :
  match directive_of t usec c with
  | Text _ => kind_of (ord c) = KText
  | Nested f => kind_of (ord c) = KNested ∧ overruns false (bytes_of_string f) = true
      ∧ (length (bytes_of_string f) <=? 25)%nat = true
  | Unknown => kind_of (ord c) = KUnknown
  end.
Proof.
  destruct c as [[] [] [] [] [] [] [] []];
    unfold directive_of; cbn [directives List.find fst bytes_of_string]; lazy;
    try done; by split_and!.
Qed.

(** What the C library and the caller of [Format] guarantee. *)
Record printable : Prop := {
  printable_ok : ok t;
  printable_yday : tm_yday t < (if IF_LEAPYEAR (tm_year t + 1900) then 366 else 365);
  printable_year : - 2 ^ 31 <= tm_year t < 2 ^ 31;
  printable_usec : 0 <= usec < 10 ^ 6 }.

(** Every text is short. *)
Definition short (b : outcome bytes) : Prop := ∃ s, b = Ok s ∧ (length s <= 23)%nat.

Lemma short_Ok s : (length s <= 23)%nat → short (Ok s).
Proof. by exists s. Qed.

Lemma short_sprintf zero w n : (w <= 6)%nat → Z.abs n < 10 ^ 10 → short (Ok (sprintf_int zero w n)).
Proof. intros. apply short_Ok. etrans; [by apply sprintf_int_length|lia]. Qed.

Lemma short_name names i :
  Forall (λ n, (String.length n <= 23)%nat) names → short (Ok (name_or_mark names i)).
Proof.
  intros Hn. apply short_Ok. unfold name_or_mark. rewrite bytes_of_string_length.
  destruct (_ || _) eqn:E; [cbn; lia|]. apply orb_false_iff in E as [E1 E2].
  rewrite Forall_forall in Hn. apply Hn, list_elem_of_In, nth_In. lia.
Qed.

Lemma week_year_bound yr wk : printable → Week.cal_year_week t = Some (yr, wk) → Z.abs yr < 10 ^ 10.
Proof.
  intros [(_ & _ & _ & _ & _ & Hw & Hy) Hyd Hyr _] E.
  rewrite Week.cal_year_week_is_iso in E; [|split; [lia|done]|done]. injection E as E.
  unfold Week.iso_week in E. repeat case_match; simplify_eq; lia.
Qed.

Lemma quot_bound a b : 0 < b → Z.abs a < 10 ^ 10 → Z.abs (Z.quot a b) < 10 ^ 10.
Proof.
  intros Hb Ha. rewrite <- Z.quot_abs, Z.quot_div_nonneg by lia.
  apply Z.div_lt_upper_bound; nia.
Qed.

Lemma printable_directives : printable →
  Forall (λ e, match e.2 with Text b => short b | _ => True end) (directives t usec).
Proof.
  intros Hp. pose proof Hp as [(Hs & Hm & Hh & Hd & Hmo & Hw & Hy) Hyd Hyr Hu].
  unfold directives. repeat constructor; cbn [snd];
    try (apply short_name; repeat constructor; cbn; lia).
  all: rewrite ?Z.rem_mod_nonneg by lia.
  all: try (by apply short_Ok; cbn; lia).
  all: try (apply short_sprintf; [lia|]; try apply quot_bound;
    rewrite ?Z.rem_bound_abs; repeat case_match; Z.to_euclidean_division_equations; lia).
  - apply short_Ok. rewrite bytes_of_string_length. destruct (12 <=? tm_hour t); cbn; lia.
  - apply short_Ok. etrans; [apply (dec_length _ 19)|lia]. unfold u64.
    pose proof (Z.mod_pos_bound (mktime t) (2 ^ 64)). cbn [Z.of_nat]. lia.
  - unfold iso_year_text. destruct (Week.cal_year_week t) as [[yr wk]|] eqn:Ew.
    + apply short_sprintf; [lia|]. by eapply week_year_bound.
    + rewrite Week.cal_year_week_is_iso in Ew; [done|split; [lia|done]|done].
  - apply short_Ok. unfold hour_min_offset, d2. rewrite !length_app.
    assert (∀ z, Z.abs (i32 z) < 10 ^ 10) as Hi.
    { intros z. unfold i32. pose proof (Z.mod_pos_bound (z + 2 ^ 31) (2 ^ 32) ltac:(lia)). lia. }
    pose proof (sprintf_int_length true 2 (i32 (timezone `quot` 3600)) ltac:(lia) (Hi _)).
    pose proof (sprintf_int_length true 2 (i32 ((timezone `rem` 3600) `quot` 60)) ltac:(lia) (Hi _)).
    destruct (0 <=? timezone); cbn [length]; lia.
Qed.

Lemma printable_short : printable → ∀ c b, directive_of t usec c = Text b → short b.
Proof.
  intros Hp c b. unfold directive_of. destruct (List.find _ _) as [[l d]|] eqn:E; [|done].
  apply List.find_some in E as [E%list_elem_of_In _]. intros ->.
  pose proof (printable_directives Hp) as Hall. rewrite Forall_forall in Hall.
  apply (Hall _ E).
Qed.

Section Budget.
Variables (max_limit : nat) (nested : string → bytes → outcome bytes) (b : bool).
Hypothesis (Hp : printable).
(** The nested formats overrun when [b] says so. *)
Hypothesis (Hnested : b = true → ∀ f c out, directive_of t usec c = Nested f →
  (length out + 24 * 25 < max_limit)%nat → nested f out = UB).

Lemma add_fits out s : (length out + length s <= max_limit)%nat → add max_limit out s = out ++ s.
Proof. intros Hl. unfold add. rewrite take_ge by lia. done. Qed.

(** With 24 characters for each character of the format, and room for a nested
    format, the loop overruns exactly when [overruns] says so. *)
Lemma specs_overruns fmt out :
  are_bytes fmt →
  (length out + 24 * length fmt + (if b then 24 * 25 else 0) < max_limit)%nat →
  if overruns b fmt then specs t usec max_limit nested fmt out = UB
  else b = true → is_Ok (specs t usec max_limit nested fmt out).
Proof using Hp Hnested.
  intros Hbytes. revert out. induction fmt as [fmt IH] using (induction_ltof1 _ (@length Z)).
  unfold ltof in IH. intros out Hlen.
  assert (∀ o, (length o < max_limit)%nat → full max_limit o = false) as Hfull.
  { intros o Ho. unfold full. apply Nat.leb_gt. lia. }
  destruct fmt as [|c [|s rest]]; cbn [specs overruns length] in *; [done| |].
  { rewrite Hfull by lia. destruct (c =? 37); cbn; auto. }
  apply Forall_cons in Hbytes as [Hc Hbytes]. apply Forall_cons in Hbytes as [Hs Hrest].
  assert (if overruns b rest then specs t usec max_limit nested rest (out ++ [s]) = UB
    else b = true → is_Ok (specs t usec max_limit nested rest (out ++ [s]))) as Hcopy.
  { apply IH; [lia|done|]. rewrite length_app. cbn [length]. lia. }
  rewrite (Hfull out) by lia. destruct (c =? 37); [|done].
  pose proof (directive_kind_ascii (chr s)) as Hk. rewrite ord_chr in Hk by done.
  destruct (directive_of t usec (chr s)) as [x|f|] eqn:Ed.
  - rewrite Hk. destruct (printable_short Hp _ _ Ed) as (x' & -> & Hx). cbn [mbind outcome_bind].
    rewrite add_fits by lia.
    apply (IH (s :: rest)); [cbn; lia|by constructor|]. rewrite length_app. cbn [length]. lia.
  - destruct Hk as (-> & _ & _).
    destruct b; [|done]. by rewrite (Hnested eq_refl f (chr s)) by (done || lia).
  - by rewrite Hk.
Qed.

End Budget.

(** A format whose texts fit overruns exactly when [overruns] says so. *)
Lemma format_overruns_if (max_limit : nat) (fmt : string) :
  printable → (24 * String.length fmt + 24 * 25 < max_limit)%nat →
  if overruns true (bytes_of_string fmt)
  then format_time_into_string t usec max_limit fmt = UB
  else is_Ok (format_time_into_string t usec max_limit fmt).
Proof.
  intros Hp Hlen. rewrite <- bytes_of_string_length in Hlen.
  assert (if overruns true (bytes_of_string fmt)
    then format_time_into_specs t usec max_limit (bytes_of_string fmt) [] = UB
    else true = true → is_Ok (format_time_into_specs t usec max_limit (bytes_of_string fmt) [])) as H0.
  { apply specs_overruns; [done| |apply bytes_of_string_are_bytes|cbn; lia].
    intros _ f c out Hc Hout. pose proof (directive_kind_ascii c) as Hk. rewrite Hc in Hk.
    destruct Hk as (_ & Ho & Hl). apply Nat.leb_le in Hl.
    pose proof (specs_overruns max_limit (λ _ _, UB) false Hp ltac:(done) (bytes_of_string f) out
      (bytes_of_string_are_bytes f)) as Hs.
    rewrite Ho in Hs. apply Hs. lia. }
  unfold format_time_into_string. destruct (overruns true _); [by rewrite H0|].
  destruct (H0 eq_refl) as [r ->]. cbn. eauto.
Qed.

End FormatFacts.
End Format.

(** ** The parser of dates *)

Module DateParse.
Import Tm.

Definition TIME_SEP : Z := 1.
Definition DATE_SEP : Z := 2.
Definition MONTH_SEP : Z := 4.
Definition AM_SEP : Z := 8.
Definition PM_SEP : Z := 16.
Definition AM_PM : Z := Z.lor AM_SEP PM_SEP.
Definition MON_DAY_YEAR_ORDER : Z := 1.
Definition YEAR_MON_DAY_ORDER : Z := 2.
Definition YEAR_DAY_MON_ORDER : Z := 4.
Definition DAY_MON_YEAR_ORDER : Z := 8.
Definition MON_YEAR_DAY_ORDER : Z := 16.

(** The [parse_date] record; both arrays have seven entries. *)
Record parse_date := mk_pd {
  field_flags : list Z; field_parse_flags : Z; field_values : list Z; field_count : nat }.
Definition zeroed : parse_date := mk_pd (replicate 7 0) 0 (replicate 7 0) 0.
Definition flag (pd : parse_date) (i : nat) : Z := nth i (field_flags pd) 0.
Definition value (pd : parse_date) (i : nat) : Z := nth i (field_values pd) 0.
Definition has (x flags : Z) : bool := truth (Z.land x flags).

(** [field_flags[i] |= flags]. *)
Definition or_flag (pd : parse_date) (i : nat) (flags : Z) : parse_date :=
  pd <| field_flags ::= alter (λ x, Z.lor x flags) i |>.
Definition add_field (pd : parse_date) (v : Z) : parse_date :=
  pd <| field_values ::= <[field_count pd := v]> |> <| field_count ::= S |>.

(** *** Characters (the "C" locale) and the C library's [strtoul] *)

Definition isalpha (c : Z) : bool := ((65 <=? c) && (c <=? 90)) || ((97 <=? c) && (c <=? 122)).
Definition tolower (c : Z) : Z := if (65 <=? c) && (c <=? 90) then c + 32 else c.

(** The value, and what follows the digits. *)
Fixpoint strtoul_loop (s : bytes) (acc : Z) : Z * bytes :=
  match s with
  | c :: s' => if isdigit c then strtoul_loop s' (acc * 10 + (c - 48)) else (acc, s)
  | [] => (acc, [])
  end.
Definition strtoul (s : bytes) : Z * bytes :=
  let '(v, rest) := strtoul_loop s 0 in (Z.min v (2 ^ 64 - 1), rest).

(** [strncasecmp(s, token, strlen(token)) == 0]. *)
Fixpoint starts_with (s token : bytes) : bool :=
  match token, s with
  | [], _ => true
  | x :: token', c :: s' => (tolower c =? tolower x) && starts_with s' token'
  | _ :: _, [] => false
  end.

Definition tokens : list string :=
  Format.g_mnth_names ++ [""] ++ Format.g_mnth_names_short ++ [""]
  ++ ["Monday"; "Tuesday"; "Wednesday"; "Thursday"; "Friday"; "Saturday"; "Sunday";
      "Mon"; "Tue"; "Wed"; "Thu"; "Fri"; "Sat"; "Sun"; "AM"; "PM"].
Definition ParseDateMonths (i : nat) : Z := Z.of_nat (S (i mod 13)).

(** The first non-empty token the text starts with: its index and length. *)
Fixpoint find_token (ts : list string) (i : nat) (s : bytes) : option (nat * nat) :=
  match ts with
  | [] => None
  | t :: ts' =>
      if (0 <? String.length t)%nat && starts_with s (bytes_of_string t)
      then Some (i, String.length t) else find_token ts' (S i) s
  end.

(** *** The loop over the text *)

(** One turn: [Ok None] is [return false]; [UB] a step over the final NUL. *)
Definition parse_alpha (pd : parse_date) (c : Z) (s : bytes)
    : outcome (option (parse_date * bytes)) :=
  match find_token tokens 0 s with
  | Some (i, len) =>
      let rest := drop len s in
      if (i <=? 25)%nat then
        let k := field_count pd in
        let pd := add_field pd (ParseDateMonths i) in
        Ok (Some (or_flag pd k (Z.lor MONTH_SEP DATE_SEP), rest))
      else if (39 <? i)%nat then
        if (field_count pd =? 0)%nat || has (field_parse_flags pd) AM_PM then Ok None
        else
          let f := if (i =? 40)%nat then AM_SEP else PM_SEP in
          Ok (Some ((or_flag pd (field_count pd - 1) f) <| field_parse_flags ::= Z.lor f |>, rest))
      else Ok (Some (pd, rest))
  | None =>
      let lower := tolower c in
      if ((lower =? 97) || (lower =? 112))
         && (negb (field_count pd =? 0)%nat && negb (has (field_parse_flags pd) AM_PM)) then
        let f := if lower =? 97 then AM_SEP else PM_SEP in
        let pd := (or_flag pd (field_count pd - 1) f) <| field_parse_flags ::= Z.lor f |> in
        (* [strIn++] here and again at the end of the turn *)
        match s with
        | _ :: _ :: rest => Ok (Some (pd, rest))
        | _ => UB
        end
      else if c =? 84 then Ok (Some (pd, tail s))
      else Ok None
  end.

Definition parse_step (pd : parse_date) (seps : nat) (c : Z) (s : bytes)
    : outcome (option (parse_date * nat * bytes)) :=
  let next := tail s in
  let last := (field_count pd - 1)%nat in
  let nothing := (field_count pd =? 0)%nat in
  let at_end := match next with [] => true | _ => false end in
  if isdigit c then
    let '(v, rest) := strtoul s in Ok (Some (add_field pd (u32 v), seps, rest))
  else if isalpha c then
    r ← parse_alpha pd c s;
    mret (match r with Some (pd, rest) => Some (pd, seps, rest) | None => None end)
  else if (c =? 58) || (c =? 46) then
    Ok (if nothing || at_end then None else Some (or_flag pd last TIME_SEP, seps, next))
  else if (c =? 45) || (c =? 47) then
    Ok (if (2 <? S seps)%nat || nothing || at_end then None
        else Some (or_flag pd last DATE_SEP, S seps, next))
  else if (c =? 44) || isspace c then
    Ok (if (c =? 44) && at_end then None else Some (pd, seps, next))
  else Ok None.

Fixpoint parse_loop (fuel : nat) (pd : parse_date) (seps : nat) (s : bytes)
    : outcome (option parse_date) :=
  match s with
  | [] => Ok (Some pd)
  | c :: _ =>
      if (7 <=? field_count pd)%nat then Ok (Some pd) else
      match fuel with
      | O => UB
      | S fuel =>
          r ← parse_step pd seps c s;
          match r with
          | None => mret None
          | Some (pd, seps, rest) => parse_loop fuel pd seps rest
          end
      end
  end.
(** Every turn consumes a character: [parse_fuel_enough]. *)
Definition parse (s : string) : outcome (option parse_date) :=
  let s := bytes_of_string s in parse_loop (length s) zeroed 0 s.

(** *** Which fields are the time of day *)

(** What the [switch] on the positions of the time fields yields. *)
Record split := mk_split {
  s_hour : Z; s_min : Z; s_sec : Z; s_milliseconds : Z; s_offset : nat; s_count : nat }.

Definition ampm (pd : parse_date) (i : nat) : bool := has (flag pd i) AM_PM.

(** [case 0x8], which [case 0x0] falls into. *)
Definition split_DDDTT (pd : parse_date) : option split :=
  let n := field_count pd in
  if ((n =? 2)%nat && has (field_parse_flags pd) AM_PM)
     || ((n =? 5)%nat && (ampm pd 0 || ampm pd 1 || ampm pd 2))
     || (n =? 4)%nat || (n =? 6)%nat then None
  else Some (mk_split (value pd 3) (value pd 4) 0 0 0 (if (n =? 5)%nat then n - 2 else n)).

Definition split_DDD (pd : parse_date) : option split :=
  let n := field_count pd in
  if (n =? 1)%nat && has (field_parse_flags pd) AM_PM then Some (mk_split (value pd 0) 0 0 0 0 0)
  else if (4 <? n)%nat || ((n <? 3)%nat && has (field_parse_flags pd) AM_PM) then None
  else if (n =? 3)%nat then
    if ampm pd 0 then Some (mk_split (value pd 0) 0 0 0 1 2)
    else if ampm pd 2 then Some (mk_split (value pd 2) 0 0 0 0 2)
    else if has (field_parse_flags pd) AM_PM then None
    else split_DDDTT pd
  else if (n =? 4)%nat then
    if ampm pd 0 then Some (mk_split (value pd 0) 0 0 0 1 3)
    else if ampm pd 3 then Some (mk_split (value pd 3) 0 0 0 0 3)
    else None
  else split_DDDTT pd.

Definition split_fields (pd : parse_date) : option split :=
  let n := field_count pd in
  let time i := Z.shiftl (Z.land (flag pd i) TIME_SEP) (Z.of_nat i) in
  let val := Z.lor (Z.lor (Z.lor (Z.lor (time 0%nat) (time 1%nat)) (time 2%nat)) (time 3%nat))
               (time 4%nat) in
  if val =? 1 then (* TT TTDD TTDDD *)
    if (3 <? n)%nat && (ampm pd 2 || ampm pd 3 || ampm pd 4) then None
    else if negb ((n =? 2) || (n =? 4) || (n =? 5))%nat then None
    else Some (mk_split (value pd 0) (value pd 1) 0 0 2 (n - 2))
  else if val =? 3 then (* TTT TTTDD TTTDDD *)
    if (4 <? n)%nat && (ampm pd 3 || ampm pd 4 || ampm pd 5) then None
    else if negb ((n =? 3) || (n =? 5) || (n =? 6))%nat then None
    else Some (mk_split (value pd 0) (value pd 1) (value pd 2) (value pd 3) 3 (n - 3))
  else if val =? 4 then (* DDTT *)
    if negb (n =? 4)%nat || ampm pd 0 || ampm pd 1 then None
    else Some (mk_split (value pd 2) (value pd 3) 0 0 0 (n - 2))
  else if val =? 0 then split_DDD pd
  else if val =? 8 then split_DDDTT pd
  else if val =? 12 then (* DDTTT *)
    if negb (n =? 5)%nat || ampm pd 0 || ampm pd 1 then None
    else Some (mk_split (value pd 2) (value pd 3) (value pd 4) (value pd 5) 0 (n - 3))
  else if val =? 24 then (* DDDTTT *)
    if ampm pd 0 || ampm pd 1 || ampm pd 2 then None
    else Some (mk_split (value pd 3) (value pd 4) (value pd 5) (value pd 6) 0 (n - 3))
  else None.

(** *** Which number is the day *)

Definition validate_date (day month year : Z) : bool :=
  let day := u32 day in let month := u32 month in let year := u32 year in
  if (month <? 1) || (12 <? month) then false
  else if day <? 1 then false
  else
    let days :=
      if month =? 2 then (if IF_LEAPYEAR year then 29 else 28)
      else if (month =? 4) || (month =? 6) || (month =? 9) || (month =? 11) then 30 else 31 in
    day <=? days.

Definition GIVE_YEAR (year : Z) : Z :=
  if year <? 30 then 2000 + year else if year <? 100 then 1900 + year else year.

(** The hour, minute and second of the [struct tm] at hand, and the date. *)
Record found := mk_found { f_hour : Z; f_min : Z; f_sec : Z; f_day : Z; f_month : Z; f_year : Z }.

Definition create_date (parse_flags hour min sec day month year : Z) : option found :=
  if (23 <? hour) || (59 <? min) || (59 <? sec) then None
  else
    let hour :=
      if (hour <? 12) && has parse_flags PM_SEP then hour + 12
      else if (hour =? 12) && has parse_flags AM_SEP then 0 else hour in
    Some (mk_found hour min sec day month (GIVE_YEAR year)).

Section Order.
(** [date] is 0 in the only call. *)
Variables (parse_flags hour min sec : Z).

(** One turn of the loop: the orders left, or a result. *)
Definition try_order (day_try date_order day month year : Z) : option found + Z :=
  let make := create_date parse_flags hour min sec in
  if has day_try MON_DAY_YEAR_ORDER then
    if validate_date month day year then inl (make month day year)
    else inr (Z.ldiff date_order MON_DAY_YEAR_ORDER)
  else if has day_try YEAR_MON_DAY_ORDER then
    if validate_date year month day then inl (make year month day)
    else inr (Z.ldiff date_order YEAR_MON_DAY_ORDER)
  else if has day_try YEAR_DAY_MON_ORDER then
    if validate_date month year day then inl (make month year day)
    else inr (Z.ldiff date_order YEAR_DAY_MON_ORDER)
  else if has day_try DAY_MON_YEAR_ORDER then
    if validate_date day month year then inl (make day month year)
    else inr (Z.ldiff date_order DAY_MON_YEAR_ORDER)
  else if has day_try MON_YEAR_DAY_ORDER then
    if validate_date year day month then inl (make year month day)
    else inr (Z.ldiff date_order MON_YEAR_DAY_ORDER)
  else inr date_order.

(** [for (i = 0; i < date_order; i++, day_count++)]. *)
Fixpoint orders_loop (fuel : nat) (i : Z) (date_order day month year : Z) : option (option found) :=
  match fuel with
  | O => None
  | S fuel =>
      if i <? date_order then
        let day_try :=
          if i =? 1 then Z.ldiff date_order (Z.lor DAY_MON_YEAR_ORDER YEAR_DAY_MON_ORDER)
          else date_order in
        if negb (truth day_try) then orders_loop fuel (i + 1) date_order day month year
        else match try_order day_try date_order day month year with
             | inl r => Some r
             | inr date_order => orders_loop fuel (i + 1) date_order day month year
             end
      else None
  end.

Lemma ldiff_le a b : 0 <= a → 0 <= Z.ldiff a b <= a.
Proof.
  intros Ha. split; [apply Z.ldiff_nonneg; by left|].
  enough (Z.ldiff a b + Z.land a b = a) by (pose proof (proj2 (Z.land_nonneg a b) (or_introl Ha)); lia).
  rewrite <- Z.add_lor_land.
  assert (Z.lor (Z.ldiff a b) (Z.land a b) = a) as ->.
  { apply Z.bits_inj'; intros n _. rewrite Z.lor_spec, Z.land_spec, Z.ldiff_spec.
    by destruct (Z.testbit a n), (Z.testbit b n). }
  assert (Z.land (Z.ldiff a b) (Z.land a b) = 0) as ->; [|lia].
  apply Z.bits_inj'; intros n _. rewrite !Z.land_spec, Z.ldiff_spec, Z.bits_0.
  by destruct (Z.testbit a n), (Z.testbit b n).
Qed.

Lemma try_order_shrinks day_try date_order day month year d :
  0 <= date_order → try_order day_try date_order day month year = inr d → 0 <= d <= date_order.
Proof.
  intros H. unfold try_order. repeat case_match; intros [= <-]; auto using ldiff_le; lia.
Qed.

(** The bound of the loop only shrinks, and it is at most 31 in every call. *)
Lemma orders_fuel_enough fuel fuel' i date_order day month year :
  0 <= date_order → date_order - i <= Z.of_nat fuel → date_order - i <= Z.of_nat fuel' →
  orders_loop fuel i date_order day month year = orders_loop fuel' i date_order day month year.
Proof.
  revert fuel' i date_order. induction fuel as [|fuel IH]; intros [|fuel'] i d Hd Hf Hf';
    cbn [orders_loop]; [done|rewrite (proj2 (Z.ltb_ge i d)) by lia; done..|].
  destruct (Z.ltb_spec i d); [|done]. case_match; [apply IH; lia|].
  destruct (try_order _ d day month year) eqn:E; [done|].
  apply try_order_shrinks in E; [apply IH; lia|done].
Qed.

(** A second try with two fields: the year is 1. *)
Definition initiate_and_create_date (count : nat) (date_order day month year : Z) : option found :=
  match orders_loop 32 0 date_order day month year with
  | Some r => r
  | None =>
      if (count =? 2)%nat then
        default None (orders_loop 32 0 (Z.lor YEAR_MON_DAY_ORDER MON_YEAR_DAY_ORDER) day month 1)
      else None
  end.
End Order.

Definition determine_date (pd : parse_date) (sp : split) (now : Z) : option found :=
  let make := create_date (field_parse_flags pd) (i32 (s_hour sp)) (i32 (s_min sp)) (i32 (s_sec sp)) in
  let seek := s_offset sp in
  let count := s_count sp in
  if (count =? 0)%nat then make 30 12 1899
  else
    let day := i32 (value pd seek) in
    let month := i32 (value pd (seek + 1)) in
    let year := if (count =? 2)%nat then tm_year (gmtime now) + 1900
                else i32 (value pd (seek + 2)) in
    let more := (2 <? count)%nat in
    let date_order :=
      if has (flag pd seek) MONTH_SEP then MON_DAY_YEAR_ORDER
      else if has (flag pd (seek + 1)) MONTH_SEP then
        if more then Z.lor DAY_MON_YEAR_ORDER YEAR_MON_DAY_ORDER else DAY_MON_YEAR_ORDER
      else if more && has (flag pd (seek + 2)) MONTH_SEP then YEAR_DAY_MON_ORDER
      else
        let o := Z.lor MON_DAY_YEAR_ORDER DAY_MON_YEAR_ORDER in
        if more then Z.lor o (Z.lor YEAR_MON_DAY_ORDER YEAR_DAY_MON_ORDER) else o in
    initiate_and_create_date (field_parse_flags pd) (i32 (s_hour sp)) (i32 (s_min sp))
      (i32 (s_sec sp)) count date_order day month year.

Section Zone.
Context `{LocalZone}.

(** [timegm] of stime.cpp, by way of [mktime]. *)
Definition mktime_or_earlier (t : Tm.t) : option Z :=
  let tl := mktime t in
  if tl =? -1 then
    let tl := mktime (t <| tm_hour ::= Z.pred |>) in
    if tl =? -1 then None else Some (tl + 3600)
  else Some tl.
Definition timegm (t : Tm.t) : Z :=
  match mktime_or_earlier t with
  | None => -1
  | Some tl =>
      match mktime_or_earlier ((gmtime tl) <| tm_isdst := 0 |>) with
      | None => -1
      | Some tb => tl - (tb - tl)
      end
  end.

(** The broken-down time of a date found. *)
Definition tm_of_found (f : found) (isLocal : bool) : Tm.t :=
  let '(sec, min, hour, mon, year) :=
    if 2037 <? f_year f then (59, 59, 23, 12, 2037)
    else (f_sec f, f_min f, f_hour f, f_month f, f_year f) in
  mk sec min hour (f_day f) (mon - 1) (year - 1900) 0 0 (if isLocal then -1 else 0).

(** [DateFromStr]: the value returned -- always [false] -- and the [timeval]
    left behind.  [time(NULL)] is [now]; the milliseconds are an [int32_t]
    multiplied as one. *)
Definition DateFromStr (strIn : string) (isLocal : bool) (now : Z) : outcome (bool * (Z * Z)) :=
  r ← parse strIn;
  match r with
  | None => mret (false, (0, 0))
  | Some dp =>
      if (field_count dp =? 0)%nat
         || ((field_count dp =? 1)%nat && negb (has (field_parse_flags dp) AM_PM))
      then mret (false, (0, 0))
      else match split_fields dp with
           | None => mret (false, (0, 0))
           | Some sp =>
               match determine_date dp sp now with
               | None => mret (false, (0, 0))
               | Some f =>
                   let tv_sec := (if isLocal then mktime else timegm) (tm_of_found f isLocal) in
                   let ms := if 2037 <? f_year f then 0 else i32 (s_milliseconds sp) in
                   if bool_decide (- 2 ^ 31 <= ms * 1000 < 2 ^ 31)
                   then mret (false, (tv_sec, ms * 1000)) else UB
               end
           end
  end.
End Zone.

End DateParse.

(** A zone at a fixed distance from universal time. *)
Definition fixed_zone (offset : Z) : LocalZone :=
  {| mktime t := Tm.utc t - offset;
     localtime time := Tm.gmtime (time + offset);
     timezone := - offset |}.

Module DateFacts.
Import Tm DateParse.

Lemma timegm_fixed (offset : Z) (t : Tm.t) (time : Z) :
  timegm (H := fixed_zone offset) t = utc t ∧
  timegm (H := fixed_zone offset) (gmtime time) = time.
Proof.
  assert (∀ t, mktime_or_earlier (H := fixed_zone offset) t = Some (utc t - offset)) as Hm.
  { intros t'. unfold mktime_or_earlier. cbn [mktime fixed_zone].
    destruct (Z.eqb_spec (utc t' - offset) (-1)) as [E|]; [|done].
    assert (utc (t' <| tm_hour ::= Z.pred |>) = utc t' - 3600) as ->.
    { unfold utc. destruct t'; cbn. lia. }
    destruct (Z.eqb_spec (utc t' - 3600 - offset) (-1)); [lia|]. f_equal. lia. }
  assert (∀ t, timegm (H := fixed_zone offset) t = utc t) as Hg.
  { intros t'. unfold timegm. rewrite !Hm.
    assert (∀ tm, utc (tm <| tm_isdst := 0 |>) = utc tm) as -> by (by intros []).
    rewrite utc_gmtime. lia. }
  split; [apply Hg|]. rewrite Hg. apply utc_gmtime.
Qed.

(** In a zone at a fixed distance from universal time, [timegm] of stime.cpp
    -- two calls of [mktime] and one of [gmtime] -- computes universal time,
    also around the second that [mktime] cannot tell from its error; so it
    undoes [gmtime]. *)
Theorem timegm_is_utc (offset : Z) (t : Tm.t) (time : Z) :
  timegm (H := fixed_zone offset) t = utc t ∧
  timegm (H := fixed_zone offset) (gmtime time) = time.
Proof. apply timegm_fixed. Qed.

(** A run of digits and the number it denotes. *)
Definition numeral (b : bytes) (n : Z) : Prop :=
  b ≠ [] ∧ forallb isdigit b = true ∧ (strtoul_loop b 0).1 = n.

Definition no_digit (s : bytes) : Prop := match s with c :: _ => isdigit c = false | [] => True end.

Lemma strtoul_loop_app b rest acc :
  forallb isdigit b = true → no_digit rest →
  strtoul_loop (b ++ rest) acc = ((strtoul_loop b acc).1, rest).
Proof.
  intros Hb Hr. revert acc. induction b as [|c b IH]; intros acc; cbn in *.
  - destruct rest; [done|]. cbn in *. by rewrite Hr.
  - apply andb_true_iff in Hb as [-> Hb]. by apply IH.
Qed.

Lemma parse_numeral fuel pd seps b n rest :
  numeral b n → 0 <= n < 2 ^ 32 → no_digit rest → (field_count pd < 7)%nat →
  parse_loop (S fuel) pd seps (b ++ rest) = parse_loop fuel (add_field pd n) seps rest.
Proof.
  intros (Hne & Hb & Hn) Hr Hrest Hc. destruct b as [|c b]; [done|].
  cbn [app parse_loop]. rewrite leb_correct_conv by done.
  unfold parse_step. cbn [forallb] in Hb. pose proof Hb as Hb'. apply andb_true_iff in Hb' as [-> _].
  unfold strtoul. change (c :: b ++ rest) with ((c :: b) ++ rest).
  rewrite strtoul_loop_app by done. rewrite Hn, Z.min_l by lia. rewrite u32_small by lia. done.
Qed.

Lemma numeral_app b n rest : numeral b n → ∃ c l, b ++ rest = c :: l ∧ isdigit c = true.
Proof.
  intros (Hne & Hb & _). destruct b as [|c b]; [done|]. cbn in Hb.
  apply andb_true_iff in Hb as [Hc _]. by exists c, (b ++ rest).
Qed.

(** One separator before a digit. *)
Lemma parse_separator fuel pd seps x b n rest pd' seps' :
  numeral b n → (field_count pd < 7)%nat →
  (∀ c l, isdigit c = true → parse_step pd seps x (x :: c :: l) = Ok (Some (pd', seps', c :: l))) →
  parse_loop (S fuel) pd seps (x :: b ++ rest) = parse_loop fuel pd' seps' (b ++ rest).
Proof.
  intros Hb Hc Hx. destruct (numeral_app b n rest Hb) as (c & l & -> & Hd).
  cbn [parse_loop]. rewrite leb_correct_conv by done. by rewrite (Hx c l Hd).
Qed.

Lemma isdigit_cases c : isdigit c = true →
  c = 48 ∨ c = 49 ∨ c = 50 ∨ c = 51 ∨ c = 52 ∨ c = 53 ∨ c = 54 ∨ c = 55 ∨ c = 56 ∨ c = 57.
Proof. unfold isdigit. lia. Qed.

(** A letter T before a digit is no token. *)
Lemma parse_T pd seps c l : isdigit c = true →
  parse_step pd seps 84 (84 :: c :: l) = Ok (Some (pd, seps, c :: l)).
Proof.
  intros Hd. pose proof (isdigit_cases c Hd) as Hc.
  repeat destruct Hc as [-> | Hc]; [reflexivity..|by subst c].
Qed.

(** The text of an ISO date and time. *)
Definition iso_text (y m d h mi s : bytes) : bytes :=
  y ++ 45 :: m ++ 45 :: d ++ 84 :: h ++ 58 :: mi ++ 58 :: s ++ [].

Definition iso_fields (y m d h mi s : Z) : parse_date :=
  mk_pd [2; 2; 0; 1; 1; 0; 0] 0 [y; m; d; h; mi; s; 0] 6.

Lemma parse_iso fuel by_ bm bd bh bmi bs y m d h mi s :
  numeral by_ y → numeral bm m → numeral bd d → numeral bh h → numeral bmi mi → numeral bs s →
  Forall (λ n, 0 <= n < 2 ^ 32) [y; m; d; h; mi; s] → (11 <= fuel)%nat →
  parse_loop fuel zeroed 0 (iso_text by_ bm bd bh bmi bs) = Ok (Some (iso_fields y m d h mi s)).
Proof.
  intros Hy Hm Hd Hh Hmi Hs Hall Hf. rewrite !Forall_cons in Hall.
  destruct Hall as (? & ? & ? & ? & ? & ? & _). unfold iso_text.
  do 11 (destruct fuel as [|fuel]; [lia|]).
  erewrite parse_numeral by (done || cbn; lia).
  erewrite (parse_separator _ _ _ 45 bm) by (done || (cbn; lia) || (intros; reflexivity)).
  erewrite parse_numeral by (done || cbn; lia).
  erewrite (parse_separator _ _ _ 45 bd) by (done || (cbn; lia) || (intros; reflexivity)).
  erewrite parse_numeral by (done || cbn; lia).
  erewrite (parse_separator _ _ _ 84 bh) by (done || (cbn; lia) || (intros; by apply parse_T)).
  erewrite parse_numeral by (done || cbn; lia).
  erewrite (parse_separator _ _ _ 58 bmi) by (done || (cbn; lia) || (intros; reflexivity)).
  erewrite parse_numeral by (done || cbn; lia).
  erewrite (parse_separator _ _ _ 58 bs) by (done || (cbn; lia) || (intros; reflexivity)).
  erewrite parse_numeral by (done || cbn; lia).
  by destruct fuel.
Qed.

(** A calendar date and time of day. *)
Definition valid_date (y m d h mi s : Z) : Prop :=
  100 <= y <= 2037 ∧ validate_date d m y = true ∧ 0 <= h <= 23 ∧ 0 <= mi <= 59 ∧ 0 <= s <= 59.

Lemma i32_small z : - 2 ^ 31 <= z < 2 ^ 31 → i32 z = z.
Proof. intros Hz. unfold i32. rewrite Z.mod_small by lia. lia. Qed.

Lemma determine_iso y m d h mi s now :
  valid_date y m d h mi s → 0 <= m < 2 ^ 31 → 0 <= d < 2 ^ 31 →
  ∃ sp, split_fields (iso_fields y m d h mi s) = Some sp ∧ s_milliseconds sp = 0 ∧
    determine_date (iso_fields y m d h mi s) sp now = Some (mk_found h mi s d m y).
Proof.
  intros (Hy & Hv & Hh & Hmi & Hs) Hm Hd. eexists; split; [reflexivity|]. split; [reflexivity|].
  unfold determine_date. cbn -[i32 initiate_and_create_date]. rewrite !i32_small by lia.
  unfold initiate_and_create_date.
  change (if has 2 MONTH_SEP then _ else _) with 15.
  assert (∀ a b, validate_date a y b = false) as Hno.
  { intros a b. unfold validate_date. rewrite (u32_small y) by lia.
    assert ((12 <? y) = true) as -> by lia. by rewrite orb_true_r. }
  assert (create_date 0 h mi s d m y = Some (mk_found h mi s d m y)) as Hmk.
  { unfold create_date, GIVE_YEAR.
    assert ((23 <? h) || (59 <? mi) || (59 <? s) = false) as -> by lia.
    change (has 0 PM_SEP) with false. change (has 0 AM_SEP) with false. rewrite !andb_false_r.
    by assert ((y <? 30) = false) as -> by lia; assert ((y <? 100) = false) as -> by lia. }
  assert (∀ fuel, orders_loop 0 h mi s (S (S fuel)) 0 15 y m d
    = Some (Some (mk_found h mi s d m y))) as Hl; [|by rewrite (Hl 30%nat)].
  intros fuel. cbn [orders_loop]. unfold try_order.
  change (0 <? 15) with true. change (0 =? 1) with false. cbn beta iota.
  change (negb (truth 15)) with false. change (has 15 MON_DAY_YEAR_ORDER) with true. cbn beta iota.
  rewrite Hno. change (Z.ldiff 15 MON_DAY_YEAR_ORDER) with 14.
  change (0 + 1 <? 14) with true. change (0 + 1 =? 1) with true. cbn beta iota.
  change (Z.ldiff 14 (Z.lor DAY_MON_YEAR_ORDER YEAR_DAY_MON_ORDER)) with 2.
  change (negb (truth 2)) with false. change (has 2 MON_DAY_YEAR_ORDER) with false.
  change (has 2 YEAR_MON_DAY_ORDER) with true. cbn beta iota. by rewrite Hv, Hmk.
Qed.

(** The text of a valid ISO date and time of the years 100 to 2037, however
    its numbers are written, is read as that date: [DateFromStr] leaves its
    universal time behind -- and returns [false], as it does for every text. *)
Theorem DateFromStr_iso (offset now : Z) text by_ bm bd bh bmi bs y m d h mi s :
  numeral by_ y → numeral bm m → numeral bd d → numeral bh h → numeral bmi mi → numeral bs s →
  0 <= m < 2 ^ 31 → 0 <= d < 2 ^ 31 → valid_date y m d h mi s →
  bytes_of_string text = iso_text by_ bm bd bh bmi bs →
  DateFromStr (H := fixed_zone offset) text false now
  = Ok (false, (utc (mk s mi h d (m - 1) (y - 1900) 0 0 0), 0)).
Proof.
  intros Hy Hm Hd Hh Hmi Hs Hmr Hdr Hv Ht.
  destruct (determine_iso y m d h mi s now Hv Hmr Hdr) as (sp & Hsp & Hms & Hdet).
  destruct Hv as (Hyr & Hval & Hhr & Hmir & Hsr).
  assert (parse text = Ok (Some (iso_fields y m d h mi s))) as Hp.
  { unfold parse. rewrite Ht. apply parse_iso; try done; [repeat constructor; lia|].
    unfold iso_text. assert (∀ b n, numeral b n → (1 <= length b)%nat) as Hl.
    { intros [|c b] n (Hne & _); [done|cbn; lia]. }
    do 6 (rewrite ?length_app; cbn [length]).
    pose proof (Hl _ _ Hy); pose proof (Hl _ _ Hm); pose proof (Hl _ _ Hd).
    pose proof (Hl _ _ Hh); pose proof (Hl _ _ Hmi); pose proof (Hl _ _ Hs). lia. }
  unfold DateFromStr. rewrite Hp. cbn [mbind outcome_bind]. cbn [field_count iso_fields Nat.eqb orb andb].
  rewrite Hsp, Hdet. cbn [f_year]. assert ((2037 <? y) = false) as Hy37 by lia. rewrite Hy37, Hms.
  cbn. destruct (timegm_fixed offset (tm_of_found (mk_found h mi s d m y) false) 0) as [-> _].
  unfold tm_of_found. cbn [f_year f_sec f_min f_hour f_month f_day]. by rewrite Hy37.
Qed.

(** A text of any kind, even a date that was understood, is reported as a
    failure. *)
Lemma DateFromStr_false `{LocalZone} text isLocal now b tv :
  DateFromStr text isLocal now = Ok (b, tv) → b = false.
Proof.
  unfold DateFromStr. destruct (parse text) as [[dp|]| |]; cbn [mbind outcome_bind]; [|by intros [= <-]|done..].
  destruct (_ || _); [by intros [= <-]|]. destruct (split_fields dp); [|by intros [= <-]].
  destruct (determine_date _ _ _); [|by intros [= <-]].
  set (ms := if _ <? _ then 0 else i32 _). destruct (bool_decide _); [by intros [= <-]|done].
Qed.

Lemma DateFromStr_iso_witness :
  DateFromStr (H := fixed_zone 3600) "2017-03-02T10:20:30" false 0 = Ok (false, (1488450030, 0)).
Proof.
  rewrite (DateFromStr_iso 3600 0 "2017-03-02T10:20:30" [50;48;49;55] [48;51] [48;50] [49;48]
    [50;48] [51;48] 2017 3 2 10 20 30); try done; split; vm_compute; try done; split; done.
Defined.

End DateFacts.

(** A lone "p" after a number, short for PM, makes the parser step over the final
    NUL. *)
Example lone_p : DateParse.DateFromStr (H := fixed_zone 0) "5 p" false 0 = UB.
Proof. vm_compute. reflexivity. Qed.

(** ** [STime] *)

Module STime.
Import Tm.

Record t := mk { tv_sec : Z; tv_usec : Z }.
#[export] Instance eq_dec : EqDecision t.
Proof. solve_decision. Defined.

Definition ltb (a b : t) : bool :=
  (tv_sec a <? tv_sec b) || ((tv_sec a =? tv_sec b) && (tv_usec a <? tv_usec b)).
Definition gtb (a b : t) : bool :=
  (tv_sec b <? tv_sec a) || ((tv_sec a =? tv_sec b) && (tv_usec b <? tv_usec a)).
Definition geb (a b : t) : bool := negb (ltb a b).
Definition leb (a b : t) : bool := negb (gtb a b).

Definition add (a b : t) : t :=
  let usec := tv_usec a + tv_usec b in
  let sec := tv_sec a + tv_sec b in
  if 1000000 <=? usec then mk (sec + 1) (usec - 1000000) else mk sec usec.
Definition subtract (a b : t) : t :=
  let usec := tv_usec a - tv_usec b in
  let sec := tv_sec a - tv_sec b in
  if usec <? 0 then mk (sec - 1) (usec + 1000000) else mk sec usec.
Definition set (ms : Z) : t := mk (Z.quot ms 1000) (Z.rem ms 1000 * 1000).
Definition getCassandraTimestmap (a : t) : Z := tv_sec a * 1000 + Z.quot (tv_usec a) 1000.
Definition isValid (a : t) : bool := truth (tv_sec a) || truth (tv_usec a).

(** *** NTP: seconds since 1900, and a binary fraction computed in doubles *)

Record ntp_time_t := mk_ntp { second : Z; fraction : Z }.

Definition double_of_Z (z : Z) : spec_float := binary_normalize 53 1024 z 0 (z <? 0).
(** The double nearest to 1.0e-6. *)
Definition d1e_6 : spec_float := S754_finite false 4722366482869645 (-72).
(** The conversion of a non-negative double to [uint32_t] truncates, and is
    undefined when the value does not fit. *)
Definition uint32_of_double (d : spec_float) : outcome Z :=
  match d with
  | S754_zero _ => Ok 0
  | S754_finite false m e =>
      let z := Z.shiftl (Z.pos m) e in if z <? 2 ^ 32 then Ok z else UB
  | S754_finite true m e =>
      let z := Z.shiftl (Z.pos m) e in if z =? 0 then Ok 0 else UB
  | _ => UB
  end.

Definition getNTPTime (a : t) : outcome ntp_time_t :=
  let d := SFmul 53 1024 (SFmul 53 1024 (double_of_Z (tv_usec a + 1)) (double_of_Z (2 ^ 32))) d1e_6 in
  f ← uint32_of_double d;
  mret (mk_ntp (u32 (tv_sec a + 0x83AA7E80)) f).
Definition setNTPTime (n : ntp_time_t) : outcome t :=
  let d := SFdiv 53 1024 (SFmul 53 1024 (double_of_Z (fraction n)) (double_of_Z 1000000))
             (double_of_Z (2 ^ 32)) in
  usec ← uint32_of_double d;
  mret (mk (u32 (second n - 0x83AA7E80)) usec).

Section Zone.
Context `{LocalZone}.

(** The constructor from a civil date, and the accessors. *)
Definition of_civil (year mon day hour min sec : Z) (isLocal : bool) : t :=
  let tm := Tm.mk sec min hour day (mon - 1) (year - 1900) 0 0 (if isLocal then -1 else 0) in
  mk ((if isLocal then mktime else DateParse.timegm) tm) 0.
Definition year (a : t) : Z := tm_year (localtime (tv_sec a)) + 1900.
Definition month (a : t) : Z := tm_mon (localtime (tv_sec a)) + 1.
Definition day (a : t) : Z := tm_mday (localtime (tv_sec a)).
Definition hour (a : t) : Z := tm_hour (localtime (tv_sec a)).
Definition minute (a : t) : Z := tm_min (localtime (tv_sec a)).
Definition seconds (a : t) : Z := tm_sec (localtime (tv_sec a)).

(** [Format] into a [std::string]: the buffer has 2048 characters; a full one is
    not terminated, and is then read past its end. *)
Definition Format (a : t) (fmt : string) (local : bool) : outcome string :=
  let tm := (if local then localtime else gmtime) (tv_sec a) in
  '(_, out) ← Format.format_time_into_string tm (tv_usec a) 2048 fmt;
  if (2048 <=? length out)%nat then UB else mret (string_of_bytes out).

Definition ParseDateTime (pszDate : string) (isLocal : bool) (now : Z) : outcome (bool * t) :=
  '(b, (sec, usec)) ← DateParse.DateFromStr pszDate isLocal now;
  mret (b, mk sec usec).

End Zone.

Lemma printable_gmtime `{LocalZone} a :
  Z.abs (tv_sec a) < 2 ^ 55 → 0 <= tv_usec a < 10 ^ 6 →
  Format.printable (gmtime (tv_sec a)) (tv_usec a).
Proof.
  intros Hs Hu. constructor; [apply gmtime_ok|apply gmtime_yday| |done].
  unfold gmtime. cbn [tm_year]. set (d := tv_sec a / 86400 + epoch_day).
  assert (Z.abs d < 2 ^ 39 + 10 ^ 6) as Hd.
  { unfold d. change epoch_day with 719162. Z.to_euclidean_division_equations. lia. }
  pose proof (year_of_day_spec d).
  pose proof (days_before_year_bounds (year_of_day d)).
  pose proof (days_before_year_bounds (year_of_day d + 1)). lia.
Qed.


(** The formats the program uses: src/statshss.cpp, src/s6as6d_impl.cpp,
    util/src/sstats.cpp with util/include/soss.h, and util/src/fdjson.cpp. *)
Definition program_formats : list string :=
  ["%Y-%m-%dT%TZ"; "ulr_%Y%m%d%H%M%S.csv"; "%Y-%m-%d %H:%M:%S.%0"; "%i"].

(** Every format the program uses is one that [STime::Format] reads past the
    end of, whatever the time, in universal or local time. *)
Theorem program_formats_overrun `{LocalZone} a (local : bool) :
  Format.printable ((if local then localtime else gmtime) (tv_sec a)) (tv_usec a) →
  Forall (λ fmt, Format a fmt local = UB) program_formats.
Proof.
  intros Hp. apply Forall_forall. intros fmt Hin.
  assert (Format.overruns true (bytes_of_string fmt) = true ∧ (String.length fmt <= 60)%nat) as [Ho Hl].
  { unfold program_formats in Hin. rewrite !elem_of_cons, elem_of_nil in Hin.
    destruct Hin as [-> | [-> | [-> | [-> | []]]]]; (split; [reflexivity|cbn; lia]). }
  pose proof (Format.format_overruns_if _ _ 2048 fmt Hp ltac:(lia)) as Hf. rewrite Ho in Hf.
  unfold Format. by rewrite Hf.
Qed.


Lemma program_formats_overrun_witness :
  Format (H := fixed_zone 0) (mk 1488450030 5) "%Y-%m-%d %H:%M:%S.%0" false = UB.
Proof.
  pose proof (program_formats_overrun (H := fixed_zone 0) (mk 1488450030 5) false
    (printable_gmtime (H := fixed_zone 0) (mk 1488450030 5) ltac:(cbn; lia) ltac:(cbn; lia))) as Hf.
  unfold program_formats in Hf. rewrite !Forall_cons in Hf. by destruct Hf as (_ & _ & ? & _).
Defined.

(** Seconds before 1970 or after 2105 come back as others; the last microsecond
    of a second has no NTP fraction. *)
Lemma ntp_seconds a n b :
  getNTPTime a = Ok n → setNTPTime n = Ok b → tv_sec b = u32 (tv_sec a).
Proof.
  unfold getNTPTime, setNTPTime. destruct (uint32_of_double _); cbn; [|done..]. intros [= <-]. cbn.
  destruct (uint32_of_double _); cbn; [|done..]. intros [= <-]. cbn. unfold u32.
  rewrite Zminus_mod_idemp_l. f_equal. lia.
Qed.
Example ntp_last_microsecond : getNTPTime (mk 0 999999) = UB.
Proof. vm_compute. reflexivity. Qed.

Lemma subtract_add a b :
  0 <= tv_usec a < 1000000 → 0 <= tv_usec b < 1000000 → subtract (add a b) b = a.
Proof.
  intros Ha Hb. unfold add, subtract. destruct a as [s u], b as [s' u']; cbn in *.
  destruct (Z.leb_spec 1000000 (u + u')); cbn; case_match; f_equal; lia.
Qed.
Lemma set_timestamp ms : 0 <= ms → getCassandraTimestmap (set ms) = ms.
Proof.
  intros Hms. unfold getCassandraTimestmap, set. cbn.
  rewrite Z.quot_mul by lia. pose proof (Z.quot_rem ms 1000). lia.
Qed.

End STime.
