(* ===== verification/Codec.v ===== *)
(** * Byte-level codecs of the HSS

    The encodings every component shares: the 48-bit sequence number seen as
    six bytes or as the low bytes of a 64-bit integer (include/util.h), the
    hexadecimal text of keys and random challenges (src/util.cpp,
    src/dataaccess.cpp, src/fdhss.cpp), the TBCD digits of a phone number
    (util/src/fd.cpp) and the PLMN identity (include/common_def.h). *)

From S2P Require Import Prelude.
#[local] Open Scope Z_scope.

(** ** Sequence numbers: [SqnU64Union] and its macros, little-endian branch *)
Module Sqn.

(** The union's memory: eight bytes; [u64] is their little-endian value. *)
Definition union_u64 (u : bytes) : Z := le_value u.
Definition union_set_u64 (z : Z) : bytes := le_bytes 8 z.

Definition SQN_TO_U64 (sqn : bytes) : bytes :=
  let u := replicate 8 0 in
  let u := <[5%nat := sqn !!! 0%nat]> u in
  let u := <[4%nat := sqn !!! 1%nat]> u in
  let u := <[3%nat := sqn !!! 2%nat]> u in
  let u := <[2%nat := sqn !!! 3%nat]> u in
  let u := <[1%nat := sqn !!! 4%nat]> u in
  <[0%nat := sqn !!! 5%nat]> u.

Definition U64_TO_SQN (u : bytes) : bytes :=
  [u !!! 5%nat; u !!! 4%nat; u !!! 3%nat; u !!! 2%nat; u !!! 1%nat; u !!! 0%nat].

(** [eu.u64 += n] *)
Definition union_add (u : bytes) (n : Z) : bytes := union_set_u64 (union_u64 u + n).

(** The decoding of the [sqn] column, an [int64_t], in [getImsiSecData]. *)
Definition sqn_of_int64 (sqn_nb : Z) : bytes :=
  [ u8 (Z.shiftr (Z.land (u64 sqn_nb) (Z.shiftl 255 40)) 40);
    u8 (Z.shiftr (Z.land (u64 sqn_nb) (Z.shiftl 255 32)) 32);
    u8 (Z.shiftr (Z.land (u64 sqn_nb) (Z.shiftl 255 24)) 24);
    u8 (Z.shiftr (Z.land (u64 sqn_nb) (Z.shiftl 255 16)) 16);
    u8 (Z.shiftr (Z.land (u64 sqn_nb) (Z.shiftl 255 8)) 8);
    u8 (Z.land sqn_nb 255) ].

(** What the six bytes mean: a 48-bit number, most significant byte first. *)
Definition sqn_value (sqn : bytes) : Z := le_value (rev sqn).
Definition is_sqn (sqn : bytes) : Prop := length sqn = 6%nat ∧ are_bytes sqn.

Lemma is_sqn_rev sqn : is_sqn sqn → are_bytes (rev sqn) ∧ length (rev sqn) = 6%nat.
Proof. intros [H1 H2]. rewrite length_rev. split; [by apply Forall_rev|done]. Qed.

Lemma sqn_value_bound sqn : is_sqn sqn → 0 <= sqn_value sqn < 2 ^ 48.
Proof.
  intros [H1 H2]%is_sqn_rev. unfold sqn_value.
  pose proof (le_value_bound _ H1) as H. by rewrite H2 in H.
Qed.

Lemma SQN_TO_U64_value sqn :
  is_sqn sqn → union_u64 (SQN_TO_U64 sqn) = sqn_value sqn.
Proof.
  intros [H _]. do 7 (destruct sqn as [|? sqn]; try discriminate H).
  unfold union_u64, SQN_TO_U64, sqn_value. simpl. lia.
Qed.

Lemma U64_TO_SQN_le_bytes z : U64_TO_SQN (le_bytes 8 z) = rev (le_bytes 6 z).
Proof. reflexivity. Qed.

Lemma SQN_U64_SQN sqn : is_sqn sqn → U64_TO_SQN (SQN_TO_U64 sqn) = sqn.
Proof.
  intros [H _]. do 7 (destruct sqn as [|? sqn]; try discriminate H). reflexivity.
Qed.

Lemma rev_le_bytes_is_sqn z : is_sqn (rev (le_bytes 6 z)).
Proof.
  split; [by rewrite length_rev, le_bytes_length|].
  apply Forall_rev, le_bytes_are_bytes.
Qed.

Lemma sqn_value_rev_le_bytes z : sqn_value (rev (le_bytes 6 z)) = z mod 2 ^ 48.
Proof. unfold sqn_value. by rewrite rev_involutive, le_value_bytes. Qed.

Lemma sqn_value_inj s t : is_sqn s → is_sqn t → sqn_value s = sqn_value t → s = t.
Proof.
  intros [Hs1 Hs2]%is_sqn_rev [Ht1 Ht2]%is_sqn_rev H.
  rewrite <-(rev_involutive s), <-(rev_involutive t).
  rewrite <-(le_bytes_value _ Hs1), <-(le_bytes_value _ Ht1).
  unfold sqn_value in H. by rewrite Hs2, Ht2, H.
Qed.

(** One shifted and masked byte of the 64-bit word. *)
Lemma masked_byte z k :
  0 <= k <= 56 →
  u8 (Z.shiftr (Z.land (u64 z) (Z.shiftl 255 k)) k) = z / 2 ^ k mod 256.
Proof.
  intros Hk. unfold u8, u64.
  rewrite Z.shiftr_land, Z.shiftr_shiftl_l, Z.sub_diag, Z.shiftl_0_r by lia.
  change 255 with (Z.ones 8).
  rewrite Z.land_ones, Z.mod_mod by lia. rewrite Z.shiftr_div_pow2 by lia.
  change 256 with (2 ^ 8).
  apply Z.bits_inj'. intros n Hn.
  destruct (decide (n < 8)).
  - rewrite !Z.mod_pow2_bits_low, !Z.div_pow2_bits, Z.mod_pow2_bits_low by lia. done.
  - by rewrite !Z.mod_pow2_bits_high by lia.
Qed.

Lemma sqn_of_int64_spec z : sqn_of_int64 z = rev (le_bytes 6 z).
Proof.
  unfold sqn_of_int64. rewrite !masked_byte by lia.
  change 255 with (Z.ones 8). rewrite Z.land_ones by lia.
  unfold u8. rewrite Z.mod_mod by lia. cbn [le_bytes rev app].
  rewrite !Z.div_div by lia. reflexivity.
Qed.

(** The masks and shifts that read the [sqn] column give the same six
    bytes as [U64_TO_SQN] on the word, for every 64-bit value. *)
Theorem sqn_of_int64_is_U64_TO_SQN z :
  sqn_of_int64 z = U64_TO_SQN (union_set_u64 z).
Proof. by rewrite sqn_of_int64_spec. Qed.

Lemma union_add_value sqn n :
  is_sqn sqn → 0 <= n < 2 ^ 63 →
  union_u64 (union_add (SQN_TO_U64 sqn) n) = sqn_value sqn + n.
Proof.
  intros Hs Hn. unfold union_add, union_u64, union_set_u64.
  rewrite le_value_bytes. change (le_value (SQN_TO_U64 sqn)) with (union_u64 (SQN_TO_U64 sqn)).
  rewrite SQN_TO_U64_value by done. pose proof (sqn_value_bound _ Hs).
  change (256 ^ Z.of_nat 8) with (2 ^ 64). rewrite Z.mod_small; lia.
Qed.

(** Advancing a sequence number by [n] through the union: a 48-bit sum. *)
Lemma U64_TO_SQN_add sqn n :
  is_sqn sqn → is_sqn (U64_TO_SQN (union_add (SQN_TO_U64 sqn) n)) ∧
  sqn_value (U64_TO_SQN (union_add (SQN_TO_U64 sqn) n)) = (sqn_value sqn + n) mod 2 ^ 48.
Proof.
  intros Hs. unfold union_add, union_set_u64. rewrite U64_TO_SQN_le_bytes.
  split; [apply rev_le_bytes_is_sqn|].
  by rewrite sqn_value_rev_le_bytes, SQN_TO_U64_value.
Qed.

End Sqn.

(** ** Hexadecimal text *)
Module Hex.

(** [hexl] and [hexu] of [Utility::bytes2hex]. *)
Definition hexl : string := "0123456789abcdef".
Definition hexu : string := "0123456789ABCDEF".
Definition hexc (upper : bool) (n : Z) : Z :=
  bytes_of_string (if upper then hexu else hexl) !!! Z.to_nat n.

(** The characters written for one byte; [delim = 0] stands for no delimiter. *)
Definition hex_of_byte (upper : bool) (delim b : Z) : bytes :=
  hexc upper (Z.land (Z.shiftr b 4) 15) :: hexc upper (Z.land b 15)
  :: (if truth delim then [delim] else []).

Definition bytes2hex (b : bytes) (len : nat) (delim : Z) (upper : bool) : string :=
  string_of_bytes (mjoin (hex_of_byte upper delim <$> take len b)).

(** [ASCII_TO_BINARY]: any other character counts as 0. *)
Definition ASCII_TO_BINARY (c : Z) : Z :=
  if (48 <=? c) && (c <=? 57) then c - 48
  else if (97 <=? c) && (c <=? 102) then c - 97 + 10
  else if (65 <=? c) && (c <=? 70) then c - 65 + 10
  else 0.

(** A C string is its characters and the terminating NUL; a read after the NUL
    is outside the string. *)
Definition c_str (s : string) : bytes := bytes_of_string s ++ [0].

Fixpoint convert_loop (src : bytes) (i length : nat) : outcome bytes :=
  match length with
  | O => mret []
  | S length' =>
      hi ← array_get src (2 * i)%nat;
      lo ← array_get src (2 * i + 1)%nat;
      rest ← convert_loop src (S i) length';
      mret (u8 (Z.lor (Z.shiftl (ASCII_TO_BINARY hi) 4) (ASCII_TO_BINARY lo)) :: rest)
  end.

Definition convert_ascii_to_binary (src : string) (length : nat) : outcome bytes :=
  convert_loop (c_str src) 0 length.

(** [VALID_HEX] and [TO_HEX] of src/fdhss.cpp. *)
Definition VALID_HEX (c : Z) : bool :=
  (48 <=? c) && (c <=? 57) || (65 <=? c) && (c <=? 70) || (97 <=? c) && (c <=? 102).
Definition TO_HEX (c : Z) : Z :=
  if (48 <=? c) && (c <=? 57) then c - 48
  else c - (if (65 <=? c) && (c <=? 70) then 65 else 97) + 10.

Fixpoint parsehex_loop (src : bytes) (i : nat) (dst : bytes) : outcome (bool * bytes) :=
  match src with
  | c1 :: c2 :: src' =>
      if negb (VALID_HEX c1) then mret (false, dst)
      else if negb (VALID_HEX c2) then mret (false, dst)
      else
        dst' ← array_set dst i (u8 (Z.lor (Z.shiftl (TO_HEX c1) 4) (TO_HEX c2)));
        parsehex_loop src' (S i) dst'
  | _ => mret (true, dst)
  end.

(** The guard [len != -1 && srclen != len], then the parity test, then the loop. *)
Definition parsehex (src : string) (dst : bytes) (len : Z) : outcome (bool * bytes) :=
  let s := bytes_of_string src in
  let srclen := Z.of_nat (length s) in
  if negb (len =? -1) && negb (srclen =? len) then mret (false, dst)
  else if truth (srclen mod 2) then mret (false, dst)
  else parsehex_loop s 0 dst.

(** *** Lemmas *)

Lemma hex_of_byte_nibbles upper b :
  is_byte b → hex_of_byte upper 0 b = [hexc upper (b / 16); hexc upper (b mod 16)].
Proof.
  intros [H1 H2]. unfold hex_of_byte. cbn [truth Z.eqb negb].
  rewrite Z.shiftr_div_pow2 by lia. change 15 with (Z.ones 4).
  rewrite !Z.land_ones by lia.
  rewrite (Z.mod_small (b / 2 ^ 4)) by (change (2 ^ 4) with 16; split;
    [apply Z.div_pos|apply Z.div_lt_upper_bound]; lia). done.
Qed.

(** A property of every nibble is checked on the sixteen of them. *)
Lemma nibble_ind (P : Z → Prop) :
  (∀ k, (k < 16)%nat → P (Z.of_nat k)) → ∀ n, 0 <= n < 16 → P n.
Proof.
  intros H n Hn. rewrite <-(Z2Nat.id n) by lia. apply H. lia.
Qed.

Ltac nibble_cases :=
  apply nibble_ind; intros k Hk;
  do 16 (destruct k as [|k]; [vm_compute; done|]); lia.

Lemma ASCII_TO_BINARY_hexc upper : ∀ n, 0 <= n < 16 → ASCII_TO_BINARY (hexc upper n) = n.
Proof. destruct upper; nibble_cases. Qed.
Lemma TO_HEX_hexc upper : ∀ n, 0 <= n < 16 → TO_HEX (hexc upper n) = n.
Proof. destruct upper; nibble_cases. Qed.
Lemma VALID_HEX_hexc upper : ∀ n, 0 <= n < 16 → VALID_HEX (hexc upper n) = true.
Proof. destruct upper; nibble_cases. Qed.
Lemma hexc_byte upper : ∀ n, 0 <= n < 16 → is_byte (hexc upper n).
Proof. destruct upper; nibble_cases. Qed.

Lemma byte_nibbles b : is_byte b → 0 <= b / 16 < 16 ∧ 0 <= b mod 16 < 16.
Proof.
  intros [H1 H2]. split; [|apply Z.mod_pos_bound; lia].
  split; [apply Z.div_pos|apply Z.div_lt_upper_bound]; lia.
Qed.

Lemma lor_nibbles h l : 0 <= h < 16 → 0 <= l < 16 → Z.lor (Z.shiftl h 4) l = 16 * h + l.
Proof.
  intros Hh Hl. rewrite Z.shiftl_mul_pow2 by lia. change (2 ^ 4) with 16.
  revert l Hl. apply nibble_ind. intros k Hk. revert h Hh.
  do 16 (destruct k as [|k];
    [apply nibble_ind; intros j Hj; do 16 (destruct j as [|j]; [reflexivity|]); lia|]).
  lia.
Qed.

Lemma join_nibbles b : is_byte b → u8 (Z.lor (Z.shiftl (b / 16) 4) (b mod 16)) = b.
Proof.
  intros Hb. destruct (byte_nibbles b Hb) as [Hh Hl].
  rewrite lor_nibbles, <-Z.div_mod by lia. apply Z.mod_small. done.
Qed.

Lemma mjoin_hex_cons upper x b :
  mjoin (hex_of_byte upper 0 <$> x :: b)
  = hex_of_byte upper 0 x ++ mjoin (hex_of_byte upper 0 <$> b).
Proof. reflexivity. Qed.

Lemma hex_bytes upper b :
  are_bytes b → are_bytes (mjoin (hex_of_byte upper 0 <$> b)).
Proof.
  induction 1 as [|x b Hx Hb IH]; [constructor|]. rewrite mjoin_hex_cons.
  rewrite hex_of_byte_nibbles by done. destruct (byte_nibbles x Hx).
  repeat constructor; auto; by apply hexc_byte.
Qed.

(** The hexadecimal text as a C array. *)
Lemma bytes_of_bytes2hex b upper :
  are_bytes b →
  bytes_of_string (bytes2hex b (length b) 0 upper)
  = mjoin (hex_of_byte upper 0 <$> b).
Proof.
  intros Hb. unfold bytes2hex. rewrite firstn_all.
  by apply bytes_of_string_of_bytes, hex_bytes.
Qed.

Lemma mjoin_hex_length upper b :
  are_bytes b → length (mjoin (hex_of_byte upper 0 <$> b)) = (2 * length b)%nat.
Proof.
  induction 1 as [|x b Hx Hb IH]; [done|].
  rewrite mjoin_hex_cons, length_app, hex_of_byte_nibbles, IH by done. simpl. lia.
Qed.

Lemma convert_loop_hex upper b pre post :
  are_bytes b → (length pre mod 2 = 0)%nat →
  convert_loop (pre ++ mjoin (hex_of_byte upper 0 <$> b) ++ post)
    (length pre / 2)%nat (length b) = Ok b.
Proof.
  intros Hb. revert pre. induction Hb as [|x b Hx Hb IH]; intros pre Hpre; [done|].
  cbn [length convert_loop]. rewrite mjoin_hex_cons.
  destruct (byte_nibbles x Hx) as [Hh Hl].
  rewrite hex_of_byte_nibbles by done. cbn [app].
  assert ((2 * (length pre / 2))%nat = length pre) as E2.
  { pose proof (Nat.div_mod_eq (length pre) 2). lia. }
  rewrite E2, array_get_middle, array_get_middle_1.
  cbn [mbind outcome_bind]. specialize (IH (pre ++ [hexc upper (x / 16); hexc upper (x mod 16)])).
  rewrite length_app in IH. cbn [length] in IH.
  replace ((length pre + 2) / 2)%nat with (S (length pre / 2)) in IH.
  2: { replace (length pre + 2)%nat with (length pre + 1 * 2)%nat by lia.
       rewrite Nat.div_add by lia. lia. }
  rewrite <-app_assoc in IH. cbn [app] in IH. rewrite IH.
  - cbn. rewrite !ASCII_TO_BINARY_hexc by done. by rewrite join_nibbles.
  - replace (length pre + 2)%nat with (length pre + 1 * 2)%nat by lia.
    by rewrite Nat.Div0.mod_add.
Qed.

Lemma convert_bytes2hex b upper :
  are_bytes b →
  convert_ascii_to_binary (bytes2hex b (length b) 0 upper) (length b) = Ok b.
Proof.
  intros Hb. unfold convert_ascii_to_binary, c_str.
  rewrite bytes_of_bytes2hex by done. by apply (convert_loop_hex upper b []).
Qed.

Lemma parsehex_loop_hex upper b i dst :
  are_bytes b → (i + length b <= length dst)%nat →
  parsehex_loop (mjoin (hex_of_byte upper 0 <$> b)) i dst
  = Ok (true, take i dst ++ b ++ drop (i + length b) dst).
Proof.
  intros Hb. revert i dst. induction Hb as [|x b Hx Hb IH]; intros i dst Hlen.
  { cbn. by rewrite Nat.add_0_r, take_drop. }
  cbn [length] in Hlen. rewrite mjoin_hex_cons. cbn [length].
  destruct (byte_nibbles x Hx) as [Hh Hl]. rewrite hex_of_byte_nibbles by done.
  cbn [app parsehex_loop]. rewrite !VALID_HEX_hexc by done. cbn [negb].
  rewrite array_set_Ok by lia. cbn. rewrite !TO_HEX_hexc, join_nibbles by done.
  rewrite IH by (rewrite length_insert; lia). do 2 f_equal.
  rewrite (take_S_r _ i x) by (apply list_lookup_insert_eq; lia).
  rewrite take_insert_ge, drop_insert_lt by lia.
  rewrite <-app_assoc. cbn. by rewrite Nat.add_succ_r.
Qed.

Lemma parsehex_bytes2hex b dst upper :
  are_bytes b → (length b <= length dst)%nat →
  parsehex (bytes2hex b (length b) 0 upper) dst (-1) = Ok (true, memcpy dst b).
Proof.
  intros Hb Hlen. unfold parsehex. cbn [Z.eqb negb andb].
  rewrite bytes_of_bytes2hex, mjoin_hex_length by done.
  rewrite Nat2Z.inj_mul. change (Z.of_nat 2) with 2.
  rewrite Z.mul_comm, Z_mod_mult. cbn [truth Z.eqb negb].
  by rewrite (parsehex_loop_hex upper b 0 dst).
Qed.

(** A text that fits no complete byte more than [dst] holds is undefined. *)
Lemma parsehex_loop_overflow upper b i dst :
  are_bytes b → (length dst < i + length b)%nat → (i <= length dst)%nat →
  parsehex_loop (mjoin (hex_of_byte upper 0 <$> b)) i dst = UB.
Proof.
  intros Hb. revert i dst. induction Hb as [|x b Hx Hb IH]; intros i dst H1 H2;
    cbn [length] in H1; [lia|].
  rewrite mjoin_hex_cons.
  destruct (byte_nibbles x Hx) as [Hh Hl]. rewrite hex_of_byte_nibbles by done.
  cbn [app parsehex_loop]. rewrite !VALID_HEX_hexc by done. cbn [negb].
  destruct (decide (i < length dst)%nat) as [Hi|Hi].
  - rewrite array_set_Ok by lia. cbn. apply IH; rewrite length_insert; lia.
  - by rewrite array_set_UB by lia.
Qed.

(** Keys, challenges and OPc survive the trip to the database: the text
    [bytes2hex] writes reads back as the same bytes, in either letter case. *)
Theorem hex_roundtrip b upper :
  are_bytes b →
  convert_ascii_to_binary (bytes2hex b (length b) 0 upper) (length b) = Ok b.
Proof. apply convert_bytes2hex. Qed.

Lemma hex_roundtrip_witness :
  convert_ascii_to_binary (bytes2hex [0; 171; 255] 3 0 true) 3 = Ok [0; 171; 255].
Proof.
  apply (hex_roundtrip [0; 171; 255] true).
  apply (bool_decide_unpack (are_bytes [0; 171; 255])). vm_compute. exact I.
Defined.

(** A stored text shorter than the array it fills is read past its NUL. *)
Lemma array_get_past a i : (length a <= i)%nat → array_get a i = UB.
Proof. intros H. unfold array_get. by rewrite lookup_ge_None_2. Qed.

(** [parsehex] with [len == -1] bounds nothing: a valid hexadecimal text
    is decoded into [dst] when it fits and overruns it otherwise. *)
Theorem parsehex_capacity b dst upper :
  are_bytes b →
  parsehex (bytes2hex b (length b) 0 upper) dst (-1)
  = if (length b <=? length dst)%nat then Ok (true, memcpy dst b) else UB.
Proof.
  intros Hb. destruct (Nat.leb_spec (length b) (length dst)) as [H|H].
  { by apply parsehex_bytes2hex. }
  unfold parsehex. cbn [Z.eqb negb andb].
  rewrite bytes_of_bytes2hex, mjoin_hex_length, Nat2Z.inj_mul by done.
  change (Z.of_nat 2) with 2. rewrite Z.mul_comm, Z_mod_mult. cbn [truth Z.eqb negb].
  apply parsehex_loop_overflow; (done || lia).
Qed.

Lemma parsehex_capacity_witness :
  parsehex (bytes2hex (replicate 32 7) 32 0 false) (replicate 31 0) (-1) = UB.
Proof.
  apply (parsehex_capacity (replicate 32 7) (replicate 31 0) false).
  apply (bool_decide_unpack (are_bytes (replicate 32 7))). vm_compute. exact I.
Defined.

End Hex.

(** ** Telephony BCD: [FDUtility::str2tbcd], [FDUtility::tbcd2str] *)
Module Tbcd.

Definition AQFD_CHAR2TBCD (c : Z) : Z :=
  if (48 <=? c) && (c <=? 57) then c - 48
  else if c =? 42 then 10
  else if c =? 35 then 11
  else if (c =? 97) || (c =? 65) then 12
  else if (c =? 98) || (c =? 66) then 13
  else if (c =? 99) || (c =? 67) then 14
  else 15.

(** One turn of the loop over [src[len]]; [dstlen] is never looked at. *)
Fixpoint str2tbcd_loop (src : bytes) (len idx : nat) (dst : bytes)
    : outcome (nat * nat * bytes) :=
  match src with
  | [] => mret (len, idx, dst)
  | c :: src' =>
      if Nat.odd len then
        old ← array_get dst idx;
        dst' ← array_set dst idx (u8 (Z.lor old (AQFD_CHAR2TBCD c)));
        str2tbcd_loop src' (S len) (S idx) dst'
      else
        dst' ← array_set dst idx (u8 (Z.shiftl (AQFD_CHAR2TBCD c) 4));
        str2tbcd_loop src' (S len) idx dst'
  end.

Definition str2tbcd (src dst : bytes) : outcome (nat * bytes) :=
  '(len, idx, dst) ← str2tbcd_loop src 0 0 dst;
  if Nat.odd len then
    old ← array_get dst idx;
    dst' ← array_set dst idx (u8 (Z.lor old (AQFD_CHAR2TBCD 0)));
    mret (S idx, dst')
  else mret (idx, dst).

(** [__TBCD__]: entry 15 is the string's NUL. *)
Definition TBCD : bytes := bytes_of_string "0123456789*#abc" ++ [0].
Definition AQFD_LOW_NIBBLE (b : Z) : Z := Z.land b 15.
Definition AQFD_HIGH_NIBBLE (b : Z) : Z := AQFD_LOW_NIBBLE (Z.shiftr b 4).

Fixpoint tbcd2str_loop (src : bytes) (len : nat) (dst : bytes) (dstlen : nat)
    : outcome (nat * bytes) :=
  match src with
  | [] => dst' ← array_set dst len 0; mret (len, dst')
  | b :: src' =>
      if (dstlen <? len)%nat then mret (0%nat, dst)
      else
        let hi := TBCD !!! Z.to_nat (AQFD_HIGH_NIBBLE b) in
        dst ← array_set dst len hi;
        if truth hi then
          let len := S len in
          if (dstlen <? len)%nat then mret (0%nat, dst)
          else
            let lo := TBCD !!! Z.to_nat (AQFD_LOW_NIBBLE b) in
            dst ← array_set dst len lo;
            tbcd2str_loop src' (if truth lo then S len else len) dst dstlen
        else tbcd2str_loop src' len dst dstlen
  end.

Definition tbcd2str (src dst : bytes) (dstlen : nat) : outcome (nat * bytes) :=
  tbcd2str_loop src 0 dst dstlen.

(** The [std::string] overload: a local [char buffer[srclen * 2]]. *)
Definition tbcd2str_string (src : bytes) : outcome string :=
  let srclen := length src in
  '(len, buffer) ← tbcd2str src (replicate (srclen * 2) 0) (srclen * 2);
  mret (string_of_bytes (take len buffer)).

(** [FDUtility::splitDiameterFQDN]: the host is what precedes the first dot. *)
Fixpoint split_dot (s : bytes) : option (bytes * bytes) :=
  match s with
  | [] => None
  | c :: s' =>
      if c =? 46 then Some ([], s')
      else match split_dot s' with
           | Some (h, r) => Some (c :: h, r)
           | None => None
           end
  end.
Definition splitDiameterFQDN (fqdn : string) : string * string :=
  match split_dot (bytes_of_string fqdn) with
  | Some (h, r) => (string_of_bytes h, string_of_bytes r)
  | None => (EmptyString, EmptyString)
  end.

(** *** Lemmas: digits are nibbles below 15, the filler is 15. *)

Definition is_digit (n : Z) : Prop := 0 <= n < 15.
Definition tbcd_char (n : Z) : Z := TBCD !!! Z.to_nat n.

(** The reference packing: two digits a byte, the first in the high nibble. *)
Fixpoint pack (ds : bytes) : bytes :=
  match ds with
  | [] => []
  | [h] => [16 * h + 15]
  | h :: l :: ds' => 16 * h + l :: pack ds'
  end.
Definition packed_length (n : nat) : nat := ((n + 1) / 2)%nat.

Lemma packed_length_SS n : packed_length (S (S n)) = S (packed_length n).
Proof.
  unfold packed_length. replace (S (S n) + 1)%nat with (n + 1 + 1 * 2)%nat by lia.
  rewrite Nat.div_add by lia. lia.
Qed.

Lemma pack_length ds : length (pack ds) = packed_length (length ds).
Proof.
  induction ds as [| |x y l IH] using list_pair_ind; [done|done|].
  cbn [pack length]. by rewrite packed_length_SS, IH.
Qed.

Lemma CHAR2TBCD_char : ∀ n, 0 <= n < 16 → is_digit n → AQFD_CHAR2TBCD (tbcd_char n) = n.
Proof.
  apply (Hex.nibble_ind (λ n, is_digit n → AQFD_CHAR2TBCD (tbcd_char n) = n)).
  intros k Hk Hd. unfold is_digit in Hd.
  do 15 (destruct k as [|k]; [reflexivity|]). lia.
Qed.
Lemma CHAR2TBCD_digit n : is_digit n → AQFD_CHAR2TBCD (tbcd_char n) = n.
Proof. unfold is_digit. intros. apply CHAR2TBCD_char; unfold is_digit; lia. Qed.

Lemma tbcd_char_truth : ∀ n, 0 <= n < 16 → truth (tbcd_char n) = (n <? 15).
Proof.
  apply Hex.nibble_ind. intros k Hk. do 16 (destruct k as [|k]; [reflexivity|]). lia.
Qed.

Lemma nibbles_of_byte h l :
  0 <= h < 16 → 0 <= l < 16 →
  AQFD_HIGH_NIBBLE (16 * h + l) = h ∧ AQFD_LOW_NIBBLE (16 * h + l) = l.
Proof.
  intros Hh Hl. unfold AQFD_HIGH_NIBBLE, AQFD_LOW_NIBBLE. change 15 with (Z.ones 4).
  rewrite !Z.land_ones, Z.shiftr_div_pow2 by lia. change (2 ^ 4) with 16.
  rewrite (Z.mul_comm 16), Z.div_add_l, (Z.div_small l), Z.add_0_r by lia.
  rewrite Z.add_comm, Z_mod_plus_full. by rewrite !Z.mod_small by lia.
Qed.

Lemma high_nibble_store d : is_digit d → u8 (Z.shiftl d 4) = 16 * d.
Proof.
  intros [??]. rewrite Z.shiftl_mul_pow2 by lia. unfold u8.
  rewrite Z.mod_small; lia.
Qed.
Lemma low_nibble_store h l : is_digit h → 0 <= l < 16 → u8 (Z.lor (16 * h) l) = 16 * h + l.
Proof.
  intros [??] ?. replace (16 * h) with (Z.shiftl h 4) at 1
    by (rewrite Z.shiftl_mul_pow2; lia).
  rewrite Hex.lor_nibbles by lia. apply Z.mod_small. lia.
Qed.

(** The loop over an even number of digits, and over one digit more. *)
Lemma str2tbcd_pair h l src len idx dst :
  is_digit h → is_digit l → Nat.odd len = false → (idx < length dst)%nat →
  str2tbcd_loop (tbcd_char h :: tbcd_char l :: src) len idx dst
  = str2tbcd_loop src (S (S len)) (S idx) (<[idx := 16 * h + l]> dst).
Proof.
  intros Hh Hl Hlen Hidx. cbn [str2tbcd_loop]. rewrite Hlen.
  rewrite array_set_Ok, !CHAR2TBCD_digit by done.
  cbn [mbind outcome_bind]. rewrite Nat.odd_succ, <-Nat.negb_odd, Hlen. cbn [negb].
  unfold array_get. rewrite list_lookup_insert_eq by done. cbn [mbind outcome_bind].
  rewrite array_set_Ok by (by rewrite length_insert). cbn [mbind outcome_bind].
  rewrite high_nibble_store, low_nibble_store by (auto; unfold is_digit in *; lia).
  by rewrite list_insert_insert_eq.
Qed.

Lemma take_S_insert i (x : Z) dst :
  (i < length dst)%nat → take (S i) (<[i := x]> dst) = take i dst ++ [x].
Proof.
  intros Hi. rewrite (take_S_r _ i x) by (by apply list_lookup_insert_eq).
  by rewrite take_insert_ge by lia.
Qed.

Lemma insert_then_drop (dst : bytes) i x (l : bytes) :
  (i < length dst)%nat →
  take (S i) (<[i := x]> dst) ++ l ++ drop (S i + length l) (<[i := x]> dst)
  = take i dst ++ (x :: l) ++ drop (i + length (x :: l)) dst.
Proof.
  intros Hi. rewrite (take_S_r _ i x) by (by apply list_lookup_insert_eq).
  rewrite take_insert_ge, drop_insert_lt by lia.
  rewrite <-app_assoc. cbn. by rewrite Nat.add_succ_r.
Qed.

(** The whole call: [packed_length] bytes written when they fit. *)
Lemma str2tbcd_from ds len idx dst :
  Forall is_digit ds → Nat.odd len = false →
  (idx + packed_length (length ds) <= length dst)%nat →
  ('(len, idx, dst) ← str2tbcd_loop (tbcd_char <$> ds) len idx dst;
   if Nat.odd len then
     old ← array_get dst idx;
     dst' ← array_set dst idx (u8 (Z.lor old (AQFD_CHAR2TBCD 0)));
     mret (S idx, dst')
   else mret (idx, dst))
  = Ok ((idx + packed_length (length ds))%nat,
        take idx dst ++ pack ds ++ drop (idx + packed_length (length ds)) dst).
Proof.
  revert len idx dst. induction ds as [|h|h l ds IH] using list_pair_ind;
    intros len idx dst Hds Hlen Hdst.
  - cbn. rewrite Hlen. by rewrite Nat.add_0_r, take_drop.
  - apply Forall_cons in Hds as [Hh _]. change (packed_length (length [h])) with 1%nat in *.
    cbn [fmap list_fmap str2tbcd_loop]. rewrite Hlen.
    rewrite array_set_Ok, CHAR2TBCD_digit, high_nibble_store by (done || lia).
    cbn [mbind outcome_bind mret outcome_ret].
    rewrite Nat.odd_succ, <-Nat.negb_odd, Hlen. cbn [negb].
    unfold array_get. rewrite list_lookup_insert_eq by lia. cbn [mbind outcome_bind].
    rewrite array_set_Ok by (rewrite length_insert; lia).
    change (AQFD_CHAR2TBCD 0) with 15. cbn [mbind outcome_bind mret outcome_ret].
    rewrite low_nibble_store, list_insert_insert_eq by (done || lia).
    cbn [pack].
    rewrite <-(insert_then_drop dst idx _ []) by lia.
    cbn [length app]. rewrite Nat.add_0_r, take_drop, Nat.add_1_r. done.
  - apply Forall_cons in Hds as [Hh Hds]. apply Forall_cons in Hds as [Hl Hds].
    cbn [length] in Hdst |- *. rewrite packed_length_SS in Hdst |- *.
    rewrite !fmap_cons, str2tbcd_pair by (done || lia).
    rewrite IH; [|done|done|rewrite length_insert; lia].
    cbn [pack]. rewrite <-!pack_length, insert_then_drop by lia. cbn [length].
    by rewrite !Nat.add_succ_r.
Qed.

Lemma str2tbcd_pack ds dst :
  Forall is_digit ds → (packed_length (length ds) <= length dst)%nat →
  str2tbcd (tbcd_char <$> ds) dst
  = Ok (packed_length (length ds), pack ds ++ drop (packed_length (length ds)) dst).
Proof. intros. unfold str2tbcd. by rewrite str2tbcd_from. Qed.

Lemma str2tbcd_overflow ds dst :
  Forall is_digit ds → (length dst < packed_length (length ds))%nat →
  str2tbcd (tbcd_char <$> ds) dst = UB.
Proof.
  intros Hds. unfold str2tbcd.
  cut (∀ len idx, Nat.odd len = false → (idx <= length dst)%nat →
    (length dst < idx + packed_length (length ds))%nat →
    str2tbcd_loop (tbcd_char <$> ds) len idx dst = UB).
  { intros H Hlen. rewrite H; [done|done|lia|lia]. }
  revert dst. induction ds as [|h|h l ds IH] using list_pair_ind;
    intros dst len idx Hlen Hidx Hdst; cbn [length] in Hdst;
    [change (packed_length 0) with 0%nat in Hdst; lia
    |change (packed_length 1) with 1%nat in Hdst|rewrite packed_length_SS in Hdst].
  - assert (idx = length dst) as -> by lia.
    cbn. rewrite Hlen. by rewrite array_set_UB.
  - apply Forall_cons in Hds as [Hh Hds]. apply Forall_cons in Hds as [Hl Hds].
    destruct (decide (idx < length dst)%nat).
    + rewrite !fmap_cons, str2tbcd_pair by done.
      apply IH; rewrite ?length_insert; (done || lia).
    + cbn. rewrite Hlen. by rewrite array_set_UB by lia.
Qed.

Lemma digit_nibble d : is_digit d → 0 <= d < 16.
Proof. unfold is_digit. lia. Qed.
#[local] Hint Resolve digit_nibble : core.

Lemma tbcd2str_byte h l src len dst dstlen :
  is_digit h → 0 <= l < 16 → (len < dstlen)%nat → (S len < length dst)%nat →
  tbcd2str_loop (16 * h + l :: src) len dst dstlen
  = tbcd2str_loop src (if l <? 15 then S (S len) else S len)
      (<[S len := tbcd_char l]> (<[len := tbcd_char h]> dst)) dstlen.
Proof.
  intros Hh Hl H1 H2. cbn [tbcd2str_loop].
  destruct (nibbles_of_byte h l (digit_nibble h Hh) Hl) as [-> ->].
  change (TBCD !!! Z.to_nat h) with (tbcd_char h).
  change (TBCD !!! Z.to_nat l) with (tbcd_char l).
  rewrite (proj2 (Nat.ltb_ge _ _)), array_set_Ok by lia. cbn [mbind outcome_bind].
  rewrite tbcd_char_truth by auto.
  rewrite (proj2 (Z.ltb_lt _ _)) by (unfold is_digit in Hh; lia).
  rewrite (proj2 (Nat.ltb_ge _ _)), array_set_Ok
    by (rewrite ?length_insert; lia).
  cbn [mbind outcome_bind]. by rewrite tbcd_char_truth by auto.
Qed.

Lemma tbcd2str_loop_pack ds len dst dstlen :
  Forall is_digit ds → (len + length ds <= dstlen)%nat →
  (len + length ds < length dst)%nat →
  ∃ dst', tbcd2str_loop (pack ds) len dst dstlen = Ok ((len + length ds)%nat, dst')
    ∧ take (len + length ds) dst' = take len dst ++ (tbcd_char <$> ds).
Proof.
  revert len dst. induction ds as [|h|h l ds IH] using list_pair_ind;
    intros len dst Hds H1 H2; cbn [length] in H1, H2; cbn [pack].
  - cbn [tbcd2str_loop length]. rewrite Nat.add_0_r, array_set_Ok by lia.
    eexists; split; [done|]. rewrite take_insert_ge by lia. by rewrite app_nil_r.
  - apply Forall_cons in Hds as [Hh _]. rewrite tbcd2str_byte by (done || lia).
    cbn [Z.ltb Z.compare Pos.compare Pos.compare_cont tbcd2str_loop].
    rewrite array_set_Ok by (rewrite !length_insert; lia).
    eexists. cbn [length]. rewrite Nat.add_1_r. split; [done|].
    rewrite !take_insert_ge by lia. by rewrite (take_S_insert len) by lia.
  - apply Forall_cons in Hds as [Hh Hds]. apply Forall_cons in Hds as [Hl Hds].
    rewrite tbcd2str_byte by (auto; lia).
    rewrite (proj2 (Z.ltb_lt _ _)) by (unfold is_digit in Hl; lia).
    destruct (IH (S (S len)) (<[S len := tbcd_char l]> (<[len := tbcd_char h]> dst)))
      as (dst' & E & Ht); [done|lia|rewrite !length_insert; lia|].
    exists dst'. rewrite E. cbn [length].
    replace (len + S (S (length ds)))%nat with (S (S len) + length ds)%nat by lia.
    split; [done|]. rewrite Ht, !fmap_cons.
    rewrite (take_S_insert (S len)) by (rewrite length_insert; lia).
    rewrite (take_S_insert len) by lia. by rewrite <-!app_assoc.
Qed.

(** A buffer with an odd number of places left overflows on as many digits. *)
Lemma tbcd2str_loop_odd_overflow ds len dst :
  Forall is_digit ds → (len < length dst)%nat → Nat.odd (length dst - len) = true →
  (length dst - len <= length ds)%nat →
  tbcd2str_loop (pack ds) len dst (length dst) = UB.
Proof.
  revert len dst. induction ds as [|h|h l ds IH] using list_pair_ind;
    intros len dst Hds Hlt Hodd H; cbn [length] in H; [lia| |].
  - assert (length dst = S len) as Hlen by lia. apply Forall_cons in Hds as [Hh _].
    cbn [pack tbcd2str_loop].
    destruct (nibbles_of_byte h 15 (digit_nibble h Hh) ltac:(lia)) as [-> ->].
    rewrite (proj2 (Nat.ltb_ge _ _)), array_set_Ok by lia. cbn [mbind outcome_bind].
    change (TBCD !!! Z.to_nat h) with (tbcd_char h). rewrite tbcd_char_truth by auto.
    rewrite (proj2 (Z.ltb_lt _ _)) by (unfold is_digit in Hh; lia).
    rewrite (proj2 (Nat.ltb_ge _ _)) by lia. by rewrite array_set_UB by (rewrite length_insert; lia).
  - apply Forall_cons in Hds as [Hh Hds]. apply Forall_cons in Hds as [Hl Hds]. cbn [pack].
    destruct (decide (length dst = S len)) as [Hlen|Hlen].
    + cbn [tbcd2str_loop].
      destruct (nibbles_of_byte h l (digit_nibble h Hh) (digit_nibble l Hl)) as [-> ->].
      rewrite (proj2 (Nat.ltb_ge _ _)), array_set_Ok by lia. cbn [mbind outcome_bind].
      change (TBCD !!! Z.to_nat h) with (tbcd_char h). rewrite tbcd_char_truth by auto.
      rewrite (proj2 (Z.ltb_lt _ _)) by (unfold is_digit in Hh; lia).
      rewrite (proj2 (Nat.ltb_ge _ _)) by lia. by rewrite array_set_UB by (rewrite length_insert; lia).
    + assert (S len < length dst)%nat by lia. rewrite tbcd2str_byte by (auto; lia).
      rewrite (proj2 (Z.ltb_lt _ _)) by (unfold is_digit in Hl; lia).
      assert (S (S len) <> length dst).
      { intros E. replace (length dst - len)%nat with 2%nat in Hodd by lia. done. }
      pose proof (IH (S (S len)) (<[S len := tbcd_char l]> (<[len := tbcd_char h]> dst)) Hds) as IH'.
      rewrite !length_insert in IH'. apply IH'; [lia| |lia].
      replace (length dst - len)%nat with (S (S (length dst - S (S len)))) in Hodd by lia. exact Hodd.
Qed.

(** The store of the final NUL one past an exactly filled buffer. *)
Lemma tbcd2str_loop_full ds len dst :
  Forall is_digit ds → Nat.even (length ds) = true →
  length dst = (len + length ds)%nat →
  tbcd2str_loop (pack ds) len dst (length dst) = UB.
Proof.
  revert len dst. induction ds as [|h|h l ds IH] using list_pair_ind;
    intros len dst Hds He H; [|done|].
  - cbn. rewrite array_set_UB; [done|]. cbn in H. lia.
  - apply Forall_cons in Hds as [Hh Hds]. apply Forall_cons in Hds as [Hl Hds].
    cbn [pack length] in *. rewrite tbcd2str_byte by (auto; lia).
    rewrite (proj2 (Z.ltb_lt _ _)) by (unfold is_digit in Hl; lia).
    rewrite <-(IH (S (S len)) (<[S len := tbcd_char l]> (<[len := tbcd_char h]> dst)));
      rewrite ?length_insert; (done || lia).
Qed.

(** A telephone number of TBCD digits survives packing and unpacking, for
    any destination that holds the packed bytes and any text buffer with room
    for the digits and the NUL. *)
Theorem tbcd_roundtrip ds dst buf dstlen :
  Forall is_digit ds →
  (packed_length (length ds) <= length dst)%nat →
  (length ds <= dstlen)%nat → (length ds < length buf)%nat →
  ∃ n dst' buf',
    str2tbcd (tbcd_char <$> ds) dst = Ok (n, dst')
    ∧ tbcd2str (take n dst') buf dstlen = Ok (length ds, buf')
    ∧ take (length ds) buf' = tbcd_char <$> ds.
Proof.
  intros Hds H1 H2 H3. rewrite str2tbcd_pack by done.
  destruct (tbcd2str_loop_pack ds 0 buf dstlen) as (buf' & E & Ht); [done..|].
  exists (packed_length (length ds)), (pack ds ++ drop (packed_length (length ds)) dst), buf'.
  split; [done|]. by rewrite <-pack_length, take_app_length.
Qed.

Lemma tbcd_roundtrip_witness :
  Forall is_digit [3; 3; 6; 0; 0; 5] ∧
  ∃ n dst' buf', str2tbcd (tbcd_char <$> [3; 3; 6; 0; 0; 5]) (replicate 5 0) = Ok (n, dst')
    ∧ tbcd2str (take n dst') (replicate 11 0) 11 = Ok (6%nat, buf')
    ∧ take 6 buf' = tbcd_char <$> [3; 3; 6; 0; 0; 5].
Proof.
  split; [unfold is_digit; repeat constructor; lia|].
  apply (tbcd_roundtrip [3; 3; 6; 0; 0; 5] (replicate 5 0) (replicate 11 0) 11);
    [unfold is_digit; repeat constructor; lia|vm_compute; lia..].
Defined.

(** [str2tbcd] stays inside its destination exactly when the packed digits
    fit, whatever [dstlen] says: one digit too many is an out-of-bounds store. *)
Theorem str2tbcd_in_bounds ds dst :
  Forall is_digit ds →
  (str2tbcd (tbcd_char <$> ds) dst ≠ UB ↔ (packed_length (length ds) <= length dst)%nat).
Proof.
  intros Hds. split; intros H.
  - destruct (decide (packed_length (length ds) <= length dst)%nat); [done|].
    rewrite str2tbcd_overflow in H by (done || lia). done.
  - by rewrite str2tbcd_pack.
Qed.

Lemma str2tbcd_in_bounds_witness :
  str2tbcd (tbcd_char <$> replicate 11 7) (replicate 5 0) = UB.
Proof.
  destruct (decide (str2tbcd (tbcd_char <$> replicate 11 7) (replicate 5 0) = UB)); [done|].
  apply str2tbcd_in_bounds in n; [vm_compute in n; lia|].
  unfold is_digit; repeat constructor; lia.
Defined.

(** The [std::string] overload of [tbcd2str] writes the final NUL one past
    its [char buffer[srclen * 2]] for every number with an even count of digits,
    and returns the digits for every odd count. *)
Theorem tbcd2str_string_parity ds :
  Forall is_digit ds →
  tbcd2str_string (pack ds)
  = if Nat.even (length ds) then UB else Ok (string_of_bytes (tbcd_char <$> ds)).
Proof.
  intros Hds. unfold tbcd2str_string, tbcd2str. rewrite pack_length.
  destruct (Nat.even (length ds)) eqn:E.
  - apply Nat.even_spec in E as [k Hk].
    assert (packed_length (length ds) * 2 = length ds)%nat as -> by
      (unfold packed_length; rewrite Hk; replace (2 * k + 1)%nat with (1 + k * 2)%nat by lia;
       rewrite Nat.div_add by lia; cbn; lia).
    rewrite <-(length_replicate (length ds) 0) at 2.
    rewrite (tbcd2str_loop_full ds 0); [done|done| |by rewrite length_replicate].
    apply Nat.even_spec. by exists k.
  - assert (Nat.odd (length ds) = true) as Ho by (by rewrite <-Nat.negb_even, E).
    apply Nat.odd_spec in Ho as [k Hk].
    assert (packed_length (length ds) * 2 = S (length ds))%nat as -> by
      (unfold packed_length; rewrite Hk; replace (2 * k + 1 + 1)%nat with ((k + 1) * 2)%nat by lia;
       rewrite Nat.div_mul by lia; lia).
    destruct (tbcd2str_loop_pack ds 0 (replicate (S (length ds)) 0) (S (length ds)))
      as (buf' & -> & Ht); [done|lia|rewrite length_replicate; lia|].
    cbn [mbind outcome_bind mret outcome_ret]. by rewrite Ht.
Qed.

Lemma tbcd2str_string_parity_witness :
  tbcd2str_string (pack [3; 3; 6; 0]) = UB.
Proof.
  apply (tbcd2str_string_parity [3; 3; 6; 0]).
  unfold is_digit; repeat constructor; lia.
Defined.

End Tbcd.

(** ** PLMN identities: three bytes of packed digits *)
Module Plmn.

Definition LOW_NIBBLE (a : Z) : Z := Z.land (u8 a) 15.
Definition HIGH_NIBBLE (a : Z) : Z := Z.shiftr (Z.land (u8 a) 240) 4.

(** The four characters [PARSE_MNC] and [PARSE_MCC] store, NUL included. *)
Definition PARSE_MNC (b : bytes) : bytes :=
  if HIGH_NIBBLE (b !!! 1%nat) =? 15 then
    [48; LOW_NIBBLE (b !!! 2%nat) + 48; HIGH_NIBBLE (b !!! 2%nat) + 48; 0]
  else
    [LOW_NIBBLE (b !!! 2%nat) + 48; HIGH_NIBBLE (b !!! 2%nat) + 48;
     HIGH_NIBBLE (b !!! 1%nat) + 48; 0].
Definition PARSE_MCC (b : bytes) : bytes :=
  [LOW_NIBBLE (b !!! 0%nat) + 48; HIGH_NIBBLE (b !!! 0%nat) + 48;
   LOW_NIBBLE (b !!! 1%nat) + 48; 0].

(** [ss << std::hex << std::uppercase << (unsigned int) n] for a byte: no
    padding, so a value below 16 prints one character. *)
Definition hex_digit (n : Z) : bytes := [Hex.hexc true n].
Definition print_hex (n : Z) : bytes :=
  if n <? 16 then hex_digit n else hex_digit (n / 16) ++ hex_digit (n mod 16).
(** [std::setw(2)] with fill ['0']. *)
Definition pad2 (s : bytes) : bytes := replicate (2 - length s) 48 ++ s.

(** [PLMNID_TO_HEX_STR]: the width set once applies to the first byte only. *)
Definition PLMNID_TO_HEX_STR (plmnid : bytes) : string :=
  string_of_bytes
    (pad2 (print_hex (plmnid !!! 0%nat)) ++ print_hex (plmnid !!! 1%nat)
     ++ print_hex (plmnid !!! 2%nat)).

(** Two PLMNs with the same MCC 311 and the different MNCs 010 and 001 get
    the same text, so the text the HSS stores and compares does not identify
    the visited network. *)
Theorem PLMNID_TO_HEX_STR_collision :
  ∃ p q : bytes,
    are_bytes p ∧ are_bytes q ∧ length p = 3%nat ∧ length q = 3%nat ∧
    PARSE_MCC p = bytes_of_string "311" ++ [0] ∧
    PARSE_MCC q = bytes_of_string "311" ++ [0] ∧
    PARSE_MNC p = bytes_of_string "010" ++ [0] ∧
    PARSE_MNC q = bytes_of_string "001" ++ [0] ∧
    PLMNID_TO_HEX_STR p = PLMNID_TO_HEX_STR q.
Proof.
  exists [19; 1; 16], [19; 17; 0].
  do 2 (split; [apply (bool_decide_unpack _); vm_compute; exact I|]).
  by repeat split.
Qed.

End Plmn.
