(* ===== verification/Auc.v ===== *)
(** * Authentication centre: Rijndael, MILENAGE, key derivation

    hsssec/src/rijndael.c, fx.c, kdf.c, sequence_number.c and random.c, which
    the AIR procedure calls through aucpp.c.  HMAC-SHA-256 belongs to the nettle
    library and [rand] to the C library: both are parameters of the model. *)

From S2P Require Import Prelude Codec.
#[local] Open Scope Z_scope.

(** ** Rijndael *)
Module Rijndael.

Definition S : list Z := [
   99; 124; 119; 123; 242; 107; 111; 197; 48; 1; 103; 43; 254; 215; 171; 118;
   202; 130; 201; 125; 250; 89; 71; 240; 173; 212; 162; 175; 156; 164; 114; 192;
   183; 253; 147; 38; 54; 63; 247; 204; 52; 165; 229; 241; 113; 216; 49; 21;
   4; 199; 35; 195; 24; 150; 5; 154; 7; 18; 128; 226; 235; 39; 178; 117;
   9; 131; 44; 26; 27; 110; 90; 160; 82; 59; 214; 179; 41; 227; 47; 132;
   83; 209; 0; 237; 32; 252; 177; 91; 106; 203; 190; 57; 74; 76; 88; 207;
   208; 239; 170; 251; 67; 77; 51; 133; 69; 249; 2; 127; 80; 60; 159; 168;
   81; 163; 64; 143; 146; 157; 56; 245; 188; 182; 218; 33; 16; 255; 243; 210;
   205; 12; 19; 236; 95; 151; 68; 23; 196; 167; 126; 61; 100; 93; 25; 115;
   96; 129; 79; 220; 34; 42; 144; 136; 70; 238; 184; 20; 222; 94; 11; 219;
   224; 50; 58; 10; 73; 6; 36; 92; 194; 211; 172; 98; 145; 149; 228; 121;
   231; 200; 55; 109; 141; 213; 78; 169; 108; 86; 244; 234; 101; 122; 174; 8;
   186; 120; 37; 46; 28; 166; 180; 198; 232; 221; 116; 31; 75; 189; 139; 138;
   112; 62; 181; 102; 72; 3; 246; 14; 97; 53; 87; 185; 134; 193; 29; 158;
   225; 248; 152; 17; 105; 217; 142; 148; 155; 30; 135; 233; 206; 85; 40; 223;
   140; 161; 137; 13; 191; 230; 66; 104; 65; 153; 45; 15; 176; 84; 187; 22].

Definition Xtime : list Z := [
   0; 2; 4; 6; 8; 10; 12; 14; 16; 18; 20; 22; 24; 26; 28; 30;
   32; 34; 36; 38; 40; 42; 44; 46; 48; 50; 52; 54; 56; 58; 60; 62;
   64; 66; 68; 70; 72; 74; 76; 78; 80; 82; 84; 86; 88; 90; 92; 94;
   96; 98; 100; 102; 104; 106; 108; 110; 112; 114; 116; 118; 120; 122; 124; 126;
   128; 130; 132; 134; 136; 138; 140; 142; 144; 146; 148; 150; 152; 154; 156; 158;
   160; 162; 164; 166; 168; 170; 172; 174; 176; 178; 180; 182; 184; 186; 188; 190;
   192; 194; 196; 198; 200; 202; 204; 206; 208; 210; 212; 214; 216; 218; 220; 222;
   224; 226; 228; 230; 232; 234; 236; 238; 240; 242; 244; 246; 248; 250; 252; 254;
   27; 25; 31; 29; 19; 17; 23; 21; 11; 9; 15; 13; 3; 1; 7; 5;
   59; 57; 63; 61; 51; 49; 55; 53; 43; 41; 47; 45; 35; 33; 39; 37;
   91; 89; 95; 93; 83; 81; 87; 85; 75; 73; 79; 77; 67; 65; 71; 69;
   123; 121; 127; 125; 115; 113; 119; 117; 107; 105; 111; 109; 99; 97; 103; 101;
   155; 153; 159; 157; 147; 145; 151; 149; 139; 137; 143; 141; 131; 129; 135; 133;
   187; 185; 191; 189; 179; 177; 183; 181; 171; 169; 175; 173; 163; 161; 167; 165;
   219; 217; 223; 221; 211; 209; 215; 213; 203; 201; 207; 205; 195; 193; 199; 197;
   251; 249; 255; 253; 243; 241; 247; 245; 235; 233; 239; 237; 227; 225; 231; 229].

(** A [u8 m[4][4]]: four rows of four. *)
Abbreviation matrix := (list bytes).
Definition entry (m : matrix) (i j : nat) : Z := (m !!! i) !!! j.
Definition build (f : nat → nat → Z) : matrix :=
  (λ i, f i <$> seq 0 4) <$> seq 0 4.

Definition S_at (z : Z) : Z := S !!! Z.to_nat z.
Definition Xtime_at (z : Z) : Z := Xtime !!! Z.to_nat z.

(** Round key [i] from round key [i - 1]: column 0 first, then the others. *)
Definition next_round_key (p : matrix) (roundConst : Z) : matrix :=
  let c0 :=
    [ Z.lxor (Z.lxor (S_at (entry p 1 3)) (entry p 0 0)) roundConst;
      Z.lxor (S_at (entry p 2 3)) (entry p 1 0);
      Z.lxor (S_at (entry p 3 3)) (entry p 2 0);
      Z.lxor (S_at (entry p 0 3)) (entry p 3 0) ] in
  (λ j,
    let k0 := c0 !!! j in
    let k1 := Z.lxor (entry p j 1) k0 in
    let k2 := Z.lxor (entry p j 2) k1 in
    let k3 := Z.lxor (entry p j 3) k2 in
    [k0; k1; k2; k3]) <$> seq 0 4.

Fixpoint round_keys_from (n : nat) (p : matrix) (roundConst : Z) : list matrix :=
  match n with
  | O => []
  | Datatypes.S n' =>
      let k := next_round_key p roundConst in
      k :: round_keys_from n' k (Xtime_at roundConst)
  end.

(** The eleven round keys left in the global [roundKeys]. *)
Definition RijndaelKeySchedule (key : bytes) : list matrix :=
  let k0 := build (λ i j, key !!! (4 * j + i)%nat) in
  k0 :: round_keys_from 10 k0 1.

Definition KeyAdd (state : matrix) (roundKeys : list matrix) (round : nat) : matrix :=
  build (λ i j, Z.lxor (entry state i j) (entry (roundKeys !!! round) i j)).

Definition ByteSub (state : matrix) : matrix := build (λ i j, S_at (entry state i j)).

(** Row [i] rotates left by [i]. *)
Definition ShiftRow (state : matrix) : matrix :=
  match state with
  | [r0; [a0; a1; a2; a3]; [b0; b1; b2; b3]; [c0; c1; c2; c3]] =>
      [r0; [a1; a2; a3; a0]; [b2; b3; b0; b1]; [c3; c0; c1; c2]]
  | _ => state
  end.

(** One column of [MixColumn], the four stores in the code's order. *)
Definition mix_column (s0 s1 s2 s3 : Z) : Z * Z * Z * Z :=
  let temp := Z.lxor (Z.lxor (Z.lxor s0 s1) s2) s3 in
  let tmp0 := s0 in
  let tmp := Xtime_at (Z.lxor s0 s1) in
  let s0 := Z.lxor s0 (Z.lxor temp tmp) in
  let tmp := Xtime_at (Z.lxor s1 s2) in
  let s1 := Z.lxor s1 (Z.lxor temp tmp) in
  let tmp := Xtime_at (Z.lxor s2 s3) in
  let s2 := Z.lxor s2 (Z.lxor temp tmp) in
  let tmp := Xtime_at (Z.lxor s3 tmp0) in
  let s3 := Z.lxor s3 (Z.lxor temp tmp) in
  (s0, s1, s2, s3).

Definition MixColumn (state : matrix) : matrix :=
  build (λ i j,
    let '(a, b, c, d) :=
      mix_column (entry state 0 j) (entry state 1 j) (entry state 2 j) (entry state 3 j) in
    [a; b; c; d] !!! i).

Definition full_round (roundKeys : list matrix) (state : matrix) (r : nat) : matrix :=
  KeyAdd (MixColumn (ShiftRow (ByteSub state))) roundKeys r.

Definition RijndaelEncrypt (roundKeys : list matrix) (input : bytes) : bytes :=
  let state := build (λ i j, input !!! (4 * j + i)%nat) in
  let state := KeyAdd state roundKeys 0 in
  let state := foldl (full_round roundKeys) state (seq 1 9) in
  let state := KeyAdd (ShiftRow (ByteSub state)) roundKeys 10 in
  (λ i, entry state (i mod 4)%nat (i / 4)%nat) <$> seq 0 16.

(** *** The tables and the column mixing against their definition in GF(2^8) *)

(** Multiplication by x modulo x^8 + x^4 + x^3 + x + 1. *)
Definition xtime (z : Z) : Z :=
  Z.lxor (Z.land (Z.shiftl z 1) 255) (if Z.testbit z 7 then 27 else 0).

Definition byte_range : list Z := Z.of_nat <$> seq 0 256.

Lemma byte_range_spec z : is_byte z ↔ z ∈ byte_range.
Proof.
  unfold byte_range, is_byte. rewrite list_elem_of_fmap. split.
  - intros H. exists (Z.to_nat z). rewrite elem_of_seq. lia.
  - intros (k & -> & Hk). apply elem_of_seq in Hk. lia.
Qed.

(** A decidable fact about every byte is checked on the 256 of them. *)
Lemma byte_check (f : Z → bool) z :
  forallb f byte_range = true → is_byte z → f z = true.
Proof.
  intros H Hz. rewrite forallb_forall in H. apply H.
  by apply list_elem_of_In, byte_range_spec.
Qed.

Lemma Xtime_at_xtime z : is_byte z → Xtime_at z = xtime z.
Proof.
  intros Hz. apply Z.eqb_eq.
  apply (byte_check (λ z, Xtime_at z =? xtime z)); [|done]. by vm_compute.
Qed.

Lemma S_at_byte z : is_byte z → is_byte (S_at z).
Proof.
  intros Hz. assert ((0 <=? S_at z) && (S_at z <? 256) = true) as H.
  { apply (byte_check (λ z, (0 <=? S_at z) && (S_at z <? 256))); [by vm_compute|done]. }
  unfold is_byte. lia.
Qed.

Lemma lxor_byte a b : is_byte a → is_byte b → is_byte (Z.lxor a b).
Proof.
  unfold is_byte. intros Ha Hb.
  assert (∀ z, 0 <= z < 256 → z = z mod 2 ^ 8) as Hm by (intros; rewrite Z.mod_small; lia).
  rewrite (Hm a), (Hm b) by lia. rewrite <-!Z.land_ones by lia.
  replace (Z.lxor (Z.land a (Z.ones 8)) (Z.land b (Z.ones 8)))
    with (Z.land (Z.lxor a b) (Z.ones 8)).
  - rewrite Z.land_ones by lia. apply Z.mod_pos_bound. lia.
  - apply Z.bits_inj'. intros n Hn. rewrite !Z.land_spec, !Z.lxor_spec, !Z.land_spec.
    by destruct (Z.testbit a n), (Z.testbit b n), (Z.testbit (Z.ones 8) n).
Qed.

Lemma xtime_byte z : is_byte z → is_byte (xtime z).
Proof.
  intros Hz. unfold xtime. apply lxor_byte; [|by destruct (Z.testbit z 7)].
  change 255 with (Z.ones 8). rewrite Z.land_ones by lia. apply Z.mod_pos_bound. lia.
Qed.

Lemma xtime_lxor a b : xtime (Z.lxor a b) = Z.lxor (xtime a) (xtime b).
Proof.
  unfold xtime. rewrite Z.lxor_spec, Z.shiftl_lxor.
  apply Z.bits_inj'. intros n Hn. rewrite !Z.lxor_spec, !Z.land_spec, !Z.lxor_spec.
  destruct (Z.testbit a 7), (Z.testbit b 7); simpl xorb;
    destruct (Z.testbit (Z.shiftl a 1) n), (Z.testbit (Z.shiftl b 1) n),
      (Z.testbit 255 n), (Z.testbit 27 n); rewrite ?Z.testbit_0_l; done.
Qed.

(** The matrix product of FIPS 197: rows 2 3 1 1, 1 2 3 1, 1 1 2 3, 3 1 1 2. *)
Definition times3 (z : Z) : Z := Z.lxor (xtime z) z.
Definition mix_reference (a b c d : Z) : Z * Z * Z * Z :=
  (Z.lxor (Z.lxor (Z.lxor (xtime a) (times3 b)) c) d,
   Z.lxor (Z.lxor (Z.lxor a (xtime b)) (times3 c)) d,
   Z.lxor (Z.lxor (Z.lxor a b) (xtime c)) (times3 d),
   Z.lxor (Z.lxor (Z.lxor (times3 a) b) c) (xtime d)).

(** Equality of two sums of bytes, bit by bit. *)
Ltac xor_bits :=
  apply Z.bits_inj'; intros ? ?; rewrite !Z.lxor_spec;
  repeat match goal with |- context [Z.testbit ?x ?n] => destruct (Z.testbit x n) end;
  reflexivity.

(** The in-place column mixing, with its table of multiples and its saved
    first byte, is the matrix product of the cipher's definition on every
    column of bytes. *)
Theorem mix_column_reference a b c d :
  is_byte a → is_byte b → is_byte c → is_byte d →
  mix_column a b c d = mix_reference a b c d.
Proof.
  intros Ha Hb Hc Hd. unfold mix_column, mix_reference, times3.
  rewrite !Xtime_at_xtime by auto using lxor_byte.
  rewrite !xtime_lxor.
  repeat match goal with |- (_, _) = (_, _) => f_equal end; xor_bits.
Qed.

Lemma mix_column_reference_witness :
  mix_column 219 19 83 69 = (142, 77, 161, 188)
  ∧ mix_column 219 19 83 69 = mix_reference 219 19 83 69.
Proof.
  split; [reflexivity|].
  apply (mix_column_reference 219 19 83 69); unfold is_byte; lia.
Defined.

(** FIPS 197, appendix C.1. *)
Example aes128_appendix_C1 :
  RijndaelEncrypt (RijndaelKeySchedule (Z.of_nat <$> seq 0 16))
    ((λ i, 17 * Z.of_nat i) <$> seq 0 16)
  = [105; 196; 224; 216; 106; 123; 4; 48; 216; 205; 183; 128; 112; 180; 197; 90].
Proof. by vm_compute. Qed.

Lemma RijndaelEncrypt_length rk input : length (RijndaelEncrypt rk input) = 16%nat.
Proof. unfold RijndaelEncrypt. by rewrite length_fmap, length_seq. Qed.

End Rijndael.

(** ** MILENAGE (fx.c): every function keys the cipher, then encrypts *)
Module Milenage.
Import Rijndael.

(** [for (i) rijndaelInput[(i + r) % 16] = x[i]] *)
Definition rotate (r : nat) (x : bytes) : bytes :=
  (λ k, x !!! ((k + 16 - r) mod 16)%nat) <$> seq 0 16.

(** [rijndaelInput[15] ^= c] *)
Definition xor_last (c : Z) (x : bytes) : bytes := alter (λ b, Z.lxor b c) 15%nat x.

(** The common body of [f1] and [f1star]: OUT1. *)
Definition out1 (opc k rand sqn amf : bytes) : bytes :=
  let rk := RijndaelKeySchedule k in
  let temp := RijndaelEncrypt rk (xor_bytes rand opc) in
  let in1 := sqn ++ amf ++ sqn ++ amf in
  let rijndaelInput := rotate 8 (xor_bytes in1 opc) in
  let rijndaelInput := xor_bytes rijndaelInput temp in
  xor_bytes (RijndaelEncrypt rk rijndaelInput) opc.

Definition f1 (opc k rand sqn amf : bytes) : bytes := take 8 (out1 opc k rand sqn amf).
Definition f1star (opc k rand sqn amf : bytes) : bytes := drop 8 (out1 opc k rand sqn amf).

(** RES, CK, IK and AK, from OUT2, OUT3 and OUT4. *)
Definition f2345 (opc k rand : bytes) : bytes * bytes * bytes * bytes :=
  let rk := RijndaelKeySchedule k in
  let temp := RijndaelEncrypt rk (xor_bytes rand opc) in
  let out := xor_bytes (RijndaelEncrypt rk (xor_last 1 (xor_bytes temp opc))) opc in
  let res := drop 8 out in
  let ak := take 6 out in
  let ck := xor_bytes (RijndaelEncrypt rk (xor_last 2 (rotate 12 (xor_bytes temp opc)))) opc in
  let ik := xor_bytes (RijndaelEncrypt rk (xor_last 4 (rotate 8 (xor_bytes temp opc)))) opc in
  (res, ck, ik, ak).

Definition f5star (opc k rand : bytes) : bytes :=
  let rk := RijndaelKeySchedule k in
  let temp := RijndaelEncrypt rk (xor_bytes rand opc) in
  take 6 (xor_bytes (RijndaelEncrypt rk (xor_last 8 (rotate 4 (xor_bytes temp opc)))) opc).

Definition generate_autn (sqn ak amf mac_a : bytes) : bytes :=
  xor_bytes sqn ak ++ amf ++ mac_a.

Definition ComputeOPc (kP opP : bytes) : bytes :=
  xor_bytes (RijndaelEncrypt (RijndaelKeySchedule kP) opP) opP.

(** 3GPP TS 35.207, test set 1. *)
Section TestSet1.
Let k := [70;91;92;232;177;153;180;159;170;95;10;46;226;56;166;188].
Let rand := [35;85;60;190;150;55;168;157;33;138;230;77;174;71;191;53].
Let op := [205;194;2;213;18;62;32;246;43;109;103;106;199;44;179;24].
Let opc := [205;99;203;113;149;74;159;78;72;165;153;78;55;160;43;175].
Let sqn := [255;155;180;208;182;7].
Let amf := [185;185].
Example opc_set1 : ComputeOPc k op = opc. Proof. by vm_compute. Qed.
Example f1_set1 : f1 opc k rand sqn amf = [74;159;250;195;84;223;175;179].
Proof. by vm_compute. Qed.
Example f1star_set1 : f1star opc k rand sqn amf = [1;207;175;158;196;232;113;233].
Proof. by vm_compute. Qed.
Example f2345_set1 : f2345 opc k rand =
    ([165;66;17;213;227;186;80;191],
     [180;11;169;163;197;139;42;5;187;240;217;135;178;27;248;203],
     [247;105;188;215;81;4;70;4;18;118;114;113;28;109;52;65],
     [170;104;156;100;131;112]).
Proof. by vm_compute. Qed.
Example f5star_set1 : f5star opc k rand = [69;30;139;236;164;59].
Proof. by vm_compute. Qed.
End TestSet1.

#[global] Opaque RijndaelEncrypt RijndaelKeySchedule.

Lemma out1_length opc k rand sqn amf :
  length opc = 16%nat → length (out1 opc k rand sqn amf) = 16%nat.
Proof.
  intros H. unfold out1. by rewrite xor_bytes_length; rewrite RijndaelEncrypt_length.
Qed.

Lemma f2345_ak_length opc k rand res ck ik ak :
  length opc = 16%nat → f2345 opc k rand = (res, ck, ik, ak) → length ak = 6%nat.
Proof.
  intros H. unfold f2345. intros [= <- <- <- <-].
  rewrite length_take, xor_bytes_length; rewrite RijndaelEncrypt_length; [lia|done].
Qed.

Lemma f5star_length opc k rand : length opc = 16%nat → length (f5star opc k rand) = 6%nat.
Proof.
  intros H. unfold f5star.
  rewrite length_take, xor_bytes_length; rewrite RijndaelEncrypt_length; [lia|done].
Qed.

End Milenage.

(** ** HMAC-SHA-256 of the nettle library: key, message, digest length *)
Class Nettle := hmac_sha256 : bytes → bytes → nat → bytes.

(** ** Vectors and resynchronisation (kdf.c, sequence_number.c) *)
Module Auc.
Import Milenage.

Section Nettle.
Context `{Nettle}.

Definition kdf (key s : bytes) (out_len : nat) : bytes := hmac_sha256 key s out_len.

Definition derive_kasme (ck ik plmn sqn ak : bytes) : bytes :=
  let key := ck ++ ik in
  let s := [16] ++ plmn ++ [0; 3] ++ xor_bytes sqn ak ++ [0; 6] in
  kdf key s 32.

Record auc_vector := { rand : bytes; xres : bytes; autn : bytes; kasme : bytes }.

Definition EINVAL : Z := 22.

Definition generate_vector (opc key plmn sqn : bytes) (vector : option auc_vector)
    : Z * option auc_vector :=
  let amf := [128; 0] in
  match vector with
  | None => (EINVAL, None)
  | Some v =>
      let mac_a := f1 opc key (rand v) sqn amf in
      let '(res, ck, ik, ak) := f2345 opc key (rand v) in
      (0, Some {| rand := rand v; xres := res; autn := generate_autn sqn ak amf mac_a;
                  kasme := derive_kasme ck ik plmn sqn ak |})
  end.

(** [auts] is RAND, the concealed SQN_MS and MAC-S; [NULL] is [None]. *)
Definition sqn_ms_derive (opc key auts rand_p : bytes) : option bytes :=
  let conc_sqn_ms := take 6 (drop 16 auts) in
  let mac_s := take 8 (drop 22 auts) in
  let amf := [0; 0] in
  let ak := f5star opc key rand_p in
  let sqn_ms := xor_bytes ak conc_sqn_ms in
  let mac_s_computed := f1star opc key rand_p sqn_ms amf in
  if decide (mac_s_computed = mac_s) then Some sqn_ms else None.

(** *** What the other end of the procedure does (TS 33.102, clause 6.3.3) *)

(** The USIM's answer to a challenge: the sequence number it recovers and the
    session key, when the network's MAC checks. *)
Definition usim_authenticate (opc k plmn rand autn : bytes) : option (bytes * bytes * bytes) :=
  let '(res, ck, ik, ak) := f2345 opc k rand in
  let sqn := xor_bytes (take 6 autn) ak in
  let amf := take 2 (drop 6 autn) in
  if decide (f1 opc k rand sqn amf = drop 8 autn)
  then Some (sqn, res, derive_kasme ck ik plmn sqn ak) else None.

(** The AUTS a USIM builds for resynchronisation with the challenge [rand]; in
    the request it follows the RAND. *)
Definition usim_auts (opc k rand sqn_ms : bytes) : bytes :=
  xor_bytes sqn_ms (f5star opc k rand) ++ f1star opc k rand sqn_ms [0; 0].

(** The USIM accepts the AUTN built for its own key and sequence number. *)
Lemma usim_accepts opc key plmn rnd sqn res ck ik ak :
  length opc = 16%nat → length sqn = 6%nat → f2345 opc key rnd = (res, ck, ik, ak) →
  usim_authenticate opc key plmn rnd
    (generate_autn sqn ak [128; 0] (f1 opc key rnd sqn [128; 0]))
  = Some (sqn, res, derive_kasme ck ik plmn sqn ak).
Proof.
  intros Hopc Hsqn E. pose proof (f2345_ak_length _ _ _ _ _ _ _ Hopc E) as Hak.
  unfold usim_authenticate. rewrite E. unfold generate_autn.
  assert (length (xor_bytes sqn ak) = 6%nat) as Hx by (rewrite xor_bytes_length; lia).
  rewrite take_app_length' by done. rewrite xor_bytes_involutive by lia.
  rewrite !drop_app_length' by done.
  change (take 2 ([128; 0] ++ ?m)) with [128; 0].
  replace (drop 8 (xor_bytes sqn ak ++ [128; 0] ++ f1 opc key rnd sqn [128; 0]))
    with (f1 opc key rnd sqn [128; 0]).
  - by rewrite decide_True.
  - rewrite app_assoc, drop_app_length'; [done|]. rewrite length_app, Hx. done.
Qed.


Lemma sqn_ms_derive_iff opc key auts_rand body rand_p sqn :
  length opc = 16%nat → length auts_rand = 16%nat → length body = 14%nat →
  sqn_ms_derive opc key (auts_rand ++ body) rand_p = Some sqn
  ↔ length sqn = 6%nat ∧ body = usim_auts opc key rand_p sqn.
Proof.
  intros Hopc Hr Hb. unfold sqn_ms_derive, usim_auts.
  rewrite drop_app_length' by done.
  replace (drop 22 (auts_rand ++ body)) with (drop 6 body)
    by (rewrite drop_app_ge by lia; by rewrite Hr).
  rewrite (take_ge (drop 6 body)) by (rewrite length_drop; lia).
  set (ak := f5star opc key rand_p).
  assert (length ak = 6%nat) as Hak by (by apply f5star_length).
  assert (length (take 6 body) = 6%nat) as Ht by (rewrite length_take; lia).
  split.
  - case_decide as Hd; [|done]. intros [= <-].
    rewrite xor_bytes_length, Hak by lia. split; [done|].
    rewrite (xor_bytes_comm ak) in Hd |- *. rewrite xor_bytes_involutive by lia.
    by rewrite Hd, take_drop.
  - intros [Hsqn ->].
    assert (length (xor_bytes sqn ak) = 6%nat) as Hx by (rewrite xor_bytes_length; lia).
    rewrite take_app_length', drop_app_length' by done.
    rewrite (xor_bytes_comm ak), xor_bytes_involutive by lia. by rewrite decide_True.
Qed.

(** What follows the AUTS is not looked at. *)
Lemma sqn_ms_derive_app opc key auts tl rand_p : length auts = 30%nat →
  sqn_ms_derive opc key (auts ++ tl) rand_p = sqn_ms_derive opc key auts rand_p.
Proof.
  intros Hl. unfold sqn_ms_derive. rewrite !drop_app_le by lia.
  by rewrite !take_app_le by (rewrite length_drop; lia).
Qed.

(** C23: [sqn_ms_derive] returns a sequence number exactly when the AUTS is the
    one the USIM holding the key builds for that number and this RAND. *)
Theorem sqn_ms_derive_correct opc key auts_rand body rand_p sqn :
  length opc = 16%nat → length auts_rand = 16%nat → length body = 14%nat →
  sqn_ms_derive opc key (auts_rand ++ body) rand_p = Some sqn
  ↔ length sqn = 6%nat ∧ body = usim_auts opc key rand_p sqn.
Proof. apply sqn_ms_derive_iff. Qed.

End Nettle.
End Auc.

(** ** Random challenges (random.c)

    [rand] of the C library draws from a generator state [G]; [random_bool] is
    the configuration's switch. *)
Class LibcRand (G : Type) := libc_rand : G → Z * G.

Module Random.
Section Rand.
Context {G : Type} `{LibcRand G}.

Record state := { no_random_delta : Z; generator : G }.

(** The loop of the random branch from index [i] on, [r] the last draw. *)
Fixpoint fill (n i : nat) (r : Z) (g : G) : bytes * G :=
  match n with
  | O => ([], g)
  | S n' =>
      let '(r, g) := if (i mod 4 =? 0)%nat then libc_rand g else (r, g) in
      let shift := 8 * Z.of_nat (i mod 4) in
      let mask := i32 (Z.shiftl 255 shift) in
      let b := u8 (Z.shiftr (Z.land r mask) shift) in
      let '(l, g) := fill n' (S i) r g in
      (b :: l, g)
  end.

Definition generate_random (random_bool : Z) (length : nat) (st : state) : bytes * state :=
  if 0 <? random_bool then
    let '(l, g) := fill length 0 0 (generator st) in
    (l, {| no_random_delta := no_random_delta st; generator := g |})
  else
    ((λ i, u8 (Z.of_nat i + no_random_delta st)) <$> seq 0 length,
     {| no_random_delta := u8 (no_random_delta st + 1); generator := generator st |}).

(** The challenges of [k] calls in a row. *)
Fixpoint challenges (random_bool : Z) (length k : nat) (st : state) : list bytes :=
  match k with
  | O => []
  | S k' =>
      let '(l, st) := generate_random random_bool length st in
      l :: challenges random_bool length k' st
  end.

Lemma fill_length n i r g : length (fst (fill n i r g)) = n.
Proof.
  revert i r g. induction n as [|n IH]; intros i r g; [done|]. cbn [fill].
  destruct (if (i mod 4 =? 0)%nat then _ else _) as [r' g'].
  specialize (IH (S i) r' g'). destruct (fill n (S i) r' g') as [l g''].
  simpl in *. by rewrite IH.
Qed.

Lemma generate_random_length b n st : length (fst (generate_random b n st)) = n.
Proof.
  unfold generate_random. destruct (0 <? b).
  - pose proof (fill_length n 0 0 (generator st)) as H'.
    by destruct (fill n 0 0 (generator st)).
  - simpl. by rewrite length_fmap, length_seq.
Qed.

Lemma challenges_predictable b n k j st :
  b <= 0 → (j < k)%nat →
  challenges b n k st !! j
  = Some ((λ i, u8 (Z.of_nat i + no_random_delta st + Z.of_nat j)) <$> seq 0 n).
Proof.
  intros Hb. revert j st. induction k as [|k IH]; intros j st Hj; [lia|].
  cbn [challenges]. unfold generate_random at 1.
  rewrite (proj2 (Z.ltb_ge 0 b)) by done. destruct j as [|j]; cbn.
  - f_equal. apply list_fmap_ext. intros i x Hi. by rewrite Z.add_0_r.
  - rewrite IH by lia. f_equal. apply list_fmap_ext. intros i x Hi.
    cbn [no_random_delta]. unfold u8.
    rewrite (Z.add_comm (Z.of_nat x)), <-Z.add_assoc, Zplus_mod_idemp_l. f_equal. lia.
Qed.

End Rand.
Arguments state : clear implicits.
End Random.

(** A digest for the witnesses: the right length, from the key. *)
Module WitnessNettle.
#[export] Instance take_key : Nettle := λ key _ n, take n key.
End WitnessNettle.

Module AucWitness.
Import Milenage Auc WitnessNettle.

Definition k := replicate 16 1.
Definition opc := replicate 16 2.
Definition v0 : auc_vector :=
  {| rand := replicate 16 3; xres := []; autn := []; kasme := [] |}.


Lemma sqn_ms_derive_correct_witness :
  sqn_ms_derive opc k (replicate 16 9 ++ usim_auts opc k (replicate 16 3) [0; 0; 0; 0; 1; 0])
    (replicate 16 3) = Some [0; 0; 0; 0; 1; 0].
Proof.
  apply (sqn_ms_derive_correct opc k (replicate 16 9)); [done|done|by vm_compute|done].
Defined.

End AucWitness.
