(* ===== verification/Access.v ===== *)
(** * Access restriction: the visited network against the IMSI

    hsssec/src/conversion.c and hsssec/src/access_restriction.c, called by the
    first phase of the AIR procedure when roaming is not allowed. *)

From S2P Require Import Prelude Cxx Codec.
#[local] Open Scope Z_scope.

Module Conversion.

(** [hexa_to_ascii]: [length] bytes to twice as many characters. *)
Definition hex_to_ascii_table : bytes := bytes_of_string "0123456789abcdef".
Definition hexa_to_ascii (from : bytes) : bytes :=
  mjoin ((λ b,
    let upper := Z.shiftr (Z.land b 240) 4 in
    let lower := Z.land b 15 in
    [hex_to_ascii_table !!! Z.to_nat upper; hex_to_ascii_table !!! Z.to_nat lower])
    <$> from).

(** Both 256-entry tables hold 0 to 9 at '0' to '9' and -1 everywhere else. *)
Definition ascii_to_hex_table (c : Z) : Z :=
  if (48 <=? c) && (c <=? 57) then c - 48 else -1.
Definition ascii_to_dec_table (c : Z) : Z :=
  if (48 <=? c) && (c <=? 57) then c - 48 else -1.

(** [while ( *hex && isspace( *hex)) hex++] on the characters before the NUL. *)
Fixpoint skip_space (h : bytes) : bytes :=
  match h with
  | c :: h' => if isspace c then skip_space h' else h
  | [] => []
  end.

(** The endless loop of [ascii_to_hex], bounded by the characters left: the
    return code and the bytes stored in [dst]. *)
Fixpoint ascii_to_hex_fuel (fuel : nat) (h : bytes) : Z * bytes :=
  match fuel with
  | O => (0, [])
  | S fuel' =>
      match skip_space h with
      | [] => (1, [])
      | c :: h =>
          let high := ascii_to_hex_table c in
          if high <? 0 then (0, [])
          else
            match skip_space h with
            | [] => (0, [])
            | c :: h =>
                let low := ascii_to_hex_table c in
                if low <? 0 then (0, [])
                else
                  let '(rc, dst) := ascii_to_hex_fuel fuel' h in
                  (rc, u8 (Z.lor (Z.shiftl high 4) low) :: dst)
            end
      end
  end.
Definition ascii_to_hex (h : bytes) : Z * bytes := ascii_to_hex_fuel (S (length h)) h.

(** [bcd_to_hex]: each digit to one entry of [dst] from index [i] on. *)
Fixpoint bcd_to_hex_from (i : nat) (h dst : bytes) : outcome (Z * bytes) :=
  match h with
  | [] => mret (0, dst)
  | c :: h' =>
      let value := ascii_to_dec_table c in
      if value <? 0 then mret (-1, dst)
      else dst ← array_set dst i value; bcd_to_hex_from (S i) h' dst
  end.
Definition bcd_to_hex (dst h : bytes) : outcome (Z * bytes) := bcd_to_hex_from 0 h dst.

Lemma skip_space_length h : (length (skip_space h) <= length h)%nat.
Proof. induction h as [|c h IH]; simpl; [lia|]. destruct (isspace c); simpl; lia. Qed.

(** More fuel than characters changes nothing. *)
Lemma ascii_to_hex_fuel_enough f g h :
  (length h < f)%nat → (length h < g)%nat → ascii_to_hex_fuel f h = ascii_to_hex_fuel g h.
Proof.
  revert g h. induction f as [|f IH]; intros [|g] h Hf Hg; try lia. cbn [ascii_to_hex_fuel].
  pose proof (skip_space_length h) as H1. destruct (skip_space h) as [|c h1]; [done|].
  destruct (_ <? 0); [done|].
  pose proof (skip_space_length h1) as H2. destruct (skip_space h1) as [|c' h2]; [done|].
  destruct (_ <? 0); [done|]. simpl in *. by rewrite (IH g) by lia.
Qed.

Lemma bcd_to_hex_from_digits i h dst :
  Forall (λ c, 48 <= c <= 57) h → (i + length h <= length dst)%nat →
  bcd_to_hex_from i h dst
  = Ok (0, take i dst ++ ((λ c, c - 48) <$> h) ++ drop (i + length h) dst).
Proof.
  intros Hh. revert i dst. induction Hh as [|c h Hc Hh IH]; intros i dst Hlen.
  { cbn. by rewrite Nat.add_0_r, take_drop. }
  cbn [length] in Hlen. cbn [bcd_to_hex_from]. unfold ascii_to_dec_table.
  rewrite (proj2 (Z.leb_le 48 c)), (proj2 (Z.leb_le c 57)) by lia. cbn [andb].
  rewrite (proj2 (Z.ltb_ge (c - 48) 0)) by lia. rewrite array_set_Ok by lia.
  cbn [mbind outcome_bind]. rewrite IH by (rewrite length_insert; lia).
  do 2 f_equal. rewrite (take_S_r _ i (c - 48)) by (apply list_lookup_insert_eq; lia).
  rewrite take_insert_ge, drop_insert_lt by lia. rewrite <-app_assoc. cbn.
  by rewrite Nat.add_succ_r.
Qed.

(** What [hexa_to_ascii] prints is read back by [ascii_to_hex] only when
    every byte is written with decimal digits: the decoding table has no entry
    for the letters the encoder emits. *)
Theorem ascii_to_hex_letters b :
  is_byte b →
  ascii_to_hex (hexa_to_ascii [b])
  = if (b / 16 <? 10) then (if b mod 16 <? 10 then (1, [b]) else (0, []))
    else (0, []).
Proof.
  intros Hb.
  assert (bool_decide (ascii_to_hex (hexa_to_ascii [b])
    = if (b / 16 <? 10) then (if b mod 16 <? 10 then (1, [b]) else (0, [])) else (0, []))
    = true) as H; [|by apply bool_decide_eq_true in H].
  revert b Hb. intros b [H1 H2].
  rewrite <-(Z2Nat.id b) by lia. assert (Z.to_nat b < 256)%nat as Hk by lia.
  generalize (Z.to_nat b) Hk. clear. intros k Hk.
  assert (forallb (λ k, bool_decide
    (ascii_to_hex (hexa_to_ascii [Z.of_nat k])
     = if (Z.of_nat k / 16 <? 10)
       then (if Z.of_nat k mod 16 <? 10 then (1, [Z.of_nat k]) else (0, []))
       else (0, []))) (seq 0 256) = true) as Hall by (by vm_compute).
  rewrite forallb_forall in Hall. apply (Hall k). apply in_seq. lia.
Qed.

Lemma ascii_to_hex_letters_witness : ascii_to_hex (hexa_to_ascii [171]) = (0, []).
Proof. apply (ascii_to_hex_letters 171). unfold is_byte. lia. Defined.

End Conversion.

Module AccessRestriction.
Import Conversion.

(** The digits of a PLMN: MCC, then MNC with a leading 0 when it has two. *)
Definition split_plmn (plmn : bytes) : bytes * bytes :=
  let p0 := plmn !!! 0%nat in let p1 := plmn !!! 1%nat in let p2 := plmn !!! 2%nat in
  let mcc := [Z.land p0 15; Z.shiftr (Z.land p0 240) 4; Z.land p1 15] in
  let mnc :=
    if Z.land p1 240 =? 240
    then [0; Z.land p2 15; Z.shiftr (Z.land p2 240) 4]
    else [Z.land p2 15; Z.shiftr (Z.land p2 240) 4; Z.shiftr (Z.land p1 240) 4] in
  (mcc, mnc).

(** The return code; [imsi_hex] is the local array of fifteen bytes before its
    first store.  A null [vplmn] never reaches the call ([split_plmn] fails
    on it), the caller passes an array. *)
Definition apply_access_restriction (imsi_hex : bytes) (imsi : string) (vplmn : bytes)
    : outcome Z :=
  '(rc, imsi_hex) ← bcd_to_hex imsi_hex (bytes_of_string imsi);
  if negb (rc =? 0) then mret (-1)
  else
    let '(vmcc, vmnc) := split_plmn vplmn in
    let hmcc := take 3 imsi_hex in
    if negb (bool_decide (vmcc = hmcc)) then mret (-1)
    else
      let hmnc := 0 :: take 2 (drop 3 imsi_hex) in
      if negb (bool_decide (vmcc = hmcc)) && negb (bool_decide (vmnc = hmnc))
      then mret (-1)
      else mret 0.

(** With roaming forbidden the HSS still admits a subscriber to every
    network of the home country: on an IMSI of at most fifteen digits the check
    succeeds exactly when the three MCC digits agree, whatever the MNC is. *)
Theorem apply_access_restriction_mcc_only init imsi vplmn :
  length init = 15%nat →
  Forall (λ c, 48 <= c <= 57) (bytes_of_string imsi) →
  (3 <= String.length imsi <= 15)%nat →
  apply_access_restriction init imsi vplmn
  = Ok (if decide (fst (split_plmn vplmn)
                   = (λ c, c - 48) <$> take 3 (bytes_of_string imsi)) then 0 else -1).
Proof.
  intros Hinit Hd Hlen. unfold apply_access_restriction, bcd_to_hex.
  rewrite bcd_to_hex_from_digits by (rewrite ?bytes_of_string_length; auto; lia).
  change (take 0 init) with (@nil Z). cbn [mbind outcome_bind Z.eqb negb app].
  destruct (split_plmn vplmn) as [vmcc vmnc]. cbn [fst].
  rewrite take_app_le by (rewrite length_fmap, bytes_of_string_length; lia).
  rewrite firstn_map.
  case_decide as H.
  - by rewrite bool_decide_eq_true_2 by done.
  - by rewrite bool_decide_eq_false_2 by done.
Qed.

Lemma apply_access_restriction_mcc_only_witness :
  apply_access_restriction (replicate 15 0) "208920100001100" [2; 248; 1] = Ok 0.
Proof.
  apply (apply_access_restriction_mcc_only (replicate 15 0) "208920100001100" [2; 248; 1]);
    [done| |simpl; lia].
  apply (bool_decide_unpack _). vm_compute. exact I.
Defined.

(** The C++ macros [PARSE_MCC] and [PARSE_MNC] print the digits that
    [split_plmn] computes, for every three bytes. *)
Theorem parse_plmn_is_split_plmn a b c :
  is_byte a → is_byte b → is_byte c →
  Plmn.PARSE_MCC [a; b; c] = ((λ d, d + 48) <$> fst (split_plmn [a; b; c])) ++ [0] ∧
  Plmn.PARSE_MNC [a; b; c] = ((λ d, d + 48) <$> snd (split_plmn [a; b; c])) ++ [0].
Proof.
  unfold is_byte. intros Ha Hb Hc.
  unfold Plmn.PARSE_MCC, Plmn.PARSE_MNC, Plmn.LOW_NIBBLE, Plmn.HIGH_NIBBLE, split_plmn, u8.
  cbn [lookup_total list_lookup_total fst snd].
  rewrite !Z.mod_small by lia. split; [done|].
  assert (Z.shiftr (Z.land b 240) 4 = 15 ↔ Z.land b 240 = 240) as Heq.
  { rewrite Z.shiftr_div_pow2 by lia. change (2 ^ 4) with 16.
    change 240 with (Z.shiftl (Z.ones 4) 4) at 1 2.
    assert (Z.land b (Z.shiftl (Z.ones 4) 4) = 16 * (b / 16)) as ->; [|rewrite (Z.mul_comm 16), Z.div_mul by lia; lia].
    transitivity (Z.shiftl (Z.land (Z.shiftr b 4) (Z.ones 4)) 4).
    - apply Z.bits_inj'. intros n Hn.
      rewrite Z.land_spec, !Z.shiftl_spec, Z.land_spec by lia.
      destruct (Z.ltb_spec n 4); [rewrite !(Z.testbit_neg_r _ (n - 4)) by lia; by rewrite andb_false_r|].
      rewrite Z.shiftr_spec by lia. by replace (n - 4 + 4) with n by lia.
    - rewrite Z.land_ones, Z.shiftl_mul_pow2, Z.shiftr_div_pow2 by lia.
      change (2 ^ 4) with 16. rewrite Z.mod_small; [lia|].
      split; [apply Z.div_pos|apply Z.div_lt_upper_bound]; lia. }
  destruct (Z.eqb_spec (Z.shiftr (Z.land b 240) 4) 15) as [E|E];
    destruct (Z.eqb_spec (Z.land b 240) 240) as [E'|E']; try done; tauto.
Qed.

Lemma parse_plmn_is_split_plmn_witness :
  Plmn.PARSE_MNC [2; 248; 57] = bytes_of_string "093" ++ [0].
Proof.
  apply (parse_plmn_is_split_plmn 2 248 57); unfold is_byte; lia.
Defined.

End AccessRestriction.
