(* ===== verification/Work.v ===== *)
(** * The HSS worker layer: [SQueue], [WorkerManager], [QueueManager]

    Models util/src/squeue.cpp (with the semaphore and the mutex of
    util/src/ssync.cpp), src/worker.cpp, include/worker.h and the
    [HSSWorkerQueue] of src/fdhss.cpp.

    The mutex of [SMutexLock] makes each locked region one step; what the code
    does outside it is a step of its own, so that every interleaving of the
    threads is a path of the step relation. *)

From S2P Require Import Prelude.
#[local] Open Scope Z_scope.

(** ** [SQueue]: a counting semaphore next to a locked FIFO *)

Module SQueue.

Section Queue.
Context {A : Type}.

(** [popping] counts the threads of [pop] that are past [m_sem.decrement] and
    have not yet taken the mutex. *)
Record t := mk { m_queue : list A; m_sem : nat; popping : nat }.

Definition init : t := mk [] 0 0.

(** [push]: under the mutex, the message and then the semaphore. *)
Definition push (msg : A) (q : t) : t :=
  q <| m_queue ::= (λ l, l ++ [msg]) |> <| m_sem ::= S |>.

(** [m_sem.decrement(wait)]: [None] when the caller would block ([wait]) or
    gets [false]. *)
Definition decrement (q : t) : option t :=
  match m_sem q with
  | O => None
  | S n => Some (q <| m_sem := n |> <| popping ::= S |>)
  end.

(** The locked part of [pop]: [front] of an empty [std::queue] is undefined. *)
Definition pop_locked (q : t) : outcome (A * t) :=
  match m_queue q with
  | [] => UB
  | msg :: l => Ok (msg, q <| m_queue := l |> <| popping ::= pred |>)
  end.

(** [pop(wait)] when no other thread runs in between. *)
Definition pop (q : t) : outcome (option A * t) :=
  match decrement q with
  | None => Ok (None, q)
  | Some q' => '(msg, q'') ← pop_locked q'; mret (Some msg, q'')
  end.

(** Any number of threads. *)
Inductive step : t → t → Prop :=
  | step_push msg q : step q (push msg q)
  | step_decrement q q' : decrement q = Some q' → step q q'
  | step_pop q msg q' :
      (0 < popping q)%nat → pop_locked q = Ok (msg, q') → step q q'.

Definition inv (q : t) : Prop := length (m_queue q) = (m_sem q + popping q)%nat.

Lemma squeue_inv_step q q' : step q q' → inv q → inv q'.
Proof.
  unfold inv. intros [msg q0|q0 q1 E|q0 msg q1 Hp E].
  - cbn. rewrite length_app. cbn. lia.
  - unfold decrement in E. destruct (m_sem q0) eqn:?; [done|]. simplify_eq. cbn. lia.
  - unfold pop_locked in E. destruct (m_queue q0) eqn:?; simplify_eq. cbn. lia.
Qed.

Lemma squeue_inv_reachable q : rtc step init q → inv q.
Proof.
  intros H. assert (inv init) as H0 by done. revert H0.
  induction H; eauto using squeue_inv_step.
Qed.

(** In every interleaving of pushers and poppers, a thread that got past the
    semaphore finds a message: [m_queue.front()] is never called on an empty
    queue. *)
Theorem pop_never_undefined q :
  rtc step init q → (0 < popping q)%nat →
  ∃ msg q', pop_locked q = Ok (msg, q') ∧ m_queue q = msg :: m_queue q'.
Proof.
  intros Hr Hp. apply squeue_inv_reachable in Hr. unfold inv, pop_locked in *.
  destruct (m_queue q) as [|msg l]; [simpl in Hr; lia|]. by eexists _, _.
Qed.

(** A queue at rest, as seen through its contents. *)
Definition holds (q : t) (l : list A) : Prop :=
  m_queue q = l ∧ m_sem q = length l ∧ popping q = O.

Lemma push_holds q l msg : holds q l → holds (push msg q) (l ++ [msg]).
Proof. intros (?&?&?). unfold holds; cbn. rewrite length_app; cbn. split_and!; try congruence; lia. Qed.

Lemma pop_holds_nil q : holds q [] → pop q = Ok (None, q).
Proof. intros (?&Hs&?). unfold pop, decrement. by rewrite Hs. Qed.

Lemma pop_holds_cons q msg l :
  holds q (msg :: l) → ∃ q', pop q = Ok (Some msg, q') ∧ holds q' l.
Proof.
  intros (Hq&Hs&Hp). unfold pop, decrement. rewrite Hs. unfold pop_locked; cbn.
  rewrite Hq; cbn. eexists; split; [done|]. unfold holds; cbn. by rewrite Hp.
Qed.

End Queue.
Arguments t : clear implicits.

Lemma pop_never_undefined_witness :
  ∃ msg q', pop_locked (mk [7%Z] 0 1) = Ok (msg, q') ∧ [7%Z] = msg :: m_queue q'.
Proof.
  apply (pop_never_undefined (mk [7%Z] 0 1)); [|simpl; lia].
  eapply rtc_l; [apply (step_push 7%Z)|].
  eapply rtc_l; [apply step_decrement; reflexivity|]. apply rtc_refl.
Defined.

End SQueue.

(** ** [QueueManager] and [HSSWorkerQueue]: admission of requests *)

Module QueueManager.

Section Manager.
Context {P : Type}.

(** [m_queue] holds the processors; [m_concurrent], [m_active] and [m_pending]
    are [int]s. *)
Record t := mk {
  m_queue : list P; m_concurrent : Z; m_active : Z; m_pending : Z }.

Definition init : t := mk [] 10 0 0.

Definition addEntry (data : P) (q : t) : t :=
  q <| m_queue ::= (λ l, l ++ [data]) |> <| m_pending ::= Z.succ |>.

Definition startMessage (q : t) : option P * t :=
  if (q.(m_active) <? q.(m_concurrent)) && (0 <? q.(m_pending)) then
    match q.(m_queue) with
    | data :: l =>
        (Some data, q <| m_queue := l |> <| m_pending ::= Z.pred |> <| m_active ::= Z.succ |>)
    | [] => (None, q)
    end
  else (None, q).

Definition finishMessage (q : t) : t := q <| m_active ::= Z.pred |>.

(** The threads around the queue.  A request handler calls [addProcessor] and
    then [startProcessor]; a worker that deletes its processor calls
    [finishProcessor] and then [startProcessor].  [owed] counts the threads
    between the two calls, [running] lists the started processors (those
    whose phase was triggered and that are not finished). *)
Record sys := mk_sys { queue : t; owed : nat; running : list P; started : list P; added : list P }.

Definition init_sys : sys := mk_sys init 0 [] [] [].

Inductive step : sys → sys → Prop :=
  | step_add p s :
      step s (s <| queue ::= addEntry p |> <| owed ::= S |> <| added ::= (λ l, l ++ [p]) |>)
  | step_start_some s p q n :
      owed s = S n → startMessage (queue s) = (Some p, q) →
      step s (s <| queue := q |> <| owed := n |>
                <| running ::= cons p |> <| started ::= (λ l, l ++ [p]) |>)
  | step_start_none s q n :
      owed s = S n → startMessage (queue s) = (None, q) →
      step s (s <| queue := q |> <| owed := n |>)
  | step_finish s l1 p l2 :
      running s = l1 ++ p :: l2 →
      step s (s <| queue ::= finishMessage |> <| owed ::= S |> <| running := l1 ++ l2 |>).

(** The counters mean what their names say, the queue is FIFO, and whenever a
    processor waits while a slot is free some thread still owes a start. *)
Record inv (s : sys) : Prop := {
  inv_pending : m_pending (queue s) = Z.of_nat (length (m_queue (queue s)));
  inv_active : m_active (queue s) = Z.of_nat (length (running s));
  inv_bound : m_active (queue s) <= m_concurrent (queue s);
  inv_fifo : added s = started s ++ m_queue (queue s);
  inv_progress :
    Z.min (m_pending (queue s)) (m_concurrent (queue s) - m_active (queue s))
    <= Z.of_nat (owed s) }.

Lemma startMessage_inv q p q' :
  startMessage q = (Some p, q') →
  m_active q < m_concurrent q ∧ m_queue q = p :: m_queue q' ∧
  m_pending q' = m_pending q - 1 ∧ m_active q' = m_active q + 1 ∧
  m_concurrent q' = m_concurrent q.
Proof.
  unfold startMessage. destruct (_ && _) eqn:E; [|done].
  apply andb_true_iff in E as [Ha _]. destruct (m_queue q); [done|].
  intros ?; simplify_eq. cbn. split_and!; try done; lia.
Qed.

Lemma startMessage_None q q' :
  startMessage q = (None, q') →
  q' = q ∧ (m_concurrent q <= m_active q ∨ m_pending q <= 0 ∨ m_queue q = []).
Proof.
  unfold startMessage. destruct (_ && _) eqn:E.
  - destruct (m_queue q) eqn:?; [|done]. intros ?; simplify_eq. tauto.
  - intros ?; simplify_eq. apply andb_false_iff in E as [E|E]; split; try done; lia.
Qed.

Lemma admission_inv_step s s' : step s s' → inv s → inv s'.
Proof.
  intros Hstep [Hp Ha Hb Hf Hg].
  destruct Hstep as [p s|s p q n Ho Hs|s q n Ho Hs|s l1 p l2 Hr].
  - constructor; cbn; rewrite ?length_app; cbn; try lia.
    by rewrite Hf, <-app_assoc.
  - apply startMessage_inv in Hs as (Hlt & Hq & Hp' & Ha' & Hc').
    rewrite Hq in Hp, Hf. cbn in Hp.
    constructor; cbn; rewrite ?Hp', ?Ha', ?Hc'; try lia.
    by rewrite Hf, <-app_assoc.
  - apply startMessage_None in Hs as [-> Hcase].
    constructor; cbn; try done. destruct Hcase as [?|[?|Hq]]; [lia|lia|].
    rewrite Hq in Hp. cbn in Hp. lia.
  - rewrite Hr, length_app in Ha. cbn in Ha.
    constructor; cbn; rewrite ?length_app; try done; lia.
Qed.

Lemma admission_init_inv : inv init_sys.
Proof. constructor; cbn; try done; lia. Qed.

Lemma admission_reachable_inv s : rtc step init_sys s → inv s.
Proof.
  intros H. assert (inv init_sys) as H0 by apply admission_init_inv. revert H0.
  induction H; eauto using admission_inv_step.
Qed.


(** A processor that is never finished keeps its slot for good. *)
Inductive no_finish_step : sys → sys → Prop :=
  | no_finish_add p s :
      no_finish_step s
        (s <| queue ::= addEntry p |> <| owed ::= S |> <| added ::= (λ l, l ++ [p]) |>)
  | no_finish_start s r q n :
      owed s = S n → startMessage (queue s) = (r, q) →
      no_finish_step s
        (s <| queue := q |> <| owed := n |>
           <| running ::= (λ l, option_list r ++ l) |>
           <| started ::= (λ l, l ++ option_list r) |>).

(** Once [m_concurrent] processors are started and none of them finishes,
    no later request is ever started, however many arrive. *)
Theorem leaked_slots_block s s' :
  rtc step init_sys s →
  Z.of_nat (length (running s)) = m_concurrent (queue s) →
  rtc no_finish_step s s' → started s' = started s.
Proof.
  intros Hr Hfull H. destruct (admission_reachable_inv s Hr) as [_ Ha _ _ _].
  assert (m_concurrent (queue s) <= m_active (queue s)) as Hc by lia.
  clear Hr Hfull Ha.
  induction H as [|s s1 s' Hstep _ IH]; [done|].
  destruct Hstep as [p s|s r q n Ho Hs].
  - apply IH. by cbn.
  - destruct r as [p|].
    + apply startMessage_inv in Hs as (?&_). lia.
    + apply startMessage_None in Hs as [-> _]. etrans; [by apply IH|].
      cbn. by rewrite app_nil_r.
Qed.

End Manager.
Arguments t : clear implicits.
Arguments sys : clear implicits.

(** One request, added and started with nothing in between. *)
Definition arrive {P} (p : P) (s : sys P) : sys P :=
  let '(r, q) := startMessage (addEntry p (queue s)) in
  mk_sys q (owed s) (option_list r ++ running s) (started s ++ option_list r) (added s ++ [p]).

Lemma arrive_steps {P} (p : P) s : rtc step s (arrive p s).
Proof.
  unfold arrive. destruct (startMessage (addEntry p (queue s))) as [r q] eqn:E.
  destruct s as [q0 o ru st ad]; cbn in *.
  eapply rtc_l; [apply (step_add p)|]. apply rtc_once.
  set (s1 := set added _ _). destruct r as [p'|].
  - by apply (step_start_some s1 p' q o).
  - cbn. rewrite app_nil_r. by apply (step_start_none s1 q o).
Qed.

Lemma arrivals_steps {P} (ps : list P) s : rtc step s (foldl (flip arrive) s ps).
Proof.
  revert s. induction ps as [|p ps IH]; intros s; cbn; [apply rtc_refl|].
  etrans; [apply arrive_steps|apply IH].
Qed.


(** Twelve requests arrive: ten start, two wait. *)
Definition full : sys nat := foldl (flip arrive) init_sys (seq 0 12).

Lemma leaked_slots_block_witness :
  started (full <| queue ::= addEntry 12%nat |> <| owed ::= S |>
                <| added ::= (λ l, l ++ [12%nat]) |>) = seq 0 10.
Proof.
  apply (leaked_slots_block full).
  - apply arrivals_steps.
  - reflexivity.
  - apply rtc_once, no_finish_add.
Defined.

End QueueManager.

(** ** [WorkerManager] and [WorkerThread]: the pool and its shutdown *)

Module WorkerManager.

Definition WORKER_SHUTDOWN : Z := 99.
Definition WORKER_EVENT : Z := 100.

Section Pool.
(** [work] is a [WorkProcessor]. *)
Context {work : Type}.

(** A [WorkerMessage]: its id and its processor (null for a shutdown). *)
Record WorkerMessage := mk_msg { m_id : Z; m_processor : option work }.

(** Where the thread that stops the process stands in [waitForShutdown]. *)
Inductive main_pc := Running | Pushing (i : Z) | Waiting | Returned.

(** The pool: [m_queue] (its interface is the FIFO of [SQueue.holds]),
    [m_numWorkers], [m_shutdown]; [idle] threads are in [getWork], [busy] ones
    process a message, [leaving] ones left the loop of [threadProc] and have
    not called [threadShutdown] yet. *)
Record t := mk {
  m_queue : list WorkerMessage;
  m_numWorkers : Z;
  m_shutdown : bool;
  idle : nat;
  busy : list WorkerMessage;
  leaving : nat;
  processed : list work;
  main : main_pc }.

(** [init(numWorkers)] started every thread. *)
Definition init (numWorkers : nat) : t :=
  mk [] (Z.of_nat numWorkers) false numWorkers [] 0 [] Running.

Definition addWork (msg : WorkerMessage) (m : t) : t := m <| m_queue ::= (λ l, l ++ [msg]) |>.

(** The body of [threadProc] once [getWork] returned [msg]. *)
Definition take (msg : WorkerMessage) (l : list WorkerMessage) (n : nat) (m : t) : t :=
  let m := m <| m_queue := l |> <| idle := n |> in
  if m_id msg =? WORKER_SHUTDOWN then m <| leaving ::= S |>
  else m <| busy ::= cons msg |>.

Definition finish (msg : WorkerMessage) (rest : list WorkerMessage) (m : t) : t :=
  let m := m <| busy := rest |> <| idle ::= S |> in
  if m_id msg =? WORKER_EVENT then
    match m_processor msg with
    | Some w => m <| processed ::= (λ l, l ++ [w]) |>
    | None => m
    end
  else m.

Definition threadShutdown (m : t) : t :=
  let m := m <| leaving ::= pred |> <| m_numWorkers ::= Z.pred |> in
  if m_numWorkers m <=? 0 then m <| m_shutdown := true |> else m.

(** [waitForShutdown]: its loop reads [m_numWorkers] before every push. *)
Definition waitForShutdown (m : t) : option t :=
  match main m with
  | Running =>
      Some (if m_numWorkers m =? 0
            then m <| m_shutdown := true |> <| main := Returned |>
            else m <| main := Pushing 0 |>)
  | Pushing i =>
      Some (if i <? m_numWorkers m
            then addWork (mk_msg WORKER_SHUTDOWN None) m <| main := Pushing (i + 1) |>
            else m <| main := Waiting |>)
  | Waiting => if m_shutdown m then Some (m <| main := Returned |>) else None
  | Returned => None
  end.

Inductive step : t → t → Prop :=
  | step_addWork w m : step m (addWork (mk_msg WORKER_EVENT (Some w)) m)
  | step_take msg l n m :
      m_queue m = msg :: l → idle m = S n → step m (take msg l n m)
  | step_finish l1 msg l2 m : busy m = l1 ++ msg :: l2 → step m (finish msg (l1 ++ l2) m)
  | step_threadShutdown m : (0 < leaving m)%nat → step m (threadShutdown m)
  | step_main m m' : waitForShutdown m = Some m' → step m m'.

(** [m_numWorkers] counts the threads that have not left. *)
Record inv (m : t) : Prop := {
  inv_count : m_numWorkers m = Z.of_nat (idle m + length (busy m) + leaving m);
  inv_event : m_shutdown m = true → m_numWorkers m = 0;
  inv_returned : main m = Returned → m_shutdown m = true }.

Lemma pool_inv_step m m' : step m m' → inv m → inv m'.
Proof.
  intros Hs [Hc He Hr].
  destruct Hs as [w m|msg l n m Hq Hi|l1 msg l2 m Hb|m Hl|m m' Hm].
  - by constructor.
  - unfold take. constructor; destruct (_ =? _); cbn; try done; lia.
  - rewrite Hb, length_app in Hc. cbn in Hc.
    unfold finish. constructor; destruct (_ =? _); try destruct (m_processor msg);
      cbn; rewrite ?length_app; try done; lia.
  - unfold threadShutdown. constructor; destruct (_ <=? _) eqn:E; cbn in *; try done; try lia.
    { intros _. apply Z.leb_le in E. lia. }
    intros H. specialize (He H). lia.
  - unfold waitForShutdown in Hm. destruct (main m) eqn:Em.
    + simplify_eq. destruct (_ =? 0) eqn:E; constructor; cbn; try done; lia.
    + simplify_eq. destruct (_ <? _) eqn:E; constructor; cbn; try done; lia.
    + destruct (m_shutdown m) eqn:E; simplify_eq. constructor; cbn; auto.
    + done.
Qed.

Lemma pool_inv_reachable n m : rtc step (init n) m → inv m.
Proof.
  intros H. assert (inv (init n)) as H0 by (constructor; cbn; try done; lia). revert H0.
  induction H; eauto using pool_inv_step.
Qed.

(** [waitForShutdown] returns only after every worker thread has left its
    loop and reported it, in every interleaving. *)
Theorem shutdown_waits_for_workers n m :
  rtc step (init n) m → main m = Returned →
  idle m = O ∧ busy m = [] ∧ leaving m = O.
Proof.
  intros Hr Hm. destruct (pool_inv_reachable n m Hr) as [Hc He Hret].
  specialize (He (Hret Hm)).
  split_and!; [lia| |lia]. apply length_zero_iff_nil. lia.
Qed.

(** A pool whose stopping thread waits while a worker will never be told to
    stop: no shutdown message is left and no thread is leaving. *)
Record stuck (m : t) : Prop := {
  stuck_main : main m = Waiting;
  stuck_event : m_shutdown m = false;
  stuck_leaving : leaving m = O;
  stuck_queue : Forall (λ msg, m_id msg ≠ WORKER_SHUTDOWN) (m_queue m) }.

Lemma stuck_step m m' : step m m' → stuck m → stuck m'.
Proof.
  intros Hs [Hm He Hl Hq].
  destruct Hs as [w m|msg l n m Hq' Hi|l1 msg l2 m Hb|m Hl'|m m' Hw].
  - constructor; cbn; try done. apply Forall_app. by split; [|repeat constructor].
  - rewrite Hq' in Hq. apply Forall_cons in Hq as [Hid Hq].
    unfold take. rewrite (proj2 (Z.eqb_neq _ _)) by done. by constructor; cbn.
  - unfold finish. destruct (_ =? _); [destruct (m_processor msg)|]; by constructor; cbn.
  - lia.
  - unfold waitForShutdown in Hw. rewrite Hm, He in Hw. done.
Qed.

End Pool.
Arguments t : clear implicits.
Arguments WorkerMessage : clear implicits.

(** The state after: the stopping thread pushes one shutdown message, a worker
    takes it and leaves, and only then the loop reads [m_numWorkers] again. *)
Definition raced : t nat := mk [] 1 false 1 [] 0 [] Waiting.

(** [waitForShutdown] can wait for ever: with two workers, when the first
    one leaves before the second shutdown message is pushed, the loop bound has
    already dropped and from that state on, whatever the threads do, the event
    is never set. *)
Theorem shutdown_can_hang :
  rtc step (init 2) raced ∧ ∀ m, rtc step raced m → main m = Waiting ∧ m_shutdown m = false.
Proof.
  split.
  - eapply rtc_l; [apply step_main; reflexivity|].
    eapply rtc_l; [apply step_main; reflexivity|].
    eapply rtc_l; [eapply step_take; reflexivity|].
    eapply rtc_l; [apply step_threadShutdown; cbn; lia|].
    eapply rtc_l; [apply step_main; reflexivity|]. apply rtc_refl.
  - intros m H. assert (stuck m) as [? ? _ _]; [|done].
    assert (stuck raced) as H0 by (constructor; cbn; auto). revert H0.
    induction H; eauto using stuck_step.
Qed.

Lemma shutdown_waits_for_workers_witness :
  idle ((@init nat 0) <| m_shutdown := true |> <| main := Returned |>) = O ∧
  busy ((@init nat 0) <| m_shutdown := true |> <| main := Returned |>) = [] ∧
  leaving ((@init nat 0) <| m_shutdown := true |> <| main := Returned |>) = O.
Proof.
  apply (shutdown_waits_for_workers 0%nat); [|reflexivity].
  apply rtc_once, step_main. reflexivity.
Defined.

End WorkerManager.
