(* ===== verification/Sync.v ===== *)
(** * Synchronisation: mutex, semaphore, event, and the message queue in detail

    Models util/src/ssync.cpp with util/include/ssync.h, and util/src/squeue.cpp
    at the granularity of its calls on the mutex, the semaphore and the
    [std::queue].  [Work.SQueue] takes a locked region as one step;
    [LockedQueue] shows that it may.

    The mutex of pthreads, the counting semaphore of POSIX and the pipe of the
    kernel are modelled by their documented behaviour: a recursive mutex, a
    counter that [sem_wait] takes from when it is positive, a bounded buffer. *)

From S2P Require Import Prelude.
From S2P Require Import Work.
#[local] Open Scope Z_scope.

(** ** Exploring a finite transition system

    [explore] collects the states a list of states leads to; when the result is
    closed under the successors, it holds every reachable state. *)

Section Explore.
Context {S : Type} `{EqDecision S} (succs : S → list S).

Definition fresh_in (seen l : list S) : list S :=
  foldl (λ acc s, if decide (s ∈ seen ++ acc) then acc else acc ++ [s]) [] l.

Fixpoint explore (n : nat) (seen todo : list S) : list S :=
  match n with
  | O => seen
  | Datatypes.S n' =>
      match todo with
      | [] => seen
      | s :: todo' =>
          let new := fresh_in seen (succs s) in
          explore n' (seen ++ new) (todo' ++ new)
      end
  end.

Definition closed (l : list S) : bool :=
  forallb (λ s, forallb (λ s', bool_decide (s' ∈ l)) (succs s)) l.

Lemma fresh_in_sub seen l s : s ∈ fresh_in seen l → s ∈ l.
Proof.
  clear succs. unfold fresh_in. assert (∀ acc, s ∈ foldl (λ acc s, if decide (s ∈ seen ++ acc) then acc else acc ++ [s]) acc l →
    s ∈ acc ∨ s ∈ l) as H; [|intros Hs; by destruct (H [] Hs) as [?%elem_of_nil|]].
  induction l as [|x l IH]; cbn; intros acc Hs; [by left|]. apply IH in Hs.
  case_decide; set_solver.
Qed.

(** What [explore] returns can be reached. *)
Lemma explore_reachable s0 n seen todo :
  Forall (rtc (λ a b, b ∈ succs a) s0) seen → Forall (rtc (λ a b, b ∈ succs a) s0) todo →
  Forall (rtc (λ a b, b ∈ succs a) s0) (explore n seen todo).
Proof.
  revert seen todo. induction n as [|n IH]; intros seen todo Hs Ht; cbn; [done|].
  destruct todo as [|x todo]; [done|]. apply Forall_cons in Ht as [Hx Ht].
  assert (Forall (rtc (λ a b, b ∈ succs a) s0) (fresh_in seen (succs x))) as Hn.
  { apply Forall_forall. intros y Hy%fresh_in_sub. by eapply rtc_r. }
  apply IH; apply Forall_app; by split.
Qed.

Lemma closed_reachable l s s' :
  closed l = true → s ∈ l → rtc (λ a b, b ∈ succs a) s s' → s' ∈ l.
Proof.
  intros Hc Hs Hr. induction Hr as [|a b c Hab _ IH]; [done|]. apply IH.
  unfold closed in Hc. rewrite forallb_forall in Hc.
  specialize (Hc a ltac:(by apply list_elem_of_In)). rewrite forallb_forall in Hc.
  specialize (Hc b ltac:(by apply list_elem_of_In)). by apply bool_decide_eq_true in Hc.
Qed.

(** A check of a finite system: every reachable state satisfies [P], and from each
    one a state that satisfies [Q] can be reached. *)
Definition model_checked (n : nat) (P Q : S → bool) (s0 : S) : bool :=
  let l := explore n [s0] [s0] in
  bool_decide (s0 ∈ l) && closed l && forallb P l && forallb (λ s, existsb Q (explore n [s] [s])) l.

Lemma model_checked_sound n P Q s0 s :
  model_checked n P Q s0 = true → rtc (λ a b, b ∈ succs a) s0 s →
  P s = true ∧ ∃ s', rtc (λ a b, b ∈ succs a) s s' ∧ Q s' = true.
Proof.
  unfold model_checked. rewrite !andb_true_iff, bool_decide_eq_true, !forallb_forall.
  intros [[[H0 Hc] HP] HQ] Hr.
  pose proof (closed_reachable _ _ _ Hc H0 Hr) as Hin%list_elem_of_In. split; [by apply HP|].
  apply HQ, existsb_exists in Hin as (s'&Hs'&?). exists s'. split; [|done].
  assert (Forall (rtc (λ a b, b ∈ succs a) s) (explore n [s] [s])) as Hx.
  { apply explore_reachable; apply Forall_singleton, rtc_refl. }
  rewrite Forall_forall in Hx. by apply Hx, list_elem_of_In.
Qed.

(** A run along given choices: the [i]-th successor at each turn. *)
Fixpoint follow (choices : list nat) (s : S) : option S :=
  match choices with
  | [] => Some s
  | i :: l => match succs s !! i with Some s' => follow l s' | None => None end
  end.

Lemma follow_rtc choices s s' : follow choices s = Some s' → rtc (λ a b, b ∈ succs a) s s'.
Proof.
  revert s. induction choices as [|i l IH]; cbn; intros s H; [simplify_eq; apply rtc_refl|].
  destruct (succs s !! i) as [t|] eqn:E; [|done].
  eapply rtc_l; [by eapply list_elem_of_lookup_2|by apply IH].
Qed.

End Explore.

(** ** [SMutex]: a recursive mutex *)

Module SMutex.

(** [held] is the mutex of pthreads: the thread that holds it and how often. *)
Record t := mk { mInitialized : bool; held : option (nat * nat) }.

Definition ctor (bInit : bool) : t := mk bInit None.

Definition init (m : t) : t := if mInitialized m then m else mk true None.

Definition destroy (m : t) : t := if mInitialized m then m <| mInitialized := false |> else m.

(** [pthread_mutex_lock] on a recursive mutex: [None] when the caller waits. *)
Definition pthread_mutex_lock (me : nat) (m : t) : option t :=
  match held m with
  | None => Some (m <| held := Some (me, 1%nat) |>)
  | Some (o, n) => if decide (o = me) then Some (m <| held := Some (me, S n) |>) else None
  end.

(** [pthread_mutex_unlock] by a thread that does not hold it fails (EPERM). *)
Definition pthread_mutex_unlock (me : nat) (m : t) : bool * t :=
  match held m with
  | Some (o, S n) =>
      if decide (o = me)
      then (true, m <| held := match n with O => None | S _ => Some (me, n) end |>)
      else (false, m)
  | _ => (false, m)
  end.

(** [enter(wait)]: [None] when the caller waits.  The lock is always the blocking
    one, so that its result is 0 whenever it returns. *)
Definition enter (wait : bool) (me : nat) (m : t) : option (outcome (bool * t)) :=
  if negb (mInitialized m) then Some (Throw StdException)
  else m' ← pthread_mutex_lock me m; Some (Ok (true, m')).

Definition leave (me : nat) (m : t) : outcome t :=
  if negb (mInitialized m) then Throw StdException
  else let '(ok, m') := pthread_mutex_unlock me m in
       if ok then Ok m' else Throw StdException.

(** [SMutexLock]: whether the lock object holds the mutex. *)
Record lock := mk_lock { mAcquire : bool }.

Definition SMutexLock_ctor (acq : bool) (me : nat) (m : t) : option (outcome (lock * t)) :=
  if acq then
    match enter true me m with
    | Some r => Some ('(_, m') ← r; Ok (mk_lock true, m'))
    | None => None
    end
  else Some (Ok (mk_lock false, m)).

Definition acquire (wait : bool) (l : lock) (me : nat) (m : t) : option (outcome (bool * (lock * t))) :=
  if negb (mAcquire l) then
    match enter wait me m with
    | Some r => Some ('(b, m') ← r; Ok (b, (mk_lock b, m')))
    | None => None
    end
  else Some (Ok (true, (l, m))).

Definition SMutexLock_dtor (l : lock) (me : nat) (m : t) : outcome t :=
  if mAcquire l then leave me m else Ok m.

(** An entry that is asked not to wait waits all the same. *)
Lemma enter_always_waits me m : enter false me m = enter true me m.
Proof. done. Qed.

(** Entering and leaving restores the mutex, however deep the caller holds it. *)
Lemma enter_leave wait me m b m' :
  (∀ o, held m ≠ Some (o, O)) →
  enter wait me m = Some (Ok (b, m')) → b = true ∧ leave me m' = Ok m.
Proof.
  unfold enter, leave, pthread_mutex_lock, pthread_mutex_unlock. intros Hp.
  destruct m as [i h]; cbn. destruct i; cbn; [|done].
  destruct h as [[o n]|]; cbn; repeat case_decide; intros E; simplify_eq/=.
  all: rewrite decide_True by done.
  - destruct n as [|n]; [by destruct (Hp me)|done].
  - done.
Qed.

End SMutex.

(** ** [SSemaphore] *)

Module SSemaphore.

(** [sem_t]'s greatest value on Linux. *)
Definition SEM_VALUE_MAX : Z := 2147483647.

Record t := mk {
  mInitialized : bool; mCurrCount : Z; mInitialCount : Z; mMaxCount : Z;
  mName : string; mSem : Z }.

Definition SSemaphore_ctor : t := mk false 0 0 0 "" 0.

Definition sem_init (value : Z) (s : t) : bool * t :=
  if value <=? SEM_VALUE_MAX then (true, s <| mSem := value |>) else (false, s).

(** [sem_wait]: [None] when the caller waits. *)
Definition sem_wait (s : t) : option t :=
  if 0 <? mSem s then Some (s <| mSem ::= Z.pred |>) else None.

Definition sem_post (s : t) : bool * t :=
  if mSem s <? SEM_VALUE_MAX then (true, s <| mSem ::= Z.succ |>) else (false, s).

(** [for (i = lMaxCount; i > lInitialCount; i--) sem_wait(&mSem);] with [n]
    turns left: [None] when it waits. *)
Fixpoint take_down (n : nat) (s : t) : option t :=
  match n with
  | O => Some s
  | S n' => s' ← sem_wait s; take_down n' s'
  end.

(** [init]: [None] when it waits for ever. *)
Definition init (lInitialCount lMaxCount : Z) (pszName : option string) (s : t)
    : option (outcome unit * t) :=
  if mInitialized s then Some (Throw StdException, s)
  else
    let s := match pszName with Some n => s <| mName := n |> | None => s end in
    let s := s <| mInitialCount := lInitialCount |> <| mCurrCount := lInitialCount |>
               <| mMaxCount := lMaxCount |> in
    let '(ok, s) := sem_init lMaxCount s in
    if negb ok then Some (Throw StdException, s)
    else
      s ← take_down (Z.to_nat (lMaxCount - lInitialCount)) s;
      Some (Ok tt, s <| mInitialized := true |>).

Definition destroy (s : t) : t :=
  if mInitialized s then
    s <| mInitialCount := 0 |> <| mCurrCount := 0 |> <| mMaxCount := 0 |> <| mInitialized := false |>
  else s.

(** [decrement(wait)] when no other thread runs in between; an interrupted
    [sem_wait] is called again. *)
Definition decrement (wait : bool) (s : t) : option (bool * t) :=
  if negb wait && (mSem s =? 0) then Some (false, s)
  else s' ← sem_wait s; Some (true, s').

Definition increment : M t bool := λ s,
  let '(ok, s') := sem_post s in
  if ok then (Ok true, s') else (Throw StdException, s').

Lemma take_down_spec n s :
  Z.of_nat n <= mSem s → take_down n s = Some (s <| mSem := mSem s - Z.of_nat n |>).
Proof.
  revert s. induction n as [|n IH]; intros s Hn; cbn [take_down].
  - replace (mSem s - Z.of_nat 0) with (mSem s) by lia. by destruct s.
  - unfold sem_wait. rewrite (proj2 (Z.ltb_lt _ _)) by lia. cbn.
    rewrite IH by (cbn; lia).
    replace (mSem s - Z.of_nat (S n)) with (Z.pred (mSem s) - Z.of_nat n) by lia. by destruct s.
Qed.

(** [init] leaves the semaphore with the initial count, or with the maximum when
    that is less, and never waits. *)
Lemma init_count i mx name s :
  mInitialized s = false → 0 <= i → 0 <= mx <= SEM_VALUE_MAX →
  ∃ s', init i mx name s = Some (Ok tt, s') ∧ mSem s' = Z.min i mx ∧ mInitialized s' = true.
Proof.
  intros Hs Hi Hm. unfold init, sem_init. rewrite Hs.
  replace (mx <=? SEM_VALUE_MAX) with true by (symmetry; apply Z.leb_le; lia).
  assert (Z.of_nat (Z.to_nat (mx - i)) <= mx) as Hn by lia.
  destruct name; cbn -[Z.sub].
  all: rewrite take_down_spec by done.
  all: eexists; split_and!; [reflexivity| |reflexivity].
  all: cbn -[Z.sub Z.of_nat Z.min].
  all: lia.
Qed.

End SSemaphore.

(** ** [SEvent]: a pipe that is readable when the event is set *)

Module SEvent.

Section Event.
(** What the kernel lets a pipe hold. *)
Context (capacity : nat).

(** [m_pipefd] is open unless [pipe2] failed or the object is destroyed. *)
Record t := mk { open : bool; buffered : nat }.

(** [set]: a write to a full non-blocking pipe fails and is ignored. *)
Definition set (e : t) : t :=
  if open e && (buffered e <? capacity)%nat then e <| buffered ::= S |> else e.

(** [reset]: reads octet after octet until the pipe is empty. *)
Fixpoint drain (n : nat) : nat := match n with O => O | S n' => drain n' end.
Definition reset (e : t) : t := if open e then e <| buffered ::= drain |> else e.

Definition SEvent_ctor (pipe2 : bool) (state : bool) : outcome t :=
  if pipe2 then
    let e := mk true 0 in Ok (if state then set e else e)
  else Throw StdException.

Definition closepipe (e : t) : t := mk false 0.

(** [wait(ms)] when nothing sets the event meanwhile: [poll] says whether there is
    something to read, waits for [ms] or, when [ms] is negative, for ever
    ([None]); a closed descriptor is skipped. *)
Definition wait (ms : Z) (e : t) : option bool :=
  if open e && (0 <? buffered e)%nat then Some true
  else if ms <? 0 then None else Some false.

Definition isSet (e : t) : option bool := wait 0 e.

Lemma drain_zero n : drain n = O.
Proof. by induction n. Qed.

(** An open event is set after [set], however often it is called, and not after
    [reset]. *)
Lemma event_set_reset e n :
  (0 < capacity)%nat → open e = true →
  isSet (Nat.iter (S n) set e) = Some true ∧ wait (-1) (Nat.iter (S n) set e) = Some true ∧
  isSet (reset e) = Some false ∧ wait (-1) (reset e) = None.
Proof using Type.
  intros Hc Ho.
  assert (∀ k, open (Nat.iter k set e) = true) as Ho'.
  { induction k as [|k IH]; [done|]. change (open (set (Nat.iter k set e)) = true).
    unfold set. by case_match. }
  assert (0 < buffered (Nat.iter (S n) set e))%nat as Hb.
  { change (0 < buffered (set (Nat.iter n set e)))%nat. unfold set at 1. rewrite Ho'. cbn [andb].
    destruct (Nat.ltb_spec (buffered (Nat.iter n set e)) capacity); cbn; lia. }
  apply Nat.ltb_lt in Hb. unfold isSet, wait. rewrite (Ho' (S n)), Hb.
  unfold reset. rewrite Ho. cbn. by rewrite Ho, drain_zero.
Qed.

End Event.
End SEvent.

(** ** The end of an [SQueue] *)

Module QueueEnd.

Section End.
Context {A : Type}.

(** [~SQueue]: [while ((m = pop(false))) delete m;], with the messages deleted; one
    turn for each message and one to find the queue empty. *)
Fixpoint SQueue_dtor (fuel : nat) (q : SQueue.t A) : outcome (list A * SQueue.t A) :=
  match fuel with
  | O => Ok ([], q)
  | S n =>
      '(m, q1) ← SQueue.pop q;
      match m with
      | Some msg => '(l, q2) ← SQueue_dtor n q1; Ok (msg :: l, q2)
      | None => Ok ([], q1)
      end
  end.

(** Every message left is deleted, once and in order, and more turns would change
    nothing. *)
Lemma queue_end_deletes_all l q fuel :
  SQueue.holds q l → (length l < fuel)%nat →
  ∃ q', SQueue_dtor fuel q = Ok (l, q') ∧ SQueue.holds q' [].
Proof.
  revert q fuel. induction l as [|msg l IH]; intros q [|n] Hq Hn; cbn in Hn; try lia.
  - exists q. cbn. by rewrite SQueue.pop_holds_nil.
  - destruct (SQueue.pop_holds_cons _ _ _ Hq) as (q1&E&H1).
    destruct (IH q1 n H1) as (q2&E2&H2); [lia|]. exists q2. cbn. rewrite E. cbn.
    by rewrite E2.
Qed.

End End.
End QueueEnd.

(** ** [SQueue] with its mutex, its semaphore and its callers *)

Module LockedQueue.

Section Queue.
Context {A : Type}.

(** [m_mutex]'s holder, [m_sem], [m_queue]; what was pushed and popped, in order,
    and whether [front] was called on an empty queue. *)
Record shared := mk {
  m_mutex : option nat; m_sem : nat; m_queue : list A;
  pushed : list A; popped : list A; undefined_front : bool }.

Definition SQueue_ctor : shared := mk None 0 [] [] [] false.

(** Where a thread is in [push] and in [pop]. *)
Inductive pc :=
  | Rest
  | PushLock (msg : A)    (** before [l.acquire(wait)] *)
  | PushIn (msg : A)      (** before [m_queue.push(msg)] *)
  | PushPost              (** before [m_sem.increment()] *)
  | PushUnlock            (** before the end of the lock's scope *)
  | PopTest               (** before [sem_getvalue], when not to wait *)
  | PopWait (wait : bool) (** before [sem_wait] *)
  | PopLock               (** before [l.acquire(wait)] *)
  | PopFront              (** before [m_queue.front()] and [m_queue.pop()] *)
  | PopUnlock (msg : A)   (** before the end of the lock's scope *)
  | Popped (msg : option A). (** [pop] has returned *)

(** One action of thread [i] at [p]; [None] when it waits or has nothing to do.
    [enter] returns 0 whether it was to wait or not, so that [acquire] succeeds. *)
Definition act (i : nat) (p : pc) (s : shared) : option (pc * shared) :=
  match p with
  | PushLock msg =>
      match m_mutex s with None => Some (PushIn msg, s <| m_mutex := Some i |>) | Some _ => None end
  | PushIn msg =>
      Some (PushPost, s <| m_queue ::= (λ l, l ++ [msg]) |> <| pushed ::= (λ l, l ++ [msg]) |>)
  | PushPost => Some (PushUnlock, s <| m_sem ::= S |>)
  | PushUnlock => Some (Rest, s <| m_mutex := None |>)
  | PopTest => Some (match m_sem s with O => Popped None | _ => PopWait false end, s)
  | PopWait _ =>
      match m_sem s with O => None | S n => Some (PopLock, s <| m_sem := n |>) end
  | PopLock =>
      match m_mutex s with None => Some (PopFront, s <| m_mutex := Some i |>) | Some _ => None end
  | PopFront =>
      match m_queue s with
      | [] => Some (Rest, s <| undefined_front := true |> <| m_mutex := None |>)
      | msg :: l => Some (PopUnlock msg, s <| m_queue := l |> <| popped ::= (λ k, k ++ [msg]) |>)
      end
  | PopUnlock msg => Some (Popped (Some msg), s <| m_mutex := None |>)
  | Rest | Popped _ => None
  end.

Definition resting (p : pc) : bool := match p with Rest | Popped _ => true | _ => false end.

Record sys := mk_sys { queue : shared; threads : list pc }.
Definition init (n : nat) : sys := mk_sys SQueue_ctor (replicate n Rest).

(** A thread acts, or calls [push] or [pop]. *)
Inductive internal : sys → sys → Prop :=
  | internal_act i p p' q q' ths :
      ths !! i = Some p → act i p q = Some (p', q') →
      internal (mk_sys q ths) (mk_sys q' (<[i := p']> ths)).
Inductive call : pc → Prop :=
  | call_push msg : call (PushLock msg)
  | call_pop : call (PopWait true)
  | call_pop_nowait : call PopTest.
Inductive step : sys → sys → Prop :=
  | step_internal s s' : internal s s' → step s s'
  | step_call i p p' q ths :
      ths !! i = Some p → resting p = true → call p' →
      step (mk_sys q ths) (mk_sys q (<[i := p']> ths)).

Definition locked (p : pc) : bool :=
  match p with PushIn _ | PushPost | PushUnlock | PopFront | PopUnlock _ => true | _ => false end.
(** A message that is in the queue but not in the semaphore, or that was taken
    from the semaphore but not from the queue. *)
Definition posting (p : pc) : nat := match p with PushPost => 1 | _ => 0 end.
Definition permits (p : pc) : nat := match p with PopLock | PopFront => 1 | _ => 0 end.

Lemma sum_list_with_insert (f : pc → nat) (l : list pc) i p p' :
  l !! i = Some p → (sum_list_with f (<[i := p']> l) + f p = sum_list_with f l + f p')%nat.
Proof.
  revert i. induction l as [|x l IH]; intros [|i] H; cbn in *; simplify_eq/=; [lia|].
  rewrite <-!Nat.add_assoc. f_equal. exact (IH i H).
Qed.

Lemma sum_list_with_lookup (f : pc → nat) (l : list pc) i p :
  l !! i = Some p → (f p <= sum_list_with f l)%nat.
Proof.
  revert i. induction l as [|x l IH]; intros [|i] H; cbn in *; simplify_eq/=; [lia|].
  specialize (IH i H). lia.
Qed.

Record inv (s : sys) : Prop := {
  inv_mutex : ∀ i p, threads s !! i = Some p → locked p = true → m_mutex (queue s) = Some i;
  inv_holder : ∀ i, m_mutex (queue s) = Some i → ∃ p, threads s !! i = Some p ∧ locked p = true;
  inv_count : length (m_queue (queue s)) =
    (m_sem (queue s) + sum_list_with posting (threads s) + sum_list_with permits (threads s))%nat;
  inv_fifo : pushed (queue s) = popped (queue s) ++ m_queue (queue s);
  inv_front : undefined_front (queue s) = false }.

Lemma sum_list_with_rest (f : pc → nat) n : f Rest = O → sum_list_with f (replicate n Rest) = O.
Proof. intros H. induction n as [|n IH]; [done|]. cbn. by rewrite H, IH. Qed.

Lemma init_inv n : inv (init n).
Proof.
  split; cbn; try done.
  - intros i p H. apply lookup_replicate_1 in H as [-> _]. done.
  - by rewrite !sum_list_with_rest.
Qed.

(** What one action does to the mutex: it takes a free one, gives back its own, or
    leaves it. *)
Lemma act_mutex i p q p' q' :
  act i p q = Some (p', q') →
  (locked p = false ∧ locked p' = true ∧ m_mutex q = None ∧ m_mutex q' = Some i) ∨
  (locked p = true ∧ locked p' = false ∧ m_mutex q' = None) ∨
  (locked p = locked p' ∧ m_mutex q' = m_mutex q).
Proof.
  destruct p; cbn; intros H; repeat (case_match; simplify_eq/=); naive_solver.
Qed.

(** ... and to the messages. *)
Lemma act_messages i p q p' q' :
  act i p q = Some (p', q') → undefined_front q' = false →
  (length (m_queue q') + m_sem q + posting p + permits p =
    length (m_queue q) + m_sem q' + posting p' + permits p')%nat ∧
  (pushed q = popped q ++ m_queue q → pushed q' = popped q' ++ m_queue q').
Proof.
  destruct p; cbn; intros H Hu; repeat (case_match; simplify_eq/=);
    simplify_eq/=; rewrite ?length_app; cbn; (split; [lia|]); try done; intros ->;
    by rewrite <-?(assoc_L (++)).
Qed.

Lemma inv_act i p p' q q' ths :
  inv (mk_sys q ths) → ths !! i = Some p → act i p q = Some (p', q') →
  inv (mk_sys q' (<[i := p']> ths)).
Proof.
  intros [Hm Hh Hc Hf Hu] Hi Ha. cbn in *.
  pose proof (lookup_lt_Some _ _ _ Hi) as Hl.
  pose proof (sum_list_with_insert posting ths i p p' Hi) as Hp1.
  pose proof (sum_list_with_insert permits ths i p p' Hi) as Hp2.
  pose proof (sum_list_with_lookup permits ths i p Hi) as Hp3.
  assert (undefined_front q' = false) as Hu'.
  { assert (permits p = 1%nat → m_queue q ≠ []) as Hne
      by (intros Hp E; rewrite E in Hc; cbn in Hc; lia).
    destruct p; cbn in Ha; repeat case_match; simplify_eq/=; try done. by destruct Hne. }
  destruct (act_messages _ _ _ _ _ Ha Hu') as [Hn Hf']. split; cbn; [| |lia|auto|done].
  - intros j p0 Hj Hlk. apply list_lookup_insert_Some in Hj as [(<-&<-&_)|[Hij Hj]].
    + destruct (act_mutex _ _ _ _ _ Ha) as [(_&_&_&?)|[(_&?&_)|[E ->]]]; [done|congruence|].
      apply (Hm _ _ Hi). congruence.
    + specialize (Hm _ _ Hj Hlk) as Hmj.
      destruct (act_mutex _ _ _ _ _ Ha) as [(_&_&?&_)|[[Hp _]|[_ ->]]]; [congruence| |done].
      rewrite (Hm _ _ Hi Hp) in Hmj. congruence.
  - intros j Hj. destruct (act_mutex _ _ _ _ _ Ha) as [(_&?&_&E)|[(_&_&E)|[E1 E2]]].
    + assert (j = i) as -> by congruence. exists p'. by rewrite list_lookup_insert_eq.
    + congruence.
    + rewrite E2 in Hj. destruct (Hh _ Hj) as (p0&Hp0&Hk). destruct (decide (j = i)) as [->|].
      * exists p'. rewrite list_lookup_insert_eq by done. split; [done|congruence].
      * exists p0. by rewrite list_lookup_insert_ne by done.
Qed.

Lemma inv_call i p p' q ths :
  inv (mk_sys q ths) → ths !! i = Some p → resting p = true → call p' →
  inv (mk_sys q (<[i := p']> ths)).
Proof.
  intros [Hm Hh Hc Hf Hu] Hi Hr Hcall. cbn in *.
  pose proof (lookup_lt_Some _ _ _ Hi) as Hl.
  pose proof (sum_list_with_insert posting ths i p p' Hi) as Hp1.
  pose proof (sum_list_with_insert permits ths i p p' Hi) as Hp2.
  assert (locked p = false ∧ posting p = 0 ∧ permits p = 0)%nat as (Hlk&Hpo&Hpe) by by destruct p.
  assert (locked p' = false ∧ posting p' = 0 ∧ permits p' = 0)%nat as (Hlk'&Hpo'&Hpe') by by destruct Hcall.
  split; cbn; [| |lia|done..].
  - intros j p0 Hj Hlk0. apply list_lookup_insert_Some in Hj as [(<-&<-&_)|[Hij Hj]]; [congruence|by eapply Hm].
  - intros j Hj. destruct (Hh _ Hj) as (p0&Hp0&Hk). exists p0.
    rewrite list_lookup_insert_ne; [done|]. congruence.
Qed.

Lemma inv_step s s' : step s s' → inv s → inv s'.
Proof. intros [? ? []|] ?; eauto using inv_act, inv_call. Qed.

Lemma inv_reachable n s : rtc step (init n) s → inv s.
Proof. intros H. pose proof (init_inv n) as H0. revert H0. induction H; eauto using inv_step. Qed.

(** A thread that holds the mutex can act, and so can one that has nothing but the
    mutex to wait for when the mutex is free. *)
Lemma locked_acts i p q : locked p = true → act i p q ≠ None.
Proof. destruct p; try done; intros _; cbn. by case_match. Qed.

Lemma sum_list_with_pos (f : pc → nat) (l : list pc) :
  (0 < sum_list_with f l)%nat → ∃ i p, l !! i = Some p ∧ (0 < f p)%nat.
Proof.
  induction l as [|x l IH]; cbn; [lia|]. intros H.
  destruct (decide (0 < f x)%nat); [by exists O, x|].
  destruct IH as (i&p&?&?); [lia|]. by exists (S i), p.
Qed.

(** Every state with a message that a waiter could take has a thread that acts. *)
Lemma message_moves s :
  inv s → m_sem (queue s) = O → m_queue (queue s) ≠ [] →
  ∃ i p, threads s !! i = Some p ∧ act i p (queue s) ≠ None.
Proof.
  intros [Hm Hh Hc Hf Hu] Hs Hq.
  assert (0 < length (m_queue (queue s)))%nat as Hl by (by destruct (m_queue (queue s)); [|cbn; lia]).
  assert ((0 < sum_list_with posting (threads s)) ∨ (0 < sum_list_with permits (threads s)))%nat
    as [(i&p&Hi&Hp)%sum_list_with_pos|(i&p&Hi&Hp)%sum_list_with_pos] by lia.
  - exists i, p. split; [done|]. by destruct p; cbn in Hp; try lia.
  - destruct (m_mutex (queue s)) as [j|] eqn:Hj.
    + destruct (Hh j eq_refl) as (p0&?&?). exists j, p0. by split; [|apply locked_acts].
    + exists i, p. split; [done|]. destruct p; cbn in Hp; try lia; cbn; [by rewrite Hj|by case_match].
Qed.

(** The queue as [Work.SQueue] sees it: a message counts as announced as soon as it
    is in the queue. *)
Definition abstract (s : sys) : SQueue.t A :=
  SQueue.mk (m_queue (queue s)) (m_sem (queue s) + sum_list_with posting (threads s))
    (sum_list_with permits (threads s)).

Lemma abstract_call i p p' q ths :
  ths !! i = Some p → resting p = true → call p' →
  abstract (mk_sys q (<[i := p']> ths)) = abstract (mk_sys q ths).
Proof.
  intros Hi Hr Hcall. unfold abstract; cbn.
  pose proof (sum_list_with_insert posting ths i p p' Hi) as Hp1.
  pose proof (sum_list_with_insert permits ths i p p' Hi) as Hp2.
  assert (posting p = 0 ∧ permits p = 0)%nat as (Hpo&Hpe) by by destruct p.
  assert (posting p' = 0 ∧ permits p' = 0)%nat as (Hpo'&Hpe') by by destruct Hcall.
  f_equal; lia.
Qed.

Lemma abstract_act i p p' q q' ths :
  inv (mk_sys q ths) → ths !! i = Some p → act i p q = Some (p', q') →
  abstract (mk_sys q' (<[i := p']> ths)) = abstract (mk_sys q ths) ∨
  SQueue.step (abstract (mk_sys q ths)) (abstract (mk_sys q' (<[i := p']> ths))).
Proof.
  intros [_ _ Hc _ _] Hi Ha. unfold abstract in *; cbn in *.
  pose proof (sum_list_with_insert posting ths i p p' Hi) as Hp1.
  pose proof (sum_list_with_insert permits ths i p p' Hi) as Hp2.
  pose proof (sum_list_with_lookup permits ths i p Hi) as Hp3.
  destruct p; cbn in Ha; repeat case_match; simplify_eq/=;
    try solve [left; f_equal; lia | lia]; right.
  - match goal with |- SQueue.step ?a ?b => replace b with (SQueue.push msg a); [by constructor|] end.
    unfold SQueue.push, set; cbn. f_equal; lia.
  - apply SQueue.step_decrement. unfold SQueue.decrement, set; cbn.
    do 2 f_equal; lia.
  - eapply (SQueue.step_pop _ a); cbn; [lia|]. unfold SQueue.pop_locked, set; cbn.
    do 3 f_equal; lia.
Qed.

(** C37: The queue with its mutex and its semaphore, whatever the threads that call
    [push] and [pop] and however they interleave, refines the queue of atomic
    operations; messages are popped in the order they were pushed, none twice and
    none lost, [front] is never called on an empty queue, and one thread at a time
    is between taking and leaving the mutex. *)
Theorem locked_queue_refines n s :
  rtc step (init n) s →
  rtc SQueue.step SQueue.init (abstract s) ∧
  pushed (queue s) = popped (queue s) ++ m_queue (queue s) ∧
  undefined_front (queue s) = false ∧
  ∀ i j p p', threads s !! i = Some p → threads s !! j = Some p' →
    locked p = true → locked p' = true → i = j.
Proof.
  intros Hr. pose proof (inv_reachable _ _ Hr) as [Hm _ _ Hf Hu]. split_and!; try done.
  - assert (abstract (init n) = SQueue.init) as <-.
    { unfold abstract, init, SQueue.init; cbn. by rewrite !sum_list_with_rest. }
    pose proof (init_inv n) as Hi. revert Hi.
    induction Hr as [|x y z Hxy Hyz IH]; intros Hi; [apply rtc_refl|].
    pose proof (inv_step _ _ Hxy Hi) as Hy. specialize (IH Hm Hf Hu Hy).
    destruct Hxy as [? ? []|].
    + destruct (abstract_act i p p' q q' ths Hi) as [E|E]; [done|done|by rewrite <-E|by eapply rtc_l].
    + by rewrite <-(abstract_call i p p' q ths).
  - intros i j p p' Hi Hj Hp Hp'. pose proof (Hm _ _ Hi Hp) as E. rewrite (Hm _ _ Hj Hp') in E.
    congruence.
Qed.

(** No wake-up is lost: when no thread can go on, every thread has returned from
    its call or waits in [pop] for a message, and the queue is empty. *)
Theorem queue_no_lost_wakeup n s :
  rtc step (init n) s → (∀ s', ¬ internal s s') →
  ∀ i p, threads s !! i = Some p →
    resting p = true ∨ (∃ w, p = PopWait w) ∧ m_queue (queue s) = [].
Proof.
  intros Hr Hstuck i p Hi. pose proof (inv_reachable _ _ Hr) as Hinv.
  assert (∀ j p0, threads s !! j = Some p0 → act j p0 (queue s) = None) as Hn.
  { intros j p0 Hj. destruct (act j p0 (queue s)) as [[p' q']|] eqn:E; [|done].
    destruct (Hstuck (mk_sys q' (<[j := p']> (threads s)))).
    destruct s. by eapply internal_act. }
  destruct (resting p) eqn:Hp; [by left|]. right.
  destruct (m_mutex (queue s)) as [j|] eqn:Hj.
  { destruct (inv_holder _ Hinv _ Hj) as (p0&Hp0&Hl).
    by destruct (locked_acts j p0 (queue s) Hl (Hn _ _ Hp0)). }
  pose proof (Hn _ _ Hi) as E. destruct p; cbn in E, Hp; rewrite ?Hj in E; try done;
    repeat case_match; try done.
  split; [by eexists|]. destruct (decide (m_queue (queue s) = [])) as [|Hq]; [done|].
  destruct (message_moves s Hinv) as (j&p0&?&Ha); [done|done|]. by destruct Ha; apply Hn.
Qed.

End Queue.
Arguments pc : clear implicits.
Arguments shared : clear implicits.
Arguments sys : clear implicits.

(** A [pop] that is not to wait does wait when another thread takes the message it
    has seen: nothing but a new message lets thread 1 go on. *)
Lemma nonwaiting_pop_waits :
  ∃ s : sys Z, rtc step (init 2) s ∧ threads s = [Popped (Some 7); PopWait false] ∧
    act 1 (PopWait false) (queue s) = None ∧ m_queue (queue s) = [].
Proof.
  exists (mk_sys (mk None 0 [] [7] [7] false) [Popped (Some 7); PopWait false]).
  split_and!; [|reflexivity..].
  eapply rtc_l; [eapply (step_call 0 _ (PushLock 7)); [reflexivity|reflexivity|constructor]|]; cbn.
  do 4 (eapply rtc_l; [eapply step_internal, (internal_act 0); reflexivity|]; cbn).
  eapply rtc_l; [eapply (step_call 1 _ (PopTest)); [reflexivity|reflexivity|constructor]|]; cbn.
  eapply rtc_l; [eapply step_internal, (internal_act 1); reflexivity|]; cbn.
  eapply rtc_l; [eapply (step_call 0 _ (PopWait true)); [reflexivity|reflexivity|constructor]|]; cbn.
  do 4 (eapply rtc_l; [eapply step_internal, (internal_act 0); reflexivity|]; cbn).
  apply rtc_refl.
Qed.

Lemma waiting_reader : rtc step (init 1) (mk_sys (SQueue_ctor (A := Z)) [PopWait true]).
Proof. eapply rtc_l; [by apply (step_call 0 Rest (PopWait true)); [..|constructor]|]. apply rtc_refl. Qed.

Lemma locked_queue_refines_witness :
  rtc SQueue.step SQueue.init (abstract (mk_sys (SQueue_ctor (A := Z)) [PopWait true])).
Proof. apply (locked_queue_refines 1 _ waiting_reader). Defined.

Lemma queue_no_lost_wakeup_witness :
  resting (PopWait (A := Z) true) = true ∨ (∃ w, PopWait (A := Z) true = PopWait w) ∧ [] = @nil Z.
Proof.
  apply (queue_no_lost_wakeup 1 (mk_sys (SQueue_ctor (A := Z)) [PopWait true]) waiting_reader) with (i := O).
  - intros s' H. inversion H as [i p p' q q' ths Hi Ha]; subst.
    destruct i; cbn in Hi; simplify_eq.
  - reflexivity.
Defined.

End LockedQueue.
