(* ===== verification/Threads.v ===== *)
(** * Threads, event threads and timers

    Models util/src/sthread.cpp with util/include/sthread.h, and
    util/src/stimer.cpp.

    [SThread]: one thread object, the thread it starts ([Self]) and the thread that
    calls its operations ([Owner]).  [act] is one action of a party at its program
    counter; where the code holds [mMutex] over several actions they are actions
    of their own, with the mutex held in between.  The calls of pthreads are taken
    to succeed.  A message queue is the list of its messages, as Sync shows. *)

From S2P Require Import Prelude.
From S2P Require Import Sync.
#[local] Open Scope Z_scope.

Module SThread.

Inductive RunState := rsWaitingToRun | rsRunning | rsDoneRunning.
Inductive party := Owner | Self.
#[export] Instance RunState_eq_dec : EqDecision RunState.
Proof. solve_decision. Defined.
#[export] Instance party_eq_dec : EqDecision party.
Proof. solve_decision. Defined.

Definition ETM_INIT : Z := 1.
Definition ETM_QUIT : Z := 2.
Definition ETM_SUSPEND : Z := 3.
Definition ETM_TIMER : Z := 4.
Definition ETM_USER : Z := 10000.

(** [SThread] and, when [event], the [SEventThread] it is part of: [m_events] until
    its destructor has run.  [handled]: the messages handed to [onInit],
    [onTimer], [onQuit] and [dispatch].  [exited]: the thread has ended;
    [deleted]: the object is gone. *)
Record t := mk {
  event : bool; mSelfDestruct : bool; mInitialized : bool; mMutex : option party;
  mState : RunState; mUpdateStateManually : bool; mSuspended : nat; mSuspendSem : nat;
  mSuspendCnt : Z; m_events : option (list Z); handled : list Z; exited : bool; deleted : bool }.
#[export] Instance t_eq_dec : EqDecision t.
Proof. solve_decision. Defined.

Definition SThread_ctor (ev selfDestruct manually : bool) : t :=
  mk ev selfDestruct false None rsWaitingToRun manually 0 0 1 (Some []) [] false false.

Definition isRunning (s : t) : bool := bool_decide (mState s = rsRunning).
Definition isWaitingToRun (s : t) : bool := bool_decide (mState s = rsWaitingToRun).
Definition isDoneRunning (s : t) : bool := bool_decide (mState s = rsDoneRunning).
Definition isSuspended (s : t) : bool := negb (mSuspendCnt s =? 0).

(** Where a party is. *)
Inductive pc :=
  | Rest | Throws | UseAfterFree | Destroyed
  | Init (suspended : bool)  (** [init], before [SMutexLock] *)
  | InitUnlock               (** before the end of the lock's scope *)
  | InitSpin                 (** at the test of [while (...) yield();] *)
  | InitPost                 (** [SEventThread::init], before [postMessage] *)
  | SuspendPost              (** [SEventThread::suspend], before [postMessage] *)
  | SuspendLock              (** [SThread::suspend], before [SMutexLock] *)
  | SuspendUnlock (cnt : Z)  (** before the end of the lock's scope *)
  | SuspendAck               (** before [mSuspended.decrement()] *)
  | ResumeCall               (** [resume] *)
  | JoinLock                 (** [join], before [SMutexLock] *)
  | JoinWait                 (** before [pthread_join] *)
  | Dtor                     (** [~SThread], at the test of [isRunning] *)
  | ShutLock                 (** [_shutdown], before [SMutexLock] *)
  | ShutTest                 (** at the test of [isRunning] *)
  | ShutAck                  (** in [suspend], before [mSuspended.decrement()] *)
  | ShutResume               (** after [suspend]: [shutdown] and [resume] *)
  | ShutUnlock               (** before the end of the lock's scope *)
  | DtorJoin                 (** [join] in [~SThread] *)
  | DtorWait                 (** its [pthread_join] *)
  | Born                     (** [_threadProc], before [mSuspendSem.decrement()] *)
  | Starting                 (** before the first locked scope *)
  | Body                     (** in [threadProc]; of an event thread before [pop] *)
  | Parked                   (** in [_suspend], before [mSuspendSem.decrement()] *)
  | Ending                   (** before the second locked scope *)
  | Leaving                  (** before the test of [mSelfDestruct] *)
  | Exiting.                 (** before the return of [_threadProc] *)
#[export] Instance pc_eq_dec : EqDecision pc.
Proof. solve_decision. Defined.

(** [resume]'s effect on the counter and the semaphore. *)
Definition resume (s : t) : t :=
  if 0 <? mSuspendCnt s then
    let s := s <| mSuspendCnt ::= Z.pred |> in
    if mSuspendCnt s =? 0 then s <| mSuspendSem ::= S |> else s
  else s.

(** [SQueue::push] of a message. *)
Definition postMessage (msg : Z) (s : t) : t :=
  s <| m_events ::= option_map (λ l, l ++ [msg]) |>.

Definition quit (s : t) : t := postMessage ETM_QUIT s.

(** One turn of [SEventThread::dispatch] on message [m]. *)
Definition dispatch (m : Z) (s : t) : pc * t :=
  if m =? ETM_SUSPEND then (Parked, s <| mSuspended ::= S |>)
  else (if m =? ETM_QUIT then Ending else Body, s <| handled ::= (λ h, h ++ [m]) |>).

(** [threadProc]: the event loop, or a body that may go on or return. *)
Definition threadProc (s : t) : list (pc * t) :=
  if event s then
    match m_events s with
    | None => [(UseAfterFree, s)]
    | Some [] => []
    | Some (m :: l) => [dispatch m (s <| m_events := Some l |>)]
    end
  else [(Body, s); (Ending, s)].

(** The state is set unless the subclass sets it. *)
Definition set_state (st : RunState) (s : t) : t :=
  if mUpdateStateManually s then s else s <| mState := st |>.

Definition when {A} (b : bool) (a : A) : list A := if b then [a] else [].
Definition free (s : t) : bool := bool_decide (mMutex s = None).

(** What [me] may do next at [p] with an object that exists. *)
Definition act_live (me : party) (p : pc) (s : t) : list (pc * t) :=
  match p with
  | Rest | Throws | UseAfterFree | Destroyed => []
  | Init suspended =>
      when (free s)
        (if mInitialized s then (Throws, s)
         else (InitUnlock, resume (s <| mMutex := Some me |> <| mInitialized := true |>
                 <| mSuspendCnt ::= λ c, if suspended then Z.succ c else c |>)))
  | InitUnlock => [(InitSpin, s <| mMutex := None |>)]
  | InitSpin =>
      [if (mSuspendCnt s =? 0) && isWaitingToRun s then (InitSpin, s)
       else (if event s then InitPost else Rest, s)]
  | InitPost => [(Rest, postMessage ETM_INIT s)]
  | SuspendPost => [(SuspendLock, postMessage ETM_SUSPEND s)]
  | SuspendLock =>
      when (free s)
        (SuspendUnlock (Z.succ (mSuspendCnt s)),
         s <| mMutex := Some me |> <| mSuspendCnt ::= Z.succ |>)
  | SuspendUnlock cnt =>
      [(if cnt =? 1 then SuspendAck else Rest, s <| mMutex := None |>)]
  | SuspendAck => match mSuspended s with O => [] | S n => [(Rest, s <| mSuspended := n |>)] end
  | ResumeCall => [if mInitialized s then (Rest, resume s) else (Throws, s)]
  | JoinLock => when (free s) (if negb (isRunning s) && negb (isSuspended s) then Rest else JoinWait, s)
  | JoinWait => when (exited s || bool_decide (me = Self)) (Rest, s)
  | Dtor =>
      let s := if event s then s <| m_events := None |> else s in
      [if isRunning s then (ShutLock, s) else (Destroyed, s <| deleted := true |>)]
  | ShutLock => when (free s) (ShutTest, s <| mMutex := Some me |>)
  | ShutTest =>
      [if isRunning s then
         (if mSuspendCnt s =? 0 then ShutAck else ShutResume, s <| mSuspendCnt ::= Z.succ |>)
       else (ShutUnlock, s)]
  | ShutAck => match mSuspended s with O => [] | S n => [(ShutResume, s <| mSuspended := n |>)] end
  | ShutResume => [(ShutUnlock, resume s)]
  | ShutUnlock => [(DtorJoin, s <| mMutex := None |>)]
  | DtorJoin =>
      when (free s)
        (if negb (isRunning s) && negb (isSuspended s) then (Destroyed, s <| deleted := true |>)
         else (DtorWait, s))
  | DtorWait =>
      when (exited s || bool_decide (me = Self)) (Destroyed, s <| deleted := true |>)
  | Born =>
      if mInitialized s then
        match mSuspendSem s with O => [] | S n => [(Starting, s <| mSuspendSem := n |>)] end
      else []
  | Starting => when (free s) (Body, set_state rsRunning s)
  | Body => threadProc s
  | Parked => match mSuspendSem s with O => [] | S n => [(Body, s <| mSuspendSem := n |>)] end
  | Ending => when (free s) (Leaving, set_state rsDoneRunning s)
  | Leaving => [(if mSelfDestruct s then Dtor else Exiting, s)]
  | Exiting => [(Rest, s <| exited := true |>)]
  end.

(** A thread that has deleted the object goes on to its exit, and does not touch the
    object any more; any other action on a deleted object does. *)
Definition act (me : party) (p : pc) (s : t) : list (pc * t) :=
  match me, p with
  | Self, Destroyed => [(Rest, s <| exited := true |>)]
  | _, (Rest | Throws | UseAfterFree | Destroyed) => []
  | _, Exiting => act_live me p s
  | _, _ => if deleted s then [(UseAfterFree, s)] else act_live me p s
  end.

Record sys := mk_sys { th : t; owner : pc; self : pc }.
#[export] Instance sys_eq_dec : EqDecision sys.
Proof. solve_decision. Defined.

Definition new (ev selfDestruct manually : bool) : sys :=
  mk_sys (SThread_ctor ev selfDestruct manually) Rest Born.

(** What may happen next without a new call. *)
Definition succs (s : sys) : list sys :=
  ((λ '(p, x), mk_sys x p (self s)) <$> act Owner (owner s) (th s)) ++
  ((λ '(p, x), mk_sys x (owner s) p) <$> act Self (self s) (th s)).

Definition internal (a b : sys) : Prop := b ∈ succs a.

(** The operations the owner may call. *)
Inductive op := OpInit (suspended : bool) | OpSuspend | OpResume | OpJoin | OpPost (msg : Z) | OpDestroy.
#[export] Instance op_eq_dec : EqDecision op.
Proof. solve_decision. Defined.

Definition call (o : op) (s : sys) : sys :=
  match o with
  | OpInit b => s <| owner := Init b |>
  | OpSuspend => s <| owner := if event (th s) then SuspendPost else SuspendLock |>
  | OpResume => s <| owner := ResumeCall |>
  | OpJoin => s <| owner := JoinLock |>
  | OpPost msg => s <| th ::= postMessage msg |>
  | OpDestroy => s <| owner := Dtor |>
  end.

(** A run in which the owner calls operations of [allowed] only, and other threads
    post the messages it allows. *)
Inductive step (allowed : op → Prop) : sys → sys → Prop :=
  | step_internal s s' : internal s s' → step allowed s s'
  | step_call o s : owner s = Rest → deleted (th s) = false → allowed o → step allowed s (call o s)
  | step_post msg s :
      deleted (th s) = false → allowed (OpPost msg) → step allowed s (call (OpPost msg) s).

Lemma internal_inv s s' :
  internal s s' →
  (∃ p x, (p, x) ∈ act Owner (owner s) (th s) ∧ s' = mk_sys x p (self s)) ∨
  (∃ p x, (p, x) ∈ act Self (self s) (th s) ∧ s' = mk_sys x (owner s) p).
Proof.
  unfold internal, succs. rewrite elem_of_app, !list_elem_of_fmap.
  intros [((p&x)&->&H)|((p&x)&->&H)]; [left|right]; by exists p, x.
Qed.

Lemma internal_owner s p x : (p, x) ∈ act Owner (owner s) (th s) → internal s (mk_sys x p (self s)).
Proof. intros H. apply elem_of_app. left. apply list_elem_of_fmap. by exists (p, x). Qed.
Lemma internal_self s p x : (p, x) ∈ act Self (self s) (th s) → internal s (mk_sys x (owner s) p).
Proof. intros H. apply elem_of_app. right. apply list_elem_of_fmap. by exists (p, x). Qed.

End SThread.

(** ** What the operations of a thread object do *)

Module SThreadFacts.
Import SThread.

(** *** [init] *)

(** What [init(arg, suspended)] leaves when it returns. *)
Definition init_done (ev suspended : bool) (s : sys) : bool :=
  bool_decide (owner s = Rest) &&
  (if suspended then
     bool_decide (self s = Born ∧ mState (th s) = rsWaitingToRun ∧ mSuspendCnt (th s) = 1)
   else
     bool_decide (mState (th s) ≠ rsWaitingToRun ∧ mSuspendCnt (th s) = 0)) &&
  bool_decide (default [] (m_events (th s)) ++ handled (th s) = if ev then [ETM_INIT] else []).

Definition init_start (ev suspended : bool) : sys := call (OpInit suspended) (new ev false false).
Lemma init_checked ev suspended :
  model_checked succs 100
    (λ s, implb (bool_decide (owner s = Rest)) (init_done ev suspended s) &&
          bool_decide (owner s ≠ UseAfterFree ∧ self s ≠ UseAfterFree))
    (init_done ev suspended) (init_start ev suspended) = true.
Proof. by destruct ev, suspended; vm_compute. Qed.

(** [init] of a thread object that does not delete itself returns, whatever the
    new thread does meanwhile: every state it can be in has a way to its return.
    When it has returned, the thread is past its start, or waits for [resume] if
    it is to start suspended; an event thread has been posted its first message.
    The object is not used after it is deleted. *)
Theorem init_starts_thread ev suspended s :
  rtc internal (init_start ev suspended) s →
  (owner s = Rest → init_done ev suspended s = true) ∧
  (∃ s', rtc internal s s' ∧ init_done ev suspended s' = true) ∧
  owner s ≠ UseAfterFree ∧ self s ≠ UseAfterFree.
Proof.
  intros Hr. destruct (model_checked_sound _ _ _ _ _ _ (init_checked ev suspended) Hr) as [HP HQ].
  apply andb_true_iff in HP as [Hd [Hu1 Hu2]%bool_decide_eq_true].
  split_and!; [|done..]. intros E. by rewrite bool_decide_true in Hd.
Qed.

(** A concrete run. *)
Definition run (choices : list nat) (s : sys) : sys := default s (follow succs choices s).

Lemma run_rtc choices s : rtc internal s (run choices s).
Proof.
  unfold run. destruct (follow succs choices s) as [s'|] eqn:E; [by eapply follow_rtc|apply rtc_refl].
Qed.

(** A thread object that deletes itself may be gone before [init] has looked at its
    state. *)
Lemma self_destruct_init_race :
  ∃ s, rtc internal (call (OpInit false) (new false true false)) s ∧
    owner s = UseAfterFree ∧ self s = Destroyed.
Proof.
  exists (run [0;0;1;1;2;1;1;1;0]%nat (call (OpInit false) (new false true false))).
  split; [apply run_rtc|by vm_compute].
Qed.

(** [join] does not wait for a thread that is about to end, so that an object deleted
    after [join] may still be used by its thread. *)
Definition started : sys := run [0;0;1;1;2;1;0]%nat (init_start false false).
Definition joined : sys := run [0]%nat (call OpJoin started).
Lemma join_returns_before_the_end :
  rtc internal (init_start false false) started ∧ owner started = Rest ∧
  rtc internal (call OpJoin started) joined ∧ owner joined = Rest ∧ exited (th joined) = false ∧
  ∃ s, rtc internal (call OpDestroy joined) s ∧ owner s = Destroyed ∧ self s = UseAfterFree.
Proof.
  split_and!; [apply run_rtc|by vm_compute|apply run_rtc|by vm_compute..|].
  exists (run [0;0]%nat (call OpDestroy joined)). split; [apply run_rtc|by vm_compute].
Qed.

(** *** The destructor of a running thread *)

(** Where the two parties of a plain thread object can be. *)
Definition owner_pc (p : pc) : bool :=
  match p with
  | Rest | Throws | Destroyed | Init _ | InitUnlock | InitSpin | SuspendLock | SuspendUnlock _
  | SuspendAck | ResumeCall | JoinLock | JoinWait | Dtor | ShutLock | ShutTest | ShutAck
  | ShutUnlock | DtorJoin | DtorWait => true
  | _ => false
  end.
Definition holds_mutex (p : pc) : bool :=
  match p with
  | InitUnlock | SuspendUnlock _ | ShutTest | ShutAck | ShutUnlock => true
  | _ => false
  end.
Definition state_at (p : pc) : option RunState :=
  match p with
  | Born | Starting => Some rsWaitingToRun
  | Body | Ending => Some rsRunning
  | Leaving | Exiting | Rest => Some rsDoneRunning
  | _ => None
  end.

Record plain_inv (s : sys) : Prop := {
  plain_kind : event (th s) = false ∧ mSelfDestruct (th s) = false ∧ mUpdateStateManually (th s) = false;
  plain_parked : mSuspended (th s) = O;
  plain_owner : owner_pc (owner s) = true;
  plain_mutex : mMutex (th s) = if holds_mutex (owner s) then Some Owner else None;
  plain_deleted : deleted (th s) = false ∨ owner s = Destroyed;
  plain_self : state_at (self s) = Some (mState (th s)) ∨ self s = UseAfterFree ∧ deleted (th s) = true;
  plain_count : 0 <= mSuspendCnt (th s);
  plain_suspended : mSuspendCnt (th s) = 0 ∨ (self s = Born ∧ mSuspendSem (th s) = O) ∨
    (match owner s with SuspendUnlock c => c = 1 | SuspendAck | ShutAck | Destroyed => True | _ => False end);
  plain_fresh : mInitialized (th s) = true ∨
    (self s = Born ∧ 0 < mSuspendCnt (th s) ∧ mSuspendSem (th s) = O) ∨ owner s = Destroyed }.

Lemma plain_new : plain_inv (new false false false).
Proof. split; cbn; try done; [by left|by left|by right; left|by right; left]. Qed.

(** The actions a party has, as equations. *)
Ltac act_cases Ha :=
  cbn -[bool_decide] in Ha;
  unfold when, free, resume, dispatch, threadProc, set_state, isRunning, isWaitingToRun, isSuspended in Ha;
  cbn -[bool_decide] in Ha;
  repeat (match type of Ha with
          | context [if ?b then _ else _] => destruct b eqn:?
          | context [match ?n with O => _ | S _ => _ end] => destruct n eqn:?
          | context [match ?l with [] => _ | _ :: _ => _ end] => destruct l eqn:?
          | context [match ?o with Some _ => _ | None => _ end] => destruct o eqn:?
          end; cbn -[bool_decide] in Ha);
  apply list_elem_of_In in Ha; cbn -[bool_decide] in Ha;
  repeat match type of Ha with
    | _ ∨ _ => destruct Ha as [Ha|Ha]
    | False => by destruct Ha
    end;
  simplify_eq/=.

Ltac bool_facts :=
  repeat match goal with
  | H : bool_decide _ = true |- _ => apply bool_decide_eq_true in H
  | H : bool_decide _ = false |- _ => apply bool_decide_eq_false in H
  | H : (_ =? _) = true |- _ => apply Z.eqb_eq in H
  | H : (_ =? _) = false |- _ => apply Z.eqb_neq in H
  | H : (_ <? _) = true |- _ => apply Z.ltb_lt in H
  | H : (_ <? _) = false |- _ => apply Z.ltb_ge in H
  | H : negb _ = true |- _ => apply negb_true_iff in H
  | H : negb _ = false |- _ => apply negb_false_iff in H
  end.

Ltac disjuncts :=
  repeat match goal with
  | H : _ ∨ _ |- _ => destruct H
  | H : _ ∧ _ |- _ => destruct H
  | H : False |- _ => destruct H
  end; simplify_eq/=.
(** A goal that is one of the disjuncts, each an equation or an inequality. *)
Ltac disjunct :=
  try solve [congruence | lia | repeat split; first [congruence | lia] | left; disjunct | right; disjunct].

Lemma plain_internal s s' : internal s s' → plain_inv s → plain_inv s'.
Proof.
  intros Hs%internal_inv [[He [Hd Hm]] Hp Ho Hx Hdel Hself Hc Hsu Hf].
  destruct s as [[] o q], Hs as [(p&x&Ha&->)|(p&x&Ha&->)]; cbn in *; subst.
  - destruct deleted0.
    { destruct Hdel as [?| ->]; [done|]. by apply elem_of_nil in Ha. }
    destruct o; cbn in Ho; try done; act_cases Ha; bool_facts.
    all: split; cbn in *; disjunct; disjuncts; disjunct.
  - destruct deleted0.
    { destruct q; cbn in Hself; disjuncts; act_cases Ha; split; cbn; disjunct; by repeat right. }
    destruct q; cbn in Hself; disjuncts; act_cases Ha; bool_facts.
    all: split; cbn in *; disjunct; disjuncts; disjunct.
    all: match goal with H : holds_mutex _ = _ |- _ => by rewrite H end.
Qed.

Lemma plain_step allowed s s' : step allowed s s' → plain_inv s → plain_inv s'.
Proof.
  intros [? ? ?|o s0 Ho Hd _|msg s0 Hd _] Hinv; [by eapply plain_internal| |].
  - destruct Hinv as [[He ?] ? ? Hx ? ? ? ? ?], s0 as [t0 o0 q0]; cbn in *; subst.
    destruct o; unfold call; cbn -[postMessage]; rewrite ?He; split; cbn in *; disjunct; try done; disjuncts; disjunct.
  - destruct Hinv; split; cbn in *; done.
Qed.

Lemma plain_reachable allowed s : rtc (step allowed) (new false false false) s → plain_inv s.
Proof. intros H. pose proof plain_new as H0. revert H0. induction H; eauto using plain_step. Qed.

(** [_shutdown] has found the thread running and holds the mutex. *)
Definition shutting (s : sys) : Prop :=
  isRunning (th s) = true ∧ (owner s = ShutTest ∨ owner s = ShutAck).

Lemma shutting_step allowed s s' : step allowed s s' → plain_inv s → shutting s → shutting s'.
Proof.
  intros [? ? Hs%internal_inv|o s0 Ho Hd _|msg s0 Hd _] Hinv [Hr Hw]; [|by destruct Hw; congruence|done].
  destruct Hinv as [[He [Hd Hm]] Hp Ho Hx Hdel Hself Hc Hsu Hf].
  apply bool_decide_eq_true in Hr. unfold shutting, isRunning. rewrite bool_decide_eq_true.
  destruct s0 as [[] o q]; cbn in *; subst.
  destruct Hs as [(p&x&Ha&->)|(p&x&Ha&->)]; cbn in *; destruct Hw as [-> | ->]; cbn in Hdel, Hsu;
    (destruct Hdel as [->|]; [|done]); disjuncts.
  all: try (destruct q; cbn in *; simplify_eq; by act_cases Ha; auto).
  all: act_cases Ha; auto.
Qed.

(** The destructor of a thread object whose thread runs never returns: once it
    has found the thread running under its mutex, it waits for the thread to
    suspend itself, which only the event loop does, and the thread cannot end
    either, because the mutex is held. *)
Theorem destructor_of_running_thread_hangs allowed s s' :
  rtc (step allowed) (new false false false) s →
  owner s = ShutTest → isRunning (th s) = true →
  rtc (step allowed) s s' →
  (owner s' = ShutTest ∨ owner s' = ShutAck) ∧ (self s' = Body ∨ self s' = Ending).
Proof.
  intros H0 Ho Hr H. pose proof (plain_reachable _ _ H0) as Hinv.
  assert (shutting s') as Hs'.
  { assert (shutting s) as Hs by (split; auto). clear H0 Ho Hr.
    induction H; eauto using shutting_step, plain_step. }
  split; [apply Hs'|].
  assert (plain_inv s') as [_ _ _ _ Hdel Hself _ _ _] by (apply (plain_reachable allowed); by etrans).
  destruct Hs' as [Hr'%bool_decide_eq_true Ho']. rewrite Hr' in Hself.
  destruct Hself as [E|[_ E]]; [|destruct Hdel, Ho'; congruence].
  destruct (self s'); cbn in E; simplify_eq; auto.
Qed.

(** *** Event threads *)

(** An event thread that has been started. *)
Definition event_thread (cnt : Z) (susp sem : nat) (mx : option party) (st : RunState)
    (q h : list Z) (ex : bool) : t :=
  mk true false true mx st false susp sem cnt (Some q) h ex false.

(** In its loop, with messages [q] waiting and [h] handled. *)
Definition running_at (q h : list Z) : sys :=
  mk_sys (event_thread 0 0 0 None rsRunning q h false) Rest Body.

Lemma running_after_init : rtc internal (init_start true false) (running_at [] [ETM_INIT]).
Proof.
  replace (running_at [] [ETM_INIT]) with (run [0;0;1;1;0;0;0]%nat (init_start true false)) by by vm_compute.
  apply run_rtc.
Qed.

Definition ordinary (m : Z) : Prop := m ≠ ETM_SUSPEND ∧ m ≠ ETM_QUIT.

Lemma dispatch_ordinary m s :
  ordinary m → dispatch m s = (Body, s <| handled ::= (λ h, h ++ [m]) |>).
Proof.
  intros [H1 H2]. unfold dispatch.
  by rewrite (proj2 (Z.eqb_neq _ _) H1), (proj2 (Z.eqb_neq _ _) H2).
Qed.

(** The loop handles the ordinary messages before another one. *)
Lemma loop_handles cnt susp sem mx st q r h ex o :
  Forall ordinary q →
  rtc internal (mk_sys (event_thread cnt susp sem mx st (q ++ r) h ex) o Body)
    (mk_sys (event_thread cnt susp sem mx st r (h ++ q) ex) o Body).
Proof.
  revert h. induction q as [|m q IH]; intros h Hq; [rewrite app_nil_r; apply rtc_refl|].
  apply Forall_cons in Hq as [Hm Hq]. eapply rtc_l.
  - apply internal_self. cbn. rewrite dispatch_ordinary by done. by apply list_elem_of_here.
  - cbn. specialize (IH (h ++ [m]) Hq). rewrite <-(assoc_L (++)) in IH. exact IH.
Qed.

Definition posts (P : Z → Prop) (o : op) : Prop := ∃ m, o = OpPost m ∧ P m.

(** Where [suspend] is once the message is posted, with the counter and the mutex. *)
Inductive suspend_pc : pc → Z → option party → Prop :=
  | suspend_pc_lock : suspend_pc SuspendLock 0 None
  | suspend_pc_unlock : suspend_pc (SuspendUnlock 1) 1 (Some Owner)
  | suspend_pc_ack : suspend_pc SuspendAck 1 None.

(** [suspend] under way, with [done] the messages handled or waiting since it was
    called: it is to post its message, the message waits behind [q1], the thread
    is parked, or [suspend] has returned. *)
Inductive suspending (base : list Z) : sys → Prop :=
  | suspending_call q h k :
      Forall ordinary q → h ++ q = base ++ k →
      suspending base (mk_sys (event_thread 0 0 0 None rsRunning q h false) SuspendPost Body)
  | suspending_posted o c mx q1 q2 h k :
      suspend_pc o c mx → Forall ordinary q1 → Forall ordinary q2 → h ++ q1 = base ++ k →
      suspending base (mk_sys (event_thread c 0 0 mx rsRunning (q1 ++ ETM_SUSPEND :: q2) h false) o Body)
  | suspending_parked o c mx q2 k :
      suspend_pc o c mx → Forall ordinary q2 →
      suspending base (mk_sys (event_thread c 1 0 mx rsRunning q2 (base ++ k) false) o Parked)
  | suspending_done q2 k :
      Forall ordinary q2 →
      suspending base (mk_sys (event_thread 1 0 0 None rsRunning q2 (base ++ k) false) Rest Parked).

Lemma Forall_snoc_ordinary q m : Forall ordinary q → ordinary m → Forall ordinary (q ++ [m]).
Proof. intros. apply Forall_app. by split; [|apply Forall_singleton]. Qed.
#[local] Hint Resolve Forall_snoc_ordinary : core.

Lemma call_post m c su se mx st q h ex o p :
  call (OpPost m) (mk_sys (event_thread c su se mx st q h ex) o p) =
  mk_sys (event_thread c su se mx st (q ++ [m]) h ex) o p.
Proof. done. Qed.

Lemma suspending_step base s s' :
  step (posts ordinary) s s' → suspending base s → suspending base s'.
Proof.
  intros [? ? Hs%internal_inv|o s0 Ho Hd (m&->&Hm)|m s0 Hd (m'&[= <-]&Hm)] Hsus.
  - destruct Hsus as [q h k Hq E|o c mx q1 q2 h k Ho Hq1 Hq2 E|o c mx q2 k Ho Hq2|q2 k Hq2];
      destruct Hs as [(p&x&Ha&->)|(p&x&Ha&->)]; cbn [th owner self] in *.
    + act_cases Ha. by apply (suspending_posted base SuspendLock 0 None q [] h k); [constructor| |constructor|].
    + destruct q as [|m q]; [act_cases Ha|].
      apply Forall_cons in Hq as [Hm Hq]. cbn in Ha. rewrite dispatch_ordinary in Ha by done.
      apply list_elem_of_singleton in Ha. simplify_eq. apply (suspending_call _ _ _ k); [done|].
      cbn. by rewrite <-(assoc_L (++)).
    + destruct Ho; act_cases Ha; [eapply (suspending_posted _ (SuspendUnlock 1) 1 (Some Owner))|
        eapply (suspending_posted _ SuspendAck 1 None)]; eauto using suspend_pc.
    + destruct q1 as [|m q1].
      * act_cases Ha. rewrite app_nil_r in E. subst. by apply suspending_parked.
      * apply Forall_cons in Hq1 as [Hm Hq1]. cbn in Ha. rewrite dispatch_ordinary in Ha by done.
        apply list_elem_of_singleton in Ha. simplify_eq. apply (suspending_posted _ _ _ _ _ _ _ k); try done.
        cbn. by rewrite <-(assoc_L (++)).
    + destruct Ho; act_cases Ha; [by apply (suspending_parked _ (SuspendUnlock 1) 1 (Some Owner)); [constructor|]|
        by apply (suspending_parked _ SuspendAck 1 None); [constructor|]|by apply suspending_done].
    + act_cases Ha.
    + act_cases Ha.
    + act_cases Ha.
  - destruct Hsus as [q h k Hq E|o c mx q1 q2 h k Hpc Hq1 Hq2 E|o c mx q2 k Hpc Hq2|q2 k Hq2];
      cbn in Ho; simplify_eq; [by inversion Hpc..|]. rewrite call_post. apply suspending_done; auto.
  - destruct Hsus as [q h k Hq E|o c mx q1 q2 h k Ho Hq1 Hq2 E|o c mx q2 k Ho Hq2|q2 k Hq2];
      rewrite call_post.
    + apply (suspending_call _ _ _ (k ++ [m])); auto. by rewrite (assoc_L (++) h), E, <-(assoc_L (++)).
    + rewrite <-(assoc_L (++)). cbn [app]. eapply suspending_posted; eauto.
    + apply suspending_parked; auto.
    + apply suspending_done; auto.
Qed.

(** One action of the owner that can be read off. *)
Ltac owner_turn := eapply rtc_l; [apply internal_owner, list_elem_of_here|].

Lemma suspend_reaches_ack o c mx su st q h ex p :
  suspend_pc o c mx →
  rtc internal (mk_sys (event_thread c su 0 mx st q h ex) o p)
    (mk_sys (event_thread 1 su 0 None st q h ex) SuspendAck p).
Proof. intros []; repeat owner_turn; apply rtc_refl. Qed.

Lemma suspend_can_return base s :
  suspending base s → ∃ s', rtc internal s s' ∧ owner s' = Rest.
Proof.
  assert (∀ q h p, rtc internal (mk_sys (event_thread 1 1 0 None rsRunning q h false) SuspendAck p)
    (mk_sys (event_thread 1 0 0 None rsRunning q h false) Rest p)) as Hack.
  { intros. owner_turn. apply rtc_refl. }
  assert (∀ o c mx q1 q2 h, suspend_pc o c mx → Forall ordinary q1 →
    ∃ s', rtc internal (mk_sys (event_thread c 0 0 mx rsRunning (q1 ++ ETM_SUSPEND :: q2) h false) o Body) s' ∧
      owner s' = Rest) as Hposted.
  { intros o c mx q1 q2 h Ho Hq. eexists. split.
    - etrans; [by apply suspend_reaches_ack|]. etrans; [by apply loop_handles|].
      eapply rtc_l; [apply internal_self, list_elem_of_here|]. apply Hack.
    - done. }
  intros [q h k Hq E|o c mx q1 q2 h k Ho Hq1 Hq2 E|o c mx q2 k Ho Hq2|q2 k Hq2].
  - destruct (Hposted SuspendLock 0 None q [] h suspend_pc_lock Hq) as (s'&?&?).
    exists s'. split; [|done]. by owner_turn.
  - by apply Hposted.
  - eexists. split; [etrans; [by apply suspend_reaches_ack|apply Hack]|done].
  - eexists. split; [apply rtc_refl|done].
Qed.

(** The thread is parked, and nothing but [resume] lets it go on. *)
Record parked (h : list Z) (s : sys) : Prop := {
  parked_self : self s = Parked;
  parked_sem : mSuspendSem (th s) = O;
  parked_count : 1 <= mSuspendCnt (th s);
  parked_live : mInitialized (th s) = true ∧ deleted (th s) = false;
  parked_handled : handled (th s) = h;
  parked_owner :
    match owner s with
    | Rest | Throws | Init _ | SuspendPost | SuspendLock | JoinLock | JoinWait => True
    | SuspendUnlock c => 2 <= c
    | _ => False
    end }.

Lemma parked_step h s s' :
  step (λ o, o ≠ OpResume ∧ o ≠ OpDestroy) s s' → parked h s → parked h s'.
Proof.
  intros [? ? Hs%internal_inv|o s0 Ho Hd [Hr Hde]|m s0 Hd _] [Hse Hsem Hc [Hi Hl] Hh Hw].
  - destruct s0 as [[] o q]; cbn in *; subst.
    destruct Hs as [(p&x&Ha&->)|(p&x&Ha&->)]; cbn in *; [|by act_cases Ha].
    destruct o; try done; act_cases Ha; bool_facts; split; cbn; try done; lia.
  - split; destruct o; cbn; try done; by destruct (event (th s0)).
  - by split.
Qed.

(** [suspend] on an event thread that runs returns in some continuation of every
    interleaving; when it has returned, every message posted before it was called
    has been handled and the thread is parked: whatever is called and posted
    then, short of [resume] and of the destructor, it handles no message. *)
Theorem suspend_stops_thread q h s :
  Forall ordinary q →
  rtc (step (posts ordinary)) (call OpSuspend (running_at q h)) s →
  (∃ s', rtc internal s s' ∧ owner s' = Rest) ∧
  (owner s = Rest →
    (∃ k, handled (th s) = h ++ q ++ k) ∧
    ∀ s', rtc (step (λ o, o ≠ OpResume ∧ o ≠ OpDestroy)) s s' →
      self s' = Parked ∧ handled (th s') = handled (th s)).
Proof.
  intros Hq Hr. assert (suspending (h ++ q) s) as Hs.
  { assert (suspending (h ++ q) (call OpSuspend (running_at q h))) as H0
      by (apply (suspending_call _ _ _ []); [done|by rewrite app_nil_r]).
    revert H0. induction Hr; eauto using suspending_step. }
  split; [by eapply suspend_can_return|]. intros Ho.
  destruct Hs as [| ? ? ? ? ? ? ? Hpc | ? ? ? ? ? Hpc |q2 k Hq2]; cbn in Ho; [done|subst; inversion Hpc..|].
  split; [exists k; by rewrite (assoc_L (++))|]. intros s' Hs'.
  assert (parked ((h ++ q) ++ k) s') as [? _ _ _ ? _]; [|done].
  match type of Hs' with rtc _ ?a _ => assert (parked ((h ++ q) ++ k) a) as H0 by (by split; cbn) end.
  revert H0. clear -Hs'. induction Hs'; eauto using parked_step.
Qed.

(** *** A second suspension *)

(** The owner has suspended twice; [q1] was posted between the calls, [q2] after. *)
Definition twice_suspended (h q1 q2 : list Z) : sys :=
  mk_sys (event_thread 2 0 0 None rsRunning (q1 ++ ETM_SUSPEND :: q2) h false) Rest Parked.

Lemma suspended_twice h :
  rtc (step (λ o, o = OpSuspend)) (running_at [] h) (twice_suspended h [] []).
Proof.
  assert (∀ s s', rtc internal s s' → rtc (step (λ o, o = OpSuspend)) s s') as Hi.
  { intros s s' H. induction H; [apply rtc_refl|]. eapply rtc_l; [by apply step_internal|done]. }
  assert (rtc internal (call OpSuspend (running_at [] h))
    (mk_sys (event_thread 1 0 0 None rsRunning [] h false) Rest Parked)) as H1.
  { trans (mk_sys (event_thread 1 0 0 None rsRunning [ETM_SUSPEND] h false) SuspendAck Body).
    { do 3 owner_turn. apply rtc_refl. }
    trans (mk_sys (event_thread 1 1 0 None rsRunning [] h false) SuspendAck Parked).
    { apply rtc_once, internal_self, list_elem_of_here. }
    owner_turn. apply rtc_refl. }
  assert (rtc internal (call OpSuspend (mk_sys (event_thread 1 0 0 None rsRunning [] h false) Rest Parked))
    (twice_suspended h [] [])) as H2 by (do 3 owner_turn; apply rtc_refl).
  eapply rtc_l; [by apply (step_call _ OpSuspend)|]. etrans; [by apply Hi|].
  eapply rtc_l; [by apply (step_call _ OpSuspend)|]. by apply Hi.
Qed.

Definition resume_pc (p : pc) : bool :=
  match p with Rest | ResumeCall | JoinLock | JoinWait => true | _ => false end.

Inductive nested (h q1 : list Z) : sys → Prop :=
  | nested_parked o c sem q2 :
      resume_pc o = true → (0 < c ∧ sem = O) ∨ (c = 0 ∧ sem = 1%nat) → Forall ordinary q1 →
      nested h q1 (mk_sys (event_thread c 0 sem None rsRunning (q1 ++ ETM_SUSPEND :: q2) h false) o Parked)
  | nested_awake o r h' q2 :
      resume_pc o = true → Forall ordinary r → h' ++ r = h ++ q1 →
      nested h q1 (mk_sys (event_thread 0 0 0 None rsRunning (r ++ ETM_SUSPEND :: q2) h' false) o Body)
  | nested_stuck o q2 :
      resume_pc o = true →
      nested h q1 (mk_sys (event_thread 0 1 0 None rsRunning q2 (h ++ q1) false) o Parked).

Definition may_resume (o : op) : Prop := o = OpResume ∨ o = OpJoin ∨ ∃ m, o = OpPost m.

Lemma nested_post h q1 m s : nested h q1 s → nested h q1 (call (OpPost m) s).
Proof.
  intros []; rewrite call_post, <-?(assoc_L (++)); cbn [app]; by constructor.
Qed.

Lemma nested_step h q1 s s' : step may_resume s s' → nested h q1 s → nested h q1 s'.
Proof.
  intros [? ? Hs%internal_inv|o s0 Ho Hd Hal|m s0 Hd _] Hn.
  - destruct Hn as [o c sem q2 Ho Hc Hq|o r h' q2 Ho Hr E|o q2 Ho];
      destruct Hs as [(p&x&Ha&->)|(p&x&Ha&->)]; cbn [th owner self] in *.
    + destruct o; try done; act_cases Ha; bool_facts; try solve [by apply nested_parked];
        apply nested_parked; try done; destruct Hc as [[? ->]|[? ->]]; cbn; lia.
    + act_cases Ha. destruct Hc as [[? ?]|[-> [= ->]]]; [done|]. by apply (nested_awake _ _ _ q1 h q2).
    + destruct o; try done; act_cases Ha; bool_facts; by apply nested_awake.
    + destruct r as [|m r].
      * act_cases Ha. rewrite app_nil_r in E. subst. by apply nested_stuck.
      * apply Forall_cons in Hr as [Hm Hr]. cbn in Ha. rewrite dispatch_ordinary in Ha by done.
        apply list_elem_of_singleton in Ha. simplify_eq. apply nested_awake; try done.
        cbn. by rewrite <-(assoc_L (++)).
    + destruct o; try done; act_cases Ha; bool_facts; by apply nested_stuck.
    + act_cases Ha.
  - destruct Hal as [->|[->|[m ->]]]; [..|by apply nested_post]; destruct Hn; cbn in Ho; by constructor.
  - by apply nested_post.
Qed.

(** An event thread that was suspended twice does not come back: however often
    it is resumed, it handles what was posted before the second suspension and
    nothing after, although it counts as not suspended. *)
Theorem nested_suspension_never_ends h q1 q2 s :
  Forall ordinary q1 →
  rtc (step may_resume) (twice_suspended h q1 q2) s →
  ∃ k, h ++ q1 = handled (th s) ++ k.
Proof.
  intros Hq Hr. assert (nested h q1 s) as Hn.
  { assert (nested h q1 (twice_suspended h q1 q2)) as H0 by (by apply nested_parked; auto with lia).
    revert H0. clear Hq. induction Hr; eauto using nested_step. }
  destruct Hn as [| ? r ? ? ? ? E |]; cbn; [by exists q1|by exists r|exists []; by rewrite app_nil_r].
Qed.

(** *** [quit] and [join] *)

Definition joining (p : pc) : bool := match p with JoinLock | JoinWait => true | _ => false end.

(** [quit] was posted behind [l] and [join] called: the loop has yet to come to it,
    the thread is about to end, or has ended its loop. *)
Inductive quitting (base : list Z) : sys → Prop :=
  | quitting_loop o r h tail :
      joining o = true → Forall ordinary r → h ++ r = base →
      quitting base (mk_sys (event_thread 0 0 0 None rsRunning (r ++ ETM_QUIT :: tail) h false) o Body)
  | quitting_ending o tail :
      joining o = true →
      quitting base (mk_sys (event_thread 0 0 0 None rsRunning tail (base ++ [ETM_QUIT]) false) o Ending)
  | quitting_left o tail p ex :
      joining o = true ∨ o = Rest → (p = Leaving ∧ ex = false) ∨ (p = Exiting ∧ ex = false) ∨ (p = Rest ∧ ex = true) →
      quitting base (mk_sys (event_thread 0 0 0 None rsDoneRunning tail (base ++ [ETM_QUIT]) ex) o p).

Lemma quitting_step base s s' :
  step (posts (λ _, True)) s s' → quitting base s → quitting base s'.
Proof.
  assert (∀ m s, quitting base s → quitting base (call (OpPost m) s)) as Hpost.
  { intros m s0 []; rewrite call_post, <-?(assoc_L (++)); cbn [app]; by constructor. }
  intros [? ? Hs%internal_inv|o s0 Ho Hd (m&->&_)|m s0 Hd _] Hq; [|by apply Hpost..].
  destruct Hq as [o r h tail Ho Hr E|o tail Ho|o tail p ex Ho Hp];
    destruct Hs as [(q&x&Ha&->)|(q&x&Ha&->)]; cbn [th owner self] in *.
  - destruct o; try done; act_cases Ha; bool_facts; by apply quitting_loop.
  - destruct r as [|m r].
    + act_cases Ha. rewrite app_nil_r. by apply quitting_ending.
    + apply Forall_cons in Hr as [Hm Hr]. cbn in Ha. rewrite dispatch_ordinary in Ha by done.
      apply list_elem_of_singleton in Ha. simplify_eq. apply quitting_loop; try done.
      cbn. by rewrite <-(assoc_L (++)).
  - destruct o; try done; act_cases Ha; bool_facts; by apply quitting_ending.
  - act_cases Ha. apply quitting_left; auto.
  - destruct Ho as [Ho| ->]; [|by apply elem_of_nil in Ha].
    destruct o; try done; act_cases Ha; bool_facts; by apply quitting_left; auto.
  - destruct Hp as [[-> ->]|[[-> ->]|[-> ->]]]; act_cases Ha; apply quitting_left; auto.
Qed.

Lemma join_can_return base s : quitting base s → ∃ s', rtc internal s s' ∧ owner s' = Rest.
Proof.
  assert (∀ o tail, joining o = true → ∃ s',
    rtc internal (mk_sys (event_thread 0 0 0 None rsDoneRunning tail (base ++ [ETM_QUIT]) true) o Rest) s' ∧
    owner s' = Rest) as Hrest.
  { intros o tail Ho. destruct o; try done; (eexists; split; [by owner_turn|done]). }
  assert (∀ o tail p ex, joining o = true → (p = Leaving ∧ ex = false) ∨ (p = Exiting ∧ ex = false) ∨ (p = Rest ∧ ex = true) →
    ∃ s', rtc internal (mk_sys (event_thread 0 0 0 None rsDoneRunning tail (base ++ [ETM_QUIT]) ex) o p) s' ∧
    owner s' = Rest) as Hleft.
  { intros o tail p ex Ho Hp. destruct (Hrest o tail Ho) as (s'&Hs'&?). exists s'. split; [|done].
    destruct Hp as [[-> ->]|[[-> ->]|[-> ->]]]; [..|done];
      repeat (eapply rtc_l; [apply internal_self, list_elem_of_here|]); exact Hs'. }
  intros [o r h tail Ho Hr E|o tail Ho|o tail p ex [Ho| ->] Hp].
  - subst. destruct (Hleft o tail Leaving false Ho) as (s'&Hs'&?); [auto|]. exists s'. split; [|done].
    etrans; [by apply loop_handles|].
    do 2 (eapply rtc_l; [apply internal_self, list_elem_of_here|]). exact Hs'.
  - destruct (Hleft o tail Leaving false Ho) as (s'&Hs'&?); [auto|]. exists s'. split; [|done].
    eapply rtc_l; [apply internal_self, list_elem_of_here|]. exact Hs'.
  - by apply Hleft.
  - eexists. split; [apply rtc_refl|done].
Qed.

(** C39: [join] after [quit] returns in some continuation of every interleaving, and
    when it has returned the event loop has ended: every message posted before
    [quit] has been handled, in order, and none that was posted after it. *)
Theorem quit_then_join_drains l h s :
  Forall ordinary l →
  rtc (step (posts (λ _, True))) (call OpJoin (running_at (l ++ [ETM_QUIT]) h)) s →
  (∃ s', rtc internal s s' ∧ owner s' = Rest) ∧
  (owner s = Rest → handled (th s) = h ++ l ++ [ETM_QUIT] ∧ isDoneRunning (th s) = true).
Proof.
  intros Hl Hr. assert (quitting (h ++ l) s) as Hq.
  { assert (quitting (h ++ l) (call OpJoin (running_at (l ++ [ETM_QUIT]) h))) as H0 by by apply quitting_loop.
    revert H0. clear Hl. induction Hr; eauto using quitting_step. }
  split; [by eapply join_can_return|]. intros Ho.
  destruct Hq as [o r h0 tail Hj|o tail Hj|]; cbn in Ho; subst; [done..|].
  by rewrite <-(assoc_L (++)).
Qed.

End SThreadFacts.

(** ** [SEventThread::Timer] *)

Module Timer.

(** A [timespec] is its seconds and nanoseconds. *)
Record itimerspec := mk_its { it_value : Z * Z; it_interval : Z * Z }.
Definition disarmed : itimerspec := mk_its (0, 0) (0, 0).

(** [m_thread]: the thread the timer belongs to; [m_timer]: the timer of the kernel,
    with what it is set to, once [init] has made one. *)
Record t := mk {
  m_id : Z; m_thread : option nat; m_oneshot : bool; m_interval : Z; m_timer : option itimerspec }.

(** The constructors, with the counter [m_nextid]. *)
Definition Timer_ctor (m_nextid : Z) : t * Z := (mk (m_nextid + 1) None true 0 None, m_nextid + 1).
Definition Timer_ctor_ms (milliseconds : Z) (oneshot : bool) (m_nextid : Z) : t * Z :=
  (mk (m_nextid + 1) None oneshot milliseconds None, m_nextid + 1).

Definition setInterval (interval : Z) (tm : t) : t := tm <| m_interval := interval |>.
Definition setOneShot (oneshot : bool) (tm : t) : t := tm <| m_oneshot := oneshot |>.

(** [timer_settime] refuses (EINVAL) a negative time and nanoseconds out of range. *)
Definition valid_timespec (ts : Z * Z) : bool :=
  (0 <=? ts.1) && (0 <=? ts.2) && (ts.2 <? 1000000000).
Definition timer_settime (its : itimerspec) : option itimerspec :=
  if valid_timespec (it_value its) && valid_timespec (it_interval its) then Some its else None.

Definition stop (tm : t) : t :=
  match m_timer tm with
  | Some _ => tm <| m_timer := timer_settime disarmed |>
  | None => tm
  end.

Definition destroy (tm : t) : t :=
  match m_timer tm with
  | Some _ => stop tm <| m_timer := None |>
  | None => tm
  end.

(** [init]; [timer_create] is whether the kernel has a timer left. *)
Definition init (timer_create : bool) (thread : nat) : M t unit :=
  _ ← modify (λ tm, destroy tm <| m_thread := Some thread |>);
  if timer_create then modify (λ tm, tm <| m_timer := Some disarmed |>) else throw StdException.

Definition setting (tm : t) : itimerspec :=
  let value := (Z.quot (m_interval tm) 1000, Z.rem (m_interval tm) 1000 * 1000000) in
  mk_its value (if m_oneshot tm then (0, 0) else value).

Definition start : M t unit :=
  tm ← gets id;
  match m_timer tm with
  | None => throw StdException
  | Some _ =>
      match timer_settime (setting tm) with
      | Some its => modify (λ tm, tm <| m_timer := Some its |>)
      | None => throw StdException
      end
  end.

Definition nanoseconds (ts : Z * Z) : Z := ts.1 * 1000000000 + ts.2.

(** When a timer set at [now] expires for the [k]-th time (from 0), in nanoseconds:
    a timer with no first time is disarmed, one with no period expires once. *)
Definition expiry (now : Z) (its : itimerspec) (k : nat) : option Z :=
  if nanoseconds (it_value its) =? 0 then None
  else match k with
       | O => Some (now + nanoseconds (it_value its))
       | S _ =>
           if nanoseconds (it_interval its) =? 0 then None
           else Some (now + nanoseconds (it_value its) + Z.of_nat k * nanoseconds (it_interval its))
       end.

(** The handler of SIGRTMIN: the message goes to the timer's thread. *)
Definition timerHandler (pTimer : option t) : option nat :=
  match pTimer with Some tm => m_thread tm | None => None end.

Lemma setting_valid tm :
  0 <= m_interval tm → timer_settime (setting tm) = Some (setting tm) ∧
  nanoseconds (it_value (setting tm)) = m_interval tm * 1000000.
Proof.
  intros Hi. unfold timer_settime, setting, nanoseconds, valid_timespec. cbn.
  pose proof (Z.quot_rem' (m_interval tm) 1000). pose proof (Z.rem_bound_pos (m_interval tm) 1000).
  assert (0 <= Z.quot (m_interval tm) 1000) by (apply Z.quot_pos; lia).
  destruct (m_oneshot tm); cbn; rewrite !(proj2 (Z.leb_le _ _)), !(proj2 (Z.ltb_lt _ _)) by lia;
    (split; [done|lia]).
Qed.

(** Starting a timer of [m] milliseconds arms it to expire after [m] milliseconds
    and, unless it is one-shot, every [m] milliseconds from then on; with 0
    milliseconds it never expires, and with a negative interval, or before
    [init], [start] throws and changes nothing. *)
Theorem timer_expires_every_interval now tm its :
  m_timer tm = Some its → 0 < m_interval tm →
  start tm = (Ok tt, tm <| m_timer := Some (setting tm) |>) ∧
  (∀ k, expiry now (setting tm) k =
     if m_oneshot tm && (0 <? k)%nat then None
     else Some (now + (Z.of_nat k + 1) * (m_interval tm * 1000000))) ∧
  (∀ k, expiry now (setting (setInterval 0 tm)) k = None) ∧
  (∀ n, n < 0 → start (setInterval n tm) = (Throw StdException, setInterval n tm)) ∧
  start (destroy tm) = (Throw StdException, destroy tm).
Proof.
  intros Ht Hi. destruct (setting_valid tm) as [Hs Hn]; [lia|]. split_and!.
  - unfold start, gets, mbind, M_bind, id. by rewrite Ht, Hs.
  - intros k. unfold expiry. rewrite (proj2 (Z.eqb_neq _ _)) by lia. rewrite Hn.
    unfold setting at 1 2; cbn [it_interval]. destruct (m_oneshot tm) eqn:Ho; destruct k as [|k]; cbn [andb].
    + cbn. f_equal. lia.
    + done.
    + f_equal. lia.
    + replace (nanoseconds (Z.quot (m_interval tm) 1000, Z.rem (m_interval tm) 1000 * 1000000))
        with (m_interval tm * 1000000) by (by rewrite <-Hn).
      rewrite (proj2 (Z.eqb_neq _ _)) by lia. f_equal. lia.
  - intros k. unfold expiry, setting. by cbn.
  - intros n Hn0. unfold start, gets, mbind, M_bind, id, setInterval. cbn. rewrite Ht.
    assert (timer_settime (setting (tm <| m_interval := n |>)) = None) as ->; [|done].
    unfold timer_settime, setting, valid_timespec; cbn.
    pose proof (Z.quot_rem' n 1000).
    assert (Z.quot n 1000 < 0 ∨ Z.rem n 1000 < 0) as [E|E].
    { pose proof (Z.rem_bound_neg_pos n 1000). lia. }
    + by rewrite (proj2 (Z.leb_gt _ _)) by done.
    + rewrite (proj2 (Z.leb_gt _ (Z.rem n 1000 * 1000000))) by lia. by rewrite andb_false_r.
  - unfold start, gets, mbind, M_bind, id, destroy. by rewrite Ht.
Qed.

Lemma timer_expires_every_interval_witness :
  start (mk 1 (Some 0%nat) false 1500 (Some disarmed)) =
    (Ok tt, mk 1 (Some 0%nat) false 1500 (Some (mk_its (1, 500000000) (1, 500000000)))).
Proof.
  apply (timer_expires_every_interval 0 (mk 1 (Some 0%nat) false 1500 (Some disarmed)) disarmed);
    [reflexivity|reflexivity].
Defined.

End Timer.

(** ** [STimerElapsed] *)

Module STimerElapsed.

(** Nanoseconds; [_endtime] is -1 while the timer runs. *)
Record t := mk { _time : Z; _endtime : Z }.

(** The clock: what [clock_gettime] returns, [None] when it fails. *)
Definition clock (ts : option (Z * Z)) : Z :=
  match ts with Some (sec, nsec) => sec * 1000000000 + nsec | None => 0 end.

Definition Start (ts : option (Z * Z)) (e : t) : t := mk (clock ts) (-1).
Definition Stop (ts : option (Z * Z)) (e : t) : t := e <| _endtime := clock ts - _time e |>.
Definition Set_ (a : Z) (e : t) : t := mk a (-1).
Definition assign (a e : t) : t := mk (_time a) (_endtime a).
Definition assign_time (tm : Z) (e : t) : t := mk tm (-1).
Definition STimerElapsed_ctor (ts : option (Z * Z)) : t := mk (clock ts) (-1).
Definition STimerElapsed_copy (a : t) : t := mk (_time a) (-1).
Definition STimerElapsed_time (tm : Z) : t := mk tm (-1).

(** [MilliSeconds] and [MicroSeconds] are this with their unit. *)
Definition elapsed (unit_ns : Z) (ts : option (Z * Z)) (bRestart : bool) (e : t) : Z * t :=
  if _endtime e =? -1 then
    let now := clock ts in
    (Z.quot (now - _time e) unit_ns, if bRestart then e <| _time := now |> else e)
  else (Z.quot (_endtime e) unit_ns, e).
Definition MilliSeconds := elapsed 1000000.
Definition MicroSeconds := elapsed 1000.

(** A stopped timer keeps its value whatever the clock says; its copy runs on. *)
Lemma stopped_timer_copied e t0 t1 t2 r :
  clock t0 <= clock t1 →
  MilliSeconds t2 r (Stop t1 (Start t0 e)) =
    (Z.quot (clock t1 - clock t0) 1000000, Stop t1 (Start t0 e)) ∧
  MilliSeconds t2 false (assign (Stop t1 (Start t0 e)) e) =
    (Z.quot (clock t1 - clock t0) 1000000, Stop t1 (Start t0 e)) ∧
  (MilliSeconds t2 false (STimerElapsed_copy (Stop t1 (Start t0 e)))).1 =
    Z.quot (clock t2 - clock t0) 1000000.
Proof.
  intros Hc. unfold MilliSeconds, elapsed, Stop, Start, assign, STimerElapsed_copy. cbn.
  rewrite (proj2 (Z.eqb_neq (clock t1 - clock t0) (-1))) by lia. done.
Qed.

End STimerElapsed.

(** ** Concrete runs of the theorems *)

Module ThreadWitness.
Import SThread SThreadFacts.

Lemma init_starts_thread_witness :
  ∃ s', rtc internal (init_start true false) s' ∧ init_done true false s' = true.
Proof. apply (init_starts_thread true false (init_start true false)). apply rtc_refl. Defined.

(** A plain thread, started and then destroyed while it runs. *)
Definition shut_down : sys :=
  run [0;0]%nat (call OpDestroy (run [0;0;1;1;0]%nat (init_start false false))).

Lemma internal_any s s' : rtc internal s s' → rtc (step (λ _, True)) s s'.
Proof. intros H. induction H; [apply rtc_refl|]. eapply rtc_l; [by apply step_internal|done]. Qed.

Lemma shut_down_reached : rtc (step (λ _, True)) (new false false false) shut_down.
Proof.
  eapply rtc_l; [by apply (step_call _ (OpInit false))|].
  etrans; [apply internal_any, (run_rtc [0;0;1;1;0]%nat)|].
  eapply rtc_l; [by apply (step_call _ OpDestroy)|]. apply internal_any, run_rtc.
Qed.

Lemma destructor_of_running_thread_hangs_witness :
  (owner shut_down = ShutTest ∨ owner shut_down = ShutAck) ∧ (self shut_down = Body ∨ self shut_down = Ending).
Proof.
  apply (destructor_of_running_thread_hangs (λ _, True) shut_down shut_down shut_down_reached);
    [vm_compute; reflexivity|vm_compute; reflexivity|apply rtc_refl].
Defined.

Lemma suspend_stops_thread_witness :
  ∃ s', rtc internal (call OpSuspend (running_at [ETM_USER] [ETM_INIT])) s' ∧ owner s' = Rest.
Proof.
  apply (suspend_stops_thread [ETM_USER] [ETM_INIT]); [|apply rtc_refl].
  apply Forall_singleton. by split.
Defined.

Lemma nested_suspension_never_ends_witness : ∃ k, [ETM_INIT] ++ [] = [ETM_INIT] ++ k.
Proof.
  apply (nested_suspension_never_ends [ETM_INIT] [] [ETM_USER] (twice_suspended [ETM_INIT] [] [ETM_USER]));
    [constructor|apply rtc_refl].
Defined.

Lemma quit_then_join_drains_witness :
  ∃ s', rtc internal (call OpJoin (running_at [ETM_USER; ETM_QUIT] [ETM_INIT])) s' ∧ owner s' = Rest.
Proof.
  apply (quit_then_join_drains [ETM_USER] [ETM_INIT]); [|apply rtc_refl].
  apply Forall_singleton. by split.
Defined.

End ThreadWitness.
