(* ===== verification/Json.v ===== *)
(** * JSON documents

    The values of a parsed JSON text, as the rapidjson library hands them to
    util/src/fdjson.cpp: the members of an object are kept in order and may
    repeat; an integer literal that fits 64 bits is an integer, any other number
    a double. *)

From S2P Require Import Prelude.
From Stdlib Require Import SpecFloat.
#[local] Open Scope Z_scope.

#[local] Set Warnings "-register-all".
Inductive json :=
  | JNull
  | JBool (b : bool)
  | JInt (z : Z)
  | JDouble (d : spec_float)
  | JString (s : string)
  | JArray (l : list json)
  | JObject (l : list (string * json)).

(** Induction with the hypothesis for every element and every member. *)
Section Induction.
Variables (P : json → Prop).
Hypotheses (Hnull : P JNull) (Hbool : ∀ b, P (JBool b)) (Hint : ∀ z, P (JInt z))
  (Hdouble : ∀ d, P (JDouble d)) (Hstring : ∀ s, P (JString s))
  (Harray : ∀ l, Forall P l → P (JArray l))
  (Hobject : ∀ l, Forall (λ x, P x.2) l → P (JObject l)).

Fixpoint json_nested_ind (j : json) : P j :=
  match j with
  | JNull => Hnull
  | JBool b => Hbool b
  | JInt z => Hint z
  | JDouble d => Hdouble d
  | JString s => Hstring s
  | JArray l =>
      Harray l ((fix go l : Forall P l :=
        match l with
        | [] => Forall_nil_2 _
        | x :: l' => Forall_cons_2 _ _ _ (json_nested_ind x) (go l')
        end) l)
  | JObject l =>
      Hobject l ((fix go l : Forall (λ x, P x.2) l :=
        match l with
        | [] => Forall_nil_2 _
        | x :: l' => Forall_cons_2 _ _ _ (json_nested_ind x.2) (go l')
        end) l)
  end.
End Induction.

(** What rapidjson's number predicates accept: an integer literal is no double. *)
Definition IsInt (j : json) : bool :=
  match j with JInt z => bool_decide (- 2 ^ 31 <= z < 2 ^ 31) | _ => false end.
Definition IsInt64 (j : json) : bool :=
  match j with JInt z => bool_decide (- 2 ^ 63 <= z < 2 ^ 63) | _ => false end.
Definition IsUint (j : json) : bool :=
  match j with JInt z => bool_decide (0 <= z < 2 ^ 32) | _ => false end.
Definition IsUint64 (j : json) : bool :=
  match j with JInt z => bool_decide (0 <= z < 2 ^ 64) | _ => false end.
Definition IsDouble (j : json) : bool := match j with JDouble _ => true | _ => false end.

Definition IsString (j : json) : bool := match j with JString _ => true | _ => false end.
Definition IsBool (j : json) : bool := match j with JBool _ => true | _ => false end.
Definition IsObject (j : json) : bool := match j with JObject _ => true | _ => false end.

(** ** Reading a document

    A failed assertion of rapidjson is [UB]. *)

(** The first member of that name. *)
Fixpoint FindMember (name : string) (ms : list (string * json)) : option json :=
  match ms with
  | [] => None
  | (k, v) :: ms' => if String.eqb k name then Some v else FindMember name ms'
  end.
Definition HasMember (name : string) (j : json) : outcome bool :=
  match j with JObject ms => Ok (bool_decide (is_Some (FindMember name ms))) | _ => UB end.
(** [j[name]] *)
Definition member_of (name : string) (j : json) : outcome json :=
  match j with
  | JObject ms => match FindMember name ms with Some v => Ok v | None => UB end
  | _ => UB
  end.
(** The text as a C string: it ends at its first NUL. *)
Definition GetString (j : json) : outcome string :=
  match j with JString s => Ok (upto_nul s) | _ => UB end.
Definition GetBool (j : json) : outcome bool := match j with JBool b => Ok b | _ => UB end.
Definition GetInteger (fits : json → bool) (j : json) : outcome Z :=
  match j with JInt z => if fits j then Ok z else UB | _ => UB end.
Definition GetInt : json → outcome Z := GetInteger IsInt.
Definition GetUint : json → outcome Z := GetInteger IsUint.
Definition GetInt64 : json → outcome Z := GetInteger IsInt64.

(** The largest [float], the conversions between [float] and [double]. *)
Definition FLT_MAX : spec_float := S754_finite false 16777215 104.
Definition float_of_double (d : spec_float) : spec_float :=
  match d with
  | S754_finite s m e => binary_normalize 24 128 (if s then Z.neg m else Z.pos m) e s
  | _ => d
  end.
Definition double_of_float (f : spec_float) : spec_float :=
  match f with
  | S754_finite s m e => binary_normalize 53 1024 (if s then Z.neg m else Z.pos m) e s
  | _ => f
  end.
Definition IsFloat (j : json) : bool :=
  match j with JDouble d => SFleb (SFabs d) FLT_MAX | _ => false end.

(** A document rapidjson can hold. *)
Fixpoint json_ok (j : json) : Prop :=
  match j with
  | JInt z => - 2 ^ 63 <= z < 2 ^ 64
  | JArray l => (fix go l := match l with [] => True | x :: l' => json_ok x ∧ go l' end) l
  | JObject l => (fix go l := match l with [] => True | (_, x) :: l' => json_ok x ∧ go l' end) l
  | _ => True
  end.
