(* ===== verification/Diameter.v ===== *)
(** * Diameter messages, the AVP accessors and the extractors

    Models the parts of util/src/fd.cpp and util/include/fd.h that read and
    build messages, include/common_def.h, and the extractor classes of
    src/s6as6d.cpp that the S6a handlers use.  The freeDiameter stack is the
    class [FreeDiameter]. *)

From S2P Require Import Prelude Calendar Json.
From Stdlib Require Import SpecFloat.
#[local] Open Scope Z_scope.

(** An AVP is named by its dictionary entry. *)
Abbreviation avp_name := string.

#[local] Set Warnings "-register-all".
Inductive avp :=
  | AvpU32 (de : avp_name) (v : Z)
  | AvpOctets (de : avp_name) (os : bytes)
  | AvpGroup (de : avp_name) (children : list avp)
  | AvpI32 (de : avp_name) (v : Z)
  | AvpI64 (de : avp_name) (v : Z)
  | AvpU64 (de : avp_name) (v : Z)
  | AvpF32 (de : avp_name) (v : spec_float)
  | AvpF64 (de : avp_name) (v : spec_float).

Definition avp_de (a : avp) : avp_name :=
  match a with
  | AvpU32 de _ | AvpOctets de _ | AvpGroup de _ | AvpI32 de _ | AvpI64 de _ | AvpU64 de _
  | AvpF32 de _ | AvpF64 de _ => de
  end.

(** Induction with the hypothesis for every child of a group. *)
Section AvpInduction.
Variables (P : avp → Prop).
Hypotheses (Hu32 : ∀ de v, P (AvpU32 de v)) (Hos : ∀ de os, P (AvpOctets de os))
  (Hgroup : ∀ de l, Forall P l → P (AvpGroup de l)) (Hi32 : ∀ de v, P (AvpI32 de v))
  (Hi64 : ∀ de v, P (AvpI64 de v)) (Hu64 : ∀ de v, P (AvpU64 de v))
  (Hf32 : ∀ de v, P (AvpF32 de v)) (Hf64 : ∀ de v, P (AvpF64 de v)).
Fixpoint avp_nested_ind (a : avp) : P a :=
  match a with
  | AvpU32 de v => Hu32 de v
  | AvpOctets de os => Hos de os
  | AvpGroup de l =>
      Hgroup de l ((fix go l : Forall P l :=
        match l with
        | [] => Forall_nil_2 _
        | x :: l' => Forall_cons_2 _ _ _ (avp_nested_ind x) (go l')
        end) l)
  | AvpI32 de v => Hi32 de v
  | AvpI64 de v => Hi64 de v
  | AvpU64 de v => Hu64 de v
  | AvpF32 de v => Hf32 de v
  | AvpF64 de v => Hf64 de v
  end.
End AvpInduction.

(** An AVP whose value is a string. *)
Definition AvpStr (de : avp_name) (s : string) : avp := AvpOctets de (bytes_of_string s).

Definition message : Type := list avp.

(** Adds children to the last group of that name. *)
Fixpoint add_to_last_group (de : avp_name) (new : list avp) (l : message) : message :=
  match l with
  | [] => []
  | AvpGroup de' c :: l' =>
      if decide (de' = de) then
        if decide (de ∈ avp_de <$> l') then AvpGroup de' c :: add_to_last_group de new l'
        else AvpGroup de' (c ++ new) :: l'
      else AvpGroup de' c :: add_to_last_group de new l'
  | a :: l' => a :: add_to_last_group de new l'
  end.

(** Base types of the freeDiameter dictionary. *)
Inductive avp_type :=
  | AVP_TYPE_GROUPED | AVP_TYPE_OCTETSTRING | AVP_TYPE_INTEGER32 | AVP_TYPE_INTEGER64
  | AVP_TYPE_UNSIGNED32 | AVP_TYPE_UNSIGNED64 | AVP_TYPE_FLOAT32 | AVP_TYPE_FLOAT64.

(** ** The freeDiameter library, rapidjson and the C library's address functions

    The dictionary (whether it has an AVP, its [avp_basetype] and
    [derived_type]), the local identity that [fd_msg_add_origin] adds, the
    result of [fd_msg_send], the result of making an AVP and adding it to
    another, the result codes of libfdproto.h, the Session-Id of a request made
    when that many messages have been sent, the integer that an AVP of an
    integer type reads when it was given a string (the front of a pointer);
    [inet_ntop] and [inet_pton] of both families; the parser and the writer of
    JSON texts; the zone of the process and its clock. *)
Class FreeDiameter := {
  dict_known : avp_name → bool;
  avp_basetype : avp_name → avp_type;
  derived_type : avp_name → option string;
  fd_origin : message;
  fd_msg_send : message → Z;
  fd_msg_avp_add : avp → Z;
  ER_DIAMETER_SUCCESS : Z;
  ER_DIAMETER_INVALID_AVP_VALUE : Z;
  ER_DIAMETER_MISSING_AVP : Z;
  fd_session_id : nat → string;
  octets_as_u32 : string → Z;
  inet_ntop4 : bytes → string;
  inet_ntop6 : bytes → string;
  inet_pton4 : string → option bytes;
  inet_pton6 : string → option bytes;
  json_parse : string → option json;
  json_write : json → string;
  fd_zone :: LocalZone;
  fd_now : Z }.

(** ** Constants of common_def.h *)

Definition IMSI_LENGTH : nat := 15.
Definition IMEI_LENGTH : nat := 15.
Definition SV_LENGTH : nat := 2.
Definition VENDOR_3GPP : Z := 10415.
Definition DIAMETER_SUCCESS : Z := 2001.
Definition DIAMETER_UNABLE_TO_COMPLY : Z := 5012.
Definition DIAMETER_ERROR_USER_UNKNOWN : Z := 5001.
Definition DIAMETER_ERROR_ROAMING_NOT_ALLOWED : Z := 5004.
Definition DIAMETER_ERROR_UNKNOWN_EPS_SUBSCRIPTION : Z := 5420.
Definition DIAMETER_ERROR_RAT_NOT_ALLOWED : Z := 5421.
Definition DIAMETER_ERROR_EQUIPMENT_UNKNOWN : Z := 5422.
Definition DIAMETER_ERROR_UNKNOWN_SERVING_NODE : Z := 5423.
Definition DIAMETER_AUTHENTICATION_DATA_UNAVAILABLE : Z := 4181.
Definition DIAMETER_ERROR_USER_NO_APN_SUBSCRIPTION : Z := 5451.
Definition DIAMETER_ERROR_ABSENT_USER : Z := 5550.

Definition DIAMETER_ERROR_IS_VENDOR (x : Z) : bool :=
  (x =? DIAMETER_ERROR_USER_UNKNOWN) || (x =? DIAMETER_ERROR_ROAMING_NOT_ALLOWED)
  || (x =? DIAMETER_ERROR_UNKNOWN_EPS_SUBSCRIPTION) || (x =? DIAMETER_ERROR_RAT_NOT_ALLOWED)
  || (x =? DIAMETER_ERROR_EQUIPMENT_UNKNOWN)
  || (x =? DIAMETER_AUTHENTICATION_DATA_UNAVAILABLE)
  || (x =? DIAMETER_ERROR_UNKNOWN_SERVING_NODE) || (x =? DIAMETER_ERROR_ABSENT_USER).

Definition FLAG_IS_SET (x flag : Z) : bool := truth (Z.land x flag).
Definition FLAGS_SET (x flags : Z) : Z := Z.lor x flags.

Definition ABSENT_SUBSCRIBER : Z := 1.
Definition LOCATION_REPORTING_EVT : Z := 2.
Definition CHANGE_IMSI_IMEI_SV_ASSN : Z := 3.
Definition ROAMING_STATUS_EVT : Z := 4.

(** ** [FDAvp]: reading a value *)

Module FDAvp.

Inductive FDDataType :=
  | DDTUnknown | DDTOctetString | DDTI32 | DDTI64 | DDTU32 | DDTU64 | DDTF32 | DDTF64
  | DDTGrouped | DDTAddress | DDTTime | DDTUTF8String | DDTDiameterIdentity
  | DDTDiameterURI | DDTIPFilterRule.

Section Dict.
Context `{FreeDiameter}.

(** [FDDictionaryEntryAVP::getTypeInfo]: a derived type the code does not know
    leaves [DDTUnknown]. *)
Definition getDataType (de : avp_name) : FDDataType :=
  match derived_type de with
  | Some type_name =>
      if String.eqb type_name "Time" then DDTTime
      else if String.eqb type_name "Address" then DDTAddress
      else if String.eqb type_name "UTF8String" then DDTUTF8String
      else if String.eqb type_name "DiameterIdentity" then DDTDiameterIdentity
      else if String.eqb type_name "DiameterURI" then DDTDiameterURI
      else if String.eqb type_name "IPFilterRule" then DDTIPFilterRule
      else DDTUnknown
  | None =>
      match avp_basetype de with
      | AVP_TYPE_GROUPED => DDTGrouped
      | AVP_TYPE_OCTETSTRING => DDTOctetString
      | AVP_TYPE_INTEGER32 => DDTI32
      | AVP_TYPE_INTEGER64 => DDTI64
      | AVP_TYPE_UNSIGNED32 => DDTU32
      | AVP_TYPE_UNSIGNED64 => DDTU64
      | AVP_TYPE_FLOAT32 => DDTF32
      | AVP_TYPE_FLOAT64 => DDTF64
      end
  end.

(** [get(uint32_t &)] reads the union's integer, whatever the AVP holds; on any
    other member the value is meaningless. *)
Definition get_u32 (a : avp) : outcome (bool * Z) :=
  match a with
  | AvpU32 _ v => Ok (true, v)
  | AvpI32 _ v | AvpI64 _ v | AvpU64 _ v => Ok (true, u32 v)
  | _ => UB
  end.

Definition octets (a : avp) : outcome bytes :=
  match a with AvpOctets _ os => Ok os | _ => UB end.

(** [get(sSS &)] and [inet_ntop]: an address of either family. *)
Definition address_to_string (os : bytes) : outcome (option string) :=
  match os with
  | hi :: lo :: addr =>
      let addressType := hi * 256 + lo in
      mret (if addressType =? 1 then
              if (length os =? 6)%nat then Some (inet_ntop4 addr) else None
            else if addressType =? 2 then
              if (length os =? 18)%nat then Some (inet_ntop6 addr) else None
            else None)
  | _ => UB
  end.

(** [get(std::string &)]: the string is cleared when the type has no string
    form. *)
Definition get_string (a : avp) : outcome (bool * string) :=
  match getDataType (avp_de a) with
  | DDTAddress =>
      os ← octets a;
      s ← address_to_string os;
      mret (match s with
            | Some s => (true, s)
            | None => (false, EmptyString)
            end)
  | DDTUTF8String | DDTDiameterIdentity | DDTDiameterURI =>
      os ← octets a; mret (true, string_of_bytes os)
  | _ => mret (false, EmptyString)
  end.

(** [get(uint8_t *data, size_t &len)]: the new contents of the buffer's front
    and the new [len]; both unchanged on failure. *)
Definition get_bytes (a : avp) (data : bytes) (len : nat) : outcome (bool * bytes * nat) :=
  match getDataType (avp_de a) with
  | DDTOctetString =>
      os ← octets a;
      mret (if decide (len < length os)%nat then (false, data, len)
            else (true, memcpy data os, length os))
  | _ => mret (false, data, len)
  end.

(** [get(STime &)]: four octets are read whatever the length. *)
Definition get_time (a : avp) : outcome STime.t :=
  match getDataType (avp_de a) with
  | DDTTime =>
      os ← octets a;
      if (length os <? 4)%nat then UB
      else STime.setNTPTime (STime.mk_ntp (le_value (rev (take 4 os))) 0)
  | _ => Throw FDException
  end.

(** [copy], which [add] of an extractor uses: a new AVP from the dictionary, the
    children of a group one by one, the value otherwise. *)
Fixpoint copy (a : avp) : outcome avp :=
  if negb (dict_known (avp_de a)) then Throw FDException else
  b ← match a with
      | AvpGroup de l =>
          c ← (fix copyall l :=
                 match l with
                 | [] => Ok []
                 | x :: l' => y ← copy x; ys ← copyall l'; Ok (y :: ys)
                 end) l;
          Ok (AvpGroup de c)
      | _ => Ok a
      end;
  if fd_msg_avp_add b =? 0 then Ok b else Throw FDException.

(** An AVP the dictionary has, at every level, and that can be added. *)
Fixpoint copyable (a : avp) : Prop :=
  dict_known (avp_de a) = true ∧ fd_msg_avp_add a = 0 ∧
  match a with
  | AvpGroup _ l => (fix go l := match l with [] => True | x :: l' => copyable x ∧ go l' end) l
  | _ => True
  end.

(** A copy is the AVP it was made from. *)
Lemma copy_same a : copyable a → copy a = Ok a.
Proof.
  induction a as [| |de l IH| | | | |] using avp_nested_ind; intros (Hd & Ha & Hl); cbn [copy avp_de] in *;
    rewrite Hd; cbn [negb mbind outcome_bind]; try by rewrite Ha.
  assert ((fix copyall l :=
            match l with
            | [] => Ok []
            | x :: l' => y ← copy x; ys ← copyall l'; Ok (y :: ys)
            end) l = Ok l) as ->.
  { clear Ha Hd. induction IH as [|x l Hx _ IHl]; [done|]. destruct Hl as [Hx' Hl].
    rewrite (Hx Hx'). cbn [mbind outcome_bind]. by rewrite IHl. }
  cbn [mbind outcome_bind]. by rewrite Ha.
Qed.

End Dict.
End FDAvp.

(** ** [FDExtractor]: finding the AVPs of a message or of a group *)

Module FDExtractor.

Inductive eFDExtractorType := etAvp | etAvpList | etExtractor | etExtractorList.
#[export] Instance eFDExtractorType_eq_dec : EqDecision eFDExtractorType.
Proof. solve_decision. Defined.

(** The [m_entries] of an extractor, in the order of its [add] calls. *)
Definition extractor : Type := list (avp_name * eFDExtractorType).

(** What [resolve] stored in an entry. *)
Inductive slot :=
  | SAvp (a : avp) | SAvpList (l : list avp)
  | SExtractor (a : avp) | SExtractorList (l : list avp).

(** [m_entries] is a map: the last [add] of a key wins. *)
Definition entry_kind (e : extractor) (k : avp_name) : option eFDExtractorType :=
  (list_to_map (reverse e) : gmap string _) !! k.

(** One iteration of the loop of [resolve]: [FDAvp::setAvp] throws when the
    entry already has its AVP. *)
Definition resolve_step (e : extractor) (m : gmap string slot) (a : avp)
    : outcome (gmap string slot) :=
  match entry_kind e (avp_de a) with
  | None => Ok m
  | Some etAvp =>
      match m !! avp_de a with
      | Some _ => Throw FDException
      | None => Ok (<[avp_de a := SAvp a]> m)
      end
  | Some etAvpList =>
      match m !! avp_de a with
      | Some (SAvpList l) => Ok (<[avp_de a := SAvpList (l ++ [a])]> m)
      | _ => Ok (<[avp_de a := SAvpList [a]]> m)
      end
  | Some etExtractor => Ok (<[avp_de a := SExtractor a]> m)
  | Some etExtractorList =>
      match m !! avp_de a with
      | Some (SExtractorList l) => Ok (<[avp_de a := SExtractorList (l ++ [a])]> m)
      | _ => Ok (<[avp_de a := SExtractorList [a]]> m)
      end
  end.

Fixpoint resolve_from (e : extractor) (m : gmap string slot) (children : list avp)
    : outcome (gmap string slot) :=
  match children with
  | [] => mret m
  | a :: l => m' ← resolve_step e m a; resolve_from e m' l
  end.
Definition resolve (e : extractor) (children : list avp) : outcome (gmap string slot) :=
  resolve_from e ∅ children.

(** The AVP behind an [FDExtractorAvp] field, [None] when it does not exist. *)
Definition field (e : extractor) (children : list avp) (k : avp_name)
    : outcome (option avp) :=
  m ← resolve e children;
  mret (match m !! k with Some (SAvp a) => Some a | _ => None end).

(** The children of an [FDExtractor] field. *)
Definition group (e : extractor) (children : list avp) (k : avp_name)
    : outcome (option (list avp)) :=
  m ← resolve e children;
  match m !! k with
  | Some (SExtractor (AvpGroup _ l)) => mret (Some l)
  | Some (SExtractor _) => UB
  | _ => mret None
  end.

(** A field of a grouped field: the group is resolved in its own turn. *)
Definition subfield (e : extractor) (children : list avp) (k : avp_name)
    (inner : extractor) (k' : avp_name) : outcome (option avp) :=
  g ← group e children k;
  match g with None => mret None | Some l => field inner l k' end.

(** The list behind an [FDExtractorList] field. *)
Definition extractor_list (e : extractor) (children : list avp) (k : avp_name)
    : outcome (list (list avp)) :=
  m ← resolve e children;
  match m !! k with
  | Some (SExtractorList l) =>
      mapM (M := outcome) (λ a, match a with AvpGroup _ c => Ok c | _ => UB end) l
  | _ => mret []
  end.

(** The list behind an [FDExtractorAvpList] field. *)
Definition avp_list (e : extractor) (children : list avp) (k : avp_name) : outcome (list avp) :=
  m ← resolve e children;
  mret (match m !! k with Some (SAvpList l) => l | _ => [] end).

#[global] Arguments field : simpl never.
#[global] Arguments avp_list : simpl never.
#[global] Arguments subfield : simpl never.
#[global] Arguments extractor_list : simpl never.

Section Get.
Context `{FreeDiameter}.

(** [FDExtractorAvp::get]: [false], and the destination unchanged, when the AVP
    does not exist. *)
Definition get_u32 (o : option avp) (old : Z) : outcome (bool * Z) :=
  match o with None => mret (false, old) | Some a => FDAvp.get_u32 a end.
Definition get_string (o : option avp) (old : string) : outcome (bool * string) :=
  match o with None => mret (false, old) | Some a => FDAvp.get_string a end.
Definition get_bytes (o : option avp) (data : bytes) (len : nat)
    : outcome (bool * bytes * nat) :=
  match o with None => mret (false, data, len) | Some a => FDAvp.get_bytes a data len end.
Definition get_time (o : option avp) : outcome (option STime.t) :=
  match o with None => mret None | Some a => t ← FDAvp.get_time a; mret (Some t) end.
End Get.

(** *** What [resolve] finds *)

Definition named (k : avp_name) (l : list avp) : list avp :=
  filter (λ a, avp_de a = k) l.

(** The slot a key ends up with, given the AVPs of that name. *)
Definition slot_of (kind : eFDExtractorType) (l : list avp) : option slot :=
  match l with
  | [] => None
  | a :: _ =>
      Some (match kind with
            | etAvp => SAvp a
            | etAvpList => SAvpList l
            | etExtractor => SExtractor (List.last l a)
            | etExtractorList => SExtractorList l
            end)
  end.

Definition found (e : extractor) (l : list avp) (m : gmap string slot) : Prop :=
  ∀ k, m !! k = match entry_kind e k with
                | Some kind => slot_of kind (named k l)
                | None => None
                end.

Definition unique_ok (e : extractor) (l : list avp) : Prop :=
  ∀ k, entry_kind e k = Some etAvp → (length (named k l) <= 1)%nat.

Lemma named_app k l l' : named k (l ++ l') = named k l ++ named k l'.
Proof. apply filter_app. Qed.

Lemma named_same k a : avp_de a = k → named k [a] = [a].
Proof. intros E. unfold named. by rewrite filter_cons_True. Qed.
Lemma named_other k a : avp_de a ≠ k → named k [a] = [].
Proof. intros E. unfold named. by rewrite filter_cons_False. Qed.

Lemma slot_of_snoc_list l a :
  slot_of etAvpList (l ++ [a]) = Some (SAvpList (l ++ [a])).
Proof. by destruct l. Qed.
Lemma slot_of_snoc_extractor_list l a :
  slot_of etExtractorList (l ++ [a]) = Some (SExtractorList (l ++ [a])).
Proof. by destruct l. Qed.
Lemma slot_of_snoc_extractor l a :
  slot_of etExtractor (l ++ [a]) = Some (SExtractor a).
Proof.
  destruct l as [|b l]; [done|]. cbn [app slot_of].
  change (b :: l ++ [a]) with ((b :: l) ++ [a]). by rewrite last_last.
Qed.

Lemma resolve_step_found e l a m :
  found e l m → unique_ok e (l ++ [a]) →
  ∃ m', resolve_step e m a = Ok m' ∧ found e (l ++ [a]) m'.
Proof.
  intros Hf Hu. unfold resolve_step.
  assert (∀ s, slot_of (default etAvp (entry_kind e (avp_de a))) (named (avp_de a) l ++ [a]) = Some s →
    is_Some (entry_kind e (avp_de a)) →
    found e (l ++ [a]) (<[avp_de a := s]> m)) as Hins.
  { intros s Hs Hk k. rewrite named_app. destruct (decide (avp_de a = k)) as [<-|Hne].
    - rewrite lookup_insert_eq, named_same by done.
      destruct (entry_kind e (avp_de a)); [by symmetry|by destruct Hk].
    - rewrite lookup_insert_ne, named_other, app_nil_r by done. apply Hf. }
  assert (m !! avp_de a = match entry_kind e (avp_de a) with
    | Some kind => slot_of kind (named (avp_de a) l) | None => None end) as Hm by apply Hf.
  destruct (entry_kind e (avp_de a)) as [[]|] eqn:Ek; cbn in Hins.
  - specialize (Hu _ Ek). rewrite named_app, named_same, length_app in Hu by done.
    cbn in Hu. destruct (named (avp_de a) l) eqn:En; [|cbn in Hu; lia].
    rewrite Hm. cbn. eexists; split; [done|]. by apply Hins.
  - rewrite Hm. destruct (named (avp_de a) l) eqn:En; cbn [slot_of];
      (eexists; split; [done|]; apply Hins; [|done]); by try apply slot_of_snoc_list.
  - eexists; split; [done|]. apply Hins; [|done]. apply slot_of_snoc_extractor.
  - rewrite Hm. destruct (named (avp_de a) l) eqn:En; cbn [slot_of];
      (eexists; split; [done|]; apply Hins; [|done]); by try apply slot_of_snoc_extractor_list.
  - exists m; split; [done|]. intros k. rewrite named_app.
    destruct (decide (avp_de a = k)) as [<-|Hne].
    + by rewrite Ek, Hm.
    + rewrite named_other, app_nil_r by done. apply Hf.
Qed.

Lemma unique_ok_app_l e l l' : unique_ok e (l ++ l') → unique_ok e l.
Proof. intros Hu k Hk. specialize (Hu k Hk). rewrite named_app, length_app in Hu. lia. Qed.

Lemma resolve_from_found e l1 l2 m :
  found e l1 m → unique_ok e (l1 ++ l2) →
  ∃ m', resolve_from e m l2 = Ok m' ∧ found e (l1 ++ l2) m'.
Proof.
  revert l1 m. induction l2 as [|a l2 IH]; intros l1 m Hf Hu.
  { exists m. by rewrite app_nil_r. }
  destruct (resolve_step_found e l1 a m) as (m1 & Hm1 & Hf1); [done| |].
  { apply (unique_ok_app_l e _ l2). by rewrite <-app_assoc. }
  cbn [resolve_from]. rewrite Hm1. cbn [mbind outcome_bind].
  destruct (IH (l1 ++ [a]) m1) as (m' & ? & ?); rewrite <-?app_assoc; [done..|].
  exists m'. split; [done|]. by rewrite <-app_assoc in *.
Qed.

(** C34: Resolving an extractor never reads past a group and, when no
    single-occurrence AVP is repeated, gives every field the AVPs of its name:
    the one AVP, the list in message order, or the last group. *)
Theorem resolve_finds_every_field e msg :
  unique_ok e msg → ∃ m, resolve e msg = Ok m ∧ found e msg m.
Proof.
  intros Hu. apply (resolve_from_found e []); [|done].
  intros k. rewrite lookup_empty. by destruct (entry_kind e k) as [[]|].
Qed.

(** A message that repeats no AVP. *)
Lemma named_absent l k : k ∉ avp_de <$> l → named k l = [].
Proof.
  intros Hk. destruct (named k l) as [|a n] eqn:E; [done|]. destruct Hk.
  assert (a ∈ named k l) as Ha by (rewrite E; by left). apply list_elem_of_filter in Ha as [<- Ha].
  by apply list_elem_of_fmap_2.
Qed.
Lemma named_NoDup l a : NoDup (avp_de <$> l) → a ∈ l → named (avp_de a) l = [a].
Proof.
  induction l as [|b l IH]; cbn [fmap list_fmap]; [by intros _ ?%elem_of_nil|].
  intros [Hb Hl]%NoDup_cons [<-|Ha]%elem_of_cons.
  - unfold named. rewrite filter_cons_True by done. f_equal. by apply named_absent.
  - unfold named. rewrite filter_cons_False; [by apply IH|]. intros E. apply Hb. rewrite E.
    by apply list_elem_of_fmap_2.
Qed.
Lemma unique_NoDup e l : NoDup (avp_de <$> l) → unique_ok e l.
Proof.
  intros Hl k _. destruct (named k l) as [|a n] eqn:E; [cbn; lia|].
  assert (a ∈ named k l) as Ha by (rewrite E; by left). apply list_elem_of_filter in Ha as [<- Ha].
  rewrite (named_NoDup l a Hl Ha) in E. injection E as <-. cbn. lia.
Qed.
Lemma field_named e l k : NoDup (avp_de <$> l) → entry_kind e k = Some etAvp →
  field e l k = Ok (head (named k l)).
Proof.
  intros Hl Hk. destruct (resolve_from_found e [] l ∅) as (m & Hm & Hf).
  { intros k'. rewrite lookup_empty. by destruct (entry_kind e k') as [[]|]. }
  { by apply unique_NoDup. }
  unfold field, resolve. rewrite Hm. cbn [mbind outcome_bind app] in *. rewrite (Hf k), Hk.
  by destruct (named k l).
Qed.

Lemma resolve_step_throws e m a b :
  avp_de a = avp_de b → entry_kind e (avp_de b) = Some etAvp →
  m !! avp_de b = Some (SAvp a) → resolve_step e m b = Throw FDException.
Proof. intros _ Hk Hm. unfold resolve_step. by rewrite Hk, Hm. Qed.

(** A request that repeats an AVP the handler expects once does not fail
    with an error answer: resolving it raises [FDException]. *)
Theorem resolve_repeated_avp_throws e l1 a l2 b l3 :
  avp_de a = avp_de b → entry_kind e (avp_de a) = Some etAvp →
  unique_ok e (l1 ++ a :: l2) → named (avp_de a) l1 = [] →
  resolve e (l1 ++ a :: l2 ++ b :: l3) = Throw FDException.
Proof.
  intros Hab Hk Hu Hn.
  destruct (resolve_from_found e [] (l1 ++ a :: l2) ∅) as (m & Hm & Hf).
  { intros k. rewrite lookup_empty. by destruct (entry_kind e k) as [[]|]. }
  { done. }
  assert (resolve_from e ∅ ((l1 ++ a :: l2) ++ b :: l3)
          = (m' ← resolve_from e ∅ (l1 ++ a :: l2); resolve_from e m' (b :: l3))) as Happ.
  { generalize (l1 ++ a :: l2) (∅ : gmap string slot). clear.
    induction l as [|x l IH]; intros m0; [done|]. cbn [resolve_from app].
    destruct (resolve_step e m0 x); cbn [mbind outcome_bind]; [apply IH|done|done]. }
  unfold resolve.
  replace (l1 ++ a :: l2 ++ b :: l3) with ((l1 ++ a :: l2) ++ b :: l3) by (by rewrite <-app_assoc).
  rewrite Happ, Hm. cbn [mbind outcome_bind resolve_from].
  rewrite (resolve_step_throws e m a b); [done|done|by rewrite <-Hab|].
  rewrite <-Hab. cbn [app] in Hf. rewrite Hf, Hk, named_app, Hn.
  unfold named. by rewrite filter_cons_True.
Qed.

(** Decides [unique_ok] on a concrete message: only the keys of its AVPs and of
    the extractor matter. *)
Definition unique_okb (e : extractor) (l : list avp) : bool :=
  forallb (λ k, if decide (entry_kind e k = Some etAvp) then (length (named k l) <=? 1)%nat
                else true) (avp_de <$> l).

Lemma unique_okb_spec e l : unique_okb e l = true → unique_ok e l.
Proof.
  unfold unique_okb. rewrite forallb_forall. intros Hall k Hk.
  destruct (named k l) as [|a l'] eqn:E; [simpl; lia|].
  assert (a ∈ named k l) as Ha by (rewrite E; left).
  unfold named in Ha. apply list_elem_of_filter in Ha as [Hak Hal].
  specialize (Hall k). rewrite decide_True in Hall by done.
  rewrite E in Hall. apply Nat.leb_le, Hall.
  apply list_elem_of_In, list_elem_of_fmap. eauto.
Qed.

End FDExtractor.

(** ** The extractors of the S6a requests *)

Module Extractors.
Import FDExtractor.

Definition TerminalInformationExtractor : extractor :=
  [("IMEI", etAvp); ("3GPP2-MEID", etAvp); ("Software-Version", etAvp)].

Definition SupportedFeaturesExtractor : extractor :=
  [("Vendor-Id", etAvp); ("Feature-List-ID", etAvp); ("Feature-List", etAvp)].

Definition RequestedEutranAuthenticationInfoExtractor : extractor :=
  [("Number-Of-Requested-Vectors", etAvp); ("Immediate-Response-Preferred", etAvp);
   ("Re-Synchronization-Info", etAvp)].

Definition RequestedUtranGeranAuthenticationInfoExtractor : extractor :=
  [("Number-Of-Requested-Vectors", etAvp); ("Immediate-Response-Preferred", etAvp);
   ("Re-Synchronization-Info", etAvp)].

Definition UpdateLocationRequestExtractor : extractor :=
  [("Session-Id", etAvp); ("DRMP", etAvp);
   ("Vendor-Specific-Application-Id", etExtractor); ("Auth-Session-State", etAvp);
   ("Origin-Host", etAvp); ("Origin-Realm", etAvp); ("Destination-Host", etAvp);
   ("Destination-Realm", etAvp); ("User-Name", etAvp);
   ("OC-Supported-Features", etExtractor); ("Supported-Features", etExtractorList);
   ("Terminal-Information", etExtractor); ("RAT-Type", etAvp); ("ULR-Flags", etAvp);
   ("UE-SRVCC-Capability", etAvp); ("Visited-PLMN-Id", etAvp); ("SGSN-Number", etAvp);
   ("Homogeneous-Support-of-IMS-Voice-Over-PS-Sessions", etAvp); ("GMLC-Address", etAvp);
   ("Active-APN", etExtractorList); ("Equivalent-PLMN-List", etExtractor);
   ("MME-Number-for-MT-SMS", etAvp); ("SMS-Register-Request", etAvp);
   ("SGs-MME-Identity", etAvp); ("Coupled-Node-Diameter-ID", etAvp);
   ("Adjacent-PLMNs", etExtractor); ("Supported-Services", etExtractor);
   ("Proxy-Info", etExtractorList); ("Route-Record", etAvpList)].

Definition AuthenticationInformationRequestExtractor : extractor :=
  [("Session-Id", etAvp); ("DRMP", etAvp);
   ("Vendor-Specific-Application-Id", etExtractor); ("Auth-Session-State", etAvp);
   ("Origin-Host", etAvp); ("Origin-Realm", etAvp); ("Destination-Host", etAvp);
   ("Destination-Realm", etAvp); ("User-Name", etAvp);
   ("OC-Supported-Features", etExtractor); ("Supported-Features", etExtractorList);
   ("Requested-EUTRAN-Authentication-Info", etExtractor);
   ("Requested-UTRAN-GERAN-Authentication-Info", etExtractor);
   ("Visited-PLMN-Id", etAvp); ("AIR-Flags", etAvp);
   ("Proxy-Info", etExtractorList); ("Route-Record", etAvpList)].

Definition UpdateLocationAnswerExtractor : extractor :=
  [("Session-Id", etAvp); ("DRMP", etAvp); ("Vendor-Specific-Application-Id", etExtractor);
   ("Result-Code", etAvp); ("Experimental-Result", etExtractor); ("Error-Diagnostic", etAvp);
   ("Auth-Session-State", etAvp); ("Origin-Host", etAvp); ("Origin-Realm", etAvp);
   ("OC-Supported-Features", etExtractor); ("OC-OLR", etExtractor); ("Load", etExtractorList);
   ("Supported-Features", etExtractorList); ("ULA-Flags", etAvp);
   ("Subscription-Data", etExtractor); ("Reset-ID", etAvpList); ("Failed-AVP", etExtractor);
   ("Proxy-Info", etExtractorList); ("Route-Record", etAvpList)].

Definition SubscriptionDataExtractor : extractor :=
  [("Subscriber-Status", etAvp); ("MSISDN", etAvp); ("A-MSISDN", etAvp); ("STN-SR", etAvp);
   ("ICS-Indicator", etAvp); ("Network-Access-Mode", etAvp);
   ("Operator-Determined-Barring", etAvp); ("HPLMN-ODB", etAvp);
   ("Regional-Subscription-Zone-Code", etAvpList); ("Access-Restriction-Data", etAvp);
   ("APN-OI-Replacement", etAvp); ("LCS-Info", etExtractor); ("Teleservice-List", etExtractor);
   ("Call-Barring-Info", etExtractorList); ("3GPP-Charging-Characteristics", etAvp);
   ("AMBR", etExtractor); ("APN-Configuration-Profile", etExtractor);
   ("RAT-Frequency-Selection-Priority-ID", etAvp); ("Trace-Data", etExtractor);
   ("GPRS-Subscription-Data", etExtractor); ("CSG-Subscription-Data", etExtractorList);
   ("Roaming-Restricted-Due-To-Unsupported-Feature", etAvp);
   ("Subscribed-Periodic-RAU-TAU-Timer", etAvp); ("MPS-Priority", etAvp);
   ("VPLMN-LIPA-Allowed", etAvp); ("Relay-Node-Indicator", etAvp); ("MDT-User-Consent", etAvp);
   ("Subscribed-VSRVCC", etAvp); ("ProSe-Subscription-Data", etExtractor);
   ("Subscription-Data-Flags", etAvp); ("Adjacent-Access-Restriction-Data", etExtractorList);
   ("DL-Buffering-Suggested-Packet-Count", etAvp); ("IMSI-Group-Id", etExtractorList);
   ("UE-Usage-Type", etAvp); ("AESE-Communication-Pattern", etExtractorList);
   ("Monitoring-Event-Configuration", etExtractorList); ("Emergency-Info", etExtractor);
   ("V2X-Subscription-Data", etExtractor); ("eDRX-Cycle-Length", etExtractorList)].

Definition PurgeUeRequestExtractor : extractor :=
  [("Session-Id", etAvp); ("DRMP", etAvp); ("Vendor-Specific-Application-Id", etExtractor);
   ("Auth-Session-State", etAvp); ("Origin-Host", etAvp); ("Origin-Realm", etAvp);
   ("Destination-Host", etAvp); ("Destination-Realm", etAvp); ("User-Name", etAvp);
   ("OC-Supported-Features", etExtractor); ("PUR-Flags", etAvp);
   ("Supported-Features", etExtractorList); ("EPS-Location-Information", etExtractor);
   ("Proxy-Info", etExtractorList); ("Route-Record", etAvpList)].

End Extractors.

(** ** [FDMessage]: building and sending *)

Module FDMessage.
Section Send.
Context `{FreeDiameter}.

(** [sendAnswer], [sendRequest]. *)
Definition send (msg : message) : outcome unit :=
  if fd_msg_send msg =? 0 then mret tt else Throw FDException.

(** The Experimental-Result group that every 3GPP error answer carries. *)
Definition experimental_result (code : Z) : avp :=
  AvpGroup "Experimental-Result"
    [AvpU32 "Vendor-Id" VENDOR_3GPP; AvpU32 "Experimental-Result-Code" code].

Definition result_code (code : Z) : avp := AvpU32 "Result-Code" code.

(** [add(de, string)]: [FDAvp::set] points the value's octets at the string
    whatever the AVP's type. *)
Definition string_avp (de : avp_name) (s : string) : avp :=
  match avp_basetype de with
  | AVP_TYPE_OCTETSTRING => AvpStr de s
  | _ => AvpU32 de (octets_as_u32 s)
  end.

(** [add(FDExtractorAvp &)]: a copy of the AVP, when it exists. *)
Definition copied (o : option avp) : outcome (list avp) :=
  match o with
  | Some a => b ← FDAvp.copy a; mret [b]
  | None => mret []
  end.

End Send.
End FDMessage.

(** ** A concrete stack for the witnesses *)

Module WitnessFreeDiameter.

Definition utf8_avps : list string :=
  ["User-Name"; "Session-Id"; "IMEI"; "Software-Version"; "External-Identifier"].
Definition identity_avps : list string :=
  ["Origin-Host"; "Origin-Realm"; "Destination-Host"; "Destination-Realm"; "SCEF-ID"].
Definition octet_avps : list string :=
  ["Visited-PLMN-Id"; "3GPP2-MEID"; "Re-Synchronization-Info"; "RAND"; "XRES"; "AUTN"; "KASME";
   "MSISDN"].
Definition grouped_avps : list string :=
  ["Subscription-Data"; "Monitoring-Event-Configuration"; "APN-Configuration-Profile";
   "User-Identifier"; "Monitoring-Event-Config-Status"].

(** The stack of the witnesses, with a given JSON library. *)
Definition stack_with (parse : string → option json) (write : json → string) : FreeDiameter := {|
  dict_known de := negb (String.eqb de "Unknown");
  avp_basetype de :=
    if bool_decide (de ∈ octet_avps ++ utf8_avps ++ identity_avps) then AVP_TYPE_OCTETSTRING
    else if bool_decide (de ∈ grouped_avps) then AVP_TYPE_GROUPED
    else AVP_TYPE_UNSIGNED32;
  derived_type de :=
    if bool_decide (de ∈ utf8_avps) then Some "UTF8String"
    else if bool_decide (de ∈ identity_avps) then Some "DiameterIdentity"
    else None;
  fd_origin := [AvpStr "Origin-Host" "hss.openair4G.eur"; AvpStr "Origin-Realm" "openair4G.eur"];
  fd_msg_send _ := 0;
  fd_msg_avp_add _ := 0;
  ER_DIAMETER_SUCCESS := 2001;
  ER_DIAMETER_INVALID_AVP_VALUE := 5004;
  ER_DIAMETER_MISSING_AVP := 5005;
  fd_session_id n := "session " +:+ pretty n;
  octets_as_u32 _ := 0;
  inet_ntop4 _ := "192.0.2.1";
  inet_ntop6 _ := "2001:db8::1";
  inet_pton4 s := if String.eqb s "192.0.2.1" then Some [192; 0; 2; 1] else None;
  inet_pton6 _ := None;
  json_parse := parse;
  json_write := write;
  fd_zone := fixed_zone 0;
  fd_now := 0 |}.

#[export] Instance plain_stack : FreeDiameter := stack_with
  (λ json, if String.eqb json "" then None
           else if String.eqb json "{}" then Some (JObject [])
           else Some (JObject [("Subscription-Data", JObject [])]))
  (λ _, "{}"%string).

End WitnessFreeDiameter.

Module ExtractorWitness.
Import FDExtractor Extractors.

Lemma resolve_finds_every_field_witness :
  ∃ m, resolve AuthenticationInformationRequestExtractor
         [AvpStr "User-Name" "001010000000001"; AvpU32 "Auth-Session-State" 1] = Ok m ∧
       found AuthenticationInformationRequestExtractor
         [AvpStr "User-Name" "001010000000001"; AvpU32 "Auth-Session-State" 1] m.
Proof.
  apply resolve_finds_every_field, unique_okb_spec. by vm_compute.
Defined.

Lemma resolve_repeated_avp_throws_witness :
  resolve UpdateLocationRequestExtractor
    ([AvpU32 "RAT-Type" 1004] ++ AvpStr "User-Name" "1" :: [] ++ AvpStr "User-Name" "2" :: [])
  = Throw FDException.
Proof.
  apply resolve_repeated_avp_throws;
    [done|by vm_compute|apply unique_okb_spec; by vm_compute|by vm_compute].
Defined.

End ExtractorWitness.
