(* ===== verification/Fd.v ===== *)
(** * The objects of the Diameter library

    Models the classes of util/src/fd.cpp and util/include/fd.h that stand for one
    AVP, one message, a command and an application.  Diameter has what the handlers
    see of them, messages as lists of AVPs; here are the objects themselves: the value
    an [FDAvp] keeps and how it gets into a message and back, who frees a message, and
    how a request reaches its handler. *)

From S2P Require Import Prelude Calendar Diameter.
From Stdlib Require Import SpecFloat.
#[local] Open Scope Z_scope.

(** The results of freeDiameter's functions, by the name of the AVP: making one,
    giving it its value, adding it; and that of [fd_msg_search_avp] when the message
    has no such AVP, where the AVP it hands back is null. *)
Class FdCalls := {
  fd_msg_avp_new : avp_name → Z;
  fd_msg_avp_setvalue : avp_name → Z;
  fd_avp_add : avp_name → Z;
  search_missing : Z }.

(** ** [union avp_value] *)

Module AvpValue.

(** The member that was written last; an integer leaves no trace of its width. *)
Inductive written := WInt | WF32 (f : spec_float) | WF64 (f : spec_float) | WOs (data : bytes).

(** The two halves of the first eight octets, as far as they are known, and
    [os.len]. *)
Record t := mk { low : option Z; high : option Z; last : written; os_len : nat }.

(** [memset(&m_value, 0, sizeof(m_value))]. *)
Definition zero : t := mk (Some 0) (Some 0) WInt 0.

Section Values.
Context `{FreeDiameter}.

Definition write_32 (v : Z) (u : t) : t := u <| low := Some (u32 v) |> <| last := WInt |>.
Definition write_64 (v : Z) (u : t) : t :=
  u <| low := Some (u32 v) |> <| high := Some (u32 (v / 2 ^ 32)) |> <| last := WInt |>.
Definition write_f32 (f : spec_float) (u : t) : t := u <| low := None |> <| last := WF32 f |>.
Definition write_f64 (f : spec_float) (u : t) : t :=
  u <| low := None |> <| high := None |> <| last := WF64 f |>.
(** The pointer's front is what an integer read from it is. *)
Definition write_os (data : bytes) : t :=
  mk (Some (octets_as_u32 (string_of_bytes data))) None (WOs data) (length data).

(** Octets that nobody wrote, or that belong to a float, are unspecified. *)
Definition known {A} (o : option A) : outcome A := match o with Some a => Ok a | None => UB end.

(** What [fd_msg_avp_setvalue] takes from the union: the member of the AVP's base
    type. *)
Definition read (de : avp_name) (u : t) : outcome avp :=
  match avp_basetype de with
  | AVP_TYPE_UNSIGNED32 => l ← known (low u); mret (AvpU32 de l)
  | AVP_TYPE_INTEGER32 => l ← known (low u); mret (AvpI32 de (i32 l))
  | AVP_TYPE_UNSIGNED64 => l ← known (low u); h ← known (high u); mret (AvpU64 de (l + 2 ^ 32 * h))
  | AVP_TYPE_INTEGER64 =>
      l ← known (low u); h ← known (high u); mret (AvpI64 de (i64 (l + 2 ^ 32 * h)))
  | AVP_TYPE_FLOAT32 =>
      match last u, low u with
      | WF32 f, _ => mret (AvpF32 de f)
      | WInt, Some 0 => mret (AvpF32 de (S754_zero false))
      | _, _ => UB
      end
  | AVP_TYPE_FLOAT64 =>
      match last u, low u, high u with
      | WF64 f, _, _ => mret (AvpF64 de f)
      | WInt, Some 0, Some 0 => mret (AvpF64 de (S754_zero false))
      | _, _, _ => UB
      end
  | AVP_TYPE_OCTETSTRING =>
      match last u, os_len u with
      | WOs data, _ => mret (AvpOctets de data)
      | _, O => mret (AvpOctets de [])
      | _, _ => UB
      end
  | AVP_TYPE_GROUPED => UB
  end.

End Values.
End AvpValue.

(** ** [FDAvp] *)

Module FDAvp.

#[local] Set Warnings "-register-all".
(** An AVP of a message: its entry, its value once it has one, its children. *)
Inductive avp_obj := AvpObj (de : avp_name) (value : option avp) (children : list avp_obj).
Definition obj_de (a : avp_obj) : avp_name := let 'AvpObj de _ _ := a in de.
Definition obj_value (a : avp_obj) : option avp := let 'AvpObj _ v _ := a in v.

(** The AVP as Diameter has it; [None] when it, or one in it, has no value. *)
Fixpoint to_avp `{FreeDiameter} (a : avp_obj) : option avp :=
  let 'AvpObj de value children := a in
  match avp_basetype de with
  | AVP_TYPE_GROUPED =>
      AvpGroup de <$> (fix go l :=
        match l with
        | [] => Some []
        | x :: l' => y ← to_avp x; ys ← go l'; Some (y :: ys)
        end) children
  | _ => value
  end.

(** The members of an [FDAvp]; [m_avphdr] shows the value of the AVP it was made
    for; [m_buf] counts the buffers, of which the destructor deletes the last. *)
Record t := mk {
  m_de : avp_name;
  m_avp : option avp_obj;
  m_avphdr : option (option avp);
  m_value : AvpValue.t;
  m_buf : nat;
  m_assigned : bool }.

Section Objects.
Context `{FreeDiameter, FdCalls}.

(** [FDAvp(de)] with [init]. *)
Definition FDAvp_ctor (de : avp_name) : outcome t :=
  if fd_msg_avp_new de =? 0 then
    mret (mk de (Some (AvpObj de None [])) None AvpValue.zero 0 false)
  else Throw FDException.

(** [FDAvp(de, avp)]: the AVP of a message, or none. *)
Definition FDAvp_of (de : avp_name) (a : option avp_obj) : t :=
  mk de a (obj_value <$> a) AvpValue.zero 0 true.

(** [assignValue]: on failure the AVP is freed. *)
Definition assignValue : M t unit :=
  o ← gets id;
  match Diameter.FDAvp.getDataType (m_de o) with
  | Diameter.FDAvp.DDTGrouped => mret tt
  | _ =>
      if fd_msg_avp_setvalue (m_de o) =? 0 then
        match m_avp o with
        | Some (AvpObj de _ children) =>
            v ← lift (AvpValue.read de (m_value o));
            modify (λ o, o <| m_avp := Some (AvpObj de (Some v) children) |>)
        | None => undefined
        end
      else
        _ ← modify (λ o, o <| m_avp := None |>);
        throw FDException
  end.

Definition write (f : AvpValue.t → AvpValue.t) : M t unit := modify (λ o, o <| m_value ::= f |>).
Definition new_buffer : M t unit := modify (λ o, o <| m_buf ::= S |>).

Definition set_i32 (v : Z) : M t unit := _ ← write (AvpValue.write_32 v); assignValue.
Definition set_u32 (v : Z) : M t unit := _ ← write (AvpValue.write_32 v); assignValue.
Definition set_u64 (v : Z) : M t unit := _ ← write (AvpValue.write_64 v); assignValue.
Definition set_f32 (f : spec_float) : M t unit := _ ← write (AvpValue.write_f32 f); assignValue.
Definition set_f64 (f : spec_float) : M t unit := _ ← write (AvpValue.write_f64 f); assignValue.
(** [set(const uint8_t *, size_t)]. *)
Definition set_bytes (v : bytes) : M t unit := _ ← write (λ _, AvpValue.write_os v); assignValue.

(** The four octets of a time, most significant first. *)
Definition time_octets (seconds : Z) : bytes := rev (le_bytes 4 seconds).
Definition NTP_EPOCH : Z := 2208988800.

(** [set(int64_t)]. *)
Definition set_i64 (v : Z) : M t unit :=
  de ← gets m_de;
  match Diameter.FDAvp.getDataType de with
  | Diameter.FDAvp.DDTTime =>
      _ ← new_buffer;
      _ ← set_bytes (time_octets (u32 (u32 v + NTP_EPOCH)));
      assignValue
  | _ => write (AvpValue.write_64 v)
  end.

(** [set(const char *, size_t)], with the text up to its NUL and its [len]
    characters. *)
Definition set_chars (v : bytes) : M t unit :=
  de ← gets m_de;
  _ ← match Diameter.FDAvp.getDataType de with
      | Diameter.FDAvp.DDTAddress =>
          let s := upto_nul (string_of_bytes v) in
          match inet_pton4 s with
          | Some addr => _ ← new_buffer; set_bytes ([0; 1] ++ take 4 addr)
          | None =>
              match inet_pton6 s with
              | Some addr => _ ← new_buffer; set_bytes ([0; 2] ++ take 16 addr)
              | None => set_bytes v
              end
          end
      | _ => set_bytes v
      end;
  assignValue.
Definition set_string (v : string) : M t unit := set_chars (bytes_of_string v).

(** [set(const STime &)]. *)
Definition set_time (v : STime.t) : M t unit :=
  de ← gets m_de;
  match Diameter.FDAvp.getDataType de with
  | Diameter.FDAvp.DDTTime =>
      _ ← new_buffer;
      ntp ← lift (STime.getNTPTime v);
      _ ← set_bytes (time_octets (STime.second ntp));
      assignValue
  | _ => throw FDException
  end.

(** [addTo]: the AVP goes to the end of its new parent. *)
Definition addTo (reference : list avp_obj) : M t (list avp_obj) :=
  o ← gets id;
  match m_avp o with
  | Some a =>
      if fd_avp_add (obj_de a) =? 0 then
        _ ← modify (λ o, o <| m_assigned := true |>);
        mret (reference ++ [a])
      else throw FDException
  | None => throw FDException
  end.

(** [add(de, v)] of a message or of a group, whatever [set] it uses: a new object is
    filled, added and destroyed. *)
Definition add_value (de : avp_name) (set : M t unit) (reference : list avp_obj)
    : outcome (list avp_obj) :=
  o ← FDAvp_ctor de;
  ((_ ← set; addTo reference) o).1.

(** *** Reading *)

(** [if (m_avphdr == NULL) return false]; an AVP without a value has no octets to
    read. *)
Definition get {A} (o : t) (f : avp → outcome (bool * A)) (old : A) : outcome (bool * A) :=
  match m_avphdr o with None => mret (false, old) | Some None => UB | Some (Some a) => f a end.

Definition get_u32 (o : t) (old : Z) : outcome (bool * Z) := get o Diameter.FDAvp.get_u32 old.
Definition get_i32 (o : t) (old : Z) : outcome (bool * Z) :=
  get o (λ a, match a with
    | AvpI32 _ v => mret (true, v)
    | AvpU32 _ v | AvpI64 _ v | AvpU64 _ v => mret (true, i32 v)
    | _ => UB
    end) old.
Definition get_u64 (o : t) (old : Z) : outcome (bool * Z) :=
  get o (λ a, match a with
    | AvpU64 _ v => mret (true, v) | AvpI64 _ v => mret (true, u64 v) | _ => UB
    end) old.
Definition get_f32 (o : t) (old : spec_float) : outcome (bool * spec_float) :=
  get o (λ a, match a with AvpF32 _ f => mret (true, f) | _ => UB end) old.
Definition get_f64 (o : t) (old : spec_float) : outcome (bool * spec_float) :=
  get o (λ a, match a with AvpF64 _ f => mret (true, f) | _ => UB end) old.

(** [get(int64_t &)]: four octets are read for a time, whatever their number. *)
Definition get_i64 (o : t) (old : Z) : outcome (bool * Z) :=
  get o (λ a,
    match Diameter.FDAvp.getDataType (m_de o) with
    | Diameter.FDAvp.DDTTime =>
        os ← Diameter.FDAvp.octets a;
        if (length os <? 4)%nat then UB
        else mret (true, le_value (rev (take 4 os)) - NTP_EPOCH)
    | _ =>
        match a with
        | AvpI64 _ v => mret (true, v) | AvpU64 _ v => mret (true, i64 v) | _ => UB
        end
    end) old.

(** [get(sSS &)]: the family and the address, or neither. *)
Inductive family := AF_INET | AF_INET6.
Definition get_address (o : t) : outcome (bool * option (family * bytes)) :=
  get o (λ a,
    os ← Diameter.FDAvp.octets a;
    match os with
    | hi :: lo :: addr =>
        let addressType := hi * 256 + lo in
        if addressType =? 1 then
          mret (if (length os =? 6)%nat then (true, Some (AF_INET, addr)) else (false, None))
        else if addressType =? 2 then
          mret (if (length os =? 18)%nat then (true, Some (AF_INET6, addr)) else (false, None))
        else mret (false, None)
    | _ => UB
    end) None.

(** [get(char *data, size_t &len)]: the new contents of the buffer and the new
    [len].  Types that are not texts leave both and return true. *)
Definition get_chars (o : t) (data : bytes) (len : nat) : outcome (bool * (bytes * nat)) :=
  get o (λ a,
    match Diameter.FDAvp.getDataType (m_de o) with
    | Diameter.FDAvp.DDTAddress =>
        '(ok, ss) ← get_address o;
        match ok, ss with
        | true, Some (f, addr) =>
            let str := bytes_of_string (match f with
                                        | AF_INET => inet_ntop4 addr | AF_INET6 => inet_ntop6 addr
                                        end) in
            mret (if (len <=? length str)%nat then (false, (data, len))
                  else (true, (memcpy data (str ++ [0]), length str)))
        | _, _ => mret (false, (data, len))
        end
    | Diameter.FDAvp.DDTUTF8String | Diameter.FDAvp.DDTDiameterIdentity
    | Diameter.FDAvp.DDTDiameterURI =>
        os ← Diameter.FDAvp.octets a;
        mret (if (len <=? length os)%nat then (false, (data, len))
              else (true, (memcpy data (os ++ [0]), length os)))
    | Diameter.FDAvp.DDTOctetString =>
        os ← Diameter.FDAvp.octets a;
        mret (if (len <=? length os)%nat then (false, (data, len))
              else (true, (memcpy data os, length os)))
    | _ => mret (true, (data, len))
    end) (data, len).

Definition INET6_ADDRSTRLEN : nat := 46.
(** [get(std::string &)]. *)
Definition get_string (uninit : bytes) (o : t) (old : string) : outcome (bool * string) :=
  get o (λ a,
    match Diameter.FDAvp.getDataType (m_de o) with
    | Diameter.FDAvp.DDTAddress =>
        '(ok, (str, len)) ← get_chars o uninit INET6_ADDRSTRLEN;
        mret (if (ok : bool) then (true, string_of_bytes (take len str)) else (false, EmptyString))
    | Diameter.FDAvp.DDTUTF8String | Diameter.FDAvp.DDTDiameterIdentity
    | Diameter.FDAvp.DDTDiameterURI =>
        os ← Diameter.FDAvp.octets a; mret (true, string_of_bytes os)
    | _ => mret (false, EmptyString)
    end) old.

(** [get(uint8_t *data, size_t &len)]. *)
Definition get_bytes (o : t) (data : bytes) (len : nat) : outcome (bool * (bytes * nat)) :=
  get o (λ a, '(ok, data, len) ← Diameter.FDAvp.get_bytes a data len; mret (ok, (data, len))) (data, len).
(** [get(STime &)]. *)
Definition get_time (o : t) (old : STime.t) : outcome (bool * STime.t) :=
  get o (λ a, v ← Diameter.FDAvp.get_time a; mret (true, v)) old.

(** [FDMessage::findAVP]: the first AVP of the message with that entry. *)
Definition findAVP (de : avp_name) (msg : list avp_obj) : outcome t :=
  match list_find (λ a, obj_de a = de) msg with
  | Some (_, a) => mret (FDAvp_of de (Some a))
  | None => if search_missing =? 0 then mret (FDAvp_of de None) else Throw FDException
  end.
(** [FDMessage::get(de, v)]. *)
Definition message_get {A} (de : avp_name) (msg : list avp_obj) (f : t → outcome A) : outcome A :=
  o ← findAVP de msg; f o.

End Objects.
End FDAvp.

(** ** What is added is read back *)

Module FDAvpFacts.
Import FDAvp.

Section Facts.
Context `{FreeDiameter, FdCalls}.

(** freeDiameter makes, fills and adds the AVP. *)
Definition ready (de : avp_name) : Prop :=
  fd_msg_avp_new de = 0 ∧ fd_msg_avp_setvalue de = 0 ∧ fd_avp_add de = 0.
Definition fresh (de : avp_name) (msg : list avp_obj) : Prop := Forall (λ a, obj_de a ≠ de) msg.

Definition filled (de : avp_name) (a : avp) : avp_obj := AvpObj de (Some a) [].

Lemma getDataType_base de :
  Diameter.FDAvp.getDataType de = Diameter.FDAvp.DDTGrouped → avp_basetype de = AVP_TYPE_GROUPED.
Proof.
  unfold Diameter.FDAvp.getDataType. destruct (derived_type de); [by repeat case_match|].
  by destruct (avp_basetype de).
Qed.

Lemma assign_ok o v c a :
  avp_basetype (m_de o) ≠ AVP_TYPE_GROUPED → fd_msg_avp_setvalue (m_de o) = 0 →
  m_avp o = Some (AvpObj (m_de o) v c) → AvpValue.read (m_de o) (m_value o) = Ok a →
  assignValue o = (Ok tt, o <| m_avp := Some (AvpObj (m_de o) (Some a) c) |>).
Proof.
  intros Hg Hs Ha Hr. unfold assignValue, gets, lift, modify, mbind, M_bind, id, mret, M_ret.
  pose proof (getDataType_base (m_de o)) as Hd.
  destruct (Diameter.FDAvp.getDataType (m_de o)); try (by destruct Hg; apply Hd);
    by rewrite Hs, Ha; cbn; rewrite Hr.
Qed.

Lemma add_filled de set msg o a :
  ready de → set (mk de (Some (AvpObj de None [])) None AvpValue.zero 0 false) = (Ok tt, o) →
  m_avp o = Some (filled de a) → add_value de set msg = Ok (msg ++ [filled de a]).
Proof.
  intros (Hn&_&Ha) Hs Ho. unfold add_value, FDAvp_ctor. rewrite Hn. cbn.
  unfold mbind, M_bind. rewrite Hs. unfold addTo, gets, id, mbind, M_bind. rewrite Ho. cbn.
  by rewrite Ha.
Qed.

Lemma find_added de a msg :
  fresh de msg → findAVP de (msg ++ [filled de a]) = Ok (FDAvp_of de (Some (filled de a))).
Proof.
  intros Hf. unfold findAVP. rewrite (proj2 (list_find_Some _ _ (length msg) (filled de a))); [done|].
  split_and!; [by rewrite lookup_app_r, Nat.sub_diag by lia|done|].
  intros j y Hj Hl. rewrite lookup_app_l in Hj by done.
  exact (proj1 (Forall_lookup _ _) Hf _ _ Hj).
Qed.

(** Adding a value succeeds, and reading gives [r] then. *)
Definition reads_back {A} (de : avp_name) (msg : list avp_obj) (set : M t unit)
    (get : t → outcome A) (r : A) : Prop :=
  ∃ msg', add_value de set msg = Ok msg' ∧ message_get de msg' get = Ok r.

Lemma reads_back_filled {A} de msg set o a (get : t → outcome A) r :
  ready de → fresh de msg →
  set (mk de (Some (AvpObj de None [])) None AvpValue.zero 0 false) = (Ok tt, o) →
  m_avp o = Some (filled de a) → get (FDAvp_of de (Some (filled de a))) = Ok r →
  reads_back de msg set get r.
Proof.
  intros Hr Hf Hs Ho Hg. eexists. split; [by eapply add_filled|].
  unfold message_get. rewrite find_added by done. exact Hg.
Qed.

(** A [set] that writes the value and assigns it. *)
Lemma write_assigned f de u o a v c :
  avp_basetype de ≠ AVP_TYPE_GROUPED → fd_msg_avp_setvalue de = 0 →
  m_de o = de → m_avp o = Some (AvpObj de v c) → m_value o = u → AvpValue.read de (f u) = Ok a →
  (_ ← write f; assignValue) o =
    (Ok tt, o <| m_value := f u |> <| m_avp := Some (AvpObj de (Some a) c) |>).
Proof.
  intros Hg Hs <- Ha <- Hr. unfold write, modify, mbind, M_bind.
  rewrite (assign_ok _ v c a); try done.
Qed.

Lemma octets_set bs de o v :
  avp_basetype de = AVP_TYPE_OCTETSTRING → fd_msg_avp_setvalue de = 0 →
  m_de o = de → m_avp o = Some (AvpObj de v []) →
  ∃ o', set_bytes bs o = (Ok tt, o') ∧ m_de o' = de ∧ m_value o' = AvpValue.write_os bs ∧
    m_avp o' = Some (filled de (AvpOctets de bs)).
Proof.
  intros Hb Hs Hd Ha. eexists. split.
  - apply (write_assigned _ de (m_value o) o (AvpOctets de bs) v []); try done; [by rewrite Hb|].
    unfold AvpValue.read. by rewrite Hb.
  - by destruct o.
Qed.

(** [set_chars] and the like assign the value once more. *)
Lemma octets_set_again bs de o v :
  avp_basetype de = AVP_TYPE_OCTETSTRING → fd_msg_avp_setvalue de = 0 →
  m_de o = de → m_avp o = Some (AvpObj de v []) →
  ∃ o', (_ ← set_bytes bs; assignValue) o = (Ok tt, o') ∧ m_avp o' = Some (filled de (AvpOctets de bs)).
Proof.
  intros Hb Hs Hd Ha. destruct (octets_set bs de o v Hb Hs Hd Ha) as (o'&E&Hd'&Hv'&Ha').
  eexists. split.
  - rewrite (bind_Ok _ _ _ _ _ E). apply (assign_ok o' (Some (AvpOctets de bs)) [] (AvpOctets de bs)); rewrite ?Hd'.
    + by rewrite Hb.
    + done.
    + done.
    + unfold AvpValue.read. by rewrite Hb, Hv'.
  - by destruct o'; cbn in *; subst.
Qed.

(** *** Numbers *)

Ltac number Hr E :=
  eapply reads_back_filled; [exact Hr|done| | |];
  [ eapply write_assigned with (v := None) (c := []);
    [by rewrite E|apply Hr|reflexivity|reflexivity|reflexivity|unfold AvpValue.read; rewrite E; reflexivity]
  | reflexivity |];
  cbn; unfold get; cbn.

Lemma u32_reads_back de msg v old :
  ready de → fresh de msg → avp_basetype de = AVP_TYPE_UNSIGNED32 → 0 <= v < 2 ^ 32 →
  reads_back de msg (set_u32 v) (λ o, get_u32 o old) (true, v).
Proof. intros Hr Hf E Hv. number Hr E. by rewrite u32_small. Qed.

Lemma i32_reads_back de msg v old :
  ready de → fresh de msg → avp_basetype de = AVP_TYPE_INTEGER32 → -(2 ^ 31) <= v < 2 ^ 31 →
  reads_back de msg (set_i32 v) (λ o, get_i32 o old) (true, v).
Proof.
  intros Hr Hf E Hv. number Hr E. do 2 f_equal. unfold i32, u32. rewrite Zplus_mod_idemp_l, Z.mod_small; lia.
Qed.

Lemma u64_reads_back de msg v old :
  ready de → fresh de msg → avp_basetype de = AVP_TYPE_UNSIGNED64 → 0 <= v < 2 ^ 64 →
  reads_back de msg (set_u64 v) (λ o, get_u64 o old) (true, v).
Proof.
  intros Hr Hf E Hv. number Hr E. do 2 f_equal. rewrite (u32_small (v / _)).
  - unfold u32. pose proof (Z.div_mod v (2 ^ 32)). lia.
  - split; [apply Z.div_pos|apply Z.div_lt_upper_bound]; lia.
Qed.

Lemma f32_reads_back de msg f old :
  ready de → fresh de msg → avp_basetype de = AVP_TYPE_FLOAT32 →
  reads_back de msg (set_f32 f) (λ o, get_f32 o old) (true, f).
Proof. intros Hr Hf E. by number Hr E. Qed.
Lemma f64_reads_back de msg f old :
  ready de → fresh de msg → avp_basetype de = AVP_TYPE_FLOAT64 →
  reads_back de msg (set_f64 f) (λ o, get_f64 o old) (true, f).
Proof. intros Hr Hf E. by number Hr E. Qed.

(** *** Octets *)

(** An object that was just made, and the AVP of a message it was filled for. *)
Definition made (de : avp_name) : t := mk de (Some (AvpObj de None [])) None AvpValue.zero 0 false.

Lemma octets_of_base de :
  avp_basetype de = AVP_TYPE_OCTETSTRING → derived_type de = None →
  Diameter.FDAvp.getDataType de = Diameter.FDAvp.DDTOctetString.
Proof. intros E D. unfold Diameter.FDAvp.getDataType. by rewrite D, E. Qed.

Lemma bytes_read_back de msg v data len :
  ready de → fresh de msg → avp_basetype de = AVP_TYPE_OCTETSTRING → derived_type de = None →
  (length v <= len)%nat →
  reads_back de msg (set_bytes v) (λ o, get_bytes o data len) (true, (memcpy data v, length v)).
Proof.
  intros Hr Hf E D Hl. destruct (octets_set v de (made de) None E (proj1 (proj2 Hr)) eq_refl eq_refl)
    as (o&Ho&_&_&Ha).
  eapply reads_back_filled; [done..|]. cbn. unfold get_bytes, get, Diameter.FDAvp.get_bytes. cbn.
  rewrite (octets_of_base _ E D). by rewrite decide_False by lia.
Qed.

Lemma chars_set de v :
  avp_basetype de = AVP_TYPE_OCTETSTRING → fd_msg_avp_setvalue de = 0 →
  Diameter.FDAvp.getDataType de ≠ Diameter.FDAvp.DDTAddress →
  ∃ o, set_chars v (made de) = (Ok tt, o) ∧ m_avp o = Some (filled de (AvpOctets de v)).
Proof.
  intros E Hs Hd. destruct (octets_set_again v de (made de) None E Hs eq_refl eq_refl) as (o&Ho&Ha).
  exists o. split; [|done]. rewrite <-Ho. unfold set_chars. unfold gets, mbind at 1, M_bind at 1.
  cbn [made m_de]. by destruct (Diameter.FDAvp.getDataType de).
Qed.

(** The types that [get(std::string &)] knows. *)
Definition textual (de : avp_name) : Prop :=
  Diameter.FDAvp.getDataType de = Diameter.FDAvp.DDTUTF8String ∨
  Diameter.FDAvp.getDataType de = Diameter.FDAvp.DDTDiameterIdentity ∨
  Diameter.FDAvp.getDataType de = Diameter.FDAvp.DDTDiameterURI.

Lemma string_reads_back uninit de msg s old :
  ready de → fresh de msg → avp_basetype de = AVP_TYPE_OCTETSTRING → textual de →
  reads_back de msg (set_string s) (λ o, get_string uninit o old) (true, s).
Proof.
  intros Hr Hf E D. destruct (chars_set de (bytes_of_string s) E) as (o&Ho&Ha).
  - apply Hr.
  - by destruct D as [->|[->| ->]].
  - eapply reads_back_filled; [done..|]. cbn. unfold get_string, get. cbn.
    by destruct D as [->|[->| ->]]; cbn; rewrite string_of_bytes_of_string.
Qed.

(** *** Times *)

Lemma time_octets_length x : length (time_octets x) = 4%nat.
Proof. unfold time_octets. by rewrite length_rev, le_bytes_length. Qed.
Lemma time_octets_value x : le_value (rev (take 4 (time_octets x))) = u32 x.
Proof.
  rewrite take_ge by (by rewrite time_octets_length). unfold time_octets.
  by rewrite rev_involutive, le_value_bytes.
Qed.

#[local] Arguments time_octets : simpl never.
Definition is_time (de : avp_name) : Prop :=
  avp_basetype de = AVP_TYPE_OCTETSTRING ∧ derived_type de = Some "Time"%string.
Lemma time_type de : is_time de → Diameter.FDAvp.getDataType de = Diameter.FDAvp.DDTTime.
Proof. intros [_ D]. unfold Diameter.FDAvp.getDataType. by rewrite D. Qed.

Lemma buffered_octets bs de :
  avp_basetype de = AVP_TYPE_OCTETSTRING → fd_msg_avp_setvalue de = 0 →
  ∃ o, (_ ← new_buffer; _ ← set_bytes bs; assignValue) (made de) = (Ok tt, o) ∧
    m_avp o = Some (filled de (AvpOctets de bs)).
Proof. intros E Hs. by apply (octets_set_again bs de (mk de (Some (AvpObj de None [])) None AvpValue.zero 1 false) None). Qed.

(** Seconds since 1970 that fit the 32 bits of a time, which start in 1900. *)
Lemma time_reads_back de msg v old :
  ready de → fresh de msg → is_time de → - NTP_EPOCH <= v < 2 ^ 32 - NTP_EPOCH →
  reads_back de msg (set_i64 v) (λ o, get_i64 o old) (true, v).
Proof.
  intros Hr Hf D Hv. pose proof (time_type _ D) as Dt.
  destruct (buffered_octets (time_octets (u32 (u32 v + NTP_EPOCH))) de (proj1 D)) as (o&Ho&Ha); [apply Hr|].
  eapply reads_back_filled; [done..| |done|].
  - rewrite <-Ho. unfold set_i64. unfold gets, mbind at 1, M_bind at 1. cbn [made m_de]. by rewrite Dt.
  - cbn. unfold get_i64, get. cbn [m_avphdr FDAvp_of obj_value filled fmap option_fmap option_map m_de].
    rewrite Dt. cbn [Diameter.FDAvp.octets mbind outcome_bind]. rewrite time_octets_length, time_octets_value.
    cbn. do 2 f_equal. unfold u32. rewrite Zplus_mod_idemp_l, Zmod_mod. unfold NTP_EPOCH in *.
    rewrite Z.mod_small; lia.
Qed.

Lemma whole_seconds s : STime.setNTPTime (STime.mk_ntp s 0) = Ok (STime.mk (u32 (s - 0x83AA7E80)) 0).
Proof. unfold STime.setNTPTime. cbn [STime.second STime.fraction]. reflexivity. Qed.

(** An [STime] keeps its seconds modulo 2^32. *)
Lemma stime_reads_back de msg v n old :
  ready de → fresh de msg → is_time de → STime.getNTPTime v = Ok n →
  reads_back de msg (set_time v) (λ o, get_time o old) (true, STime.mk (u32 (STime.tv_sec v)) 0).
Proof.
  intros Hr Hf D Hn. pose proof (time_type _ D) as Dt.
  destruct (buffered_octets (time_octets (STime.second n)) de (proj1 D)) as (o&Ho&Ha); [apply Hr|].
  eapply reads_back_filled; [done..| |done|].
  - rewrite <-Ho. unfold set_time. unfold gets, mbind at 1, M_bind at 1. cbn [made m_de]. rewrite Dt.
    unfold new_buffer, modify, lift, mbind, M_bind. by rewrite Hn.
  - cbn. unfold get_time, get, Diameter.FDAvp.get_time.
    cbn [m_avphdr FDAvp_of obj_value filled fmap option_fmap option_map m_de avp_de].
    rewrite Dt. cbn [Diameter.FDAvp.octets mbind outcome_bind]. rewrite time_octets_length, time_octets_value.
    cbn [Nat.ltb Nat.leb]. rewrite whole_seconds. cbn. do 3 f_equal. unfold STime.getNTPTime in Hn.
    destruct (STime.uint32_of_double _); [|done..]. injection Hn as <-. cbn. unfold u32.
    rewrite !Zminus_mod_idemp_l. f_equal. lia.
Qed.

(** *** Addresses *)

Definition is_address (de : avp_name) : Prop :=
  avp_basetype de = AVP_TYPE_OCTETSTRING ∧ derived_type de = Some "Address"%string.
Lemma address_type de : is_address de → Diameter.FDAvp.getDataType de = Diameter.FDAvp.DDTAddress.
Proof. intros [_ D]. unfold Diameter.FDAvp.getDataType. by rewrite D. Qed.

Lemma taken_back (s data : bytes) n : length s = n → take n (memcpy data (s ++ [0])) = s.
Proof.
  intros <-. unfold memcpy. rewrite <-(assoc_L (++)), take_app_le by done. by rewrite take_ge.
Qed.

Lemma address_read uninit de os str old f addr :
  is_address de → get_address (FDAvp_of de (Some (filled de (AvpOctets de os)))) = Ok (true, Some (f, addr)) →
  str = (match f with AF_INET => inet_ntop4 addr | AF_INET6 => inet_ntop6 addr end) →
  (String.length str < INET6_ADDRSTRLEN)%nat →
  get_string uninit (FDAvp_of de (Some (filled de (AvpOctets de os)))) old = Ok (true, str).
Proof.
  intros D Hg -> Hl. pose proof (address_type _ D) as Dt. unfold get_string, get_chars, get at 1.
  cbn [m_avphdr FDAvp_of obj_value filled fmap option_fmap option_map m_de]. rewrite Dt.
  unfold get at 1. cbn [m_avphdr FDAvp_of obj_value filled fmap option_fmap option_map]. fold (filled de (AvpOctets de os)).
  change (mk de _ _ _ _ _) with (FDAvp_of de (Some (filled de (AvpOctets de os)))). rewrite Hg.
  cbn [mbind outcome_bind].
  set (s := match f with AF_INET => _ | AF_INET6 => _ end) in *.
  rewrite (proj2 (Nat.leb_gt _ _)) by (by rewrite bytes_of_string_length).
  cbn. by rewrite taken_back, string_of_bytes_of_string.
Qed.

(** A text that [inet_pton] reads as an address of either family. *)
Definition address_of (s : string) (f : family) (addr : bytes) : Prop :=
  match f with
  | AF_INET => inet_pton4 (upto_nul s) = Some addr ∧ length addr = 4%nat
  | AF_INET6 => inet_pton4 (upto_nul s) = None ∧ inet_pton6 (upto_nul s) = Some addr ∧ length addr = 16%nat
  end.
Definition text_of (f : family) (addr : bytes) : string :=
  match f with AF_INET => inet_ntop4 addr | AF_INET6 => inet_ntop6 addr end.
Definition address_octets (f : family) (addr : bytes) : bytes :=
  match f with AF_INET => [0; 1] ++ addr | AF_INET6 => [0; 2] ++ addr end.

Lemma address_set de s f addr :
  is_address de → fd_msg_avp_setvalue de = 0 → address_of s f addr →
  ∃ o, set_string s (made de) = (Ok tt, o) ∧ m_avp o = Some (filled de (AvpOctets de (address_octets f addr))).
Proof.
  intros D Hs Ha. destruct (buffered_octets (address_octets f addr) de (proj1 D) Hs) as (o&Ho&Hf).
  exists o. split; [|done]. rewrite <-Ho. unfold set_string, set_chars.
  unfold gets, mbind at 1, M_bind at 1. cbn [made m_de].
  rewrite (address_type _ D), string_of_bytes_of_string.
  destruct f; cbn in Ha; [destruct Ha as [-> Hl]|destruct Ha as (->&->&Hl)]; rewrite take_ge by lia; done.
Qed.

Lemma address_reads_back uninit de msg s old f addr :
  ready de → fresh de msg → is_address de → address_of s f addr →
  (String.length (text_of f addr) < INET6_ADDRSTRLEN)%nat →
  reads_back de msg (set_string s) (λ o, get_string uninit o old) (true, text_of f addr).
Proof.
  intros Hr Hf D Ha Hl. destruct (address_set de s f addr D (proj1 (proj2 Hr)) Ha) as (o&Ho&Hv).
  eapply reads_back_filled; [done..|]. eapply (address_read _ _ _ _ _ f addr); [done| |by destruct f|done].
  unfold get_address, get. cbn. destruct f; cbn in Ha; [destruct Ha as [_ E]|destruct Ha as (_&_&E)];
    cbn; by rewrite E.
Qed.


(** *** What goes wrong *)

(** A 64-bit signed integer for an AVP that is not a time is written into the object
    and never given to the AVP: the message has the AVP without a value. *)
Lemma i64_added_without_value de msg v old :
  ready de → fresh de msg → Diameter.FDAvp.getDataType de ≠ Diameter.FDAvp.DDTTime →
  add_value de (set_i64 v) msg = Ok (msg ++ [AvpObj de None []]) ∧
  message_get de (msg ++ [AvpObj de None []]) (λ o, get_i64 o old) = UB.
Proof.
  intros (Hn&Hs&Ha) Hf Hd. split.
  - unfold add_value, FDAvp_ctor. rewrite Hn. cbn. unfold set_i64, mbind, M_bind, gets. cbn.
    destruct (Diameter.FDAvp.getDataType de); try done;
      cbn; unfold addTo, gets, id, mbind, M_bind; cbn; by rewrite Ha.
  - unfold message_get, findAVP.
    rewrite (proj2 (list_find_Some _ _ (length msg) (AvpObj de None []))); [done|].
    split_and!; [by rewrite lookup_app_r, Nat.sub_diag by lia|done|].
    intros j y Hj Hl. rewrite lookup_app_l in Hj by done. exact (proj1 (Forall_lookup _ _) Hf _ _ Hj).
Qed.

(** Asked for the text of a type that has none, [get(char *, size_t &)] says yes and
    leaves the buffer and its length as they were. *)
Lemma chars_of_no_text o a data len :
  m_avphdr o = Some (Some a) → Diameter.FDAvp.getDataType (m_de o) = Diameter.FDAvp.DDTU32 →
  get_chars o data len = Ok (true, (data, len)).
Proof. intros Ha Hd. unfold get_chars, get. by rewrite Ha, Hd. Qed.

(** An address of one octet is read past its end. *)
Lemma short_address_undefined o de b :
  m_avphdr o = Some (Some (AvpOctets de [b])) → get_address o = UB.
Proof. intros Ha. unfold get_address, get. by rewrite Ha. Qed.

(** *** Diameter's messages *)

(** The texts and numbers of Diameter's messages are what these objects add. *)
Lemma string_added de msg s :
  ready de → avp_basetype de = AVP_TYPE_OCTETSTRING →
  Diameter.FDAvp.getDataType de ≠ Diameter.FDAvp.DDTAddress →
  add_value de (set_string s) msg = Ok (msg ++ [filled de (FDMessage.string_avp de s)]).
Proof.
  intros Hr E D. destruct (chars_set de (bytes_of_string s) E (proj1 (proj2 Hr)) D) as (o&Ho&Ha).
  unfold FDMessage.string_avp. rewrite E. by eapply add_filled.
Qed.
Lemma number_added de msg v :
  ready de → avp_basetype de = AVP_TYPE_UNSIGNED32 → 0 <= v < 2 ^ 32 →
  add_value de (set_u32 v) msg = Ok (msg ++ [filled de (AvpU32 de v)]).
Proof.
  intros Hr E Hv. eapply add_filled; [done| |].
  - eapply write_assigned with (v := None) (c := []); [by rewrite E|apply Hr|done|done|done|].
    unfold AvpValue.read. by rewrite E.
  - cbn. by rewrite u32_small.
Qed.

End Facts.
End FDAvpFacts.

(** ** Who frees a message *)

Module Messages.

(** The messages by number.  [freed]: handed to [fd_msg_free]; [sent]: taken by
    [fd_msg_send], which then owns them. *)
Record fd := mk_fd { next : nat; freed : list nat; sent : list nat }.

(** What freeDiameter answers: the header of a message ([None] on an error) with its
    request bit, and the results of making and of sending it. *)
Class MsgCalls := {
  msg_is_request : nat → option bool;
  fd_msg_new : nat → Z;
  fd_msg_send_ret : nat → Z }.

(** [FDMessage]. *)
Record message := mk { m_msg : option nat; m_msgdel : bool }.

Section Objects.
Context `{MsgCalls}.

(** A message that is made: its number is the next. *)
Definition make : M fd nat := λ w,
  if fd_msg_new (next w) =? 0 then (Ok (next w), w <| next ::= S |>) else (Throw FDException, w).

(** [~FDMessage]. *)
Definition FDMessage_dtor (m : message) : M fd unit :=
  match m_msg m with
  | Some id => if m_msgdel m then modify (λ w, w <| freed ::= cons id |>) else mret tt
  | None => mret tt
  end.

(** [FDMessage(de, pmsg)]. *)
Definition FDMessage_ctor (pmsg : option nat) : M fd message :=
  match pmsg with
  | Some id => mret (mk (Some id) true)
  | None => id ← make; mret (mk (Some id) true)
  end.

(** [FDMessageRequest(cde, pmsg)]: a command entry that is an answer's throws, once
    the base object has been made. *)
Definition FDMessageRequest_ctor (entry_is_answer : bool) (pmsg : option nat) : M fd message :=
  m ← FDMessage_ctor pmsg;
  if entry_is_answer then _ ← FDMessage_dtor m; throw FDException else mret m.

(** [FDMessageAnswer(req)]: the answer, and the request, whose message is not its
    own any more. *)
Definition FDMessageAnswer_ctor (req : message) : M fd (message * message) :=
  match m_msg req with
  | Some id =>
      match msg_is_request id with
      | Some true => a ← make; mret (mk (Some a) false, req <| m_msgdel := false |>)
      | Some false | None => throw FDException
      end
  | None => throw FDException
  end.

(** [sendRequest], [sendAnswer]: a message that was sent leaves a null pointer. *)
Definition send (m : message) : M fd message :=
  match m_msg m with
  | Some id =>
      if fd_msg_send_ret id =? 0 then
        _ ← modify (λ w, w <| sent ::= cons id |>); mret (m <| m_msg := None |>)
      else throw FDException
  | None => throw FDException
  end.

(** ** A handler *)

(** What a handler does with the request it is given and with the answer it makes. *)
Inductive action := MakeAnswer | SendAnswer | DropAnswer | DropRequest.

(** [deleted]: the request object is gone. *)
Record handler := mk_handler { world : fd; request : option message; answer : option message }.

(** A second answer object is left aside; making an answer for a request that was
    deleted reads a deleted object. *)
Definition act (a : action) : M handler unit :=
  s ← gets id;
  match a, request s, answer s with
  | MakeAnswer, Some r, None =>
      '(x, r') ← zoom world (λ w s, s <| world := w |>) (FDMessageAnswer_ctor r);
      modify (λ s, s <| request := Some r' |> <| answer := Some x |>)
  | MakeAnswer, None, _ => undefined
  | MakeAnswer, Some _, Some _ => mret tt
  | SendAnswer, _, Some x =>
      x' ← zoom world (λ w s, s <| world := w |>) (send x);
      modify (λ s, s <| answer := Some x' |>)
  | DropAnswer, _, Some x =>
      _ ← zoom world (λ w s, s <| world := w |>) (FDMessage_dtor x);
      modify (λ s, s <| answer := None |>)
  | DropRequest, Some r, _ =>
      _ ← zoom world (λ w s, s <| world := w |>) (FDMessage_dtor r);
      modify (λ s, s <| request := None |>)
  | _, _, _ => mret tt
  end.

Definition run (l : list action) : M handler unit := for_each l act.

Definition EINVAL : Z := 22.
(** [FDApplication::commandcb] for message 0: what it returns, and what is left when
    it does.  The pointer of freeDiameter is cleared in any case but the early ones. *)
Definition commandcb (entry_is_answer : bool) (process : list action) : M handler Z :=
  match msg_is_request 0%nat with
  | None | Some false => mret EINVAL
  | Some true =>
      req ← zoom world (λ w s, s <| world := w |>) (FDMessageRequest_ctor entry_is_answer (Some 0%nat));
      _ ← modify (λ s, s <| request := Some req |>);
      _ ← run process;
      mret 0
  end.

(** [FDMessageRequest::anscb]: the answer that came back is freed when the object for
    it goes, unless [processAnswer] throws: then the request stays as well. *)
Definition anscb (req : message) (ans : nat) (processAnswer : M fd unit) : M fd unit :=
  m ← FDMessage_ctor (Some ans);
  _ ← catch processAnswer (λ e, _ ← FDMessage_dtor m; throw e);
  _ ← FDMessage_dtor req;
  FDMessage_dtor m.

End Objects.

(** *** Every message is released at most once *)

Section Facts.
Context `{MsgCalls}.

Definition start : handler := mk_handler (mk_fd 1 [] []) None None.
(** Once the request object is made. *)
Definition received : handler := mk_handler (mk_fd 1 [] []) (Some (mk (Some 0%nat) true)) None.

(** Message 0 is the request's, and is freed at most by the request object; the
    others are answers, which are only ever sent. *)
Record inv (s : handler) : Prop := {
  inv_next : (1 <= next (world s))%nat;
  inv_freed : freed (world s) = [] ∨ freed (world s) = [0%nat];
  inv_sent : NoDup (sent (world s)) ∧ Forall (λ i, 0 < i < next (world s))%nat (sent (world s));
  inv_request : ∀ r, request s = Some r →
    m_msg r = Some 0%nat ∧ freed (world s) = [] ∧ (m_msgdel r = true ↔ next (world s) = 1%nat);
  inv_gone : request s = None → (freed (world s) = [0%nat] ↔ next (world s) = 1%nat);
  inv_answer : ∀ x, answer s = Some x → m_msgdel x = false ∧
    ∀ i, m_msg x = Some i → (0 < i < next (world s))%nat ∧ i ∉ sent (world s) }.

Lemma inv_received : inv received.
Proof. split; cbn; try done; [by left|by split; constructor|by intros r [= <-]]. Qed.

Lemma inv_make s r :
  inv s → request s = Some r → answer s = None →
  wp (FDMessageAnswer_ctor r) (λ o w,
    match o with
    | Ok (x, r') => inv (s <| world := w |> <| request := Some r' |> <| answer := Some x |>)
    | _ => inv (s <| world := w |>)
    end) (world s).
Proof.
  intros [Hn Hf [Hs Hs'] Hr Hg Ha] E E'. destruct (Hr _ E) as (Hm&Hf0&Hd).
  unfold FDMessageAnswer_ctor. rewrite Hm. destruct (msg_is_request 0%nat) as [[]|].
  2-3: wp_step; destruct s; by split.
  unfold wp, mbind, M_bind, make. destruct (fd_msg_new _ =? 0); [|destruct s; by split].
  destruct s as [[n f st] rq an]; cbn in *. subst. split; cbn; try done; [lia|..].
  - split; [done|]. eapply Forall_impl; [exact Hs'|]. cbn. lia.
  - intros r' [= <-]. cbn. split_and!; [done..|]. split; [done|lia].
  - intros x [= <-]. split; [done|]. intros i [= <-]. split; [lia|]. intros Hi.
    rewrite Forall_forall in Hs'. specialize (Hs' _ Hi). lia.
Qed.

Lemma inv_send s x :
  inv s → answer s = Some x →
  wp (send x) (λ o w,
    match o with
    | Ok x' => inv (s <| world := w |> <| answer := Some x' |>)
    | _ => inv (s <| world := w |>)
    end) (world s).
Proof.
  intros Hi E. pose proof Hi as [Hn Hf [Hs Hs'] Hr Hg Ha]. destruct (Ha _ E) as [Hd Hx].
  unfold send. destruct (m_msg x) as [i|]; [|wp_step; by destruct s].
  destruct (fd_msg_send_ret i =? 0); [|wp_step; by destruct s]. destruct (Hx i eq_refl) as [Hlt Hnew].
  wp_steps. destruct s as [[n f st] rq an]; cbn in *. split; cbn; try done.
  - split; [by constructor|]. by constructor.
  - intros x' [= <-]. cbn. by split.
Qed.

Lemma inv_drop_answer s x :
  inv s → answer s = Some x →
  wp (FDMessage_dtor x) (λ o w, o = Ok tt ∧ inv (s <| world := w |> <| answer := None |>)) (world s).
Proof.
  intros [Hn Hf Hs Hr Hg Ha] E. destruct (Ha _ E) as [Hd _]. unfold FDMessage_dtor. rewrite Hd.
  destruct (m_msg x) as [i|]; wp_step; destruct s as [[n f st] rq an]; cbn in *; split; [done|by split|done|by split].
Qed.

Lemma inv_drop_request s r :
  inv s → request s = Some r →
  wp (FDMessage_dtor r) (λ o w, o = Ok tt ∧ inv (s <| world := w |> <| request := None |>)) (world s).
Proof.
  intros [Hn Hf Hs Hr Hg Ha] E. destruct (Hr _ E) as (Hm&Hf0&Hd). unfold FDMessage_dtor. rewrite Hm.
  destruct s as [[n f st] rq an]; cbn in *. subst f.
  destruct (m_msgdel r); wp_step; cbn; split; [done|split; cbn; try done; auto|done|split; cbn; try done; auto].
  - intros _. by rewrite <-Hd.
  - intros _. split; [done|]. by intros ?%Hd.
Qed.

Lemma act_keeps_inv a s : inv s → wp (act a) (λ _ s', inv s') s.
Proof.
  intros Hi. unfold act. wp_step. wp_step. unfold id. cbn [keep_fault].
  destruct a, (request s) as [r|] eqn:Er, (answer s) as [x|] eqn:Ex; try by wp_steps.
  all: wp_step; wp_step.
  1: eapply wp_mono; [by apply inv_make|].
  2-3: eapply wp_mono; [by apply inv_send|].
  4-5: eapply wp_mono; [by apply (inv_drop_answer _ x)|].
  6-7: eapply wp_mono; [by apply (inv_drop_request _ r)|].
  all: intros [] w Hw; cbn [keep_fault] in *; try done.
  1: destruct a; apply wp_modify; exact Hw.
  all: try (destruct Hw as [[=] Hw]).
  all: try (apply wp_modify); exact Hw.
Qed.

Lemma inv_run l s : inv s → wp (run l) (λ _ s', inv s') s.
Proof. intros Hi. apply wp_for_each; [intros; by apply act_keeps_inv|done]. Qed.

Lemma received_request :
  zoom world (λ w s, s <| world := w |>) (FDMessageRequest_ctor false (Some 0%nat)) start =
    (Ok (mk (Some 0%nat) true), start).
Proof. done. Qed.

Lemma inv_commandcb process :
  msg_is_request 0%nat = Some true → wp (commandcb false process) (λ _ s', inv s') start.
Proof.
  intros Hr. unfold commandcb. rewrite Hr. apply wp_bind. unfold wp at 1. rewrite received_request.
  cbn [keep_fault]. wp_step. wp_step. cbn [keep_fault]. wp_step.
  eapply wp_mono; [apply inv_run, inv_received|]. intros [] s' Hs'; cbn [keep_fault]; [by wp_step|done..].
Qed.


(** An answer that is made and not sent: nothing is released. *)
Lemma unsent_answer_lost :
  msg_is_request 0%nat = Some true → fd_msg_new 1%nat = 0 →
  commandcb false [MakeAnswer; DropAnswer; DropRequest] start =
    (Ok 0, mk_handler (mk_fd 2 [] []) None None).
Proof.
  intros Hr Hn. unfold commandcb. rewrite Hr. cbn. unfold mbind, M_bind. cbn.
  unfold act, gets, zoom, FDMessageAnswer_ctor, make, mbind, M_bind, id. cbn. rewrite Hr. cbn. by rewrite Hn.
Qed.

(** A request of the HSS's own: sent, and its answer freed once when it has been
    processed. *)
Lemma own_request_released w m m' w1 w2 w3 ans processAnswer :
  FDMessageRequest_ctor false None w = (Ok m, w1) → send m w1 = (Ok m', w2) →
  processAnswer w2 = (Ok tt, w3) →
  sent w2 = next w :: sent w ∧ anscb m' ans processAnswer w2 = (Ok tt, w3 <| freed ::= cons ans |>).
Proof.
  unfold FDMessageRequest_ctor, FDMessage_ctor, make, mbind, M_bind.
  destruct (fd_msg_new (next w) =? 0); [|done]. intros [= <- <-]. unfold send. cbn.
  destruct (fd_msg_send_ret _ =? 0); [|done]. unfold modify, mbind, M_bind, mret, M_ret.
  intros [= <- <-] Hp. split; [done|]. unfold anscb, catch, mbind, M_bind. cbn. by rewrite Hp.
Qed.

End Facts.
End Messages.

(** ** Applications *)

Module Application.

(** What the dictionary has of a command. *)
Record dict_cmd_data := mk_cmd { cmd_name : string; cmd_code : Z; cmd_flag_val : Z }.
Definition CMD_FLAG_REQUEST : Z := 128.

(** The look-ups of [FDDictionaryEntryCommand], and the result of
    [fd_disp_register]. *)
Class Commands := {
  cmd_by_name : string → option dict_cmd_data;
  cmd_by_code : Z → option dict_cmd_data;
  cmd_answer : dict_cmd_data → option dict_cmd_data;
  fd_disp_register : dict_cmd_data → Z }.

Section Objects.
Context `{Commands}.

Definition found (c : option dict_cmd_data) : outcome dict_cmd_data :=
  match c with Some c => mret c | None => Throw FDException end.
(** The three constructors. *)
Definition FDDictionaryEntryCommand_name (name : string) : outcome dict_cmd_data := found (cmd_by_name name).
Definition FDDictionaryEntryCommand_code (code : Z) : outcome dict_cmd_data := found (cmd_by_code code).
Definition FDDictionaryEntryCommand_answer (req : dict_cmd_data) : outcome dict_cmd_data :=
  found (cmd_answer req).
Definition isRequest (c : dict_cmd_data) : bool := FLAG_IS_SET (cmd_flag_val c) CMD_FLAG_REQUEST.
Definition isAnswer (c : dict_cmd_data) : bool := negb (FLAG_IS_SET (cmd_flag_val c) CMD_FLAG_REQUEST).

(** [FDApplication::registerHandler], on [m_cmds]. *)
Definition registerHandler (cmd : dict_cmd_data) : M (list dict_cmd_data) unit :=
  cmds ← gets id;
  if existsb (λ c, cmd_code c =? cmd_code cmd) cmds then throw FDException
  else if fd_disp_register cmd =? 0 then modify (λ l, l ++ [cmd])
  else throw FDException.

(** At most one handler for each command code, whatever is registered and refused. *)
Lemma one_handler_per_code cmd cmds :
  NoDup (cmd_code <$> cmds) → wp (registerHandler cmd) (λ _ l, NoDup (cmd_code <$> l)) cmds.
Proof.
  intros Hn. unfold registerHandler. wp_step. wp_step. cbn [keep_fault]. unfold id.
  destruct (existsb _ _) eqn:E; [by wp_step|]. destruct (_ =? 0); wp_step; [|done].
  rewrite fmap_app. apply NoDup_app. split_and!; [done| |apply NoDup_singleton].
  intros c Hc ->%list_elem_of_singleton. apply list_elem_of_fmap in Hc as (x&Hx&Hin).
  apply not_true_iff_false in E. apply E, existsb_exists. exists x.
  split; [by apply list_elem_of_In|]. by apply Z.eqb_eq.
Qed.

End Objects.
End Application.

(** ** Sessions *)

Module FDSession.

(** The session once it is made: its identifier. *)
Definition t : Type := option string.

(** The results of [fd_sess_new], with the identifier of the new session, and of
    [fd_msg_sess_set]. *)
Class SessCalls := {
  fd_sess_new : option string;
  fd_sess_getsid : Z;
  fd_msg_sess_set : Z }.

Section Objects.
Context `{FreeDiameter, FdCalls, SessCalls}.

(** [init]: a session whose identifier cannot be read stays, with an empty one. *)
Definition init : M t unit :=
  s ← gets id;
  match s with
  | Some _ => mret tt
  | None =>
      match fd_sess_new with
      | None => throw FDException
      | Some sid =>
          if fd_sess_getsid =? 0 then modify (λ _, Some sid)
          else _ ← modify (λ _, Some EmptyString); throw FDException
      end
  end.

Definition getSessionId : M t string :=
  _ ← init;
  s ← gets id;
  match s with Some sid => mret sid | None => undefined end.

(** [addSessionId]. *)
Definition addSessionId (de : avp_name) (msg : list FDAvp.avp_obj) : M t (list FDAvp.avp_obj) :=
  sid ← getSessionId;
  msg ← lift (FDAvp.add_value de (FDAvp.set_string sid) msg);
  if fd_msg_sess_set =? 0 then mret msg else throw FDException.

(** Every message of a session gets the same identifier. *)
Lemma session_id_stable s sid s' : getSessionId s = (Ok sid, s') → getSessionId s' = (Ok sid, s').
Proof.
  unfold getSessionId, init, gets, id, mbind, M_bind. destruct s as [x|]; cbn; [by intros [= <- <-]|].
  destruct fd_sess_new as [y|]; [|done]. destruct (fd_sess_getsid =? 0); [|done]. cbn. by intros [= <- <-].
Qed.

End Objects.
End FDSession.

(** ** At concrete values *)

Module FdWitness.
Import WitnessFreeDiameter FDAvp.

(** A dictionary with a time, an address, a text and a number. *)
Definition typed_stack : FreeDiameter := {|
  dict_known _ := true;
  avp_basetype de :=
    if bool_decide (de ∈ ["Expiration-Date"; "MIP-Home-Agent-Address"; "User-Name"]%string)
    then AVP_TYPE_OCTETSTRING else AVP_TYPE_UNSIGNED32;
  derived_type de :=
    if String.eqb de "Expiration-Date" then Some "Time"%string
    else if String.eqb de "MIP-Home-Agent-Address" then Some "Address"%string
    else if String.eqb de "User-Name" then Some "UTF8String"%string
    else None;
  fd_origin := fd_origin (FreeDiameter := plain_stack);
  fd_msg_send _ := 0; fd_msg_avp_add _ := 0;
  ER_DIAMETER_SUCCESS := 2001; ER_DIAMETER_INVALID_AVP_VALUE := 5004; ER_DIAMETER_MISSING_AVP := 5005;
  fd_session_id := fd_session_id (FreeDiameter := plain_stack);
  octets_as_u32 _ := 0;
  inet_ntop4 _ := "192.0.2.1"; inet_ntop6 _ := "2001:db8::1";
  inet_pton4 s := if String.eqb s "192.0.2.1" then Some [192; 0; 2; 1] else None;
  inet_pton6 _ := None;
  json_parse _ := None; json_write _ := EmptyString;
  fd_zone := fixed_zone 0; fd_now := 0 |}.
#[local] Existing Instance typed_stack | 0.
#[local] Instance working : FdCalls :=
  {| fd_msg_avp_new _ := 0; fd_msg_avp_setvalue _ := 0; fd_avp_add _ := 0; search_missing := 0 |}.


#[local] Instance network : Messages.MsgCalls :=
  {| Messages.msg_is_request i := Some (Nat.eqb i 0); Messages.fd_msg_new _ := 0;
     Messages.fd_msg_send_ret _ := 0 |}.

End FdWitness.
