(* ===== verification/FdJson.v ===== *)
(** * The JSON to AVP bridge

    Models util/src/fdjson.cpp: a JSON text becomes AVPs of a message
    ([fdJsonAddAvps]) and the AVPs of a message become a JSON text
    ([fdJsonGetJSON]); the look-up of an access point in a subscription. *)

From S2P Require Import Prelude Calendar Json Diameter.
#[local] Open Scope Z_scope.

Definition FDJSON_SUCCESS : Z := 0.
Definition FDJSON_JSON_PARSING_ERROR : Z := 1.
Definition FDJSON_EXCEPTION : Z := 2.

(** What [fdJsonAddAvps] does with a JSON text: its return value, or the
    exception that leaves it; whether it called its error function; the AVPs it
    added. *)
Record json_result := mk_json { json_ret : outcome Z; json_errfunc : bool; json_avps : message }.

Module FdJson.

Inductive AvpDataType :=
  | ADTUnknown | ADTOctetString | ADTI32 | ADTI64 | ADTU32 | ADTU64 | ADTF32 | ADTF64
  | ADTGrouped | ADTAddress | ADTTime | ADTUTF8String | ADTDiameterIdentity
  | ADTDiameterURI | ADTEnumerated | ADTIPFilterRule.

(** *** Hexadecimal strings *)

Definition ISHEXDIGIT (x : Z) : bool :=
  ((48 <=? x) && (x <=? 57)) || ((97 <=? x) && (x <=? 102)) || ((65 <=? x) && (x <=? 70)).
Definition HEX2BIN (x : Z) : Z :=
  if (48 <=? x) && (x <=? 57) then x - 48
  else if (97 <=? x) && (x <=? 102) then x - 97 + 10
  else if (65 <=? x) && (x <=? 70) then x - 65 + 10 else 15.

Definition isHexString (s : bytes) : bool :=
  if negb (Nat.even (length s)) then false
  else if (length s <? 2)%nat then false
  else match s with
       | c0 :: c1 :: rest =>
           (c0 =? 48) && ((c1 =? 120) || (c1 =? 88)) && forallb ISHEXDIGIT rest
       | _ => false
       end.

(** The loop that fills the buffer from the digits after the prefix. *)
Fixpoint unhex (s : bytes) : bytes :=
  match s with
  | hi :: lo :: s' => u8 (Z.shiftl (HEX2BIN hi) 4 + HEX2BIN lo) :: unhex s'
  | _ => []
  end.

Definition LOWERNIBBLE (x : Z) : Z := Z.land x 15.
Definition UPPERNIBBLE (x : Z) : Z := LOWERNIBBLE (Z.shiftr x 4).
Definition hexDigit (x : Z) : Z := nth (Z.to_nat x) (bytes_of_string "0123456789ABCDEF") 0.
Definition fdJsonBinaryToHex (buffer : bytes) : bytes :=
  [48; 120] ++ flat_map (λ b, [hexDigit (UPPERNIBBLE b); hexDigit (LOWERNIBBLE b)]) buffer.

(** The two exceptions of the file, and undefined behaviour. *)
Inductive failure := RuntimeInfo | RuntimeError | Undefined.
#[export] Instance failure_eq_dec : EqDecision failure.
Proof. solve_decision. Defined.

(** What an addition did: the AVPs added, whether the error function was called,
    and what stopped it. *)
Record added := mk_added { avps : message; errors : bool; stopped : option failure }.
Definition stop (f : failure) : added := mk_added [] false (Some f).
Definition nothing : added := mk_added [] false None.

(** One addition after another. *)
Definition then_ (a : added) (b : unit → added) : added :=
  match stopped a with
  | Some _ => a
  | None => let b := b tt in
            mk_added (avps a ++ avps b) (errors a || errors b) (stopped b)
  end.
(** [catch (runtimeInfo& exi) { errfunc(exi.what()); }]. *)
Definition catch_info (a : added) : added :=
  match stopped a with
  | Some RuntimeInfo => mk_added (avps a) true None
  | _ => a
  end.

Section FdJson.
Context `{FreeDiameter}.

(** [AvpDictionaryEntry::init]: an unknown derived type counts as its base. *)
Definition base_data_type (name : avp_name) : AvpDataType :=
  match avp_basetype name with
  | AVP_TYPE_GROUPED => ADTGrouped
  | AVP_TYPE_INTEGER32 => ADTI32
  | AVP_TYPE_INTEGER64 => ADTI64
  | AVP_TYPE_UNSIGNED32 => ADTU32
  | AVP_TYPE_UNSIGNED64 => ADTU64
  | AVP_TYPE_FLOAT32 => ADTF32
  | AVP_TYPE_FLOAT64 => ADTF64
  | AVP_TYPE_OCTETSTRING => ADTOctetString
  end.
Definition data_type (name : avp_name) : AvpDataType :=
  match derived_type name with
  | None => base_data_type name
  | Some t =>
      if String.eqb t "Enumerated" then ADTEnumerated
      else if String.eqb t "Time" then ADTTime
      else if String.eqb t "Address" then ADTAddress
      else if String.eqb t "UTF8String" then ADTUTF8String
      else if String.eqb t "DiameterIdentity" then ADTDiameterIdentity
      else if String.eqb t "DiameterURI" then ADTDiameterURI
      else if String.eqb t "IPFilterRule" then ADTIPFilterRule
      else base_data_type name
  end.

(** [AVP::addTo]. *)
Definition addTo (a : avp) : added :=
  if fd_msg_avp_add a =? 0 then mk_added [a] false None else stop RuntimeError.

(** An AVP whose value is left zero. *)
Definition zero_avp (name : avp_name) : avp :=
  match avp_basetype name with
  | AVP_TYPE_GROUPED => AvpGroup name []
  | AVP_TYPE_OCTETSTRING => AvpOctets name []
  | AVP_TYPE_INTEGER32 => AvpI32 name 0
  | AVP_TYPE_INTEGER64 => AvpI64 name 0
  | AVP_TYPE_UNSIGNED32 => AvpU32 name 0
  | AVP_TYPE_UNSIGNED64 => AvpU64 name 0
  | AVP_TYPE_FLOAT32 => AvpF32 name (SpecFloat.S754_zero false)
  | AVP_TYPE_FLOAT64 => AvpF64 name (SpecFloat.S754_zero false)
  end.

(** [kNumberType]. *)
Definition add_number (name : avp_name) (value : json) : added :=
  match avp_basetype name, value with
  | AVP_TYPE_INTEGER32, JInt z => if IsInt value then addTo (AvpI32 name z) else stop RuntimeInfo
  | AVP_TYPE_INTEGER64, JInt z => if IsInt64 value then addTo (AvpI64 name z) else stop RuntimeInfo
  | AVP_TYPE_UNSIGNED32, JInt z => if IsUint value then addTo (AvpU32 name z) else stop RuntimeInfo
  | AVP_TYPE_UNSIGNED64, JInt z => if IsUint64 value then addTo (AvpU64 name z) else stop RuntimeInfo
  | AVP_TYPE_FLOAT32, JDouble d =>
      if IsFloat value then addTo (AvpF32 name (float_of_double d)) else stop RuntimeInfo
  | AVP_TYPE_FLOAT64, JDouble d => addTo (AvpF64 name d)
  | _, _ => stop RuntimeInfo
  end.

(** The octets of a string value, by the type of the AVP. *)
Definition string_octets (name : avp_name) (s : string) : outcome bytes :=
  let raw := bytes_of_string s in
  match data_type name with
  | ADTAddress =>
      mret (match inet_pton4 s with
            | Some a => [0; 1] ++ a
            | None => match inet_pton6 s with
                      | Some a => [0; 2] ++ a
                      | None => raw
                      end
            end)
  | ADTTime =>
      (* the value that [ParseDateTime] returns is not looked at *)
      '(_, t) ← STime.ParseDateTime s false fd_now;
      ntp ← STime.getNTPTime t;
      mret (rev (le_bytes 4 (STime.second ntp)))
  | ADTOctetString => mret (if isHexString raw then unhex (drop 2 raw) else raw)
  | _ => mret raw
  end.

(** [kStringType]. *)
Definition add_string (name : avp_name) (s : string) : added :=
  match avp_basetype name with
  | AVP_TYPE_OCTETSTRING =>
      match string_octets name (upto_nul s) with
      | Ok os => addTo (AvpOctets name os)
      | _ => stop Undefined
      end
  | _ => stop RuntimeInfo
  end.

(** The object's AVP is added before its members.  A member of an AVP that is
    not grouped is outside the model. *)
Definition with_children (name : avp_name) (inner : added) : added :=
  let zero := zero_avp name in
  if fd_msg_avp_add zero =? 0 then
    match zero with
    | AvpGroup _ _ => mk_added [AvpGroup name (avps inner)] (errors inner) (stopped inner)
    | _ => match avps inner with
           | [] => mk_added [zero] (errors inner) (stopped inner)
           | _ => stop Undefined
           end
    end
  else stop RuntimeError.

(** [fdJsonAddAvp] and, for the members of an object, [fdJsonAddAvps]. *)
Fixpoint fdJsonAddAvp (value : json) (name : avp_name) : added :=
  if negb (dict_known name) then stop RuntimeInfo else
  match value with
  | JBool _ | JNull => stop RuntimeInfo
  | JInt _ | JDouble _ => add_number name value
  | JString s => add_string name s
  | JArray l =>
      (fix elements l :=
         match l with
         | [] => nothing
         | v :: l' => then_ (fdJsonAddAvp v name) (λ _, elements l')
         end) l
  | JObject ms =>
      with_children name
        ((fix members ms :=
            match ms with
            | [] => nothing
            | (k, v) :: ms' => then_ (catch_info (fdJsonAddAvp v (upto_nul k))) (λ _, members ms')
            end) ms)
  end.

Definition elements (l : list json) (name : avp_name) : added :=
  (fix elements l :=
     match l with
     | [] => nothing
     | v :: l' => then_ (fdJsonAddAvp v name) (λ _, elements l')
     end) l.
Definition members (ms : list (string * json)) : added :=
  (fix members ms :=
     match ms with
     | [] => nothing
     | (k, v) :: ms' => then_ (catch_info (fdJsonAddAvp v (upto_nul k))) (λ _, members ms')
     end) ms.

(** The members of the document: a [runtimeInfo] is not caught here. *)
Fixpoint top_members (ms : list (string * json)) : added :=
  match ms with
  | [] => nothing
  | (k, v) :: ms' => then_ (fdJsonAddAvp v (upto_nul k)) (λ _, top_members ms')
  end.

(** [fdJsonAddAvps] of a text: members of anything but an object are undefined. *)
Definition fdJsonAddAvps (json : string) : json_result :=
  match json_parse json with
  | None => mk_json (Ok FDJSON_JSON_PARSING_ERROR) true []
  | Some (JObject ms) =>
      let a := top_members ms in
      match stopped a with
      | None => mk_json (Ok FDJSON_SUCCESS) (errors a) (avps a)
      | Some RuntimeError => mk_json (Ok FDJSON_EXCEPTION) true (avps a)
      | Some RuntimeInfo => mk_json (Throw StdException) (errors a) (avps a)
      | Some Undefined => mk_json UB (errors a) (avps a)
      end
  | Some _ => mk_json UB false []
  end.

(** [FDAvp::addJson], [FDMessage::addJson]: the error function is null. *)
Definition addJson (json : string) : outcome message :=
  let r := fdJsonAddAvps json in
  if json_errfunc r then UB else _ ← json_ret r; mret (json_avps r).

(** *** From AVPs to JSON *)

(** [fdJsonTimeToStr] and [fdJsonAddressToStr]. *)
Definition fdJsonTimeToStr (os : bytes) : string + failure :=
  if negb (length os =? 4)%nat then inr RuntimeInfo
  else
    match (t ← STime.setNTPTime (STime.mk_ntp (le_value (rev os)) 0); STime.Format t "%i" false) with
    | Ok s => inl s
    | _ => inr Undefined
    end.
Definition fdJsonAddressToStr (os : bytes) : string + failure :=
  match FDAvp.address_to_string os with
  | Ok (Some s) => inl s
  | Ok None => inr RuntimeInfo
  | _ => inr Undefined
  end.

(** [isDerived] and [derivedData]: set by an AVP of a derived type, never
    cleared. *)
Definition update_derived (derived : option string) (name : avp_name) : option string :=
  match avp_basetype name, derived_type name with
  | AVP_TYPE_OCTETSTRING, Some t => Some t
  | _, _ => derived
  end.

Definition octets_value (derived : option string) (os : bytes) : json + failure :=
  match derived with
  | None => inl (JString (string_of_bytes (fdJsonBinaryToHex os)))
  | Some t =>
      if String.eqb t "Address" then
        match fdJsonAddressToStr os with inl s => inl (JString s) | inr f => inr f end
      else if String.eqb t "Time" then
        match fdJsonTimeToStr os with inl s => inl (JString s) | inr f => inr f end
      else inl (JString (string_of_bytes os))
  end.

(** The value of one AVP in [fdJsonAddMembers], its members in their turn. *)
Fixpoint member_value (derived : option string) (a : avp) : json + failure :=
  match avp_basetype (avp_de a), a with
  | AVP_TYPE_OCTETSTRING, AvpOctets _ os => octets_value derived os
  | AVP_TYPE_INTEGER32, AvpI32 _ v | AVP_TYPE_INTEGER64, AvpI64 _ v
  | AVP_TYPE_UNSIGNED32, AvpU32 _ v | AVP_TYPE_UNSIGNED64, AvpU64 _ v => inl (JInt v)
  | AVP_TYPE_FLOAT32, AvpF32 _ v => inl (JDouble (double_of_float v))
  | AVP_TYPE_FLOAT64, AvpF64 _ v => inl (JDouble v)
  | AVP_TYPE_GROUPED, AvpGroup _ l =>
      match (fix go derived l :=
               match l with
               | [] => inl []
               | a :: l' =>
                   let derived := update_derived derived (avp_de a) in
                   match member_value derived a with
                   | inr f => inr f
                   | inl v => match go derived l' with
                              | inr f => inr f
                              | inl ms => inl ((avp_de a, v) :: ms)
                              end
                   end
               end) None l with
      | inl ms => inl (JObject ms)
      | inr f => inr f
      end
  | _, _ => inr Undefined
  end.

(** [fdJsonAddMembers]: the members of a message or of a group, in order. *)
Fixpoint fdJsonAddMembers (derived : option string) (l : list avp)
    : list (string * json) + failure :=
  match l with
  | [] => inl []
  | a :: l' =>
      let derived := update_derived derived (avp_de a) in
      match member_value derived a with
      | inr f => inr f
      | inl v => match fdJsonAddMembers derived l' with
                 | inr f => inr f
                 | inl ms => inl ((avp_de a, v) :: ms)
                 end
      end
  end.

(** [fdJsonGetJSON] of a message or of a grouped AVP of that name: a
    [runtimeInfo] is not caught. *)
Definition fdJsonGetJSON (name : string) (children : list avp) : outcome string :=
  match fdJsonAddMembers None children with
  | inl ms => mret (json_write (JObject [(name, JObject ms)]))
  | inr RuntimeInfo => Throw StdException
  | inr _ => UB
  end.

Lemma member_value_group derived name l :
  avp_basetype name = AVP_TYPE_GROUPED →
  member_value derived (AvpGroup name l) =
  match fdJsonAddMembers None l with inl ms => inl (JObject ms) | inr f => inr f end.
Proof.
  intros Hb. cbn. rewrite Hb.
  assert (∀ d, (fix go derived l :=
               match l with
               | [] => inl []
               | a :: l' =>
                   let derived := update_derived derived (avp_de a) in
                   match member_value derived a with
                   | inr f => inr f
                   | inl v => match go derived l' with
                              | inr f => inr f
                              | inl ms => inl ((avp_de a, v) :: ms)
                              end
                   end
               end) d l = fdJsonAddMembers d l) as ->; [|done].
  induction l as [|a l IH]; intros d; [done|]. cbn. destruct (member_value _ a); [|done].
  by rewrite IH.
Qed.

(** *** Values by name *)

(** [fdJsonGetValueOfMember]: the first member of that name, when it is a
    string; a text that is not an object is undefined. *)
Definition fdJsonGetValueOfMember (json member value : string) : outcome (bool * string) :=
  match json_parse (upto_nul json) with
  | Some (JObject ms) =>
      mret (match List.find (λ x, String.eqb x.1 (upto_nul member)) ms with
            | Some (_, JString s) => (true, upto_nul s)
            | _ => (false, value)
            end)
  | _ => UB
  end.

(** [std::to_string] of a double: six decimals, rounded to even. *)
Definition round_half_even (n d : Z) : Z :=
  let q := n / d in
  let r := 2 * (n mod d) in
  if r <? d then q else if d <? r then q + 1 else if Z.even q then q else q + 1.
Definition to_string_double (d : SpecFloat.spec_float) : string :=
  match d with
  | SpecFloat.S754_finite s m e =>
      let n := Z.pos m * 10 ^ 6 * 2 ^ Z.max 0 e in
      let v := round_half_even n (2 ^ Z.max 0 (- e)) in
      let frac := dec (v mod 10 ^ 6) in
      (if s then "-" else "") +:+ dec (v / 10 ^ 6) +:+ "."
      +:+ string_of_bytes (replicate (6 - String.length frac) 48) +:+ frac
  | SpecFloat.S754_zero s => if s then "-0.000000" else "0.000000"
  | SpecFloat.S754_infinity s => if s then "-inf" else "inf"
  | SpecFloat.S754_nan => "nan"
  end.

(** [parseRecursive]: the values by their path, in the order they are met; the
    elements of an array are not visited. *)
Fixpoint parseRecursive (scope name : string) (value : json) : list (string * string) :=
  let scope := if String.eqb scope "" then upto_nul name else scope +:+ "::" +:+ upto_nul name in
  let inElement := scope +:+ "::" in
  match value with
  | JObject ms =>
      (fix go ms := match ms with
                    | [] => []
                    | (k, v) :: ms' => parseRecursive scope k v ++ go ms'
                    end) ms
  | JString s => [(inElement, upto_nul s)]
  | JDouble d => [(inElement, to_string_double d)]
  | JInt z => if IsInt value then [(inElement, dec z)] else []
  | _ => []
  end.

(** [emplace] keeps the first value of a key. *)
Fixpoint emplace_all (l : list (string * string)) (seen : list string) : list (string * string) :=
  match l with
  | [] => []
  | (k, v) :: l' =>
      if decide (k ∈ seen) then emplace_all l' seen else (k, v) :: emplace_all l' (k :: seen)
  end.

Fixpoint is_prefix (p s : bytes) : bool :=
  match p, s with
  | [], _ => true
  | x :: p', c :: s' => (x =? c) && is_prefix p' s'
  | _ :: _, [] => false
  end.
(** [s.find(p) != npos]. *)
Fixpoint contains (p s : bytes) : bool :=
  is_prefix p s || match s with [] => false | _ :: s' => contains p s' end.

(** [fdJsonGetApnValueFromSubData]: [bucket_order] is the order in which an
    [unordered_map] of these entries is walked. *)
Definition fdJsonGetApnValueFromSubData
    (bucket_order : list (string * string) → list (string * string))
    (json apn : string) : outcome (bool * string) :=
  match json_parse (upto_nul json) with
  | None => mret (false, apn)
  | Some (JObject ms) =>
      let values := emplace_all (flat_map (λ x, parseRecursive "" x.1 x.2) ms) [] in
      mret (match List.find (λ x, contains (bytes_of_string "Service-Selection") (bytes_of_string x.1))
                    (bucket_order values) with
            | Some (_, v) => (true, v)
            | None => (false, apn)
            end)
  | Some _ => UB
  end.

End FdJson.
#[global] Arguments fdJsonAddAvps : simpl never.
End FdJson.

(** ** Round trip *)

Module FdJsonFacts.
Import FdJson.

(** Octets that survive as the C view of a string. *)
Definition text_octets (os : bytes) : Prop := Forall (λ b, is_byte b ∧ b ≠ 0) os.

Lemma text_octets_bytes os : text_octets os → are_bytes os.
Proof. intros Hos. eapply Forall_impl; [exact Hos|]. by intros b []. Qed.

Lemma upto_nul_text os : text_octets os → upto_nul (string_of_bytes os) = string_of_bytes os.
Proof.
  induction 1 as [|b os [Hb Hnz] _ IH]; [done|]. cbn [string_of_bytes upto_nul].
  destruct (Ascii.eqb_spec (chr b) Ascii.zero) as [E|]; [|by rewrite IH].
  apply (f_equal ord) in E. rewrite ord_chr in E by done. done.
Qed.

(** *** Hexadecimal digits *)

Lemma hexDigit_ok n : 0 <= n < 16 →
  ISHEXDIGIT (hexDigit n) = true ∧ HEX2BIN (hexDigit n) = n ∧ is_byte (hexDigit n) ∧ hexDigit n ≠ 0.
Proof.
  intros Hn. assert (Forall (λ n, ISHEXDIGIT (hexDigit n) = true ∧ HEX2BIN (hexDigit n) = n
    ∧ is_byte (hexDigit n) ∧ hexDigit n ≠ 0) (seqZ 0 16)) as Hall
    by (apply (bool_decide_unpack _); vm_compute; exact I).
  rewrite Forall_forall in Hall. apply Hall, elem_of_seqZ. lia.
Qed.

Lemma nibbles b : is_byte b →
  UPPERNIBBLE b = b / 16 ∧ LOWERNIBBLE b = b mod 16 ∧ 0 <= b / 16 < 16 ∧ 0 <= b mod 16 < 16.
Proof.
  intros [H1 H2]. unfold UPPERNIBBLE, LOWERNIBBLE. rewrite Z.shiftr_div_pow2 by lia.
  change 15 with (Z.ones 4). rewrite !Z.land_ones by lia. change (2 ^ 4) with 16.
  rewrite (Z.mod_small (b / 16)) by (Z.to_euclidean_division_equations; lia).
  Z.to_euclidean_division_equations; lia.
Qed.

Definition hex_pair (b : Z) : bytes := [hexDigit (UPPERNIBBLE b); hexDigit (LOWERNIBBLE b)].

Lemma hex_body_ok os : are_bytes os →
  let h := flat_map hex_pair os in
  unhex h = os ∧ forallb ISHEXDIGIT h = true ∧ Nat.even (length h) = true ∧ text_octets h.
Proof.
  induction 1 as [|b os Hb _ (IH1 & IH2 & IH3 & IH4)]; [by repeat split; constructor|].
  destruct (nibbles b Hb) as (Eu & El & Hu & Hl).
  destruct (hexDigit_ok _ Hu) as (Du & Bu & Tu & Zu). destruct (hexDigit_ok _ Hl) as (Dl & Bl & Tl & Zl).
  cbn [flat_map app hex_pair]. rewrite Eu, El.
  cbn [unhex forallb length Nat.even]. rewrite Du, Dl, Bu, Bl, IH1, IH2. split_and!; [|done|done|].
  - f_equal. unfold u8. rewrite Z.shiftl_mul_pow2 by lia. change (2 ^ 4) with 16.
    rewrite Z.mod_small; unfold is_byte in Hb; Z.to_euclidean_division_equations; lia.
  - by repeat (apply Forall_cons; split).
Qed.

Lemma hex_string_ok os : are_bytes os →
  isHexString (fdJsonBinaryToHex os) = true ∧ unhex (drop 2 (fdJsonBinaryToHex os)) = os
  ∧ text_octets (fdJsonBinaryToHex os).
Proof.
  intros Hos. destruct (hex_body_ok os Hos) as (H1 & H2 & H3 & H4).
  unfold fdJsonBinaryToHex. change (λ b, [hexDigit (UPPERNIBBLE b); hexDigit (LOWERNIBBLE b)]) with hex_pair.
  set (h := flat_map hex_pair os) in *. unfold isHexString. cbn [app length Nat.even]. rewrite H3, H2.
  split_and!; [done..|]. by repeat (apply Forall_cons; split).
Qed.

Section RoundTrip.
Context `{FreeDiameter}.

(** What the octets of an AVP must be: a plain OctetString comes before every AVP
    of a derived type; an address has one of the two forms and the C library
    reads it back; a time cannot be written; any other text has no NUL, and
    does not look hexadecimal when its derived type is unknown. *)
Definition octets_ok (derived : option string) (de : avp_name) (os : bytes) : Prop :=
  match derived_type de with
  | None => derived = None ∧ are_bytes os
  | Some t =>
      if String.eqb t "Address" then
        (∃ a, os = [0; 1] ++ a ∧ length a = 4%nat ∧ inet_pton4 (inet_ntop4 a) = Some a
           ∧ upto_nul (inet_ntop4 a) = inet_ntop4 a) ∨
        (∃ a, os = [0; 2] ++ a ∧ length a = 16%nat ∧ inet_pton4 (inet_ntop6 a) = None
           ∧ inet_pton6 (inet_ntop6 a) = Some a ∧ upto_nul (inet_ntop6 a) = inet_ntop6 a)
      else t ≠ "Time"%string ∧ text_octets os
           ∧ (data_type de = ADTOctetString → isHexString os = false)
  end.

Definition header_ok (de : avp_name) : Prop := dict_known de = true ∧ upto_nul de = de.

(** An AVP of the dictionary that the bridge can carry; [derived] is the state
    of [isDerived] once it is reached. *)
Fixpoint avp_ok (derived : option string) (a : avp) : Prop :=
  header_ok (avp_de a) ∧
  match avp_basetype (avp_de a), a with
  | AVP_TYPE_OCTETSTRING, AvpOctets de os => octets_ok derived de os ∧ fd_msg_avp_add a = 0
  | AVP_TYPE_INTEGER32, AvpI32 _ v => - 2 ^ 31 <= v < 2 ^ 31 ∧ fd_msg_avp_add a = 0
  | AVP_TYPE_INTEGER64, AvpI64 _ v => - 2 ^ 63 <= v < 2 ^ 63 ∧ fd_msg_avp_add a = 0
  | AVP_TYPE_UNSIGNED32, AvpU32 _ v => 0 <= v < 2 ^ 32 ∧ fd_msg_avp_add a = 0
  | AVP_TYPE_UNSIGNED64, AvpU64 _ v => 0 <= v < 2 ^ 64 ∧ fd_msg_avp_add a = 0
  | AVP_TYPE_GROUPED, AvpGroup de l =>
      fd_msg_avp_add (AvpGroup de []) = 0 ∧
      (fix go derived l := match l with
                           | [] => True
                           | a :: l' => let d := update_derived derived (avp_de a) in
                                        avp_ok d a ∧ go d l'
                           end) None l
  | _, _ => False
  end.
Fixpoint avps_ok (derived : option string) (l : list avp) : Prop :=
  match l with
  | [] => True
  | a :: l' => let d := update_derived derived (avp_de a) in avp_ok d a ∧ avps_ok d l'
  end.

Definition carried (a : avp) (derived : option string) : Prop :=
  ∃ v, member_value derived a = inl v ∧ fdJsonAddAvp v (avp_de a) = mk_added [a] false None.

Lemma add_ok a : fd_msg_avp_add a = 0 → addTo a = mk_added [a] false None.
Proof. intros E. unfold addTo. by rewrite E. Qed.

Lemma add_string_ok de s os :
  dict_known de = true → avp_basetype de = AVP_TYPE_OCTETSTRING → upto_nul s = s →
  string_octets de s = Ok os → fd_msg_avp_add (AvpOctets de os) = 0 →
  fdJsonAddAvp (JString s) de = mk_added [AvpOctets de os] false None.
Proof.
  intros Hk Hb Hs Ho Ha. cbn. rewrite Hk. cbn. unfold add_string. rewrite Hb, Hs, Ho. by apply add_ok.
Qed.

(** *** Octets *)

Lemma data_type_derived de t : derived_type de = Some t → t ≠ "Address"%string → t ≠ "Time"%string →
  data_type de ≠ ADTAddress ∧ data_type de ≠ ADTTime.
Proof.
  intros Hd Ha Ht. unfold data_type, base_data_type. rewrite Hd.
  apply String.eqb_neq in Ha, Ht. rewrite Ha, Ht. repeat case_match; done.
Qed.

Lemma octets_carried derived de os :
  header_ok de → avp_basetype de = AVP_TYPE_OCTETSTRING →
  octets_ok (update_derived derived de) de os → fd_msg_avp_add (AvpOctets de os) = 0 →
  carried (AvpOctets de os) (update_derived derived de).
Proof.
  intros [Hk Hn] Hb Ho Ha. unfold carried. cbn [avp_de]. cbn [member_value avp_de]. rewrite Hb.
  unfold octets_value, octets_ok, update_derived in *. rewrite Hb in *.
  destruct (derived_type de) as [t|] eqn:Ed.
  - destruct (String.eqb_spec t "Address") as [->|Hna].
    + destruct Ho as [(a & -> & Hl & Hp & Hz)|(a & -> & Hl & Hp4 & Hp & Hz)];
        unfold fdJsonAddressToStr, FDAvp.address_to_string; cbn; rewrite Hl; cbn;
        (eexists; split; [done|]); apply add_string_ok; try done;
        unfold string_octets, data_type; rewrite Ed; cbn.
      * by rewrite Hp.
      * by rewrite Hp4, Hp.
    + destruct Ho as (Hnt & Htext & Hhex). destruct (String.eqb_spec t "Time") as [->|_]; [done|].
      eexists; split; [done|]. apply add_string_ok; try done; [by apply upto_nul_text|].
      destruct (data_type_derived de t Ed Hna Hnt) as [H1 H2].
      unfold string_octets. rewrite bytes_of_string_of_bytes by (by apply text_octets_bytes).
      destruct (data_type de) eqn:Et; try done. by rewrite Hhex.
  - destruct Ho as [-> Hos]. destruct (hex_string_ok os Hos) as (H1 & H2 & H3).
    eexists; split; [done|]. apply add_string_ok; try done; [by apply upto_nul_text|].
    assert (data_type de = ADTOctetString) as Et.
    { unfold data_type, base_data_type. by rewrite Ed, Hb. }
    unfold string_octets. rewrite Et, bytes_of_string_of_bytes by (by apply text_octets_bytes).
    by rewrite H1, H2.
Qed.

(** *** Every AVP and every list *)

Lemma members_carried l :
  Forall (λ a, ∀ derived, avp_ok (update_derived derived (avp_de a)) a →
    carried a (update_derived derived (avp_de a))) l →
  ∀ derived, avps_ok derived l →
  ∃ ms, fdJsonAddMembers derived l = inl ms ∧ members ms = mk_added l false None
    ∧ top_members ms = mk_added l false None.
Proof.
  induction 1 as [|a l Ha Hl IH]; intros derived Hok; [by exists []|].
  cbn [avps_ok] in Hok. destruct Hok as [Hok1 Hok2].
  destruct (Ha derived Hok1) as (v & Hv & Hadd).
  destruct (IH _ Hok2) as (ms & Hms & Hm & Ht).
  assert (upto_nul (avp_de a) = avp_de a) as Hz by (destruct a; apply Hok1).
  exists ((avp_de a, v) :: ms). cbn. rewrite Hv, Hms, Hz, Hadd. split; [done|].
  unfold members in Hm. by rewrite Hm, Ht.
Qed.

Lemma avp_ok_group derived de l :
  avp_basetype de = AVP_TYPE_GROUPED → avp_ok derived (AvpGroup de l) →
  header_ok de ∧ fd_msg_avp_add (AvpGroup de []) = 0 ∧ avps_ok None l.
Proof.
  intros Hb. cbn. rewrite Hb. intros (Hh & Ha & Hl). split; [done|]. split; [done|].
  revert Hl. generalize (@None string). induction l as [|a l IH]; intros d; [done|].
  cbn. intros [H1 H2]. split; [done|]. by apply IH.
Qed.

Lemma avp_carried a derived :
  avp_ok (update_derived derived (avp_de a)) a → carried a (update_derived derived (avp_de a)).
Proof.
  revert derived. induction a as [de v|de os|de l IH|de v|de v|de v|de v|de v] using avp_nested_ind;
    intros derived Hok.
  2: { destruct (avp_basetype de) eqn:Hb; cbn in Hok; rewrite Hb in Hok; destruct Hok as [Hh Hok]; try done.
       destruct Hok. by apply octets_carried. }
  2: { destruct (avp_basetype de) eqn:Hb; cbn [avp_de] in *;
         try (cbn in Hok; rewrite Hb in Hok; by destruct Hok).
       apply avp_ok_group in Hok as ([Hk Hz] & Ha & Hl); [|done].
       destruct (members_carried l IH None Hl) as (ms & Hms & Hm & _).
       exists (JObject ms). split; [by rewrite member_value_group, Hms|].
       cbn. rewrite Hk. cbn. unfold with_children, zero_avp. rewrite Hb, Ha. cbn.
       unfold members in Hm. by rewrite Hm. }
  all: destruct (avp_basetype de) eqn:Hb; cbn in Hok; rewrite Hb in Hok;
    destruct Hok as [[Hk Hz] Hok]; try done; destruct Hok as [Hv Ha];
    exists (JInt v); (split; [cbn; by rewrite Hb|]); cbn; rewrite Hk; cbn; unfold add_number;
    rewrite Hb; cbn; rewrite bool_decide_true by done; by apply add_ok.
Qed.

(** rapidjson reads back the document that the bridge made it write. *)
Definition reads_back (name : avp_name) (l : list avp) : Prop :=
  ∀ ms, fdJsonAddMembers None l = inl ms →
  json_parse (json_write (JObject [(name, JObject ms)])) = Some (JObject [(name, JObject ms)]).

Lemma add_document name l ms l' :
  reads_back name l → fdJsonAddMembers None l = inl ms →
  header_ok name → avp_basetype name = AVP_TYPE_GROUPED → fd_msg_avp_add (AvpGroup name []) = 0 →
  members ms = mk_added l' false None →
  addJson (json_write (JObject [(name, JObject ms)])) = Ok [AvpGroup name l'].
Proof.
  intros Hread Hms [Hk Hz] Hb Ha Hm. unfold addJson, fdJsonAddAvps. rewrite (Hread ms Hms).
  cbn. rewrite Hz, Hk. cbn. unfold with_children, zero_avp. rewrite Hb, Ha. cbn.
  unfold members in Hm. by rewrite Hm.
Qed.


(** The front of some octets, up to the first NUL. *)
Fixpoint before_nul (os : bytes) : bytes :=
  match os with [] => [] | b :: os' => if b =? 0 then [] else b :: before_nul os' end.

Lemma upto_nul_bytes os : are_bytes os → bytes_of_string (upto_nul (string_of_bytes os)) = before_nul os.
Proof.
  induction 1 as [|b os Hb _ IH]; [done|]. cbn [string_of_bytes upto_nul before_nul].
  destruct (Ascii.eqb_spec (chr b) Ascii.zero) as [E|E].
  - apply (f_equal ord) in E. rewrite ord_chr in E by done. by subst b.
  - destruct (Z.eqb_spec b 0) as [->|]; [done|]. cbn. by rewrite ord_chr, IH.
Qed.

(** A plain OctetString that follows a text in its group, as the MSISDN
    follows the User-Name in a User-Identifier, is written raw instead of in
    hexadecimal, because [isDerived] is not cleared: when it is read back it
    ends at its first zero octet. *)
Theorem json_octets_after_text_truncated name d p t s os :
  avp_basetype name = AVP_TYPE_GROUPED → header_ok name → fd_msg_avp_add (AvpGroup name []) = 0 →
  avp_ok (Some t) (AvpOctets d s) → derived_type d = Some t →
  t ≠ "Address"%string → t ≠ "Time"%string →
  header_ok p → avp_basetype p = AVP_TYPE_OCTETSTRING → derived_type p = None →
  are_bytes os → isHexString (before_nul os) = false →
  (∀ os, fd_msg_avp_add (AvpOctets p os) = 0) →
  reads_back name [AvpOctets d s; AvpOctets p os] →
  ∃ text, fdJsonGetJSON name [AvpOctets d s; AvpOctets p os] = Ok text ∧
    addJson text = Ok [AvpGroup name [AvpOctets d s; AvpOctets p (before_nul os)]].
Proof.
  intros Hb [Hk Hz] Hadd Hd Hdt Hna Hnt [Hpk Hpz] Hpb Hpt Hos Hhex Hadds Hread.
  assert (avp_basetype d = AVP_TYPE_OCTETSTRING) as Hdb.
  { cbn in Hd. destruct Hd as [_ Hd]. by destruct (avp_basetype d). }
  assert (update_derived None d = Some t) as Ed by (unfold update_derived; by rewrite Hdb, Hdt).
  assert (update_derived (Some t) p = Some t) as Ep by (unfold update_derived; by rewrite Hpb, Hpt).
  destruct (avp_carried (AvpOctets d s) None) as (v & Hv & Hav);
    [by cbn [avp_de]; rewrite Ed|].
  cbn [avp_de] in Hv, Hav. rewrite Ed in Hv.
  set (ms := [(d, v); (p, JString (string_of_bytes os))]).
  assert (fdJsonAddMembers None [AvpOctets d s; AvpOctets p os] = inl ms) as Hms.
  { cbn [fdJsonAddMembers avp_de]. rewrite Ed, Hv. cbn [member_value avp_de]. rewrite Ep, Hpb.
    unfold octets_value. apply String.eqb_neq in Hna, Hnt. by rewrite Hna, Hnt. }
  exists (json_write (JObject [(name, JObject ms)])). unfold fdJsonGetJSON. rewrite Hms.
  split; [done|]. apply (add_document _ _ ms _ Hread Hms); [done..|].
  assert (upto_nul d = d) as Hdz by apply Hd.
  unfold ms, members. rewrite Hdz, Hav, Hpz. cbn. rewrite Hpk. cbn. unfold add_string. rewrite Hpb.
  unfold string_octets. rewrite upto_nul_bytes by done.
  assert (data_type p = ADTOctetString) as ->.
  { unfold data_type, base_data_type. by rewrite Hpt, Hpb. }
  rewrite Hhex. cbn. by rewrite add_ok.
Qed.

End RoundTrip.
End FdJsonFacts.

(** A User-Identifier, with a JSON library that keeps one document. *)

Module FdJsonWitness.
Import FdJson FdJsonFacts WitnessFreeDiameter.

Definition kept (doc : json) : FreeDiameter :=
  stack_with (λ _, Some doc) (λ _, "document"%string).
Definition in_order : list avp :=
  [AvpOctets "MSISDN" [51; 0; 16]; AvpStr "User-Name" "208930000000001"; AvpU32 "Monitoring-Type" 2].
Definition in_order_doc : json :=
  JObject [("User-Identifier", JObject [("MSISDN", JString "0x330010");
    ("User-Name", JString "208930000000001"); ("Monitoring-Type", JInt 2)])].


Definition name_first_doc : json :=
  JObject [("User-Identifier", JObject [("User-Name", JString "2089");
    ("MSISDN", JString (string_of_bytes [51; 0; 16]))])].

Lemma json_octets_after_text_truncated_witness :
  ∃ text, fdJsonGetJSON (H := kept name_first_doc) "User-Identifier"
            [AvpStr "User-Name" "2089"; AvpOctets "MSISDN" [51; 0; 16]] = Ok text ∧
    addJson (H := kept name_first_doc) text
    = Ok [AvpGroup "User-Identifier" [AvpStr "User-Name" "2089"; AvpOctets "MSISDN" [51]]].
Proof.
  apply (json_octets_after_text_truncated (H := kept name_first_doc) "User-Identifier" "User-Name"
    "MSISDN" "UTF8String" (bytes_of_string "2089") [51; 0; 16]); try done; try (by intros ms [= <-]).
  - cbn. unfold header_ok, octets_ok. cbn. repeat split; try done.
    repeat (apply Forall_cons; split); done.
  - repeat (apply Forall_cons; split); done.
Defined.

End FdJsonWitness.
