(* ===== verification/DataAccess.v ===== *)
(** * The subscriber database: [DataAccess]

    Models src/dataaccess.cpp and include/dataaccess.h: every query the HSS
    builds, as the CQL text it hands to the driver, and how the rows of its
    answer are read.  The Cassandra driver is the class [Cassandra]; a
    statement executed with a callback leaves its future and the callback's
    data in [callbacks]. *)

From S2P Require Import Prelude Codec.
#[local] Open Scope Z_scope.

(** ** The driver

    [cass_session_execute] sends a statement; a future has an error code and,
    when that is [CASS_OK], rows by column name; a value is null or gives an
    integer or a string to the getter of its type and an error to the others;
    [cass_future_set_callback] says whether the callback was accepted. *)
Class Cassandra := {
  cass_value : Type;
  cass_value_is_null : cass_value → bool;
  cass_value_get_int32 : cass_value → option Z;
  cass_value_get_int64 : cass_value → option Z;
  cass_value_get_string : cass_value → option string;
  cass_future : Type;
  cass_future_error_code : cass_future → Z;
  cass_future_rows : cass_future → list (gmap string cass_value);
  cass_session : Type;
  cass_session_execute : string → cass_session → cass_future * cass_session;
  cass_future_set_callback : cass_future → cass_session → bool * cass_session }.

Definition CASS_OK : Z := 0.

(** [ss << "'" << s << "'"]. *)
Definition quoted (s : string) : string := "'" +:+ s +:+ "'".

(** ** Records of dataaccess.h *)

Definition MME_IDENTITY_PRESENT : Z := 1.
Definition MME_SUPPORTED_FEATURES_PRESENT : Z := 2.
Definition IMEI_PRESENT : Z := 4.
Definition SV_PRESENT : Z := 8.
Definition UE_SRVCC_PRESENT : Z := 16.
Definition KEY_LENGTH : nat := 16.
Definition SQN_LENGTH : nat := 6.
Definition RAND_LENGTH : nat := 16.
Definition OPC_LENGTH : nat := 16.

Module DAEvent.
Record t := mk {
  scef_id : string; scef_ref_id : Z; msisdn : Z; extid : string;
  ui_json : string; mec_json : string; monitoring_type : Z }.
Definition init : t := mk "" 0 0 "" "" "" 0.
#[export] Instance eq_dec : EqDecision t.
Proof. solve_decision. Defined.
End DAEvent.

Module DAEventId.
Record t := mk { scef_id : string; scef_ref_id : Z }.
#[export] Instance eq_dec : EqDecision t.
Proof. solve_decision. Defined.
(** [DAEventIdList::compare]. *)
Definition compare (l r : t) : bool :=
  match String.compare l.(scef_id) r.(scef_id) with
  | Lt => true
  | Gt => false
  | Eq => l.(scef_ref_id) <? r.(scef_ref_id)
  end.
(** [std::list::sort]: a stable merge sort, here by insertion. *)
Fixpoint insert (x : t) (l : list t) : list t :=
  match l with
  | [] => [x]
  | y :: l' => if compare x y then x :: y :: l' else y :: insert x l'
  end.
Fixpoint sort_into (acc l : list t) : list t :=
  match l with [] => acc | x :: l' => sort_into (insert x acc) l' end.
Definition sort (l : list t) : list t := sort_into [] l.
End DAEventId.

Record DAMmeIdentity := mk_mme { mme_host : string; mme_realm : string; mme_isdn : string }.

Module DAImsiInfo.
Record t := mk {
  imsi : string; mmehost : string; mmerealm : string; ms_ps_status : string;
  subscription_data : string; msisdn : Z; str_msisdn : string; visited_plmnid : string;
  access_restriction : Z; imei : string; imei_sv : string; mme_id : Z }.
(** A [DAImsiInfo] before its integers are assigned. *)
Definition uninit (msisdn access_restriction mme_id : Z) : t :=
  mk "" "" "" "" "" msisdn "" "" access_restriction "" "" mme_id.
End DAImsiInfo.

Module DAImsiSec.
Record t := mk { key : bytes; sqn : bytes; rand : bytes; opc : bytes }.
End DAImsiSec.

Module DataAccess.

Section Access.
Context `{Cassandra} {D : Type}.

(** The session and the callbacks waiting for their future. *)
Record db := mk_db { session : cass_session; callbacks : list (cass_future * D) }.

Abbreviation row := (gmap string cass_value).

(** [m_db.execute(SCassStatement(ss.str().c_str()))]. *)
Definition execute (stmt : string) : M db cass_future := λ s,
  let '(f, session') := cass_session_execute (upto_nul stmt) (session s) in
  (Ok f, s <| session := session' |>).

(** [future.setCallback(cb, data)]. *)
Definition setCallback (f : cass_future) (data : D) : M db bool := λ s,
  let '(ok, session') := cass_future_set_callback f (session s) in
  (Ok ok, s <| session := session' |>
            <| callbacks ::= (λ l, if ok then l ++ [(f, data)] else l) |>).

Definition failed (f : cass_future) : bool := negb (cass_future_error_code f =? CASS_OK).

(** A statement whose error becomes a [DAException]. *)
Definition execute_or_throw (stmt : string) : M db cass_future :=
  f ← execute stmt;
  if failed f then throw DAException else mret f.

Definition firstRow (f : cass_future) : option row := head (cass_future_rows f).

(** *** Reading a column: [SCassValue::get] and [GET_EVENT_DATA] *)

Definition get_int32 (v : cass_value) (_ : Z) : bool * Z :=
  match cass_value_get_int32 v with Some z => (true, z) | None => (false, 0) end.
Definition get_int64 (v : cass_value) (_ : Z) : bool * Z :=
  match cass_value_get_int64 v with Some z => (true, z) | None => (false, 0) end.
(** [get(uint32_t &)] truncates a 64-bit column. *)
Definition get_uint32 (v : cass_value) (old : Z) : bool * Z :=
  let '(ok, v2) := get_int64 v old in (ok, if ok then u32 v2 else old).
Definition get_string (v : cass_value) (_ : string) : bool * string :=
  match cass_value_get_string v with Some s => (true, s) | None => (false, ""%string) end.

(** A null column leaves the destination; a column of another type throws; a
    column that is not in the row is a null pointer in the driver. *)
Definition GET_EVENT_DATA {A} (get : cass_value → A → bool * A) (r : row) (col : string)
    (dest : A) : outcome A :=
  match r !! col with
  | None => UB
  | Some val =>
      if cass_value_is_null val then Ok dest
      else match get val dest with
           | (true, v) => Ok v
           | (false, _) => Throw DAException
           end
  end.

(** The seven columns of an event, in the order the code reads them. *)
Definition read_event (r : row) (e : DAEvent.t) : outcome DAEvent.t :=
  scef_id ← GET_EVENT_DATA get_string r "scef_id" (DAEvent.scef_id e);
  scef_ref_id ← GET_EVENT_DATA get_uint32 r "scef_ref_id" (DAEvent.scef_ref_id e);
  msisdn ← GET_EVENT_DATA get_int64 r "msisdn" (DAEvent.msisdn e);
  extid ← GET_EVENT_DATA get_string r "extid" (DAEvent.extid e);
  mec_json ← GET_EVENT_DATA get_string r "monitoring_event_configuration" (DAEvent.mec_json e);
  monitoring_type ← GET_EVENT_DATA get_int32 r "monitoring_type" (DAEvent.monitoring_type e);
  ui_json ← GET_EVENT_DATA get_string r "user_identifier" (DAEvent.ui_json e);
  mret (DAEvent.mk scef_id scef_ref_id msisdn extid ui_json mec_json monitoring_type).

(** *** Monitoring events *)

Definition addEvent (e : DAEvent.t) : M db bool :=
  _ ← execute_or_throw
        ("INSERT INTO events (scef_id, scef_ref_id, msisdn, extid, monitoring_event_configuration, user_identifier, monitoring_type) VALUES ("
         +:+ quoted (DAEvent.scef_id e) +:+ "," +:+ dec (DAEvent.scef_ref_id e) +:+ ","
         +:+ dec (DAEvent.msisdn e) +:+ "," +:+ quoted (DAEvent.extid e) +:+ ","
         +:+ quoted (DAEvent.mec_json e) +:+ "," +:+ quoted (DAEvent.ui_json e) +:+ ","
         +:+ dec (DAEvent.monitoring_type e) +:+ ")");
  _ ← (if DAEvent.msisdn e =? 0 then mret tt
       else _ ← execute_or_throw
                  ("INSERT INTO events_msisdn (msisdn, scef_id, scef_ref_id) VALUES ("
                   +:+ dec (DAEvent.msisdn e) +:+ "," +:+ quoted (DAEvent.scef_id e) +:+ ","
                   +:+ dec (DAEvent.scef_ref_id e) +:+ ")");
            mret tt);
  _ ← (if String.eqb (DAEvent.extid e) "" then mret tt
       else _ ← execute_or_throw
                  ("INSERT INTO events_extid (extid, scef_id, scef_ref_id) VALUES ("
                   +:+ quoted (DAEvent.extid e) +:+ "," +:+ quoted (DAEvent.scef_id e) +:+ ","
                   +:+ dec (DAEvent.scef_ref_id e) +:+ ")");
            mret tt);
  mret true.

Definition getEvent (scef_id : string) (scef_ref_id : Z) (event : DAEvent.t)
    : M db (bool * DAEvent.t) :=
  f ← execute_or_throw
        ("SELECT * FROM events WHERE scef_id = " +:+ quoted (upto_nul scef_id)
         +:+ " AND scef_ref_id = " +:+ dec scef_ref_id);
  match firstRow f with
  | Some r => event ← lift (read_event r DAEvent.init); mret (true, event)
  | None => mret (false, event)
  end.

Fixpoint getEventsData_loop (rows : list row) (events : list DAEvent.t)
    : outcome (list DAEvent.t) :=
  match rows with
  | [] => mret events
  | r :: rows' =>
      event ← read_event r DAEvent.init; getEventsData_loop rows' (events ++ [event])
  end.
Definition getEventsData (f : cass_future) (events : list DAEvent.t)
    : outcome (bool * list DAEvent.t) :=
  if failed f then mret (false, events)
  else events ← getEventsData_loop (cass_future_rows f) events; mret (true, events).

(** The items of a list with [","] between them. *)
Fixpoint comma_separated (l : list string) : string :=
  match l with
  | [] => EmptyString
  | [x] => x
  | x :: l' => x +:+ "," +:+ comma_separated l'
  end.

Definition getEvents (scef_id : string) (scef_ref_ids : list Z) (events : list DAEvent.t)
    (cb : option D) : M db (bool * list DAEvent.t) :=
  f ← execute
        ("SELECT * FROM events WHERE scef_id = " +:+ quoted (upto_nul scef_id)
         +:+ " AND scef_ref_id = (" +:+ comma_separated (dec <$> scef_ref_ids) +:+ ")");
  match cb with
  | Some data => ok ← setCallback f data; mret (ok, events)
  | None => lift (getEventsData f events)
  end.

Definition deleteEvent (scef_id : string) (scef_ref_id : Z) : M db unit :=
  '(found, event) ← getEvent scef_id scef_ref_id DAEvent.init;
  if negb found then mret tt
  else
    let scef_id := upto_nul scef_id in
    _ ← execute_or_throw
          ("DELETE FROM events WHERE scef_id = " +:+ quoted scef_id
           +:+ " AND scef_ref_id = " +:+ dec scef_ref_id);
    _ ← (if DAEvent.msisdn event =? 0 then mret tt
         else _ ← execute_or_throw
                    ("DELETE FROM events_msisdn WHERE msisdn=" +:+ dec (DAEvent.msisdn event)
                     +:+ " AND scef_id=" +:+ quoted scef_id
                     +:+ " AND scef_ref_id=" +:+ dec scef_ref_id);
              mret tt);
    if String.eqb (DAEvent.extid event) "" then mret tt
    else _ ← execute_or_throw
               ("DELETE FROM events_extid WHERE extid=" +:+ DAEvent.extid event
                +:+ " AND scef_id=" +:+ quoted scef_id
                +:+ " AND scef_ref_id=" +:+ dec scef_ref_id);
         mret tt.

(** *** Existence checks *)

Definition exists_row (stmt : string) : M db bool :=
  f ← execute_or_throw stmt; mret (if firstRow f is Some _ then true else false).

Definition checkMSISDNExists (msisdn : Z) : M db bool :=
  exists_row ("SELECT * FROM msisdn_imsi WHERE msisdn=" +:+ dec msisdn +:+ ";").
Definition checkImsiExists (imsi : string) : M db bool :=
  exists_row ("SELECT imsi FROM users_imsi WHERE imsi=" +:+ quoted (upto_nul imsi) +:+ ";").
Definition checkExtIdExists (extid : string) : M db bool :=
  exists_row ("SELECT extid FROM extid WHERE extid = " +:+ quoted (upto_nul extid) +:+ ";").

(** *** Identities *)

(** One string column of every row, appended; a null column repeats the value
    of the row before (the variable lives outside the loop). *)
Fixpoint strings_loop (col : string) (rows : list row) (cur : string) (l : list string)
    : outcome (list string) :=
  match rows with
  | [] => mret l
  | r :: rows' =>
      cur ← GET_EVENT_DATA get_string r col cur;
      strings_loop col rows' cur (l ++ [cur])
  end.

Definition getImsiListFromExtId (extid : string) (imsilst : list string)
    : M db (bool * list string) :=
  f ← execute_or_throw ("SELECT imsi FROM extid_imsi WHERE extid =" +:+ quoted (upto_nul extid));
  l ← lift (strings_loop "imsi" (cass_future_rows f) "" imsilst);
  mret (true, l).

Definition getExtIdsFromImsiData (f : cass_future) (extids : list string)
    : outcome (bool * list string) :=
  if failed f then mret (false, extids)
  else l ← strings_loop "extid" (cass_future_rows f) "" extids; mret (true, l).

Definition getExtIdsFromImsi (imsi : string) (extids : list string) (cb : option D)
    : M db (bool * list string) :=
  f ← execute ("SELECT extid FROM extid_imsi_xref WHERE imsi = " +:+ quoted (upto_nul imsi));
  match cb with
  | Some data => ok ← setCallback f data; mret (ok, extids)
  | None => lift (getExtIdsFromImsiData f extids)
  end.

(** One column of the first row. *)
Definition one_column {A} (get : cass_value → A → bool * A) (stmt col : string) (dest : A)
    : M db (bool * A) :=
  f ← execute_or_throw stmt;
  match firstRow f with
  | Some r => v ← lift (GET_EVENT_DATA get r col dest); mret (true, v)
  | None => mret (false, dest)
  end.

Definition getImsiFromMsisdn (msisdn : Z) (imsi : string) : M db (bool * string) :=
  one_column get_string ("SELECT imsi FROM msisdn_imsi WHERE msisdn = " +:+ dec msisdn)
    "imsi" imsi.
Definition getImsiFromMsisdn_string (msisdn : string) (imsi : string) : M db (bool * string) :=
  one_column get_string ("SELECT imsi FROM msisdn_imsi WHERE msisdn = " +:+ upto_nul msisdn)
    "imsi" imsi.
Definition getMsisdnFromImsi_string (imsi : string) (msisdn : string) : M db (bool * string) :=
  one_column get_string
    ("SELECT msisdn FROM users_imsi where imsi = " +:+ quoted (upto_nul imsi) +:+ " ;")
    "msisdn" msisdn.
Definition getMsisdnFromImsi (imsi : string) (msisdn : Z) : M db (bool * Z) :=
  one_column get_int64
    ("SELECT msisdn FROM users_imsi where imsi = " +:+ quoted (upto_nul imsi) +:+ " ;")
    "msisdn" msisdn.
Definition getSubDataFromImsi (imsi : string) (sub_data : string) : M db (bool * string) :=
  one_column get_string
    ("SELECT subscription_data FROM users_imsi where imsi = " +:+ quoted (upto_nul imsi) +:+ " ;")
    "subscription_data" sub_data.

(** *** The subscriber record *)

Definition getImsiInfoData (f : cass_future) (info : DAImsiInfo.t)
    : outcome (bool * DAImsiInfo.t) :=
  if failed f then Throw DAException
  else
    match firstRow f with
    | None => mret (false, info)
    | Some r =>
        imsi ← GET_EVENT_DATA get_string r "imsi" (DAImsiInfo.imsi info);
        mmehost ← GET_EVENT_DATA get_string r "mmehost" (DAImsiInfo.mmehost info);
        mmerealm ← GET_EVENT_DATA get_string r "mmerealm" (DAImsiInfo.mmerealm info);
        ms_ps_status ← GET_EVENT_DATA get_string r "ms_ps_status" (DAImsiInfo.ms_ps_status info);
        subscription_data ←
          GET_EVENT_DATA get_string r "subscription_data" (DAImsiInfo.subscription_data info);
        msisdn ← GET_EVENT_DATA get_int64 r "msisdn" (DAImsiInfo.msisdn info);
        visited_plmnid ←
          GET_EVENT_DATA get_string r "visited_plmnid" (DAImsiInfo.visited_plmnid info);
        access_restriction ←
          GET_EVENT_DATA get_int32 r "access_restriction" (DAImsiInfo.access_restriction info);
        mme_id ←
          GET_EVENT_DATA get_int32 r "mmeidentity_idmmeidentity" (DAImsiInfo.mme_id info);
        mret (true, DAImsiInfo.mk imsi mmehost mmerealm ms_ps_status subscription_data msisdn
                      (dec msisdn) visited_plmnid access_restriction
                      (DAImsiInfo.imei info) (DAImsiInfo.imei_sv info) mme_id)
    end.

Definition getImsiInfo (imsi : string) (info : DAImsiInfo.t) (cb : option D)
    : M db (bool * DAImsiInfo.t) :=
  f ← execute
        ("SELECT imsi, mmehost, mmerealm, ms_ps_status, subscription_data, msisdn, visited_plmnid, access_restriction, mmeidentity_idmmeidentity FROM users_imsi where imsi = "
         +:+ quoted (upto_nul imsi) +:+ " ;");
  match cb with
  | Some data => ok ← setCallback f data; mret (ok, info)
  | None => lift (getImsiInfoData f info)
  end.

(** *** Event identifiers *)

Definition read_event_id (r : row) : outcome DAEventId.t :=
  scef_id ← GET_EVENT_DATA get_string r "scef_id" ""%string;
  scef_ref_id ← GET_EVENT_DATA get_uint32 r "scef_ref_id" 0;
  mret (DAEventId.mk scef_id scef_ref_id).

(** The loop, with the list it has built so far when a row throws. *)
Fixpoint event_ids_loop (rows : list row) (l : list DAEventId.t)
    : outcome unit * list DAEventId.t :=
  match rows with
  | [] => (Ok tt, l)
  | r :: rows' =>
      match read_event_id r with
      | Ok ei => event_ids_loop rows' (l ++ [ei])
      | Throw e => (Throw e, l)
      | UB => (UB, l)
      end
  end.

Definition getEventIdsFromMsisdnData (f : cass_future) (eil : list DAEventId.t)
    : outcome (bool * list DAEventId.t) :=
  if failed f then mret (false, eil)
  else let '(o, l) := event_ids_loop (cass_future_rows f) eil in _ ← o; mret (true, l).

(** Without a callback the result of the read is dropped. *)
Definition getEventIdsFromMsisdn (msisdn : Z) (eil : list DAEventId.t) (cb : option D)
    : M db (bool * list DAEventId.t) :=
  f ← execute ("SELECT scef_id, scef_ref_id FROM events_msisdn WHERE msisdn = "
               +:+ dec msisdn +:+ " order by scef_id, scef_ref_id");
  match cb with
  | Some data => ok ← setCallback f data; mret (ok, eil)
  | None => '(_, l) ← lift (getEventIdsFromMsisdnData f eil); mret (true, l)
  end.

Definition getEventIdsFromExtId (extid : string) (eil : list DAEventId.t)
    : M db (list DAEventId.t) :=
  f ← execute_or_throw
        ("SELECT scef_id, scef_ref_id FROM events_extid WHERE extid = " +:+ quoted (upto_nul extid));
  let '(o, l) := event_ids_loop (cass_future_rows f) eil in
  _ ← lift o; mret l.

(** This one catches the exception of a row, and keeps the rows before it. *)
Definition getEventIdsFromExtIdsData (f : cass_future) (el : list DAEventId.t)
    : outcome (bool * list DAEventId.t) :=
  if failed f then mret (false, el)
  else
    match event_ids_loop (cass_future_rows f) el with
    | (Ok _, l) => Ok (true, l)
    | (Throw DAException, l) => Ok (false, l)
    | (Throw e, _) => Throw e
    | (UB, _) => UB
    end.

Definition getEventIdsFromExtIds (extids : string) (el : list DAEventId.t) (cb : option D)
    : M db (bool * list DAEventId.t) :=
  f ← execute ("SELECT scef_id, scef_ref_id FROM events_extid WHERE extid in ("
               +:+ upto_nul extids +:+ ")");
  match cb with
  | Some data => ok ← setCallback f data; mret (ok, el)
  | None => lift (getEventIdsFromExtIdsData f el)
  end.

Fixpoint events_of_ids (ids : list DAEventId.t) (el : list DAEvent.t)
    : M db (list DAEvent.t) :=
  match ids with
  | [] => mret el
  | i :: ids' =>
      '(found, e) ← getEvent (DAEventId.scef_id i) (DAEventId.scef_ref_id i) DAEvent.init;
      events_of_ids ids' (if (found : bool) then el ++ [e] else el)
  end.

Fixpoint ids_of_extids (extids : list string) (ids : list DAEventId.t)
    : M db (list DAEventId.t) :=
  match extids with
  | [] => mret ids
  | x :: extids' => ids ← getEventIdsFromExtId x ids; ids_of_extids extids' ids
  end.

Definition getEventsFromImsiInfo (info : DAImsiInfo.t) (el : list DAEvent.t)
    : M db (list DAEvent.t) :=
  '(_, extIdLst) ← getExtIdsFromImsi (DAImsiInfo.imsi info) [] None;
  '(_, evtIdLst) ← getEventIdsFromMsisdn (DAImsiInfo.msisdn info) [] None;
  evtIdLst ← ids_of_extids extIdLst evtIdLst;
  events_of_ids evtIdLst el.

Definition getEventsFromImsi (imsi : string) (uninit : DAImsiInfo.t) (el : list DAEvent.t)
    : M db (list DAEvent.t) :=
  '(ok, info) ← getImsiInfo imsi uninit None;
  if negb ok then mret el else getEventsFromImsiInfo info el.

(** *** Updates of a subscriber *)

(** A statement whose only result is success, or the exception. *)
Definition update_or_throw (stmt : string) : M db bool :=
  _ ← execute_or_throw stmt; mret true.

Definition updateOpc (imsi opc : string) : M db bool :=
  update_or_throw ("UPDATE vhss.users_imsi SET OPc=" +:+ quoted opc
                   +:+ " WHERE imsi=" +:+ quoted imsi +:+ ";").

Definition purgeUE (imsi : string) : M db bool :=
  if String.eqb imsi "" then mret false
  else update_or_throw ("UPDATE vhss.users_imsi SET ms_ps_status='PURGED' WHERE imsi="
                        +:+ quoted imsi +:+ ";").

Definition UpdateValidityTime (imsi validity_time : string) : M db unit :=
  _ ← execute_or_throw ("UPDATE users_imsi SET niddvalidity = " +:+ quoted validity_time
                        +:+ " WHERE imsi= " +:+ quoted (upto_nul imsi) +:+ " ;");
  mret tt.

Definition UpdateNIRDestination (imsi host realm : string) : M db unit :=
  _ ← execute_or_throw ("UPDATE users_imsi SET nir_dest_host = " +:+ quoted host
                        +:+ " , nir_dest_realm = " +:+ quoted realm
                        +:+ " WHERE imsi=" +:+ quoted (upto_nul imsi) +:+ " ;");
  mret tt.

(** [if (FLAG_IS_SET(flags, flag)) ss << s]. *)
Definition when_set (flags flag : Z) (s : string) : string :=
  if truth (Z.land flags flag) then s else EmptyString.

Definition updateLocation_stmt (location : DAImsiInfo.t) (present_flags idmmeidentity : Z)
    : string :=
  "UPDATE vhss.users_imsi SET "
  +:+ when_set present_flags IMEI_PRESENT
        ("imei=" +:+ quoted (DAImsiInfo.imei location) +:+ ",")
  +:+ when_set present_flags SV_PRESENT
        ("imeisv=" +:+ quoted (DAImsiInfo.imei_sv location) +:+ ",")
  +:+ when_set present_flags MME_IDENTITY_PRESENT
        ("mmeidentity_idmmeidentity=" +:+ dec idmmeidentity +:+ ","
         +:+ "mmehost=" +:+ quoted (DAImsiInfo.mmehost location) +:+ ","
         +:+ "mmerealm=" +:+ quoted (DAImsiInfo.mmerealm location) +:+ ",")
  +:+ "ms_ps_status='ATTACHED',"
  +:+ "visited_plmnid=" +:+ quoted (DAImsiInfo.visited_plmnid location) +:+ " "
  +:+ "WHERE imsi=" +:+ quoted (DAImsiInfo.imsi location) +:+ ";".

Definition updateLocation (location : DAImsiInfo.t) (present_flags idmmeidentity : Z)
    (cb : option D) : M db bool :=
  f ← execute (updateLocation_stmt location present_flags idmmeidentity);
  match cb with
  | Some data => setCallback f data
  | None => if failed f then throw DAException else mret true
  end.

(** The overload that takes the MME from the record. *)
Definition updateLocation_record (location : DAImsiInfo.t) (present_flags : Z)
    (cb : option D) : M db bool :=
  updateLocation location present_flags (DAImsiInfo.mme_id location) cb.

(** *** Security data *)

(** [sqn_nb] is what the uninitialised variable holds when the column is null. *)
Definition getImsiSecData (sqn_nb : Z) (f : cass_future) (imsisec : DAImsiSec.t)
    : outcome (bool * DAImsiSec.t) :=
  if failed f then Throw DAException
  else
    match firstRow f with
    | None => mret (false, imsisec)
    | Some r =>
        key_str ← GET_EVENT_DATA get_string r "key" ""%string;
        sqn_nb ← GET_EVENT_DATA get_int64 r "sqn" sqn_nb;
        rand_str ← GET_EVENT_DATA get_string r "rand" ""%string;
        OPc_str ← GET_EVENT_DATA get_string r "OPc" ""%string;
        key ← Hex.convert_ascii_to_binary key_str KEY_LENGTH;
        rand ← Hex.convert_ascii_to_binary rand_str RAND_LENGTH;
        opc ← Hex.convert_ascii_to_binary OPc_str KEY_LENGTH;
        mret (true, DAImsiSec.mk key (Sqn.sqn_of_int64 sqn_nb) rand opc)
    end.

Definition getImsiSec (sqn_nb : Z) (imsi : string) (imsisec : DAImsiSec.t) (cb : option D)
    : M db (bool * DAImsiSec.t) :=
  f ← execute ("SELECT key,sqn,rand,OPc FROM vhss.users_imsi WHERE imsi="
               +:+ quoted imsi +:+ ";");
  match cb with
  | Some data => ok ← setCallback f data; mret (ok, imsisec)
  | None => lift (getImsiSecData sqn_nb f imsisec)
  end.

(** The sequence number the statement stores. *)
Definition stored_sqn (sqn : bytes) (inc_sqn : bool) : Z :=
  let eu := Sqn.SQN_TO_U64 sqn in
  Sqn.union_u64 (if inc_sqn then Sqn.union_add eu 32 else eu).

Definition updateRandSqn_stmt (imsi : string) (rand_p sqn : bytes) (inc_sqn : bool) : string :=
  "UPDATE vhss.users_imsi SET rand="
  +:+ quoted (Hex.bytes2hex rand_p RAND_LENGTH 0 false)
  +:+ ", sqn=" +:+ dec (stored_sqn sqn inc_sqn)
  +:+ " WHERE imsi=" +:+ quoted imsi +:+ ";".

Definition updateRandSqn (imsi : string) (rand_p sqn : bytes) (inc_sqn : bool)
    (cb : option D) : M db bool :=
  f ← execute (updateRandSqn_stmt imsi rand_p sqn inc_sqn);
  match cb with
  | Some data => setCallback f data
  | None => if failed f then throw DAException else mret true
  end.

Definition incSqn (imsi : string) (sqn : bytes) : M db bool :=
  update_or_throw ("UPDATE vhss.users_imsi SET sqn =" +:+ dec (stored_sqn sqn true)
                   +:+ " WHERE imsi=" +:+ quoted imsi +:+ ";").

(** *** MME identities and the identity counter *)

Definition read_mme (r : row) (mmeid : DAMmeIdentity) : outcome DAMmeIdentity :=
  h ← GET_EVENT_DATA get_string r "mmehost" (mme_host mmeid);
  rl ← GET_EVENT_DATA get_string r "mmerealm" (mme_realm mmeid);
  isdn ← GET_EVENT_DATA get_string r "mmeisdn" (mme_isdn mmeid);
  mret (mk_mme h rl isdn).

Definition getMmeIdentity_where (id : string) (mmeid : DAMmeIdentity)
    : M db (bool * DAMmeIdentity) :=
  f ← execute_or_throw
        ("SELECT mmehost,mmerealm,mmeisdn FROM vhss.mmeidentity WHERE idmmeidentity="
         +:+ id +:+ ";");
  match firstRow f with
  | Some r => m ← lift (read_mme r mmeid); mret (true, m)
  | None => mret (false, mmeid)
  end.
Definition getMmeIdentity_string (mme_id : string) (mmeid : DAMmeIdentity)
    : M db (bool * DAMmeIdentity) := getMmeIdentity_where (quoted mme_id) mmeid.
Definition getMmeIdentity (mme_id : Z) (mmeid : DAMmeIdentity)
    : M db (bool * DAMmeIdentity) := getMmeIdentity_where (dec mme_id) mmeid.

(** [id] is what the uninitialised variable holds when the column is null. *)
Definition getMmeIdentityFromImsi (id : Z) (imsi : string) (mmeid : DAMmeIdentity)
    : M db (bool * DAMmeIdentity) :=
  '(found, id) ← one_column get_int32
    ("SELECT mmeidentity_idmmeidentity FROM vhss.users_imsi WHERE imsi = "
     +:+ quoted imsi +:+ ";") "mmeidentity_idmmeidentity" id;
  if negb found then mret (false, mmeid) else getMmeIdentity id mmeid.

Definition getLatestIdentityData (f : cass_future) (id : Z) : outcome (bool * Z) :=
  if failed f then mret (false, id)
  else match firstRow f with
       | Some r => v ← GET_EVENT_DATA get_int64 r "id" id; mret (true, v)
       | None => mret (true, 0)
       end.

Definition getLatestIdentity (table_name : string) (id : Z) (cb : option D) : M db (bool * Z) :=
  f ← execute ("SELECT id from vhss.global_ids WHERE table_name="
               +:+ quoted (upto_nul table_name) +:+ ";");
  match cb with
  | Some data => ok ← setCallback f data; mret (ok, id)
  | None => lift (getLatestIdentityData f id)
  end.

(** A statement that reports its error through its result. *)
Definition execute_reporting (stmt : string) (cb : option D) : M db bool :=
  f ← execute stmt;
  match cb with
  | Some data => setCallback f data
  | None => mret (negb (failed f))
  end.

Definition updateLatestIdentity (table_name : string) (cb : option D) : M db bool :=
  execute_reporting ("UPDATE vhss.global_ids set id=id+1 where table_name="
                     +:+ quoted (upto_nul table_name) +:+ ";") cb.

Definition getMmeIdFromHostData (f : cass_future) (mmeid : Z) : outcome (bool * Z) :=
  if failed f then mret (false, mmeid)
  else match firstRow f with
       | Some r => v ← GET_EVENT_DATA get_int32 r "idmmeidentity" mmeid; mret (true, v)
       | None => mret (false, mmeid)
       end.

Definition getMmeIdFromHost (host : string) (mmeid : Z) (cb : option D) : M db (bool * Z) :=
  f ← execute ("SELECT idmmeidentity FROM vhss.mmeidentity_host WHERE mmehost="
               +:+ quoted host +:+ ";");
  match cb with
  | Some data => ok ← setCallback f data; mret (ok, mmeid)
  | None => lift (getMmeIdFromHostData f mmeid)
  end.

Definition addMmeIdentity1 (host realm : string) (mmeid : Z) (cb : option D) : M db bool :=
  execute_reporting ("INSERT INTO vhss.mmeidentity (mmehost, mmerealm, idmmeidentity) VALUES ("
                     +:+ quoted host +:+ "," +:+ quoted realm +:+ "," +:+ dec mmeid +:+ ");") cb.
Definition addMmeIdentity2 (host realm : string) (mmeid : Z) (cb : option D) : M db bool :=
  execute_reporting
    ("INSERT INTO vhss.mmeidentity_host (mmehost, idmmeidentity, mmerealm) VALUES ("
     +:+ quoted host +:+ "," +:+ dec mmeid +:+ "," +:+ quoted realm +:+ ");") cb.
Definition addMmeIdentity (host realm : string) (mmeid : Z) : M db bool :=
  ok ← addMmeIdentity1 host realm mmeid None;
  if negb ok then mret false else addMmeIdentity2 host realm mmeid None.

(** *** What is stored is what is read back *)

Definition string_column (r : row) (col s : string) : Prop :=
  ∃ v, r !! col = Some v ∧ cass_value_is_null v = false ∧ cass_value_get_string v = Some s.
Definition int64_column (r : row) (col : string) (z : Z) : Prop :=
  ∃ v, r !! col = Some v ∧ cass_value_is_null v = false ∧ cass_value_get_int64 v = Some z.

Lemma GET_EVENT_DATA_string r col s dest :
  string_column r col s → GET_EVENT_DATA get_string r col dest = Ok s.
Proof. intros (v & Hv & Hn & Hg). unfold GET_EVENT_DATA, get_string. by rewrite Hv, Hn, Hg. Qed.
Lemma GET_EVENT_DATA_int64 r col z dest :
  int64_column r col z → GET_EVENT_DATA get_int64 r col dest = Ok z.
Proof. intros (v & Hv & Hn & Hg). unfold GET_EVENT_DATA, get_int64. by rewrite Hv, Hn, Hg. Qed.

Lemma stored_sqn_value sqn inc :
  Sqn.is_sqn sqn → stored_sqn sqn inc = Sqn.sqn_value sqn + (if inc then 32 else 0).
Proof.
  intros Hs. unfold stored_sqn. destruct inc.
  - by apply Sqn.union_add_value.
  - rewrite Sqn.SQN_TO_U64_value by done. lia.
Qed.

(** A row of security data is read as it is stored. *)
Lemma getImsiSecData_row f r u old key opc rand z upper upper' :
  are_bytes key → length key = KEY_LENGTH → are_bytes opc → length opc = KEY_LENGTH →
  are_bytes rand → length rand = RAND_LENGTH →
  failed f = false → firstRow f = Some r →
  string_column r "key" (Hex.bytes2hex key KEY_LENGTH 0 upper) →
  string_column r "OPc" (Hex.bytes2hex opc KEY_LENGTH 0 upper) →
  string_column r "rand" (Hex.bytes2hex rand RAND_LENGTH 0 upper') →
  int64_column r "sqn" z →
  getImsiSecData u f old = Ok (true, DAImsiSec.mk key (Sqn.sqn_of_int64 z) rand opc).
Proof.
  intros Hk Hkl Ho Hol Hr Hrl Hf Hrow Ck Co Cr Cs. unfold getImsiSecData. rewrite Hf, Hrow.
  rewrite !(GET_EVENT_DATA_string _ _ _ _ Ck), !(GET_EVENT_DATA_string _ _ _ _ Co),
    !(GET_EVENT_DATA_string _ _ _ _ Cr), (GET_EVENT_DATA_int64 _ _ _ _ Cs).
  cbn [mbind outcome_bind].
  rewrite <-Hkl, !Hex.convert_bytes2hex by done. cbn [mbind outcome_bind].
  rewrite <-Hrl, !Hex.convert_bytes2hex by done. cbn [mbind outcome_bind].
  rewrite Hkl, <-Hol, !Hex.convert_bytes2hex by done. done.
Qed.

(** C24: A subscriber row that holds the RAND and the sequence number that
    [updateRandSqn] wrote is read back by [getImsiSecData] as the same RAND,
    keys and a sequence number advanced by 32 modulo 2^48. *)
Theorem security_data_roundtrip f r u old key opc rand sqn upper :
  Sqn.is_sqn sqn →
  are_bytes key → length key = KEY_LENGTH → are_bytes opc → length opc = KEY_LENGTH →
  are_bytes rand → length rand = RAND_LENGTH →
  failed f = false → firstRow f = Some r →
  string_column r "key" (Hex.bytes2hex key KEY_LENGTH 0 upper) →
  string_column r "OPc" (Hex.bytes2hex opc KEY_LENGTH 0 upper) →
  string_column r "rand" (Hex.bytes2hex rand RAND_LENGTH 0 false) →
  int64_column r "sqn" (stored_sqn sqn true) →
  ∃ sqn', getImsiSecData u f old = Ok (true, DAImsiSec.mk key sqn' rand opc) ∧
    Sqn.is_sqn sqn' ∧ Sqn.sqn_value sqn' = (Sqn.sqn_value sqn + 32) mod 2 ^ 48.
Proof.
  intros Hsqn Hk Hkl Ho Hol Hr Hrl Hf Hrow Ck Co Cr Cs.
  exists (Sqn.sqn_of_int64 (stored_sqn sqn true)).
  rewrite Sqn.sqn_of_int64_spec, Sqn.sqn_value_rev_le_bytes.
  split_and!; [|apply Sqn.rev_le_bytes_is_sqn|by rewrite stored_sqn_value].
  rewrite <- Sqn.sqn_of_int64_spec. by eapply getImsiSecData_row.
Qed.

End Access.
Arguments db : clear implicits.
Arguments db {_} D.

End DataAccess.

(** ** A scripted driver for the witnesses

    The session is the list of answers still to give and the statements seen;
    an exhausted script answers with an error. *)

Module ScriptedCassandra.

Inductive value := Null | Int (z : Z) | Text (s : string).
Record future := mk_future { code : Z; rows : list (gmap string value); accepts : bool }.
Record script := mk_script { replies : list future; log : list string }.

#[export] Instance scripted : Cassandra := {
  cass_value := value;
  cass_value_is_null v := match v with Null => true | _ => false end;
  cass_value_get_int32 v := match v with Int z => Some z | _ => None end;
  cass_value_get_int64 v := match v with Int z => Some z | _ => None end;
  cass_value_get_string v := match v with Text s => Some s | _ => None end;
  cass_future := future;
  cass_future_error_code := code;
  cass_future_rows := rows;
  cass_session := script;
  cass_session_execute stmt s :=
    match replies s with
    | f :: l => (f, mk_script l (log s ++ [stmt]))
    | [] => (mk_future 1 [] false, mk_script [] (log s ++ [stmt]))
    end;
  cass_future_set_callback f s := (accepts f, s) }.

Definition one_row (l : list (string * value)) : future := mk_future 0 [list_to_map l] true.

End ScriptedCassandra.

Module DataAccessWitness.
Import ScriptedCassandra DataAccess.

Definition zeros : bytes := replicate 16 0.
Definition sec_row : gmap string value := list_to_map
  [("key", Text "00000000000000000000000000000000"); ("OPc", Text "00000000000000000000000000000000");
   ("rand", Text "00000000000000000000000000000000"); ("sqn", Int 281474976710687)].

(** The sequence number 2^48 - 1 plus 32 wraps to 31. *)
Lemma security_data_roundtrip_witness :
  ∃ sqn', @getImsiSecData scripted 0 (mk_future 0 [sec_row] true) (DAImsiSec.mk [] [] [] [])
          = Ok (true, DAImsiSec.mk zeros sqn' zeros zeros) ∧
    Sqn.is_sqn sqn' ∧ Sqn.sqn_value sqn' = (Sqn.sqn_value (replicate 6 255) + 32) mod 2 ^ 48.
Proof.
  apply (@security_data_roundtrip scripted (mk_future 0 [sec_row] true) sec_row 0
           (DAImsiSec.mk [] [] [] []) zeros zeros zeros (replicate 6 255) false);
    try reflexivity.
  1: split; [done|]. 1-4: apply (bool_decide_unpack _); vm_compute; exact I.
  all: eexists; split_and!; [reflexivity|reflexivity|vm_compute; reflexivity].
Defined.

End DataAccessWitness.
