(* ===== verification/Scassandra.v ===== *)
(** * The handles of the database driver

    Models util/src/scassandra.cpp and util/include/scassandra.h: the objects that own
    a statement, a future, a result or an iterator of the driver and free it, and the
    error code a future remembers.  What the queries ask and read is in DataAccess. *)

From S2P Require Import Prelude.
#[local] Open Scope Z_scope.

(** ** Owning a handle

    [SCassStatement], [SCassResult] and [SCassIterator] are variables with [m_incb]
    false; a [SCassFuture] that a callback makes from the driver's future has it true. *)

Module Handles.

Record var := mk_var { m_handle : option nat; m_incb : bool }.

(** The handles are numbered as they are got.  [own]: those that the program must
    free; [lent]: those of callbacks, which the driver frees.  [freed]: what the
    program has freed. *)
Record sys := mk_sys { vars : list var; got : nat; own : list nat; lent : list nat; freed : list nat }.

(** [release]. *)
Definition release (v : var) (f : list nat) : list nat :=
  match m_handle v with Some h => if m_incb v then f else h :: f | None => f end.

(** Constructing from or assigning a handle of the driver; assigning another object;
    destroying. *)
Inductive op := Take (i : nat) | Move (i j : nat) | Destroy (i : nat).

Definition step (o : op) (s : sys) : sys :=
  match o with
  | Take i =>
      match vars s !! i with
      | Some v =>
          mk_sys (<[i := mk_var (Some (got s)) (m_incb v)]> (vars s)) (S (got s))
            (if m_incb v then own s else got s :: own s)
            (if m_incb v then got s :: lent s else lent s) (release v (freed s))
      | None => s
      end
  | Move i j =>
      match vars s !! i with
      | Some v =>
          let cleared := <[i := mk_var None (m_incb v)]> (vars s) in
          match cleared !! j with
          | Some w =>
              mk_sys (<[j := mk_var None (m_incb w)]> (<[i := mk_var (m_handle w) (m_incb v)]> cleared))
                (got s) (own s) (lent s) (release v (freed s))
          | None => s
          end
      | None => s
      end
  | Destroy i =>
      match vars s !! i with
      | Some v => mk_sys (<[i := mk_var None (m_incb v)]> (vars s)) (got s) (own s) (lent s) (release v (freed s))
      | None => s
      end
  end.

Definition run (l : list op) (s : sys) : sys := foldl (λ s o, step o s) s l.

(** Objects that own nothing yet. *)
Definition start (kinds : list bool) : sys := mk_sys (mk_var None <$> kinds) 0 [] [] [].

(** An object is assigned only from one of its own kind. *)
Definition sorted_out (kinds : list bool) (o : op) : Prop :=
  match o with Move i j => kinds !! i = kinds !! j | _ => True end.

(** The handles held by the objects of a kind. *)
Definition held (cb : bool) (l : list var) : list nat :=
  omap (λ v, if eqb (m_incb v) cb then m_handle v else None) l.

Lemma held_update cb l i v w :
  l !! i = Some v → m_incb w = m_incb v →
  held cb (<[i := w]> l) ++ held cb [v] ≡ₚ held cb [w] ++ held cb l.
Proof.
  intros Hi Hk. apply list_elem_of_split_length in Hi as (l1&l2&->&->).
  rewrite insert_app_r_alt, Nat.sub_diag by lia. cbn [insert list_insert].
  unfold held. rewrite !omap_app. cbn [omap list_omap]. rewrite Hk.
  destruct (eqb (m_incb v) cb); [|by rewrite app_nil_r].
  destruct (m_handle v), (m_handle w); cbn; solve_Permutation.
Qed.

Lemma held_clear cb l i v :
  l !! i = Some v → held cb (<[i := mk_var None (m_incb v)]> l) ++ held cb [v] ≡ₚ held cb l.
Proof.
  intros Hi. rewrite (held_update cb l i v) by done. unfold held. cbn. by destruct (eqb _ _).
Qed.

Lemma release_held v f : release v f = held false [v] ++ f.
Proof. unfold release, held. destruct v as [[h|] []]; done. Qed.

(** Assigning from a cleared list moves a handle between objects of one kind. *)
Lemma move_held cb l i j v w :
  l !! i = Some v → m_handle v = None → l !! j = Some w → m_incb w = m_incb v →
  held cb (<[j := mk_var None (m_incb w)]> (<[i := mk_var (m_handle w) (m_incb v)]> l)) ≡ₚ held cb l.
Proof.
  intros Hi Hv Hj Hk. destruct (decide (i = j)) as [->|Hne].
  - rewrite Hi in Hj. injection Hj as ->. rewrite list_insert_insert_eq, list_insert_id; [done|].
    destruct w as [h c]; cbn in *. by subst.
  - pose proof (held_update cb l i v (mk_var (m_handle w) (m_incb v)) Hi eq_refl) as H1.
    pose proof (held_clear cb (<[i := mk_var (m_handle w) (m_incb v)]> l) j w) as H2.
    rewrite list_lookup_insert_ne in H2 by done. specialize (H2 Hj).
    assert (held cb [mk_var (m_handle w) (m_incb v)] = held cb [w]) as E.
    { unfold held. cbn. by rewrite Hk. }
    assert (held cb [v] = []) as E' by (unfold held; cbn; rewrite Hv; by destruct (eqb _ _)).
    rewrite E, E', app_nil_r in H1. rewrite H1 in H2. rewrite (Permutation_app_comm (held cb [w])) in H2.
    by apply Permutation_app_inv_r in H2.
Qed.

(** The program's handles are held by one object or freed; those of the driver are
    never freed. *)
Record inv (kinds : list bool) (s : sys) : Prop := {
  inv_kinds : m_incb <$> vars s = kinds;
  inv_own : held false (vars s) ++ freed s ≡ₚ own s;
  inv_lent : ∃ gone, held true (vars s) ++ gone ≡ₚ lent s;
  inv_fresh : NoDup (own s ++ lent s) ∧ Forall (λ h, h < got s)%nat (own s ++ lent s) }.

Lemma held_nothing cb kinds : held cb (mk_var None <$> kinds) = [].
Proof. unfold held. induction kinds as [|b l IH]; cbn; [done|]. by destruct (eqb _ _). Qed.

Lemma inv_start kinds : inv kinds (start kinds).
Proof.
  unfold start. split; cbn [vars freed own lent got]; rewrite ?held_nothing; try by repeat constructor.
  - rewrite <-list_fmap_compose. apply list_fmap_id.
  - by exists [].
Qed.

Lemma kinds_kept (l : list var) (kinds : list bool) (i : nat) v h :
  m_incb <$> l = kinds → l !! i = Some v → m_incb <$> <[i := mk_var h (m_incb v)]> l = kinds.
Proof.
  intros <- Hi. rewrite list_fmap_insert. cbn. apply list_insert_id. by rewrite list_lookup_fmap, Hi.
Qed.

Lemma take_inv kinds i s : inv kinds s → inv kinds (step (Take i) s).
Proof.
  intros [Hk Ho [gone Hl] [Hn Hf]]. cbn. destruct (vars s !! i) as [v|] eqn:Hi; [|by split; eauto].
  pose proof (λ cb, held_update cb _ i v (mk_var (Some (got s)) (m_incb v)) Hi eq_refl) as H.
  assert (got s ∉ own s ++ lent s) as Hg.
  { intros Hg. rewrite Forall_forall in Hf. specialize (Hf _ Hg). lia. }
  assert (Forall (λ h, h < S (got s))%nat (own s ++ lent s)) as Hf'.
  { eapply Forall_impl; [exact Hf|]. cbn. lia. }
  split; cbn [vars freed own lent got].
  - by apply kinds_kept.
  - rewrite release_held, (assoc_L (++)), (H false), <-(assoc_L (++)), Ho. unfold held. cbn. by destruct (m_incb v).
  - exists (held true [v] ++ gone). rewrite (assoc_L (++)), (H true), <-(assoc_L (++)), Hl.
    unfold held. cbn. by destruct (m_incb v).
  - destruct (m_incb v); rewrite <-?Permutation_middle; split; try (by constructor);
      constructor; auto with lia.
Qed.

(** Clearing an object frees what it must free. *)
Lemma clear_inv kinds i v s :
  inv kinds s → vars s !! i = Some v →
  inv kinds (mk_sys (<[i := mk_var None (m_incb v)]> (vars s)) (got s) (own s) (lent s) (release v (freed s))).
Proof.
  intros [Hk Ho [gone Hl] Hn] Hi. pose proof (λ cb, held_clear cb _ i v Hi) as H.
  split; cbn [vars freed own lent got]; try done.
  - by apply kinds_kept.
  - by rewrite release_held, (assoc_L (++)), (H false).
  - exists (held true [v] ++ gone). by rewrite (assoc_L (++)), (H true).
Qed.

Lemma step_inv kinds o s : inv kinds s → sorted_out kinds o → inv kinds (step o s).
Proof.
  intros Hinv Hs. destruct o as [i|i j|i]; [by apply take_inv| |].
  - cbn. destruct (vars s !! i) as [v|] eqn:Hi; [|done].
    destruct (_ !! j) as [w|] eqn:Hj; [|done].
    destruct (clear_inv _ i v _ Hinv Hi) as [Hk Ho [gone Hl] Hn]. cbn in Hk, Ho, Hl, Hn, Hs.
    set (l := <[i := mk_var None (m_incb v)]> (vars s)) in *.
    assert (l !! i = Some (mk_var None (m_incb v))) as Hi'.
    { unfold l. rewrite list_lookup_insert_eq; [done|]. by apply lookup_lt_Some in Hi. }
    assert (m_incb w = m_incb v) as Hw.
    { rewrite <-Hk, !list_lookup_fmap, Hi', Hj in Hs. cbn in Hs. congruence. }
    pose proof (λ cb, move_held cb l i j _ w Hi' eq_refl Hj Hw) as H. cbn in H.
    split; cbn [vars freed own lent got]; try done.
    + rewrite !list_fmap_insert. cbn. rewrite (list_insert_id _ i), (list_insert_id _ j); rewrite ?list_lookup_fmap;
        [done|by rewrite Hj|by rewrite Hi'].
    + by rewrite (H false).
    + exists gone. by rewrite (H true).
  - cbn. destruct (vars s !! i) as [v|] eqn:Hi; [|done]. by apply clear_inv.
Qed.

Lemma run_inv kinds l s : inv kinds s → Forall (sorted_out kinds) l → inv kinds (run l s).
Proof.
  intros Hi Hl. revert s Hi. induction Hl as [|o l Ho _ IH]; intros s Hi; [done|]. by apply IH, step_inv.
Qed.

(** Whatever objects are made, assigned to each other and destroyed, as long as
    futures of callbacks are assigned only among themselves: no handle is freed
    twice, none of the driver's is freed, and once no object holds one, every handle
    of the program has been freed. *)
Theorem handles_freed_once kinds l :
  Forall (sorted_out kinds) l →
  let s := run l (start kinds) in
  NoDup (freed s) ∧ (∀ h, h ∈ freed s → h ∈ own s ∧ h ∉ lent s) ∧
  (Forall (λ v, m_handle v = None) (vars s) → freed s ≡ₚ own s).
Proof.
  intros Hl s. destruct (run_inv _ _ _ (inv_start kinds) Hl) as [_ Ho _ [Hn _]]. fold s in Ho, Hn.
  apply NoDup_app in Hn as (Hown&Hdis&_). assert (∀ h, h ∈ freed s → h ∈ own s) as Hin.
  { intros h Hh. rewrite <-Ho. apply elem_of_app. by right. }
  split_and!.
  - rewrite <-Ho in Hown. by apply NoDup_app in Hown as (_&_&?).
  - auto.
  - intros Hv. rewrite <-Ho. assert (held false (vars s) = []) as ->; [|done].
    clear Ho. unfold held. induction Hv as [|v vs E _ IH]; cbn; [done|]. rewrite E. destruct (eqb _ _); exact IH.
Qed.

(** A future of a callback that is assigned to another future is freed by it, since
    the assignment does not take [m_incb] along. *)
Lemma callback_future_freed :
  let s := run [Take 0; Move 1 0; Destroy 1] (start [true; false]) in lent s = [0%nat] ∧ freed s = [0%nat].
Proof. done. Qed.

End Handles.

(** ** The error code of a future *)

Module Future.

(** [cass_future_error_code] of the driver's future. *)
Definition CASS_OK : Z := 0.
Definition UNKNOWN : Z := -1.
Record t := mk { m_error : Z; error_code : Z }.

Definition SCassFuture_ctor (code : Z) : t := mk UNKNOWN code.

(** [errorCode]. *)
Definition errorCode (f : t) : Z * t :=
  let f := if m_error f =? UNKNOWN then mk (error_code f) (error_code f) else f in (m_error f, f).

(** [setCallback]: the result of [cass_future_set_callback] is kept as the error. *)
Definition setCallback (accepted : Z) (f : t) : bool * t := (accepted =? CASS_OK, mk accepted (error_code f)).

(** Until a callback is set, [errorCode] is the driver's, however often it is asked;
    afterwards it is whether the callback was accepted. *)
Lemma error_code_of_callback code accepted :
  code ≠ UNKNOWN → accepted ≠ UNKNOWN →
  let f := SCassFuture_ctor code in
  (errorCode f).1 = code ∧ (errorCode (errorCode f).2).1 = code ∧
  (errorCode (setCallback accepted f).2).1 = accepted.
Proof.
  intros Hc Ha. unfold errorCode, setCallback, SCassFuture_ctor. cbn.
  rewrite (proj2 (Z.eqb_neq _ _) Hc), (proj2 (Z.eqb_neq _ _) Ha). done.
Qed.

End Future.

(** ** At concrete values *)

Module HandleWitness.

(** A statement's result that is assigned to another and read, and two futures. *)
Lemma handles_freed_once_witness :
  let s := Handles.run
    [Handles.Take 0; Handles.Take 1; Handles.Move 0 1; Handles.Take 2; Handles.Destroy 2; Handles.Destroy 0]
    (Handles.start [false; false; true]) in
  NoDup (Handles.freed s) ∧ (∀ h, h ∈ Handles.freed s → h ∈ Handles.own s ∧ h ∉ Handles.lent s) ∧
  (Forall (λ v, Handles.m_handle v = None) (Handles.vars s) → Handles.freed s ≡ₚ Handles.own s).
Proof. apply Handles.handles_freed_once. repeat constructor. Defined.

End HandleWitness.
