(* ===== verification/World.v ===== *)
(** * The world of a request handler

    What the Diameter handlers share: the database connection, the messages
    handed to the stack, the statistics events posted by
    [StatsHss::registerStatResult] and the random generator.  The handlers of
    the other files run in the monad [M] over a state with such a world. *)

From S2P Require Import Prelude Auc Diameter DataAccess.
#[local] Open Scope Z_scope.

(** The message types [registerStatResult] counts. *)
Inductive stat_type :=
  | stat_hss_ulr | stat_hss_air | stat_hss_pur | stat_hss_cir | stat_hss_nir
  | stat_hss_idr | stat_hss_rir | stat_hss_srr.
#[export] Instance stat_type_eq_dec : EqDecision stat_type.
Proof. solve_decision. Defined.

Inductive sent := SentAnswer (m : message) | SentRequest (cmd : string) (m : message).

(** The number of answers among the messages sent. *)
Fixpoint answers (l : list sent) : nat :=
  match l with
  | [] => 0
  | SentAnswer _ :: l' => S (answers l')
  | SentRequest _ _ :: l' => answers l'
  end.

Lemma answers_app l l' : answers (l ++ l') = (answers l + answers l')%nat.
Proof. induction l as [|[] l IH]; cbn; congruence. Qed.

Module World.
Section World.
Context `{Cassandra} `{FreeDiameter} {D G : Type}.

Record world := mk {
  database : DataAccess.db D;
  wire : list sent;
  stats : list (stat_type * Z * Z);
  random : Random.state G }.

Definition on_db {A} (m : M (DataAccess.db D) A) : M world A :=
  zoom database (λ d w, w <| database := d |>) m.

(** [m_ans.send()]. *)
Definition send_answer (ans : message) : M world unit :=
  _ ← lift (FDMessage.send ans);
  modify (λ w, w <| wire ::= (λ l, l ++ [SentAnswer ans]) |>).

(** [req->send()]. *)
Definition send_request (cmd : string) (req : message) : M world unit :=
  _ ← lift (FDMessage.send req);
  modify (λ w, w <| wire ::= (λ l, l ++ [SentRequest cmd req]) |>).

(** [StatsHss::singleton().registerStatResult(stat, vendor, code)]. *)
Definition registerStatResult (st : stat_type) (vendor code : Z) : M world unit :=
  modify (λ w, w <| stats ::= (λ l, l ++ [(st, vendor, code)]) |>).

(** [generate_random_cpp(p, length)]. *)
Definition generate_random `{LibcRand G} (random_bool : Z) (length : nat) : M world bytes := λ w,
  let '(r, st) := Random.generate_random random_bool length (random w) in
  (Ok r, w <| random := st |>).

Lemma on_db_run {A} (m : M (DataAccess.db D) A) w d o d' :
  database w = d → m d = (o, d') → on_db m w = (o, w <| database := d' |>).
Proof. intros <- E. unfold on_db, zoom. by rewrite E. Qed.

End World.
Arguments world {_} D G.
End World.

(** A flag that was set is set, and setting one clears none. *)
Lemma FLAG_IS_SET_same x f : f ≠ 0 → FLAG_IS_SET (FLAGS_SET x f) f = true.
Proof.
  intros Hf. unfold FLAG_IS_SET, FLAGS_SET. apply truth_true.
  rewrite Z.land_lor_distr_l, Z.land_diag. intros E. apply Z.lor_eq_0_iff in E. tauto.
Qed.
Lemma FLAG_IS_SET_mono x f g : FLAG_IS_SET x g = true → FLAG_IS_SET (FLAGS_SET x f) g = true.
Proof.
  unfold FLAG_IS_SET, FLAGS_SET. rewrite !truth_true.
  rewrite Z.land_lor_distr_l. intros Hg E. apply Z.lor_eq_0_iff in E. tauto.
Qed.
Lemma FLAG_IS_SET_other x f g :
  Z.land f g = 0 → FLAG_IS_SET (FLAGS_SET x f) g = FLAG_IS_SET x g.
Proof. intros E. unfold FLAG_IS_SET, FLAGS_SET. by rewrite Z.land_lor_distr_l, E, Z.lor_0_r. Qed.
