(* ===== verification/Proc.v ===== *)
(** * Request processors and the threads that drive them

    [ULRProcessor] and [AIRProcessor] (src/s6as6d_impl.cpp) share one runtime:
    a request is worked off in phases by [processNextPhase] on a worker thread,
    under the processor's mutex; the database answers through callbacks on
    driver threads, which store their data, take the mutex and trigger the next
    phase.  This file holds that runtime: the interface [processor] a request
    processor gives it, the step relation of the threads and an executable
    scheduler for concrete runs.

    [SMutex] is recursive and [acquire(false)] waits for it, so the locked part
    of a callback never overlaps the phase loop; a phase and the data part of a
    callback are single steps. *)

From S2P Require Import Prelude Diameter DataAccess World.
#[local] Open Scope Z_scope.

Definition WORKER_EVENT : Z := 100.
Definition ULRSTATE_BASE : Z := WORKER_EVENT + 100.
Definition ULRSTATE_PHASEFINAL : Z := ULRSTATE_BASE + 0.

(** [DB_OP_COMPLETE]: on failure the result is masked with [!item], which is 0
    for every item, so all the result bits go. *)
Definition DB_OP_COMPLETE_RESULT (result item : Z) (success : bool) : Z :=
  if success then Z.lor result item else Z.land result (if item =? 0 then 1 else 0).
Definition DB_OP_COMPLETE_EXECUTED (executed item : Z) : Z := Z.lor executed item.

Inductive failure := Uncaught (e : exn) | Undefined | UseAfterFree.

Section Proc.
Context `{Cassandra} `{FreeDiameter} {G P : Type}.

Abbreviation world := (World.world Z G).

(** What the code of a processor runs on. *)
Record env := mk_env { w : world; p : P }.

Definition on_world {A} (m : M world A) : M env A := zoom w (λ w' e, e <| w := w' |>) m.
Definition set_p (f : P → P) : M env unit := modify (λ e, e <| p ::= f |>).

(** The interface: [m_nextphase]; [phaseReady(m_nextphase)]; the final phase;
    the [switch] of [processNextPhase]; the callback up to its lock, and whether
    that part takes the lock itself; [triggerNextPhase]'s counter; the
    decrements of [m_dbissued] and of [m_msgissued]. *)
Record processor := mk_processor {
  next_phase : P → Z;
  ready : P → bool;
  final : Z;
  run : Z → M env unit;
  data : Z → cass_future → M env unit;
  data_locks : Z → bool;
  trigger : P → P;
  callback_over : P → P;
  message_taken : P → P }.

(** The threads around one processor: [proc] until it is deleted; [fired], the
    callbacks past their data part; [msgs], the worker messages that refer to
    it; [lock], whether a worker is in the phase loop; [released], the calls of
    [finishProcessor] (each followed by [startProcessor]); [fault], what
    stopped the process. *)
Record sys := mk_sys {
  world_of : world;
  proc : option P;
  fired : nat;
  msgs : nat;
  lock : bool;
  released : nat;
  fault : option failure }.

(** Runs a piece of the processor's code in the system. *)
Definition exec (m : M env unit) (pr : P) (s : sys) : sys :=
  let '(o, e) := m (mk_env (world_of s) pr) in
  let s := s <| world_of := w e |> <| proc := Some (p e) |> in
  match o with
  | Ok _ => s
  | Throw x => s <| fault := Some (Uncaught x) |>
  | UB => s <| fault := Some Undefined |>
  end.

Definition use_after_free (s : sys) : sys := s <| fault := Some UseAfterFree |>.

#[local] Abbreviation callbacks s := (DataAccess.callbacks (World.database (world_of s))).
Definition drop_callback (l : list (cass_future * Z)) (s : sys) : sys :=
  s <| world_of ::= (λ w, w <| World.database ::= (λ d, d <| DataAccess.callbacks := l |>) |>) |>.

Variable (T : processor).

Inductive step : sys → sys → Prop :=
  (** a driver thread enters the callback *)
  | step_data s l1 f a l2 :
      fault s = None → callbacks s = l1 ++ (f, a) :: l2 →
      (data_locks T a = true → lock s = false) →
      step s (match proc s with
              | Some pr =>
                  exec (data T a f) pr (drop_callback (l1 ++ l2) s <| fired ::= S |>)
              | None => use_after_free s
              end)
  (** it takes the lock, triggers the next phase and decrements [m_dbissued] *)
  | step_trigger s n :
      fault s = None → fired s = S n → lock s = false →
      step s (match proc s with
              | Some pr =>
                  s <| proc := Some (callback_over T (trigger T pr)) |>
                    <| fired := n |> <| msgs ::= S |>
              | None => use_after_free s
              end)
  (** a worker enters [processNextPhase] and takes the lock *)
  | step_acquire s n :
      fault s = None → msgs s = S n → lock s = false →
      step s (match proc s with
              | Some pr =>
                  s <| proc := Some (message_taken T pr) |> <| msgs := n |> <| lock := true |>
              | None => use_after_free s
              end)
  (** one iteration of the loop *)
  | step_phase s pr :
      fault s = None → lock s = true → proc s = Some pr → ready T pr = true →
      next_phase T pr ≠ final T →
      step s (exec (run T (next_phase T pr)) pr s)
  (** the last one: the processor is deleted and its slot released *)
  | step_final s pr :
      fault s = None → lock s = true → proc s = Some pr → ready T pr = true →
      next_phase T pr = final T →
      step s (s <| proc := None |> <| lock := false |> <| released ::= S |>)
  (** the loop ends *)
  | step_leave s pr :
      fault s = None → lock s = true → proc s = Some pr → ready T pr = false →
      step s (s <| lock := false |>).

(** The request's [process] made the processor and [startProcessor] triggered
    it. *)
Definition init (wd : world) (pr : P) : sys :=
  mk_sys wd (Some (trigger T pr)) 0 1 false 0 None.

(** A world in which the request has just arrived. *)
Definition fresh (wd : world) : Prop :=
  DataAccess.callbacks (World.database wd) = [] ∧ answers (World.wire wd) = 0%nat.

(** What holds after a piece of code has run: it reached its end, or faulted. *)
Lemma exec_case m pr s Q (I : sys → Prop) :
  wp m Q (mk_env (world_of s) pr) →
  (∀ e, Q (Ok tt) e → I (s <| world_of := w e |> <| proc := Some (p e) |>)) →
  (∀ o e ft, Q o e → o ≠ Ok tt → ft ≠ UseAfterFree →
     I (s <| world_of := w e |> <| proc := Some (p e) |> <| fault := Some ft |>)) →
  I (exec m pr s).
Proof.
  intros Hwp Hok Hft. unfold exec, wp in *. destruct (m _) as [o e].
  destruct o as [[]|x|]; [by apply Hok|by eapply Hft|by eapply Hft].
Qed.

(** *** An executable scheduler *)

(** What moves next: a driver thread with the [i]-th callback, a driver thread
    at the lock, or a worker. *)
Inductive choice := Data (i : nat) | Trigger | Acquire | Loop.

Definition next_data (pr : option P) (i : nat) (s : sys) : option sys :=
  match callbacks s !! i with
  | Some (f, a) =>
      if data_locks T a && lock s then None
      else Some (match pr with
                 | Some pr =>
                     exec (data T a f) pr
                       (drop_callback (take i (callbacks s) ++ drop (S i) (callbacks s)) s
                        <| fired ::= S |>)
                 | None => use_after_free s
                 end)
  | None => None
  end.

Definition next_loop (pr : P) (s : sys) : sys :=
  if ready T pr then
    if decide (next_phase T pr = final T)
    then s <| proc := None |> <| lock := false |> <| released ::= S |>
    else exec (run T (next_phase T pr)) pr s
  else s <| lock := false |>.

Definition next_state (c : choice) (s : sys) : option sys :=
  match fault s, c with
  | None, Data i => next_data (proc s) i s
  | None, Trigger =>
      match fired s, lock s with
      | S n, false =>
          Some (match proc s with
                | Some pr =>
                    s <| proc := Some (callback_over T (trigger T pr)) |>
                      <| fired := n |> <| msgs ::= S |>
                | None => use_after_free s
                end)
      | _, _ => None
      end
  | None, Acquire =>
      match msgs s, lock s with
      | S n, false =>
          Some (match proc s with
                | Some pr =>
                    s <| proc := Some (message_taken T pr) |> <| msgs := n |> <| lock := true |>
                | None => use_after_free s
                end)
      | _, _ => None
      end
  | None, Loop =>
      match lock s, proc s with
      | true, Some pr => Some (next_loop pr s)
      | _, _ => None
      end
  | Some _, _ => None
  end.

Lemma next_state_step c s s' : next_state c s = Some s' → step s s'.
Proof.
  unfold next_state. destruct (fault s) eqn:Hf; [done|].
  destruct c as [i| | |].
  - unfold next_data. destruct (callbacks s !! i) as [[f a]|] eqn:Hi; [|done].
    destruct (data_locks T a && lock s) eqn:Hl; [done|]. intros [= <-].
    apply (step_data s _ f a _ Hf (eq_sym (take_drop_middle _ _ _ Hi))).
    intros E. by rewrite E in Hl.
  - destruct (fired s) as [|n] eqn:Hn; [done|]. destruct (lock s) eqn:Hl; [done|]. intros [= <-].
    by apply (step_trigger s n).
  - destruct (msgs s) as [|n] eqn:Hn; [done|]. destruct (lock s) eqn:Hl; [done|]. intros [= <-].
    by apply (step_acquire s n).
  - destruct (lock s) eqn:Hl; [|done]. destruct (proc s) as [pr|] eqn:Hp; [|done]. intros [= <-].
    unfold next_loop.
    destruct (ready T pr) eqn:Hr; [|by eapply step_leave].
    destruct (decide _); [by eapply step_final|by eapply step_phase].
Qed.

Fixpoint schedule (l : list choice) (s : sys) : option sys :=
  match l with
  | [] => Some s
  | c :: l' => s' ← next_state c s; schedule l' s'
  end.

Lemma schedule_steps l s s' : schedule l s = Some s' → rtc step s s'.
Proof.
  revert s. induction l as [|c l IH]; intros s; cbn; [by intros [= <-]|].
  destruct (next_state c s) as [s1|] eqn:E; [|done]. cbn. intros Hl.
  eapply rtc_l; [by eapply next_state_step|by apply IH].
Qed.

(** A system in which no thread can move has nothing left in flight. *)
Lemma stopped_idle s pr :
  fault s = None → proc s = Some pr → (∀ s', ¬ step s s') →
  lock s = false ∧ fired s = 0%nat ∧ msgs s = 0%nat ∧ callbacks s = [].
Proof.
  intros Hf Hp Hstop.
  assert (lock s = false) as Hlk.
  { destruct (lock s) eqn:Hlk; [|done]. exfalso.
    destruct (ready T pr) eqn:Hrdy; [|by eapply Hstop, step_leave].
    destruct (decide (next_phase T pr = final T));
      [by eapply Hstop, step_final|by eapply Hstop, step_phase]. }
  split_and!; [done| | |].
  - destruct (fired s) eqn:E; [done|]. exfalso. by eapply Hstop, step_trigger.
  - destruct (msgs s) eqn:E; [done|]. exfalso. by eapply Hstop, step_acquire.
  - destruct (callbacks s) as [|[f a] l] eqn:Hc; [done|]. exfalso.
    eapply Hstop, (step_data s [] f a l); [done|by rewrite Hc|done].
Qed.

(** A query with a callback adds its future to [callbacks] when the driver
    accepts it, and does nothing else. *)
Definition issues {A} (m : M world A) (accepted : A → bool) (act : Z) : Prop :=
  ∀ wd, ∃ a, wp m (λ o wd', o = Ok a ∧
    World.wire wd' = World.wire wd ∧
    ∃ f, DataAccess.callbacks (World.database wd')
         = DataAccess.callbacks (World.database wd)
           ++ (if accepted a then [(f, act)] else [])) wd.

Lemma wp_issue {A} (m : M world A) accepted act Q e :
  issues m accepted act →
  (∀ a wd f, World.wire wd = World.wire (w e) →
     DataAccess.callbacks (World.database wd)
     = DataAccess.callbacks (World.database (w e)) ++ (if accepted a then [(f, act)] else []) →
     Q (Ok a) (e <| w := wd |>)) →
  wp (on_world m) Q e.
Proof.
  intros Hm HQ. destruct (Hm (w e)) as [a Ha]. unfold on_world. apply wp_zoom.
  eapply wp_mono; [exact Ha|]. intros o wd (-> & Hw & f & Hf). eauto.
Qed.

(** A database operation touches the database alone. *)
Lemma wp_on_db {A} (m : M (DataAccess.db Z) A) Q e :
  (∀ o d, Q o (e <| w ::= (λ w, w <| World.database := d |>) |>)) →
  wp (on_world (World.on_db m)) Q e.
Proof.
  intros HQ. unfold on_world, World.on_db. do 2 apply wp_zoom. unfold wp.
  destruct (m _) as [o d]. apply HQ.
Qed.

End Proc.

(** Proves [issues] of a query with a callback. *)
Ltac solve_issues :=
  let wd := fresh "wd" in
  intros wd; unfold World.on_db, DataAccess.execute, DataAccess.setCallback;
  unfold wp, zoom, mbind, M_bind, mret, M_ret; cbn;
  let fut := fresh "fut" in let s1 := fresh "s" in let ok := fresh "ok" in let s2 := fresh "s" in
  destruct (cass_session_execute _ _) as [fut s1]; cbn;
  destruct (cass_future_set_callback fut s1) as [ok s2]; cbn;
  eexists; split; [reflexivity|]; split; [reflexivity|]; exists fut;
  destruct ok; cbn; rewrite ?app_nil_r; reflexivity.

Arguments env {_} _ _.
Arguments processor {_} _ _.
Arguments sys {_} _ _.

Abbreviation callbacks s := (DataAccess.callbacks (World.database (world_of s))).
Abbreviation sys_answers s := (answers (World.wire (world_of s))).
