(* ===== verification/Air.v ===== *)
(** * Authentication-Information-Request: [AIRProcessor]

    Models the AIR part of src/s6as6d_impl.cpp (lines 1740-2135) and of
    include/s6as6d_impl.h: the three phases of the processor and its database
    callbacks, driven by the threads of Proc.v.

    What the source leaves uninitialised is a parameter: [u32] of phase1, the
    processor's byte arrays, the sequence number of a null column.  The number
    parsed from the IMSI only reaches a log line and is left out. *)

From S2P Require Import Prelude Codec Auc Access Diameter DataAccess World Proc.
#[local] Open Scope Z_scope.

Definition AUTH_MAX_EUTRAN_VECTORS : Z := 6.

Definition AIRSTATE_BASE : Z := WORKER_EVENT + 200.
Definition AIRSTATE_PHASEFINAL : Z := AIRSTATE_BASE + 0.
Definition AIRSTATE_PHASE1 : Z := AIRSTATE_BASE + 1.
Definition AIRSTATE_PHASE2 : Z := AIRSTATE_BASE + 2.
Definition AIRSTATE_PHASE3 : Z := AIRSTATE_BASE + 3.

Definition AIRDB_GET_IMSI_SEC : Z := 1.
Definition AIRDB_UPDATE_IMSI : Z := 2.

Module Air.

Section Air.
Context `{Cassandra} `{FreeDiameter} `{Nettle} {G : Type} `{LibcRand G}.

(** The fields of [AIRProcessor] ([m_air] is the request, [m_ans] the answer
    under construction). *)
Record AIRProcessor := mk_proc {
  m_air : message;
  m_ans : message;
  m_sec : DAImsiSec.t;
  m_imsi : string;
  m_vector : list Auc.auc_vector;
  m_num_vectors : Z;
  m_plmn_id : bytes;
  m_plmn_len : nat;
  m_auts : bytes;
  m_auts_len : nat;
  m_auts_set : bool;
  m_nextphase : Z;
  m_msgissued : Z;
  m_dbexecuted : Z;
  m_dbresult : Z;
  m_dbissued : Z }.

(** What the members hold before they are assigned. *)
Record uninit := mk_uninit {
  u_u32 : Z; u_sec : DAImsiSec.t; u_vector : list Auc.auc_vector; u_plmn_id : bytes;
  u_auts : bytes; u_sqn_nb : Z; u_imsi_hex : bytes }.

(** [Options::getroamallow()] and the random switch of the configuration. *)
Record config := mk_config { roamallow : bool; random_bool : Z }.

Variable (u : uninit) (cfg : config).

(** The constructor; [ans] is what the stack copies from the request. *)
Definition AIRProcessor_new (req ans : message) : AIRProcessor :=
  mk_proc req ans (u_sec u) "" (u_vector u) 0 (u_plmn_id u) 4 (u_auts u) 31 false
    AIRSTATE_PHASE1 0 0 (u32 (-1)) 0.

Abbreviation env := (Proc.env G AIRProcessor).

Definition ans_add (a : message) : M env unit := set_p (λ p, p <| m_ans ::= (λ l, l ++ a) |>).
Definition ans_send : M env unit := ans ← gets (λ e, m_ans (p e)); on_world (World.send_answer ans).

(** A top-level field of the request. *)
Definition air_field (k : avp_name) : M env (option avp) :=
  req ← gets (λ e, m_air (p e));
  lift (FDExtractor.field Extractors.AuthenticationInformationRequestExtractor req k).
Definition air_subfield (k : avp_name) (inner : FDExtractor.extractor) (k' : avp_name)
    : M env (option avp) :=
  req ← gets (λ e, m_air (p e));
  lift (FDExtractor.subfield Extractors.AuthenticationInformationRequestExtractor req k inner k').
Definition eutran_field : avp_name → M env (option avp) :=
  air_subfield "Requested-EUTRAN-Authentication-Info"
    Extractors.RequestedEutranAuthenticationInfoExtractor.
Definition utran_field : avp_name → M env (option avp) :=
  air_subfield "Requested-UTRAN-GERAN-Authentication-Info"
    Extractors.RequestedUtranGeranAuthenticationInfoExtractor.

(** The two ways a phase ends the request with an error. *)
Definition reject_result_code (code next : Z) : M env unit :=
  _ ← ans_add [FDMessage.result_code code];
  _ ← ans_send;
  _ ← on_world (World.registerStatResult stat_hss_air 0 code);
  set_p (λ p, p <| m_nextphase := next |>).
Definition reject_experimental (code next : Z) : M env unit :=
  _ ← ans_add [FDMessage.experimental_result code];
  _ ← ans_send;
  _ ← on_world (World.registerStatResult stat_hss_air VENDOR_3GPP code);
  set_p (λ p, p <| m_nextphase := next |>).

(** The database query that ends phase1. *)
Definition phase1_query : M env unit :=
  _ ← set_p (λ p, p <| m_nextphase := AIRSTATE_PHASE2 |>);
  imsi ← gets (λ e, m_imsi (p e));
  sec ← gets (λ e, m_sec (p e));
  '(issued, _) ← on_world (World.on_db
                   (DataAccess.getImsiSec (u_sqn_nb u) imsi sec (Some AIRDB_GET_IMSI_SEC)));
  if (issued : bool) then set_p (λ p, p <| m_dbissued ::= (λ n, u32 (n + 1)) |>)
  else reject_experimental DIAMETER_AUTHENTICATION_DATA_UNAVAILABLE AIRSTATE_PHASEFINAL.

(** The Visited-PLMN-Id check and the roaming restriction. *)
Definition phase1_plmn : M env unit :=
  a ← air_field "Visited-PLMN-Id";
  e ← gets p;
  '(found, plmn, len) ← lift (FDExtractor.get_bytes a (m_plmn_id e) (m_plmn_len e));
  if negb found then reject_result_code ER_DIAMETER_INVALID_AVP_VALUE ULRSTATE_PHASEFINAL
  else
    _ ← set_p (λ p, p <| m_plmn_id := plmn |> <| m_plmn_len := len |>);
    if negb (len =? 3)%nat then
      reject_result_code ER_DIAMETER_INVALID_AVP_VALUE ULRSTATE_PHASEFINAL
    else if roamallow cfg then phase1_query
    else
      rc ← lift (AccessRestriction.apply_access_restriction (u_imsi_hex u)
                   (upto_nul (m_imsi e)) plmn);
      if negb (rc =? 0) then
        reject_experimental DIAMETER_ERROR_ROAMING_NOT_ALLOWED ULRSTATE_PHASEFINAL
      else phase1_query.

(** Without E-UTRAN information a request for UTRAN or GERAN vectors is refused,
    and one for none at all goes on. *)
Definition phase1_utran : M env unit :=
  a ← utran_field "Number-Of-Requested-Vectors";
  e ← gets p;
  '(found, n) ← lift (FDExtractor.get_u32 a (m_num_vectors e));
  _ ← set_p (λ p, p <| m_num_vectors := n |>);
  if (found : bool) then reject_experimental DIAMETER_ERROR_RAT_NOT_ALLOWED ULRSTATE_PHASEFINAL
  else
    b ← utran_field "Re-Synchronization-Info";
    '(found, auts, len) ← lift (FDExtractor.get_bytes b (m_auts e) (m_auts_len e));
    _ ← set_p (λ p, p <| m_auts := auts |> <| m_auts_len := len |>);
    if (found : bool) then
      reject_experimental DIAMETER_ERROR_RAT_NOT_ALLOWED ULRSTATE_PHASEFINAL
    else phase1_plmn.

Definition phase1_resync (eutran_avp_found : bool) : M env unit :=
  b ← eutran_field "Re-Synchronization-Info";
  e ← gets p;
  '(found, auts, len) ← lift (FDExtractor.get_bytes b (m_auts e) (m_auts_len e));
  _ ← set_p (λ p, p <| m_auts := auts |> <| m_auts_len := len |>);
  _ ← (if (found : bool) then set_p (λ p, p <| m_auts_set := true |>) else mret tt);
  if eutran_avp_found || found then phase1_plmn else phase1_utran.

Definition phase1 : M env unit :=
  _ ← ans_add fd_origin;
  a ← air_field "Auth-Session-State";
  '(_, u32) ← lift (FDExtractor.get_u32 a (u_u32 u));
  _ ← ans_add [AvpU32 "Auth-Session-State" u32];
  a ← air_field "User-Name";
  e ← gets p;
  '(_, imsi) ← lift (FDExtractor.get_string a (m_imsi e));
  _ ← set_p (λ p, p <| m_imsi := imsi |>);
  if (IMSI_LENGTH <? String.length imsi)%nat then
    reject_result_code ER_DIAMETER_INVALID_AVP_VALUE ULRSTATE_PHASEFINAL
  else
    a ← eutran_field "Number-Of-Requested-Vectors";
    '(found, n) ← lift (FDExtractor.get_u32 a (m_num_vectors e));
    _ ← set_p (λ p, p <| m_num_vectors := n |>);
    if (found : bool) && (AUTH_MAX_EUTRAN_VECTORS <? n) then
      reject_result_code ER_DIAMETER_INVALID_AVP_VALUE ULRSTATE_PHASEFINAL
    else phase1_resync found.

(** *** Phase 2 *)

(** The resynchronisation: SQN_MS + 32 becomes the subscriber's number. *)
Definition resync : M env unit :=
  e ← gets p;
  match Auc.sqn_ms_derive (DAImsiSec.opc (m_sec e)) (DAImsiSec.key (m_sec e)) (m_auts e)
          (DAImsiSec.rand (m_sec e)) with
  | Some sqn =>
      let eu := Sqn.union_add (Sqn.SQN_TO_U64 sqn) 32 in
      set_p (λ p, p <| m_sec := DAImsiSec.mk (DAImsiSec.key (m_sec p)) (Sqn.U64_TO_SQN eu)
                                  (DAImsiSec.rand (m_sec p)) (DAImsiSec.opc (m_sec p)) |>)
  | None => mret tt
  end.

(** [m_vector[i]]. *)
Definition vector_at (i : nat) : M env Auc.auc_vector :=
  v ← gets (λ e, m_vector (p e));
  match v !! i with Some x => mret x | None => undefined end.

(** The loop that generates the vectors, from index [i], [n] of them. *)
Fixpoint generate_vectors (n i : nat) : M env unit :=
  match n with
  | O => mret tt
  | S n' =>
      v ← vector_at i;
      r ← on_world (World.generate_random (random_bool cfg) RAND_LENGTH);
      e ← gets p;
      let v := Auc.Build_auc_vector r (Auc.xres v) (Auc.autn v) (Auc.kasme v) in
      let '(_, v') := Auc.generate_vector (DAImsiSec.opc (m_sec e)) (DAImsiSec.key (m_sec e))
                        (take 3 (m_plmn_id e)) (DAImsiSec.sqn (m_sec e)) (Some v) in
      _ ← set_p (λ p, p <| m_vector ::= <[i := default v v']> |>);
      generate_vectors n' (S i)
  end.

Definition vector_avp (v : Auc.auc_vector) : avp :=
  AvpGroup "Authentication-Info"
    [AvpGroup "E-UTRAN-Vector"
       [AvpOctets "RAND" (Auc.rand v); AvpOctets "XRES" (Auc.xres v);
        AvpOctets "AUTN" (Auc.autn v); AvpOctets "KASME" (Auc.kasme v)]].

(** The update that ends phase2; the RAND is [m_vector[m_num_vectors - 1]]. *)
Definition phase2_update : M env unit :=
  _ ← set_p (λ p, p <| m_nextphase := AIRSTATE_PHASE3 |>);
  e ← gets p;
  v ← vector_at (Z.to_nat (u32 (m_num_vectors e - 1)));
  issued ← on_world (World.on_db
             (DataAccess.updateRandSqn (m_imsi e) (Auc.rand v) (DAImsiSec.sqn (m_sec e)) true
                (Some AIRDB_UPDATE_IMSI)));
  if (issued : bool) then set_p (λ p, p <| m_dbissued ::= (λ n, u32 (n + 1)) |>)
  else set_p (λ p, p <| m_nextphase := AIRSTATE_PHASEFINAL |>).

Definition phase2 : M env unit :=
  e ← gets p;
  if negb (FLAG_IS_SET (m_dbresult e) AIRDB_GET_IMSI_SEC) then
    reject_experimental DIAMETER_AUTHENTICATION_DATA_UNAVAILABLE AIRSTATE_PHASEFINAL
  else
    _ ← (if m_auts_set e then resync else mret tt);
    _ ← generate_vectors (Z.to_nat (m_num_vectors e)) 0;
    v0 ← vector_at 0;
    _ ← set_p (λ p, p <| m_sec := DAImsiSec.mk (DAImsiSec.key (m_sec p)) (DAImsiSec.sqn (m_sec p))
                                    (Auc.rand v0) (DAImsiSec.opc (m_sec p)) |>);
    e ← gets p;
    _ ← ans_add (vector_avp <$> take (Z.to_nat (m_num_vectors e)) (m_vector e));
    _ ← ans_add [FDMessage.result_code ER_DIAMETER_SUCCESS];
    _ ← ans_send;
    _ ← on_world (World.registerStatResult stat_hss_air 0 ER_DIAMETER_SUCCESS);
    phase2_update.

Definition phase3 : M env unit := set_p (λ p, p <| m_nextphase := AIRSTATE_PHASEFINAL |>).

(** *** The callbacks and the phase loop *)

Definition getImsiSec (f : cass_future) : M env unit :=
  e ← gets p;
  '(success, sec) ← lift (DataAccess.getImsiSecData (u_sqn_nb u) f (m_sec e));
  set_p (λ p, p <| m_sec := sec |>
                <| m_dbresult ::= (λ r, DB_OP_COMPLETE_RESULT r AIRDB_GET_IMSI_SEC success) |>
                <| m_dbexecuted ::= (λ x, DB_OP_COMPLETE_EXECUTED x AIRDB_GET_IMSI_SEC) |>).

Definition updateImsi (f : cass_future) : M env unit :=
  let success := negb (DataAccess.failed f) in
  set_p (λ p, p <| m_dbresult ::= (λ r, DB_OP_COMPLETE_RESULT r AIRDB_UPDATE_IMSI success) |>
                <| m_dbexecuted ::= (λ x, DB_OP_COMPLETE_EXECUTED x AIRDB_UPDATE_IMSI) |>).

(** [on_air_callback] up to the lock. *)
Definition on_air_callback_data (action : Z) (f : cass_future) : M env unit :=
  if action =? AIRDB_GET_IMSI_SEC then getImsiSec f
  else if action =? AIRDB_UPDATE_IMSI then updateImsi f
  else mret tt.

Definition phaseReady (phase adjustment : Z) (p : AIRProcessor) : bool :=
  if phase =? AIRSTATE_PHASE1 then true
  else if phase =? AIRSTATE_PHASE2 then FLAG_IS_SET (m_dbexecuted p) AIRDB_GET_IMSI_SEC
  else if phase =? AIRSTATE_PHASE3 then FLAG_IS_SET (m_dbexecuted p) AIRDB_UPDATE_IMSI
  else if phase =? AIRSTATE_PHASEFINAL then
    (u32 (m_dbissued p - adjustment) <=? 0) && (m_msgissued p =? 0)
  else false.

(** One iteration's phase; [PHASEFINAL] is the loop's own case. *)
Definition run_phase (phase : Z) : M env unit :=
  if phase =? AIRSTATE_PHASE1 then phase1
  else if phase =? AIRSTATE_PHASE2 then phase2
  else phase3.

Definition triggerNextPhase_counter (p : AIRProcessor) : AIRProcessor :=
  p <| m_msgissued ::= (λ n, u32 (n + 1)) |>.

(** The processor the threads of Proc.v drive. *)
Definition air_processor : processor G AIRProcessor := {|
  next_phase := m_nextphase;
  ready pr := phaseReady (m_nextphase pr) 0 pr;
  final := AIRSTATE_PHASEFINAL;
  run := run_phase;
  data := on_air_callback_data;
  data_locks _ := false;
  trigger := triggerNextPhase_counter;
  callback_over pr := pr <| m_dbissued ::= (λ x, u32 (x - 1)) |>;
  message_taken pr := pr <| m_msgissued ::= (λ x, u32 (x - 1)) |> |}.

Abbreviation sys := (Proc.sys G AIRProcessor).
Abbreviation step := (Proc.step air_processor).

(** [AUIRcmd::process] made the processor and [startProcessor] triggered it. *)
Definition start (wd : World.world Z G) (req ans : message) : sys :=
  init air_processor wd (AIRProcessor_new req ans).

(** *** What a phase does to the protocol state

    [quiet]: nothing the threads can see has changed since [e0].  [phase_post]:
    the phase ends in one of the [allowed] ways, given as the next phase, the
    queries issued and the answers sent; a phase that faults has sent at most
    one answer. *)

Abbreviation cbs e := (DataAccess.callbacks (World.database (w e))).
Abbreviation sent_answers e := (answers (World.wire (w e))).

Record quiet (e0 e : env) : Prop := {
  q_cbs : cbs e = cbs e0;
  q_ans : sent_answers e = sent_answers e0;
  q_issued : m_dbissued (p e) = m_dbissued (p e0);
  q_msg : m_msgissued (p e) = m_msgissued (p e0);
  q_exec : m_dbexecuted (p e) = m_dbexecuted (p e0) }.

Record effect (e0 e : env) (next : Z) (acts : list Z) (n : nat) : Prop := {
  ef_next : m_nextphase (p e) = next;
  ef_cbs : ∃ fs, cbs e = cbs e0 ++ fs ∧ fs.*2 = acts;
  ef_ans : sent_answers e = (sent_answers e0 + n)%nat;
  ef_issued : m_dbissued (p e) = foldr (λ _ x, u32 (x + 1)) (m_dbissued (p e0)) acts;
  ef_msg : m_msgissued (p e) = m_msgissued (p e0);
  ef_exec : m_dbexecuted (p e) = m_dbexecuted (p e0) }.

Definition phase_post (allowed : Z → list Z → nat → Prop) (e0 : env)
    (o : outcome unit) (e : env) : Prop :=
  match o with
  | Ok _ => ∃ next acts n, allowed next acts n ∧ effect e0 e next acts n
  | _ => (sent_answers e <= S (sent_answers e0))%nat
  end.

Lemma quiet_refl e : quiet e e.
Proof. by constructor. Qed.

Lemma quiet_throw A e0 e x : quiet e0 e → phase_post A e0 (Throw x) e.
Proof. intros []. cbn. lia. Qed.
Lemma quiet_undefined A e0 e : quiet e0 e → phase_post A e0 UB e.
Proof. intros []. cbn. lia. Qed.

(** Proves [quiet] of a state that differs in fields of its own. *)
Ltac solve_quiet :=
  match goal with
  | H : quiet _ _ |- quiet _ _ =>
      constructor;
        [ exact (q_cbs _ _ H) | exact (q_ans _ _ H) | exact (q_issued _ _ H)
        | exact (q_msg _ _ H) | exact (q_exec _ _ H) ]
  end.
(** Symbolic execution through the small operations. *)
Ltac air_unfold :=
  lazymatch goal with
  | |- wp (on_world (World.on_db _)) _ _ => fail
  | |- wp (on_world _) _ _ => unfold on_world
  | |- wp (set_p _) _ _ => unfold set_p
  | |- wp (ans_add _) _ _ => unfold ans_add
  | |- wp ans_send _ _ => unfold ans_send
  | |- wp (air_field _) _ _ => unfold air_field
  | |- wp (eutran_field _) _ _ => unfold eutran_field, air_subfield
  | |- wp (utran_field _) _ _ => unfold utran_field, air_subfield
  | |- wp (World.registerStatResult _ _ _) _ _ => unfold World.registerStatResult
  | |- wp (World.send_answer _) _ _ => unfold World.send_answer
  end.
Ltac air_step :=
  first [ wp_step
        | air_unfold
        | apply quiet_throw; solve_quiet
        | apply quiet_undefined; solve_quiet ].
Ltac air_steps := repeat (air_step; cbn beta).

Lemma wp_reject_result_code A e0 e code next :
  quiet e0 e → A next [] 1%nat → wp (reject_result_code code next) (phase_post A e0) e.
Proof.
  intros Hq HA. unfold reject_result_code. air_steps.
  exists next, [], 1%nat. split; [done|]. destruct Hq. constructor; cbn in *; try done.
  - exists []. by rewrite app_nil_r.
  - rewrite answers_app. cbn. congruence.
Qed.

Lemma wp_reject_experimental A e0 e code next :
  quiet e0 e → A next [] 1%nat → wp (reject_experimental code next) (phase_post A e0) e.
Proof.
  intros Hq HA. unfold reject_experimental. air_steps.
  exists next, [], 1%nat. split; [done|]. destruct Hq. constructor; cbn in *; try done.
  - exists []. by rewrite app_nil_r.
  - rewrite answers_app. cbn. congruence.
Qed.

Lemma getImsiSec_issues x imsi sec act :
  issues (G := G) (World.on_db (DataAccess.getImsiSec x imsi sec (Some act))) fst act.
Proof. unfold DataAccess.getImsiSec. solve_issues. Qed.

Lemma updateRandSqn_issues imsi r sqn inc act :
  issues (G := G) (World.on_db (DataAccess.updateRandSqn imsi r sqn inc (Some act))) id act.
Proof. unfold DataAccess.updateRandSqn. solve_issues. Qed.

(** How phase1 may end. *)
Definition allowed1 (next : Z) (acts : list Z) (n : nat) : Prop :=
  (next = ULRSTATE_PHASEFINAL ∧ acts = [] ∧ n = 1%nat)
  ∨ (next = AIRSTATE_PHASEFINAL ∧ acts = [] ∧ n = 1%nat)
  ∨ (next = AIRSTATE_PHASE2 ∧ acts = [AIRDB_GET_IMSI_SEC] ∧ n = 0%nat).

(** The state after a query that the driver took. *)
Lemma effect_issued e0 e e1 next act fs :
  quiet e0 e → cbs e1 = cbs e ++ fs → fs.*2 = [act] →
  sent_answers e1 = sent_answers e → m_nextphase (p e1) = next →
  m_dbissued (p e1) = u32 (m_dbissued (p e) + 1) →
  m_msgissued (p e1) = m_msgissued (p e) → m_dbexecuted (p e1) = m_dbexecuted (p e) →
  effect e0 e1 next [act] 0.
Proof.
  intros [] Hc Hf Ha Hn Hi Hm Hx. constructor; cbn; try congruence.
  - exists fs. split; [congruence|done].
  - rewrite Ha. lia.
Qed.

Lemma wp_phase1_query e0 e : quiet e0 e → wp phase1_query (phase_post allowed1 e0) e.
Proof.
  intros Hq. unfold phase1_query. air_steps.
  eapply wp_issue; [apply getImsiSec_issues|]. cbn.
  intros [ok sec] wd f Hw Hcb. cbn in *. air_steps.
  - exists AIRSTATE_PHASE2, [AIRDB_GET_IMSI_SEC], 0%nat.
    split; [by right; right|]. by eapply effect_issued; cbn; rewrite ?Hw.
  - apply wp_reject_experimental; [|by right; left].
    destruct Hq. constructor; cbn; try done; [by rewrite Hcb, app_nil_r|by rewrite Hw].
Qed.

(** Closes the calls a phase ends with. *)
Ltac air_reject :=
  lazymatch goal with
  | |- wp (reject_result_code _ _) _ _ => apply wp_reject_result_code; [solve_quiet|by left]
  | |- wp (reject_experimental _ _) _ _ => apply wp_reject_experimental; [solve_quiet|by left]
  end.

Lemma wp_phase1_plmn e0 e : quiet e0 e → wp phase1_plmn (phase_post allowed1 e0) e.
Proof.
  intros Hq. unfold phase1_plmn. air_steps.
  all: first [ air_reject | apply wp_phase1_query; solve_quiet ].
Qed.

Lemma wp_phase1_utran e0 e : quiet e0 e → wp phase1_utran (phase_post allowed1 e0) e.
Proof.
  intros Hq. unfold phase1_utran. air_steps.
  all: first [ air_reject | apply wp_phase1_plmn; solve_quiet ].
Qed.

Lemma wp_phase1_resync b e0 e : quiet e0 e → wp (phase1_resync b) (phase_post allowed1 e0) e.
Proof.
  intros Hq. unfold phase1_resync. air_steps.
  all: lazymatch goal with
       | |- wp phase1_plmn _ _ => apply wp_phase1_plmn; solve_quiet
       | |- _ => apply wp_phase1_utran; solve_quiet
       end.
Qed.

Lemma wp_phase1 e : wp phase1 (phase_post allowed1 e) e.
Proof.
  pose proof (quiet_refl e) as Hq. unfold phase1. air_steps.
  all: first [ air_reject | apply wp_phase1_resync; solve_quiet ].
Qed.

(** How phase2 and phase3 may end. *)
Definition allowed2 (next : Z) (acts : list Z) (n : nat) : Prop :=
  (next = AIRSTATE_PHASEFINAL ∧ acts = [] ∧ n = 1%nat)
  ∨ (next = AIRSTATE_PHASE3 ∧ acts = [AIRDB_UPDATE_IMSI] ∧ n = 1%nat).
Definition allowed3 (next : Z) (acts : list Z) (n : nat) : Prop :=
  next = AIRSTATE_PHASEFINAL ∧ acts = [] ∧ n = 0%nat.

Lemma wp_vector_at Q i e :
  (∀ v, m_vector (p e) !! i = Some v → Q (Ok v) e) →
  (m_vector (p e) !! i = None → Q UB e) → wp (vector_at i) Q e.
Proof.
  intros HS HN. unfold vector_at. do 2 wp_step. cbn [keep_fault].
  destruct (m_vector (p e) !! i) eqn:E; cbn; [apply wp_ret|apply wp_undefined]; auto.
Qed.

Lemma wp_generate_random Q b n (e : env) :
  (∀ r wd, DataAccess.callbacks (World.database wd) = cbs e → World.wire wd = World.wire (w e) →
     Q (Ok r) (e <| w := wd |>)) →
  wp (on_world (World.generate_random b n)) Q e.
Proof.
  intros HQ. unfold on_world, World.generate_random, wp, zoom.
  destruct (Random.generate_random b n (World.random (w e))) as [r st]. cbn. by apply HQ.
Qed.

Lemma wp_generate_vectors n i e0 e :
  quiet e0 e → wp (generate_vectors n i) (λ _ e', quiet e0 e') e.
Proof.
  revert i e. induction n as [|n IH]; intros i e Hq; cbn [generate_vectors]; [by apply wp_ret|].
  wp_step. apply wp_vector_at; [|done]. intros v _. cbn [keep_fault].
  wp_step. apply wp_generate_random. intros r wd Hcb Hw. cbn [keep_fault].
  assert (quiet e0 (e <| w := wd |>)) as Hq'.
  { destruct Hq. by constructor; cbn; rewrite ?Hcb, ?Hw. }
  clear Hq Hcb Hw. revert Hq'. generalize (e <| w := wd |>). clear e. intros e Hq.
  air_steps. apply IH. solve_quiet.
Qed.

Lemma wp_resync e0 e : quiet e0 e → wp resync (λ _ e', quiet e0 e') e.
Proof.
  intros Hq. unfold resync. do 2 wp_step. cbn [keep_fault].
  destruct (Auc.sqn_ms_derive _ _ _ _); air_steps; [solve_quiet|done].
Qed.

Lemma wp_phase2_update e0 e :
  effect e0 e (m_nextphase (p e)) [] 1 → wp phase2_update (phase_post allowed2 e0) e.
Proof.
  intros [_ (fs & Hcb & Hfs) Ha Hi Hm Hx]. apply fmap_nil_inv in Hfs as ->.
  rewrite app_nil_r in Hcb. cbn in Hi.
  unfold phase2_update. air_steps. apply wp_vector_at; [|intros _; cbn; lia].
  intros v _. cbn [keep_fault]. wp_step.
  eapply wp_issue; [apply updateRandSqn_issues|]. intros ok wd f Hw Hcb'. cbn in *.
  destruct ok; air_steps.
  - exists AIRSTATE_PHASE3, [AIRDB_UPDATE_IMSI], 1%nat. split; [by right|].
    constructor; cbn; rewrite ?Hw, ?Hcb', ?Hcb; try done; [by eexists|congruence].
  - exists AIRSTATE_PHASEFINAL, [], 1%nat. split; [by left|].
    constructor; cbn; rewrite ?Hw, ?Hcb', ?Hcb; try done.
    exists []. by rewrite !app_nil_r.
Qed.

Lemma wp_phase2 e : wp phase2 (phase_post allowed2 e) e.
Proof.
  pose proof (quiet_refl e) as Hq. unfold phase2. do 2 wp_step. cbn [keep_fault].
  wp_step; [by air_reject|]. wp_step.
  assert (∀ b : bool, wp (if b then resync else mret tt) (λ _ e', quiet e e') e) as Hr.
  { intros []; [by apply wp_resync|by apply wp_ret]. }
  eapply wp_mono; [apply Hr|]. clear Hr Hq. cbn. intros o e1 Hq.
  destruct o; cbn [keep_fault]; [|by apply quiet_throw|by apply quiet_undefined].
  wp_step. eapply wp_mono; [by apply (wp_generate_vectors _ _ e)|]. clear Hq. cbn. intros o e2 Hq.
  destruct o; cbn [keep_fault]; [|by apply quiet_throw|by apply quiet_undefined].
  wp_step. apply wp_vector_at; [|intros _; by apply quiet_undefined].
  intros v0 _. cbn [keep_fault]. air_steps.
  apply wp_phase2_update. destruct Hq. constructor; cbn; try done.
  - exists []. by rewrite app_nil_r.
  - rewrite answers_app. cbn. congruence.
Qed.

Lemma wp_phase3 e : wp phase3 (phase_post allowed3 e) e.
Proof.
  unfold phase3. air_steps. exists AIRSTATE_PHASEFINAL, [], 0%nat. split; [done|].
  constructor; cbn; try done; first [lia | exists []; by rewrite app_nil_r].
Qed.

(** What a callback's data part does: it marks its query executed. *)
Definition data_post (a : Z) (e0 : env) (o : outcome unit) (e : env) : Prop :=
  cbs e = cbs e0 ∧ sent_answers e = sent_answers e0 ∧
  match o with
  | Ok _ =>
      m_nextphase (p e) = m_nextphase (p e0) ∧ m_dbissued (p e) = m_dbissued (p e0) ∧
      m_msgissued (p e) = m_msgissued (p e0) ∧
      m_dbexecuted (p e) = if (a =? AIRDB_GET_IMSI_SEC) || (a =? AIRDB_UPDATE_IMSI)
                           then FLAGS_SET (m_dbexecuted (p e0)) a else m_dbexecuted (p e0)
  | _ => True
  end.

Lemma wp_callback_data a f e : wp (on_air_callback_data a f) (data_post a e) e.
Proof.
  unfold on_air_callback_data.
  destruct (Z.eqb_spec a AIRDB_GET_IMSI_SEC) as [->|].
  { unfold getImsiSec. air_steps; unfold data_post; cbn; by split_and!. }
  destruct (Z.eqb_spec a AIRDB_UPDATE_IMSI) as [->|].
  - unfold updateImsi. air_steps. unfold data_post; cbn; split_and!; try done.
  - air_steps. unfold data_post. rewrite !(proj2 (Z.eqb_neq _ _)) by done. by split_and!.
Qed.

(** The ways out of the phase [k]; phase3 never faults. *)
Definition allowed (k : Z) : Z → list Z → nat → Prop :=
  if k =? AIRSTATE_PHASE1 then allowed1 else if k =? AIRSTATE_PHASE2 then allowed2 else allowed3.

Lemma wp_run_phase k e :
  k = AIRSTATE_PHASE1 ∨ k = AIRSTATE_PHASE2 ∨ k = AIRSTATE_PHASE3 →
  wp (run_phase k)
     (λ o e', phase_post (allowed k) e o e' ∧ (k = AIRSTATE_PHASE3 → o = Ok tt)) e.
Proof.
  intros [-> | [-> | ->]].
  - eapply wp_mono; [apply wp_phase1|]. by split.
  - eapply wp_mono; [apply wp_phase2|]. by split.
  - unfold run_phase. cbn. pose proof (wp_phase3 e) as Hw. revert Hw. by unfold wp.
Qed.

Lemma phaseReady_known k j pr :
  phaseReady k j pr = true →
  k = AIRSTATE_PHASE1 ∨ k = AIRSTATE_PHASE2 ∨ k = AIRSTATE_PHASE3 ∨ k = AIRSTATE_PHASEFINAL.
Proof. unfold phaseReady. repeat case_match; intros; try done; lia. Qed.

(** *** The invariant of the threads around a processor *)

Definition load (s : sys) : nat := (msgs s + (length (callbacks s) + fired s))%nat.

(** The answers sent, the work in flight and the query awaited in each phase. *)
Definition phase_ok (next executed : Z) (acts : list Z) (load ans : nat) : Prop :=
  (next = AIRSTATE_PHASE1 ∧ (load <= 1)%nat ∧ ans = 0%nat)
  ∨ (next = AIRSTATE_PHASE2 ∧ (load <= 2)%nat ∧ ans = 0%nat ∧
     (FLAG_IS_SET executed AIRDB_GET_IMSI_SEC = true ∨ AIRDB_GET_IMSI_SEC ∈ acts))
  ∨ (next = AIRSTATE_PHASE3 ∧ (load <= 3)%nat ∧ ans = 1%nat ∧
     (FLAG_IS_SET executed AIRDB_UPDATE_IMSI = true ∨ AIRDB_UPDATE_IMSI ∈ acts))
  ∨ ((next = AIRSTATE_PHASEFINAL ∨ next = ULRSTATE_PHASEFINAL) ∧ (load <= 3)%nat ∧ ans = 1%nat).

Record live (s : sys) (pr : AIRProcessor) : Prop := {
  lv_released : released s = 0%nat;
  lv_issued : m_dbissued pr = Z.of_nat (length (callbacks s) + fired s);
  lv_msgs : m_msgissued pr = Z.of_nat (msgs s);
  lv_phase : phase_ok (m_nextphase pr) (m_dbexecuted pr) (callbacks s).*2 (load s) (sys_answers s);
  lv_quiet : lock s = false → msgs s = 0%nat → fired s = 0%nat →
             phaseReady (m_nextphase pr) 0 pr = false }.

Record deleted (s : sys) : Prop := {
  dl_callbacks : callbacks s = [];
  dl_fired : fired s = 0%nat;
  dl_msgs : msgs s = 0%nat;
  dl_lock : lock s = false;
  dl_released : released s = 1%nat;
  dl_answers : sys_answers s = 1%nat }.

Definition alive (s : sys) : Prop :=
  match proc s with Some pr => live s pr | None => deleted s end.

Record inv (s : sys) : Prop := {
  inv_answers : (sys_answers s <= 1)%nat;
  inv_no_uaf : fault s ≠ Some UseAfterFree;
  inv_alive : fault s = None → alive s }.

Lemma phase_ok_answers k x acts l n : phase_ok k x acts l n → (n <= 1)%nat.
Proof. intros [?|[?|[?|?]]]; destruct_and?; lia. Qed.

Lemma live_inv s pr : fault s = None → proc s = Some pr → live s pr → inv s.
Proof.
  intros Hf Hp Hl. constructor; [|by rewrite Hf|].
  - eapply phase_ok_answers, lv_phase, Hl.
  - intros _. unfold alive. by rewrite Hp.
Qed.

(** A piece of code that runs to its end leaves its final state; one that
    faults stops the process. *)
Lemma exec_inv m pr s Q :
  fault s = None → wp m Q (mk_env (world_of s) pr) →
  (∀ e, Q (Ok tt) e → inv (s <| world_of := w e |> <| proc := Some (p e) |>)) →
  (∀ o e, Q o e → (sent_answers e <= 1)%nat) →
  inv (exec m pr s).
Proof.
  intros Hf Hwp Hok Hans. eapply exec_case; [exact Hwp|exact Hok|].
  intros o e ft HQ _ Hu. specialize (Hans _ _ HQ).
  constructor; cbn; [done|by intros [= ->]|done].
Qed.

Lemma phase_ok_weaken k x x' acts acts' l l' n :
  phase_ok k x acts l n → (l' <= l)%nat →
  (∀ a, (FLAG_IS_SET x a = true ∨ a ∈ acts) → (a = AIRDB_GET_IMSI_SEC ∨ a = AIRDB_UPDATE_IMSI) →
        FLAG_IS_SET x' a = true ∨ a ∈ acts') →
  phase_ok k x' acts' l' n.
Proof.
  intros [?|[?|[?|?]]] Hl Ha; destruct_and?; [left|right; left|right; right; left|right; right; right];
    split_and!; try done; try lia; by apply Ha; auto.
Qed.

Lemma inv_data s pr l1 f a l2 :
  fault s = None → proc s = Some pr → live s pr → callbacks s = l1 ++ (f, a) :: l2 →
  inv (exec (on_air_callback_data a f) pr (drop_callback (l1 ++ l2) s <| fired ::= S |>)).
Proof.
  intros Hf Hp [Hr Hi Hm Hph Hq] Hcb.
  eapply exec_inv; [done|apply wp_callback_data| |].
  - intros e (Hc & Ha & Hn & Hi' & Hm' & Hx). cbn in Hc, Ha, Hn, Hi', Hm', Hx.
    eapply live_inv; [done|done|].
    unfold load in *. rewrite Hcb, length_app in Hph, Hi. cbn in Hph, Hi.
    constructor; cbn; rewrite ?Hc, ?Ha, ?Hn, ?Hi', ?Hm', ?length_app; try done.
    + lia.
    + eapply phase_ok_weaken; [exact Hph|lia|].
      rewrite Hx, !fmap_app. cbn. intros b [Hb|Hb] Hk.
      * left. destruct (_ || _); [by apply FLAG_IS_SET_mono|done].
      * rewrite elem_of_app, elem_of_cons in *. destruct Hb as [Hb|[->|Hb]]; [tauto| |tauto].
        left. destruct Hk as [->| ->]; by apply FLAG_IS_SET_same.
  - intros o e (_ & Ha & _). cbn in Ha. rewrite Ha. by eapply phase_ok_answers.
Qed.

(** The ways out of a phase keep [phase_ok]. *)
Lemma phase_ok_next k x acts l n next acts' n' :
  phase_ok k x acts l n → k ≠ AIRSTATE_PHASEFINAL → k ≠ ULRSTATE_PHASEFINAL →
  allowed k next acts' n' →
  phase_ok next x (acts ++ acts') (l + length acts') (n + n').
Proof.
  intros [Hph|[Hph|[Hph|Hph]]] H1' H2' Hal; destruct_and?; subst; unfold allowed in Hal; cbn in Hal.
  - destruct Hal as [(->&->&->)|[(->&->&->)|(->&->&->)]]; cbn.
    + right; right; right. split_and!; [by right|lia|lia].
    + right; right; right. split_and!; [by left|lia|lia].
    + right; left. split_and!; [done|lia|lia|]. right. apply elem_of_app. right. by left.
  - destruct Hal as [(->&->&->)|(->&->&->)]; cbn.
    + right; right; right. split_and!; [by left|lia|lia].
    + right; right; left. split_and!; [done|lia|lia|]. right. apply elem_of_app. right. by left.
  - destruct Hal as (->&->&->); cbn. right; right; right. split_and!; [by left|lia|lia].
  - tauto.
Qed.

Lemma allowed_length k next acts n : allowed k next acts n → (length acts <= 1)%nat.
Proof.
  unfold allowed, allowed1, allowed2, allowed3. repeat case_match; intros; destruct_or?;
    destruct_and?; subst; cbn; lia.
Qed.

Lemma phase_ok_load k x acts l n : phase_ok k x acts l n → (l <= 3)%nat.
Proof. intros [?|[?|[?|?]]]; destruct_and?; lia. Qed.

Lemma inv_phase s pr :
  fault s = None → proc s = Some pr → live s pr → lock s = true →
  phaseReady (m_nextphase pr) 0 pr = true → m_nextphase pr ≠ AIRSTATE_PHASEFINAL →
  inv (exec (run_phase (m_nextphase pr)) pr s).
Proof.
  intros Hf Hp [Hr Hi Hm Hph Hq] Hl Hrdy Hne. pose proof (phaseReady_known _ _ _ Hrdy) as Hk.
  assert (m_nextphase pr ≠ ULRSTATE_PHASEFINAL) as Hne'.
  { intros E. rewrite E in Hk. by destruct_or? Hk. }
  eapply exec_inv; [done|apply wp_run_phase; tauto| |].
  - intros e [(next & acts & n & Hal & [Hn (fs & Hc & Hfs) Ha Hi' Hm' Hx]) _].
    cbn in Hc, Ha, Hi', Hm', Hx.
    pose proof (phase_ok_next _ _ _ _ _ _ _ _ Hph Hne Hne' Hal) as Hph'.
    pose proof (phase_ok_load _ _ _ _ _ Hph') as Hload. apply allowed_length in Hal.
    assert (length fs = length acts) as Hlen by (by rewrite <-Hfs, length_fmap).
    eapply live_inv; [done|done|]. unfold load in *.
    constructor; cbn; rewrite ?Hc, ?Ha, ?Hm', ?Hi', ?Hn, ?Hx, ?length_app, ?fmap_app, ?Hfs, ?Hlen;
      try done.
    + rewrite Hi. destruct acts as [|? [|]]; cbn in *; [lia| |lia].
      rewrite u32_small by lia. lia.
    + replace (msgs s + (length (callbacks s) + length acts + fired s))%nat
        with (msgs s + (length (callbacks s) + fired s) + length acts)%nat by lia. done.
    + congruence.
  - intros o e [Hpost H3]. destruct o; cbn in Hpost.
    + destruct Hpost as (next & acts & n & Hal & [_ _ Ha _ _ _]). cbn in Ha. rewrite Ha.
      eapply phase_ok_answers, phase_ok_next; eauto.
    + assert (m_nextphase pr ≠ AIRSTATE_PHASE3) by (intros E; specialize (H3 E); done).
      destruct Hph as [?|[?|[?|?]]]; destruct_and?; done || lia || tauto.
    + assert (m_nextphase pr ≠ AIRSTATE_PHASE3) by (intros E; specialize (H3 E); done).
      destruct Hph as [?|[?|[?|?]]]; destruct_and?; done || lia || tauto.
Qed.

Lemma inv_trigger s pr n :
  fault s = None → live s pr → fired s = S n →
  inv (s <| proc := Some (triggerNextPhase_counter pr <| m_dbissued ::= (λ x, u32 (x - 1)) |>) |>
         <| fired := n |> <| msgs ::= S |>).
Proof.
  intros Hf [Hr Hi Hm Hph Hq] Hn. pose proof (phase_ok_load _ _ _ _ _ Hph) as Hload.
  unfold load in *. rewrite Hn in *.
  eapply live_inv; [done|done|]. constructor; cbn; try done.
  - rewrite Hi, u32_small by lia. lia.
  - rewrite Hm, u32_small by lia. lia.
  - unfold load; cbn. eapply phase_ok_weaken; [exact Hph|lia|done].
Qed.

Lemma inv_acquire s pr n :
  fault s = None → live s pr → msgs s = S n →
  inv (s <| proc := Some (pr <| m_msgissued ::= (λ x, u32 (x - 1)) |>) |>
         <| msgs := n |> <| lock := true |>).
Proof.
  intros Hf [Hr Hi Hm Hph Hq] Hn. pose proof (phase_ok_load _ _ _ _ _ Hph) as Hload.
  unfold load in *. rewrite Hn in *.
  eapply live_inv; [done|done|]. constructor; cbn; try done.
  - rewrite Hm, u32_small by lia. lia.
  - unfold load; cbn. eapply phase_ok_weaken; [exact Hph|lia|done].
Qed.

(** [PHASEFINAL] is ready only when nothing refers to the processor. *)
Lemma final_ready_idle s pr :
  live s pr → m_nextphase pr = AIRSTATE_PHASEFINAL → phaseReady (m_nextphase pr) 0 pr = true →
  callbacks s = [] ∧ fired s = 0%nat ∧ msgs s = 0%nat ∧ sys_answers s = 1%nat.
Proof.
  intros [Hr Hi Hm Hph Hq] Hk Hrdy. pose proof (phase_ok_load _ _ _ _ _ Hph) as Hload.
  unfold load in Hload. rewrite Hk in Hrdy, Hph. unfold phaseReady in Hrdy. cbn in Hrdy.
  apply andb_true_iff in Hrdy as [H1' H2']. rewrite Z.sub_0_r, Hi, u32_small in H1' by lia.
  rewrite Hm in H2'. apply Z.leb_le in H1'. apply Z.eqb_eq in H2'.
  assert (length (callbacks s) = 0%nat) as Hl by lia. apply length_zero_iff_nil in Hl.
  destruct Hph as [?|[?|[?|?]]]; destruct_and?; try done. split_and!; try done; lia.
Qed.

Lemma inv_final s pr :
  fault s = None → live s pr → m_nextphase pr = AIRSTATE_PHASEFINAL →
  phaseReady (m_nextphase pr) 0 pr = true →
  inv (s <| proc := None |> <| lock := false |> <| released ::= S |>).
Proof.
  intros Hf Hl Hk Hrdy. destruct (final_ready_idle s pr Hl Hk Hrdy) as (?&?&?&Ha).
  constructor; cbn; [by rewrite Ha|by rewrite Hf|].
  intros _. constructor; cbn; try done. by rewrite (lv_released _ _ Hl).
Qed.

Lemma air_inv_step s s' : step s s' → inv s → inv s'.
Proof.
  intros Hstep [_ _ Ha].
  destruct Hstep as [s l1 f a l2 Hf Hcb|s n Hf Hn Hlk|s n Hf Hn Hlk|s pr Hf Hlk Hp Hrdy Hne
                    |s pr Hf Hlk Hp Hrdy Hk|s pr Hf Hlk Hp Hrdy];
    specialize (Ha Hf); unfold alive in Ha.
  - destruct (proc s) as [pr|] eqn:Hp; [by eapply inv_data|].
    destruct Ha as [Hc _ _ _ _ _]. rewrite Hc in Hcb. by destruct l1.
  - destruct (proc s) as [pr|] eqn:Hp; [by apply inv_trigger|].
    destruct Ha as [_ Hfi _ _ _ _]. congruence.
  - destruct (proc s) as [pr|] eqn:Hp; [by apply inv_acquire|].
    destruct Ha as [_ _ Hms _ _ _]. congruence.
  - rewrite Hp in Ha. by apply inv_phase.
  - rewrite Hp in Ha. by eapply inv_final.
  - rewrite Hp in Ha. destruct Ha as [Hr Hi Hm Hph Hq].
    eapply live_inv; [done|done|]. by constructor; cbn.
Qed.

Lemma air_inv_start wd req ans : fresh wd → inv (start wd req ans).
Proof.
  intros [Hc Ha]. eapply live_inv; [done|done|].
  unfold init. constructor; cbn; rewrite ?Hc, ?Ha; try done.
  left. split_and!; [done|cbn; lia|done].
Qed.

Lemma air_inv_reachable wd req ans s : fresh wd → rtc step (start wd req ans) s → inv s.
Proof.
  intros Hw Hr. pose proof (air_inv_start wd req ans Hw) as Hi. revert Hi.
  induction Hr; eauto using air_inv_step.
Qed.

(** C6: Whatever the request, the database and the interleaving of driver
    threads and workers, the AIR processor is never used after it is deleted:
    it is deleted only when no callback and no worker message refers to it. *)
Theorem air_no_use_after_free wd req ans s :
  fresh wd → rtc step (start wd req ans) s →
  fault s ≠ Some UseAfterFree ∧
  (fault s = None → proc s = None → callbacks s = [] ∧ fired s = 0%nat ∧ msgs s = 0%nat).
Proof.
  intros Hw Hr. destruct (air_inv_reachable _ _ _ _ Hw Hr) as [_ Hu Ha]. split; [done|].
  intros Hf Hp. specialize (Ha Hf). unfold alive in Ha. rewrite Hp in Ha. by destruct Ha.
Qed.

(** C7: An AIR is answered at most once in every run, and exactly once by the
    time its processor is deleted. *)
Theorem air_answered_once wd req ans s :
  fresh wd → rtc step (start wd req ans) s →
  (sys_answers s <= 1)%nat ∧ (fault s = None → proc s = None → sys_answers s = 1%nat).
Proof.
  intros Hw Hr. destruct (air_inv_reachable _ _ _ _ Hw Hr) as [Hn _ Ha]. split; [done|].
  intros Hf Hp. specialize (Ha Hf). unfold alive in Ha. rewrite Hp in Ha. by destruct Ha.
Qed.

(** *** Termination *)

Definition rank (k : Z) : nat :=
  if k =? AIRSTATE_PHASE1 then 4 else if k =? AIRSTATE_PHASE2 then 3
  else if k =? AIRSTATE_PHASE3 then 2 else 1.

(** The work left: phases to run, callbacks to fire, messages to take. *)
Definition measure (s : sys) : nat :=
  match fault s with
  | Some _ => 0
  | None =>
      (1 + 10 * (match proc s with Some pr => rank (m_nextphase pr) | None => 0 end)
       + 4 * length (callbacks s) + 3 * fired s + 2 * msgs s + if lock s then 1 else 0)%nat
  end.

Lemma allowed_rank k next acts n :
  allowed k next acts n → k = AIRSTATE_PHASE1 ∨ k = AIRSTATE_PHASE2 ∨ k = AIRSTATE_PHASE3 →
  (rank next < rank k)%nat.
Proof.
  intros Hal [-> | [-> | ->]].
  - destruct Hal as [(->&_)|[(->&_)|(->&_)]]; by apply Nat.ltb_lt.
  - destruct Hal as [(->&_)|(->&_)]; by apply Nat.ltb_lt.
  - destruct Hal as (->&_); by apply Nat.ltb_lt.
Qed.

Lemma measure_exec m pr s Q n :
  wp m Q (mk_env (world_of s) pr) → (0 < n)%nat →
  (∀ e, Q (Ok tt) e → (measure (s <| world_of := w e |> <| proc := Some (p e) |>) < n)%nat) →
  (measure (exec m pr s) < n)%nat.
Proof.
  intros Hwp Hpos Hok. eapply (exec_case _ _ _ _ (λ s', (measure s' < n)%nat)); [exact Hwp|exact Hok|].
  intros o e ft _ _ _. exact Hpos.
Qed.

Lemma air_step_measure s s' : step s s' → (measure s' < measure s)%nat.
Proof.
  intros Hstep.
  destruct Hstep as [s l1 f a l2 Hf Hcb|s n Hf Hn Hlk|s n Hf Hn Hlk|s pr Hf Hlk Hp Hrdy Hne
                    |s pr Hf Hlk Hp Hrdy Hk|s pr Hf Hlk Hp Hrdy].
  - destruct (proc s) as [pr|] eqn:Hp; [|unfold measure; cbn; rewrite Hf; lia].
    assert (0 < measure s)%nat as Hpos by (unfold measure; rewrite Hf; lia).
    eapply measure_exec; [apply wp_callback_data|done|]. intros e (Hc & _ & Hn & _).
    unfold measure; cbn in *. rewrite Hf, Hp, Hn, Hc, Hcb, !length_app. cbn. lia.
  - destruct (proc s) as [pr|] eqn:Hp; unfold measure; cbn; rewrite ?Hp, ?Hf, ?Hn, ?Hlk; lia.
  - destruct (proc s) as [pr|] eqn:Hp; unfold measure; cbn; rewrite ?Hp, ?Hf, ?Hn, ?Hlk; lia.
  - assert (0 < measure s)%nat as Hpos by (unfold measure; rewrite Hf; lia).
    pose proof (phaseReady_known _ _ _ Hrdy) as Hk.
    eapply measure_exec; [apply wp_run_phase; tauto|done|].
    intros e [(next & acts & n & Hal & [Hn (fs & Hc & Hfs) _ _ _ _]) _].
    pose proof (allowed_length _ _ _ _ Hal) as Hlen. apply allowed_rank in Hal; [|tauto].
    assert (length fs = length acts) as Hlen' by (by rewrite <-Hfs, length_fmap).
    unfold measure; cbn in *. rewrite Hf, Hp, Hn, Hc, Hlk, !length_app. lia.
  - unfold measure; cbn. rewrite Hf, Hp, Hlk. lia.
  - unfold measure; cbn. rewrite Hf, Hp, Hlk. lia.
Qed.

(** C8: Every run of an AIR is finite, and when no thread can move any more
    the process has faulted, or the processor was deleted and its slot
    released, or it is stuck in the foreign final state that the error
    branches of phase1 assign; in the last two cases the request has been
    answered exactly once. *)
Theorem air_runs_settle wd req ans s :
  fresh wd → rtc step (start wd req ans) s →
  Acc (flip step) s ∧
  ((∀ s', ¬ step s s') →
   fault s ≠ None
   ∨ (proc s = None ∧ released s = 1%nat ∧ sys_answers s = 1%nat)
   ∨ (∃ pr, proc s = Some pr ∧ m_nextphase pr = ULRSTATE_PHASEFINAL ∧
            released s = 0%nat ∧ sys_answers s = 1%nat)).
Proof.
  intros Hw Hr. split; [eapply measure_Acc, air_step_measure|]. intros Hstop.
  destruct (air_inv_reachable _ _ _ _ Hw Hr) as [_ _ Ha].
  destruct (fault s) eqn:Hf; [by left|right]. specialize (Ha eq_refl). unfold alive in Ha.
  destruct (proc s) as [pr|] eqn:Hp; [right|left; by destruct Ha].
  destruct (stopped_idle _ s pr Hf Hp Hstop) as (Hlk & Hfi & Hms & Hc).
  destruct Ha as [Hrel Hi Hm Hph Hq]. specialize (Hq Hlk Hms Hfi).
  rewrite Hc, ?Hfi in *. rewrite Hms in Hm. cbn in Hi, Hm, Hph.
  unfold phaseReady in Hq. exists pr.
  destruct Hph as [(Hk&_)|[(Hk&_&_&Hx)|[(Hk&_&_&Hx)|([Hk|Hk]&_&Han)]]]; rewrite Hk in Hq.
  - done.
  - destruct Hx as [Hx|Hx]; [|by apply elem_of_nil in Hx].
    change (FLAG_IS_SET (m_dbexecuted pr) AIRDB_GET_IMSI_SEC = false) in Hq. congruence.
  - destruct Hx as [Hx|Hx]; [|by apply elem_of_nil in Hx].
    change (FLAG_IS_SET (m_dbexecuted pr) AIRDB_UPDATE_IMSI = false) in Hq. congruence.
  - rewrite Hi, Hm in Hq. done.
  - done.
Qed.

(** The state of a processor that an error branch of phase1 has left. *)
Definition leaked (s : sys) : Prop :=
  released s = 0%nat ∧
  (fault s = None → ∃ pr, proc s = Some pr ∧ m_nextphase pr = ULRSTATE_PHASEFINAL).

Lemma leaked_step s s' : step s s' → leaked s → leaked s'.
Proof.
  intros Hstep [Hr Hl].
  destruct Hstep as [s l1 f a l2 Hf Hcb|s n Hf Hn Hlk|s n Hf Hn Hlk|s pr Hf Hlk Hp Hrdy Hne
                    |s pr Hf Hlk Hp Hrdy Hk|s pr Hf Hlk Hp Hrdy];
    destruct (Hl Hf) as (pr' & Hp' & Hk').
  - rewrite Hp'. unfold exec. cbn.
    pose proof (wp_callback_data a f (mk_env (world_of (drop_callback (l1 ++ l2) s)) pr')) as Hwp.
    unfold wp in Hwp. cbn in Hwp. destruct (on_air_callback_data a f _) as [o e].
    destruct Hwp as (_ & _ & Ho). destruct o as [[]|x|]; split; cbn; try done.
    intros _. eexists; split; [done|]. destruct Ho as [Hn _]. cbn in Hn. congruence.
  - rewrite Hp'. split; cbn; [done|]. intros _. by eexists.
  - rewrite Hp'. split; cbn; [done|]. intros _. by eexists.
  - simplify_eq. cbn in Hrdy. rewrite Hk' in Hrdy. done.
  - simplify_eq. cbn in Hk. rewrite Hk' in Hk. done.
  - simplify_eq. split; cbn; [done|]. intros _. by eexists.
Qed.

(** An AIR that phase1 rejects never gives its slot of the worker queue
    back: the error branches assign the ULR final state, for which the AIR
    [phaseReady] is never true, so from there on the processor is neither
    deleted nor its slot released, whatever the threads do. *)
Theorem air_rejected_slot_leaks wd req ans s s' pr :
  fresh wd → rtc step (start wd req ans) s →
  fault s = None → proc s = Some pr → m_nextphase pr = ULRSTATE_PHASEFINAL →
  rtc step s s' → released s' = 0%nat ∧ (fault s' = None → proc s' ≠ None).
Proof.
  intros Hw Hr Hf Hp Hk Hs'.
  assert (leaked s) as Hl.
  { destruct (air_inv_reachable _ _ _ _ Hw Hr) as [_ _ Ha].
    specialize (Ha Hf). unfold alive in Ha. rewrite Hp in Ha.
    split; [by destruct Ha|]. by exists pr. }
  apply (rtc_preserves _ leaked _ _ leaked_step Hs') in Hl as [Hrel Hl].
  split; [done|]. intros Hf'. destruct (Hl Hf') as (pr' & -> & _). done.
Qed.

(** *** What phase2 answers *)

(** The subscriber data is sane: keys of 16 bytes, a sequence number of six,
    a three-byte PLMN in front of its buffer and [AUTH_MAX_EUTRAN_VECTORS]
    slots for vectors. *)
Definition ready_for_vectors (e : env) : Prop :=
  FLAG_IS_SET (m_dbresult (p e)) AIRDB_GET_IMSI_SEC = true ∧ m_auts_set (p e) = false ∧
  length (DAImsiSec.opc (m_sec (p e))) = 16%nat ∧ length (DAImsiSec.sqn (m_sec (p e))) = 6%nat ∧
  length (m_vector (p e)) = Z.to_nat AUTH_MAX_EUTRAN_VECTORS.

(** A vector that authenticates [sec]'s network with its sequence number. *)
Definition authenticates (sec : DAImsiSec.t) (plmn : bytes) (v : Auc.auc_vector) : Prop :=
  Auc.usim_authenticate (DAImsiSec.opc sec) (DAImsiSec.key sec) plmn (Auc.rand v) (Auc.autn v)
  = Some (DAImsiSec.sqn sec, Auc.xres v, Auc.kasme v).

(** What the loop of phase2 leaves alone, and the [n] vectors it has made. *)
Record generated (n : nat) (e0 e : env) : Prop := {
  gn_proc : p e = (p e0) <| m_vector := m_vector (p e) |>;
  gn_wire : World.wire (w e) = World.wire (w e0);
  gn_db : World.database (w e) = World.database (w e0);
  gn_stats : World.stats (w e) = World.stats (w e0);
  gn_length : length (m_vector (p e)) = length (m_vector (p e0));
  gn_vectors : Forall (authenticates (m_sec (p e0)) (take 3 (m_plmn_id (p e0))))
                 (take n (m_vector (p e))) }.

Lemma wp_generate_vectors_ok n i e0 e :
  length (DAImsiSec.opc (m_sec (p e0))) = 16%nat → length (DAImsiSec.sqn (m_sec (p e0))) = 6%nat →
  (i + n <= length (m_vector (p e)))%nat → generated i e0 e →
  wp (generate_vectors n i) (λ o e', o = Ok tt ∧ generated (i + n) e0 e') e.
Proof.
  intros Ho Hs. revert i e. induction n as [|n IH]; intros i e Hlen Hg; cbn [generate_vectors].
  { apply wp_ret. by rewrite Nat.add_0_r. }
  wp_step. apply wp_vector_at.
  2:{ intros Hv. apply lookup_ge_None in Hv. lia. }
  intros v Hv. cbn [keep_fault]. wp_step.
  unfold on_world, World.generate_random, wp at 1, zoom.
  destruct (Random.generate_random _ _ _) as [r st]. cbn [keep_fault].
  do 2 wp_step. cbn [keep_fault].
  set (v' := Auc.Build_auc_vector _ _ _ _).
  destruct (Auc.generate_vector _ _ _ _ (Some v')) as [rc ov] eqn:Egv. air_steps.
  replace (i + S n)%nat with (S i + n)%nat by lia. apply IH; cbn.
  { rewrite length_insert. lia. }
  destruct Hg as [Hp Hw Hd Hst Hl Hf].
  assert (m_sec (p e) = m_sec (p e0) ∧ m_plmn_id (p e) = m_plmn_id (p e0)) as [Hsec Hplmn]
    by (rewrite Hp; done).
  constructor; cbn; try done.
  - by rewrite Hp.
  - by rewrite length_insert.
  - rewrite (take_S_r _ i (default v' ov)) by (rewrite list_lookup_insert_eq; [done|lia]).
    rewrite take_insert_ge by lia. apply Forall_app. split; [done|]. constructor; [|done].
    revert Egv. cbn. rewrite Hsec, Hplmn. unfold Auc.generate_vector. cbn [Auc.rand v'].
    destruct (Milenage.f2345 (DAImsiSec.opc (m_sec (p e0))) (DAImsiSec.key (m_sec (p e0))) r)
      as [[[res ck] ik] ak] eqn:E. intros [= <- <-]. cbn.
    unfold authenticates. cbn. by apply Auc.usim_accepts.
Qed.

(** The answer phase2 sends for the vectors [vs]. *)
Definition success_answer (e : env) (vs : list Auc.auc_vector) : message :=
  m_ans (p e) ++ (vector_avp <$> vs) ++ [FDMessage.result_code ER_DIAMETER_SUCCESS].

Lemma wp_phase2_vectors e Q :
  ready_for_vectors e → 0 <= m_num_vectors (p e) <= AUTH_MAX_EUTRAN_VECTORS →
  (∀ m, fd_msg_send m = 0) →
  (∀ e1 vs,
     vs = take (Z.to_nat (m_num_vectors (p e))) (m_vector (p e1)) →
     m_num_vectors (p e1) = m_num_vectors (p e) → m_imsi (p e1) = m_imsi (p e) →
     DAImsiSec.sqn (m_sec (p e1)) = DAImsiSec.sqn (m_sec (p e)) →
     length (m_vector (p e1)) = length (m_vector (p e)) →
     Forall (authenticates (m_sec (p e)) (take 3 (m_plmn_id (p e)))) vs →
     World.wire (w e1) = World.wire (w e) ++ [SentAnswer (success_answer e vs)] →
     World.database (w e1) = World.database (w e) →
     wp phase2_update Q e1) →
  wp phase2 Q e.
Proof.
  intros (Hfl & Hau & Ho & Hs & Hl) Hn Hsend HQ. unfold phase2. do 2 wp_step. cbn [keep_fault].
  rewrite Hfl, Hau. cbn [negb]. do 4 wp_step.
  set (n := Z.to_nat (m_num_vectors (p e))) in *.
  assert (n <= 6)%nat as Hn6 by (unfold AUTH_MAX_EUTRAN_VECTORS in Hn; lia).
  change (Z.to_nat AUTH_MAX_EUTRAN_VECTORS) with 6%nat in Hl.
  eapply wp_mono; [apply (wp_generate_vectors_ok n 0 e e); [done|done|lia|]|].
  { constructor; try done. by destruct e as [? []]. }
  cbn. intros o e1 [-> [Hp Hw Hd Hst Hl1 Hf]]. cbn [keep_fault].
  wp_step. apply wp_vector_at.
  2:{ intros Hv. apply lookup_ge_None in Hv. lia. }
  intros v0 _. cbn [keep_fault].
  assert (m_num_vectors (p e1) = m_num_vectors (p e)) as Hnum by (rewrite Hp; done).
  assert (m_ans (p e1) = m_ans (p e)) as Hans by (rewrite Hp; done).
  assert (DAImsiSec.sqn (m_sec (p e1)) = DAImsiSec.sqn (m_sec (p e))) as Hsqn by (rewrite Hp; done).
  assert (m_imsi (p e1) = m_imsi (p e)) as Himsi by (rewrite Hp; done).
  air_steps; [|unfold FDMessage.send in *; rewrite Hsend in *; done..].
  apply (HQ _ (take n (m_vector (p e1)))); cbn; try done.
  rewrite Hw, Hans, Hnum. unfold success_answer. by rewrite <-app_assoc.
Qed.


(** A request that carries only resynchronisation information asks for
    zero vectors; phase2 answers it with success and no vector and then reads
    [m_vector[m_num_vectors - 1]], 2^32 - 1 elements past the array. *)
Theorem phase2_zero_vectors_undefined e :
  ready_for_vectors e → m_num_vectors (p e) = 0 → (∀ m, fd_msg_send m = 0) →
  ∃ e', phase2 e = (UB, e') ∧
    World.wire (w e') = World.wire (w e) ++ [SentAnswer (success_answer e [])].
Proof.
  intros Hready Hn Hsend.
  assert (wp phase2 (λ o e', o = UB ∧
    World.wire (w e') = World.wire (w e) ++ [SentAnswer (success_answer e [])]) e) as Hwp.
  2:{ unfold wp in Hwp. destruct (phase2 e) as [o e']. destruct Hwp as (-> & ?). by exists e'. }
  apply wp_phase2_vectors; [done|unfold AUTH_MAX_EUTRAN_VECTORS; lia|done|].
  destruct Hready as (_ & _ & _ & _ & Hl). change (Z.to_nat AUTH_MAX_EUTRAN_VECTORS) with 6%nat in Hl.
  intros e1 vs -> Hnum Himsi Hsqn Hl1 Hf Hw Hd. rewrite Hn in *.
  unfold phase2_update. air_steps. apply wp_vector_at; cbn; [|done].
  intros v Hv. apply lookup_lt_Some in Hv. rewrite Hnum in Hv. unfold u32 in Hv.
  change ((0 - 1) mod 2 ^ 32) with 4294967295 in Hv. lia.
Qed.

End Air.

End Air.

(** ** Witnesses: a subscriber, a request and their runs *)

Module AirWitness.
Import Air ScriptedCassandra WitnessFreeDiameter WitnessNettle.

#[local] Instance counter_rand : LibcRand nat := λ g, (Z.of_nat g, S g).

Definition v_empty : Auc.auc_vector := Auc.Build_auc_vector [] [] [] [].
Definition u : uninit :=
  mk_uninit 0 (DAImsiSec.mk [] [] [] []) (replicate 6 v_empty) (replicate 4 0) (replicate 31 0) 0
    (replicate 15 0).
Definition cfg : config := mk_config true 0.

Definition zeros32 : string := "00000000000000000000000000000000".
Definition sec_answer : future := one_row
  [("key", Text zeros32); ("OPc", Text zeros32); ("rand", Text zeros32); ("sqn", Int 32)].

Definition wd : World.world Z nat :=
  World.mk (DataAccess.mk_db (mk_script [sec_answer; mk_future 0 [] true] []) []) [] []
    (Random.Build_state 0 0%nat).

Definition air (imsi : string) (vectors : Z) : message :=
  [AvpU32 "Auth-Session-State" 1; AvpStr "User-Name" imsi;
   AvpGroup "Requested-EUTRAN-Authentication-Info"
     [AvpU32 "Number-Of-Requested-Vectors" vectors];
   AvpOctets "Visited-PLMN-Id" [2; 248; 57]].

(** The run in which every callback fires as soon as it can. *)
Definition whole_run : list choice :=
  [Acquire; Loop; Data 0; Loop; Loop; Data 0; Trigger; Trigger; Acquire; Loop; Loop; Acquire; Loop].
Abbreviation asys := (Proc.sys nat AIRProcessor).
Definition begin (imsi : string) (vectors : Z) : asys := start u cfg wd (air imsi vectors) [].
Definition finished : asys :=
  default (begin "" 0) (schedule (air_processor u cfg) whole_run (begin "208930000000001" 2)).
(** An IMSI of sixteen digits is refused by phase1. *)
Definition rejected : asys :=
  default (begin "" 0) (schedule (air_processor u cfg) [Acquire; Loop] (begin "2089300000000011" 2)).
Definition rejected_later : asys :=
  default (begin "" 0) (schedule (air_processor u cfg) [Acquire; Loop; Loop] (begin "2089300000000011" 2)).

Lemma finished_reachable : rtc (Proc.step (air_processor u cfg)) (begin "208930000000001" 2) finished.
Proof. apply (schedule_steps (air_processor u cfg) whole_run). by vm_compute. Qed.
Lemma rejected_reachable : rtc (Proc.step (air_processor u cfg)) (begin "2089300000000011" 2) rejected.
Proof. apply (schedule_steps (air_processor u cfg) [Acquire; Loop]). by vm_compute. Qed.

Lemma air_no_use_after_free_witness :
  fault finished ≠ Some UseAfterFree ∧
  (fault finished = None → proc finished = None →
   DataAccess.callbacks (World.database (world_of finished)) = [] ∧
   fired finished = 0%nat ∧ msgs finished = 0%nat).
Proof.
  apply (air_no_use_after_free u cfg wd (air "208930000000001" 2) []);
    [by split|apply finished_reachable].
Defined.

Lemma air_answered_once_witness :
  proc finished = None ∧ answers (World.wire (world_of finished)) = 1%nat.
Proof.
  split; [by vm_compute|].
  apply (air_answered_once u cfg wd (air "208930000000001" 2) []);
    [by split|apply finished_reachable|by vm_compute|by vm_compute].
Defined.

Lemma air_runs_settle_witness : Acc (flip (Proc.step (air_processor u cfg))) (begin "208930000000001" 2).
Proof.
  apply (air_runs_settle u cfg wd (air "208930000000001" 2) []); [by split|apply rtc_refl].
Defined.

Lemma air_rejected_slot_leaks_witness :
  released rejected_later = 0%nat ∧ (fault rejected_later = None → proc rejected_later ≠ None).
Proof.
  destruct (proc rejected) as [pr|] eqn:Hp; [|by vm_compute in Hp].
  eapply (air_rejected_slot_leaks u cfg wd (air "2089300000000011" 2) [] rejected _ pr);
    [by split|apply rejected_reachable|by vm_compute|exact Hp| |].
  - vm_compute in Hp. injection Hp as <-. by vm_compute.
  - apply (schedule_steps (air_processor u cfg) [Loop]). by vm_compute.
Defined.

(** A processor at the start of phase2. *)
Definition at_phase2 (vectors : Z) : Proc.env nat AIRProcessor :=
  mk_env wd
    ((AIRProcessor_new u (air "208930000000001" vectors) [])
     <| m_num_vectors := vectors |> <| m_dbresult := AIRDB_GET_IMSI_SEC |>
     <| m_sec := DAImsiSec.mk (replicate 16 0) [0; 0; 0; 0; 0; 32] (replicate 16 0) (replicate 16 0) |>).


Lemma phase2_zero_vectors_undefined_witness :
  ∃ e', phase2 cfg (at_phase2 0) = (UB, e') ∧
    World.wire (w e') = [SentAnswer (success_answer (at_phase2 0) [])].
Proof.
  apply (phase2_zero_vectors_undefined cfg (at_phase2 0)); [|done|done].
  unfold ready_for_vectors. by split_and!.
Defined.

End AirWitness.
