(* ===== verification/Ulr.v ===== *)
(** * Update-Location-Request: [ULRProcessor]

    Models the ULR part of src/s6as6d_impl.cpp (lines 880-1737) and of
    include/s6as6d_impl.h: the five phases of the processor and its seven
    database callbacks, driven by the threads of Proc.v.

    What the source leaves uninitialised is a parameter.  The performance timers
    and the members no code reads are left out; the data races on the event
    lists are not modelled (a phase and the data part of a callback are single
    steps). *)

From S2P Require Import Prelude FdJson Codec Auc Diameter DataAccess World Proc.
#[local] Open Scope Z_scope.

Definition ULRSTATE_PHASE1 : Z := ULRSTATE_BASE + 1.
Definition ULRSTATE_PHASE2 : Z := ULRSTATE_BASE + 2.
Definition ULRSTATE_PHASE3 : Z := ULRSTATE_BASE + 3.
Definition ULRSTATE_PHASE4 : Z := ULRSTATE_BASE + 4.
Definition ULRSTATE_PHASE5 : Z := ULRSTATE_BASE + 5.

Definition ULRDB_GET_IMSI_INFO : Z := 1.
Definition ULRDB_GET_EXT_IDS : Z := 2.
Definition ULRDB_GET_EVNTIDS_MSISDN : Z := 4.
Definition ULRDB_GET_EVNTIDS_EXTIDS : Z := 8.
Definition ULRDB_GET_EVNTS_EVNTIDS : Z := 16.
Definition ULRDB_GET_MMEID_HOST : Z := 32.
Definition ULRDB_UPDATE_IMSI : Z := 64.

Definition ULR_SINGLE_REGISTRATION_IND : Z := 1.
Definition ULR_S6A_S6D_INDICATOR : Z := 2.
Definition ULR_SKIP_SUBSCRIBER_DATA : Z := 4.
Definition ULR_NODE_TYPE_IND : Z := 16.
Definition ULR_INITIAL_ATTACH_IND : Z := 32.
Definition ULR_PAD_VALID (x : Z) : bool := Z.land x (2 ^ 32 - 1 - 511) =? 0.
Definition E_UTRAN_NOT_ALLOWED : Z := 16.

(** [scef_id.substr(scef_id.find(".") + 1)]. *)
Fixpoint after_dot (s : string) : option string :=
  match s with
  | EmptyString => None
  | String c s' => if Ascii.eqb c "."%char then Some s' else after_dot s'
  end.

Module Ulr.

Section Ulr.
Context `{Cassandra} `{FreeDiameter} {G : Type}.

(** The fields of [ULRProcessor] ([m_ulr] is the request, [m_ans] the answer
    under construction). *)
Record ULRProcessor := mk_proc {
  m_ulr : message;
  m_ans : message;
  m_orig_info : DAImsiInfo.t;
  m_new_info : DAImsiInfo.t;
  m_present_flags : Z;
  m_plmn_id : bytes;
  m_plmn_len : nat;
  m_extIdLst : list string;
  m_evtIdLst : list DAEventId.t;
  m_evtLst : list DAEvent.t;
  m_mmeidentity : Z;
  m_ulrflags : Z;
  m_nextphase : Z;
  m_msgissued : Z;
  m_dbexecuted : Z;
  m_dbresult : Z;
  m_dbissued : Z;
  m_dbevtissued : Z }.

(** What the members and the locals [u32] of phase1 and phase2 hold before they
    are assigned. *)
Record uninit := mk_uninit {
  u_phase1_u32 : Z; u_phase2_u32 : Z; u_info : DAImsiInfo.t; u_plmn_id : bytes }.

Variable (u : uninit).

(** The constructor; [ans] is what the stack copies from the request. *)
Definition ULRProcessor_new (req ans : message) : ULRProcessor :=
  mk_proc req ans (u_info u) (u_info u) 0 (u_plmn_id u) 4 [] [] [] (-1) 0
    ULRSTATE_PHASE1 0 0 (u32 (-1)) 0 0.

Abbreviation env := (Proc.env G ULRProcessor).

Definition ans_add (a : message) : M env unit := set_p (λ p, p <| m_ans ::= (λ l, l ++ a) |>).
Definition ans_send : M env unit := ans ← gets (λ e, m_ans (p e)); on_world (World.send_answer ans).
Definition set_new (f : DAImsiInfo.t → DAImsiInfo.t) : M env unit :=
  set_p (λ p, p <| m_new_info ::= f |>).
Definition set_next (k : Z) : M env unit := set_p (λ p, p <| m_nextphase := k |>).

(** A top-level field of the request, and one of its Terminal-Information. *)
Definition ulr_field (k : avp_name) : M env (option avp) :=
  req ← gets (λ e, m_ulr (p e));
  lift (FDExtractor.field Extractors.UpdateLocationRequestExtractor req k).
Definition terminal_field (k : avp_name) : M env (option avp) :=
  req ← gets (λ e, m_ulr (p e));
  lift (FDExtractor.subfield Extractors.UpdateLocationRequestExtractor req
          "Terminal-Information" Extractors.TerminalInformationExtractor k).

(** The counters and bit masks of the queries. *)
Definition inc_issued : M env unit := set_p (λ p, p <| m_dbissued ::= (λ n, u32 (n + 1)) |>).
Definition dec_issued : M env unit := set_p (λ p, p <| m_dbissued ::= (λ n, u32 (n - 1)) |>).
Definition db_complete (item : Z) (success : bool) : M env unit :=
  set_p (λ p, p <| m_dbresult ::= (λ r, DB_OP_COMPLETE_RESULT r item success) |>
                <| m_dbexecuted ::= (λ x, DB_OP_COMPLETE_EXECUTED x item) |>).

(** A query counted before it is issued; when the driver refuses it, the
    [items] are marked failed and the count is taken back. *)
Definition counted_query {A} (q : M (DataAccess.db Z) A) (accepted : A → bool) (items : list Z)
    : M env bool :=
  _ ← inc_issued;
  r ← on_world (World.on_db q);
  if accepted r then mret true
  else
    _ ← for_each items (λ i, db_complete i false);
    _ ← dec_issued;
    mret false.

(** The ways a phase ends the request with an error; the last one sends the
    3GPP code as a plain Result-Code. *)
Definition reject_with (a : avp) (vendor code : Z) : M env unit :=
  _ ← ans_add [a];
  _ ← ans_send;
  _ ← on_world (World.registerStatResult stat_hss_ulr vendor code);
  set_next ULRSTATE_PHASEFINAL.
Definition reject_result_code (code : Z) : M env unit :=
  reject_with (FDMessage.result_code code) 0 code.
Definition reject_experimental (code : Z) : M env unit :=
  reject_with (FDMessage.experimental_result code) VENDOR_3GPP code.
Definition reject_rat : M env unit :=
  reject_with (FDMessage.result_code DIAMETER_ERROR_RAT_NOT_ALLOWED) VENDOR_3GPP
    DIAMETER_ERROR_RAT_NOT_ALLOWED.

(** *** Phase 1 *)

(** [origin_host.get(m_new_info.mmehost)] and the realm. *)
Definition get_origin : M env unit :=
  a ← ulr_field "Origin-Host";
  pr ← gets p;
  '(_, h) ← lift (FDExtractor.get_string a (DAImsiInfo.mmehost (m_new_info pr)));
  _ ← set_new (λ i, i <| DAImsiInfo.mmehost := h |>);
  a ← ulr_field "Origin-Realm";
  pr ← gets p;
  '(_, r) ← lift (FDExtractor.get_string a (DAImsiInfo.mmerealm (m_new_info pr)));
  set_new (λ i, i <| DAImsiInfo.mmerealm := r |>).

(** The four queries of phase1; the first one is not counted until all of them
    were accepted. *)
Definition phase1_queries : M env bool :=
  pr ← gets p;
  let imsi := DAImsiInfo.imsi (m_new_info pr) in
  '(ok, _) ← on_world (World.on_db
      (DataAccess.getImsiInfo imsi (m_orig_info pr) (Some ULRDB_GET_IMSI_INFO)));
  ok ← (if (ok : bool) then
          counted_query (DataAccess.getExtIdsFromImsi imsi (m_extIdLst pr) (Some ULRDB_GET_EXT_IDS))
            fst [ULRDB_GET_EXT_IDS; ULRDB_GET_EVNTIDS_EXTIDS; ULRDB_GET_EVNTS_EVNTIDS]
        else _ ← db_complete ULRDB_GET_IMSI_INFO false; mret false);
  ok ← (if (ok : bool) then
          counted_query (DataAccess.getEventIdsFromMsisdn (DAImsiInfo.msisdn (m_new_info pr))
                           (m_evtIdLst pr) (Some ULRDB_GET_EVNTIDS_MSISDN))
            fst [ULRDB_GET_EVNTIDS_MSISDN; ULRDB_GET_EVNTS_EVNTIDS]
        else mret false);
  if (ok : bool) then
    counted_query (DataAccess.getMmeIdFromHost (DAImsiInfo.mmehost (m_new_info pr))
                     (m_mmeidentity pr) (Some ULRDB_GET_MMEID_HOST))
      fst [ULRDB_GET_MMEID_HOST]
  else mret false.

Definition phase1 : M env unit :=
  _ ← ans_add fd_origin;
  a ← ulr_field "Auth-Session-State";
  '(_, v) ← lift (FDExtractor.get_u32 a (u_phase1_u32 u));
  _ ← ans_add [AvpU32 "Auth-Session-State" v];
  a ← ulr_field "User-Name";
  pr ← gets p;
  '(_, imsi) ← lift (FDExtractor.get_string a (DAImsiInfo.imsi (m_new_info pr)));
  _ ← set_new (λ i, i <| DAImsiInfo.imsi := imsi |>);
  if (IMSI_LENGTH <? String.length imsi)%nat then
    reject_result_code ER_DIAMETER_INVALID_AVP_VALUE
  else
    _ ← get_origin;
    _ ← set_next ULRSTATE_PHASE2;
    ok ← phase1_queries;
    if (ok : bool) then inc_issued else reject_experimental DIAMETER_ERROR_USER_UNKNOWN.

(** *** Phase 2 *)

(** With [ULR_SKIP_SUBSCRIBER_DATA] the profile is left out of the answer. *)
Definition phase2_subscription : M env unit :=
  _ ← ans_add [AvpU32 "ULA-Flags" 1];
  a ← ulr_field "ULR-Flags";
  pr ← gets p;
  '(_, flags) ← lift (FDExtractor.get_u32 a (m_ulrflags pr));
  _ ← set_p (λ p, p <| m_ulrflags := flags |>);
  if FLAG_IS_SET flags ULR_SKIP_SUBSCRIBER_DATA then set_next ULRSTATE_PHASE3
  else
    let json := FdJson.fdJsonAddAvps (upto_nul (DAImsiInfo.subscription_data (m_orig_info pr))) in
    _ ← ans_add (json_avps json);
    ret ← lift (json_ret json);
    if negb (ret =? 0) then reject_experimental DIAMETER_ERROR_UNKNOWN_EPS_SUBSCRIPTION
    else set_next ULRSTATE_PHASE3.

(** The Supported-Features of the request; [u32] keeps the value of the last
    AVP read, also from one group to the next. *)
Fixpoint phase2_features (l : list message) (u32 : Z) : M env unit :=
  match l with
  | [] => mret tt
  | g :: l' =>
      a ← lift (FDExtractor.field Extractors.SupportedFeaturesExtractor g "Vendor-Id");
      '(_, u32) ← lift (FDExtractor.get_u32 a u32);
      if negb (u32 =? VENDOR_3GPP) then phase2_features l' u32
      else
        b ← lift (FDExtractor.field Extractors.SupportedFeaturesExtractor g "Feature-List");
        '(_, u32) ← lift (FDExtractor.get_u32 b u32);
        _ ← set_p (λ p, p <| m_present_flags ::= (λ f, FLAGS_SET f MME_SUPPORTED_FEATURES_PRESENT) |>);
        a ← lift (FDExtractor.field Extractors.SupportedFeaturesExtractor g "Feature-List-ID");
        '(_, u32) ← lift (FDExtractor.get_u32 a u32);
        if negb (u32 =? 2) then phase2_features l' u32
        else
          '(_, u32) ← lift (FDExtractor.get_u32 b u32);
          _ ← ans_add [AvpGroup "Supported-Features"
                         [AvpU32 "Vendor-Id" VENDOR_3GPP; AvpU32 "Feature-List-ID" 2;
                          AvpU32 "Feature-List" u32]];
          phase2_features l' u32
  end.

(** The second half of the checks, from [ue_srvcc_capability] on. *)
Definition phase2_capabilities (u32 : Z) : M env unit :=
  a ← ulr_field "UE-SRVCC-Capability";
  '(found, u32) ← lift (FDExtractor.get_u32 a u32);
  _ ← (if (found : bool)
       then set_p (λ p, p <| m_present_flags ::= (λ f, FLAGS_SET f UE_SRVCC_PRESENT) |>)
       else mret tt);
  req ← gets (λ e, m_ulr (p e));
  l ← lift (FDExtractor.extractor_list Extractors.UpdateLocationRequestExtractor req
              "Supported-Features");
  _ ← phase2_features l u32;
  phase2_subscription.

(** The local [s] that receives the MEID is empty before. *)
Definition phase2_meid (u32 : Z) : M env unit :=
  a ← terminal_field "3GPP2-MEID";
  '(found, _) ← lift (FDExtractor.get_string a "");
  if (found : bool) then reject_result_code ER_DIAMETER_INVALID_AVP_VALUE
  else phase2_capabilities u32.

Definition phase2_software_version (u32 : Z) : M env unit :=
  a ← terminal_field "Software-Version";
  pr ← gets p;
  '(found, sv) ← lift (FDExtractor.get_string a (DAImsiInfo.imei_sv (m_new_info pr)));
  _ ← set_new (λ i, i <| DAImsiInfo.imei_sv := sv |>);
  if (found : bool) && negb (String.length sv =? SV_LENGTH)%nat then
    reject_result_code ER_DIAMETER_INVALID_AVP_VALUE
  else
    _ ← (if (found : bool)
         then set_p (λ p, p <| m_present_flags ::= (λ f, FLAGS_SET f SV_PRESENT) |>)
         else mret tt);
    phase2_meid u32.

Definition phase2_terminal (u32 : Z) : M env unit :=
  a ← terminal_field "IMEI";
  pr ← gets p;
  '(found, imei) ← lift (FDExtractor.get_string a (DAImsiInfo.imei (m_new_info pr)));
  _ ← set_new (λ i, i <| DAImsiInfo.imei := imei |>);
  if (found : bool) && (IMEI_LENGTH <? String.length imei)%nat then
    reject_result_code ER_DIAMETER_INVALID_AVP_VALUE
  else
    _ ← (if (found : bool)
         then set_p (λ p, p <| m_present_flags ::= (λ f, FLAGS_SET f IMEI_PRESENT) |>)
         else mret tt);
    phase2_software_version u32.

Definition phase2_plmn (u32 : Z) : M env unit :=
  if negb (ULR_PAD_VALID u32) then reject_result_code ER_DIAMETER_INVALID_AVP_VALUE
  else
    a ← ulr_field "Visited-PLMN-Id";
    pr ← gets p;
    '(found, plmn, len) ← lift (FDExtractor.get_bytes a (m_plmn_id pr) (m_plmn_len pr));
    _ ← set_p (λ p, p <| m_plmn_id := plmn |> <| m_plmn_len := len |>);
    if negb ((found : bool) && (len =? 3)%nat) then
      reject_result_code ER_DIAMETER_INVALID_AVP_VALUE
    else
      _ ← set_new (λ i, i <| DAImsiInfo.visited_plmnid := Plmn.PLMNID_TO_HEX_STR plmn |>);
      phase2_terminal u32.

(** An update that is not an initial attach must come from the MME on record. *)
Definition phase2_serving_node (u32 : Z) : M env unit :=
  pr ← gets p;
  if FLAG_IS_SET u32 ULR_INITIAL_ATTACH_IND then
    _ ← set_p (λ p, p <| m_present_flags ::= (λ f, FLAGS_SET f MME_IDENTITY_PRESENT) |>);
    phase2_plmn u32
  else if negb (String.eqb (DAImsiInfo.mmehost (m_orig_info pr)) "")
          && negb (String.eqb (DAImsiInfo.mmerealm (m_orig_info pr)) "") then
    if negb (String.eqb (DAImsiInfo.mmehost (m_orig_info pr)) (DAImsiInfo.mmehost (m_new_info pr)))
    then reject_experimental DIAMETER_ERROR_UNKNOWN_SERVING_NODE
    else if negb (String.eqb (DAImsiInfo.mmerealm (m_orig_info pr))
                    (DAImsiInfo.mmerealm (m_new_info pr)))
    then reject_experimental DIAMETER_ERROR_UNKNOWN_SERVING_NODE
    else phase2_plmn u32
  else reject_experimental DIAMETER_ERROR_UNKNOWN_SERVING_NODE.

Definition phase2_flags (u32 : Z) : M env unit :=
  a ← ulr_field "ULR-Flags";
  '(_, u32) ← lift (FDExtractor.get_u32 a u32);
  if FLAG_IS_SET u32 ULR_SINGLE_REGISTRATION_IND then
    reject_result_code ER_DIAMETER_INVALID_AVP_VALUE
  else if negb (FLAG_IS_SET u32 ULR_S6A_S6D_INDICATOR) then
    reject_result_code ER_DIAMETER_INVALID_AVP_VALUE
  else if FLAG_IS_SET u32 ULR_NODE_TYPE_IND then
    reject_result_code ER_DIAMETER_INVALID_AVP_VALUE
  else phase2_serving_node u32.

Definition phase2 : M env unit :=
  pr ← gets p;
  if negb (FLAG_IS_SET (m_dbresult pr) ULRDB_GET_IMSI_INFO) then
    reject_experimental DIAMETER_ERROR_USER_UNKNOWN
  else
    _ ← get_origin;
    a ← ulr_field "RAT-Type";
    '(_, u32) ← lift (FDExtractor.get_u32 a (u_phase2_u32 u));
    if negb (u32 =? 1004)
       || FLAG_IS_SET (DAImsiInfo.access_restriction (m_orig_info pr)) E_UTRAN_NOT_ALLOWED
    then reject_rat
    else phase2_flags u32.

(** *** Phase 3 *)

(** The identifiers of the external identities, appended to those the
    callbacks have left; then the events themselves. *)
Definition phase3_events : M env unit :=
  pr ← gets p;
  ids ← on_world (World.on_db (DataAccess.ids_of_extids (m_extIdLst pr) (m_evtIdLst pr)));
  _ ← set_p (λ p, p <| m_evtIdLst := ids |>);
  evts ← on_world (World.on_db (DataAccess.events_of_ids ids (m_evtLst pr)));
  set_p (λ p, p <| m_evtLst := evts |>).

(** [sd.addJson(mec_json)]: the AVPs go to the Subscription-Data the answer
    already has; without one there is nothing to add them to. *)
Definition phase3_add_json (e : DAEvent.t) : M env unit :=
  new ← lift (FdJson.addJson (upto_nul (DAEvent.mec_json e)));
  ans ← gets (λ e, m_ans (p e));
  if decide ("Subscription-Data"%string ∈ avp_de <$> ans)
  then set_p (λ p, p <| m_ans := add_to_last_group "Subscription-Data" new ans |>)
  else match new with [] => mret tt | _ => undefined end.

Definition phase3_subscription : M env unit :=
  _ ← phase3_events;
  pr ← gets p;
  match m_evtLst pr with
  | [] => mret tt
  | evts =>
      g ← lift (FDExtractor.group Extractors.UpdateLocationAnswerExtractor (m_ans pr)
                  "Subscription-Data");
      _ ← lift (match g with
                | Some c => _ ← FDExtractor.resolve Extractors.SubscriptionDataExtractor c; mret tt
                | None => mret tt
                end);
      for_each evts phase3_add_json
  end.

(** The Reporting-Information-Request for one roaming event; the reference id
    AVP is given the SCEF's name. *)
Definition rir_message (session : nat) (scef_id : string) (plmn : bytes) : message :=
  [AvpStr "Session-Id" (fd_session_id session); AvpU32 "Auth-Session-State" 1]
  ++ fd_origin
  ++ [AvpStr "Destination-Host" scef_id]
  ++ match after_dot scef_id with Some r => [AvpStr "Destination-Realm" r] | None => [] end
  ++ [AvpGroup "Monitoring-Event-Report"
        [FDMessage.string_avp "SCEF-ID" scef_id;
         FDMessage.string_avp "SCEF-Reference-ID" scef_id;
         AvpU32 "Monitoring-Type" ROAMING_STATUS_EVT;
         AvpOctets "Visited-PLMN-Id" plmn]].

Definition phase3_report (e : DAEvent.t) : M env unit :=
  if negb (DAEvent.monitoring_type e =? ROAMING_STATUS_EVT) then mret tt
  else
    pr ← gets p;
    n ← gets (λ e, length (World.wire (w e)));
    catch
      (on_world (World.send_request "Reporting-Information-Request"
         (rir_message n (DAEvent.scef_id e) (take (m_plmn_len pr) (m_plmn_id pr)))))
      (λ x, if decide (x = FDException) then mret tt else throw x).

(** After the answer: a subscriber that was attached and has changed network. *)
Definition phase3_reports : M env unit :=
  pr ← gets p;
  if String.eqb (DAImsiInfo.ms_ps_status (m_orig_info pr)) "ATTACHED"
     && negb (String.eqb (DAImsiInfo.visited_plmnid (m_orig_info pr))
                (DAImsiInfo.visited_plmnid (m_new_info pr)))
  then catch (for_each (m_evtLst pr) phase3_report) (λ _, mret tt)
  else mret tt.

Definition phase3 : M env unit :=
  pr ← gets p;
  _ ← (if FLAG_IS_SET (m_ulrflags pr) ULR_SKIP_SUBSCRIBER_DATA then mret tt
       else phase3_subscription);
  _ ← ans_add [FDMessage.result_code ER_DIAMETER_SUCCESS];
  _ ← ans_send;
  _ ← on_world (World.registerStatResult stat_hss_ulr 0 ER_DIAMETER_SUCCESS);
  _ ← phase3_reports;
  set_next ULRSTATE_PHASE4.

(** *** Phases 4 and 5 *)

Definition phase4 : M env unit :=
  _ ← set_next ULRSTATE_PHASE5;
  pr ← gets p;
  _ ← set_new (λ i, i <| DAImsiInfo.mme_id := m_mmeidentity pr |>);
  pr ← gets p;
  ok ← counted_query (DataAccess.updateLocation (m_new_info pr) (m_present_flags pr)
                        (m_mmeidentity pr) (Some ULRDB_UPDATE_IMSI)) id [ULRDB_UPDATE_IMSI];
  if (ok : bool) then mret tt else set_next ULRSTATE_PHASEFINAL.

Definition phase5 : M env unit := set_next ULRSTATE_PHASEFINAL.

(** *** The callbacks *)

Definition getImsiInfo (f : cass_future) : M env unit :=
  pr ← gets p;
  '(success, info) ← lift (DataAccess.getImsiInfoData f (m_orig_info pr));
  _ ← set_p (λ p, p <| m_orig_info := info |>);
  db_complete ULRDB_GET_IMSI_INFO success.

Definition getExternalIds (f : cass_future) : M env unit :=
  pr ← gets p;
  '(success, l) ← lift (DataAccess.getExtIdsFromImsiData f (m_extIdLst pr));
  _ ← set_p (λ p, p <| m_extIdLst := l |>);
  _ ← db_complete ULRDB_GET_EXT_IDS success;
  if (success : bool) then
    _ ← counted_query (DataAccess.getEventIdsFromExtIds
                         (DataAccess.comma_separated (quoted <$> l)) (m_evtIdLst pr)
                         (Some ULRDB_GET_EVNTIDS_EXTIDS))
          fst [ULRDB_GET_EVNTIDS_EXTIDS; ULRDB_GET_EVNTS_EVNTIDS];
    mret tt
  else db_complete ULRDB_GET_EVNTIDS_EXTIDS false.

(** One event query, for the identifiers of one SCEF. *)
Definition events_query (scef_id : string) (scef_ref_ids : list Z) : M env bool :=
  pr ← gets p;
  counted_query (DataAccess.getEvents scef_id scef_ref_ids (m_evtLst pr)
                   (Some ULRDB_GET_EVNTS_EVNTIDS)) fst [ULRDB_GET_EVNTS_EVNTIDS].

(** The loop of [getEvents()]: one query per run of identifiers; a refused one
    ends it. *)
Fixpoint getEvents_loop (l : list DAEventId.t) (scef_id : string) (scef_ref_ids : list Z)
    : M env unit :=
  match l with
  | [] =>
      if decide (scef_ref_ids = []) then mret tt
      else _ ← events_query scef_id scef_ref_ids; mret tt
  | i :: l' =>
      if negb (String.eqb scef_id (DAEventId.scef_id i)) && bool_decide (scef_ref_ids ≠ []) then
        ok ← events_query scef_id scef_ref_ids;
        if (ok : bool) then getEvents_loop l' (DAEventId.scef_id i) [DAEventId.scef_ref_id i]
        else mret tt
      else getEvents_loop l' scef_id (scef_ref_ids ++ [DAEventId.scef_ref_id i])
  end.

Definition getEvents : M env unit :=
  pr ← gets p;
  match m_evtIdLst pr with
  | [] => db_complete ULRDB_GET_EVNTS_EVNTIDS true
  | _ =>
      _ ← set_p (λ p, p <| m_evtIdLst ::= DAEventId.sort |>);
      pr ← gets p;
      getEvents_loop (m_evtIdLst pr) "" []
  end.

(** Both masks are tested for either bit. *)
Definition EVNTIDS : Z := Z.lor ULRDB_GET_EVNTIDS_MSISDN ULRDB_GET_EVNTIDS_EXTIDS.
Definition getEvents_if_complete : M env unit :=
  pr ← gets p;
  if truth (Z.land (m_dbexecuted pr) EVNTIDS) && truth (Z.land (m_dbresult pr) EVNTIDS)
  then getEvents else mret tt.

Definition getEventIdsMsisdn (f : cass_future) : M env unit :=
  pr ← gets p;
  '(success, l) ← lift (DataAccess.getEventIdsFromMsisdnData f (m_evtIdLst pr));
  _ ← set_p (λ p, p <| m_evtIdLst := l |>);
  _ ← db_complete ULRDB_GET_EVNTIDS_MSISDN success;
  getEvents_if_complete.

(** This one marks the MSISDN query complete as well. *)
Definition getEventIdsExternalIds (f : cass_future) : M env unit :=
  pr ← gets p;
  '(success, l) ← lift (DataAccess.getEventIdsFromExtIdsData f (m_evtIdLst pr));
  _ ← set_p (λ p, p <| m_evtIdLst := l |>);
  _ ← db_complete ULRDB_GET_EVNTIDS_MSISDN success;
  getEvents_if_complete.

(** [m_dbevtissued] is decremented here and incremented nowhere. *)
Definition getEvents_callback (f : cass_future) : M env unit :=
  pr ← gets p;
  '(success, l) ← lift (DataAccess.getEventsData f (m_evtLst pr));
  _ ← set_p (λ p, p <| m_evtLst := l |>);
  _ ← (if (success : bool) then mret tt
       else set_p (λ p, p <| m_dbresult ::=
                     (λ r, DB_OP_COMPLETE_RESULT r ULRDB_GET_EVNTS_EVNTIDS false) |>));
  _ ← set_p (λ p, p <| m_dbevtissued ::= (λ n, u32 (n - 1)) |>);
  pr ← gets p;
  if m_dbevtissued pr =? 0 then
    set_p (λ p, p <| m_dbexecuted ::=
             (λ x, DB_OP_COMPLETE_EXECUTED x ULRDB_GET_EVNTS_EVNTIDS) |>)
  else mret tt.

Definition updateImsiInfo (f : cass_future) : M env unit :=
  db_complete ULRDB_UPDATE_IMSI (negb (DataAccess.failed f)).

Definition getMmeIdentity (f : cass_future) : M env unit :=
  pr ← gets p;
  '(success, id) ← lift (DataAccess.getMmeIdFromHostData f (m_mmeidentity pr));
  _ ← set_p (λ p, p <| m_mmeidentity := id |>);
  db_complete ULRDB_GET_MMEID_HOST success.

(** [on_ulr_callback] up to the lock. *)
Definition on_ulr_callback_data (action : Z) (f : cass_future) : M env unit :=
  if action =? ULRDB_GET_IMSI_INFO then getImsiInfo f
  else if action =? ULRDB_GET_EXT_IDS then getExternalIds f
  else if action =? ULRDB_GET_EVNTIDS_MSISDN then getEventIdsMsisdn f
  else if action =? ULRDB_GET_EVNTIDS_EXTIDS then getEventIdsExternalIds f
  else if action =? ULRDB_GET_EVNTS_EVNTIDS then getEvents_callback f
  else if action =? ULRDB_GET_MMEID_HOST then getMmeIdentity f
  else if action =? ULRDB_UPDATE_IMSI then updateImsiInfo f
  else mret tt.

(** *** The phases *)

Definition phaseReady (phase adjustment : Z) (p : ULRProcessor) : bool :=
  if phase =? ULRSTATE_PHASE1 then true
  else if phase =? ULRSTATE_PHASE2 then FLAG_IS_SET (m_dbexecuted p) ULRDB_GET_IMSI_INFO
  else if phase =? ULRSTATE_PHASE3 then
    FLAG_IS_SET (m_ulrflags p) ULR_SKIP_SUBSCRIBER_DATA
    || FLAG_IS_SET (m_dbexecuted p) ULRDB_GET_EVNTS_EVNTIDS
  else if phase =? ULRSTATE_PHASE4 then FLAG_IS_SET (m_dbexecuted p) ULRDB_GET_MMEID_HOST
  else if phase =? ULRSTATE_PHASE5 then FLAG_IS_SET (m_dbexecuted p) ULRDB_UPDATE_IMSI
  else if phase =? ULRSTATE_PHASEFINAL then
    (u32 (m_dbissued p - adjustment) <=? 0) && (m_msgissued p =? 0)
  else false.

Definition run_phase (phase : Z) : M env unit :=
  if phase =? ULRSTATE_PHASE1 then phase1
  else if phase =? ULRSTATE_PHASE2 then phase2
  else if phase =? ULRSTATE_PHASE3 then phase3
  else if phase =? ULRSTATE_PHASE4 then phase4
  else phase5.

Definition triggerNextPhase_counter (p : ULRProcessor) : ULRProcessor :=
  p <| m_msgissued ::= (λ n, u32 (n + 1)) |>.

(** The processor the threads of Proc.v drive; the callback of the event query
    takes the mutex for its data. *)
Definition ulr_processor : processor G ULRProcessor := {|
  next_phase := m_nextphase;
  ready pr := phaseReady (m_nextphase pr) 0 pr;
  final := ULRSTATE_PHASEFINAL;
  run := run_phase;
  data := on_ulr_callback_data;
  data_locks a := a =? ULRDB_GET_EVNTS_EVNTIDS;
  trigger := triggerNextPhase_counter;
  callback_over pr := pr <| m_dbissued ::= (λ x, u32 (x - 1)) |>;
  message_taken pr := pr <| m_msgissued ::= (λ x, u32 (x - 1)) |> |}.

Abbreviation sys := (Proc.sys G ULRProcessor).
Abbreviation step := (Proc.step ulr_processor).

(** [UPLRcmd::process] made the processor and [startProcessor] triggered it. *)
Definition start (wd : World.world Z G) (req ans : message) : sys :=
  init ulr_processor wd (ULRProcessor_new req ans).

End Ulr.

(** Symbolic execution through the small operations. *)
Ltac ulr_unfold :=
  lazymatch goal with
  | |- wp (on_world (World.on_db _)) _ _ => fail
  | |- wp (on_world _) _ _ => unfold on_world
  | |- wp (set_p _) _ _ => unfold set_p
  | |- wp (set_new _) _ _ => unfold set_new
  | |- wp (set_next _) _ _ => unfold set_next
  | |- wp (ans_add _) _ _ => unfold ans_add
  | |- wp ans_send _ _ => unfold ans_send
  | |- wp (ulr_field _) _ _ => unfold ulr_field
  | |- wp (terminal_field _) _ _ => unfold terminal_field
  | |- wp (db_complete _ _) _ _ => unfold db_complete
  | |- wp get_origin _ _ => unfold get_origin
  | |- wp inc_issued _ _ => unfold inc_issued
  | |- wp dec_issued _ _ => unfold dec_issued
  | |- wp (World.registerStatResult _ _ _) _ _ => unfold World.registerStatResult
  | |- wp (World.send_answer _) _ _ => unfold World.send_answer
  end.
Ltac ulr_steps := repeat (first [wp_step | ulr_unfold]; cbn beta).

(** ** Frames: what the code leaves alone *)

Section Frames.
Context `{Cassandra} `{FreeDiameter} {G : Type}.

Abbreviation env := (Proc.env G ULRProcessor).
Abbreviation cbs e := (DataAccess.callbacks (World.database (w e))).
Abbreviation sent_answers e := (answers (World.wire (w e))).

(** Neither an answer nor the next phase has changed since [e0]. *)
Record same (e0 e : env) : Prop := {
  sm_ans : sent_answers e = sent_answers e0;
  sm_next : m_nextphase (p e) = m_nextphase (p e0) }.

(** New callbacks, all of the action [act]. *)
Definition adds_callbacks (act : Z) (e0 e : env) : Prop :=
  ∃ fs, cbs e = cbs e0 ++ fs ∧ Forall (λ c, c.2 = act) fs.

Lemma same_trans e0 e1 e2 : same e0 e1 → same e1 e2 → same e0 e2.
Proof. intros [] []. constructor; congruence. Qed.
Lemma adds_callbacks_refl act e : adds_callbacks act e e.
Proof. exists []. by rewrite app_nil_r. Qed.
Lemma adds_callbacks_trans act e0 e1 e2 :
  adds_callbacks act e0 e1 → adds_callbacks act e1 e2 → adds_callbacks act e0 e2.
Proof.
  intros (l1 & H1' & F1) (l2 & H2' & F2). exists (l1 ++ l2).
  rewrite H2', H1', app_assoc. split; [done|by apply Forall_app].
Qed.

Lemma wp_fail_items items Q e :
  (∀ e', same e e' → w e' = w e → m_ulrflags (p e') = m_ulrflags (p e) →
     m_evtIdLst (p e') = m_evtIdLst (p e) → Q (Ok tt) e') →
  wp (for_each items (λ i, db_complete i false)) Q e.
Proof.
  revert e. induction items as [|i items IH]; intros e HQ; cbn [for_each].
  { apply wp_ret. by apply HQ. }
  ulr_steps. apply IH. intros e' Hs Hw Hf Hl. apply HQ; cbn in *; try done.
  eapply same_trans; [|exact Hs]. done.
Qed.

Lemma wp_counted_query {A} (q : M (DataAccess.db Z) A) accepted items act e :
  issues (G := G) (World.on_db q) accepted act →
  wp (counted_query q accepted items)
    (λ o e', is_Ok o ∧ same e e' ∧ adds_callbacks act e e' ∧
             World.wire (w e') = World.wire (w e)) e.
Proof.
  intros Hq. unfold counted_query. ulr_steps.
  eapply wp_issue; [exact Hq|]. intros a wd f Hw Hc. cbn [keep_fault] in *. cbn in Hw, Hc.
  destruct (accepted a); ulr_steps.
  - split_and!; [done|by constructor; cbn; rewrite ?Hw| |done].
    exists [(f, act)]. split; [done|by repeat constructor].
  - apply wp_fail_items. intros e' [Hs1 Hs2] Hw' _ _. cbn in *. ulr_steps. cbn.
    split_and!; [done|by constructor; cbn; congruence| |by rewrite Hw'].
    exists []. split; [|done]. cbn. congruence.
Qed.

(** The queries of the processor. *)
Lemma getImsiInfo_issues imsi info act :
  issues (G := G) (World.on_db (DataAccess.getImsiInfo imsi info (Some act))) fst act.
Proof. unfold DataAccess.getImsiInfo. solve_issues. Qed.
Lemma getExtIdsFromImsi_issues imsi l act :
  issues (G := G) (World.on_db (DataAccess.getExtIdsFromImsi imsi l (Some act))) fst act.
Proof. unfold DataAccess.getExtIdsFromImsi. solve_issues. Qed.
Lemma getEventIdsFromMsisdn_issues m l act :
  issues (G := G) (World.on_db (DataAccess.getEventIdsFromMsisdn m l (Some act))) fst act.
Proof. unfold DataAccess.getEventIdsFromMsisdn. solve_issues. Qed.
Lemma getMmeIdFromHost_issues h i act :
  issues (G := G) (World.on_db (DataAccess.getMmeIdFromHost h i (Some act))) fst act.
Proof. unfold DataAccess.getMmeIdFromHost. solve_issues. Qed.
Lemma getEventIdsFromExtIds_issues s l act :
  issues (G := G) (World.on_db (DataAccess.getEventIdsFromExtIds s l (Some act))) fst act.
Proof. unfold DataAccess.getEventIdsFromExtIds. solve_issues. Qed.
Lemma getEvents_issues s ids l act :
  issues (G := G) (World.on_db (DataAccess.getEvents s ids l (Some act))) fst act.
Proof. unfold DataAccess.getEvents. solve_issues. Qed.
Lemma updateLocation_issues i f m act :
  issues (G := G) (World.on_db (DataAccess.updateLocation i f m (Some act))) id act.
Proof. unfold DataAccess.updateLocation. solve_issues. Qed.

End Frames.
End Ulr.
