(* ===== verification/UlrPhase2.v ===== *)
(** * What phase2 of an Update-Location-Request decides

    The checks of [ULRProcessor::phase2]: which requests pass, and how the
    others are answered. *)

From S2P Require Import Prelude Codec Diameter DataAccess World Proc Ulr.
Import Ulr.
#[local] Open Scope Z_scope.

Module UlrPhase2.

Section Phase2.
Context `{Cassandra} `{FreeDiameter} {G : Type}.
Variable (u : uninit).

Abbreviation env := (Proc.env G ULRProcessor).

(** A field of the request read into a variable that held [old]. *)
Definition reads_u32 (req : message) (k : avp_name) (old v : Z) : Prop :=
  ∃ a b, FDExtractor.field Extractors.UpdateLocationRequestExtractor req k = Ok a ∧
         FDExtractor.get_u32 a old = Ok (b, v).

(** The request asks for what an MME may ask of this subscriber's record: a
    known subscriber, E-UTRAN allowed, S6a flags, the MME on record unless it is
    an initial attach, and a three-byte PLMN. *)
Record acceptable (e0 e : env) : Prop := {
  ac_known : FLAG_IS_SET (m_dbresult (p e0)) ULRDB_GET_IMSI_INFO = true;
  ac_rat : reads_u32 (m_ulr (p e0)) "RAT-Type" (u_phase2_u32 u) 1004;
  ac_eutran : FLAG_IS_SET (DAImsiInfo.access_restriction (m_orig_info (p e0)))
                E_UTRAN_NOT_ALLOWED = false;
  ac_flags : ∃ flags,
    reads_u32 (m_ulr (p e0)) "ULR-Flags" 1004 flags ∧
    FLAG_IS_SET flags ULR_SINGLE_REGISTRATION_IND = false ∧
    FLAG_IS_SET flags ULR_S6A_S6D_INDICATOR = true ∧
    FLAG_IS_SET flags ULR_NODE_TYPE_IND = false ∧ ULR_PAD_VALID flags = true ∧
    (FLAG_IS_SET flags ULR_INITIAL_ATTACH_IND = true ∨
     (DAImsiInfo.mmehost (m_orig_info (p e0)) ≠ "" ∧
      DAImsiInfo.mmerealm (m_orig_info (p e0)) ≠ "" ∧
      DAImsiInfo.mmehost (m_new_info (p e)) = DAImsiInfo.mmehost (m_orig_info (p e0)) ∧
      DAImsiInfo.mmerealm (m_new_info (p e)) = DAImsiInfo.mmerealm (m_orig_info (p e0))));
  ac_plmn : m_plmn_len (p e) = 3%nat }.

(** The error an answer of phase2 ends with. *)
Definition phase2_errors : list avp :=
  [FDMessage.experimental_result DIAMETER_ERROR_USER_UNKNOWN;
   FDMessage.result_code DIAMETER_ERROR_RAT_NOT_ALLOWED;
   FDMessage.result_code ER_DIAMETER_INVALID_AVP_VALUE;
   FDMessage.experimental_result DIAMETER_ERROR_UNKNOWN_SERVING_NODE;
   FDMessage.experimental_result DIAMETER_ERROR_UNKNOWN_EPS_SUBSCRIPTION].

Definition verdict (e0 : env) (o : outcome unit) (e : env) : Prop :=
  World.database (w e) = World.database (w e0) ∧
  match o with
  | Ok _ =>
      (m_nextphase (p e) = ULRSTATE_PHASE3 ∧ World.wire (w e) = World.wire (w e0) ∧
       acceptable e0 e)
      ∨ (m_nextphase (p e) = ULRSTATE_PHASEFINAL ∧
         ∃ pre a, a ∈ phase2_errors ∧
           World.wire (w e) = World.wire (w e0) ++ [SentAnswer (pre ++ [a])])
  | _ => World.wire (w e) = World.wire (w e0)
  end.

(** The last part of phase2 keeps all that [acceptable] looks at. *)
Record settled (e1 e : env) : Prop := {
  se_world : w e = w e1;
  se_new : m_new_info (p e) = m_new_info (p e1);
  se_orig : m_orig_info (p e) = m_orig_info (p e1);
  se_len : m_plmn_len (p e) = m_plmn_len (p e1) }.

Lemma wp_phase2_features l v e1 e :
  settled e1 e → wp (phase2_features l v) (λ _ e', settled e1 e') e.
Proof.
  revert v e. induction l as [|g l IH]; intros v e Hs; cbn [phase2_features].
  { by apply wp_ret. }
  destruct Hs. ulr_steps; try (by constructor); try apply IH; by constructor.
Qed.

Lemma wp_reject_verdict a v c e0 e :
  World.database (w e) = World.database (w e0) → World.wire (w e) = World.wire (w e0) →
  a ∈ phase2_errors → wp (reject_with a v c) (verdict e0) e.
Proof.
  intros Hd Hw Ha. unfold reject_with. ulr_steps; split; cbn; try done.
  right. split; [done|]. exists (m_ans (p e)), a. split; [done|]. by rewrite Hw.
Qed.

Lemma verdict_accepts e0 e :
  World.database (w e) = World.database (w e0) → World.wire (w e) = World.wire (w e0) →
  m_nextphase (p e) = ULRSTATE_PHASE3 → acceptable e0 e → verdict e0 (Ok tt) e.
Proof. intros. split; [done|]. by left. Qed.

(** Closes the ways out of a part of phase2. *)
Ltac solve_verdict :=
  lazymatch goal with
  | |- wp (reject_result_code _) _ _ => unfold reject_result_code
  | |- wp (reject_experimental _) _ _ => unfold reject_experimental
  | |- wp reject_rat _ _ => unfold reject_rat
  | |- _ => idtac
  end;
  lazymatch goal with
  | |- wp (reject_with _ _ _) _ _ =>
      apply wp_reject_verdict; cbn; [congruence|congruence|unfold phase2_errors; set_solver]
  | |- verdict _ (Throw _) _ => split; cbn; congruence
  | |- verdict _ UB _ => split; cbn; congruence
  end.

Lemma wp_phase2_subscription e0 e1 e :
  World.database (w e1) = World.database (w e0) → World.wire (w e1) = World.wire (w e0) →
  (∀ e', settled e1 e' → acceptable e0 e') → settled e1 e →
  wp phase2_subscription (verdict e0) e.
Proof.
  intros Hd Hw Hac [Hs1 Hs2 Hs3 Hs4]. unfold phase2_subscription. ulr_steps.
  all: try solve_verdict.
  all: apply verdict_accepts; cbn; [congruence|congruence|done|apply Hac; by constructor].
Qed.

Lemma wp_phase2_capabilities e0 e v :
  World.database (w e) = World.database (w e0) → World.wire (w e) = World.wire (w e0) →
  (∀ e', settled e e' → acceptable e0 e') → wp (phase2_capabilities v) (verdict e0) e.
Proof.
  intros Hd Hw Hac. unfold phase2_capabilities. ulr_steps.
  all: try solve_verdict.
  all: eapply wp_mono; [apply (wp_phase2_features _ _ e); by constructor|].
  all: intros [[]|x|] e' Hs; cbn [keep_fault]; [by eapply wp_phase2_subscription| |].
  all: destruct Hs; split; congruence.
Qed.

(** The checks of phase2 in the order the code makes them. *)
Lemma acceptable_intro e0 e a b rat a' b' flags :
  negb (FLAG_IS_SET (m_dbresult (p e0)) ULRDB_GET_IMSI_INFO) = false →
  FDExtractor.field Extractors.UpdateLocationRequestExtractor (m_ulr (p e0)) "RAT-Type" = Ok a →
  FDExtractor.get_u32 a (u_phase2_u32 u) = Ok (b, rat) →
  negb (rat =? 1004) || FLAG_IS_SET (DAImsiInfo.access_restriction (m_orig_info (p e0)))
                          E_UTRAN_NOT_ALLOWED = false →
  FDExtractor.field Extractors.UpdateLocationRequestExtractor (m_ulr (p e0)) "ULR-Flags" = Ok a' →
  FDExtractor.get_u32 a' rat = Ok (b', flags) →
  FLAG_IS_SET flags ULR_SINGLE_REGISTRATION_IND = false →
  negb (FLAG_IS_SET flags ULR_S6A_S6D_INDICATOR) = false →
  FLAG_IS_SET flags ULR_NODE_TYPE_IND = false → negb (ULR_PAD_VALID flags) = false →
  FLAG_IS_SET flags ULR_INITIAL_ATTACH_IND = true ∨
  (negb (String.eqb (DAImsiInfo.mmehost (m_orig_info (p e0))) "")
   && negb (String.eqb (DAImsiInfo.mmerealm (m_orig_info (p e0))) "") = true ∧
   negb (String.eqb (DAImsiInfo.mmehost (m_orig_info (p e0))) (DAImsiInfo.mmehost (m_new_info (p e))))
   = false ∧
   negb (String.eqb (DAImsiInfo.mmerealm (m_orig_info (p e0)))
           (DAImsiInfo.mmerealm (m_new_info (p e)))) = false) →
  m_plmn_len (p e) = 3%nat → acceptable e0 e.
Proof.
  intros Hk Ha Hr Hru Ha' Hf H1' H2' H3' H4' Hn Hl.
  apply orb_false_iff in Hru as [Hru He]. apply negb_false_iff in Hk, Hru, H2', H4'. apply Z.eqb_eq in Hru as ->.
  constructor; [done|by exists a, b|done| |done].
  exists flags. split_and!; [by exists a', b'|done..|].
  destruct Hn as [Hn|(Hn & Hh & Hr')]; [by left|right].
  apply andb_true_iff in Hn as [Hn1 Hn2]. rewrite negb_true_iff in Hn1, Hn2.
  apply negb_false_iff in Hh, Hr'. apply String.eqb_neq in Hn1, Hn2. apply String.eqb_eq in Hh, Hr'. by split_and!.
Qed.

Lemma ulr_wp_phase2 e0 : wp (phase2 u) (verdict e0) e0.
Proof.
  unfold phase2, phase2_flags, phase2_serving_node, phase2_plmn, phase2_terminal,
    phase2_software_version, phase2_meid. ulr_steps.
  all: try solve_verdict.
  all: apply wp_phase2_capabilities; [done|done|]; cbn; intros e' [Hw Hn Ho Hl]; cbn in *.
  all: match goal with
    | E : negb (_ && (?n =? 3)%nat) = false |- _ =>
        apply negb_false_iff, andb_true_iff in E as [_ E]; apply Nat.eqb_eq in E;
        eapply acceptable_intro; try eassumption; [|congruence]
    end.
  all: first [ left; assumption | right; rewrite ?Hn; cbn; split_and!; assumption ].
Qed.

(** C2: phase2 lets an Update-Location-Request pass only for a known subscriber
    on E-UTRAN, with the flags of an MME on S6a, from the MME on record unless
    it is an initial attach, and with a three-byte PLMN; it has sent nothing
    then.  Every other request that it finishes with is answered once, with one
    of five errors as the last AVP.  Either way it leaves the database alone. *)
Theorem phase2_accepts_or_rejects e e' :
  phase2 u e = (Ok tt, e') →
  World.database (w e') = World.database (w e) ∧
  ((m_nextphase (p e') = ULRSTATE_PHASE3 ∧ World.wire (w e') = World.wire (w e) ∧
    acceptable e e')
   ∨ (m_nextphase (p e') = ULRSTATE_PHASEFINAL ∧
      ∃ pre a, a ∈ phase2_errors ∧
        World.wire (w e') = World.wire (w e) ++ [SentAnswer (pre ++ [a])])).
Proof. intros Hr. exact (wp_run _ _ _ _ _ (ulr_wp_phase2 e) Hr). Qed.

End Phase2.
End UlrPhase2.
