(* ===== verification/UlrRuns.v ===== *)
(** * The runs of an Update-Location-Request

    What holds in every interleaving of the driver threads and workers around a
    [ULRProcessor], and the runs in which it goes wrong. *)

From S2P Require Import Prelude Codec Auc Diameter DataAccess World Proc Ulr UlrPhase2.
Import Ulr.
#[local] Open Scope Z_scope.

Module UlrRuns.

Section Runs.
Context `{Cassandra} `{FreeDiameter} {G : Type}.
Variable (u : uninit).

Abbreviation env := (Proc.env G ULRProcessor).
Abbreviation sys := (Proc.sys G ULRProcessor).
Abbreviation step := (Proc.step (ulr_processor (G := G) u)).
Abbreviation cbs e := (DataAccess.callbacks (World.database (w e))).
Abbreviation sent_answers e := (answers (World.wire (w e))).

(** *** How each phase ends *)

(** The next phase and the number of answers sent, by the phase run. *)
Definition allowed (k next : Z) (n : nat) : Prop :=
  if k =? ULRSTATE_PHASE1 then
    (next = ULRSTATE_PHASE2 ∧ n = 0%nat) ∨ (next = ULRSTATE_PHASEFINAL ∧ n = 1%nat)
  else if k =? ULRSTATE_PHASE2 then
    (next = ULRSTATE_PHASE3 ∧ n = 0%nat) ∨ (next = ULRSTATE_PHASEFINAL ∧ n = 1%nat)
  else if k =? ULRSTATE_PHASE3 then next = ULRSTATE_PHASE4 ∧ n = 1%nat
  else if k =? ULRSTATE_PHASE4 then
    (next = ULRSTATE_PHASE5 ∨ next = ULRSTATE_PHASEFINAL) ∧ n = 0%nat
  else next = ULRSTATE_PHASEFINAL ∧ n = 0%nat.

(** A phase that faults has sent nothing, except that phase3 may have sent its
    answer. *)
Definition ends (k : Z) (e0 : env) (o : outcome unit) (e : env) : Prop :=
  match o with
  | Ok _ => ∃ n, allowed k (m_nextphase (p e)) n ∧ sent_answers e = (sent_answers e0 + n)%nat
  | _ => (sent_answers e <= sent_answers e0 + if (k =? ULRSTATE_PHASE3)%Z then 1 else 0)%nat
  end.

Lemma ends_throw k e0 e x : sent_answers e = sent_answers e0 → ends k e0 (Throw x) e.
Proof. intros Ha. cbn. lia. Qed.
Lemma ends_undefined k e0 e : sent_answers e = sent_answers e0 → ends k e0 UB e.
Proof. intros Ha. cbn. lia. Qed.

Lemma wp_reject_ends k a v c e0 e :
  sent_answers e = sent_answers e0 → allowed k ULRSTATE_PHASEFINAL 1 →
  wp (reject_with a v c) (ends k e0) e.
Proof.
  intros Ha Hal. unfold reject_with. ulr_steps.
  - exists 1%nat. split; [done|]. cbn. rewrite answers_app. cbn. lia.
  - by apply ends_throw.
  - by apply ends_undefined.
Qed.

(** A phase1 query is accepted or not, and leaves answers and phase alone. *)
Lemma wp_phase1_queries (e : env) : wp phase1_queries (λ o e', is_Ok o ∧ same e e') e.
Proof.
  assert (∀ (b : bool) A (q : M (DataAccess.db Z) A) acc items act e1,
    issues (G := G) (World.on_db q) acc act → same e e1 →
    wp (if b then counted_query q acc items else mret false) (λ o e', is_Ok o ∧ same e e') e1)
    as Hq.
  { intros [] A q acc items act e1 Hi Hs; [|by apply wp_ret].
    eapply wp_mono; [by eapply wp_counted_query|]. intros o e' (Ho & Hs' & _).
    split; [done|by eapply same_trans]. }
  unfold phase1_queries. ulr_steps.
  eapply wp_issue; [apply getImsiInfo_issues|]. intros [ok i] wd f Hw _. cbn [keep_fault fst].
  assert (same e (e <| w := wd |>)) as Hs by (by constructor; cbn; rewrite ?Hw).
  clear Hw. revert Hs. generalize (e <| w := wd |>). intros e1 Hs. wp_step.
  assert (wp (if ok then
      counted_query (DataAccess.getExtIdsFromImsi (DAImsiInfo.imsi (m_new_info (p e)))
        (m_extIdLst (p e)) (Some ULRDB_GET_EXT_IDS)) fst
        [ULRDB_GET_EXT_IDS; ULRDB_GET_EVNTIDS_EXTIDS; ULRDB_GET_EVNTS_EVNTIDS]
      else _ ← db_complete ULRDB_GET_IMSI_INFO false; mret false)
      (λ o e', is_Ok o ∧ same e e') e1) as H2.
  { destruct ok; [by apply (Hq true _ _ _ _ _ _ (getExtIdsFromImsi_issues _ _ _))|].
    ulr_steps. split; [done|]. destruct Hs. by constructor. }
  eapply wp_mono; [exact H2|]. intros o2 e2 [[ok2 ->] Hs2]. cbn [keep_fault]. wp_step.
  eapply wp_mono; [by apply (Hq ok2 _ _ _ _ _ _ (getEventIdsFromMsisdn_issues _ _ _))|].
  intros o3 e3 [[ok3 ->] Hs3]. cbn [keep_fault].
  by apply (Hq ok3 _ _ _ _ _ _ (getMmeIdFromHost_issues _ _ _)).
Qed.

Lemma ulr_wp_phase1 e0 : wp (phase1 u) (ends ULRSTATE_PHASE1 e0) e0.
Proof.
  unfold phase1. ulr_steps.
  all: lazymatch goal with
    | |- ends _ _ (Throw _) _ => by apply ends_throw
    | |- ends _ _ UB _ => by apply ends_undefined
    | |- wp (reject_result_code _) _ _ => apply wp_reject_ends; [done|by right]
    | |- _ => idtac
    end.
  eapply wp_mono; [apply wp_phase1_queries|]. intros o e [[ok ->] [Ha Hn]]. cbn in Ha, Hn.
  cbn [keep_fault]. ulr_steps.
  - exists 0%nat. split; [by left|]. cbn. lia.
  - apply wp_reject_ends; [done|by right].
Qed.

Lemma wp_phase2_ends e0 : wp (phase2 u) (ends ULRSTATE_PHASE2 e0) e0.
Proof.
  eapply wp_mono; [apply UlrPhase2.ulr_wp_phase2|]. intros [[]|x|] e [_ Hv]; cbn in Hv |- *.
  - destruct Hv as [(Hn & Hw & _)|(Hn & pre & a & _ & Hw)]; rewrite Hn, Hw.
    + exists 0%nat. split; [by left|lia].
    + exists 1%nat. split; [by right|]. by rewrite answers_app.
  - rewrite Hv. lia.
  - rewrite Hv. lia.
Qed.

(** phase3 up to its answer. *)
Lemma wp_phase3_subscription (e : env) : wp phase3_subscription (λ _ e', same e e') e.
Proof.
  unfold phase3_subscription, phase3_events. ulr_steps. apply wp_on_db. intros [ids|x|] d; [|done..].
  cbn [keep_fault]. ulr_steps. apply wp_on_db. intros [evts|x|] d'; [|done..].
  cbn [keep_fault]. ulr_steps.
  match goal with |- wp (match ?l with _ => _ end) _ _ => destruct l as [|ev evts'] end;
    ulr_steps; try done.
  eapply (wp_for_each (same e)); [|done]. clear. intros ev e1 Hs. unfold phase3_add_json.
  destruct Hs. ulr_steps; by constructor.
Qed.

Lemma wp_phase3_report ev (e : env) : wp (phase3_report ev) (λ _ e', same e e') e.
Proof.
  unfold phase3_report. ulr_steps; [done|]. apply wp_catch. unfold on_world, World.send_request.
  ulr_steps; try done. constructor; cbn; [|done]. rewrite answers_app. cbn. lia.
Qed.

Lemma wp_phase3_reports (e : env) : wp phase3_reports (λ _ e', same e e') e.
Proof.
  unfold phase3_reports. do 2 wp_step. cbn [keep_fault]. wp_step; [|by apply wp_ret].
  apply wp_catch. eapply wp_mono.
  { apply (wp_for_each (same e)); [|done]. intros ev e1 Hs.
    eapply wp_mono; [apply wp_phase3_report|]. intros ? e2. by apply same_trans. }
  intros [] e1 Hs; done.
Qed.

Lemma ulr_wp_phase3 e0 : wp phase3 (ends ULRSTATE_PHASE3 e0) e0.
Proof.
  assert (∀ b : bool, wp (if b then mret tt else phase3_subscription) (λ _ e', same e0 e') e0) as Hs.
  { intros []; [by apply wp_ret|apply wp_phase3_subscription]. }
  unfold phase3. do 2 wp_step. cbn [keep_fault]. wp_step.
  eapply wp_mono; [apply Hs|]. clear Hs. intros o e1 [Ha _].
  destruct o; cbn [keep_fault]; [|by apply ends_throw|by apply ends_undefined].
  ulr_steps; [|by apply ends_throw|by apply ends_undefined].
  eapply wp_mono; [apply wp_phase3_reports|]. intros o e2 [Ha2 _]. cbn in Ha2.
  rewrite answers_app in Ha2. cbn in Ha2.
  destruct o; cbn [keep_fault]; [|cbn; rewrite Z.eqb_refl; lia..]. ulr_steps.
  exists 1%nat. split; [done|]. cbn. lia.
Qed.

Lemma wp_phase4 e0 : wp phase4 (ends ULRSTATE_PHASE4 e0) e0.
Proof.
  unfold phase4. ulr_steps.
  eapply wp_mono; [apply wp_counted_query, updateLocation_issues|].
  intros o e ([ok ->] & [Ha Hn] & _). cbn in Ha, Hn. cbn [keep_fault]. ulr_steps.
  - exists 0%nat. split; [|cbn; lia]. split; [by left|done].
  - exists 0%nat. split; [|cbn; lia]. split; [by right|done].
Qed.

Lemma wp_phase5 e0 : wp phase5 (ends ULRSTATE_PHASE5 e0) e0.
Proof. unfold phase5. ulr_steps. exists 0%nat. split; [done|cbn; lia]. Qed.

(** *** What the callbacks do *)

Definition is_event_ids (a : Z) : bool :=
  (a =? ULRDB_GET_EVNTIDS_MSISDN) || (a =? ULRDB_GET_EVNTIDS_EXTIDS).

(** The queries a callback issues: the identifiers of the external identities,
    then the events. *)
Definition issued_by (a : Z) (e0 e : env) : Prop :=
  if a =? ULRDB_GET_EXT_IDS then adds_callbacks ULRDB_GET_EVNTIDS_EXTIDS e0 e
  else if is_event_ids a then adds_callbacks ULRDB_GET_EVNTS_EVNTIDS e0 e
  else cbs e = cbs e0.

Definition data_post (a : Z) (e0 : env) (_ : outcome unit) (e : env) : Prop :=
  same e0 e ∧ issued_by a e0 e.

Lemma issued_trans a (e0 e1 e2 : env) :
  same e0 e1 ∧ adds_callbacks a e0 e1 → same e1 e2 ∧ adds_callbacks a e1 e2 →
  same e0 e2 ∧ adds_callbacks a e0 e2.
Proof. intros [] []. split; [by eapply same_trans|by eapply adds_callbacks_trans]. Qed.

Lemma wp_events_query s ids (e : env) :
  wp (events_query s ids)
    (λ o e', is_Ok o ∧ same e e' ∧ adds_callbacks ULRDB_GET_EVNTS_EVNTIDS e e') e.
Proof.
  unfold events_query. do 2 wp_step. cbn [keep_fault].
  eapply wp_mono; [apply wp_counted_query, getEvents_issues|]. intros o e' (?&?&?&_). by split_and!.
Qed.

Lemma wp_getEvents_loop l s ids (e : env) :
  wp (getEvents_loop l s ids)
    (λ _ e', same e e' ∧ adds_callbacks ULRDB_GET_EVNTS_EVNTIDS e e') e.
Proof.
  assert (∀ (e : env), same e e ∧ adds_callbacks ULRDB_GET_EVNTS_EVNTIDS e e) as Hrefl
    by (intros; split; [done|apply adds_callbacks_refl]).
  revert s ids e. induction l as [|i l IH]; intros s ids e; cbn [getEvents_loop].
  - wp_step; [by apply wp_ret|]. wp_step.
    eapply wp_mono; [apply wp_events_query|]. intros o e' ([ok ->]&Hs). by apply wp_ret.
  - wp_step; [|apply IH]. wp_step.
    eapply wp_mono; [apply wp_events_query|]. intros o e' ([ok ->]&Hs). cbn [keep_fault].
    destruct ok; [|by apply wp_ret].
    eapply wp_mono; [apply IH|]. intros o e2. by apply issued_trans.
Qed.

Lemma wp_getEvents_if_complete (e : env) :
  wp getEvents_if_complete
    (λ _ e', same e e' ∧ adds_callbacks ULRDB_GET_EVNTS_EVNTIDS e e') e.
Proof.
  unfold getEvents_if_complete, getEvents. do 2 wp_step. cbn [keep_fault].
  wp_step; [|apply wp_ret; split; [done|apply adds_callbacks_refl]].
  do 2 wp_step. cbn [keep_fault].
  destruct (m_evtIdLst (p e)) eqn:El.
  - ulr_steps. split; [done|]. apply (adds_callbacks_refl _ e).
  - ulr_steps. eapply wp_mono; [apply wp_getEvents_loop|]. intros o e2.
    apply issued_trans. split; [done|]. apply (adds_callbacks_refl _ e).
Qed.

(** Closes the leaves at which nothing was issued. *)
Ltac solve_nothing_issued :=
  lazymatch goal with
  | |- same ?e _ ∧ adds_callbacks ?a ?e _ => split; [done|apply (adds_callbacks_refl a e)]
  | |- same _ _ ∧ _ => split; done
  end.

Lemma ulr_wp_callback_data a f e : wp (on_ulr_callback_data a f) (data_post a e) e.
Proof.
  unfold on_ulr_callback_data, data_post, issued_by, is_event_ids.
  destruct (Z.eqb_spec a ULRDB_GET_IMSI_INFO) as [->|].
  { unfold getImsiInfo. ulr_steps; solve_nothing_issued. }
  destruct (Z.eqb_spec a ULRDB_GET_EXT_IDS) as [->|].
  { unfold getExternalIds. ulr_steps; try solve_nothing_issued.
    eapply wp_mono; [apply wp_counted_query, getEventIdsFromExtIds_issues|].
    intros o e' ([ok ->] & [Ha Hn] & Hc & _). cbn [keep_fault]. by apply wp_ret. }
  destruct (Z.eqb_spec a ULRDB_GET_EVNTIDS_MSISDN) as [->|].
  { cbn [orb]. unfold getEventIdsMsisdn. ulr_steps; try solve_nothing_issued.
    eapply wp_mono; [apply wp_getEvents_if_complete|]. intros o e'.
    apply issued_trans. solve_nothing_issued. }
  destruct (Z.eqb_spec a ULRDB_GET_EVNTIDS_EXTIDS) as [->|].
  { cbn [orb]. unfold getEventIdsExternalIds. ulr_steps; try solve_nothing_issued.
    eapply wp_mono; [apply wp_getEvents_if_complete|]. intros o e'.
    apply issued_trans. solve_nothing_issued. }
  destruct (Z.eqb_spec a ULRDB_GET_EVNTS_EVNTIDS) as [->|].
  { unfold getEvents_callback. ulr_steps; solve_nothing_issued. }
  destruct (Z.eqb_spec a ULRDB_GET_MMEID_HOST) as [->|].
  { unfold getMmeIdentity. ulr_steps; solve_nothing_issued. }
  destruct (Z.eqb_spec a ULRDB_UPDATE_IMSI) as [->|].
  { unfold updateImsiInfo. ulr_steps; solve_nothing_issued. }
  by apply wp_ret.
Qed.

(** *** Answers *)

Definition is_phase (k : Z) : Prop :=
  k = ULRSTATE_PHASE1 ∨ k = ULRSTATE_PHASE2 ∨ k = ULRSTATE_PHASE3 ∨ k = ULRSTATE_PHASE4
  ∨ k = ULRSTATE_PHASE5.

Lemma ulr_wp_run_phase k e : is_phase k → wp (run_phase u k) (ends k e) e.
Proof.
  intros [-> | [-> | [-> | [-> | ->]]]];
    [apply ulr_wp_phase1|apply wp_phase2_ends|apply ulr_wp_phase3|apply wp_phase4|apply wp_phase5].
Qed.

Lemma ulr_phaseReady_known k j pr :
  phaseReady k j pr = true → k ≠ ULRSTATE_PHASEFINAL → is_phase k.
Proof. unfold phaseReady, is_phase. repeat case_match; intros; try done; lia. Qed.

(** The answers sent when the phase [k] is next. *)
Definition answered (k : Z) : nat :=
  if bool_decide (k = ULRSTATE_PHASE4 ∨ k = ULRSTATE_PHASE5 ∨ k = ULRSTATE_PHASEFINAL)
  then 1 else 0.

Lemma allowed_answered k next n :
  is_phase k → allowed k next n → (answered k + n)%nat = answered next.
Proof.
  intros [-> | [-> | [-> | [-> | ->]]]] Hal; lazy in Hal;
    destruct_or?; destruct_and?; destruct_or?; by subst.
Qed.

(** A live processor has answered as its next phase says and holds its slot; a
    deleted one has answered once and released it. *)
Record inv (s : sys) : Prop := {
  inv_answers : (sys_answers s <= 1)%nat;
  inv_alive : fault s = None →
    match proc s with
    | Some pr => sys_answers s = answered (m_nextphase pr) ∧ released s = 0%nat
    | None => sys_answers s = 1%nat ∧ released s = 1%nat
    end }.

Lemma answered_le k : (answered k <= 1)%nat.
Proof. unfold answered. case_bool_decide; lia. Qed.

Lemma ulr_inv_step s s' : step s s' → inv s → inv s'.
Proof.
  intros Hstep [Hle Ha].
  destruct Hstep as [s l1 f a l2 Hf Hcb Hlk|s n Hf Hn Hlk|s n Hf Hn Hlk|s pr Hf Hlk Hp Hrdy Hne
                    |s pr Hf Hlk Hp Hrdy Hk|s pr Hf Hlk Hp Hrdy]; specialize (Ha Hf).
  - destruct (proc s) as [pr|] eqn:Hp; [|by split].
    eapply exec_case; [apply ulr_wp_callback_data| |].
    + intros e [[Hs Hn] _]. cbn in Hs, Hn. split; cbn; rewrite ?Hs, ?Hn; [done|]. by intros.
    + intros o e ft [[Hs Hn] _] _ _. cbn in Hs. split; cbn; [by rewrite Hs|done].
  - destruct (proc s) as [pr|] eqn:Hp; by split.
  - destruct (proc s) as [pr|] eqn:Hp; by split.
  - rewrite Hp in Ha. destruct Ha as [Ha Hr].
    pose proof (ulr_phaseReady_known _ _ _ Hrdy Hne) as Hk. cbn.
    eapply exec_case; [by apply ulr_wp_run_phase| |].
    + intros e (n & Hal & Hn). cbn in Hn. rewrite Ha, (allowed_answered _ _ _ Hk Hal) in Hn.
      split; cbn; [rewrite Hn; apply answered_le|]. by intros.
    + intros o e ft He Ho _. split; cbn; [|done].
      assert (sent_answers e <= sys_answers s + if (m_nextphase pr =? ULRSTATE_PHASE3)%Z then 1 else 0)%nat
        as Hle' by (destruct o as [[]|x|]; [done|exact He|exact He]).
      rewrite Ha in Hle'. destruct (Z.eqb_spec (m_nextphase pr) ULRSTATE_PHASE3) as [E|]; [|pose proof (answered_le (m_nextphase pr)); lia].
      rewrite E in Hle'. exact Hle'.
  - rewrite Hp in Ha. destruct Ha as [Ha Hr]. cbn in Hk. rewrite Hk in Ha.
    split; cbn; [done|]. intros _. by rewrite Ha, Hr.
  - rewrite Hp in Ha. split; cbn; [done|]. intros _. by rewrite Hp.
Qed.

(** C1: whatever the request, the database and the interleaving of driver
    threads and workers, an Update-Location-Request is answered at most once;
    when its processor is deleted it has been answered exactly once and its
    slot of the worker queue has been released exactly once. *)
Theorem ulr_answered_once wd req ans (s : Proc.sys G ULRProcessor) :
  fresh wd → rtc (Proc.step (ulr_processor u)) (Ulr.start u wd req ans) s →
  (sys_answers s <= 1)%nat ∧
  (fault s = None → proc s = None → sys_answers s = 1%nat ∧ released s = 1%nat).
Proof.
  intros [_ Hw] Hr. assert (inv s) as [Hle Ha].
  { apply (rtc_preserves _ inv _ _ ulr_inv_step Hr). split; cbn; [lia|]. intros _. by rewrite Hw. }
  split; [done|]. intros Hf Hp. specialize (Ha Hf). by rewrite Hp in Ha.
Qed.

(** *** Termination *)

Definition rank (k : Z) : nat :=
  if k =? ULRSTATE_PHASE1 then 6 else if k =? ULRSTATE_PHASE2 then 5
  else if k =? ULRSTATE_PHASE3 then 4 else if k =? ULRSTATE_PHASE4 then 3
  else if k =? ULRSTATE_PHASE5 then 2 else 1.

Definition sys_rank (s : sys) : nat :=
  match fault s, proc s with
  | Some _, _ => 0
  | None, None => 1
  | None, Some pr => S (rank (m_nextphase pr))
  end.

Definition count (P : Z → bool) (l : list (cass_future * Z)) : nat :=
  length (filter (λ c, P c.2 = true) l).
#[local] Arguments count : simpl never.
Definition is_ext_ids (a : Z) : bool := a =? ULRDB_GET_EXT_IDS.

(** The phases left; then the queries that lead to further queries; then the
    work in flight. *)
Definition measure (s : sys) : nat * (nat * (nat * nat)) :=
  (sys_rank s,
   (count is_ext_ids (callbacks s),
    (count is_event_ids (callbacks s),
     (4 * length (callbacks s) + 3 * fired s + 2 * msgs s + if lock s then 1 else 0)%nat))).

Definition smaller : relation (nat * (nat * (nat * nat))) := lex lt (lex lt (lex lt lt)).

Lemma smaller_wf : well_founded smaller.
Proof. repeat apply lex_wf; apply lt_wf. Qed.

Lemma smaller_rank s s' : (sys_rank s' < sys_rank s)%nat → smaller (measure s') (measure s).
Proof. by left. Qed.

Lemma count_app P l l' : count P (l ++ l') = (count P l + count P l')%nat.
Proof. unfold count. by rewrite filter_app, length_app. Qed.
Lemma count_cons P f a l : count P ((f, a) :: l) = ((if P a then 1 else 0) + count P l)%nat.
Proof. unfold count. rewrite filter_cons. cbn. by destruct (P a). Qed.
Lemma count_none P act l : Forall (λ c, c.2 = act) l → P act = false → count P l = 0%nat.
Proof.
  intros Hl HP. induction Hl as [|[f a] l Ha Hl IH]; [done|]. cbn in Ha. subst.
  by rewrite count_cons, HP.
Qed.

Lemma ulr_allowed_rank k next n : is_phase k → allowed k next n → (rank next < rank k)%nat.
Proof.
  intros [-> | [-> | [-> | [-> | ->]]]] Hal; lazy in Hal;
    destruct_or?; destruct_and?; destruct_or?; subst; by apply Nat.ltb_lt.
Qed.

Lemma smaller_data s pr l1 f a l2 e :
  fault s = None → proc s = Some pr → callbacks s = l1 ++ (f, a) :: l2 →
  data_post a (mk_env (world_of (drop_callback (l1 ++ l2) s)) pr) (Ok tt) e →
  smaller (measure ((drop_callback (l1 ++ l2) (s <| fired ::= S |>))
                    <| world_of := w e |> <| proc := Some (p e) |>)) (measure s).
Proof.
  intros Hf Hp Hc [[_ Hn] Hi]. cbn in Hn. unfold measure, sys_rank. cbn. rewrite Hf, Hp, Hn, Hc.
  rewrite !count_app, !count_cons. right. split; [done|]. cbn [fst snd].
  unfold issued_by in Hi. destruct (a =? ULRDB_GET_EXT_IDS) eqn:E1.
  - destruct Hi as (fs & -> & Hfs). left. cbn. change (is_ext_ids a) with (a =? ULRDB_GET_EXT_IDS). rewrite E1.
    rewrite !count_app, (count_none _ _ fs Hfs) by done. lia.
  - destruct (is_event_ids a) eqn:E2.
    + destruct Hi as (fs & -> & Hfs). right. cbn. change (is_ext_ids a) with (a =? ULRDB_GET_EXT_IDS). rewrite E1.
      rewrite !count_app, !(count_none _ _ fs Hfs) by done. split; [lia|]. left. cbn. lia.
    + rewrite Hi. cbn. right. cbn. change (is_ext_ids a) with (a =? ULRDB_GET_EXT_IDS). rewrite E1. rewrite !count_app.
      split; [lia|]. right. cbn. split; [lia|]. rewrite !length_app. cbn. lia.
Qed.

Lemma smaller_light s s' :
  callbacks s' = callbacks s → sys_rank s' = sys_rank s →
  (3 * fired s' + 2 * msgs s' + (if lock s' then 1 else 0)
   < 3 * fired s + 2 * msgs s + if lock s then 1 else 0)%nat → smaller (measure s') (measure s).
Proof.
  intros Hc Hr Hl. unfold measure. rewrite Hc, Hr. do 3 (right; split; [done|]; cbn [fst snd]). lia.
Qed.

Lemma ulr_step_measure s s' : step s s' → smaller (measure s') (measure s).
Proof.
  intros Hstep.
  destruct Hstep as [s l1 f a l2 Hf Hcb Hlk|s n Hf Hn Hlk|s n Hf Hn Hlk|s pr Hf Hlk Hp Hrdy Hne
                    |s pr Hf Hlk Hp Hrdy Hk|s pr Hf Hlk Hp Hrdy].
  - destruct (proc s) as [pr|] eqn:Hp;
      [|apply smaller_rank; unfold sys_rank; cbn; rewrite Hf, Hp; lia].
    eapply (exec_case _ _ _ _ (λ s', smaller (measure s') (measure s))); [apply ulr_wp_callback_data| |].
    + intros e He. by eapply smaller_data.
    + intros o e ft _ _ _. apply smaller_rank. unfold sys_rank; cbn. rewrite Hf, Hp. lia.
  - destruct (proc s) as [pr|] eqn:Hp;
      [|apply smaller_rank; unfold sys_rank; cbn; rewrite Hf, Hp; lia].
    apply smaller_light; cbn; [done| |rewrite Hn, Hlk; lia]. unfold sys_rank; cbn. by rewrite Hp.
  - destruct (proc s) as [pr|] eqn:Hp;
      [|apply smaller_rank; unfold sys_rank; cbn; rewrite Hf, Hp; lia].
    apply smaller_light; cbn; [done| |rewrite Hn, Hlk; lia]. unfold sys_rank; cbn. by rewrite Hp.
  - pose proof (ulr_phaseReady_known _ _ _ Hrdy Hne) as Hk. cbn.
    eapply (exec_case _ _ _ _ (λ s', smaller (measure s') (measure s))); [by apply ulr_wp_run_phase| |].
    + intros e (n & Hal & _). apply smaller_rank. unfold sys_rank; cbn. rewrite Hf, Hp.
      apply (ulr_allowed_rank _ _ _ Hk) in Hal. lia.
    + intros o e ft _ _ _. apply smaller_rank. unfold sys_rank; cbn. rewrite Hf, Hp. lia.
  - apply smaller_rank. unfold sys_rank; cbn. rewrite Hf, Hp.
    assert (1 <= rank (m_nextphase pr))%nat by (unfold rank; repeat case_match; lia). lia.
  - apply smaller_light; cbn; [done|done|]. rewrite Hlk. lia.
Qed.

(** C3: no request, database or interleaving makes the threads run for ever:
    every run of an Update-Location-Request, from any state, is finite. *)
Theorem ulr_runs_are_finite (s : Proc.sys G ULRProcessor) :
  Acc (flip (Proc.step (ulr_processor u))) s.
Proof. apply (wf_measure_Acc _ smaller measure); [apply smaller_wf|apply ulr_step_measure]. Qed.

(** *** A subscriber with monitoring events *)

(** The callbacks that can only be pending once the event identifiers are in. *)
Definition settled_query (c : cass_future * Z) : Prop :=
  c.2 = ULRDB_GET_IMSI_INFO ∨ c.2 = ULRDB_GET_MMEID_HOST ∨ c.2 = ULRDB_GET_EVNTS_EVNTIDS.

(** The processor waits in phase3 for the event query to complete; [used]
    event callbacks have run. *)
Record waits (used : Z) (pr : ULRProcessor) : Prop := {
  wt_next : m_nextphase pr = ULRSTATE_PHASE3;
  wt_flags : FLAG_IS_SET (m_ulrflags pr) ULR_SKIP_SUBSCRIBER_DATA = false;
  wt_exec : FLAG_IS_SET (m_dbexecuted pr) ULRDB_GET_EVNTS_EVNTIDS = false;
  wt_issued : m_dbevtissued pr = u32 (- used) }.

Definition waiting (s : sys) : Prop :=
  sys_answers s = 0%nat ∧ released s = 0%nat ∧
  (fault s = None → ∃ used pr,
     proc s = Some pr ∧ waits used pr ∧ Forall settled_query (callbacks s) ∧
     0 <= used ∧ used + Z.of_nat (length (callbacks s)) < 2 ^ 32).

Definition waits_post (used : Z) (e0 : env) (o : outcome unit) (e : env) : Prop :=
  sent_answers e = sent_answers e0 ∧ cbs e = cbs e0 ∧
  match o with Ok _ => ∃ used', waits used' (p e) ∧ used <= used' <= used + 1 | _ => True end.

Lemma wp_callback_waits used a f (e : env) :
  waits used (p e) → 0 <= used → used + 1 < 2 ^ 32 → settled_query (f, a) →
  wp (on_ulr_callback_data a f) (waits_post used e) e.
Proof.
  intros [Hn Hfl Hx Hi] Hu Hu' [Ha|[Ha|Ha]]; cbn in Ha; subst a; unfold on_ulr_callback_data; cbn.
  - unfold getImsiInfo. ulr_steps; split_and!; try done. exists used. split; [|lia].
    constructor; cbn; try done. by rewrite FLAG_IS_SET_other.
  - unfold getMmeIdentity. ulr_steps; split_and!; try done. exists used. split; [|lia].
    constructor; cbn; try done. by rewrite FLAG_IS_SET_other.
  - assert (u32 (u32 (- used) - 1) = u32 (- (used + 1))) as Hdec.
    { unfold u32. rewrite Zminus_mod_idemp_l. f_equal. lia. }
    assert ((u32 (- (used + 1)) =? 0) = false) as Hne.
    { apply Z.eqb_neq. unfold u32. rewrite Z.mod_opp_l_nz by (rewrite ?Z.mod_small; lia).
      rewrite Z.mod_small by lia. lia. }
    unfold getEvents_callback. ulr_steps; try (by split_and!).
    all: match goal with
      | E : (m_dbevtissued _ =? 0) = _ |- _ => cbn in E; rewrite Hi, Hdec, Hne in E
      end; try done.
    all: split_and!; try done; exists (used + 1); split; [|lia]; constructor; cbn; try done.
    all: by rewrite Hi, Hdec.
Qed.

Lemma waits_not_ready used pr : waits used pr → phaseReady (m_nextphase pr) 0 pr = false.
Proof.
  intros [Hn Hfl Hx _]. rewrite Hn.
  change (FLAG_IS_SET (m_ulrflags pr) ULR_SKIP_SUBSCRIBER_DATA
          || FLAG_IS_SET (m_dbexecuted pr) ULRDB_GET_EVNTS_EVNTIDS = false).
  by rewrite Hfl, Hx.
Qed.

Lemma waiting_step s s' : step s s' → waiting s → waiting s'.
Proof.
  intros Hstep (Ha & Hr & Hw).
  destruct Hstep as [s l1 f a l2 Hf Hcb Hlk|s n Hf Hn Hlk|s n Hf Hn Hlk|s pr Hf Hlk Hp Hrdy Hne
                    |s pr Hf Hlk Hp Hrdy Hk|s pr Hf Hlk Hp Hrdy];
    destruct (Hw Hf) as (used & pr' & Hp' & Hwt & Hall & Hu & Hb).
  - rewrite Hp'. rewrite Hcb in Hall, Hb. apply Forall_app in Hall as [Hl1 Hl2].
    apply Forall_cons in Hl2 as [Hc Hl2]. rewrite length_app in Hb. cbn in Hb.
    eapply exec_case; [eapply wp_callback_waits; [exact Hwt|done|lia|exact Hc]| |].
    + intros e (He & Hcs & used' & Hwt' & Hu'). cbn in He, Hcs. split_and!; cbn; [congruence|done|].
      intros _. exists used', (p e). rewrite Hcs, length_app. split_and!; try done; try lia.
      by apply Forall_app.
    + intros o e ft (He & _) _ _. cbn in He. split_and!; cbn; [congruence|done|done].
  - rewrite Hp'. split_and!; cbn; [done|done|]. intros _. eexists used, _.
    split_and!; try done. by destruct Hwt.
  - rewrite Hp'. split_and!; cbn; [done|done|]. intros _. eexists used, _.
    split_and!; try done. by destruct Hwt.
  - simplify_eq. cbn in Hrdy. by rewrite (waits_not_ready _ _ Hwt) in Hrdy.
  - simplify_eq. cbn in Hrdy. by rewrite (waits_not_ready _ _ Hwt) in Hrdy.
  - simplify_eq. split_and!; cbn; [done|done|]. intros _. by exists used, pr.
Qed.

(** C4: once the event identifiers of a subscriber have led to event queries
    and phase3 waits for them, the request is never answered and its slot never
    released: [m_dbevtissued], which nothing increments, wraps below zero at the
    first event callback, so the query is never seen to be complete. *)
Theorem ulr_with_events_never_answered s s' pr :
  fault s = None → proc s = Some pr → waits 0 pr → Forall settled_query (callbacks s) →
  Z.of_nat (length (callbacks s)) < 2 ^ 32 → sys_answers s = 0%nat → released s = 0%nat →
  rtc step s s' → sys_answers s' = 0%nat ∧ released s' = 0%nat.
Proof.
  intros Hf Hp Hw Hc Hl Ha Hr Hs.
  assert (waiting s') as (? & ? & _); [|done].
  apply (rtc_preserves _ waiting _ _ waiting_step Hs). split_and!; [done|done|].
  intros _. exists 0, pr. split_and!; try done; lia.
Qed.

End Runs.
End UlrRuns.

(** ** Concrete runs *)

Module UlrWitness.
Import UlrRuns UlrPhase2 ScriptedCassandra WitnessFreeDiameter.

Definition info0 : DAImsiInfo.t := DAImsiInfo.uninit 0 0 0.
Definition u0 : uninit := mk_uninit 0 0 info0 (replicate 4 0).

Definition subscriber : future := one_row
  [("imsi", Text "208930000000001"); ("mmehost", Text "mme.openair4G.eur");
   ("mmerealm", Text "openair4G.eur"); ("ms_ps_status", Text "NOT_ATTACHED");
   ("subscription_data", Text "{...}"); ("msisdn", Int 33638060010);
   ("visited_plmnid", Text ""); ("access_restriction", Int 0);
   ("mmeidentity_idmmeidentity", Int 3)].
Definition no_rows : future := mk_future 0 [] true.
Definition refused : future := mk_future 0 [] false.
Definition mme_row : future := one_row [("idmmeidentity", Int 3)].
Definition event_id : future :=
  one_row [("scef_id", Text "scef.openair4G.eur"); ("scef_ref_id", Int 7)].

Definition world0 (script : list future) : World.world Z nat :=
  World.mk (DataAccess.mk_db (mk_script script []) []) [] [] (Random.Build_state 0 0%nat).

(** An initial attach over S6a from the MME. *)
Definition attach : message :=
  [AvpU32 "Auth-Session-State" 1; AvpStr "Origin-Host" "mme.openair4G.eur";
   AvpStr "Origin-Realm" "openair4G.eur"; AvpStr "User-Name" "208930000000001";
   AvpU32 "RAT-Type" 1004; AvpU32 "ULR-Flags" 34; AvpOctets "Visited-PLMN-Id" [2; 248; 57]].

Abbreviation usys := (Proc.sys nat ULRProcessor).
Abbreviation ustep := (Proc.step (ulr_processor u0)).
Definition begin (script : list future) : usys := start u0 (world0 script) attach [].
Definition run_to (l : list choice) (script : list future) : usys :=
  default (begin []) (schedule (ulr_processor u0) l (begin script)).

Lemma reachable l script :
  schedule (ulr_processor u0) l (begin script) = Some (run_to l script) →
  rtc ustep (begin script) (run_to l script).
Proof. apply schedule_steps. Qed.

(** A subscriber without events: attached, answered, done. *)
Definition plain_script : list future := [subscriber; no_rows; no_rows; mme_row; no_rows; no_rows].
Definition plain_run : list choice :=
  [Acquire; Loop; Data 0; Data 0; Data 0; Data 0; Data 0; Loop; Loop; Loop; Data 0; Loop; Loop;
   Trigger; Trigger; Trigger; Trigger; Trigger; Trigger; Acquire; Loop; Acquire; Loop;
   Acquire; Loop; Acquire; Loop; Acquire; Loop; Acquire; Loop].

Lemma ulr_answered_once_witness :
  sys_answers (run_to plain_run plain_script) = 1%nat ∧
  released (run_to plain_run plain_script) = 1%nat.
Proof.
  apply (ulr_answered_once u0 (world0 plain_script) attach []);
    [by split|apply reachable; by vm_compute|by vm_compute|by vm_compute].
Defined.

(** A subscriber with one event: phase3 waits for the event query. *)
Definition event_script : list future :=
  [subscriber; no_rows; event_id; mme_row; no_rows; no_rows; no_rows].
Definition event_run : list choice :=
  [Acquire; Loop; Data 0; Data 0; Data 0; Data 1; Loop; Loop].
Definition event_state : usys := run_to event_run event_script.

Lemma ulr_with_events_never_answered_witness :
  rtc ustep (begin event_script) event_state ∧
  ∀ s, rtc ustep event_state s → sys_answers s = 0%nat ∧ released s = 0%nat.
Proof.
  split; [apply reachable; by vm_compute|]. intros s.
  destruct (proc event_state) as [pr|] eqn:Hp; [|by vm_compute in Hp].
  apply (ulr_with_events_never_answered u0 event_state s pr); [by vm_compute|done| | |by vm_compute..].
  - vm_compute in Hp. injection Hp as <-. by constructor.
  - apply (bool_decide_unpack _). by vm_compute.
Defined.

(** When the driver accepts the first query of phase1 and refuses the
    second, the request is rejected and its processor deleted while the callback
    of the first query is still pending; that callback then runs on the deleted
    processor. *)
Theorem ulr_use_after_free :
  ∃ s s', rtc (Proc.step (ulr_processor u0)) (begin [subscriber; refused]) s ∧
    fault s = None ∧ proc s = None ∧ sys_answers s = 1%nat ∧
    Proc.step (ulr_processor u0) s s' ∧ fault s' = Some UseAfterFree.
Proof.
  exists (run_to [Acquire; Loop; Loop] [subscriber; refused]),
    (run_to [Acquire; Loop; Loop; Data 0] [subscriber; refused]).
  split_and!; [apply reachable; by vm_compute|by vm_compute..| |by vm_compute].
  apply (next_state_step _ (Data 0)). by vm_compute.
Qed.

(** A known subscriber is told that he is unknown when the MME's host is not
    in the table of MME identities and that query completes after the one for
    the subscriber: a failed query clears the results of all of them. *)
Theorem ulr_known_subscriber_rejected :
  ∃ s, rtc (Proc.step (ulr_processor u0))
         (begin [subscriber; no_rows; no_rows; no_rows; no_rows; no_rows]) s ∧
    World.wire (world_of s)
    = [SentAnswer (fd_origin ++ [AvpU32 "Auth-Session-State" 1]
                   ++ [FDMessage.experimental_result DIAMETER_ERROR_USER_UNKNOWN])].
Proof.
  exists (run_to [Acquire; Loop; Data 0; Data 2; Loop]
            [subscriber; no_rows; no_rows; no_rows; no_rows; no_rows]).
  split; [apply reachable; by vm_compute|by vm_compute].
Qed.

(** The processor of the plain run as phase2 finds it. *)
Definition at_phase2 : Proc.env nat ULRProcessor :=
  mk_env (world0 [])
    ((ULRProcessor_new u0 attach []) <| m_nextphase := ULRSTATE_PHASE2 |>).

Lemma phase2_accepts_or_rejects_witness :
  ∃ e', phase2 u0 at_phase2 = (Ok tt, e') ∧
    World.database (w e') = World.database (w at_phase2).
Proof.
  destruct (phase2 u0 at_phase2) as [o e'] eqn:E. exists e'.
  assert (o = Ok tt) as -> by (vm_compute in E; by injection E).
  split; [done|]. apply (phase2_accepts_or_rejects u0 at_phase2 e' E).
Defined.

End UlrWitness.
