(* ===== verification/UlrPhase3.v ===== *)
(** * Phase 3 of a ULR: the answer and the roaming reports

    What [ULRProcessor::phase3] sends: the answer first, then one
    Reporting-Information-Request for each roaming event of a subscriber that
    has changed network, in the order of the events. *)

From S2P Require Import Prelude Codec Auc Diameter DataAccess World Proc Ulr UlrRuns.
#[local] Open Scope Z_scope.

Module UlrPhase3.
Section Phase3.
Import Proc Ulr.
Context `{Cassandra} `{FreeDiameter} {G : Type}.
Implicit Types e : Proc.env G ULRProcessor.

(** The events that ask for a report. *)
Definition roaming (l : list DAEvent.t) : list DAEvent.t :=
  filter (λ ev, DAEvent.monitoring_type ev = ROAMING_STATUS_EVT) l.

(** What the stack accepts of the reports about these events; [n] messages have
    been sent before. *)
Fixpoint reports (n : nat) (plmn : bytes) (evts : list DAEvent.t) : list sent :=
  match evts with
  | [] => []
  | ev :: l =>
      let m := rir_message n (DAEvent.scef_id ev) plmn in
      if fd_msg_send m =? 0
      then SentRequest "Reporting-Information-Request" m :: reports (S n) plmn l
      else reports n plmn l
  end.

(** The subscriber was attached and was in another network. *)
Definition has_moved (pr : ULRProcessor) : bool :=
  String.eqb (DAImsiInfo.ms_ps_status (m_orig_info pr)) "ATTACHED"
  && negb (String.eqb (DAImsiInfo.visited_plmnid (m_orig_info pr))
             (DAImsiInfo.visited_plmnid (m_new_info pr))).

Definition sending (l : list sent) e : Proc.env G ULRProcessor :=
  mk_env ((w e) <| World.wire ::= (λ l0, l0 ++ l) |>) (p e).

Lemma sending_nil e : sending [] e = e.
Proof. destruct e as [[] ?]. unfold sending, tset, set. cbn. by rewrite app_nil_r. Qed.
Lemma sending_app l l' e : sending l' (sending l e) = sending (l ++ l') e.
Proof. destruct e as [[] ?]. unfold sending, tset, set. cbn. by rewrite app_assoc. Qed.

Lemma for_each_reports evts e :
  for_each evts phase3_report e =
  (Ok tt, sending (reports (length (World.wire (w e)))
                     (take (m_plmn_len (p e)) (m_plmn_id (p e))) (roaming evts)) e).
Proof.
  revert e. induction evts as [|ev evts IH]; intros e; [by rewrite sending_nil|].
  cbn [for_each]. unfold roaming. rewrite filter_cons.
  destruct (decide (DAEvent.monitoring_type ev = ROAMING_STATUS_EVT)) as [E|E]; fold (roaming evts).
  - set (m := rir_message (length (World.wire (w e))) (DAEvent.scef_id ev)
                (take (m_plmn_len (p e)) (m_plmn_id (p e)))).
    assert (phase3_report ev e = (Ok tt, if fd_msg_send m =? 0
      then sending [SentRequest "Reporting-Information-Request" m] e else e)) as Hrep.
    { unfold phase3_report. rewrite E, Z.eqb_refl. cbn [negb].
      unfold on_world, World.send_request, FDMessage.send, catch, zoom, mbind, M_bind, lift, gets.
      cbn beta iota. fold m. clearbody m. by destruct e as [[] ?], (fd_msg_send m =? 0). }
    rewrite (bind_Ok _ _ _ _ _ Hrep), IH. cbn [reports]. fold m.
    destruct (fd_msg_send m =? 0); [|done].
    rewrite sending_app. destruct e as [[] ?]. cbn. rewrite length_app. cbn.
    by rewrite Nat.add_1_r.
  - erewrite bind_Ok; [apply IH|]. unfold phase3_report.
    by rewrite (proj2 (Z.eqb_neq _ _) E).
Qed.

Lemma phase3_reports_eq e :
  phase3_reports e =
  (Ok tt, sending (if has_moved (p e)
                   then reports (length (World.wire (w e)))
                          (take (m_plmn_len (p e)) (m_plmn_id (p e))) (roaming (m_evtLst (p e)))
                   else []) e).
Proof.
  unfold phase3_reports. erewrite bind_Ok by done. fold (has_moved (p e)).
  destruct (has_moved (p e)); [|by rewrite sending_nil].
  unfold catch. by rewrite for_each_reports.
Qed.

Lemma ans_send_eq e ans :
  m_ans (p e) = ans → fd_msg_send ans = 0 → ans_send e = (Ok tt, sending [SentAnswer ans] e).
Proof.
  intros Hans Hsend. unfold ans_send, on_world, World.send_answer, FDMessage.send.
  erewrite bind_Ok by done. rewrite Hans, Hsend. by destruct e as [[] ?].
Qed.

(** C5: Once the subscription data is in the answer and the stack takes it, phase3
    completes: it sends the answer with the result success, counts it, and then
    sends one report for each roaming event the stack accepts when the
    subscriber has moved, and none otherwise; the database is left alone. *)
Theorem phase3_answers_then_reports e e1 ans :
  (if FLAG_IS_SET (m_ulrflags (p e)) ULR_SKIP_SUBSCRIBER_DATA then mret tt
   else phase3_subscription) e = (Ok tt, e1) →
  ans = m_ans (p e1) ++ [FDMessage.result_code ER_DIAMETER_SUCCESS] →
  fd_msg_send ans = 0 →
  phase3 e =
  (Ok tt, e1
     <| p ::= (λ pr, pr <| m_ans := ans |> <| m_nextphase := ULRSTATE_PHASE4 |>) |>
     <| w ::= (λ wd, wd
          <| World.wire ::= (λ l, l ++ SentAnswer ans ::
               if has_moved (p e1)
               then reports (S (length (World.wire (w e1))))
                      (take (m_plmn_len (p e1)) (m_plmn_id (p e1))) (roaming (m_evtLst (p e1)))
               else []) |>
          <| World.stats ::= (λ l, l ++ [(stat_hss_ulr, 0, ER_DIAMETER_SUCCESS)]) |>) |>).
Proof.
  intros Hsub Hans Hsend. unfold phase3. erewrite bind_Ok by done.
  rewrite (bind_Ok _ _ _ _ _ Hsub).
  erewrite bind_Ok by reflexivity. erewrite bind_Ok by (by apply (ans_send_eq _ ans)).
  erewrite bind_Ok by reflexivity. rewrite (bind_Ok _ _ _ _ _ (phase3_reports_eq _)).
  destruct e1 as [[db wire st rnd] pr]. cbn in *. rewrite length_app, Nat.add_1_r, Hans.
  unfold set_next, set_p, modify, sending, roaming, tset, set. cbn. by rewrite <- app_assoc.
Qed.

End Phase3.
End UlrPhase3.

(** A subscriber who has moved, with a roaming and a location event. *)

Module UlrPhase3Witness.
Import Proc Ulr UlrPhase3 UlrRuns.UlrWitness ScriptedCassandra WitnessFreeDiameter.

Definition info (plmn : string) : DAImsiInfo.t :=
  DAImsiInfo.mk "208930000000001" "" "" "ATTACHED" "" 0 "" plmn 0 "" "" 0.
Definition event (ty : Z) : DAEvent.t := DAEvent.mk "scef.epc" 1 0 "" "" "" ty.
Definition at_phase3 : Proc.env nat ULRProcessor :=
  mk_env (world0 [])
    ((ULRProcessor_new u0 attach []) <| m_ulrflags := ULR_SKIP_SUBSCRIBER_DATA |>
       <| m_orig_info := info "02f839" |> <| m_new_info := info "02f810" |>
       <| m_evtLst := [event LOCATION_REPORTING_EVT; event ROAMING_STATUS_EVT] |>).

Lemma phase3_answers_then_reports_witness :
  (phase3 at_phase3).1 = Ok tt ∧ length (World.wire (w (phase3 at_phase3).2)) = 2%nat.
Proof.
  rewrite (phase3_answers_then_reports at_phase3 at_phase3 [FDMessage.result_code ER_DIAMETER_SUCCESS]);
    [|done|done|done].
  split; [done|by vm_compute].
Defined.

End UlrPhase3Witness.
