(* ===== verification/Stats.v ===== *)
(** * Statistics

    Models [StatCollector] and [SStats] (util/src/sstats.cpp,
    util/include/sstats.h), [StatsHss] (src/statshss.cpp) and the freeDiameter
    hooks that feed it (src/msg_event.cpp).  The messages posted to the
    statistics thread are a list: the thread takes them one at a time. *)

From S2P Require Import Prelude Diameter DataAccess World.
#[local] Open Scope Z_scope.

Inductive StatAttempType :=
  | stat_attemp_sent | stat_sent_ko | stat_attemp_received | stat_received_ko.
#[export] Instance StatAttempType_eq_dec : EqDecision StatAttempType.
Proof. solve_decision. Defined.

(** A vendor and a result code. *)
Abbreviation stat_key := (Z * Z)%type.

(** ** One collector *)

Module StatCollector.

Record collector := mk {
  m_attemps_sent : Z;
  m_sent_ko : Z;
  m_attemps_recv : Z;
  m_recv_ko : Z;
  m_unknownErrors : Z;
  m_cumulativeCodes : gmap stat_key Z;
  m_trackedCodes : list stat_key;
  m_name : string }.

Definition new (name : string) : collector := mk 0 0 0 0 0 ∅ [] name.

(** [m_cumulativeCodes[key]]: reading a missing key inserts it. *)
Definition getStatValue (key : stat_key) : M collector Z :=
  c ← gets m_cumulativeCodes;
  match c !! key with
  | Some n => mret n
  | None => _ ← modify (λ s, s <| m_cumulativeCodes ::= <[key := 0]> |>); mret 0
  end.

Definition addStat (key : stat_key) (c : collector) : collector :=
  match m_cumulativeCodes c !! key with
  | Some n => c <| m_cumulativeCodes ::= <[key := u32 (n + 1)]> |>
  | None => c <| m_unknownErrors ::= λ n, u32 (n + 1) |>
  end.

Definition addAttempt (ty : StatAttempType) (c : collector) : collector :=
  match ty with
  | stat_attemp_received => c <| m_attemps_recv ::= λ n, u32 (n + 1) |>
  | stat_received_ko => c <| m_recv_ko ::= λ n, u32 (n + 1) |>
  | stat_attemp_sent => c <| m_attemps_sent ::= λ n, u32 (n + 1) |>
  | stat_sent_ko => c <| m_sent_ko ::= λ n, u32 (n + 1) |>
  end.

Definition registerCode (key : stat_key) (c : collector) : collector :=
  c <| m_trackedCodes ::= λ l, l ++ [key] |> <| m_cumulativeCodes ::= <[key := 0]> |>.

Definition getNbCodesTracked (c : collector) : Z := u32 (Z.of_nat (length (m_trackedCodes c))).

(** The columns of the tracked codes, each followed by a comma. *)
Fixpoint serialize_codes (keys : list stat_key) : M collector string :=
  match keys with
  | [] => mret ""%string
  | k :: keys' =>
      n ← getStatValue k;
      rest ← serialize_codes keys';
      mret (dec n +:+ "," +:+ rest)%string
  end.

Definition commas (n : Z) : string := String.concat "" (repeat ","%string (Z.to_nat n)).

Definition serialize (codeColumns : Z) : M collector string :=
  c ← gets id;
  codes ← serialize_codes (m_trackedCodes c);
  let tracked := Z.of_nat (length (m_trackedCodes c)) in
  let extraColumns := if codeColumns >? tracked then u32 (codeColumns - tracked) else 0 in
  mret (dec (m_attemps_sent c) +:+ "," +:+ dec (m_sent_ko c) +:+ "," +:+
        dec (m_attemps_recv c) +:+ "," +:+ dec (m_recv_ko c) +:+ "," +:+
        codes +:+ dec (m_unknownErrors c) +:+ commas extraColumns)%string.

End StatCollector.

(** ** The HSS statistics thread *)

Module StatsHss.
Section StatsHss.
Import StatCollector.
Context `{FreeDiameter}.

(** The collectors, by the message type they count, and what
    [m_statlogger] was given. *)
Record stats := mk {
  m_ulr_collector : collector;
  m_air_collector : collector;
  m_pur_collector : collector;
  m_cir_collector : collector;
  m_nir_collector : collector;
  m_idr_collector : collector;
  m_rir_collector : collector;
  m_srr_collector : collector;
  m_max_codes_tracked : Z;
  m_interval : Z;
  m_statlogger : option (list string) }.

Definition register_all (keys : list stat_key) (name : string) : collector :=
  foldl (λ c k, registerCode k c) (new name) keys.

Definition max_codes_tracked (ulr air pur cir nir idr rir : collector) : Z :=
  let n := getNbCodesTracked in
  let m := n ulr in
  let m := if n air >? m then n air else m in
  let m := if n pur >? m then n air else m in
  let m := if n cir >? m then n cir else m in
  let m := if n nir >? m then n nir else m in
  let m := if n idr >? m then n idr else m in
  if n rir >? m then n rir else m.

(** The constructor, and [initstats] with the statistics logger. *)
Definition StatsHss_ctor : stats :=
  let ulr := register_all [(0, ER_DIAMETER_SUCCESS); (0, ER_DIAMETER_INVALID_AVP_VALUE);
    (VENDOR_3GPP, DIAMETER_ERROR_USER_UNKNOWN); (VENDOR_3GPP, DIAMETER_ERROR_RAT_NOT_ALLOWED);
    (VENDOR_3GPP, DIAMETER_ERROR_UNKNOWN_SERVING_NODE);
    (VENDOR_3GPP, DIAMETER_ERROR_UNKNOWN_EPS_SUBSCRIPTION)] "ulr" in
  let air := register_all [(0, ER_DIAMETER_SUCCESS); (0, ER_DIAMETER_INVALID_AVP_VALUE);
    (VENDOR_3GPP, DIAMETER_ERROR_RAT_NOT_ALLOWED);
    (VENDOR_3GPP, DIAMETER_ERROR_ROAMING_NOT_ALLOWED);
    (VENDOR_3GPP, DIAMETER_AUTHENTICATION_DATA_UNAVAILABLE)] "air" in
  let pur := register_all [(0, ER_DIAMETER_SUCCESS); (0, ER_DIAMETER_INVALID_AVP_VALUE);
    (VENDOR_3GPP, DIAMETER_ERROR_USER_UNKNOWN);
    (VENDOR_3GPP, DIAMETER_ERROR_UNKNOWN_SERVING_NODE)] "pur" in
  let cir := register_all [(0, ER_DIAMETER_SUCCESS);
    (VENDOR_3GPP, DIAMETER_ERROR_USER_UNKNOWN)] "cir" in
  let nir := register_all [(0, ER_DIAMETER_SUCCESS);
    (VENDOR_3GPP, DIAMETER_ERROR_USER_UNKNOWN);
    (VENDOR_3GPP, DIAMETER_ERROR_USER_NO_APN_SUBSCRIPTION)] "nir" in
  let idr := register_all [(0, ER_DIAMETER_SUCCESS);
    (VENDOR_3GPP, DIAMETER_ERROR_USER_UNKNOWN)] "idr" in
  let rir := register_all [(0, ER_DIAMETER_SUCCESS); (0, ER_DIAMETER_INVALID_AVP_VALUE);
    (VENDOR_3GPP, DIAMETER_ERROR_USER_UNKNOWN)] "rir" in
  let srr := register_all [(0, ER_DIAMETER_SUCCESS); (0, ER_DIAMETER_MISSING_AVP);
    (VENDOR_3GPP, DIAMETER_ERROR_USER_UNKNOWN);
    (VENDOR_3GPP, DIAMETER_ERROR_ABSENT_USER)] "srr" in
  mk ulr air pur cir nir idr rir srr
     (max_codes_tracked ulr air pur cir nir idr rir) 0 None.

Definition set_logger (s : stats) : stats := s <| m_statlogger := Some [] |>.

(** The [switch] on the message type: the collector it selects. *)
Definition collector_of (ty : stat_type) (s : stats) : collector :=
  match ty with
  | stat_hss_ulr => m_ulr_collector s | stat_hss_air => m_air_collector s
  | stat_hss_pur => m_pur_collector s | stat_hss_cir => m_cir_collector s
  | stat_hss_nir => m_nir_collector s | stat_hss_idr => m_idr_collector s
  | stat_hss_rir => m_rir_collector s | stat_hss_srr => m_srr_collector s
  end.

Definition update_collector (ty : stat_type) (f : collector → collector) (s : stats) : stats :=
  match ty with
  | stat_hss_ulr => s <| m_ulr_collector ::= f |>
  | stat_hss_air => s <| m_air_collector ::= f |>
  | stat_hss_pur => s <| m_pur_collector ::= f |>
  | stat_hss_cir => s <| m_cir_collector ::= f |>
  | stat_hss_nir => s <| m_nir_collector ::= f |>
  | stat_hss_idr => s <| m_idr_collector ::= f |>
  | stat_hss_rir => s <| m_rir_collector ::= f |>
  | stat_hss_srr => s <| m_srr_collector ::= f |>
  end.

Definition processStatAttemp (ty : stat_type) (at_ : StatAttempType) : stats → stats :=
  update_collector ty (addAttempt at_).
Definition processStatResult (ty : stat_type) (key : stat_key) : stats → stats :=
  update_collector ty (addStat key).

(** A method of one collector. *)
Definition on_collector {A} (ty : stat_type) (m : M collector A) : M stats A :=
  zoom (collector_of ty) (λ c, update_collector ty (λ _, c)) m.

Definition newline : string := String (Ascii.ascii_of_nat 10) "".

(** One row: the time, the interface and message names, the collector. *)
Definition row (now_str label : string) (ty : stat_type) : M stats string :=
  m ← gets m_max_codes_tracked;
  r ← on_collector ty (serialize m);
  mret (now_str +:+ label +:+ r)%string.

Definition getSerializedStat (now_str : string) : M stats string :=
  air ← row now_str ",S6A,AIR," stat_hss_air;
  ulr ← row now_str ",S6A,ULR," stat_hss_ulr;
  pur ← row now_str ",S6A,PUR," stat_hss_pur;
  idr ← row now_str ",S6A,IDR," stat_hss_idr;
  cir ← row now_str ",S6T,CIR," stat_hss_cir;
  nir ← row now_str ",S6T,NIR," stat_hss_nir;
  rir ← row now_str ",S6T,RIR," stat_hss_rir;
  srr ← row now_str ",S6C,SRR," stat_hss_rir;
  mret (air +:+ newline +:+ ulr +:+ newline +:+ pur +:+ newline +:+ idr +:+ newline +:+
        cir +:+ newline +:+ nir +:+ newline +:+ rir +:+ newline +:+ srr)%string.

(** The JSON object [appendStatObject] builds for a collector. *)
Record stat_object := mk_object {
  o_type : string;
  sent_att : Z; sent_ko : Z; recv_att : Z; recv_ko : Z;
  unknown : Z;
  o_values : list (Z * Z * Z) }.

Fixpoint tracked_values (keys : list stat_key) : M collector (list (Z * Z * Z)) :=
  match keys with
  | [] => mret []
  | k :: keys' =>
      nbHits ← getStatValue k;
      rest ← tracked_values keys';
      mret ((k.1, k.2, nbHits) :: rest)
  end.

Definition appendStatObject : M collector stat_object :=
  c ← gets id;
  vals ← tracked_values (m_trackedCodes c);
  mret (mk_object (m_name c) (m_attemps_sent c) (m_sent_ko c) (m_attemps_recv c)
          (m_recv_ko c) (m_unknownErrors c) vals).

Definition processStatGetLive : M stats (list stat_object) :=
  ulr ← on_collector stat_hss_ulr appendStatObject;
  air ← on_collector stat_hss_air appendStatObject;
  pur ← on_collector stat_hss_pur appendStatObject;
  cir ← on_collector stat_hss_cir appendStatObject;
  nir ← on_collector stat_hss_nir appendStatObject;
  idr ← on_collector stat_hss_idr appendStatObject;
  rir ← on_collector stat_hss_rir appendStatObject;
  srr ← on_collector stat_hss_srr appendStatObject;
  mret [ulr; air; pur; cir; nir; idr; rir; srr].

Definition resetStats (s : stats) : stats := s.

(** The messages of the thread; the time a consolidation reads is in it. *)
Inductive stat_message :=
  | StatConsolidate (now_str : string)
  | UpdateStatInterval (interval : Z)
  | StatAttempMessage (ty : stat_type) (at_ : StatAttempType)
  | StatResultMessage (ty : stat_type) (key : stat_key)
  | StatLive.
#[export] Instance stat_message_eq_dec : EqDecision stat_message.
Proof. solve_decision. Defined.

(** [SStats::dispatch] and [StatsHss::dispatchDerived]; a live request returns
    the objects handed to the requester. *)
Definition dispatch (msg : stat_message) : M stats (option (list stat_object)) :=
  match msg with
  | StatConsolidate now_str =>
      serializedStast ← getSerializedStat now_str;
      _ ← modify (λ s, match m_statlogger s with
                       | Some l => s <| m_statlogger := Some (l ++ [serializedStast]) |>
                       | None => s
                       end);
      _ ← modify resetStats;
      mret None
  | UpdateStatInterval n => _ ← modify (λ s, s <| m_interval := n |>); mret None
  | StatAttempMessage ty at_ => _ ← modify (processStatAttemp ty at_); mret None
  | StatResultMessage ty key => _ ← modify (processStatResult ty key); mret None
  | StatLive => l ← processStatGetLive; mret (Some l)
  end.

Fixpoint run (msgs : list stat_message) (s : stats) : stats :=
  match msgs with
  | [] => s
  | m :: msgs' => run msgs' (dispatch m s).2
  end.

End StatsHss.
End StatsHss.

(** ** What the collectors hold *)

Module StatsFacts.
Import StatCollector StatsHss.

(** The shape every reachable collector has: the tracked codes are the keys of
    the map and every counter is a 32-bit value. *)
Record wf (c : collector) : Prop := {
  wf_tracked : ∀ k, k ∈ m_trackedCodes c ↔ is_Some (m_cumulativeCodes c !! k);
  wf_codes : map_Forall (λ _ n, u32 n = n) (m_cumulativeCodes c);
  wf_sent : u32 (m_attemps_sent c) = m_attemps_sent c;
  wf_sent_ko : u32 (m_sent_ko c) = m_sent_ko c;
  wf_recv : u32 (m_attemps_recv c) = m_attemps_recv c;
  wf_recv_ko : u32 (m_recv_ko c) = m_recv_ko c;
  wf_unknown : u32 (m_unknownErrors c) = m_unknownErrors c }.
#[export] Hint Resolve wf_sent wf_sent_ko wf_recv wf_recv_ko wf_unknown : hss.

Lemma u32_idemp n : u32 (u32 n) = u32 n.
Proof. unfold u32. by rewrite Z.mod_mod. Qed.
#[export] Hint Resolve u32_idemp : hss.

Lemma u32_add_l a b : u32 (u32 a + b) = u32 (a + b).
Proof. unfold u32. by rewrite Zplus_mod_idemp_l. Qed.

Lemma wf_new name : wf (new name).
Proof.
  split; try done; cbn.
  intros k. split; [by intros ?%elem_of_nil|]. rewrite lookup_empty. by intros [].
Qed.

Lemma wf_registerCode k c : wf c → wf (registerCode k c).
Proof.
  intros [Ht Hc ? ? ? ? ?]. split; try done; cbn.
  - intros k'. rewrite elem_of_app, list_elem_of_singleton, Ht.
    destruct (decide (k = k')) as [->|]; [rewrite lookup_insert_eq|rewrite lookup_insert_ne by done].
    + split; [by exists 0|by right].
    + split; [by intros [? | ->]|by left].
  - by apply map_Forall_insert_2.
Qed.

Lemma wf_addAttempt a c : wf c → wf (addAttempt a c).
Proof. intros [? ? ? ? ? ? ?]. destruct a; split; cbn; auto with hss. Qed.

Lemma wf_addStat k c : wf c → wf (addStat k c).
Proof.
  intros [Ht Hc ? ? ? ? ?]. unfold addStat. destruct (_ !! k) eqn:E; split; cbn; auto with hss.
  - intros k'. rewrite Ht. destruct (decide (k = k')) as [->|];
      [rewrite lookup_insert_eq, E|by rewrite lookup_insert_ne]. split; by eexists.
  - apply map_Forall_insert_2; auto with hss.
Qed.
#[export] Hint Resolve wf_new wf_registerCode wf_addAttempt wf_addStat : hss.

Lemma wf_register_all keys name : wf (register_all keys name).
Proof.
  unfold register_all. generalize (new name), (wf_new name).
  induction keys as [|k keys IH]; cbn; auto with hss.
Qed.
#[export] Hint Resolve wf_register_all : hss.

Lemma tracked_register_all keys name : m_trackedCodes (register_all keys name) = keys.
Proof.
  unfold register_all. change keys with (m_trackedCodes (new name) ++ keys) at 2.
  generalize (new name). induction keys as [|k keys IH]; intros c; cbn; [by rewrite app_nil_r|].
  rewrite IH. cbn. by rewrite <- app_assoc.
Qed.

(** *** Reading a collector changes nothing *)

Definition stat_value (c : collector) (k : stat_key) : Z :=
  default 0 (m_cumulativeCodes c !! k).

Lemma getStatValue_tracked c k :
  wf c → k ∈ m_trackedCodes c → getStatValue k c = (Ok (stat_value c k), c).
Proof.
  intros Hc [n E]%Hc. unfold getStatValue, stat_value, mbind, M_bind, gets. by rewrite E.
Qed.

Definition columns (c : collector) (keys : list stat_key) : string :=
  foldr (λ k rest, dec (stat_value c k) +:+ "," +:+ rest)%string ""%string keys.

Lemma serialize_codes_eq c keys :
  wf c → Forall (.∈ m_trackedCodes c) keys →
  serialize_codes keys c = (Ok (columns c keys), c).
Proof.
  intros Hc. induction 1 as [|k keys Hk _ IH]; [done|]. cbn [serialize_codes].
  erewrite bind_Ok by (by apply getStatValue_tracked).
  by erewrite bind_Ok by apply IH.
Qed.

(** The text of a collector in a row of that many code columns. *)
Definition text (n : Z) (c : collector) : string :=
  (dec (m_attemps_sent c) +:+ "," +:+ dec (m_sent_ko c) +:+ "," +:+
   dec (m_attemps_recv c) +:+ "," +:+ dec (m_recv_ko c) +:+ "," +:+
   columns c (m_trackedCodes c) +:+ dec (m_unknownErrors c) +:+
   commas (if n >? Z.of_nat (length (m_trackedCodes c))
           then u32 (n - Z.of_nat (length (m_trackedCodes c))) else 0))%string.

Lemma serialize_eq n c : wf c → serialize n c = (Ok (text n c), c).
Proof.
  intros Hc. unfold serialize. erewrite bind_Ok by done. erewrite bind_Ok; [done|].
  apply serialize_codes_eq; [done|]. by apply Forall_forall.
Qed.

Lemma tracked_values_eq c keys :
  wf c → Forall (.∈ m_trackedCodes c) keys →
  tracked_values keys c = (Ok ((λ k, (k.1, k.2, stat_value c k)) <$> keys), c).
Proof.
  intros Hc. induction 1 as [|k keys Hk _ IH]; [done|]. cbn [tracked_values].
  erewrite bind_Ok by (by apply getStatValue_tracked).
  by erewrite bind_Ok by apply IH.
Qed.

Definition object (c : collector) : stat_object :=
  mk_object (m_name c) (m_attemps_sent c) (m_sent_ko c) (m_attemps_recv c) (m_recv_ko c)
    (m_unknownErrors c) ((λ k, (k.1, k.2, stat_value c k)) <$> m_trackedCodes c).

Lemma appendStatObject_eq c : wf c → appendStatObject c = (Ok (object c), c).
Proof.
  intros Hc. unfold appendStatObject. erewrite bind_Ok by done. erewrite bind_Ok; [done|].
  apply tracked_values_eq; [done|]. by apply Forall_forall.
Qed.

(** *** The statistics thread *)

Lemma update_collector_id ty s : update_collector ty (λ _, collector_of ty s) s = s.
Proof. by destruct s, ty. Qed.

Lemma collector_of_update ty ty' f s :
  collector_of ty (update_collector ty' f s) =
  if decide (ty = ty') then f (collector_of ty s) else collector_of ty s.
Proof. by destruct ty, ty'. Qed.

Lemma max_update ty f s : m_max_codes_tracked (update_collector ty f s) = m_max_codes_tracked s.
Proof. by destruct ty. Qed.

Lemma on_collector_eq {A} ty (m : M collector A) (a : A) s :
  m (collector_of ty s) = (Ok a, collector_of ty s) → on_collector ty m s = (Ok a, s).
Proof. intros E. unfold on_collector, zoom. by rewrite E, update_collector_id. Qed.

Definition wf_stats (s : stats) : Prop := ∀ ty, wf (collector_of ty s).

Definition row_text (now_str label : string) (ty : stat_type) (s : stats) : string :=
  (now_str +:+ label +:+ text (m_max_codes_tracked s) (collector_of ty s))%string.

Lemma row_eq now_str label ty s :
  wf_stats s → row now_str label ty s = (Ok (row_text now_str label ty s), s).
Proof.
  intros Hs. unfold row. erewrite bind_Ok by done. erewrite bind_Ok; [done|].
  apply on_collector_eq, serialize_eq, Hs.
Qed.

(** The rows of a consolidated text, in order. *)
Definition rows (now_str : string) (s : stats) : list string :=
  [row_text now_str ",S6A,AIR," stat_hss_air s; row_text now_str ",S6A,ULR," stat_hss_ulr s;
   row_text now_str ",S6A,PUR," stat_hss_pur s; row_text now_str ",S6A,IDR," stat_hss_idr s;
   row_text now_str ",S6T,CIR," stat_hss_cir s; row_text now_str ",S6T,NIR," stat_hss_nir s;
   row_text now_str ",S6T,RIR," stat_hss_rir s; row_text now_str ",S6C,SRR," stat_hss_rir s].

Lemma getSerializedStat_eq now_str s :
  wf_stats s → getSerializedStat now_str s = (Ok (String.concat newline (rows now_str s)), s).
Proof.
  intros Hs. unfold getSerializedStat.
  do 8 (erewrite bind_Ok by (by apply row_eq)). done.
Qed.

Lemma processStatGetLive_eq s :
  wf_stats s →
  processStatGetLive s =
  (Ok ((λ ty, object (collector_of ty s)) <$>
       [stat_hss_ulr; stat_hss_air; stat_hss_pur; stat_hss_cir; stat_hss_nir; stat_hss_idr;
        stat_hss_rir; stat_hss_srr]), s).
Proof.
  intros Hs. unfold processStatGetLive.
  do 8 (erewrite bind_Ok by (by apply on_collector_eq, appendStatObject_eq, Hs)). done.
Qed.

(** What a message does to one collector. *)
Definition effect (ty : stat_type) (m : stat_message) (c : collector) : collector :=
  match m with
  | StatAttempMessage ty' a => if decide (ty = ty') then addAttempt a c else c
  | StatResultMessage ty' k => if decide (ty = ty') then addStat k c else c
  | _ => c
  end.

Lemma wf_effect ty m c : wf c → wf (effect ty m c).
Proof. intros Hc. destruct m; cbn; try case_decide; auto with hss. Qed.

(** What a consolidation writes. *)
Definition logged (line : string) (s : stats) : stats :=
  match m_statlogger s with
  | Some l => s <| m_statlogger := Some (l ++ [line]) |>
  | None => s
  end.

Lemma dispatch_consolidate now_str s :
  wf_stats s →
  dispatch (StatConsolidate now_str) s =
  (Ok None, logged (String.concat newline (rows now_str s)) s).
Proof. intros Hs. cbn [dispatch]. by erewrite bind_Ok by (by apply getSerializedStat_eq). Qed.

Lemma dispatch_live s :
  wf_stats s →
  dispatch StatLive s =
  (Ok (Some ((λ ty, object (collector_of ty s)) <$>
     [stat_hss_ulr; stat_hss_air; stat_hss_pur; stat_hss_cir; stat_hss_nir; stat_hss_idr;
      stat_hss_rir; stat_hss_srr])), s).
Proof. intros Hs. cbn [dispatch]. by erewrite bind_Ok by (by apply processStatGetLive_eq). Qed.

Lemma dispatch_collector m s ty :
  wf_stats s → collector_of ty (dispatch m s).2 = effect ty m (collector_of ty s).
Proof.
  intros Hs. destruct m.
  - rewrite dispatch_consolidate by done. unfold logged. by destruct (m_statlogger s), ty.
  - by destruct ty.
  - apply collector_of_update.
  - apply collector_of_update.
  - by rewrite dispatch_live.
Qed.

Lemma dispatch_max m s :
  wf_stats s → m_max_codes_tracked (dispatch m s).2 = m_max_codes_tracked s.
Proof.
  intros Hs. destruct m; [|done|apply max_update|apply max_update|by rewrite dispatch_live].
  rewrite dispatch_consolidate by done. unfold logged. by destruct (m_statlogger s).
Qed.

Lemma wf_dispatch m s : wf_stats s → wf_stats (dispatch m s).2.
Proof. intros Hs ty. rewrite dispatch_collector by done. apply wf_effect, Hs. Qed.

Lemma run_collector msgs s ty :
  wf_stats s →
  collector_of ty (run msgs s) = foldl (λ c m, effect ty m c) (collector_of ty s) msgs.
Proof.
  revert s. induction msgs as [|m msgs IH]; intros s Hs; [done|]. cbn [run foldl].
  rewrite IH by (by apply wf_dispatch). by rewrite dispatch_collector.
Qed.

Lemma run_max msgs s :
  wf_stats s → m_max_codes_tracked (run msgs s) = m_max_codes_tracked s.
Proof.
  revert s. induction msgs as [|m msgs IH]; intros s Hs; [done|]. cbn [run].
  rewrite IH by (by apply wf_dispatch). by apply dispatch_max.
Qed.

Lemma wf_run msgs s : wf_stats s → wf_stats (run msgs s).
Proof. revert s. induction msgs; cbn; auto using wf_dispatch. Qed.

Lemma wf_ctor `{FreeDiameter} : wf_stats StatsHss_ctor.
Proof. intros []; cbn [collector_of StatsHss_ctor m_ulr_collector]; apply wf_register_all. Qed.

End StatsFacts.

(** ** What the statistics say *)

Module StatsProps.
Import StatCollector StatsHss StatsFacts.

(** How many messages of a run satisfy a predicate. *)
Definition how_many (P : stat_message → Prop) `{∀ m, Decision (P m)} (msgs : list stat_message) : Z :=
  Z.of_nat (length (filter P msgs)).

(** A result message of that type whose code no column tracks. *)
Definition untracked (T : list stat_key) (ty : stat_type) (m : stat_message) : Prop :=
  match m with StatResultMessage ty' k => ty = ty' ∧ k ∉ T | _ => False end.
#[export] Instance untracked_dec T ty m : Decision (untracked T ty m).
Proof. destruct m; apply _. Defined.

Lemma effect_tracked ty m c : m_trackedCodes (effect ty m c) = m_trackedCodes c.
Proof.
  destruct m; cbn; try case_decide; try done.
  - by destruct at_.
  - unfold addStat. by destruct (_ !! _).
Qed.

(** A counter that each matching message advances by one ends at the number of
    matching messages, modulo 2^32. *)
Lemma counter_counts ty (T : list stat_key) (obs : collector → Z) (P : stat_message → Prop)
    `{∀ m, Decision (P m)} c msgs :
  (∀ c, wf c → m_trackedCodes c = T → u32 (obs c) = obs c) →
  (∀ m c, wf c → m_trackedCodes c = T →
     obs (effect ty m c) = if decide (P m) then u32 (obs c + 1) else obs c) →
  wf c → m_trackedCodes c = T →
  obs (foldl (λ c m, effect ty m c) c msgs) = u32 (obs c + how_many P msgs).
Proof.
  intros Hr He. revert c. unfold how_many.
  induction msgs as [|m msgs IH]; intros c Hc HT; cbn [foldl].
  { cbn. by rewrite Z.add_0_r, Hr. }
  rewrite IH, He by (try apply wf_effect; try rewrite effect_tracked; done).
  rewrite filter_cons. case_decide; [|done].
  rewrite u32_add_l. f_equal. cbn [length]. lia.
Qed.

(** The attempt counter of a kind. *)
Definition attempts (a : StatAttempType) : collector → Z :=
  match a with
  | stat_attemp_sent => m_attemps_sent | stat_sent_ko => m_sent_ko
  | stat_attemp_received => m_attemps_recv | stat_received_ko => m_recv_ko
  end.

Lemma effect_attempts ty a m c :
  attempts a (effect ty m c) =
  if decide (m = StatAttempMessage ty a) then u32 (attempts a c + 1) else attempts a c.
Proof.
  destruct m as [| |ty' a'|ty' k|]; cbn [effect]; try done.
  - destruct (decide (ty = ty')) as [<-|]; [|by rewrite decide_False by congruence].
    destruct (decide (a = a')) as [<-|].
    + rewrite decide_True by done. by destruct a.
    + rewrite decide_False by congruence. by destruct a, a'.
  - rewrite (decide_False (P := StatResultMessage _ _ = _)) by done. case_decide; [|done].
    unfold addStat. by destruct (_ !! _), a.
Qed.

Lemma effect_value ty k m c :
  wf c → k ∈ m_trackedCodes c →
  stat_value (effect ty m c) k =
  if decide (m = StatResultMessage ty k) then u32 (stat_value c k + 1) else stat_value c k.
Proof.
  intros Hc Hk. destruct m as [| |ty' a'|ty' k'|]; cbn [effect];
    try (rewrite decide_False by done; done).
  - rewrite (decide_False (P := StatAttempMessage _ _ = _)) by done.
    case_decide; [|done]. by destruct a'.
  - destruct (decide (ty = ty')) as [<-|]; [|by rewrite decide_False by congruence].
    apply (wf_tracked c Hc) in Hk as [n En]. unfold addStat, stat_value.
    destruct (decide (k = k')) as [<-|].
    + rewrite decide_True, En by done. cbn. by rewrite lookup_insert_eq.
    + rewrite decide_False by congruence. destruct (_ !! k'); cbn; [|done].
      by rewrite lookup_insert_ne.
Qed.

Lemma effect_unknown ty m c :
  wf c →
  m_unknownErrors (effect ty m c) =
  if decide (untracked (m_trackedCodes c) ty m)
  then u32 (m_unknownErrors c + 1) else m_unknownErrors c.
Proof.
  intros Hc. destruct m as [| |ty' a'|ty' k'|]; cbn [effect]; try done.
  - rewrite (decide_False (P := untracked _ _ _)) by tauto. case_decide; [|done]. by destruct a'.
  - destruct (decide (ty = ty')) as [<-|Hne].
    + unfold addStat. destruct (_ !! k') eqn:E.
      * rewrite decide_False; [done|]. intros [_ Hk]. apply Hk, Hc. by eexists.
      * rewrite decide_True; [done|]. split; [done|]. intros [? Hk]%(wf_tracked c Hc). congruence.
    + rewrite decide_False; [done|]. by intros [? _].
Qed.

Lemma foldl_tracked ty msgs c :
  m_trackedCodes (foldl (λ c m, effect ty m c) c msgs) = m_trackedCodes c.
Proof.
  revert c. induction msgs as [|m msgs IH]; intros c; [done|]. cbn [foldl].
  by rewrite IH, effect_tracked.
Qed.

Lemma wf_foldl ty msgs c : wf c → wf (foldl (λ c m, effect ty m c) c msgs).
Proof. revert c. induction msgs; cbn; auto using wf_effect. Qed.

Lemma stat_value_lookup c k :
  wf c → k ∈ m_trackedCodes c → Some (stat_value c k) = m_cumulativeCodes c !! k.
Proof. intros Hc [n E]%Hc. unfold stat_value. by rewrite E. Qed.

Lemma registerCode_zero k c : (∀ k, stat_value c k = 0) → ∀ k', stat_value (registerCode k c) k' = 0.
Proof.
  intros Hc k'. specialize (Hc k'). unfold stat_value in *. cbn.
  destruct (decide (k = k')) as [->|]; [by rewrite lookup_insert_eq|by rewrite lookup_insert_ne].
Qed.

(** A new collector counts nothing. *)
Lemma register_all_zero keys name :
  let c := register_all keys name in
  (∀ k, stat_value c k = 0) ∧ m_unknownErrors c = 0 ∧ ∀ a, attempts a c = 0.
Proof.
  cbn. unfold register_all. assert (H : let c := new name in
    (∀ k, stat_value c k = 0) ∧ m_unknownErrors c = 0 ∧ ∀ a, attempts a c = 0) by (split_and!; [done..|by intros []]).
  revert H. generalize (new name). induction keys as [|k keys IH]; intros c (Hk & Hu & Ha); [done|].
  apply IH. split_and!; [by apply registerCode_zero|done|]. intros a. rewrite <- (Ha a). by destruct a.
Qed.

Lemma ctor_zero `{FreeDiameter} ty :
  let c := collector_of ty StatsHss_ctor in
  (∀ k, stat_value c k = 0) ∧ m_unknownErrors c = 0 ∧ ∀ a, attempts a c = 0.
Proof. destruct ty; apply register_all_zero. Qed.

(** *** Counting *)

(** After any messages a collector holds, modulo 2^32, how many attempts of
    each kind, how many results of each tracked code and how many results of
    other codes were posted for its message type. *)
Theorem stats_count_messages `{FreeDiameter} msgs ty :
  let T := m_trackedCodes (collector_of ty StatsHss_ctor) in
  let c := collector_of ty (run msgs StatsHss_ctor) in
  m_trackedCodes c = T ∧
  (∀ k, m_cumulativeCodes c !! k =
     if decide (k ∈ T)
     then Some (u32 (how_many (λ m, m = StatResultMessage ty k) msgs)) else None) ∧
  m_unknownErrors c = u32 (how_many (untracked T ty) msgs) ∧
  (∀ a, attempts a c = u32 (how_many (λ m, m = StatAttempMessage ty a) msgs)).
Proof.
  intros T c. pose proof (wf_ctor ty) as H0. pose proof (ctor_zero ty) as (Zk & Zu & Za).
  assert (m_trackedCodes c = T) as HT by (unfold c; by rewrite run_collector, foldl_tracked by apply wf_ctor).
  unfold c in *. rewrite run_collector in * by apply wf_ctor. split_and!; [done| | |].
  - intros k. case_decide as Hk.
    + rewrite <- stat_value_lookup by (by rewrite ?HT; auto using wf_foldl). f_equal.
      rewrite (counter_counts ty T (λ c, stat_value c k) (λ m, m = StatResultMessage ty k));
        [by rewrite Zk| | |done..].
      * intros c' Hc' HT'. unfold stat_value. destruct (_ !! k) eqn:E; [|done]. by eapply wf_codes.
      * intros m c' Hc' HT'. apply effect_value; congruence.
    + apply eq_None_not_Some. intros Hs. apply Hk. rewrite <- HT. by apply wf_foldl.
  - rewrite (counter_counts ty T m_unknownErrors (untracked T ty)); [by rewrite Zu| | |done..].
    + auto with hss.
    + intros m c' Hc' <-. by apply effect_unknown.
  - intros a. rewrite (counter_counts ty T (attempts a) (λ m, m = StatAttempMessage ty a));
      [by rewrite Za| | |done..].
    + intros c' Hc' _. destruct a; cbn; auto with hss.
    + intros m c' _ _. apply effect_attempts.
Qed.

(** *** The columns *)

(** How often a character occurs. *)
Fixpoint occurrences (a : ascii) (s : string) : nat :=
  match s with
  | EmptyString => 0
  | String b s' => (if decide (a = b) then 1 else 0) + occurrences a s'
  end.

Definition comma : ascii := ","%char.
Definition line_feed : ascii := Ascii.ascii_of_nat 10.
(** Neither a digit nor a minus sign. *)
Definition separator (a : ascii) : Prop := a = comma ∨ a = line_feed.

Lemma occurrences_app a s t : occurrences a (s +:+ t) = (occurrences a s + occurrences a t)%nat.
Proof.
  induction s as [|b s IH]; [done|]. change (String b s +:+ t)%string with (String b (s +:+ t)).
  cbn [occurrences]. lia.
Qed.

Lemma occurrences_commas n a :
  occurrences a (commas n) = if decide (a = comma) then Z.to_nat n else O.
Proof.
  unfold commas. induction (Z.to_nat n) as [|k IH]; [by case_decide|].
  cbn [repeat]. destruct k as [|k]; [cbn; by repeat case_decide|].
  change (String.concat "" ("," :: repeat "," (S k)))%string with ("," +:+ String.concat "" (repeat "," (S k)))%string.
  rewrite occurrences_app, IH. unfold comma. cbn. repeat case_decide; congruence || lia.
Qed.

Lemma occurrences_pretty_N_go a x s :
  separator a → occurrences a (pretty_N_go x s) = occurrences a s.
Proof.
  intros Ha. revert s. induction (N.lt_wf_0 x) as [x _ IH]; intros s.
  assert (x = 0 ∨ 0 < x)%N as [-> |] by lia; [by rewrite pretty_N_go_0|].
  rewrite pretty_N_go_step, IH by (try apply N.div_lt; lia). cbn.
  rewrite decide_False; [done|]. unfold pretty_N_char, separator in *.
  by repeat case_match; destruct Ha as [-> | ->].
Qed.

Lemma occurrences_dec a z : separator a → occurrences a (dec z) = O.
Proof.
  intros Ha. assert (∀ n : N, occurrences a (pretty n) = O) as HN.
  { intros n. unfold pretty, pretty_N. case_decide; [by destruct Ha as [-> | ->]|].
    by rewrite occurrences_pretty_N_go. }
  unfold dec, pretty, pretty_Z. destruct z as [|p|p]; [by destruct Ha as [-> | ->]|apply HN|].
  rewrite occurrences_app. etrans; [apply (f_equal (plus _)), (HN (N.pos p))|].
  by destruct Ha as [-> | ->].
Qed.

Lemma occurrences_columns a c keys :
  separator a →
  occurrences a (columns c keys) = if decide (a = comma) then length keys else O.
Proof.
  intros Ha. induction keys as [|k keys IH]; [by case_decide|].
  change (columns c (k :: keys)) with (dec (stat_value c k) +:+ "," +:+ columns c keys)%string.
  rewrite !occurrences_app, occurrences_dec, IH by done.
  by destruct Ha as [-> | ->].
Qed.

(** The separators of a collector's text do not depend on what it counted. *)
Lemma occurrences_text a n c :
  separator a → 0 <= n < 2 ^ 32 → Z.of_nat (length (m_trackedCodes c)) <= n →
  occurrences a (text n c) = if decide (a = comma) then (4 + Z.to_nat n)%nat else O.
Proof.
  intros Ha Hn Hl. unfold text.
  rewrite !occurrences_app, !occurrences_dec, occurrences_columns, occurrences_commas by done.
  replace (if n >? _ then _ else 0) with (n - Z.of_nat (length (m_trackedCodes c))).
  - assert (occurrences a "," = if decide (a = comma) then 1%nat else O) as -> by (unfold comma; cbn; by case_decide).
    case_decide; lia.
  - destruct (Z.gtb_spec n (Z.of_nat (length (m_trackedCodes c)))); [rewrite u32_small; lia|lia].
Qed.

Lemma ctor_max `{FreeDiameter} : m_max_codes_tracked StatsHss_ctor = 6.
Proof. done. Qed.

Lemma ctor_tracked_le `{FreeDiameter} ty :
  (length (m_trackedCodes (collector_of ty StatsHss_ctor)) <= 6)%nat.
Proof. destruct ty; cbn; lia. Qed.

Lemma run_tracked `{FreeDiameter} msgs ty :
  m_trackedCodes (collector_of ty (run msgs StatsHss_ctor)) =
  m_trackedCodes (collector_of ty StatsHss_ctor).
Proof. by rewrite run_collector, foldl_tracked by apply wf_ctor. Qed.

(** Whatever was counted, a consolidation writes eight rows; every row has
    thirteen commas beside those of the time, and no line break of its own. *)
Theorem stats_rows_have_equal_columns `{FreeDiameter} msgs now_str :
  let s := run msgs StatsHss_ctor in
  ∃ rows, getSerializedStat now_str s = (Ok (String.concat newline rows), s) ∧
    length rows = 8%nat ∧
    ∀ r, r ∈ rows →
      occurrences comma r = (occurrences comma now_str + 13)%nat ∧
      occurrences line_feed r = occurrences line_feed now_str.
Proof.
  intros s. assert (wf_stats s) as Hs by (apply wf_run, wf_ctor).
  exists (rows now_str s). split; [by apply getSerializedStat_eq|]. split; [done|].
  enough (∀ l ty, occurrences comma l = 3%nat → occurrences line_feed l = O →
    occurrences comma (row_text now_str l ty s) = (occurrences comma now_str + 13)%nat ∧
    occurrences line_feed (row_text now_str l ty s) = occurrences line_feed now_str) as Hrow.
  { intros r Hr. unfold rows in Hr.
    repeat (apply elem_of_cons in Hr as [-> | Hr]; [by apply Hrow|]). by apply elem_of_nil in Hr. }
  intros l ty Hc Hn. unfold row_text. pose proof (ctor_tracked_le ty).
  assert (m_max_codes_tracked s = 6) as -> by apply (run_max msgs _ wf_ctor).
  rewrite !occurrences_app, !occurrences_text, Hc, Hn
    by (first [by left|by right|lia|unfold s; rewrite run_tracked; lia]).
  change (if decide (comma = comma) then _ else _) with 10%nat.
  change (if decide (line_feed = comma) then _ else _) with O. split; lia.
Qed.

(** *** The SRR row *)

Definition about_srr (m : stat_message) : Prop :=
  match m with
  | StatAttempMessage ty _ | StatResultMessage ty _ => ty = stat_hss_srr
  | _ => False
  end.
#[export] Instance about_srr_dec m : Decision (about_srr m).
Proof. destruct m; apply _. Defined.

Lemma foldl_without_srr ty msgs c :
  ty ≠ stat_hss_srr →
  foldl (λ c m, effect ty m c) c msgs =
  foldl (λ c m, effect ty m c) c (filter (λ m, ¬ about_srr m) msgs).
Proof.
  intros Hty. revert c. induction msgs as [|m msgs IH]; intros c; [done|].
  rewrite filter_cons. case_decide as Hm; cbn [foldl]; [apply IH|].
  rewrite <- IH. f_equal. destruct m; cbn in *; try done; rewrite decide_False; try done; intros ->; tauto.
Qed.

(** No SRR ever shows in the consolidated text: it is the same with every
    statistics message about an SRR left out. *)
Theorem stats_srr_never_reported `{FreeDiameter} msgs now_str :
  (getSerializedStat now_str (run msgs StatsHss_ctor)).1 =
  (getSerializedStat now_str (run (filter (λ m, ¬ about_srr m) msgs) StatsHss_ctor)).1.
Proof.
  rewrite !getSerializedStat_eq by apply wf_run, wf_ctor. cbn [fst]. unfold rows, row_text.
  rewrite !run_max by apply wf_ctor. rewrite !run_collector by apply wf_ctor.
  by rewrite !(foldl_without_srr _ msgs) by done.
Qed.

End StatsProps.

(** ** The freeDiameter hooks

    Application identifiers and command codes come from the dictionaries
    loaded at run time; the header of a message is what [fd_msg_hdr] gives. *)

Module HookEvent.

Record msg_hdr := mk_hdr { msg_flags : Z; msg_appl : Z; msg_code : Z }.

Class Commands := {
  CMD_FLAG_REQUEST : Z;
  s6as6d_app : Z; s6t_app : Z; s6c_app : Z;
  cmdAUIR : Z; cmdAUIA : Z; cmdUPLR : Z; cmdUPLA : Z; cmdPUUR : Z; cmdPUUA : Z;
  cmdINSDR : Z; cmdINSDA : Z;
  cmdCOIR : Z; cmdCOIA : Z; cmdREIR : Z; cmdREIA : Z; cmdNIIR : Z; cmdNIIA : Z;
  cmdSERIFSR : Z; cmdSERIFSA : Z }.

Section HookEvent.
Context `{Commands}.

Definition isRequest (h : msg_hdr) : bool := Z.land (msg_flags h) CMD_FLAG_REQUEST =? CMD_FLAG_REQUEST.

(** What the callbacks register for a message; [None] when the message is
    absent, its header cannot be read, or no branch is taken. *)
Definition md_hook_cb_error (hdr : option msg_hdr) : option (stat_type * StatAttempType) :=
  h ← hdr;
  let req := isRequest h in
  let code := msg_code h in
  if msg_appl h =? s6as6d_app then
    if (code =? cmdAUIR) && req then Some (stat_hss_air, stat_received_ko)
    else if (code =? cmdAUIA) && negb req then Some (stat_hss_air, stat_sent_ko)
    else if (code =? cmdUPLR) && req then Some (stat_hss_ulr, stat_received_ko)
    else if (code =? cmdUPLA) && negb req then Some (stat_hss_ulr, stat_sent_ko)
    else if (code =? cmdPUUR) && req then Some (stat_hss_pur, stat_received_ko)
    else if (code =? cmdPUUA) && negb req then Some (stat_hss_pur, stat_sent_ko)
    else if (code =? cmdINSDR) && req then Some (stat_hss_idr, stat_sent_ko)
    else if (code =? cmdINSDA) && negb req then Some (stat_hss_idr, stat_received_ko)
    else None
  else if msg_appl h =? s6t_app then
    if (code =? cmdCOIR) && req then Some (stat_hss_cir, stat_received_ko)
    else if (code =? cmdCOIA) && negb req then Some (stat_hss_cir, stat_sent_ko)
    else if (code =? cmdREIR) && req then Some (stat_hss_rir, stat_sent_ko)
    else if (code =? cmdREIA) && negb req then Some (stat_hss_rir, stat_received_ko)
    else if (code =? cmdNIIR) && req then Some (stat_hss_nir, stat_received_ko)
    else if (code =? cmdNIIA) && negb req then Some (stat_hss_nir, stat_sent_ko)
    else None
  else if msg_appl h =? s6c_app then
    if (code =? cmdSERIFSR) && req then Some (stat_hss_srr, stat_received_ko)
    else if (code =? cmdSERIFSA) && negb req then Some (stat_hss_srr, stat_sent_ko)
    else None
  else None.

Definition md_hook_cb_ok (hdr : option msg_hdr) : option (stat_type * StatAttempType) :=
  h ← hdr;
  let req := isRequest h in
  let code := msg_code h in
  if msg_appl h =? s6as6d_app then
    if (code =? cmdAUIR) && req then Some (stat_hss_air, stat_attemp_received)
    else if (code =? cmdAUIA) && negb req then Some (stat_hss_air, stat_attemp_sent)
    else if (code =? cmdUPLR) && req then Some (stat_hss_ulr, stat_attemp_received)
    else if (code =? cmdUPLA) && negb req then Some (stat_hss_ulr, stat_attemp_sent)
    else if (code =? cmdPUUR) && req then Some (stat_hss_pur, stat_attemp_received)
    else if (code =? cmdPUUA) && negb req then Some (stat_hss_pur, stat_attemp_sent)
    else if (code =? cmdINSDR) && req then Some (stat_hss_idr, stat_attemp_received)
    else if (code =? cmdINSDA) && negb req then Some (stat_hss_idr, stat_attemp_sent)
    else None
  else if msg_appl h =? s6t_app then
    if (code =? cmdCOIR) && req then Some (stat_hss_cir, stat_attemp_received)
    else if (code =? cmdCOIA) && negb req then Some (stat_hss_cir, stat_attemp_sent)
    else if (code =? cmdREIR) && req then Some (stat_hss_rir, stat_attemp_sent)
    else if (code =? cmdREIA) && negb req then Some (stat_hss_rir, stat_attemp_received)
    else if (code =? cmdNIIR) && req then Some (stat_hss_nir, stat_attemp_received)
    else if (code =? cmdNIIA) && negb req then Some (stat_hss_nir, stat_attemp_sent)
    else None
  else if msg_appl h =? s6c_app then
    if (code =? cmdSERIFSR) && req then Some (stat_hss_srr, stat_received_ko)
    else if (code =? cmdSERIFSA) && negb req then Some (stat_hss_srr, stat_sent_ko)
    else None
  else None.

(** The application and the code of a message type's request and answer. *)
Definition command (ty : stat_type) (req : bool) : Z * Z :=
  match ty with
  | stat_hss_air => (s6as6d_app, if req then cmdAUIR else cmdAUIA)
  | stat_hss_ulr => (s6as6d_app, if req then cmdUPLR else cmdUPLA)
  | stat_hss_pur => (s6as6d_app, if req then cmdPUUR else cmdPUUA)
  | stat_hss_idr => (s6as6d_app, if req then cmdINSDR else cmdINSDA)
  | stat_hss_cir => (s6t_app, if req then cmdCOIR else cmdCOIA)
  | stat_hss_rir => (s6t_app, if req then cmdREIR else cmdREIA)
  | stat_hss_nir => (s6t_app, if req then cmdNIIR else cmdNIIA)
  | stat_hss_srr => (s6c_app, if req then cmdSERIFSR else cmdSERIFSA)
  end.

(** A dictionary names every command once: requests, and answers, of different
    types have different applications or codes; the applications differ. *)
Definition commands_distinct : Prop :=
  s6as6d_app ≠ s6t_app ∧ s6as6d_app ≠ s6c_app ∧ s6t_app ≠ s6c_app ∧
  ∀ req ty ty', command ty req = command ty' req → ty = ty'.

(** The HSS answers every type of request but IDR and RIR, which it sends. *)
Definition hss_sends (ty : stat_type) (req : bool) : bool :=
  match ty with stat_hss_idr | stat_hss_rir => req | _ => negb req end.

End HookEvent.
End HookEvent.

Module HookProps.
Import HookEvent.

(** A header of that command. *)
Definition is_command `{Commands} (ty : stat_type) (h : msg_hdr) : Prop :=
  (msg_appl h, msg_code h) = command ty (isRequest h).

(** Decides the tests of a callback on a command of type [ty], from the
    injectivity of [command]. *)
Ltac clash Hinj req ty ty' :=
  assert (ty = ty') by (apply (Hinj req); cbn; congruence); discriminate.
Ltac run_callback Hinj req ty :=
  cbn; rewrite ?andb_false_r, ?andb_true_r; repeat
    (rewrite ?Z.eqb_refl; cbn;
     match goal with
     | |- context [?x =? ?y] =>
         destruct (Z.eqb_spec x y); cbn;
         [exfalso;
          first [congruence
                |clash Hinj req ty stat_hss_air | clash Hinj req ty stat_hss_ulr
                |clash Hinj req ty stat_hss_pur | clash Hinj req ty stat_hss_idr
                |clash Hinj req ty stat_hss_cir | clash Hinj req ty stat_hss_rir
                |clash Hinj req ty stat_hss_nir | clash Hinj req ty stat_hss_srr]
         |]
     end);
  rewrite ?Z.eqb_refl; reflexivity.
(** A callback on the header of a command, for every type and direction. *)
Ltac classify_command Hd Hh :=
  let Hinj := fresh "Hinj" in
  destruct Hd as (? & ? & ? & Hinj); unfold is_command in Hh;
  unfold md_hook_cb_error, md_hook_cb_ok, mbind, option_bind;
  lazymatch goal with
  | |- context [isRequest ?h] =>
      destruct (isRequest h);
      lazymatch type of Hh with
      | _ = command ?ty ?req =>
          destruct ty; injection Hh as -> ->;
          [run_callback Hinj req stat_hss_ulr | run_callback Hinj req stat_hss_air
          |run_callback Hinj req stat_hss_pur | run_callback Hinj req stat_hss_cir
          |run_callback Hinj req stat_hss_nir | run_callback Hinj req stat_hss_idr
          |run_callback Hinj req stat_hss_rir | run_callback Hinj req stat_hss_srr]
      end
  end.

(** A failed message of any type is counted in the direction it had: as a
    failed reception of what the HSS receives, a failed sending of what it
    sends. *)
Theorem hook_error_counts_direction `{Commands} ty h :
  commands_distinct → is_command ty h →
  md_hook_cb_error (Some h) =
  Some (ty, if hss_sends ty (isRequest h) then stat_sent_ko else stat_received_ko).
Proof. intros Hd Hh. classify_command Hd Hh. Qed.

(** A message that went through is counted in its direction, except that an IDR
    exchange is counted the wrong way round and an SRR exchange as failed. *)
Theorem hook_ok_counts_direction `{Commands} ty h :
  commands_distinct → is_command ty h →
  md_hook_cb_ok (Some h) =
  Some (ty, match ty with
    | stat_hss_idr => if hss_sends ty (isRequest h) then stat_attemp_received else stat_attemp_sent
    | stat_hss_srr => if hss_sends ty (isRequest h) then stat_sent_ko else stat_received_ko
    | _ => if hss_sends ty (isRequest h) then stat_attemp_sent else stat_attemp_received
    end).
Proof. intros Hd Hh. classify_command Hd Hh. Qed.

(** The commands of 3GPP TS 29.272, 29.336 and 29.338. *)
#[local] Instance example_commands : Commands := {
  CMD_FLAG_REQUEST := 128;
  s6as6d_app := 16777251; s6t_app := 16777345; s6c_app := 16777312;
  cmdAUIR := 318; cmdAUIA := 318; cmdUPLR := 316; cmdUPLA := 316; cmdPUUR := 321; cmdPUUA := 321;
  cmdINSDR := 319; cmdINSDA := 319;
  cmdCOIR := 8388718; cmdCOIA := 8388718; cmdREIR := 8388719; cmdREIA := 8388719;
  cmdNIIR := 8388726; cmdNIIA := 8388726;
  cmdSERIFSR := 8388647; cmdSERIFSA := 8388647 }.

Lemma example_commands_distinct : commands_distinct.
Proof. split_and!; [done..|]. by intros [] [] []. Qed.

Lemma hook_error_counts_direction_witness :
  md_hook_cb_error (Some (mk_hdr 192 16777251 319)) = Some (stat_hss_idr, stat_sent_ko).
Proof.
  exact (hook_error_counts_direction stat_hss_idr (mk_hdr 192 16777251 319)
           example_commands_distinct eq_refl).
Defined.

Lemma hook_ok_counts_direction_witness :
  md_hook_cb_ok (Some (mk_hdr 192 16777312 8388647)) = Some (stat_hss_srr, stat_received_ko).
Proof.
  exact (hook_ok_counts_direction stat_hss_srr (mk_hdr 192 16777312 8388647)
           example_commands_distinct eq_refl).
Defined.

End HookProps.
