(* ===== verification/Pur.v ===== *)
(** * Purge-UE-Request

    Models [PUURcmd::process] of src/s6as6d_impl.cpp: a handler that runs to its
    end on the thread that received the request.  What its locals hold before
    they are assigned is a parameter. *)

From S2P Require Import Prelude Codec Auc Diameter DataAccess World.
#[local] Open Scope Z_scope.

Definition PUR_UE_PURGED_IN_SGSN : Z := 2.

Module Pur.
Section Pur.
Import FDExtractor.
Context `{Cassandra} `{FreeDiameter} {D G : Type}.

(** The uninitialised [u32], and the identifier [getMmeIdentityFromImsi] reads
    a null column into. *)
Record uninit := mk_uninit { u_u32 : Z; u_id : Z }.
Variable (u : uninit).

Abbreviation world := (World.world D G).

Definition pur_field (req : message) (k : avp_name) : M world (option avp) :=
  lift (field Extractors.PurgeUeRequestExtractor req k).

(** The body of the [do { } while (false)]: the answer so far, [result_code]
    and [experimental]. *)
Definition checks (req ans : message) : M world (message * Z * bool) :=
  a ← pur_field req "Auth-Session-State";
  '(_, x) ← lift (get_u32 a (u_u32 u));
  let ans := ans ++ [AvpU32 "Auth-Session-State" x] in
  a ← pur_field req "User-Name";
  '(_, imsi) ← lift (get_string a "");
  if (IMSI_LENGTH <? String.length imsi)%nat then
    mret (ans, ER_DIAMETER_INVALID_AVP_VALUE, false)
  else
  a ← pur_field req "PUR-Flags";
  '(has, x) ← lift (get_u32 a x);
  if (has : bool) && FLAG_IS_SET x PUR_UE_PURGED_IN_SGSN then
    mret (ans, ER_DIAMETER_INVALID_AVP_VALUE, false)
  else
  '(known, mme_id) ← World.on_db
     (DataAccess.getMmeIdentityFromImsi (u_id u) imsi (mk_mme "" "" ""));
  if negb known then mret (ans, DIAMETER_ERROR_USER_UNKNOWN, true) else
  purged ← World.on_db (DataAccess.purgeUE imsi);
  if negb purged then mret (ans, DIAMETER_ERROR_USER_UNKNOWN, true) else
  a ← pur_field req "Origin-Host";
  '(_, host) ← lift (get_string a "");
  let '(code, experimental) :=
    if String.eqb (mme_host mme_id) host then (ER_DIAMETER_SUCCESS, false)
    else (DIAMETER_ERROR_UNKNOWN_SERVING_NODE, true) in
  a ← pur_field req "Origin-Realm";
  '(_, realm) ← lift (get_string a host);
  let '(code, experimental) :=
    if String.eqb (mme_realm mme_id) realm then (code, experimental)
    else (DIAMETER_ERROR_UNKNOWN_SERVING_NODE, true) in
  mret (ans ++ [AvpU32 "PUA-Flags" 1], code, experimental).

(** [ans] is what the stack copies from the request. *)
Definition process (req ans : message) : M world unit :=
  '(ans, code, experimental) ← checks req (ans ++ fd_origin);
  if DIAMETER_ERROR_IS_VENDOR code && (experimental : bool) then
    _ ← World.registerStatResult stat_hss_pur VENDOR_3GPP code;
    World.send_answer (ans ++ [FDMessage.experimental_result code])
  else
    _ ← World.registerStatResult stat_hss_pur 0 code;
    World.send_answer (ans ++ [FDMessage.result_code code]).

End Pur.
End Pur.

Module PurFacts.
Section PurFacts.
Import FDExtractor Pur.
Context `{Cassandra} `{FreeDiameter} {D G : Type}.
Implicit Types wd : World.world D G.

(** A database operation changes nothing else. *)
Lemma wp_db {A} (m : M (DataAccess.db D) A) Q wd :
  (∀ o d, Q o (wd <| World.database := d |>)) → wp (World.on_db m) Q wd.
Proof. intros HQ. unfold World.on_db. apply wp_zoom. unfold wp. destruct (m _). apply HQ. Qed.

(** The outcomes of the checks: [result_code] and [experimental]. *)
Definition verdicts : list (Z * bool) :=
  [(ER_DIAMETER_SUCCESS, false); (ER_DIAMETER_INVALID_AVP_VALUE, false);
   (DIAMETER_ERROR_USER_UNKNOWN, true); (DIAMETER_ERROR_UNKNOWN_SERVING_NODE, true)].

(** The result AVP a verdict puts in the answer, and what it counts. *)
Definition result_of (v : Z * bool) : avp * (stat_type * Z * Z) :=
  if v.2 then (FDMessage.experimental_result v.1, (stat_hss_pur, VENDOR_3GPP, v.1))
  else (FDMessage.result_code v.1, (stat_hss_pur, 0, v.1)).

Definition judged wd (o : outcome (message * Z * bool)) wd' : Prop :=
  World.wire wd' = World.wire wd ∧ World.stats wd' = World.stats wd ∧
  match o with Ok (_, code, experimental) => (code, experimental) ∈ verdicts | _ => True end.

Lemma judged_intro wd d ans v :
  v ∈ verdicts → judged wd (mret (ans, v.1, v.2)) (wd <| World.database := d |>).
Proof. by destruct v. Qed.

Ltac solve_judged :=
  split; [reflexivity|split; [reflexivity|
    first [exact I | unfold verdicts; set_solver]]].

(** The checks send nothing and count nothing. *)
Lemma wp_checks u req ans wd : wp (checks u req ans) (judged wd) wd.
Proof.
  unfold checks, pur_field.
  repeat first [wp_step | apply wp_db; intros [[] | |] ? | case_match];
    cbn beta iota; solve_judged.
Qed.

Lemma verdict_vendor code experimental :
  (code, experimental) ∈ verdicts → DIAMETER_ERROR_IS_VENDOR code && experimental = experimental.
Proof.
  intros Hv. unfold verdicts in Hv. rewrite !elem_of_cons in Hv.
  destruct Hv as [E|[E|[E|[E|E%elem_of_nil]]]]; simplify_eq; by rewrite ?andb_false_r.
Qed.

(** When [PUURcmd::process] returns it has sent exactly one answer, which
    ends in one of four results, and counted that result; when it throws or goes
    wrong it has sent nothing. *)
Theorem pur_answered_once u req ans wd :
  let '(o, wd') := process u req ans wd in
  match o with
  | Ok _ => ∃ v pre, v ∈ verdicts ∧
      World.wire wd' = World.wire wd ++ [SentAnswer (pre ++ [(result_of v).1])] ∧
      World.stats wd' = World.stats wd ++ [(result_of v).2]
  | _ => World.wire wd' = World.wire wd
  end.
Proof.
  change (wp (process u req ans) (λ o wd', match o with
    | Ok _ => ∃ v pre, v ∈ verdicts ∧
        World.wire wd' = World.wire wd ++ [SentAnswer (pre ++ [(result_of v).1])] ∧
        World.stats wd' = World.stats wd ++ [(result_of v).2]
    | _ => World.wire wd' = World.wire wd end) wd).
  unfold process. apply wp_bind. eapply wp_mono; [apply wp_checks|].
  intros [[[ans' code] ex] | |] wd' (Hw & Hs & Hv); cbn [keep_fault]; [|done..].
  rewrite (verdict_vendor code ex) by done. rewrite <- Hw, <- Hs.
  destruct ex; unfold World.registerStatResult, World.send_answer; wp_steps; cbn; try done;
    (eexists (code, _), ans'; split; [exact Hv|]; split; reflexivity).
Qed.

(** The values the handler reads from a request. *)
Record reads (u : uninit) (req : message) (x : Z) (imsi host realm : string) : Prop := {
  reads_auth : ∃ a b, field Extractors.PurgeUeRequestExtractor req "Auth-Session-State" = Ok a ∧
    get_u32 a (u_u32 u) = Ok (b, x);
  reads_imsi : ∃ a b, field Extractors.PurgeUeRequestExtractor req "User-Name" = Ok a ∧
    get_string a "" = Ok (b, imsi);
  reads_length : (String.length imsi <= IMSI_LENGTH)%nat;
  reads_flags : ∃ a b f, field Extractors.PurgeUeRequestExtractor req "PUR-Flags" = Ok a ∧
    get_u32 a x = Ok (b, f) ∧ b && FLAG_IS_SET f PUR_UE_PURGED_IN_SGSN = false;
  reads_host : ∃ a b, field Extractors.PurgeUeRequestExtractor req "Origin-Host" = Ok a ∧
    get_string a "" = Ok (b, host);
  reads_realm : ∃ a b, field Extractors.PurgeUeRequestExtractor req "Origin-Realm" = Ok a ∧
    get_string a host = Ok (b, realm) }.

(** C30: A readable request for a subscriber with an MME on record purges that
    subscriber in the database before the origin is looked at: the database it
    leaves is the same whether the request came from the MME on record or not,
    only the answer says that the serving node is unknown. *)
Theorem pur_purges_whatever_the_origin u req ans wd x imsi host realm mme d1 d2 :
  (∀ m, fd_msg_send m = 0) →
  reads u req x imsi host realm →
  DataAccess.getMmeIdentityFromImsi (u_id u) imsi (mk_mme "" "" "") (World.database wd)
    = (Ok (true, mme), d1) →
  DataAccess.purgeUE imsi d1 = (Ok true, d2) →
  let v := if String.eqb (mme_host mme) host && String.eqb (mme_realm mme) realm
           then (ER_DIAMETER_SUCCESS, false) else (DIAMETER_ERROR_UNKNOWN_SERVING_NODE, true) in
  process u req ans wd =
  (Ok tt, wd <| World.database := d2 |>
             <| World.stats ::= (λ l, l ++ [(result_of v).2]) |>
             <| World.wire ::= (λ l, l ++ [SentAnswer ((ans ++ fd_origin)
                  ++ [AvpU32 "Auth-Session-State" x] ++ [AvpU32 "PUA-Flags" 1]
                  ++ [(result_of v).1])]) |>).
Proof.
  intros Hsend [(a1 & b1 & F1 & G1) (a2 & b2 & F2 & G2) Hlen (a3 & b3 & f & F3 & G3 & Hf)
    (a4 & b4 & F4 & G4) (a5 & b5 & F5 & G5)] Hmme Hpurge v.
  assert (checks u req (ans ++ fd_origin) wd =
    (Ok (((ans ++ fd_origin) ++ [AvpU32 "Auth-Session-State" x]) ++ [AvpU32 "PUA-Flags" 1],
         v.1, v.2), wd <| World.database := d2 |>)) as Hchecks.
  { unfold checks, pur_field, mbind, M_bind, mret, M_ret, lift, World.on_db, zoom.
    rewrite F1, G1. cbn beta iota. rewrite F2, G2. cbn beta iota.
    rewrite (proj2 (Nat.ltb_ge _ _) Hlen). rewrite F3, G3. cbn beta iota.
    rewrite Hf, Hmme. cbn. rewrite Hpurge. cbn. rewrite F4, G4, F5, G5.
    unfold v. by destruct (String.eqb (mme_host mme) host), (String.eqb (mme_realm mme) realm). }
  unfold process. erewrite bind_Ok by exact Hchecks. cbn beta iota.
  assert (DIAMETER_ERROR_IS_VENDOR v.1 && v.2 = v.2) as ->.
  { apply verdict_vendor. unfold v, verdicts. case_match; set_solver. }
  rewrite <- !app_assoc.
  destruct v as [code []]; cbn [fst snd result_of];
    unfold World.registerStatResult, World.send_answer, mbind, M_bind, modify, lift, FDMessage.send;
    by rewrite Hsend.
Qed.

End PurFacts.
End PurFacts.

(** A subscriber served by one MME is purged on the word of another. *)

Module PurWitness.
Import ScriptedCassandra WitnessFreeDiameter Pur PurFacts.

Definition u : uninit := mk_uninit 0 0.
Definition script0 : script := mk_script
  [one_row [("mmeidentity_idmmeidentity", Int 7)];
   one_row [("mmehost", Text "mme1.epc"); ("mmerealm", Text "epc"); ("mmeisdn", Text "1")];
   mk_future 0 [] true] [].
Definition wd : World.world nat unit :=
  World.mk (DataAccess.mk_db script0 []) [] [] (Random.Build_state 0 tt).
Definition d1 : DataAccess.db nat :=
  (DataAccess.getMmeIdentityFromImsi 0 "208930000000001" (mk_mme "" "" "") (World.database wd)).2.
Definition d2 : DataAccess.db nat := (DataAccess.purgeUE "208930000000001" d1).2.

Definition pur : message :=
  [AvpU32 "Auth-Session-State" 1; AvpStr "User-Name" "208930000000001";
   AvpStr "Origin-Host" "rogue.epc"; AvpStr "Origin-Realm" "epc"].

Lemma pur_purges_whatever_the_origin_witness :
  (process u pur [] wd).1 = Ok tt ∧
  log (DataAccess.session d2) !! 2%nat
  = Some "UPDATE vhss.users_imsi SET ms_ps_status='PURGED' WHERE imsi='208930000000001';"%string.
Proof.
  split; [|by vm_compute].
  rewrite (pur_purges_whatever_the_origin u pur [] wd 1 "208930000000001" "rogue.epc" "epc"
    (mk_mme "mme1.epc" "epc" "1") d1 d2); try done.
  - constructor; try (eexists _, _; (split; [vm_compute; reflexivity|]); vm_compute; reflexivity).
    + vm_compute. lia.
    + eexists _, _, _. split; [vm_compute; reflexivity|]. (split; [vm_compute; reflexivity|]); vm_compute; reflexivity.
Defined.

End PurWitness.
