(* ===== verification/Schemas.v ===== *)
(** * The message grammars of the applications

    Every extractor class of src/s6as6d.cpp, src/s6t.cpp, src/s6c.cpp and
    smsrouter/src/sgd.cpp as the list of its [add] calls, and the AVPs each
    application's [Dictionary] looks up.  An AVP stands by its dictionary name. *)

From S2P Require Import Prelude Diameter.
Import FDExtractor.
#[local] Open Scope string_scope.

(** ** S6a/S6d: src/s6as6d.cpp (the extractors its handlers use are in Diameter) *)

Module S6as6d.

(** The AVPs that [Dictionary] looks up in freeDiameter's dictionary. *)
Definition dictionary : list avp_name :=
  ["TS-Code"; "Reachability-Type"; "EPS-User-State"; "Pre-emption-Capability";
   "Feature-List-ID"; "Service-Area-Identity"; "Day-Of-Week-Mask";
   "All-APN-Configurations-Included-Indicator"; "E-UTRAN-Vector"; "PUA-Flags";
   "Maximum-Response-Time"; "Vendor-Specific-Application-Id"; "CSG-Access-Mode";
   "Additional-Context-Identifier"; "Access-Restriction-Data"; "MIP6-Home-Link-Prefix";
   "GPRS-Subscription-Data"; "SRES"; "SourceID"; "Load-Value"; "Feature-List";
   "APN-OI-Replacement"; "Monitoring-Event-Config-Status"; "OC-Report-Type";
   "Experimental-Result"; "eDRX-Cycle-Length"; "IMS-Voice-Over-PS-Sessions-Supported";
   "UE-Usage-Type"; "User-Id"; "LCS-PrivacyException"; "V2X-Subscription-Data";
   "Adjacent-Access-Restriction-Data"; "QoS-Class-Identifier"; "Ext-PDP-Type";
   "OC-Feature-Vector"; "Relay-Node-Indicator"; "Communication-Duration-Time";
   "Acct-Application-Id"; "Item-Number"; "List-Of-Measurements"; "GERAN-Vector";
   "Auth-Session-State"; "EPS-Location-Information"; "DRMP"; "Trace-NE-Type-List";
   "Adjacent-PLMNs"; "Priority-Level"; "Pre-emption-Vulnerability"; "Geodetic-Information";
   "Load-Type"; "Area-Scope"; "Preferred-Data-Mode"; "IMEI"; "Reachability-Information";
   "Node-Type"; "CLR-Flags"; "Call-Barring-Info"; "Service-Report"; "Destination-Host";
   "GMLC-Address"; "Location-Area-Identity"; "Logging-Interval";
   "Roaming-Restricted-Due-To-Unsupported-Feature"; "RAT-Type"; "eDRX-Cycle-Length-Value";
   "Time-Zone"; "MSISDN"; "MO-LR"; "Active-APN"; "Job-Type"; "SS-Code"; "Time-Of-Day-Start";
   "WLAN-offloadability"; "MIP-Home-Agent-Host"; "PDN-Type"; "Communication-Pattern-Set";
   "Periodic-Communication-Indicator"; "ProSe-Permission"; "Equivalent-PLMN-List";
   "Charged-Party"; "Supported-Services"; "3GPP-Charging-Characteristics"; "Proxy-Info";
   "Subscribed-Periodic-RAU-TAU-Timer"; "SS-Status"; "eNodeB-Id"; "UTRAN-Vector";
   "Origin-Realm"; "Origin-Host"; "Event-Threshold-RSRQ"; "VPLMN-Dynamic-Address-Allowed";
   "Accuracy"; "PUR-Flags"; "UE-Reachability-Configuration"; "APN-Configuration"; "A-MSISDN";
   "MONTE-Location-Type"; "Last-UE-Activity-Time"; "Local-Time-Zone"; "Authentication-Info";
   "Service-Type"; "V2X-Permission"; "PDP-Address"; "IMSI-Group-Id"; "DSR-Flags";
   "Complete-Data-List-Included-Indicator"; "Trace-Collection-Entity";
   "WLAN-offloadability-EUTRAN"; "Route-Record"; "Subscription-Data";
   "Reference-ID-Validity-Time"; "DL-Buffering-Suggested-Packet-Count"; "SCEF-ID";
   "Trace-Event-List"; "CSG-Id"; "MDT-Configuration"; "Error-Diagnostic";
   "Routing-Area-Identity"; "Current-Location-Retrieved"; "User-CSG-Information";
   "MIP6-Agent-Info"; "Logging-Duration"; "Group-PLMN-Id"; "Collection-Period-RRM-UMTS";
   "IDA-Flags"; "Non-IP-PDN-Type-Indicator"; "Tracking-Area-Identity"; "OC-OLR";
   "Client-Identity"; "Age-Of-Location-Information"; "Trace-Data"; "Subscribed-VSRVCC";
   "PLMN-Client"; "VPLMN-LIPA-Allowed"; "Re-Synchronization-Info"; "AIR-Flags";
   "Specific-APN-Info"; "RAND"; "OC-Reduction-Percentage"; "Report-Interval";
   "EPS-Subscribed-QoS-Profile"; "Service-Result-Code"; "OMC-Id"; "OC-Sequence-Number";
   "Teleservice-List"; "APN-Configuration-Profile"; "Event-Threshold-Event-1I";
   "Supported-Monitoring-Events"; "DSA-Flags"; "Event-Threshold-Event-1F";
   "Allocation-Retention-Priority"; "Cell-Global-Identity"; "OC-Validity-Duration"; "ULA-Flags";
   "CSG-Membership-Indication"; "Service-Selection"; "Network-Access-Mode"; "3GPP2-MEID";
   "MME-Location-Information"; "SGSN-Location-Information"; "ULR-Flags";
   "Measurement-Period-LTE"; "Result-Code"; "GMLC-Restriction"; "User-State";
   "SGs-MME-Identity"; "Coupled-Node-Diameter-ID"; "Kc"; "WLAN-offloadability-UTRAN";
   "ServiceTypeIdentity"; "STN-SR"; "MME-Number-for-MT-SMS";
   "Requested-UTRAN-GERAN-Authentication-Info"; "Notification-To-UE-User";
   "Homogeneous-Support-of-IMS-Voice-Over-PS-Sessions"; "PDP-Context";
   "Max-Requested-Bandwidth-DL"; "Trace-Interface-List"; "PDN-Connection-Continuity";
   "SCEF-Reference-ID"; "SGSN-Number"; "RAT-Frequency-Selection-Priority-ID";
   "Number-Of-Requested-Vectors"; "Subscription-Data-Deletion"; "Load"; "Context-Identifier";
   "Integrity-Key"; "Confidentiality-Key"; "E-UTRAN-Cell-Global-Identity";
   "OC-Supported-Features"; "Monitoring-Type"; "UE-PC5-AMBR"; "Proxy-Host";
   "Event-Threshold-RSRP"; "Terminal-Information"; "XRES"; "Subscriber-Status";
   "Experimental-Result-Code"; "Collection-Period-RRM-LTE"; "Maximum-Number-of-Reports";
   "HPLMN-ODB"; "MME-User-State"; "Auth-Application-Id"; "Reset-ID"; "LIPA-Permission";
   "Requested-EUTRAN-Authentication-Info"; "MPS-Priority"; "Monitoring-Event-Report";
   "Extended-eNodeB-Id"; "IDR-Flags"; "AESE-Communication-Pattern";
   "Visited-Network-Identifier"; "LCS-Info"; "Restoration-Priority"; "MDT-User-Consent";
   "Cancellation-Type"; "Stationary-Indication"; "PDN-GW-Allocation-Type"; "GMLC-Number";
   "Subscription-Data-Flags"; "ICS-Indicator"; "Visited-PLMN-Id"; "QoS-Subscribed";
   "Positioning-Method"; "Monitoring-Duration"; "Reporting-Trigger"; "Failed-AVP"; "AMBR";
   "Daylight-Saving-Time"; "Expiration-Date"; "Group-Service-Id"; "Trace-Reference";
   "Local-Group-Id"; "Measurement-Quantity"; "Geographical-Information"; "KASME";
   "Served-Party-IP-Address"; "Trace-Depth"; "Scheduled-Communication-Time"; "Proxy-State";
   "Operator-Determined-Barring"; "AUTN"; "PDP-Type"; "Periodic-Time"; "Time-Of-Day-End";
   "Software-Version"; "SIPTO-Local-Network-Permission"; "SMS-Register-Request";
   "SGSN-User-State"; "Vendor-Id"; "Max-Requested-Bandwidth-UL"; "Supported-Features";
   "Non-IP-Data-Delivery-Mechanism"; "Monitoring-Event-Configuration"; "Destination-Realm";
   "Session-Id"; "Immediate-Response-Preferred"; "User-Name"; "SCEF-Realm"; "SIPTO-Permission";
   "Emergency-Info"; "MDT-Allowed-PLMN-Id"; "Report-Amount"; "CSG-Subscription-Data";
   "External-Client"; "MIP-Home-Agent-Address"; "UE-SRVCC-Capability";
   "Measurement-Period-UMTS"; "SCEF-Reference-ID-for-Deletion"; "ProSe-Subscription-Data";
   "Service-Result"; "Location-Information-Configuration"; "Ext-PDP-Address";
   "Regional-Subscription-Zone-Code"].

Definition MmeUserStateExtractor : extractor :=
  [("User-State", etAvp)].

Definition SgsnUserStateExtractor : extractor :=
  [("User-State", etAvp)].

Definition EpsUserStateExtractor : extractor :=
  [("MME-User-State", etExtractor); ("SGSN-User-State", etExtractor)].

Definition EUtranVectorExtractor : extractor :=
  [("Item-Number", etAvp); ("RAND", etAvp); ("XRES", etAvp); ("AUTN", etAvp); ("KASME", etAvp)].

Definition VendorSpecificApplicationIdExtractor : extractor :=
  [("Vendor-Id", etAvp); ("Auth-Application-Id", etAvp); ("Acct-Application-Id", etAvp)].

Definition AmbrExtractor : extractor :=
  [("Max-Requested-Bandwidth-UL", etAvp); ("Max-Requested-Bandwidth-DL", etAvp)].

Definition PdpContextExtractor : extractor :=
  [("Context-Identifier", etAvp); ("PDP-Type", etAvp); ("PDP-Address", etAvp);
   ("QoS-Subscribed", etAvp); ("VPLMN-Dynamic-Address-Allowed", etAvp);
   ("Service-Selection", etAvp); ("3GPP-Charging-Characteristics", etAvp);
   ("Ext-PDP-Type", etAvp); ("Ext-PDP-Address", etAvp); ("AMBR", etExtractor);
   ("APN-OI-Replacement", etAvp); ("SIPTO-Permission", etAvp); ("LIPA-Permission", etAvp);
   ("Restoration-Priority", etAvp); ("SIPTO-Local-Network-Permission", etAvp);
   ("Non-IP-Data-Delivery-Mechanism", etAvp); ("SCEF-ID", etAvp)].

Definition GprsSubscriptionDataExtractor : extractor :=
  [("Complete-Data-List-Included-Indicator", etAvp); ("PDP-Context", etExtractorList)].

Definition ServiceResultExtractor : extractor :=
  [("Vendor-Id", etAvp); ("Service-Result-Code", etAvp)].

Definition ServiceReportExtractor : extractor :=
  [("Service-Result", etExtractor); ("Node-Type", etAvp)].

Definition MonitoringEventConfigStatusExtractor : extractor :=
  [("Service-Report", etExtractorList); ("SCEF-Reference-ID", etAvp); ("SCEF-ID", etAvp)].

Definition ExperimentalResultExtractor : extractor :=
  [("Vendor-Id", etAvp); ("Experimental-Result-Code", etAvp)].

Definition EdrxCycleLengthExtractor : extractor :=
  [("RAT-Type", etAvp); ("eDRX-Cycle-Length-Value", etAvp)].

Definition ExternalClientExtractor : extractor :=
  [("Client-Identity", etAvp); ("GMLC-Restriction", etAvp); ("Notification-To-UE-User", etAvp)].

Definition ServiceTypeExtractor : extractor :=
  [("ServiceTypeIdentity", etAvp); ("GMLC-Restriction", etAvp);
   ("Notification-To-UE-User", etAvp)].

Definition LcsPrivacyexceptionExtractor : extractor :=
  [("SS-Code", etAvp); ("SS-Status", etAvp); ("Notification-To-UE-User", etAvp);
   ("External-Client", etExtractorList); ("PLMN-Client", etAvpList);
   ("Service-Type", etExtractorList)].

Definition V2xSubscriptionDataExtractor : extractor :=
  [("V2X-Permission", etAvp); ("UE-PC5-AMBR", etAvp)].

Definition AdjacentAccessRestrictionDataExtractor : extractor :=
  [("Visited-PLMN-Id", etAvp); ("Access-Restriction-Data", etAvp)].

Definition GeranVectorExtractor : extractor :=
  [("Item-Number", etAvp); ("RAND", etAvp); ("SRES", etAvp); ("Kc", etAvp)].

Definition UserCsgInformationExtractor : extractor :=
  [("CSG-Id", etAvp); ("CSG-Access-Mode", etAvp); ("CSG-Membership-Indication", etAvp)].

Definition MmeLocationInformationExtractor : extractor :=
  [("E-UTRAN-Cell-Global-Identity", etAvp); ("Tracking-Area-Identity", etAvp);
   ("Geographical-Information", etAvp); ("Geodetic-Information", etAvp);
   ("Current-Location-Retrieved", etAvp); ("Age-Of-Location-Information", etAvp);
   ("User-CSG-Information", etExtractor); ("eNodeB-Id", etAvp); ("Extended-eNodeB-Id", etAvp)].

Definition SgsnLocationInformationExtractor : extractor :=
  [("Cell-Global-Identity", etAvp); ("Location-Area-Identity", etAvp);
   ("Service-Area-Identity", etAvp); ("Routing-Area-Identity", etAvp);
   ("Geographical-Information", etAvp); ("Geodetic-Information", etAvp);
   ("Current-Location-Retrieved", etAvp); ("Age-Of-Location-Information", etAvp);
   ("User-CSG-Information", etExtractor)].

Definition EpsLocationInformationExtractor : extractor :=
  [("MME-Location-Information", etExtractor); ("SGSN-Location-Information", etExtractor)].

Definition AdjacentPlmnsExtractor : extractor :=
  [("Visited-PLMN-Id", etAvpList)].

Definition AreaScopeExtractor : extractor :=
  [("Cell-Global-Identity", etAvpList); ("E-UTRAN-Cell-Global-Identity", etAvpList);
   ("Routing-Area-Identity", etAvpList); ("Location-Area-Identity", etAvpList);
   ("Tracking-Area-Identity", etAvpList)].

Definition CallBarringInfoExtractor : extractor :=
  [("SS-Code", etAvp); ("SS-Status", etAvp)].

Definition MoLrExtractor : extractor :=
  [("SS-Code", etAvp); ("SS-Status", etAvp)].

Definition Mip6AgentInfoExtractor : extractor :=
  [("MIP-Home-Agent-Address", etAvpList); ("MIP-Home-Agent-Host", etAvp);
   ("MIP6-Home-Link-Prefix", etAvp)].

Definition SpecificApnInfoExtractor : extractor :=
  [("Service-Selection", etAvp); ("MIP6-Agent-Info", etExtractor);
   ("Visited-Network-Identifier", etAvp)].

Definition ActiveApnExtractor : extractor :=
  [("Context-Identifier", etAvp); ("Service-Selection", etAvp);
   ("MIP6-Agent-Info", etExtractor); ("Visited-Network-Identifier", etAvp);
   ("Specific-APN-Info", etExtractorList)].

Definition WlanOffloadabilityExtractor : extractor :=
  [("WLAN-offloadability-EUTRAN", etAvp); ("WLAN-offloadability-UTRAN", etAvp)].

Definition ScheduledCommunicationTimeExtractor : extractor :=
  [("Day-Of-Week-Mask", etAvp); ("Time-Of-Day-Start", etAvp); ("Time-Of-Day-End", etAvp)].

Definition CommunicationPatternSetExtractor : extractor :=
  [("Periodic-Communication-Indicator", etAvp); ("Communication-Duration-Time", etAvp);
   ("Periodic-Time", etAvp); ("Scheduled-Communication-Time", etExtractorList);
   ("Stationary-Indication", etAvp); ("Reference-ID-Validity-Time", etAvp)].

Definition EquivalentPlmnListExtractor : extractor :=
  [("Visited-PLMN-Id", etAvpList)].

Definition SupportedServicesExtractor : extractor :=
  [("Supported-Monitoring-Events", etAvp)].

Definition ProxyInfoExtractor : extractor :=
  [("Proxy-Host", etAvp); ("Proxy-State", etAvp)].

Definition UtranVectorExtractor : extractor :=
  [("Item-Number", etAvp); ("RAND", etAvp); ("XRES", etAvp); ("AUTN", etAvp);
   ("Confidentiality-Key", etAvp); ("Integrity-Key", etAvp)].

Definition UeReachabilityConfigurationExtractor : extractor :=
  [("Reachability-Type", etAvp); ("Maximum-Response-Time", etAvp)].

Definition AllocationRetentionPriorityExtractor : extractor :=
  [("Priority-Level", etAvp); ("Pre-emption-Capability", etAvp);
   ("Pre-emption-Vulnerability", etAvp)].

Definition EpsSubscribedQosProfileExtractor : extractor :=
  [("QoS-Class-Identifier", etAvp); ("Allocation-Retention-Priority", etExtractor)].

Definition ApnConfigurationExtractor : extractor :=
  [("Context-Identifier", etAvp); ("Served-Party-IP-Address", etAvpList); ("PDN-Type", etAvp);
   ("Service-Selection", etAvp); ("EPS-Subscribed-QoS-Profile", etExtractor);
   ("VPLMN-Dynamic-Address-Allowed", etAvp); ("MIP6-Agent-Info", etExtractor);
   ("Visited-Network-Identifier", etAvp); ("PDN-GW-Allocation-Type", etAvp);
   ("3GPP-Charging-Characteristics", etAvp); ("AMBR", etExtractor);
   ("Specific-APN-Info", etExtractorList); ("APN-OI-Replacement", etAvp);
   ("SIPTO-Permission", etAvp); ("LIPA-Permission", etAvp); ("Restoration-Priority", etAvp);
   ("SIPTO-Local-Network-Permission", etAvp); ("WLAN-offloadability", etExtractor);
   ("Non-IP-PDN-Type-Indicator", etAvp); ("Non-IP-Data-Delivery-Mechanism", etAvp);
   ("SCEF-ID", etAvp); ("SCEF-Realm", etAvp); ("Preferred-Data-Mode", etAvp);
   ("PDN-Connection-Continuity", etAvp)].

Definition LocalTimeZoneExtractor : extractor :=
  [("Time-Zone", etAvp); ("Daylight-Saving-Time", etAvp)].

Definition AuthenticationInfoExtractor : extractor :=
  [("E-UTRAN-Vector", etExtractorList); ("UTRAN-Vector", etExtractorList);
   ("GERAN-Vector", etExtractorList)].

Definition ImsiGroupIdExtractor : extractor :=
  [("Group-Service-Id", etAvp); ("Group-PLMN-Id", etAvp); ("Local-Group-Id", etAvp)].

Definition LcsInfoExtractor : extractor :=
  [("GMLC-Number", etAvpList); ("LCS-PrivacyException", etExtractorList);
   ("MO-LR", etExtractorList)].

Definition TeleserviceListExtractor : extractor :=
  [("TS-Code", etAvpList)].

Definition ApnConfigurationProfileExtractor : extractor :=
  [("Context-Identifier", etAvp); ("Additional-Context-Identifier", etAvp);
   ("All-APN-Configurations-Included-Indicator", etAvp); ("APN-Configuration", etExtractorList)].

Definition MdtConfigurationExtractor : extractor :=
  [("Job-Type", etAvp); ("Area-Scope", etExtractor); ("List-Of-Measurements", etAvp);
   ("Reporting-Trigger", etAvp); ("Report-Interval", etAvp); ("Report-Amount", etAvp);
   ("Event-Threshold-RSRP", etAvp); ("Event-Threshold-RSRQ", etAvp);
   ("Logging-Interval", etAvp); ("Logging-Duration", etAvp); ("Measurement-Period-LTE", etAvp);
   ("Measurement-Period-UMTS", etAvp); ("Collection-Period-RRM-LTE", etAvp);
   ("Collection-Period-RRM-UMTS", etAvp); ("Positioning-Method", etAvp);
   ("Measurement-Quantity", etAvp); ("Event-Threshold-Event-1F", etAvp);
   ("Event-Threshold-Event-1I", etAvp); ("MDT-Allowed-PLMN-Id", etAvpList)].

Definition TraceDataExtractor : extractor :=
  [("Trace-Reference", etAvp); ("Trace-Depth", etAvp); ("Trace-NE-Type-List", etAvp);
   ("Trace-Interface-List", etAvp); ("Trace-Event-List", etAvp); ("OMC-Id", etAvp);
   ("Trace-Collection-Entity", etAvp); ("MDT-Configuration", etExtractor)].

Definition CsgSubscriptionDataExtractor : extractor :=
  [("CSG-Id", etAvp); ("Expiration-Date", etAvp); ("Service-Selection", etAvpList);
   ("Visited-PLMN-Id", etAvp)].

Definition ProseSubscriptionDataExtractor : extractor :=
  [("ProSe-Permission", etAvp)].

Definition AeseCommunicationPatternExtractor : extractor :=
  [("SCEF-Reference-ID", etAvp); ("SCEF-ID", etAvp);
   ("SCEF-Reference-ID-for-Deletion", etAvpList);
   ("Communication-Pattern-Set", etExtractorList)].

Definition LocationInformationConfigurationExtractor : extractor :=
  [("MONTE-Location-Type", etAvp); ("Accuracy", etAvp)].

Definition MonitoringEventConfigurationExtractor : extractor :=
  [("SCEF-Reference-ID", etAvp); ("SCEF-ID", etAvp); ("Monitoring-Type", etAvp);
   ("SCEF-Reference-ID-for-Deletion", etAvpList); ("Maximum-Number-of-Reports", etAvp);
   ("Monitoring-Duration", etAvp); ("Charged-Party", etAvp);
   ("UE-Reachability-Configuration", etExtractor);
   ("Location-Information-Configuration", etExtractor); ("SCEF-Realm", etAvp)].

Definition EmergencyInfoExtractor : extractor :=
  [("MIP6-Agent-Info", etExtractor)].

Definition OcOlrExtractor : extractor :=
  [("OC-Sequence-Number", etAvp); ("OC-Report-Type", etAvp); ("OC-Reduction-Percentage", etAvp);
   ("OC-Validity-Duration", etAvp)].

Definition SubscriptionDataDeletionExtractor : extractor :=
  [("DSR-Flags", etAvp); ("SCEF-ID", etAvp); ("Context-Identifier", etAvpList);
   ("Trace-Reference", etAvp); ("TS-Code", etAvpList); ("SS-Code", etAvpList)].

Definition LoadExtractor : extractor :=
  [("Load-Type", etAvp); ("Load-Value", etAvp); ("SourceID", etAvp)].

Definition OcSupportedFeaturesExtractor : extractor :=
  [("OC-Feature-Vector", etAvp)].

Definition MonitoringEventReportExtractor : extractor :=
  [("SCEF-Reference-ID", etAvp); ("SCEF-ID", etAvp); ("Reachability-Information", etAvp);
   ("EPS-Location-Information", etExtractor); ("Monitoring-Type", etAvp)].

Definition FailedAvpExtractor : extractor := [].

Definition CancelLocationRequestExtractor : extractor :=
  [("Session-Id", etAvp); ("DRMP", etAvp); ("Vendor-Specific-Application-Id", etExtractor);
   ("Auth-Session-State", etAvp); ("Origin-Host", etAvp); ("Origin-Realm", etAvp);
   ("Destination-Host", etAvp); ("Destination-Realm", etAvp); ("User-Name", etAvp);
   ("Supported-Features", etExtractorList); ("Cancellation-Type", etAvp); ("CLR-Flags", etAvp);
   ("Proxy-Info", etExtractorList); ("Route-Record", etAvpList)].

Definition CancelLocationAnswerExtractor : extractor :=
  [("Session-Id", etAvp); ("DRMP", etAvp); ("Vendor-Specific-Application-Id", etExtractor);
   ("Supported-Features", etExtractorList); ("Result-Code", etAvp);
   ("Experimental-Result", etExtractor); ("Auth-Session-State", etAvp); ("Origin-Host", etAvp);
   ("Origin-Realm", etAvp); ("Failed-AVP", etExtractor); ("Proxy-Info", etExtractorList);
   ("Route-Record", etAvpList)].

Definition AuthenticationInformationAnswerExtractor : extractor :=
  [("Session-Id", etAvp); ("DRMP", etAvp); ("Vendor-Specific-Application-Id", etExtractor);
   ("Result-Code", etAvp); ("Experimental-Result", etExtractor); ("Error-Diagnostic", etAvp);
   ("Auth-Session-State", etAvp); ("Origin-Host", etAvp); ("Origin-Realm", etAvp);
   ("OC-Supported-Features", etExtractor); ("OC-OLR", etExtractor); ("Load", etExtractorList);
   ("Supported-Features", etExtractorList); ("Authentication-Info", etExtractor);
   ("UE-Usage-Type", etAvp); ("Failed-AVP", etExtractor); ("Proxy-Info", etExtractorList);
   ("Route-Record", etAvpList)].

Definition InsertSubscriberDataRequestExtractor : extractor :=
  [("Session-Id", etAvp); ("DRMP", etAvp); ("Vendor-Specific-Application-Id", etExtractor);
   ("Auth-Session-State", etAvp); ("Origin-Host", etAvp); ("Origin-Realm", etAvp);
   ("Destination-Host", etAvp); ("Destination-Realm", etAvp); ("User-Name", etAvp);
   ("Supported-Features", etExtractorList); ("Subscription-Data", etExtractor);
   ("IDR-Flags", etAvp); ("Reset-ID", etAvpList); ("Proxy-Info", etExtractorList);
   ("Route-Record", etAvpList)].

Definition InsertSubscriberDataAnswerExtractor : extractor :=
  [("Session-Id", etAvp); ("DRMP", etAvp); ("Vendor-Specific-Application-Id", etExtractor);
   ("Supported-Features", etExtractorList); ("Result-Code", etAvp);
   ("Experimental-Result", etExtractor); ("Auth-Session-State", etAvp); ("Origin-Host", etAvp);
   ("Origin-Realm", etAvp); ("IMS-Voice-Over-PS-Sessions-Supported", etAvp);
   ("Last-UE-Activity-Time", etAvp); ("RAT-Type", etAvp); ("IDA-Flags", etAvp);
   ("EPS-User-State", etExtractor); ("EPS-Location-Information", etExtractor);
   ("Local-Time-Zone", etExtractor); ("Supported-Services", etExtractor);
   ("Monitoring-Event-Report", etExtractorList);
   ("Monitoring-Event-Config-Status", etExtractorList); ("Failed-AVP", etExtractor);
   ("Proxy-Info", etExtractorList); ("Route-Record", etAvpList)].

Definition DeleteSubscriberDataRequestExtractor : extractor :=
  [("Session-Id", etAvp); ("DRMP", etAvp); ("Vendor-Specific-Application-Id", etExtractor);
   ("Auth-Session-State", etAvp); ("Origin-Host", etAvp); ("Origin-Realm", etAvp);
   ("Destination-Host", etAvp); ("Destination-Realm", etAvp); ("User-Name", etAvp);
   ("Supported-Features", etExtractorList); ("DSR-Flags", etAvp); ("SCEF-ID", etAvp);
   ("Context-Identifier", etAvpList); ("Trace-Reference", etAvp); ("TS-Code", etAvpList);
   ("SS-Code", etAvpList); ("Proxy-Info", etExtractorList); ("Route-Record", etAvpList)].

Definition DeleteSubscriberDataAnswerExtractor : extractor :=
  [("Session-Id", etAvp); ("DRMP", etAvp); ("Vendor-Specific-Application-Id", etExtractor);
   ("Supported-Features", etExtractorList); ("Result-Code", etAvp);
   ("Experimental-Result", etExtractor); ("Auth-Session-State", etAvp); ("Origin-Host", etAvp);
   ("Origin-Realm", etAvp); ("DSA-Flags", etAvp); ("Failed-AVP", etExtractor);
   ("Proxy-Info", etExtractorList); ("Route-Record", etAvpList)].

Definition PurgeUeAnswerExtractor : extractor :=
  [("Session-Id", etAvp); ("DRMP", etAvp); ("Vendor-Specific-Application-Id", etExtractor);
   ("Supported-Features", etExtractorList); ("Result-Code", etAvp);
   ("Experimental-Result", etExtractor); ("Auth-Session-State", etAvp); ("Origin-Host", etAvp);
   ("Origin-Realm", etAvp); ("OC-Supported-Features", etExtractor); ("OC-OLR", etExtractor);
   ("Load", etExtractorList); ("PUA-Flags", etAvp); ("Failed-AVP", etExtractor);
   ("Proxy-Info", etExtractorList); ("Route-Record", etAvpList)].

Definition ResetRequestExtractor : extractor :=
  [("Session-Id", etAvp); ("DRMP", etAvp); ("Vendor-Specific-Application-Id", etExtractor);
   ("Auth-Session-State", etAvp); ("Origin-Host", etAvp); ("Origin-Realm", etAvp);
   ("Destination-Host", etAvp); ("Destination-Realm", etAvp);
   ("Supported-Features", etExtractorList); ("User-Id", etAvpList); ("Reset-ID", etAvpList);
   ("Subscription-Data", etExtractor); ("Subscription-Data-Deletion", etExtractor);
   ("Proxy-Info", etExtractorList); ("Route-Record", etAvpList)].

Definition ResetAnswerExtractor : extractor :=
  [("Session-Id", etAvp); ("DRMP", etAvp); ("Vendor-Specific-Application-Id", etExtractor);
   ("Supported-Features", etExtractorList); ("Result-Code", etAvp);
   ("Experimental-Result", etExtractor); ("Auth-Session-State", etAvp); ("Origin-Host", etAvp);
   ("Origin-Realm", etAvp); ("Failed-AVP", etExtractor); ("Proxy-Info", etExtractorList);
   ("Route-Record", etAvpList)].

Definition extractors : list extractor :=
  [MmeUserStateExtractor; SgsnUserStateExtractor; EpsUserStateExtractor; EUtranVectorExtractor;
   VendorSpecificApplicationIdExtractor; AmbrExtractor; PdpContextExtractor;
   GprsSubscriptionDataExtractor; ServiceResultExtractor; ServiceReportExtractor;
   MonitoringEventConfigStatusExtractor; ExperimentalResultExtractor; EdrxCycleLengthExtractor;
   ExternalClientExtractor; ServiceTypeExtractor; LcsPrivacyexceptionExtractor;
   V2xSubscriptionDataExtractor; AdjacentAccessRestrictionDataExtractor; GeranVectorExtractor;
   UserCsgInformationExtractor; MmeLocationInformationExtractor;
   SgsnLocationInformationExtractor; EpsLocationInformationExtractor; AdjacentPlmnsExtractor;
   AreaScopeExtractor; CallBarringInfoExtractor; MoLrExtractor; Mip6AgentInfoExtractor;
   SpecificApnInfoExtractor; ActiveApnExtractor; WlanOffloadabilityExtractor;
   ScheduledCommunicationTimeExtractor; CommunicationPatternSetExtractor;
   EquivalentPlmnListExtractor; SupportedServicesExtractor; ProxyInfoExtractor;
   UtranVectorExtractor; UeReachabilityConfigurationExtractor;
   AllocationRetentionPriorityExtractor; EpsSubscribedQosProfileExtractor;
   ApnConfigurationExtractor; LocalTimeZoneExtractor; AuthenticationInfoExtractor;
   ImsiGroupIdExtractor; LcsInfoExtractor; TeleserviceListExtractor;
   ApnConfigurationProfileExtractor; MdtConfigurationExtractor; TraceDataExtractor;
   CsgSubscriptionDataExtractor; ProseSubscriptionDataExtractor;
   AeseCommunicationPatternExtractor; LocationInformationConfigurationExtractor;
   MonitoringEventConfigurationExtractor; EmergencyInfoExtractor;
   Extractors.SubscriptionDataExtractor; OcOlrExtractor;
   Extractors.RequestedUtranGeranAuthenticationInfoExtractor; SubscriptionDataDeletionExtractor;
   LoadExtractor; OcSupportedFeaturesExtractor; Extractors.TerminalInformationExtractor;
   Extractors.RequestedEutranAuthenticationInfoExtractor; MonitoringEventReportExtractor;
   FailedAvpExtractor; Extractors.SupportedFeaturesExtractor; Extractors.UpdateLocationRequestExtractor;
   Extractors.UpdateLocationAnswerExtractor; CancelLocationRequestExtractor;
   CancelLocationAnswerExtractor; Extractors.AuthenticationInformationRequestExtractor;
   AuthenticationInformationAnswerExtractor; InsertSubscriberDataRequestExtractor;
   InsertSubscriberDataAnswerExtractor; DeleteSubscriberDataRequestExtractor;
   DeleteSubscriberDataAnswerExtractor; Extractors.PurgeUeRequestExtractor;
   PurgeUeAnswerExtractor; ResetRequestExtractor; ResetAnswerExtractor].

End S6as6d.

(** ** S6t: src/s6t.cpp *)

Module S6t.

(** The AVPs that [Dictionary] looks up in freeDiameter's dictionary. *)
Definition dictionary : list avp_name :=
  ["Group-Reporting-Guard-Timer"; "Monitoring-Event-Config-Status"; "OC-Report-Type";
   "Service-Area-Identity"; "Day-Of-Week-Mask"; "Maximum-UE-Availability-Time";
   "Maximum-Response-Time"; "Proxy-Info"; "CSG-Access-Mode"; "Tracking-Area-Identity";
   "Load-Value"; "Feature-List"; "External-Identifier"; "Feature-List-ID";
   "Experimental-Result"; "Periodic-Communication-Indicator"; "Communication-Duration-Time";
   "MME-Location-Information"; "Auth-Session-State"; "DRMP"; "AESE-Error-Report"; "CIA-Flags";
   "Load-Type"; "Reachability-Information"; "Destination-Host"; "Restricted-PLMN-List";
   "MSISDN"; "Communication-Pattern-Set"; "Scheduled-Communication-Time"; "Charged-Party";
   "Supported-Services"; "Reachability-Type"; "Group-Monitoring-Event-Report";
   "Enhanced-Coverage-Restriction"; "NIDD-Authorization-Update"; "Origin-Realm"; "Origin-Host";
   "Cell-Global-Identity"; "UE-Reachability-Configuration";
   "Location-Information-Configuration"; "MONTE-Location-Type"; "Association-Type";
   "EPS-Location-Information"; "Route-Record"; "Reference-ID-Validity-Time";
   "Service-Selection"; "SCEF-ID"; "CSG-Id"; "Current-Location-Retrieved"; "Monitoring-Type";
   "Time-Of-Day-End"; "OC-OLR"; "Maximum-Detection-Time"; "Age-Of-Location-Information";
   "Geodetic-Information"; "Service-Result"; "OC-Reduction-Percentage"; "Service-Result-Code";
   "Supported-Features"; "NIDD-Authorization-Response"; "Supported-Monitoring-Events";
   "User-Identifier"; "Accuracy"; "OC-Validity-Duration"; "CSG-Membership-Indication";
   "DL-Buffering-Suggested-Packet-Count"; "Maximum-Latency"; "SourceID";
   "AESE-Communication-Pattern-Config-Status"; "Allowed-PLMN-List"; "SGSN-Location-Information";
   "Event-Handling"; "Result-Code"; "Type-Of-External-Identifier"; "S6t-HSS-Cause";
   "Time-Of-Day-Start"; "Enhanced-Coverage-Restriction-Data"; "SCEF-Reference-ID";
   "Monitoring-Event-Configuration"; "Load"; "E-UTRAN-Cell-Global-Identity";
   "OC-Supported-Features"; "Proxy-Host"; "Experimental-Result-Code";
   "Maximum-Number-of-Reports"; "CIR-Flags"; "Monitoring-Event-Report"; "Extended-eNodeB-Id";
   "AESE-Communication-Pattern"; "OC-Feature-Vector"; "Monitoring-Duration";
   "Loss-Of-Connectivity-Reason"; "Node-Type"; "Visited-PLMN-Id"; "Stationary-Indication";
   "Granted-Validity-Time"; "Failed-AVP"; "Routing-Area-Identity"; "Requested-Validity-Time";
   "Geographical-Information"; "Service-Report"; "Proxy-State"; "eNodeB-Id"; "Periodic-Time";
   "NIDD-Authorization-Request"; "Vendor-Id"; "OC-Sequence-Number";
   "Group-Monitoring-Event-Report-Item"; "Destination-Realm"; "Session-Id"; "User-Name";
   "Roaming-Information"; "IMEI-Change"; "SCEF-Reference-ID-for-Deletion"; "RIR-Flags";
   "User-CSG-Information"].

Definition ServiceResultExtractor : extractor :=
  [("Vendor-Id", etAvp); ("Service-Result-Code", etAvp)].

Definition ServiceReportExtractor : extractor :=
  [("Service-Result", etExtractor); ("Node-Type", etAvp)].

Definition MonitoringEventConfigStatusExtractor : extractor :=
  [("Service-Report", etExtractorList); ("SCEF-Reference-ID", etAvp); ("SCEF-ID", etAvp)].

Definition ProxyInfoExtractor : extractor :=
  [("Proxy-Host", etAvp); ("Proxy-State", etAvp)].

Definition ExperimentalResultExtractor : extractor :=
  [("Vendor-Id", etAvp); ("Experimental-Result-Code", etAvp)].

Definition UserCsgInformationExtractor : extractor :=
  [("CSG-Id", etAvp); ("CSG-Access-Mode", etAvp); ("CSG-Membership-Indication", etAvp)].

Definition MmeLocationInformationExtractor : extractor :=
  [("E-UTRAN-Cell-Global-Identity", etAvp); ("Tracking-Area-Identity", etAvp);
   ("Geographical-Information", etAvp); ("Geodetic-Information", etAvp);
   ("Current-Location-Retrieved", etAvp); ("Age-Of-Location-Information", etAvp);
   ("User-CSG-Information", etExtractor); ("eNodeB-Id", etAvp); ("Extended-eNodeB-Id", etAvp);
   ("Destination-Host", etAvp)].

Definition AeseErrorReportExtractor : extractor :=
  [("Service-Result", etExtractor)].

Definition RestrictedPlmnListExtractor : extractor :=
  [("Visited-PLMN-Id", etAvpList)].

Definition ScheduledCommunicationTimeExtractor : extractor :=
  [("Day-Of-Week-Mask", etAvp); ("Time-Of-Day-Start", etAvp); ("Time-Of-Day-End", etAvp)].

Definition CommunicationPatternSetExtractor : extractor :=
  [("Periodic-Communication-Indicator", etAvp); ("Communication-Duration-Time", etAvp);
   ("Periodic-Time", etAvp); ("Scheduled-Communication-Time", etExtractorList);
   ("Stationary-Indication", etAvp); ("Reference-ID-Validity-Time", etAvp)].

Definition SupportedServicesExtractor : extractor :=
  [("Supported-Monitoring-Events", etAvp); ("Node-Type", etAvp)].

Definition UserIdentifierExtractor : extractor :=
  [("User-Name", etAvp); ("MSISDN", etAvp); ("External-Identifier", etAvp);
   ("Type-Of-External-Identifier", etAvp)].

Definition SgsnLocationInformationExtractor : extractor :=
  [("Cell-Global-Identity", etAvp); ("Service-Area-Identity", etAvp);
   ("Routing-Area-Identity", etAvp); ("Geographical-Information", etAvp);
   ("Geodetic-Information", etAvp); ("Current-Location-Retrieved", etAvp);
   ("Age-Of-Location-Information", etAvp); ("User-CSG-Information", etExtractor)].

Definition EpsLocationInformationExtractor : extractor :=
  [("MME-Location-Information", etExtractor); ("SGSN-Location-Information", etExtractor)].

Definition GroupMonitoringEventReportItemExtractor : extractor :=
  [("User-Identifier", etExtractor); ("Visited-PLMN-Id", etAvp); ("Roaming-Information", etAvp);
   ("Reachability-Information", etAvp); ("Maximum-UE-Availability-Time", etAvp);
   ("EPS-Location-Information", etExtractor); ("Monitoring-Type", etAvp);
   ("Service-Report", etExtractorList); ("S6t-HSS-Cause", etAvp)].

Definition GroupMonitoringEventReportExtractor : extractor :=
  [("SCEF-Reference-ID", etAvp); ("SCEF-ID", etAvp);
   ("Group-Monitoring-Event-Report-Item", etExtractorList)].

Definition AllowedPlmnListExtractor : extractor :=
  [("Visited-PLMN-Id", etAvpList)].

Definition EnhancedCoverageRestrictionExtractor : extractor :=
  [("Restricted-PLMN-List", etExtractor); ("Allowed-PLMN-List", etExtractor)].

Definition NiddAuthorizationUpdateExtractor : extractor :=
  [("MSISDN", etAvp); ("User-Name", etAvp); ("External-Identifier", etAvp);
   ("Granted-Validity-Time", etAvp)].

Definition UeReachabilityConfigurationExtractor : extractor :=
  [("Reachability-Type", etAvp); ("Maximum-Latency", etAvp); ("Maximum-Response-Time", etAvp)].

Definition LocationInformationConfigurationExtractor : extractor :=
  [("MONTE-Location-Type", etAvp); ("Accuracy", etAvp)].

Definition OcOlrExtractor : extractor :=
  [("OC-Sequence-Number", etAvp); ("OC-Report-Type", etAvp); ("OC-Reduction-Percentage", etAvp);
   ("OC-Validity-Duration", etAvp)].

Definition SupportedFeaturesExtractor : extractor :=
  [("Vendor-Id", etAvp); ("Feature-List-ID", etAvp); ("Feature-List", etAvp)].

Definition NiddAuthorizationResponseExtractor : extractor :=
  [("MSISDN", etAvp); ("User-Name", etAvp); ("External-Identifier", etAvp);
   ("Granted-Validity-Time", etAvp)].

Definition AeseCommunicationPatternConfigStatusExtractor : extractor :=
  [("SCEF-Reference-ID", etAvp); ("SCEF-ID", etAvp); ("AESE-Error-Report", etExtractor)].

Definition EnhancedCoverageRestrictionDataExtractor : extractor :=
  [("Enhanced-Coverage-Restriction", etExtractor); ("Visited-PLMN-Id", etAvp)].

Definition MonitoringEventConfigurationExtractor : extractor :=
  [("SCEF-Reference-ID", etAvp); ("SCEF-ID", etAvp); ("Monitoring-Type", etAvp);
   ("SCEF-Reference-ID-for-Deletion", etAvpList); ("Maximum-Number-of-Reports", etAvp);
   ("Monitoring-Duration", etAvp); ("Charged-Party", etAvp); ("Maximum-Detection-Time", etAvp);
   ("UE-Reachability-Configuration", etExtractor);
   ("Location-Information-Configuration", etExtractor); ("Association-Type", etAvp);
   ("DL-Buffering-Suggested-Packet-Count", etAvp)].

Definition LoadExtractor : extractor :=
  [("Load-Type", etAvp); ("Load-Value", etAvp); ("SourceID", etAvp)].

Definition OcSupportedFeaturesExtractor : extractor :=
  [("OC-Feature-Vector", etAvp)].

Definition MonitoringEventReportExtractor : extractor :=
  [("SCEF-Reference-ID", etAvp); ("SCEF-ID", etAvp); ("Visited-PLMN-Id", etAvp);
   ("Roaming-Information", etAvp); ("IMEI-Change", etAvp); ("Reachability-Information", etAvp);
   ("Maximum-UE-Availability-Time", etAvp); ("EPS-Location-Information", etExtractor);
   ("Monitoring-Type", etAvp); ("Event-Handling", etAvp); ("Service-Report", etExtractorList);
   ("Loss-Of-Connectivity-Reason", etAvp)].

Definition AeseCommunicationPatternExtractor : extractor :=
  [("SCEF-Reference-ID", etAvp); ("SCEF-ID", etAvp);
   ("SCEF-Reference-ID-for-Deletion", etAvpList);
   ("Communication-Pattern-Set", etExtractorList)].

Definition FailedAvpExtractor : extractor := [].

Definition NiddAuthorizationRequestExtractor : extractor :=
  [("Service-Selection", etAvp); ("Requested-Validity-Time", etAvp)].

Definition ConfigurationInformationRequestExtractor : extractor :=
  [("Session-Id", etAvp); ("DRMP", etAvp); ("Auth-Session-State", etAvp);
   ("Origin-Host", etAvp); ("Origin-Realm", etAvp); ("Destination-Host", etAvp);
   ("Destination-Realm", etAvp); ("User-Identifier", etExtractor);
   ("OC-Supported-Features", etExtractor); ("Supported-Features", etExtractorList);
   ("Monitoring-Event-Configuration", etExtractorList); ("CIR-Flags", etAvp);
   ("AESE-Communication-Pattern", etExtractorList);
   ("Enhanced-Coverage-Restriction", etExtractor); ("Group-Reporting-Guard-Timer", etAvp);
   ("Proxy-Info", etExtractorList); ("Route-Record", etAvpList)].

Definition ConfigurationInformationAnswerExtractor : extractor :=
  [("Session-Id", etAvp); ("DRMP", etAvp); ("Result-Code", etAvp);
   ("Experimental-Result", etExtractor); ("Auth-Session-State", etAvp); ("Origin-Host", etAvp);
   ("Origin-Realm", etAvp); ("OC-Supported-Features", etExtractor); ("OC-OLR", etExtractor);
   ("Load", etExtractorList); ("Supported-Features", etExtractorList);
   ("User-Identifier", etExtractor); ("Monitoring-Event-Report", etExtractorList);
   ("Monitoring-Event-Config-Status", etExtractorList);
   ("AESE-Communication-Pattern-Config-Status", etExtractorList);
   ("Supported-Services", etExtractorList); ("S6t-HSS-Cause", etAvp);
   ("Enhanced-Coverage-Restriction-Data", etExtractor); ("CIA-Flags", etAvp);
   ("Failed-AVP", etExtractor); ("Proxy-Info", etExtractorList); ("Route-Record", etAvpList)].

Definition ReportingInformationRequestExtractor : extractor :=
  [("Session-Id", etAvp); ("DRMP", etAvp); ("Auth-Session-State", etAvp);
   ("Origin-Host", etAvp); ("Origin-Realm", etAvp); ("Destination-Host", etAvp);
   ("Destination-Realm", etAvp); ("Supported-Features", etExtractorList);
   ("User-Identifier", etExtractor); ("Monitoring-Event-Report", etExtractorList);
   ("Group-Monitoring-Event-Report", etExtractorList); ("RIR-Flags", etAvp);
   ("Supported-Services", etExtractorList); ("Proxy-Info", etExtractorList);
   ("Route-Record", etAvpList)].

Definition ReportingInformationAnswerExtractor : extractor :=
  [("Session-Id", etAvp); ("DRMP", etAvp); ("Result-Code", etAvp);
   ("Experimental-Result", etExtractor); ("Auth-Session-State", etAvp); ("Origin-Host", etAvp);
   ("Origin-Realm", etAvp); ("Supported-Features", etExtractorList);
   ("Failed-AVP", etExtractor); ("Proxy-Info", etExtractorList); ("Route-Record", etAvpList)].

Definition NiddInformationRequestExtractor : extractor :=
  [("Session-Id", etAvp); ("DRMP", etAvp); ("Auth-Session-State", etAvp);
   ("Origin-Host", etAvp); ("Origin-Realm", etAvp); ("Destination-Host", etAvp);
   ("Destination-Realm", etAvp); ("User-Identifier", etExtractor);
   ("OC-Supported-Features", etExtractor); ("Supported-Features", etExtractorList);
   ("NIDD-Authorization-Request", etExtractor); ("NIDD-Authorization-Update", etExtractor);
   ("Proxy-Info", etExtractorList); ("Route-Record", etAvpList)].

Definition NiddInformationAnswerExtractor : extractor :=
  [("Session-Id", etAvp); ("DRMP", etAvp); ("Result-Code", etAvp);
   ("Experimental-Result", etExtractor); ("Auth-Session-State", etAvp); ("Origin-Host", etAvp);
   ("Origin-Realm", etAvp); ("OC-Supported-Features", etExtractor); ("OC-OLR", etExtractor);
   ("Load", etExtractorList); ("Supported-Features", etExtractorList);
   ("User-Identifier", etExtractor); ("NIDD-Authorization-Response", etExtractor);
   ("Failed-AVP", etExtractor); ("Proxy-Info", etExtractorList); ("Route-Record", etAvpList)].

Definition extractors : list extractor :=
  [ServiceResultExtractor; ServiceReportExtractor; MonitoringEventConfigStatusExtractor;
   ProxyInfoExtractor; ExperimentalResultExtractor; UserCsgInformationExtractor;
   MmeLocationInformationExtractor; AeseErrorReportExtractor; RestrictedPlmnListExtractor;
   ScheduledCommunicationTimeExtractor; CommunicationPatternSetExtractor;
   SupportedServicesExtractor; UserIdentifierExtractor; SgsnLocationInformationExtractor;
   EpsLocationInformationExtractor; GroupMonitoringEventReportItemExtractor;
   GroupMonitoringEventReportExtractor; AllowedPlmnListExtractor;
   EnhancedCoverageRestrictionExtractor; NiddAuthorizationUpdateExtractor;
   UeReachabilityConfigurationExtractor; LocationInformationConfigurationExtractor;
   OcOlrExtractor; SupportedFeaturesExtractor; NiddAuthorizationResponseExtractor;
   AeseCommunicationPatternConfigStatusExtractor; EnhancedCoverageRestrictionDataExtractor;
   MonitoringEventConfigurationExtractor; LoadExtractor; OcSupportedFeaturesExtractor;
   MonitoringEventReportExtractor; AeseCommunicationPatternExtractor;
   FailedAvpExtractor; NiddAuthorizationRequestExtractor; ConfigurationInformationRequestExtractor;
   ConfigurationInformationAnswerExtractor; ReportingInformationRequestExtractor;
   ReportingInformationAnswerExtractor; NiddInformationRequestExtractor;
   NiddInformationAnswerExtractor].

End S6t.

(** ** S6c: src/s6c.cpp *)

Module S6c.

(** The AVPs that [Dictionary] looks up in freeDiameter's dictionary. *)
Definition dictionary : list avp_name :=
  ["Auth-Application-Id"; "SGSN-SM-Delivery-Outcome"; "Proxy-Info"; "SM-RP-SMEA";
   "Feature-List-ID"; "MSC-Absent-User-Diagnostic-SM"; "MME-Name";
   "Maximum-UE-Availability-Time"; "SGSN-Absent-User-Diagnostic-SM";
   "Vendor-Specific-Application-Id"; "User-Identifier"; "MME-Realm"; "SGSN-Number";
   "Serving-Node"; "IP-SM-GW-Realm"; "MME-Absent-User-Diagnostic-SM";
   "Absent-User-Diagnostic-SM"; "SM-Delivery-Outcome"; "IP-SM-GW-Name"; "Feature-List";
   "External-Identifier"; "Failed-AVP"; "SGSN-Name"; "SM-Delivery-Not-Intended"; "MSISDN";
   "Experimental-Result"; "Origin-Realm"; "Origin-Host"; "SC-Address"; "Result-Code";
   "SMS-GMSC-Alert-Event"; "SGSN-Realm"; "Proxy-State"; "Additional-Serving-Node";
   "MME-Number-for-MT-SMS"; "SRR-Flags"; "SMSMI-Correlation-ID"; "IP-SM-GW-SM-Delivery-Outcome";
   "Auth-Session-State"; "DRMP"; "SM-RP-MTI"; "Supported-Features"; "Originating-SIP-URI";
   "Route-Record"; "Destination-SIP-URI"; "Destination-Realm"; "Session-Id";
   "Acct-Application-Id"; "User-Name"; "MSC-SM-Delivery-Outcome"; "MSC-Number"; "HSS-ID";
   "RDR-Flags"; "MWD-Status"; "Proxy-Host"; "IP-SM-GW-Number"; "LMSI";
   "MME-SM-Delivery-Outcome"; "Experimental-Result-Code"; "Destination-Host";
   "SM-Delivery-Cause"; "Vendor-Id"].

Definition SgsnSmDeliveryOutcomeExtractor : extractor :=
  [("SM-Delivery-Cause", etAvp); ("Absent-User-Diagnostic-SM", etAvp)].

Definition ProxyInfoExtractor : extractor :=
  [("Proxy-Host", etAvp); ("Proxy-State", etAvp)].

Definition VendorSpecificApplicationIdExtractor : extractor :=
  [("Vendor-Id", etAvp); ("Auth-Application-Id", etAvp); ("Acct-Application-Id", etAvp)].

Definition UserIdentifierExtractor : extractor :=
  [("User-Name", etAvp); ("MSISDN", etAvp); ("External-Identifier", etAvp)].

Definition ServingNodeExtractor : extractor :=
  [("SGSN-Name", etAvp); ("SGSN-Realm", etAvp); ("SGSN-Number", etAvp); ("MME-Name", etAvp);
   ("MME-Realm", etAvp); ("MME-Number-for-MT-SMS", etAvp); ("MSC-Number", etAvp);
   ("IP-SM-GW-Number", etAvp); ("IP-SM-GW-Name", etAvp); ("IP-SM-GW-Realm", etAvp)].

Definition MmeSmDeliveryOutcomeExtractor : extractor :=
  [("SM-Delivery-Cause", etAvp); ("Absent-User-Diagnostic-SM", etAvp)].

Definition MscSmDeliveryOutcomeExtractor : extractor :=
  [("SM-Delivery-Cause", etAvp); ("Absent-User-Diagnostic-SM", etAvp)].

Definition IpSmGwSmDeliveryOutcomeExtractor : extractor :=
  [("SM-Delivery-Cause", etAvp); ("Absent-User-Diagnostic-SM", etAvp)].

Definition SmDeliveryOutcomeExtractor : extractor :=
  [("MME-SM-Delivery-Outcome", etExtractor); ("MSC-SM-Delivery-Outcome", etExtractor);
   ("SGSN-SM-Delivery-Outcome", etExtractor); ("IP-SM-GW-SM-Delivery-Outcome", etExtractor)].

Definition FailedAvpExtractor : extractor := [].

Definition ExperimentalResultExtractor : extractor :=
  [("Vendor-Id", etAvp); ("Experimental-Result-Code", etAvp)].

Definition AdditionalServingNodeExtractor : extractor :=
  [("SGSN-Name", etAvp); ("SGSN-Realm", etAvp); ("SGSN-Number", etAvp); ("MME-Name", etAvp);
   ("MME-Realm", etAvp); ("MME-Number-for-MT-SMS", etAvp); ("MSC-Number", etAvp)].

Definition SmsmiCorrelationIdExtractor : extractor :=
  [("HSS-ID", etAvp); ("Originating-SIP-URI", etAvp); ("Destination-SIP-URI", etAvp)].

Definition SupportedFeaturesExtractor : extractor :=
  [("Vendor-Id", etAvp); ("Feature-List-ID", etAvp); ("Feature-List", etAvp)].

Definition SendRoutingInfoForSmRequestExtractor : extractor :=
  [("Session-Id", etAvp); ("DRMP", etAvp); ("Vendor-Specific-Application-Id", etExtractor);
   ("Auth-Session-State", etAvp); ("Origin-Host", etAvp); ("Origin-Realm", etAvp);
   ("Destination-Host", etAvp); ("Destination-Realm", etAvp); ("MSISDN", etAvp);
   ("User-Name", etAvp); ("SMSMI-Correlation-ID", etExtractor);
   ("Supported-Features", etExtractorList); ("SC-Address", etAvp); ("SM-RP-MTI", etAvp);
   ("SM-RP-SMEA", etAvp); ("SRR-Flags", etAvp); ("SM-Delivery-Not-Intended", etAvp);
   ("Proxy-Info", etExtractorList); ("Route-Record", etAvpList)].

Definition SendRoutingInfoForSmAnswerExtractor : extractor :=
  [("Session-Id", etAvp); ("DRMP", etAvp); ("Vendor-Specific-Application-Id", etExtractor);
   ("Result-Code", etAvp); ("Experimental-Result", etExtractor); ("Auth-Session-State", etAvp);
   ("Origin-Host", etAvp); ("Origin-Realm", etAvp); ("User-Name", etAvp);
   ("Supported-Features", etExtractorList); ("Serving-Node", etExtractor);
   ("Additional-Serving-Node", etExtractor); ("LMSI", etAvp); ("User-Identifier", etExtractor);
   ("MWD-Status", etAvp); ("MME-Absent-User-Diagnostic-SM", etAvp);
   ("MSC-Absent-User-Diagnostic-SM", etAvp); ("SGSN-Absent-User-Diagnostic-SM", etAvp);
   ("Failed-AVP", etExtractor); ("Proxy-Info", etExtractorList); ("Route-Record", etAvpList)].

Definition AlertServiceCentreRequestExtractor : extractor :=
  [("Session-Id", etAvp); ("DRMP", etAvp); ("Vendor-Specific-Application-Id", etExtractor);
   ("Auth-Session-State", etAvp); ("Origin-Host", etAvp); ("Origin-Realm", etAvp);
   ("Destination-Host", etAvp); ("Destination-Realm", etAvp); ("SC-Address", etAvp);
   ("User-Identifier", etExtractor); ("SMSMI-Correlation-ID", etExtractor);
   ("Maximum-UE-Availability-Time", etAvp); ("SMS-GMSC-Alert-Event", etAvp);
   ("Serving-Node", etExtractor); ("Supported-Features", etExtractorList);
   ("Proxy-Info", etExtractorList); ("Route-Record", etAvpList)].

Definition AlertServiceCentreAnswerExtractor : extractor :=
  [("Session-Id", etAvp); ("DRMP", etAvp); ("Vendor-Specific-Application-Id", etExtractor);
   ("Result-Code", etAvp); ("Experimental-Result", etExtractor); ("Auth-Session-State", etAvp);
   ("Origin-Host", etAvp); ("Origin-Realm", etAvp); ("Supported-Features", etExtractorList);
   ("Failed-AVP", etExtractor); ("Proxy-Info", etExtractorList); ("Route-Record", etAvpList)].

Definition ReportSmDeliveryStatusRequestExtractor : extractor :=
  [("Session-Id", etAvp); ("DRMP", etAvp); ("Vendor-Specific-Application-Id", etExtractor);
   ("Auth-Session-State", etAvp); ("Origin-Host", etAvp); ("Origin-Realm", etAvp);
   ("Destination-Host", etAvp); ("Destination-Realm", etAvp);
   ("Supported-Features", etExtractorList); ("User-Identifier", etExtractor);
   ("SMSMI-Correlation-ID", etExtractor); ("SC-Address", etAvp);
   ("SM-Delivery-Outcome", etExtractor); ("RDR-Flags", etAvp); ("Proxy-Info", etExtractorList);
   ("Route-Record", etAvpList)].

Definition ReportSmDeliveryStatusAnswerExtractor : extractor :=
  [("Session-Id", etAvp); ("DRMP", etAvp); ("Vendor-Specific-Application-Id", etExtractor);
   ("Result-Code", etAvp); ("Experimental-Result", etExtractor); ("Auth-Session-State", etAvp);
   ("Origin-Host", etAvp); ("Origin-Realm", etAvp); ("Supported-Features", etExtractorList);
   ("User-Identifier", etExtractor); ("Failed-AVP", etExtractor);
   ("Proxy-Info", etExtractorList); ("Route-Record", etAvpList)].

Definition extractors : list extractor :=
  [SgsnSmDeliveryOutcomeExtractor; ProxyInfoExtractor; VendorSpecificApplicationIdExtractor;
   UserIdentifierExtractor; ServingNodeExtractor; MmeSmDeliveryOutcomeExtractor;
   MscSmDeliveryOutcomeExtractor; IpSmGwSmDeliveryOutcomeExtractor; SmDeliveryOutcomeExtractor;
   FailedAvpExtractor; ExperimentalResultExtractor; AdditionalServingNodeExtractor; SmsmiCorrelationIdExtractor;
   SupportedFeaturesExtractor; SendRoutingInfoForSmRequestExtractor;
   SendRoutingInfoForSmAnswerExtractor; AlertServiceCentreRequestExtractor;
   AlertServiceCentreAnswerExtractor; ReportSmDeliveryStatusRequestExtractor;
   ReportSmDeliveryStatusAnswerExtractor].

End S6c.

(** ** SGd: smsrouter/src/sgd.cpp *)

Module Sgd.

(** The AVPs that [Dictionary] looks up in freeDiameter's dictionary. *)
Definition dictionary : list avp_name :=
  ["Auth-Application-Id"; "SGSN-SM-Delivery-Outcome"; "Proxy-Info"; "MME-Realm";
   "Feature-List-ID"; "MME-Name"; "TFR-Flags"; "Vendor-Specific-Application-Id";
   "SMS-GMSC-Address"; "Maximum-UE-Availability-Time"; "Maximum-Retransmission-Time";
   "SM-Delivery-Start-Time"; "User-Identifier"; "SGSN-Number"; "IP-SM-GW-Realm";
   "SM-Delivery-Outcome"; "IP-SM-GW-Name"; "Feature-List"; "External-Identifier"; "Failed-AVP";
   "SGSN-Name"; "Absent-User-Diagnostic-SM"; "MSISDN"; "Experimental-Result"; "Origin-Realm";
   "Origin-Host"; "SC-Address"; "Result-Code"; "SMS-GMSC-Alert-Event"; "SM-RP-UI"; "SGSN-Realm";
   "Proxy-State"; "MME-Number-for-MT-SMS"; "OFR-Flags"; "SMSMI-Correlation-ID"; "Serving-Node";
   "IP-SM-GW-SM-Delivery-Outcome"; "Auth-Session-State"; "DRMP"; "Vendor-Id";
   "Supported-Features"; "Originating-SIP-URI"; "Route-Record"; "Destination-SIP-URI";
   "Destination-Realm"; "Session-Id"; "Acct-Application-Id"; "User-Name";
   "MSC-SM-Delivery-Outcome"; "MSC-Number"; "HSS-ID"; "SM-Delivery-Timer"; "Proxy-Host";
   "IP-SM-GW-Number"; "MME-SM-Delivery-Outcome"; "Experimental-Result-Code"; "Destination-Host";
   "SM-Delivery-Cause"].

Definition SgsnSmDeliveryOutcomeExtractor : extractor :=
  [("SM-Delivery-Cause", etAvp); ("Absent-User-Diagnostic-SM", etAvp)].

Definition ProxyInfoExtractor : extractor :=
  [("Proxy-Host", etAvp); ("Proxy-State", etAvp)].

Definition VendorSpecificApplicationIdExtractor : extractor :=
  [("Vendor-Id", etAvp); ("Auth-Application-Id", etAvp); ("Acct-Application-Id", etAvp)].

Definition UserIdentifierExtractor : extractor :=
  [("User-Name", etAvp); ("MSISDN", etAvp); ("External-Identifier", etAvp)].

Definition MmeSmDeliveryOutcomeExtractor : extractor :=
  [("SM-Delivery-Cause", etAvp); ("Absent-User-Diagnostic-SM", etAvp)].

Definition MscSmDeliveryOutcomeExtractor : extractor :=
  [("SM-Delivery-Cause", etAvp); ("Absent-User-Diagnostic-SM", etAvp)].

Definition IpSmGwSmDeliveryOutcomeExtractor : extractor :=
  [("SM-Delivery-Cause", etAvp); ("Absent-User-Diagnostic-SM", etAvp)].

Definition SmDeliveryOutcomeExtractor : extractor :=
  [("MME-SM-Delivery-Outcome", etExtractor); ("MSC-SM-Delivery-Outcome", etExtractor);
   ("SGSN-SM-Delivery-Outcome", etExtractor); ("IP-SM-GW-SM-Delivery-Outcome", etExtractor)].

Definition FailedAvpExtractor : extractor := [].

Definition ExperimentalResultExtractor : extractor :=
  [("Vendor-Id", etAvp); ("Experimental-Result-Code", etAvp)].

Definition SmsmiCorrelationIdExtractor : extractor :=
  [("HSS-ID", etAvp); ("Originating-SIP-URI", etAvp); ("Destination-SIP-URI", etAvp)].

Definition ServingNodeExtractor : extractor :=
  [("SGSN-Name", etAvp); ("SGSN-Realm", etAvp); ("SGSN-Number", etAvp); ("MME-Name", etAvp);
   ("MME-Realm", etAvp); ("MME-Number-for-MT-SMS", etAvp); ("MSC-Number", etAvp);
   ("IP-SM-GW-Number", etAvp); ("IP-SM-GW-Name", etAvp); ("IP-SM-GW-Realm", etAvp)].

Definition SupportedFeaturesExtractor : extractor :=
  [("Vendor-Id", etAvp); ("Feature-List-ID", etAvp); ("Feature-List", etAvp)].

Definition MoForwardShortMessageRequestExtractor : extractor :=
  [("Session-Id", etAvp); ("DRMP", etAvp); ("Vendor-Specific-Application-Id", etExtractor);
   ("Auth-Session-State", etAvp); ("Origin-Host", etAvp); ("Origin-Realm", etAvp);
   ("Destination-Host", etAvp); ("Destination-Realm", etAvp); ("SC-Address", etAvp);
   ("OFR-Flags", etAvp); ("Supported-Features", etExtractorList);
   ("User-Identifier", etExtractor); ("SM-RP-UI", etAvp); ("SMSMI-Correlation-ID", etExtractor);
   ("SM-Delivery-Outcome", etExtractor); ("Proxy-Info", etExtractorList);
   ("Route-Record", etAvpList)].

Definition MoForwardShortMessageAnswerExtractor : extractor :=
  [("Session-Id", etAvp); ("DRMP", etAvp); ("Vendor-Specific-Application-Id", etExtractor);
   ("Result-Code", etAvp); ("Experimental-Result", etExtractor); ("Auth-Session-State", etAvp);
   ("Origin-Host", etAvp); ("Origin-Realm", etAvp); ("Supported-Features", etExtractorList)].

Definition MtForwardShortMessageRequestExtractor : extractor :=
  [("Session-Id", etAvp); ("DRMP", etAvp); ("Vendor-Specific-Application-Id", etExtractor);
   ("Auth-Session-State", etAvp); ("Origin-Host", etAvp); ("Origin-Realm", etAvp);
   ("Destination-Host", etAvp); ("Destination-Realm", etAvp); ("User-Name", etAvp);
   ("Supported-Features", etExtractorList); ("SMSMI-Correlation-ID", etExtractor);
   ("SC-Address", etAvp); ("SM-RP-UI", etAvp); ("MME-Number-for-MT-SMS", etAvp);
   ("SGSN-Number", etAvp); ("TFR-Flags", etAvp); ("SM-Delivery-Timer", etAvp);
   ("SM-Delivery-Start-Time", etAvp); ("Maximum-Retransmission-Time", etAvp);
   ("SMS-GMSC-Address", etAvp); ("Proxy-Info", etExtractorList); ("Route-Record", etAvpList)].

Definition MtForwardShortMessageAnswerExtractor : extractor :=
  [("Session-Id", etAvp); ("DRMP", etAvp); ("Vendor-Specific-Application-Id", etExtractor);
   ("Result-Code", etAvp); ("Experimental-Result", etExtractor); ("Auth-Session-State", etAvp);
   ("Origin-Host", etAvp); ("Origin-Realm", etAvp); ("Supported-Features", etExtractorList);
   ("Absent-User-Diagnostic-SM", etAvp)].

Definition AlertServiceCentreRequestExtractor : extractor :=
  [("Session-Id", etAvp); ("DRMP", etAvp); ("Vendor-Specific-Application-Id", etExtractor);
   ("Auth-Session-State", etAvp); ("Origin-Host", etAvp); ("Origin-Realm", etAvp);
   ("Destination-Host", etAvp); ("Destination-Realm", etAvp); ("SC-Address", etAvp);
   ("User-Identifier", etExtractor); ("SMSMI-Correlation-ID", etExtractor);
   ("Maximum-UE-Availability-Time", etAvp); ("SMS-GMSC-Alert-Event", etAvp);
   ("Serving-Node", etExtractor); ("Supported-Features", etExtractorList);
   ("Proxy-Info", etExtractorList); ("Route-Record", etAvpList)].

Definition AlertServiceCentreAnswerExtractor : extractor :=
  [("Session-Id", etAvp); ("DRMP", etAvp); ("Vendor-Specific-Application-Id", etExtractor);
   ("Result-Code", etAvp); ("Experimental-Result", etExtractor); ("Auth-Session-State", etAvp);
   ("Origin-Host", etAvp); ("Origin-Realm", etAvp); ("Supported-Features", etExtractorList);
   ("Failed-AVP", etExtractor); ("Proxy-Info", etExtractorList); ("Route-Record", etAvpList)].

Definition extractors : list extractor :=
  [SgsnSmDeliveryOutcomeExtractor; ProxyInfoExtractor; VendorSpecificApplicationIdExtractor;
   UserIdentifierExtractor; MmeSmDeliveryOutcomeExtractor; MscSmDeliveryOutcomeExtractor;
   IpSmGwSmDeliveryOutcomeExtractor; SmDeliveryOutcomeExtractor; FailedAvpExtractor; ExperimentalResultExtractor;
   SmsmiCorrelationIdExtractor; ServingNodeExtractor; SupportedFeaturesExtractor;
   MoForwardShortMessageRequestExtractor; MoForwardShortMessageAnswerExtractor;
   MtForwardShortMessageRequestExtractor; MtForwardShortMessageAnswerExtractor;
   AlertServiceCentreRequestExtractor; AlertServiceCentreAnswerExtractor].

End Sgd.

(** ** The grammars are well formed *)

Module SchemaProps.

(** An extractor names each AVP once, names only AVPs that its application's
    dictionary has, and no [add] hides another. *)
Definition well_formed (dict : list avp_name) (e : extractor) : Prop :=
  NoDup e.*1 ∧ Forall (.∈ dict) e.*1 ∧ Forall (λ x, entry_kind e x.1 = Some x.2) e.

#[export] Instance well_formed_dec dict e : Decision (well_formed dict e).
Proof. unfold well_formed. apply _. Defined.

(** Every extractor of the applications is well formed: each field an
    extractor declares is found under its own AVP and with its own kind. *)
Theorem schemas_well_formed :
  Forall (well_formed S6as6d.dictionary) S6as6d.extractors ∧
  Forall (well_formed S6t.dictionary) S6t.extractors ∧
  Forall (well_formed S6c.dictionary) S6c.extractors ∧
  Forall (well_formed Sgd.dictionary) Sgd.extractors.
Proof. split_and!; apply (bool_decide_unpack _); vm_compute; exact I. Qed.

End SchemaProps.
