(* ===== verification/Classes.v ===== *)
(** * The classes of the applications

    How include/s6as6d.h, include/s6t.h, include/s6c.h and smsrouter/include/sgd.h
    declare the dictionaries, the extractors, the lists and the commands of the
    applications, how the constructors in the sources initialise them, and what an
    object of such a class comes to: an extractor of Diameter.  The declarations and
    the constructors themselves are in S6aClasses, S6tClasses and S6cClasses. *)

From S2P Require Import Prelude Diameter.
Import FDExtractor.
#[local] Open Scope string_scope.

(** ** Declarations and constructors *)

(** The constructor of an extractor: the accessor of the AVP it hands to
    [FDExtractor] ([None] for one that reads a message), the members it initialises,
    with the accessor of their AVP ([None] for a member that is an extractor itself
    and is given the dictionary), and its calls of [add]. *)
Record constructor := mk_ctor {
  ct_avp : option string;
  ct_inits : list (string * option string);
  ct_adds : list string }.
(** Its members, with their classes. *)
Record extractor_class := mk_class { ec_members : list (string * string); ec_ctor : constructor }.

(** A list of extractors: the class its [createExtractor] makes and the accessor of
    the AVP its constructor hands to [FDExtractorList]. *)
Record list_class := mk_list { lc_element : string; lc_avp : string }.

(** An application: the accessors, the members and the constructor of its
    [Dictionary], its command classes and its extractor classes. *)
Record application := mk_app {
  getters : list (string * string);
  members : list (string * string);
  initialisers : list (string * string * option string);
  command_classes : list (string * string);
  command_constructors : list (string * list string);
  extractors : list (string * extractor_class);
  lists : list (string * list_class) }.

Fixpoint find {A} (k : string) (l : list (string * A)) : option A :=
  match l with [] => None | (k', x) :: l => if String.eqb k k' then Some x else find k l end.

Fixpoint mem (k : string) (l : list string) : bool :=
  match l with [] => false | k' :: l => String.eqb k k' || mem k l end.
Fixpoint distinct (l : list string) : bool :=
  match l with [] => true | k :: l => negb (mem k l) && distinct l end.
Fixpoint same (l1 l2 : list string) : bool :=
  match l1, l2 with
  | [], [] => true
  | k :: l1, k' :: l2 => String.eqb k k' && same l1 l2
  | _, _ => false
  end.
Definition found {A} (o : option A) : bool := match o with Some _ => true | None => false end.

(** ** What the constructors make *)

(** The name that the entry an accessor returns was looked up with. *)
Definition entry (app : application) (getter : string) : option avp_name :=
  member ← find getter (getters app);
  x ← find member ((λ i, (i.1.1, i.1.2)) <$> initialisers app);
  Some x.

(** The key and the kind under which [add] of a member enters it. *)
Definition added (app : application) (type : string) (init : option string)
    : option (avp_name * eFDExtractorType) :=
  match init with
  | Some getter =>
      n ← entry app getter;
      if String.eqb type "FDExtractorAvp" then Some (n, etAvp)
      else if String.eqb type "FDExtractorAvpList" then Some (n, etAvpList)
      else None
  | None =>
      match find type (extractors app) with
      | Some c => n ← (ct_avp (ec_ctor c) ≫= entry app); Some (n, etExtractor)
      | None => l ← find type (lists app); n ← entry app (lc_avp l); Some (n, etExtractorList)
      end
  end.

(** The entries of an extractor once it is constructed; [None] when its class names
    something that is not declared. *)
Definition construct (app : application) (c : extractor_class) : option extractor :=
  mapM (λ m,
    type ← find m (ec_members c);
    init ← find m (ct_inits (ec_ctor c));
    added app type init) (ct_adds (ec_ctor c)).

(** ** The naming conventions *)

Definition to_upper (c : ascii) : ascii :=
  let n := nat_of_ascii c in if ((97 <=? n) && (n <=? 122))%nat then ascii_of_nat (n - 32)%nat else c.
Definition to_lower (c : ascii) : ascii :=
  let n := nat_of_ascii c in if ((65 <=? n) && (n <=? 90))%nat then ascii_of_nat (n + 32)%nat else c.

Fixpoint lower (s : string) : string :=
  match s with EmptyString => EmptyString | String c s => String (to_lower c) (lower s) end.
Definition hyphen : ascii := "-".
Fixpoint snake (s : string) : string :=
  match s with
  | EmptyString => EmptyString
  | String c s => String (if Ascii.eqb c hyphen then "_"%char else to_lower c) (snake s)
  end.
(** "Visited-PLMN-Id" gives "VisitedPlmnId". *)
Fixpoint camel (first : bool) (s : string) : string :=
  match s with
  | EmptyString => EmptyString
  | String c s =>
      if Ascii.eqb c hyphen then camel true s
      else String (if first then to_upper c else to_lower c) (camel false s)
  end.
(** A member cannot start with a digit: 3GPP is written tgpp. *)
Definition identifier (s : string) : string :=
  match s with String "3" s => String "t" s | _ => s end.

Fixpoint suffix (t s : string) : bool :=
  String.eqb t s || match s with EmptyString => false | String _ s => suffix t s end.

(** ** What it is for the classes to fit together *)

(** An accessor returns the member that has its name and that was looked up with
    that name. *)
Definition getter_wired (app : application) (x : string * string) : bool :=
  let '(g, m) := x in
  match find m (members app), entry app g with
  | Some "FDDictionaryEntryAVP", Some n =>
      String.eqb g ("avp" +:+ camel true n) && String.eqb m ("m_avp_" +:+ snake n)
  | Some "FDDictionaryEntryCommand", Some n =>
      match g with
      | String "c" (String "m" (String "d" s)) =>
          String.eqb m ("m_cmd_" +:+ lower s)
          && (if suffix "R" s then suffix "-Request" n else suffix "A" s && suffix "-Answer" n)
      | _ => false
      end
  | Some "FDDictionaryEntryVendor", Some n =>
      String.eqb g ("vnd" +:+ n) && String.eqb m ("m_vnd_" +:+ lower n)
  | Some "FDDictionaryEntryApplication", Some _ => String.eqb g "app" && String.eqb m "m_app"
  | _, _ => false
  end.

(** Members are initialised in the order of their declaration: whatever an
    initialiser uses is initialised by then. *)
Fixpoint initialised_in_order (done : list string) (l : list (string * string * option string)) : bool :=
  match l with
  | [] => true
  | (m, _, uses) :: l =>
      match uses with Some v => mem v done | None => true end
      && initialised_in_order (m :: done) l
  end.

Definition dictionary_wired (app : application) : bool :=
  same (members app).*1 ((initialisers app).*1).*1 && same (getters app).*2 (members app).*1
  && distinct (getters app).*1 && distinct (members app).*1
  && initialised_in_order [] (initialisers app)
  && forallb (getter_wired app) (getters app).

(** A member is named after its AVP, and so is its class when it is an extractor. *)
Definition member_wired (m type : string) (n : avp_name) (kind : eFDExtractorType) : bool :=
  String.eqb m (identifier (snake n))
  && match kind with
     | etAvp => String.eqb type "FDExtractorAvp"
     | etAvpList => String.eqb type "FDExtractorAvpList"
     | etExtractor => String.eqb type (camel true n +:+ "Extractor")
     | etExtractorList => String.eqb type (camel true n +:+ "ExtractorList")
     end.

(** Every member of an extractor is initialised once and added once, in the order of
    the declarations. *)
Definition extractor_wired (app : application) (c : extractor_class) : bool :=
  same (ec_members c).*1 (ct_inits (ec_ctor c)).*1 && same (ec_members c).*1 (ct_adds (ec_ctor c))
  && distinct (ct_adds (ec_ctor c))
  && match construct app c with
     | Some e => forallb (λ x, member_wired x.1.1 x.1.2 x.2.1 x.2.2) (zip (ec_members c) e)
     | None => false
     end.

(** A list makes extractors of the class it is named after, which read the AVP it is
    for. *)
Definition list_wired (app : application) (name : string) (l : list_class) : bool :=
  String.eqb name (lc_element l +:+ "List")
  && match find (lc_element l) (extractors app) with
     | Some c => match ct_avp (ec_ctor c) with Some g => String.eqb g (lc_avp l) | None => false end
     | None => false
     end.

(** Handlers and requests of a command hand their base class its request's entry. *)
Definition command_wired (app : application) (name : string) (args : list string) : bool :=
  match find name (command_classes app), args with
  | Some "FDCommandRequest", [g] =>
      match g with
      | String "c" (String "m" (String "d" s)) =>
          String.eqb name (s +:+ "cmd") && suffix "R" s && found (entry app g)
      | _ => false
      end
  | Some "FDMessageRequest", [a; g] =>
      match g with
      | String "c" (String "m" (String "d" s)) =>
          String.eqb a "app" && String.eqb name (s +:+ "req") && suffix "R" s
          && found (entry app g)
      | _ => false
      end
  | _, _ => false
  end.

Definition wired (app : application) : bool :=
  dictionary_wired app
  && forallb (λ c, extractor_wired app c.2) (extractors app)
  && forallb (λ l, list_wired app l.1 l.2) (lists app)
  && same (command_classes app).*1 (command_constructors app).*1
  && forallb (λ c, command_wired app c.1 c.2) (command_constructors app).
