(* ===== verification/S6aClasses.v ===== *)
(** * The classes of the S6a and S6d application

    include/s6as6d.h and src/s6as6d.cpp:
    the declarations and the constructors as they stand there, in the vocabulary of
    Classes. *)

From S2P Require Import Prelude Classes.
#[local] Open Scope string_scope.

(** ** include/s6as6d.h, src/s6as6d.cpp *)

Module S6as6d.

(** The accessors of [Dictionary] and the members they return. *)
Definition getters_1 : list (string * string) :=
  [("app", "m_app"); ("cmdUPLR", "m_cmd_uplr"); ("cmdUPLA", "m_cmd_upla");
   ("cmdCALR", "m_cmd_calr"); ("cmdCALA", "m_cmd_cala"); ("cmdAUIR", "m_cmd_auir");
   ("cmdAUIA", "m_cmd_auia"); ("cmdINSDR", "m_cmd_insdr"); ("cmdINSDA", "m_cmd_insda");
   ("cmdDESDR", "m_cmd_desdr"); ("cmdDESDA", "m_cmd_desda"); ("cmdPUUR", "m_cmd_puur");
   ("cmdPUUA", "m_cmd_puua"); ("cmdRER", "m_cmd_rer"); ("cmdREA", "m_cmd_rea");
   ("vnd3GPP", "m_vnd_3gpp"); ("avpTsCode", "m_avp_ts_code");
   ("avpReachabilityType", "m_avp_reachability_type");
   ("avpEpsUserState", "m_avp_eps_user_state");
   ("avpPreEmptionCapability", "m_avp_pre_emption_capability");
   ("avpFeatureListId", "m_avp_feature_list_id");
   ("avpServiceAreaIdentity", "m_avp_service_area_identity");
   ("avpDayOfWeekMask", "m_avp_day_of_week_mask");
   ("avpAllApnConfigurationsIncludedIndicator", "m_avp_all_apn_configurations_included_indicator");
   ("avpEUtranVector", "m_avp_e_utran_vector"); ("avpPuaFlags", "m_avp_pua_flags");
   ("avpMaximumResponseTime", "m_avp_maximum_response_time");
   ("avpVendorSpecificApplicationId", "m_avp_vendor_specific_application_id");
   ("avpCsgAccessMode", "m_avp_csg_access_mode");
   ("avpAdditionalContextIdentifier", "m_avp_additional_context_identifier");
   ("avpAccessRestrictionData", "m_avp_access_restriction_data");
   ("avpMip6HomeLinkPrefix", "m_avp_mip6_home_link_prefix");
   ("avpGprsSubscriptionData", "m_avp_gprs_subscription_data"); ("avpSres", "m_avp_sres");
   ("avpSourceid", "m_avp_sourceid"); ("avpLoadValue", "m_avp_load_value");
   ("avpFeatureList", "m_avp_feature_list");
   ("avpApnOiReplacement", "m_avp_apn_oi_replacement");
   ("avpMonitoringEventConfigStatus", "m_avp_monitoring_event_config_status");
   ("avpOcReportType", "m_avp_oc_report_type");
   ("avpExperimentalResult", "m_avp_experimental_result");
   ("avpEdrxCycleLength", "m_avp_edrx_cycle_length");
   ("avpImsVoiceOverPsSessionsSupported", "m_avp_ims_voice_over_ps_sessions_supported");
   ("avpUeUsageType", "m_avp_ue_usage_type"); ("avpUserId", "m_avp_user_id");
   ("avpLcsPrivacyexception", "m_avp_lcs_privacyexception");
   ("avpV2xSubscriptionData", "m_avp_v2x_subscription_data");
   ("avpAdjacentAccessRestrictionData", "m_avp_adjacent_access_restriction_data");
   ("avpQosClassIdentifier", "m_avp_qos_class_identifier");
   ("avpExtPdpType", "m_avp_ext_pdp_type"); ("avpOcFeatureVector", "m_avp_oc_feature_vector");
   ("avpRelayNodeIndicator", "m_avp_relay_node_indicator");
   ("avpCommunicationDurationTime", "m_avp_communication_duration_time");
   ("avpAcctApplicationId", "m_avp_acct_application_id");
   ("avpItemNumber", "m_avp_item_number");
   ("avpListOfMeasurements", "m_avp_list_of_measurements");
   ("avpGeranVector", "m_avp_geran_vector");
   ("avpAuthSessionState", "m_avp_auth_session_state");
   ("avpEpsLocationInformation", "m_avp_eps_location_information"); ("avpDrmp", "m_avp_drmp");
   ("avpTraceNeTypeList", "m_avp_trace_ne_type_list");
   ("avpAdjacentPlmns", "m_avp_adjacent_plmns"); ("avpPriorityLevel", "m_avp_priority_level");
   ("avpPreEmptionVulnerability", "m_avp_pre_emption_vulnerability");
   ("avpGeodeticInformation", "m_avp_geodetic_information"); ("avpLoadType", "m_avp_load_type");
   ("avpAreaScope", "m_avp_area_scope"); ("avpPreferredDataMode", "m_avp_preferred_data_mode");
   ("avpImei", "m_avp_imei"); ("avpReachabilityInformation", "m_avp_reachability_information");
   ("avpNodeType", "m_avp_node_type"); ("avpClrFlags", "m_avp_clr_flags");
   ("avpCallBarringInfo", "m_avp_call_barring_info");
   ("avpServiceReport", "m_avp_service_report");
   ("avpDestinationHost", "m_avp_destination_host"); ("avpGmlcAddress", "m_avp_gmlc_address");
   ("avpLocationAreaIdentity", "m_avp_location_area_identity");
   ("avpLoggingInterval", "m_avp_logging_interval");
   ("avpRoamingRestrictedDueToUnsupportedFeature", "m_avp_roaming_restricted_due_to_unsupported_feature");
   ("avpRatType", "m_avp_rat_type");
   ("avpEdrxCycleLengthValue", "m_avp_edrx_cycle_length_value");
   ("avpTimeZone", "m_avp_time_zone"); ("avpMsisdn", "m_avp_msisdn")].

Definition getters_2 : list (string * string) :=
  [("avpMoLr", "m_avp_mo_lr"); ("avpActiveApn", "m_avp_active_apn");
   ("avpJobType", "m_avp_job_type"); ("avpSsCode", "m_avp_ss_code");
   ("avpTimeOfDayStart", "m_avp_time_of_day_start");
   ("avpWlanOffloadability", "m_avp_wlan_offloadability");
   ("avpMipHomeAgentHost", "m_avp_mip_home_agent_host"); ("avpPdnType", "m_avp_pdn_type");
   ("avpCommunicationPatternSet", "m_avp_communication_pattern_set");
   ("avpPeriodicCommunicationIndicator", "m_avp_periodic_communication_indicator");
   ("avpProsePermission", "m_avp_prose_permission");
   ("avpEquivalentPlmnList", "m_avp_equivalent_plmn_list");
   ("avpChargedParty", "m_avp_charged_party");
   ("avpSupportedServices", "m_avp_supported_services");
   ("avp3gppChargingCharacteristics", "m_avp_3gpp_charging_characteristics");
   ("avpProxyInfo", "m_avp_proxy_info");
   ("avpSubscribedPeriodicRauTauTimer", "m_avp_subscribed_periodic_rau_tau_timer");
   ("avpSsStatus", "m_avp_ss_status"); ("avpEnodebId", "m_avp_enodeb_id");
   ("avpUtranVector", "m_avp_utran_vector"); ("avpOriginRealm", "m_avp_origin_realm");
   ("avpOriginHost", "m_avp_origin_host");
   ("avpEventThresholdRsrq", "m_avp_event_threshold_rsrq");
   ("avpVplmnDynamicAddressAllowed", "m_avp_vplmn_dynamic_address_allowed");
   ("avpAccuracy", "m_avp_accuracy"); ("avpPurFlags", "m_avp_pur_flags");
   ("avpUeReachabilityConfiguration", "m_avp_ue_reachability_configuration");
   ("avpApnConfiguration", "m_avp_apn_configuration"); ("avpAMsisdn", "m_avp_a_msisdn");
   ("avpMonteLocationType", "m_avp_monte_location_type");
   ("avpLastUeActivityTime", "m_avp_last_ue_activity_time");
   ("avpLocalTimeZone", "m_avp_local_time_zone");
   ("avpAuthenticationInfo", "m_avp_authentication_info");
   ("avpServiceType", "m_avp_service_type"); ("avpV2xPermission", "m_avp_v2x_permission");
   ("avpPdpAddress", "m_avp_pdp_address"); ("avpImsiGroupId", "m_avp_imsi_group_id");
   ("avpDsrFlags", "m_avp_dsr_flags");
   ("avpCompleteDataListIncludedIndicator", "m_avp_complete_data_list_included_indicator");
   ("avpTraceCollectionEntity", "m_avp_trace_collection_entity");
   ("avpWlanOffloadabilityEutran", "m_avp_wlan_offloadability_eutran");
   ("avpRouteRecord", "m_avp_route_record"); ("avpSubscriptionData", "m_avp_subscription_data");
   ("avpReferenceIdValidityTime", "m_avp_reference_id_validity_time");
   ("avpDlBufferingSuggestedPacketCount", "m_avp_dl_buffering_suggested_packet_count");
   ("avpScefId", "m_avp_scef_id"); ("avpTraceEventList", "m_avp_trace_event_list");
   ("avpCsgId", "m_avp_csg_id"); ("avpMdtConfiguration", "m_avp_mdt_configuration");
   ("avpErrorDiagnostic", "m_avp_error_diagnostic");
   ("avpRoutingAreaIdentity", "m_avp_routing_area_identity");
   ("avpCurrentLocationRetrieved", "m_avp_current_location_retrieved");
   ("avpUserCsgInformation", "m_avp_user_csg_information");
   ("avpMip6AgentInfo", "m_avp_mip6_agent_info");
   ("avpLoggingDuration", "m_avp_logging_duration"); ("avpGroupPlmnId", "m_avp_group_plmn_id");
   ("avpCollectionPeriodRrmUmts", "m_avp_collection_period_rrm_umts");
   ("avpIdaFlags", "m_avp_ida_flags");
   ("avpNonIpPdnTypeIndicator", "m_avp_non_ip_pdn_type_indicator");
   ("avpTrackingAreaIdentity", "m_avp_tracking_area_identity"); ("avpOcOlr", "m_avp_oc_olr");
   ("avpClientIdentity", "m_avp_client_identity");
   ("avpAgeOfLocationInformation", "m_avp_age_of_location_information");
   ("avpTraceData", "m_avp_trace_data"); ("avpSubscribedVsrvcc", "m_avp_subscribed_vsrvcc");
   ("avpPlmnClient", "m_avp_plmn_client"); ("avpVplmnLipaAllowed", "m_avp_vplmn_lipa_allowed");
   ("avpReSynchronizationInfo", "m_avp_re_synchronization_info");
   ("avpAirFlags", "m_avp_air_flags"); ("avpSpecificApnInfo", "m_avp_specific_apn_info");
   ("avpRand", "m_avp_rand"); ("avpOcReductionPercentage", "m_avp_oc_reduction_percentage");
   ("avpReportInterval", "m_avp_report_interval");
   ("avpEpsSubscribedQosProfile", "m_avp_eps_subscribed_qos_profile");
   ("avpServiceResultCode", "m_avp_service_result_code"); ("avpOmcId", "m_avp_omc_id");
   ("avpOcSequenceNumber", "m_avp_oc_sequence_number");
   ("avpTeleserviceList", "m_avp_teleservice_list")].

Definition getters_3 : list (string * string) :=
  [("avpApnConfigurationProfile", "m_avp_apn_configuration_profile");
   ("avpEventThresholdEvent1i", "m_avp_event_threshold_event_1i");
   ("avpSupportedMonitoringEvents", "m_avp_supported_monitoring_events");
   ("avpDsaFlags", "m_avp_dsa_flags");
   ("avpEventThresholdEvent1f", "m_avp_event_threshold_event_1f");
   ("avpAllocationRetentionPriority", "m_avp_allocation_retention_priority");
   ("avpCellGlobalIdentity", "m_avp_cell_global_identity");
   ("avpOcValidityDuration", "m_avp_oc_validity_duration"); ("avpUlaFlags", "m_avp_ula_flags");
   ("avpCsgMembershipIndication", "m_avp_csg_membership_indication");
   ("avpServiceSelection", "m_avp_service_selection");
   ("avpNetworkAccessMode", "m_avp_network_access_mode"); ("avp3gpp2Meid", "m_avp_3gpp2_meid");
   ("avpMmeLocationInformation", "m_avp_mme_location_information");
   ("avpSgsnLocationInformation", "m_avp_sgsn_location_information");
   ("avpUlrFlags", "m_avp_ulr_flags");
   ("avpMeasurementPeriodLte", "m_avp_measurement_period_lte");
   ("avpResultCode", "m_avp_result_code"); ("avpGmlcRestriction", "m_avp_gmlc_restriction");
   ("avpUserState", "m_avp_user_state"); ("avpSgsMmeIdentity", "m_avp_sgs_mme_identity");
   ("avpCoupledNodeDiameterId", "m_avp_coupled_node_diameter_id"); ("avpKc", "m_avp_kc");
   ("avpWlanOffloadabilityUtran", "m_avp_wlan_offloadability_utran");
   ("avpServicetypeidentity", "m_avp_servicetypeidentity"); ("avpStnSr", "m_avp_stn_sr");
   ("avpMmeNumberForMtSms", "m_avp_mme_number_for_mt_sms");
   ("avpRequestedUtranGeranAuthenticationInfo", "m_avp_requested_utran_geran_authentication_info");
   ("avpNotificationToUeUser", "m_avp_notification_to_ue_user");
   ("avpHomogeneousSupportOfImsVoiceOverPsSessions", "m_avp_homogeneous_support_of_ims_voice_over_ps_sessions");
   ("avpPdpContext", "m_avp_pdp_context");
   ("avpMaxRequestedBandwidthDl", "m_avp_max_requested_bandwidth_dl");
   ("avpTraceInterfaceList", "m_avp_trace_interface_list");
   ("avpPdnConnectionContinuity", "m_avp_pdn_connection_continuity");
   ("avpScefReferenceId", "m_avp_scef_reference_id"); ("avpSgsnNumber", "m_avp_sgsn_number");
   ("avpRatFrequencySelectionPriorityId", "m_avp_rat_frequency_selection_priority_id");
   ("avpNumberOfRequestedVectors", "m_avp_number_of_requested_vectors");
   ("avpSubscriptionDataDeletion", "m_avp_subscription_data_deletion");
   ("avpLoad", "m_avp_load"); ("avpContextIdentifier", "m_avp_context_identifier");
   ("avpIntegrityKey", "m_avp_integrity_key");
   ("avpConfidentialityKey", "m_avp_confidentiality_key");
   ("avpEUtranCellGlobalIdentity", "m_avp_e_utran_cell_global_identity");
   ("avpOcSupportedFeatures", "m_avp_oc_supported_features");
   ("avpMonitoringType", "m_avp_monitoring_type"); ("avpUePc5Ambr", "m_avp_ue_pc5_ambr");
   ("avpProxyHost", "m_avp_proxy_host");
   ("avpEventThresholdRsrp", "m_avp_event_threshold_rsrp");
   ("avpTerminalInformation", "m_avp_terminal_information"); ("avpXres", "m_avp_xres");
   ("avpSubscriberStatus", "m_avp_subscriber_status");
   ("avpExperimentalResultCode", "m_avp_experimental_result_code");
   ("avpCollectionPeriodRrmLte", "m_avp_collection_period_rrm_lte");
   ("avpMaximumNumberOfReports", "m_avp_maximum_number_of_reports");
   ("avpHplmnOdb", "m_avp_hplmn_odb"); ("avpMmeUserState", "m_avp_mme_user_state");
   ("avpAuthApplicationId", "m_avp_auth_application_id"); ("avpResetId", "m_avp_reset_id");
   ("avpLipaPermission", "m_avp_lipa_permission");
   ("avpRequestedEutranAuthenticationInfo", "m_avp_requested_eutran_authentication_info");
   ("avpMpsPriority", "m_avp_mps_priority");
   ("avpMonitoringEventReport", "m_avp_monitoring_event_report");
   ("avpExtendedEnodebId", "m_avp_extended_enodeb_id"); ("avpIdrFlags", "m_avp_idr_flags");
   ("avpAeseCommunicationPattern", "m_avp_aese_communication_pattern")].

Definition getters_4 : list (string * string) :=
  [("avpVisitedNetworkIdentifier", "m_avp_visited_network_identifier");
   ("avpLcsInfo", "m_avp_lcs_info"); ("avpRestorationPriority", "m_avp_restoration_priority");
   ("avpMdtUserConsent", "m_avp_mdt_user_consent");
   ("avpCancellationType", "m_avp_cancellation_type");
   ("avpStationaryIndication", "m_avp_stationary_indication");
   ("avpPdnGwAllocationType", "m_avp_pdn_gw_allocation_type");
   ("avpGmlcNumber", "m_avp_gmlc_number");
   ("avpSubscriptionDataFlags", "m_avp_subscription_data_flags");
   ("avpIcsIndicator", "m_avp_ics_indicator"); ("avpVisitedPlmnId", "m_avp_visited_plmn_id");
   ("avpQosSubscribed", "m_avp_qos_subscribed");
   ("avpPositioningMethod", "m_avp_positioning_method");
   ("avpMonitoringDuration", "m_avp_monitoring_duration");
   ("avpReportingTrigger", "m_avp_reporting_trigger"); ("avpFailedAvp", "m_avp_failed_avp");
   ("avpAmbr", "m_avp_ambr"); ("avpDaylightSavingTime", "m_avp_daylight_saving_time");
   ("avpExpirationDate", "m_avp_expiration_date");
   ("avpGroupServiceId", "m_avp_group_service_id");
   ("avpTraceReference", "m_avp_trace_reference"); ("avpLocalGroupId", "m_avp_local_group_id");
   ("avpMeasurementQuantity", "m_avp_measurement_quantity");
   ("avpGeographicalInformation", "m_avp_geographical_information");
   ("avpKasme", "m_avp_kasme"); ("avpServedPartyIpAddress", "m_avp_served_party_ip_address");
   ("avpTraceDepth", "m_avp_trace_depth");
   ("avpScheduledCommunicationTime", "m_avp_scheduled_communication_time");
   ("avpProxyState", "m_avp_proxy_state");
   ("avpOperatorDeterminedBarring", "m_avp_operator_determined_barring");
   ("avpAutn", "m_avp_autn"); ("avpPdpType", "m_avp_pdp_type");
   ("avpPeriodicTime", "m_avp_periodic_time"); ("avpTimeOfDayEnd", "m_avp_time_of_day_end");
   ("avpSoftwareVersion", "m_avp_software_version");
   ("avpSiptoLocalNetworkPermission", "m_avp_sipto_local_network_permission");
   ("avpSmsRegisterRequest", "m_avp_sms_register_request");
   ("avpSgsnUserState", "m_avp_sgsn_user_state"); ("avpVendorId", "m_avp_vendor_id");
   ("avpMaxRequestedBandwidthUl", "m_avp_max_requested_bandwidth_ul");
   ("avpSupportedFeatures", "m_avp_supported_features");
   ("avpNonIpDataDeliveryMechanism", "m_avp_non_ip_data_delivery_mechanism");
   ("avpMonitoringEventConfiguration", "m_avp_monitoring_event_configuration");
   ("avpDestinationRealm", "m_avp_destination_realm"); ("avpSessionId", "m_avp_session_id");
   ("avpImmediateResponsePreferred", "m_avp_immediate_response_preferred");
   ("avpUserName", "m_avp_user_name"); ("avpScefRealm", "m_avp_scef_realm");
   ("avpSiptoPermission", "m_avp_sipto_permission");
   ("avpEmergencyInfo", "m_avp_emergency_info");
   ("avpMdtAllowedPlmnId", "m_avp_mdt_allowed_plmn_id");
   ("avpReportAmount", "m_avp_report_amount");
   ("avpCsgSubscriptionData", "m_avp_csg_subscription_data");
   ("avpExternalClient", "m_avp_external_client");
   ("avpMipHomeAgentAddress", "m_avp_mip_home_agent_address");
   ("avpUeSrvccCapability", "m_avp_ue_srvcc_capability");
   ("avpMeasurementPeriodUmts", "m_avp_measurement_period_umts");
   ("avpScefReferenceIdForDeletion", "m_avp_scef_reference_id_for_deletion");
   ("avpProseSubscriptionData", "m_avp_prose_subscription_data");
   ("avpServiceResult", "m_avp_service_result");
   ("avpLocationInformationConfiguration", "m_avp_location_information_configuration");
   ("avpExtPdpAddress", "m_avp_ext_pdp_address");
   ("avpRegionalSubscriptionZoneCode", "m_avp_regional_subscription_zone_code")].

Definition getters : list (string * string) := getters_1 ++ getters_2 ++ getters_3 ++ getters_4.

(** Its members and their classes, in the order of their declaration. *)
Definition members_1 : list (string * string) :=
  [("m_app", "FDDictionaryEntryApplication"); ("m_cmd_uplr", "FDDictionaryEntryCommand");
   ("m_cmd_upla", "FDDictionaryEntryCommand"); ("m_cmd_calr", "FDDictionaryEntryCommand");
   ("m_cmd_cala", "FDDictionaryEntryCommand"); ("m_cmd_auir", "FDDictionaryEntryCommand");
   ("m_cmd_auia", "FDDictionaryEntryCommand"); ("m_cmd_insdr", "FDDictionaryEntryCommand");
   ("m_cmd_insda", "FDDictionaryEntryCommand"); ("m_cmd_desdr", "FDDictionaryEntryCommand");
   ("m_cmd_desda", "FDDictionaryEntryCommand"); ("m_cmd_puur", "FDDictionaryEntryCommand");
   ("m_cmd_puua", "FDDictionaryEntryCommand"); ("m_cmd_rer", "FDDictionaryEntryCommand");
   ("m_cmd_rea", "FDDictionaryEntryCommand"); ("m_vnd_3gpp", "FDDictionaryEntryVendor");
   ("m_avp_ts_code", "FDDictionaryEntryAVP");
   ("m_avp_reachability_type", "FDDictionaryEntryAVP");
   ("m_avp_eps_user_state", "FDDictionaryEntryAVP");
   ("m_avp_pre_emption_capability", "FDDictionaryEntryAVP");
   ("m_avp_feature_list_id", "FDDictionaryEntryAVP");
   ("m_avp_service_area_identity", "FDDictionaryEntryAVP");
   ("m_avp_day_of_week_mask", "FDDictionaryEntryAVP");
   ("m_avp_all_apn_configurations_included_indicator", "FDDictionaryEntryAVP");
   ("m_avp_e_utran_vector", "FDDictionaryEntryAVP");
   ("m_avp_pua_flags", "FDDictionaryEntryAVP");
   ("m_avp_maximum_response_time", "FDDictionaryEntryAVP");
   ("m_avp_vendor_specific_application_id", "FDDictionaryEntryAVP");
   ("m_avp_csg_access_mode", "FDDictionaryEntryAVP");
   ("m_avp_additional_context_identifier", "FDDictionaryEntryAVP");
   ("m_avp_access_restriction_data", "FDDictionaryEntryAVP");
   ("m_avp_mip6_home_link_prefix", "FDDictionaryEntryAVP");
   ("m_avp_gprs_subscription_data", "FDDictionaryEntryAVP");
   ("m_avp_sres", "FDDictionaryEntryAVP"); ("m_avp_sourceid", "FDDictionaryEntryAVP");
   ("m_avp_load_value", "FDDictionaryEntryAVP"); ("m_avp_feature_list", "FDDictionaryEntryAVP");
   ("m_avp_apn_oi_replacement", "FDDictionaryEntryAVP");
   ("m_avp_monitoring_event_config_status", "FDDictionaryEntryAVP");
   ("m_avp_oc_report_type", "FDDictionaryEntryAVP");
   ("m_avp_experimental_result", "FDDictionaryEntryAVP");
   ("m_avp_edrx_cycle_length", "FDDictionaryEntryAVP");
   ("m_avp_ims_voice_over_ps_sessions_supported", "FDDictionaryEntryAVP");
   ("m_avp_ue_usage_type", "FDDictionaryEntryAVP"); ("m_avp_user_id", "FDDictionaryEntryAVP");
   ("m_avp_lcs_privacyexception", "FDDictionaryEntryAVP");
   ("m_avp_v2x_subscription_data", "FDDictionaryEntryAVP");
   ("m_avp_adjacent_access_restriction_data", "FDDictionaryEntryAVP");
   ("m_avp_qos_class_identifier", "FDDictionaryEntryAVP");
   ("m_avp_ext_pdp_type", "FDDictionaryEntryAVP");
   ("m_avp_oc_feature_vector", "FDDictionaryEntryAVP");
   ("m_avp_relay_node_indicator", "FDDictionaryEntryAVP");
   ("m_avp_communication_duration_time", "FDDictionaryEntryAVP");
   ("m_avp_acct_application_id", "FDDictionaryEntryAVP");
   ("m_avp_item_number", "FDDictionaryEntryAVP");
   ("m_avp_list_of_measurements", "FDDictionaryEntryAVP");
   ("m_avp_geran_vector", "FDDictionaryEntryAVP");
   ("m_avp_auth_session_state", "FDDictionaryEntryAVP");
   ("m_avp_eps_location_information", "FDDictionaryEntryAVP");
   ("m_avp_drmp", "FDDictionaryEntryAVP"); ("m_avp_trace_ne_type_list", "FDDictionaryEntryAVP");
   ("m_avp_adjacent_plmns", "FDDictionaryEntryAVP");
   ("m_avp_priority_level", "FDDictionaryEntryAVP");
   ("m_avp_pre_emption_vulnerability", "FDDictionaryEntryAVP");
   ("m_avp_geodetic_information", "FDDictionaryEntryAVP");
   ("m_avp_load_type", "FDDictionaryEntryAVP"); ("m_avp_area_scope", "FDDictionaryEntryAVP");
   ("m_avp_preferred_data_mode", "FDDictionaryEntryAVP");
   ("m_avp_imei", "FDDictionaryEntryAVP");
   ("m_avp_reachability_information", "FDDictionaryEntryAVP");
   ("m_avp_node_type", "FDDictionaryEntryAVP"); ("m_avp_clr_flags", "FDDictionaryEntryAVP");
   ("m_avp_call_barring_info", "FDDictionaryEntryAVP");
   ("m_avp_service_report", "FDDictionaryEntryAVP");
   ("m_avp_destination_host", "FDDictionaryEntryAVP");
   ("m_avp_gmlc_address", "FDDictionaryEntryAVP");
   ("m_avp_location_area_identity", "FDDictionaryEntryAVP");
   ("m_avp_logging_interval", "FDDictionaryEntryAVP");
   ("m_avp_roaming_restricted_due_to_unsupported_feature", "FDDictionaryEntryAVP");
   ("m_avp_rat_type", "FDDictionaryEntryAVP");
   ("m_avp_edrx_cycle_length_value", "FDDictionaryEntryAVP");
   ("m_avp_time_zone", "FDDictionaryEntryAVP"); ("m_avp_msisdn", "FDDictionaryEntryAVP");
   ("m_avp_mo_lr", "FDDictionaryEntryAVP"); ("m_avp_active_apn", "FDDictionaryEntryAVP");
   ("m_avp_job_type", "FDDictionaryEntryAVP"); ("m_avp_ss_code", "FDDictionaryEntryAVP");
   ("m_avp_time_of_day_start", "FDDictionaryEntryAVP");
   ("m_avp_wlan_offloadability", "FDDictionaryEntryAVP");
   ("m_avp_mip_home_agent_host", "FDDictionaryEntryAVP");
   ("m_avp_pdn_type", "FDDictionaryEntryAVP");
   ("m_avp_communication_pattern_set", "FDDictionaryEntryAVP");
   ("m_avp_periodic_communication_indicator", "FDDictionaryEntryAVP");
   ("m_avp_prose_permission", "FDDictionaryEntryAVP");
   ("m_avp_equivalent_plmn_list", "FDDictionaryEntryAVP");
   ("m_avp_charged_party", "FDDictionaryEntryAVP");
   ("m_avp_supported_services", "FDDictionaryEntryAVP");
   ("m_avp_3gpp_charging_characteristics", "FDDictionaryEntryAVP");
   ("m_avp_proxy_info", "FDDictionaryEntryAVP");
   ("m_avp_subscribed_periodic_rau_tau_timer", "FDDictionaryEntryAVP");
   ("m_avp_ss_status", "FDDictionaryEntryAVP"); ("m_avp_enodeb_id", "FDDictionaryEntryAVP");
   ("m_avp_utran_vector", "FDDictionaryEntryAVP");
   ("m_avp_origin_realm", "FDDictionaryEntryAVP");
   ("m_avp_origin_host", "FDDictionaryEntryAVP");
   ("m_avp_event_threshold_rsrq", "FDDictionaryEntryAVP");
   ("m_avp_vplmn_dynamic_address_allowed", "FDDictionaryEntryAVP");
   ("m_avp_accuracy", "FDDictionaryEntryAVP"); ("m_avp_pur_flags", "FDDictionaryEntryAVP");
   ("m_avp_ue_reachability_configuration", "FDDictionaryEntryAVP");
   ("m_avp_apn_configuration", "FDDictionaryEntryAVP");
   ("m_avp_a_msisdn", "FDDictionaryEntryAVP");
   ("m_avp_monte_location_type", "FDDictionaryEntryAVP");
   ("m_avp_last_ue_activity_time", "FDDictionaryEntryAVP");
   ("m_avp_local_time_zone", "FDDictionaryEntryAVP");
   ("m_avp_authentication_info", "FDDictionaryEntryAVP");
   ("m_avp_service_type", "FDDictionaryEntryAVP");
   ("m_avp_v2x_permission", "FDDictionaryEntryAVP");
   ("m_avp_pdp_address", "FDDictionaryEntryAVP");
   ("m_avp_imsi_group_id", "FDDictionaryEntryAVP"); ("m_avp_dsr_flags", "FDDictionaryEntryAVP");
   ("m_avp_complete_data_list_included_indicator", "FDDictionaryEntryAVP");
   ("m_avp_trace_collection_entity", "FDDictionaryEntryAVP");
   ("m_avp_wlan_offloadability_eutran", "FDDictionaryEntryAVP");
   ("m_avp_route_record", "FDDictionaryEntryAVP");
   ("m_avp_subscription_data", "FDDictionaryEntryAVP");
   ("m_avp_reference_id_validity_time", "FDDictionaryEntryAVP");
   ("m_avp_dl_buffering_suggested_packet_count", "FDDictionaryEntryAVP");
   ("m_avp_scef_id", "FDDictionaryEntryAVP");
   ("m_avp_trace_event_list", "FDDictionaryEntryAVP"); ("m_avp_csg_id", "FDDictionaryEntryAVP");
   ("m_avp_mdt_configuration", "FDDictionaryEntryAVP");
   ("m_avp_error_diagnostic", "FDDictionaryEntryAVP");
   ("m_avp_routing_area_identity", "FDDictionaryEntryAVP");
   ("m_avp_current_location_retrieved", "FDDictionaryEntryAVP");
   ("m_avp_user_csg_information", "FDDictionaryEntryAVP");
   ("m_avp_mip6_agent_info", "FDDictionaryEntryAVP");
   ("m_avp_logging_duration", "FDDictionaryEntryAVP");
   ("m_avp_group_plmn_id", "FDDictionaryEntryAVP");
   ("m_avp_collection_period_rrm_umts", "FDDictionaryEntryAVP");
   ("m_avp_ida_flags", "FDDictionaryEntryAVP");
   ("m_avp_non_ip_pdn_type_indicator", "FDDictionaryEntryAVP");
   ("m_avp_tracking_area_identity", "FDDictionaryEntryAVP");
   ("m_avp_oc_olr", "FDDictionaryEntryAVP"); ("m_avp_client_identity", "FDDictionaryEntryAVP");
   ("m_avp_age_of_location_information", "FDDictionaryEntryAVP");
   ("m_avp_trace_data", "FDDictionaryEntryAVP")].

Definition members_2 : list (string * string) :=
  [("m_avp_subscribed_vsrvcc", "FDDictionaryEntryAVP");
   ("m_avp_plmn_client", "FDDictionaryEntryAVP");
   ("m_avp_vplmn_lipa_allowed", "FDDictionaryEntryAVP");
   ("m_avp_re_synchronization_info", "FDDictionaryEntryAVP");
   ("m_avp_air_flags", "FDDictionaryEntryAVP");
   ("m_avp_specific_apn_info", "FDDictionaryEntryAVP"); ("m_avp_rand", "FDDictionaryEntryAVP");
   ("m_avp_oc_reduction_percentage", "FDDictionaryEntryAVP");
   ("m_avp_report_interval", "FDDictionaryEntryAVP");
   ("m_avp_eps_subscribed_qos_profile", "FDDictionaryEntryAVP");
   ("m_avp_service_result_code", "FDDictionaryEntryAVP");
   ("m_avp_omc_id", "FDDictionaryEntryAVP");
   ("m_avp_oc_sequence_number", "FDDictionaryEntryAVP");
   ("m_avp_teleservice_list", "FDDictionaryEntryAVP");
   ("m_avp_apn_configuration_profile", "FDDictionaryEntryAVP");
   ("m_avp_event_threshold_event_1i", "FDDictionaryEntryAVP");
   ("m_avp_supported_monitoring_events", "FDDictionaryEntryAVP");
   ("m_avp_dsa_flags", "FDDictionaryEntryAVP");
   ("m_avp_event_threshold_event_1f", "FDDictionaryEntryAVP");
   ("m_avp_allocation_retention_priority", "FDDictionaryEntryAVP");
   ("m_avp_cell_global_identity", "FDDictionaryEntryAVP");
   ("m_avp_oc_validity_duration", "FDDictionaryEntryAVP");
   ("m_avp_ula_flags", "FDDictionaryEntryAVP");
   ("m_avp_csg_membership_indication", "FDDictionaryEntryAVP");
   ("m_avp_service_selection", "FDDictionaryEntryAVP");
   ("m_avp_network_access_mode", "FDDictionaryEntryAVP");
   ("m_avp_3gpp2_meid", "FDDictionaryEntryAVP");
   ("m_avp_mme_location_information", "FDDictionaryEntryAVP");
   ("m_avp_sgsn_location_information", "FDDictionaryEntryAVP");
   ("m_avp_ulr_flags", "FDDictionaryEntryAVP");
   ("m_avp_measurement_period_lte", "FDDictionaryEntryAVP");
   ("m_avp_result_code", "FDDictionaryEntryAVP");
   ("m_avp_gmlc_restriction", "FDDictionaryEntryAVP");
   ("m_avp_user_state", "FDDictionaryEntryAVP");
   ("m_avp_sgs_mme_identity", "FDDictionaryEntryAVP");
   ("m_avp_coupled_node_diameter_id", "FDDictionaryEntryAVP");
   ("m_avp_kc", "FDDictionaryEntryAVP");
   ("m_avp_wlan_offloadability_utran", "FDDictionaryEntryAVP");
   ("m_avp_servicetypeidentity", "FDDictionaryEntryAVP");
   ("m_avp_stn_sr", "FDDictionaryEntryAVP");
   ("m_avp_mme_number_for_mt_sms", "FDDictionaryEntryAVP");
   ("m_avp_requested_utran_geran_authentication_info", "FDDictionaryEntryAVP");
   ("m_avp_notification_to_ue_user", "FDDictionaryEntryAVP");
   ("m_avp_homogeneous_support_of_ims_voice_over_ps_sessions", "FDDictionaryEntryAVP");
   ("m_avp_pdp_context", "FDDictionaryEntryAVP");
   ("m_avp_max_requested_bandwidth_dl", "FDDictionaryEntryAVP");
   ("m_avp_trace_interface_list", "FDDictionaryEntryAVP");
   ("m_avp_pdn_connection_continuity", "FDDictionaryEntryAVP");
   ("m_avp_scef_reference_id", "FDDictionaryEntryAVP");
   ("m_avp_sgsn_number", "FDDictionaryEntryAVP");
   ("m_avp_rat_frequency_selection_priority_id", "FDDictionaryEntryAVP");
   ("m_avp_number_of_requested_vectors", "FDDictionaryEntryAVP");
   ("m_avp_subscription_data_deletion", "FDDictionaryEntryAVP");
   ("m_avp_load", "FDDictionaryEntryAVP"); ("m_avp_context_identifier", "FDDictionaryEntryAVP");
   ("m_avp_integrity_key", "FDDictionaryEntryAVP");
   ("m_avp_confidentiality_key", "FDDictionaryEntryAVP");
   ("m_avp_e_utran_cell_global_identity", "FDDictionaryEntryAVP");
   ("m_avp_oc_supported_features", "FDDictionaryEntryAVP");
   ("m_avp_monitoring_type", "FDDictionaryEntryAVP");
   ("m_avp_ue_pc5_ambr", "FDDictionaryEntryAVP"); ("m_avp_proxy_host", "FDDictionaryEntryAVP");
   ("m_avp_event_threshold_rsrp", "FDDictionaryEntryAVP");
   ("m_avp_terminal_information", "FDDictionaryEntryAVP");
   ("m_avp_xres", "FDDictionaryEntryAVP"); ("m_avp_subscriber_status", "FDDictionaryEntryAVP");
   ("m_avp_experimental_result_code", "FDDictionaryEntryAVP");
   ("m_avp_collection_period_rrm_lte", "FDDictionaryEntryAVP");
   ("m_avp_maximum_number_of_reports", "FDDictionaryEntryAVP");
   ("m_avp_hplmn_odb", "FDDictionaryEntryAVP");
   ("m_avp_mme_user_state", "FDDictionaryEntryAVP");
   ("m_avp_auth_application_id", "FDDictionaryEntryAVP");
   ("m_avp_reset_id", "FDDictionaryEntryAVP");
   ("m_avp_lipa_permission", "FDDictionaryEntryAVP");
   ("m_avp_requested_eutran_authentication_info", "FDDictionaryEntryAVP");
   ("m_avp_mps_priority", "FDDictionaryEntryAVP");
   ("m_avp_monitoring_event_report", "FDDictionaryEntryAVP");
   ("m_avp_extended_enodeb_id", "FDDictionaryEntryAVP");
   ("m_avp_idr_flags", "FDDictionaryEntryAVP");
   ("m_avp_aese_communication_pattern", "FDDictionaryEntryAVP");
   ("m_avp_visited_network_identifier", "FDDictionaryEntryAVP");
   ("m_avp_lcs_info", "FDDictionaryEntryAVP");
   ("m_avp_restoration_priority", "FDDictionaryEntryAVP");
   ("m_avp_mdt_user_consent", "FDDictionaryEntryAVP");
   ("m_avp_cancellation_type", "FDDictionaryEntryAVP");
   ("m_avp_stationary_indication", "FDDictionaryEntryAVP");
   ("m_avp_pdn_gw_allocation_type", "FDDictionaryEntryAVP");
   ("m_avp_gmlc_number", "FDDictionaryEntryAVP");
   ("m_avp_subscription_data_flags", "FDDictionaryEntryAVP");
   ("m_avp_ics_indicator", "FDDictionaryEntryAVP");
   ("m_avp_visited_plmn_id", "FDDictionaryEntryAVP");
   ("m_avp_qos_subscribed", "FDDictionaryEntryAVP");
   ("m_avp_positioning_method", "FDDictionaryEntryAVP");
   ("m_avp_monitoring_duration", "FDDictionaryEntryAVP");
   ("m_avp_reporting_trigger", "FDDictionaryEntryAVP");
   ("m_avp_failed_avp", "FDDictionaryEntryAVP"); ("m_avp_ambr", "FDDictionaryEntryAVP");
   ("m_avp_daylight_saving_time", "FDDictionaryEntryAVP");
   ("m_avp_expiration_date", "FDDictionaryEntryAVP");
   ("m_avp_group_service_id", "FDDictionaryEntryAVP");
   ("m_avp_trace_reference", "FDDictionaryEntryAVP");
   ("m_avp_local_group_id", "FDDictionaryEntryAVP");
   ("m_avp_measurement_quantity", "FDDictionaryEntryAVP");
   ("m_avp_geographical_information", "FDDictionaryEntryAVP");
   ("m_avp_kasme", "FDDictionaryEntryAVP");
   ("m_avp_served_party_ip_address", "FDDictionaryEntryAVP");
   ("m_avp_trace_depth", "FDDictionaryEntryAVP");
   ("m_avp_scheduled_communication_time", "FDDictionaryEntryAVP");
   ("m_avp_proxy_state", "FDDictionaryEntryAVP");
   ("m_avp_operator_determined_barring", "FDDictionaryEntryAVP");
   ("m_avp_autn", "FDDictionaryEntryAVP"); ("m_avp_pdp_type", "FDDictionaryEntryAVP");
   ("m_avp_periodic_time", "FDDictionaryEntryAVP");
   ("m_avp_time_of_day_end", "FDDictionaryEntryAVP");
   ("m_avp_software_version", "FDDictionaryEntryAVP");
   ("m_avp_sipto_local_network_permission", "FDDictionaryEntryAVP");
   ("m_avp_sms_register_request", "FDDictionaryEntryAVP");
   ("m_avp_sgsn_user_state", "FDDictionaryEntryAVP");
   ("m_avp_vendor_id", "FDDictionaryEntryAVP");
   ("m_avp_max_requested_bandwidth_ul", "FDDictionaryEntryAVP");
   ("m_avp_supported_features", "FDDictionaryEntryAVP");
   ("m_avp_non_ip_data_delivery_mechanism", "FDDictionaryEntryAVP");
   ("m_avp_monitoring_event_configuration", "FDDictionaryEntryAVP");
   ("m_avp_destination_realm", "FDDictionaryEntryAVP");
   ("m_avp_session_id", "FDDictionaryEntryAVP");
   ("m_avp_immediate_response_preferred", "FDDictionaryEntryAVP");
   ("m_avp_user_name", "FDDictionaryEntryAVP"); ("m_avp_scef_realm", "FDDictionaryEntryAVP");
   ("m_avp_sipto_permission", "FDDictionaryEntryAVP");
   ("m_avp_emergency_info", "FDDictionaryEntryAVP");
   ("m_avp_mdt_allowed_plmn_id", "FDDictionaryEntryAVP");
   ("m_avp_report_amount", "FDDictionaryEntryAVP");
   ("m_avp_csg_subscription_data", "FDDictionaryEntryAVP");
   ("m_avp_external_client", "FDDictionaryEntryAVP");
   ("m_avp_mip_home_agent_address", "FDDictionaryEntryAVP");
   ("m_avp_ue_srvcc_capability", "FDDictionaryEntryAVP");
   ("m_avp_measurement_period_umts", "FDDictionaryEntryAVP");
   ("m_avp_scef_reference_id_for_deletion", "FDDictionaryEntryAVP");
   ("m_avp_prose_subscription_data", "FDDictionaryEntryAVP");
   ("m_avp_service_result", "FDDictionaryEntryAVP");
   ("m_avp_location_information_configuration", "FDDictionaryEntryAVP");
   ("m_avp_ext_pdp_address", "FDDictionaryEntryAVP");
   ("m_avp_regional_subscription_zone_code", "FDDictionaryEntryAVP")].

Definition members : list (string * string) := members_1 ++ members_2.

(** Its constructor: the name each member looks up and the member whose vendor id
    it uses. *)
Definition initialisers_1 : list (string * string * option string) :=
  [("m_app", "S6as6d", None); ("m_cmd_uplr", "Update-Location-Request", None);
   ("m_cmd_upla", "Update-Location-Answer", None);
   ("m_cmd_calr", "Cancel-Location-Request", None);
   ("m_cmd_cala", "Cancel-Location-Answer", None);
   ("m_cmd_auir", "Authentication-Information-Request", None);
   ("m_cmd_auia", "Authentication-Information-Answer", None);
   ("m_cmd_insdr", "Insert-Subscriber-Data-Request", None);
   ("m_cmd_insda", "Insert-Subscriber-Data-Answer", None);
   ("m_cmd_desdr", "Delete-Subscriber-Data-Request", None);
   ("m_cmd_desda", "Delete-Subscriber-Data-Answer", None);
   ("m_cmd_puur", "Purge-UE-Request", None); ("m_cmd_puua", "Purge-UE-Answer", None);
   ("m_cmd_rer", "Reset-Request", None); ("m_cmd_rea", "Reset-Answer", None);
   ("m_vnd_3gpp", "3GPP", None); ("m_avp_ts_code", "TS-Code", Some "m_vnd_3gpp");
   ("m_avp_reachability_type", "Reachability-Type", Some "m_vnd_3gpp");
   ("m_avp_eps_user_state", "EPS-User-State", Some "m_vnd_3gpp");
   ("m_avp_pre_emption_capability", "Pre-emption-Capability", Some "m_vnd_3gpp");
   ("m_avp_feature_list_id", "Feature-List-ID", Some "m_vnd_3gpp");
   ("m_avp_service_area_identity", "Service-Area-Identity", Some "m_vnd_3gpp");
   ("m_avp_day_of_week_mask", "Day-Of-Week-Mask", None);
   ("m_avp_all_apn_configurations_included_indicator", "All-APN-Configurations-Included-Indicator", Some "m_vnd_3gpp");
   ("m_avp_e_utran_vector", "E-UTRAN-Vector", Some "m_vnd_3gpp");
   ("m_avp_pua_flags", "PUA-Flags", Some "m_vnd_3gpp");
   ("m_avp_maximum_response_time", "Maximum-Response-Time", Some "m_vnd_3gpp");
   ("m_avp_vendor_specific_application_id", "Vendor-Specific-Application-Id", None);
   ("m_avp_csg_access_mode", "CSG-Access-Mode", Some "m_vnd_3gpp");
   ("m_avp_additional_context_identifier", "Additional-Context-Identifier", Some "m_vnd_3gpp");
   ("m_avp_access_restriction_data", "Access-Restriction-Data", Some "m_vnd_3gpp");
   ("m_avp_mip6_home_link_prefix", "MIP6-Home-Link-Prefix", None);
   ("m_avp_gprs_subscription_data", "GPRS-Subscription-Data", Some "m_vnd_3gpp");
   ("m_avp_sres", "SRES", Some "m_vnd_3gpp"); ("m_avp_sourceid", "SourceID", None);
   ("m_avp_load_value", "Load-Value", None);
   ("m_avp_feature_list", "Feature-List", Some "m_vnd_3gpp");
   ("m_avp_apn_oi_replacement", "APN-OI-Replacement", Some "m_vnd_3gpp");
   ("m_avp_monitoring_event_config_status", "Monitoring-Event-Config-Status", Some "m_vnd_3gpp");
   ("m_avp_oc_report_type", "OC-Report-Type", None);
   ("m_avp_experimental_result", "Experimental-Result", None);
   ("m_avp_edrx_cycle_length", "eDRX-Cycle-Length", Some "m_vnd_3gpp");
   ("m_avp_ims_voice_over_ps_sessions_supported", "IMS-Voice-Over-PS-Sessions-Supported", Some "m_vnd_3gpp");
   ("m_avp_ue_usage_type", "UE-Usage-Type", Some "m_vnd_3gpp");
   ("m_avp_user_id", "User-Id", Some "m_vnd_3gpp");
   ("m_avp_lcs_privacyexception", "LCS-PrivacyException", Some "m_vnd_3gpp");
   ("m_avp_v2x_subscription_data", "V2X-Subscription-Data", Some "m_vnd_3gpp");
   ("m_avp_adjacent_access_restriction_data", "Adjacent-Access-Restriction-Data", Some "m_vnd_3gpp");
   ("m_avp_qos_class_identifier", "QoS-Class-Identifier", Some "m_vnd_3gpp");
   ("m_avp_ext_pdp_type", "Ext-PDP-Type", Some "m_vnd_3gpp");
   ("m_avp_oc_feature_vector", "OC-Feature-Vector", None);
   ("m_avp_relay_node_indicator", "Relay-Node-Indicator", Some "m_vnd_3gpp");
   ("m_avp_communication_duration_time", "Communication-Duration-Time", Some "m_vnd_3gpp");
   ("m_avp_acct_application_id", "Acct-Application-Id", None);
   ("m_avp_item_number", "Item-Number", Some "m_vnd_3gpp");
   ("m_avp_list_of_measurements", "List-Of-Measurements", Some "m_vnd_3gpp");
   ("m_avp_geran_vector", "GERAN-Vector", Some "m_vnd_3gpp");
   ("m_avp_auth_session_state", "Auth-Session-State", None);
   ("m_avp_eps_location_information", "EPS-Location-Information", Some "m_vnd_3gpp");
   ("m_avp_drmp", "DRMP", None);
   ("m_avp_trace_ne_type_list", "Trace-NE-Type-List", Some "m_vnd_3gpp");
   ("m_avp_adjacent_plmns", "Adjacent-PLMNs", Some "m_vnd_3gpp");
   ("m_avp_priority_level", "Priority-Level", Some "m_vnd_3gpp");
   ("m_avp_pre_emption_vulnerability", "Pre-emption-Vulnerability", Some "m_vnd_3gpp");
   ("m_avp_geodetic_information", "Geodetic-Information", Some "m_vnd_3gpp");
   ("m_avp_load_type", "Load-Type", None);
   ("m_avp_area_scope", "Area-Scope", Some "m_vnd_3gpp");
   ("m_avp_preferred_data_mode", "Preferred-Data-Mode", Some "m_vnd_3gpp");
   ("m_avp_imei", "IMEI", Some "m_vnd_3gpp");
   ("m_avp_reachability_information", "Reachability-Information", Some "m_vnd_3gpp");
   ("m_avp_node_type", "Node-Type", Some "m_vnd_3gpp");
   ("m_avp_clr_flags", "CLR-Flags", Some "m_vnd_3gpp");
   ("m_avp_call_barring_info", "Call-Barring-Info", Some "m_vnd_3gpp");
   ("m_avp_service_report", "Service-Report", Some "m_vnd_3gpp");
   ("m_avp_destination_host", "Destination-Host", None);
   ("m_avp_gmlc_address", "GMLC-Address", Some "m_vnd_3gpp");
   ("m_avp_location_area_identity", "Location-Area-Identity", Some "m_vnd_3gpp");
   ("m_avp_logging_interval", "Logging-Interval", Some "m_vnd_3gpp");
   ("m_avp_roaming_restricted_due_to_unsupported_feature", "Roaming-Restricted-Due-To-Unsupported-Feature", Some "m_vnd_3gpp");
   ("m_avp_rat_type", "RAT-Type", Some "m_vnd_3gpp");
   ("m_avp_edrx_cycle_length_value", "eDRX-Cycle-Length-Value", Some "m_vnd_3gpp");
   ("m_avp_time_zone", "Time-Zone", Some "m_vnd_3gpp");
   ("m_avp_msisdn", "MSISDN", Some "m_vnd_3gpp"); ("m_avp_mo_lr", "MO-LR", Some "m_vnd_3gpp");
   ("m_avp_active_apn", "Active-APN", Some "m_vnd_3gpp");
   ("m_avp_job_type", "Job-Type", Some "m_vnd_3gpp");
   ("m_avp_ss_code", "SS-Code", Some "m_vnd_3gpp");
   ("m_avp_time_of_day_start", "Time-Of-Day-Start", None);
   ("m_avp_wlan_offloadability", "WLAN-offloadability", Some "m_vnd_3gpp");
   ("m_avp_mip_home_agent_host", "MIP-Home-Agent-Host", None);
   ("m_avp_pdn_type", "PDN-Type", Some "m_vnd_3gpp");
   ("m_avp_communication_pattern_set", "Communication-Pattern-Set", Some "m_vnd_3gpp");
   ("m_avp_periodic_communication_indicator", "Periodic-Communication-Indicator", Some "m_vnd_3gpp");
   ("m_avp_prose_permission", "ProSe-Permission", Some "m_vnd_3gpp");
   ("m_avp_equivalent_plmn_list", "Equivalent-PLMN-List", Some "m_vnd_3gpp");
   ("m_avp_charged_party", "Charged-Party", Some "m_vnd_3gpp");
   ("m_avp_supported_services", "Supported-Services", Some "m_vnd_3gpp");
   ("m_avp_3gpp_charging_characteristics", "3GPP-Charging-Characteristics", Some "m_vnd_3gpp");
   ("m_avp_proxy_info", "Proxy-Info", None);
   ("m_avp_subscribed_periodic_rau_tau_timer", "Subscribed-Periodic-RAU-TAU-Timer", Some "m_vnd_3gpp");
   ("m_avp_ss_status", "SS-Status", Some "m_vnd_3gpp");
   ("m_avp_enodeb_id", "eNodeB-Id", Some "m_vnd_3gpp");
   ("m_avp_utran_vector", "UTRAN-Vector", Some "m_vnd_3gpp");
   ("m_avp_origin_realm", "Origin-Realm", None); ("m_avp_origin_host", "Origin-Host", None);
   ("m_avp_event_threshold_rsrq", "Event-Threshold-RSRQ", Some "m_vnd_3gpp");
   ("m_avp_vplmn_dynamic_address_allowed", "VPLMN-Dynamic-Address-Allowed", Some "m_vnd_3gpp");
   ("m_avp_accuracy", "Accuracy", Some "m_vnd_3gpp");
   ("m_avp_pur_flags", "PUR-Flags", Some "m_vnd_3gpp");
   ("m_avp_ue_reachability_configuration", "UE-Reachability-Configuration", Some "m_vnd_3gpp");
   ("m_avp_apn_configuration", "APN-Configuration", Some "m_vnd_3gpp");
   ("m_avp_a_msisdn", "A-MSISDN", Some "m_vnd_3gpp");
   ("m_avp_monte_location_type", "MONTE-Location-Type", Some "m_vnd_3gpp");
   ("m_avp_last_ue_activity_time", "Last-UE-Activity-Time", Some "m_vnd_3gpp");
   ("m_avp_local_time_zone", "Local-Time-Zone", Some "m_vnd_3gpp");
   ("m_avp_authentication_info", "Authentication-Info", Some "m_vnd_3gpp");
   ("m_avp_service_type", "Service-Type", Some "m_vnd_3gpp");
   ("m_avp_v2x_permission", "V2X-Permission", Some "m_vnd_3gpp");
   ("m_avp_pdp_address", "PDP-Address", Some "m_vnd_3gpp");
   ("m_avp_imsi_group_id", "IMSI-Group-Id", Some "m_vnd_3gpp");
   ("m_avp_dsr_flags", "DSR-Flags", Some "m_vnd_3gpp");
   ("m_avp_complete_data_list_included_indicator", "Complete-Data-List-Included-Indicator", Some "m_vnd_3gpp");
   ("m_avp_trace_collection_entity", "Trace-Collection-Entity", Some "m_vnd_3gpp");
   ("m_avp_wlan_offloadability_eutran", "WLAN-offloadability-EUTRAN", Some "m_vnd_3gpp");
   ("m_avp_route_record", "Route-Record", None);
   ("m_avp_subscription_data", "Subscription-Data", Some "m_vnd_3gpp")].

Definition initialisers_2 : list (string * string * option string) :=
  [("m_avp_reference_id_validity_time", "Reference-ID-Validity-Time", Some "m_vnd_3gpp");
   ("m_avp_dl_buffering_suggested_packet_count", "DL-Buffering-Suggested-Packet-Count", Some "m_vnd_3gpp");
   ("m_avp_scef_id", "SCEF-ID", Some "m_vnd_3gpp");
   ("m_avp_trace_event_list", "Trace-Event-List", Some "m_vnd_3gpp");
   ("m_avp_csg_id", "CSG-Id", Some "m_vnd_3gpp");
   ("m_avp_mdt_configuration", "MDT-Configuration", Some "m_vnd_3gpp");
   ("m_avp_error_diagnostic", "Error-Diagnostic", Some "m_vnd_3gpp");
   ("m_avp_routing_area_identity", "Routing-Area-Identity", Some "m_vnd_3gpp");
   ("m_avp_current_location_retrieved", "Current-Location-Retrieved", Some "m_vnd_3gpp");
   ("m_avp_user_csg_information", "User-CSG-Information", Some "m_vnd_3gpp");
   ("m_avp_mip6_agent_info", "MIP6-Agent-Info", Some "m_vnd_3gpp");
   ("m_avp_logging_duration", "Logging-Duration", Some "m_vnd_3gpp");
   ("m_avp_group_plmn_id", "Group-PLMN-Id", Some "m_vnd_3gpp");
   ("m_avp_collection_period_rrm_umts", "Collection-Period-RRM-UMTS", Some "m_vnd_3gpp");
   ("m_avp_ida_flags", "IDA-Flags", Some "m_vnd_3gpp");
   ("m_avp_non_ip_pdn_type_indicator", "Non-IP-PDN-Type-Indicator", Some "m_vnd_3gpp");
   ("m_avp_tracking_area_identity", "Tracking-Area-Identity", Some "m_vnd_3gpp");
   ("m_avp_oc_olr", "OC-OLR", None);
   ("m_avp_client_identity", "Client-Identity", Some "m_vnd_3gpp");
   ("m_avp_age_of_location_information", "Age-Of-Location-Information", Some "m_vnd_3gpp");
   ("m_avp_trace_data", "Trace-Data", Some "m_vnd_3gpp");
   ("m_avp_subscribed_vsrvcc", "Subscribed-VSRVCC", Some "m_vnd_3gpp");
   ("m_avp_plmn_client", "PLMN-Client", Some "m_vnd_3gpp");
   ("m_avp_vplmn_lipa_allowed", "VPLMN-LIPA-Allowed", Some "m_vnd_3gpp");
   ("m_avp_re_synchronization_info", "Re-Synchronization-Info", Some "m_vnd_3gpp");
   ("m_avp_air_flags", "AIR-Flags", Some "m_vnd_3gpp");
   ("m_avp_specific_apn_info", "Specific-APN-Info", Some "m_vnd_3gpp");
   ("m_avp_rand", "RAND", Some "m_vnd_3gpp");
   ("m_avp_oc_reduction_percentage", "OC-Reduction-Percentage", None);
   ("m_avp_report_interval", "Report-Interval", Some "m_vnd_3gpp");
   ("m_avp_eps_subscribed_qos_profile", "EPS-Subscribed-QoS-Profile", Some "m_vnd_3gpp");
   ("m_avp_service_result_code", "Service-Result-Code", Some "m_vnd_3gpp");
   ("m_avp_omc_id", "OMC-Id", Some "m_vnd_3gpp");
   ("m_avp_oc_sequence_number", "OC-Sequence-Number", None);
   ("m_avp_teleservice_list", "Teleservice-List", Some "m_vnd_3gpp");
   ("m_avp_apn_configuration_profile", "APN-Configuration-Profile", Some "m_vnd_3gpp");
   ("m_avp_event_threshold_event_1i", "Event-Threshold-Event-1I", Some "m_vnd_3gpp");
   ("m_avp_supported_monitoring_events", "Supported-Monitoring-Events", Some "m_vnd_3gpp");
   ("m_avp_dsa_flags", "DSA-Flags", Some "m_vnd_3gpp");
   ("m_avp_event_threshold_event_1f", "Event-Threshold-Event-1F", Some "m_vnd_3gpp");
   ("m_avp_allocation_retention_priority", "Allocation-Retention-Priority", Some "m_vnd_3gpp");
   ("m_avp_cell_global_identity", "Cell-Global-Identity", Some "m_vnd_3gpp");
   ("m_avp_oc_validity_duration", "OC-Validity-Duration", None);
   ("m_avp_ula_flags", "ULA-Flags", Some "m_vnd_3gpp");
   ("m_avp_csg_membership_indication", "CSG-Membership-Indication", Some "m_vnd_3gpp");
   ("m_avp_service_selection", "Service-Selection", None);
   ("m_avp_network_access_mode", "Network-Access-Mode", Some "m_vnd_3gpp");
   ("m_avp_3gpp2_meid", "3GPP2-MEID", Some "m_vnd_3gpp");
   ("m_avp_mme_location_information", "MME-Location-Information", Some "m_vnd_3gpp");
   ("m_avp_sgsn_location_information", "SGSN-Location-Information", Some "m_vnd_3gpp");
   ("m_avp_ulr_flags", "ULR-Flags", Some "m_vnd_3gpp");
   ("m_avp_measurement_period_lte", "Measurement-Period-LTE", Some "m_vnd_3gpp");
   ("m_avp_result_code", "Result-Code", None);
   ("m_avp_gmlc_restriction", "GMLC-Restriction", Some "m_vnd_3gpp");
   ("m_avp_user_state", "User-State", Some "m_vnd_3gpp");
   ("m_avp_sgs_mme_identity", "SGs-MME-Identity", Some "m_vnd_3gpp");
   ("m_avp_coupled_node_diameter_id", "Coupled-Node-Diameter-ID", Some "m_vnd_3gpp");
   ("m_avp_kc", "Kc", Some "m_vnd_3gpp");
   ("m_avp_wlan_offloadability_utran", "WLAN-offloadability-UTRAN", Some "m_vnd_3gpp");
   ("m_avp_servicetypeidentity", "ServiceTypeIdentity", Some "m_vnd_3gpp");
   ("m_avp_stn_sr", "STN-SR", Some "m_vnd_3gpp");
   ("m_avp_mme_number_for_mt_sms", "MME-Number-for-MT-SMS", Some "m_vnd_3gpp");
   ("m_avp_requested_utran_geran_authentication_info", "Requested-UTRAN-GERAN-Authentication-Info", Some "m_vnd_3gpp");
   ("m_avp_notification_to_ue_user", "Notification-To-UE-User", Some "m_vnd_3gpp");
   ("m_avp_homogeneous_support_of_ims_voice_over_ps_sessions", "Homogeneous-Support-of-IMS-Voice-Over-PS-Sessions", Some "m_vnd_3gpp");
   ("m_avp_pdp_context", "PDP-Context", Some "m_vnd_3gpp");
   ("m_avp_max_requested_bandwidth_dl", "Max-Requested-Bandwidth-DL", Some "m_vnd_3gpp");
   ("m_avp_trace_interface_list", "Trace-Interface-List", Some "m_vnd_3gpp");
   ("m_avp_pdn_connection_continuity", "PDN-Connection-Continuity", Some "m_vnd_3gpp");
   ("m_avp_scef_reference_id", "SCEF-Reference-ID", Some "m_vnd_3gpp");
   ("m_avp_sgsn_number", "SGSN-Number", Some "m_vnd_3gpp");
   ("m_avp_rat_frequency_selection_priority_id", "RAT-Frequency-Selection-Priority-ID", Some "m_vnd_3gpp");
   ("m_avp_number_of_requested_vectors", "Number-Of-Requested-Vectors", Some "m_vnd_3gpp");
   ("m_avp_subscription_data_deletion", "Subscription-Data-Deletion", Some "m_vnd_3gpp");
   ("m_avp_load", "Load", None);
   ("m_avp_context_identifier", "Context-Identifier", Some "m_vnd_3gpp");
   ("m_avp_integrity_key", "Integrity-Key", Some "m_vnd_3gpp");
   ("m_avp_confidentiality_key", "Confidentiality-Key", Some "m_vnd_3gpp");
   ("m_avp_e_utran_cell_global_identity", "E-UTRAN-Cell-Global-Identity", Some "m_vnd_3gpp");
   ("m_avp_oc_supported_features", "OC-Supported-Features", None);
   ("m_avp_monitoring_type", "Monitoring-Type", Some "m_vnd_3gpp");
   ("m_avp_ue_pc5_ambr", "UE-PC5-AMBR", Some "m_vnd_3gpp");
   ("m_avp_proxy_host", "Proxy-Host", None);
   ("m_avp_event_threshold_rsrp", "Event-Threshold-RSRP", Some "m_vnd_3gpp");
   ("m_avp_terminal_information", "Terminal-Information", Some "m_vnd_3gpp");
   ("m_avp_xres", "XRES", Some "m_vnd_3gpp");
   ("m_avp_subscriber_status", "Subscriber-Status", Some "m_vnd_3gpp");
   ("m_avp_experimental_result_code", "Experimental-Result-Code", None);
   ("m_avp_collection_period_rrm_lte", "Collection-Period-RRM-LTE", Some "m_vnd_3gpp");
   ("m_avp_maximum_number_of_reports", "Maximum-Number-of-Reports", Some "m_vnd_3gpp");
   ("m_avp_hplmn_odb", "HPLMN-ODB", Some "m_vnd_3gpp");
   ("m_avp_mme_user_state", "MME-User-State", Some "m_vnd_3gpp");
   ("m_avp_auth_application_id", "Auth-Application-Id", None);
   ("m_avp_reset_id", "Reset-ID", Some "m_vnd_3gpp");
   ("m_avp_lipa_permission", "LIPA-Permission", Some "m_vnd_3gpp");
   ("m_avp_requested_eutran_authentication_info", "Requested-EUTRAN-Authentication-Info", Some "m_vnd_3gpp");
   ("m_avp_mps_priority", "MPS-Priority", Some "m_vnd_3gpp");
   ("m_avp_monitoring_event_report", "Monitoring-Event-Report", Some "m_vnd_3gpp");
   ("m_avp_extended_enodeb_id", "Extended-eNodeB-Id", Some "m_vnd_3gpp");
   ("m_avp_idr_flags", "IDR-Flags", Some "m_vnd_3gpp");
   ("m_avp_aese_communication_pattern", "AESE-Communication-Pattern", Some "m_vnd_3gpp");
   ("m_avp_visited_network_identifier", "Visited-Network-Identifier", Some "m_vnd_3gpp");
   ("m_avp_lcs_info", "LCS-Info", Some "m_vnd_3gpp");
   ("m_avp_restoration_priority", "Restoration-Priority", Some "m_vnd_3gpp");
   ("m_avp_mdt_user_consent", "MDT-User-Consent", Some "m_vnd_3gpp");
   ("m_avp_cancellation_type", "Cancellation-Type", Some "m_vnd_3gpp");
   ("m_avp_stationary_indication", "Stationary-Indication", Some "m_vnd_3gpp");
   ("m_avp_pdn_gw_allocation_type", "PDN-GW-Allocation-Type", Some "m_vnd_3gpp");
   ("m_avp_gmlc_number", "GMLC-Number", Some "m_vnd_3gpp");
   ("m_avp_subscription_data_flags", "Subscription-Data-Flags", Some "m_vnd_3gpp");
   ("m_avp_ics_indicator", "ICS-Indicator", Some "m_vnd_3gpp");
   ("m_avp_visited_plmn_id", "Visited-PLMN-Id", Some "m_vnd_3gpp")].

Definition initialisers_3 : list (string * string * option string) :=
  [("m_avp_qos_subscribed", "QoS-Subscribed", Some "m_vnd_3gpp");
   ("m_avp_positioning_method", "Positioning-Method", Some "m_vnd_3gpp");
   ("m_avp_monitoring_duration", "Monitoring-Duration", Some "m_vnd_3gpp");
   ("m_avp_reporting_trigger", "Reporting-Trigger", Some "m_vnd_3gpp");
   ("m_avp_failed_avp", "Failed-AVP", None); ("m_avp_ambr", "AMBR", Some "m_vnd_3gpp");
   ("m_avp_daylight_saving_time", "Daylight-Saving-Time", Some "m_vnd_3gpp");
   ("m_avp_expiration_date", "Expiration-Date", Some "m_vnd_3gpp");
   ("m_avp_group_service_id", "Group-Service-Id", Some "m_vnd_3gpp");
   ("m_avp_trace_reference", "Trace-Reference", Some "m_vnd_3gpp");
   ("m_avp_local_group_id", "Local-Group-Id", Some "m_vnd_3gpp");
   ("m_avp_measurement_quantity", "Measurement-Quantity", Some "m_vnd_3gpp");
   ("m_avp_geographical_information", "Geographical-Information", Some "m_vnd_3gpp");
   ("m_avp_kasme", "KASME", Some "m_vnd_3gpp");
   ("m_avp_served_party_ip_address", "Served-Party-IP-Address", Some "m_vnd_3gpp");
   ("m_avp_trace_depth", "Trace-Depth", Some "m_vnd_3gpp");
   ("m_avp_scheduled_communication_time", "Scheduled-Communication-Time", Some "m_vnd_3gpp");
   ("m_avp_proxy_state", "Proxy-State", None);
   ("m_avp_operator_determined_barring", "Operator-Determined-Barring", Some "m_vnd_3gpp");
   ("m_avp_autn", "AUTN", Some "m_vnd_3gpp"); ("m_avp_pdp_type", "PDP-Type", Some "m_vnd_3gpp");
   ("m_avp_periodic_time", "Periodic-Time", Some "m_vnd_3gpp");
   ("m_avp_time_of_day_end", "Time-Of-Day-End", None);
   ("m_avp_software_version", "Software-Version", Some "m_vnd_3gpp");
   ("m_avp_sipto_local_network_permission", "SIPTO-Local-Network-Permission", Some "m_vnd_3gpp");
   ("m_avp_sms_register_request", "SMS-Register-Request", Some "m_vnd_3gpp");
   ("m_avp_sgsn_user_state", "SGSN-User-State", Some "m_vnd_3gpp");
   ("m_avp_vendor_id", "Vendor-Id", None);
   ("m_avp_max_requested_bandwidth_ul", "Max-Requested-Bandwidth-UL", Some "m_vnd_3gpp");
   ("m_avp_supported_features", "Supported-Features", Some "m_vnd_3gpp");
   ("m_avp_non_ip_data_delivery_mechanism", "Non-IP-Data-Delivery-Mechanism", Some "m_vnd_3gpp");
   ("m_avp_monitoring_event_configuration", "Monitoring-Event-Configuration", Some "m_vnd_3gpp");
   ("m_avp_destination_realm", "Destination-Realm", None);
   ("m_avp_session_id", "Session-Id", None);
   ("m_avp_immediate_response_preferred", "Immediate-Response-Preferred", Some "m_vnd_3gpp");
   ("m_avp_user_name", "User-Name", None);
   ("m_avp_scef_realm", "SCEF-Realm", Some "m_vnd_3gpp");
   ("m_avp_sipto_permission", "SIPTO-Permission", Some "m_vnd_3gpp");
   ("m_avp_emergency_info", "Emergency-Info", Some "m_vnd_3gpp");
   ("m_avp_mdt_allowed_plmn_id", "MDT-Allowed-PLMN-Id", Some "m_vnd_3gpp");
   ("m_avp_report_amount", "Report-Amount", Some "m_vnd_3gpp");
   ("m_avp_csg_subscription_data", "CSG-Subscription-Data", Some "m_vnd_3gpp");
   ("m_avp_external_client", "External-Client", Some "m_vnd_3gpp");
   ("m_avp_mip_home_agent_address", "MIP-Home-Agent-Address", None);
   ("m_avp_ue_srvcc_capability", "UE-SRVCC-Capability", Some "m_vnd_3gpp");
   ("m_avp_measurement_period_umts", "Measurement-Period-UMTS", Some "m_vnd_3gpp");
   ("m_avp_scef_reference_id_for_deletion", "SCEF-Reference-ID-for-Deletion", Some "m_vnd_3gpp");
   ("m_avp_prose_subscription_data", "ProSe-Subscription-Data", Some "m_vnd_3gpp");
   ("m_avp_service_result", "Service-Result", Some "m_vnd_3gpp");
   ("m_avp_location_information_configuration", "Location-Information-Configuration", Some "m_vnd_3gpp");
   ("m_avp_ext_pdp_address", "Ext-PDP-Address", Some "m_vnd_3gpp");
   ("m_avp_regional_subscription_zone_code", "Regional-Subscription-Zone-Code", Some "m_vnd_3gpp")].

Definition initialisers : list (string * string * option string) := initialisers_1 ++ initialisers_2 ++ initialisers_3.

(** The command and request classes, with their base classes. *)
Definition command_classes : list (string * string) :=
  [("UPLRcmd", "FDCommandRequest"); ("UPLRreq", "FDMessageRequest");
   ("CALRcmd", "FDCommandRequest"); ("CALRreq", "FDMessageRequest");
   ("AUIRcmd", "FDCommandRequest"); ("AUIRreq", "FDMessageRequest");
   ("INSDRcmd", "FDCommandRequest"); ("INSDRreq", "FDMessageRequest");
   ("DESDRcmd", "FDCommandRequest"); ("DESDRreq", "FDMessageRequest");
   ("PUURcmd", "FDCommandRequest"); ("PUURreq", "FDMessageRequest");
   ("RERcmd", "FDCommandRequest"); ("RERreq", "FDMessageRequest")].

(** Their constructors: the accessors whose entries the base class is given. *)
Definition command_constructors : list (string * list string) :=
  [("UPLRcmd", ["cmdUPLR"]); ("UPLRreq", ["app"; "cmdUPLR"]); ("CALRcmd", ["cmdCALR"]);
   ("CALRreq", ["app"; "cmdCALR"]); ("AUIRcmd", ["cmdAUIR"]); ("AUIRreq", ["app"; "cmdAUIR"]);
   ("INSDRcmd", ["cmdINSDR"]); ("INSDRreq", ["app"; "cmdINSDR"]); ("DESDRcmd", ["cmdDESDR"]);
   ("DESDRreq", ["app"; "cmdDESDR"]); ("PUURcmd", ["cmdPUUR"]); ("PUURreq", ["app"; "cmdPUUR"]);
   ("RERcmd", ["cmdRER"]); ("RERreq", ["app"; "cmdRER"])].

Definition MmeUserStateExtractor_members : list (string * string) :=
  [("user_state", "FDExtractorAvp")].
Definition MmeUserStateExtractor_ctor : constructor :=
  mk_ctor (Some "avpMmeUserState")
    [("user_state", Some "avpUserState")]
    ["user_state"].

Definition SgsnUserStateExtractor_members : list (string * string) :=
  [("user_state", "FDExtractorAvp")].
Definition SgsnUserStateExtractor_ctor : constructor :=
  mk_ctor (Some "avpSgsnUserState")
    [("user_state", Some "avpUserState")]
    ["user_state"].

Definition EpsUserStateExtractor_members : list (string * string) :=
  [("mme_user_state", "MmeUserStateExtractor"); ("sgsn_user_state", "SgsnUserStateExtractor")].
Definition EpsUserStateExtractor_ctor : constructor :=
  mk_ctor (Some "avpEpsUserState")
    [("mme_user_state", None); ("sgsn_user_state", None)]
    ["mme_user_state"; "sgsn_user_state"].

Definition EUtranVectorExtractor_members : list (string * string) :=
  [("item_number", "FDExtractorAvp"); ("rand", "FDExtractorAvp"); ("xres", "FDExtractorAvp");
   ("autn", "FDExtractorAvp"); ("kasme", "FDExtractorAvp")].
Definition EUtranVectorExtractor_ctor : constructor :=
  mk_ctor (Some "avpEUtranVector")
    [("item_number", Some "avpItemNumber"); ("rand", Some "avpRand"); ("xres", Some "avpXres");
     ("autn", Some "avpAutn"); ("kasme", Some "avpKasme")]
    ["item_number"; "rand"; "xres"; "autn"; "kasme"].

Definition VendorSpecificApplicationIdExtractor_members : list (string * string) :=
  [("vendor_id", "FDExtractorAvp"); ("auth_application_id", "FDExtractorAvp");
   ("acct_application_id", "FDExtractorAvp")].
Definition VendorSpecificApplicationIdExtractor_ctor : constructor :=
  mk_ctor (Some "avpVendorSpecificApplicationId")
    [("vendor_id", Some "avpVendorId"); ("auth_application_id", Some "avpAuthApplicationId");
     ("acct_application_id", Some "avpAcctApplicationId")]
    ["vendor_id"; "auth_application_id"; "acct_application_id"].

Definition AmbrExtractor_members : list (string * string) :=
  [("max_requested_bandwidth_ul", "FDExtractorAvp");
   ("max_requested_bandwidth_dl", "FDExtractorAvp")].
Definition AmbrExtractor_ctor : constructor :=
  mk_ctor (Some "avpAmbr")
    [("max_requested_bandwidth_ul", Some "avpMaxRequestedBandwidthUl");
     ("max_requested_bandwidth_dl", Some "avpMaxRequestedBandwidthDl")]
    ["max_requested_bandwidth_ul"; "max_requested_bandwidth_dl"].

Definition PdpContextExtractor_members : list (string * string) :=
  [("context_identifier", "FDExtractorAvp"); ("pdp_type", "FDExtractorAvp");
   ("pdp_address", "FDExtractorAvp"); ("qos_subscribed", "FDExtractorAvp");
   ("vplmn_dynamic_address_allowed", "FDExtractorAvp"); ("service_selection", "FDExtractorAvp");
   ("tgpp_charging_characteristics", "FDExtractorAvp"); ("ext_pdp_type", "FDExtractorAvp");
   ("ext_pdp_address", "FDExtractorAvp"); ("ambr", "AmbrExtractor");
   ("apn_oi_replacement", "FDExtractorAvp"); ("sipto_permission", "FDExtractorAvp");
   ("lipa_permission", "FDExtractorAvp"); ("restoration_priority", "FDExtractorAvp");
   ("sipto_local_network_permission", "FDExtractorAvp");
   ("non_ip_data_delivery_mechanism", "FDExtractorAvp"); ("scef_id", "FDExtractorAvp")].
Definition PdpContextExtractor_ctor : constructor :=
  mk_ctor (Some "avpPdpContext")
    [("context_identifier", Some "avpContextIdentifier"); ("pdp_type", Some "avpPdpType");
     ("pdp_address", Some "avpPdpAddress"); ("qos_subscribed", Some "avpQosSubscribed");
     ("vplmn_dynamic_address_allowed", Some "avpVplmnDynamicAddressAllowed");
     ("service_selection", Some "avpServiceSelection");
     ("tgpp_charging_characteristics", Some "avp3gppChargingCharacteristics");
     ("ext_pdp_type", Some "avpExtPdpType"); ("ext_pdp_address", Some "avpExtPdpAddress");
     ("ambr", None); ("apn_oi_replacement", Some "avpApnOiReplacement");
     ("sipto_permission", Some "avpSiptoPermission");
     ("lipa_permission", Some "avpLipaPermission");
     ("restoration_priority", Some "avpRestorationPriority");
     ("sipto_local_network_permission", Some "avpSiptoLocalNetworkPermission");
     ("non_ip_data_delivery_mechanism", Some "avpNonIpDataDeliveryMechanism");
     ("scef_id", Some "avpScefId")]
    ["context_identifier"; "pdp_type"; "pdp_address"; "qos_subscribed";
     "vplmn_dynamic_address_allowed"; "service_selection"; "tgpp_charging_characteristics";
     "ext_pdp_type"; "ext_pdp_address"; "ambr"; "apn_oi_replacement"; "sipto_permission";
     "lipa_permission"; "restoration_priority"; "sipto_local_network_permission";
     "non_ip_data_delivery_mechanism"; "scef_id"].

Definition GprsSubscriptionDataExtractor_members : list (string * string) :=
  [("complete_data_list_included_indicator", "FDExtractorAvp");
   ("pdp_context", "PdpContextExtractorList")].
Definition GprsSubscriptionDataExtractor_ctor : constructor :=
  mk_ctor (Some "avpGprsSubscriptionData")
    [("complete_data_list_included_indicator", Some "avpCompleteDataListIncludedIndicator");
     ("pdp_context", None)]
    ["complete_data_list_included_indicator"; "pdp_context"].

Definition ServiceResultExtractor_members : list (string * string) :=
  [("vendor_id", "FDExtractorAvp"); ("service_result_code", "FDExtractorAvp")].
Definition ServiceResultExtractor_ctor : constructor :=
  mk_ctor (Some "avpServiceResult")
    [("vendor_id", Some "avpVendorId"); ("service_result_code", Some "avpServiceResultCode")]
    ["vendor_id"; "service_result_code"].

Definition ServiceReportExtractor_members : list (string * string) :=
  [("service_result", "ServiceResultExtractor"); ("node_type", "FDExtractorAvp")].
Definition ServiceReportExtractor_ctor : constructor :=
  mk_ctor (Some "avpServiceReport")
    [("service_result", None); ("node_type", Some "avpNodeType")]
    ["service_result"; "node_type"].

Definition MonitoringEventConfigStatusExtractor_members : list (string * string) :=
  [("service_report", "ServiceReportExtractorList"); ("scef_reference_id", "FDExtractorAvp");
   ("scef_id", "FDExtractorAvp")].
Definition MonitoringEventConfigStatusExtractor_ctor : constructor :=
  mk_ctor (Some "avpMonitoringEventConfigStatus")
    [("service_report", None); ("scef_reference_id", Some "avpScefReferenceId");
     ("scef_id", Some "avpScefId")]
    ["service_report"; "scef_reference_id"; "scef_id"].

Definition ExperimentalResultExtractor_members : list (string * string) :=
  [("vendor_id", "FDExtractorAvp"); ("experimental_result_code", "FDExtractorAvp")].
Definition ExperimentalResultExtractor_ctor : constructor :=
  mk_ctor (Some "avpExperimentalResult")
    [("vendor_id", Some "avpVendorId");
     ("experimental_result_code", Some "avpExperimentalResultCode")]
    ["vendor_id"; "experimental_result_code"].

Definition EdrxCycleLengthExtractor_members : list (string * string) :=
  [("rat_type", "FDExtractorAvp"); ("edrx_cycle_length_value", "FDExtractorAvp")].
Definition EdrxCycleLengthExtractor_ctor : constructor :=
  mk_ctor (Some "avpEdrxCycleLength")
    [("rat_type", Some "avpRatType");
     ("edrx_cycle_length_value", Some "avpEdrxCycleLengthValue")]
    ["rat_type"; "edrx_cycle_length_value"].

Definition ExternalClientExtractor_members : list (string * string) :=
  [("client_identity", "FDExtractorAvp"); ("gmlc_restriction", "FDExtractorAvp");
   ("notification_to_ue_user", "FDExtractorAvp")].
Definition ExternalClientExtractor_ctor : constructor :=
  mk_ctor (Some "avpExternalClient")
    [("client_identity", Some "avpClientIdentity");
     ("gmlc_restriction", Some "avpGmlcRestriction");
     ("notification_to_ue_user", Some "avpNotificationToUeUser")]
    ["client_identity"; "gmlc_restriction"; "notification_to_ue_user"].

Definition ServiceTypeExtractor_members : list (string * string) :=
  [("servicetypeidentity", "FDExtractorAvp"); ("gmlc_restriction", "FDExtractorAvp");
   ("notification_to_ue_user", "FDExtractorAvp")].
Definition ServiceTypeExtractor_ctor : constructor :=
  mk_ctor (Some "avpServiceType")
    [("servicetypeidentity", Some "avpServicetypeidentity");
     ("gmlc_restriction", Some "avpGmlcRestriction");
     ("notification_to_ue_user", Some "avpNotificationToUeUser")]
    ["servicetypeidentity"; "gmlc_restriction"; "notification_to_ue_user"].

Definition LcsPrivacyexceptionExtractor_members : list (string * string) :=
  [("ss_code", "FDExtractorAvp"); ("ss_status", "FDExtractorAvp");
   ("notification_to_ue_user", "FDExtractorAvp");
   ("external_client", "ExternalClientExtractorList"); ("plmn_client", "FDExtractorAvpList");
   ("service_type", "ServiceTypeExtractorList")].
Definition LcsPrivacyexceptionExtractor_ctor : constructor :=
  mk_ctor (Some "avpLcsPrivacyexception")
    [("ss_code", Some "avpSsCode"); ("ss_status", Some "avpSsStatus");
     ("notification_to_ue_user", Some "avpNotificationToUeUser"); ("external_client", None);
     ("plmn_client", Some "avpPlmnClient"); ("service_type", None)]
    ["ss_code"; "ss_status"; "notification_to_ue_user"; "external_client"; "plmn_client";
     "service_type"].

Definition V2xSubscriptionDataExtractor_members : list (string * string) :=
  [("v2x_permission", "FDExtractorAvp"); ("ue_pc5_ambr", "FDExtractorAvp")].
Definition V2xSubscriptionDataExtractor_ctor : constructor :=
  mk_ctor (Some "avpV2xSubscriptionData")
    [("v2x_permission", Some "avpV2xPermission"); ("ue_pc5_ambr", Some "avpUePc5Ambr")]
    ["v2x_permission"; "ue_pc5_ambr"].

Definition AdjacentAccessRestrictionDataExtractor_members : list (string * string) :=
  [("visited_plmn_id", "FDExtractorAvp"); ("access_restriction_data", "FDExtractorAvp")].
Definition AdjacentAccessRestrictionDataExtractor_ctor : constructor :=
  mk_ctor (Some "avpAdjacentAccessRestrictionData")
    [("visited_plmn_id", Some "avpVisitedPlmnId");
     ("access_restriction_data", Some "avpAccessRestrictionData")]
    ["visited_plmn_id"; "access_restriction_data"].

Definition GeranVectorExtractor_members : list (string * string) :=
  [("item_number", "FDExtractorAvp"); ("rand", "FDExtractorAvp"); ("sres", "FDExtractorAvp");
   ("kc", "FDExtractorAvp")].
Definition GeranVectorExtractor_ctor : constructor :=
  mk_ctor (Some "avpGeranVector")
    [("item_number", Some "avpItemNumber"); ("rand", Some "avpRand"); ("sres", Some "avpSres");
     ("kc", Some "avpKc")]
    ["item_number"; "rand"; "sres"; "kc"].

Definition UserCsgInformationExtractor_members : list (string * string) :=
  [("csg_id", "FDExtractorAvp"); ("csg_access_mode", "FDExtractorAvp");
   ("csg_membership_indication", "FDExtractorAvp")].
Definition UserCsgInformationExtractor_ctor : constructor :=
  mk_ctor (Some "avpUserCsgInformation")
    [("csg_id", Some "avpCsgId"); ("csg_access_mode", Some "avpCsgAccessMode");
     ("csg_membership_indication", Some "avpCsgMembershipIndication")]
    ["csg_id"; "csg_access_mode"; "csg_membership_indication"].

Definition MmeLocationInformationExtractor_members : list (string * string) :=
  [("e_utran_cell_global_identity", "FDExtractorAvp");
   ("tracking_area_identity", "FDExtractorAvp"); ("geographical_information", "FDExtractorAvp");
   ("geodetic_information", "FDExtractorAvp"); ("current_location_retrieved", "FDExtractorAvp");
   ("age_of_location_information", "FDExtractorAvp");
   ("user_csg_information", "UserCsgInformationExtractor"); ("enodeb_id", "FDExtractorAvp");
   ("extended_enodeb_id", "FDExtractorAvp")].
Definition MmeLocationInformationExtractor_ctor : constructor :=
  mk_ctor (Some "avpMmeLocationInformation")
    [("e_utran_cell_global_identity", Some "avpEUtranCellGlobalIdentity");
     ("tracking_area_identity", Some "avpTrackingAreaIdentity");
     ("geographical_information", Some "avpGeographicalInformation");
     ("geodetic_information", Some "avpGeodeticInformation");
     ("current_location_retrieved", Some "avpCurrentLocationRetrieved");
     ("age_of_location_information", Some "avpAgeOfLocationInformation");
     ("user_csg_information", None); ("enodeb_id", Some "avpEnodebId");
     ("extended_enodeb_id", Some "avpExtendedEnodebId")]
    ["e_utran_cell_global_identity"; "tracking_area_identity"; "geographical_information";
     "geodetic_information"; "current_location_retrieved"; "age_of_location_information";
     "user_csg_information"; "enodeb_id"; "extended_enodeb_id"].

Definition SgsnLocationInformationExtractor_members : list (string * string) :=
  [("cell_global_identity", "FDExtractorAvp"); ("location_area_identity", "FDExtractorAvp");
   ("service_area_identity", "FDExtractorAvp"); ("routing_area_identity", "FDExtractorAvp");
   ("geographical_information", "FDExtractorAvp"); ("geodetic_information", "FDExtractorAvp");
   ("current_location_retrieved", "FDExtractorAvp");
   ("age_of_location_information", "FDExtractorAvp");
   ("user_csg_information", "UserCsgInformationExtractor")].
Definition SgsnLocationInformationExtractor_ctor : constructor :=
  mk_ctor (Some "avpSgsnLocationInformation")
    [("cell_global_identity", Some "avpCellGlobalIdentity");
     ("location_area_identity", Some "avpLocationAreaIdentity");
     ("service_area_identity", Some "avpServiceAreaIdentity");
     ("routing_area_identity", Some "avpRoutingAreaIdentity");
     ("geographical_information", Some "avpGeographicalInformation");
     ("geodetic_information", Some "avpGeodeticInformation");
     ("current_location_retrieved", Some "avpCurrentLocationRetrieved");
     ("age_of_location_information", Some "avpAgeOfLocationInformation");
     ("user_csg_information", None)]
    ["cell_global_identity"; "location_area_identity"; "service_area_identity";
     "routing_area_identity"; "geographical_information"; "geodetic_information";
     "current_location_retrieved"; "age_of_location_information"; "user_csg_information"].

Definition EpsLocationInformationExtractor_members : list (string * string) :=
  [("mme_location_information", "MmeLocationInformationExtractor");
   ("sgsn_location_information", "SgsnLocationInformationExtractor")].
Definition EpsLocationInformationExtractor_ctor : constructor :=
  mk_ctor (Some "avpEpsLocationInformation")
    [("mme_location_information", None); ("sgsn_location_information", None)]
    ["mme_location_information"; "sgsn_location_information"].

Definition AdjacentPlmnsExtractor_members : list (string * string) :=
  [("visited_plmn_id", "FDExtractorAvpList")].
Definition AdjacentPlmnsExtractor_ctor : constructor :=
  mk_ctor (Some "avpAdjacentPlmns")
    [("visited_plmn_id", Some "avpVisitedPlmnId")]
    ["visited_plmn_id"].

Definition AreaScopeExtractor_members : list (string * string) :=
  [("cell_global_identity", "FDExtractorAvpList");
   ("e_utran_cell_global_identity", "FDExtractorAvpList");
   ("routing_area_identity", "FDExtractorAvpList");
   ("location_area_identity", "FDExtractorAvpList");
   ("tracking_area_identity", "FDExtractorAvpList")].
Definition AreaScopeExtractor_ctor : constructor :=
  mk_ctor (Some "avpAreaScope")
    [("cell_global_identity", Some "avpCellGlobalIdentity");
     ("e_utran_cell_global_identity", Some "avpEUtranCellGlobalIdentity");
     ("routing_area_identity", Some "avpRoutingAreaIdentity");
     ("location_area_identity", Some "avpLocationAreaIdentity");
     ("tracking_area_identity", Some "avpTrackingAreaIdentity")]
    ["cell_global_identity"; "e_utran_cell_global_identity"; "routing_area_identity";
     "location_area_identity"; "tracking_area_identity"].

Definition CallBarringInfoExtractor_members : list (string * string) :=
  [("ss_code", "FDExtractorAvp"); ("ss_status", "FDExtractorAvp")].
Definition CallBarringInfoExtractor_ctor : constructor :=
  mk_ctor (Some "avpCallBarringInfo")
    [("ss_code", Some "avpSsCode"); ("ss_status", Some "avpSsStatus")]
    ["ss_code"; "ss_status"].

Definition MoLrExtractor_members : list (string * string) :=
  [("ss_code", "FDExtractorAvp"); ("ss_status", "FDExtractorAvp")].
Definition MoLrExtractor_ctor : constructor :=
  mk_ctor (Some "avpMoLr")
    [("ss_code", Some "avpSsCode"); ("ss_status", Some "avpSsStatus")]
    ["ss_code"; "ss_status"].

Definition Mip6AgentInfoExtractor_members : list (string * string) :=
  [("mip_home_agent_address", "FDExtractorAvpList"); ("mip_home_agent_host", "FDExtractorAvp");
   ("mip6_home_link_prefix", "FDExtractorAvp")].
Definition Mip6AgentInfoExtractor_ctor : constructor :=
  mk_ctor (Some "avpMip6AgentInfo")
    [("mip_home_agent_address", Some "avpMipHomeAgentAddress");
     ("mip_home_agent_host", Some "avpMipHomeAgentHost");
     ("mip6_home_link_prefix", Some "avpMip6HomeLinkPrefix")]
    ["mip_home_agent_address"; "mip_home_agent_host"; "mip6_home_link_prefix"].

Definition SpecificApnInfoExtractor_members : list (string * string) :=
  [("service_selection", "FDExtractorAvp"); ("mip6_agent_info", "Mip6AgentInfoExtractor");
   ("visited_network_identifier", "FDExtractorAvp")].
Definition SpecificApnInfoExtractor_ctor : constructor :=
  mk_ctor (Some "avpSpecificApnInfo")
    [("service_selection", Some "avpServiceSelection"); ("mip6_agent_info", None);
     ("visited_network_identifier", Some "avpVisitedNetworkIdentifier")]
    ["service_selection"; "mip6_agent_info"; "visited_network_identifier"].

Definition ActiveApnExtractor_members : list (string * string) :=
  [("context_identifier", "FDExtractorAvp"); ("service_selection", "FDExtractorAvp");
   ("mip6_agent_info", "Mip6AgentInfoExtractor");
   ("visited_network_identifier", "FDExtractorAvp");
   ("specific_apn_info", "SpecificApnInfoExtractorList")].
Definition ActiveApnExtractor_ctor : constructor :=
  mk_ctor (Some "avpActiveApn")
    [("context_identifier", Some "avpContextIdentifier");
     ("service_selection", Some "avpServiceSelection"); ("mip6_agent_info", None);
     ("visited_network_identifier", Some "avpVisitedNetworkIdentifier");
     ("specific_apn_info", None)]
    ["context_identifier"; "service_selection"; "mip6_agent_info"; "visited_network_identifier";
     "specific_apn_info"].

Definition WlanOffloadabilityExtractor_members : list (string * string) :=
  [("wlan_offloadability_eutran", "FDExtractorAvp");
   ("wlan_offloadability_utran", "FDExtractorAvp")].
Definition WlanOffloadabilityExtractor_ctor : constructor :=
  mk_ctor (Some "avpWlanOffloadability")
    [("wlan_offloadability_eutran", Some "avpWlanOffloadabilityEutran");
     ("wlan_offloadability_utran", Some "avpWlanOffloadabilityUtran")]
    ["wlan_offloadability_eutran"; "wlan_offloadability_utran"].

Definition ScheduledCommunicationTimeExtractor_members : list (string * string) :=
  [("day_of_week_mask", "FDExtractorAvp"); ("time_of_day_start", "FDExtractorAvp");
   ("time_of_day_end", "FDExtractorAvp")].
Definition ScheduledCommunicationTimeExtractor_ctor : constructor :=
  mk_ctor (Some "avpScheduledCommunicationTime")
    [("day_of_week_mask", Some "avpDayOfWeekMask");
     ("time_of_day_start", Some "avpTimeOfDayStart");
     ("time_of_day_end", Some "avpTimeOfDayEnd")]
    ["day_of_week_mask"; "time_of_day_start"; "time_of_day_end"].

Definition CommunicationPatternSetExtractor_members : list (string * string) :=
  [("periodic_communication_indicator", "FDExtractorAvp");
   ("communication_duration_time", "FDExtractorAvp"); ("periodic_time", "FDExtractorAvp");
   ("scheduled_communication_time", "ScheduledCommunicationTimeExtractorList");
   ("stationary_indication", "FDExtractorAvp");
   ("reference_id_validity_time", "FDExtractorAvp")].
Definition CommunicationPatternSetExtractor_ctor : constructor :=
  mk_ctor (Some "avpCommunicationPatternSet")
    [("periodic_communication_indicator", Some "avpPeriodicCommunicationIndicator");
     ("communication_duration_time", Some "avpCommunicationDurationTime");
     ("periodic_time", Some "avpPeriodicTime"); ("scheduled_communication_time", None);
     ("stationary_indication", Some "avpStationaryIndication");
     ("reference_id_validity_time", Some "avpReferenceIdValidityTime")]
    ["periodic_communication_indicator"; "communication_duration_time"; "periodic_time";
     "scheduled_communication_time"; "stationary_indication"; "reference_id_validity_time"].

Definition EquivalentPlmnListExtractor_members : list (string * string) :=
  [("visited_plmn_id", "FDExtractorAvpList")].
Definition EquivalentPlmnListExtractor_ctor : constructor :=
  mk_ctor (Some "avpEquivalentPlmnList")
    [("visited_plmn_id", Some "avpVisitedPlmnId")]
    ["visited_plmn_id"].

Definition SupportedServicesExtractor_members : list (string * string) :=
  [("supported_monitoring_events", "FDExtractorAvp")].
Definition SupportedServicesExtractor_ctor : constructor :=
  mk_ctor (Some "avpSupportedServices")
    [("supported_monitoring_events", Some "avpSupportedMonitoringEvents")]
    ["supported_monitoring_events"].

Definition ProxyInfoExtractor_members : list (string * string) :=
  [("proxy_host", "FDExtractorAvp"); ("proxy_state", "FDExtractorAvp")].
Definition ProxyInfoExtractor_ctor : constructor :=
  mk_ctor (Some "avpProxyInfo")
    [("proxy_host", Some "avpProxyHost"); ("proxy_state", Some "avpProxyState")]
    ["proxy_host"; "proxy_state"].

Definition UtranVectorExtractor_members : list (string * string) :=
  [("item_number", "FDExtractorAvp"); ("rand", "FDExtractorAvp"); ("xres", "FDExtractorAvp");
   ("autn", "FDExtractorAvp"); ("confidentiality_key", "FDExtractorAvp");
   ("integrity_key", "FDExtractorAvp")].
Definition UtranVectorExtractor_ctor : constructor :=
  mk_ctor (Some "avpUtranVector")
    [("item_number", Some "avpItemNumber"); ("rand", Some "avpRand"); ("xres", Some "avpXres");
     ("autn", Some "avpAutn"); ("confidentiality_key", Some "avpConfidentialityKey");
     ("integrity_key", Some "avpIntegrityKey")]
    ["item_number"; "rand"; "xres"; "autn"; "confidentiality_key"; "integrity_key"].

Definition UeReachabilityConfigurationExtractor_members : list (string * string) :=
  [("reachability_type", "FDExtractorAvp"); ("maximum_response_time", "FDExtractorAvp")].
Definition UeReachabilityConfigurationExtractor_ctor : constructor :=
  mk_ctor (Some "avpUeReachabilityConfiguration")
    [("reachability_type", Some "avpReachabilityType");
     ("maximum_response_time", Some "avpMaximumResponseTime")]
    ["reachability_type"; "maximum_response_time"].

Definition AllocationRetentionPriorityExtractor_members : list (string * string) :=
  [("priority_level", "FDExtractorAvp"); ("pre_emption_capability", "FDExtractorAvp");
   ("pre_emption_vulnerability", "FDExtractorAvp")].
Definition AllocationRetentionPriorityExtractor_ctor : constructor :=
  mk_ctor (Some "avpAllocationRetentionPriority")
    [("priority_level", Some "avpPriorityLevel");
     ("pre_emption_capability", Some "avpPreEmptionCapability");
     ("pre_emption_vulnerability", Some "avpPreEmptionVulnerability")]
    ["priority_level"; "pre_emption_capability"; "pre_emption_vulnerability"].

Definition EpsSubscribedQosProfileExtractor_members : list (string * string) :=
  [("qos_class_identifier", "FDExtractorAvp");
   ("allocation_retention_priority", "AllocationRetentionPriorityExtractor")].
Definition EpsSubscribedQosProfileExtractor_ctor : constructor :=
  mk_ctor (Some "avpEpsSubscribedQosProfile")
    [("qos_class_identifier", Some "avpQosClassIdentifier");
     ("allocation_retention_priority", None)]
    ["qos_class_identifier"; "allocation_retention_priority"].

Definition ApnConfigurationExtractor_members : list (string * string) :=
  [("context_identifier", "FDExtractorAvp"); ("served_party_ip_address", "FDExtractorAvpList");
   ("pdn_type", "FDExtractorAvp"); ("service_selection", "FDExtractorAvp");
   ("eps_subscribed_qos_profile", "EpsSubscribedQosProfileExtractor");
   ("vplmn_dynamic_address_allowed", "FDExtractorAvp");
   ("mip6_agent_info", "Mip6AgentInfoExtractor");
   ("visited_network_identifier", "FDExtractorAvp");
   ("pdn_gw_allocation_type", "FDExtractorAvp");
   ("tgpp_charging_characteristics", "FDExtractorAvp"); ("ambr", "AmbrExtractor");
   ("specific_apn_info", "SpecificApnInfoExtractorList");
   ("apn_oi_replacement", "FDExtractorAvp"); ("sipto_permission", "FDExtractorAvp");
   ("lipa_permission", "FDExtractorAvp"); ("restoration_priority", "FDExtractorAvp");
   ("sipto_local_network_permission", "FDExtractorAvp");
   ("wlan_offloadability", "WlanOffloadabilityExtractor");
   ("non_ip_pdn_type_indicator", "FDExtractorAvp");
   ("non_ip_data_delivery_mechanism", "FDExtractorAvp"); ("scef_id", "FDExtractorAvp");
   ("scef_realm", "FDExtractorAvp"); ("preferred_data_mode", "FDExtractorAvp");
   ("pdn_connection_continuity", "FDExtractorAvp")].
Definition ApnConfigurationExtractor_ctor : constructor :=
  mk_ctor (Some "avpApnConfiguration")
    [("context_identifier", Some "avpContextIdentifier");
     ("served_party_ip_address", Some "avpServedPartyIpAddress");
     ("pdn_type", Some "avpPdnType"); ("service_selection", Some "avpServiceSelection");
     ("eps_subscribed_qos_profile", None);
     ("vplmn_dynamic_address_allowed", Some "avpVplmnDynamicAddressAllowed");
     ("mip6_agent_info", None);
     ("visited_network_identifier", Some "avpVisitedNetworkIdentifier");
     ("pdn_gw_allocation_type", Some "avpPdnGwAllocationType");
     ("tgpp_charging_characteristics", Some "avp3gppChargingCharacteristics"); ("ambr", None);
     ("specific_apn_info", None); ("apn_oi_replacement", Some "avpApnOiReplacement");
     ("sipto_permission", Some "avpSiptoPermission");
     ("lipa_permission", Some "avpLipaPermission");
     ("restoration_priority", Some "avpRestorationPriority");
     ("sipto_local_network_permission", Some "avpSiptoLocalNetworkPermission");
     ("wlan_offloadability", None);
     ("non_ip_pdn_type_indicator", Some "avpNonIpPdnTypeIndicator");
     ("non_ip_data_delivery_mechanism", Some "avpNonIpDataDeliveryMechanism");
     ("scef_id", Some "avpScefId"); ("scef_realm", Some "avpScefRealm");
     ("preferred_data_mode", Some "avpPreferredDataMode");
     ("pdn_connection_continuity", Some "avpPdnConnectionContinuity")]
    ["context_identifier"; "served_party_ip_address"; "pdn_type"; "service_selection";
     "eps_subscribed_qos_profile"; "vplmn_dynamic_address_allowed"; "mip6_agent_info";
     "visited_network_identifier"; "pdn_gw_allocation_type"; "tgpp_charging_characteristics";
     "ambr"; "specific_apn_info"; "apn_oi_replacement"; "sipto_permission"; "lipa_permission";
     "restoration_priority"; "sipto_local_network_permission"; "wlan_offloadability";
     "non_ip_pdn_type_indicator"; "non_ip_data_delivery_mechanism"; "scef_id"; "scef_realm";
     "preferred_data_mode"; "pdn_connection_continuity"].

Definition LocalTimeZoneExtractor_members : list (string * string) :=
  [("time_zone", "FDExtractorAvp"); ("daylight_saving_time", "FDExtractorAvp")].
Definition LocalTimeZoneExtractor_ctor : constructor :=
  mk_ctor (Some "avpLocalTimeZone")
    [("time_zone", Some "avpTimeZone"); ("daylight_saving_time", Some "avpDaylightSavingTime")]
    ["time_zone"; "daylight_saving_time"].

Definition AuthenticationInfoExtractor_members : list (string * string) :=
  [("e_utran_vector", "EUtranVectorExtractorList");
   ("utran_vector", "UtranVectorExtractorList"); ("geran_vector", "GeranVectorExtractorList")].
Definition AuthenticationInfoExtractor_ctor : constructor :=
  mk_ctor (Some "avpAuthenticationInfo")
    [("e_utran_vector", None); ("utran_vector", None); ("geran_vector", None)]
    ["e_utran_vector"; "utran_vector"; "geran_vector"].

Definition ImsiGroupIdExtractor_members : list (string * string) :=
  [("group_service_id", "FDExtractorAvp"); ("group_plmn_id", "FDExtractorAvp");
   ("local_group_id", "FDExtractorAvp")].
Definition ImsiGroupIdExtractor_ctor : constructor :=
  mk_ctor (Some "avpImsiGroupId")
    [("group_service_id", Some "avpGroupServiceId"); ("group_plmn_id", Some "avpGroupPlmnId");
     ("local_group_id", Some "avpLocalGroupId")]
    ["group_service_id"; "group_plmn_id"; "local_group_id"].

Definition LcsInfoExtractor_members : list (string * string) :=
  [("gmlc_number", "FDExtractorAvpList");
   ("lcs_privacyexception", "LcsPrivacyexceptionExtractorList"); ("mo_lr", "MoLrExtractorList")].
Definition LcsInfoExtractor_ctor : constructor :=
  mk_ctor (Some "avpLcsInfo")
    [("gmlc_number", Some "avpGmlcNumber"); ("lcs_privacyexception", None); ("mo_lr", None)]
    ["gmlc_number"; "lcs_privacyexception"; "mo_lr"].

Definition TeleserviceListExtractor_members : list (string * string) :=
  [("ts_code", "FDExtractorAvpList")].
Definition TeleserviceListExtractor_ctor : constructor :=
  mk_ctor (Some "avpTeleserviceList")
    [("ts_code", Some "avpTsCode")]
    ["ts_code"].

Definition ApnConfigurationProfileExtractor_members : list (string * string) :=
  [("context_identifier", "FDExtractorAvp");
   ("additional_context_identifier", "FDExtractorAvp");
   ("all_apn_configurations_included_indicator", "FDExtractorAvp");
   ("apn_configuration", "ApnConfigurationExtractorList")].
Definition ApnConfigurationProfileExtractor_ctor : constructor :=
  mk_ctor (Some "avpApnConfigurationProfile")
    [("context_identifier", Some "avpContextIdentifier");
     ("additional_context_identifier", Some "avpAdditionalContextIdentifier");
     ("all_apn_configurations_included_indicator", Some "avpAllApnConfigurationsIncludedIndicator");
     ("apn_configuration", None)]
    ["context_identifier"; "additional_context_identifier";
     "all_apn_configurations_included_indicator"; "apn_configuration"].

Definition MdtConfigurationExtractor_members : list (string * string) :=
  [("job_type", "FDExtractorAvp"); ("area_scope", "AreaScopeExtractor");
   ("list_of_measurements", "FDExtractorAvp"); ("reporting_trigger", "FDExtractorAvp");
   ("report_interval", "FDExtractorAvp"); ("report_amount", "FDExtractorAvp");
   ("event_threshold_rsrp", "FDExtractorAvp"); ("event_threshold_rsrq", "FDExtractorAvp");
   ("logging_interval", "FDExtractorAvp"); ("logging_duration", "FDExtractorAvp");
   ("measurement_period_lte", "FDExtractorAvp"); ("measurement_period_umts", "FDExtractorAvp");
   ("collection_period_rrm_lte", "FDExtractorAvp");
   ("collection_period_rrm_umts", "FDExtractorAvp"); ("positioning_method", "FDExtractorAvp");
   ("measurement_quantity", "FDExtractorAvp"); ("event_threshold_event_1f", "FDExtractorAvp");
   ("event_threshold_event_1i", "FDExtractorAvp");
   ("mdt_allowed_plmn_id", "FDExtractorAvpList")].
Definition MdtConfigurationExtractor_ctor : constructor :=
  mk_ctor (Some "avpMdtConfiguration")
    [("job_type", Some "avpJobType"); ("area_scope", None);
     ("list_of_measurements", Some "avpListOfMeasurements");
     ("reporting_trigger", Some "avpReportingTrigger");
     ("report_interval", Some "avpReportInterval"); ("report_amount", Some "avpReportAmount");
     ("event_threshold_rsrp", Some "avpEventThresholdRsrp");
     ("event_threshold_rsrq", Some "avpEventThresholdRsrq");
     ("logging_interval", Some "avpLoggingInterval");
     ("logging_duration", Some "avpLoggingDuration");
     ("measurement_period_lte", Some "avpMeasurementPeriodLte");
     ("measurement_period_umts", Some "avpMeasurementPeriodUmts");
     ("collection_period_rrm_lte", Some "avpCollectionPeriodRrmLte");
     ("collection_period_rrm_umts", Some "avpCollectionPeriodRrmUmts");
     ("positioning_method", Some "avpPositioningMethod");
     ("measurement_quantity", Some "avpMeasurementQuantity");
     ("event_threshold_event_1f", Some "avpEventThresholdEvent1f");
     ("event_threshold_event_1i", Some "avpEventThresholdEvent1i");
     ("mdt_allowed_plmn_id", Some "avpMdtAllowedPlmnId")]
    ["job_type"; "area_scope"; "list_of_measurements"; "reporting_trigger"; "report_interval";
     "report_amount"; "event_threshold_rsrp"; "event_threshold_rsrq"; "logging_interval";
     "logging_duration"; "measurement_period_lte"; "measurement_period_umts";
     "collection_period_rrm_lte"; "collection_period_rrm_umts"; "positioning_method";
     "measurement_quantity"; "event_threshold_event_1f"; "event_threshold_event_1i";
     "mdt_allowed_plmn_id"].

Definition TraceDataExtractor_members : list (string * string) :=
  [("trace_reference", "FDExtractorAvp"); ("trace_depth", "FDExtractorAvp");
   ("trace_ne_type_list", "FDExtractorAvp"); ("trace_interface_list", "FDExtractorAvp");
   ("trace_event_list", "FDExtractorAvp"); ("omc_id", "FDExtractorAvp");
   ("trace_collection_entity", "FDExtractorAvp");
   ("mdt_configuration", "MdtConfigurationExtractor")].
Definition TraceDataExtractor_ctor : constructor :=
  mk_ctor (Some "avpTraceData")
    [("trace_reference", Some "avpTraceReference"); ("trace_depth", Some "avpTraceDepth");
     ("trace_ne_type_list", Some "avpTraceNeTypeList");
     ("trace_interface_list", Some "avpTraceInterfaceList");
     ("trace_event_list", Some "avpTraceEventList"); ("omc_id", Some "avpOmcId");
     ("trace_collection_entity", Some "avpTraceCollectionEntity"); ("mdt_configuration", None)]
    ["trace_reference"; "trace_depth"; "trace_ne_type_list"; "trace_interface_list";
     "trace_event_list"; "omc_id"; "trace_collection_entity"; "mdt_configuration"].

Definition CsgSubscriptionDataExtractor_members : list (string * string) :=
  [("csg_id", "FDExtractorAvp"); ("expiration_date", "FDExtractorAvp");
   ("service_selection", "FDExtractorAvpList"); ("visited_plmn_id", "FDExtractorAvp")].
Definition CsgSubscriptionDataExtractor_ctor : constructor :=
  mk_ctor (Some "avpCsgSubscriptionData")
    [("csg_id", Some "avpCsgId"); ("expiration_date", Some "avpExpirationDate");
     ("service_selection", Some "avpServiceSelection");
     ("visited_plmn_id", Some "avpVisitedPlmnId")]
    ["csg_id"; "expiration_date"; "service_selection"; "visited_plmn_id"].

Definition ProseSubscriptionDataExtractor_members : list (string * string) :=
  [("prose_permission", "FDExtractorAvp")].
Definition ProseSubscriptionDataExtractor_ctor : constructor :=
  mk_ctor (Some "avpProseSubscriptionData")
    [("prose_permission", Some "avpProsePermission")]
    ["prose_permission"].

Definition AeseCommunicationPatternExtractor_members : list (string * string) :=
  [("scef_reference_id", "FDExtractorAvp"); ("scef_id", "FDExtractorAvp");
   ("scef_reference_id_for_deletion", "FDExtractorAvpList");
   ("communication_pattern_set", "CommunicationPatternSetExtractorList")].
Definition AeseCommunicationPatternExtractor_ctor : constructor :=
  mk_ctor (Some "avpAeseCommunicationPattern")
    [("scef_reference_id", Some "avpScefReferenceId"); ("scef_id", Some "avpScefId");
     ("scef_reference_id_for_deletion", Some "avpScefReferenceIdForDeletion");
     ("communication_pattern_set", None)]
    ["scef_reference_id"; "scef_id"; "scef_reference_id_for_deletion";
     "communication_pattern_set"].

Definition LocationInformationConfigurationExtractor_members : list (string * string) :=
  [("monte_location_type", "FDExtractorAvp"); ("accuracy", "FDExtractorAvp")].
Definition LocationInformationConfigurationExtractor_ctor : constructor :=
  mk_ctor (Some "avpLocationInformationConfiguration")
    [("monte_location_type", Some "avpMonteLocationType"); ("accuracy", Some "avpAccuracy")]
    ["monte_location_type"; "accuracy"].

Definition MonitoringEventConfigurationExtractor_members : list (string * string) :=
  [("scef_reference_id", "FDExtractorAvp"); ("scef_id", "FDExtractorAvp");
   ("monitoring_type", "FDExtractorAvp");
   ("scef_reference_id_for_deletion", "FDExtractorAvpList");
   ("maximum_number_of_reports", "FDExtractorAvp"); ("monitoring_duration", "FDExtractorAvp");
   ("charged_party", "FDExtractorAvp");
   ("ue_reachability_configuration", "UeReachabilityConfigurationExtractor");
   ("location_information_configuration", "LocationInformationConfigurationExtractor");
   ("scef_realm", "FDExtractorAvp")].
Definition MonitoringEventConfigurationExtractor_ctor : constructor :=
  mk_ctor (Some "avpMonitoringEventConfiguration")
    [("scef_reference_id", Some "avpScefReferenceId"); ("scef_id", Some "avpScefId");
     ("monitoring_type", Some "avpMonitoringType");
     ("scef_reference_id_for_deletion", Some "avpScefReferenceIdForDeletion");
     ("maximum_number_of_reports", Some "avpMaximumNumberOfReports");
     ("monitoring_duration", Some "avpMonitoringDuration");
     ("charged_party", Some "avpChargedParty"); ("ue_reachability_configuration", None);
     ("location_information_configuration", None); ("scef_realm", Some "avpScefRealm")]
    ["scef_reference_id"; "scef_id"; "monitoring_type"; "scef_reference_id_for_deletion";
     "maximum_number_of_reports"; "monitoring_duration"; "charged_party";
     "ue_reachability_configuration"; "location_information_configuration"; "scef_realm"].

Definition EmergencyInfoExtractor_members : list (string * string) :=
  [("mip6_agent_info", "Mip6AgentInfoExtractor")].
Definition EmergencyInfoExtractor_ctor : constructor :=
  mk_ctor (Some "avpEmergencyInfo")
    [("mip6_agent_info", None)]
    ["mip6_agent_info"].

Definition SubscriptionDataExtractor_members : list (string * string) :=
  [("subscriber_status", "FDExtractorAvp"); ("msisdn", "FDExtractorAvp");
   ("a_msisdn", "FDExtractorAvp"); ("stn_sr", "FDExtractorAvp");
   ("ics_indicator", "FDExtractorAvp"); ("network_access_mode", "FDExtractorAvp");
   ("operator_determined_barring", "FDExtractorAvp"); ("hplmn_odb", "FDExtractorAvp");
   ("regional_subscription_zone_code", "FDExtractorAvpList");
   ("access_restriction_data", "FDExtractorAvp"); ("apn_oi_replacement", "FDExtractorAvp");
   ("lcs_info", "LcsInfoExtractor"); ("teleservice_list", "TeleserviceListExtractor");
   ("call_barring_info", "CallBarringInfoExtractorList");
   ("tgpp_charging_characteristics", "FDExtractorAvp"); ("ambr", "AmbrExtractor");
   ("apn_configuration_profile", "ApnConfigurationProfileExtractor");
   ("rat_frequency_selection_priority_id", "FDExtractorAvp");
   ("trace_data", "TraceDataExtractor");
   ("gprs_subscription_data", "GprsSubscriptionDataExtractor");
   ("csg_subscription_data", "CsgSubscriptionDataExtractorList");
   ("roaming_restricted_due_to_unsupported_feature", "FDExtractorAvp");
   ("subscribed_periodic_rau_tau_timer", "FDExtractorAvp"); ("mps_priority", "FDExtractorAvp");
   ("vplmn_lipa_allowed", "FDExtractorAvp"); ("relay_node_indicator", "FDExtractorAvp");
   ("mdt_user_consent", "FDExtractorAvp"); ("subscribed_vsrvcc", "FDExtractorAvp");
   ("prose_subscription_data", "ProseSubscriptionDataExtractor");
   ("subscription_data_flags", "FDExtractorAvp");
   ("adjacent_access_restriction_data", "AdjacentAccessRestrictionDataExtractorList");
   ("dl_buffering_suggested_packet_count", "FDExtractorAvp");
   ("imsi_group_id", "ImsiGroupIdExtractorList"); ("ue_usage_type", "FDExtractorAvp");
   ("aese_communication_pattern", "AeseCommunicationPatternExtractorList");
   ("monitoring_event_configuration", "MonitoringEventConfigurationExtractorList");
   ("emergency_info", "EmergencyInfoExtractor");
   ("v2x_subscription_data", "V2xSubscriptionDataExtractor");
   ("edrx_cycle_length", "EdrxCycleLengthExtractorList")].
Definition SubscriptionDataExtractor_ctor : constructor :=
  mk_ctor (Some "avpSubscriptionData")
    [("subscriber_status", Some "avpSubscriberStatus"); ("msisdn", Some "avpMsisdn");
     ("a_msisdn", Some "avpAMsisdn"); ("stn_sr", Some "avpStnSr");
     ("ics_indicator", Some "avpIcsIndicator");
     ("network_access_mode", Some "avpNetworkAccessMode");
     ("operator_determined_barring", Some "avpOperatorDeterminedBarring");
     ("hplmn_odb", Some "avpHplmnOdb");
     ("regional_subscription_zone_code", Some "avpRegionalSubscriptionZoneCode");
     ("access_restriction_data", Some "avpAccessRestrictionData");
     ("apn_oi_replacement", Some "avpApnOiReplacement"); ("lcs_info", None);
     ("teleservice_list", None); ("call_barring_info", None);
     ("tgpp_charging_characteristics", Some "avp3gppChargingCharacteristics"); ("ambr", None);
     ("apn_configuration_profile", None);
     ("rat_frequency_selection_priority_id", Some "avpRatFrequencySelectionPriorityId");
     ("trace_data", None); ("gprs_subscription_data", None); ("csg_subscription_data", None);
     ("roaming_restricted_due_to_unsupported_feature", Some "avpRoamingRestrictedDueToUnsupportedFeature");
     ("subscribed_periodic_rau_tau_timer", Some "avpSubscribedPeriodicRauTauTimer");
     ("mps_priority", Some "avpMpsPriority");
     ("vplmn_lipa_allowed", Some "avpVplmnLipaAllowed");
     ("relay_node_indicator", Some "avpRelayNodeIndicator");
     ("mdt_user_consent", Some "avpMdtUserConsent");
     ("subscribed_vsrvcc", Some "avpSubscribedVsrvcc"); ("prose_subscription_data", None);
     ("subscription_data_flags", Some "avpSubscriptionDataFlags");
     ("adjacent_access_restriction_data", None);
     ("dl_buffering_suggested_packet_count", Some "avpDlBufferingSuggestedPacketCount");
     ("imsi_group_id", None); ("ue_usage_type", Some "avpUeUsageType");
     ("aese_communication_pattern", None); ("monitoring_event_configuration", None);
     ("emergency_info", None); ("v2x_subscription_data", None); ("edrx_cycle_length", None)]
    ["subscriber_status"; "msisdn"; "a_msisdn"; "stn_sr"; "ics_indicator";
     "network_access_mode"; "operator_determined_barring"; "hplmn_odb";
     "regional_subscription_zone_code"; "access_restriction_data"; "apn_oi_replacement";
     "lcs_info"; "teleservice_list"; "call_barring_info"; "tgpp_charging_characteristics";
     "ambr"; "apn_configuration_profile"; "rat_frequency_selection_priority_id"; "trace_data";
     "gprs_subscription_data"; "csg_subscription_data";
     "roaming_restricted_due_to_unsupported_feature"; "subscribed_periodic_rau_tau_timer";
     "mps_priority"; "vplmn_lipa_allowed"; "relay_node_indicator"; "mdt_user_consent";
     "subscribed_vsrvcc"; "prose_subscription_data"; "subscription_data_flags";
     "adjacent_access_restriction_data"; "dl_buffering_suggested_packet_count"; "imsi_group_id";
     "ue_usage_type"; "aese_communication_pattern"; "monitoring_event_configuration";
     "emergency_info"; "v2x_subscription_data"; "edrx_cycle_length"].

Definition OcOlrExtractor_members : list (string * string) :=
  [("oc_sequence_number", "FDExtractorAvp"); ("oc_report_type", "FDExtractorAvp");
   ("oc_reduction_percentage", "FDExtractorAvp"); ("oc_validity_duration", "FDExtractorAvp")].
Definition OcOlrExtractor_ctor : constructor :=
  mk_ctor (Some "avpOcOlr")
    [("oc_sequence_number", Some "avpOcSequenceNumber");
     ("oc_report_type", Some "avpOcReportType");
     ("oc_reduction_percentage", Some "avpOcReductionPercentage");
     ("oc_validity_duration", Some "avpOcValidityDuration")]
    ["oc_sequence_number"; "oc_report_type"; "oc_reduction_percentage"; "oc_validity_duration"].

Definition RequestedUtranGeranAuthenticationInfoExtractor_members : list (string * string) :=
  [("number_of_requested_vectors", "FDExtractorAvp");
   ("immediate_response_preferred", "FDExtractorAvp");
   ("re_synchronization_info", "FDExtractorAvp")].
Definition RequestedUtranGeranAuthenticationInfoExtractor_ctor : constructor :=
  mk_ctor (Some "avpRequestedUtranGeranAuthenticationInfo")
    [("number_of_requested_vectors", Some "avpNumberOfRequestedVectors");
     ("immediate_response_preferred", Some "avpImmediateResponsePreferred");
     ("re_synchronization_info", Some "avpReSynchronizationInfo")]
    ["number_of_requested_vectors"; "immediate_response_preferred"; "re_synchronization_info"].

Definition SubscriptionDataDeletionExtractor_members : list (string * string) :=
  [("dsr_flags", "FDExtractorAvp"); ("scef_id", "FDExtractorAvp");
   ("context_identifier", "FDExtractorAvpList"); ("trace_reference", "FDExtractorAvp");
   ("ts_code", "FDExtractorAvpList"); ("ss_code", "FDExtractorAvpList")].
Definition SubscriptionDataDeletionExtractor_ctor : constructor :=
  mk_ctor (Some "avpSubscriptionDataDeletion")
    [("dsr_flags", Some "avpDsrFlags"); ("scef_id", Some "avpScefId");
     ("context_identifier", Some "avpContextIdentifier");
     ("trace_reference", Some "avpTraceReference"); ("ts_code", Some "avpTsCode");
     ("ss_code", Some "avpSsCode")]
    ["dsr_flags"; "scef_id"; "context_identifier"; "trace_reference"; "ts_code"; "ss_code"].

Definition LoadExtractor_members : list (string * string) :=
  [("load_type", "FDExtractorAvp"); ("load_value", "FDExtractorAvp");
   ("sourceid", "FDExtractorAvp")].
Definition LoadExtractor_ctor : constructor :=
  mk_ctor (Some "avpLoad")
    [("load_type", Some "avpLoadType"); ("load_value", Some "avpLoadValue");
     ("sourceid", Some "avpSourceid")]
    ["load_type"; "load_value"; "sourceid"].

Definition OcSupportedFeaturesExtractor_members : list (string * string) :=
  [("oc_feature_vector", "FDExtractorAvp")].
Definition OcSupportedFeaturesExtractor_ctor : constructor :=
  mk_ctor (Some "avpOcSupportedFeatures")
    [("oc_feature_vector", Some "avpOcFeatureVector")]
    ["oc_feature_vector"].

Definition TerminalInformationExtractor_members : list (string * string) :=
  [("imei", "FDExtractorAvp"); ("tgpp2_meid", "FDExtractorAvp");
   ("software_version", "FDExtractorAvp")].
Definition TerminalInformationExtractor_ctor : constructor :=
  mk_ctor (Some "avpTerminalInformation")
    [("imei", Some "avpImei"); ("tgpp2_meid", Some "avp3gpp2Meid");
     ("software_version", Some "avpSoftwareVersion")]
    ["imei"; "tgpp2_meid"; "software_version"].

Definition RequestedEutranAuthenticationInfoExtractor_members : list (string * string) :=
  [("number_of_requested_vectors", "FDExtractorAvp");
   ("immediate_response_preferred", "FDExtractorAvp");
   ("re_synchronization_info", "FDExtractorAvp")].
Definition RequestedEutranAuthenticationInfoExtractor_ctor : constructor :=
  mk_ctor (Some "avpRequestedEutranAuthenticationInfo")
    [("number_of_requested_vectors", Some "avpNumberOfRequestedVectors");
     ("immediate_response_preferred", Some "avpImmediateResponsePreferred");
     ("re_synchronization_info", Some "avpReSynchronizationInfo")]
    ["number_of_requested_vectors"; "immediate_response_preferred"; "re_synchronization_info"].

Definition MonitoringEventReportExtractor_members : list (string * string) :=
  [("scef_reference_id", "FDExtractorAvp"); ("scef_id", "FDExtractorAvp");
   ("reachability_information", "FDExtractorAvp");
   ("eps_location_information", "EpsLocationInformationExtractor");
   ("monitoring_type", "FDExtractorAvp")].
Definition MonitoringEventReportExtractor_ctor : constructor :=
  mk_ctor (Some "avpMonitoringEventReport")
    [("scef_reference_id", Some "avpScefReferenceId"); ("scef_id", Some "avpScefId");
     ("reachability_information", Some "avpReachabilityInformation");
     ("eps_location_information", None); ("monitoring_type", Some "avpMonitoringType")]
    ["scef_reference_id"; "scef_id"; "reachability_information"; "eps_location_information";
     "monitoring_type"].

Definition FailedAvpExtractor_members : list (string * string) :=
  [].
Definition FailedAvpExtractor_ctor : constructor :=
  mk_ctor (Some "avpFailedAvp")
    []
    [].

Definition SupportedFeaturesExtractor_members : list (string * string) :=
  [("vendor_id", "FDExtractorAvp"); ("feature_list_id", "FDExtractorAvp");
   ("feature_list", "FDExtractorAvp")].
Definition SupportedFeaturesExtractor_ctor : constructor :=
  mk_ctor (Some "avpSupportedFeatures")
    [("vendor_id", Some "avpVendorId"); ("feature_list_id", Some "avpFeatureListId");
     ("feature_list", Some "avpFeatureList")]
    ["vendor_id"; "feature_list_id"; "feature_list"].

Definition UpdateLocationRequestExtractor_members : list (string * string) :=
  [("session_id", "FDExtractorAvp"); ("drmp", "FDExtractorAvp");
   ("vendor_specific_application_id", "VendorSpecificApplicationIdExtractor");
   ("auth_session_state", "FDExtractorAvp"); ("origin_host", "FDExtractorAvp");
   ("origin_realm", "FDExtractorAvp"); ("destination_host", "FDExtractorAvp");
   ("destination_realm", "FDExtractorAvp"); ("user_name", "FDExtractorAvp");
   ("oc_supported_features", "OcSupportedFeaturesExtractor");
   ("supported_features", "SupportedFeaturesExtractorList");
   ("terminal_information", "TerminalInformationExtractor"); ("rat_type", "FDExtractorAvp");
   ("ulr_flags", "FDExtractorAvp"); ("ue_srvcc_capability", "FDExtractorAvp");
   ("visited_plmn_id", "FDExtractorAvp"); ("sgsn_number", "FDExtractorAvp");
   ("homogeneous_support_of_ims_voice_over_ps_sessions", "FDExtractorAvp");
   ("gmlc_address", "FDExtractorAvp"); ("active_apn", "ActiveApnExtractorList");
   ("equivalent_plmn_list", "EquivalentPlmnListExtractor");
   ("mme_number_for_mt_sms", "FDExtractorAvp"); ("sms_register_request", "FDExtractorAvp");
   ("sgs_mme_identity", "FDExtractorAvp"); ("coupled_node_diameter_id", "FDExtractorAvp");
   ("adjacent_plmns", "AdjacentPlmnsExtractor");
   ("supported_services", "SupportedServicesExtractor");
   ("proxy_info", "ProxyInfoExtractorList"); ("route_record", "FDExtractorAvpList")].
Definition UpdateLocationRequestExtractor_ctor : constructor :=
  mk_ctor None
    [("session_id", Some "avpSessionId"); ("drmp", Some "avpDrmp");
     ("vendor_specific_application_id", None);
     ("auth_session_state", Some "avpAuthSessionState"); ("origin_host", Some "avpOriginHost");
     ("origin_realm", Some "avpOriginRealm"); ("destination_host", Some "avpDestinationHost");
     ("destination_realm", Some "avpDestinationRealm"); ("user_name", Some "avpUserName");
     ("oc_supported_features", None); ("supported_features", None);
     ("terminal_information", None); ("rat_type", Some "avpRatType");
     ("ulr_flags", Some "avpUlrFlags"); ("ue_srvcc_capability", Some "avpUeSrvccCapability");
     ("visited_plmn_id", Some "avpVisitedPlmnId"); ("sgsn_number", Some "avpSgsnNumber");
     ("homogeneous_support_of_ims_voice_over_ps_sessions", Some "avpHomogeneousSupportOfImsVoiceOverPsSessions");
     ("gmlc_address", Some "avpGmlcAddress"); ("active_apn", None);
     ("equivalent_plmn_list", None); ("mme_number_for_mt_sms", Some "avpMmeNumberForMtSms");
     ("sms_register_request", Some "avpSmsRegisterRequest");
     ("sgs_mme_identity", Some "avpSgsMmeIdentity");
     ("coupled_node_diameter_id", Some "avpCoupledNodeDiameterId"); ("adjacent_plmns", None);
     ("supported_services", None); ("proxy_info", None);
     ("route_record", Some "avpRouteRecord")]
    ["session_id"; "drmp"; "vendor_specific_application_id"; "auth_session_state";
     "origin_host"; "origin_realm"; "destination_host"; "destination_realm"; "user_name";
     "oc_supported_features"; "supported_features"; "terminal_information"; "rat_type";
     "ulr_flags"; "ue_srvcc_capability"; "visited_plmn_id"; "sgsn_number";
     "homogeneous_support_of_ims_voice_over_ps_sessions"; "gmlc_address"; "active_apn";
     "equivalent_plmn_list"; "mme_number_for_mt_sms"; "sms_register_request";
     "sgs_mme_identity"; "coupled_node_diameter_id"; "adjacent_plmns"; "supported_services";
     "proxy_info"; "route_record"].

Definition UpdateLocationAnswerExtractor_members : list (string * string) :=
  [("session_id", "FDExtractorAvp"); ("drmp", "FDExtractorAvp");
   ("vendor_specific_application_id", "VendorSpecificApplicationIdExtractor");
   ("result_code", "FDExtractorAvp"); ("experimental_result", "ExperimentalResultExtractor");
   ("error_diagnostic", "FDExtractorAvp"); ("auth_session_state", "FDExtractorAvp");
   ("origin_host", "FDExtractorAvp"); ("origin_realm", "FDExtractorAvp");
   ("oc_supported_features", "OcSupportedFeaturesExtractor"); ("oc_olr", "OcOlrExtractor");
   ("load", "LoadExtractorList"); ("supported_features", "SupportedFeaturesExtractorList");
   ("ula_flags", "FDExtractorAvp"); ("subscription_data", "SubscriptionDataExtractor");
   ("reset_id", "FDExtractorAvpList"); ("failed_avp", "FailedAvpExtractor");
   ("proxy_info", "ProxyInfoExtractorList"); ("route_record", "FDExtractorAvpList")].
Definition UpdateLocationAnswerExtractor_ctor : constructor :=
  mk_ctor None
    [("session_id", Some "avpSessionId"); ("drmp", Some "avpDrmp");
     ("vendor_specific_application_id", None); ("result_code", Some "avpResultCode");
     ("experimental_result", None); ("error_diagnostic", Some "avpErrorDiagnostic");
     ("auth_session_state", Some "avpAuthSessionState"); ("origin_host", Some "avpOriginHost");
     ("origin_realm", Some "avpOriginRealm"); ("oc_supported_features", None); ("oc_olr", None);
     ("load", None); ("supported_features", None); ("ula_flags", Some "avpUlaFlags");
     ("subscription_data", None); ("reset_id", Some "avpResetId"); ("failed_avp", None);
     ("proxy_info", None); ("route_record", Some "avpRouteRecord")]
    ["session_id"; "drmp"; "vendor_specific_application_id"; "result_code";
     "experimental_result"; "error_diagnostic"; "auth_session_state"; "origin_host";
     "origin_realm"; "oc_supported_features"; "oc_olr"; "load"; "supported_features";
     "ula_flags"; "subscription_data"; "reset_id"; "failed_avp"; "proxy_info"; "route_record"].

Definition CancelLocationRequestExtractor_members : list (string * string) :=
  [("session_id", "FDExtractorAvp"); ("drmp", "FDExtractorAvp");
   ("vendor_specific_application_id", "VendorSpecificApplicationIdExtractor");
   ("auth_session_state", "FDExtractorAvp"); ("origin_host", "FDExtractorAvp");
   ("origin_realm", "FDExtractorAvp"); ("destination_host", "FDExtractorAvp");
   ("destination_realm", "FDExtractorAvp"); ("user_name", "FDExtractorAvp");
   ("supported_features", "SupportedFeaturesExtractorList");
   ("cancellation_type", "FDExtractorAvp"); ("clr_flags", "FDExtractorAvp");
   ("proxy_info", "ProxyInfoExtractorList"); ("route_record", "FDExtractorAvpList")].
Definition CancelLocationRequestExtractor_ctor : constructor :=
  mk_ctor None
    [("session_id", Some "avpSessionId"); ("drmp", Some "avpDrmp");
     ("vendor_specific_application_id", None);
     ("auth_session_state", Some "avpAuthSessionState"); ("origin_host", Some "avpOriginHost");
     ("origin_realm", Some "avpOriginRealm"); ("destination_host", Some "avpDestinationHost");
     ("destination_realm", Some "avpDestinationRealm"); ("user_name", Some "avpUserName");
     ("supported_features", None); ("cancellation_type", Some "avpCancellationType");
     ("clr_flags", Some "avpClrFlags"); ("proxy_info", None);
     ("route_record", Some "avpRouteRecord")]
    ["session_id"; "drmp"; "vendor_specific_application_id"; "auth_session_state";
     "origin_host"; "origin_realm"; "destination_host"; "destination_realm"; "user_name";
     "supported_features"; "cancellation_type"; "clr_flags"; "proxy_info"; "route_record"].

Definition CancelLocationAnswerExtractor_members : list (string * string) :=
  [("session_id", "FDExtractorAvp"); ("drmp", "FDExtractorAvp");
   ("vendor_specific_application_id", "VendorSpecificApplicationIdExtractor");
   ("supported_features", "SupportedFeaturesExtractorList"); ("result_code", "FDExtractorAvp");
   ("experimental_result", "ExperimentalResultExtractor");
   ("auth_session_state", "FDExtractorAvp"); ("origin_host", "FDExtractorAvp");
   ("origin_realm", "FDExtractorAvp"); ("failed_avp", "FailedAvpExtractor");
   ("proxy_info", "ProxyInfoExtractorList"); ("route_record", "FDExtractorAvpList")].
Definition CancelLocationAnswerExtractor_ctor : constructor :=
  mk_ctor None
    [("session_id", Some "avpSessionId"); ("drmp", Some "avpDrmp");
     ("vendor_specific_application_id", None); ("supported_features", None);
     ("result_code", Some "avpResultCode"); ("experimental_result", None);
     ("auth_session_state", Some "avpAuthSessionState"); ("origin_host", Some "avpOriginHost");
     ("origin_realm", Some "avpOriginRealm"); ("failed_avp", None); ("proxy_info", None);
     ("route_record", Some "avpRouteRecord")]
    ["session_id"; "drmp"; "vendor_specific_application_id"; "supported_features";
     "result_code"; "experimental_result"; "auth_session_state"; "origin_host"; "origin_realm";
     "failed_avp"; "proxy_info"; "route_record"].

Definition AuthenticationInformationRequestExtractor_members : list (string * string) :=
  [("session_id", "FDExtractorAvp"); ("drmp", "FDExtractorAvp");
   ("vendor_specific_application_id", "VendorSpecificApplicationIdExtractor");
   ("auth_session_state", "FDExtractorAvp"); ("origin_host", "FDExtractorAvp");
   ("origin_realm", "FDExtractorAvp"); ("destination_host", "FDExtractorAvp");
   ("destination_realm", "FDExtractorAvp"); ("user_name", "FDExtractorAvp");
   ("oc_supported_features", "OcSupportedFeaturesExtractor");
   ("supported_features", "SupportedFeaturesExtractorList");
   ("requested_eutran_authentication_info", "RequestedEutranAuthenticationInfoExtractor");
   ("requested_utran_geran_authentication_info", "RequestedUtranGeranAuthenticationInfoExtractor");
   ("visited_plmn_id", "FDExtractorAvp"); ("air_flags", "FDExtractorAvp");
   ("proxy_info", "ProxyInfoExtractorList"); ("route_record", "FDExtractorAvpList")].
Definition AuthenticationInformationRequestExtractor_ctor : constructor :=
  mk_ctor None
    [("session_id", Some "avpSessionId"); ("drmp", Some "avpDrmp");
     ("vendor_specific_application_id", None);
     ("auth_session_state", Some "avpAuthSessionState"); ("origin_host", Some "avpOriginHost");
     ("origin_realm", Some "avpOriginRealm"); ("destination_host", Some "avpDestinationHost");
     ("destination_realm", Some "avpDestinationRealm"); ("user_name", Some "avpUserName");
     ("oc_supported_features", None); ("supported_features", None);
     ("requested_eutran_authentication_info", None);
     ("requested_utran_geran_authentication_info", None);
     ("visited_plmn_id", Some "avpVisitedPlmnId"); ("air_flags", Some "avpAirFlags");
     ("proxy_info", None); ("route_record", Some "avpRouteRecord")]
    ["session_id"; "drmp"; "vendor_specific_application_id"; "auth_session_state";
     "origin_host"; "origin_realm"; "destination_host"; "destination_realm"; "user_name";
     "oc_supported_features"; "supported_features"; "requested_eutran_authentication_info";
     "requested_utran_geran_authentication_info"; "visited_plmn_id"; "air_flags"; "proxy_info";
     "route_record"].

Definition AuthenticationInformationAnswerExtractor_members : list (string * string) :=
  [("session_id", "FDExtractorAvp"); ("drmp", "FDExtractorAvp");
   ("vendor_specific_application_id", "VendorSpecificApplicationIdExtractor");
   ("result_code", "FDExtractorAvp"); ("experimental_result", "ExperimentalResultExtractor");
   ("error_diagnostic", "FDExtractorAvp"); ("auth_session_state", "FDExtractorAvp");
   ("origin_host", "FDExtractorAvp"); ("origin_realm", "FDExtractorAvp");
   ("oc_supported_features", "OcSupportedFeaturesExtractor"); ("oc_olr", "OcOlrExtractor");
   ("load", "LoadExtractorList"); ("supported_features", "SupportedFeaturesExtractorList");
   ("authentication_info", "AuthenticationInfoExtractor"); ("ue_usage_type", "FDExtractorAvp");
   ("failed_avp", "FailedAvpExtractor"); ("proxy_info", "ProxyInfoExtractorList");
   ("route_record", "FDExtractorAvpList")].
Definition AuthenticationInformationAnswerExtractor_ctor : constructor :=
  mk_ctor None
    [("session_id", Some "avpSessionId"); ("drmp", Some "avpDrmp");
     ("vendor_specific_application_id", None); ("result_code", Some "avpResultCode");
     ("experimental_result", None); ("error_diagnostic", Some "avpErrorDiagnostic");
     ("auth_session_state", Some "avpAuthSessionState"); ("origin_host", Some "avpOriginHost");
     ("origin_realm", Some "avpOriginRealm"); ("oc_supported_features", None); ("oc_olr", None);
     ("load", None); ("supported_features", None); ("authentication_info", None);
     ("ue_usage_type", Some "avpUeUsageType"); ("failed_avp", None); ("proxy_info", None);
     ("route_record", Some "avpRouteRecord")]
    ["session_id"; "drmp"; "vendor_specific_application_id"; "result_code";
     "experimental_result"; "error_diagnostic"; "auth_session_state"; "origin_host";
     "origin_realm"; "oc_supported_features"; "oc_olr"; "load"; "supported_features";
     "authentication_info"; "ue_usage_type"; "failed_avp"; "proxy_info"; "route_record"].

Definition InsertSubscriberDataRequestExtractor_members : list (string * string) :=
  [("session_id", "FDExtractorAvp"); ("drmp", "FDExtractorAvp");
   ("vendor_specific_application_id", "VendorSpecificApplicationIdExtractor");
   ("auth_session_state", "FDExtractorAvp"); ("origin_host", "FDExtractorAvp");
   ("origin_realm", "FDExtractorAvp"); ("destination_host", "FDExtractorAvp");
   ("destination_realm", "FDExtractorAvp"); ("user_name", "FDExtractorAvp");
   ("supported_features", "SupportedFeaturesExtractorList");
   ("subscription_data", "SubscriptionDataExtractor"); ("idr_flags", "FDExtractorAvp");
   ("reset_id", "FDExtractorAvpList"); ("proxy_info", "ProxyInfoExtractorList");
   ("route_record", "FDExtractorAvpList")].
Definition InsertSubscriberDataRequestExtractor_ctor : constructor :=
  mk_ctor None
    [("session_id", Some "avpSessionId"); ("drmp", Some "avpDrmp");
     ("vendor_specific_application_id", None);
     ("auth_session_state", Some "avpAuthSessionState"); ("origin_host", Some "avpOriginHost");
     ("origin_realm", Some "avpOriginRealm"); ("destination_host", Some "avpDestinationHost");
     ("destination_realm", Some "avpDestinationRealm"); ("user_name", Some "avpUserName");
     ("supported_features", None); ("subscription_data", None);
     ("idr_flags", Some "avpIdrFlags"); ("reset_id", Some "avpResetId"); ("proxy_info", None);
     ("route_record", Some "avpRouteRecord")]
    ["session_id"; "drmp"; "vendor_specific_application_id"; "auth_session_state";
     "origin_host"; "origin_realm"; "destination_host"; "destination_realm"; "user_name";
     "supported_features"; "subscription_data"; "idr_flags"; "reset_id"; "proxy_info";
     "route_record"].

Definition InsertSubscriberDataAnswerExtractor_members : list (string * string) :=
  [("session_id", "FDExtractorAvp"); ("drmp", "FDExtractorAvp");
   ("vendor_specific_application_id", "VendorSpecificApplicationIdExtractor");
   ("supported_features", "SupportedFeaturesExtractorList"); ("result_code", "FDExtractorAvp");
   ("experimental_result", "ExperimentalResultExtractor");
   ("auth_session_state", "FDExtractorAvp"); ("origin_host", "FDExtractorAvp");
   ("origin_realm", "FDExtractorAvp");
   ("ims_voice_over_ps_sessions_supported", "FDExtractorAvp");
   ("last_ue_activity_time", "FDExtractorAvp"); ("rat_type", "FDExtractorAvp");
   ("ida_flags", "FDExtractorAvp"); ("eps_user_state", "EpsUserStateExtractor");
   ("eps_location_information", "EpsLocationInformationExtractor");
   ("local_time_zone", "LocalTimeZoneExtractor");
   ("supported_services", "SupportedServicesExtractor");
   ("monitoring_event_report", "MonitoringEventReportExtractorList");
   ("monitoring_event_config_status", "MonitoringEventConfigStatusExtractorList");
   ("failed_avp", "FailedAvpExtractor"); ("proxy_info", "ProxyInfoExtractorList");
   ("route_record", "FDExtractorAvpList")].
Definition InsertSubscriberDataAnswerExtractor_ctor : constructor :=
  mk_ctor None
    [("session_id", Some "avpSessionId"); ("drmp", Some "avpDrmp");
     ("vendor_specific_application_id", None); ("supported_features", None);
     ("result_code", Some "avpResultCode"); ("experimental_result", None);
     ("auth_session_state", Some "avpAuthSessionState"); ("origin_host", Some "avpOriginHost");
     ("origin_realm", Some "avpOriginRealm");
     ("ims_voice_over_ps_sessions_supported", Some "avpImsVoiceOverPsSessionsSupported");
     ("last_ue_activity_time", Some "avpLastUeActivityTime"); ("rat_type", Some "avpRatType");
     ("ida_flags", Some "avpIdaFlags"); ("eps_user_state", None);
     ("eps_location_information", None); ("local_time_zone", None);
     ("supported_services", None); ("monitoring_event_report", None);
     ("monitoring_event_config_status", None); ("failed_avp", None); ("proxy_info", None);
     ("route_record", Some "avpRouteRecord")]
    ["session_id"; "drmp"; "vendor_specific_application_id"; "supported_features";
     "result_code"; "experimental_result"; "auth_session_state"; "origin_host"; "origin_realm";
     "ims_voice_over_ps_sessions_supported"; "last_ue_activity_time"; "rat_type"; "ida_flags";
     "eps_user_state"; "eps_location_information"; "local_time_zone"; "supported_services";
     "monitoring_event_report"; "monitoring_event_config_status"; "failed_avp"; "proxy_info";
     "route_record"].

Definition DeleteSubscriberDataRequestExtractor_members : list (string * string) :=
  [("session_id", "FDExtractorAvp"); ("drmp", "FDExtractorAvp");
   ("vendor_specific_application_id", "VendorSpecificApplicationIdExtractor");
   ("auth_session_state", "FDExtractorAvp"); ("origin_host", "FDExtractorAvp");
   ("origin_realm", "FDExtractorAvp"); ("destination_host", "FDExtractorAvp");
   ("destination_realm", "FDExtractorAvp"); ("user_name", "FDExtractorAvp");
   ("supported_features", "SupportedFeaturesExtractorList"); ("dsr_flags", "FDExtractorAvp");
   ("scef_id", "FDExtractorAvp"); ("context_identifier", "FDExtractorAvpList");
   ("trace_reference", "FDExtractorAvp"); ("ts_code", "FDExtractorAvpList");
   ("ss_code", "FDExtractorAvpList"); ("proxy_info", "ProxyInfoExtractorList");
   ("route_record", "FDExtractorAvpList")].
Definition DeleteSubscriberDataRequestExtractor_ctor : constructor :=
  mk_ctor None
    [("session_id", Some "avpSessionId"); ("drmp", Some "avpDrmp");
     ("vendor_specific_application_id", None);
     ("auth_session_state", Some "avpAuthSessionState"); ("origin_host", Some "avpOriginHost");
     ("origin_realm", Some "avpOriginRealm"); ("destination_host", Some "avpDestinationHost");
     ("destination_realm", Some "avpDestinationRealm"); ("user_name", Some "avpUserName");
     ("supported_features", None); ("dsr_flags", Some "avpDsrFlags");
     ("scef_id", Some "avpScefId"); ("context_identifier", Some "avpContextIdentifier");
     ("trace_reference", Some "avpTraceReference"); ("ts_code", Some "avpTsCode");
     ("ss_code", Some "avpSsCode"); ("proxy_info", None);
     ("route_record", Some "avpRouteRecord")]
    ["session_id"; "drmp"; "vendor_specific_application_id"; "auth_session_state";
     "origin_host"; "origin_realm"; "destination_host"; "destination_realm"; "user_name";
     "supported_features"; "dsr_flags"; "scef_id"; "context_identifier"; "trace_reference";
     "ts_code"; "ss_code"; "proxy_info"; "route_record"].

Definition DeleteSubscriberDataAnswerExtractor_members : list (string * string) :=
  [("session_id", "FDExtractorAvp"); ("drmp", "FDExtractorAvp");
   ("vendor_specific_application_id", "VendorSpecificApplicationIdExtractor");
   ("supported_features", "SupportedFeaturesExtractorList"); ("result_code", "FDExtractorAvp");
   ("experimental_result", "ExperimentalResultExtractor");
   ("auth_session_state", "FDExtractorAvp"); ("origin_host", "FDExtractorAvp");
   ("origin_realm", "FDExtractorAvp"); ("dsa_flags", "FDExtractorAvp");
   ("failed_avp", "FailedAvpExtractor"); ("proxy_info", "ProxyInfoExtractorList");
   ("route_record", "FDExtractorAvpList")].
Definition DeleteSubscriberDataAnswerExtractor_ctor : constructor :=
  mk_ctor None
    [("session_id", Some "avpSessionId"); ("drmp", Some "avpDrmp");
     ("vendor_specific_application_id", None); ("supported_features", None);
     ("result_code", Some "avpResultCode"); ("experimental_result", None);
     ("auth_session_state", Some "avpAuthSessionState"); ("origin_host", Some "avpOriginHost");
     ("origin_realm", Some "avpOriginRealm"); ("dsa_flags", Some "avpDsaFlags");
     ("failed_avp", None); ("proxy_info", None); ("route_record", Some "avpRouteRecord")]
    ["session_id"; "drmp"; "vendor_specific_application_id"; "supported_features";
     "result_code"; "experimental_result"; "auth_session_state"; "origin_host"; "origin_realm";
     "dsa_flags"; "failed_avp"; "proxy_info"; "route_record"].

Definition PurgeUeRequestExtractor_members : list (string * string) :=
  [("session_id", "FDExtractorAvp"); ("drmp", "FDExtractorAvp");
   ("vendor_specific_application_id", "VendorSpecificApplicationIdExtractor");
   ("auth_session_state", "FDExtractorAvp"); ("origin_host", "FDExtractorAvp");
   ("origin_realm", "FDExtractorAvp"); ("destination_host", "FDExtractorAvp");
   ("destination_realm", "FDExtractorAvp"); ("user_name", "FDExtractorAvp");
   ("oc_supported_features", "OcSupportedFeaturesExtractor"); ("pur_flags", "FDExtractorAvp");
   ("supported_features", "SupportedFeaturesExtractorList");
   ("eps_location_information", "EpsLocationInformationExtractor");
   ("proxy_info", "ProxyInfoExtractorList"); ("route_record", "FDExtractorAvpList")].
Definition PurgeUeRequestExtractor_ctor : constructor :=
  mk_ctor None
    [("session_id", Some "avpSessionId"); ("drmp", Some "avpDrmp");
     ("vendor_specific_application_id", None);
     ("auth_session_state", Some "avpAuthSessionState"); ("origin_host", Some "avpOriginHost");
     ("origin_realm", Some "avpOriginRealm"); ("destination_host", Some "avpDestinationHost");
     ("destination_realm", Some "avpDestinationRealm"); ("user_name", Some "avpUserName");
     ("oc_supported_features", None); ("pur_flags", Some "avpPurFlags");
     ("supported_features", None); ("eps_location_information", None); ("proxy_info", None);
     ("route_record", Some "avpRouteRecord")]
    ["session_id"; "drmp"; "vendor_specific_application_id"; "auth_session_state";
     "origin_host"; "origin_realm"; "destination_host"; "destination_realm"; "user_name";
     "oc_supported_features"; "pur_flags"; "supported_features"; "eps_location_information";
     "proxy_info"; "route_record"].

Definition PurgeUeAnswerExtractor_members : list (string * string) :=
  [("session_id", "FDExtractorAvp"); ("drmp", "FDExtractorAvp");
   ("vendor_specific_application_id", "VendorSpecificApplicationIdExtractor");
   ("supported_features", "SupportedFeaturesExtractorList"); ("result_code", "FDExtractorAvp");
   ("experimental_result", "ExperimentalResultExtractor");
   ("auth_session_state", "FDExtractorAvp"); ("origin_host", "FDExtractorAvp");
   ("origin_realm", "FDExtractorAvp");
   ("oc_supported_features", "OcSupportedFeaturesExtractor"); ("oc_olr", "OcOlrExtractor");
   ("load", "LoadExtractorList"); ("pua_flags", "FDExtractorAvp");
   ("failed_avp", "FailedAvpExtractor"); ("proxy_info", "ProxyInfoExtractorList");
   ("route_record", "FDExtractorAvpList")].
Definition PurgeUeAnswerExtractor_ctor : constructor :=
  mk_ctor None
    [("session_id", Some "avpSessionId"); ("drmp", Some "avpDrmp");
     ("vendor_specific_application_id", None); ("supported_features", None);
     ("result_code", Some "avpResultCode"); ("experimental_result", None);
     ("auth_session_state", Some "avpAuthSessionState"); ("origin_host", Some "avpOriginHost");
     ("origin_realm", Some "avpOriginRealm"); ("oc_supported_features", None); ("oc_olr", None);
     ("load", None); ("pua_flags", Some "avpPuaFlags"); ("failed_avp", None);
     ("proxy_info", None); ("route_record", Some "avpRouteRecord")]
    ["session_id"; "drmp"; "vendor_specific_application_id"; "supported_features";
     "result_code"; "experimental_result"; "auth_session_state"; "origin_host"; "origin_realm";
     "oc_supported_features"; "oc_olr"; "load"; "pua_flags"; "failed_avp"; "proxy_info";
     "route_record"].

Definition ResetRequestExtractor_members : list (string * string) :=
  [("session_id", "FDExtractorAvp"); ("drmp", "FDExtractorAvp");
   ("vendor_specific_application_id", "VendorSpecificApplicationIdExtractor");
   ("auth_session_state", "FDExtractorAvp"); ("origin_host", "FDExtractorAvp");
   ("origin_realm", "FDExtractorAvp"); ("destination_host", "FDExtractorAvp");
   ("destination_realm", "FDExtractorAvp");
   ("supported_features", "SupportedFeaturesExtractorList"); ("user_id", "FDExtractorAvpList");
   ("reset_id", "FDExtractorAvpList"); ("subscription_data", "SubscriptionDataExtractor");
   ("subscription_data_deletion", "SubscriptionDataDeletionExtractor");
   ("proxy_info", "ProxyInfoExtractorList"); ("route_record", "FDExtractorAvpList")].
Definition ResetRequestExtractor_ctor : constructor :=
  mk_ctor None
    [("session_id", Some "avpSessionId"); ("drmp", Some "avpDrmp");
     ("vendor_specific_application_id", None);
     ("auth_session_state", Some "avpAuthSessionState"); ("origin_host", Some "avpOriginHost");
     ("origin_realm", Some "avpOriginRealm"); ("destination_host", Some "avpDestinationHost");
     ("destination_realm", Some "avpDestinationRealm"); ("supported_features", None);
     ("user_id", Some "avpUserId"); ("reset_id", Some "avpResetId");
     ("subscription_data", None); ("subscription_data_deletion", None); ("proxy_info", None);
     ("route_record", Some "avpRouteRecord")]
    ["session_id"; "drmp"; "vendor_specific_application_id"; "auth_session_state";
     "origin_host"; "origin_realm"; "destination_host"; "destination_realm";
     "supported_features"; "user_id"; "reset_id"; "subscription_data";
     "subscription_data_deletion"; "proxy_info"; "route_record"].

Definition ResetAnswerExtractor_members : list (string * string) :=
  [("session_id", "FDExtractorAvp"); ("drmp", "FDExtractorAvp");
   ("vendor_specific_application_id", "VendorSpecificApplicationIdExtractor");
   ("supported_features", "SupportedFeaturesExtractorList"); ("result_code", "FDExtractorAvp");
   ("experimental_result", "ExperimentalResultExtractor");
   ("auth_session_state", "FDExtractorAvp"); ("origin_host", "FDExtractorAvp");
   ("origin_realm", "FDExtractorAvp"); ("failed_avp", "FailedAvpExtractor");
   ("proxy_info", "ProxyInfoExtractorList"); ("route_record", "FDExtractorAvpList")].
Definition ResetAnswerExtractor_ctor : constructor :=
  mk_ctor None
    [("session_id", Some "avpSessionId"); ("drmp", Some "avpDrmp");
     ("vendor_specific_application_id", None); ("supported_features", None);
     ("result_code", Some "avpResultCode"); ("experimental_result", None);
     ("auth_session_state", Some "avpAuthSessionState"); ("origin_host", Some "avpOriginHost");
     ("origin_realm", Some "avpOriginRealm"); ("failed_avp", None); ("proxy_info", None);
     ("route_record", Some "avpRouteRecord")]
    ["session_id"; "drmp"; "vendor_specific_application_id"; "supported_features";
     "result_code"; "experimental_result"; "auth_session_state"; "origin_host"; "origin_realm";
     "failed_avp"; "proxy_info"; "route_record"].

Definition PdpContextExtractorList_element : string := "PdpContextExtractor".
Definition PdpContextExtractorList_avp : string := "avpPdpContext".

Definition ServiceReportExtractorList_element : string := "ServiceReportExtractor".
Definition ServiceReportExtractorList_avp : string := "avpServiceReport".

Definition ExternalClientExtractorList_element : string := "ExternalClientExtractor".
Definition ExternalClientExtractorList_avp : string := "avpExternalClient".

Definition ServiceTypeExtractorList_element : string := "ServiceTypeExtractor".
Definition ServiceTypeExtractorList_avp : string := "avpServiceType".

Definition SpecificApnInfoExtractorList_element : string := "SpecificApnInfoExtractor".
Definition SpecificApnInfoExtractorList_avp : string := "avpSpecificApnInfo".

Definition ScheduledCommunicationTimeExtractorList_element : string := "ScheduledCommunicationTimeExtractor".
Definition ScheduledCommunicationTimeExtractorList_avp : string := "avpScheduledCommunicationTime".

Definition EUtranVectorExtractorList_element : string := "EUtranVectorExtractor".
Definition EUtranVectorExtractorList_avp : string := "avpEUtranVector".

Definition UtranVectorExtractorList_element : string := "UtranVectorExtractor".
Definition UtranVectorExtractorList_avp : string := "avpUtranVector".

Definition GeranVectorExtractorList_element : string := "GeranVectorExtractor".
Definition GeranVectorExtractorList_avp : string := "avpGeranVector".

Definition LcsPrivacyexceptionExtractorList_element : string := "LcsPrivacyexceptionExtractor".
Definition LcsPrivacyexceptionExtractorList_avp : string := "avpLcsPrivacyexception".

Definition MoLrExtractorList_element : string := "MoLrExtractor".
Definition MoLrExtractorList_avp : string := "avpMoLr".

Definition CallBarringInfoExtractorList_element : string := "CallBarringInfoExtractor".
Definition CallBarringInfoExtractorList_avp : string := "avpCallBarringInfo".

Definition ApnConfigurationExtractorList_element : string := "ApnConfigurationExtractor".
Definition ApnConfigurationExtractorList_avp : string := "avpApnConfiguration".

Definition CsgSubscriptionDataExtractorList_element : string := "CsgSubscriptionDataExtractor".
Definition CsgSubscriptionDataExtractorList_avp : string := "avpCsgSubscriptionData".

Definition AdjacentAccessRestrictionDataExtractorList_element : string := "AdjacentAccessRestrictionDataExtractor".
Definition AdjacentAccessRestrictionDataExtractorList_avp : string := "avpAdjacentAccessRestrictionData".

Definition ImsiGroupIdExtractorList_element : string := "ImsiGroupIdExtractor".
Definition ImsiGroupIdExtractorList_avp : string := "avpImsiGroupId".

Definition CommunicationPatternSetExtractorList_element : string := "CommunicationPatternSetExtractor".
Definition CommunicationPatternSetExtractorList_avp : string := "avpCommunicationPatternSet".

Definition AeseCommunicationPatternExtractorList_element : string := "AeseCommunicationPatternExtractor".
Definition AeseCommunicationPatternExtractorList_avp : string := "avpAeseCommunicationPattern".

Definition MonitoringEventConfigurationExtractorList_element : string := "MonitoringEventConfigurationExtractor".
Definition MonitoringEventConfigurationExtractorList_avp : string := "avpMonitoringEventConfiguration".

Definition EdrxCycleLengthExtractorList_element : string := "EdrxCycleLengthExtractor".
Definition EdrxCycleLengthExtractorList_avp : string := "avpEdrxCycleLength".

Definition SupportedFeaturesExtractorList_element : string := "SupportedFeaturesExtractor".
Definition SupportedFeaturesExtractorList_avp : string := "avpSupportedFeatures".

Definition ActiveApnExtractorList_element : string := "ActiveApnExtractor".
Definition ActiveApnExtractorList_avp : string := "avpActiveApn".

Definition ProxyInfoExtractorList_element : string := "ProxyInfoExtractor".
Definition ProxyInfoExtractorList_avp : string := "avpProxyInfo".

Definition LoadExtractorList_element : string := "LoadExtractor".
Definition LoadExtractorList_avp : string := "avpLoad".

Definition MonitoringEventReportExtractorList_element : string := "MonitoringEventReportExtractor".
Definition MonitoringEventReportExtractorList_avp : string := "avpMonitoringEventReport".

Definition MonitoringEventConfigStatusExtractorList_element : string := "MonitoringEventConfigStatusExtractor".
Definition MonitoringEventConfigStatusExtractorList_avp : string := "avpMonitoringEventConfigStatus".

Definition extractors : list (string * extractor_class) :=
  [("MmeUserStateExtractor",
    mk_class MmeUserStateExtractor_members MmeUserStateExtractor_ctor);
   ("SgsnUserStateExtractor",
    mk_class SgsnUserStateExtractor_members SgsnUserStateExtractor_ctor);
   ("EpsUserStateExtractor",
    mk_class EpsUserStateExtractor_members EpsUserStateExtractor_ctor);
   ("EUtranVectorExtractor",
    mk_class EUtranVectorExtractor_members EUtranVectorExtractor_ctor);
   ("VendorSpecificApplicationIdExtractor",
    mk_class VendorSpecificApplicationIdExtractor_members VendorSpecificApplicationIdExtractor_ctor);
   ("AmbrExtractor",
    mk_class AmbrExtractor_members AmbrExtractor_ctor);
   ("PdpContextExtractor",
    mk_class PdpContextExtractor_members PdpContextExtractor_ctor);
   ("GprsSubscriptionDataExtractor",
    mk_class GprsSubscriptionDataExtractor_members GprsSubscriptionDataExtractor_ctor);
   ("ServiceResultExtractor",
    mk_class ServiceResultExtractor_members ServiceResultExtractor_ctor);
   ("ServiceReportExtractor",
    mk_class ServiceReportExtractor_members ServiceReportExtractor_ctor);
   ("MonitoringEventConfigStatusExtractor",
    mk_class MonitoringEventConfigStatusExtractor_members MonitoringEventConfigStatusExtractor_ctor);
   ("ExperimentalResultExtractor",
    mk_class ExperimentalResultExtractor_members ExperimentalResultExtractor_ctor);
   ("EdrxCycleLengthExtractor",
    mk_class EdrxCycleLengthExtractor_members EdrxCycleLengthExtractor_ctor);
   ("ExternalClientExtractor",
    mk_class ExternalClientExtractor_members ExternalClientExtractor_ctor);
   ("ServiceTypeExtractor",
    mk_class ServiceTypeExtractor_members ServiceTypeExtractor_ctor);
   ("LcsPrivacyexceptionExtractor",
    mk_class LcsPrivacyexceptionExtractor_members LcsPrivacyexceptionExtractor_ctor);
   ("V2xSubscriptionDataExtractor",
    mk_class V2xSubscriptionDataExtractor_members V2xSubscriptionDataExtractor_ctor);
   ("AdjacentAccessRestrictionDataExtractor",
    mk_class AdjacentAccessRestrictionDataExtractor_members AdjacentAccessRestrictionDataExtractor_ctor);
   ("GeranVectorExtractor",
    mk_class GeranVectorExtractor_members GeranVectorExtractor_ctor);
   ("UserCsgInformationExtractor",
    mk_class UserCsgInformationExtractor_members UserCsgInformationExtractor_ctor);
   ("MmeLocationInformationExtractor",
    mk_class MmeLocationInformationExtractor_members MmeLocationInformationExtractor_ctor);
   ("SgsnLocationInformationExtractor",
    mk_class SgsnLocationInformationExtractor_members SgsnLocationInformationExtractor_ctor);
   ("EpsLocationInformationExtractor",
    mk_class EpsLocationInformationExtractor_members EpsLocationInformationExtractor_ctor);
   ("AdjacentPlmnsExtractor",
    mk_class AdjacentPlmnsExtractor_members AdjacentPlmnsExtractor_ctor);
   ("AreaScopeExtractor",
    mk_class AreaScopeExtractor_members AreaScopeExtractor_ctor);
   ("CallBarringInfoExtractor",
    mk_class CallBarringInfoExtractor_members CallBarringInfoExtractor_ctor);
   ("MoLrExtractor",
    mk_class MoLrExtractor_members MoLrExtractor_ctor);
   ("Mip6AgentInfoExtractor",
    mk_class Mip6AgentInfoExtractor_members Mip6AgentInfoExtractor_ctor);
   ("SpecificApnInfoExtractor",
    mk_class SpecificApnInfoExtractor_members SpecificApnInfoExtractor_ctor);
   ("ActiveApnExtractor",
    mk_class ActiveApnExtractor_members ActiveApnExtractor_ctor);
   ("WlanOffloadabilityExtractor",
    mk_class WlanOffloadabilityExtractor_members WlanOffloadabilityExtractor_ctor);
   ("ScheduledCommunicationTimeExtractor",
    mk_class ScheduledCommunicationTimeExtractor_members ScheduledCommunicationTimeExtractor_ctor);
   ("CommunicationPatternSetExtractor",
    mk_class CommunicationPatternSetExtractor_members CommunicationPatternSetExtractor_ctor);
   ("EquivalentPlmnListExtractor",
    mk_class EquivalentPlmnListExtractor_members EquivalentPlmnListExtractor_ctor);
   ("SupportedServicesExtractor",
    mk_class SupportedServicesExtractor_members SupportedServicesExtractor_ctor);
   ("ProxyInfoExtractor",
    mk_class ProxyInfoExtractor_members ProxyInfoExtractor_ctor);
   ("UtranVectorExtractor",
    mk_class UtranVectorExtractor_members UtranVectorExtractor_ctor);
   ("UeReachabilityConfigurationExtractor",
    mk_class UeReachabilityConfigurationExtractor_members UeReachabilityConfigurationExtractor_ctor);
   ("AllocationRetentionPriorityExtractor",
    mk_class AllocationRetentionPriorityExtractor_members AllocationRetentionPriorityExtractor_ctor);
   ("EpsSubscribedQosProfileExtractor",
    mk_class EpsSubscribedQosProfileExtractor_members EpsSubscribedQosProfileExtractor_ctor);
   ("ApnConfigurationExtractor",
    mk_class ApnConfigurationExtractor_members ApnConfigurationExtractor_ctor);
   ("LocalTimeZoneExtractor",
    mk_class LocalTimeZoneExtractor_members LocalTimeZoneExtractor_ctor);
   ("AuthenticationInfoExtractor",
    mk_class AuthenticationInfoExtractor_members AuthenticationInfoExtractor_ctor);
   ("ImsiGroupIdExtractor",
    mk_class ImsiGroupIdExtractor_members ImsiGroupIdExtractor_ctor);
   ("LcsInfoExtractor",
    mk_class LcsInfoExtractor_members LcsInfoExtractor_ctor);
   ("TeleserviceListExtractor",
    mk_class TeleserviceListExtractor_members TeleserviceListExtractor_ctor);
   ("ApnConfigurationProfileExtractor",
    mk_class ApnConfigurationProfileExtractor_members ApnConfigurationProfileExtractor_ctor);
   ("MdtConfigurationExtractor",
    mk_class MdtConfigurationExtractor_members MdtConfigurationExtractor_ctor);
   ("TraceDataExtractor",
    mk_class TraceDataExtractor_members TraceDataExtractor_ctor);
   ("CsgSubscriptionDataExtractor",
    mk_class CsgSubscriptionDataExtractor_members CsgSubscriptionDataExtractor_ctor);
   ("ProseSubscriptionDataExtractor",
    mk_class ProseSubscriptionDataExtractor_members ProseSubscriptionDataExtractor_ctor);
   ("AeseCommunicationPatternExtractor",
    mk_class AeseCommunicationPatternExtractor_members AeseCommunicationPatternExtractor_ctor);
   ("LocationInformationConfigurationExtractor",
    mk_class LocationInformationConfigurationExtractor_members LocationInformationConfigurationExtractor_ctor);
   ("MonitoringEventConfigurationExtractor",
    mk_class MonitoringEventConfigurationExtractor_members MonitoringEventConfigurationExtractor_ctor);
   ("EmergencyInfoExtractor",
    mk_class EmergencyInfoExtractor_members EmergencyInfoExtractor_ctor);
   ("SubscriptionDataExtractor",
    mk_class SubscriptionDataExtractor_members SubscriptionDataExtractor_ctor);
   ("OcOlrExtractor",
    mk_class OcOlrExtractor_members OcOlrExtractor_ctor);
   ("RequestedUtranGeranAuthenticationInfoExtractor",
    mk_class RequestedUtranGeranAuthenticationInfoExtractor_members RequestedUtranGeranAuthenticationInfoExtractor_ctor);
   ("SubscriptionDataDeletionExtractor",
    mk_class SubscriptionDataDeletionExtractor_members SubscriptionDataDeletionExtractor_ctor);
   ("LoadExtractor",
    mk_class LoadExtractor_members LoadExtractor_ctor);
   ("OcSupportedFeaturesExtractor",
    mk_class OcSupportedFeaturesExtractor_members OcSupportedFeaturesExtractor_ctor);
   ("TerminalInformationExtractor",
    mk_class TerminalInformationExtractor_members TerminalInformationExtractor_ctor);
   ("RequestedEutranAuthenticationInfoExtractor",
    mk_class RequestedEutranAuthenticationInfoExtractor_members RequestedEutranAuthenticationInfoExtractor_ctor);
   ("MonitoringEventReportExtractor",
    mk_class MonitoringEventReportExtractor_members MonitoringEventReportExtractor_ctor);
   ("FailedAvpExtractor",
    mk_class FailedAvpExtractor_members FailedAvpExtractor_ctor);
   ("SupportedFeaturesExtractor",
    mk_class SupportedFeaturesExtractor_members SupportedFeaturesExtractor_ctor);
   ("UpdateLocationRequestExtractor",
    mk_class UpdateLocationRequestExtractor_members UpdateLocationRequestExtractor_ctor);
   ("UpdateLocationAnswerExtractor",
    mk_class UpdateLocationAnswerExtractor_members UpdateLocationAnswerExtractor_ctor);
   ("CancelLocationRequestExtractor",
    mk_class CancelLocationRequestExtractor_members CancelLocationRequestExtractor_ctor);
   ("CancelLocationAnswerExtractor",
    mk_class CancelLocationAnswerExtractor_members CancelLocationAnswerExtractor_ctor);
   ("AuthenticationInformationRequestExtractor",
    mk_class AuthenticationInformationRequestExtractor_members AuthenticationInformationRequestExtractor_ctor);
   ("AuthenticationInformationAnswerExtractor",
    mk_class AuthenticationInformationAnswerExtractor_members AuthenticationInformationAnswerExtractor_ctor);
   ("InsertSubscriberDataRequestExtractor",
    mk_class InsertSubscriberDataRequestExtractor_members InsertSubscriberDataRequestExtractor_ctor);
   ("InsertSubscriberDataAnswerExtractor",
    mk_class InsertSubscriberDataAnswerExtractor_members InsertSubscriberDataAnswerExtractor_ctor);
   ("DeleteSubscriberDataRequestExtractor",
    mk_class DeleteSubscriberDataRequestExtractor_members DeleteSubscriberDataRequestExtractor_ctor);
   ("DeleteSubscriberDataAnswerExtractor",
    mk_class DeleteSubscriberDataAnswerExtractor_members DeleteSubscriberDataAnswerExtractor_ctor);
   ("PurgeUeRequestExtractor",
    mk_class PurgeUeRequestExtractor_members PurgeUeRequestExtractor_ctor);
   ("PurgeUeAnswerExtractor",
    mk_class PurgeUeAnswerExtractor_members PurgeUeAnswerExtractor_ctor);
   ("ResetRequestExtractor",
    mk_class ResetRequestExtractor_members ResetRequestExtractor_ctor);
   ("ResetAnswerExtractor",
    mk_class ResetAnswerExtractor_members ResetAnswerExtractor_ctor)].

Definition lists : list (string * list_class) :=
  [("PdpContextExtractorList",
    mk_list PdpContextExtractorList_element PdpContextExtractorList_avp);
   ("ServiceReportExtractorList",
    mk_list ServiceReportExtractorList_element ServiceReportExtractorList_avp);
   ("ExternalClientExtractorList",
    mk_list ExternalClientExtractorList_element ExternalClientExtractorList_avp);
   ("ServiceTypeExtractorList",
    mk_list ServiceTypeExtractorList_element ServiceTypeExtractorList_avp);
   ("SpecificApnInfoExtractorList",
    mk_list SpecificApnInfoExtractorList_element SpecificApnInfoExtractorList_avp);
   ("ScheduledCommunicationTimeExtractorList",
    mk_list ScheduledCommunicationTimeExtractorList_element ScheduledCommunicationTimeExtractorList_avp);
   ("EUtranVectorExtractorList",
    mk_list EUtranVectorExtractorList_element EUtranVectorExtractorList_avp);
   ("UtranVectorExtractorList",
    mk_list UtranVectorExtractorList_element UtranVectorExtractorList_avp);
   ("GeranVectorExtractorList",
    mk_list GeranVectorExtractorList_element GeranVectorExtractorList_avp);
   ("LcsPrivacyexceptionExtractorList",
    mk_list LcsPrivacyexceptionExtractorList_element LcsPrivacyexceptionExtractorList_avp);
   ("MoLrExtractorList",
    mk_list MoLrExtractorList_element MoLrExtractorList_avp);
   ("CallBarringInfoExtractorList",
    mk_list CallBarringInfoExtractorList_element CallBarringInfoExtractorList_avp);
   ("ApnConfigurationExtractorList",
    mk_list ApnConfigurationExtractorList_element ApnConfigurationExtractorList_avp);
   ("CsgSubscriptionDataExtractorList",
    mk_list CsgSubscriptionDataExtractorList_element CsgSubscriptionDataExtractorList_avp);
   ("AdjacentAccessRestrictionDataExtractorList",
    mk_list AdjacentAccessRestrictionDataExtractorList_element AdjacentAccessRestrictionDataExtractorList_avp);
   ("ImsiGroupIdExtractorList",
    mk_list ImsiGroupIdExtractorList_element ImsiGroupIdExtractorList_avp);
   ("CommunicationPatternSetExtractorList",
    mk_list CommunicationPatternSetExtractorList_element CommunicationPatternSetExtractorList_avp);
   ("AeseCommunicationPatternExtractorList",
    mk_list AeseCommunicationPatternExtractorList_element AeseCommunicationPatternExtractorList_avp);
   ("MonitoringEventConfigurationExtractorList",
    mk_list MonitoringEventConfigurationExtractorList_element MonitoringEventConfigurationExtractorList_avp);
   ("EdrxCycleLengthExtractorList",
    mk_list EdrxCycleLengthExtractorList_element EdrxCycleLengthExtractorList_avp);
   ("SupportedFeaturesExtractorList",
    mk_list SupportedFeaturesExtractorList_element SupportedFeaturesExtractorList_avp);
   ("ActiveApnExtractorList",
    mk_list ActiveApnExtractorList_element ActiveApnExtractorList_avp);
   ("ProxyInfoExtractorList",
    mk_list ProxyInfoExtractorList_element ProxyInfoExtractorList_avp);
   ("LoadExtractorList",
    mk_list LoadExtractorList_element LoadExtractorList_avp);
   ("MonitoringEventReportExtractorList",
    mk_list MonitoringEventReportExtractorList_element MonitoringEventReportExtractorList_avp);
   ("MonitoringEventConfigStatusExtractorList",
    mk_list MonitoringEventConfigStatusExtractorList_element MonitoringEventConfigStatusExtractorList_avp)].

Definition app : application :=
  mk_app getters members initialisers command_classes command_constructors
    extractors lists.

End S6as6d.
