(* ===== verification/S6tClasses.v ===== *)
(** * The classes of the S6t application

    include/s6t.h and src/s6t.cpp:
    the declarations and the constructors as they stand there, in the vocabulary of
    Classes. *)

From S2P Require Import Prelude Classes.
#[local] Open Scope string_scope.

(** ** include/s6t.h, src/s6t.cpp *)

Module S6t.

(** The accessors of [Dictionary] and the members they return. *)
Definition getters_1 : list (string * string) :=
  [("app", "m_app"); ("cmdCOIR", "m_cmd_coir"); ("cmdCOIA", "m_cmd_coia");
   ("cmdREIR", "m_cmd_reir"); ("cmdREIA", "m_cmd_reia"); ("cmdNIIR", "m_cmd_niir");
   ("cmdNIIA", "m_cmd_niia"); ("vnd3GPP", "m_vnd_3gpp");
   ("avpGroupReportingGuardTimer", "m_avp_group_reporting_guard_timer");
   ("avpMonitoringEventConfigStatus", "m_avp_monitoring_event_config_status");
   ("avpOcReportType", "m_avp_oc_report_type");
   ("avpServiceAreaIdentity", "m_avp_service_area_identity");
   ("avpDayOfWeekMask", "m_avp_day_of_week_mask");
   ("avpMaximumUeAvailabilityTime", "m_avp_maximum_ue_availability_time");
   ("avpMaximumResponseTime", "m_avp_maximum_response_time");
   ("avpProxyInfo", "m_avp_proxy_info"); ("avpCsgAccessMode", "m_avp_csg_access_mode");
   ("avpTrackingAreaIdentity", "m_avp_tracking_area_identity");
   ("avpLoadValue", "m_avp_load_value"); ("avpFeatureList", "m_avp_feature_list");
   ("avpExternalIdentifier", "m_avp_external_identifier");
   ("avpFeatureListId", "m_avp_feature_list_id");
   ("avpExperimentalResult", "m_avp_experimental_result");
   ("avpPeriodicCommunicationIndicator", "m_avp_periodic_communication_indicator");
   ("avpCommunicationDurationTime", "m_avp_communication_duration_time");
   ("avpMmeLocationInformation", "m_avp_mme_location_information");
   ("avpAuthSessionState", "m_avp_auth_session_state"); ("avpDrmp", "m_avp_drmp");
   ("avpAeseErrorReport", "m_avp_aese_error_report"); ("avpCiaFlags", "m_avp_cia_flags");
   ("avpLoadType", "m_avp_load_type");
   ("avpReachabilityInformation", "m_avp_reachability_information");
   ("avpDestinationHost", "m_avp_destination_host");
   ("avpRestrictedPlmnList", "m_avp_restricted_plmn_list"); ("avpMsisdn", "m_avp_msisdn");
   ("avpCommunicationPatternSet", "m_avp_communication_pattern_set");
   ("avpScheduledCommunicationTime", "m_avp_scheduled_communication_time");
   ("avpChargedParty", "m_avp_charged_party");
   ("avpSupportedServices", "m_avp_supported_services");
   ("avpReachabilityType", "m_avp_reachability_type");
   ("avpGroupMonitoringEventReport", "m_avp_group_monitoring_event_report");
   ("avpEnhancedCoverageRestriction", "m_avp_enhanced_coverage_restriction");
   ("avpNiddAuthorizationUpdate", "m_avp_nidd_authorization_update");
   ("avpOriginRealm", "m_avp_origin_realm"); ("avpOriginHost", "m_avp_origin_host");
   ("avpCellGlobalIdentity", "m_avp_cell_global_identity");
   ("avpUeReachabilityConfiguration", "m_avp_ue_reachability_configuration");
   ("avpLocationInformationConfiguration", "m_avp_location_information_configuration");
   ("avpMonteLocationType", "m_avp_monte_location_type");
   ("avpAssociationType", "m_avp_association_type");
   ("avpEpsLocationInformation", "m_avp_eps_location_information");
   ("avpRouteRecord", "m_avp_route_record");
   ("avpReferenceIdValidityTime", "m_avp_reference_id_validity_time");
   ("avpServiceSelection", "m_avp_service_selection"); ("avpScefId", "m_avp_scef_id");
   ("avpCsgId", "m_avp_csg_id");
   ("avpCurrentLocationRetrieved", "m_avp_current_location_retrieved");
   ("avpMonitoringType", "m_avp_monitoring_type"); ("avpTimeOfDayEnd", "m_avp_time_of_day_end");
   ("avpOcOlr", "m_avp_oc_olr"); ("avpMaximumDetectionTime", "m_avp_maximum_detection_time");
   ("avpAgeOfLocationInformation", "m_avp_age_of_location_information");
   ("avpGeodeticInformation", "m_avp_geodetic_information");
   ("avpServiceResult", "m_avp_service_result");
   ("avpOcReductionPercentage", "m_avp_oc_reduction_percentage");
   ("avpServiceResultCode", "m_avp_service_result_code");
   ("avpSupportedFeatures", "m_avp_supported_features");
   ("avpNiddAuthorizationResponse", "m_avp_nidd_authorization_response");
   ("avpSupportedMonitoringEvents", "m_avp_supported_monitoring_events");
   ("avpUserIdentifier", "m_avp_user_identifier"); ("avpAccuracy", "m_avp_accuracy")].

Definition getters_2 : list (string * string) :=
  [("avpOcValidityDuration", "m_avp_oc_validity_duration");
   ("avpCsgMembershipIndication", "m_avp_csg_membership_indication");
   ("avpDlBufferingSuggestedPacketCount", "m_avp_dl_buffering_suggested_packet_count");
   ("avpMaximumLatency", "m_avp_maximum_latency"); ("avpSourceid", "m_avp_sourceid");
   ("avpAeseCommunicationPatternConfigStatus", "m_avp_aese_communication_pattern_config_status");
   ("avpAllowedPlmnList", "m_avp_allowed_plmn_list");
   ("avpSgsnLocationInformation", "m_avp_sgsn_location_information");
   ("avpEventHandling", "m_avp_event_handling"); ("avpResultCode", "m_avp_result_code");
   ("avpTypeOfExternalIdentifier", "m_avp_type_of_external_identifier");
   ("avpS6tHssCause", "m_avp_s6t_hss_cause"); ("avpTimeOfDayStart", "m_avp_time_of_day_start");
   ("avpEnhancedCoverageRestrictionData", "m_avp_enhanced_coverage_restriction_data");
   ("avpScefReferenceId", "m_avp_scef_reference_id");
   ("avpMonitoringEventConfiguration", "m_avp_monitoring_event_configuration");
   ("avpLoad", "m_avp_load");
   ("avpEUtranCellGlobalIdentity", "m_avp_e_utran_cell_global_identity");
   ("avpOcSupportedFeatures", "m_avp_oc_supported_features");
   ("avpProxyHost", "m_avp_proxy_host");
   ("avpExperimentalResultCode", "m_avp_experimental_result_code");
   ("avpMaximumNumberOfReports", "m_avp_maximum_number_of_reports");
   ("avpCirFlags", "m_avp_cir_flags");
   ("avpMonitoringEventReport", "m_avp_monitoring_event_report");
   ("avpExtendedEnodebId", "m_avp_extended_enodeb_id");
   ("avpAeseCommunicationPattern", "m_avp_aese_communication_pattern");
   ("avpOcFeatureVector", "m_avp_oc_feature_vector");
   ("avpMonitoringDuration", "m_avp_monitoring_duration");
   ("avpLossOfConnectivityReason", "m_avp_loss_of_connectivity_reason");
   ("avpNodeType", "m_avp_node_type"); ("avpVisitedPlmnId", "m_avp_visited_plmn_id");
   ("avpStationaryIndication", "m_avp_stationary_indication");
   ("avpGrantedValidityTime", "m_avp_granted_validity_time");
   ("avpFailedAvp", "m_avp_failed_avp");
   ("avpRoutingAreaIdentity", "m_avp_routing_area_identity");
   ("avpRequestedValidityTime", "m_avp_requested_validity_time");
   ("avpGeographicalInformation", "m_avp_geographical_information");
   ("avpServiceReport", "m_avp_service_report"); ("avpProxyState", "m_avp_proxy_state");
   ("avpEnodebId", "m_avp_enodeb_id"); ("avpPeriodicTime", "m_avp_periodic_time");
   ("avpNiddAuthorizationRequest", "m_avp_nidd_authorization_request");
   ("avpVendorId", "m_avp_vendor_id"); ("avpOcSequenceNumber", "m_avp_oc_sequence_number");
   ("avpGroupMonitoringEventReportItem", "m_avp_group_monitoring_event_report_item");
   ("avpDestinationRealm", "m_avp_destination_realm"); ("avpSessionId", "m_avp_session_id");
   ("avpUserName", "m_avp_user_name"); ("avpRoamingInformation", "m_avp_roaming_information");
   ("avpImeiChange", "m_avp_imei_change");
   ("avpScefReferenceIdForDeletion", "m_avp_scef_reference_id_for_deletion");
   ("avpRirFlags", "m_avp_rir_flags"); ("avpUserCsgInformation", "m_avp_user_csg_information")].

Definition getters : list (string * string) := getters_1 ++ getters_2.

(** Its members and their classes, in the order of their declaration. *)
Definition members : list (string * string) :=
  [("m_app", "FDDictionaryEntryApplication"); ("m_cmd_coir", "FDDictionaryEntryCommand");
   ("m_cmd_coia", "FDDictionaryEntryCommand"); ("m_cmd_reir", "FDDictionaryEntryCommand");
   ("m_cmd_reia", "FDDictionaryEntryCommand"); ("m_cmd_niir", "FDDictionaryEntryCommand");
   ("m_cmd_niia", "FDDictionaryEntryCommand"); ("m_vnd_3gpp", "FDDictionaryEntryVendor");
   ("m_avp_group_reporting_guard_timer", "FDDictionaryEntryAVP");
   ("m_avp_monitoring_event_config_status", "FDDictionaryEntryAVP");
   ("m_avp_oc_report_type", "FDDictionaryEntryAVP");
   ("m_avp_service_area_identity", "FDDictionaryEntryAVP");
   ("m_avp_day_of_week_mask", "FDDictionaryEntryAVP");
   ("m_avp_maximum_ue_availability_time", "FDDictionaryEntryAVP");
   ("m_avp_maximum_response_time", "FDDictionaryEntryAVP");
   ("m_avp_proxy_info", "FDDictionaryEntryAVP");
   ("m_avp_csg_access_mode", "FDDictionaryEntryAVP");
   ("m_avp_tracking_area_identity", "FDDictionaryEntryAVP");
   ("m_avp_load_value", "FDDictionaryEntryAVP"); ("m_avp_feature_list", "FDDictionaryEntryAVP");
   ("m_avp_external_identifier", "FDDictionaryEntryAVP");
   ("m_avp_feature_list_id", "FDDictionaryEntryAVP");
   ("m_avp_experimental_result", "FDDictionaryEntryAVP");
   ("m_avp_periodic_communication_indicator", "FDDictionaryEntryAVP");
   ("m_avp_communication_duration_time", "FDDictionaryEntryAVP");
   ("m_avp_mme_location_information", "FDDictionaryEntryAVP");
   ("m_avp_auth_session_state", "FDDictionaryEntryAVP"); ("m_avp_drmp", "FDDictionaryEntryAVP");
   ("m_avp_aese_error_report", "FDDictionaryEntryAVP");
   ("m_avp_cia_flags", "FDDictionaryEntryAVP"); ("m_avp_load_type", "FDDictionaryEntryAVP");
   ("m_avp_reachability_information", "FDDictionaryEntryAVP");
   ("m_avp_destination_host", "FDDictionaryEntryAVP");
   ("m_avp_restricted_plmn_list", "FDDictionaryEntryAVP");
   ("m_avp_msisdn", "FDDictionaryEntryAVP");
   ("m_avp_communication_pattern_set", "FDDictionaryEntryAVP");
   ("m_avp_scheduled_communication_time", "FDDictionaryEntryAVP");
   ("m_avp_charged_party", "FDDictionaryEntryAVP");
   ("m_avp_supported_services", "FDDictionaryEntryAVP");
   ("m_avp_reachability_type", "FDDictionaryEntryAVP");
   ("m_avp_group_monitoring_event_report", "FDDictionaryEntryAVP");
   ("m_avp_enhanced_coverage_restriction", "FDDictionaryEntryAVP");
   ("m_avp_nidd_authorization_update", "FDDictionaryEntryAVP");
   ("m_avp_origin_realm", "FDDictionaryEntryAVP");
   ("m_avp_origin_host", "FDDictionaryEntryAVP");
   ("m_avp_cell_global_identity", "FDDictionaryEntryAVP");
   ("m_avp_ue_reachability_configuration", "FDDictionaryEntryAVP");
   ("m_avp_location_information_configuration", "FDDictionaryEntryAVP");
   ("m_avp_monte_location_type", "FDDictionaryEntryAVP");
   ("m_avp_association_type", "FDDictionaryEntryAVP");
   ("m_avp_eps_location_information", "FDDictionaryEntryAVP");
   ("m_avp_route_record", "FDDictionaryEntryAVP");
   ("m_avp_reference_id_validity_time", "FDDictionaryEntryAVP");
   ("m_avp_service_selection", "FDDictionaryEntryAVP");
   ("m_avp_scef_id", "FDDictionaryEntryAVP"); ("m_avp_csg_id", "FDDictionaryEntryAVP");
   ("m_avp_current_location_retrieved", "FDDictionaryEntryAVP");
   ("m_avp_monitoring_type", "FDDictionaryEntryAVP");
   ("m_avp_time_of_day_end", "FDDictionaryEntryAVP"); ("m_avp_oc_olr", "FDDictionaryEntryAVP");
   ("m_avp_maximum_detection_time", "FDDictionaryEntryAVP");
   ("m_avp_age_of_location_information", "FDDictionaryEntryAVP");
   ("m_avp_geodetic_information", "FDDictionaryEntryAVP");
   ("m_avp_service_result", "FDDictionaryEntryAVP");
   ("m_avp_oc_reduction_percentage", "FDDictionaryEntryAVP");
   ("m_avp_service_result_code", "FDDictionaryEntryAVP");
   ("m_avp_supported_features", "FDDictionaryEntryAVP");
   ("m_avp_nidd_authorization_response", "FDDictionaryEntryAVP");
   ("m_avp_supported_monitoring_events", "FDDictionaryEntryAVP");
   ("m_avp_user_identifier", "FDDictionaryEntryAVP");
   ("m_avp_accuracy", "FDDictionaryEntryAVP");
   ("m_avp_oc_validity_duration", "FDDictionaryEntryAVP");
   ("m_avp_csg_membership_indication", "FDDictionaryEntryAVP");
   ("m_avp_dl_buffering_suggested_packet_count", "FDDictionaryEntryAVP");
   ("m_avp_maximum_latency", "FDDictionaryEntryAVP");
   ("m_avp_sourceid", "FDDictionaryEntryAVP");
   ("m_avp_aese_communication_pattern_config_status", "FDDictionaryEntryAVP");
   ("m_avp_allowed_plmn_list", "FDDictionaryEntryAVP");
   ("m_avp_sgsn_location_information", "FDDictionaryEntryAVP");
   ("m_avp_event_handling", "FDDictionaryEntryAVP");
   ("m_avp_result_code", "FDDictionaryEntryAVP");
   ("m_avp_type_of_external_identifier", "FDDictionaryEntryAVP");
   ("m_avp_s6t_hss_cause", "FDDictionaryEntryAVP");
   ("m_avp_time_of_day_start", "FDDictionaryEntryAVP");
   ("m_avp_enhanced_coverage_restriction_data", "FDDictionaryEntryAVP");
   ("m_avp_scef_reference_id", "FDDictionaryEntryAVP");
   ("m_avp_monitoring_event_configuration", "FDDictionaryEntryAVP");
   ("m_avp_load", "FDDictionaryEntryAVP");
   ("m_avp_e_utran_cell_global_identity", "FDDictionaryEntryAVP");
   ("m_avp_oc_supported_features", "FDDictionaryEntryAVP");
   ("m_avp_proxy_host", "FDDictionaryEntryAVP");
   ("m_avp_experimental_result_code", "FDDictionaryEntryAVP");
   ("m_avp_maximum_number_of_reports", "FDDictionaryEntryAVP");
   ("m_avp_cir_flags", "FDDictionaryEntryAVP");
   ("m_avp_monitoring_event_report", "FDDictionaryEntryAVP");
   ("m_avp_extended_enodeb_id", "FDDictionaryEntryAVP");
   ("m_avp_aese_communication_pattern", "FDDictionaryEntryAVP");
   ("m_avp_oc_feature_vector", "FDDictionaryEntryAVP");
   ("m_avp_monitoring_duration", "FDDictionaryEntryAVP");
   ("m_avp_loss_of_connectivity_reason", "FDDictionaryEntryAVP");
   ("m_avp_node_type", "FDDictionaryEntryAVP");
   ("m_avp_visited_plmn_id", "FDDictionaryEntryAVP");
   ("m_avp_stationary_indication", "FDDictionaryEntryAVP");
   ("m_avp_granted_validity_time", "FDDictionaryEntryAVP");
   ("m_avp_failed_avp", "FDDictionaryEntryAVP");
   ("m_avp_routing_area_identity", "FDDictionaryEntryAVP");
   ("m_avp_requested_validity_time", "FDDictionaryEntryAVP");
   ("m_avp_geographical_information", "FDDictionaryEntryAVP");
   ("m_avp_service_report", "FDDictionaryEntryAVP");
   ("m_avp_proxy_state", "FDDictionaryEntryAVP"); ("m_avp_enodeb_id", "FDDictionaryEntryAVP");
   ("m_avp_periodic_time", "FDDictionaryEntryAVP");
   ("m_avp_nidd_authorization_request", "FDDictionaryEntryAVP");
   ("m_avp_vendor_id", "FDDictionaryEntryAVP");
   ("m_avp_oc_sequence_number", "FDDictionaryEntryAVP");
   ("m_avp_group_monitoring_event_report_item", "FDDictionaryEntryAVP");
   ("m_avp_destination_realm", "FDDictionaryEntryAVP");
   ("m_avp_session_id", "FDDictionaryEntryAVP"); ("m_avp_user_name", "FDDictionaryEntryAVP");
   ("m_avp_roaming_information", "FDDictionaryEntryAVP");
   ("m_avp_imei_change", "FDDictionaryEntryAVP");
   ("m_avp_scef_reference_id_for_deletion", "FDDictionaryEntryAVP");
   ("m_avp_rir_flags", "FDDictionaryEntryAVP");
   ("m_avp_user_csg_information", "FDDictionaryEntryAVP")].

(** Its constructor: the name each member looks up and the member whose vendor id
    it uses. *)
Definition initialisers_1 : list (string * string * option string) :=
  [("m_app", "S6t", None); ("m_cmd_coir", "Configuration-Information-Request", None);
   ("m_cmd_coia", "Configuration-Information-Answer", None);
   ("m_cmd_reir", "Reporting-Information-Request", None);
   ("m_cmd_reia", "Reporting-Information-Answer", None);
   ("m_cmd_niir", "NIDD-Information-Request", None);
   ("m_cmd_niia", "NIDD-Information-Answer", None); ("m_vnd_3gpp", "3GPP", None);
   ("m_avp_group_reporting_guard_timer", "Group-Reporting-Guard-Timer", Some "m_vnd_3gpp");
   ("m_avp_monitoring_event_config_status", "Monitoring-Event-Config-Status", Some "m_vnd_3gpp");
   ("m_avp_oc_report_type", "OC-Report-Type", None);
   ("m_avp_service_area_identity", "Service-Area-Identity", Some "m_vnd_3gpp");
   ("m_avp_day_of_week_mask", "Day-Of-Week-Mask", None);
   ("m_avp_maximum_ue_availability_time", "Maximum-UE-Availability-Time", Some "m_vnd_3gpp");
   ("m_avp_maximum_response_time", "Maximum-Response-Time", Some "m_vnd_3gpp");
   ("m_avp_proxy_info", "Proxy-Info", None);
   ("m_avp_csg_access_mode", "CSG-Access-Mode", Some "m_vnd_3gpp");
   ("m_avp_tracking_area_identity", "Tracking-Area-Identity", Some "m_vnd_3gpp");
   ("m_avp_load_value", "Load-Value", None);
   ("m_avp_feature_list", "Feature-List", Some "m_vnd_3gpp");
   ("m_avp_external_identifier", "External-Identifier", Some "m_vnd_3gpp");
   ("m_avp_feature_list_id", "Feature-List-ID", Some "m_vnd_3gpp");
   ("m_avp_experimental_result", "Experimental-Result", None);
   ("m_avp_periodic_communication_indicator", "Periodic-Communication-Indicator", Some "m_vnd_3gpp");
   ("m_avp_communication_duration_time", "Communication-Duration-Time", Some "m_vnd_3gpp");
   ("m_avp_mme_location_information", "MME-Location-Information", Some "m_vnd_3gpp");
   ("m_avp_auth_session_state", "Auth-Session-State", None); ("m_avp_drmp", "DRMP", None);
   ("m_avp_aese_error_report", "AESE-Error-Report", Some "m_vnd_3gpp");
   ("m_avp_cia_flags", "CIA-Flags", Some "m_vnd_3gpp"); ("m_avp_load_type", "Load-Type", None);
   ("m_avp_reachability_information", "Reachability-Information", Some "m_vnd_3gpp");
   ("m_avp_destination_host", "Destination-Host", None);
   ("m_avp_restricted_plmn_list", "Restricted-PLMN-List", Some "m_vnd_3gpp");
   ("m_avp_msisdn", "MSISDN", Some "m_vnd_3gpp");
   ("m_avp_communication_pattern_set", "Communication-Pattern-Set", Some "m_vnd_3gpp");
   ("m_avp_scheduled_communication_time", "Scheduled-Communication-Time", Some "m_vnd_3gpp");
   ("m_avp_charged_party", "Charged-Party", Some "m_vnd_3gpp");
   ("m_avp_supported_services", "Supported-Services", Some "m_vnd_3gpp");
   ("m_avp_reachability_type", "Reachability-Type", Some "m_vnd_3gpp");
   ("m_avp_group_monitoring_event_report", "Group-Monitoring-Event-Report", Some "m_vnd_3gpp");
   ("m_avp_enhanced_coverage_restriction", "Enhanced-Coverage-Restriction", Some "m_vnd_3gpp");
   ("m_avp_nidd_authorization_update", "NIDD-Authorization-Update", Some "m_vnd_3gpp");
   ("m_avp_origin_realm", "Origin-Realm", None); ("m_avp_origin_host", "Origin-Host", None);
   ("m_avp_cell_global_identity", "Cell-Global-Identity", Some "m_vnd_3gpp");
   ("m_avp_ue_reachability_configuration", "UE-Reachability-Configuration", Some "m_vnd_3gpp");
   ("m_avp_location_information_configuration", "Location-Information-Configuration", Some "m_vnd_3gpp");
   ("m_avp_monte_location_type", "MONTE-Location-Type", Some "m_vnd_3gpp");
   ("m_avp_association_type", "Association-Type", Some "m_vnd_3gpp");
   ("m_avp_eps_location_information", "EPS-Location-Information", Some "m_vnd_3gpp");
   ("m_avp_route_record", "Route-Record", None);
   ("m_avp_reference_id_validity_time", "Reference-ID-Validity-Time", Some "m_vnd_3gpp");
   ("m_avp_service_selection", "Service-Selection", None);
   ("m_avp_scef_id", "SCEF-ID", Some "m_vnd_3gpp");
   ("m_avp_csg_id", "CSG-Id", Some "m_vnd_3gpp");
   ("m_avp_current_location_retrieved", "Current-Location-Retrieved", Some "m_vnd_3gpp");
   ("m_avp_monitoring_type", "Monitoring-Type", Some "m_vnd_3gpp");
   ("m_avp_time_of_day_end", "Time-Of-Day-End", None); ("m_avp_oc_olr", "OC-OLR", None);
   ("m_avp_maximum_detection_time", "Maximum-Detection-Time", Some "m_vnd_3gpp");
   ("m_avp_age_of_location_information", "Age-Of-Location-Information", Some "m_vnd_3gpp");
   ("m_avp_geodetic_information", "Geodetic-Information", Some "m_vnd_3gpp");
   ("m_avp_service_result", "Service-Result", Some "m_vnd_3gpp");
   ("m_avp_oc_reduction_percentage", "OC-Reduction-Percentage", None);
   ("m_avp_service_result_code", "Service-Result-Code", Some "m_vnd_3gpp");
   ("m_avp_supported_features", "Supported-Features", Some "m_vnd_3gpp");
   ("m_avp_nidd_authorization_response", "NIDD-Authorization-Response", Some "m_vnd_3gpp");
   ("m_avp_supported_monitoring_events", "Supported-Monitoring-Events", Some "m_vnd_3gpp");
   ("m_avp_user_identifier", "User-Identifier", Some "m_vnd_3gpp");
   ("m_avp_accuracy", "Accuracy", Some "m_vnd_3gpp");
   ("m_avp_oc_validity_duration", "OC-Validity-Duration", None);
   ("m_avp_csg_membership_indication", "CSG-Membership-Indication", Some "m_vnd_3gpp");
   ("m_avp_dl_buffering_suggested_packet_count", "DL-Buffering-Suggested-Packet-Count", Some "m_vnd_3gpp");
   ("m_avp_maximum_latency", "Maximum-Latency", Some "m_vnd_3gpp");
   ("m_avp_sourceid", "SourceID", None);
   ("m_avp_aese_communication_pattern_config_status", "AESE-Communication-Pattern-Config-Status", Some "m_vnd_3gpp");
   ("m_avp_allowed_plmn_list", "Allowed-PLMN-List", Some "m_vnd_3gpp");
   ("m_avp_sgsn_location_information", "SGSN-Location-Information", Some "m_vnd_3gpp");
   ("m_avp_event_handling", "Event-Handling", Some "m_vnd_3gpp");
   ("m_avp_result_code", "Result-Code", None);
   ("m_avp_type_of_external_identifier", "Type-Of-External-Identifier", Some "m_vnd_3gpp");
   ("m_avp_s6t_hss_cause", "S6t-HSS-Cause", Some "m_vnd_3gpp");
   ("m_avp_time_of_day_start", "Time-Of-Day-Start", None);
   ("m_avp_enhanced_coverage_restriction_data", "Enhanced-Coverage-Restriction-Data", Some "m_vnd_3gpp");
   ("m_avp_scef_reference_id", "SCEF-Reference-ID", Some "m_vnd_3gpp");
   ("m_avp_monitoring_event_configuration", "Monitoring-Event-Configuration", Some "m_vnd_3gpp");
   ("m_avp_load", "Load", None);
   ("m_avp_e_utran_cell_global_identity", "E-UTRAN-Cell-Global-Identity", Some "m_vnd_3gpp");
   ("m_avp_oc_supported_features", "OC-Supported-Features", None);
   ("m_avp_proxy_host", "Proxy-Host", None);
   ("m_avp_experimental_result_code", "Experimental-Result-Code", None);
   ("m_avp_maximum_number_of_reports", "Maximum-Number-of-Reports", Some "m_vnd_3gpp");
   ("m_avp_cir_flags", "CIR-Flags", Some "m_vnd_3gpp");
   ("m_avp_monitoring_event_report", "Monitoring-Event-Report", Some "m_vnd_3gpp");
   ("m_avp_extended_enodeb_id", "Extended-eNodeB-Id", Some "m_vnd_3gpp");
   ("m_avp_aese_communication_pattern", "AESE-Communication-Pattern", Some "m_vnd_3gpp");
   ("m_avp_oc_feature_vector", "OC-Feature-Vector", None);
   ("m_avp_monitoring_duration", "Monitoring-Duration", Some "m_vnd_3gpp");
   ("m_avp_loss_of_connectivity_reason", "Loss-Of-Connectivity-Reason", Some "m_vnd_3gpp");
   ("m_avp_node_type", "Node-Type", Some "m_vnd_3gpp");
   ("m_avp_visited_plmn_id", "Visited-PLMN-Id", Some "m_vnd_3gpp");
   ("m_avp_stationary_indication", "Stationary-Indication", Some "m_vnd_3gpp");
   ("m_avp_granted_validity_time", "Granted-Validity-Time", Some "m_vnd_3gpp");
   ("m_avp_failed_avp", "Failed-AVP", None);
   ("m_avp_routing_area_identity", "Routing-Area-Identity", Some "m_vnd_3gpp");
   ("m_avp_requested_validity_time", "Requested-Validity-Time", Some "m_vnd_3gpp");
   ("m_avp_geographical_information", "Geographical-Information", Some "m_vnd_3gpp");
   ("m_avp_service_report", "Service-Report", Some "m_vnd_3gpp");
   ("m_avp_proxy_state", "Proxy-State", None);
   ("m_avp_enodeb_id", "eNodeB-Id", Some "m_vnd_3gpp");
   ("m_avp_periodic_time", "Periodic-Time", Some "m_vnd_3gpp");
   ("m_avp_nidd_authorization_request", "NIDD-Authorization-Request", Some "m_vnd_3gpp")].

Definition initialisers_2 : list (string * string * option string) :=
  [("m_avp_vendor_id", "Vendor-Id", None);
   ("m_avp_oc_sequence_number", "OC-Sequence-Number", None);
   ("m_avp_group_monitoring_event_report_item", "Group-Monitoring-Event-Report-Item", Some "m_vnd_3gpp");
   ("m_avp_destination_realm", "Destination-Realm", None);
   ("m_avp_session_id", "Session-Id", None); ("m_avp_user_name", "User-Name", None);
   ("m_avp_roaming_information", "Roaming-Information", Some "m_vnd_3gpp");
   ("m_avp_imei_change", "IMEI-Change", Some "m_vnd_3gpp");
   ("m_avp_scef_reference_id_for_deletion", "SCEF-Reference-ID-for-Deletion", Some "m_vnd_3gpp");
   ("m_avp_rir_flags", "RIR-Flags", Some "m_vnd_3gpp");
   ("m_avp_user_csg_information", "User-CSG-Information", Some "m_vnd_3gpp")].

Definition initialisers : list (string * string * option string) := initialisers_1 ++ initialisers_2.

(** The command and request classes, with their base classes. *)
Definition command_classes : list (string * string) :=
  [("COIRcmd", "FDCommandRequest"); ("COIRreq", "FDMessageRequest");
   ("REIRcmd", "FDCommandRequest"); ("REIRreq", "FDMessageRequest");
   ("NIIRcmd", "FDCommandRequest"); ("NIIRreq", "FDMessageRequest")].

(** Their constructors: the accessors whose entries the base class is given. *)
Definition command_constructors : list (string * list string) :=
  [("COIRcmd", ["cmdCOIR"]); ("COIRreq", ["app"; "cmdCOIR"]); ("REIRcmd", ["cmdREIR"]);
   ("REIRreq", ["app"; "cmdREIR"]); ("NIIRcmd", ["cmdNIIR"]); ("NIIRreq", ["app"; "cmdNIIR"])].

Definition ServiceResultExtractor_members : list (string * string) :=
  [("vendor_id", "FDExtractorAvp"); ("service_result_code", "FDExtractorAvp")].
Definition ServiceResultExtractor_ctor : constructor :=
  mk_ctor (Some "avpServiceResult")
    [("vendor_id", Some "avpVendorId"); ("service_result_code", Some "avpServiceResultCode")]
    ["vendor_id"; "service_result_code"].

Definition ServiceReportExtractor_members : list (string * string) :=
  [("service_result", "ServiceResultExtractor"); ("node_type", "FDExtractorAvp")].
Definition ServiceReportExtractor_ctor : constructor :=
  mk_ctor (Some "avpServiceReport")
    [("service_result", None); ("node_type", Some "avpNodeType")]
    ["service_result"; "node_type"].

Definition MonitoringEventConfigStatusExtractor_members : list (string * string) :=
  [("service_report", "ServiceReportExtractorList"); ("scef_reference_id", "FDExtractorAvp");
   ("scef_id", "FDExtractorAvp")].
Definition MonitoringEventConfigStatusExtractor_ctor : constructor :=
  mk_ctor (Some "avpMonitoringEventConfigStatus")
    [("service_report", None); ("scef_reference_id", Some "avpScefReferenceId");
     ("scef_id", Some "avpScefId")]
    ["service_report"; "scef_reference_id"; "scef_id"].

Definition ProxyInfoExtractor_members : list (string * string) :=
  [("proxy_host", "FDExtractorAvp"); ("proxy_state", "FDExtractorAvp")].
Definition ProxyInfoExtractor_ctor : constructor :=
  mk_ctor (Some "avpProxyInfo")
    [("proxy_host", Some "avpProxyHost"); ("proxy_state", Some "avpProxyState")]
    ["proxy_host"; "proxy_state"].

Definition ExperimentalResultExtractor_members : list (string * string) :=
  [("vendor_id", "FDExtractorAvp"); ("experimental_result_code", "FDExtractorAvp")].
Definition ExperimentalResultExtractor_ctor : constructor :=
  mk_ctor (Some "avpExperimentalResult")
    [("vendor_id", Some "avpVendorId");
     ("experimental_result_code", Some "avpExperimentalResultCode")]
    ["vendor_id"; "experimental_result_code"].

Definition UserCsgInformationExtractor_members : list (string * string) :=
  [("csg_id", "FDExtractorAvp"); ("csg_access_mode", "FDExtractorAvp");
   ("csg_membership_indication", "FDExtractorAvp")].
Definition UserCsgInformationExtractor_ctor : constructor :=
  mk_ctor (Some "avpUserCsgInformation")
    [("csg_id", Some "avpCsgId"); ("csg_access_mode", Some "avpCsgAccessMode");
     ("csg_membership_indication", Some "avpCsgMembershipIndication")]
    ["csg_id"; "csg_access_mode"; "csg_membership_indication"].

Definition MmeLocationInformationExtractor_members : list (string * string) :=
  [("e_utran_cell_global_identity", "FDExtractorAvp");
   ("tracking_area_identity", "FDExtractorAvp"); ("geographical_information", "FDExtractorAvp");
   ("geodetic_information", "FDExtractorAvp"); ("current_location_retrieved", "FDExtractorAvp");
   ("age_of_location_information", "FDExtractorAvp");
   ("user_csg_information", "UserCsgInformationExtractor"); ("enodeb_id", "FDExtractorAvp");
   ("extended_enodeb_id", "FDExtractorAvp"); ("destination_host", "FDExtractorAvp")].
Definition MmeLocationInformationExtractor_ctor : constructor :=
  mk_ctor (Some "avpMmeLocationInformation")
    [("e_utran_cell_global_identity", Some "avpEUtranCellGlobalIdentity");
     ("tracking_area_identity", Some "avpTrackingAreaIdentity");
     ("geographical_information", Some "avpGeographicalInformation");
     ("geodetic_information", Some "avpGeodeticInformation");
     ("current_location_retrieved", Some "avpCurrentLocationRetrieved");
     ("age_of_location_information", Some "avpAgeOfLocationInformation");
     ("user_csg_information", None); ("enodeb_id", Some "avpEnodebId");
     ("extended_enodeb_id", Some "avpExtendedEnodebId");
     ("destination_host", Some "avpDestinationHost")]
    ["e_utran_cell_global_identity"; "tracking_area_identity"; "geographical_information";
     "geodetic_information"; "current_location_retrieved"; "age_of_location_information";
     "user_csg_information"; "enodeb_id"; "extended_enodeb_id"; "destination_host"].

Definition AeseErrorReportExtractor_members : list (string * string) :=
  [("service_result", "ServiceResultExtractor")].
Definition AeseErrorReportExtractor_ctor : constructor :=
  mk_ctor (Some "avpAeseErrorReport")
    [("service_result", None)]
    ["service_result"].

Definition RestrictedPlmnListExtractor_members : list (string * string) :=
  [("visited_plmn_id", "FDExtractorAvpList")].
Definition RestrictedPlmnListExtractor_ctor : constructor :=
  mk_ctor (Some "avpRestrictedPlmnList")
    [("visited_plmn_id", Some "avpVisitedPlmnId")]
    ["visited_plmn_id"].

Definition ScheduledCommunicationTimeExtractor_members : list (string * string) :=
  [("day_of_week_mask", "FDExtractorAvp"); ("time_of_day_start", "FDExtractorAvp");
   ("time_of_day_end", "FDExtractorAvp")].
Definition ScheduledCommunicationTimeExtractor_ctor : constructor :=
  mk_ctor (Some "avpScheduledCommunicationTime")
    [("day_of_week_mask", Some "avpDayOfWeekMask");
     ("time_of_day_start", Some "avpTimeOfDayStart");
     ("time_of_day_end", Some "avpTimeOfDayEnd")]
    ["day_of_week_mask"; "time_of_day_start"; "time_of_day_end"].

Definition CommunicationPatternSetExtractor_members : list (string * string) :=
  [("periodic_communication_indicator", "FDExtractorAvp");
   ("communication_duration_time", "FDExtractorAvp"); ("periodic_time", "FDExtractorAvp");
   ("scheduled_communication_time", "ScheduledCommunicationTimeExtractorList");
   ("stationary_indication", "FDExtractorAvp");
   ("reference_id_validity_time", "FDExtractorAvp")].
Definition CommunicationPatternSetExtractor_ctor : constructor :=
  mk_ctor (Some "avpCommunicationPatternSet")
    [("periodic_communication_indicator", Some "avpPeriodicCommunicationIndicator");
     ("communication_duration_time", Some "avpCommunicationDurationTime");
     ("periodic_time", Some "avpPeriodicTime"); ("scheduled_communication_time", None);
     ("stationary_indication", Some "avpStationaryIndication");
     ("reference_id_validity_time", Some "avpReferenceIdValidityTime")]
    ["periodic_communication_indicator"; "communication_duration_time"; "periodic_time";
     "scheduled_communication_time"; "stationary_indication"; "reference_id_validity_time"].

Definition SupportedServicesExtractor_members : list (string * string) :=
  [("supported_monitoring_events", "FDExtractorAvp"); ("node_type", "FDExtractorAvp")].
Definition SupportedServicesExtractor_ctor : constructor :=
  mk_ctor (Some "avpSupportedServices")
    [("supported_monitoring_events", Some "avpSupportedMonitoringEvents");
     ("node_type", Some "avpNodeType")]
    ["supported_monitoring_events"; "node_type"].

Definition UserIdentifierExtractor_members : list (string * string) :=
  [("user_name", "FDExtractorAvp"); ("msisdn", "FDExtractorAvp");
   ("external_identifier", "FDExtractorAvp"); ("type_of_external_identifier", "FDExtractorAvp")].
Definition UserIdentifierExtractor_ctor : constructor :=
  mk_ctor (Some "avpUserIdentifier")
    [("user_name", Some "avpUserName"); ("msisdn", Some "avpMsisdn");
     ("external_identifier", Some "avpExternalIdentifier");
     ("type_of_external_identifier", Some "avpTypeOfExternalIdentifier")]
    ["user_name"; "msisdn"; "external_identifier"; "type_of_external_identifier"].

Definition SgsnLocationInformationExtractor_members : list (string * string) :=
  [("cell_global_identity", "FDExtractorAvp"); ("service_area_identity", "FDExtractorAvp");
   ("routing_area_identity", "FDExtractorAvp"); ("geographical_information", "FDExtractorAvp");
   ("geodetic_information", "FDExtractorAvp"); ("current_location_retrieved", "FDExtractorAvp");
   ("age_of_location_information", "FDExtractorAvp");
   ("user_csg_information", "UserCsgInformationExtractor")].
Definition SgsnLocationInformationExtractor_ctor : constructor :=
  mk_ctor (Some "avpSgsnLocationInformation")
    [("cell_global_identity", Some "avpCellGlobalIdentity");
     ("service_area_identity", Some "avpServiceAreaIdentity");
     ("routing_area_identity", Some "avpRoutingAreaIdentity");
     ("geographical_information", Some "avpGeographicalInformation");
     ("geodetic_information", Some "avpGeodeticInformation");
     ("current_location_retrieved", Some "avpCurrentLocationRetrieved");
     ("age_of_location_information", Some "avpAgeOfLocationInformation");
     ("user_csg_information", None)]
    ["cell_global_identity"; "service_area_identity"; "routing_area_identity";
     "geographical_information"; "geodetic_information"; "current_location_retrieved";
     "age_of_location_information"; "user_csg_information"].

Definition EpsLocationInformationExtractor_members : list (string * string) :=
  [("mme_location_information", "MmeLocationInformationExtractor");
   ("sgsn_location_information", "SgsnLocationInformationExtractor")].
Definition EpsLocationInformationExtractor_ctor : constructor :=
  mk_ctor (Some "avpEpsLocationInformation")
    [("mme_location_information", None); ("sgsn_location_information", None)]
    ["mme_location_information"; "sgsn_location_information"].

Definition GroupMonitoringEventReportItemExtractor_members : list (string * string) :=
  [("user_identifier", "UserIdentifierExtractor"); ("visited_plmn_id", "FDExtractorAvp");
   ("roaming_information", "FDExtractorAvp"); ("reachability_information", "FDExtractorAvp");
   ("maximum_ue_availability_time", "FDExtractorAvp");
   ("eps_location_information", "EpsLocationInformationExtractor");
   ("monitoring_type", "FDExtractorAvp"); ("service_report", "ServiceReportExtractorList");
   ("s6t_hss_cause", "FDExtractorAvp")].
Definition GroupMonitoringEventReportItemExtractor_ctor : constructor :=
  mk_ctor (Some "avpGroupMonitoringEventReportItem")
    [("user_identifier", None); ("visited_plmn_id", Some "avpVisitedPlmnId");
     ("roaming_information", Some "avpRoamingInformation");
     ("reachability_information", Some "avpReachabilityInformation");
     ("maximum_ue_availability_time", Some "avpMaximumUeAvailabilityTime");
     ("eps_location_information", None); ("monitoring_type", Some "avpMonitoringType");
     ("service_report", None); ("s6t_hss_cause", Some "avpS6tHssCause")]
    ["user_identifier"; "visited_plmn_id"; "roaming_information"; "reachability_information";
     "maximum_ue_availability_time"; "eps_location_information"; "monitoring_type";
     "service_report"; "s6t_hss_cause"].

Definition GroupMonitoringEventReportExtractor_members : list (string * string) :=
  [("scef_reference_id", "FDExtractorAvp"); ("scef_id", "FDExtractorAvp");
   ("group_monitoring_event_report_item", "GroupMonitoringEventReportItemExtractorList")].
Definition GroupMonitoringEventReportExtractor_ctor : constructor :=
  mk_ctor (Some "avpGroupMonitoringEventReport")
    [("scef_reference_id", Some "avpScefReferenceId"); ("scef_id", Some "avpScefId");
     ("group_monitoring_event_report_item", None)]
    ["scef_reference_id"; "scef_id"; "group_monitoring_event_report_item"].

Definition AllowedPlmnListExtractor_members : list (string * string) :=
  [("visited_plmn_id", "FDExtractorAvpList")].
Definition AllowedPlmnListExtractor_ctor : constructor :=
  mk_ctor (Some "avpAllowedPlmnList")
    [("visited_plmn_id", Some "avpVisitedPlmnId")]
    ["visited_plmn_id"].

Definition EnhancedCoverageRestrictionExtractor_members : list (string * string) :=
  [("restricted_plmn_list", "RestrictedPlmnListExtractor");
   ("allowed_plmn_list", "AllowedPlmnListExtractor")].
Definition EnhancedCoverageRestrictionExtractor_ctor : constructor :=
  mk_ctor (Some "avpEnhancedCoverageRestriction")
    [("restricted_plmn_list", None); ("allowed_plmn_list", None)]
    ["restricted_plmn_list"; "allowed_plmn_list"].

Definition NiddAuthorizationUpdateExtractor_members : list (string * string) :=
  [("msisdn", "FDExtractorAvp"); ("user_name", "FDExtractorAvp");
   ("external_identifier", "FDExtractorAvp"); ("granted_validity_time", "FDExtractorAvp")].
Definition NiddAuthorizationUpdateExtractor_ctor : constructor :=
  mk_ctor (Some "avpNiddAuthorizationUpdate")
    [("msisdn", Some "avpMsisdn"); ("user_name", Some "avpUserName");
     ("external_identifier", Some "avpExternalIdentifier");
     ("granted_validity_time", Some "avpGrantedValidityTime")]
    ["msisdn"; "user_name"; "external_identifier"; "granted_validity_time"].

Definition UeReachabilityConfigurationExtractor_members : list (string * string) :=
  [("reachability_type", "FDExtractorAvp"); ("maximum_latency", "FDExtractorAvp");
   ("maximum_response_time", "FDExtractorAvp")].
Definition UeReachabilityConfigurationExtractor_ctor : constructor :=
  mk_ctor (Some "avpUeReachabilityConfiguration")
    [("reachability_type", Some "avpReachabilityType");
     ("maximum_latency", Some "avpMaximumLatency");
     ("maximum_response_time", Some "avpMaximumResponseTime")]
    ["reachability_type"; "maximum_latency"; "maximum_response_time"].

Definition LocationInformationConfigurationExtractor_members : list (string * string) :=
  [("monte_location_type", "FDExtractorAvp"); ("accuracy", "FDExtractorAvp")].
Definition LocationInformationConfigurationExtractor_ctor : constructor :=
  mk_ctor (Some "avpLocationInformationConfiguration")
    [("monte_location_type", Some "avpMonteLocationType"); ("accuracy", Some "avpAccuracy")]
    ["monte_location_type"; "accuracy"].

Definition OcOlrExtractor_members : list (string * string) :=
  [("oc_sequence_number", "FDExtractorAvp"); ("oc_report_type", "FDExtractorAvp");
   ("oc_reduction_percentage", "FDExtractorAvp"); ("oc_validity_duration", "FDExtractorAvp")].
Definition OcOlrExtractor_ctor : constructor :=
  mk_ctor (Some "avpOcOlr")
    [("oc_sequence_number", Some "avpOcSequenceNumber");
     ("oc_report_type", Some "avpOcReportType");
     ("oc_reduction_percentage", Some "avpOcReductionPercentage");
     ("oc_validity_duration", Some "avpOcValidityDuration")]
    ["oc_sequence_number"; "oc_report_type"; "oc_reduction_percentage"; "oc_validity_duration"].

Definition SupportedFeaturesExtractor_members : list (string * string) :=
  [("vendor_id", "FDExtractorAvp"); ("feature_list_id", "FDExtractorAvp");
   ("feature_list", "FDExtractorAvp")].
Definition SupportedFeaturesExtractor_ctor : constructor :=
  mk_ctor (Some "avpSupportedFeatures")
    [("vendor_id", Some "avpVendorId"); ("feature_list_id", Some "avpFeatureListId");
     ("feature_list", Some "avpFeatureList")]
    ["vendor_id"; "feature_list_id"; "feature_list"].

Definition NiddAuthorizationResponseExtractor_members : list (string * string) :=
  [("msisdn", "FDExtractorAvp"); ("user_name", "FDExtractorAvp");
   ("external_identifier", "FDExtractorAvp"); ("granted_validity_time", "FDExtractorAvp")].
Definition NiddAuthorizationResponseExtractor_ctor : constructor :=
  mk_ctor (Some "avpNiddAuthorizationResponse")
    [("msisdn", Some "avpMsisdn"); ("user_name", Some "avpUserName");
     ("external_identifier", Some "avpExternalIdentifier");
     ("granted_validity_time", Some "avpGrantedValidityTime")]
    ["msisdn"; "user_name"; "external_identifier"; "granted_validity_time"].

Definition AeseCommunicationPatternConfigStatusExtractor_members : list (string * string) :=
  [("scef_reference_id", "FDExtractorAvp"); ("scef_id", "FDExtractorAvp");
   ("aese_error_report", "AeseErrorReportExtractor")].
Definition AeseCommunicationPatternConfigStatusExtractor_ctor : constructor :=
  mk_ctor (Some "avpAeseCommunicationPatternConfigStatus")
    [("scef_reference_id", Some "avpScefReferenceId"); ("scef_id", Some "avpScefId");
     ("aese_error_report", None)]
    ["scef_reference_id"; "scef_id"; "aese_error_report"].

Definition EnhancedCoverageRestrictionDataExtractor_members : list (string * string) :=
  [("enhanced_coverage_restriction", "EnhancedCoverageRestrictionExtractor");
   ("visited_plmn_id", "FDExtractorAvp")].
Definition EnhancedCoverageRestrictionDataExtractor_ctor : constructor :=
  mk_ctor (Some "avpEnhancedCoverageRestrictionData")
    [("enhanced_coverage_restriction", None); ("visited_plmn_id", Some "avpVisitedPlmnId")]
    ["enhanced_coverage_restriction"; "visited_plmn_id"].

Definition MonitoringEventConfigurationExtractor_members : list (string * string) :=
  [("scef_reference_id", "FDExtractorAvp"); ("scef_id", "FDExtractorAvp");
   ("monitoring_type", "FDExtractorAvp");
   ("scef_reference_id_for_deletion", "FDExtractorAvpList");
   ("maximum_number_of_reports", "FDExtractorAvp"); ("monitoring_duration", "FDExtractorAvp");
   ("charged_party", "FDExtractorAvp"); ("maximum_detection_time", "FDExtractorAvp");
   ("ue_reachability_configuration", "UeReachabilityConfigurationExtractor");
   ("location_information_configuration", "LocationInformationConfigurationExtractor");
   ("association_type", "FDExtractorAvp");
   ("dl_buffering_suggested_packet_count", "FDExtractorAvp")].
Definition MonitoringEventConfigurationExtractor_ctor : constructor :=
  mk_ctor (Some "avpMonitoringEventConfiguration")
    [("scef_reference_id", Some "avpScefReferenceId"); ("scef_id", Some "avpScefId");
     ("monitoring_type", Some "avpMonitoringType");
     ("scef_reference_id_for_deletion", Some "avpScefReferenceIdForDeletion");
     ("maximum_number_of_reports", Some "avpMaximumNumberOfReports");
     ("monitoring_duration", Some "avpMonitoringDuration");
     ("charged_party", Some "avpChargedParty");
     ("maximum_detection_time", Some "avpMaximumDetectionTime");
     ("ue_reachability_configuration", None); ("location_information_configuration", None);
     ("association_type", Some "avpAssociationType");
     ("dl_buffering_suggested_packet_count", Some "avpDlBufferingSuggestedPacketCount")]
    ["scef_reference_id"; "scef_id"; "monitoring_type"; "scef_reference_id_for_deletion";
     "maximum_number_of_reports"; "monitoring_duration"; "charged_party";
     "maximum_detection_time"; "ue_reachability_configuration";
     "location_information_configuration"; "association_type";
     "dl_buffering_suggested_packet_count"].

Definition LoadExtractor_members : list (string * string) :=
  [("load_type", "FDExtractorAvp"); ("load_value", "FDExtractorAvp");
   ("sourceid", "FDExtractorAvp")].
Definition LoadExtractor_ctor : constructor :=
  mk_ctor (Some "avpLoad")
    [("load_type", Some "avpLoadType"); ("load_value", Some "avpLoadValue");
     ("sourceid", Some "avpSourceid")]
    ["load_type"; "load_value"; "sourceid"].

Definition OcSupportedFeaturesExtractor_members : list (string * string) :=
  [("oc_feature_vector", "FDExtractorAvp")].
Definition OcSupportedFeaturesExtractor_ctor : constructor :=
  mk_ctor (Some "avpOcSupportedFeatures")
    [("oc_feature_vector", Some "avpOcFeatureVector")]
    ["oc_feature_vector"].

Definition MonitoringEventReportExtractor_members : list (string * string) :=
  [("scef_reference_id", "FDExtractorAvp"); ("scef_id", "FDExtractorAvp");
   ("visited_plmn_id", "FDExtractorAvp"); ("roaming_information", "FDExtractorAvp");
   ("imei_change", "FDExtractorAvp"); ("reachability_information", "FDExtractorAvp");
   ("maximum_ue_availability_time", "FDExtractorAvp");
   ("eps_location_information", "EpsLocationInformationExtractor");
   ("monitoring_type", "FDExtractorAvp"); ("event_handling", "FDExtractorAvp");
   ("service_report", "ServiceReportExtractorList");
   ("loss_of_connectivity_reason", "FDExtractorAvp")].
Definition MonitoringEventReportExtractor_ctor : constructor :=
  mk_ctor (Some "avpMonitoringEventReport")
    [("scef_reference_id", Some "avpScefReferenceId"); ("scef_id", Some "avpScefId");
     ("visited_plmn_id", Some "avpVisitedPlmnId");
     ("roaming_information", Some "avpRoamingInformation");
     ("imei_change", Some "avpImeiChange");
     ("reachability_information", Some "avpReachabilityInformation");
     ("maximum_ue_availability_time", Some "avpMaximumUeAvailabilityTime");
     ("eps_location_information", None); ("monitoring_type", Some "avpMonitoringType");
     ("event_handling", Some "avpEventHandling"); ("service_report", None);
     ("loss_of_connectivity_reason", Some "avpLossOfConnectivityReason")]
    ["scef_reference_id"; "scef_id"; "visited_plmn_id"; "roaming_information"; "imei_change";
     "reachability_information"; "maximum_ue_availability_time"; "eps_location_information";
     "monitoring_type"; "event_handling"; "service_report"; "loss_of_connectivity_reason"].

Definition AeseCommunicationPatternExtractor_members : list (string * string) :=
  [("scef_reference_id", "FDExtractorAvp"); ("scef_id", "FDExtractorAvp");
   ("scef_reference_id_for_deletion", "FDExtractorAvpList");
   ("communication_pattern_set", "CommunicationPatternSetExtractorList")].
Definition AeseCommunicationPatternExtractor_ctor : constructor :=
  mk_ctor (Some "avpAeseCommunicationPattern")
    [("scef_reference_id", Some "avpScefReferenceId"); ("scef_id", Some "avpScefId");
     ("scef_reference_id_for_deletion", Some "avpScefReferenceIdForDeletion");
     ("communication_pattern_set", None)]
    ["scef_reference_id"; "scef_id"; "scef_reference_id_for_deletion";
     "communication_pattern_set"].

Definition FailedAvpExtractor_members : list (string * string) :=
  [].
Definition FailedAvpExtractor_ctor : constructor :=
  mk_ctor (Some "avpFailedAvp")
    []
    [].

Definition NiddAuthorizationRequestExtractor_members : list (string * string) :=
  [("service_selection", "FDExtractorAvp"); ("requested_validity_time", "FDExtractorAvp")].
Definition NiddAuthorizationRequestExtractor_ctor : constructor :=
  mk_ctor (Some "avpNiddAuthorizationRequest")
    [("service_selection", Some "avpServiceSelection");
     ("requested_validity_time", Some "avpRequestedValidityTime")]
    ["service_selection"; "requested_validity_time"].

Definition ConfigurationInformationRequestExtractor_members : list (string * string) :=
  [("session_id", "FDExtractorAvp"); ("drmp", "FDExtractorAvp");
   ("auth_session_state", "FDExtractorAvp"); ("origin_host", "FDExtractorAvp");
   ("origin_realm", "FDExtractorAvp"); ("destination_host", "FDExtractorAvp");
   ("destination_realm", "FDExtractorAvp"); ("user_identifier", "UserIdentifierExtractor");
   ("oc_supported_features", "OcSupportedFeaturesExtractor");
   ("supported_features", "SupportedFeaturesExtractorList");
   ("monitoring_event_configuration", "MonitoringEventConfigurationExtractorList");
   ("cir_flags", "FDExtractorAvp");
   ("aese_communication_pattern", "AeseCommunicationPatternExtractorList");
   ("enhanced_coverage_restriction", "EnhancedCoverageRestrictionExtractor");
   ("group_reporting_guard_timer", "FDExtractorAvp"); ("proxy_info", "ProxyInfoExtractorList");
   ("route_record", "FDExtractorAvpList")].
Definition ConfigurationInformationRequestExtractor_ctor : constructor :=
  mk_ctor None
    [("session_id", Some "avpSessionId"); ("drmp", Some "avpDrmp");
     ("auth_session_state", Some "avpAuthSessionState"); ("origin_host", Some "avpOriginHost");
     ("origin_realm", Some "avpOriginRealm"); ("destination_host", Some "avpDestinationHost");
     ("destination_realm", Some "avpDestinationRealm"); ("user_identifier", None);
     ("oc_supported_features", None); ("supported_features", None);
     ("monitoring_event_configuration", None); ("cir_flags", Some "avpCirFlags");
     ("aese_communication_pattern", None); ("enhanced_coverage_restriction", None);
     ("group_reporting_guard_timer", Some "avpGroupReportingGuardTimer"); ("proxy_info", None);
     ("route_record", Some "avpRouteRecord")]
    ["session_id"; "drmp"; "auth_session_state"; "origin_host"; "origin_realm";
     "destination_host"; "destination_realm"; "user_identifier"; "oc_supported_features";
     "supported_features"; "monitoring_event_configuration"; "cir_flags";
     "aese_communication_pattern"; "enhanced_coverage_restriction";
     "group_reporting_guard_timer"; "proxy_info"; "route_record"].

Definition ConfigurationInformationAnswerExtractor_members : list (string * string) :=
  [("session_id", "FDExtractorAvp"); ("drmp", "FDExtractorAvp");
   ("result_code", "FDExtractorAvp"); ("experimental_result", "ExperimentalResultExtractor");
   ("auth_session_state", "FDExtractorAvp"); ("origin_host", "FDExtractorAvp");
   ("origin_realm", "FDExtractorAvp");
   ("oc_supported_features", "OcSupportedFeaturesExtractor"); ("oc_olr", "OcOlrExtractor");
   ("load", "LoadExtractorList"); ("supported_features", "SupportedFeaturesExtractorList");
   ("user_identifier", "UserIdentifierExtractor");
   ("monitoring_event_report", "MonitoringEventReportExtractorList");
   ("monitoring_event_config_status", "MonitoringEventConfigStatusExtractorList");
   ("aese_communication_pattern_config_status", "AeseCommunicationPatternConfigStatusExtractorList");
   ("supported_services", "SupportedServicesExtractorList");
   ("s6t_hss_cause", "FDExtractorAvp");
   ("enhanced_coverage_restriction_data", "EnhancedCoverageRestrictionDataExtractor");
   ("cia_flags", "FDExtractorAvp"); ("failed_avp", "FailedAvpExtractor");
   ("proxy_info", "ProxyInfoExtractorList"); ("route_record", "FDExtractorAvpList")].
Definition ConfigurationInformationAnswerExtractor_ctor : constructor :=
  mk_ctor None
    [("session_id", Some "avpSessionId"); ("drmp", Some "avpDrmp");
     ("result_code", Some "avpResultCode"); ("experimental_result", None);
     ("auth_session_state", Some "avpAuthSessionState"); ("origin_host", Some "avpOriginHost");
     ("origin_realm", Some "avpOriginRealm"); ("oc_supported_features", None); ("oc_olr", None);
     ("load", None); ("supported_features", None); ("user_identifier", None);
     ("monitoring_event_report", None); ("monitoring_event_config_status", None);
     ("aese_communication_pattern_config_status", None); ("supported_services", None);
     ("s6t_hss_cause", Some "avpS6tHssCause"); ("enhanced_coverage_restriction_data", None);
     ("cia_flags", Some "avpCiaFlags"); ("failed_avp", None); ("proxy_info", None);
     ("route_record", Some "avpRouteRecord")]
    ["session_id"; "drmp"; "result_code"; "experimental_result"; "auth_session_state";
     "origin_host"; "origin_realm"; "oc_supported_features"; "oc_olr"; "load";
     "supported_features"; "user_identifier"; "monitoring_event_report";
     "monitoring_event_config_status"; "aese_communication_pattern_config_status";
     "supported_services"; "s6t_hss_cause"; "enhanced_coverage_restriction_data"; "cia_flags";
     "failed_avp"; "proxy_info"; "route_record"].

Definition ReportingInformationRequestExtractor_members : list (string * string) :=
  [("session_id", "FDExtractorAvp"); ("drmp", "FDExtractorAvp");
   ("auth_session_state", "FDExtractorAvp"); ("origin_host", "FDExtractorAvp");
   ("origin_realm", "FDExtractorAvp"); ("destination_host", "FDExtractorAvp");
   ("destination_realm", "FDExtractorAvp");
   ("supported_features", "SupportedFeaturesExtractorList");
   ("user_identifier", "UserIdentifierExtractor");
   ("monitoring_event_report", "MonitoringEventReportExtractorList");
   ("group_monitoring_event_report", "GroupMonitoringEventReportExtractorList");
   ("rir_flags", "FDExtractorAvp"); ("supported_services", "SupportedServicesExtractorList");
   ("proxy_info", "ProxyInfoExtractorList"); ("route_record", "FDExtractorAvpList")].
Definition ReportingInformationRequestExtractor_ctor : constructor :=
  mk_ctor None
    [("session_id", Some "avpSessionId"); ("drmp", Some "avpDrmp");
     ("auth_session_state", Some "avpAuthSessionState"); ("origin_host", Some "avpOriginHost");
     ("origin_realm", Some "avpOriginRealm"); ("destination_host", Some "avpDestinationHost");
     ("destination_realm", Some "avpDestinationRealm"); ("supported_features", None);
     ("user_identifier", None); ("monitoring_event_report", None);
     ("group_monitoring_event_report", None); ("rir_flags", Some "avpRirFlags");
     ("supported_services", None); ("proxy_info", None);
     ("route_record", Some "avpRouteRecord")]
    ["session_id"; "drmp"; "auth_session_state"; "origin_host"; "origin_realm";
     "destination_host"; "destination_realm"; "supported_features"; "user_identifier";
     "monitoring_event_report"; "group_monitoring_event_report"; "rir_flags";
     "supported_services"; "proxy_info"; "route_record"].

Definition ReportingInformationAnswerExtractor_members : list (string * string) :=
  [("session_id", "FDExtractorAvp"); ("drmp", "FDExtractorAvp");
   ("result_code", "FDExtractorAvp"); ("experimental_result", "ExperimentalResultExtractor");
   ("auth_session_state", "FDExtractorAvp"); ("origin_host", "FDExtractorAvp");
   ("origin_realm", "FDExtractorAvp"); ("supported_features", "SupportedFeaturesExtractorList");
   ("failed_avp", "FailedAvpExtractor"); ("proxy_info", "ProxyInfoExtractorList");
   ("route_record", "FDExtractorAvpList")].
Definition ReportingInformationAnswerExtractor_ctor : constructor :=
  mk_ctor None
    [("session_id", Some "avpSessionId"); ("drmp", Some "avpDrmp");
     ("result_code", Some "avpResultCode"); ("experimental_result", None);
     ("auth_session_state", Some "avpAuthSessionState"); ("origin_host", Some "avpOriginHost");
     ("origin_realm", Some "avpOriginRealm"); ("supported_features", None);
     ("failed_avp", None); ("proxy_info", None); ("route_record", Some "avpRouteRecord")]
    ["session_id"; "drmp"; "result_code"; "experimental_result"; "auth_session_state";
     "origin_host"; "origin_realm"; "supported_features"; "failed_avp"; "proxy_info";
     "route_record"].

Definition NiddInformationRequestExtractor_members : list (string * string) :=
  [("session_id", "FDExtractorAvp"); ("drmp", "FDExtractorAvp");
   ("auth_session_state", "FDExtractorAvp"); ("origin_host", "FDExtractorAvp");
   ("origin_realm", "FDExtractorAvp"); ("destination_host", "FDExtractorAvp");
   ("destination_realm", "FDExtractorAvp"); ("user_identifier", "UserIdentifierExtractor");
   ("oc_supported_features", "OcSupportedFeaturesExtractor");
   ("supported_features", "SupportedFeaturesExtractorList");
   ("nidd_authorization_request", "NiddAuthorizationRequestExtractor");
   ("nidd_authorization_update", "NiddAuthorizationUpdateExtractor");
   ("proxy_info", "ProxyInfoExtractorList"); ("route_record", "FDExtractorAvpList")].
Definition NiddInformationRequestExtractor_ctor : constructor :=
  mk_ctor None
    [("session_id", Some "avpSessionId"); ("drmp", Some "avpDrmp");
     ("auth_session_state", Some "avpAuthSessionState"); ("origin_host", Some "avpOriginHost");
     ("origin_realm", Some "avpOriginRealm"); ("destination_host", Some "avpDestinationHost");
     ("destination_realm", Some "avpDestinationRealm"); ("user_identifier", None);
     ("oc_supported_features", None); ("supported_features", None);
     ("nidd_authorization_request", None); ("nidd_authorization_update", None);
     ("proxy_info", None); ("route_record", Some "avpRouteRecord")]
    ["session_id"; "drmp"; "auth_session_state"; "origin_host"; "origin_realm";
     "destination_host"; "destination_realm"; "user_identifier"; "oc_supported_features";
     "supported_features"; "nidd_authorization_request"; "nidd_authorization_update";
     "proxy_info"; "route_record"].

Definition NiddInformationAnswerExtractor_members : list (string * string) :=
  [("session_id", "FDExtractorAvp"); ("drmp", "FDExtractorAvp");
   ("result_code", "FDExtractorAvp"); ("experimental_result", "ExperimentalResultExtractor");
   ("auth_session_state", "FDExtractorAvp"); ("origin_host", "FDExtractorAvp");
   ("origin_realm", "FDExtractorAvp");
   ("oc_supported_features", "OcSupportedFeaturesExtractor"); ("oc_olr", "OcOlrExtractor");
   ("load", "LoadExtractorList"); ("supported_features", "SupportedFeaturesExtractorList");
   ("user_identifier", "UserIdentifierExtractor");
   ("nidd_authorization_response", "NiddAuthorizationResponseExtractor");
   ("failed_avp", "FailedAvpExtractor"); ("proxy_info", "ProxyInfoExtractorList");
   ("route_record", "FDExtractorAvpList")].
Definition NiddInformationAnswerExtractor_ctor : constructor :=
  mk_ctor None
    [("session_id", Some "avpSessionId"); ("drmp", Some "avpDrmp");
     ("result_code", Some "avpResultCode"); ("experimental_result", None);
     ("auth_session_state", Some "avpAuthSessionState"); ("origin_host", Some "avpOriginHost");
     ("origin_realm", Some "avpOriginRealm"); ("oc_supported_features", None); ("oc_olr", None);
     ("load", None); ("supported_features", None); ("user_identifier", None);
     ("nidd_authorization_response", None); ("failed_avp", None); ("proxy_info", None);
     ("route_record", Some "avpRouteRecord")]
    ["session_id"; "drmp"; "result_code"; "experimental_result"; "auth_session_state";
     "origin_host"; "origin_realm"; "oc_supported_features"; "oc_olr"; "load";
     "supported_features"; "user_identifier"; "nidd_authorization_response"; "failed_avp";
     "proxy_info"; "route_record"].

Definition ServiceReportExtractorList_element : string := "ServiceReportExtractor".
Definition ServiceReportExtractorList_avp : string := "avpServiceReport".

Definition ScheduledCommunicationTimeExtractorList_element : string := "ScheduledCommunicationTimeExtractor".
Definition ScheduledCommunicationTimeExtractorList_avp : string := "avpScheduledCommunicationTime".

Definition GroupMonitoringEventReportItemExtractorList_element : string := "GroupMonitoringEventReportItemExtractor".
Definition GroupMonitoringEventReportItemExtractorList_avp : string := "avpGroupMonitoringEventReportItem".

Definition CommunicationPatternSetExtractorList_element : string := "CommunicationPatternSetExtractor".
Definition CommunicationPatternSetExtractorList_avp : string := "avpCommunicationPatternSet".

Definition SupportedFeaturesExtractorList_element : string := "SupportedFeaturesExtractor".
Definition SupportedFeaturesExtractorList_avp : string := "avpSupportedFeatures".

Definition MonitoringEventConfigurationExtractorList_element : string := "MonitoringEventConfigurationExtractor".
Definition MonitoringEventConfigurationExtractorList_avp : string := "avpMonitoringEventConfiguration".

Definition AeseCommunicationPatternExtractorList_element : string := "AeseCommunicationPatternExtractor".
Definition AeseCommunicationPatternExtractorList_avp : string := "avpAeseCommunicationPattern".

Definition ProxyInfoExtractorList_element : string := "ProxyInfoExtractor".
Definition ProxyInfoExtractorList_avp : string := "avpProxyInfo".

Definition LoadExtractorList_element : string := "LoadExtractor".
Definition LoadExtractorList_avp : string := "avpLoad".

Definition MonitoringEventReportExtractorList_element : string := "MonitoringEventReportExtractor".
Definition MonitoringEventReportExtractorList_avp : string := "avpMonitoringEventReport".

Definition MonitoringEventConfigStatusExtractorList_element : string := "MonitoringEventConfigStatusExtractor".
Definition MonitoringEventConfigStatusExtractorList_avp : string := "avpMonitoringEventConfigStatus".

Definition AeseCommunicationPatternConfigStatusExtractorList_element : string := "AeseCommunicationPatternConfigStatusExtractor".
Definition AeseCommunicationPatternConfigStatusExtractorList_avp : string := "avpAeseCommunicationPatternConfigStatus".

Definition SupportedServicesExtractorList_element : string := "SupportedServicesExtractor".
Definition SupportedServicesExtractorList_avp : string := "avpSupportedServices".

Definition GroupMonitoringEventReportExtractorList_element : string := "GroupMonitoringEventReportExtractor".
Definition GroupMonitoringEventReportExtractorList_avp : string := "avpGroupMonitoringEventReport".

Definition extractors : list (string * extractor_class) :=
  [("ServiceResultExtractor",
    mk_class ServiceResultExtractor_members ServiceResultExtractor_ctor);
   ("ServiceReportExtractor",
    mk_class ServiceReportExtractor_members ServiceReportExtractor_ctor);
   ("MonitoringEventConfigStatusExtractor",
    mk_class MonitoringEventConfigStatusExtractor_members MonitoringEventConfigStatusExtractor_ctor);
   ("ProxyInfoExtractor",
    mk_class ProxyInfoExtractor_members ProxyInfoExtractor_ctor);
   ("ExperimentalResultExtractor",
    mk_class ExperimentalResultExtractor_members ExperimentalResultExtractor_ctor);
   ("UserCsgInformationExtractor",
    mk_class UserCsgInformationExtractor_members UserCsgInformationExtractor_ctor);
   ("MmeLocationInformationExtractor",
    mk_class MmeLocationInformationExtractor_members MmeLocationInformationExtractor_ctor);
   ("AeseErrorReportExtractor",
    mk_class AeseErrorReportExtractor_members AeseErrorReportExtractor_ctor);
   ("RestrictedPlmnListExtractor",
    mk_class RestrictedPlmnListExtractor_members RestrictedPlmnListExtractor_ctor);
   ("ScheduledCommunicationTimeExtractor",
    mk_class ScheduledCommunicationTimeExtractor_members ScheduledCommunicationTimeExtractor_ctor);
   ("CommunicationPatternSetExtractor",
    mk_class CommunicationPatternSetExtractor_members CommunicationPatternSetExtractor_ctor);
   ("SupportedServicesExtractor",
    mk_class SupportedServicesExtractor_members SupportedServicesExtractor_ctor);
   ("UserIdentifierExtractor",
    mk_class UserIdentifierExtractor_members UserIdentifierExtractor_ctor);
   ("SgsnLocationInformationExtractor",
    mk_class SgsnLocationInformationExtractor_members SgsnLocationInformationExtractor_ctor);
   ("EpsLocationInformationExtractor",
    mk_class EpsLocationInformationExtractor_members EpsLocationInformationExtractor_ctor);
   ("GroupMonitoringEventReportItemExtractor",
    mk_class GroupMonitoringEventReportItemExtractor_members GroupMonitoringEventReportItemExtractor_ctor);
   ("GroupMonitoringEventReportExtractor",
    mk_class GroupMonitoringEventReportExtractor_members GroupMonitoringEventReportExtractor_ctor);
   ("AllowedPlmnListExtractor",
    mk_class AllowedPlmnListExtractor_members AllowedPlmnListExtractor_ctor);
   ("EnhancedCoverageRestrictionExtractor",
    mk_class EnhancedCoverageRestrictionExtractor_members EnhancedCoverageRestrictionExtractor_ctor);
   ("NiddAuthorizationUpdateExtractor",
    mk_class NiddAuthorizationUpdateExtractor_members NiddAuthorizationUpdateExtractor_ctor);
   ("UeReachabilityConfigurationExtractor",
    mk_class UeReachabilityConfigurationExtractor_members UeReachabilityConfigurationExtractor_ctor);
   ("LocationInformationConfigurationExtractor",
    mk_class LocationInformationConfigurationExtractor_members LocationInformationConfigurationExtractor_ctor);
   ("OcOlrExtractor",
    mk_class OcOlrExtractor_members OcOlrExtractor_ctor);
   ("SupportedFeaturesExtractor",
    mk_class SupportedFeaturesExtractor_members SupportedFeaturesExtractor_ctor);
   ("NiddAuthorizationResponseExtractor",
    mk_class NiddAuthorizationResponseExtractor_members NiddAuthorizationResponseExtractor_ctor);
   ("AeseCommunicationPatternConfigStatusExtractor",
    mk_class AeseCommunicationPatternConfigStatusExtractor_members AeseCommunicationPatternConfigStatusExtractor_ctor);
   ("EnhancedCoverageRestrictionDataExtractor",
    mk_class EnhancedCoverageRestrictionDataExtractor_members EnhancedCoverageRestrictionDataExtractor_ctor);
   ("MonitoringEventConfigurationExtractor",
    mk_class MonitoringEventConfigurationExtractor_members MonitoringEventConfigurationExtractor_ctor);
   ("LoadExtractor",
    mk_class LoadExtractor_members LoadExtractor_ctor);
   ("OcSupportedFeaturesExtractor",
    mk_class OcSupportedFeaturesExtractor_members OcSupportedFeaturesExtractor_ctor);
   ("MonitoringEventReportExtractor",
    mk_class MonitoringEventReportExtractor_members MonitoringEventReportExtractor_ctor);
   ("AeseCommunicationPatternExtractor",
    mk_class AeseCommunicationPatternExtractor_members AeseCommunicationPatternExtractor_ctor);
   ("FailedAvpExtractor",
    mk_class FailedAvpExtractor_members FailedAvpExtractor_ctor);
   ("NiddAuthorizationRequestExtractor",
    mk_class NiddAuthorizationRequestExtractor_members NiddAuthorizationRequestExtractor_ctor);
   ("ConfigurationInformationRequestExtractor",
    mk_class ConfigurationInformationRequestExtractor_members ConfigurationInformationRequestExtractor_ctor);
   ("ConfigurationInformationAnswerExtractor",
    mk_class ConfigurationInformationAnswerExtractor_members ConfigurationInformationAnswerExtractor_ctor);
   ("ReportingInformationRequestExtractor",
    mk_class ReportingInformationRequestExtractor_members ReportingInformationRequestExtractor_ctor);
   ("ReportingInformationAnswerExtractor",
    mk_class ReportingInformationAnswerExtractor_members ReportingInformationAnswerExtractor_ctor);
   ("NiddInformationRequestExtractor",
    mk_class NiddInformationRequestExtractor_members NiddInformationRequestExtractor_ctor);
   ("NiddInformationAnswerExtractor",
    mk_class NiddInformationAnswerExtractor_members NiddInformationAnswerExtractor_ctor)].

Definition lists : list (string * list_class) :=
  [("ServiceReportExtractorList",
    mk_list ServiceReportExtractorList_element ServiceReportExtractorList_avp);
   ("ScheduledCommunicationTimeExtractorList",
    mk_list ScheduledCommunicationTimeExtractorList_element ScheduledCommunicationTimeExtractorList_avp);
   ("GroupMonitoringEventReportItemExtractorList",
    mk_list GroupMonitoringEventReportItemExtractorList_element GroupMonitoringEventReportItemExtractorList_avp);
   ("CommunicationPatternSetExtractorList",
    mk_list CommunicationPatternSetExtractorList_element CommunicationPatternSetExtractorList_avp);
   ("SupportedFeaturesExtractorList",
    mk_list SupportedFeaturesExtractorList_element SupportedFeaturesExtractorList_avp);
   ("MonitoringEventConfigurationExtractorList",
    mk_list MonitoringEventConfigurationExtractorList_element MonitoringEventConfigurationExtractorList_avp);
   ("AeseCommunicationPatternExtractorList",
    mk_list AeseCommunicationPatternExtractorList_element AeseCommunicationPatternExtractorList_avp);
   ("ProxyInfoExtractorList",
    mk_list ProxyInfoExtractorList_element ProxyInfoExtractorList_avp);
   ("LoadExtractorList",
    mk_list LoadExtractorList_element LoadExtractorList_avp);
   ("MonitoringEventReportExtractorList",
    mk_list MonitoringEventReportExtractorList_element MonitoringEventReportExtractorList_avp);
   ("MonitoringEventConfigStatusExtractorList",
    mk_list MonitoringEventConfigStatusExtractorList_element MonitoringEventConfigStatusExtractorList_avp);
   ("AeseCommunicationPatternConfigStatusExtractorList",
    mk_list AeseCommunicationPatternConfigStatusExtractorList_element AeseCommunicationPatternConfigStatusExtractorList_avp);
   ("SupportedServicesExtractorList",
    mk_list SupportedServicesExtractorList_element SupportedServicesExtractorList_avp);
   ("GroupMonitoringEventReportExtractorList",
    mk_list GroupMonitoringEventReportExtractorList_element GroupMonitoringEventReportExtractorList_avp)].

Definition app : application :=
  mk_app getters members initialisers command_classes command_constructors
    extractors lists.

End S6t.
