(* ===== verification/S6cClasses.v ===== *)
(** * The classes of the S6c and SGd applications

    include/s6c.h and src/s6c.cpp, and smsrouter/include/sgd.h and
    smsrouter/src/sgd.cpp of the SMS router:
    the declarations and the constructors as they stand there, in the vocabulary of
    Classes. *)

From S2P Require Import Prelude Classes.
#[local] Open Scope string_scope.

(** ** include/s6c.h, src/s6c.cpp *)

Module S6c.

(** The accessors of [Dictionary] and the members they return. *)
Definition getters : list (string * string) :=
  [("app", "m_app"); ("cmdSERIFSR", "m_cmd_serifsr"); ("cmdSERIFSA", "m_cmd_serifsa");
   ("cmdALSCR", "m_cmd_alscr"); ("cmdALSCA", "m_cmd_alsca"); ("cmdRESDSR", "m_cmd_resdsr");
   ("cmdRESDSA", "m_cmd_resdsa"); ("vnd3GPP", "m_vnd_3gpp");
   ("avpAuthApplicationId", "m_avp_auth_application_id");
   ("avpSgsnSmDeliveryOutcome", "m_avp_sgsn_sm_delivery_outcome");
   ("avpProxyInfo", "m_avp_proxy_info"); ("avpSmRpSmea", "m_avp_sm_rp_smea");
   ("avpFeatureListId", "m_avp_feature_list_id");
   ("avpMscAbsentUserDiagnosticSm", "m_avp_msc_absent_user_diagnostic_sm");
   ("avpMmeName", "m_avp_mme_name");
   ("avpMaximumUeAvailabilityTime", "m_avp_maximum_ue_availability_time");
   ("avpSgsnAbsentUserDiagnosticSm", "m_avp_sgsn_absent_user_diagnostic_sm");
   ("avpVendorSpecificApplicationId", "m_avp_vendor_specific_application_id");
   ("avpUserIdentifier", "m_avp_user_identifier"); ("avpMmeRealm", "m_avp_mme_realm");
   ("avpSgsnNumber", "m_avp_sgsn_number"); ("avpServingNode", "m_avp_serving_node");
   ("avpIpSmGwRealm", "m_avp_ip_sm_gw_realm");
   ("avpMmeAbsentUserDiagnosticSm", "m_avp_mme_absent_user_diagnostic_sm");
   ("avpAbsentUserDiagnosticSm", "m_avp_absent_user_diagnostic_sm");
   ("avpSmDeliveryOutcome", "m_avp_sm_delivery_outcome");
   ("avpIpSmGwName", "m_avp_ip_sm_gw_name"); ("avpFeatureList", "m_avp_feature_list");
   ("avpExternalIdentifier", "m_avp_external_identifier"); ("avpFailedAvp", "m_avp_failed_avp");
   ("avpSgsnName", "m_avp_sgsn_name");
   ("avpSmDeliveryNotIntended", "m_avp_sm_delivery_not_intended");
   ("avpMsisdn", "m_avp_msisdn"); ("avpExperimentalResult", "m_avp_experimental_result");
   ("avpOriginRealm", "m_avp_origin_realm"); ("avpOriginHost", "m_avp_origin_host");
   ("avpScAddress", "m_avp_sc_address"); ("avpResultCode", "m_avp_result_code");
   ("avpSmsGmscAlertEvent", "m_avp_sms_gmsc_alert_event"); ("avpSgsnRealm", "m_avp_sgsn_realm");
   ("avpProxyState", "m_avp_proxy_state");
   ("avpAdditionalServingNode", "m_avp_additional_serving_node");
   ("avpMmeNumberForMtSms", "m_avp_mme_number_for_mt_sms"); ("avpSrrFlags", "m_avp_srr_flags");
   ("avpSmsmiCorrelationId", "m_avp_smsmi_correlation_id");
   ("avpIpSmGwSmDeliveryOutcome", "m_avp_ip_sm_gw_sm_delivery_outcome");
   ("avpAuthSessionState", "m_avp_auth_session_state"); ("avpDrmp", "m_avp_drmp");
   ("avpSmRpMti", "m_avp_sm_rp_mti"); ("avpSupportedFeatures", "m_avp_supported_features");
   ("avpOriginatingSipUri", "m_avp_originating_sip_uri");
   ("avpRouteRecord", "m_avp_route_record");
   ("avpDestinationSipUri", "m_avp_destination_sip_uri");
   ("avpDestinationRealm", "m_avp_destination_realm"); ("avpSessionId", "m_avp_session_id");
   ("avpAcctApplicationId", "m_avp_acct_application_id"); ("avpUserName", "m_avp_user_name");
   ("avpMscSmDeliveryOutcome", "m_avp_msc_sm_delivery_outcome");
   ("avpMscNumber", "m_avp_msc_number"); ("avpHssId", "m_avp_hss_id");
   ("avpRdrFlags", "m_avp_rdr_flags"); ("avpMwdStatus", "m_avp_mwd_status");
   ("avpProxyHost", "m_avp_proxy_host"); ("avpIpSmGwNumber", "m_avp_ip_sm_gw_number");
   ("avpLmsi", "m_avp_lmsi"); ("avpMmeSmDeliveryOutcome", "m_avp_mme_sm_delivery_outcome");
   ("avpExperimentalResultCode", "m_avp_experimental_result_code");
   ("avpDestinationHost", "m_avp_destination_host");
   ("avpSmDeliveryCause", "m_avp_sm_delivery_cause"); ("avpVendorId", "m_avp_vendor_id")].

(** Its members and their classes, in the order of their declaration. *)
Definition members : list (string * string) :=
  [("m_app", "FDDictionaryEntryApplication"); ("m_cmd_serifsr", "FDDictionaryEntryCommand");
   ("m_cmd_serifsa", "FDDictionaryEntryCommand"); ("m_cmd_alscr", "FDDictionaryEntryCommand");
   ("m_cmd_alsca", "FDDictionaryEntryCommand"); ("m_cmd_resdsr", "FDDictionaryEntryCommand");
   ("m_cmd_resdsa", "FDDictionaryEntryCommand"); ("m_vnd_3gpp", "FDDictionaryEntryVendor");
   ("m_avp_auth_application_id", "FDDictionaryEntryAVP");
   ("m_avp_sgsn_sm_delivery_outcome", "FDDictionaryEntryAVP");
   ("m_avp_proxy_info", "FDDictionaryEntryAVP"); ("m_avp_sm_rp_smea", "FDDictionaryEntryAVP");
   ("m_avp_feature_list_id", "FDDictionaryEntryAVP");
   ("m_avp_msc_absent_user_diagnostic_sm", "FDDictionaryEntryAVP");
   ("m_avp_mme_name", "FDDictionaryEntryAVP");
   ("m_avp_maximum_ue_availability_time", "FDDictionaryEntryAVP");
   ("m_avp_sgsn_absent_user_diagnostic_sm", "FDDictionaryEntryAVP");
   ("m_avp_vendor_specific_application_id", "FDDictionaryEntryAVP");
   ("m_avp_user_identifier", "FDDictionaryEntryAVP");
   ("m_avp_mme_realm", "FDDictionaryEntryAVP"); ("m_avp_sgsn_number", "FDDictionaryEntryAVP");
   ("m_avp_serving_node", "FDDictionaryEntryAVP");
   ("m_avp_ip_sm_gw_realm", "FDDictionaryEntryAVP");
   ("m_avp_mme_absent_user_diagnostic_sm", "FDDictionaryEntryAVP");
   ("m_avp_absent_user_diagnostic_sm", "FDDictionaryEntryAVP");
   ("m_avp_sm_delivery_outcome", "FDDictionaryEntryAVP");
   ("m_avp_ip_sm_gw_name", "FDDictionaryEntryAVP");
   ("m_avp_feature_list", "FDDictionaryEntryAVP");
   ("m_avp_external_identifier", "FDDictionaryEntryAVP");
   ("m_avp_failed_avp", "FDDictionaryEntryAVP"); ("m_avp_sgsn_name", "FDDictionaryEntryAVP");
   ("m_avp_sm_delivery_not_intended", "FDDictionaryEntryAVP");
   ("m_avp_msisdn", "FDDictionaryEntryAVP");
   ("m_avp_experimental_result", "FDDictionaryEntryAVP");
   ("m_avp_origin_realm", "FDDictionaryEntryAVP");
   ("m_avp_origin_host", "FDDictionaryEntryAVP"); ("m_avp_sc_address", "FDDictionaryEntryAVP");
   ("m_avp_result_code", "FDDictionaryEntryAVP");
   ("m_avp_sms_gmsc_alert_event", "FDDictionaryEntryAVP");
   ("m_avp_sgsn_realm", "FDDictionaryEntryAVP"); ("m_avp_proxy_state", "FDDictionaryEntryAVP");
   ("m_avp_additional_serving_node", "FDDictionaryEntryAVP");
   ("m_avp_mme_number_for_mt_sms", "FDDictionaryEntryAVP");
   ("m_avp_srr_flags", "FDDictionaryEntryAVP");
   ("m_avp_smsmi_correlation_id", "FDDictionaryEntryAVP");
   ("m_avp_ip_sm_gw_sm_delivery_outcome", "FDDictionaryEntryAVP");
   ("m_avp_auth_session_state", "FDDictionaryEntryAVP"); ("m_avp_drmp", "FDDictionaryEntryAVP");
   ("m_avp_sm_rp_mti", "FDDictionaryEntryAVP");
   ("m_avp_supported_features", "FDDictionaryEntryAVP");
   ("m_avp_originating_sip_uri", "FDDictionaryEntryAVP");
   ("m_avp_route_record", "FDDictionaryEntryAVP");
   ("m_avp_destination_sip_uri", "FDDictionaryEntryAVP");
   ("m_avp_destination_realm", "FDDictionaryEntryAVP");
   ("m_avp_session_id", "FDDictionaryEntryAVP");
   ("m_avp_acct_application_id", "FDDictionaryEntryAVP");
   ("m_avp_user_name", "FDDictionaryEntryAVP");
   ("m_avp_msc_sm_delivery_outcome", "FDDictionaryEntryAVP");
   ("m_avp_msc_number", "FDDictionaryEntryAVP"); ("m_avp_hss_id", "FDDictionaryEntryAVP");
   ("m_avp_rdr_flags", "FDDictionaryEntryAVP"); ("m_avp_mwd_status", "FDDictionaryEntryAVP");
   ("m_avp_proxy_host", "FDDictionaryEntryAVP");
   ("m_avp_ip_sm_gw_number", "FDDictionaryEntryAVP"); ("m_avp_lmsi", "FDDictionaryEntryAVP");
   ("m_avp_mme_sm_delivery_outcome", "FDDictionaryEntryAVP");
   ("m_avp_experimental_result_code", "FDDictionaryEntryAVP");
   ("m_avp_destination_host", "FDDictionaryEntryAVP");
   ("m_avp_sm_delivery_cause", "FDDictionaryEntryAVP");
   ("m_avp_vendor_id", "FDDictionaryEntryAVP")].

(** Its constructor: the name each member looks up and the member whose vendor id
    it uses. *)
Definition initialisers : list (string * string * option string) :=
  [("m_app", "S6c", None); ("m_cmd_serifsr", "Send-Routing-Info-for-SM-Request", None);
   ("m_cmd_serifsa", "Send-Routing-Info-for-SM-Answer", None);
   ("m_cmd_alscr", "Alert-Service-Centre-Request", None);
   ("m_cmd_alsca", "Alert-Service-Centre-Answer", None);
   ("m_cmd_resdsr", "Report-SM-Delivery-Status-Request", None);
   ("m_cmd_resdsa", "Report-SM-Delivery-Status-Answer", None); ("m_vnd_3gpp", "3GPP", None);
   ("m_avp_auth_application_id", "Auth-Application-Id", None);
   ("m_avp_sgsn_sm_delivery_outcome", "SGSN-SM-Delivery-Outcome", Some "m_vnd_3gpp");
   ("m_avp_proxy_info", "Proxy-Info", None);
   ("m_avp_sm_rp_smea", "SM-RP-SMEA", Some "m_vnd_3gpp");
   ("m_avp_feature_list_id", "Feature-List-ID", Some "m_vnd_3gpp");
   ("m_avp_msc_absent_user_diagnostic_sm", "MSC-Absent-User-Diagnostic-SM", Some "m_vnd_3gpp");
   ("m_avp_mme_name", "MME-Name", Some "m_vnd_3gpp");
   ("m_avp_maximum_ue_availability_time", "Maximum-UE-Availability-Time", Some "m_vnd_3gpp");
   ("m_avp_sgsn_absent_user_diagnostic_sm", "SGSN-Absent-User-Diagnostic-SM", Some "m_vnd_3gpp");
   ("m_avp_vendor_specific_application_id", "Vendor-Specific-Application-Id", None);
   ("m_avp_user_identifier", "User-Identifier", Some "m_vnd_3gpp");
   ("m_avp_mme_realm", "MME-Realm", Some "m_vnd_3gpp");
   ("m_avp_sgsn_number", "SGSN-Number", Some "m_vnd_3gpp");
   ("m_avp_serving_node", "Serving-Node", Some "m_vnd_3gpp");
   ("m_avp_ip_sm_gw_realm", "IP-SM-GW-Realm", Some "m_vnd_3gpp");
   ("m_avp_mme_absent_user_diagnostic_sm", "MME-Absent-User-Diagnostic-SM", Some "m_vnd_3gpp");
   ("m_avp_absent_user_diagnostic_sm", "Absent-User-Diagnostic-SM", Some "m_vnd_3gpp");
   ("m_avp_sm_delivery_outcome", "SM-Delivery-Outcome", Some "m_vnd_3gpp");
   ("m_avp_ip_sm_gw_name", "IP-SM-GW-Name", Some "m_vnd_3gpp");
   ("m_avp_feature_list", "Feature-List", Some "m_vnd_3gpp");
   ("m_avp_external_identifier", "External-Identifier", Some "m_vnd_3gpp");
   ("m_avp_failed_avp", "Failed-AVP", None);
   ("m_avp_sgsn_name", "SGSN-Name", Some "m_vnd_3gpp");
   ("m_avp_sm_delivery_not_intended", "SM-Delivery-Not-Intended", Some "m_vnd_3gpp");
   ("m_avp_msisdn", "MSISDN", Some "m_vnd_3gpp");
   ("m_avp_experimental_result", "Experimental-Result", None);
   ("m_avp_origin_realm", "Origin-Realm", None); ("m_avp_origin_host", "Origin-Host", None);
   ("m_avp_sc_address", "SC-Address", Some "m_vnd_3gpp");
   ("m_avp_result_code", "Result-Code", None);
   ("m_avp_sms_gmsc_alert_event", "SMS-GMSC-Alert-Event", Some "m_vnd_3gpp");
   ("m_avp_sgsn_realm", "SGSN-Realm", Some "m_vnd_3gpp");
   ("m_avp_proxy_state", "Proxy-State", None);
   ("m_avp_additional_serving_node", "Additional-Serving-Node", Some "m_vnd_3gpp");
   ("m_avp_mme_number_for_mt_sms", "MME-Number-for-MT-SMS", Some "m_vnd_3gpp");
   ("m_avp_srr_flags", "SRR-Flags", Some "m_vnd_3gpp");
   ("m_avp_smsmi_correlation_id", "SMSMI-Correlation-ID", Some "m_vnd_3gpp");
   ("m_avp_ip_sm_gw_sm_delivery_outcome", "IP-SM-GW-SM-Delivery-Outcome", Some "m_vnd_3gpp");
   ("m_avp_auth_session_state", "Auth-Session-State", None); ("m_avp_drmp", "DRMP", None);
   ("m_avp_sm_rp_mti", "SM-RP-MTI", Some "m_vnd_3gpp");
   ("m_avp_supported_features", "Supported-Features", Some "m_vnd_3gpp");
   ("m_avp_originating_sip_uri", "Originating-SIP-URI", Some "m_vnd_3gpp");
   ("m_avp_route_record", "Route-Record", None);
   ("m_avp_destination_sip_uri", "Destination-SIP-URI", Some "m_vnd_3gpp");
   ("m_avp_destination_realm", "Destination-Realm", None);
   ("m_avp_session_id", "Session-Id", None);
   ("m_avp_acct_application_id", "Acct-Application-Id", None);
   ("m_avp_user_name", "User-Name", None);
   ("m_avp_msc_sm_delivery_outcome", "MSC-SM-Delivery-Outcome", Some "m_vnd_3gpp");
   ("m_avp_msc_number", "MSC-Number", Some "m_vnd_3gpp");
   ("m_avp_hss_id", "HSS-ID", Some "m_vnd_3gpp");
   ("m_avp_rdr_flags", "RDR-Flags", Some "m_vnd_3gpp");
   ("m_avp_mwd_status", "MWD-Status", Some "m_vnd_3gpp");
   ("m_avp_proxy_host", "Proxy-Host", None);
   ("m_avp_ip_sm_gw_number", "IP-SM-GW-Number", Some "m_vnd_3gpp");
   ("m_avp_lmsi", "LMSI", Some "m_vnd_3gpp");
   ("m_avp_mme_sm_delivery_outcome", "MME-SM-Delivery-Outcome", Some "m_vnd_3gpp");
   ("m_avp_experimental_result_code", "Experimental-Result-Code", None);
   ("m_avp_destination_host", "Destination-Host", None);
   ("m_avp_sm_delivery_cause", "SM-Delivery-Cause", Some "m_vnd_3gpp");
   ("m_avp_vendor_id", "Vendor-Id", None)].

(** The command and request classes, with their base classes. *)
Definition command_classes : list (string * string) :=
  [("SERIFSRcmd", "FDCommandRequest"); ("SERIFSRreq", "FDMessageRequest");
   ("ALSCRcmd", "FDCommandRequest"); ("ALSCRreq", "FDMessageRequest");
   ("RESDSRcmd", "FDCommandRequest"); ("RESDSRreq", "FDMessageRequest")].

(** Their constructors: the accessors whose entries the base class is given. *)
Definition command_constructors : list (string * list string) :=
  [("SERIFSRcmd", ["cmdSERIFSR"]); ("SERIFSRreq", ["app"; "cmdSERIFSR"]);
   ("ALSCRcmd", ["cmdALSCR"]); ("ALSCRreq", ["app"; "cmdALSCR"]); ("RESDSRcmd", ["cmdRESDSR"]);
   ("RESDSRreq", ["app"; "cmdRESDSR"])].

Definition SgsnSmDeliveryOutcomeExtractor_members : list (string * string) :=
  [("sm_delivery_cause", "FDExtractorAvp"); ("absent_user_diagnostic_sm", "FDExtractorAvp")].
Definition SgsnSmDeliveryOutcomeExtractor_ctor : constructor :=
  mk_ctor (Some "avpSgsnSmDeliveryOutcome")
    [("sm_delivery_cause", Some "avpSmDeliveryCause");
     ("absent_user_diagnostic_sm", Some "avpAbsentUserDiagnosticSm")]
    ["sm_delivery_cause"; "absent_user_diagnostic_sm"].

Definition ProxyInfoExtractor_members : list (string * string) :=
  [("proxy_host", "FDExtractorAvp"); ("proxy_state", "FDExtractorAvp")].
Definition ProxyInfoExtractor_ctor : constructor :=
  mk_ctor (Some "avpProxyInfo")
    [("proxy_host", Some "avpProxyHost"); ("proxy_state", Some "avpProxyState")]
    ["proxy_host"; "proxy_state"].

Definition VendorSpecificApplicationIdExtractor_members : list (string * string) :=
  [("vendor_id", "FDExtractorAvp"); ("auth_application_id", "FDExtractorAvp");
   ("acct_application_id", "FDExtractorAvp")].
Definition VendorSpecificApplicationIdExtractor_ctor : constructor :=
  mk_ctor (Some "avpVendorSpecificApplicationId")
    [("vendor_id", Some "avpVendorId"); ("auth_application_id", Some "avpAuthApplicationId");
     ("acct_application_id", Some "avpAcctApplicationId")]
    ["vendor_id"; "auth_application_id"; "acct_application_id"].

Definition UserIdentifierExtractor_members : list (string * string) :=
  [("user_name", "FDExtractorAvp"); ("msisdn", "FDExtractorAvp");
   ("external_identifier", "FDExtractorAvp")].
Definition UserIdentifierExtractor_ctor : constructor :=
  mk_ctor (Some "avpUserIdentifier")
    [("user_name", Some "avpUserName"); ("msisdn", Some "avpMsisdn");
     ("external_identifier", Some "avpExternalIdentifier")]
    ["user_name"; "msisdn"; "external_identifier"].

Definition ServingNodeExtractor_members : list (string * string) :=
  [("sgsn_name", "FDExtractorAvp"); ("sgsn_realm", "FDExtractorAvp");
   ("sgsn_number", "FDExtractorAvp"); ("mme_name", "FDExtractorAvp");
   ("mme_realm", "FDExtractorAvp"); ("mme_number_for_mt_sms", "FDExtractorAvp");
   ("msc_number", "FDExtractorAvp"); ("ip_sm_gw_number", "FDExtractorAvp");
   ("ip_sm_gw_name", "FDExtractorAvp"); ("ip_sm_gw_realm", "FDExtractorAvp")].
Definition ServingNodeExtractor_ctor : constructor :=
  mk_ctor (Some "avpServingNode")
    [("sgsn_name", Some "avpSgsnName"); ("sgsn_realm", Some "avpSgsnRealm");
     ("sgsn_number", Some "avpSgsnNumber"); ("mme_name", Some "avpMmeName");
     ("mme_realm", Some "avpMmeRealm"); ("mme_number_for_mt_sms", Some "avpMmeNumberForMtSms");
     ("msc_number", Some "avpMscNumber"); ("ip_sm_gw_number", Some "avpIpSmGwNumber");
     ("ip_sm_gw_name", Some "avpIpSmGwName"); ("ip_sm_gw_realm", Some "avpIpSmGwRealm")]
    ["sgsn_name"; "sgsn_realm"; "sgsn_number"; "mme_name"; "mme_realm"; "mme_number_for_mt_sms";
     "msc_number"; "ip_sm_gw_number"; "ip_sm_gw_name"; "ip_sm_gw_realm"].

Definition MmeSmDeliveryOutcomeExtractor_members : list (string * string) :=
  [("sm_delivery_cause", "FDExtractorAvp"); ("absent_user_diagnostic_sm", "FDExtractorAvp")].
Definition MmeSmDeliveryOutcomeExtractor_ctor : constructor :=
  mk_ctor (Some "avpMmeSmDeliveryOutcome")
    [("sm_delivery_cause", Some "avpSmDeliveryCause");
     ("absent_user_diagnostic_sm", Some "avpAbsentUserDiagnosticSm")]
    ["sm_delivery_cause"; "absent_user_diagnostic_sm"].

Definition MscSmDeliveryOutcomeExtractor_members : list (string * string) :=
  [("sm_delivery_cause", "FDExtractorAvp"); ("absent_user_diagnostic_sm", "FDExtractorAvp")].
Definition MscSmDeliveryOutcomeExtractor_ctor : constructor :=
  mk_ctor (Some "avpMscSmDeliveryOutcome")
    [("sm_delivery_cause", Some "avpSmDeliveryCause");
     ("absent_user_diagnostic_sm", Some "avpAbsentUserDiagnosticSm")]
    ["sm_delivery_cause"; "absent_user_diagnostic_sm"].

Definition IpSmGwSmDeliveryOutcomeExtractor_members : list (string * string) :=
  [("sm_delivery_cause", "FDExtractorAvp"); ("absent_user_diagnostic_sm", "FDExtractorAvp")].
Definition IpSmGwSmDeliveryOutcomeExtractor_ctor : constructor :=
  mk_ctor (Some "avpIpSmGwSmDeliveryOutcome")
    [("sm_delivery_cause", Some "avpSmDeliveryCause");
     ("absent_user_diagnostic_sm", Some "avpAbsentUserDiagnosticSm")]
    ["sm_delivery_cause"; "absent_user_diagnostic_sm"].

Definition SmDeliveryOutcomeExtractor_members : list (string * string) :=
  [("mme_sm_delivery_outcome", "MmeSmDeliveryOutcomeExtractor");
   ("msc_sm_delivery_outcome", "MscSmDeliveryOutcomeExtractor");
   ("sgsn_sm_delivery_outcome", "SgsnSmDeliveryOutcomeExtractor");
   ("ip_sm_gw_sm_delivery_outcome", "IpSmGwSmDeliveryOutcomeExtractor")].
Definition SmDeliveryOutcomeExtractor_ctor : constructor :=
  mk_ctor (Some "avpSmDeliveryOutcome")
    [("mme_sm_delivery_outcome", None); ("msc_sm_delivery_outcome", None);
     ("sgsn_sm_delivery_outcome", None); ("ip_sm_gw_sm_delivery_outcome", None)]
    ["mme_sm_delivery_outcome"; "msc_sm_delivery_outcome"; "sgsn_sm_delivery_outcome";
     "ip_sm_gw_sm_delivery_outcome"].

Definition FailedAvpExtractor_members : list (string * string) :=
  [].
Definition FailedAvpExtractor_ctor : constructor :=
  mk_ctor (Some "avpFailedAvp")
    []
    [].

Definition ExperimentalResultExtractor_members : list (string * string) :=
  [("vendor_id", "FDExtractorAvp"); ("experimental_result_code", "FDExtractorAvp")].
Definition ExperimentalResultExtractor_ctor : constructor :=
  mk_ctor (Some "avpExperimentalResult")
    [("vendor_id", Some "avpVendorId");
     ("experimental_result_code", Some "avpExperimentalResultCode")]
    ["vendor_id"; "experimental_result_code"].

Definition AdditionalServingNodeExtractor_members : list (string * string) :=
  [("sgsn_name", "FDExtractorAvp"); ("sgsn_realm", "FDExtractorAvp");
   ("sgsn_number", "FDExtractorAvp"); ("mme_name", "FDExtractorAvp");
   ("mme_realm", "FDExtractorAvp"); ("mme_number_for_mt_sms", "FDExtractorAvp");
   ("msc_number", "FDExtractorAvp")].
Definition AdditionalServingNodeExtractor_ctor : constructor :=
  mk_ctor (Some "avpAdditionalServingNode")
    [("sgsn_name", Some "avpSgsnName"); ("sgsn_realm", Some "avpSgsnRealm");
     ("sgsn_number", Some "avpSgsnNumber"); ("mme_name", Some "avpMmeName");
     ("mme_realm", Some "avpMmeRealm"); ("mme_number_for_mt_sms", Some "avpMmeNumberForMtSms");
     ("msc_number", Some "avpMscNumber")]
    ["sgsn_name"; "sgsn_realm"; "sgsn_number"; "mme_name"; "mme_realm"; "mme_number_for_mt_sms";
     "msc_number"].

Definition SmsmiCorrelationIdExtractor_members : list (string * string) :=
  [("hss_id", "FDExtractorAvp"); ("originating_sip_uri", "FDExtractorAvp");
   ("destination_sip_uri", "FDExtractorAvp")].
Definition SmsmiCorrelationIdExtractor_ctor : constructor :=
  mk_ctor (Some "avpSmsmiCorrelationId")
    [("hss_id", Some "avpHssId"); ("originating_sip_uri", Some "avpOriginatingSipUri");
     ("destination_sip_uri", Some "avpDestinationSipUri")]
    ["hss_id"; "originating_sip_uri"; "destination_sip_uri"].

Definition SupportedFeaturesExtractor_members : list (string * string) :=
  [("vendor_id", "FDExtractorAvp"); ("feature_list_id", "FDExtractorAvp");
   ("feature_list", "FDExtractorAvp")].
Definition SupportedFeaturesExtractor_ctor : constructor :=
  mk_ctor (Some "avpSupportedFeatures")
    [("vendor_id", Some "avpVendorId"); ("feature_list_id", Some "avpFeatureListId");
     ("feature_list", Some "avpFeatureList")]
    ["vendor_id"; "feature_list_id"; "feature_list"].

Definition SendRoutingInfoForSmRequestExtractor_members : list (string * string) :=
  [("session_id", "FDExtractorAvp"); ("drmp", "FDExtractorAvp");
   ("vendor_specific_application_id", "VendorSpecificApplicationIdExtractor");
   ("auth_session_state", "FDExtractorAvp"); ("origin_host", "FDExtractorAvp");
   ("origin_realm", "FDExtractorAvp"); ("destination_host", "FDExtractorAvp");
   ("destination_realm", "FDExtractorAvp"); ("msisdn", "FDExtractorAvp");
   ("user_name", "FDExtractorAvp"); ("smsmi_correlation_id", "SmsmiCorrelationIdExtractor");
   ("supported_features", "SupportedFeaturesExtractorList"); ("sc_address", "FDExtractorAvp");
   ("sm_rp_mti", "FDExtractorAvp"); ("sm_rp_smea", "FDExtractorAvp");
   ("srr_flags", "FDExtractorAvp"); ("sm_delivery_not_intended", "FDExtractorAvp");
   ("proxy_info", "ProxyInfoExtractorList"); ("route_record", "FDExtractorAvpList")].
Definition SendRoutingInfoForSmRequestExtractor_ctor : constructor :=
  mk_ctor None
    [("session_id", Some "avpSessionId"); ("drmp", Some "avpDrmp");
     ("vendor_specific_application_id", None);
     ("auth_session_state", Some "avpAuthSessionState"); ("origin_host", Some "avpOriginHost");
     ("origin_realm", Some "avpOriginRealm"); ("destination_host", Some "avpDestinationHost");
     ("destination_realm", Some "avpDestinationRealm"); ("msisdn", Some "avpMsisdn");
     ("user_name", Some "avpUserName"); ("smsmi_correlation_id", None);
     ("supported_features", None); ("sc_address", Some "avpScAddress");
     ("sm_rp_mti", Some "avpSmRpMti"); ("sm_rp_smea", Some "avpSmRpSmea");
     ("srr_flags", Some "avpSrrFlags");
     ("sm_delivery_not_intended", Some "avpSmDeliveryNotIntended"); ("proxy_info", None);
     ("route_record", Some "avpRouteRecord")]
    ["session_id"; "drmp"; "vendor_specific_application_id"; "auth_session_state";
     "origin_host"; "origin_realm"; "destination_host"; "destination_realm"; "msisdn";
     "user_name"; "smsmi_correlation_id"; "supported_features"; "sc_address"; "sm_rp_mti";
     "sm_rp_smea"; "srr_flags"; "sm_delivery_not_intended"; "proxy_info"; "route_record"].

Definition SendRoutingInfoForSmAnswerExtractor_members : list (string * string) :=
  [("session_id", "FDExtractorAvp"); ("drmp", "FDExtractorAvp");
   ("vendor_specific_application_id", "VendorSpecificApplicationIdExtractor");
   ("result_code", "FDExtractorAvp"); ("experimental_result", "ExperimentalResultExtractor");
   ("auth_session_state", "FDExtractorAvp"); ("origin_host", "FDExtractorAvp");
   ("origin_realm", "FDExtractorAvp"); ("user_name", "FDExtractorAvp");
   ("supported_features", "SupportedFeaturesExtractorList");
   ("serving_node", "ServingNodeExtractor");
   ("additional_serving_node", "AdditionalServingNodeExtractor"); ("lmsi", "FDExtractorAvp");
   ("user_identifier", "UserIdentifierExtractor"); ("mwd_status", "FDExtractorAvp");
   ("mme_absent_user_diagnostic_sm", "FDExtractorAvp");
   ("msc_absent_user_diagnostic_sm", "FDExtractorAvp");
   ("sgsn_absent_user_diagnostic_sm", "FDExtractorAvp"); ("failed_avp", "FailedAvpExtractor");
   ("proxy_info", "ProxyInfoExtractorList"); ("route_record", "FDExtractorAvpList")].
Definition SendRoutingInfoForSmAnswerExtractor_ctor : constructor :=
  mk_ctor None
    [("session_id", Some "avpSessionId"); ("drmp", Some "avpDrmp");
     ("vendor_specific_application_id", None); ("result_code", Some "avpResultCode");
     ("experimental_result", None); ("auth_session_state", Some "avpAuthSessionState");
     ("origin_host", Some "avpOriginHost"); ("origin_realm", Some "avpOriginRealm");
     ("user_name", Some "avpUserName"); ("supported_features", None); ("serving_node", None);
     ("additional_serving_node", None); ("lmsi", Some "avpLmsi"); ("user_identifier", None);
     ("mwd_status", Some "avpMwdStatus");
     ("mme_absent_user_diagnostic_sm", Some "avpMmeAbsentUserDiagnosticSm");
     ("msc_absent_user_diagnostic_sm", Some "avpMscAbsentUserDiagnosticSm");
     ("sgsn_absent_user_diagnostic_sm", Some "avpSgsnAbsentUserDiagnosticSm");
     ("failed_avp", None); ("proxy_info", None); ("route_record", Some "avpRouteRecord")]
    ["session_id"; "drmp"; "vendor_specific_application_id"; "result_code";
     "experimental_result"; "auth_session_state"; "origin_host"; "origin_realm"; "user_name";
     "supported_features"; "serving_node"; "additional_serving_node"; "lmsi"; "user_identifier";
     "mwd_status"; "mme_absent_user_diagnostic_sm"; "msc_absent_user_diagnostic_sm";
     "sgsn_absent_user_diagnostic_sm"; "failed_avp"; "proxy_info"; "route_record"].

Definition AlertServiceCentreRequestExtractor_members : list (string * string) :=
  [("session_id", "FDExtractorAvp"); ("drmp", "FDExtractorAvp");
   ("vendor_specific_application_id", "VendorSpecificApplicationIdExtractor");
   ("auth_session_state", "FDExtractorAvp"); ("origin_host", "FDExtractorAvp");
   ("origin_realm", "FDExtractorAvp"); ("destination_host", "FDExtractorAvp");
   ("destination_realm", "FDExtractorAvp"); ("sc_address", "FDExtractorAvp");
   ("user_identifier", "UserIdentifierExtractor");
   ("smsmi_correlation_id", "SmsmiCorrelationIdExtractor");
   ("maximum_ue_availability_time", "FDExtractorAvp");
   ("sms_gmsc_alert_event", "FDExtractorAvp"); ("serving_node", "ServingNodeExtractor");
   ("supported_features", "SupportedFeaturesExtractorList");
   ("proxy_info", "ProxyInfoExtractorList"); ("route_record", "FDExtractorAvpList")].
Definition AlertServiceCentreRequestExtractor_ctor : constructor :=
  mk_ctor None
    [("session_id", Some "avpSessionId"); ("drmp", Some "avpDrmp");
     ("vendor_specific_application_id", None);
     ("auth_session_state", Some "avpAuthSessionState"); ("origin_host", Some "avpOriginHost");
     ("origin_realm", Some "avpOriginRealm"); ("destination_host", Some "avpDestinationHost");
     ("destination_realm", Some "avpDestinationRealm"); ("sc_address", Some "avpScAddress");
     ("user_identifier", None); ("smsmi_correlation_id", None);
     ("maximum_ue_availability_time", Some "avpMaximumUeAvailabilityTime");
     ("sms_gmsc_alert_event", Some "avpSmsGmscAlertEvent"); ("serving_node", None);
     ("supported_features", None); ("proxy_info", None);
     ("route_record", Some "avpRouteRecord")]
    ["session_id"; "drmp"; "vendor_specific_application_id"; "auth_session_state";
     "origin_host"; "origin_realm"; "destination_host"; "destination_realm"; "sc_address";
     "user_identifier"; "smsmi_correlation_id"; "maximum_ue_availability_time";
     "sms_gmsc_alert_event"; "serving_node"; "supported_features"; "proxy_info"; "route_record"].

Definition AlertServiceCentreAnswerExtractor_members : list (string * string) :=
  [("session_id", "FDExtractorAvp"); ("drmp", "FDExtractorAvp");
   ("vendor_specific_application_id", "VendorSpecificApplicationIdExtractor");
   ("result_code", "FDExtractorAvp"); ("experimental_result", "ExperimentalResultExtractor");
   ("auth_session_state", "FDExtractorAvp"); ("origin_host", "FDExtractorAvp");
   ("origin_realm", "FDExtractorAvp"); ("supported_features", "SupportedFeaturesExtractorList");
   ("failed_avp", "FailedAvpExtractor"); ("proxy_info", "ProxyInfoExtractorList");
   ("route_record", "FDExtractorAvpList")].
Definition AlertServiceCentreAnswerExtractor_ctor : constructor :=
  mk_ctor None
    [("session_id", Some "avpSessionId"); ("drmp", Some "avpDrmp");
     ("vendor_specific_application_id", None); ("result_code", Some "avpResultCode");
     ("experimental_result", None); ("auth_session_state", Some "avpAuthSessionState");
     ("origin_host", Some "avpOriginHost"); ("origin_realm", Some "avpOriginRealm");
     ("supported_features", None); ("failed_avp", None); ("proxy_info", None);
     ("route_record", Some "avpRouteRecord")]
    ["session_id"; "drmp"; "vendor_specific_application_id"; "result_code";
     "experimental_result"; "auth_session_state"; "origin_host"; "origin_realm";
     "supported_features"; "failed_avp"; "proxy_info"; "route_record"].

Definition ReportSmDeliveryStatusRequestExtractor_members : list (string * string) :=
  [("session_id", "FDExtractorAvp"); ("drmp", "FDExtractorAvp");
   ("vendor_specific_application_id", "VendorSpecificApplicationIdExtractor");
   ("auth_session_state", "FDExtractorAvp"); ("origin_host", "FDExtractorAvp");
   ("origin_realm", "FDExtractorAvp"); ("destination_host", "FDExtractorAvp");
   ("destination_realm", "FDExtractorAvp");
   ("supported_features", "SupportedFeaturesExtractorList");
   ("user_identifier", "UserIdentifierExtractor");
   ("smsmi_correlation_id", "SmsmiCorrelationIdExtractor"); ("sc_address", "FDExtractorAvp");
   ("sm_delivery_outcome", "SmDeliveryOutcomeExtractor"); ("rdr_flags", "FDExtractorAvp");
   ("proxy_info", "ProxyInfoExtractorList"); ("route_record", "FDExtractorAvpList")].
Definition ReportSmDeliveryStatusRequestExtractor_ctor : constructor :=
  mk_ctor None
    [("session_id", Some "avpSessionId"); ("drmp", Some "avpDrmp");
     ("vendor_specific_application_id", None);
     ("auth_session_state", Some "avpAuthSessionState"); ("origin_host", Some "avpOriginHost");
     ("origin_realm", Some "avpOriginRealm"); ("destination_host", Some "avpDestinationHost");
     ("destination_realm", Some "avpDestinationRealm"); ("supported_features", None);
     ("user_identifier", None); ("smsmi_correlation_id", None);
     ("sc_address", Some "avpScAddress"); ("sm_delivery_outcome", None);
     ("rdr_flags", Some "avpRdrFlags"); ("proxy_info", None);
     ("route_record", Some "avpRouteRecord")]
    ["session_id"; "drmp"; "vendor_specific_application_id"; "auth_session_state";
     "origin_host"; "origin_realm"; "destination_host"; "destination_realm";
     "supported_features"; "user_identifier"; "smsmi_correlation_id"; "sc_address";
     "sm_delivery_outcome"; "rdr_flags"; "proxy_info"; "route_record"].

Definition ReportSmDeliveryStatusAnswerExtractor_members : list (string * string) :=
  [("session_id", "FDExtractorAvp"); ("drmp", "FDExtractorAvp");
   ("vendor_specific_application_id", "VendorSpecificApplicationIdExtractor");
   ("result_code", "FDExtractorAvp"); ("experimental_result", "ExperimentalResultExtractor");
   ("auth_session_state", "FDExtractorAvp"); ("origin_host", "FDExtractorAvp");
   ("origin_realm", "FDExtractorAvp"); ("supported_features", "SupportedFeaturesExtractorList");
   ("user_identifier", "UserIdentifierExtractor"); ("failed_avp", "FailedAvpExtractor");
   ("proxy_info", "ProxyInfoExtractorList"); ("route_record", "FDExtractorAvpList")].
Definition ReportSmDeliveryStatusAnswerExtractor_ctor : constructor :=
  mk_ctor None
    [("session_id", Some "avpSessionId"); ("drmp", Some "avpDrmp");
     ("vendor_specific_application_id", None); ("result_code", Some "avpResultCode");
     ("experimental_result", None); ("auth_session_state", Some "avpAuthSessionState");
     ("origin_host", Some "avpOriginHost"); ("origin_realm", Some "avpOriginRealm");
     ("supported_features", None); ("user_identifier", None); ("failed_avp", None);
     ("proxy_info", None); ("route_record", Some "avpRouteRecord")]
    ["session_id"; "drmp"; "vendor_specific_application_id"; "result_code";
     "experimental_result"; "auth_session_state"; "origin_host"; "origin_realm";
     "supported_features"; "user_identifier"; "failed_avp"; "proxy_info"; "route_record"].

Definition SupportedFeaturesExtractorList_element : string := "SupportedFeaturesExtractor".
Definition SupportedFeaturesExtractorList_avp : string := "avpSupportedFeatures".

Definition ProxyInfoExtractorList_element : string := "ProxyInfoExtractor".
Definition ProxyInfoExtractorList_avp : string := "avpProxyInfo".

Definition extractors : list (string * extractor_class) :=
  [("SgsnSmDeliveryOutcomeExtractor",
    mk_class SgsnSmDeliveryOutcomeExtractor_members SgsnSmDeliveryOutcomeExtractor_ctor);
   ("ProxyInfoExtractor",
    mk_class ProxyInfoExtractor_members ProxyInfoExtractor_ctor);
   ("VendorSpecificApplicationIdExtractor",
    mk_class VendorSpecificApplicationIdExtractor_members VendorSpecificApplicationIdExtractor_ctor);
   ("UserIdentifierExtractor",
    mk_class UserIdentifierExtractor_members UserIdentifierExtractor_ctor);
   ("ServingNodeExtractor",
    mk_class ServingNodeExtractor_members ServingNodeExtractor_ctor);
   ("MmeSmDeliveryOutcomeExtractor",
    mk_class MmeSmDeliveryOutcomeExtractor_members MmeSmDeliveryOutcomeExtractor_ctor);
   ("MscSmDeliveryOutcomeExtractor",
    mk_class MscSmDeliveryOutcomeExtractor_members MscSmDeliveryOutcomeExtractor_ctor);
   ("IpSmGwSmDeliveryOutcomeExtractor",
    mk_class IpSmGwSmDeliveryOutcomeExtractor_members IpSmGwSmDeliveryOutcomeExtractor_ctor);
   ("SmDeliveryOutcomeExtractor",
    mk_class SmDeliveryOutcomeExtractor_members SmDeliveryOutcomeExtractor_ctor);
   ("FailedAvpExtractor",
    mk_class FailedAvpExtractor_members FailedAvpExtractor_ctor);
   ("ExperimentalResultExtractor",
    mk_class ExperimentalResultExtractor_members ExperimentalResultExtractor_ctor);
   ("AdditionalServingNodeExtractor",
    mk_class AdditionalServingNodeExtractor_members AdditionalServingNodeExtractor_ctor);
   ("SmsmiCorrelationIdExtractor",
    mk_class SmsmiCorrelationIdExtractor_members SmsmiCorrelationIdExtractor_ctor);
   ("SupportedFeaturesExtractor",
    mk_class SupportedFeaturesExtractor_members SupportedFeaturesExtractor_ctor);
   ("SendRoutingInfoForSmRequestExtractor",
    mk_class SendRoutingInfoForSmRequestExtractor_members SendRoutingInfoForSmRequestExtractor_ctor);
   ("SendRoutingInfoForSmAnswerExtractor",
    mk_class SendRoutingInfoForSmAnswerExtractor_members SendRoutingInfoForSmAnswerExtractor_ctor);
   ("AlertServiceCentreRequestExtractor",
    mk_class AlertServiceCentreRequestExtractor_members AlertServiceCentreRequestExtractor_ctor);
   ("AlertServiceCentreAnswerExtractor",
    mk_class AlertServiceCentreAnswerExtractor_members AlertServiceCentreAnswerExtractor_ctor);
   ("ReportSmDeliveryStatusRequestExtractor",
    mk_class ReportSmDeliveryStatusRequestExtractor_members ReportSmDeliveryStatusRequestExtractor_ctor);
   ("ReportSmDeliveryStatusAnswerExtractor",
    mk_class ReportSmDeliveryStatusAnswerExtractor_members ReportSmDeliveryStatusAnswerExtractor_ctor)].

Definition lists : list (string * list_class) :=
  [("SupportedFeaturesExtractorList",
    mk_list SupportedFeaturesExtractorList_element SupportedFeaturesExtractorList_avp);
   ("ProxyInfoExtractorList",
    mk_list ProxyInfoExtractorList_element ProxyInfoExtractorList_avp)].

Definition app : application :=
  mk_app getters members initialisers command_classes command_constructors
    extractors lists.

End S6c.

(** ** smsrouter/include/sgd.h, smsrouter/src/sgd.cpp *)

Module Sgd.

(** The accessors of [Dictionary] and the members they return. *)
Definition getters : list (string * string) :=
  [("app", "m_app"); ("cmdMOFSMR", "m_cmd_mofsmr"); ("cmdMOFSMA", "m_cmd_mofsma");
   ("cmdMTFSMR", "m_cmd_mtfsmr"); ("cmdMTFSMA", "m_cmd_mtfsma"); ("cmdALSCR", "m_cmd_alscr");
   ("cmdALSCA", "m_cmd_alsca"); ("vnd3GPP", "m_vnd_3gpp");
   ("avpAuthApplicationId", "m_avp_auth_application_id");
   ("avpSgsnSmDeliveryOutcome", "m_avp_sgsn_sm_delivery_outcome");
   ("avpProxyInfo", "m_avp_proxy_info"); ("avpMmeRealm", "m_avp_mme_realm");
   ("avpFeatureListId", "m_avp_feature_list_id"); ("avpMmeName", "m_avp_mme_name");
   ("avpTfrFlags", "m_avp_tfr_flags");
   ("avpVendorSpecificApplicationId", "m_avp_vendor_specific_application_id");
   ("avpSmsGmscAddress", "m_avp_sms_gmsc_address");
   ("avpMaximumUeAvailabilityTime", "m_avp_maximum_ue_availability_time");
   ("avpMaximumRetransmissionTime", "m_avp_maximum_retransmission_time");
   ("avpSmDeliveryStartTime", "m_avp_sm_delivery_start_time");
   ("avpUserIdentifier", "m_avp_user_identifier"); ("avpSgsnNumber", "m_avp_sgsn_number");
   ("avpIpSmGwRealm", "m_avp_ip_sm_gw_realm");
   ("avpSmDeliveryOutcome", "m_avp_sm_delivery_outcome");
   ("avpIpSmGwName", "m_avp_ip_sm_gw_name"); ("avpFeatureList", "m_avp_feature_list");
   ("avpExternalIdentifier", "m_avp_external_identifier"); ("avpFailedAvp", "m_avp_failed_avp");
   ("avpSgsnName", "m_avp_sgsn_name");
   ("avpAbsentUserDiagnosticSm", "m_avp_absent_user_diagnostic_sm");
   ("avpMsisdn", "m_avp_msisdn"); ("avpExperimentalResult", "m_avp_experimental_result");
   ("avpOriginRealm", "m_avp_origin_realm"); ("avpOriginHost", "m_avp_origin_host");
   ("avpScAddress", "m_avp_sc_address"); ("avpResultCode", "m_avp_result_code");
   ("avpSmsGmscAlertEvent", "m_avp_sms_gmsc_alert_event"); ("avpSmRpUi", "m_avp_sm_rp_ui");
   ("avpSgsnRealm", "m_avp_sgsn_realm"); ("avpProxyState", "m_avp_proxy_state");
   ("avpMmeNumberForMtSms", "m_avp_mme_number_for_mt_sms"); ("avpOfrFlags", "m_avp_ofr_flags");
   ("avpSmsmiCorrelationId", "m_avp_smsmi_correlation_id");
   ("avpServingNode", "m_avp_serving_node");
   ("avpIpSmGwSmDeliveryOutcome", "m_avp_ip_sm_gw_sm_delivery_outcome");
   ("avpAuthSessionState", "m_avp_auth_session_state"); ("avpDrmp", "m_avp_drmp");
   ("avpVendorId", "m_avp_vendor_id"); ("avpSupportedFeatures", "m_avp_supported_features");
   ("avpOriginatingSipUri", "m_avp_originating_sip_uri");
   ("avpRouteRecord", "m_avp_route_record");
   ("avpDestinationSipUri", "m_avp_destination_sip_uri");
   ("avpDestinationRealm", "m_avp_destination_realm"); ("avpSessionId", "m_avp_session_id");
   ("avpAcctApplicationId", "m_avp_acct_application_id"); ("avpUserName", "m_avp_user_name");
   ("avpMscSmDeliveryOutcome", "m_avp_msc_sm_delivery_outcome");
   ("avpMscNumber", "m_avp_msc_number"); ("avpHssId", "m_avp_hss_id");
   ("avpSmDeliveryTimer", "m_avp_sm_delivery_timer"); ("avpProxyHost", "m_avp_proxy_host");
   ("avpIpSmGwNumber", "m_avp_ip_sm_gw_number");
   ("avpMmeSmDeliveryOutcome", "m_avp_mme_sm_delivery_outcome");
   ("avpExperimentalResultCode", "m_avp_experimental_result_code");
   ("avpDestinationHost", "m_avp_destination_host");
   ("avpSmDeliveryCause", "m_avp_sm_delivery_cause")].

(** Its members and their classes, in the order of their declaration. *)
Definition members : list (string * string) :=
  [("m_app", "FDDictionaryEntryApplication"); ("m_cmd_mofsmr", "FDDictionaryEntryCommand");
   ("m_cmd_mofsma", "FDDictionaryEntryCommand"); ("m_cmd_mtfsmr", "FDDictionaryEntryCommand");
   ("m_cmd_mtfsma", "FDDictionaryEntryCommand"); ("m_cmd_alscr", "FDDictionaryEntryCommand");
   ("m_cmd_alsca", "FDDictionaryEntryCommand"); ("m_vnd_3gpp", "FDDictionaryEntryVendor");
   ("m_avp_auth_application_id", "FDDictionaryEntryAVP");
   ("m_avp_sgsn_sm_delivery_outcome", "FDDictionaryEntryAVP");
   ("m_avp_proxy_info", "FDDictionaryEntryAVP"); ("m_avp_mme_realm", "FDDictionaryEntryAVP");
   ("m_avp_feature_list_id", "FDDictionaryEntryAVP");
   ("m_avp_mme_name", "FDDictionaryEntryAVP"); ("m_avp_tfr_flags", "FDDictionaryEntryAVP");
   ("m_avp_vendor_specific_application_id", "FDDictionaryEntryAVP");
   ("m_avp_sms_gmsc_address", "FDDictionaryEntryAVP");
   ("m_avp_maximum_ue_availability_time", "FDDictionaryEntryAVP");
   ("m_avp_maximum_retransmission_time", "FDDictionaryEntryAVP");
   ("m_avp_sm_delivery_start_time", "FDDictionaryEntryAVP");
   ("m_avp_user_identifier", "FDDictionaryEntryAVP");
   ("m_avp_sgsn_number", "FDDictionaryEntryAVP");
   ("m_avp_ip_sm_gw_realm", "FDDictionaryEntryAVP");
   ("m_avp_sm_delivery_outcome", "FDDictionaryEntryAVP");
   ("m_avp_ip_sm_gw_name", "FDDictionaryEntryAVP");
   ("m_avp_feature_list", "FDDictionaryEntryAVP");
   ("m_avp_external_identifier", "FDDictionaryEntryAVP");
   ("m_avp_failed_avp", "FDDictionaryEntryAVP"); ("m_avp_sgsn_name", "FDDictionaryEntryAVP");
   ("m_avp_absent_user_diagnostic_sm", "FDDictionaryEntryAVP");
   ("m_avp_msisdn", "FDDictionaryEntryAVP");
   ("m_avp_experimental_result", "FDDictionaryEntryAVP");
   ("m_avp_origin_realm", "FDDictionaryEntryAVP");
   ("m_avp_origin_host", "FDDictionaryEntryAVP"); ("m_avp_sc_address", "FDDictionaryEntryAVP");
   ("m_avp_result_code", "FDDictionaryEntryAVP");
   ("m_avp_sms_gmsc_alert_event", "FDDictionaryEntryAVP");
   ("m_avp_sm_rp_ui", "FDDictionaryEntryAVP"); ("m_avp_sgsn_realm", "FDDictionaryEntryAVP");
   ("m_avp_proxy_state", "FDDictionaryEntryAVP");
   ("m_avp_mme_number_for_mt_sms", "FDDictionaryEntryAVP");
   ("m_avp_ofr_flags", "FDDictionaryEntryAVP");
   ("m_avp_smsmi_correlation_id", "FDDictionaryEntryAVP");
   ("m_avp_serving_node", "FDDictionaryEntryAVP");
   ("m_avp_ip_sm_gw_sm_delivery_outcome", "FDDictionaryEntryAVP");
   ("m_avp_auth_session_state", "FDDictionaryEntryAVP"); ("m_avp_drmp", "FDDictionaryEntryAVP");
   ("m_avp_vendor_id", "FDDictionaryEntryAVP");
   ("m_avp_supported_features", "FDDictionaryEntryAVP");
   ("m_avp_originating_sip_uri", "FDDictionaryEntryAVP");
   ("m_avp_route_record", "FDDictionaryEntryAVP");
   ("m_avp_destination_sip_uri", "FDDictionaryEntryAVP");
   ("m_avp_destination_realm", "FDDictionaryEntryAVP");
   ("m_avp_session_id", "FDDictionaryEntryAVP");
   ("m_avp_acct_application_id", "FDDictionaryEntryAVP");
   ("m_avp_user_name", "FDDictionaryEntryAVP");
   ("m_avp_msc_sm_delivery_outcome", "FDDictionaryEntryAVP");
   ("m_avp_msc_number", "FDDictionaryEntryAVP"); ("m_avp_hss_id", "FDDictionaryEntryAVP");
   ("m_avp_sm_delivery_timer", "FDDictionaryEntryAVP");
   ("m_avp_proxy_host", "FDDictionaryEntryAVP");
   ("m_avp_ip_sm_gw_number", "FDDictionaryEntryAVP");
   ("m_avp_mme_sm_delivery_outcome", "FDDictionaryEntryAVP");
   ("m_avp_experimental_result_code", "FDDictionaryEntryAVP");
   ("m_avp_destination_host", "FDDictionaryEntryAVP");
   ("m_avp_sm_delivery_cause", "FDDictionaryEntryAVP")].

(** Its constructor: the name each member looks up and the member whose vendor id
    it uses. *)
Definition initialisers : list (string * string * option string) :=
  [("m_app", "SGd", None); ("m_cmd_mofsmr", "MO-Forward-Short-Message-Request", None);
   ("m_cmd_mofsma", "MO-Forward-Short-Message-Answer", None);
   ("m_cmd_mtfsmr", "MT-Forward-Short-Message-Request", None);
   ("m_cmd_mtfsma", "MT-Forward-Short-Message-Answer", None);
   ("m_cmd_alscr", "Alert-Service-Centre-Request", None);
   ("m_cmd_alsca", "Alert-Service-Centre-Answer", None); ("m_vnd_3gpp", "3GPP", None);
   ("m_avp_auth_application_id", "Auth-Application-Id", None);
   ("m_avp_sgsn_sm_delivery_outcome", "SGSN-SM-Delivery-Outcome", Some "m_vnd_3gpp");
   ("m_avp_proxy_info", "Proxy-Info", None);
   ("m_avp_mme_realm", "MME-Realm", Some "m_vnd_3gpp");
   ("m_avp_feature_list_id", "Feature-List-ID", Some "m_vnd_3gpp");
   ("m_avp_mme_name", "MME-Name", Some "m_vnd_3gpp");
   ("m_avp_tfr_flags", "TFR-Flags", Some "m_vnd_3gpp");
   ("m_avp_vendor_specific_application_id", "Vendor-Specific-Application-Id", None);
   ("m_avp_sms_gmsc_address", "SMS-GMSC-Address", Some "m_vnd_3gpp");
   ("m_avp_maximum_ue_availability_time", "Maximum-UE-Availability-Time", Some "m_vnd_3gpp");
   ("m_avp_maximum_retransmission_time", "Maximum-Retransmission-Time", Some "m_vnd_3gpp");
   ("m_avp_sm_delivery_start_time", "SM-Delivery-Start-Time", Some "m_vnd_3gpp");
   ("m_avp_user_identifier", "User-Identifier", Some "m_vnd_3gpp");
   ("m_avp_sgsn_number", "SGSN-Number", Some "m_vnd_3gpp");
   ("m_avp_ip_sm_gw_realm", "IP-SM-GW-Realm", Some "m_vnd_3gpp");
   ("m_avp_sm_delivery_outcome", "SM-Delivery-Outcome", Some "m_vnd_3gpp");
   ("m_avp_ip_sm_gw_name", "IP-SM-GW-Name", Some "m_vnd_3gpp");
   ("m_avp_feature_list", "Feature-List", Some "m_vnd_3gpp");
   ("m_avp_external_identifier", "External-Identifier", Some "m_vnd_3gpp");
   ("m_avp_failed_avp", "Failed-AVP", None);
   ("m_avp_sgsn_name", "SGSN-Name", Some "m_vnd_3gpp");
   ("m_avp_absent_user_diagnostic_sm", "Absent-User-Diagnostic-SM", Some "m_vnd_3gpp");
   ("m_avp_msisdn", "MSISDN", Some "m_vnd_3gpp");
   ("m_avp_experimental_result", "Experimental-Result", None);
   ("m_avp_origin_realm", "Origin-Realm", None); ("m_avp_origin_host", "Origin-Host", None);
   ("m_avp_sc_address", "SC-Address", Some "m_vnd_3gpp");
   ("m_avp_result_code", "Result-Code", None);
   ("m_avp_sms_gmsc_alert_event", "SMS-GMSC-Alert-Event", Some "m_vnd_3gpp");
   ("m_avp_sm_rp_ui", "SM-RP-UI", Some "m_vnd_3gpp");
   ("m_avp_sgsn_realm", "SGSN-Realm", Some "m_vnd_3gpp");
   ("m_avp_proxy_state", "Proxy-State", None);
   ("m_avp_mme_number_for_mt_sms", "MME-Number-for-MT-SMS", Some "m_vnd_3gpp");
   ("m_avp_ofr_flags", "OFR-Flags", Some "m_vnd_3gpp");
   ("m_avp_smsmi_correlation_id", "SMSMI-Correlation-ID", Some "m_vnd_3gpp");
   ("m_avp_serving_node", "Serving-Node", Some "m_vnd_3gpp");
   ("m_avp_ip_sm_gw_sm_delivery_outcome", "IP-SM-GW-SM-Delivery-Outcome", Some "m_vnd_3gpp");
   ("m_avp_auth_session_state", "Auth-Session-State", None); ("m_avp_drmp", "DRMP", None);
   ("m_avp_vendor_id", "Vendor-Id", None);
   ("m_avp_supported_features", "Supported-Features", Some "m_vnd_3gpp");
   ("m_avp_originating_sip_uri", "Originating-SIP-URI", Some "m_vnd_3gpp");
   ("m_avp_route_record", "Route-Record", None);
   ("m_avp_destination_sip_uri", "Destination-SIP-URI", Some "m_vnd_3gpp");
   ("m_avp_destination_realm", "Destination-Realm", None);
   ("m_avp_session_id", "Session-Id", None);
   ("m_avp_acct_application_id", "Acct-Application-Id", None);
   ("m_avp_user_name", "User-Name", None);
   ("m_avp_msc_sm_delivery_outcome", "MSC-SM-Delivery-Outcome", Some "m_vnd_3gpp");
   ("m_avp_msc_number", "MSC-Number", Some "m_vnd_3gpp");
   ("m_avp_hss_id", "HSS-ID", Some "m_vnd_3gpp");
   ("m_avp_sm_delivery_timer", "SM-Delivery-Timer", Some "m_vnd_3gpp");
   ("m_avp_proxy_host", "Proxy-Host", None);
   ("m_avp_ip_sm_gw_number", "IP-SM-GW-Number", Some "m_vnd_3gpp");
   ("m_avp_mme_sm_delivery_outcome", "MME-SM-Delivery-Outcome", Some "m_vnd_3gpp");
   ("m_avp_experimental_result_code", "Experimental-Result-Code", None);
   ("m_avp_destination_host", "Destination-Host", None);
   ("m_avp_sm_delivery_cause", "SM-Delivery-Cause", Some "m_vnd_3gpp")].

(** The command and request classes, with their base classes. *)
Definition command_classes : list (string * string) :=
  [("MOFSMRcmd", "FDCommandRequest"); ("MOFSMRreq", "FDMessageRequest");
   ("MTFSMRcmd", "FDCommandRequest"); ("MTFSMRreq", "FDMessageRequest");
   ("ALSCRcmd", "FDCommandRequest"); ("ALSCRreq", "FDMessageRequest")].

(** Their constructors: the accessors whose entries the base class is given. *)
Definition command_constructors : list (string * list string) :=
  [("MOFSMRcmd", ["cmdMOFSMR"]); ("MOFSMRreq", ["app"; "cmdMOFSMR"]);
   ("MTFSMRcmd", ["cmdMTFSMR"]); ("MTFSMRreq", ["app"; "cmdMTFSMR"]);
   ("ALSCRcmd", ["cmdALSCR"]); ("ALSCRreq", ["app"; "cmdALSCR"])].

Definition SgsnSmDeliveryOutcomeExtractor_members : list (string * string) :=
  [("sm_delivery_cause", "FDExtractorAvp"); ("absent_user_diagnostic_sm", "FDExtractorAvp")].
Definition SgsnSmDeliveryOutcomeExtractor_ctor : constructor :=
  mk_ctor (Some "avpSgsnSmDeliveryOutcome")
    [("sm_delivery_cause", Some "avpSmDeliveryCause");
     ("absent_user_diagnostic_sm", Some "avpAbsentUserDiagnosticSm")]
    ["sm_delivery_cause"; "absent_user_diagnostic_sm"].

Definition ProxyInfoExtractor_members : list (string * string) :=
  [("proxy_host", "FDExtractorAvp"); ("proxy_state", "FDExtractorAvp")].
Definition ProxyInfoExtractor_ctor : constructor :=
  mk_ctor (Some "avpProxyInfo")
    [("proxy_host", Some "avpProxyHost"); ("proxy_state", Some "avpProxyState")]
    ["proxy_host"; "proxy_state"].

Definition VendorSpecificApplicationIdExtractor_members : list (string * string) :=
  [("vendor_id", "FDExtractorAvp"); ("auth_application_id", "FDExtractorAvp");
   ("acct_application_id", "FDExtractorAvp")].
Definition VendorSpecificApplicationIdExtractor_ctor : constructor :=
  mk_ctor (Some "avpVendorSpecificApplicationId")
    [("vendor_id", Some "avpVendorId"); ("auth_application_id", Some "avpAuthApplicationId");
     ("acct_application_id", Some "avpAcctApplicationId")]
    ["vendor_id"; "auth_application_id"; "acct_application_id"].

Definition UserIdentifierExtractor_members : list (string * string) :=
  [("user_name", "FDExtractorAvp"); ("msisdn", "FDExtractorAvp");
   ("external_identifier", "FDExtractorAvp")].
Definition UserIdentifierExtractor_ctor : constructor :=
  mk_ctor (Some "avpUserIdentifier")
    [("user_name", Some "avpUserName"); ("msisdn", Some "avpMsisdn");
     ("external_identifier", Some "avpExternalIdentifier")]
    ["user_name"; "msisdn"; "external_identifier"].

Definition MmeSmDeliveryOutcomeExtractor_members : list (string * string) :=
  [("sm_delivery_cause", "FDExtractorAvp"); ("absent_user_diagnostic_sm", "FDExtractorAvp")].
Definition MmeSmDeliveryOutcomeExtractor_ctor : constructor :=
  mk_ctor (Some "avpMmeSmDeliveryOutcome")
    [("sm_delivery_cause", Some "avpSmDeliveryCause");
     ("absent_user_diagnostic_sm", Some "avpAbsentUserDiagnosticSm")]
    ["sm_delivery_cause"; "absent_user_diagnostic_sm"].

Definition MscSmDeliveryOutcomeExtractor_members : list (string * string) :=
  [("sm_delivery_cause", "FDExtractorAvp"); ("absent_user_diagnostic_sm", "FDExtractorAvp")].
Definition MscSmDeliveryOutcomeExtractor_ctor : constructor :=
  mk_ctor (Some "avpMscSmDeliveryOutcome")
    [("sm_delivery_cause", Some "avpSmDeliveryCause");
     ("absent_user_diagnostic_sm", Some "avpAbsentUserDiagnosticSm")]
    ["sm_delivery_cause"; "absent_user_diagnostic_sm"].

Definition IpSmGwSmDeliveryOutcomeExtractor_members : list (string * string) :=
  [("sm_delivery_cause", "FDExtractorAvp"); ("absent_user_diagnostic_sm", "FDExtractorAvp")].
Definition IpSmGwSmDeliveryOutcomeExtractor_ctor : constructor :=
  mk_ctor (Some "avpIpSmGwSmDeliveryOutcome")
    [("sm_delivery_cause", Some "avpSmDeliveryCause");
     ("absent_user_diagnostic_sm", Some "avpAbsentUserDiagnosticSm")]
    ["sm_delivery_cause"; "absent_user_diagnostic_sm"].

Definition SmDeliveryOutcomeExtractor_members : list (string * string) :=
  [("mme_sm_delivery_outcome", "MmeSmDeliveryOutcomeExtractor");
   ("msc_sm_delivery_outcome", "MscSmDeliveryOutcomeExtractor");
   ("sgsn_sm_delivery_outcome", "SgsnSmDeliveryOutcomeExtractor");
   ("ip_sm_gw_sm_delivery_outcome", "IpSmGwSmDeliveryOutcomeExtractor")].
Definition SmDeliveryOutcomeExtractor_ctor : constructor :=
  mk_ctor (Some "avpSmDeliveryOutcome")
    [("mme_sm_delivery_outcome", None); ("msc_sm_delivery_outcome", None);
     ("sgsn_sm_delivery_outcome", None); ("ip_sm_gw_sm_delivery_outcome", None)]
    ["mme_sm_delivery_outcome"; "msc_sm_delivery_outcome"; "sgsn_sm_delivery_outcome";
     "ip_sm_gw_sm_delivery_outcome"].

Definition FailedAvpExtractor_members : list (string * string) :=
  [].
Definition FailedAvpExtractor_ctor : constructor :=
  mk_ctor (Some "avpFailedAvp")
    []
    [].

Definition ExperimentalResultExtractor_members : list (string * string) :=
  [("vendor_id", "FDExtractorAvp"); ("experimental_result_code", "FDExtractorAvp")].
Definition ExperimentalResultExtractor_ctor : constructor :=
  mk_ctor (Some "avpExperimentalResult")
    [("vendor_id", Some "avpVendorId");
     ("experimental_result_code", Some "avpExperimentalResultCode")]
    ["vendor_id"; "experimental_result_code"].

Definition SmsmiCorrelationIdExtractor_members : list (string * string) :=
  [("hss_id", "FDExtractorAvp"); ("originating_sip_uri", "FDExtractorAvp");
   ("destination_sip_uri", "FDExtractorAvp")].
Definition SmsmiCorrelationIdExtractor_ctor : constructor :=
  mk_ctor (Some "avpSmsmiCorrelationId")
    [("hss_id", Some "avpHssId"); ("originating_sip_uri", Some "avpOriginatingSipUri");
     ("destination_sip_uri", Some "avpDestinationSipUri")]
    ["hss_id"; "originating_sip_uri"; "destination_sip_uri"].

Definition ServingNodeExtractor_members : list (string * string) :=
  [("sgsn_name", "FDExtractorAvp"); ("sgsn_realm", "FDExtractorAvp");
   ("sgsn_number", "FDExtractorAvp"); ("mme_name", "FDExtractorAvp");
   ("mme_realm", "FDExtractorAvp"); ("mme_number_for_mt_sms", "FDExtractorAvp");
   ("msc_number", "FDExtractorAvp"); ("ip_sm_gw_number", "FDExtractorAvp");
   ("ip_sm_gw_name", "FDExtractorAvp"); ("ip_sm_gw_realm", "FDExtractorAvp")].
Definition ServingNodeExtractor_ctor : constructor :=
  mk_ctor (Some "avpServingNode")
    [("sgsn_name", Some "avpSgsnName"); ("sgsn_realm", Some "avpSgsnRealm");
     ("sgsn_number", Some "avpSgsnNumber"); ("mme_name", Some "avpMmeName");
     ("mme_realm", Some "avpMmeRealm"); ("mme_number_for_mt_sms", Some "avpMmeNumberForMtSms");
     ("msc_number", Some "avpMscNumber"); ("ip_sm_gw_number", Some "avpIpSmGwNumber");
     ("ip_sm_gw_name", Some "avpIpSmGwName"); ("ip_sm_gw_realm", Some "avpIpSmGwRealm")]
    ["sgsn_name"; "sgsn_realm"; "sgsn_number"; "mme_name"; "mme_realm"; "mme_number_for_mt_sms";
     "msc_number"; "ip_sm_gw_number"; "ip_sm_gw_name"; "ip_sm_gw_realm"].

Definition SupportedFeaturesExtractor_members : list (string * string) :=
  [("vendor_id", "FDExtractorAvp"); ("feature_list_id", "FDExtractorAvp");
   ("feature_list", "FDExtractorAvp")].
Definition SupportedFeaturesExtractor_ctor : constructor :=
  mk_ctor (Some "avpSupportedFeatures")
    [("vendor_id", Some "avpVendorId"); ("feature_list_id", Some "avpFeatureListId");
     ("feature_list", Some "avpFeatureList")]
    ["vendor_id"; "feature_list_id"; "feature_list"].

Definition MoForwardShortMessageRequestExtractor_members : list (string * string) :=
  [("session_id", "FDExtractorAvp"); ("drmp", "FDExtractorAvp");
   ("vendor_specific_application_id", "VendorSpecificApplicationIdExtractor");
   ("auth_session_state", "FDExtractorAvp"); ("origin_host", "FDExtractorAvp");
   ("origin_realm", "FDExtractorAvp"); ("destination_host", "FDExtractorAvp");
   ("destination_realm", "FDExtractorAvp"); ("sc_address", "FDExtractorAvp");
   ("ofr_flags", "FDExtractorAvp"); ("supported_features", "SupportedFeaturesExtractorList");
   ("user_identifier", "UserIdentifierExtractor"); ("sm_rp_ui", "FDExtractorAvp");
   ("smsmi_correlation_id", "SmsmiCorrelationIdExtractor");
   ("sm_delivery_outcome", "SmDeliveryOutcomeExtractor");
   ("proxy_info", "ProxyInfoExtractorList"); ("route_record", "FDExtractorAvpList")].
Definition MoForwardShortMessageRequestExtractor_ctor : constructor :=
  mk_ctor None
    [("session_id", Some "avpSessionId"); ("drmp", Some "avpDrmp");
     ("vendor_specific_application_id", None);
     ("auth_session_state", Some "avpAuthSessionState"); ("origin_host", Some "avpOriginHost");
     ("origin_realm", Some "avpOriginRealm"); ("destination_host", Some "avpDestinationHost");
     ("destination_realm", Some "avpDestinationRealm"); ("sc_address", Some "avpScAddress");
     ("ofr_flags", Some "avpOfrFlags"); ("supported_features", None); ("user_identifier", None);
     ("sm_rp_ui", Some "avpSmRpUi"); ("smsmi_correlation_id", None);
     ("sm_delivery_outcome", None); ("proxy_info", None);
     ("route_record", Some "avpRouteRecord")]
    ["session_id"; "drmp"; "vendor_specific_application_id"; "auth_session_state";
     "origin_host"; "origin_realm"; "destination_host"; "destination_realm"; "sc_address";
     "ofr_flags"; "supported_features"; "user_identifier"; "sm_rp_ui"; "smsmi_correlation_id";
     "sm_delivery_outcome"; "proxy_info"; "route_record"].

Definition MoForwardShortMessageAnswerExtractor_members : list (string * string) :=
  [("session_id", "FDExtractorAvp"); ("drmp", "FDExtractorAvp");
   ("vendor_specific_application_id", "VendorSpecificApplicationIdExtractor");
   ("result_code", "FDExtractorAvp"); ("experimental_result", "ExperimentalResultExtractor");
   ("auth_session_state", "FDExtractorAvp"); ("origin_host", "FDExtractorAvp");
   ("origin_realm", "FDExtractorAvp"); ("supported_features", "SupportedFeaturesExtractorList")].
Definition MoForwardShortMessageAnswerExtractor_ctor : constructor :=
  mk_ctor None
    [("session_id", Some "avpSessionId"); ("drmp", Some "avpDrmp");
     ("vendor_specific_application_id", None); ("result_code", Some "avpResultCode");
     ("experimental_result", None); ("auth_session_state", Some "avpAuthSessionState");
     ("origin_host", Some "avpOriginHost"); ("origin_realm", Some "avpOriginRealm");
     ("supported_features", None)]
    ["session_id"; "drmp"; "vendor_specific_application_id"; "result_code";
     "experimental_result"; "auth_session_state"; "origin_host"; "origin_realm";
     "supported_features"].

Definition MtForwardShortMessageRequestExtractor_members : list (string * string) :=
  [("session_id", "FDExtractorAvp"); ("drmp", "FDExtractorAvp");
   ("vendor_specific_application_id", "VendorSpecificApplicationIdExtractor");
   ("auth_session_state", "FDExtractorAvp"); ("origin_host", "FDExtractorAvp");
   ("origin_realm", "FDExtractorAvp"); ("destination_host", "FDExtractorAvp");
   ("destination_realm", "FDExtractorAvp"); ("user_name", "FDExtractorAvp");
   ("supported_features", "SupportedFeaturesExtractorList");
   ("smsmi_correlation_id", "SmsmiCorrelationIdExtractor"); ("sc_address", "FDExtractorAvp");
   ("sm_rp_ui", "FDExtractorAvp"); ("mme_number_for_mt_sms", "FDExtractorAvp");
   ("sgsn_number", "FDExtractorAvp"); ("tfr_flags", "FDExtractorAvp");
   ("sm_delivery_timer", "FDExtractorAvp"); ("sm_delivery_start_time", "FDExtractorAvp");
   ("maximum_retransmission_time", "FDExtractorAvp"); ("sms_gmsc_address", "FDExtractorAvp");
   ("proxy_info", "ProxyInfoExtractorList"); ("route_record", "FDExtractorAvpList")].
Definition MtForwardShortMessageRequestExtractor_ctor : constructor :=
  mk_ctor None
    [("session_id", Some "avpSessionId"); ("drmp", Some "avpDrmp");
     ("vendor_specific_application_id", None);
     ("auth_session_state", Some "avpAuthSessionState"); ("origin_host", Some "avpOriginHost");
     ("origin_realm", Some "avpOriginRealm"); ("destination_host", Some "avpDestinationHost");
     ("destination_realm", Some "avpDestinationRealm"); ("user_name", Some "avpUserName");
     ("supported_features", None); ("smsmi_correlation_id", None);
     ("sc_address", Some "avpScAddress"); ("sm_rp_ui", Some "avpSmRpUi");
     ("mme_number_for_mt_sms", Some "avpMmeNumberForMtSms");
     ("sgsn_number", Some "avpSgsnNumber"); ("tfr_flags", Some "avpTfrFlags");
     ("sm_delivery_timer", Some "avpSmDeliveryTimer");
     ("sm_delivery_start_time", Some "avpSmDeliveryStartTime");
     ("maximum_retransmission_time", Some "avpMaximumRetransmissionTime");
     ("sms_gmsc_address", Some "avpSmsGmscAddress"); ("proxy_info", None);
     ("route_record", Some "avpRouteRecord")]
    ["session_id"; "drmp"; "vendor_specific_application_id"; "auth_session_state";
     "origin_host"; "origin_realm"; "destination_host"; "destination_realm"; "user_name";
     "supported_features"; "smsmi_correlation_id"; "sc_address"; "sm_rp_ui";
     "mme_number_for_mt_sms"; "sgsn_number"; "tfr_flags"; "sm_delivery_timer";
     "sm_delivery_start_time"; "maximum_retransmission_time"; "sms_gmsc_address"; "proxy_info";
     "route_record"].

Definition MtForwardShortMessageAnswerExtractor_members : list (string * string) :=
  [("session_id", "FDExtractorAvp"); ("drmp", "FDExtractorAvp");
   ("vendor_specific_application_id", "VendorSpecificApplicationIdExtractor");
   ("result_code", "FDExtractorAvp"); ("experimental_result", "ExperimentalResultExtractor");
   ("auth_session_state", "FDExtractorAvp"); ("origin_host", "FDExtractorAvp");
   ("origin_realm", "FDExtractorAvp"); ("supported_features", "SupportedFeaturesExtractorList");
   ("absent_user_diagnostic_sm", "FDExtractorAvp")].
Definition MtForwardShortMessageAnswerExtractor_ctor : constructor :=
  mk_ctor None
    [("session_id", Some "avpSessionId"); ("drmp", Some "avpDrmp");
     ("vendor_specific_application_id", None); ("result_code", Some "avpResultCode");
     ("experimental_result", None); ("auth_session_state", Some "avpAuthSessionState");
     ("origin_host", Some "avpOriginHost"); ("origin_realm", Some "avpOriginRealm");
     ("supported_features", None);
     ("absent_user_diagnostic_sm", Some "avpAbsentUserDiagnosticSm")]
    ["session_id"; "drmp"; "vendor_specific_application_id"; "result_code";
     "experimental_result"; "auth_session_state"; "origin_host"; "origin_realm";
     "supported_features"; "absent_user_diagnostic_sm"].

Definition AlertServiceCentreRequestExtractor_members : list (string * string) :=
  [("session_id", "FDExtractorAvp"); ("drmp", "FDExtractorAvp");
   ("vendor_specific_application_id", "VendorSpecificApplicationIdExtractor");
   ("auth_session_state", "FDExtractorAvp"); ("origin_host", "FDExtractorAvp");
   ("origin_realm", "FDExtractorAvp"); ("destination_host", "FDExtractorAvp");
   ("destination_realm", "FDExtractorAvp"); ("sc_address", "FDExtractorAvp");
   ("user_identifier", "UserIdentifierExtractor");
   ("smsmi_correlation_id", "SmsmiCorrelationIdExtractor");
   ("maximum_ue_availability_time", "FDExtractorAvp");
   ("sms_gmsc_alert_event", "FDExtractorAvp"); ("serving_node", "ServingNodeExtractor");
   ("supported_features", "SupportedFeaturesExtractorList");
   ("proxy_info", "ProxyInfoExtractorList"); ("route_record", "FDExtractorAvpList")].
Definition AlertServiceCentreRequestExtractor_ctor : constructor :=
  mk_ctor None
    [("session_id", Some "avpSessionId"); ("drmp", Some "avpDrmp");
     ("vendor_specific_application_id", None);
     ("auth_session_state", Some "avpAuthSessionState"); ("origin_host", Some "avpOriginHost");
     ("origin_realm", Some "avpOriginRealm"); ("destination_host", Some "avpDestinationHost");
     ("destination_realm", Some "avpDestinationRealm"); ("sc_address", Some "avpScAddress");
     ("user_identifier", None); ("smsmi_correlation_id", None);
     ("maximum_ue_availability_time", Some "avpMaximumUeAvailabilityTime");
     ("sms_gmsc_alert_event", Some "avpSmsGmscAlertEvent"); ("serving_node", None);
     ("supported_features", None); ("proxy_info", None);
     ("route_record", Some "avpRouteRecord")]
    ["session_id"; "drmp"; "vendor_specific_application_id"; "auth_session_state";
     "origin_host"; "origin_realm"; "destination_host"; "destination_realm"; "sc_address";
     "user_identifier"; "smsmi_correlation_id"; "maximum_ue_availability_time";
     "sms_gmsc_alert_event"; "serving_node"; "supported_features"; "proxy_info"; "route_record"].

Definition AlertServiceCentreAnswerExtractor_members : list (string * string) :=
  [("session_id", "FDExtractorAvp"); ("drmp", "FDExtractorAvp");
   ("vendor_specific_application_id", "VendorSpecificApplicationIdExtractor");
   ("result_code", "FDExtractorAvp"); ("experimental_result", "ExperimentalResultExtractor");
   ("auth_session_state", "FDExtractorAvp"); ("origin_host", "FDExtractorAvp");
   ("origin_realm", "FDExtractorAvp"); ("supported_features", "SupportedFeaturesExtractorList");
   ("failed_avp", "FailedAvpExtractor"); ("proxy_info", "ProxyInfoExtractorList");
   ("route_record", "FDExtractorAvpList")].
Definition AlertServiceCentreAnswerExtractor_ctor : constructor :=
  mk_ctor None
    [("session_id", Some "avpSessionId"); ("drmp", Some "avpDrmp");
     ("vendor_specific_application_id", None); ("result_code", Some "avpResultCode");
     ("experimental_result", None); ("auth_session_state", Some "avpAuthSessionState");
     ("origin_host", Some "avpOriginHost"); ("origin_realm", Some "avpOriginRealm");
     ("supported_features", None); ("failed_avp", None); ("proxy_info", None);
     ("route_record", Some "avpRouteRecord")]
    ["session_id"; "drmp"; "vendor_specific_application_id"; "result_code";
     "experimental_result"; "auth_session_state"; "origin_host"; "origin_realm";
     "supported_features"; "failed_avp"; "proxy_info"; "route_record"].

Definition SupportedFeaturesExtractorList_element : string := "SupportedFeaturesExtractor".
Definition SupportedFeaturesExtractorList_avp : string := "avpSupportedFeatures".

Definition ProxyInfoExtractorList_element : string := "ProxyInfoExtractor".
Definition ProxyInfoExtractorList_avp : string := "avpProxyInfo".

Definition extractors : list (string * extractor_class) :=
  [("SgsnSmDeliveryOutcomeExtractor",
    mk_class SgsnSmDeliveryOutcomeExtractor_members SgsnSmDeliveryOutcomeExtractor_ctor);
   ("ProxyInfoExtractor",
    mk_class ProxyInfoExtractor_members ProxyInfoExtractor_ctor);
   ("VendorSpecificApplicationIdExtractor",
    mk_class VendorSpecificApplicationIdExtractor_members VendorSpecificApplicationIdExtractor_ctor);
   ("UserIdentifierExtractor",
    mk_class UserIdentifierExtractor_members UserIdentifierExtractor_ctor);
   ("MmeSmDeliveryOutcomeExtractor",
    mk_class MmeSmDeliveryOutcomeExtractor_members MmeSmDeliveryOutcomeExtractor_ctor);
   ("MscSmDeliveryOutcomeExtractor",
    mk_class MscSmDeliveryOutcomeExtractor_members MscSmDeliveryOutcomeExtractor_ctor);
   ("IpSmGwSmDeliveryOutcomeExtractor",
    mk_class IpSmGwSmDeliveryOutcomeExtractor_members IpSmGwSmDeliveryOutcomeExtractor_ctor);
   ("SmDeliveryOutcomeExtractor",
    mk_class SmDeliveryOutcomeExtractor_members SmDeliveryOutcomeExtractor_ctor);
   ("FailedAvpExtractor",
    mk_class FailedAvpExtractor_members FailedAvpExtractor_ctor);
   ("ExperimentalResultExtractor",
    mk_class ExperimentalResultExtractor_members ExperimentalResultExtractor_ctor);
   ("SmsmiCorrelationIdExtractor",
    mk_class SmsmiCorrelationIdExtractor_members SmsmiCorrelationIdExtractor_ctor);
   ("ServingNodeExtractor",
    mk_class ServingNodeExtractor_members ServingNodeExtractor_ctor);
   ("SupportedFeaturesExtractor",
    mk_class SupportedFeaturesExtractor_members SupportedFeaturesExtractor_ctor);
   ("MoForwardShortMessageRequestExtractor",
    mk_class MoForwardShortMessageRequestExtractor_members MoForwardShortMessageRequestExtractor_ctor);
   ("MoForwardShortMessageAnswerExtractor",
    mk_class MoForwardShortMessageAnswerExtractor_members MoForwardShortMessageAnswerExtractor_ctor);
   ("MtForwardShortMessageRequestExtractor",
    mk_class MtForwardShortMessageRequestExtractor_members MtForwardShortMessageRequestExtractor_ctor);
   ("MtForwardShortMessageAnswerExtractor",
    mk_class MtForwardShortMessageAnswerExtractor_members MtForwardShortMessageAnswerExtractor_ctor);
   ("AlertServiceCentreRequestExtractor",
    mk_class AlertServiceCentreRequestExtractor_members AlertServiceCentreRequestExtractor_ctor);
   ("AlertServiceCentreAnswerExtractor",
    mk_class AlertServiceCentreAnswerExtractor_members AlertServiceCentreAnswerExtractor_ctor)].

Definition lists : list (string * list_class) :=
  [("SupportedFeaturesExtractorList",
    mk_list SupportedFeaturesExtractorList_element SupportedFeaturesExtractorList_avp);
   ("ProxyInfoExtractorList",
    mk_list ProxyInfoExtractorList_element ProxyInfoExtractorList_avp)].

Definition app : application :=
  mk_app getters members initialisers command_classes command_constructors
    extractors lists.

End Sgd.
