(* ===== verification/ClassProps.v ===== *)
(** * The classes of the applications fit together

    The constructors of the extractor classes make the extractors of Schemas, whose
    members read the AVPs they are named after. *)

From S2P Require Import Prelude Diameter Schemas Classes S6aClasses S6tClasses S6cClasses.
Import FDExtractor.
#[local] Open Scope string_scope.

(** The applications with the extractors of Schemas. *)
Definition applications : list (application * list extractor) :=
  [(S6aClasses.S6as6d.app, Schemas.S6as6d.extractors); (S6tClasses.S6t.app, Schemas.S6t.extractors);
   (S6cClasses.S6c.app, Schemas.S6c.extractors); (S6cClasses.Sgd.app, Schemas.Sgd.extractors)].

(** ** Generic *)

Lemma mem_spec k l : mem k l = true ↔ k ∈ l.
Proof.
  induction l as [|x l IH]; cbn; [by split; [|intros ?%elem_of_nil]|].
  by rewrite orb_true_iff, String.eqb_eq, elem_of_cons, IH.
Qed.
Lemma distinct_NoDup l : distinct l = true → NoDup l.
Proof.
  induction l as [|x l IH]; cbn; [constructor|]. intros [Hx Hl]%andb_true_iff. constructor; [|auto].
  intros H%mem_spec. by rewrite H in Hx.
Qed.
Lemma same_eq l1 l2 : same l1 l2 = true → l1 = l2.
Proof.
  revert l2. induction l1 as [|x l1 IH]; intros [|y l2]; cbn; try done.
  intros [->%String.eqb_eq H]%andb_true_iff. f_equal; auto.
Qed.
Lemma forallb_elem {A} (P : A → bool) l x : forallb P l = true → x ∈ l → P x = true.
Proof. intros H Hx. apply (proj1 (forallb_forall P l) H), list_elem_of_In, Hx. Qed.

(** ** What a member of an extractor is *)

(** The class of a member: the one of its kind, or that named after its AVP. *)
Definition class_of (n : avp_name) (kind : eFDExtractorType) : string :=
  match kind with
  | etAvp => "FDExtractorAvp"
  | etAvpList => "FDExtractorAvpList"
  | etExtractor => camel true n +:+ "Extractor"
  | etExtractorList => camel true n +:+ "ExtractorList"
  end.

Lemma member_wired_spec m type n kind :
  member_wired m type n kind = true → m = identifier (snake n) ∧ type = class_of n kind.
Proof. intros [Hm H]%andb_true_iff. apply String.eqb_eq in Hm. by destruct kind; apply String.eqb_eq in H. Qed.

Lemma wired_extractor app name c :
  wired app = true → (name, c) ∈ extractors app →
  ∃ e, construct app c = Some e ∧ length e = length (ec_members c) ∧
    Forall2 (λ x y, x.1 = identifier (snake y.1) ∧ x.2 = class_of y.1 y.2) (ec_members c) e.
Proof.
  intros Hw Hc. unfold wired in Hw. rewrite !andb_true_iff in Hw. destruct Hw as [[[[_ He] _] _] _].
  pose proof (forallb_elem _ _ _ He Hc) as H. unfold extractor_wired in H. cbn [snd] in H.
  rewrite !andb_true_iff in H. destruct H as [[[_ Hs%same_eq] _] H].
  destruct (construct app c) as [e|] eqn:E; [|done]. exists e. split; [done|].
  assert (length e = length (ec_members c)) as Hl.
  { apply length_mapM in E. by rewrite <-E, <-Hs, length_fmap. }
  split; [done|]. revert H Hl. clear. generalize (ec_members c). intros l. revert e.
  induction l as [|x l IH]; intros [|y e]; cbn; try done.
  intros [H1%member_wired_spec H2]%andb_true_iff Hl. constructor; auto with lia.
Qed.

(** ** The applications *)

Lemma S6as6d_wired : wired S6aClasses.S6as6d.app = true.
Proof. vm_compute. reflexivity. Qed.
Lemma S6t_wired : wired S6tClasses.S6t.app = true.
Proof. vm_compute. reflexivity. Qed.
Lemma S6c_wired : wired S6cClasses.S6c.app = true.
Proof. vm_compute. reflexivity. Qed.
Lemma Sgd_wired : wired S6cClasses.Sgd.app = true.
Proof. vm_compute. reflexivity. Qed.

Lemma S6as6d_constructed :
  mapM (construct S6aClasses.S6as6d.app) (extractors S6aClasses.S6as6d.app).*2 = Some Schemas.S6as6d.extractors.
Proof. vm_compute. reflexivity. Qed.
Lemma S6t_constructed :
  mapM (construct S6tClasses.S6t.app) (extractors S6tClasses.S6t.app).*2 = Some Schemas.S6t.extractors.
Proof. vm_compute. reflexivity. Qed.
Lemma S6c_constructed :
  mapM (construct S6cClasses.S6c.app) (extractors S6cClasses.S6c.app).*2 = Some Schemas.S6c.extractors.
Proof. vm_compute. reflexivity. Qed.
Lemma Sgd_constructed :
  mapM (construct S6cClasses.Sgd.app) (extractors S6cClasses.Sgd.app).*2 = Some Schemas.Sgd.extractors.
Proof. vm_compute. reflexivity. Qed.

Lemma applications_fit app schemas :
  (app, schemas) ∈ applications →
  wired app = true ∧ mapM (construct app) (extractors app).*2 = Some schemas.
Proof.
  intros Ha. repeat (apply elem_of_cons in Ha as [[= -> ->]|Ha]; [split|]); [..|by apply elem_of_nil in Ha].
  - exact S6as6d_wired.
  - exact S6as6d_constructed.
  - exact S6t_wired.
  - exact S6t_constructed.
  - exact S6c_wired.
  - exact S6c_constructed.
  - exact Sgd_wired.
  - exact Sgd_constructed.
Qed.

Lemma constructed_well_formed app schemas e :
  (app, schemas) ∈ applications → e ∈ schemas → ∃ dict, SchemaProps.well_formed dict e.
Proof.
  intros Ha He. destruct SchemaProps.schemas_well_formed as (H1&H2&H3&H4).
  repeat (apply elem_of_cons in Ha as [Ha|Ha]; [injection Ha as -> ->; eexists;
    eapply Forall_forall; [|exact He]; eassumption|]).
  by apply elem_of_nil in Ha.
Qed.


