(* ===== verification/Srr.v ===== *)
(** * Send-Routing-Info-for-SM-Request (S6c)

    Models [SERIFSRcmd::process] of src/s6c_impl.cpp, which tells an SMS centre
    where a subscriber can be reached.  What its locals hold before they are
    assigned, and the identifiers its dictionary gives, are parameters. *)

From S2P Require Import Prelude Codec Auc Diameter DataAccess World Schemas.
#[local] Open Scope Z_scope.

Definition MAX_MSISDN_LENGTH : nat := 15.

Module Srr.
Section Srr.
Import FDExtractor.
Context `{Cassandra} `{FreeDiameter} {D G : Type}.

(** The uninitialised [data], the two [buf]s and [info]. *)
Record uninit := mk_uninit {
  u_data : bytes; u_node : bytes; u_user : bytes; u_info : DAImsiInfo.t }.
(** [getDict().vnd3GPP().getId()] and [getDict().app().getId()]. *)
Variables (u : uninit) (vnd3GPP app_id : Z).

Abbreviation world := (World.world D G).

Definition srr_field (req : message) (k : avp_name) : M world (option avp) :=
  lift (field S6c.SendRoutingInfoForSmRequestExtractor req k).

(** The answer before any result: [ans.add(srr.auth_session_state)] copies the
    AVP of the request. *)
Definition base_answer (req ans : message) : M world message :=
  a ← srr_field req "Auth-Session-State";
  a ← lift (FDMessage.copied a);
  mret (ans ++ [AvpGroup "Vendor-Specific-Application-Id"
                  [AvpU32 "Vendor-Id" vnd3GPP; AvpU32 "Auth-Application-Id" app_id]]
            ++ a ++ fd_origin).

Definition experimental (code : Z) : avp :=
  AvpGroup "Experimental-Result"
    [AvpU32 "Vendor-Id" vnd3GPP; AvpU32 "Experimental-Result-Code" code].

(** The error returns: what is added to the answer, what is counted. *)
Definition reject (ans : message) (added : list avp) (vendor code : Z) : M world unit :=
  _ ← World.send_answer (ans ++ added);
  World.registerStatResult stat_hss_srr vendor code.

(** [ans.add(getDict().avpUserName(), ...)]: nothing for another value of
    SM-Delivery-Not-Intended. *)
Definition user_name (sm_delivery_not_intended : Z) (imsi : string) : list avp :=
  if sm_delivery_not_intended =? 1 then
    [FDMessage.string_avp "User-Name"
       (String.substring 0 (if (String.length imsi =? 14)%nat then 5 else 6) imsi)]
  else if (sm_delivery_not_intended =? -1) || (sm_delivery_not_intended =? 0) then
    [FDMessage.string_avp "User-Name" imsi]
  else [].

Definition serving_node (info : DAImsiInfo.t) (mmeid : DAMmeIdentity) : outcome avp :=
  '(len, buf) ← Tbcd.str2tbcd (bytes_of_string (mme_isdn mmeid)) (u_node u);
  mret (AvpGroup "Serving-Node"
          [FDMessage.string_avp "MME-Name" (DAImsiInfo.mmehost info);
           FDMessage.string_avp "MME-Realm" (DAImsiInfo.mmerealm info);
           AvpOctets "MME-Number-for-MT-SMS" (take len buf)]).

Definition user_identifier (info : DAImsiInfo.t) : outcome avp :=
  '(len, buf) ← Tbcd.str2tbcd (bytes_of_string (DAImsiInfo.str_msisdn info)) (u_user u);
  mret (AvpGroup "User-Identifier" [AvpOctets "MSISDN" (take len buf)]).

(** The answer to a reachable subscriber: its result is counted before the rest
    is built. *)
Definition accept (ans : message) (sm_delivery_not_intended : Z) (msisdn : string)
    (info : DAImsiInfo.t) (mmeid : DAMmeIdentity) : M world unit :=
  let ans := ans ++ [AvpU32 "Result-Code" 2001] in
  _ ← World.registerStatResult stat_hss_srr 0 2001;
  let ans := ans ++ user_name sm_delivery_not_intended (DAImsiInfo.imsi info) in
  sn ← (if sm_delivery_not_intended =? -1 then sn ← lift (serving_node info mmeid); mret [sn]
        else mret []);
  let ans := ans ++ sn in
  ui ← (if String.eqb msisdn (DAImsiInfo.str_msisdn info) then mret []
        else ui ← lift (user_identifier info); mret [ui]);
  World.send_answer (ans ++ ui).

(** From the look-up of the IMSI on. *)
Definition locate (ans : message) (sm_delivery_not_intended : Z) (msisdn imsi : string)
    : M world unit :=
  '(found, info) ← World.on_db (DataAccess.getImsiInfo imsi (u_info u) None);
  if negb found then reject ans [experimental 5001] vnd3GPP 5001 else
  '(found, mmeid) ← World.on_db
     (DataAccess.getMmeIdentity (DAImsiInfo.mme_id info) (mk_mme "" "" ""));
  if negb found then reject ans [experimental 5001] vnd3GPP 5001 else
  if negb (String.eqb (DAImsiInfo.ms_ps_status info) "ATTACHED")
  then reject ans [experimental 5550] vnd3GPP 5550
  else accept ans sm_delivery_not_intended msisdn info mmeid.

(** The subscriber the request names: its MSISDN, or its IMSI, or neither. *)
Definition subscriber (req : message) : M world (option (string * string)) :=
  m ← srr_field req "MSISDN";
  n ← srr_field req "User-Name";
  match m, n with
  | Some _, _ =>
      '(_, data, len) ← lift (get_bytes m (u_data u) MAX_MSISDN_LENGTH);
      msisdn ← lift (Tbcd.tbcd2str_string (take len data));
      mret (Some (msisdn, ""%string))
  | None, Some _ =>
      '(_, imsi) ← lift (get_string n "");
      mret (Some (""%string, imsi))
  | None, None => mret None
  end.

Definition process (req ans : message) : M world unit :=
  ans ← base_answer req ans;
  who ← subscriber req;
  match who with
  | None =>
      reject ans [AvpU32 "Result-Code" 5005;
                  AvpGroup "Failed-AVP" [FDMessage.string_avp "MSISDN" ""]] 0 5005
  | Some (msisdn, imsi) =>
      a ← srr_field req "SM-Delivery-Not-Intended";
      '(_, v) ← lift (get_u32 a (-1));
      let sm_delivery_not_intended := i32 v in
      a ← srr_field req "SRR-Flags";
      _ ← lift (get_u32 a 0);
      if String.eqb msisdn "" then locate ans sm_delivery_not_intended msisdn imsi
      else
        '(found, imsi) ← World.on_db (DataAccess.getImsiFromMsisdn_string msisdn imsi);
        (* the Experimental-Result is built and not added *)
        if negb found then reject ans [] vnd3GPP 5001
        else locate ans sm_delivery_not_intended msisdn imsi
  end.

End Srr.
End Srr.

Module SrrFacts.
Section SrrFacts.
Import FDExtractor Srr.
Context `{Cassandra} `{FreeDiameter} {D G : Type}.
Variables (u : uninit) (vnd3GPP app_id : Z).
Implicit Types wd : World.world D G.

(** The error results: what the answer gets, what is counted. *)
Definition errors : list (list avp * Z * Z) :=
  [([AvpU32 "Result-Code" 5005; AvpGroup "Failed-AVP" [FDMessage.string_avp "MSISDN" ""]], 0, 5005);
   ([], vnd3GPP, 5001);
   ([experimental vnd3GPP 5001], vnd3GPP, 5001);
   ([experimental vnd3GPP 5550], vnd3GPP, 5550)].

Definition is_result (r : list avp * Z * Z) : Prop :=
  r ∈ errors ∨ ∃ rest, r = (AvpU32 "Result-Code" 2001 :: rest, 0, 2001).

(** Exactly one answer on top of [base], or nothing sent. *)
Definition answered (base : message) wd (o : outcome unit) wd' : Prop :=
  match o with
  | Ok _ => ∃ tail vendor code, is_result (tail, vendor, code) ∧
      World.wire wd' = World.wire wd ++ [SentAnswer (base ++ tail)] ∧
      World.stats wd' = World.stats wd ++ [(stat_hss_srr, vendor, code)]
  | _ => World.wire wd' = World.wire wd
  end.

Lemma wp_reject base tail vendor code wd0 wd :
  (tail, vendor, code) ∈ errors →
  World.wire wd = World.wire wd0 → World.stats wd = World.stats wd0 →
  wp (reject base tail vendor code) (answered base wd0) wd.
Proof.
  intros He Hw Hs. unfold reject, World.send_answer, World.registerStatResult.
  wp_steps; cbn; try done. exists tail, vendor, code. rewrite Hw, Hs. by split_and!; [left|..].
Qed.

Lemma wp_accept base sm msisdn info mmeid wd0 wd :
  World.wire wd = World.wire wd0 → World.stats wd = World.stats wd0 →
  wp (accept u base sm msisdn info mmeid) (answered base wd0) wd.
Proof.
  intros Hw Hs. unfold accept, World.send_answer, World.registerStatResult.
  wp_steps; cbn; try done; (eexists (_ :: _), 0, 2001; split; [right; by eexists|]);
    rewrite Hw, Hs, <- !app_assoc; done.
Qed.

Lemma wp_on_db_any {A} (m : M (DataAccess.db D) A) Q wd :
  (∀ o d, Q o (wd <| World.database := d |>)) → wp (World.on_db m) Q wd.
Proof. intros HQ. unfold World.on_db. apply wp_zoom. unfold wp. destruct (m _). apply HQ. Qed.

Lemma wp_locate base sm msisdn imsi wd0 wd :
  World.wire wd = World.wire wd0 → World.stats wd = World.stats wd0 →
  wp (locate u vnd3GPP base sm msisdn imsi) (answered base wd0) wd.
Proof.
  intros Hw Hs. unfold locate. wp_step. apply wp_on_db_any. intros [[found info]| |] d; [|done..].
  cbn [keep_fault]. destruct found; cbn [negb]; [|apply wp_reject; [set_solver|done..]].
  wp_step. apply wp_on_db_any. intros [[found mmeid]| |] d'; [|done..]. cbn [keep_fault].
  destruct found; cbn [negb]; [|apply wp_reject; [set_solver|done..]].
  case_match; [apply wp_reject; [set_solver|done..]|by apply wp_accept].
Qed.

(** When [SERIFSRcmd::process] returns, it has sent exactly one answer -- the
    base followed by one of four error endings or by the result 2001 and its
    data -- and counted that result; when it throws or goes wrong it has sent
    nothing. *)
Theorem srr_answered_once req ans base wd :
  base_answer vnd3GPP app_id req ans wd = (Ok base, wd) →
  let '(o, wd') := process u vnd3GPP app_id req ans wd in answered base wd o wd'.
Proof.
  intros Hbase. change (wp (process u vnd3GPP app_id req ans) (answered base wd) wd).
  unfold process. apply wp_bind. unfold wp at 1. rewrite Hbase. cbn [keep_fault].
  wp_step. unfold subscriber, srr_field.
  repeat first [wp_step | case_match]; cbn; try done.
  all: try (apply wp_reject; [set_solver|done..]).
  all: try (by apply wp_locate).
  all: apply wp_on_db_any; intros [[found imsi]| |] d; [|done..]; cbn [keep_fault].
  all: destruct found; cbn [negb]; [by apply wp_locate|apply wp_reject; [set_solver|done..]].
Qed.

(** A request whose MSISDN no subscriber has is answered without any result: the
    answer ends where the results would start, although the failure is counted. *)
Theorem srr_unknown_msisdn_without_result req ans base msisdn imsi sm x d wd :
  (∀ m, fd_msg_send m = 0) →
  base_answer vnd3GPP app_id req ans wd = (Ok base, wd) →
  subscriber u req wd = (Ok (Some (msisdn, imsi)), wd) → msisdn ≠ ""%string →
  (∃ a b, field S6c.SendRoutingInfoForSmRequestExtractor req "SM-Delivery-Not-Intended" = Ok a ∧
     get_u32 a (-1) = Ok (b, sm)) →
  (∃ a b, field S6c.SendRoutingInfoForSmRequestExtractor req "SRR-Flags" = Ok a ∧
     get_u32 a 0 = Ok (b, x)) →
  DataAccess.getImsiFromMsisdn_string msisdn imsi (World.database wd) = (Ok (false, imsi), d) →
  process u vnd3GPP app_id req ans wd =
  (Ok tt, wd <| World.database := d |>
             <| World.wire ::= (λ l, l ++ [SentAnswer base]) |>
             <| World.stats ::= (λ l, l ++ [(stat_hss_srr, vnd3GPP, 5001)]) |>).
Proof.
  intros Hsend Hbase Hwho Hne (a1 & b1 & F1 & G1) (a2 & b2 & F2 & G2) Hdb.
  unfold process. rewrite (bind_Ok _ _ _ _ _ Hbase), (bind_Ok _ _ _ _ _ Hwho).
  unfold srr_field, mbind, M_bind, lift, World.on_db, zoom. rewrite F1, G1. cbn beta iota.
  rewrite F2, G2. cbn beta iota. apply String.eqb_neq in Hne. rewrite Hne, Hdb. cbn.
  unfold reject, World.send_answer, FDMessage.send, World.registerStatResult, mbind, M_bind, lift.
  rewrite Hsend. by rewrite app_nil_r.
Qed.

(** One field of a message can be read when another can. *)
Lemma srr_field_total e req k x k' : field e req k = Ok x → ∃ y, field e req k' = Ok y.
Proof. unfold field. destruct (resolve e req); cbn; [eauto|done..]. Qed.

Lemma get_octets_fit de os data len :
  FDAvp.getDataType de = FDAvp.DDTOctetString → (length os <= len)%nat →
  get_bytes (Some (AvpOctets de os)) data len = Ok (true, memcpy data os, length os).
Proof.
  intros Hde Hlen. unfold get_bytes, FDAvp.get_bytes. cbn [avp_de]. rewrite Hde. cbn.
  by rewrite decide_False by lia.
Qed.

Lemma take_memcpy data os : take (length os) (memcpy data os) = os.
Proof. unfold memcpy. by rewrite take_app_length. Qed.

(** The request's MSISDN is the digits [ds], packed. *)
Definition names_msisdn (req : message) (ds : bytes) : Prop :=
  ∃ de, field S6c.SendRoutingInfoForSmRequestExtractor req "MSISDN"
        = Ok (Some (AvpOctets de (Tbcd.pack ds))) ∧
  FDAvp.getDataType de = FDAvp.DDTOctetString ∧
  Forall Tbcd.is_digit ds ∧ (length ds <= 30)%nat.

(** A request whose MSISDN packs an even number of digits makes the handler
    write past its buffer, whatever the database holds; with an odd number the
    digits are read. *)
Theorem srr_even_msisdn_undefined req ans base ds wd :
  base_answer vnd3GPP app_id req ans wd = (Ok base, wd) → names_msisdn req ds →
  if Nat.even (length ds) then process u vnd3GPP app_id req ans wd = (UB, wd)
  else subscriber u req wd
       = (Ok (Some (string_of_bytes (Tbcd.tbcd_char <$> ds), ""%string)), wd).
Proof.
  intros Hbase (de & Hm & Hde & Hds & Hlen).
  destruct (srr_field_total _ _ _ _ "User-Name" Hm) as [n Hn].
  assert (length (Tbcd.pack ds) <= MAX_MSISDN_LENGTH)%nat as Hpack.
  { rewrite Tbcd.pack_length. unfold Tbcd.packed_length, MAX_MSISDN_LENGTH.
    change 15%nat with (31 / 2)%nat. apply Nat.Div0.div_le_mono. lia. }
  assert (subscriber u req wd = (msisdn ← Tbcd.tbcd2str_string (Tbcd.pack ds);
    mret (Some (msisdn, ""%string)), wd)) as Hsub.
  { unfold subscriber, srr_field, mbind, M_bind, mret, M_ret, lift. rewrite Hm, Hn. cbn beta iota.
    rewrite get_octets_fit by done. cbn beta iota. rewrite take_memcpy.
    by destruct (Tbcd.tbcd2str_string _). }
  rewrite Tbcd.tbcd2str_string_parity in Hsub by done.
  destruct (Nat.even (length ds)); cbn in Hsub; [|done].
  unfold process. rewrite (bind_Ok _ _ _ _ _ Hbase).
  unfold mbind at 1, M_bind. by rewrite Hsub.
Qed.

End SrrFacts.
End SrrFacts.

(** ** A subscriber known by an MSISDN of seven digits *)

Module SrrWitness.
Import ScriptedCassandra WitnessFreeDiameter Srr SrrFacts.

Definition u : uninit :=
  mk_uninit (replicate 15 0) (replicate 15 0) (replicate 15 0) (DAImsiInfo.uninit 0 0 0).
(** No row for the MSISDN. *)
Definition wd : World.world nat unit :=
  World.mk (DataAccess.mk_db (mk_script [mk_future 0 [] true] []) []) [] []
    (Random.Build_state 0 tt).
Definition d : DataAccess.db nat :=
  (DataAccess.getImsiFromMsisdn_string "1234567" "" (World.database wd)).2.
Definition srr (ds : bytes) : message :=
  [AvpU32 "Auth-Session-State" 1; AvpOctets "MSISDN" (Tbcd.pack ds)].
Definition base : message :=
  [AvpGroup "Vendor-Specific-Application-Id"
     [AvpU32 "Vendor-Id" 10415; AvpU32 "Auth-Application-Id" 16777312];
   AvpU32 "Auth-Session-State" 1] ++ fd_origin.

Lemma srr_unknown_msisdn_without_result_witness :
  (process u 10415 16777312 (srr [1;2;3;4;5;6;7]) [] wd).1 = Ok tt.
Proof.
  rewrite (srr_unknown_msisdn_without_result u 10415 16777312 (srr [1;2;3;4;5;6;7]) [] base
    "1234567" "" (-1) 0 d wd); try done.
  all: eexists _, _; (split; [vm_compute; reflexivity|]); vm_compute; reflexivity.
Defined.

Lemma srr_answered_once_witness :
  answered 10415 base wd (process u 10415 16777312 (srr [1;2;3;4;5;6;7]) [] wd).1
    (process u 10415 16777312 (srr [1;2;3;4;5;6;7]) [] wd).2.
Proof.
  assert (base_answer 10415 16777312 (srr [1;2;3;4;5;6;7]) [] wd = (Ok base, wd)) as E by done.
  pose proof (srr_answered_once u 10415 16777312 _ _ _ _ E) as H.
  by destruct (process u 10415 16777312 (srr [1;2;3;4;5;6;7]) [] wd).
Defined.

Lemma srr_even_msisdn_undefined_witness :
  process u 10415 16777312 (srr [3;3;6;0]) [] wd = (UB, wd).
Proof.
  assert (names_msisdn (srr [3;3;6;0]) [3;3;6;0]) as Hnames.
  { exists "MSISDN"%string. split; [by vm_compute|]. split; [by vm_compute|].
    split; [unfold Tbcd.is_digit; repeat constructor; lia|cbn; lia]. }
  exact (srr_even_msisdn_undefined u 10415 16777312 (srr [3;3;6;0]) [] base [3;3;6;0] wd
    eq_refl Hnames).
Defined.

End SrrWitness.
