(* ===== verification/Monitoring.v ===== *)
(** * Monitoring events and the maps that hold their status

    Models [MonitoringConfEventStatus], [FDHss::buildCfgStatusAvp] of
    src/fdhss.cpp and the typedef [EvenStatusMap] of include/fdhss.h: a
    [std::map] from the identity of an event to a status. *)

From Stdlib Require Import Sorted.
From S2P Require Import Prelude Calendar Diameter DataAccess.
#[local] Open Scope Z_scope.

Definition DIAMETER_ERROR_CONFIGURATION_EVENT_STORAGE_NOT_SUCCESSFUL : Z := 5513.
Definition DIAMETER_ERROR_CONFIGURATION_EVENT_NON_EXISTANT : Z := 5514.
Definition MME_DOWN : Z := 100.
Definition IMSI_NOT_ACTIVE : Z := 101.

(** ** [std::map<std::pair<std::string, uint32_t>, V>] *)

Module StdMap.

Definition key : Type := string * Z.

(** [operator<] of pairs. *)
Definition compare (k k' : key) : comparison :=
  match String.compare k.1 k'.1 with Eq => k.2 ?= k'.2 | c => c end.

Section Map.
Context {V : Type}.
Implicit Types m : list (key * V).

(** [find]. *)
Fixpoint find (k : key) m : option V :=
  match m with
  | [] => None
  | (k', v) :: m' => if decide (k' = k) then Some v else find k m'
  end.

(** [insert]: an existing entry stays. *)
Fixpoint insert (k : key) (v : V) m : list (key * V) :=
  match m with
  | [] => [(k, v)]
  | (k', v') :: m' =>
      match compare k k' with
      | Lt => (k, v) :: m
      | Eq => m
      | Gt => (k', v') :: insert k v m'
      end
  end.

(** An assignment through an iterator. *)
Fixpoint alter (f : V → V) (k : key) m : list (key * V) :=
  match m with
  | [] => []
  | (k', v) :: m' => if decide (k' = k) then (k', f v) :: m' else (k', v) :: alter f k m'
  end.

Definition keys m : list key := m.*1.

(** Strictly increasing keys. *)
Definition sorted m : Prop := StronglySorted (λ x y, compare x.1 y.1 = Lt) m.

End Map.

(** *** The order *)

Lemma string_compare_refl s : String.compare s s = Eq.
Proof. pose proof (String.compare_antisym s s) as E. by destruct (String.compare s s). Qed.

Lemma compare_eq k k' : compare k k' = Eq ↔ k = k'.
Proof.
  destruct k as [s z], k' as [s' z']. unfold compare. cbn.
  destruct (String.compare s s') eqn:E.
  - apply String.compare_eq_iff in E as ->. rewrite Z.compare_eq_iff. naive_solver.
  - split; [done|]. intros [= -> ->]. by rewrite string_compare_refl in E.
  - split; [done|]. intros [= -> ->]. by rewrite string_compare_refl in E.
Qed.

Lemma compare_refl k : compare k k = Eq.
Proof. by apply compare_eq. Qed.

Lemma ascii_compare_N a b : Ascii.compare a b = (N_of_ascii a ?= N_of_ascii b)%N.
Proof. reflexivity. Qed.

Lemma string_lt_trans s1 s2 s3 :
  String.compare s1 s2 = Lt → String.compare s2 s3 = Lt → String.compare s1 s3 = Lt.
Proof.
  revert s2 s3. induction s1 as [|a s1 IH]; intros [|b s2] [|c s3]; cbn; try done.
  rewrite !ascii_compare_N.
  destruct (N.compare_spec (N_of_ascii a) (N_of_ascii b)) as [E1|L1|L1]; try done;
  destruct (N.compare_spec (N_of_ascii b) (N_of_ascii c)) as [E2|L2|L2]; try done;
  destruct (N.compare_spec (N_of_ascii a) (N_of_ascii c)) as [E3|L3|L3]; try done; try lia.
  apply IH.
Qed.

Lemma compare_trans k1 k2 k3 : compare k1 k2 = Lt → compare k2 k3 = Lt → compare k1 k3 = Lt.
Proof.
  destruct k1 as [s1 z1], k2 as [s2 z2], k3 as [s3 z3]. unfold compare. cbn.
  destruct (String.compare s1 s2) eqn:E1; try done; destruct (String.compare s2 s3) eqn:E2; try done.
  - apply String.compare_eq_iff in E1 as ->, E2 as ->.
    rewrite string_compare_refl, !Z.compare_lt_iff. lia.
  - apply String.compare_eq_iff in E1 as ->. by rewrite E2.
  - apply String.compare_eq_iff in E2 as ->. by rewrite E1.
  - by rewrite (string_lt_trans s1 s2 s3).
Qed.

Lemma compare_gt k k' : compare k k' = Gt → compare k' k = Lt.
Proof.
  destruct k as [s z], k' as [s' z']. unfold compare. cbn.
  rewrite (String.compare_antisym s' s). destruct (String.compare s s') eqn:E; cbn; try done.
  rewrite Z.compare_gt_iff, Z.compare_lt_iff. done.
Qed.

(** *** What the operations do *)

Section MapFacts.
Context {V : Type}.
Implicit Types m : list (key * V).

Lemma sorted_cons k v m :
  sorted ((k, v) :: m) ↔ sorted m ∧ Forall (λ x, compare k x.1 = Lt) m.
Proof.
  unfold sorted. split; [by inversion 1|]. intros [? ?]. by constructor.
Qed.

Lemma keys_insert_subset k v m x : x ∈ insert k v m → x = (k, v) ∨ x ∈ m.
Proof.
  induction m as [|[k' v'] m IH]; cbn; [set_solver|].
  destruct (compare k k'); set_solver.
Qed.

Lemma sorted_insert k v m : sorted m → sorted (insert k v m).
Proof.
  induction m as [|[k' v'] m IH]; cbn; [by intros _; repeat constructor|].
  intros [Hs Hall]%sorted_cons. destruct (compare k k') eqn:E.
  - by apply sorted_cons.
  - apply sorted_cons. split; [by apply sorted_cons|]. constructor; [done|].
    eapply Forall_impl; [exact Hall|]. intros x. by apply compare_trans.
  - apply sorted_cons. split; [by apply IH|]. apply Forall_forall. intros x Hx.
    apply keys_insert_subset in Hx as [->|Hx]; [by apply compare_gt|].
    rewrite Forall_forall in Hall. by apply Hall.
Qed.

Lemma find_below k m : Forall (λ x, compare k x.1 = Lt) m → find k m = None.
Proof.
  induction 1 as [|[k' v'] m Hlt _ IH]; [done|]. cbn in *.
  rewrite decide_False by (intros ->; by rewrite compare_refl in Hlt). done.
Qed.

Lemma find_insert k v m k' : sorted m →
  find k' (insert k v m)
  = if decide (k' = k) then Some (default v (find k m)) else find k' m.
Proof.
  induction m as [|[k0 v0] m IH]; cbn.
  { intros _. by destruct (decide (k = k')), (decide (k' = k)); subst. }
  intros [Hs Hall]%sorted_cons. destruct (compare k k0) eqn:E.
  - apply compare_eq in E as ->. cbn. rewrite (decide_True (P := k0 = k0)) by done.
    by destruct (decide (k0 = k')), (decide (k' = k0)); subst.
  - cbn. rewrite (decide_False (P := k0 = k)) by (intros ->; by rewrite compare_refl in E).
    rewrite (find_below k m).
    2:{ eapply Forall_impl; [exact Hall|]. intros x. exact (compare_trans _ _ _ E). }
    destruct (decide (k = k')), (decide (k' = k)); subst; done.
  - cbn. rewrite (decide_False (P := k0 = k)) by (intros ->; by rewrite compare_refl in E).
    rewrite IH by done. destruct (decide (k0 = k')) as [->|]; [|done].
    rewrite decide_False; [done|]. intros ->. by rewrite compare_refl in E.
Qed.

Lemma keys_alter f k m : keys (alter f k m) = keys m.
Proof.
  unfold keys. induction m as [|[k' v] m IH]; [done|]. cbn.
  destruct (decide _); cbn; [done|by rewrite IH].
Qed.

Lemma find_Some_elem k m v : find k m = Some v → (k, v) ∈ m.
Proof.
  induction m as [|[k' v'] m IH]; cbn; [done|]. destruct (decide _) as [->|]; [|set_solver].
  intros [= ->]. left.
Qed.

Lemma sorted_NoDup m : sorted m → NoDup (keys m).
Proof.
  induction m as [|[k v] m IH]; [constructor|]. intros [Hs Hall]%sorted_cons. constructor; [|auto].
  intros ([k' v'] & E & Hin)%list_elem_of_fmap. rewrite Forall_forall in Hall.
  specialize (Hall _ Hin). cbn in *. subst. by rewrite compare_refl in Hall.
Qed.

Lemma elem_find k v m : sorted m → (k, v) ∈ m → find k m = Some v.
Proof.
  intros Hs Hin. apply sorted_NoDup in Hs. induction m as [|[k' v'] m IH]; [by apply elem_of_nil in Hin|].
  unfold keys in Hs. cbn in *. apply NoDup_cons in Hs as [Hk Hnd].
  apply elem_of_cons in Hin as [[= -> ->]|Hin]; [by rewrite decide_True|].
  rewrite decide_False; [by apply IH|]. intros ->. apply Hk. apply list_elem_of_fmap. by exists (k, v).
Qed.

End MapFacts.
End StdMap.

(** ** [MonitoringConfEventStatus] *)

Module EventStatus.

Record MonitoringConfEventStatus := mk {
  scef_id : string; scef_ref_id : Z; max_nb_reports : Z; mon_duration : option STime.t;
  max_nb_reports_set : bool; mon_duration_set : bool; result : Z; is_remove : bool;
  type_set : bool; is_long_term : bool }.

(** The constructor; [mon_duration] is the time of that moment until it is set. *)
Definition new (is_remove : bool) : MonitoringConfEventStatus :=
  mk "" 0 0 None false false 0 is_remove false false.

Definition isLongTermEvt (s : MonitoringConfEventStatus) : bool :=
  if type_set s then is_long_term s
  else negb ((max_nb_reports_set s && (max_nb_reports s <? 2))
             || (negb (max_nb_reports_set s) && negb (mon_duration_set s))).

Definition forceLongTerm (is_long : bool) (s : MonitoringConfEventStatus) :=
  s <| is_long_term := is_long |> <| type_set := true |>.

Definition EvenStatusMap : Type := list (StdMap.key * MonitoringConfEventStatus).

Section Avp.
Context `{FreeDiameter}.

(** The Service-Report that both the CIA and the RIR carry. *)
Definition service_report (result : Z) : avp :=
  AvpGroup "Service-Report"
    [AvpGroup "Service-Result"
       ([AvpU32 "Service-Result-Code" result]
        ++ if result =? DIAMETER_SUCCESS then [] else [AvpU32 "Vendor-Id" VENDOR_3GPP])].

Definition buildCfgStatusAvp (s : MonitoringConfEventStatus) : list avp :=
  [FDMessage.string_avp "SCEF-ID" (scef_id s);
   AvpU32 "SCEF-Reference-ID" (scef_ref_id s);
   service_report (result s)].

(** A Monitoring-Event-Config-Status of an answer. *)
Definition cfg_status (s : MonitoringConfEventStatus) : avp :=
  AvpGroup "Monitoring-Event-Config-Status" (buildCfgStatusAvp s).

End Avp.
End EventStatus.
