(* ===== verification/Rir.v ===== *)
(** * The report of a group configuration

    Models [RIRBuilder] of src/fdhss.cpp and include/fdhss.h with the event loop
    of its base class [SEventThread] (util/src/sthread.cpp): a thread that
    collects the answers of the MMEs to the Insert-Subscriber-Data-Requests of
    one Configuration-Information-Request and sends the
    Reporting-Information-Request.  Its promise is the abstract collector
    [Collector]; [RirFacts] shows that it keeps it. *)

From S2P Require Import Prelude Codec Diameter FdJson DataAccess World Proc Monitoring.
#[local] Open Scope Z_scope.

Module Rir.
Import EventStatus.

(** The result of one subscriber for one event. *)
Record ImsiStatus := mk_imsi {
  m_imsi : string; m_status : MonitoringConfEventStatus; m_reachability : Z; m_msisdn : string }.
Definition EventImsiStatus : Type := list (StdMap.key * list ImsiStatus).

(** The answer of an MME, or what stands for it: [None] for a null pointer. *)
Record HandleMmeResponseEvtMsg := mk_response {
  r_mme_response : option EvenStatusMap; r_imsi : string; r_imsi_reachable : Z;
  r_msisdn : string }.

Inductive event_message :=
  | ETM_INIT | ETM_QUIT | ETM_TIMER | GUARD_TIMEOUT
  | HANDLE_MME_RESPONSE (r : HandleMmeResponseEvtMsg) | HANDLE_CIA_SENT.

Record RIRBuilder := mk_builder {
  m_interval : Z; m_nb_ida_proc : Z; m_destination_host : string; m_destination_realm : string;
  m_hss_insert_status : option EvenStatusMap; imsi_status_map : EventImsiStatus;
  m_ciasent : bool }.

(** The constructor; [nb_ida_proc] is given a [size_t]. *)
Definition new (nb_ida_proc : nat) (status : EvenStatusMap) (host realm : string) : RIRBuilder :=
  mk_builder 0 (i32 (Z.of_nat nb_ida_proc)) host realm (Some status) [] false.

(** The thread: its object, [m_events], the period of its timer when that is
    armed, whether the loop has ended. *)
Record thread := mk_thread {
  obj : RIRBuilder; m_events : list event_message; timer : option Z; stopped : bool }.

(** [init(NULL)] starts the thread and posts [ETM_INIT]. *)
Definition start (b : RIRBuilder) : thread := mk_thread b [ETM_INIT] None false.

Definition post (m : event_message) (t : thread) : thread := t <| m_events ::= (λ l, l ++ [m]) |>.

(** [mixed_cfg]: the status of an event once the response is known. *)
Definition mixed_cfg (r : HandleMmeResponseEvtMsg) (k : StdMap.key)
    (s : MonitoringConfEventStatus) : MonitoringConfEventStatus :=
  if isLongTermEvt s then s
  else match r_mme_response r with
       | Some m =>
           match StdMap.find k m with
           | Some mme => s <| result := result mme |>
           | None => s
           end
       | None => s <| result := DIAMETER_UNABLE_TO_COMPLY |>
       end.

Definition imsi_status (r : HandleMmeResponseEvtMsg) (k : StdMap.key)
    (s : MonitoringConfEventStatus) : ImsiStatus :=
  mk_imsi (r_imsi r) (mixed_cfg r k s) (r_imsi_reachable r) (r_msisdn r).

(** [push_back] on the vector of a key, or a new vector. *)
Definition add_status (k : StdMap.key) (x : ImsiStatus) (m : EventImsiStatus) : EventImsiStatus :=
  match StdMap.find k m with
  | Some _ => StdMap.alter (λ l, l ++ [x]) k m
  | None => StdMap.insert k [x] m
  end.

(** The loop over [m_hss_insert_status]. *)
Definition add_response (r : HandleMmeResponseEvtMsg) (hss : EvenStatusMap) (m : EventImsiStatus)
    : EventImsiStatus :=
  foldl (λ m '(k, s), add_status k (imsi_status r k s) m) m hss.

Section Rir.
Context `{Cassandra} `{FreeDiameter} {G : Type}.

(** The five octets of [msisdn] before [str2tbcd] writes to them. *)
Variable (u_msisdn : bytes).

Definition group_item (s : ImsiStatus) : outcome avp :=
  '(_, msisdn) ← Tbcd.str2tbcd (bytes_of_string (upto_nul (m_msisdn s))) u_msisdn;
  mret (AvpGroup "Group-Monitoring-Event-Report-Item"
    ([AvpGroup "User-Identifier" [AvpOctets "MSISDN" (take 5 msisdn)];
      service_report (result (m_status s))]
     ++ if m_reachability s =? IMSI_NOT_ACTIVE then [AvpU32 "S6t-HSS-Cause" ABSENT_SUBSCRIBER]
        else [])).

Definition group_report (x : StdMap.key * list ImsiStatus) : outcome avp :=
  items ← mapM (M := outcome) group_item x.2;
  mret (AvpGroup "Group-Monitoring-Event-Report"
    ([FDMessage.string_avp "SCEF-ID" x.1.1; AvpU32 "SCEF-Reference-ID" x.1.2] ++ items)).

(** The request before the reports are added. *)
Definition rir_base (session : nat) (host realm : string) : message :=
  [FDMessage.string_avp "Session-Id" (fd_session_id session); AvpU32 "Auth-Session-State" 1]
  ++ fd_origin
  ++ [FDMessage.string_avp "Destination-Host" host;
      FDMessage.string_avp "Destination-Realm" realm;
      AvpU32 "Result-Code" ER_DIAMETER_SUCCESS].

Abbreviation env := (Proc.env G thread).

Definition sendRIR : M env unit :=
  b ← gets (λ e, obj (p e));
  n ← gets (λ e, length (World.wire (w e)));
  reports ← lift (mapM (M := outcome) group_report (imsi_status_map b));
  on_world (World.send_request "Reporting-Information-Request"
    (rir_base n (m_destination_host b) (m_destination_realm b) ++ reports)).

Definition on_obj (f : RIRBuilder → RIRBuilder) : M env unit := set_p (λ t, t <| obj ::= f |>).

(** The last response or the CIA: the report, the end of the thread. *)
Definition complete : M env unit :=
  _ ← sendRIR;
  _ ← on_obj (λ b, b <| m_hss_insert_status := None |>);
  set_p (post ETM_QUIT).

Definition handle_mme_response (r : HandleMmeResponseEvtMsg) : M env unit :=
  _ ← on_obj (λ b, b <| m_nb_ida_proc ::= (λ n, i32 (n - 1)) |>);
  b ← gets (λ e, obj (p e));
  match m_hss_insert_status b with
  | None => undefined
  | Some hss =>
      _ ← on_obj (λ b, b <| imsi_status_map ::= add_response r hss |>);
      if (m_nb_ida_proc b =? 0) && m_ciasent b then complete else mret tt
  end.

Definition handle_cia_sent : M env unit :=
  _ ← on_obj (λ b, b <| m_ciasent := true |>);
  b ← gets (λ e, obj (p e));
  if m_nb_ida_proc b =? 0 then complete else mret tt.

(** [onInit]: a timer with a zero period is not armed. *)
Definition onInit : M env unit :=
  set_p (λ t, t <| timer := let i := m_interval (obj t) in if i =? 0 then None else Some i |>).

(** [SEventThread::dispatch] and [RIRBuilder::dispatch] of one message. *)
Definition dispatch (m : event_message) : M env unit :=
  match m with
  | ETM_INIT => onInit
  | ETM_QUIT => set_p (λ t, t <| stopped := true |>)
  | ETM_TIMER => set_p (post GUARD_TIMEOUT)
  | GUARD_TIMEOUT => sendRIR
  | HANDLE_MME_RESPONSE r => handle_mme_response r
  | HANDLE_CIA_SENT => handle_cia_sent
  end.

(** One turn of the loop; a thread that waits or has ended does nothing. *)
Definition serve : M env unit :=
  t ← gets p;
  match stopped t, m_events t with
  | false, m :: l => _ ← set_p (λ t, t <| m_events := l |>); dispatch m
  | _, _ => mret tt
  end.

(** The thread among the others: they post, it serves. *)
Inductive action := Post (m : event_message) | Serve.
Definition act (a : action) : M env unit :=
  match a with Post m => set_p (post m) | Serve => serve end.
Definition run (l : list action) : M env unit := for_each l act.

End Rir.
End Rir.

(** ** The abstract collector

    What the builder promises, without its map of vectors, its counter and its
    pointer: a mailbox, the responses in the order of arrival, and the list of
    reports, each the responses it covers. *)

Module Collector.
Import Rir EventStatus.

Record t := mk {
  inbox : list event_message; expected : nat; responses : list HandleMmeResponseEvtMsg;
  cia : bool; reports : list (list HandleMmeResponseEvtMsg); finished : bool; closed : bool }.

Definition init (n : nat) : t := mk [ETM_INIT] n [] false [] false false.

(** A report is due. *)
Definition report (c : t) : t := c <| reports ::= (λ l, l ++ [responses c]) |>.
Definition due (c : t) : bool := cia c && (length (responses c) =? expected c)%nat.
Definition finish (c : t) : t :=
  if due c then (report c) <| finished := true |> <| inbox ::= (λ l, l ++ [ETM_QUIT]) |> else c.

Definition receive (m : event_message) (c : t) : t :=
  match m with
  | ETM_INIT => c
  | ETM_QUIT => c <| closed := true |>
  | ETM_TIMER => c <| inbox ::= (λ l, l ++ [GUARD_TIMEOUT]) |>
  | GUARD_TIMEOUT => report c
  | HANDLE_MME_RESPONSE r => finish (c <| responses ::= (λ l, l ++ [r]) |>)
  | HANDLE_CIA_SENT => finish (c <| cia := true |>)
  end.

Definition step (c : t) (a : action) : t :=
  match a with
  | Post m => c <| inbox ::= (λ l, l ++ [m]) |>
  | Serve => match closed c, inbox c with
             | false, m :: l => receive m (c <| inbox := l |>)
             | _, _ => c
             end
  end.
Definition run (l : list action) (c : t) : t := foldl step c l.

(** The content of a report, event by event and then subscriber by subscriber. *)
Section Render.
Context `{FreeDiameter}.
Variables (u_msisdn : bytes).

Definition digits (s : string) : bytes := (λ c, c - 48) <$> bytes_of_string s.
Definition msisdn_octets (s : string) : bytes :=
  Tbcd.pack (digits s) ++ drop (Tbcd.packed_length (String.length s)) u_msisdn.

(** What the subscriber's MME said of a short-term event; what the database
    did with a long-term one. *)
Definition result_of (r : HandleMmeResponseEvtMsg) (x : StdMap.key * MonitoringConfEventStatus) : Z :=
  if isLongTermEvt x.2 then result x.2
  else match r_mme_response r with
       | Some m => from_option result (result x.2) (StdMap.find x.1 m)
       | None => DIAMETER_UNABLE_TO_COMPLY
       end.

Definition item (x : StdMap.key * MonitoringConfEventStatus) (r : HandleMmeResponseEvtMsg) : avp :=
  AvpGroup "Group-Monitoring-Event-Report-Item"
    ([AvpGroup "User-Identifier" [AvpOctets "MSISDN" (msisdn_octets (r_msisdn r))];
      service_report (result_of r x)]
     ++ if r_imsi_reachable r =? IMSI_NOT_ACTIVE
        then [AvpU32 "S6t-HSS-Cause" ABSENT_SUBSCRIBER] else []).

Definition group (rs : list HandleMmeResponseEvtMsg)
    (x : StdMap.key * MonitoringConfEventStatus) : avp :=
  AvpGroup "Group-Monitoring-Event-Report"
    ([FDMessage.string_avp "SCEF-ID" x.1.1; AvpU32 "SCEF-Reference-ID" x.1.2] ++ (item x <$> rs)).

(** A report that covers no response has no group. *)
Definition groups (hss : EvenStatusMap) (rs : list HandleMmeResponseEvtMsg) : message :=
  match rs with [] => [] | _ => group rs <$> hss end.

(** The requests on the wire for these reports. *)
Fixpoint requests (hss : EvenStatusMap) (host realm : string) (session : nat)
    (l : list (list HandleMmeResponseEvtMsg)) : list sent :=
  match l with
  | [] => []
  | rs :: l' =>
      SentRequest "Reporting-Information-Request" (rir_base session host realm ++ groups hss rs)
      :: requests hss host realm (S session) l'
  end.
End Render.
End Collector.

(** ** The builder keeps the collector's promise *)

Module RirFacts.
Import Rir EventStatus.

(** An MSISDN the buffer has room for. *)
Definition decimal (s : string) : Prop :=
  Forall (λ c, 48 <= c <= 57) (bytes_of_string s) ∧ (String.length s <= 10)%nat.

Definition response_of (m : event_message) : list HandleMmeResponseEvtMsg :=
  match m with HANDLE_MME_RESPONSE r => [r] | _ => [] end.
Definition posted (a : action) : list HandleMmeResponseEvtMsg :=
  match a with Post m => response_of m | Serve => [] end.
(** The responses posted, in order. *)
Definition posts (l : list action) : list HandleMmeResponseEvtMsg := flat_map posted l.

Lemma tbcd_char_digit c : 48 <= c <= 57 → Tbcd.tbcd_char (c - 48) = c.
Proof.
  intros Hc. assert (Forall (λ c, Tbcd.tbcd_char (c - 48) = c) (seqZ 48 10)) as Hall
    by (apply (bool_decide_unpack _); vm_compute; exact I).
  rewrite Forall_forall in Hall. apply Hall, elem_of_seqZ. lia.
Qed.

(** The map of vectors that stands for the responses collected. *)
Definition statuses (hss : EvenStatusMap) (rs : list HandleMmeResponseEvtMsg) : EventImsiStatus :=
  match rs with
  | [] => []
  | _ => (λ x, (x.1, (λ r, imsi_status r x.1 x.2) <$> rs)) <$> hss
  end.

Lemma find_app_None {V} k (m m' : list (StdMap.key * V)) :
  StdMap.find k m = None → StdMap.find k (m ++ m') = StdMap.find k m'.
Proof. induction m as [|[k' v] m IH]; cbn; [done|]. by destruct (decide _). Qed.

Lemma alter_app_None {V} f k (m m' : list (StdMap.key * V)) :
  StdMap.find k m = None → StdMap.alter f k (m ++ m') = m ++ StdMap.alter f k m'.
Proof.
  induction m as [|[k' v] m IH]; cbn; [done|]. destruct (decide _); [done|].
  intros. by rewrite IH.
Qed.

Lemma insert_last {V} k (v : V) m :
  Forall (λ x, StdMap.compare x.1 k = Lt) m → StdMap.insert k v m = m ++ [(k, v)].
Proof.
  induction 1 as [|[k' v'] m Hlt _ IH]; [done|]. cbn in *.
  destruct (StdMap.compare k k') eqn:E.
  - apply StdMap.compare_eq in E as ->. by rewrite StdMap.compare_refl in Hlt.
  - pose proof (StdMap.compare_trans _ _ _ E Hlt) as Hc. by rewrite StdMap.compare_refl in Hc.
  - by rewrite IH.
Qed.

Lemma find_None_keys {V} k (m : list (StdMap.key * V)) : k ∉ m.*1 → StdMap.find k m = None.
Proof.
  induction m as [|[k' v] m IH]; [done|]. cbn. intros Hk.
  rewrite decide_False by set_solver. apply IH. set_solver.
Qed.

(** The keys before a point of a sorted map are below its key. *)
Lemma sorted_middle {V} (m1 : list (StdMap.key * V)) k v m2 :
  StdMap.sorted (m1 ++ (k, v) :: m2) → Forall (λ x, StdMap.compare x.1 k = Lt) m1.
Proof.
  unfold StdMap.sorted. intros Hs. apply Forall_forall. intros x Hx.
  induction m1 as [|y m1 IH]; [by apply elem_of_nil in Hx|]. cbn in Hs. inversion Hs; subst.
  apply elem_of_cons in Hx as [->|Hx]; [|by apply IH].
  rewrite Forall_forall in H2. apply (H2 (k, v)). apply elem_of_app. right. left.
Qed.

Lemma below_not_key {V} k (m : list (StdMap.key * V)) :
  Forall (λ x, StdMap.compare x.1 k = Lt) m → k ∉ m.*1.
Proof.
  intros Hall (x & -> & Hx)%list_elem_of_fmap. rewrite Forall_forall in Hall.
  specialize (Hall x Hx). by rewrite StdMap.compare_refl in Hall.
Qed.

Definition row (rs : list HandleMmeResponseEvtMsg) (x : StdMap.key * MonitoringConfEventStatus) :=
  (x.1, (λ r, imsi_status r x.1 x.2) <$> rs).

Lemma row_keys rs hss : (row rs <$> hss).*1 = hss.*1.
Proof. induction hss as [|x hss IH]; [done|]. cbn. by rewrite IH. Qed.

(** The loop over a part of the map, [rs] being the responses before [r]. *)
Lemma add_response_rows r rs hss1 hss2 :
  StdMap.sorted (hss1 ++ hss2) →
  foldl (λ m '(k, s), add_status k (imsi_status r k s) m)
    ((row (rs ++ [r]) <$> hss1) ++ match rs with [] => [] | _ => row rs <$> hss2 end) hss2
  = row (rs ++ [r]) <$> hss1 ++ hss2.
Proof.
  revert hss1. induction hss2 as [|[k s] hss2 IH]; intros hss1 Hs.
  { cbn. rewrite app_nil_r. destruct rs; cbn; by rewrite app_nil_r. }
  pose proof (sorted_middle _ _ _ _ Hs) as Hbelow.
  assert (k ∉ (row (rs ++ [r]) <$> hss1).*1) as Hk by (rewrite row_keys; by apply below_not_key).
  replace (hss1 ++ (k, s) :: hss2) with ((hss1 ++ [(k, s)]) ++ hss2) in * by (by rewrite <- app_assoc).
  rewrite <- (IH (hss1 ++ [(k, s)])) by done. cbn [foldl]. f_equal.
  rewrite fmap_app, <- app_assoc. unfold add_status.
  rewrite find_app_None by (by apply find_None_keys). destruct rs as [|r0 rs].
  - cbn. rewrite app_nil_r. rewrite insert_last; [done|]. apply Forall_fmap. exact Hbelow.
  - cbn [fmap list_fmap]. cbn [StdMap.find row fst]. rewrite decide_True by done.
    rewrite alter_app_None by (by apply find_None_keys). f_equal. cbn [StdMap.alter].
    unfold row. cbn [fst snd]. rewrite decide_True by done. by rewrite fmap_app.
Qed.

Lemma add_response_statuses r rs hss :
  StdMap.sorted hss → add_response r hss (statuses hss rs) = statuses hss (rs ++ [r]).
Proof.
  intros Hs. unfold add_response.
  assert (statuses hss (rs ++ [r]) = row (rs ++ [r]) <$> hss) as -> by (by destruct rs).
  pose proof (add_response_rows r rs [] hss Hs) as E. cbn in E. rewrite <- E. by destruct rs.
Qed.

Lemma decimal_digits s : decimal s →
  bytes_of_string (upto_nul s) = Tbcd.tbcd_char <$> Collector.digits s
  ∧ Forall Tbcd.is_digit (Collector.digits s)
  ∧ (Tbcd.packed_length (length (Collector.digits s)) <= 5)%nat
  ∧ length (Collector.digits s) = String.length s.
Proof.
  intros [Hd Hlen]. unfold Collector.digits. rewrite length_fmap, bytes_of_string_length.
  split_and!; [| |unfold Tbcd.packed_length; change 5%nat with (11 / 2)%nat; apply Nat.Div0.div_le_mono; lia|done].
  - rewrite <- (string_of_bytes_of_string s) at 1.
    rewrite FdJsonFacts.upto_nul_text, string_of_bytes_of_string.
    2:{ eapply Forall_impl; [exact Hd|]. intros c Hc. unfold is_byte. cbn in *. lia. }
    rewrite <- list_fmap_compose. rewrite <- (list_fmap_id (bytes_of_string s)) at 1.
    apply list_fmap_ext. intros i c Hc. apply (Forall_lookup_1 _ _ _ _ Hd) in Hc.
    symmetry. by apply tbcd_char_digit.
  - apply Forall_fmap. eapply Forall_impl; [exact Hd|]. intros c Hc. unfold Tbcd.is_digit, compose. cbn beta in *. lia.
Qed.

Lemma Forall_take {A} (P : A → Prop) a b x c :
  Forall P (a ++ b ++ x :: c) → Forall P ((a ++ [x]) ++ b ++ c).
Proof. rewrite !Forall_app, !Forall_cons. pose proof (Forall_nil_2 P). tauto. Qed.
Lemma Forall_serve {A} (P : A → Prop) a b c d :
  Forall P (a ++ (b ++ c) ++ d) → Forall P (a ++ c ++ b ++ d).
Proof. rewrite !Forall_app. tauto. Qed.

Section Refinement.
Context `{Cassandra} `{FreeDiameter} {G : Type}.
Variables (u_msisdn : bytes) (hss : EvenStatusMap) (host realm : string) (n : nat).
Variables (wd : World.world Z G).
Hypotheses (Hsend : ∀ m, fd_msg_send m = 0) (Hu : length u_msisdn = 5%nat)
  (Hsorted : StdMap.sorted hss) (Hn : Z.of_nat n < 2 ^ 31).

Lemma mapM_fmap_Ok {A B C} (f : B → outcome C) (h : A → B) (g : A → C) l :
  Forall (λ x, f (h x) = Ok (g x)) l → mapM (M := outcome) f (h <$> l) = Ok (g <$> l).
Proof using Type. induction 1 as [|x l Hx _ IH]; [done|]. cbn. by rewrite Hx, IH. Qed.

Lemma result_mixed r k s : result (mixed_cfg r k s) = Collector.result_of r (k, s).
Proof using Type.
  unfold mixed_cfg, Collector.result_of. cbn. destruct (isLongTermEvt s); [done|].
  destruct (r_mme_response r); [|done]. by destruct (StdMap.find k _).
Qed.

Lemma group_item_Ok r k s : decimal (r_msisdn r) →
  group_item u_msisdn (imsi_status r k s) = Ok (Collector.item u_msisdn (k, s) r).
Proof using Hu n.
  intros Hd. destruct (decimal_digits _ Hd) as (Hb & Hdig & Hlen & Hl).
  unfold group_item, imsi_status. cbn [m_msisdn m_status m_reachability]. rewrite Hb.
  rewrite Tbcd.str2tbcd_pack by (try done; lia). cbn [mbind outcome_bind mret outcome_ret].
  rewrite take_ge.
  2:{ rewrite length_app, length_drop, Tbcd.pack_length. lia. }
  unfold Collector.item, Collector.msisdn_octets. by rewrite result_mixed, Hl.
Qed.

Lemma reports_Ok rs : Forall (λ r, decimal (r_msisdn r)) rs →
  mapM (M := outcome) (group_report u_msisdn) (statuses hss rs)
  = Ok (Collector.groups u_msisdn hss rs).
Proof using Hu n.
  intros Hrs. unfold statuses, Collector.groups. destruct rs as [|r rs]; [done|].
  set (l := r :: rs) in *. clearbody l.
  apply mapM_fmap_Ok, Forall_forall. intros [k s] _. unfold group_report. cbn [fst snd].
  rewrite (mapM_fmap_Ok _ _ (Collector.item u_msisdn (k, s))); [done|].
  eapply Forall_impl; [exact Hrs|]. intros x. apply group_item_Ok.
Qed.

(** The relation between the collector and the thread; [pending] responses have
    been posted or will be, and are not yet served. *)
Record simulates (pending : list HandleMmeResponseEvtMsg) (c : Collector.t) (e : Proc.env G thread)
    : Prop := {
  sim_events : m_events (p e) = Collector.inbox c;
  sim_stopped : stopped (p e) = Collector.closed c;
  sim_host : m_destination_host (obj (p e)) = host;
  sim_realm : m_destination_realm (obj (p e)) = realm;
  sim_count : m_nb_ida_proc (obj (p e)) = Z.of_nat n - Z.of_nat (length (Collector.responses c));
  sim_status : m_hss_insert_status (obj (p e)) = if Collector.finished c then None else Some hss;
  sim_map : imsi_status_map (obj (p e)) = statuses hss (Collector.responses c);
  sim_cia : m_ciasent (obj (p e)) = Collector.cia c;
  sim_expected : Collector.expected c = n;
  sim_wire : World.wire (w e) = World.wire wd
    ++ Collector.requests u_msisdn hss host realm (length (World.wire wd)) (Collector.reports c);
  sim_finished : Collector.finished c = true → length (Collector.responses c) = n;
  sim_room : (length (Collector.responses c)
              + length (flat_map response_of (Collector.inbox c)) + length pending <= n)%nat;
  sim_decimal : Forall (λ r, decimal (r_msisdn r))
    (Collector.responses c ++ flat_map response_of (Collector.inbox c) ++ pending) }.

Lemma requests_app s l l' :
  Collector.requests u_msisdn hss host realm s (l ++ l')
  = Collector.requests u_msisdn hss host realm s l
    ++ Collector.requests u_msisdn hss host realm (s + length l) l'.
Proof using n Hu.
  revert s. induction l as [|rs l IH]; intros s; cbn; [by rewrite Nat.add_0_r|].
  rewrite IH. do 3 f_equal. lia.
Qed.
Lemma requests_length s l : length (Collector.requests u_msisdn hss host realm s l) = length l.
Proof using n Hu. revert s. induction l as [|rs l IH]; intros s; cbn; [done|]. by rewrite IH. Qed.

Lemma sendRIR_simulates pending c e : simulates pending c e →
  ∃ e', sendRIR u_msisdn e = (Ok tt, e') ∧ p e' = p e ∧ simulates pending (Collector.report c) e'.
Proof using Hsend Hu n.
  intros [He Hst Hh Hr Hc Hs Hm Hcia Hex Hw Hf Hroom Hd].
  unfold sendRIR, gets, mbind, M_bind, lift, on_world, World.send_request, FDMessage.send, zoom.
  rewrite Hm, reports_Ok by (by apply Forall_app in Hd as []).
  unfold modify, mbind, M_bind. rewrite Hsend. cbn.
  eexists; split; [reflexivity|]. split; [done|]. constructor; cbn; try done.
  rewrite Hw, Hh, Hr, requests_app, <- app_assoc. cbn. by rewrite length_app, requests_length.
Qed.

Lemma complete_simulates pending c e : simulates pending c e →
  length (Collector.responses c) = n →
  ∃ e', complete u_msisdn e = (Ok tt, e') ∧ simulates pending
    ((Collector.report c) <| Collector.finished := true |>
                          <| Collector.inbox ::= (λ l, l ++ [ETM_QUIT]) |>) e'.
Proof using Hsend Hu n.
  intros Hsim Hlen. destruct (sendRIR_simulates _ _ _ Hsim) as (e1 & E1 & Hp & Hsim1).
  unfold complete, on_obj, set_p. rewrite (bind_Ok _ _ _ _ _ E1).
  unfold mbind, M_bind, modify. eexists; split; [reflexivity|].
  destruct Hsim1 as [He Hst Hh Hr Hc Hs Hm Hcia Hex Hw Hf Hroom Hd].
  constructor; cbn in *; try done; try (by rewrite He); rewrite ?flat_map_app; cbn;
    by rewrite ?app_nil_r, ?Nat.add_0_r.
Qed.

Lemma finish_simulates pending c e : simulates pending c e →
  ∃ e', (if (m_nb_ida_proc (obj (p e)) =? 0) && m_ciasent (obj (p e))
         then complete u_msisdn else mret tt) e = (Ok tt, e')
        ∧ simulates pending (Collector.finish c) e'.
Proof using Hsend Hu n.
  intros Hsim. unfold Collector.finish, Collector.due.
  rewrite (sim_count _ _ _ Hsim), (sim_cia _ _ _ Hsim), (sim_expected _ _ _ Hsim), andb_comm.
  assert ((Z.of_nat n - Z.of_nat (length (Collector.responses c)) =? 0)
          = (length (Collector.responses c) =? n)%nat) as ->.
  { destruct (Nat.eqb_spec (length (Collector.responses c)) n); [apply Z.eqb_eq|apply Z.eqb_neq]; lia. }
  destruct (Collector.cia c); cbn [andb]; [|eauto].
  destruct (Nat.eqb_spec (length (Collector.responses c)) n); [|eauto].
  by apply complete_simulates.
Qed.

(** The messages still to come once one has been taken out of the mailbox. *)
Lemma receive_simulates m pending c e :
  simulates (response_of m ++ pending) c e → Collector.closed c = false →
  ∃ e', dispatch u_msisdn m e = (Ok tt, e') ∧ simulates pending (Collector.receive m c) e'.
Proof using Hsend Hu n Hsorted Hn.
  intros Hsim Hopen. destruct m; cbn [response_of app dispatch Collector.receive] in *.
  - eexists; split; [reflexivity|]. destruct Hsim. by constructor.
  - eexists; split; [reflexivity|]. destruct Hsim. by constructor.
  - eexists; split; [reflexivity|]. destruct Hsim as [He ? ? ? ? ? ? ? ? ? ? Hroom Hd].
    constructor; cbn in *; try done; try (by rewrite He); rewrite ?flat_map_app; cbn;
      by rewrite ?app_nil_r, ?Nat.add_0_r.
  - destruct (sendRIR_simulates _ _ _ Hsim) as (e' & E & _ & Hsim'). eauto.
  - unfold handle_mme_response, on_obj, set_p.
    pose proof (sim_finished _ _ _ Hsim) as Hfin. pose proof (sim_room _ _ _ Hsim) as Hroom.
    cbn in Hroom. assert (Collector.finished c = false) as Hopen'.
    { destruct (Collector.finished c); [|done]. specialize (Hfin eq_refl). lia. }
    erewrite bind_Ok by reflexivity. erewrite bind_Ok by reflexivity. cbn [p].
    destruct Hsim as [He Hst Hh Hr Hc Hs Hm Hcia Hex Hw Hf _ Hd]. rewrite Hopen' in Hs.
    cbn. rewrite Hs. erewrite bind_Ok by reflexivity.
    match goal with |- ∃ e', _ ?e1 = _ ∧ _ => apply (finish_simulates pending _ e1) end.
    constructor; cbn; try done.
    + rewrite Hc, length_app. cbn. unfold i32. rewrite Z.mod_small by lia. lia.
    + by rewrite Hs, Hopen'.
    + rewrite Hm. by apply add_response_statuses.
    + by rewrite Hopen'.
    + rewrite length_app. cbn. lia.
    + by apply Forall_take.
  - unfold handle_cia_sent, on_obj, set_p. erewrite bind_Ok by reflexivity.
    erewrite bind_Ok by reflexivity. cbn [p].
    match goal with |- ∃ e', (if ?b then _ else _) ?e1 = _ ∧ _ =>
      destruct (finish_simulates pending (c <| Collector.cia := true |>) e1) as (e' & E & Hsim');
        [|exists e'; split; [|exact Hsim']; cbn in E; by rewrite andb_true_r in E] end.
    destruct Hsim. by constructor.
Qed.

(** One action of the system. *)
Lemma act_simulates a pending c e :
  simulates (posted a ++ pending) c e →
  ∃ e', act u_msisdn a e = (Ok tt, e') ∧ simulates pending (Collector.step c a) e'.
Proof using Hsend Hu n Hsorted Hn.
  intros Hsim. destruct a as [m|]; cbn [posted app act Collector.step] in *.
  - eexists; split; [reflexivity|]. destruct Hsim as [He ? ? ? ? ? ? ? ? ? ? Hroom Hd].
    constructor; cbn in *; try done; [by rewrite He| |]; rewrite flat_map_app; cbn;
      rewrite app_nil_r, ?length_app in *; [lia|]. by rewrite <- app_assoc.
  - unfold serve, gets, set_p. erewrite bind_Ok by reflexivity.
    pose proof (sim_events _ _ _ Hsim) as He. pose proof (sim_stopped _ _ _ Hsim) as Hst.
    rewrite He, Hst. destruct (Collector.closed c) eqn:Hopen; [by eexists; split; [reflexivity|]|].
    destruct (Collector.inbox c) as [|m l] eqn:Hin; [by eexists; split; [reflexivity|]|].
    erewrite bind_Ok by reflexivity. apply receive_simulates; [|done].
    destruct Hsim as [_ ? ? ? ? ? ? ? ? ? ? Hroom Hd]. rewrite Hin in *.
    constructor; cbn in *; try done; rewrite ?length_app in *; [lia|].
    by apply Forall_serve.
Qed.

Lemma run_simulates l pending c e :
  simulates (posts l ++ pending) c e →
  ∃ e', run u_msisdn l e = (Ok tt, e') ∧ simulates pending (Collector.run l c) e'.
Proof using Hsend Hu n Hsorted Hn.
  revert c e. induction l as [|a l IH]; intros c e Hsim; [by eexists; split; [reflexivity|]|].
  cbn [posts flat_map] in Hsim. rewrite <- app_assoc in Hsim.
  destruct (act_simulates _ _ _ _ Hsim) as (e1 & E1 & Hsim1).
  destruct (IH _ _ Hsim1) as (e2 & E2 & Hsim2). exists e2. split; [|exact Hsim2].
  unfold run. cbn [for_each]. by rewrite (bind_Ok _ _ _ _ _ E1).
Qed.

(** The thread as [processMultiImsi] starts it. *)
Definition started (interval : Z) : Proc.env G thread :=
  mk_env wd (start ((Rir.new n hss host realm) <| m_interval := interval |>)).

Lemma started_simulates interval pending :
  (length pending <= n)%nat → Forall (λ r, decimal (r_msisdn r)) pending →
  simulates pending (Collector.init n) (started interval).
Proof using Hn Hu.
  intros Hlen Hd. constructor; cbn; try done; try by rewrite ?app_nil_r.
  unfold i32. rewrite Z.mod_small by lia. lia.
Qed.


End Refinement.

(** *** The collector reports once *)

(** Nothing from outside ends the thread or asks for a report. *)
Definition quiet (a : action) : Prop :=
  match a with Post (ETM_QUIT | ETM_TIMER | GUARD_TIMEOUT) => False | _ => True end.

Definition calm (m : event_message) : Prop :=
  match m with ETM_TIMER | GUARD_TIMEOUT => False | _ => True end.

Definition cia_of (m : event_message) : nat := match m with HANDLE_CIA_SENT => 1 | _ => 0 end.
Definition posted_cia (a : action) : nat := match a with Post m => cia_of m | Serve => 0 end.
Definition cias (l : list event_message) : nat := sum_list_with cia_of l.
Definition posted_cias (l : list action) : nat := sum_list_with posted_cia l.

(** Before the last response and the CIA, nothing is reported and the mailbox
    holds no timeout; after them everything is, once, and the end is under way. *)
Record progress (rs : list HandleMmeResponseEvtMsg) (rest : list action) (c : Collector.t) : Prop := {
  pr_all : Collector.responses c ++ flat_map response_of (Collector.inbox c) ++ posts rest = rs;
  pr_cia : ((if Collector.cia c then 1 else 0) + cias (Collector.inbox c) + posted_cias rest = 1)%nat;
  pr_expected : Collector.expected c = length rs;
  pr_calm : Forall calm (Collector.inbox c);
  pr_state :
    if Collector.finished c then
      Collector.reports c = [rs] ∧ Collector.responses c = rs ∧ Collector.cia c = true ∧
      (Collector.closed c = true ∨ ETM_QUIT ∈ Collector.inbox c)
    else
      Collector.reports c = [] ∧ Collector.closed c = false ∧ Collector.due c = false ∧
      ETM_QUIT ∉ Collector.inbox c }.

Lemma init_progress l :
  posted_cias l = 1%nat → progress (posts l) l (Collector.init (length (posts l))).
Proof. intros Hc. constructor; cbn; try done; [by repeat constructor|]. split_and!; try done. set_solver. Qed.

Lemma cias_app l l' : cias (l ++ l') = (cias l + cias l')%nat.
Proof. apply sum_list_with_app. Qed.

(** The collection is complete when a report is due. *)
Lemma finish_progress rs rest c :
  Collector.responses c ++ flat_map response_of (Collector.inbox c) ++ posts rest = rs →
  ((if Collector.cia c then 1 else 0) + cias (Collector.inbox c) + posted_cias rest = 1)%nat →
  Collector.expected c = length rs → Collector.finished c = false →
  Collector.reports c = [] → Collector.closed c = false →
  Forall calm (Collector.inbox c) → ETM_QUIT ∉ Collector.inbox c →
  progress rs rest (Collector.finish c).
Proof.
  intros Hall Hcia Hexp Hfin Hrep Hcl Hcalm Hq. unfold Collector.finish.
  destruct (Collector.due c) eqn:Hdue.
  - unfold Collector.due in Hdue. apply andb_true_iff in Hdue as [Hc Hlen%Nat.eqb_eq].
    assert (Collector.responses c = rs) as Hrs.
    { pose proof (f_equal length Hall) as E. rewrite length_app in E.
      destruct (flat_map response_of (Collector.inbox c) ++ posts rest); [by rewrite app_nil_r in Hall|].
      cbn in E. lia. }
    constructor; cbn; try done.
    + rewrite flat_map_app, <- app_assoc. exact Hall.
    + rewrite cias_app. cbn. lia.
    + apply Forall_app. by repeat constructor.
    + split_and!; [by rewrite Hrep, Hrs|done|done|]. right. apply elem_of_app. right. left.
  - constructor; try done. rewrite Hfin. by split_and!.
Qed.

Lemma receive_progress rs rest m l c :
  progress rs rest c → Collector.inbox c = m :: l → Collector.closed c = false →
  progress rs rest (Collector.receive m (c <| Collector.inbox := l |>)).
Proof.
  intros [Hall Hcia Hexp Hcalm Hst] Hin Hopen. rewrite Hin in *.
  apply Forall_cons in Hcalm as [Hm1 Hcalm]. cbn in Hall, Hcia. destruct (Collector.finished c) eqn:Hfin.
  - destruct Hst as (Hrep & Hrs & Hc & Hq). rewrite Hc in Hcia.
    destruct Hq as [Hq|Hq]; [by rewrite Hq in Hopen|].
    assert (response_of m = []) as Hm.
    { pose proof (f_equal length Hall) as E. rewrite Hrs, !length_app in E.
      destruct (response_of m); [done|]. cbn in E. lia. }
    rewrite Hm in Hall. destruct m; cbn in *; try done; try lia.
    + constructor; cbn; try done; [by rewrite Hc|]. rewrite Hfin. split_and!; try done.
      right. by apply elem_of_cons in Hq as [|].
    + constructor; cbn; try done; [by rewrite Hc|]. rewrite Hfin. split_and!; try done. by left.
  - destruct Hst as (Hrep & Hc & Hdue & Hq). apply not_elem_of_cons in Hq as [Hqm Hql].
    destruct m; cbn in *; try done.
    + constructor; cbn; try done. rewrite Hfin. by split_and!.
    + apply finish_progress; cbn; try done. by rewrite <- app_assoc.
    + apply finish_progress; cbn; try done.
      destruct (Collector.cia c); unfold cias in *; lia.
Qed.

Lemma step_progress rs rest a c :
  quiet a → progress rs (a :: rest) c → progress rs rest (Collector.step c a).
Proof.
  intros Hq Hp. destruct a as [m|].
  - destruct Hp as [Hall Hcia Hexp Hcalm Hst]. cbn in *. constructor; cbn; try done.
    + rewrite flat_map_app, <- app_assoc. cbn. by rewrite app_nil_r.
    + rewrite cias_app. cbn. unfold posted_cias in *. lia.
    + apply Forall_app. split; [done|]. constructor; [by destruct m|constructor].
    + destruct (Collector.finished c).
      * destruct Hst as (? & ? & ? & [?|?]); split_and!; try done; [by left|].
        right. apply elem_of_app. by left.
      * destruct Hst as (? & ? & ? & ?). split_and!; try done.
        rewrite elem_of_app, list_elem_of_singleton. intros [?|<-]; [done|by apply Hq].
  - cbn [Collector.step]. assert (progress rs rest c) as Hp' by (by destruct Hp).
    destruct (Collector.closed c) eqn:Hc; [done|].
    destruct (Collector.inbox c) as [|m l] eqn:Hin; [done|]. by apply receive_progress.
Qed.

Lemma run_progress rs l c :
  Forall quiet l → progress rs l c → progress rs [] (Collector.run l c).
Proof.
  revert c. induction l as [|a l IH]; intros c Hq Hp; [done|].
  inversion Hq; subst. apply IH; [done|]. by apply step_progress.
Qed.

(** A mailbox with nothing left to serve: everything was reported. *)
Lemma settled_reported rs c :
  progress rs [] c → Collector.inbox c = [] ∨ Collector.closed c = true →
  Collector.reports c = [rs] ∧ Collector.closed c = true.
Proof.
  intros [Hall Hcia Hexp _ Hst] Hset. destruct (Collector.finished c).
  - destruct Hst as (? & _ & _ & Hend). destruct Hset as [Hset|?]; [|done].
    rewrite Hset in Hend. destruct Hend as [?|Hend]; [done|by apply elem_of_nil in Hend].
  - destruct Hst as (_ & Hc & Hdue & _). destruct Hset as [Hset|Hset]; [|by rewrite Hc in Hset].
    rewrite Hset in *. cbn in *. rewrite app_nil_r in Hall. unfold Collector.due in Hdue.
    rewrite Hall, Hexp, Nat.eqb_refl in Hdue. destruct (Collector.cia c); cbn in *; [done|lia].
Qed.

(** Served often enough, the thread has nothing left to do. *)
Definition work (c : Collector.t) : nat :=
  length (Collector.inbox c) + (if Collector.finished c then 0 else 1).

Lemma finish_work c : Collector.finished c = false → (work (Collector.finish c) <= work c)%nat.
Proof.
  intros Hf. unfold Collector.finish. destruct (Collector.due c); [|done].
  unfold work. cbn. rewrite Hf, length_app. cbn. lia.
Qed.

Lemma serve_work rs c : progress rs [] c → Collector.closed c = false → Collector.inbox c ≠ [] →
  (work (Collector.step c Serve) < work c)%nat ∨ Collector.closed (Collector.step c Serve) = true.
Proof.
  intros Hp Hc Hin. cbn. rewrite Hc. destruct (Collector.inbox c) as [|m l] eqn:E; [done|].
  pose proof (pr_calm _ _ _ Hp) as Hcalm. rewrite E in Hcalm. apply Forall_cons in Hcalm as [Hm _].
  assert (work (c <| Collector.inbox := l |>) < work c)%nat as Hlt by (unfold work; cbn; rewrite E; cbn; lia).
  destruct m; cbn in Hm; try done; cbn [Collector.receive]; [by left|by right| |].
  all: destruct (Collector.finished c) eqn:Hf.
  all: try (left; eapply Nat.le_lt_trans; [by apply finish_work|exact Hlt]).
  all: pose proof (pr_state _ _ _ Hp) as Hst; rewrite Hf in Hst; destruct Hst as (_ & Hrs & Hcia & _).
  - pose proof (f_equal length (pr_all _ _ _ Hp)) as Hall. rewrite E, Hrs, length_app in Hall. cbn in Hall. lia.
  - pose proof (pr_cia _ _ _ Hp) as Hall. rewrite E, Hcia in Hall. cbn in Hall. lia.
Qed.

Lemma serves_settle rs k c : progress rs [] c → (work c <= k)%nat →
  let c' := Collector.run (replicate k Serve) c in Collector.inbox c' = [] ∨ Collector.closed c' = true.
Proof.
  revert c. induction k as [|k IH]; intros c Hp Hk.
  { left. unfold work in Hk. cbn. destruct (Collector.inbox c); [done|]. cbn in Hk. lia. }
  change (Collector.inbox (Collector.run (replicate k Serve) (Collector.step c Serve)) = []
    ∨ Collector.closed (Collector.run (replicate k Serve) (Collector.step c Serve)) = true).
  assert (∀ c, Collector.closed c = true ∨ Collector.inbox c = [] →
    Collector.run (replicate k Serve) c = c) as Hidle.
  { clear. intros c Hc. induction k as [|k IH]; [done|].
    change (Collector.run (replicate k Serve) (Collector.step c Serve) = c).
    assert (Collector.step c Serve = c) as ->; [|done]. cbn.
    destruct Hc as [-> | ->]; [done|]. by destruct (Collector.closed c). }
  destruct (Collector.closed c) eqn:Hc.
  { assert (Collector.step c Serve = c) as -> by (cbn; by rewrite Hc). rewrite Hidle; auto. }
  destruct (decide (Collector.inbox c = [])) as [Hin|Hin].
  { assert (Collector.step c Serve = c) as -> by (cbn; by rewrite Hc, Hin). rewrite Hidle; auto. }
  assert (progress rs [Serve] c) as HpS by (by destruct Hp).
  pose proof (step_progress rs [] Serve c I HpS) as Hp1.
  destruct (serve_work rs c Hp Hc Hin) as [Hlt|Hcl]; [apply IH; [done|lia]|].
  rewrite Hidle; auto.
Qed.

Lemma posts_serves k : posts (replicate k Serve) = [].
Proof. by induction k. Qed.
Lemma posted_cias_serves k : posted_cias (replicate k Serve) = 0%nat.
Proof. by induction k. Qed.

(** A thread to which everything was posted before its first turn. *)
Lemma filled_reported `{Cassandra} `{FreeDiameter} {G} u_msisdn hss host realm interval
    (wd : World.world Z G) rs :
  (∀ m, fd_msg_send m = 0) → length u_msisdn = 5%nat → StdMap.sorted hss →
  Z.of_nat (length rs) < 2 ^ 31 → Forall (λ r, decimal (r_msisdn r)) rs →
  ∃ e, run u_msisdn (replicate (length rs + 3) Serve)
    (mk_env wd (mk_thread ((Rir.new (length rs) hss host realm) <| m_interval := interval |>)
       (ETM_INIT :: (HANDLE_MME_RESPONSE <$> rs) ++ [HANDLE_CIA_SENT]) None false)) = (Ok tt, e)
    ∧ stopped (p e) = true ∧ World.wire (w e) = World.wire wd ++
    [SentRequest "Reporting-Information-Request"
       (rir_base (length (World.wire wd)) host realm ++ Collector.groups u_msisdn hss rs)].
Proof.
  intros Hsend Hu Hs Hn Hd.
  set (c := Collector.mk (ETM_INIT :: (HANDLE_MME_RESPONSE <$> rs) ++ [HANDLE_CIA_SENT])
              (length rs) [] false [] false false).
  assert (flat_map response_of ((HANDLE_MME_RESPONSE <$> rs) ++ [HANDLE_CIA_SENT]) = rs) as Hflat.
  { rewrite flat_map_app. cbn. rewrite app_nil_r. clear. induction rs as [|r rs IH]; [done|]. cbn. by f_equal. }
  assert (cias ((HANDLE_MME_RESPONSE <$> rs) ++ [HANDLE_CIA_SENT]) = 1%nat) as Hcias.
  { rewrite cias_app. cbn. clear. induction rs as [|r rs IH]; [done|]. exact IH. }
  assert (progress rs [] c) as Hp.
  { constructor; cbn -[flat_map]; try done.
    - cbn [flat_map response_of app]. rewrite Hflat. by rewrite app_nil_r.
    - change (cias ((HANDLE_MME_RESPONSE <$> rs) ++ [HANDLE_CIA_SENT]) + 0 = 1)%nat. lia.
    - constructor; [done|]. apply Forall_app. split; [by apply Forall_fmap, Forall_true|by repeat constructor].
    - split_and!; [done..|]. rewrite elem_of_cons, elem_of_app, list_elem_of_singleton.
      intros [?|[(r & ? & _)%list_elem_of_fmap|?]]; done. }
  destruct (run_simulates u_msisdn hss host realm (length rs) wd Hsend Hu Hs Hn
    (replicate (length rs + 3) Serve) [] c
    (mk_env wd (mk_thread ((Rir.new (length rs) hss host realm) <| m_interval := interval |>)
       (ETM_INIT :: (HANDLE_MME_RESPONSE <$> rs) ++ [HANDLE_CIA_SENT]) None false))) as (e & E & Hsim).
  { rewrite posts_serves. constructor; cbn -[flat_map]; try done; try by rewrite app_nil_r.
    - unfold i32. rewrite Z.mod_small by lia. lia.
    - cbn [flat_map response_of app]. rewrite Hflat. cbn. lia.
    - cbn [flat_map response_of app]. by rewrite Hflat, app_nil_r. }
  exists e. split; [exact E|].
  assert (Forall quiet (replicate (length rs + 3) Serve)) as Hq by (by apply Forall_replicate).
  rewrite (sim_stopped _ _ _ _ _ _ _ _ _ Hsim), (sim_wire _ _ _ _ _ _ _ _ _ Hsim).
  assert (progress rs (replicate (length rs + 3) Serve) c) as Hp'.
  { destruct Hp. constructor; rewrite ?posts_serves, ?posted_cias_serves; done. }
  assert (work c <= length rs + 3)%nat as Hwork.
  { unfold work, c. cbn [Collector.inbox Collector.finished length].
    rewrite length_app, length_fmap. cbn [length]. lia. }
  by destruct (settled_reported rs _ (run_progress _ _ _ Hq Hp') (serves_settle rs _ c Hp Hwork))
    as [-> ->].
Qed.


End RirFacts.

(** ** Two subscribers, one event of each kind *)

Module RirWitness.
Import WitnessFreeDiameter ScriptedCassandra Rir RirFacts EventStatus.

Definition u : bytes := replicate 5 0.
(** An event stored in the database and one for the MMEs. *)
Definition hss : EvenStatusMap :=
  [(("scef.epc"%string, 1), (new false) <| scef_id := "scef.epc" |> <| scef_ref_id := 1 |>
      <| max_nb_reports := 5 |> <| max_nb_reports_set := true |> <| result := 2001 |>);
   (("scef.epc"%string, 2), (new false) <| scef_id := "scef.epc" |> <| scef_ref_id := 2 |>)].
Definition mme1 : HandleMmeResponseEvtMsg :=
  mk_response (Some [(("scef.epc"%string, 2), (new false) <| result := 2001 |>)])
    "208930000000001" 0 "3361234567".
Definition mme2 : HandleMmeResponseEvtMsg :=
  mk_response None "208930000000002" IMSI_NOT_ACTIVE "3361234568".
Definition wd : World.world Z unit :=
  World.mk (DataAccess.mk_db (mk_script [] []) []) [] [] (Auc.Random.Build_state 0 tt).
Definition acts : list action :=
  [Serve; Post (HANDLE_MME_RESPONSE mme2); Serve; Post HANDLE_CIA_SENT;
   Post (HANDLE_MME_RESPONSE mme1); Serve; Serve; Serve; Serve].

Lemma sends : ∀ m, fd_msg_send m = 0.
Proof. done. Qed.
Lemma hss_sorted : StdMap.sorted hss.
Proof. repeat (apply StdMap.sorted_cons; split; [|repeat constructor]). constructor. Qed.
Lemma posts_decimal : Forall (λ r, decimal (r_msisdn r)) [mme2; mme1].
Proof. unfold decimal. apply (bool_decide_unpack _). by vm_compute. Qed.



(** A timer that expires just before the last response makes the builder send the
    complete report a second time. *)
Lemma report_sent_twice :
  let '(o, e) := run u
    [Serve; Post HANDLE_CIA_SENT; Serve; Post (HANDLE_MME_RESPONSE mme2); Post ETM_TIMER;
     Post (HANDLE_MME_RESPONSE mme1); Serve; Serve; Serve; Serve; Serve]
    (started hss "scef.epc" "epc" 2 wd 0) in
  o = Ok tt ∧ stopped (p e) = true ∧
  World.wire (w e) =
    [SentRequest "Reporting-Information-Request"
       (rir_base 0 "scef.epc" "epc" ++ Collector.groups u hss [mme2; mme1]);
     SentRequest "Reporting-Information-Request"
       (rir_base 1 "scef.epc" "epc" ++ Collector.groups u hss [mme2; mme1])].
Proof. by vm_compute. Qed.

End RirWitness.
