(* ===== verification/Idr.v ===== *)
(** * Insert-Subscriber-Data towards an MME

    Models [Application::sendINSDRreq], [createINSDRreq] and
    [IDRRreq::processAnswer] of src/s6as6d_impl.cpp and [FDPeer::getState] of
    util/src/fd.cpp: how the events of a Configuration-Information-Request reach
    the MME of one subscriber and what becomes of its answer. *)

From S2P Require Import Prelude Calendar Codec Diameter FdJson.
From S2P Require Import DataAccess World Proc Schemas Monitoring Rir.
#[local] Open Scope Z_scope.

(** ** Peers *)

(** The states of libfdcore's [enum peer_state]. *)
Inductive peer_state :=
  | STATE_NEW | STATE_OPEN | STATE_CLOSED | STATE_CLOSING | STATE_WAITCNXACK
  | STATE_WAITCNXACK_ELEC | STATE_WAITCEA | STATE_OPEN_HANDSHAKE | STATE_SUSPECT | STATE_REOPEN
  | STATE_OPEN_NEW | STATE_CLOSING_GRACE | STATE_ZOMBIE | STATE_other.

(** [fd_peer_getbyid]'s result and [fd_peer_get_state] of what it found. *)
Class Peers := {
  fd_peer_getbyid : string → Z;
  fd_peer_get_state : string → peer_state }.

Module FDPeer.

Inductive FDPeerState :=
  | PSInvalid | PSNew | PSOpen | PSClosed | PSClosing | PSWaitCnxAck | PSWaitCnxAckElec
  | PSWaitCEA | PSOpenHandshake | PSSuspect | PSReOpen | PSOpenNew | PSClosingGrace | PSZombie.
#[global] Instance FDPeerState_eq_dec : EqDecision FDPeerState.
Proof. solve_decision. Defined.

Definition getState `{Peers} (diamid : string) : outcome FDPeerState :=
  if negb (fd_peer_getbyid diamid =? 0) then Throw FDException
  else mret (match fd_peer_get_state diamid with
             | STATE_NEW => PSNew
             | STATE_OPEN => PSOpen
             | STATE_CLOSED => PSClosed
             | STATE_CLOSING => PSClosing
             | STATE_WAITCNXACK => PSWaitCnxAck
             | STATE_WAITCNXACK_ELEC => PSWaitCnxAckElec
             | STATE_WAITCEA => PSWaitCEA
             | STATE_OPEN_HANDSHAKE => PSOpenHandshake
             | STATE_SUSPECT => PSSuspect
             | STATE_REOPEN => PSReOpen
             | STATE_OPEN_NEW => PSOpenNew
             | STATE_CLOSING_GRACE => PSClosingGrace
             | STATE_ZOMBIE => PSZombie
             | STATE_other => PSInvalid
             end).

End FDPeer.

Module Idr.
Import FDExtractor EventStatus.

(** A request sent: the CIR it belongs to is the one of the state. *)
Record IDRRreq := mk_idr {
  evt_map : EvenStatusMap; m_rirbuilder : bool; i_imsi : string; i_msisdn : string }.

Section Idr.
Context `{Cassandra} `{FreeDiameter} `{Peers} {G : Type}.

Abbreviation world := (World.world Z G).

(** What surrounds one CIR: the world, the requests whose answers are awaited,
    the thread that builds its report, whether the request object is deleted. *)
Record state := mk {
  c_world : world; pending : list IDRRreq; builder : option Rir.thread; req_deleted : bool }.

(** The uninitialised [imsi_info], the [scef_ref_id] of [processAnswer] before
    it is read; what the stack copies into an answer to the CIR. *)
Record uninit := mk_uninit { u_info : DAImsiInfo.t; u_ref : Z }.
Variables (u : uninit) (answer_base : message).

Definition on_world {A} (m : M world A) : M state A :=
  zoom c_world (λ w s, s <| c_world := w |>) m.
Definition on_db {A} (m : M (DataAccess.db Z) A) : M state A := on_world (World.on_db m).

(** [rir_builder->postMessage(...)]. *)
Definition postMessage (m : Rir.event_message) : M state unit :=
  b ← gets builder;
  match b with
  | Some t => modify (λ s, s <| builder := Some (Rir.post m t) |>)
  | None => undefined
  end.

(** [createINSDRreq]: the configurations go to the Subscription-Data that the
    subscriber's JSON text gave. *)
Definition createINSDRreq (cfgs : list (list avp)) (imsi : string) (info : DAImsiInfo.t)
    (session : nat) : outcome message :=
  let s := [FDMessage.string_avp "Session-Id" (fd_session_id session);
            AvpU32 "Auth-Session-State" 1] ++ fd_origin
           ++ [FDMessage.string_avp "User-Name" imsi;
               FDMessage.string_avp "Destination-Host" (DAImsiInfo.mmehost info);
               FDMessage.string_avp "Destination-Realm" (DAImsiInfo.mmerealm info)] in
  new ← FdJson.addJson (upto_nul (DAImsiInfo.subscription_data info));
  let s := s ++ new in
  g ← group S6as6d.InsertSubscriberDataRequestExtractor s "Subscription-Data";
  _ ← match g with
      | Some c => resolve Extractors.SubscriptionDataExtractor c
      | None => mret ∅
      end;
  copies ← mapM (M := outcome)
             (λ c, FDAvp.copy (AvpGroup "Monitoring-Event-Configuration" c)) cfgs;
  match g, copies with
  | Some _, _ => mret (add_to_last_group "Subscription-Data" copies s)
  | None, [] => mret s
  | None, _ => UB
  end.

(** [sendINSDRreq]: what it returns as an [int]. *)
Definition sendINSDRreq (cfgs : list (list avp)) (imsi : string) (map : EvenStatusMap)
    (rir : bool) : M state Z :=
  '(_, info) ← on_db (DataAccess.getImsiInfo (upto_nul imsi) (u_info u) None);
  let imsi_attached := String.eqb (DAImsiInfo.ms_ps_status info) "ATTACHED" in
  ps ← lift (FDPeer.getState (upto_nul (DAImsiInfo.mmehost info)));
  let mme_reachable := bool_decide (ps = FDPeer.PSOpen) in
  if negb imsi_attached || negb mme_reachable then
    let why := if imsi_attached then MME_DOWN else IMSI_NOT_ACTIVE in
    if rir then
      _ ← postMessage (Rir.HANDLE_MME_RESPONSE
            (Rir.mk_response None imsi why (DAImsiInfo.str_msisdn info)));
      mret 1
    else mret why
  else
    n ← gets (λ s, length (World.wire (c_world s)));
    req ← lift (createINSDRreq cfgs imsi info n);
    catch
      (_ ← on_world (World.send_request "Insert-Subscriber-Data-Request" req);
       _ ← modify (λ s, s <| pending ::= (λ l,
             l ++ [mk_idr map rir imsi (DAImsiInfo.str_msisdn info)]) |>);
       mret 1)
      (λ e, if decide (e = FDException) then mret 0 else throw e).

(** *** The answer of the MME *)

Definition ida_field (ida : message) (k : avp_name) : outcome (option avp) :=
  field S6as6d.InsertSubscriberDataAnswerExtractor ida k.
Definition ida_subfield (ida : message) (k : avp_name) : outcome (option avp) :=
  subfield S6as6d.InsertSubscriberDataAnswerExtractor ida "Experimental-Result"
    S6as6d.ExperimentalResultExtractor k.

(** The result of the answer, counted; [ida_result_code] is 0 without one. *)
Definition ida_result (ida : message) : M state Z :=
  a ← lift (ida_field ida "Result-Code");
  '(has, code) ← lift (get_u32 a 0);
  if (has : bool) then
    _ ← on_world (World.registerStatResult stat_hss_idr 0 code); mret code
  else
    v ← lift (ida_subfield ida "Vendor-Id");
    '(_, vendor) ← lift (get_u32 v 0);
    c ← lift (ida_subfield ida "Experimental-Result-Code");
    '(_, code) ← lift (get_u32 c 0);
    _ ← on_world (World.registerStatResult stat_hss_idr vendor code); mret code.

(** One Monitoring-Event-Config-Status of the answer: the event, and the result
    in its first Service-Report. *)
Definition config_status (children : list avp) : outcome (StdMap.key * option Z) :=
  let e := S6as6d.MonitoringEventConfigStatusExtractor in
  a ← field e children "SCEF-ID";
  '(_, scef_id) ← get_string a "";
  a ← field e children "SCEF-Reference-ID";
  '(_, scef_ref_id) ← get_u32 a (u_ref u);
  services ← extractor_list e children "Service-Report";
  code ← match services with
         | [] => mret None
         | s :: _ =>
             a ← subfield S6as6d.ServiceReportExtractor s "Service-Result"
                   S6as6d.ServiceResultExtractor "Service-Result-Code";
             '(has, code) ← get_u32 a 0;
             mret (if (has : bool) then Some code else None)
         end;
  mret ((scef_id, scef_ref_id), code).

Definition config_statuses (ida : message) : outcome (list (StdMap.key * option Z)) :=
  l ← extractor_list S6as6d.InsertSubscriberDataAnswerExtractor ida
        "Monitoring-Event-Config-Status";
  mapM (M := outcome) config_status l.

(** The statuses of the long-term events, in the order of the map. *)
Definition long_term (map : EvenStatusMap) : message :=
  flat_map (λ x, if isLongTermEvt x.2 then [cfg_status x.2] else []) map.

(** The MME's results for the one-shot events it was asked about. *)
Fixpoint one_shot (l : list (StdMap.key * option Z)) (map : EvenStatusMap) : message :=
  match l with
  | [] => []
  | (k, code) :: l' =>
      match StdMap.find k map with
      | Some s =>
          if isLongTermEvt s then one_shot l' map
          else
            let s := match code with Some c => s <| result := c |> | None => s end in
            cfg_status s :: one_shot l' (StdMap.alter (λ _, s) k map)
      | None => one_shot l' map
      end
  end.

(** The one-shot events that failed. *)
Definition failed_one_shot (code : Z) (map : EvenStatusMap) : message :=
  flat_map (λ x, if isLongTermEvt x.2 then [] else [cfg_status (x.2 <| result := code |>)]) map.

(** The answer to the CIR of a single subscriber. *)
Definition single_answer (r : IDRRreq) (code : Z) (ida : message) (cia : message)
    : outcome message :=
  let cia := cia ++ long_term (evt_map r) in
  if code =? DIAMETER_SUCCESS then
    l ← config_statuses ida; mret (cia ++ one_shot l (evt_map r))
  else
    mret (cia ++ failed_one_shot DIAMETER_ERROR_USER_UNKNOWN (evt_map r)
          ++ [AvpU32 "S6t-HSS-Cause" ABSENT_SUBSCRIBER]).

(** The map of the MME's results that the report builder gets: an event named
    twice keeps its first result. *)
Fixpoint mme_response (l : list (StdMap.key * option Z)) (m : EvenStatusMap) : EvenStatusMap :=
  match l with
  | [] => m
  | (k, code) :: l' =>
      let s := (new false) <| scef_id := k.1 |> <| scef_ref_id := k.2 |> in
      let s := match code with Some c => s <| result := c |> | None => s end in
      mme_response l' (StdMap.insert k s m)
  end.

(** [IDRRreq::processAnswer]: the answer to the CIR is built before it is known
    whether there is one to send. *)
Definition processAnswer (r : IDRRreq) (ida : message) : M state unit :=
  deleted ← gets req_deleted;
  if (deleted : bool) then undefined else
  let cia := answer_base ++ [AvpU32 "Auth-Session-State" 1] ++ fd_origin
             ++ [AvpU32 "Result-Code" ER_DIAMETER_SUCCESS] in
  code ← ida_result ida;
  if m_rirbuilder r then
    if code =? DIAMETER_SUCCESS then
      l ← lift (config_statuses ida);
      postMessage (Rir.HANDLE_MME_RESPONSE
        (Rir.mk_response (Some (mme_response l [])) (i_imsi r) 0 (i_msisdn r)))
    else
      postMessage (Rir.HANDLE_MME_RESPONSE
        (Rir.mk_response None (i_imsi r) MME_DOWN (i_msisdn r)))
  else
    cia ← lift (single_answer r code ida cia);
    _ ← on_world (World.send_answer cia);
    _ ← on_world (World.registerStatResult stat_hss_cir 0 ER_DIAMETER_SUCCESS);
    modify (λ s, s <| req_deleted := true |>).

(** [FDMessageRequest::anscb] on the answer to the [i]-th request: the request is
    taken out of those awaited, and deleted after its [processAnswer]. *)
Definition anscb (i : nat) (ida : message) : M state unit :=
  l ← gets pending;
  match l !! i with
  | Some r =>
      _ ← modify (λ s, s <| pending := take i l ++ drop (S i) l |>);
      processAnswer r ida
  | None => mret tt
  end.

End Idr.
End Idr.
