(* ===== verification/Cir.v ===== *)
(** * Configuration-Information-Request (S6t)

    Models [COIRcmd::process], [processHssDb], [processSimpleImsi] and
    [processMultiImsi] of src/s6t_impl.cpp: a service exposure function
    configures the monitoring of one subscriber, or of a group, and is told what
    became of each event. *)

From S2P Require Import Prelude Cxx Calendar Codec Diameter FdJson DataAccess.
From S2P Require Import World Proc Schemas Monitoring Rir Idr.
#[local] Open Scope Z_scope.

Definition MSISDN_LEN : nat := 10.
Definition IMSI_LEN : nat := 15.
Definition GROUP_CONFIGURATION_IN_PROGRESS : Z := 1.

(** [handleGlobalErrorCode]: what it adds to the answer. *)
Definition handleGlobalErrorCode (result_code : Z) (experimental : bool) : avp :=
  if DIAMETER_ERROR_IS_VENDOR result_code && experimental
  then FDMessage.experimental_result result_code
  else FDMessage.result_code result_code.

Module Cir.
Import FDExtractor EventStatus Idr.

Section Cir.
Context `{Cassandra} `{FreeDiameter} `{Peers} {G : Type}.

(** The uninitialised [msisdn] and [msisdnchar]. *)
Record locals := mk_locals { u_msisdn : bytes; u_msisdnchar : bytes }.
Variables (u : Idr.uninit) (v : locals) (answer_base : message).

Abbreviation state := (Idr.state (G := G)).

Definition cfg_field (cfg : list avp) (k : avp_name) : outcome (option avp) :=
  field S6t.MonitoringEventConfigurationExtractor cfg k.
Definition cir_field (cir : message) (k : avp_name) : outcome (option avp) :=
  field S6t.ConfigurationInformationRequestExtractor cir k.
Definition user_field (cir : message) (k : avp_name) : outcome (option avp) :=
  subfield S6t.ConfigurationInformationRequestExtractor cir "User-Identifier"
    S6t.UserIdentifierExtractor k.
Definition configurations (cir : message) : outcome (list (list avp)) :=
  extractor_list S6t.ConfigurationInformationRequestExtractor cir "Monitoring-Event-Configuration".

(** *** [processHssDb] *)

(** One SCEF-Reference-ID-for-Deletion: any exception of the database means that
    the deletion failed. *)
Definition delete_one (cfg : list avp) (map : EvenStatusMap) (item : avp) : M state EvenStatusMap :=
  '(_, ref) ← lift (FDAvp.get_u32 item);
  a ← lift (cfg_field cfg "SCEF-ID");
  '(_, id) ← lift (get_string a "");
  deleted ← catch
    ('(found, _) ← Idr.on_db (DataAccess.getEvent id ref DAEvent.init);
     if (found : bool) then
       _ ← Idr.on_db (DataAccess.deleteEvent id ref); mret true
     else mret false)
    (λ _, mret false);
  let aconf := forceLongTerm deleted
    ((new true) <| scef_id := id |> <| scef_ref_id := ref |>) in
  let aconf := aconf <| result := if (deleted : bool) then DIAMETER_SUCCESS
                         else DIAMETER_ERROR_CONFIGURATION_EVENT_NON_EXISTANT |> in
  mret (StdMap.insert (id, ref) aconf map).

(** [getJson] of the User-Identifier. *)
Definition user_json (cir : message) : outcome string :=
  g ← group S6t.ConfigurationInformationRequestExtractor cir "User-Identifier";
  match g with
  | Some l => FdJson.fdJsonGetJSON "User-Identifier" l
  | None => mret EmptyString
  end.

(** The event and the status that one configuration describes. *)
Definition read_event (cir : message) (msisdn : Z) (cfg : list avp)
    : outcome (DAEvent.t * MonitoringConfEventStatus) :=
  a ← cfg_field cfg "SCEF-ID";
  '(_, id) ← get_string a "";
  a ← cfg_field cfg "SCEF-Reference-ID";
  '(_, ref) ← get_u32 a 0;
  a ← user_field cir "External-Identifier";
  '(_, extid) ← get_string a "";
  mec_json ← FdJson.fdJsonGetJSON "Monitoring-Event-Configuration" cfg;
  ui_json ← user_json cir;
  a ← cfg_field cfg "Maximum-Number-of-Reports";
  '(max_set, max) ← get_u32 a 0;
  a ← cfg_field cfg "Monitoring-Duration";
  time ← get_time a;
  a ← cfg_field cfg "Monitoring-Type";
  '(_, mtype) ← get_u32 a 0;
  mret (DAEvent.mk id ref msisdn extid ui_json mec_json (i32 mtype),
        (new false) <| scef_id := id |> <| scef_ref_id := ref |>
          <| max_nb_reports := max |> <| max_nb_reports_set := max_set |>
          <| mon_duration := time |>
          <| mon_duration_set := if time is Some _ then true else false |>).

(** One SCEF-Reference-ID: only a long-term event is stored. *)
Definition configure_one (cir : message) (msisdn : Z) (cfg : list avp) (map : EvenStatusMap)
    : M state EvenStatusMap :=
  '(event, aconf) ← lift (read_event cir msisdn cfg);
  aconf ← (if isLongTermEvt aconf then
             stored ← catch (Idr.on_db (DataAccess.addEvent event)) (λ _, mret false);
             mret (aconf <| result := if (stored : bool) then DIAMETER_SUCCESS
                     else DIAMETER_ERROR_CONFIGURATION_EVENT_STORAGE_NOT_SUCCESSFUL |>)
           else mret aconf);
  mret (StdMap.insert (scef_id aconf, scef_ref_id aconf) aconf map).

Definition process_configuration (cir : message) (msisdn : Z) (map : EvenStatusMap)
    (cfg : list avp) : M state EvenStatusMap :=
  items ← lift (avp_list S6t.MonitoringEventConfigurationExtractor cfg
                  "SCEF-Reference-ID-for-Deletion");
  map ← fold_each items (delete_one cfg) map;
  a ← lift (cfg_field cfg "SCEF-Reference-ID");
  match a with
  | Some _ => configure_one cir msisdn cfg map
  | None => mret map
  end.

Definition processHssDb (cir : message) (msisdn : Z) : M state EvenStatusMap :=
  cfgs ← lift (configurations cir);
  fold_each cfgs (process_configuration cir msisdn) [].

(** *** One subscriber *)

(** The answer when no request goes to the MME: a one-shot event failed. *)
Definition unreachable_status (s : MonitoringConfEventStatus) : avp :=
  cfg_status (if isLongTermEvt s then s else s <| result := DIAMETER_UNABLE_TO_COMPLY |>).

Definition delete_req : M state unit := modify (λ s, s <| req_deleted := true |>).
Definition count_cir (vendor code : Z) : M state unit :=
  Idr.on_world (World.registerStatResult stat_hss_cir vendor code).

Definition processSimpleImsi (cir : message) (imsi : string) (msisdn : Z) : M state unit :=
  map ← processHssDb cir msisdn;
  cfgs ← lift (configurations cir);
  ret ← Idr.sendINSDRreq u cfgs imsi map false;
  if (ret =? MME_DOWN) || (ret =? IMSI_NOT_ACTIVE) then
    let ans := answer_base ++ fd_origin
      ++ [AvpU32 "Auth-Session-State" 1; AvpU32 "Result-Code" ER_DIAMETER_SUCCESS]
      ++ ((λ x, unreachable_status x.2) <$> map)
      ++ (if ret =? IMSI_NOT_ACTIVE then [AvpU32 "S6t-HSS-Cause" ABSENT_SUBSCRIBER] else []) in
    _ ← Idr.on_world (World.send_answer ans);
    _ ← delete_req;
    count_cir 0 ER_DIAMETER_SUCCESS
  else mret tt.

(** *** A group *)

(** [setInterval(time_guard * 1000)]: an unsigned product. *)
Definition guard_interval (cir : message) : outcome Z :=
  a ← cir_field cir "Group-Reporting-Guard-Timer";
  '(has, t) ← get_u32 a 0;
  mret (if (has : bool) then u32 (t * 1000) else 0).

Definition group_answer : message :=
  answer_base ++ fd_origin
  ++ [AvpU32 "Auth-Session-State" 1; AvpU32 "Result-Code" ER_DIAMETER_SUCCESS;
      AvpU32 "CIA-Flags" (FLAGS_SET 0 GROUP_CONFIGURATION_IN_PROGRESS)].

Definition processMultiImsi (cir : message) (imsis : list string) : M state unit :=
  a ← lift (cir_field cir "Origin-Host");
  '(_, origin_host) ← lift (get_string a "");
  a ← lift (cir_field cir "Origin-Realm");
  '(_, origin_realm) ← lift (get_string a "");
  map ← processHssDb cir 0;
  interval ← lift (guard_interval cir);
  let b := (Rir.new (length imsis) map origin_host origin_realm)
             <| Rir.m_interval := interval |> in
  _ ← modify (λ s, s <| builder := Some (Rir.start b) |>);
  cfgs ← lift (configurations cir);
  _ ← for_each imsis (λ imsi, _ ← Idr.sendINSDRreq u cfgs imsi map true; mret tt);
  _ ← Idr.on_world (World.send_answer group_answer);
  _ ← delete_req;
  _ ← Idr.postMessage Rir.HANDLE_CIA_SENT;
  count_cir 0 ER_DIAMETER_SUCCESS.

(** *** [COIRcmd::process] *)

(** The [try] block: whether it returned. *)
Definition users (cir : message) : M state bool :=
  a ← lift (user_field cir "MSISDN");
  '(has, msisdn, len) ← lift (get_bytes a (u_msisdn v) MSISDN_LEN);
  if (has : bool) then
    '(_, chars) ← lift (Tbcd.tbcd2str (take len msisdn) (u_msisdnchar v) (MSISDN_LEN + 1));
    chars ← lift (c_string chars);
    msisdn64 ← lift (stoll chars);
    '(found, imsi) ← Idr.on_db (DataAccess.getImsiFromMsisdn msisdn64 "");
    if negb found then mret false
    else _ ← processSimpleImsi cir imsi msisdn64; mret true
  else
    a ← lift (user_field cir "External-Identifier");
    '(has, s) ← lift (get_string a "");
    if (has : bool) then
      known ← Idr.on_db (DataAccess.checkExtIdExists (upto_nul s));
      if negb known then mret false
      else
        '(_, imsis) ← Idr.on_db (DataAccess.getImsiListFromExtId (upto_nul s) []);
        _ ← processMultiImsi cir imsis; mret true
    else mret false.

Definition process (cir : message) : M state unit :=
  returned ← catch (users cir) (λ _, mret false);
  if (returned : bool) then mret tt
  else
    let ans := answer_base ++ fd_origin ++ [AvpU32 "Auth-Session-State" 1]
               ++ [handleGlobalErrorCode DIAMETER_ERROR_USER_UNKNOWN true] in
    _ ← Idr.on_world (World.send_answer ans);
    _ ← delete_req;
    count_cir VENDOR_3GPP DIAMETER_ERROR_USER_UNKNOWN.

(** The answers of MMEs that follow: which request, and the answer. *)
Definition answered_by (l : list (nat * message)) : M state unit :=
  for_each l (λ x, Idr.anscb u answer_base x.1 x.2).

End Cir.
End Cir.

(** ** The statuses [processHssDb] collects *)

Module CirFacts.
Import FDExtractor EventStatus Idr Cir.

Section Names.
Context `{FreeDiameter}.

(** The events a request names: those to delete, then the one to configure. *)
Definition scef_id_of (cfg : list avp) : outcome string :=
  a ← cfg_field cfg "SCEF-ID"; '(_, id) ← get_string a ""; mret id.

Definition deletion_key (cfg : list avp) (item : avp) : outcome StdMap.key :=
  '(_, ref) ← FDAvp.get_u32 item; id ← scef_id_of cfg; mret (id, ref).
Definition configuration_key (cfg : list avp) : outcome (list StdMap.key) :=
  a ← cfg_field cfg "SCEF-Reference-ID";
  match a with
  | Some a => '(_, ref) ← FDAvp.get_u32 a; id ← scef_id_of cfg; mret [(id, ref)]
  | None => mret []
  end.
Definition keys_of (cfg : list avp) : outcome (list StdMap.key) :=
  items ← avp_list S6t.MonitoringEventConfigurationExtractor cfg "SCEF-Reference-ID-for-Deletion";
  dels ← mapM (M := outcome) (deletion_key cfg) items;
  conf ← configuration_key cfg;
  mret (dels ++ conf).
Definition named_events (cir : message) : outcome (list StdMap.key) :=
  cfgs ← configurations cir;
  l ← mapM (M := outcome) keys_of cfgs;
  mret (concat l).
End Names.

(** An entry: its key is its event; a long-term event was stored or deleted, or
    could not be; a failed deletion counts as one-shot. *)
Definition entry_ok (x : StdMap.key * MonitoringConfEventStatus) : Prop :=
  x.1 = (scef_id x.2, scef_ref_id x.2) ∧
  if isLongTermEvt x.2
  then result x.2 = DIAMETER_SUCCESS
       ∨ result x.2 = DIAMETER_ERROR_CONFIGURATION_EVENT_STORAGE_NOT_SUCCESSFUL
  else result x.2 = if is_remove x.2 then DIAMETER_ERROR_CONFIGURATION_EVENT_NON_EXISTANT else 0.

Lemma keys_insert {V} k (v : V) m k' :
  k' ∈ StdMap.keys (StdMap.insert k v m) ↔ k' = k ∨ k' ∈ StdMap.keys m.
Proof.
  unfold StdMap.keys. induction m as [|[k0 v0] m IH]; [set_solver|]. cbn.
  destruct (StdMap.compare k k0) eqn:E; cbn.
  - apply StdMap.compare_eq in E as ->. rewrite elem_of_cons. tauto.
  - by rewrite !elem_of_cons.
  - rewrite !elem_of_cons, IH. tauto.
Qed.

Lemma insert_entries {V} (P : StdMap.key * V → Prop) k v m :
  P (k, v) → Forall P m → Forall P (StdMap.insert k v m).
Proof.
  intros Hv Hm. apply Forall_forall. intros x Hx.
  apply StdMap.keys_insert_subset in Hx as [->|Hx]; [done|]. rewrite Forall_forall in Hm. auto.
Qed.

Section HssDb.
Context `{Cassandra} `{FreeDiameter} `{Peers} {G : Type}.
Abbreviation state := (Idr.state (G := G)).
Implicit Types s : state.

(** The database is all that changed. *)
Definition db_only s s' : Prop :=
  ∃ d, s' = s <| c_world ::= (λ w, w <| World.database := d |>) |>.

Lemma db_only_refl s : db_only s s.
Proof. exists (World.database (c_world s)). by destruct s as [[] ? ? ?]. Qed.
Lemma db_only_trans s1 s2 s3 : db_only s1 s2 → db_only s2 s3 → db_only s1 s3.
Proof. intros [d1 ->] [d2 ->]. by exists d2. Qed.
#[local] Hint Resolve db_only_refl : core.

Lemma cir_wp_on_db {A} (m : M (DataAccess.db Z) A) Q s :
  (∀ o s', db_only s s' → Q o s') → wp (Idr.on_db m) Q s.
Proof.
  intros HQ. unfold Idr.on_db, Idr.on_world, World.on_db. do 2 apply wp_zoom. unfold wp.
  destruct (m _) as [o d]. apply HQ. by exists d.
Qed.

(** A map grown by an entry of that key. *)
Definition grown (k : StdMap.key) (map map' : EvenStatusMap) : Prop :=
  ∃ st, entry_ok (k, st) ∧ map' = StdMap.insert k st map.

(** What has been read is read again. *)
Ltac reads :=
  repeat match goal with
  | H : ?x = Ok _ |- context [?x] => rewrite H; cbn [mbind outcome_bind mret outcome_ret]
  end.

Ltac found_key := repeat (progress (reads; cbn)); eexists; split; [reflexivity|].

Lemma wp_delete_one cfg map item s :
  wp (delete_one cfg map item) (λ o s', db_only s s' ∧ match o with
    | Ok map' => ∃ k, deletion_key cfg item = Ok k ∧ grown k map map'
    | _ => True end) s.
Proof.
  unfold delete_one, deletion_key, scef_id_of. wp_steps; try (by split; [auto|done]).
  apply wp_catch.
  wp_step. apply cir_wp_on_db. intros [[found ev]| |] s1 Hs1; cbn [keep_fault].
  - destruct found.
    + wp_step. apply cir_wp_on_db. intros [[]| |] s2 Hs2; cbn [keep_fault].
      * wp_steps. split; [by eapply db_only_trans|]. found_key. by eexists; split; [|done]; split; [|left].
      * wp_steps. split; [by eapply db_only_trans|]. found_key. by eexists; split; [|done].
      * split; [by eapply db_only_trans|done].
    + wp_steps. split; [done|]. found_key. by eexists; split; [|done].
  - wp_steps. split; [done|]. found_key. by eexists; split; [|done].
  - done.
Qed.

(** What a run of readings found. *)
Ltac read_inv :=
  repeat match goal with
  | H : mbind _ ?m = Ok _ |- _ =>
      let E := fresh "E" in destruct m eqn:E; cbn [mbind outcome_bind] in H; [|done..]
  | H : (let '(_, _) := ?p in _) = Ok _ |- _ => destruct p; cbn beta iota in H
  | H : mret _ = Ok _ |- _ => injection H as <- <-
  end.

Lemma read_event_status cir msisdn cfg ev st a :
  read_event cir msisdn cfg = Ok (ev, st) → cfg_field cfg "SCEF-Reference-ID" = Ok (Some a) →
  configuration_key cfg = Ok [(scef_id st, scef_ref_id st)] ∧ is_remove st = false ∧ result st = 0
  ∧ ∀ r, isLongTermEvt (st <| result := r |>) = isLongTermEvt st.
Proof.
  unfold read_event, configuration_key, scef_id_of. intros Hread Ha. rewrite Ha in *. read_inv.
  match goal with H : get_u32 (Some a) 0 = _ |- _ => cbn in H end.
  repeat (progress (reads; cbn)). by split_and!.
Qed.

Lemma wp_configure_one cir msisdn cfg map a s :
  cfg_field cfg "SCEF-Reference-ID" = Ok (Some a) →
  wp (configure_one cir msisdn cfg map) (λ o s', db_only s s' ∧ match o with
    | Ok map' => ∃ k, configuration_key cfg = Ok [k] ∧ grown k map map'
    | _ => True end) s.
Proof.
  intros Ha. unfold configure_one. wp_step. wp_step.
  destruct (read_event cir msisdn cfg) as [[ev st]| |] eqn:Hread; cbn [keep_fault]; [|done..].
  destruct (read_event_status _ _ _ _ _ _ Hread Ha) as (Hkey & Hrem & Hres & Hlong).
  wp_step. destruct (isLongTermEvt st) eqn:El.
  - wp_step. apply wp_catch, cir_wp_on_db. intros [stored| |] s1 Hs1; cbn [keep_fault]; [| |done].
    all: wp_steps; split; [done|]; eexists; split; [exact Hkey|]; eexists; split; [|done].
    all: split; [done|]; cbn [snd]; rewrite Hlong; cbn; try destruct stored; tauto.
  - wp_steps. split; [auto|]. eexists; split; [exact Hkey|]. eexists; split; [|done].
    split; [done|]. cbn [snd]. by rewrite El, Hrem.
Qed.

(** A map to which entries of these keys were added. *)
Definition collected (ks : list StdMap.key) (map map' : EvenStatusMap) : Prop :=
  (StdMap.sorted map → StdMap.sorted map') ∧ (Forall entry_ok map → Forall entry_ok map') ∧
  ∀ k, k ∈ StdMap.keys map' ↔ k ∈ ks ∨ k ∈ StdMap.keys map.

Lemma collected_nil map : collected [] map map.
Proof. split_and!; [done..|]. intros k. set_solver. Qed.
Lemma collected_app ks ks' m1 m2 m3 :
  collected ks m1 m2 → collected ks' m2 m3 → collected (ks ++ ks') m1 m3.
Proof.
  intros (S1 & F1 & K1) (S2 & F2 & K2). split_and!; [auto..|].
  intros k. rewrite K2, K1, elem_of_app. tauto.
Qed.
Lemma grown_collected k map map' : grown k map map' → collected [k] map map'.
Proof.
  intros (st & Hst & ->). split_and!.
  - apply StdMap.sorted_insert.
  - by apply insert_entries.
  - intros k'. rewrite keys_insert, list_elem_of_singleton. done.
Qed.

(** A loop that collects the keys its items name. *)
Lemma wp_collect {A} (keys : A → outcome (list StdMap.key))
    (body : EvenStatusMap → A → M state EvenStatusMap) l map s :
  (∀ map x s, wp (body map x) (λ o s', db_only s s' ∧ match o with
     | Ok map' => ∃ ks, keys x = Ok ks ∧ collected ks map map' | _ => True end) s) →
  wp (fold_each l body map) (λ o s', db_only s s' ∧ match o with
     | Ok map' => ∃ kss, mapM (M := outcome) keys l = Ok kss ∧ collected (concat kss) map map'
     | _ => True end) s.
Proof.
  intros Hbody. revert map s. induction l as [|x l IH]; intros map s; cbn [fold_each].
  { wp_steps. split; [auto|]. exists []. split; [done|]. apply collected_nil. }
  wp_step. eapply wp_mono; [apply Hbody|]. intros [map1| |] s1 [Hs1 H1']; cbn [keep_fault]; [|done..].
  destruct H1' as (ks & Hks & Hc). eapply wp_mono; [apply IH|].
  intros o s2 [Hs2 H2']. split; [by eapply db_only_trans|]. destruct o as [map2| |]; [|done..].
  destruct H2' as (kss & Hkss & Hc'). exists (ks :: kss). cbn. rewrite Hks. cbn. rewrite Hkss.
  split; [done|]. by eapply collected_app.
Qed.

Lemma mapM_singletons {A B} (f : A → outcome B) l kss :
  mapM (M := outcome) (λ x, k ← f x; mret [k]) l = Ok kss →
  mapM (M := outcome) f l = Ok (concat kss).
Proof.
  revert kss. induction l as [|x l IH]; intros kss Hl; cbn in *; [by injection Hl as <-|].
  destruct (f x); cbn in *; [|done..].
  destruct (mapM _ l) as [kss'| |]; cbn in *; [|done..]. injection Hl as <-. by rewrite (IH kss').
Qed.

Lemma wp_process_configuration cir msisdn map cfg s :
  wp (process_configuration cir msisdn map cfg) (λ o s', db_only s s' ∧ match o with
    | Ok map' => ∃ ks, keys_of cfg = Ok ks ∧ collected ks map map'
    | _ => True end) s.
Proof.
  unfold process_configuration, keys_of. wp_step. wp_step.
  destruct (avp_list _ _ _) as [items| |]; cbn [keep_fault mbind outcome_bind]; [|done..].
  wp_step. eapply wp_mono.
  { apply (wp_collect (λ x, k ← deletion_key cfg x; mret [k])). intros m x s1.
    eapply wp_mono; [apply wp_delete_one|]. intros o s2 [Hs2 Ho]. split; [done|].
    destruct o; [|done..]. destruct Ho as (k & -> & Hg). exists [k]. split; [done|].
    by apply grown_collected. }
  intros [map1| |] s1 [Hs1 H1']; cbn [keep_fault]; [|done..].
  destruct H1' as (kss & Hkss%mapM_singletons & Hc). rewrite Hkss. cbn [mbind outcome_bind].
  wp_step. wp_step. destruct (cfg_field cfg "SCEF-Reference-ID") as [[a|]| |] eqn:Ha;
    cbn [keep_fault]; [| |done..].
  - eapply wp_mono; [by eapply wp_configure_one|]. intros o s2 [Hs2 Ho].
    split; [by eapply db_only_trans|]. destruct o; [|done..]. destruct Ho as (k & Hk & Hg).
    rewrite Hk. cbn. eexists; split; [done|]. eapply collected_app; [done|]. by apply grown_collected.
  - wp_steps. split; [done|]. unfold configuration_key. rewrite Ha. cbn. eexists; split; [done|].
    by rewrite app_nil_r.
Qed.

Lemma wp_processHssDb cir msisdn s :
  wp (processHssDb cir msisdn) (λ o s', db_only s s' ∧ match o with
    | Ok map => ∃ ks, named_events cir = Ok ks ∧ StdMap.sorted map ∧ Forall entry_ok map ∧
        ∀ k, k ∈ StdMap.keys map ↔ k ∈ ks
    | _ => True end) s.
Proof.
  unfold processHssDb, named_events. wp_step. wp_step.
  destruct (configurations cir) as [cfgs| |]; cbn [keep_fault mbind outcome_bind]; [|done..].
  eapply wp_mono; [apply (wp_collect keys_of), wp_process_configuration|].
  intros o s' [Hs Ho]. split; [done|]. destruct o as [map| |]; [|done..].
  destruct Ho as (kss & -> & Hsort & Hok & Hkeys). eexists; split; [done|].
  split; [apply Hsort; constructor|]. split; [by apply Hok|].
  intros k. rewrite Hkeys. unfold StdMap.keys. cbn. set_solver.
Qed.


(** C13: When [processHssDb] returns, it has changed the database alone and its map
    has one status for every event the request names, and for no other: a
    long-term event was stored or deleted, or could not be stored; a one-shot
    event has no result yet; a deletion that failed is 5514. *)
Theorem hssdb_status_of_every_event cir msisdn s map s' :
  processHssDb cir msisdn s = (Ok map, s') →
  db_only s s' ∧ StdMap.sorted map ∧ Forall entry_ok map ∧
  ∃ ks, named_events cir = Ok ks ∧ ∀ k, k ∈ StdMap.keys map ↔ k ∈ ks.
Proof.
  intros E. destruct (wp_run _ _ _ _ _ (wp_processHssDb cir msisdn s) E) as (? & ks & ? & ? & ? & ?).
  split_and!; [done..|]. by exists ks.
Qed.

End HssDb.

(** ** The answers of a request *)

Section Answers.
Context `{Cassandra} `{FreeDiameter} `{Peers} {G : Type}.
Abbreviation state := (Idr.state (G := G)).
Variables (u : Idr.uninit) (v : locals) (answer_base : message).
Implicit Types s : state.

Definition answered s : nat := answers (World.wire (c_world s)).

(** What a part of the handler leaves as it was. *)
Record silent s s' : Prop := {
  si_answers : answered s' = answered s;
  si_deleted : req_deleted s' = req_deleted s }.
Lemma silent_refl s : silent s s.
Proof. done. Qed.
Lemma silent_trans s1 s2 s3 : silent s1 s2 → silent s2 s3 → silent s1 s3.
Proof. intros [] []. split; congruence. Qed.
#[local] Hint Resolve silent_refl : core.

Lemma db_only_silent s s' : db_only s s' → silent s s' ∧ pending s' = pending s ∧ builder s' = builder s.
Proof. by intros [d ->]. Qed.

Lemma wp_postMessage m s :
  wp (Idr.postMessage m) (λ o s', match builder s with
    | Some t => o = Ok tt ∧ s' = s <| builder := Some (Rir.post m t) |>
    | None => o = UB ∧ s' = s end) s.
Proof. unfold Idr.postMessage. wp_step. wp_step. cbn. destruct (builder s); wp_steps; done. Qed.

(** The request to one subscriber's MME: it is awaited, stood for by a message to
    the report builder, or neither. *)
Inductive idr_result (imsi : string) (map : EvenStatusMap) (rir : bool) s : Z → state → Prop :=
  | idr_not_sent ret s' :
      rir = false → ret = MME_DOWN ∨ ret = IMSI_NOT_ACTIVE → silent s s' →
      pending s' = pending s → builder s' = builder s → idr_result imsi map rir s ret s'
  | idr_stood_for t why msisdn s' :
      rir = true → builder s = Some t → silent s s' → pending s' = pending s →
      builder s' = Some (Rir.post (Rir.HANDLE_MME_RESPONSE (Rir.mk_response None imsi why msisdn)) t) →
      idr_result imsi map rir s 1 s'
  | idr_awaited msisdn s' :
      silent s s' → pending s' = pending s ++ [mk_idr map rir imsi msisdn] →
      builder s' = builder s → idr_result imsi map rir s 1 s'
  | idr_failed m s' :
      fd_msg_send m ≠ 0 → silent s s' → pending s' = pending s → builder s' = builder s →
      idr_result imsi map rir s 0 s'.

Lemma wp_send_request cmd m s :
  wp (Idr.on_world (World.send_request cmd m)) (λ o s', silent s s' ∧ pending s' = pending s ∧
    builder s' = builder s ∧ (o = Ok tt ∨ o = Throw FDException ∧ fd_msg_send m ≠ 0)) s.
Proof.
  unfold Idr.on_world, World.send_request. apply wp_zoom. unfold wp, FDMessage.send, mbind, M_bind, lift, modify.
  destruct (Z.eqb_spec (fd_msg_send m) 0); cbn; split_and!; try done; try tauto.
  split; [|done]. unfold answered. cbn. rewrite answers_app. cbn. lia.
Qed.

Lemma wp_sendINSDRreq cfgs imsi map rir s :
  wp (Idr.sendINSDRreq u cfgs imsi map rir) (λ o s', silent s s' ∧
    match o with Ok ret => idr_result imsi map rir s ret s' | _ => True end) s.
Proof.
  unfold Idr.sendINSDRreq. wp_step. apply cir_wp_on_db. intros [[found info]| |] s1 Hs1; cbn [keep_fault];
    apply db_only_silent in Hs1 as (Hs1 & Hp1 & Hb1); [|done..].
  wp_step. wp_step. destruct (FDPeer.getState _) as [ps| |]; cbn [keep_fault]; [|done..].
  wp_step; [wp_step|].
  - wp_step. eapply wp_mono; [apply wp_postMessage|]. cbn beta. rewrite Hb1.
    destruct (builder s) as [t|] eqn:Hb; intros o s2 [-> ->]; cbn [keep_fault]; [|done].
    wp_step. assert (silent s (s1 <| builder := Some (Rir.post (Rir.HANDLE_MME_RESPONSE
      (Rir.mk_response None imsi (if (DAImsiInfo.ms_ps_status info =? "ATTACHED")%string
         then MME_DOWN else IMSI_NOT_ACTIVE) (DAImsiInfo.str_msisdn info))) t) |>)) as Hsil
      by (by destruct Hs1). split; [done|]. by eapply idr_stood_for.
  - wp_step. split; [done|]. apply idr_not_sent; try done. case_match; tauto.
  - do 3 wp_step. cbn beta. wp_step.
    destruct (createINSDRreq _ _ _ _) as [req| |]; cbn [keep_fault]; [|done..].
    apply wp_catch. wp_step. eapply wp_mono; [apply wp_send_request|].
    intros o s2 (Hs2 & Hp2 & Hb2 & Ho). rewrite Hp1 in Hp2. rewrite Hb1 in Hb2.
    assert (silent s s2) as Hs by (by eapply silent_trans).
    destruct Ho as [->|[-> Hne]]; cbn [keep_fault].
    + wp_steps. assert (silent s (s2 <| pending ::= (λ l, l ++ [mk_idr map rir imsi
        (DAImsiInfo.str_msisdn info)]) |>)) as Hsil by (by destruct Hs). split; [done|].
      eapply idr_awaited; [done|by cbn; rewrite Hp2|done].
    + cbn. wp_steps; [|done]. split; [done|]. by eapply idr_failed.
Qed.

(** At most one answer since [a0] of them had been sent; with one, the request
    object is gone. *)
Definition answers_from (a0 : nat) s : Prop :=
  answered s = a0 ∨ (answered s = S a0 ∧ req_deleted s = true).

Lemma wp_send_answer ans s :
  wp (Idr.on_world (World.send_answer ans)) (λ o s',
    pending s' = pending s ∧ builder s' = builder s ∧ req_deleted s' = req_deleted s ∧
    (o = Ok tt ∧ answered s' = S (answered s) ∨ o = Throw FDException ∧ s' = s ∧ fd_msg_send ans ≠ 0)) s.
Proof.
  unfold Idr.on_world, World.send_answer. apply wp_zoom. unfold wp, FDMessage.send, mbind, M_bind, lift, modify.
  destruct (Z.eqb_spec (fd_msg_send ans) 0); cbn; split_and!; try done.
  - left. split; [done|]. unfold answered. cbn. rewrite answers_app. cbn. lia.
  - right. by destruct s as [[] ? ? ?].
Qed.

Lemma wp_registerStatResult st vendor code s :
  wp (Idr.on_world (World.registerStatResult st vendor code)) (λ o s', o = Ok tt ∧ silent s s' ∧
    pending s' = pending s ∧ builder s' = builder s) s.
Proof. unfold Idr.on_world, World.registerStatResult. apply wp_zoom. by wp_step. Qed.

(** An answer, the deletion of the request, the count. *)
Lemma wp_answer ans vendor code s :
  wp (_ ← Idr.on_world (World.send_answer ans); _ ← delete_req; count_cir vendor code)
    (λ o s', pending s' = pending s ∧ builder s' = builder s ∧
       (o = Ok tt ∧ answered s' = S (answered s) ∧ req_deleted s' = true
        ∨ o = Throw FDException ∧ s' = s ∧ fd_msg_send ans ≠ 0)) s.
Proof.
  wp_step. eapply wp_mono; [apply wp_send_answer|].
  intros o s1 (Hp1 & Hb1 & Hd1 & [[-> Ha]|(-> & -> & Hne)]); cbn [keep_fault]; [|by split_and!; auto].
  unfold delete_req, count_cir. do 2 wp_step. cbn.
  split_and!; [done..|]. by left.
Qed.

(** How the handler of one subscriber ends. *)
Inductive single_end s : outcome unit → state → Prop :=
  | single_answered s' : pending s' = pending s → builder s' = builder s →
      answered s' = S (answered s) → req_deleted s' = true → single_end s (Ok tt) s'
  | single_awaits r s' : silent s s' → pending s' = pending s ++ [r] → m_rirbuilder r = false →
      builder s' = builder s → single_end s (Ok tt) s'
  | single_lost m s' : fd_msg_send m ≠ 0 → silent s s' → pending s' = pending s →
      builder s' = builder s → single_end s (Ok tt) s'
  | single_faults o s' : o ≠ Ok tt → silent s s' → single_end s o s'.

Lemma silent_answers s s' a0 : silent s s' → answered s = a0 → answered s' = a0.
Proof. intros [] <-. done. Qed.

Lemma wp_processSimpleImsi cir imsi msisdn s :
  wp (processSimpleImsi u answer_base cir imsi msisdn) (single_end s) s.
Proof.
  unfold processSimpleImsi. wp_step. eapply wp_mono; [apply wp_processHssDb|].
  intros o s1 [(Hs1 & Hp1 & Hb1)%db_only_silent _].
  destruct o as [map| |]; cbn [keep_fault]; [|by apply single_faults..].
  wp_step. wp_step. destruct (configurations cir) as [cfgs| |]; cbn [keep_fault];
    [|by apply single_faults..].
  wp_step. eapply wp_mono; [apply wp_sendINSDRreq|]. intros o s2 [Hs2 Hret].
  assert (silent s s2) as Hs by (by eapply silent_trans).
  destruct o as [ret| |]; cbn [keep_fault]; [|by apply single_faults..].
  inversion Hret as [ret' ? _ Hr ? Hp Hb|? ? ? ? ?|msisdn' ? ? Hp Hb|m ? Hm ? Hp Hb]; subst; try done.
  - assert ((ret =? MME_DOWN) || (ret =? IMSI_NOT_ACTIVE) = true) as -> by (by destruct Hr as [->| ->]).
    eapply wp_mono; [apply wp_answer|].
    intros o s3 (Hp3 & Hb3 & [(-> & Ha & Hd)|(-> & -> & _)]); [|by apply single_faults].
    apply single_answered; [congruence..| |done]. by rewrite Ha, (si_answers _ _ Hs).
  - change ((1 =? MME_DOWN) || (1 =? IMSI_NOT_ACTIVE)) with false. cbn iota. wp_step. eapply single_awaits; [done|by rewrite Hp, Hp1|done|congruence].
  - change ((0 =? MME_DOWN) || (0 =? IMSI_NOT_ACTIVE)) with false. cbn iota. wp_step. eapply single_lost; [done..|congruence|congruence].
Qed.

(** What the requests of a group came to: responses that stand for unreachable
    subscribers, and requests awaited. *)
Inductive distributed (map : EvenStatusMap) :
    list string → list Rir.HandleMmeResponseEvtMsg → list IDRRreq → Prop :=
  | distributed_nil : distributed map [] [] []
  | distributed_stood imsi why msisdn imsis rs l :
      distributed map imsis rs l →
      distributed map (imsi :: imsis) (Rir.mk_response None imsi why msisdn :: rs) l
  | distributed_awaited imsi msisdn imsis rs l :
      distributed map imsis rs l →
      distributed map (imsi :: imsis) rs (mk_idr map true imsi msisdn :: l)
  | distributed_failed m imsi imsis rs l :
      fd_msg_send m ≠ 0 → distributed map imsis rs l → distributed map (imsi :: imsis) rs l.

(** The builder's thread before its first turn. *)
Definition filled (b : Rir.RIRBuilder) (l : list Rir.event_message) : Rir.thread :=
  Rir.mk_thread b (Rir.ETM_INIT :: l) None false.

Lemma wp_group_requests cfgs map b imsis ms s :
  builder s = Some (filled b ms) →
  wp (for_each imsis (λ imsi, _ ← Idr.sendINSDRreq u cfgs imsi map true; mret tt))
    (λ o s', silent s s' ∧ match o with
       | Ok _ => ∃ rs l, builder s' = Some (filled b (ms ++ (Rir.HANDLE_MME_RESPONSE <$> rs))) ∧
           pending s' = pending s ++ l ∧ distributed map imsis rs l
       | _ => True end) s.
Proof.
  revert ms s. induction imsis as [|imsi imsis IH]; intros ms s Hb; cbn [for_each].
  { wp_step. split; [done|]. exists [], []. rewrite !app_nil_r. split_and!; [done..|constructor]. }
  do 2 wp_step. eapply wp_mono; [apply wp_sendINSDRreq|]. intros o s1 [Hs1 Hret].
  destruct o as [ret| |]; cbn [keep_fault]; [|done..]. wp_step. cbn [keep_fault].
  assert (∃ r1 l1, builder s1 = Some (filled b (ms ++ (Rir.HANDLE_MME_RESPONSE <$> r1))) ∧
    pending s1 = pending s ++ l1 ∧ (∀ rs l, distributed map imsis rs l →
      distributed map (imsi :: imsis) (r1 ++ rs) (l1 ++ l))) as (r1 & l1 & Hb1 & Hp1 & Hd1).
  { inversion Hret as [? ? ? ? ? ? ?|t why msisdn ? _ Ht _ Hp Hb1|msisdn ? _ Hp Hb1|m ? Hm _ Hp Hb1];
      subst; try done.
    - rewrite Hb in Ht. simplify_eq. eexists [_], []. rewrite app_nil_r. split_and!; [exact Hb1|done|].
      intros. by apply distributed_stood.
    - eexists [], [_]. split_and!; [by rewrite Hb1, Hb, app_nil_r|exact Hp|].
      intros. by apply distributed_awaited.
    - eexists [], []. split_and!; [by rewrite Hb1, Hb, app_nil_r|by rewrite app_nil_r|].
      intros. by eapply distributed_failed. }
  eapply wp_mono; [apply (IH _ s1 Hb1)|]. intros o s2 [Hs2 Ho].
  split; [by eapply silent_trans|]. destruct o; [|done..]. destruct Ho as (rs & l & Hb2 & Hp2 & Hd2).
  exists (r1 ++ rs), (l1 ++ l). rewrite fmap_app, !app_assoc. rewrite Hp2, Hp1. split_and!; [|done|auto].
  by rewrite Hb2, <- app_assoc.
Qed.

(** How the handler of a group ends. *)
Inductive group_end (imsis : list string) s : outcome unit → state → Prop :=
  | group_answered host realm interval map rs l s' :
      StdMap.sorted map → distributed map imsis rs l →
      builder s' = Some (filled ((Rir.new (length imsis) map host realm)
        <| Rir.m_interval := interval |>) ((Rir.HANDLE_MME_RESPONSE <$> rs) ++ [Rir.HANDLE_CIA_SENT])) →
      pending s' = pending s ++ l → answered s' = S (answered s) → req_deleted s' = true →
      group_end imsis s (Ok tt) s'
  | group_faults o s' : o ≠ Ok tt → silent s s' → group_end imsis s o s'.

Lemma wp_processMultiImsi cir imsis s :
  wp (processMultiImsi u answer_base cir imsis) (group_end imsis s) s.
Proof.
  assert (∀ o s', o ≠ Ok tt → silent s s' → group_end imsis s o s') as Hfault
    by (intros; by apply group_faults).
  unfold processMultiImsi. wp_step. wp_step.
  destruct (cir_field cir "Origin-Host") as [ah| |]; cbn [keep_fault]; [|by apply Hfault..].
  wp_step. wp_step. destruct (get_string ah "") as [[? host]| |]; cbn [keep_fault]; [|by apply Hfault..].
  wp_step. wp_step.
  destruct (cir_field cir "Origin-Realm") as [ar| |]; cbn [keep_fault]; [|by apply Hfault..].
  wp_step. wp_step. destruct (get_string ar "") as [[? realm]| |]; cbn [keep_fault]; [|by apply Hfault..].
  wp_step.
  eapply wp_mono; [apply wp_processHssDb|]. intros o s1 [(Hs1 & Hp1 & Hb1)%db_only_silent Ho].
  destruct o as [map| |]; cbn [keep_fault]; [|by apply Hfault..].
  destruct Ho as (ks & _ & Hsorted & _ & _).
  wp_step. wp_step. destruct (guard_interval cir) as [interval| |]; cbn [keep_fault]; [|by apply Hfault..].
  wp_step. wp_step. cbn [keep_fault]. wp_step. wp_step.
  destruct (configurations cir) as [cfgs| |]; cbn [keep_fault];
    [|by apply Hfault; [|split; apply Hs1]..].
  wp_step. eapply wp_mono; [by apply (wp_group_requests _ _
    ((Rir.new (length imsis) map host realm) <| Rir.m_interval := interval |>) _ [])|].
  intros o s2 [Hs2 Ho]. assert (silent s s2) as Hs by (eapply silent_trans; [exact Hs1|]; by destruct Hs2).
  destruct o; cbn [keep_fault]; [|by apply Hfault..]. destruct Ho as (rs & l & Hb2 & Hp2 & Hd2).
  wp_step. eapply wp_mono; [apply wp_send_answer|].
  intros o s3 (Hp3 & Hb3 & Hd3 & [[-> Ha]|(-> & -> & _)]); cbn [keep_fault]; [|by apply Hfault].
  unfold delete_req, count_cir. wp_step. wp_step. cbn [keep_fault]. wp_step.
  eapply wp_mono; [apply wp_postMessage|]. cbn [builder]. intros o s4.
  change (builder (s3 <| req_deleted := true |>)) with (builder s3). rewrite Hb3, Hb2. intros [-> ->].
  cbn [keep_fault]. eapply wp_mono; [apply wp_registerStatResult|].
  intros o s5 (-> & [Ha5 Hd5] & Hp5 & Hb5).
  eapply group_answered; [exact Hsorted|exact Hd2|exact Hb5| | |exact Hd5].
  - rewrite Hp5. cbn. by rewrite Hp3, Hp2, <- Hp1.
  - rewrite Ha5. change (answered s3 = S (answered s)). by rewrite Ha, (si_answers _ _ Hs).
Qed.

(** A part of the handler that only used the database came first. *)
Lemma single_end_after s s0 o s' : db_only s s0 → single_end s0 o s' → single_end s o s'.
Proof.
  intros (Hsil & Hp & Hb)%db_only_silent Hend.
  assert (∀ s', silent s0 s' → silent s s') as Ht by (intros; by eapply silent_trans).
  destruct Hend as [s' Hp' Hb' Ha Hd|r s' Hs' Hp' Hr Hb'|m s' Hm Hs' Hp' Hb'|o s' Ho Hs'].
  - apply single_answered; [congruence|congruence| |done]. by rewrite Ha, (si_answers _ _ Hsil).
  - apply (single_awaits s r); [auto|congruence|done|congruence].
  - apply (single_lost s m); [done|auto|congruence|congruence].
  - apply single_faults; auto.
Qed.

Lemma group_end_after imsis s s0 o s' : db_only s s0 → group_end imsis s0 o s' → group_end imsis s o s'.
Proof.
  intros (Hsil & Hp & Hb)%db_only_silent Hend. destruct Hend as [? ? ? ? ? ? ? ? ? ? Hp' Ha ?|o s' Ho Hs'].
  - eapply group_answered; [done..|congruence| |done]. by rewrite Ha, (si_answers _ _ Hsil).
  - apply group_faults; [done|]. by eapply silent_trans.
Qed.

(** How the [try] block ends. *)
Definition users_end s (o : outcome bool) s' : Prop :=
  match o with
  | Ok true => single_end s (Ok tt) s' ∨ ∃ imsis, group_end imsis s (Ok tt) s'
  | Ok false => silent s s' ∧ pending s' = pending s ∧ builder s' = builder s
  | _ => silent s s'
  end.

Lemma wp_users_end_single cir imsi msisdn s s0 :
  db_only s s0 →
  wp (_ ← processSimpleImsi u answer_base cir imsi msisdn; mret true) (users_end s) s0.
Proof.
  intros Hdb. wp_step. eapply wp_mono; [apply wp_processSimpleImsi|]. intros o s' Hend.
  apply (single_end_after _ _ _ _ Hdb) in Hend.
  destruct o as [[]| |]; cbn [keep_fault]; [wp_step; by left|inversion Hend; done..].
Qed.

Lemma wp_users_end_group cir imsis s s0 :
  db_only s s0 →
  wp (_ ← processMultiImsi u answer_base cir imsis; mret true) (users_end s) s0.
Proof.
  intros Hdb. wp_step. eapply wp_mono; [apply wp_processMultiImsi|]. intros o s' Hend.
  apply (group_end_after _ _ _ _ _ Hdb) in Hend.
  destruct o as [[]| |]; cbn [keep_fault]; [wp_step; right; by exists imsis|inversion Hend; done..].
Qed.

Lemma wp_users cir s : wp (users u v answer_base cir) (users_end s) s.
Proof.
  assert (∀ e, users_end s (Throw e) s) as Ht by done. assert (users_end s UB s) as Hu by done.
  assert (∀ s', db_only s s' → users_end s (Ok false) s') as Hfalse by (intros; by apply db_only_silent).
  assert (∀ (o : outcome bool) s', db_only s s' → o ≠ Ok true → users_end s o s') as Hdb.
  { intros o s' Hs Ho. apply db_only_silent in Hs as (? & ? & ?). by destruct o as [[]| |]. }
  unfold users. repeat (wp_step; cbn beta); try done;
    try (apply cir_wp_on_db; intros [x| |] s1 Hs1; cbn [keep_fault]; [|by apply Hdb..]).
  - destruct x as [found imsi]. destruct found; cbn [negb]; [by apply wp_users_end_single|by apply Hfalse].
  - destruct x; cbn [negb]; [|by apply Hfalse]. wp_step. apply cir_wp_on_db.
    intros [[? imsis]| |] s2 Hs2; cbn [keep_fault]; try (apply Hdb; [by eapply db_only_trans|done]).
    apply wp_users_end_group. by eapply db_only_trans.
Qed.

(** How [process] ends: answered, awaiting an MME's answer, or lost. *)
Inductive process_end s : outcome unit → state → Prop :=
  | process_single s' : single_end s (Ok tt) s' → process_end s (Ok tt) s'
  | process_group imsis s' : group_end imsis s (Ok tt) s' → process_end s (Ok tt) s'
  | process_rejected s' : answered s' = S (answered s) → req_deleted s' = true →
      process_end s (Ok tt) s'
  | process_faults o s' : o ≠ Ok tt → silent s s' → process_end s o s'.

Lemma wp_process cir s : wp (process u v answer_base cir) (process_end s) s.
Proof.
  unfold process. wp_step. apply wp_catch. eapply wp_mono; [apply wp_users|].
  assert (∀ s', silent s s' → wp (_ ← Idr.on_world (World.send_answer
      (answer_base ++ fd_origin ++ [AvpU32 "Auth-Session-State" 1]
       ++ [handleGlobalErrorCode DIAMETER_ERROR_USER_UNKNOWN true]));
      _ ← delete_req; count_cir VENDOR_3GPP DIAMETER_ERROR_USER_UNKNOWN) (process_end s) s') as Hreject.
  { intros s' Hs. eapply wp_mono; [apply wp_answer|].
    intros o s2 (_ & _ & [(-> & Ha & Hd)|(-> & -> & _)]); [|by apply process_faults].
    apply process_rejected; [|done]. by rewrite Ha, (si_answers _ _ Hs). }
  intros [returned|e|] s' Hend; cbn [keep_fault].
  - destruct returned.
    + wp_step. destruct Hend as [Hend|[imsis Hend]]; [by apply process_single|by eapply process_group].
    + by apply Hreject; destruct Hend.
  - wp_step. by apply Hreject.
  - by apply process_faults.
Qed.

Lemma wp_ida_result ida s :
  wp (Idr.ida_result ida) (λ _ s', silent s s' ∧ pending s' = pending s ∧ builder s' = builder s) s.
Proof.
  unfold Idr.ida_result. repeat (wp_step; cbn beta); try done;
    (eapply wp_mono; [apply wp_registerStatResult|]; intros o s' (-> & ? & ? & ?); cbn [keep_fault];
     by wp_step).
Qed.

Lemma wp_anscb a0 i ida s :
  answers_from a0 s →
  wp (Idr.anscb u answer_base i ida) (λ _ s', answers_from a0 s') s.
Proof.
  intros Hs. unfold Idr.anscb. wp_step. wp_step. cbn [keep_fault].
  destruct (pending s !! i) as [r|]; [|by wp_step]. wp_step. wp_step. cbn [keep_fault].
  unfold Idr.processAnswer. wp_step. wp_step. cbn [keep_fault].
  destruct (req_deleted _) eqn:Hd; [by wp_step|]. change (req_deleted s = false) in Hd.
  destruct Hs as [Hs|[_ Hs]]; [|congruence].
  wp_step. eapply wp_mono; [apply wp_ida_result|]. cbn. intros o s1 (Hs1 & _ & _).
  assert (answered s1 = a0) as Ha1 by (by apply (silent_answers _ _ a0) in Hs1).
  destruct o as [code| |]; cbn [keep_fault]; [|by left..].
  assert (∀ m, wp (Idr.postMessage m) (λ _ s', answers_from a0 s') s1) as Hpost.
  { intros m. eapply wp_mono; [apply wp_postMessage|]. intros o s2.
    destruct (builder s1); intros [_ ->]; by left. }
  destruct (m_rirbuilder r).
  - wp_step; [|by apply Hpost]. wp_step. wp_step.
    destruct (config_statuses _ _); cbn [keep_fault]; [by apply Hpost|by left..].
  - wp_step. wp_step. destruct (single_answer _ _ _ _ _) as [cia| |]; cbn [keep_fault]; [|by left..].
    wp_step. eapply wp_mono; [apply wp_send_answer|].
    intros o s2 (_ & _ & _ & [[-> Ha]|(-> & -> & _)]); cbn [keep_fault]; [|by left].
    wp_step. eapply wp_mono; [apply wp_registerStatResult|].
    intros o s3 (-> & [Ha3 _] & _); cbn [keep_fault]. wp_step. right. split; [|done].
    change (answered s3 = S a0). congruence.
Qed.

(** Whatever the request, the database, the peers and the MMEs' answers that
    follow, a Configuration-Information-Request is answered at most once. *)
Theorem cir_answered_at_most_once cir l s :
  let '(o, s') := (_ ← process u v answer_base cir; answered_by u answer_base l) s in
  (answered s' <= S (answered s))%nat.
Proof.
  change (wp (_ ← process u v answer_base cir; answered_by u answer_base l)
    (λ _ s', (answered s' <= S (answered s))%nat) s).
  wp_step. eapply wp_mono; [apply wp_process|]. intros o s1 Hend.
  assert (answers_from (answered s) s1) as Hs1.
  { destruct Hend as [s1 Hend|imsis s1 Hend|s1 Ha Hd|o s1 _ Hs]; [| |by right|].
    - inversion Hend as [? ? ? Ha Hd|? ? Hs|? ? ? Hs|? ? ? Hs]; subst; [by right|left; apply Hs..].
    - inversion Hend as [? ? ? ? ? ? ? ? ? ? ? Ha Hd|? ? ? Hs]; subst; [by right|left; apply Hs].
    - left. apply Hs. }
  assert (∀ s', answers_from (answered s) s' → (answered s' <= S (answered s))%nat) as Hle
    by (intros s' [->|[-> _]]; lia).
  destruct o; cbn [keep_fault]; [|by apply Hle..].
  eapply wp_mono; [|intros ? s' Hs'; apply Hle; exact Hs'].
  apply (wp_for_each (answers_from (answered s))); [|done]. intros x s2. apply wp_anscb.
Qed.

(** C12: When the messages can be sent, a request whose processing returns is
    answered, or an Insert-Subscriber-Data-Request to the subscriber's MME is
    awaited whose answer, once processed, has the request answered. *)
Theorem cir_answered_or_awaiting cir s s' :
  (∀ m, fd_msg_send m = 0) → pending s = [] → req_deleted s = false →
  process u v answer_base cir s = (Ok tt, s') →
  answered s' = S (answered s) ∨
  (answered s' = answered s ∧ ∃ r, pending s' = [r] ∧ ∀ ida s'',
     Idr.anscb u answer_base 0 ida s' = (Ok tt, s'') →
     answered s'' = S (answered s) ∧ pending s'' = []).
Proof.
  intros Hsend Hp Hd E. pose proof (wp_run _ _ _ _ _ (wp_process cir s) E) as Hend.
  inversion Hend as [? Hs|? ? Hg|? Ha|]; subst; [|by inversion Hg; auto|by left|done].
  inversion Hs as [? _ _ Ha _|r ? Hsil Hpend Hr Hb|m ? Hm| ]; subst; [by left| |by rewrite Hsend in Hm|done].
  right. split; [apply Hsil|]. exists r. rewrite Hp in Hpend. cbn in Hpend. split; [done|]. intros ida s2 E2.
  assert (wp (Idr.anscb u answer_base 0 ida) (λ o s2, o = Ok tt →
    answered s2 = S (answered s) ∧ pending s2 = []) s') as Hwp; [|exact (wp_run _ _ _ _ _ Hwp E2 eq_refl)].
  unfold Idr.anscb. wp_step. wp_step. cbn [keep_fault]. rewrite Hpend.
  change ([r] !! 0%nat) with (Some r). cbn iota.
  wp_step. wp_step. cbn [keep_fault]. unfold Idr.processAnswer. wp_step. wp_step. cbn [keep_fault].
  assert (req_deleted s' = false) as Hd' by (by rewrite (si_deleted _ _ Hsil)).
  match goal with |- wp (if ?b then _ else _) _ _ => change b with (req_deleted s') end. rewrite Hd'.
  wp_step. eapply wp_mono; [apply wp_ida_result|]. intros o s1 (Hs1 & Hp1 & _).
  destruct o as [code| |]; cbn [keep_fault]; [|done..]. rewrite Hr.
  wp_step. wp_step. destruct (single_answer _ _ _ _ _) as [cia| |]; cbn [keep_fault]; [|done..].
  wp_step. eapply wp_mono; [apply wp_send_answer|].
  intros o s3 (Hp3 & _ & _ & [[-> Ha]|(-> & -> & _)]); cbn [keep_fault]; [|done].
  wp_step. eapply wp_mono; [apply wp_registerStatResult|].
  intros o s4 (-> & [Ha4 _] & Hp4 & _); cbn [keep_fault]. wp_step. intros _. split.
  - change (answered s4 = S (answered s)). rewrite Ha4, Ha, (si_answers _ _ Hs1).
    change (S (answered s') = S (answered s)). by rewrite (si_answers _ _ Hsil).
  - change (pending s4 = []). by rewrite Hp4, Hp3, Hp1.
Qed.

(** C15: Once the request of a group has been processed, its object is deleted: the
    answer of an MME to any of its Insert-Subscriber-Data-Requests is then
    processed with a reference to a deleted object. *)
Theorem group_answer_use_after_free cir s s' t i r ida :
  builder s = None → process u v answer_base cir s = (Ok tt, s') → builder s' = Some t →
  pending s' !! i = Some r →
  ∃ s'', Idr.anscb u answer_base i ida s' = (UB, s'').
Proof.
  intros Hb E Hb' Hi. pose proof (wp_run _ _ _ _ _ (wp_process cir s) E) as Hend.
  assert (req_deleted s' = true) as Hd.
  { inversion Hend as [? Hs|? ? Hg|? Ha|]; subst; [|by inversion Hg|done|done].
    inversion Hs; subst; congruence. }
  unfold Idr.anscb, Idr.processAnswer, gets, mbind, M_bind, modify. rewrite Hi. cbn. rewrite Hd. by eexists.
Qed.

(** *** A group none of whose subscribers can be reached *)

Lemma distributed_all map imsis rs l :
  (∀ m, fd_msg_send m = 0) → distributed map imsis rs l → l = [] →
  Rir.r_imsi <$> rs = imsis ∧ Forall (λ r, Rir.r_mme_response r = None) rs.
Proof.
  intros Hsend. induction 1 as [|imsi why msisdn imsis rs l _ IH| |m]; intros Hl;
    [by split|..|done|by rewrite Hsend in *].
  destruct (IH Hl) as [<- Hall]. split; [done|]. by constructor.
Qed.


(** An MSISDN of more than ten digits, which a request may carry, makes the
    handler write past the buffer on its stack, whatever the database holds. *)
Theorem cir_long_msisdn_overflow cir ds de s :
  length (u_msisdnchar v) = (MSISDN_LEN + 1)%nat →
  user_field cir "MSISDN" = Ok (Some (AvpOctets de (Tbcd.pack ds))) →
  FDAvp.getDataType de = FDAvp.DDTOctetString → Forall Tbcd.is_digit ds →
  (10 < length ds <= 20)%nat →
  process u v answer_base cir s = (UB, s).
Proof.
  intros Hv Hf Hde Hds Hlen. unfold process.
  assert (users u v answer_base cir s = (UB, s)) as Hu; [|unfold mbind, M_bind, catch; by rewrite Hu].
  unfold users, mbind, M_bind, lift. rewrite Hf. unfold get_bytes, FDAvp.get_bytes. cbn [avp_de].
  rewrite Hde. cbn [FDAvp.octets mbind outcome_bind]. rewrite Tbcd.pack_length.
  assert (Tbcd.packed_length (length ds) <= MSISDN_LEN)%nat as Hpack.
  { unfold Tbcd.packed_length, MSISDN_LEN. change 10%nat with (21 / 2)%nat.
    apply Nat.Div0.div_le_mono. lia. }
  rewrite decide_False by lia. cbn [mret outcome_ret].
  assert (take (Tbcd.packed_length (length ds)) (memcpy (u_msisdn v) (Tbcd.pack ds)) = Tbcd.pack ds) as ->.
  { rewrite <- Tbcd.pack_length. unfold memcpy. by rewrite take_app_length. }
  unfold Tbcd.tbcd2str. rewrite <- Hv. rewrite Tbcd.tbcd2str_loop_odd_overflow; rewrite ?Hv;
    unfold MSISDN_LEN; (done || lia).
Qed.

(** The answer for a subscriber whose MME cannot be asked has one status for every
    event, in the order of the map; a long-term event keeps the result the
    database gave it, and every other result is reported as 5012 -- also that of a
    deletion which failed because the event does not exist. *)
Theorem single_unreachable_answer cir imsi msisdn s map cfgs ret s1 s2 :
  (∀ m, fd_msg_send m = 0) →
  processHssDb cir msisdn s = (Ok map, s1) → configurations cir = Ok cfgs →
  Idr.sendINSDRreq u cfgs imsi map false s1 = (Ok ret, s2) →
  ret = MME_DOWN ∨ ret = IMSI_NOT_ACTIVE →
  ∃ s', processSimpleImsi u answer_base cir imsi msisdn s = (Ok tt, s') ∧
    World.wire (c_world s') = World.wire (c_world s2) ++ [SentAnswer (answer_base ++ fd_origin
      ++ [AvpU32 "Auth-Session-State" 1; AvpU32 "Result-Code" ER_DIAMETER_SUCCESS]
      ++ ((λ x, unreachable_status x.2) <$> map)
      ++ (if ret =? IMSI_NOT_ACTIVE then [AvpU32 "S6t-HSS-Cause" ABSENT_SUBSCRIBER] else []))] ∧
    ∀ k st, (k, st) ∈ map →
      unreachable_status st = cfg_status (st <| result :=
        if decide (isLongTermEvt st = true) then result st else DIAMETER_UNABLE_TO_COMPLY |>) ∧
      (result st = DIAMETER_ERROR_CONFIGURATION_EVENT_NON_EXISTANT →
       unreachable_status st = cfg_status (st <| result := DIAMETER_UNABLE_TO_COMPLY |>)).
Proof.
  intros Hsend Hmap Hcfgs Hret Hr.
  pose proof (wp_run _ _ _ _ _ (wp_processHssDb cir msisdn s) Hmap) as (_ & ks & _ & _ & Hok & _).
  unfold processSimpleImsi. rewrite (bind_Ok _ _ _ _ _ Hmap).
  erewrite bind_Ok by (unfold lift; by rewrite Hcfgs). rewrite (bind_Ok _ _ _ _ _ Hret).
  assert ((ret =? MME_DOWN) || (ret =? IMSI_NOT_ACTIVE) = true) as -> by (by destruct Hr as [->| ->]).
  unfold Idr.on_world, World.send_answer, delete_req, count_cir, World.registerStatResult, zoom,
    FDMessage.send, mbind, M_bind, lift, modify. rewrite Hsend. cbn -[FDMessage.string_avp].
  eexists. split; [reflexivity|]. split; [done|]. intros k st Hin. unfold unreachable_status. split.
  - destruct (isLongTermEvt st) eqn:El; [|done]. rewrite decide_True by done. by destruct st.
  - intros Hres. rewrite Forall_forall in Hok. destruct (Hok _ Hin) as [_ Hst]. cbn [fst snd] in Hst.
    rewrite Hres in Hst. destruct (isLongTermEvt st); [by destruct Hst|done].
Qed.

End Answers.
End CirFacts.

(** ** A group of two subscribers that are not attached, and single subscribers *)

Module CirWitness.
Import ScriptedCassandra WitnessFreeDiameter EventStatus Idr Cir CirFacts.

#[local] Instance peers : Peers := {|
  fd_peer_getbyid _ := 0;
  fd_peer_get_state host := if String.eqb host "mme.epc" then STATE_OPEN else STATE_CLOSED |}.

Definition u : Idr.uninit := Idr.mk_uninit (DAImsiInfo.uninit 0 0 0) 0.
Definition v : locals := mk_locals (replicate 10 0) (replicate 11 0).

(** One event to delete, a long-term event and a one-shot event to configure. *)
Definition cfg1 : list avp :=
  [AvpStr "SCEF-ID" "scef.epc"; AvpU32 "SCEF-Reference-ID-for-Deletion" 7;
   AvpU32 "SCEF-Reference-ID" 1; AvpU32 "Maximum-Number-of-Reports" 5; AvpU32 "Monitoring-Type" 2].
Definition cfg2 : list avp :=
  [AvpStr "SCEF-ID" "scef.epc"; AvpU32 "SCEF-Reference-ID" 2; AvpU32 "Monitoring-Type" 2].
Definition cir (user : avp) : message :=
  [AvpStr "Origin-Host" "scef.epc"; AvpStr "Origin-Realm" "epc";
   AvpGroup "User-Identifier" [user];
   AvpGroup "Monitoring-Event-Configuration" cfg1; AvpGroup "Monitoring-Event-Configuration" cfg2].
Definition group_cir : message := cir (AvpStr "External-Identifier" "meters").
Definition single_cir (digits : bytes) : message := cir (AvpOctets "MSISDN" (Tbcd.pack digits)).

Definition subscriber (imsi status host : string) (msisdn : Z) : future := one_row
  [("imsi", Text imsi); ("mmehost", Text host); ("mmerealm", Text "epc");
   ("ms_ps_status", Text status); ("subscription_data", Text "sub"); ("msisdn", Int msisdn);
   ("visited_plmnid", Text ""); ("access_restriction", Int 0); ("mmeidentity_idmmeidentity", Int 1)].
Definition done_ : future := mk_future 0 [] true.

(** No event 7; the insertions; the rest of the script. *)
Definition state_of (replies : list future) : Idr.state (G := unit) :=
  Idr.mk (World.mk (DataAccess.mk_db (mk_script replies []) []) [] [] (Auc.Random.Build_state 0 tt))
    [] None false.
Definition group_state : Idr.state (G := unit) := state_of
  ([done_; done_; done_]
   ++ [subscriber "208930000000001" "PURGED" "" 33612345; subscriber "208930000000002" "PURGED" "" 33612346]).
Definition single_state (status host : string) : Idr.state (G := unit) := state_of
  ([done_; done_; done_] ++ [subscriber "208930000000001" status host 33612345]).

Lemma cir_sends : ∀ m, fd_msg_send m = 0.
Proof. done. Qed.

Definition imsis : list string := ["208930000000001"; "208930000000002"]%string.
Definition group_after : Idr.state (G := unit) :=
  (processMultiImsi u [] group_cir imsis group_state).2.
Lemma group_run : processMultiImsi u [] group_cir imsis group_state = (Ok tt, group_after).
Proof. by vm_compute. Qed.
Lemma group_none_pending : pending group_after = [].
Proof. by vm_compute. Qed.


Definition hss_map : EvenStatusMap :=
  match (processHssDb group_cir 0 group_state).1 with Ok m => m | _ => [] end.
Definition hss_after : Idr.state (G := unit) := (processHssDb group_cir 0 group_state).2.
Lemma hss_run : processHssDb group_cir 0 group_state = (Ok hss_map, hss_after).
Proof. by vm_compute. Qed.

Lemma hssdb_status_of_every_event_witness :
  (λ x, (x.1.2, result x.2)) <$> hss_map = [(1, 2001); (2, 0); (7, 5514)] ∧
  ∃ ks, named_events group_cir = Ok ks ∧ ∀ k, k ∈ StdMap.keys hss_map ↔ k ∈ ks.
Proof.
  split; [by vm_compute|].
  exact (proj2 (proj2 (proj2 (hssdb_status_of_every_event group_cir 0 group_state hss_map hss_after hss_run)))).
Defined.

(** A subscriber in a cell of an MME that is connected. *)
Definition known : future := one_row [("imsi", Text "208930000000001")].
Definition attached_state : Idr.state (G := unit) := state_of
  [known; done_; done_; done_; subscriber "208930000000001" "ATTACHED" "mme.epc" 33612345].
Definition attached_after : Idr.state (G := unit) :=
  (process u v [] (single_cir [3;3;6;1;2;3;4;5]) attached_state).2.
Lemma attached_run :
  process u v [] (single_cir [3;3;6;1;2;3;4;5]) attached_state = (Ok tt, attached_after).
Proof. by vm_compute. Qed.

Lemma cir_answered_or_awaiting_witness :
  answered attached_after = 0%nat ∧ ∃ r, pending attached_after = [r].
Proof.
  assert (answered attached_after = 0%nat) as Ha by (by vm_compute). split; [exact Ha|].
  destruct (cir_answered_or_awaiting u v [] (single_cir [3;3;6;1;2;3;4;5]) attached_state attached_after
    cir_sends eq_refl eq_refl attached_run) as [E|(_ & r & Hr & _)]; [by rewrite Ha in E|by exists r].
Defined.

(** A group with one subscriber there. *)
Definition member_state : Idr.state (G := unit) := state_of
  [known; known; done_; done_; done_; subscriber "208930000000001" "ATTACHED" "mme.epc" 33612345].
Definition member_after : Idr.state (G := unit) := (process u v [] group_cir member_state).2.
Lemma member_run : process u v [] group_cir member_state = (Ok tt, member_after).
Proof. by vm_compute. Qed.
Definition member_thread : Rir.thread :=
  default (Rir.start (Rir.new 0 [] "" "")) (builder member_after).
Definition member_request : IDRRreq :=
  default (mk_idr [] false "" "") (pending member_after !! 0%nat).
Lemma member_builder : builder member_after = Some member_thread.
Proof. by vm_compute. Qed.
Lemma member_pending : pending member_after !! 0%nat = Some member_request.
Proof. by vm_compute. Qed.

Lemma group_answer_use_after_free_witness :
  answered member_after = 1%nat ∧
  ∃ s'', Idr.anscb u [] 0 [AvpU32 "Result-Code" 2001] member_after = (UB, s'').
Proof.
  split; [by vm_compute|].
  exact (group_answer_use_after_free u v [] group_cir member_state member_after member_thread 0
    member_request [AvpU32 "Result-Code" 2001] eq_refl member_run member_builder member_pending).
Defined.

Lemma cir_long_msisdn_overflow_witness :
  process u v [] (single_cir [3;3;6;1;2;3;4;5;6;7;8]) attached_state = (UB, attached_state).
Proof.
  apply (cir_long_msisdn_overflow u v [] (single_cir [3;3;6;1;2;3;4;5;6;7;8])
    [3;3;6;1;2;3;4;5;6;7;8] "MSISDN").
  - done.
  - by vm_compute.
  - by vm_compute.
  - unfold Tbcd.is_digit. repeat constructor; lia.
  - cbn. lia.
Defined.

(** A subscriber that is not attached. *)
Definition away_state : Idr.state (G := unit) := state_of
  [done_; done_; done_; subscriber "208930000000001" "PURGED" "" 33612345].
Definition away_map : EvenStatusMap :=
  match (processHssDb (single_cir [1]) 33612345 away_state).1 with Ok m => m | _ => [] end.
Definition away_after : Idr.state (G := unit) := (processHssDb (single_cir [1]) 33612345 away_state).2.
Lemma away_run : processHssDb (single_cir [1]) 33612345 away_state = (Ok away_map, away_after).
Proof. by vm_compute. Qed.
Definition idr_after : Idr.state (G := unit) :=
  (Idr.sendINSDRreq u [cfg1; cfg2] "208930000000001" away_map false away_after).2.
Lemma idr_run : Idr.sendINSDRreq u [cfg1; cfg2] "208930000000001" away_map false away_after
  = (Ok IMSI_NOT_ACTIVE, idr_after).
Proof. by vm_compute. Qed.
Lemma away_configurations : configurations (single_cir [1]) = Ok [cfg1; cfg2].
Proof. by vm_compute. Qed.

Lemma single_unreachable_answer_witness :
  ∃ s', processSimpleImsi u [] (single_cir [1]) "208930000000001" 33612345 away_state = (Ok tt, s').
Proof.
  destruct (single_unreachable_answer u [] (single_cir [1]) "208930000000001" 33612345 away_state
    away_map [cfg1; cfg2] IMSI_NOT_ACTIVE away_after idr_after cir_sends away_run away_configurations
    idr_run (or_intror eq_refl)) as (s' & E & _).
  by exists s'.
Defined.

(** When the request to the MME cannot be sent, the request is neither answered nor
    awaits anything. *)
Definition deaf_stack : FreeDiameter := {|
  dict_known := @dict_known plain_stack; avp_basetype := @avp_basetype plain_stack;
  derived_type := @derived_type plain_stack; fd_origin := @fd_origin plain_stack;
  fd_msg_send m := if decide ("User-Name"%string ∈ avp_de <$> m) then 1 else 0;
  fd_msg_avp_add := @fd_msg_avp_add plain_stack;
  ER_DIAMETER_SUCCESS := @ER_DIAMETER_SUCCESS plain_stack;
  ER_DIAMETER_INVALID_AVP_VALUE := @ER_DIAMETER_INVALID_AVP_VALUE plain_stack;
  ER_DIAMETER_MISSING_AVP := @ER_DIAMETER_MISSING_AVP plain_stack;
  fd_session_id := @fd_session_id plain_stack; octets_as_u32 := @octets_as_u32 plain_stack;
  inet_ntop4 := @inet_ntop4 plain_stack; inet_ntop6 := @inet_ntop6 plain_stack;
  inet_pton4 := @inet_pton4 plain_stack; inet_pton6 := @inet_pton6 plain_stack;
  json_parse := @json_parse plain_stack; json_write := @json_write plain_stack;
  fd_zone := @fd_zone plain_stack; fd_now := @fd_now plain_stack |}.

Lemma cir_lost_when_idr_cannot_be_sent :
  let '(o, s') := @process _ deaf_stack _ unit u v [] (single_cir [3;3;6;1;2;3;4;5]) attached_state in
  o = Ok tt ∧ answered s' = 0%nat ∧ pending s' = [] ∧ builder s' = None.
Proof. by vm_compute. Qed.

End CirWitness.
