(* ===== verification/Nir.v ===== *)
(** * NIDD-Information-Request and the answers to reports (S6t)

    Models [NIIRcmd::process], [checkAPNSubscribed] and
    [REIRreq::processAnswer] of src/s6t_impl.cpp: the authorisation of a
    subscriber for delivery of data that is not IP. *)

From S2P Require Import Prelude Cxx Codec Json Diameter FdJson DataAccess.
From S2P Require Import World Schemas Proc Monitoring Rir Idr Cir.
#[local] Open Scope Z_scope.

Module Nir.
Import FDExtractor.

Section Nir.
Context `{Cassandra} `{FreeDiameter} {D G : Type}.

(** The arrays on the stack, before they are assigned; the order in which the
    look-up of an access point walks its map. *)
Record locals := mk_locals {
  u_msisdn : bytes; u_msisdnchar : bytes; u_imsi : bytes; u_imsichar : bytes; u_tbcd : bytes }.
Variables (u : locals) (bucket_order : list (string * string) → list (string * string)).

Abbreviation world := (World.world D G).

Definition nir_field (req : message) (k : avp_name) : outcome (option avp) :=
  field S6t.NiddInformationRequestExtractor req k.
Definition user_field (req : message) (k : avp_name) : outcome (option avp) :=
  subfield S6t.NiddInformationRequestExtractor req "User-Identifier" S6t.UserIdentifierExtractor k.
Definition nidd_field (req : message) (k : avp_name) : outcome (option avp) :=
  subfield S6t.NiddInformationRequestExtractor req "NIDD-Authorization-Request"
    S6t.NiddAuthorizationRequestExtractor k.

Definition checkAPNSubscribed (imsi apn : string) : M world bool :=
  '(found, data) ← World.on_db (DataAccess.getSubDataFromImsi imsi "");
  if negb found then mret false
  else
    '(found, subscribed) ← lift (FdJson.fdJsonGetApnValueFromSubData bucket_order data "");
    mret (found && String.eqb apn subscribed).

(** Whether the access point asked for is not the subscribed one. *)
Definition apn_refused (req : message) (imsi : string) : M world bool :=
  a ← lift (nidd_field req "Service-Selection");
  '(has, apn) ← lift (get_string a "");
  if (has : bool) then ok ← checkAPNSubscribed imsi apn; mret (negb ok) else mret false.

(** The validity time asked for, and where the HSS will send later changes: the
    destination goes to the subscriber whose IMSI is in [imsichar]. *)
Definition store_validity (req : message) (imsi : string) (imsichar : bytes) : M world unit :=
  a ← lift (nidd_field req "Requested-Validity-Time");
  '(has, reqValidTime) ← lift (get_string a "");
  if negb has then mret tt
  else
    _ ← World.on_db (DataAccess.UpdateValidityTime imsi reqValidTime);
    a ← lift (nir_field req "Origin-Host");
    '(has_host, host) ← lift (get_string a "");
    if negb has_host then mret tt
    else
      a ← lift (nir_field req "Origin-Realm");
      '(has_realm, realm) ← lift (get_string a "");
      if negb has_realm then mret tt
      else
        dest ← lift (c_string imsichar);
        World.on_db (DataAccess.UpdateNIRDestination (string_of_bytes dest) host realm).

(** An MSISDN of the database, always ten octets. *)
Definition msisdn_avp (msisdn : string) : outcome avp :=
  '(_, buf) ← Tbcd.str2tbcd (bytes_of_string (upto_nul msisdn)) (u_tbcd u);
  mret (AvpOctets "MSISDN" (take MSISDN_LEN buf)).
Definition external_ids (l : list string) : list avp :=
  FDMessage.string_avp "External-Identifier" <$> l.

(** A branch ends with what it adds to the answer and whether it refused. *)
Abbreviation verdict := (message * bool)%type.

Definition by_user_name (req : message) (imsi : bytes) : M world verdict :=
  '(_, imsichar) ← lift (Tbcd.tbcd2str imsi (u_imsichar u) (IMSI_LEN + 1));
  s ← lift (c_string imsichar);
  let s := string_of_bytes s in
  refused ← apn_refused req s;
  '(found, msisdn) ← World.on_db (DataAccess.getMsisdnFromImsi_string s "");
  added ← (if negb found then mret []
           else
             '(found, extids) ← World.on_db (DataAccess.getExtIdsFromImsi s [] None);
             if negb found then mret []
             else
               m ← lift (msisdn_avp msisdn);
               mret [AvpGroup "NIDD-Authorization-Response" (m :: external_ids extids)]);
  _ ← store_validity req s imsichar;
  mret (added, refused).

Definition by_msisdn (req : message) (msisdn : bytes) : M world verdict :=
  '(_, msisdnchar) ← lift (Tbcd.tbcd2str msisdn (u_msisdnchar u) (MSISDN_LEN + 1));
  s ← lift (c_string msisdnchar);
  '(found, imsi) ← World.on_db (DataAccess.getImsiFromMsisdn_string (string_of_bytes s) "");
  if negb found then mret ([], false)
  else
    refused ← apn_refused req (upto_nul imsi);
    '(found, extids) ← World.on_db (DataAccess.getExtIdsFromImsi imsi [] None);
    let ga := FDMessage.string_avp "User-Name" imsi
              :: if (found : bool) then external_ids extids else [] in
    _ ← store_validity req imsi (u_imsichar u);
    mret ([AvpGroup "NIDD-Authorization-Response" ga], refused).

(** The loop over the group that looks for a subscriber without the access
    point; all are looked up. *)
Fixpoint any_refused (req : message) (imsis : list string) : M world bool :=
  match imsis with
  | [] => mret false
  | imsi :: imsis' =>
      r ← apn_refused req (upto_nul imsi);
      r' ← any_refused req imsis';
      mret ((r : bool) || r')
  end.

(** The loop that fills a response nobody adds to the answer. *)
Fixpoint group_members (req : message) (imsis : list string) (msisdn : string) : M world unit :=
  match imsis with
  | [] => mret tt
  | imsi :: imsis' =>
      '(found, msisdn) ← World.on_db (DataAccess.getMsisdnFromImsi_string imsi msisdn);
      _ ← (if (found : bool) then _ ← lift (msisdn_avp msisdn); mret tt else mret tt);
      _ ← store_validity req imsi (u_imsichar u);
      group_members req imsis' msisdn
  end.

Definition by_external_identifier (req : message) (s : string) : M world verdict :=
  '(found, imsis) ← World.on_db (DataAccess.getImsiListFromExtId s []);
  if negb found then mret ([], false)
  else
    refused ← any_refused req imsis;
    _ ← group_members req imsis "";
    mret ([], refused).

(** The subscriber of the request: [None] when it names none. *)
Definition identify (req : message) : M world (option verdict) :=
  a ← lift (user_field req "User-Name");
  '(has, imsi, len) ← lift (get_bytes a (u_imsi u) IMSI_LEN);
  if (has : bool) then r ← by_user_name req (take len imsi); mret (Some r)
  else
    a ← lift (user_field req "MSISDN");
    '(has, msisdn, len) ← lift (get_bytes a (u_msisdn u) MSISDN_LEN);
    if (has : bool) then r ← by_msisdn req (take len msisdn); mret (Some r)
    else
      a ← lift (user_field req "External-Identifier");
      '(has, s) ← lift (get_string a "");
      if (has : bool) then r ← by_external_identifier req s; mret (Some r) else mret None.

(** [result_code] and [experimental] at the end. *)
Definition result (r : option verdict) : Z * bool :=
  match r with
  | None => (DIAMETER_ERROR_USER_UNKNOWN, true)
  | Some (_, refused) =>
      if (refused : bool) then (DIAMETER_ERROR_USER_NO_APN_SUBSCRIPTION, true)
      else (DIAMETER_SUCCESS, false)
  end.

Definition base_answer (ans : message) : message :=
  ans ++ fd_origin ++ [AvpU32 "Auth-Session-State" 1; AvpU32 "Result-Code" ER_DIAMETER_SUCCESS].
Definition added (r : option verdict) : message := from_option fst [] r.

(** [ans] is what the stack copies from the request. *)
Definition process (req ans : message) : M world unit :=
  r ← identify req;
  let '(code, experimental) := result r in
  _ ← World.send_answer (base_answer ans ++ added r ++ [handleGlobalErrorCode code experimental]);
  World.registerStatResult stat_hss_nir (if (experimental : bool) then VENDOR_3GPP else 0) code.

(** [REIRreq::processAnswer]: a result that is not a Result-Code is counted among
    those of Insert-Subscriber-Data. *)
Definition ria_processAnswer (ria : message) : M world unit :=
  a ← lift (field S6t.ReportingInformationAnswerExtractor ria "Result-Code");
  '(has, code) ← lift (get_u32 a 0);
  if (has : bool) then World.registerStatResult stat_hss_rir 0 code
  else
    v ← lift (subfield S6t.ReportingInformationAnswerExtractor ria "Experimental-Result"
                S6t.ExperimentalResultExtractor "Vendor-Id");
    '(_, vendor) ← lift (get_u32 v 0);
    c ← lift (subfield S6t.ReportingInformationAnswerExtractor ria "Experimental-Result"
                S6t.ExperimentalResultExtractor "Experimental-Result-Code");
    '(_, code) ← lift (get_u32 c 0);
    World.registerStatResult stat_hss_idr vendor code.

End Nir.
End Nir.

Module NirFacts.
Import FDExtractor Nir.

(** *** The access point of a subscription *)

(** A document without the contents of its arrays. *)
Fixpoint without_arrays (v : json) : json :=
  match v with
  | JArray _ => JArray []
  | JObject ms => JObject ((fix go ms := match ms with
                                         | [] => []
                                         | (k, v) :: ms' => (k, without_arrays v) :: go ms'
                                         end) ms)
  | _ => v
  end.
Definition members_without_arrays (ms : list (string * json)) : list (string * json) :=
  (λ x, (x.1, without_arrays x.2)) <$> ms.

Lemma parse_without_arrays v : ∀ scope name,
  FdJson.parseRecursive scope name v = FdJson.parseRecursive scope name (without_arrays v).
Proof.
  induction v as [| | | | | |ms IH] using json_nested_ind; intros scope name; try done.
  cbn [without_arrays FdJson.parseRecursive].
  set (sc := if String.eqb scope "" then _ else _). clearbody sc.
  induction IH as [|[k v] ms Hv _ IHms]; [done|]. cbn in *. by rewrite Hv, IHms.
Qed.

Section NirFacts.
Context `{Cassandra} `{FreeDiameter} {D G : Type}.
Variables (u : locals) (bucket_order : list (string * string) → list (string * string)).
Implicit Types wd : World.world D G.

(** A database operation changes the database alone. *)
Definition db_only wd wd' : Prop := ∃ d, wd' = wd <| World.database := d |>.
Lemma nir_db_only_refl wd : db_only wd wd.
Proof. exists (World.database wd). by destruct wd. Qed.
Lemma nir_db_only_trans w1 w2 w3 : db_only w1 w2 → db_only w2 w3 → db_only w1 w3.
Proof. intros [d1 ->] [d2 ->]. by exists d2. Qed.
#[local] Hint Resolve nir_db_only_refl : core.

Lemma nir_wp_db {A} (m : M (DataAccess.db D) A) (Q : outcome A → World.world D G → Prop) wd0 wd :
  db_only wd0 wd → (∀ o wd', db_only wd0 wd' → Q o wd') → wp (World.on_db m) Q wd.
Proof.
  intros Hdb HQ. unfold World.on_db. apply wp_zoom. unfold wp. destruct (m _) as [o d]. apply HQ.
  eapply nir_db_only_trans; [exact Hdb|by exists d].
Qed.

(** What an array of the subscription holds is never looked at: the access point
    that is found, or not found, is the one of the document without the contents
    of its arrays. *)
Theorem apn_lookup_ignores_arrays data ms apn data' :
  json_parse (upto_nul data) = Some (JObject ms) →
  json_parse (upto_nul data') = Some (JObject (members_without_arrays ms)) →
  FdJson.fdJsonGetApnValueFromSubData bucket_order data apn
  = FdJson.fdJsonGetApnValueFromSubData bucket_order data' apn.
Proof.
  intros H1 H2. unfold FdJson.fdJsonGetApnValueFromSubData. rewrite H1, H2.
  assert (flat_map (λ x, FdJson.parseRecursive "" x.1 x.2) (members_without_arrays ms)
          = flat_map (λ x, FdJson.parseRecursive "" x.1 x.2) ms) as ->; [|done].
  unfold members_without_arrays. clear. induction ms as [|[k v] ms IH]; [done|]. cbn.
  by rewrite <- parse_without_arrays, IH.
Qed.

(** The three results: success, no subscription to the access point, no
    subscriber named. *)
Definition verdicts : list (Z * bool) :=
  [(DIAMETER_SUCCESS, false); (DIAMETER_ERROR_USER_NO_APN_SUBSCRIPTION, true);
   (DIAMETER_ERROR_USER_UNKNOWN, true)].

(** Every part of the handler that runs before the answer. *)
Definition quietly {A} (m : M (World.world D G) A) : Prop := ∀ wd, wp m (λ _ wd', db_only wd wd') wd.

Lemma quietly_ret {A} (x : A) : quietly (mret x).
Proof. intros wd. by wp_step. Qed.
Lemma quietly_lift {A} (o : outcome A) : quietly (lift o).
Proof. intros wd. by wp_step. Qed.
Lemma quietly_db {A} (m : M (DataAccess.db D) A) : quietly (World.on_db m).
Proof. intros wd. by apply (nir_wp_db _ _ wd). Qed.
Lemma quietly_bind {A B} (m : M (World.world D G) A) (f : A → M (World.world D G) B) :
  quietly m → (∀ x, quietly (f x)) → quietly (m ≫= f).
Proof.
  intros Hm Hf wd. wp_step. eapply wp_mono; [apply Hm|]. intros [x| |] w1 Hw; cbn [keep_fault]; [|done..].
  eapply wp_mono; [apply Hf|]. intros o w2 Hw2. by eapply nir_db_only_trans.
Qed.

Ltac quiet :=
  repeat first
    [ apply quietly_bind; [|intros ?] | apply quietly_lift | apply quietly_db | apply quietly_ret
    | match goal with |- quietly (let '(_, _) := ?x in _) => destruct x end
    | match goal with |- quietly (if ?b then _ else _) => destruct b end ].

Lemma apn_refused_quietly req imsi : quietly (apn_refused bucket_order req imsi).
Proof. unfold apn_refused, checkAPNSubscribed. quiet. Qed.
Lemma store_validity_quietly req imsi chars : quietly (store_validity req imsi chars).
Proof. unfold store_validity. quiet. Qed.
Lemma any_refused_quietly req imsis : quietly (any_refused bucket_order req imsis).
Proof.
  induction imsis as [|imsi imsis IH]; cbn [any_refused]; [quiet|].
  apply quietly_bind; [apply apn_refused_quietly|intros ?]. apply quietly_bind; [exact IH|intros ?]. quiet.
Qed.
Lemma group_members_quietly req imsis msisdn : quietly (group_members u req imsis msisdn).
Proof.
  revert msisdn. induction imsis as [|imsi imsis IH]; intros msisdn; cbn [group_members]; [quiet|].
  quiet; try (apply store_validity_quietly); apply IH.
Qed.

Lemma identify_quietly req : quietly (identify u bucket_order req).
Proof.
  unfold identify, by_user_name, by_msisdn, by_external_identifier. quiet;
    try apply apn_refused_quietly; try apply store_validity_quietly;
    try apply any_refused_quietly; apply group_members_quietly.
Qed.

Lemma handle_error_vendor v : v ∈ verdicts →
  handleGlobalErrorCode v.1 v.2 =
  if decide (v.1 = DIAMETER_ERROR_USER_UNKNOWN) then FDMessage.experimental_result v.1
  else FDMessage.result_code v.1.
Proof.
  unfold verdicts. rewrite !elem_of_cons. intros [->|[->|[->|[]%elem_of_nil]]]; done.
Qed.

(** When [NIIRcmd::process] returns, it has sent exactly one answer, with two
    results: the success that every answer starts with and, at its end, the real
    one; when it throws or goes wrong it has sent nothing. *)
Theorem nir_answer_has_two_results req ans wd :
  let '(o, wd') := process u bucket_order req ans wd in
  match o with
  | Ok _ => ∃ (v : Z * bool) mid, v ∈ verdicts ∧
      World.wire wd' = World.wire wd ++ [SentAnswer (ans ++ fd_origin
        ++ [AvpU32 "Auth-Session-State" 1; AvpU32 "Result-Code" ER_DIAMETER_SUCCESS]
        ++ mid ++ [if decide (v.1 = DIAMETER_ERROR_USER_UNKNOWN) then FDMessage.experimental_result v.1
                   else FDMessage.result_code v.1])] ∧
      World.stats wd' = World.stats wd
        ++ [(stat_hss_nir, if v.2 then VENDOR_3GPP else 0, v.1)]
  | _ => World.wire wd' = World.wire wd
  end.
Proof.
  change (wp (process u bucket_order req ans) (λ o wd', match o with
    | Ok _ => ∃ (v : Z * bool) mid, v ∈ verdicts ∧
        World.wire wd' = World.wire wd ++ [SentAnswer (ans ++ fd_origin
          ++ [AvpU32 "Auth-Session-State" 1; AvpU32 "Result-Code" ER_DIAMETER_SUCCESS]
          ++ mid ++ [if decide (v.1 = DIAMETER_ERROR_USER_UNKNOWN) then FDMessage.experimental_result v.1
                     else FDMessage.result_code v.1])] ∧
        World.stats wd' = World.stats wd
          ++ [(stat_hss_nir, if v.2 then VENDOR_3GPP else 0, v.1)]
    | _ => World.wire wd' = World.wire wd end) wd).
  unfold process. wp_step. eapply wp_mono; [apply identify_quietly|].
  intros [r| |] w1 [d ->]; cbn [keep_fault]; [|done..].
  assert (result r ∈ verdicts) as Hv.
  { unfold result, verdicts. destruct r as [[? []]|]; set_solver. }
  destruct (result r) as [code experimental] eqn:Er.
  unfold World.send_answer, World.registerStatResult. wp_steps; cbn -[FDMessage.experimental_result]; try done.
  exists (code, experimental), (added r). split; [done|]. rewrite <- (handle_error_vendor _ Hv).
  unfold base_answer. by rewrite <- !app_assoc.
Qed.

(** A request that names its subscriber by User-Name, an AVP whose type is not a
    plain OctetString, is told that the subscriber is unknown: the database is
    not asked. *)
Theorem nir_user_name_ignored req ans a wd :
  (∀ m, fd_msg_send m = 0) →
  user_field req "User-Name" = Ok (Some a) → FDAvp.getDataType (avp_de a) ≠ FDAvp.DDTOctetString →
  user_field req "MSISDN" = Ok None → user_field req "External-Identifier" = Ok None →
  process u bucket_order req ans wd =
  (Ok tt, wd <| World.wire ::= (λ l, l ++ [SentAnswer (base_answer ans
                 ++ [FDMessage.experimental_result DIAMETER_ERROR_USER_UNKNOWN])]) |>
             <| World.stats ::= (λ l, l ++ [(stat_hss_nir, VENDOR_3GPP, DIAMETER_ERROR_USER_UNKNOWN)]) |>).
Proof.
  intros Hsend Ha Hty Hm He. unfold process.
  assert (identify u bucket_order req wd = (Ok None, wd)) as Hid.
  { unfold identify, mbind, M_bind, lift. rewrite Ha. cbn [get_bytes].
    unfold FDAvp.get_bytes. destruct (FDAvp.getDataType (avp_de a)); try done; cbn; by rewrite Hm, He. }
  rewrite (bind_Ok _ _ _ _ _ Hid). cbn -[FDMessage.experimental_result World.send_answer].
  unfold World.send_answer, FDMessage.send, World.registerStatResult, mbind, M_bind, lift, modify.
  by rewrite Hsend.
Qed.

Lemma string_of_integer_column (r : gmap string cass_value) col (dest : string) val :
  r !! col = Some val → cass_value_is_null val = false → cass_value_get_string val = None →
  DataAccess.GET_EVENT_DATA DataAccess.get_string r col dest = Throw DAException.
Proof.
  intros Hval Hnull Hget. unfold DataAccess.GET_EVENT_DATA, DataAccess.get_string.
  by rewrite Hval, Hnull, Hget.
Qed.

Lemma any_refused_nothing req imsis wd :
  nidd_field req "Service-Selection" = Ok None →
  any_refused bucket_order req imsis wd = (Ok false, wd).
Proof.
  intros Hs. induction imsis as [|imsi imsis IH]; [done|]. cbn [any_refused].
  assert (apn_refused bucket_order req (upto_nul imsi) wd = (Ok false, wd)) as E
    by (unfold apn_refused, mbind, M_bind, lift; by rewrite Hs).
  by rewrite (bind_Ok _ _ _ _ _ E), (bind_Ok _ _ _ _ _ IH).
Qed.

(** A request that names a group by its External-Identifier is not answered when
    the MSISDN of the group's first subscriber is a number in the database: the
    handler reads that column as a string, and the exception leaves [process]. *)
Theorem nir_group_not_answered req ans s imsi imsis wd d1 f sess r val :
  (∃ a, user_field req "User-Name" = Ok a ∧
     get_bytes a (u_imsi u) IMSI_LEN = Ok (false, u_imsi u, IMSI_LEN)) →
  user_field req "MSISDN" = Ok None →
  (∃ a, user_field req "External-Identifier" = Ok a ∧ get_string a "" = Ok (true, s)) →
  nidd_field req "Service-Selection" = Ok None →
  DataAccess.getImsiListFromExtId s [] (World.database wd) = (Ok (true, imsi :: imsis), d1) →
  cass_session_execute (upto_nul ("SELECT msisdn FROM users_imsi where imsi = "
    +:+ quoted (upto_nul imsi) +:+ " ;")) (DataAccess.session d1) = (f, sess) →
  cass_future_error_code f = CASS_OK → DataAccess.firstRow f = Some r →
  r !! "msisdn"%string = Some val → cass_value_is_null val = false → cass_value_get_string val = None →
  ∃ wd', process u bucket_order req ans wd = (Throw DAException, wd') ∧
         World.wire wd' = World.wire wd.
Proof.
  intros (a & Ha & Hg) Hm (e & He & Hgs) Hsel Hl Hex Hcode Hrow Hval Hnull Hget.
  assert (DataAccess.getMsisdnFromImsi_string imsi "" d1
    = (Throw DAException, d1 <| DataAccess.session := sess |>)) as Hmsisdn.
  { unfold DataAccess.getMsisdnFromImsi_string, DataAccess.one_column, DataAccess.execute_or_throw,
      DataAccess.execute, mbind, M_bind, lift. rewrite Hex. unfold DataAccess.failed.
    rewrite Hcode. cbn -[DataAccess.GET_EVENT_DATA]. rewrite Hrow.
    by rewrite (string_of_integer_column _ _ _ _ Hval Hnull Hget). }
  assert (identify u bucket_order req wd = (Throw DAException,
    wd <| World.database := d1 <| DataAccess.session := sess |> |>)) as Hid.
  { unfold identify, mbind, M_bind, lift. rewrite Ha. cbn beta iota. rewrite Hg. cbn beta iota.
    rewrite Hm. cbn [get_bytes mret outcome_ret]. cbn beta iota. rewrite He. cbn beta iota.
    rewrite Hgs. cbn beta iota. unfold by_external_identifier, World.on_db, zoom, mbind, M_bind.
    rewrite Hl. cbn [negb]. rewrite (any_refused_nothing req (imsi :: imsis) _ Hsel).
    cbn [group_members]. unfold mbind, M_bind, World.on_db, zoom.
    cbn -[DataAccess.getMsisdnFromImsi_string]. by rewrite Hmsisdn. }
  eexists. unfold process. rewrite (bind_Throw _ _ _ _ _ Hid). by split.
Qed.

End NirFacts.
End NirFacts.

(** ** A meter that asks by User-Name, a group, a subscription as it is provisioned *)

Module NirWitness.
Import ScriptedCassandra Nir NirFacts.

Definition subscription : list (string * json) :=
  [("Subscription-Data", JObject
     [("APN-Configuration-Profile", JObject
        [("APN-Configuration", JArray [JObject [("Service-Selection", JString "iot")]])])])].
#[local] Instance stack : FreeDiameter := WitnessFreeDiameter.stack_with
  (λ s, if String.eqb s "empty" then Some (JObject (members_without_arrays subscription))
        else Some (JObject subscription)) (λ _, "").

Definition u : locals :=
  mk_locals (replicate 10 0) (replicate 11 0) (replicate 15 0) (replicate 16 0) (replicate 10 0).
Definition world_of (replies : list future) : World.world nat unit :=
  World.mk (DataAccess.mk_db (mk_script replies []) []) [] [] (Auc.Random.Build_state 0 tt).
Definition nir (user : avp) : message := [AvpGroup "User-Identifier" [user]].

Lemma parse_data : json_parse (upto_nul "data") = Some (JObject subscription).
Proof. done. Qed.
Lemma parse_empty : json_parse (upto_nul "empty") = Some (JObject (members_without_arrays subscription)).
Proof. done. Qed.
Lemma apn_lookup_ignores_arrays_witness :
  FdJson.fdJsonGetApnValueFromSubData id "data" "" = Ok (false, ""%string).
Proof.
  rewrite (apn_lookup_ignores_arrays id "data" subscription "" "empty" parse_data parse_empty).
  by vm_compute.
Defined.

Lemma nir_user_name_ignored_witness :
  (process u id (nir (AvpStr "User-Name" "208930000000001")) [] (world_of [])).1 = Ok tt.
Proof.
  rewrite (nir_user_name_ignored u id (nir (AvpStr "User-Name" "208930000000001")) []
    (AvpStr "User-Name" "208930000000001") (world_of [])); [done|done|by vm_compute..].
Defined.

Definition group_world : World.world nat unit := world_of
  [one_row [("imsi", Text "208930000000001")]; one_row [("msisdn", Int 33612345678)]].
Definition d1 : DataAccess.db nat :=
  (DataAccess.getImsiListFromExtId "meters" [] (World.database group_world)).2.

Lemma nir_group_not_answered_witness :
  ∃ wd', process u id (nir (AvpStr "External-Identifier" "meters")) [] group_world
         = (Throw DAException, wd') ∧ World.wire wd' = [].
Proof.
  refine (nir_group_not_answered u id (nir (AvpStr "External-Identifier" "meters")) [] "meters"
    "208930000000001" [] group_world d1 (one_row [("msisdn", Int 33612345678)])
    (mk_script [] ["SELECT imsi FROM extid_imsi WHERE extid ='meters'";
                   "SELECT msisdn FROM users_imsi where imsi = '208930000000001' ;"])
    (list_to_map [("msisdn"%string, Int 33612345678)]) (Int 33612345678) _ _ _ _ _ _ _ _ _ _ _);
    try by vm_compute.
  - eexists. split; [by vm_compute|]. by vm_compute.
  - eexists. split; [by vm_compute|]. by vm_compute.
Defined.

End NirWitness.
