(* ===== verification/Fdhss.v ===== *)
(** * The HSS object and its start-up

    Models the operations of [FDHss] (src/fdhss.cpp) that are not in Work, Rir or
    Idr: the validation of peers, the recomputation of the OPc column
    ([DataAccess::checkOpcKeys] of src/dataaccess.cpp), the resynchronisation by
    hand, the report of a changed IMEI with the REST request that causes it
    (src/resthandler.cpp), and the order in which src/main.cpp runs them. *)

From S2P Require Import Prelude Cxx Calendar Codec Auc Json Diameter DataAccess.
From S2P Require Import World Proc Ulr Rir.
#[local] Open Scope Z_scope.

(** ** Peers *)

Module Peer.
Definition EINVAL : Z := 22.

(** The values of freeDiameter's headers. *)
Class PeerFlags := { PI_SEC_NONE : Z; PI_PRST_NONE : Z }.

Record peer_info := mk_peer { pi_diamid : string; sec : Z; persist : Z }.

Section Peer.
Context `{Cassandra} `{PeerFlags} {D : Type}.

Definition isMmeValid (mmehost : string) : M (DataAccess.db D) bool :=
  '(ok, _) ← DataAccess.getMmeIdFromHost mmehost 0 None; mret ok.

(** The result, [*auth] when it is assigned, and the peer. *)
Definition s6a_peer_validate (info : option peer_info) :
    M (DataAccess.db D) (Z * option Z * option peer_info) :=
  match info with
  | None => mret (EINVAL, None, None)
  | Some i =>
      ok ← isMmeValid (pi_diamid i);
      if negb ok then mret (0, Some (-1), Some i)
      else mret (0, Some 1, Some (i <| sec := PI_SEC_NONE |> <| persist := PI_PRST_NONE |>))
  end.
End Peer.
End Peer.

(** ** The OPc column *)

(** The driver's pages: a statement executed from the start, or from the state a
    result left behind; more pages follow when it leaves one. *)
Class Paging `{Cassandra} := {
  paging_state : Type;
  cass_execute_paged :
    string → option paging_state → cass_session → cass_future * option paging_state * cass_session }.

Module Opc.
Import DataAccess.
Section Opc.
Context `{Paging} {D : Type}.
Abbreviation db := (DataAccess.db D).

Definition opc_query : string := "SELECT imsi,key,OPc from vhss.users_imsi".

(** One row: [updateOpc] of the new value; the stored one is only logged. *)
Definition check_row (opP : bytes) (r : gmap string cass_value) : M db bool :=
  imsi ← lift (GET_EVENT_DATA get_string r "imsi" ""%string);
  key ← lift (GET_EVENT_DATA get_string r "key" ""%string);
  _ ← lift (GET_EVENT_DATA get_string r "OPc" ""%string);
  key_bin ← lift (Hex.convert_ascii_to_binary key KEY_LENGTH);
  updateOpc imsi (Hex.bytes2hex (Milenage.ComputeOPc key_bin opP) OPC_LENGTH 0 false).

Fixpoint check_rows (opP : bytes) (rows : list (gmap string cass_value)) : M db bool :=
  match rows with
  | [] => mret true
  | r :: rows' =>
      ok ← check_row opP r;
      if negb ok then mret false else check_rows opP rows'
  end.

Definition execute_paged (st : option paging_state) : M db (cass_future * option paging_state) := λ s,
  let '(f, more, session') := cass_execute_paged opc_query st (session s) in
  (Ok (f, more), s <| session := session' |>).

(** [while (more_pages)]: [None] when there are more than [fuel] pages. *)
Fixpoint check_pages (fuel : nat) (opP : bytes) (st : option paging_state) : M db (option bool) :=
  match fuel with
  | O => mret None
  | S fuel' =>
      '(f, more) ← execute_paged st;
      if failed f then throw DAException
      else
        ok ← check_rows opP (cass_future_rows f);
        if negb ok then mret (Some false)
        else match more with
             | Some st' => check_pages fuel' opP (Some st')
             | None => mret (Some true)
             end
  end.
Definition checkOpcKeys (fuel : nat) (opP : bytes) : M db (option bool) := check_pages fuel opP None.
(** [FDHss::updateOpcKeys] *)
Definition updateOpcKeys (fuel : nat) (opP : bytes) : M db (option bool) := checkOpcKeys fuel opP.
End Opc.
End Opc.

(** ** Resynchronisation by hand *)

Module Synch.
Import DataAccess.
Section Synch.
Context `{Cassandra} `{FreeDiameter} `{LibcRand G} {D : Type}.
Abbreviation world := (World.world D G).

(** The options [synchimsi] and [synchauts], the configuration's switch, and
    what the uninitialised number holds when its column is null. *)
Variables (synchimsi synchauts : string) (random_bool sqn_nb : Z).

Definition synchFix : M world bool :=
  '(ok, auts) ← lift (Hex.parsehex (upto_nul synchauts) (replicate 31 0) (-1));
  if negb ok then mret false
  else
    '(ok, imsisec) ← World.on_db (getImsiSec sqn_nb synchimsi (DAImsiSec.mk [] [] [] []) None);
    if negb ok then mret false
    else
      match Auc.sqn_ms_derive (DAImsiSec.opc imsisec) (DAImsiSec.key imsisec) auts
              (DAImsiSec.rand imsisec) with
      | Some sqn =>
          rand ← World.generate_random random_bool RAND_LENGTH;
          let sqn := Sqn.U64_TO_SQN (Sqn.union_add (Sqn.SQN_TO_U64 sqn) 32) in
          World.on_db (updateRandSqn synchimsi rand sqn false None)
      | None => mret false
      end.
End Synch.
End Synch.

(** ** A changed IMEI *)

Module ImeiChange.

Record ImsiImeiData := mk_data {
  imsi : string; msisdn : Z; old_imei : string; old_imei_sv : string;
  new_imei : string; new_imei_sv : string }.

Section ImeiChange.
Context `{Cassandra} `{FreeDiameter} {D G : Type}.
Abbreviation world := (World.world D G).

(** The subscriber's record and [msisdn] before they are assigned. *)
Variables (u_info : DAImsiInfo.t) (u_msisdn : bytes).

Definition rir_message (session : nat) (e : DAEvent.t) (data : ImsiImeiData) (msisdn : bytes) : message :=
  [FDMessage.string_avp "Session-Id" (fd_session_id session); AvpU32 "Auth-Session-State" 1]
  ++ fd_origin
  ++ [FDMessage.string_avp "Destination-Host" (DAEvent.scef_id e)]
  ++ match after_dot (DAEvent.scef_id e) with
     | Some realm => [FDMessage.string_avp "Destination-Realm" realm]
     | None => []
     end
  ++ [AvpGroup "User-Identifier"
        [FDMessage.string_avp "User-Name" (imsi data); AvpOctets "MSISDN" msisdn];
      AvpGroup "Monitoring-Event-Report"
        [FDMessage.string_avp "SCEF-ID" (DAEvent.scef_id e);
         AvpU32 "SCEF-Reference-ID" (DAEvent.scef_ref_id e);
         AvpU32 "Monitoring-Type" CHANGE_IMSI_IMEI_SV_ASSN]].

Definition report (data : ImsiImeiData) (e : DAEvent.t) : M world unit :=
  if negb (DAEvent.monitoring_type e =? CHANGE_IMSI_IMEI_SV_ASSN) then mret tt
  else
    n ← gets (λ w, length (World.wire w));
    '(_, msisdn) ← lift (Tbcd.str2tbcd (bytes_of_string (dec (msisdn data))) u_msisdn);
    catch (World.send_request "Reporting-Information-Request" (rir_message n e data (take 5 msisdn)))
      (λ x, if decide (x = FDException) then mret tt else throw x).

Definition sendRIR_ChangeImsiImeiSvAssn (data : ImsiImeiData) : M world unit :=
  evt_list ← World.on_db (DataAccess.getEventsFromImsi (imsi data) u_info []);
  for_each evt_list (report data).

(** *** The REST request *)

Definition Ok_ : Z := 200.
Definition Bad_Request : Z := 400.

Definition read_data (doc : json) : outcome ImsiImeiData :=
  imsi ← member_of "imsi" doc ≫= GetString;
  msisdn ← member_of "msisdn" doc ≫= GetInt64;
  old_imei ← member_of "prev_imei" doc ≫= GetString;
  old_imei_sv ← member_of "prev_imei_sv" doc ≫= GetString;
  new_imei ← member_of "new_imei" doc ≫= GetString;
  new_imei_sv ← member_of "new_imei_sv" doc ≫= GetString;
  mret (mk_data imsi msisdn old_imei old_imei_sv new_imei new_imei_sv).

(** The world, and the codes sent to the client. *)
Record rest := mk_rest { w : world; responses : list Z }.
Definition respond (code : Z) : M rest unit := modify (λ r, r <| responses ::= (λ l, l ++ [code]) |>).

Definition onRequest (resource body : string) : M rest unit :=
  if String.eqb resource "/imsis" then
    match json_parse (upto_nul body) with
    | None => respond Bad_Request
    | Some doc =>
        data ← lift (read_data doc);
        _ ← respond Ok_;
        if String.eqb (old_imei data) (new_imei data)
           && String.eqb (old_imei_sv data) (new_imei_sv data)
        then mret tt
        else zoom w (λ w' r, r <| w := w' |>) (sendRIR_ChangeImsiImeiSvAssn data)
    end
  else respond Bad_Request.
End ImeiChange.
End ImeiChange.

(** ** What main does before it serves *)

Module Startup.
Import DataAccess.
Section Startup.
Context `{Paging} `{FreeDiameter} `{LibcRand G} {D : Type}.
Abbreviation world := (World.world D G).

(** The options that matter here. *)
Record options := mk_options {
  onlyloadkey : bool; reloadkey : bool; synchimsi : string; synchauts : string;
  operator_key_bin : bytes; random_bool : Z }.

(** Whether the HSS goes on to serve; [None] while the pages have not ended. *)
Definition prepare (fuel : nat) (sqn_nb : Z) (o : options) : M world (option bool) :=
  if onlyloadkey o then
    done ← World.on_db (Opc.updateOpcKeys fuel (operator_key_bin o));
    match done with None => mret None | Some _ => mret (Some false) end
  else
    loaded ← (if reloadkey o then World.on_db (Opc.updateOpcKeys fuel (operator_key_bin o))
              else mret (Some true));
    match loaded with
    | None => mret None
    | Some _ =>
        if negb (String.eqb (synchimsi o) "") && negb (String.eqb (synchauts o) "") then
          _ ← Synch.synchFix (synchimsi o) (synchauts o) (random_bool o) sqn_nb;
          mret (Some false)
        else mret (Some true)
    end.
End Startup.
End Startup.

(** ** Properties *)

Module FdhssFacts.
Import DataAccess.

(** *** Peers *)

(** A peer is accepted when its host has a row, and told so; one that is not, or
    whose look-up fails, is rejected.  Nothing else of it changes. *)
Lemma peer_validated `{Cassandra} `{Peer.PeerFlags} {D} (i : Peer.peer_info) (s s' : db D) o :
  Peer.s6a_peer_validate (Some i) s = (Ok o, s') →
  ∃ f, (cass_session_execute (upto_nul ("SELECT idmmeidentity FROM vhss.mmeidentity_host WHERE mmehost="
          +:+ quoted (Peer.pi_diamid i) +:+ ";")) (session s)).1 = f ∧
    o = if negb (failed f) && bool_decide (is_Some (firstRow f))
        then (0, Some 1, Some (Peer.mk_peer (Peer.pi_diamid i) Peer.PI_SEC_NONE Peer.PI_PRST_NONE))
        else (0, Some (-1), Some i).
Proof.
  unfold Peer.s6a_peer_validate, Peer.isMmeValid, getMmeIdFromHost, execute, mbind, M_bind, lift, mret, M_ret.
  destruct (cass_session_execute _ _) as [f s1]. unfold getMmeIdFromHostData.
  exists f. split; [done|]. destruct (failed f); cbn in *; [by simplify_eq|].
  destruct (firstRow f) as [r|]; cbn in *; [|by simplify_eq].
  destruct (GET_EVENT_DATA get_int32 r "idmmeidentity" 0); cbn in *; by simplify_eq.
Qed.

(** *** The OPc column *)

Section OpcFacts.
Context `{Paging} {D : Type} (opP : bytes).

(** A row of the table that can be read. *)
Definition opc_row (r : gmap string cass_value) (x : string * bytes) : Prop :=
  string_column r "imsi" x.1 ∧ are_bytes x.2 ∧ length x.2 = KEY_LENGTH ∧
  (∃ upper, string_column r "key" (Hex.bytes2hex x.2 KEY_LENGTH 0 upper)) ∧
  ∃ old, GET_EVENT_DATA get_string r "OPc" ""%string = Ok old.

(** The statement that stores the OPc of the subscriber's key and the operator's. *)
Definition opc_update (x : string * bytes) : string :=
  upto_nul ("UPDATE vhss.users_imsi SET OPc="
    +:+ quoted (Hex.bytes2hex (Milenage.ComputeOPc x.2 opP) OPC_LENGTH 0 false)
    +:+ " WHERE imsi=" +:+ quoted x.1 +:+ ";").

(** Every subscriber in turn, with no error. *)
Inductive updates : list (string * bytes) → cass_session → cass_session → Prop :=
  | updates_nil s : updates [] s s
  | updates_cons x xs f s s1 s' : cass_session_execute (opc_update x) s = (f, s1) →
      failed f = false → updates xs s1 s' → updates (x :: xs) s s'.

(** Every page in turn, each fetched when the rows of the one before are done. *)
Inductive recomputed : option paging_state → list (string * bytes) → nat → cass_session → cass_session → Prop :=
  | recomputed_last st f xs s s1 s' : cass_execute_paged Opc.opc_query st s = (f, None, s1) →
      failed f = false → Forall2 opc_row (cass_future_rows f) xs → updates xs s1 s' →
      recomputed st xs 1 s s'
  | recomputed_more st st' f xs ys n s s1 s2 s' :
      cass_execute_paged Opc.opc_query st s = (f, Some st', s1) →
      failed f = false → Forall2 opc_row (cass_future_rows f) xs → updates xs s1 s2 →
      recomputed (Some st') ys n s2 s' → recomputed st (xs ++ ys) (S n) s s'.

Lemma check_row_ok r x f (d : db D) s1 : opc_row r x →
  cass_session_execute (opc_update x) (session d) = (f, s1) → failed f = false →
  Opc.check_row opP r d = (Ok true, d <| session := s1 |>).
Proof.
  intros (Hi & Hb & Hl & [upper Hk] & [old Ho]) He Hf.
  unfold Opc.check_row, updateOpc, update_or_throw, execute_or_throw, execute, mbind, M_bind, lift, mret, M_ret.
  rewrite (GET_EVENT_DATA_string _ _ _ _ Hi), (GET_EVENT_DATA_string _ _ _ _ Hk), Ho.
  rewrite <- Hl, Hex.convert_bytes2hex by done.
  change (upto_nul _) with (opc_update x). rewrite He, Hf. done.
Qed.

Lemma check_rows_ok rows xs (d : db D) s' : Forall2 opc_row rows xs → updates xs (session d) s' →
  Opc.check_rows opP rows d = (Ok true, d <| session := s' |>).
Proof.
  intros Hr. revert d. induction Hr as [|r x rows xs Hx Hr IH]; intros d Hu.
  - inversion Hu; subst. by destruct d.
  - inversion Hu as [|? ? f ? s1 ? He Hf Hu']; subst. cbn [Opc.check_rows]. unfold mbind, M_bind.
    rewrite (check_row_ok r x f d s1 Hx He Hf). cbn [negb].
    change (d <| session := s1 |>) with (mk_db s1 (callbacks d)). by rewrite (IH (mk_db s1 (callbacks d)) Hu').
Qed.

Lemma check_pages_ok st xs n (d : db D) s' fuel :
  recomputed st xs n (session d) s' → (n <= fuel)%nat →
  Opc.check_pages fuel opP st d = (Ok (Some true), d <| session := s' |>).
Proof.
  intros Hrec. remember (session d) as s eqn:Es. revert d Es fuel.
  induction Hrec as [st f xs s s1 s' He Hf Hx Hu|st st' f xs ys n s s1 s2 s' He Hf Hx Hu _ IH];
    intros d -> [|fuel] Hfuel; try lia; cbn [Opc.check_pages];
    unfold mbind, M_bind, Opc.execute_paged; rewrite He, Hf;
    change (d <| session := s1 |>) with (mk_db s1 (callbacks d));
    rewrite (check_rows_ok _ xs (mk_db s1 (callbacks d)) _ Hx Hu); cbn [negb].
  - by destruct d.
  - change ((mk_db s1 (callbacks d)) <| session := s2 |>) with (mk_db s2 (callbacks d)).
    by rewrite (IH (mk_db s2 (callbacks d)) eq_refl fuel) by lia.
Qed.

(** When every page can be fetched, every row read and every update made, the
    recomputation ends after the last page, and what it did is store, for each
    subscriber of each page in turn, the OPc of its own key. *)
Theorem opc_keys_recomputed xs n (d : db D) s' fuel :
  recomputed None xs n (session d) s' → (n <= fuel)%nat →
  Opc.updateOpcKeys fuel opP d = (Ok (Some true), d <| session := s' |>).
Proof.
  intros Hrec Hfuel. unfold Opc.updateOpcKeys, Opc.checkOpcKeys. by eapply check_pages_ok.
Qed.
End OpcFacts.

(** *** Resynchronisation by hand *)

Section SynchFacts.
Context `{Cassandra} `{FreeDiameter} `{LibcRand G} {D : Type}.
Variables (synchimsi : string) (random_bool sqn_nb : Z).

Definition sec_query : string :=
  upto_nul ("SELECT key,sqn,rand,OPc FROM vhss.users_imsi WHERE imsi=" +:+ quoted synchimsi +:+ ";").

(** The subscriber's row. *)
Record sec_row (r : gmap string cass_value) (opc key rand : bytes) : Prop := {
  sec_key : ∃ u, string_column r "key" (Hex.bytes2hex key KEY_LENGTH 0 u) ∧
                 string_column r "OPc" (Hex.bytes2hex opc KEY_LENGTH 0 u);
  sec_rand : ∃ u, string_column r "rand" (Hex.bytes2hex rand RAND_LENGTH 0 u);
  sec_sqn : ∃ z, int64_column r "sqn" z;
  sec_bytes : are_bytes key ∧ are_bytes opc ∧ are_bytes rand;
  sec_lengths : length key = KEY_LENGTH ∧ length opc = KEY_LENGTH ∧ length rand = RAND_LENGTH }.

Lemma hex_without_nul upper b : are_bytes b →
  without Ascii.zero (Hex.bytes2hex b (length b) 0 upper).
Proof.
  intros Hb. rewrite <- (string_of_bytes_of_string (Hex.bytes2hex _ _ _ _)).
  rewrite Hex.bytes_of_bytes2hex by done. induction Hb as [|x b Hx Hb IH]; [done|].
  rewrite Hex.mjoin_hex_cons. destruct (Hex.byte_nibbles x Hx) as [Hh Hl].
  rewrite Hex.hex_of_byte_nibbles by done. cbn [app string_of_bytes without].
  assert (∀ n, 0 <= n < 16 → chr (Hex.hexc upper n) ≠ Ascii.zero) as Hne.
  { apply Hex.nibble_ind. intros k Hk. destruct upper; by do 16 (destruct k as [|k]; [vm_compute; discriminate|]); lia. }
  split; [by apply Hne|]. split; [by apply Hne|done].
Qed.

(** The AUTS is a USIM's answer to the stored challenge. *)
Definition from_usim (opc key rand body sqn : bytes) : Prop :=
  length sqn = 6%nat ∧ body = Auc.usim_auts opc key rand sqn.

(** What the fix does with a subscriber whose row can be read: [s1] is the
    database once it has been. *)
Definition fixed (w : World.world D G) (s1 : cass_session) (opc key rand body : bytes)
    (o : outcome bool) (w' : World.world D G) : Prop :=
  (∃ sqn sqn' rnd f,
     from_usim opc key rand body sqn ∧ length rnd = RAND_LENGTH ∧ length sqn' = 6%nat ∧
     (Sqn.is_sqn sqn → Sqn.sqn_value sqn' = (Sqn.sqn_value sqn + 32) mod 2 ^ 48) ∧
     cass_session_execute (upto_nul (updateRandSqn_stmt synchimsi rnd sqn' false)) s1
       = (f, session (World.database w')) ∧
     o = if failed f then Throw DAException else Ok true) ∨
  ((∀ sqn, ¬ from_usim opc key rand body sqn) ∧ o = Ok false ∧ session (World.database w') = s1).

Lemma getImsiSec_row (d : db D) r f s1 opc key rand : sec_row r opc key rand →
  cass_session_execute sec_query (session d) = (f, s1) → failed f = false → firstRow f = Some r →
  ∃ sqn, getImsiSec sqn_nb synchimsi (DAImsiSec.mk [] [] [] []) None d =
    (Ok (true, DAImsiSec.mk key sqn rand opc), mk_db s1 (callbacks d)).
Proof.
  intros [(u1 & Hk & Ho) (u2 & Hr) (z & Hz) (Hkb & Hob & Hrb) (Hkl & Hol & Hrl)] He Hf Hrow.
  exists (Sqn.sqn_of_int64 z). unfold getImsiSec, execute. unfold mbind, M_bind.
  fold sec_query. rewrite He. unfold lift. by rewrite (getImsiSecData_row f r sqn_nb _ key opc rand z u1 u2).
Qed.

Lemma updateRandSqn_eq (d : db D) rnd sqn f s1 :
  cass_session_execute (upto_nul (updateRandSqn_stmt synchimsi rnd sqn false)) (session d) = (f, s1) →
  updateRandSqn synchimsi rnd sqn false None d =
    (if failed f then Throw DAException else Ok true, mk_db s1 (callbacks d)).
Proof.
  intros He. unfold updateRandSqn, execute, mbind, M_bind. rewrite He. by destruct (failed f).
Qed.

(** C26: The AUTS a USIM answered the stored challenge with resynchronises the
    subscriber: the number it sent, advanced by 32, is stored with a new
    challenge.  Any other AUTS changes nothing. *)
Theorem synch_fix_accepts_usim (w : World.world D G) r f s1 opc key rand arnd body upper :
  sec_row r opc key rand → are_bytes (arnd ++ body) → length arnd = 16%nat → length body = 14%nat →
  cass_session_execute sec_query (session (World.database w)) = (f, s1) →
  failed f = false → firstRow f = Some r →
  ∃ o w', Synch.synchFix synchimsi (Hex.bytes2hex (arnd ++ body) 30 0 upper) random_bool sqn_nb w
            = (o, w') ∧
    World.wire w' = World.wire w ∧ fixed w s1 opc key rand body o w'.
Proof.
  intros Hsec Hb Hal Hbl He Hf Hrow. pose proof (sec_lengths _ _ _ _ Hsec) as (Hkl & Hol & Hrl).
  assert (length (arnd ++ body) = 30%nat) as Hlen by (rewrite length_app; lia).
  destruct (getImsiSec_row (World.database w) r f s1 opc key rand Hsec He Hf Hrow) as [old Hget].
  set (w1 := w <| World.database := mk_db s1 (callbacks (World.database w)) |>).
  unfold Synch.synchFix. rewrite <- Hlen, upto_nul_without by (by apply hex_without_nul).
  rewrite Hex.parsehex_bytes2hex by (done || rewrite length_replicate; lia). unfold memcpy.
  erewrite (bind_Ok (lift _)) by reflexivity. cbn [negb].
  erewrite (bind_Ok _ _ _ _ w1) by (unfold World.on_db, zoom; by rewrite Hget).
  cbn [negb DAImsiSec.opc DAImsiSec.key DAImsiSec.rand]. rewrite Auc.sqn_ms_derive_app by done.
  destruct (Auc.sqn_ms_derive opc key (arnd ++ body) rand) as [sqn|] eqn:E.
  - apply Auc.sqn_ms_derive_iff in E as [Hsqn Hauts]; [|done..].
    destruct (Random.generate_random random_bool RAND_LENGTH (World.random w1)) as [rnd st] eqn:Er.
    erewrite (bind_Ok _ _ _ rnd (w1 <| World.random := st |>))
      by (unfold World.generate_random; by rewrite Er).
    set (sqn' := Sqn.U64_TO_SQN _).
    destruct (cass_session_execute (upto_nul (updateRandSqn_stmt synchimsi rnd sqn' false)) s1)
      as [f2 s2] eqn:E2.
    unfold World.on_db, zoom. rewrite (updateRandSqn_eq _ rnd sqn' f2 s2) by done.
    eexists _, _. split; [done|]. split; [done|]. left. exists sqn, sqn', rnd, f2.
    split; [done|]. split; [|split; [|split; [|split; [exact E2|done]]]].
    + rewrite <- (Random.generate_random_length random_bool RAND_LENGTH (World.random w1)). by rewrite Er.
    + unfold sqn', Sqn.union_add, Sqn.union_set_u64. rewrite Sqn.U64_TO_SQN_le_bytes.
      by rewrite length_rev, le_bytes_length.
    + intros Hs. apply (Sqn.U64_TO_SQN_add _ 32 Hs).
  - eexists _, w1. split; [done|]. split; [done|]. right. split; [|done].
    intros sqn [Hs Hauts].
    by rewrite (proj2 (Auc.sqn_ms_derive_iff opc key arnd body rand sqn Hol Hal Hbl) (conj Hs Hauts)) in E.
Qed.
End SynchFacts.

(** *** A changed IMEI *)

Section ImeiFacts.
Import ImeiChange.
Context `{Cassandra} `{FreeDiameter} {D G : Type}.
Variables (u_info : DAImsiInfo.t) (u_msisdn : bytes).
Hypothesis Hu : length u_msisdn = 5%nat.

(** A number the five octets have room for. *)
Definition short_msisdn (n : Z) : Prop := 0 <= n < 10 ^ 10.

Lemma str2tbcd_msisdn n : short_msisdn n → ∃ k,
  Tbcd.str2tbcd (bytes_of_string (dec n)) u_msisdn = Ok (k, Collector.msisdn_octets u_msisdn (dec n)) ∧
  take 5 (Collector.msisdn_octets u_msisdn (dec n)) = Collector.msisdn_octets u_msisdn (dec n).
Proof using Hu.
  intros Hn. assert (RirFacts.decimal (dec n)) as Hd.
  { split.
    - apply Forall_forall. intros c Hc.
      assert (Forall (λ c, 48 <= ord c <= 57) (String.list_ascii_of_string (dec n))) as Ha.
      { apply dec_Forall; [|apply Hn]. intros m Hm. rewrite pretty_N_char_digit by done. lia. }
      clear -Hc Ha. induction (dec n) as [|a s IH]; [by apply elem_of_nil in Hc|].
      cbn in Hc, Ha. inversion Ha; subst. apply elem_of_cons in Hc as [->|Hc]; auto.
    - rewrite <- bytes_of_string_length. apply Format.dec_length. exact Hn. }
  destruct (RirFacts.decimal_digits _ Hd) as (Hb & Hdig & Hlen & Hl).
  rewrite upto_nul_without in Hb by (apply dec_without; [vm_compute; intros [??]; congruence|apply Hn]).
  eexists. rewrite Hb.
  rewrite Tbcd.str2tbcd_pack; [|done|lia]. split.
  - unfold Collector.msisdn_octets. by rewrite Hl.
  - apply take_ge. unfold Collector.msisdn_octets. rewrite <- Hl, length_app, length_drop, Tbcd.pack_length. lia.
Qed.

(** The requests on the wire: one for each event that asks for such changes and
    that the stack accepts, in the order of the events. *)
Fixpoint change_reports (session : nat) (data : ImsiImeiData) (l : list DAEvent.t) : list sent :=
  match l with
  | [] => []
  | e :: l' =>
      let m := rir_message session e data (Collector.msisdn_octets u_msisdn (dec (msisdn data))) in
      if (DAEvent.monitoring_type e =? CHANGE_IMSI_IMEI_SV_ASSN) && (fd_msg_send m =? 0)
      then SentRequest "Reporting-Information-Request" m :: change_reports (S session) data l'
      else change_reports session data l'
  end.

Lemma report_one data e (w : World.world D G) : short_msisdn (msisdn data) →
  report u_msisdn data e w =
  (Ok tt, w <| World.wire ::= (λ l, l ++ change_reports (length l) data [e]) |>).
Proof using Hu.
  intros Hm. unfold report. cbn [change_reports].
  destruct (DAEvent.monitoring_type e =? CHANGE_IMSI_IMEI_SV_ASSN); cbn [negb andb].
  2:{ destruct w. unfold set. cbn. by rewrite app_nil_r. }
  destruct (str2tbcd_msisdn _ Hm) as (k & Hk & Ht).
  unfold mbind at 1, M_bind at 1. unfold gets. unfold mbind at 1, M_bind at 1. unfold lift at 1. rewrite Hk.
  rewrite Ht. unfold World.send_request, FDMessage.send, catch, mbind, M_bind, lift, modify.
  destruct w as [a b c d]. unfold set. cbn -[rir_message].
  set (m := rir_message _ _ _ _). destruct (fd_msg_send m =? 0); cbn; [done|by rewrite app_nil_r].
Qed.

Lemma change_reports_app n data l l' :
  change_reports n data (l ++ l') =
  change_reports n data l ++ change_reports (n + length (change_reports n data l)) data l'.
Proof.
  revert n. induction l as [|e l IH]; intros n; cbn [change_reports app].
  { by rewrite Nat.add_0_r. }
  case_match; [|apply IH]. cbn [length app]. rewrite IH. by rewrite Nat.add_succ_r.
Qed.

Lemma report_all data l (w : World.world D G) : short_msisdn (msisdn data) →
  for_each l (report u_msisdn data) w =
  (Ok tt, w <| World.wire ::= (λ x, x ++ change_reports (length x) data l) |>).
Proof using Hu.
  intros Hm. revert w. induction l as [|e l IH]; intros w.
  { destruct w. unfold set. cbn. by rewrite app_nil_r. }
  cbn [for_each]. rewrite (bind_Ok _ _ _ _ _ (report_one data e w Hm)), IH. f_equal.
  change (e :: l) with ([e] ++ l). destruct w as [a b c d]. unfold set. cbn [World.wire].
  rewrite change_reports_app, app_assoc. by rewrite length_app.
Qed.

Lemma on_db_wire {A} (m : M (db D) A) (x : World.world D G) o x' :
  World.on_db m x = (o, x') → World.wire x' = World.wire x.
Proof. unfold World.on_db, zoom. destruct (m _). by intros [= <- <-]. Qed.

End ImeiFacts.
End FdhssFacts.

(** ** Witnesses *)

Module FdhssWitness.
Import DataAccess FdhssFacts ScriptedCassandra WitnessFreeDiameter WitnessNettle.

(** Two pages: the first result leaves a state behind, the second none. *)
#[export] Instance two_pages : Paging := {
  paging_state := unit;
  cass_execute_paged stmt st s :=
    let '(f, s') := cass_session_execute stmt s in
    (f, match st with None => Some tt | Some _ => None end, s') }.
#[export] Instance counter_rand : LibcRand nat := λ g, (Z.of_nat g, S g).

(** *** The OPc column *)

Definition opP : bytes := replicate 16 17.
Definition subscriber (n : Z) : string * bytes := ("20893000000000" +:+ dec n, replicate 16 n).
Definition key_row (x : string * bytes) : gmap string value :=
  list_to_map [("imsi", Text x.1); ("key", Text (Hex.bytes2hex x.2 16 0 false)); ("OPc", Text "")].
Definition page (ns : list Z) : future := mk_future 0 (map (λ n, key_row (subscriber n)) ns) true.
Definition stored : future := mk_future 0 [] true.
Definition opc_script : script := mk_script [page [1; 2]; stored; stored; page [3]; stored] [].
Definition opc_db : db Z := mk_db opc_script [].
Definition opc_done (opP : bytes) : script := (Opc.updateOpcKeys 2 opP opc_db).2.(session).

Lemma key_rows ns : Forall (λ n, 0 <= n < 10) ns →
  Forall2 opc_row (cass_future_rows (page ns)) (map subscriber ns).
Proof.
  induction 1 as [|n ns Hn Hns IH]; [by constructor|]. constructor; [|exact IH].
  assert (string_column (key_row (subscriber n)) "imsi" (subscriber n).1) as Hi
    by (eexists; by split).
  unfold opc_row. split_and!; [exact Hi| |done| |].
  - apply Forall_replicate. unfold is_byte. lia.
  - exists false. eexists. by split.
  - eexists. reflexivity.
Qed.

(** The three subscribers of the two pages, for a given operator key. *)
Ltac recompute_pages :=
  match goal with |- recomputed ?op _ _ _ _ _ =>
    eapply recomputed_more; [reflexivity|done|by apply key_rows; repeat constructor|..];
    [do 2 (eapply updates_cons; [reflexivity|done|]); constructor|];
    eapply recomputed_last; [reflexivity|done|by apply key_rows; repeat constructor|];
    eapply updates_cons; [reflexivity|done|];
    replace (opc_done op) with (mk_script [] (log (opc_done op))) by (by vm_compute);
    vm_compute; constructor
  end.

Lemma opc_keys_recomputed_witness :
  Opc.updateOpcKeys 2 opP opc_db = (Ok (Some true), mk_db (opc_done opP) []) ∧
  length (log (opc_done opP)) = 5%nat.
Proof.
  split; [|by vm_compute].
  apply (opc_keys_recomputed opP (map subscriber [1; 2] ++ map subscriber [3]) 2 opc_db (opc_done opP) 2);
    [recompute_pages|lia].
Defined.

(** *** Resynchronisation by hand *)

Definition opc : bytes := replicate 16 2.
Definition key : bytes := replicate 16 1.
Definition challenge : bytes := replicate 16 3.
Definition usim_row : gmap string value := list_to_map
  [("key", Text (Hex.bytes2hex key 16 0 false)); ("OPc", Text (Hex.bytes2hex opc 16 0 false));
   ("rand", Text (Hex.bytes2hex challenge 16 0 false)); ("sqn", Int 0)].
Definition fix_world : World.world Z nat :=
  World.mk (mk_db (mk_script [mk_future 0 [usim_row] true; stored] []) []) [] []
    (Auc.Random.Build_state 0 0%nat).
Definition auts : bytes := Auc.usim_auts opc key challenge [0; 0; 0; 0; 1; 0].
Definition synchauts : string := Hex.bytes2hex (replicate 16 9 ++ auts) 30 0 false.

Lemma usim_sec_row : sec_row usim_row opc key challenge.
Proof.
  split.
  - exists false. split; eexists; by split.
  - exists false. eexists. by split.
  - eexists. eexists. by split.
  - split_and!; apply Forall_replicate; unfold is_byte; lia.
  - done.
Qed.

Lemma synch_fix_accepts_usim_witness :
  ∃ o w', Synch.synchFix "208930000000001" synchauts 1 0 fix_world = (o, w') ∧
    World.wire w' = [] ∧
    fixed "208930000000001" fix_world (mk_script [stored] [sec_query "208930000000001"])
      opc key challenge auts o w'.
Proof.
  apply (synch_fix_accepts_usim "208930000000001" 1 0 fix_world usim_row
    (mk_future 0 [usim_row] true)); [apply usim_sec_row| |done|by vm_compute|reflexivity|done|done].
  apply (bool_decide_unpack _). by vm_compute.
Defined.

(** The number the USIM sent, 256, is stored as 288. *)
Lemma synch_fix_stores :
  let '(o, w') := Synch.synchFix "208930000000001" synchauts 0 0 fix_world in
  o = Ok true ∧
  log (session (World.database w')) =
    [sec_query "208930000000001";
     updateRandSqn_stmt "208930000000001" (Auc.Random.generate_random 0 16 (World.random fix_world)).1
       [0; 0; 0; 0; 1; 32] false] ∧
  stored_sqn [0; 0; 0; 0; 1; 32] false = 288.
Proof. by vm_compute. Qed.

(** A text of 32 octets overruns the 31 of [auts]. *)
Lemma synch_fix_long_auts :
  (Synch.synchFix "208930000000001" (Hex.bytes2hex (replicate 32 0) 32 0 false) 0 0 fix_world).1 = UB.
Proof. by vm_compute. Qed.

(** *** A changed IMEI *)

Section Imei.
Import ImeiChange.

Definition changed : json := JObject
  [("imsi", JString "208930000000001"); ("msisdn", JInt 3361234567);
   ("prev_imei", JString "35609204079301"); ("prev_imei_sv", JString "01");
   ("new_imei", JString "35609204079302"); ("new_imei_sv", JString "01")].
#[local] Instance rest_stack : FreeDiameter := stack_with (λ _, Some changed) (λ _, "{}"%string).

Definition data : ImsiImeiData :=
  mk_data "208930000000001" 3361234567 "35609204079301" "01" "35609204079302" "01".
Definition u_info : DAImsiInfo.t := DAImsiInfo.uninit 0 0 0.
Definition info_row : future := one_row
  [("imsi", Text "208930000000001"); ("mmehost", Null); ("mmerealm", Null); ("ms_ps_status", Null);
   ("subscription_data", Null); ("msisdn", Int 3361234567); ("visited_plmnid", Null);
   ("access_restriction", Null); ("mmeidentity_idmmeidentity", Null)].
Definition event_id (n : Z) : gmap string value :=
  list_to_map [("scef_id", Text "scef.epc"); ("scef_ref_id", Int n)].
Definition event (n typ : Z) : future := one_row
  [("scef_id", Text "scef.epc"); ("scef_ref_id", Int n); ("monitoring_type", Int typ);
   ("extid", Null); ("msisdn", Null); ("user_identifier", Null);
   ("monitoring_event_configuration", Null)].
Definition rest_world : World.world Z unit :=
  World.mk (mk_db (mk_script
    [info_row; mk_future 0 [] true; mk_future 0 [event_id 1; event_id 2; event_id 3] true;
     event 1 CHANGE_IMSI_IMEI_SV_ASSN; event 2 0; event 3 CHANGE_IMSI_IMEI_SV_ASSN] []) []) [] []
    (Auc.Random.Build_state 0 tt).
Definition evts : list DAEvent.t :=
  map (λ x, DAEvent.init <| DAEvent.scef_id := "scef.epc"%string |>
              <| DAEvent.scef_ref_id := x.1 |> <| DAEvent.monitoring_type := x.2 |>)
    [(1, CHANGE_IMSI_IMEI_SV_ASSN); (2, 0); (3, CHANGE_IMSI_IMEI_SV_ASSN)].

Lemma events_read :
  (World.on_db (getEventsFromImsi (imsi data) u_info []) rest_world).1 = Ok evts.
Proof. by vm_compute. Qed.

End Imei.
End FdhssWitness.
