(* ===== verification/Options.v ===== *)
(** * The configuration

    Models src/options.cpp: the options of the command line, those of the JSON
    file, and the configuration filled from both.  [getopt_long] and the file
    system are parameters. *)

From S2P Require Import Prelude Cxx Codec Auc Json Diameter DataAccess World Fdhss.
#[local] Open Scope Z_scope.

(** The text of a file, [None] when it cannot be opened. *)
Class Files := read_file : string → option string.
(** What [getopt_long] returns in turn on an argument vector, given the short
    options and the long ones (their names, whether they take an argument, the
    character each stands for): the characters and [optarg]. *)
Class Getopt := getopt_long :
  string → list (string * bool * ascii) → list string → list (ascii * string).

(** ** One member of a JSON section

    [if (!(options & flag) && section.HasMember("...")) { if (!....IsX()) return
    false; m_x = section["..."].GetX(); options |= flag; }].  Some members have
    no flag. *)

Module Reader.
Section Reader.
Context {S : Type} (flags : S → Z) (set_flags : Z → S → S).

Record entry := mk_entry {
  type : Type;
  flag : option Z;
  member : string;
  is_type : json → bool;
  get_value : json → outcome type;
  assign : type → S → S;
  look : S → type }.

(** An option that is set already is not read. *)
Definition given (e : entry) (s : S) : bool :=
  match flag e with Some f => FLAG_IS_SET (flags s) f | None => false end.
Definition mark (e : entry) (s : S) : S :=
  match flag e with Some f => set_flags (FLAGS_SET (flags s) f) s | None => s end.

Definition read_member (section : json) (e : entry) : M S bool :=
  g ← gets (given e);
  if (g : bool) then mret true
  else
    has ← lift (HasMember (member e) section);
    if negb has then mret true
    else
      j ← lift (member_of (member e) section);
      if negb (is_type e j) then mret false
      else
        v ← lift (get_value e j);
        _ ← modify (λ s, mark e (assign e v s));
        mret true.

Fixpoint read_members (section : json) (l : list entry) : M S bool :=
  match l with
  | [] => mret true
  | e :: l' =>
      ok ← read_member section e;
      if negb ok then mret false else read_members section l'
  end.

(** [if (doc.HasMember(name)) { const Value& section = doc[name]; ... }] *)
Definition read_section (doc : json) (name : string) (l : list entry) : M S bool :=
  has ← lift (HasMember name doc);
  if negb has then mret true
  else
    section ← lift (member_of name doc);
    read_members section l.
(** The two sections of a file. *)
Definition read_sections (doc : json) (n1 : string) (l1 : list entry) (n2 : string) (l2 : list entry)
    : M S bool :=
  ok ← read_section doc n1 l1;
  if negb ok then mret false else read_section doc n2 l2.
End Reader.
Arguments entry : clear implicits.
Arguments mk_entry {S} type.

(** The kinds of members. *)
Definition text {S} (f : Z) (name : string) (assign : string → S → S) (look : S → string) : entry S :=
  mk_entry string (Some f) name IsString GetString assign look.
Definition int {S} (f : Z) (name : string) (assign : Z → S → S) (look : S → Z) : entry S :=
  mk_entry Z (Some f) name IsInt GetInt assign look.
Definition switch {S} (f : Z) (name : string) (assign : bool → S → S) (look : S → bool) : entry S :=
  mk_entry bool (Some f) name IsBool GetBool assign look.

(** *** What reading the members gives *)

Section ReaderFacts.
Context {S : Type} (flags : S → Z) (set_flags : Z → S → S).
Hypothesis flags_set : ∀ z s, flags (set_flags z s) = z.
Implicit Types e : entry S.

(** An entry keeps its value apart from the flags. *)
Record lawful e : Prop := {
  look_assign v s : look e (assign e v s) = v;
  look_flags z s : look e (set_flags z s) = look e s;
  flags_assign v s : flags (assign e v s) = flags s;
  flag_nonzero : match flag e with Some f => f ≠ 0 | None => True end }.

(** Reading [e'] leaves [e] alone. *)
Definition apart e e' : Prop :=
  (∀ v s, look e (assign e' v s) = look e s) ∧
  match flag e, flag e' with Some f, Some f' => Z.land f' f = 0 | _, _ => True end.
Definition independent e e' : Prop := apart e e' ∧ apart e' e.

Section Members.
Variable ms : list (string * json).
Abbreviation section := (JObject ms).

Definition present e : bool := bool_decide (is_Some (FindMember (member e) ms)).

(** The member, if it is looked at, has the type asked for and a value. *)
Definition readable (s : S) e : Prop :=
  given flags e s = true ∨
  match FindMember (member e) ms with
  | Some j => is_type e j = true ∧ is_Ok (get_value e j)
  | None => True
  end.
(** What was set before, then what the section says, then what was there. *)
Definition value (s : S) e : type e :=
  if given flags e s then look e s
  else match FindMember (member e) ms with
       | Some j => match get_value e j with Ok v => v | _ => look e s end
       | None => look e s
       end.
(** After reading. *)
Definition read (s s' : S) e : Prop :=
  look e s' = value s e ∧ given flags e s' = given flags e s || (bool_decide (is_Some (flag e)) && present e).

Definition same (s s' : S) e : Prop := look e s' = look e s ∧ given flags e s' = given flags e s.

Lemma same_readable s s' e : same s s' e → readable s' e ↔ readable s e.
Proof. intros [_ Hg]. unfold readable. by rewrite Hg. Qed.
Lemma same_read s1 s s' e : same s1 s e → read s s' e → read s1 s' e.
Proof. intros [Hl Hg]. unfold read, value. by rewrite Hl, Hg. Qed.

Lemma given_mark e e' v s : lawful e' → apart e e' →
  given flags e (mark flags set_flags e' (assign e' v s)) = given flags e s.
Proof using flags_set.
  intros Hl [_ Hf]. unfold given, mark. pose proof (flags_assign _ Hl v s) as Ha.
  destruct (flag e) as [f|]; [|done]. destruct (flag e') as [f'|]; [|by rewrite Ha].
  rewrite flags_set, Ha. by apply FLAG_IS_SET_other.
Qed.

(** One member. *)
Lemma read_member_spec e s : lawful e →
  (readable s e ↔ ∃ s', read_member flags set_flags section e s = (Ok true, s')) ∧
  ∀ s', read_member flags set_flags section e s = (Ok true, s') →
    read s s' e ∧ ∀ e', lawful e' → apart e' e → same s s' e'.
Proof using flags_set.
  intros Hl. unfold read_member, readable, read, value, present, HasMember, member_of.
  unfold mbind, M_bind, gets, mret, M_ret, lift, modify.
  destruct (given flags e s) eqn:Hg.
  { split; [split; [eauto|auto]|]. intros s' [= <-]. rewrite Hg. split; [done|]. by split. }
  destruct (FindMember (member e) ms) as [j|].
  2:{ rewrite bool_decide_false by (by intros []). cbn [negb].
      split; [split; eauto|]. intros s' [= <-]. rewrite Hg, andb_false_r. split; [done|]. by split. }
  rewrite bool_decide_true by done. cbn [negb]. destruct (is_type e j) eqn:Ht; cbn [negb].
  2:{ split; [split|]; [intros [|[]]; congruence|intros [s' [=]]|intros s' [=]]. }
  destruct (get_value e j) as [v|x|].
  2,3: (split; [split|]; [intros [|[_ [? [=]]]]; congruence|intros [s' [=]]|intros s' [=]]).
  split; [split; [eauto|]|].
  { intros _. right. split; [done|]. by exists v. }
  intros s' [= <-]. rewrite orb_false_l, andb_true_r. split.
  - split.
    + unfold mark. destruct (flag e); rewrite ?(look_flags _ Hl); apply (look_assign _ Hl).
    + pose proof (flag_nonzero _ Hl) as Hn. pose proof (flags_assign _ Hl v s) as Ha.
      unfold given, mark in *. destruct (flag e) as [f|] eqn:Ef; rewrite ?Ef; [|done].
      rewrite flags_set, Ha, bool_decide_true by done. by apply FLAG_IS_SET_same.
  - intros e' Hl' Hap. split; [|by apply given_mark].
    unfold mark. destruct (flag e); rewrite ?(look_flags _ Hl'); apply Hap.
Qed.

(** The members of a section: reading succeeds when each can be read, and then
    gives each its value and touches nothing else. *)
Lemma read_members_spec l s : Forall lawful l → ForallOrdPairs independent l →
  (Forall (readable s) l ↔ ∃ s', read_members flags set_flags section l s = (Ok true, s')) ∧
  ∀ s', read_members flags set_flags section l s = (Ok true, s') →
    Forall (read s s') l ∧ ∀ e', lawful e' → Forall (apart e') l → same s s' e'.
Proof using flags_set.
  intros Hl Hp. revert s. induction Hp as [|e l Hi Hp IH]; intros s; cbn [read_members].
  { split; [split; eauto|]. intros s' [= <-]. split; [done|]. by split. }
  inversion Hl as [|? ? He Hl']; subst.
  destruct (read_member_spec e s He) as [Hr Hsp].
  unfold mbind, M_bind.
  destruct (read_member flags set_flags section e s) as [o s1] eqn:E.
  destruct o as [[|]|x|]; cbn [negb].
  2-4: (split; [|intros s' [=]]; split; [intros [Hre _]%Forall_cons; apply Hr in Hre as [s' [=]]|intros [s' [=]]]).
  destruct (Hsp s1 eq_refl) as [Hre Hsame]. specialize (IH Hl' s1) as [IHr IHsp].
  assert (Forall (same s s1) l) as Hsl.
  { rewrite !Forall_forall in *. intros e' He'. apply Hsame; [by apply Hl'|by apply (Hi e')]. }
  split.
  - rewrite Forall_cons, <- IHr. rewrite Hr. split.
    + intros [_ H]. rewrite !Forall_forall in *. intros e' He'. rewrite (same_readable s) by auto. auto.
    + intros H. split; [eauto|]. rewrite !Forall_forall in *. intros e' He'.
      rewrite <- (same_readable s s1) by auto. auto.
  - intros s' Hs'. destruct (IHsp s' Hs') as [Hrl Hout]. split.
    + apply Forall_cons. split.
      * assert (same s1 s' e) as [H1 H2].
        { apply Hout; [done|]. rewrite !Forall_forall in *. intros e' He'. by apply (Hi e'). }
        destruct Hre as [R1 R2]. split; congruence.
      * rewrite !Forall_forall in *. intros e' He'. apply (same_read s s1); auto.
    + intros e' Hle' [Ha Hal]%Forall_cons.
      destruct (Hout e' Hle' Hal) as [H1 H2]. destruct (Hsame e' Hle' Ha) as [H3 H4]. split; congruence.
Qed.
End Members.

(** The members of a section that is an object; none otherwise. *)
Definition section_of (doc : list (string * json)) (name : string) : list (string * json) :=
  match FindMember name doc with Some (JObject ms) => ms | _ => [] end.

(** A section can be read when it is absent, or is an object whose members can,
    or when nothing is looked up in it. *)
Definition section_readable (s : S) (doc : list (string * json)) (name : string) (l : list (entry S)) : Prop :=
  match FindMember name doc with
  | None => True
  | Some (JObject ms) => Forall (readable ms s) l
  | Some _ => Forall (λ e, given flags e s = true) l
  end.

Lemma read_members_other j l s : (∀ ms, j ≠ JObject ms) →
  (Forall (λ e, given flags e s = true) l ↔
   ∃ s', read_members flags set_flags j l s = (Ok true, s')) ∧
  ∀ s', read_members flags set_flags j l s = (Ok true, s') → s' = s ∧ Forall (λ e, given flags e s = true) l.
Proof using flags_set.
  intros Hj. induction l as [|e l [IHf IH]]; cbn [read_members].
  { split; [split; eauto|]. by intros s' [= <-]. }
  unfold read_member, mbind, M_bind, gets, mret, M_ret, lift.
  destruct (given flags e s) eqn:Hg; cbn [negb].
  - split; [rewrite Forall_cons, Hg, <- IHf; naive_solver|]. intros s' E.
    destruct (IH s' E) as [-> Hl]. split; [done|by apply Forall_cons].
  - destruct j as [| | | | | |ms]; [..|by destruct (Hj ms)]; cbn;
      (split; [rewrite Forall_cons, Hg|]; [split; [intros [[=] _]|intros [? [=]]]|intros ? [=]]).
Qed.

Lemma read_section_spec doc name l s : Forall lawful l → ForallOrdPairs independent l →
  (section_readable s doc name l ↔
   ∃ s', read_section flags set_flags (JObject doc) name l s = (Ok true, s')) ∧
  ∀ s', read_section flags set_flags (JObject doc) name l s = (Ok true, s') →
    Forall (read (section_of doc name) s s') l ∧
    ∀ e, lawful e → Forall (apart e) l → same s s' e.
Proof using flags_set.
  intros Hl Hi. unfold read_section, section_readable, section_of, HasMember, member_of.
  unfold mbind, M_bind, mret, M_ret, lift.
  destruct (FindMember name doc) as [j|]; cbn [negb].
  2:{ rewrite bool_decide_false by (by intros []). cbn [negb].
      split; [split; eauto|]. intros s' [= <-]. split; [|by split].
      apply Forall_forall. intros e _. unfold read, value, present. cbn [FindMember].
      rewrite (bool_decide_false (is_Some (@None json))), andb_false_r, orb_false_r by (by intros []).
      by destruct (given flags e s). }
  rewrite bool_decide_true by done. cbn [negb].
  assert ((∃ ms, j = JObject ms) ∨ ∀ ms, j ≠ JObject ms) as [[ms ->]|Hj].
  { destruct j; eauto; right; done. }
  { by apply read_members_spec. }
  destruct (read_members_other j l s Hj) as [Hf Hr].
  assert (match j with JObject ms => ms | _ => [] end = []) as ->.
  { destruct j; try done. by destruct (Hj l0). }
  split; [destruct j; try done; by destruct (Hj l0)|].
  intros s' E. destruct (Hr s' E) as [-> Hg]. split; [|by split].
  eapply Forall_impl; [exact Hg|]. intros e He. unfold read, value. by rewrite He.
Qed.

Lemma independent_app l l' : ForallOrdPairs independent (l ++ l') →
  ForallOrdPairs independent l ∧ ForallOrdPairs independent l' ∧
  Forall (λ e, Forall (apart e) l') l ∧ Forall (λ e, Forall (apart e) l) l'.
Proof using Type.
  induction l as [|e l IH]; cbn [app].
  { intros Hi. split_and!; [constructor|done|done|]. apply Forall_forall. by intros. }
  intros Hi. inversion Hi as [|? ? Ha Hi']; subst. apply IH in Hi' as (H1 & H2 & H3 & H4).
  apply Forall_app in Ha as [Hal Har]. split_and!; [by constructor|done| |].
  - constructor; [|done]. eapply Forall_impl; [exact Har|]. by intros e' [].
  - rewrite Forall_forall in *. intros e' He'. constructor; [by apply (Har e')|by apply H4].
Qed.

(** Both sections: each is read as if alone. *)
Lemma read_sections_spec doc n1 l1 n2 l2 s :
  Forall lawful (l1 ++ l2) → ForallOrdPairs independent (l1 ++ l2) →
  (section_readable s doc n1 l1 ∧ section_readable s doc n2 l2 ↔
   ∃ s', read_sections flags set_flags (JObject doc) n1 l1 n2 l2 s = (Ok true, s')) ∧
  ∀ s', read_sections flags set_flags (JObject doc) n1 l1 n2 l2 s = (Ok true, s') →
    Forall (read (section_of doc n1) s s') l1 ∧ Forall (read (section_of doc n2) s s') l2.
Proof using flags_set.
  intros [L1 L2]%Forall_app (I1 & I2 & A1 & A2)%independent_app.
  unfold read_sections, mbind, M_bind.
  destruct (read_section_spec doc n1 l1 s L1 I1) as [Hc Hsc].
  destruct (read_section flags set_flags (JObject doc) n1 l1 s) as [o s1].
  destruct o as [[|]| |]; cbn [negb].
  2-4: (split; [split; [intros [[s' [=]]%Hc _]|intros [s' [=]]]|intros s' [=]]).
  destruct (Hsc s1 eq_refl) as [Hrc Hsame].
  destruct (read_section_spec doc n2 l2 s1 L2 I2) as [Hh Hsh].
  assert (Forall (same s s1) l2) as Hsm.
  { rewrite !Forall_forall in *. intros e He. apply Hsame; [by apply L2|by apply A2]. }
  assert (section_readable s1 doc n2 l2 ↔ section_readable s doc n2 l2) as Heq.
  { unfold section_readable. destruct (FindMember n2 doc) as [j|]; [|done].
    assert (Forall (λ e, given flags e s1 = true) l2 ↔
            Forall (λ e, given flags e s = true) l2) as Hg.
    { rewrite !Forall_forall in *. split; intros H2 e He; destruct (Hsm e He) as [_ Hge]; specialize (H2 e He); congruence. }
    destruct j as [| | | | | |ms]; try done. rewrite !Forall_forall in *.
    split; intros H2 e He; [rewrite <- (same_readable _ s s1)|rewrite (same_readable _ s s1)]; auto. }
  split.
  - rewrite <- Hh, Heq. split; [tauto|]. intros H2. split; [|done]. apply Hc. by exists s1.
  - intros s' Hs'. destruct (Hsh s' Hs') as [Hrh Hout]. split.
    + rewrite !Forall_forall in *. intros e He. destruct (Hrc e He) as [R1 R2].
      destruct (Hout e) as [R3 R4]; [by apply L1|by apply A1|]. split; congruence.
    + rewrite !Forall_forall in *. intros e He. apply (same_read _ s s1); auto.
Qed.
End ReaderFacts.
End Reader.

(** ** The options of the HSS *)

Module Options.
Import Reader.

(** [enum OptionsSelected] *)
Definition jsoncfg               := 0x01.
Definition diameterconfiguration := 0x02.
Definition cassserver            := 0x04.
Definition cassuser              := 0x08.
Definition casspwd               := 0x10.
Definition cassdb                := 0x20.
Definition randvector            := 0x40.
Definition optkey                := 0x80.
Definition reloadkey             := 0x100.
Definition onlyloadkey           := 0x200.
Definition gtwport               := 0x400.
Definition gtwhost               := 0x800.
Definition restport              := 0x1000.
Definition logmaxsize            := 0x2000.
Definition lognbrfiles           := 0x4000.
Definition logfilename           := 0x8000.
Definition logqueuesize          := 0x10000.
Definition numworkers            := 0x20000.
Definition concurrent            := 0x40000.
Definition statlogfilename       := 0x80000.
Definition statlognbrfiles       := 0x100000.
Definition statlogmaxsize        := 0x200000.
Definition statfrequency         := 0x400000.
Definition auditlogfilename      := 0x800000.
Definition auditlognbrfiles      := 0x1000000.
Definition auditlogmaxsize       := 0x2000000.
Definition ossport               := 0x4000000.
Definition ossfile               := 0x8000000.
Definition roamallow             := 0x10000000.

(** The static members. *)
Record t := mk {
  options : Z;
  m_logmaxsize : Z; m_lognbrfiles : Z; m_logfilename : string; m_logqueuesize : Z;
  m_statlogmaxsize : Z; m_statlognbrfiles : Z; m_statlogfilename : string;
  m_auditlogmaxsize : Z; m_auditlognbrfiles : Z; m_auditlogfilename : string;
  m_jsoncfg : string; m_diameterconfiguration : string;
  m_cassserver : string; m_cassuser : string; m_casspwd : string; m_cassdb : string;
  m_casscoreconnections : Z; m_cassmaxconnections : Z; m_cassioqueuesize : Z; m_cassiothreads : Z;
  m_randvector : bool; m_roamallow : bool; m_optkey : string; m_reloadkey : bool;
  m_onlyloadkey : bool; m_gtwport : Z; m_gtwhost : string; m_restport : Z; m_ossport : Z;
  m_ossfile : string; m_synchimsi : string; m_synchauts : string; m_numworkers : Z;
  m_concurrent : Z; m_statsfrequency : Z }.

Definition init : t :=
  mk 0 0 0 "" 0 0 0 "" 0 0 "" "" "" "" "" "" "" 1 2 8192 1 false false "" false false 0 "" 0 0 ""
    "" "" 0 0 0.

(** *** The command line *)

Definition long_options : list (string * bool * ascii) :=
  [("help", false, "h"%char); ("jsoncfg", true, "j"%char); ("fdcfg", true, "f"%char);
   ("casssrv", true, "s"%char); ("cassusr", true, "u"%char); ("casspwd", true, "p"%char);
   ("cassdb", true, "d"%char);
   ("randv", false, "r"%char); ("optkey", true, "o"%char); ("reloadkey", false, "i"%char);
   ("onlyloadkey", false, "q"%char); ("synchimsi", true, "x"%char); ("synchauts", true, "y"%char);
   ("numworkers", true, "z"%char); ("concurrent", true, "A"%char);
   ("roamallow", false, "w"%char);
   ("logname", true, "l"%char); ("lognumber", true, "n"%char); ("logqsize", true, "t"%char);
   ("logsize", true, "v"%char);
   ("statlogname", true, "L"%char); ("statlognumber", true, "N"%char);
   ("statlogsize", true, "V"%char); ("statfrequency", true, "W"%char);
   ("casscoreconnections", true, "C"%char); ("cassmaxconnections", true, "D"%char);
   ("cassioqueuesize", true, "E"%char); ("cassiothreads", true, "F"%char)].
Definition short_options : string := "hj:f:s:u:p:d:ro:iqwx:y:".

Definition set_option (f : Z) (s : t) : t := s <| options ::= (λ o, FLAGS_SET o f) |>.
Definition number (optarg : string) (f : Z → t → t) (s : t) : outcome t :=
  n ← atoi (bytes_of_string optarg); mret (f n s).

(** One turn of the switch: the new options, and whether the character is one of
    its cases.  [m_optkey = true] assigns the character 1. *)
Definition input_option (c : ascii) (optarg : string) (s : t) : outcome (t * bool) :=
  match c with
  | "j"%char => mret (set_option jsoncfg (s <| m_jsoncfg := optarg |>), true)
  | "f"%char => mret (set_option diameterconfiguration (s <| m_diameterconfiguration := optarg |>), true)
  | "s"%char => mret (set_option cassserver (s <| m_cassserver := optarg |>), true)
  | "u"%char => mret (set_option cassuser (s <| m_cassuser := optarg |>), true)
  | "p"%char => mret (set_option casspwd (s <| m_casspwd := optarg |>), true)
  | "d"%char => mret (set_option cassdb (s <| m_cassdb := optarg |>), true)
  | "r"%char => mret (set_option randvector (s <| m_randvector := true |>), true)
  | "w"%char => mret (set_option roamallow (s <| m_roamallow := true |>), true)
  | "o"%char => mret (set_option optkey (s <| m_optkey := String (chr 1) "" |>), true)
  | "i"%char => mret (set_option reloadkey (s <| m_reloadkey := true |>), true)
  | "q"%char => mret (set_option onlyloadkey (s <| m_onlyloadkey := true |>), true)
  | "x"%char => mret (s <| m_synchimsi := optarg |>, true)
  | "y"%char => mret (s <| m_synchauts := optarg |>, true)
  | "v"%char => s ← number optarg (λ n s, s <| m_logmaxsize := n |>) s; mret (set_option logmaxsize s, true)
  | "V"%char => s ← number optarg (λ n s, s <| m_statlogmaxsize := n |>) s; mret (set_option statlogmaxsize s, true)
  | "n"%char => s ← number optarg (λ n s, s <| m_lognbrfiles := n |>) s; mret (set_option lognbrfiles s, true)
  | "N"%char => s ← number optarg (λ n s, s <| m_statlognbrfiles := n |>) s; mret (set_option statlognbrfiles s, true)
  | "l"%char => mret (set_option logfilename (s <| m_logfilename := optarg |>), true)
  | "L"%char => mret (set_option statlogfilename (s <| m_statlogfilename := optarg |>), true)
  | "t"%char => s ← number optarg (λ n s, s <| m_logqueuesize := n |>) s; mret (set_option logqueuesize s, true)
  | "W"%char =>
      n ← atol (bytes_of_string optarg);
      mret (set_option statfrequency (s <| m_statsfrequency := u32 n |>), true)
  | "z"%char => s ← number optarg (λ n s, s <| m_numworkers := n |>) s; mret (set_option numworkers s, true)
  | "A"%char => s ← number optarg (λ n s, s <| m_concurrent := n |>) s; mret (set_option concurrent s, true)
  | "C"%char => s ← number optarg (λ n s, s <| m_casscoreconnections := u32 n |>) s; mret (s, true)
  | "D"%char => s ← number optarg (λ n s, s <| m_cassmaxconnections := u32 n |>) s; mret (s, true)
  | "E"%char => s ← number optarg (λ n s, s <| m_cassioqueuesize := u32 n |>) s; mret (s, true)
  | "F"%char => s ← number optarg (λ n s, s <| m_cassiothreads := u32 n |>) s; mret (s, true)
  | _ => mret (s, false)
  end.

(** The loop on the arguments; [None] when the process exits after its help. *)
Fixpoint input_options (args : list (ascii * string)) (result : bool) : M t (option bool) :=
  match args with
  | [] => mret (Some result)
  | (c, optarg) :: args' =>
      if decide (c = "h"%char) then mret None
      else
        s ← gets (λ s, s);
        '(s, known) ← lift (input_option c optarg s);
        _ ← modify (const s);
        input_options args' (result && known)
  end.
Definition parseInputOptions `{Getopt} (argv : list string) : M t (option bool) :=
  input_options (getopt_long short_options long_options argv) true.

(** *** The JSON file *)

Definition common_entries : list (entry t) :=
  [text diameterconfiguration "fdcfg" (λ v s, s <| m_diameterconfiguration := v |>) m_diameterconfiguration].

(** A member that replaces what the command line gave: it is checked as an [int]
    and read as an unsigned integer. *)
Definition cass_number (name : string) (assign : Z → t → t) (look : t → Z) : entry t :=
  mk_entry Z None name IsInt GetUint assign look.
Definition cassandra_entries : list (entry t) :=
  [text cassserver "casssrv" (λ v s, s <| m_cassserver := v |>) m_cassserver;
   text cassuser "cassusr" (λ v s, s <| m_cassuser := v |>) m_cassuser;
   text casspwd "casspwd" (λ v s, s <| m_casspwd := v |>) m_casspwd;
   text cassdb "cassdb" (λ v s, s <| m_cassdb := v |>) m_cassdb;
   cass_number "casscoreconnections" (λ v s, s <| m_casscoreconnections := v |>) m_casscoreconnections;
   cass_number "cassmaxconnections" (λ v s, s <| m_cassmaxconnections := v |>) m_cassmaxconnections;
   cass_number "cassioqueuesize" (λ v s, s <| m_cassioqueuesize := v |>) m_cassioqueuesize;
   cass_number "cassiothreads" (λ v s, s <| m_cassiothreads := v |>) m_cassiothreads].
Definition service_entries : list (entry t) :=
  [switch randvector "randv" (λ v s, s <| m_randvector := v |>) m_randvector;
   switch roamallow "roamallow" (λ v s, s <| m_roamallow := v |>) m_roamallow;
   text optkey "optkey" (λ v s, s <| m_optkey := v |>) m_optkey;
   switch reloadkey "reloadkey" (λ v s, s <| m_reloadkey := v |>) m_reloadkey;
   int gtwport "gtwport" (λ v s, s <| m_gtwport := v |>) m_gtwport;
   text gtwhost "gtwhost" (λ v s, s <| m_gtwhost := v |>) m_gtwhost;
   int restport "restport" (λ v s, s <| m_restport := v |>) m_restport].
Definition log_entries : list (entry t) :=
  [int logmaxsize "logsize" (λ v s, s <| m_logmaxsize := v |>) m_logmaxsize;
   int lognbrfiles "lognumber" (λ v s, s <| m_lognbrfiles := v |>) m_lognbrfiles;
   text logfilename "logname" (λ v s, s <| m_logfilename := v |>) m_logfilename;
   int logqueuesize "logqsize" (λ v s, s <| m_logqueuesize := v |>) m_logqueuesize;
   int statlogmaxsize "statlogsize" (λ v s, s <| m_statlogmaxsize := v |>) m_statlogmaxsize;
   int statlognbrfiles "statlognumber" (λ v s, s <| m_statlognbrfiles := v |>) m_statlognbrfiles;
   text statlogfilename "statlogname" (λ v s, s <| m_statlogfilename := v |>) m_statlogfilename;
   mk_entry Z (Some statfrequency) "statfreq" IsInt64 (λ j, v ← GetInt64 j; mret (u32 v))
     (λ v s, s <| m_statsfrequency := v |>) m_statsfrequency].
Definition worker_entries : list (entry t) :=
  [int auditlogmaxsize "auditlogsize" (λ v s, s <| m_auditlogmaxsize := v |>) m_auditlogmaxsize;
   int auditlognbrfiles "auditlognumber" (λ v s, s <| m_auditlognbrfiles := v |>) m_auditlognbrfiles;
   text auditlogfilename "auditlogname" (λ v s, s <| m_auditlogfilename := v |>) m_auditlogfilename;
   int numworkers "numworkers" (λ v s, s <| m_numworkers := v |>) m_numworkers;
   int concurrent "concurrent" (λ v s, s <| m_concurrent := v |>) m_concurrent;
   int ossport "ossport" (λ v s, s <| m_ossport := v |>) m_ossport;
   text ossfile "ossfile" (λ v s, s <| m_ossfile := v |>) m_ossfile].
Definition hss_entries : list (entry t) :=
  cassandra_entries ++ service_entries ++ log_entries ++ worker_entries.

Definition set_options (o : Z) (s : t) : t := s <| options := o |>.

Definition parseJson `{Files} `{FreeDiameter} : M t bool :=
  name ← gets m_jsoncfg;
  match read_file name with
  | None => mret false
  | Some file =>
      match json_parse (upto_nul file) with
      | Some (JObject ms) =>
          read_sections options set_options (JObject ms) "common" common_entries "hss" hss_entries
      | _ => mret false
      end
  end.

(** *** Both *)

Definition required : list Z :=
  [diameterconfiguration; cassserver; cassuser; casspwd; cassdb; optkey; gtwport; gtwhost; restport;
   logmaxsize; lognbrfiles; logfilename; logqueuesize; statlogmaxsize; statlognbrfiles;
   statlogfilename; statfrequency; auditlogmaxsize; auditlognbrfiles; auditlogfilename; numworkers;
   concurrent; ossport; ossfile].
Definition validateOptions (s : t) : bool := forallb (FLAG_IS_SET (options s)) required.

Definition parse `{Getopt} `{Files} `{FreeDiameter} (argv : list string) : M t (option bool) :=
  input ← parseInputOptions argv;
  match input with
  | None => mret None
  | Some ret =>
      cfg ← gets m_jsoncfg;
      ret ← (if ret && negb (String.eqb cfg "") then parseJson else mret ret);
      valid ← gets validateOptions;
      mret (Some (ret && valid))
  end.

(** *** The configuration of the C code *)

(** [hss_config_t], without its unused [config]. *)
Record hss_config := mk_hss_config {
  cassandra_server : string; cassandra_user : string; cassandra_password : string;
  cassandra_database : string; operator_key : string; operator_key_bin : bytes; valid_op : Z;
  freediameter_config : string; random : option string; random_bool : Z }.
(** After [memset]. *)
Definition zero_config : hss_config := mk_hss_config "" "" "" "" "" (replicate 16 0) 0 "" None 0.

(** [%02x] of [sscanf]: spaces, then at most two characters. *)
Definition xdigit (c : Z) : option Z :=
  if (48 <=? c) && (c <=? 57) then Some (c - 48)
  else if (65 <=? c) && (c <=? 70) then Some (c - 55)
  else if (97 <=? c) && (c <=? 102) then Some (c - 87)
  else None.
Definition scan_02x (s : bytes) : option (Z * bytes) :=
  match skip_spaces s with
  | c :: s' =>
      match xdigit c, s' with
      | Some h, d :: s'' =>
          match xdigit d with
          | Some l => Some (16 * h + l, s'')
          | None => if (c =? 48) && ((d =? 120) || (d =? 88)) then None else Some (h, s')
          end
      | Some h, [] => Some (h, [])
      | None, d :: s'' =>
          if (c =? 43) || (c =? 45) then
            l ← xdigit d; Some (if c =? 45 then u32 (- l) else l, s'')
          else None
      | None, [] => None
      end
  | [] => None
  end.

(** [sscanf] into the octets [n, n + 1, ...]: each conversion stores an [unsigned
    int], the four octets from its own on.  The count and the memory. *)
Fixpoint scan_key (left n : nat) (s mem : bytes) : nat * bytes :=
  match left with
  | O => (n, mem)
  | S left' =>
      match scan_02x s with
      | Some (v, s') => scan_key left' (S n) s' (take n mem ++ le_bytes 4 v ++ drop (n + 4) mem)
      | None => (n, mem)
      end
  end.

(** [None] when the process aborts.  The octets after [operator_key_bin] are
    those of [valid_op]. *)
Definition fillhssconfig (o : t) (c : hss_config) : option hss_config :=
  let c := c <| cassandra_server := upto_nul (m_cassserver o) |>
             <| cassandra_user := upto_nul (m_cassuser o) |>
             <| cassandra_password := upto_nul (m_casspwd o) |>
             <| cassandra_database := upto_nul (m_cassdb o) |>
             <| operator_key := upto_nul (m_optkey o) |>
             <| freediameter_config := upto_nul (m_diameterconfiguration o) |> in
  c ← (if (String.length (operator_key c) =? 32)%nat then
         let '(ret, mem) := scan_key 16 0 (bytes_of_string (operator_key c))
                              (operator_key_bin c ++ le_bytes 4 (valid_op c)) in
         if negb (ret =? 16)%nat then None
         else Some (c <| operator_key_bin := take 16 mem |> <| valid_op := 1 |>)
       else Some c);
  Some (if m_randvector o then c <| random := Some "true"%string |> <| random_bool := 1 |>
        else c <| random := Some "false"%string |>).

(** What [main] passes on. *)
Definition startup (o : t) (c : hss_config) : Startup.options :=
  Startup.mk_options (m_onlyloadkey o) (m_reloadkey o) (m_synchimsi o) (m_synchauts o)
    (operator_key_bin c) (random_bool c).
End Options.

(** ** Properties of the options *)

Module OptionsFacts.
Import Reader Options.

(** *** The members are independent *)

Lemma entries_lawful : Forall (lawful options set_options) (common_entries ++ hss_entries).
Proof. repeat (apply Forall_cons; split; [by split|]). by apply Forall_nil. Qed.
Lemma entries_independent : ForallOrdPairs independent (common_entries ++ hss_entries).
Proof.
  repeat (apply FOP_cons; [repeat (apply Forall_cons; split; [by repeat split|]); by apply Forall_nil|]).
  apply FOP_nil.
Qed.

(** *** The operator key *)

Lemma xdigit_hexc upper n : 0 <= n < 16 →
  xdigit (Hex.hexc upper n) = Some n ∧ isspace (Hex.hexc upper n) = false.
Proof.
  revert n. apply Hex.nibble_ind. intros k Hk. destruct upper; by do 16 (destruct k as [|k]; [done|]); lia.
Qed.
Lemma scan_02x_hex upper b l : is_byte b →
  scan_02x (Hex.hex_of_byte upper 0 b ++ l) = Some (b, l).
Proof.
  intros Hb. destruct (Hex.byte_nibbles b Hb) as [Hh Hl]. rewrite Hex.hex_of_byte_nibbles by done.
  destruct (xdigit_hexc upper _ Hh) as [Xh Sh], (xdigit_hexc upper _ Hl) as [Xl _].
  unfold scan_02x. cbn [app skip_spaces]. rewrite Sh, Xh, Xl. do 2 f_equal.
  symmetry. by apply Z.div_mod.
Qed.

(** The four octets each conversion stores are replaced, but the first, by the
    next; the last reach into the three octets that follow. *)
Lemma scan_key_hex upper b pre mem : are_bytes b → (length mem = length pre + length b + 4)%nat →
  take (length pre) mem = pre →
  let '(n, mem') := scan_key (length b) (length pre) (mjoin (Hex.hex_of_byte upper 0 <$> b)) mem in
  n = (length pre + length b)%nat ∧ take n mem' = pre ++ b.
Proof.
  intros Hb. revert pre mem. induction Hb as [|x b Hx Hb IH]; intros pre mem Hlen Htake; cbn [length scan_key].
  { rewrite Nat.add_0_r, app_nil_r. done. }
  rewrite Hex.mjoin_hex_cons, scan_02x_hex by done.
  specialize (IH (pre ++ [x]) (take (length pre) mem ++ le_bytes 4 x ++ drop (length pre + 4) mem)).
  rewrite (length_app pre [x]) in IH. cbn [length] in IH, Hlen. rewrite Nat.add_1_r in IH.
  destruct (scan_key _ _ _ _) as [n mem']. destruct IH as [-> IH].
  - rewrite !length_app, length_take, length_drop, le_bytes_length. lia.
  - rewrite Htake. cbn [le_bytes app]. rewrite cons_middle, app_assoc.
    rewrite take_app_length' by (rewrite length_app; cbn; lia).
    by rewrite (Z.mod_small x 256) by exact Hx.
  - rewrite <- app_assoc in IH. split; [lia|exact IH].
Qed.

(** A key of 32 hexadecimal digits, of either case, is decoded. *)
Lemma operator_key_decoded o c b upper : are_bytes b → length b = 16%nat →
  m_optkey o = Hex.bytes2hex b 16 0 upper → length (operator_key_bin c) = 16%nat →
  ∃ c', fillhssconfig o c = Some c' ∧ operator_key_bin c' = b ∧ valid_op c' = 1.
Proof.
  intros Hb Hl Hk Hc. unfold fillhssconfig. cbn [operator_key operator_key_bin valid_op].
  assert (bytes_of_string (upto_nul (m_optkey o)) = mjoin (Hex.hex_of_byte upper 0 <$> b)) as Ht.
  { rewrite Hk, <- Hl, upto_nul_without by (by apply FdhssFacts.hex_without_nul).
    by apply Hex.bytes_of_bytes2hex. }
  assert (String.length (upto_nul (m_optkey o)) = 32%nat) as Hlen.
  { rewrite <- bytes_of_string_length, Ht. rewrite Hex.mjoin_hex_length by done. lia. }
  pose proof (scan_key_hex upper b [] (operator_key_bin c ++ le_bytes 4 (valid_op c)) Hb) as Hs.
  cbn [length Nat.add] in Hs. rewrite Hl in Hs.
  cbn -[scan_key le_bytes]. rewrite Hlen, Ht. cbn -[scan_key le_bytes].
  destruct (scan_key _ _ _ _) as [n mem].
  destruct Hs as [-> Hs]; [rewrite length_app, le_bytes_length; lia|done|].
  cbn. destruct (m_randvector o); eexists; split; [reflexivity| |reflexivity|]; by rewrite Hs.
Qed.

(** *** The command line *)

(** The flags the command line may set. *)
Definition command_flags : list Z :=
  [jsoncfg; diameterconfiguration; cassserver; cassuser; casspwd; cassdb; randvector; roamallow;
   optkey; reloadkey; onlyloadkey; logmaxsize; statlogmaxsize; lognbrfiles; statlognbrfiles;
   logfilename; statlogfilename; logqueuesize; statfrequency; numworkers; concurrent].

Lemma input_option_flags c a s s' known : input_option c a s = Ok (s', known) →
  options s' = options s ∨ ∃ f, f ∈ command_flags ∧ options s' = FLAGS_SET (options s) f.
Proof.
  unfold input_option, number, mbind, outcome_bind.
  destruct c as [[] [] [] [] [] [] [] []]; try (intros [= <- <-]; by left);
    try destruct (atoi _); try destruct (atol _); intros [=]; subst;
    first [by left|right; eexists; split; [|reflexivity]; apply (bool_decide_unpack _); vm_compute; exact I].
Qed.

(** No option of the command line stands for the port of the gateway. *)
Lemma input_options_gtwport args r s o s' : input_options args r s = (Ok o, s') →
  FLAG_IS_SET (options s') gtwport = FLAG_IS_SET (options s) gtwport.
Proof.
  revert r s. induction args as [|[c a] args IH]; intros r s; cbn [input_options]; [by intros [= _ <-]|].
  case_decide; [by intros [= _ <-]|]. unfold mbind, M_bind, gets, lift, modify.
  destruct (input_option c a s) as [[s1 known]| |] eqn:E; try by intros [=]. cbn [const].
  intros H1. apply IH in H1. rewrite H1.
  apply input_option_flags in E as [->|(f & Hf & ->)]; [done|].
  apply FLAG_IS_SET_other. revert Hf. clear. revert f. apply Forall_forall.
  apply (bool_decide_unpack _). by vm_compute.
Qed.

(** Once the operator key was given, it is the character 1. *)
Definition key_lost (s : t) : Prop :=
  FLAG_IS_SET (options s) optkey = true ∧ m_optkey s = String (chr 1) "".
Lemma input_option_key c a s s' known : input_option c a s = Ok (s', known) →
  (c = "o"%char ∨ key_lost s) → key_lost s'.
Proof.
  intros E Hc. unfold key_lost in *. destruct (decide (c = "o"%char)) as [->|Hne].
  { cbn in E. injection E as <- <-. split; [by apply FLAG_IS_SET_same|done]. }
  destruct Hc as [|[Hf Hk]]; [done|]. pose proof (input_option_flags _ _ _ _ _ E) as Hfl. split.
  - destruct Hfl as [->|(f & _ & ->)]; [done|]. by apply FLAG_IS_SET_mono.
  - revert E Hne. unfold input_option, number, mbind, outcome_bind. clear Hfl Hf.
    destruct c as [[] [] [] [] [] [] [] []]; try (intros [= <- <-]; done);
      try destruct (atoi _); try destruct (atol _); intros [=]; subst; done.
Qed.
Lemma input_options_key args r s o s' : input_options args r s = (Ok (Some o), s') →
  ("o"%char ∈ args.*1 ∨ key_lost s) → key_lost s'.
Proof.
  revert r s. induction args as [|[c a] args IH]; intros r s; cbn [input_options fmap list_fmap].
  { intros [= _ <-] [[]%elem_of_nil|]; done. }
  case_decide as Hh; [by intros [=]|]. unfold mbind, M_bind, gets, lift, modify.
  destruct (input_option c a s) as [[s1 known]| |] eqn:E; try by intros [=]. cbn [const].
  intros H1 Hc. apply (IH _ _ H1). rewrite elem_of_cons in Hc. cbn [fst] in Hc.
  destruct Hc as [[<-|]|]; [|by left|]; right; eapply input_option_key; eauto.
Qed.

(** *** Both together *)

Section Parse.
Context `{Getopt} `{Files} `{FreeDiameter}.

(** Every option that must have a value got one. *)
Definition complete (cli : t) (doc : list (string * json)) : Prop :=
  Forall (λ f, FLAG_IS_SET (options cli) f = true ∨
    Exists (λ e, flag e = Some f ∧ present (section_of doc "common") e = true) common_entries ∨
    Exists (λ e, flag e = Some f ∧ present (section_of doc "hss") e = true) hss_entries) required.

(** The file that the command line names holds this document. *)
Definition configured (cli : t) (doc : list (string * json)) : Prop :=
  ∃ file, read_file (m_jsoncfg cli) = Some file ∧ json_parse (upto_nul file) = Some (JObject doc).

Lemma parseJson_spec (cli : t) doc : configured cli doc →
  (section_readable options cli doc "common" common_entries ∧ section_readable options cli doc "hss" hss_entries ↔
   ∃ s', parseJson cli = (Ok true, s')) ∧
  ∀ s', parseJson cli = (Ok true, s') →
    Forall (read options (section_of doc "common") cli s') common_entries ∧
    Forall (read options (section_of doc "hss") cli s') hss_entries.
Proof.
  intros (file & Hf & Hd). unfold parseJson. unfold mbind, M_bind, gets. rewrite Hf, Hd.
  apply read_sections_spec; [done|apply entries_lawful|apply entries_independent].
Qed.

Lemma required_have_entries :
  Forall (λ f, Exists (λ e, flag e = Some f) (common_entries ++ hss_entries)) required.
Proof. apply (bool_decide_unpack _). by vm_compute. Qed.

Lemma flags_after doc cli s' f : f ∈ required →
  Forall (read options (section_of doc "common") cli s') common_entries →
  Forall (read options (section_of doc "hss") cli s') hss_entries →
  FLAG_IS_SET (options s') f = true ↔
    FLAG_IS_SET (options cli) f = true ∨
    Exists (λ e, flag e = Some f ∧ present (section_of doc "common") e = true) common_entries ∨
    Exists (λ e, flag e = Some f ∧ present (section_of doc "hss") e = true) hss_entries.
Proof.
  intros Hf Hc Hh.
  assert (∀ ms e, read options ms cli s' e → flag e = Some f →
    FLAG_IS_SET (options s') f = true ↔ FLAG_IS_SET (options cli) f = true ∨ present ms e = true) as Hone.
  { intros ms e [_ Hg] Hfe. unfold given in Hg. rewrite Hfe in Hg.
    rewrite Hg, bool_decide_true by done. rewrite andb_true_l. apply orb_true_iff. }
  rewrite Forall_forall in Hc, Hh.
  pose proof (proj1 (Forall_forall _ _) required_have_entries f Hf) as (e & He & Hfe)%Exists_exists.
  split.
  - intros Hs. apply elem_of_app in He as [He|He].
    + apply (Hone _ e (Hc e He) Hfe) in Hs as [|]; [by left|right; left]. apply Exists_exists. eauto.
    + apply (Hone _ e (Hh e He) Hfe) in Hs as [|]; [by left|right; right]. apply Exists_exists. eauto.
  - intros [Hs|[(e' & He' & Hfe' & Hp)%Exists_exists|(e' & He' & Hfe' & Hp)%Exists_exists]].
    + apply elem_of_app in He as [He|He];
        [apply (Hone _ e (Hc e He) Hfe)|apply (Hone _ e (Hh e He) Hfe)]; by left.
    + apply (Hone _ e' (Hc e' He') Hfe'). by right.
    + apply (Hone _ e' (Hh e' He') Hfe'). by right.
Qed.

Lemma validate_complete doc cli s' :
  Forall (read options (section_of doc "common") cli s') common_entries →
  Forall (read options (section_of doc "hss") cli s') hss_entries →
  validateOptions s' = true ↔ complete cli doc.
Proof.
  intros Hc Hh. unfold validateOptions, complete. rewrite forallb_forall, Forall_forall.
  split; intros H2 f Hf; (eapply flags_after; [|exact Hc|exact Hh|]).
  - done.
  - apply H2. by apply list_elem_of_In.
  - by apply list_elem_of_In.
  - apply H2. by apply list_elem_of_In.
Qed.

(** What [parse] accepts. *)
Definition acceptable (argv : list string) (cli : t) (doc : list (string * json)) : Prop :=
  parseInputOptions argv init = (Ok (Some true), cli) ∧ m_jsoncfg cli ≠ ""%string ∧ configured cli doc ∧
  section_readable options cli doc "common" common_entries ∧ section_readable options cli doc "hss" hss_entries ∧
  complete cli doc.

Lemma parse_spec argv :
  ((∃ s', parse argv init = (Ok (Some true), s')) ↔ ∃ cli doc, acceptable argv cli doc) ∧
  ∀ s' cli doc, parse argv init = (Ok (Some true), s') → acceptable argv cli doc →
    Forall (read options (section_of doc "common") cli s') common_entries ∧
    Forall (read options (section_of doc "hss") cli s') hss_entries.
Proof.
  unfold acceptable, parse, mbind, M_bind, gets.
  destruct (parseInputOptions argv init) as [o cli] eqn:Hin.
  destruct o as [[ret|]| |];
    try solve [split; [split; [intros [? [=]]|intros (? & ? & [=] & _)]|intros ? ? ? [=]]].
  pose proof (input_options_gtwport _ _ _ _ _ Hin) as Hg. cbn in Hg.
  assert (validateOptions cli = false) as Hv.
  { unfold validateOptions. apply not_true_iff_false. rewrite forallb_forall. intros Hall.
    rewrite (Hall gtwport) in Hg; [done|]. apply list_elem_of_In. apply (bool_decide_unpack _). by vm_compute. }
  destruct ret; cbn [andb].
  2:{ split; [split; [intros [? [=]]|intros (? & ? & [=] & _)]|intros ? ? ? [=]]. }
  destruct (String.eqb_spec (m_jsoncfg cli) "") as [Ej|Ej]; cbn [negb andb].
  { unfold mret, M_ret. rewrite Hv. cbn.
    split; [split; [intros [? [=]]|intros (? & ? & [= <-] & ? & _); done]|intros ? ? ? [=]]. }
  destruct (parseJson cli) as [o s1] eqn:Hj.
  assert (∀ s2, (o, s1) = (Ok true, s2) → ∃ doc, configured cli doc) as Hdoc.
  { intros s2 [= -> ->]. revert Hj. unfold parseJson, configured, mbind, M_bind, gets.
    destruct (read_file _) as [file|]; [|by intros [=]].
    destruct (json_parse _) as [[| | | | | |ms]|] eqn:Ep; try by intros [=]. eauto. }
  assert (∀ doc, configured cli doc → o ≠ Ok true → ¬ (section_readable options cli doc "common" common_entries
    ∧ section_readable options cli doc "hss" hss_entries)) as Hno.
  { intros doc Hd Hne Hr. apply (parseJson_spec cli doc Hd) in Hr as [s2 E]. rewrite Hj in E. congruence. }
  destruct o as [[|]| |];
    try solve [split; [split; [intros [? [=]]|intros (c & doc & [= <-] & _ & Hd & Hrc & Hrh & _);
      by destruct (Hno doc Hd ltac:(done) (conj Hrc Hrh))]|intros ? ? ? [=]]].
  cbn [andb]. destruct (Hdoc s1 eq_refl) as [doc0 Hd0].
  assert (∀ doc, configured cli doc → doc = doc0) as Huniq.
  { intros doc (f & Hf & Hp). destruct Hd0 as (f0 & Hf0 & Hp0). congruence. }
  destruct (parseJson_spec cli doc0 Hd0) as [Hr Hsp]. destruct (Hsp s1 Hj) as [Hc Hh].
  pose proof (validate_complete doc0 cli s1 Hc Hh) as Hval.
  split; [split|].
  - intros [s' [= Hvs _]]. exists cli, doc0. split_and!; try done; try (apply Hr; by exists s1). by apply Hval.
  - intros (c & doc & [= <-] & _ & Hd & _ & _ & Hcomp). rewrite (Huniq doc Hd) in Hcomp.
    apply Hval in Hcomp as ->. by eexists.
  - intros s' c doc [= _ <-] ([= <-] & _ & Hd & _). rewrite (Huniq doc Hd).
    by split.
Qed.


(** C29: An operator key given on the command line is lost: whatever the key, and
    whatever the JSON file says, the HSS starts with a key of zeros; asked to load
    only the key, it replaces every stored OPc by one that belongs to that. *)
Theorem operator_key_option_lost `{Paging} `{LibcRand G} {D : Type} argv s' :
  "o"%char ∈ (getopt_long short_options long_options argv).*1 →
  parse argv init = (Ok (Some true), s') →
  ∃ c, fillhssconfig s' zero_config = Some c ∧ operator_key_bin c = replicate 16 0 ∧
    ∀ (w : World.world D G) xs n session' fuel sqn_nb,
      m_onlyloadkey s' = true → (n <= fuel)%nat →
      FdhssFacts.recomputed (replicate 16 0) None xs n
        (DataAccess.session (World.database w)) session' →
      Startup.prepare fuel sqn_nb (startup s' c) w =
        (Ok (Some false), w <| World.database ::= (λ d, d <| DataAccess.session := session' |>) |>).
Proof.
  intros Ho Hp. destruct (parse_spec argv) as [Hacc Hread].
  destruct (proj1 Hacc (ex_intro _ s' Hp)) as (cli & doc & Ha).
  destruct (Hread s' cli doc Hp Ha) as [_ Hh]. destruct Ha as (Hin & _).
  destruct (input_options_key _ _ _ _ _ Hin (or_introl Ho)) as [Hf Hk].
  assert (m_optkey s' = String (chr 1) "") as Hk'.
  { set (e := text optkey "optkey" (λ v s, s <| m_optkey := v |>) m_optkey).
    assert (e ∈ hss_entries) as He by (unfold hss_entries; cbn [app cassandra_entries service_entries]; set_solver).
    rewrite Forall_forall in Hh. destruct (Hh e He) as [Hl _].
    unfold value, given in Hl. cbn in Hl. by rewrite Hf, Hk in Hl. }
  unfold fillhssconfig. rewrite Hk'. cbn -[replicate].
  assert (∀ c : hss_config, operator_key_bin c = replicate 16 0 →
    ∃ c', Some c = Some c' ∧ operator_key_bin c' = replicate 16 0 ∧
    ∀ (w : World.world D G) xs n session' fuel sqn_nb,
      m_onlyloadkey s' = true → (n <= fuel)%nat →
      FdhssFacts.recomputed (replicate 16 0) None xs n
        (DataAccess.session (World.database w)) session' →
      Startup.prepare fuel sqn_nb (startup s' c') w =
        (Ok (Some false), w <| World.database ::= (λ d, d <| DataAccess.session := session' |>) |>)) as Hc.
  { intros c Hc. exists c. split; [done|]. split; [done|]. intros w xs n session' fuel sqn_nb Hq Hn Hrec.
    unfold Startup.prepare. cbn [Startup.onlyloadkey startup Startup.operator_key_bin]. rewrite Hq, Hc.
    unfold World.on_db, zoom, mbind, M_bind, Opc.updateOpcKeys, Opc.checkOpcKeys.
    rewrite (FdhssFacts.check_pages_ok (replicate 16 0) None xs n _ _ fuel Hrec Hn). done. }
  destruct (m_randvector s'); by apply Hc.
Qed.
End Parse.
End OptionsFacts.

(** ** Witnesses *)

Module OptionsWitness.
Import Reader Options OptionsFacts FdhssWitness ScriptedCassandra WitnessFreeDiameter.

(** Short options only, each in a word of its own. *)
Fixpoint takes_argument (short : string) (c : ascii) : bool :=
  match short with
  | String c' (String d s' as s) =>
      if Ascii.eqb c c' then Ascii.eqb d ":" else takes_argument s c
  | _ => false
  end.
Fixpoint short_getopt (short : string) (argv : list string) : list (ascii * string) :=
  match argv with
  | String "-"%char (String c "") :: argv' =>
      if takes_argument short c then
        match argv' with
        | a :: argv'' => (c, a) :: short_getopt short argv''
        | [] => [("?"%char, ""%string)]
        end
      else (c, ""%string) :: short_getopt short argv'
  | _ :: argv' => short_getopt short argv'
  | [] => []
  end.
#[local] Instance getopt : Getopt := λ short _ argv, short_getopt short (drop 1 argv).
#[local] Instance files : Files := λ name, if String.eqb name "hss.json" then Some "the file"%string else None.

Definition document : list (string * json) :=
  [("common", JObject [("fdcfg", JString "fd.conf")]);
   ("hss", JObject
     [("gtwhost", JString "*"); ("gtwport", JInt 9080); ("restport", JInt 9081); ("ossport", JInt 9082);
      ("casssrv", JString "10.0.0.1"); ("cassusr", JString "root"); ("casspwd", JString "root");
      ("cassdb", JString "vhss"); ("casscoreconnections", JInt 2); ("randv", JBool true);
      ("optkey", JString "1006020f0a478bf6b699f15c062e42b3"); ("reloadkey", JBool false);
      ("logsize", JInt 20); ("lognumber", JInt 5); ("logname", JString "hss.log");
      ("logqsize", JInt 8192); ("statlogsize", JInt 20); ("statlognumber", JInt 5);
      ("statlogname", JString "stat.log"); ("auditlogsize", JInt 20); ("auditlognumber", JInt 5);
      ("auditlogname", JString "audit.log"); ("statfreq", JInt 2000); ("numworkers", JInt 4);
      ("concurrent", JInt 10); ("ossfile", JString "oss.json")])].
#[local] Instance options_stack : FreeDiameter :=
  stack_with (λ _, Some (JObject document)) (λ _, "{}"%string).

Definition argv : list string := ["hss"; "-j"; "hss.json"; "-s"; "127.0.0.1"].
Definition parsed : t := (parse argv init).2.
Lemma parsed_ok : parse argv init = (Ok (Some true), parsed).
Proof. by vm_compute. Qed.


(** *** A key on the command line *)

Definition key_argv : list string :=
  ["hss"; "-j"; "hss.json"; "-q"; "-o"; "1006020f0a478bf6b699f15c062e42b3"].
Definition key_parsed : t := (parse key_argv init).2.
Lemma key_parsed_ok : parse key_argv init = (Ok (Some true), key_parsed).
Proof. by vm_compute. Qed.
Definition key_world : World.world Z nat :=
  World.mk opc_db [] [] (Auc.Random.Build_state 0 0%nat).

Lemma zero_recomputed :
  FdhssFacts.recomputed (replicate 16 0) None (map subscriber [1; 2] ++ map subscriber [3]) 2
    (DataAccess.session (World.database key_world)) (opc_done (replicate 16 0)).
Proof. recompute_pages. Qed.

(** The OPc of three subscribers are replaced by those of the zero key. *)
Lemma operator_key_option_lost_witness :
  ∃ c, fillhssconfig key_parsed zero_config = Some c ∧ operator_key_bin c = replicate 16 0 ∧
    Startup.prepare 2 0 (startup key_parsed c) key_world =
      (Ok (Some false), key_world <| World.database ::=
         (λ d, d <| DataAccess.session := opc_done (replicate 16 0) |>) |>).
Proof.
  destruct (operator_key_option_lost (G := nat) (D := Z) key_argv key_parsed) as (c & Hc & Hk & Hrun).
  - apply (bool_decide_unpack _). by vm_compute.
  - apply key_parsed_ok.
  - exists c. split; [exact Hc|]. split; [exact Hk|].
    eapply (Hrun key_world); [by vm_compute| |apply zero_recomputed]; lia.
Defined.

(** From the JSON file alone it is decoded. *)
Lemma operator_key_of_file :
  operator_key_bin <$> fillhssconfig parsed zero_config =
  Some [16; 6; 2; 15; 10; 71; 139; 246; 182; 153; 241; 92; 6; 46; 66; 179].
Proof. by vm_compute. Qed.
End OptionsWitness.
