(* ===== verification/Sms.v ===== *)
(** * The SMS router

    Models smsrouter/src: the relay of a short message (sgd_impl.cpp), the
    routing request it sends to the HSS (s6c_impl.cpp), its options (options.cpp)
    and its menu (main.cpp); and the composition of the routing request with the
    HSS's handler of Srr. *)

From S2P Require Import Prelude Cxx Codec Json Diameter DataAccess World Schemas Srr Options.
#[local] Open Scope Z_scope.

(** ** What its two applications send *)

Module SmsRouter.
Section SmsRouter.
Import FDExtractor.
Context `{FreeDiameter}.

(** The messages sent so far. *)
Abbreviation router := (list sent).

(** [getDict().vnd3GPP().getId()], [getDict().app().getId()]. *)
Variables (vnd3GPP app_id : Z).

Definition vsai : avp :=
  AvpGroup "Vendor-Specific-Application-Id"
    [AvpU32 "Vendor-Id" vnd3GPP; AvpU32 "Auth-Application-Id" app_id].

Definition send_answer (ans : message) : M router unit :=
  _ ← lift (FDMessage.send ans); modify (λ l, l ++ [SentAnswer ans]).

(** [try { s->send(); } catch (FDException &) { delete s; s = NULL; }] and whether
    the request is still there. *)
Definition send_request (cmd : string) (req : message) : M router bool :=
  catch (_ ← lift (FDMessage.send req); _ ← modify (λ l, l ++ [SentRequest cmd req]); mret true)
    (λ x, if decide (x = FDException) then mret false else throw x).

(** *** SGd: a message from a mobile is answered and sent back *)

Definition mo_field (req : message) (k : avp_name) : outcome (option avp) :=
  field Sgd.MoForwardShortMessageRequestExtractor req k.

(** The TPDU of every message that is delivered. *)
Definition tpdu : bytes :=
  [0x04; 0x08; 0x81; 0x11; 0x22; 0x33; 0x44; 0x00;
   0x00; 0x81; 0x10; 0x30; 0x31; 0x60; 0x00; 0x4a;
   0x11; 0xc8; 0x30; 0xf2; 0x8d; 0x2c; 0x83; 0x90;
   0x65; 0x39; 0x1d; 0x1d; 0x06; 0x09; 0xa7; 0x43].

Definition createMTFSMRreq (ofr : message) (session : nat) : outcome message :=
  let s := [FDMessage.string_avp "Session-Id" (fd_session_id session); vsai;
            AvpU32 "Auth-Session-State" 1] ++ fd_origin in
  a ← mo_field ofr "Origin-Host";
  '(_, str) ← get_string a "";
  let s := s ++ [FDMessage.string_avp "Destination-Host" str] in
  a ← mo_field ofr "Origin-Realm";
  '(_, str) ← get_string a str;
  let s := s ++ [FDMessage.string_avp "Destination-Realm" str] in
  a ← subfield Sgd.MoForwardShortMessageRequestExtractor ofr "User-Identifier"
        Sgd.UserIdentifierExtractor "User-Name";
  user_name ← FDMessage.copied a;
  a ← mo_field ofr "SC-Address";
  sc_address ← FDMessage.copied a;
  mret (s ++ user_name ++ sc_address ++ [AvpOctets "SM-RP-UI" tpdu]).

Definition sendMTFSMRreq (ofr : message) : M router bool :=
  n ← gets (length (A := sent));
  s ← lift (createMTFSMRreq ofr n);
  send_request "MT-Forward-Short-Message-Request" s.

(** [MOFSMRcmd::process] *)
Definition process (req ans : message) : M router Z :=
  _ ← send_answer (ans ++ [vsai; AvpU32 "Result-Code" 2001; AvpU32 "Auth-Session-State" 1] ++ fd_origin);
  _ ← sendMTFSMRreq req;
  mret 0.

(** *** S6c: the routing request *)

(** The options [hssHost] and [hssRealm], and the uninitialised [buf]. *)
Variables (hssHost hssRealm : string) (u_buf : bytes).

Definition createSERIFSRreq (withMsisdn withImsi : bool) (session : nat) : outcome message :=
  let s := [FDMessage.string_avp "Session-Id" (fd_session_id session); vsai;
            AvpU32 "Auth-Session-State" 1] ++ fd_origin
           ++ [FDMessage.string_avp "Destination-Host" hssHost;
               FDMessage.string_avp "Destination-Realm" hssRealm] in
  msisdn ← (if withMsisdn then
              '(len, buf) ← Tbcd.str2tbcd (bytes_of_string "12142150001") u_buf;
              mret [AvpOctets "MSISDN" (take len buf)]
            else mret []);
  let imsi := if withImsi then [FDMessage.string_avp "User-Name" "001014567891234"] else [] in
  mret (s ++ msisdn ++ imsi).

Definition sendSERIFSRreq (withMsisdn withImsi : bool) : M router bool :=
  n ← gets (length (A := sent));
  s ← lift (createSERIFSRreq withMsisdn withImsi n);
  send_request "Send-Routing-Info-for-SM-Request" s.

(** *** The menu *)

(** [std::cin >> choice]: the number, [None] when the extraction fails, and what
    is left.  A number that does not fit is read and fails. *)
Fixpoint skip_digits (s : bytes) : bytes :=
  match s with c :: s' => if isdigit c then skip_digits s' else s | [] => [] end.
Definition extract_int (s : bytes) : option Z * bytes :=
  let '(neg, s) := signed s in
  match s with
  | c :: _ =>
      if isdigit c then
        let v := digits_value s 0 in
        let v := if (neg : bool) then - v else v in
        (if (- 2 ^ 31 <=? v) && (v <? 2 ^ 31) then Some v else None, skip_digits s)
      else (None, s)
  | [] => (None, s)
  end.

(** The loop: [None] when it has not ended after [fuel] turns. *)
Fixpoint menu (fuel : nat) (input : bytes) : M router (option unit) :=
  match fuel with
  | O => mret None
  | S fuel' =>
      let '(choice, input) := extract_int input in
      match choice with
      | None => menu fuel' input
      | Some choice =>
          _ ← (if choice =? 1 then sendSERIFSRreq true false
               else if choice =? 2 then sendSERIFSRreq false true
               else if choice =? 3 then sendSERIFSRreq true true
               else mret true);
          if choice =? 99 then mret (Some tt) else menu fuel' input
      end
  end.
End SmsRouter.
End SmsRouter.

(** ** Its options *)

Module SmsOptions.
Import Reader.

Definition opt_jsoncfg      := 0x00000001.
Definition opt_originhost   := 0x00000002.
Definition opt_originrealm  := 0x00000004.
Definition opt_fdcfg        := 0x00000008.
Definition opt_hsshost      := 0x00000010.
Definition opt_hssrealm     := 0x00000020.
Definition opt_logmaxsize   := 0x00000040.
Definition opt_lognbrfiles  := 0x00000080.
Definition opt_logfilename  := 0x00000100.
Definition opt_logqueuesize := 0x00000200.

Record t := mk {
  m_options : Z;
  m_jsoncfg : string; m_originhost : string; m_originrealm : string; m_fdcfg : string;
  m_hsshost : string; m_hssrealm : string;
  m_logmaxsize : Z; m_lognbrfiles : Z; m_logfilename : string; m_logqueuesize : Z }.
Definition set_options (o : Z) (s : t) : t := s <| m_options := o |>.

(** The constructor leaves the integers as they are in memory. *)
Definition new (options logmaxsize lognbrfiles logqueuesize : Z) : t :=
  mk options "" "" "" "" "" "" logmaxsize lognbrfiles "" logqueuesize.

Definition long_options : list (string * bool * ascii) :=
  [("help", false, "h"%char); ("jsoncfg", true, "j"%char); ("originhost", true, "s"%char);
   ("originrealm", true, "r"%char); ("hsshost", true, "a"%char); ("hssrealm", true, "b"%char);
   ("logsize", true, "z"%char); ("lognumber", true, "n"%char); ("logname", true, "l"%char);
   ("logqsize", true, "q"%char); ("fdcfg", true, "c"%char)].
Definition short_options : string := "j:hs:r:a:b:c:z:n:d:l:".

Definition set_option (f : Z) (s : t) : t := s <| m_options ::= (λ o, FLAGS_SET o f) |>.
Definition number (optarg : string) (f : Z → t → t) (s : t) : outcome t :=
  n ← atoi (bytes_of_string optarg); mret (f n s).

(** The case of the queue's size is written ['1']. *)
Definition input_option (c : ascii) (optarg : string) (s : t) : outcome (t * bool) :=
  match c with
  | "j"%char => mret (set_option opt_jsoncfg (s <| m_jsoncfg := optarg |>), true)
  | "s"%char => mret (set_option opt_originhost (s <| m_originhost := optarg |>), true)
  | "r"%char => mret (set_option opt_originrealm (s <| m_originrealm := optarg |>), true)
  | "a"%char => mret (set_option opt_hsshost (s <| m_hsshost := optarg |>), true)
  | "b"%char => mret (set_option opt_hssrealm (s <| m_hssrealm := optarg |>), true)
  | "c"%char => mret (set_option opt_fdcfg (s <| m_fdcfg := optarg |>), true)
  | "z"%char => s ← number optarg (λ n s, s <| m_logmaxsize := n |>) s; mret (set_option opt_logmaxsize s, true)
  | "n"%char => s ← number optarg (λ n s, s <| m_lognbrfiles := n |>) s; mret (set_option opt_lognbrfiles s, true)
  | "l"%char => mret (set_option opt_logfilename (s <| m_logfilename := optarg |>), true)
  | "1"%char => s ← number optarg (λ n s, s <| m_logqueuesize := n |>) s; mret (set_option opt_logqueuesize s, true)
  | _ => mret (s, false)
  end.

Fixpoint input_options (args : list (ascii * string)) (result : bool) : M t (option bool) :=
  match args with
  | [] => mret (Some result)
  | (c, optarg) :: args' =>
      if decide (c = "h"%char) then mret None
      else
        s ← gets (λ s, s);
        '(s, known) ← lift (input_option c optarg s);
        _ ← modify (const s);
        input_options args' (result && known)
  end.
Definition parseInputOptions `{Getopt} (argv : list string) : M t (option bool) :=
  input_options (getopt_long short_options long_options argv) true.

Definition common_entries : list (entry t) :=
  [text opt_fdcfg "fdcfg" (λ v s, s <| m_fdcfg := v |>) m_fdcfg;
   text opt_originhost "originhost" (λ v s, s <| m_originhost := v |>) m_originhost;
   text opt_originrealm "originrealm" (λ v s, s <| m_originrealm := v |>) m_originrealm].
Definition smsrouter_entries : list (entry t) :=
  [text opt_hsshost "hsshost" (λ v s, s <| m_hsshost := v |>) m_hsshost;
   text opt_hssrealm "hssrealm" (λ v s, s <| m_hssrealm := v |>) m_hssrealm;
   int opt_logmaxsize "logsize" (λ v s, s <| m_logmaxsize := v |>) m_logmaxsize;
   int opt_lognbrfiles "lognumber" (λ v s, s <| m_lognbrfiles := v |>) m_lognbrfiles;
   text opt_logfilename "logname" (λ v s, s <| m_logfilename := v |>) m_logfilename;
   int opt_logqueuesize "logqsize" (λ v s, s <| m_logqueuesize := v |>) m_logqueuesize].

(** A file that cannot be opened is read through a null pointer. *)
Definition parseJson `{Files} `{FreeDiameter} : M t bool :=
  name ← gets m_jsoncfg;
  match read_file name with
  | None => undefined
  | Some file =>
      match json_parse (upto_nul file) with
      | Some (JObject ms) =>
          read_sections m_options set_options (JObject ms) "common" common_entries
            "smsrouter" smsrouter_entries
      | _ => mret false
      end
  end.

Definition required : list Z :=
  [opt_jsoncfg; opt_originhost; opt_originrealm; opt_fdcfg; opt_hsshost; opt_hssrealm;
   opt_logmaxsize; opt_lognbrfiles; opt_logfilename].
Definition validateOptions (s : t) : bool := forallb (FLAG_IS_SET (m_options s)) required.

Definition parse `{Getopt} `{Files} `{FreeDiameter} (argv : list string) : M t (option bool) :=
  input ← parseInputOptions argv;
  match input with
  | None => mret None
  | Some ret =>
      cfg ← gets m_jsoncfg;
      ret ← (if ret && negb (String.eqb cfg "") then parseJson else mret ret);
      valid ← gets validateOptions;
      mret (Some (ret && valid))
  end.
End SmsOptions.

(** ** Properties *)

Module SmsFacts.
Import FDExtractor SmsRouter.

(** What the dictionary says of the AVPs the two programs exchange. *)
Class SmsDictionary `{FreeDiameter} : Prop := {
  msisdn_octets : FDAvp.getDataType "MSISDN" = FDAvp.DDTOctetString;
  user_name_text : FDAvp.getDataType "User-Name" = FDAvp.DDTUTF8String;
  text_octets : Forall (λ de, avp_basetype de = AVP_TYPE_OCTETSTRING)
    ["User-Name"; "Session-Id"; "Destination-Host"; "Destination-Realm"];
  origin_avps : avp_de <$> fd_origin = ["Origin-Host"; "Origin-Realm"];
  known_avps : dict_known "Auth-Session-State" = true;
  sends : ∀ m, fd_msg_send m = 0;
  adds : ∀ a, fd_msg_avp_add a = 0 }.

Lemma string_avp_text `{SmsDictionary} de s :
  de ∈ ["User-Name"; "Session-Id"; "Destination-Host"; "Destination-Realm"]%string →
  FDMessage.string_avp de s = AvpStr de s.
Proof.
  intros Hde. unfold FDMessage.string_avp. by rewrite (proj1 (Forall_forall _ _) text_octets de Hde).
Qed.

Section Routing.
Context `{Hdict : SmsDictionary}.
Variables (vnd3GPP app_id : Z) (hssHost hssRealm : string) (u_buf : bytes).

Definition number : string := "12142150001".
Definition imsi : string := "001014567891234".

(** The routing request, as it is sent. *)
Definition routing_request (withMsisdn withImsi : bool) (session : nat) : message :=
  [AvpStr "Session-Id" (fd_session_id session); vsai vnd3GPP app_id; AvpU32 "Auth-Session-State" 1]
  ++ fd_origin ++ [AvpStr "Destination-Host" hssHost; AvpStr "Destination-Realm" hssRealm]
  ++ (if withMsisdn then [AvpOctets "MSISDN" (Tbcd.pack [1;2;1;4;2;1;5;0;0;0;1])] else [])
  ++ (if withImsi then [AvpStr "User-Name" imsi] else []).

Lemma createSERIFSRreq_eq withMsisdn withImsi session : (6 <= length u_buf)%nat →
  createSERIFSRreq vnd3GPP app_id hssHost hssRealm u_buf withMsisdn withImsi session =
  Ok (routing_request withMsisdn withImsi session).
Proof using Hdict.
  intros Hu. unfold createSERIFSRreq.
  rewrite !string_avp_text by set_solver. unfold routing_request.
  destruct withMsisdn.
  - change (bytes_of_string "12142150001") with (Tbcd.tbcd_char <$> [1;2;1;4;2;1;5;0;0;0;1]).
    rewrite Tbcd.str2tbcd_pack; [|unfold Tbcd.is_digit; repeat constructor; lia|exact Hu].
    cbn [mbind outcome_bind mret outcome_ret]. rewrite take_app_length' by done.
    by rewrite <- !app_assoc.
  - cbn [mbind outcome_bind mret outcome_ret]. by rewrite <- !app_assoc.
Qed.

Lemma routing_request_names withMsisdn withImsi session :
  avp_de <$> routing_request withMsisdn withImsi session =
  ["Session-Id"; "Vendor-Specific-Application-Id"; "Auth-Session-State"; "Origin-Host"; "Origin-Realm";
   "Destination-Host"; "Destination-Realm"]%string
  ++ (if withMsisdn then ["MSISDN"%string] else []) ++ (if withImsi then ["User-Name"%string] else []).
Proof using Hdict.
  unfold routing_request. rewrite !fmap_app, origin_avps. by destruct withMsisdn, withImsi.
Qed.

Lemma routing_request_unique withMsisdn withImsi session :
  NoDup (avp_de <$> routing_request withMsisdn withImsi session).
Proof using Hdict.
  rewrite routing_request_names. apply (bool_decide_unpack _). by destruct withMsisdn, withImsi.
Qed.

(** The fields the HSS reads. *)
Lemma routing_request_has withMsisdn withImsi session a :
  a ∈ routing_request withMsisdn withImsi session →
  entry_kind S6c.SendRoutingInfoForSmRequestExtractor (avp_de a) = Some etAvp →
  field S6c.SendRoutingInfoForSmRequestExtractor (routing_request withMsisdn withImsi session) (avp_de a)
    = Ok (Some a).
Proof using Hdict.
  intros Ha Hk. rewrite field_named by (done || apply routing_request_unique).
  by rewrite named_NoDup by (done || apply routing_request_unique).
Qed.
Lemma routing_request_lacks withMsisdn withImsi session k :
  k ∉ avp_de <$> routing_request withMsisdn withImsi session →
  entry_kind S6c.SendRoutingInfoForSmRequestExtractor k = Some etAvp →
  field S6c.SendRoutingInfoForSmRequestExtractor (routing_request withMsisdn withImsi session) k = Ok None.
Proof using Hdict.
  intros Ha Hk. rewrite field_named by (done || apply routing_request_unique). by rewrite named_absent.
Qed.
End Routing.

(** *** The router's request at the HSS *)

Section Located.
Context `{Hdict : SmsDictionary} `{Cassandra} {D G : Type}.
Variables (vnd3GPP app_id hss_vnd hss_app : Z) (hssHost hssRealm : string) (u_buf : bytes) (u : Srr.uninit).
Implicit Types wd : World.world D G.

(** The HSS's answer before a result. *)
Definition hss_base (ans : message) : message :=
  ans ++ [AvpGroup "Vendor-Specific-Application-Id"
            [AvpU32 "Vendor-Id" hss_vnd; AvpU32 "Auth-Application-Id" hss_app];
          AvpU32 "Auth-Session-State" 1] ++ fd_origin.

Lemma routing_base withMsisdn withImsi session ans wd :
  Srr.base_answer hss_vnd hss_app
    (routing_request vnd3GPP app_id hssHost hssRealm withMsisdn withImsi session) ans wd =
  (Ok (hss_base ans), wd).
Proof using Hdict.
  unfold Srr.base_answer, Srr.srr_field, mbind, M_bind, mret, M_ret, lift.
  change "Auth-Session-State"%string with (avp_de (AvpU32 "Auth-Session-State" 1)).
  rewrite routing_request_has by (done || (unfold routing_request; set_solver)).
  cbn. rewrite known_avps. cbn. by rewrite adds.
Qed.
Definition digits : bytes := [1;2;1;4;2;1;5;0;0;0;1].
Lemma digits_ok : Forall Tbcd.is_digit digits.
Proof using Type. unfold digits, Tbcd.is_digit. repeat constructor; lia. Qed.

(** Whom the HSS takes the request to name: the number, or else the IMSI. *)
Lemma routing_subscriber withMsisdn withImsi session wd :
  Srr.subscriber u (routing_request vnd3GPP app_id hssHost hssRealm withMsisdn withImsi session) wd =
  (Ok (if withMsisdn then Some (number, ""%string)
       else if withImsi then Some (""%string, imsi) else None), wd).
Proof using Hdict hss_vnd hss_app.
  destruct withMsisdn.
  - assert (SrrFacts.names_msisdn (routing_request vnd3GPP app_id hssHost hssRealm true withImsi session) digits)
      as Hn.
    { exists "MSISDN"%string. split; [|split; [apply msisdn_octets|split; [apply digits_ok|cbn; lia]]].
      apply (routing_request_has vnd3GPP app_id hssHost hssRealm true withImsi session
        (AvpOctets "MSISDN" (Tbcd.pack digits))); [|done]. unfold routing_request. set_solver. }
    apply (SrrFacts.srr_even_msisdn_undefined u hss_vnd hss_app _ [] _ digits wd
      (routing_base true withImsi session [] wd) Hn).
  - unfold Srr.subscriber, Srr.srr_field, mbind, M_bind, mret, M_ret, lift.
    assert ("MSISDN"%string ∉ avp_de <$> routing_request vnd3GPP app_id hssHost hssRealm false withImsi session)
      as Hm by (rewrite routing_request_names; apply (bool_decide_unpack _); by destruct withImsi).
    rewrite routing_request_lacks by done. destruct withImsi.
    + change "User-Name"%string with (avp_de (AvpStr "User-Name" imsi)).
      rewrite routing_request_has by (done || (unfold routing_request; set_solver)).
      cbn -[FDAvp.get_string]. unfold FDAvp.get_string. cbn [avp_de]. rewrite user_name_text. cbn.
      done.
    + rewrite routing_request_lacks; [done| |done].
      rewrite routing_request_names. by apply (bool_decide_unpack _).
Qed.

(** The answer's Serving-Node. *)
Definition located_at (info : DAImsiInfo.t) (ds : bytes) : avp :=
  AvpGroup "Serving-Node"
    [FDMessage.string_avp "MME-Name" (DAImsiInfo.mmehost info);
     FDMessage.string_avp "MME-Realm" (DAImsiInfo.mmerealm info);
     AvpOctets "MME-Number-for-MT-SMS" (Tbcd.pack ds)].

(** C31: The routing request that the router sends for its number reaches the
    HSS's handler as that number, whether or not it also carries an IMSI, and
    when the subscriber of that number is attached the HSS answers with its IMSI
    and with the name, the realm and the number of the MME that serves it. *)
Theorem router_subscriber_located withImsi l ans im info mme ds d1 d2 d3 wd :
  (6 <= length u_buf)%nat → (Tbcd.packed_length (length ds) <= length (Srr.u_node u))%nat →
  DataAccess.getImsiFromMsisdn_string number "" (World.database wd) = (Ok (true, im), d1) →
  DataAccess.getImsiInfo im (Srr.u_info u) None d1 = (Ok (true, info), d2) →
  DataAccess.getMmeIdentity (DAImsiInfo.mme_id info) (DataAccess.mk_mme "" "" "") d2 = (Ok (true, mme), d3) →
  DAImsiInfo.ms_ps_status info = "ATTACHED"%string → DAImsiInfo.str_msisdn info = number →
  bytes_of_string (DataAccess.mme_isdn mme) = Tbcd.tbcd_char <$> ds → Forall Tbcd.is_digit ds →
  ∃ req,
    sendSERIFSRreq vnd3GPP app_id hssHost hssRealm u_buf true withImsi l =
      (Ok true, l ++ [SentRequest "Send-Routing-Info-for-SM-Request" req]) ∧
    Srr.process u hss_vnd hss_app req ans wd =
      (Ok tt, wd <| World.database := d3 |>
        <| World.stats ::= (λ x, x ++ [(stat_hss_srr, 0, 2001)]) |>
        <| World.wire ::= (λ x, x ++ [SentAnswer (hss_base ans ++
             [AvpU32 "Result-Code" 2001; FDMessage.string_avp "User-Name" (DAImsiInfo.imsi info);
              located_at info ds])]) |>).
Proof using Hdict.
  intros Hu Hnode Hdb1 Hdb2 Hdb3 Hatt Hnum Hisdn Hds.
  exists (routing_request vnd3GPP app_id hssHost hssRealm true withImsi (length l)). split.
  - unfold sendSERIFSRreq, mbind, M_bind, gets, lift. rewrite createSERIFSRreq_eq by done.
    unfold send_request, catch, FDMessage.send, mbind, M_bind, lift, modify, mret, M_ret. by rewrite sends.
  - unfold Srr.process. rewrite (bind_Ok _ _ _ _ _ (routing_base true withImsi (length l) ans wd)).
    rewrite (bind_Ok _ _ _ _ _ (routing_subscriber true withImsi (length l) wd)).
    assert (∀ k, k ∈ ["SM-Delivery-Not-Intended"; "SRR-Flags"]%string →
      Srr.srr_field (D := D) (G := G)
        (routing_request vnd3GPP app_id hssHost hssRealm true withImsi (length l)) k = lift (Ok None)) as Hno.
    { intros k Hk. unfold Srr.srr_field. f_equal.
      rewrite !elem_of_cons in Hk. destruct Hk as [->|[->|[]%elem_of_nil]];
        (apply routing_request_lacks; [|done]); rewrite routing_request_names;
        apply (bool_decide_unpack _); by destruct withImsi. }
    rewrite !Hno by set_solver.
    do 4 (erewrite (bind_Ok (lift _)) by reflexivity; cbn beta iota).
    change (String.eqb number "") with false. cbn iota.
    pose proof (World.on_db_run _ wd _ _ _ eq_refl Hdb1) as E1.
    pose proof (World.on_db_run (DataAccess.getImsiInfo im (Srr.u_info u) None)
      (wd <| World.database := d1 |>) d1 _ _ eq_refl Hdb2) as E2.
    pose proof (World.on_db_run (DataAccess.getMmeIdentity _ _)
      (wd <| World.database := d2 |>) d2 _ _ eq_refl Hdb3) as E3.
    rewrite (bind_Ok _ _ _ _ _ E1). cbn beta iota. cbn [negb]. unfold Srr.locate.
    rewrite (bind_Ok _ _ _ _ _ E2). cbn beta iota. cbn [negb].
    rewrite (bind_Ok _ _ _ _ _ E3).
    cbn beta iota. cbn [negb]. rewrite Hatt. change (String.eqb "ATTACHED" "ATTACHED") with true. cbn [negb].
    unfold Srr.accept, Srr.serving_node, World.registerStatResult, World.send_answer, FDMessage.send.
    rewrite Hisdn, Tbcd.str2tbcd_pack, Hnum by done.
    change (i32 (-1) =? -1) with true. change (String.eqb number number) with true.
    unfold mbind, M_bind, outcome_bind, lift, modify, mret, M_ret, outcome_ret, Srr.user_name.
    cbn beta iota. rewrite take_app_length' by (symmetry; apply Tbcd.pack_length).
    change (i32 (-1) =? 1) with false. change (i32 (-1) =? -1) with true. cbn [orb]. rewrite sends.
    cbn. rewrite app_nil_r, <- !app_assoc. done.
Qed.
End Located.

(** *** The relay of a short message *)

Section Relay.
Context `{Hdict : SmsDictionary}.
Variables (vnd3GPP app_id : Z).

Lemma copied_same o : Forall FDAvp.copyable (option_list o) → FDMessage.copied o = Ok (option_list o).
Proof using Type.
  destruct o as [a|]; [|done]. intros [Ha _]%Forall_cons. cbn. by rewrite FDAvp.copy_same.
Qed.

(** A short message from a mobile is answered with success and, then, a
    message of the router's own is sent to where it came from: to its origin host
    and realm, for the user and the service centre it named, whatever its text. *)
Theorem short_message_sent_back req ans l host realm user sc :
  FDAvp.getDataType "Origin-Host" = FDAvp.DDTDiameterIdentity →
  FDAvp.getDataType "Origin-Realm" = FDAvp.DDTDiameterIdentity →
  mo_field req "Origin-Host" = Ok (Some (AvpOctets "Origin-Host" host)) →
  mo_field req "Origin-Realm" = Ok (Some (AvpOctets "Origin-Realm" realm)) →
  subfield Sgd.MoForwardShortMessageRequestExtractor req "User-Identifier"
    Sgd.UserIdentifierExtractor "User-Name" = Ok user →
  mo_field req "SC-Address" = Ok sc →
  Forall FDAvp.copyable (option_list user) → Forall FDAvp.copyable (option_list sc) →
  process vnd3GPP app_id req ans l =
    (Ok 0, l ++ [SentAnswer (ans ++ [vsai vnd3GPP app_id; AvpU32 "Result-Code" 2001;
                                     AvpU32 "Auth-Session-State" 1] ++ fd_origin);
                 SentRequest "MT-Forward-Short-Message-Request"
                   ([AvpStr "Session-Id" (fd_session_id (S (length l))); vsai vnd3GPP app_id;
                     AvpU32 "Auth-Session-State" 1] ++ fd_origin
                    ++ [AvpStr "Destination-Host" (string_of_bytes host);
                        AvpStr "Destination-Realm" (string_of_bytes realm)]
                    ++ option_list user ++ option_list sc ++ [AvpOctets "SM-RP-UI" tpdu])]).
Proof using Hdict.
  intros Hth Htr Hh Hr Hu Hs Cu Cs.
  assert (∀ n, createMTFSMRreq vnd3GPP app_id req n = Ok
    ([AvpStr "Session-Id" (fd_session_id n); vsai vnd3GPP app_id; AvpU32 "Auth-Session-State" 1] ++ fd_origin
     ++ [AvpStr "Destination-Host" (string_of_bytes host); AvpStr "Destination-Realm" (string_of_bytes realm)]
     ++ option_list user ++ option_list sc ++ [AvpOctets "SM-RP-UI" tpdu])) as Hm.
  { intros n. unfold createMTFSMRreq. rewrite Hh, Hr, Hu, Hs. cbn [mbind outcome_bind].
    unfold get_string, FDAvp.get_string. cbn [avp_de]. rewrite Hth, Htr.
    cbn [FDAvp.octets mbind outcome_bind mret outcome_ret]. rewrite !copied_same by done.
    cbn [mbind outcome_bind mret outcome_ret].
    rewrite !string_avp_text by set_solver.
    by rewrite <- !app_assoc. }
  unfold process, send_answer, sendMTFSMRreq, send_request, catch, FDMessage.send.
  unfold mbind, M_bind, gets, lift, modify, mret, M_ret. rewrite !sends. cbn -[app].
  rewrite Hm. cbn -[app]. rewrite length_app, Nat.add_1_r, sends. cbn -[app].
  by rewrite <- app_assoc.
Qed.
End Relay.

(** *** The menu and the options *)

(** Once a number cannot be read and nothing is taken from the input, the menu is
    shown for ever. *)
Lemma menu_spins `{FreeDiameter} v a h r u_buf input : extract_int input = (None, input) →
  ∀ fuel l, menu v a h r u_buf fuel input l = (Ok None, l).
Proof. intros E fuel. induction fuel as [|fuel IH]; intros l; [done|]. cbn [menu]. rewrite E. apply IH. Qed.
Lemma menu_spins_at_end `{FreeDiameter} v a h r u_buf fuel l : menu v a h r u_buf fuel [] l = (Ok None, l).
Proof. by apply menu_spins. Qed.
Lemma menu_spins_on_text `{FreeDiameter} v a h r u_buf c input fuel l :
  isspace c = false → isdigit c = false → c ≠ 43 → c ≠ 45 →
  menu v a h r u_buf fuel (c :: input) l = (Ok None, l).
Proof.
  intros Hs Hd Hp Hm. apply menu_spins. unfold extract_int, signed. cbn [skip_spaces]. rewrite Hs.
  apply Z.eqb_neq in Hp as ->. apply Z.eqb_neq in Hm as ->. by rewrite Hd.
Qed.

Import Reader SmsOptions.

Lemma sms_entries_lawful : Forall (lawful m_options set_options) (common_entries ++ smsrouter_entries).
Proof. repeat (apply Forall_cons; split; [by split|]). by apply Forall_nil. Qed.
Lemma sms_entries_independent : ForallOrdPairs independent (common_entries ++ smsrouter_entries).
Proof.
  repeat (apply FOP_cons; [repeat (apply Forall_cons; split; [by repeat split|]); by apply Forall_nil|]).
  apply FOP_nil.
Qed.

(** What the file adds to the options: the command line comes first. *)
Lemma sms_json_options `{Files} `{FreeDiameter} (cli s' : t) file doc :
  read_file (m_jsoncfg cli) = Some file → json_parse (upto_nul file) = Some (JObject doc) →
  parseJson cli = (Ok true, s') →
  Forall (λ e, look e s' = value m_options (section_of doc "common") cli e) common_entries ∧
  Forall (λ e, look e s' = value m_options (section_of doc "smsrouter") cli e) smsrouter_entries.
Proof.
  intros Hf Hd. unfold parseJson, mbind, M_bind, gets. rewrite Hf, Hd. intros E.
  destruct (read_sections_spec m_options set_options (λ _ _, eq_refl) doc "common" common_entries
    "smsrouter" smsrouter_entries cli sms_entries_lawful sms_entries_independent) as [_ Hs].
  destruct (Hs s' E). split; (eapply Forall_impl; [eassumption|]; by intros e []).
Qed.

(** The flags are never initialised: memory that happens to have them set makes
    an empty command line acceptable, and every option is then its random or
    empty initial value. *)
Lemma sms_uninitialised_options `{Getopt} `{Files} `{FreeDiameter} o a b c :
  (∀ short long, getopt_long short long ["smsrouter"] = []) →
  Forall (λ f, FLAG_IS_SET o f = true) required →
  parse ["smsrouter"] (new o a b c) = (Ok (Some true), new o a b c).
Proof.
  intros Hg Ho. assert (validateOptions (new o a b c) = true) as Hv.
  { apply forallb_forall. intros f Hf. rewrite Forall_forall in Ho. by apply Ho, list_elem_of_In. }
  unfold parse, parseInputOptions, mbind, M_bind, gets. rewrite Hg. cbn -[validateOptions]. by rewrite Hv.
Qed.
(** [-q] and [--logqsize] are refused. *)
Lemma sms_queue_size_refused a s : input_option "q" a s = Ok (s, false).
Proof. done. Qed.
End SmsFacts.

(** ** Witnesses *)

Module SmsWitness.
Import FDExtractor SmsRouter SmsFacts ScriptedCassandra WitnessFreeDiameter.

Lemma sms_dictionary : SmsDictionary.
Proof. split; try done; by repeat constructor. Qed.
#[local] Existing Instance sms_dictionary.

Definition srr_u : Srr.uninit :=
  Srr.mk_uninit (replicate 15 0) (replicate 15 0) (replicate 15 0) (DAImsiInfo.uninit 0 0 0).
Definition imsi_answer : future := one_row [("imsi", Text imsi)].
Definition info_answer : future := one_row
  [("imsi", Text imsi); ("mmehost", Text "mme.epc"); ("mmerealm", Text "epc");
   ("ms_ps_status", Text "ATTACHED"); ("subscription_data", Null); ("msisdn", Int 12142150001);
   ("visited_plmnid", Null); ("access_restriction", Null); ("mmeidentity_idmmeidentity", Int 7)].
Definition mme_answer : future := one_row
  [("mmehost", Text "mme.epc"); ("mmerealm", Text "epc"); ("mmeisdn", Text "12145551212")].
Definition hss_world : World.world Z unit :=
  World.mk (DataAccess.mk_db (mk_script [imsi_answer; info_answer; mme_answer] []) []) [] []
    (Auc.Random.Build_state 0 tt).
Definition d1 := (DataAccess.getImsiFromMsisdn_string number "" (World.database hss_world)).2.
Definition info2 := DataAccess.getImsiInfo imsi (Srr.u_info srr_u) None d1.
Definition info : DAImsiInfo.t := match info2.1 with Ok (_, i) => i | _ => Srr.u_info srr_u end.
Definition mme3 := DataAccess.getMmeIdentity (DAImsiInfo.mme_id info) (DataAccess.mk_mme "" "" "") info2.2.
Definition mme : DataAccess.DAMmeIdentity :=
  match mme3.1 with Ok (_, m) => m | _ => DataAccess.mk_mme "" "" "" end.

(** The database knows the router's number: the answer names its MME. *)
Lemma router_subscriber_located_witness :
  ∃ req,
    sendSERIFSRreq 10415 16777312 "hss.openair4G.eur" "openair4G.eur" (replicate 15 0) true true [] =
      (Ok true, [SentRequest "Send-Routing-Info-for-SM-Request" req]) ∧
    World.wire (Srr.process srr_u 10415 16777312 req [] hss_world).2 =
      [SentAnswer (hss_base 10415 16777312 [] ++
         [AvpU32 "Result-Code" 2001; FDMessage.string_avp "User-Name" imsi;
          located_at info [1;2;1;4;5;5;5;1;2;1;2]])].
Proof.
  destruct (router_subscriber_located 10415 16777312 10415 16777312 "hss.openair4G.eur" "openair4G.eur"
    (replicate 15 0) srr_u true [] [] imsi info mme [1;2;1;4;5;5;5;1;2;1;2] d1 info2.2 mme3.2 hss_world)
    as (req & Hreq & Hrun).
  1-8: try (vm_compute; reflexivity). 1-3: try (cbn; lia).
  { unfold Tbcd.is_digit. repeat constructor; lia. }
  exists req. split; [exact Hreq|]. rewrite Hrun. reflexivity.
Defined.

Definition short_message (text : bytes) : message :=
  [AvpStr "Session-Id" "1"; AvpU32 "Auth-Session-State" 1;
   AvpOctets "Origin-Host" (bytes_of_string "mme.epc"); AvpOctets "Origin-Realm" (bytes_of_string "epc");
   AvpOctets "SC-Address" [0x21; 0x43]; AvpGroup "User-Identifier" [AvpStr "User-Name" imsi];
   AvpOctets "SM-RP-UI" text].

(** Whatever its text, the sender gets the router's own. *)
Lemma short_message_sent_back_witness :
  ∃ m, process 10415 16777313 (short_message [1; 2; 3]) [] [] =
    (Ok 0, [SentAnswer ([vsai 10415 16777313; AvpU32 "Result-Code" 2001; AvpU32 "Auth-Session-State" 1]
              ++ fd_origin);
            SentRequest "MT-Forward-Short-Message-Request" m]) ∧
    List.last m (AvpU32 "" 0) = AvpOctets "SM-RP-UI" tpdu.
Proof.
  eexists. split; [apply (short_message_sent_back 10415 16777313 (short_message [1; 2; 3]) [] []
    (bytes_of_string "mme.epc") (bytes_of_string "epc") (Some (AvpStr "User-Name" imsi))
    (Some (AvpOctets "SC-Address" [0x21; 0x43])));
      try done; repeat constructor|reflexivity].
Defined.

(** The menu's choices and its end; without the end it goes on. *)
Lemma menu_run :
  let run text := menu 10415 16777312 "hss" "realm" (replicate 15 0) 10 (bytes_of_string text) [] in
  (run "1 2 99 3"%string).1 = Ok (Some tt) ∧ length (run "1 2 99 3"%string).2 = 2%nat ∧
  (run "1 2"%string).1 = Ok None ∧ (run "1 quit 99"%string).1 = Ok None.
Proof. by vm_compute. Qed.
End SmsWitness.
