(* ===== verification/Dns.v ===== *)
(** * DNS messages

    Models [CachedDNS::Parser] and its [MessageBuffer] (util/src/cdnsparser.cpp,
    util/include/cdnsparser.h), the records (util/include/cdnsrecord.h) and
    [Query] (util/include/cdnsquery.h).  [DnsGrammar] says which octets stand for
    which message; [DnsFacts] shows that the parser reads them so, where it
    leaves the buffer, and when it never returns. *)

From stdpp Require Import finite.
From S2P Require Import Prelude.
#[local] Open Scope Z_scope.

(** The numbers of arpa/nameser.h. *)
Definition ns_c_in : Z := 1.
Definition ns_t_a : Z := 1.
Definition ns_t_ns : Z := 2.
Definition ns_t_cname : Z := 5.
Definition ns_t_aaaa : Z := 28.
Definition ns_t_srv : Z := 33.
Definition ns_t_naptr : Z := 35.

(** [tolower] of the C locale. *)
Definition tolower (c : Z) : Z := if (65 <=? c) && (c <=? 90) then c + 32 else c.

Module Dns.

(** ** Records *)

Record Question := mk_question { m_qname : string; m_qtype : Z; m_qclass : Z }.

(** What the classes derived from [ResourceRecord] add to it. *)
Inductive rdata :=
  | RR
  | RRecordA (m_address : bytes)
  | RRecordNS (m_namedserver : string)
  | RRecordAAAA (m_address : bytes)
  | RRecordCNAME (m_alias : string)
  | RRecordSRV (m_priority m_weight m_port : Z) (m_target : string)
  | RRecordNAPTR (m_order m_preference : Z) (m_flags m_service m_regexp m_replacement : string).

Record ResourceRecord := mk_rr {
  rr_name : string; rr_type : Z; rr_class : Z; rr_ttl : Z; rr_expires : Z; rr_data : rdata }.

(** The constructors: [now] is [time(NULL)]. *)
Definition new_rr (now : Z) (name : string) (rtype rclass ttl : Z) (d : rdata) : ResourceRecord :=
  mk_rr name rtype rclass ttl (now + ttl) d.

(** The type each derived class gives to its base. *)
Definition type_of (d : rdata) (rtype : Z) : Z :=
  match d with
  | RR => rtype
  | RRecordA _ => ns_t_a
  | RRecordNS _ => ns_t_cname
  | RRecordAAAA _ => ns_t_aaaa
  | RRecordCNAME _ => ns_t_cname
  | RRecordSRV _ _ _ _ => ns_t_srv
  | RRecordNAPTR _ _ _ _ _ _ => ns_t_naptr
  end.

Definition rr_isExpired (now : Z) (r : ResourceRecord) : bool := rr_expires r <=? now.

(** ** [Query] *)

Record Query := mk_query {
  q_type : Z; q_domain : string; m_question : list Question;
  m_answer : list ResourceRecord; m_authority : list ResourceRecord;
  m_additional : list ResourceRecord; m_expires : Z }.

Definition new_query (rtype : Z) (domain : string) : Query := mk_query rtype domain [] [] [] [] 0.

(** [m_expires == 0 || a->getExpires() < m_expires]. *)
Definition sooner (expires e : Z) : Z :=
  if (expires =? 0) || (e <? expires) then e else expires.

Definition addQuestion (x : Question) (q : Query) : Query :=
  q <| m_question ::= (λ l, l ++ [x]) |>.
Definition addAnswer (a : ResourceRecord) (q : Query) : Query :=
  q <| m_expires ::= (λ e, sooner e (rr_expires a)) |> <| m_answer ::= (λ l, l ++ [a]) |>.
Definition addAuthority (a : ResourceRecord) (q : Query) : Query :=
  q <| m_expires ::= (λ e, sooner e (rr_expires a)) |> <| m_authority ::= (λ l, l ++ [a]) |>.
Definition addAdditional (a : ResourceRecord) (q : Query) : Query :=
  q <| m_expires ::= (λ e, sooner e (rr_expires a)) |> <| m_additional ::= (λ l, l ++ [a]) |>.

Definition isExpired (now : Z) (q : Query) : bool := m_expires q <=? now.

(** ** The parser

    A call returns, throws a [std::runtime_error], reads outside the message or
    through a null pointer, or never ends. *)
Inductive result (A : Type) := Return (a : A) | Raise | Fault | Loops.
#[global] Arguments Return {A} a.
#[global] Arguments Raise {A}.
#[global] Arguments Fault {A}.
#[global] Arguments Loops {A}.

(** [m_data] points to [p_data], of [length p_data] octets, and is at [p_ofs]. *)
Record Parser := mk_parser {
  m_query : Query; p_data : bytes; p_ofs : nat;
  m_qdcount : Z; m_ancount : Z; m_nscount : Z; m_arcount : Z;
  m_name : string; m_type : Z; m_class : Z; m_ttl : Z; m_rdlength : Z; m_rdata : option nat }.

Definition P (A : Type) : Type := Parser → result A * Parser.
#[export] Instance P_ret : MRet P := λ A a p, (Return a, p).
#[export] Instance P_bind : MBind P := λ A B f m p,
  match m p with
  | (Return a, p') => f a p'
  | (Raise, p') => (Raise, p')
  | (Fault, p') => (Fault, p')
  | (Loops, p') => (Loops, p')
  end.
Definition get {A} (f : Parser → A) : P A := λ p, (Return (f p), p).
Definition set_ (f : Parser → Parser) : P unit := λ p, (Return tt, f p).
Definition give {A} (r : result A) : P A := λ p, (r, p).
Fixpoint times (n : nat) (m : P unit) : P unit :=
  match n with O => mret tt | S n' => _ ← m; times n' m end.

(** *** [MessageBuffer] *)

(** A pointer is an offset into the message, or null. *)
Definition pointer (data : bytes) (ofs : nat) : option nat :=
  if (length data <=? ofs)%nat then None else Some ofs.
Definition getPointer : P (option nat) := get (λ p, pointer (p_data p) (p_ofs p)).
Definition validateLength (data : bytes) (ofs : nat) (len : Z) : bool :=
  Z.of_nat ofs + len <? Z.of_nat (length data).
Definition incrementOffset (len : nat) : P unit :=
  set_ (λ p, p <| p_ofs := if (length (p_data p) <? p_ofs p + len)%nat then length (p_data p)
                           else (p_ofs p + len)%nat |>).

(** [ptr[i]] *)
Definition deref (data : bytes) (ptr : option nat) (i : nat) : result Z :=
  match ptr with
  | None => Fault
  | Some o => match data !! (o + i)%nat with Some c => Return c | None => Fault end
  end.
(** [n] octets from [ptr] on. *)
Definition octets (data : bytes) (ptr : option nat) (n : nat) : result bytes :=
  match ptr with
  | None => if (n =? 0)%nat then Return [] else Fault
  | Some o => if (o + n <=? length data)%nat then Return (take n (drop o data)) else Fault
  end.

Definition GET_INT16 (ptr : option nat) (b : nat) : P Z :=
  d ← get p_data;
  x ← give (deref d ptr b);
  y ← give (deref d ptr (b + 1));
  mret (x * 256 + y).
Definition GET_INT32 (ptr : option nat) (b : nat) : P Z :=
  d ← get p_data;
  x ← give (deref d ptr b);
  y ← give (deref d ptr (b + 1));
  z ← give (deref d ptr (b + 2));
  t ← give (deref d ptr (b + 3));
  mret (i32 (x * 2 ^ 24 + y * 2 ^ 16 + z * 2 ^ 8 + t)).

(** The top two bits tell a label from a pointer. *)
Definition LABEL_LENGTH (c : Z) : Z := if Z.land c 192 =? 0 then Z.land c 63 else -1.
Definition LABEL_OFFSET (data : bytes) (ptr : option nat) (c : Z) : result Z :=
  if Z.land c 192 =? 192 then
    match deref data ptr 1 with
    | Return lo => Return (Z.land c 63 * 256 + lo)
    | Raise => Raise | Fault => Fault | Loops => Loops
    end
  else Return (-1).

(** *** Domain names *)

(** The locals of [parseDomainName]. *)
Record name_state := mk_name {
  n_ptr : option nat; currOfs : nat; offsetActive : bool; compressedLength : nat; n_dn : bytes }.

Definition advance (ptr : option nat) (n : nat) : option nat := (λ o, (o + n)%nat) <$> ptr.

(** One turn of the loop on a non-zero octet [c]. *)
Definition name_turn (data : bytes) (c : Z) (s : name_state) : result name_state :=
  let val := LABEL_LENGTH c in
  if negb (val =? -1) then
    if negb (validateLength data (currOfs s) val) then Raise else
    let v := Z.to_nat val in
    match octets data (advance (n_ptr s) 1) v with
    | Return label =>
        let ptr := advance (n_ptr s) (1 + v) in
        match deref data ptr 0 with
        | Return next =>
            Return (mk_name ptr (currOfs s + v + 1) (offsetActive s)
              (if offsetActive s then compressedLength s else (compressedLength s + v + 1)%nat)
              (n_dn s ++ label ++ (if next =? 0 then [] else [46])))
        | _ => Fault
        end
    | _ => Fault
    end
  else
    match LABEL_OFFSET data (n_ptr s) c with
    | Return val =>
        if negb (val =? -1) then
          let o := Z.to_nat val in
          Return (mk_name (pointer data o) o true
            (if offsetActive s then compressedLength s else (compressedLength s + 2)%nat) (n_dn s))
        else Raise
    | _ => Fault
    end.

(** While the octet at [ptr] is not zero: a turn more than there are octets has met one of them twice. *)
Fixpoint name_loop (fuel : nat) (data : bytes) (s : name_state) : result name_state :=
  match fuel with
  | O => Loops
  | S fuel' =>
      match deref data (n_ptr s) 0 with
      | Return c =>
          if c =? 0 then Return s
          else match name_turn data c s with
               | Return s' => name_loop fuel' data s'
               | r => r
               end
      | _ => Fault
      end
  end.

Definition name_fuel (data : bytes) : nat := S (length data).

Definition parseDomainName : P string :=
  d ← get p_data;
  ofs ← get p_ofs;
  ptr ← getPointer;
  s ← give (name_loop (name_fuel d) d (mk_name ptr ofs false 0 []));
  let n := if offsetActive s then compressedLength s else (compressedLength s + 1)%nat in
  let dn := if (n =? 1)%nat then [46] else n_dn s in
  _ ← incrementOffset n;
  mret (string_of_bytes (tolower <$> dn)).

Definition parseCharacterString : P string :=
  d ← get p_data;
  ptr ← getPointer;
  len ← give (deref d ptr 0);
  _ ← incrementOffset 1;
  ptr ← getPointer;
  s ← give (octets d ptr (Z.to_nat len));
  _ ← incrementOffset (Z.to_nat len);
  mret (string_of_bytes (tolower <$> s)).

(** *** Records *)

Section Parse.
(** The clock while one message is parsed. *)
Variable now : Z.

Definition parseHeader : P unit :=
  ptr ← getPointer;
  qd ← GET_INT16 ptr 4;
  an ← GET_INT16 ptr 6;
  ns ← GET_INT16 ptr 8;
  ar ← GET_INT16 ptr 10;
  _ ← set_ (λ p, p <| m_qdcount := qd |> <| m_ancount := an |> <| m_nscount := ns |>
                   <| m_arcount := ar |>);
  incrementOffset 12.

Definition parseQuestion : P Question :=
  qname ← parseDomainName;
  ptr ← getPointer;
  qtype ← GET_INT16 ptr 0;
  qclass ← GET_INT16 ptr 2;
  _ ← incrementOffset 4;
  mret (mk_question qname qtype qclass).

(** [new RRecordX(m_name, m_ttl, ...)] *)
Definition record (d : rdata) : P ResourceRecord :=
  get (λ p, new_rr now (m_name p) (type_of d (m_type p))
              (match d with RR => m_class p | _ => ns_c_in end) (m_ttl p) d).

Definition skip_rdata : P unit := n ← get m_rdlength; incrementOffset (Z.to_nat n).

Definition parseRR : P ResourceRecord := _ ← skip_rdata; record RR.

(** [memcpy(&address, m_rdata, sizeof(address))] *)
Definition parse_address (size : nat) : P bytes :=
  n ← get m_rdlength;
  if negb (n =? Z.of_nat size) then give Raise
  else
    d ← get p_data;
    ptr ← get m_rdata;
    a ← give (octets d ptr size);
    _ ← skip_rdata;
    mret a.
Definition parseA : P ResourceRecord := a ← parse_address 4; record (RRecordA a).
Definition parseAAAA : P ResourceRecord := a ← parse_address 16; record (RRecordAAAA a).

Definition parseNS : P ResourceRecord := ns ← parseDomainName; record (RRecordNS ns).
Definition parseCNAME : P ResourceRecord := alias ← parseDomainName; record (RRecordCNAME alias).

Definition parseSRV : P ResourceRecord :=
  ptr ← get m_rdata;
  priority ← GET_INT16 ptr 0;
  weight ← GET_INT16 ptr 2;
  port ← GET_INT16 ptr 4;
  _ ← incrementOffset 6;
  target ← parseDomainName;
  record (RRecordSRV (u16 priority) (u16 weight) (u16 port) target).

Definition parseNAPTR : P ResourceRecord :=
  ptr ← get m_rdata;
  order ← GET_INT16 ptr 0;
  preference ← GET_INT16 ptr 2;
  _ ← incrementOffset 4;
  flags ← parseCharacterString;
  service ← parseCharacterString;
  regexp ← parseCharacterString;
  replacement ← parseDomainName;
  record (RRecordNAPTR (u16 order) (u16 preference) flags service regexp replacement).

Definition parse_rdata : P ResourceRecord :=
  c ← get m_class;
  t ← get m_type;
  if (c =? ns_c_in) && (t =? ns_t_a) then parseA
  else if (c =? ns_c_in) && (t =? ns_t_ns) then parseNS
  else if (c =? ns_c_in) && (t =? ns_t_cname) then parseCNAME
  else if (c =? ns_c_in) && (t =? ns_t_aaaa) then parseAAAA
  else if (c =? ns_c_in) && (t =? ns_t_srv) then parseSRV
  else if (c =? ns_c_in) && (t =? ns_t_naptr) then parseNAPTR
  else parseRR.

Definition parseResourceRecord : P ResourceRecord :=
  name ← parseDomainName;
  _ ← set_ (λ p, p <| m_name := name |>);
  ptr ← getPointer;
  t ← GET_INT16 ptr 0;
  _ ← set_ (λ p, p <| m_type := t |>);
  c ← GET_INT16 ptr 2;
  _ ← set_ (λ p, p <| m_class := c |>);
  ttl ← GET_INT32 ptr 4;
  _ ← set_ (λ p, p <| m_ttl := ttl |>);
  n ← GET_INT16 ptr 8;
  _ ← set_ (λ p, p <| m_rdlength := n |>);
  _ ← incrementOffset 10;
  ptr ← getPointer;
  _ ← set_ (λ p, p <| m_rdata := ptr |>);
  parse_rdata.

Definition on_query (f : Query → Query) : P unit := set_ (λ p, p <| m_query ::= f |>).

Definition parse : P unit :=
  _ ← parseHeader;
  qd ← get m_qdcount;
  _ ← times (Z.to_nat qd) (x ← parseQuestion; on_query (addQuestion x));
  an ← get m_ancount;
  _ ← times (Z.to_nat an) (r ← parseResourceRecord; on_query (addAnswer r));
  ns ← get m_nscount;
  _ ← times (Z.to_nat ns) (r ← parseResourceRecord; on_query (addAuthority r));
  ar ← get m_arcount;
  times (Z.to_nat ar) (r ← parseResourceRecord; on_query (addAdditional r)).

End Parse.

(** The constructor: the members that are not read before they are assigned are
    given any value. *)
Definition new (q : Query) (rdata : bytes) : Parser :=
  mk_parser q rdata 0 0 0 0 0 "" 0 0 0 0 None.

End Dns.

(** ** The turns of the loop of [parseDomainName] *)

Module DnsLoop.
Import Dns.

Section Loop.
Variable data : bytes.

(** One turn that goes on. *)
Definition turn (s s' : name_state) : Prop :=
  ∃ c, deref data (n_ptr s) 0 = Return c ∧ c ≠ 0 ∧ name_turn data c s = Return s'.

Lemma turn_det s s1 s2 : turn s s1 → turn s s2 → s1 = s2.
Proof. intros (c & E1 & _ & H1) (c' & E2 & _ & H2). congruence. Qed.

Lemma name_turn_ends c s : name_turn data c s ≠ Loops.
Proof. unfold name_turn. repeat case_match; done. Qed.

Lemma loops_iff k s : name_loop k data s = Loops ↔ ∃ s', nsteps turn k s s'.
Proof.
  revert s. induction k as [|k IH]; intros s; cbn [name_loop].
  { split; [eexists; constructor|done]. }
  split.
  - destruct (deref data (n_ptr s) 0) as [c| | |] eqn:E; try done.
    destruct (Z.eqb_spec c 0); [done|].
    destruct (name_turn data c s) as [s1| | |] eqn:T; try done; [|by apply name_turn_ends in T].
    intros (s' & Hs')%IH. exists s'. econstructor; [by exists c|done].
  - intros [s' H]. inversion H as [|? ? s1 ? (c & E & Hc & T) Hs']; subst.
    rewrite E, (proj2 (Z.eqb_neq c 0) Hc), T. apply IH. eauto.
Qed.

Lemma name_loop_mono k k' s :
  name_loop k data s ≠ Loops → (k <= k')%nat → name_loop k' data s = name_loop k data s.
Proof.
  revert k' s. induction k as [|k IH]; intros [|k'] s H Hk; [done|done|lia|].
  cbn [name_loop] in *. repeat case_match; try done. apply IH; [done|lia].
Qed.

(** Where the loop stands decides where it goes. *)
Definition stands (s : name_state) : Prop := ∀ o, n_ptr s = Some o → currOfs s = o.
Definition same (s1 s2 : name_state) : Prop := n_ptr s1 = n_ptr s2 ∧ currOfs s1 = currOfs s2.

Lemma deref_Some ptr i c : deref data ptr i = Return c → ∃ o, ptr = Some o ∧ (o + i < length data)%nat.
Proof.
  destruct ptr as [o|]; [|done]. cbn. case_match eqn:E; [|done].
  intros _. exists o. split; [done|]. by apply lookup_lt_Some in E.
Qed.

Lemma name_turn_same c p o a1 l1 d1 a2 l2 d2 s' :
  name_turn data c (mk_name p o a1 l1 d1) = Return s' →
  ∃ a l d, name_turn data c (mk_name p o a2 l2 d2) = Return (mk_name (n_ptr s') (currOfs s') a l d).
Proof.
  unfold name_turn. cbn [n_ptr currOfs offsetActive compressedLength n_dn].
  repeat (case_match; try done); intros [= <-]; eauto.
Qed.

Lemma turn_same s1 s2 s1' : same s1 s2 → turn s1 s1' → ∃ s2', turn s2 s2' ∧ same s1' s2'.
Proof.
  destruct s1 as [p o a1 l1 d1], s2 as [? ? a2 l2 d2]. intros [[= <-] [= <-]] (c & E & Hc & T).
  destruct (name_turn_same _ _ _ _ _ _ a2 l2 d2 _ T) as (a & l & d & T2).
  eexists. split; [exists c; eauto|done].
Qed.

Lemma turn_stands s s' : stands s → turn s s' → stands s'.
Proof.
  intros Hs (c & E & _ & T). apply deref_Some in E as (o & Ho & _). specialize (Hs o Ho).
  unfold name_turn in T. repeat case_match; simplify_eq; intros x; cbn;
    (rewrite Ho; cbn; intros [= <-]; lia) || (unfold pointer; case_match; [done|by intros [= ->]]).
Qed.

Lemma nsteps_same k s1 s2 s1' :
  same s1 s2 → nsteps turn k s1 s1' → ∃ s2', nsteps turn k s2 s2' ∧ same s1' s2'.
Proof.
  intros H Hk. revert s2 H. induction Hk as [|k x y z Hxy _ IH]; intros s2 H; [eexists; eauto using nsteps_O|].
  destruct (turn_same _ _ _ H Hxy) as (y2 & ? & Hy). destruct (IH y2 Hy) as (z2 & ? & ?).
  exists z2. split; [econstructor|]; eauto.
Qed.

Lemma nsteps_stands k s s' : stands s → nsteps turn k s s' → stands s'.
Proof. intros H. induction 1; eauto using turn_stands. Qed.

Lemma nsteps_det k s s1 s2 : nsteps turn k s s1 → nsteps turn k s s2 → s1 = s2.
Proof.
  intros H. revert s2. induction H as [|k x y z Hxy _ IH]; intros s2 H2; inversion H2; subst; [done|].
  apply IH. by rewrite (turn_det _ _ _ Hxy H0).
Qed.

Lemma nsteps_prefix k k' s s' : (k' <= k)%nat → nsteps turn k s s' → ∃ s1, nsteps turn k' s s1.
Proof.
  intros Hk H. replace k with (k' + (k - k'))%nat in H by lia.
  apply nsteps_add_inv in H as (s1 & ? & _). eauto.
Qed.

(** The octets a run visits. *)
Lemma visited k s s' : nsteps turn k s s' →
  ∃ l, length l = k ∧ Forall (λ o, o < length data)%nat l ∧
    ∀ i o, l !! i = Some o → ∃ si, nsteps turn i s si ∧ n_ptr si = Some o.
Proof.
  induction 1 as [|k x y z Hxy _ (l & Hl & Hb & Hi)]; [by exists []|].
  pose proof Hxy as (c & E & _ & _). apply deref_Some in E as (o & Ho & Hlt).
  exists (o :: l). split; [by cbn; f_equal|]. split; [constructor; [lia|done]|].
  intros [|i] o' Hx; cbn in Hx; [simplify_eq; exists x; split; [constructor|done]|].
  destruct (Hi i o' Hx) as (si & ? & ?). exists si. split; [econstructor; eauto|done].
Qed.

(** A run that comes back to where it stood goes on for ever. *)
Lemma cycle_forever j s s' : (0 < j)%nat → nsteps turn j s s' → same s' s →
  ∀ k, ∃ s'', nsteps turn k s s''.
Proof.
  intros Hj H Hs k. induction (lt_wf k) as [k _ IH].
  destruct (decide (k <= j)%nat); [by eapply nsteps_prefix|].
  destruct (IH (k - j)%nat) as [s1 H1]; [lia|].
  assert (same s s') as Hs' by (destruct Hs; split; done).
  destruct (nsteps_same _ _ _ _ Hs' H1) as (s2 & H2 & _).
  exists s2. replace k with (j + (k - j))%nat by lia. by eapply nsteps_trans.
Qed.

(** One turn more than the message has octets is enough: a loop that has not
    ended by then never ends. *)
Lemma name_fuel_enough s : stands s →
  name_loop (name_fuel data) data s = Loops → ∀ k, name_loop k data s = Loops.
Proof.
  intros Hs [s' H]%loops_iff k. apply loops_iff.
  destruct (visited _ _ _ H) as (l & Hl & Hb & Hi).
  destruct (list_pigeonhole l (seq 0 (length data))) as (i & j & o & Hij & Hli & Hlj).
  { intros o Ho. rewrite Forall_forall in Hb. apply elem_of_seq. specialize (Hb o Ho). lia. }
  { rewrite Hl, length_seq. unfold name_fuel. lia. }
  destruct (Hi i o Hli) as (si & Hsi & Hpi), (Hi j o Hlj) as (sj & Hsj & Hpj).
  destruct (decide (k <= i)%nat); [by eapply nsteps_prefix|].
  replace j with (i + (j - i))%nat in Hsj by lia.
  apply nsteps_add_inv in Hsj as (si' & Hsi' & Hsj).
  rewrite <- (nsteps_det _ _ _ _ Hsi Hsi') in Hsj.
  destruct (cycle_forever (j - i) si sj ltac:(lia) Hsj) with (k := (k - i)%nat) as [s2 H2].
  { split; [congruence|]. pose proof (nsteps_stands _ _ _ Hs Hsi o Hpi).
    pose proof (nsteps_stands _ _ _ Hs (nsteps_trans _ _ _ _ _ Hsi Hsj) o Hpj). congruence. }
  exists s2. replace k with (i + (k - i))%nat by lia. exact (nsteps_trans _ _ _ _ _ Hsi H2).
Qed.

(** So whatever fuel gives a result, the canonical one does. *)
Lemma name_loop_result s k r : stands s →
  name_loop k data s = r → r ≠ Loops → name_loop (name_fuel data) data s = r.
Proof.
  intros Hs <- H. destruct (decide (k <= name_fuel data)%nat); [by apply name_loop_mono|].
  rewrite <- (name_loop_mono (name_fuel data) k s); [done| |lia].
  intros E. by apply H, name_fuel_enough.
Qed.
End Loop.
End DnsLoop.

(** ** The grammar of messages (RFC 1035, 2782, 3403, 3596)

    [name_at data o ls n]: the octets at [o] spell the labels [ls], and what
    follows the name starts at [n].  A pointer may stand for the end of a name. *)

Module DnsGrammar.
Import Dns.

Section Grammar.
Variables (data : bytes) (now : Z).

Inductive name_at : nat → list bytes → nat → Prop :=
  | name_end o : data !! o = Some 0 → name_at o [] (S o)
  | name_label o len ls n :
      data !! o = Some len → 1 <= len <= 63 → name_at (o + 1 + Z.to_nat len) ls n →
      name_at o (take (Z.to_nat len) (drop (S o) data) :: ls) n
  | name_pointer o hi lo ls n :
      data !! o = Some hi → 192 <= hi < 256 → data !! S o = Some lo → is_byte lo → ls ≠ [] →
      name_at (Z.to_nat ((hi - 192) * 256 + lo)) ls n →
      name_at o ls (o + 2).

Fixpoint dots (ls : list bytes) : bytes :=
  match ls with [] => [] | [l] => l | l :: ls' => l ++ 46 :: dots ls' end.
(** Names are case-insensitive: their text is in lower case, and [.] the root. *)
Definition text (ls : list bytes) : string :=
  string_of_bytes (tolower <$> match ls with [] => [46] | _ => dots ls end).

Definition u16_at (o : nat) (v : Z) : Prop :=
  ∃ x y, data !! o = Some x ∧ data !! S o = Some y ∧ v = x * 256 + y.
Definition u32_at (o : nat) (v : Z) : Prop :=
  ∃ x y, u16_at o x ∧ u16_at (o + 2) y ∧ v = x * 65536 + y.

Inductive string_at : nat → string → nat → Prop :=
  | character_string o len :
      data !! o = Some len → 0 <= len → (o + 1 + Z.to_nat len < length data)%nat →
      string_at o (string_of_bytes (tolower <$> take (Z.to_nat len) (drop (S o) data)))
        (o + 1 + Z.to_nat len).

Inductive question_at : nat → Question → nat → Prop :=
  | a_question o ls n t c :
      name_at o ls n → u16_at n t → u16_at (n + 2) c →
      question_at o (mk_question (text ls) t c) (n + 4).

(** [rdata_at t c o len d]: the [len] octets at [o] are the data [d] of a record
    of type [t] and class [c]. *)
Inductive rdata_at (c : Z) : Z → nat → nat → rdata → Prop :=
  | rd_a o : c = ns_c_in → (o + 4 <= length data)%nat →
      rdata_at c ns_t_a o 4 (RRecordA (take 4 (drop o data)))
  | rd_ns o ls n : c = ns_c_in → name_at o ls n →
      rdata_at c ns_t_ns o (n - o) (RRecordNS (text ls))
  | rd_cname o ls n : c = ns_c_in → name_at o ls n →
      rdata_at c ns_t_cname o (n - o) (RRecordCNAME (text ls))
  | rd_aaaa o : c = ns_c_in → (o + 16 <= length data)%nat →
      rdata_at c ns_t_aaaa o 16 (RRecordAAAA (take 16 (drop o data)))
  | rd_srv o priority weight port ls n :
      c = ns_c_in → u16_at o priority → u16_at (o + 2) weight → u16_at (o + 4) port →
      name_at (o + 6) ls n →
      rdata_at c ns_t_srv o (n - o) (RRecordSRV priority weight port (text ls))
  | rd_naptr o order preference flags n1 service n2 regexp n3 ls n :
      c = ns_c_in → u16_at o order → u16_at (o + 2) preference →
      string_at (o + 4) flags n1 → string_at n1 service n2 → string_at n2 regexp n3 →
      name_at n3 ls n →
      rdata_at c ns_t_naptr o (n - o)
        (RRecordNAPTR order preference flags service regexp (text ls))
  | rd_other t o len : c ≠ ns_c_in ∨ t ∉ [ns_t_a; ns_t_ns; ns_t_cname; ns_t_aaaa; ns_t_srv; ns_t_naptr] →
      (o + len <= length data)%nat → rdata_at c t o len RR.

(** A resource record; its time to live is a 32-bit integer. *)
Inductive record_at : nat → ResourceRecord → nat → Prop :=
  | a_record o ls n t c ttl len d :
      name_at o ls n → u16_at n t → u16_at (n + 2) c → u32_at (n + 4) ttl →
      u16_at (n + 8) (Z.of_nat len) → rdata_at c t (n + 10) len d →
      record_at o (mk_rr (text ls) t c (i32 ttl) (now + i32 ttl) d) (n + 10 + len).

Inductive many {A} (at_ : nat → A → nat → Prop) : nat → list A → nat → Prop :=
  | many_nil o : many at_ o [] o
  | many_cons o x o1 l n : at_ o x o1 → many at_ o1 l n → many at_ o (x :: l) n.

Inductive message_at (qd : list Question) (an ns ar : list ResourceRecord) : Prop :=
  | a_message o1 o2 o3 o4 :
      u16_at 4 (Z.of_nat (length qd)) → u16_at 6 (Z.of_nat (length an)) →
      u16_at 8 (Z.of_nat (length ns)) → u16_at 10 (Z.of_nat (length ar)) →
      many question_at 12 qd o1 → many record_at o1 an o2 → many record_at o2 ns o3 →
      many record_at o3 ar o4 → message_at qd an ns ar.

(** What the parser makes of a record: a name server gets the type of an alias. *)
Definition stored (r : ResourceRecord) : ResourceRecord :=
  r <| rr_type := type_of (rr_data r) (rr_type r) |>.

(** The query that holds a whole message. *)
Definition holds (q : Query) (qd : list Question) (an ns ar : list ResourceRecord) : Query :=
  foldl (flip addAdditional) (foldl (flip addAuthority) (foldl (flip addAnswer)
    (foldl (flip addQuestion) q qd) (stored <$> an)) (stored <$> ns)) (stored <$> ar).
End Grammar.
End DnsGrammar.

Module DnsFacts.
Import Dns DnsLoop DnsGrammar.

Lemma P_bind_Return {A B} (m : P A) (f : A → P B) p a p' :
  m p = (Return a, p') → (m ≫= f) p = f a p'.
Proof. intros H. unfold mbind, P_bind. by rewrite H. Qed.

(** Only the position changes. *)
Definition seek (n : nat) (p : Parser) : Parser := p <| p_ofs := n |>.
Lemma seek_ofs n p : p_ofs (seek n p) = n.
Proof. done. Qed.

Section Facts.
Variables (data : bytes) (now : Z).

Lemma name_at_first o ls n : name_at data o ls n →
  ∃ c, data !! o = Some c ∧ (c = 0 ↔ ls = []) ∧ (o < n <= length data)%nat.
Proof.
  induction 1 as [o H|o len ls n H Hl _ (c & _ & _ & Hn)|o hi lo ls n H Hhi Hlo _ Hls _ _].
  - exists 0. apply lookup_lt_Some in H as ?. split; [done|]. split; [done|lia].
  - exists len. split; [done|]. split; [split; [lia|done]|lia].
  - exists hi. apply lookup_lt_Some in Hlo as ?. split; [done|]. split; [split; [lia|done]|lia].
Qed.

Lemma LABEL_LENGTH_label c : 1 <= c <= 63 → LABEL_LENGTH c = c.
Proof.
  intros H. unfold LABEL_LENGTH.
  assert (Z.land c 63 = c) as E by (change 63 with (Z.ones 6); rewrite Z.land_ones by lia; apply Z.mod_small; lia).
  assert (Z.land c 192 = 0) as ->; [|done].
  rewrite <- E, <- Z.land_assoc. by rewrite Z.land_0_r.
Qed.

Lemma pointer_bits c : 192 <= c < 256 → Z.land c 192 = 192 ∧ Z.land c 63 = c - 192.
Proof.
  intros H.
  assert (Forall (λ c, Z.land c 192 = 192 ∧ Z.land c 63 = c - 192) (seqZ 192 64)) as F
    by (by vm_compute; repeat constructor).
  rewrite Forall_forall in F. apply F, elem_of_seqZ. lia.
Qed.

(** *** Reading a name *)

Definition total (s : name_state) : nat :=
  if offsetActive s then compressedLength s else S (compressedLength s).

Lemma dots_cons l ls : dots (l :: ls) = l ++ (if decide (ls = []) then [] else [46]) ++ dots ls.
Proof. destruct ls; [by rewrite decide_True, app_nil_r|by rewrite decide_False]. Qed.

Lemma deref_at o c : data !! o = Some c → deref data (Some o) 0 = Return c.
Proof. intros H. cbn. by rewrite Nat.add_0_r, H. Qed.

Lemma label_turn o len c a l dn : data !! o = Some len → 1 <= len <= 63 →
  data !! (o + 1 + Z.to_nat len)%nat = Some c →
  name_turn data len (mk_name (Some o) o a l dn) =
    Return (mk_name (Some (o + 1 + Z.to_nat len)%nat) (o + 1 + Z.to_nat len)
      a (if a then l else (l + 1 + Z.to_nat len)%nat)
      (dn ++ take (Z.to_nat len) (drop (S o) data) ++ if c =? 0 then [] else [46])).
Proof.
  intros H Hl Hc. pose proof (lookup_lt_Some _ _ _ Hc) as Hlt. unfold name_turn.
  rewrite LABEL_LENGTH_label by done. rewrite (proj2 (Z.eqb_neq len (-1))) by lia.
  cbn [negb currOfs n_ptr offsetActive compressedLength n_dn].
  unfold validateLength. rewrite (proj2 (Z.ltb_lt _ _)) by lia. cbn [negb advance fmap option_fmap option_map].
  unfold octets. rewrite (proj2 (Nat.leb_le _ _)) by lia.
  replace (o + (1 + Z.to_nat len))%nat with (o + 1 + Z.to_nat len)%nat by lia.
  rewrite (deref_at _ _ Hc). replace (o + 1)%nat with (S o) by lia.
  do 2 f_equal; [lia|by destruct a; [|lia]].
Qed.

Lemma pointer_turn o hi lo c a l dn :
  data !! o = Some hi → 192 <= hi < 256 → data !! S o = Some lo → is_byte lo →
  data !! Z.to_nat ((hi - 192) * 256 + lo) = Some c →
  name_turn data hi (mk_name (Some o) o a l dn) =
    Return (mk_name (Some (Z.to_nat ((hi - 192) * 256 + lo))) (Z.to_nat ((hi - 192) * 256 + lo))
      true (if a then l else (l + 2)%nat) dn).
Proof.
  intros H Hhi Hlo Hb Hc. destruct (pointer_bits hi Hhi) as [H1 H2]. apply lookup_lt_Some in Hc.
  unfold name_turn, LABEL_LENGTH, LABEL_OFFSET. cbn [n_ptr currOfs offsetActive compressedLength n_dn].
  rewrite H1. cbn [Z.eqb Pos.eqb negb deref]. replace (o + 1)%nat with (S o) by lia. rewrite Hlo, H2.
  unfold is_byte in Hb. rewrite (proj2 (Z.eqb_neq ((hi - 192) * 256 + lo) (-1))) by lia.
  cbn [negb]. unfold pointer. by rewrite (proj2 (Nat.leb_gt _ _)).
Qed.

Lemma name_read o ls n : name_at data o ls n → ∀ a l dn,
  ∃ k s, name_loop k data (mk_name (Some o) o a l dn) = Return s ∧
    n_dn s = dn ++ dots ls ∧ total s = (if a then l else (l + (n - o))%nat).
Proof.
  induction 1 as [o H|o len ls n H Hl Hn IH|o hi lo ls n H Hhi Hlo Hb Hls Hn IH]; intros a l dn.
  - eexists 1%nat, _. cbn [name_loop n_ptr]. rewrite (deref_at _ _ H). split; [done|].
    cbn. split; [by rewrite app_nil_r|]. unfold total. cbn. destruct a; lia.
  - destruct (name_at_first _ _ _ Hn) as (c & Hc & Hc0 & ?).
    destruct (IH a (if a then l else (l + 1 + Z.to_nat len)%nat)
      (dn ++ take (Z.to_nat len) (drop (S o) data) ++ if c =? 0 then [] else [46]))
      as (k & s & Hk & Hd & Ht).
    exists (S k), s. cbn [name_loop n_ptr]. rewrite (deref_at _ _ H), (proj2 (Z.eqb_neq len 0)) by lia.
    rewrite (label_turn _ _ c) by done. split; [done|]. split.
    + rewrite Hd, dots_cons, <- !app_assoc. do 2 f_equal.
      destruct (Z.eqb_spec c 0), (decide (ls = [])); tauto.
    + rewrite Ht. destruct a; [done|]. lia.
  - destruct (name_at_first _ _ _ Hn) as (c & Hc & ? & ?).
    destruct (IH true (if a then l else (l + 2)%nat) dn) as (k & s & Hk & Hd & Ht).
    exists (S k), s. cbn [name_loop n_ptr]. rewrite (deref_at _ _ H), (proj2 (Z.eqb_neq hi 0)) by lia.
    rewrite (pointer_turn _ _ lo c) by done. split; [done|]. split; [done|].
    rewrite Ht. destruct a; [done|lia].
Qed.

Lemma at_offset o p : p_data p = data → p_ofs p = o → (o < length data)%nat →
  getPointer p = (Return (Some o), p).
Proof.
  intros Hd Ho Hlt. unfold getPointer, get, pointer. rewrite Hd, Ho.
  by rewrite (proj2 (Nat.leb_gt _ _)).
Qed.

Lemma incrementOffset_to n o p : p_data p = data → p_ofs p = o → (o + n <= length data)%nat →
  incrementOffset n p = (Return tt, seek (o + n)%nat p).
Proof.
  intros Hd Ho Hlt. unfold incrementOffset, set_. rewrite Hd, Ho.
  by rewrite (proj2 (Nat.ltb_ge _ _)).
Qed.

Lemma parseDomainName_at o ls n p : p_data p = data → p_ofs p = o → name_at data o ls n →
  parseDomainName p = (Return (text ls), seek n p).
Proof.
  intros Hd Ho H. destruct (name_at_first _ _ _ H) as (c & Hc & Hc0 & Hn).
  destruct (name_read _ _ _ H false 0%nat []) as (k & s & Hk & Hdn & Ht).
  apply name_loop_result in Hk; [|by intros x [= ->]|done].
  unfold parseDomainName.
  rewrite (P_bind_Return _ _ p data p) by (by rewrite <- Hd).
  rewrite (P_bind_Return _ _ p o p) by (by rewrite <- Ho).
  rewrite (P_bind_Return _ _ _ _ _ (at_offset o p Hd Ho ltac:(lia))).
  rewrite (P_bind_Return _ _ p s p) by (unfold give; by rewrite Hk).
  assert ((if offsetActive s then compressedLength s else (compressedLength s + 1)%nat) = (n - o)%nat) as ->.
  { unfold total in Ht. rewrite Nat.add_1_r, Ht. lia. }
  rewrite (P_bind_Return _ _ _ _ _ (incrementOffset_to (n - o) o p Hd Ho ltac:(lia))).
  replace (o + (n - o))%nat with n by lia. unfold mret, P_ret, text. do 3 f_equal.
  destruct (Nat.eqb_spec (n - o) 1) as [E|E], ls as [|x ls]; [done| |exfalso|by rewrite Hdn].
  - exfalso. clear Hd Ho. inversion H; subst; [|lia].
    match goal with Hn' : name_at _ (_ + _)%nat _ _ |- _ => apply name_at_first in Hn' as (? & _ & _ & ?) end. lia.
  - apply E. clear Hd Ho. inversion H; subst; [lia|done].
Qed.

(** *** Reading the fields *)

Lemma GET_INT16_at o b v p : p_data p = data → u16_at data (o + b) v →
  GET_INT16 (Some o) b p = (Return v, p).
Proof.
  intros Hd (x & y & Hx & Hy & ->). unfold GET_INT16.
  rewrite (P_bind_Return _ _ p data p) by (by rewrite <- Hd).
  rewrite (P_bind_Return _ _ p x p) by (unfold give; cbn; by rewrite Hx).
  rewrite (P_bind_Return _ _ p y p); [done|].
  unfold give. cbn. replace (o + (b + 1))%nat with (S (o + b)) by lia. by rewrite Hy.
Qed.

Lemma GET_INT32_at o b v p : p_data p = data → u32_at data (o + b) v →
  GET_INT32 (Some o) b p = (Return (i32 v), p).
Proof.
  intros Hd (v1 & v2 & (x & y & Hx & Hy & ->) & (z & t & Hz & Ht & ->) & ->). unfold GET_INT32.
  rewrite (P_bind_Return _ _ p data p) by (by rewrite <- Hd).
  rewrite (P_bind_Return _ _ p x p) by (unfold give; cbn; by rewrite Hx).
  rewrite (P_bind_Return _ _ p y p)
    by (unfold give; cbn; replace (o + (b + 1))%nat with (S (o + b)) by lia; by rewrite Hy).
  rewrite (P_bind_Return _ _ p z p)
    by (unfold give; cbn; replace (o + (b + 2))%nat with (o + b + 2)%nat by lia; by rewrite Hz).
  rewrite (P_bind_Return _ _ p t p)
    by (unfold give; cbn; replace (o + (b + 3))%nat with (S (o + b + 2)) by lia; by rewrite Ht).
  unfold mret, P_ret. do 3 f_equal. lia.
Qed.

Lemma parseCharacterString_at o s n p : p_data p = data → p_ofs p = o → string_at data o s n →
  parseCharacterString p = (Return s, seek n p).
Proof.
  intros Hd Ho H. inversion H as [o' len Hl H0 Hlt]; subst o' s n. unfold parseCharacterString.
  rewrite (P_bind_Return _ _ p data p) by (by rewrite <- Hd).
  rewrite (P_bind_Return _ _ _ _ _ (at_offset o p Hd Ho ltac:(lia))).
  rewrite (P_bind_Return _ _ p len p) by (unfold give; by rewrite (deref_at _ _ Hl)).
  rewrite (P_bind_Return _ _ _ _ _ (incrementOffset_to 1 o p Hd Ho ltac:(lia))).
  set (p1 := seek (o + 1) p).
  rewrite (P_bind_Return _ _ _ _ _ (at_offset (o + 1) p1 Hd eq_refl ltac:(lia))).
  replace (o + 1)%nat with (S o) by lia.
  rewrite (P_bind_Return _ _ p1 (take (Z.to_nat len) (drop (S o) data)) p1)
    by (unfold give, octets; by rewrite (proj2 (Nat.leb_le _ _)) by lia).
  rewrite (P_bind_Return _ _ _ _ _ (incrementOffset_to (Z.to_nat len) (o + 1) p1 Hd eq_refl ltac:(lia))).
  by replace (S o) with (o + 1)%nat by lia.
Qed.

(** *** Reading a record *)

Lemma u16_at_small o v : are_bytes data → u16_at data o v → u16 v = v.
Proof.
  intros Hb (x & y & Hx & Hy & ->). unfold are_bytes in Hb. rewrite Forall_lookup in Hb.
  apply Hb in Hx, Hy. unfold is_byte in *. apply Z.mod_small. lia.
Qed.

Lemma u16_at_bound o v : u16_at data o v → (S o < length data)%nat.
Proof. intros (x & y & _ & Hy & _). by apply lookup_lt_Some in Hy. Qed.

(** Where [parse_rdata] starts. *)
Definition at_rdata (p : Parser) (o : nat) (t c : Z) (len : nat) : Prop :=
  p_data p = data ∧ p_ofs p = o ∧ m_type p = t ∧ m_class p = c ∧ m_rdlength p = Z.of_nat len ∧
  m_rdata p = pointer data o.

Lemma record_eq d p : record now d p =
  (Return (new_rr now (m_name p) (type_of d (m_type p)) (match d with RR => m_class p | _ => ns_c_in end)
    (m_ttl p) d), p).
Proof. done. Qed.

Lemma skip_rdata_at o t c len p : at_rdata p o t c len → (o + len <= length data)%nat →
  skip_rdata p = (Return tt, seek (o + len)%nat p).
Proof.
  intros (Hd & Ho & _ & _ & Hl & _) H. unfold skip_rdata.
  rewrite (P_bind_Return _ _ p (Z.of_nat len) p) by (by rewrite <- Hl).
  rewrite Nat2Z.id. by apply incrementOffset_to.
Qed.

Lemma parse_address_at o t c len p : at_rdata p o t c len → (0 < len)%nat →
  (o + len <= length data)%nat →
  parse_address len p = (Return (take len (drop o data)), seek (o + len)%nat p).
Proof.
  intros H Hlen Hb. pose proof H as (Hd & Ho & _ & _ & Hl & Hp). unfold parse_address.
  rewrite (P_bind_Return _ _ p (Z.of_nat len) p) by (by rewrite <- Hl).
  rewrite Z.eqb_refl. cbn [negb].
  rewrite (P_bind_Return _ _ p data p) by (by rewrite <- Hd).
  rewrite (P_bind_Return _ _ p (Some o) p)
    by (unfold get; rewrite Hp; unfold pointer; by rewrite (proj2 (Nat.leb_gt _ _)) by lia).
  rewrite (P_bind_Return _ _ p (take len (drop o data)) p)
    by (unfold give, octets; by rewrite (proj2 (Nat.leb_le _ _)) by lia).
  by rewrite (P_bind_Return _ _ _ _ _ (skip_rdata_at _ _ _ _ _ H Hb)).
Qed.

Lemma rdata_pointer o t c len p : at_rdata p o t c len → (o < length data)%nat →
  get m_rdata p = (Return (Some o), p).
Proof.
  intros (_ & _ & _ & _ & _ & Hp) H. unfold get. rewrite Hp. unfold pointer.
  by rewrite (proj2 (Nat.leb_gt _ _)).
Qed.

Lemma parseSRV_at o t c len p priority weight port ls n :
  are_bytes data → at_rdata p o t c len →
  u16_at data o priority → u16_at data (o + 2) weight → u16_at data (o + 4) port →
  name_at data (o + 6) ls n →
  parseSRV now p = record now (RRecordSRV priority weight port (text ls)) (seek n p).
Proof.
  intros Hb H H1 H2 H3 Hn. pose proof H as (Hd & Ho & _). pose proof (u16_at_bound _ _ H3).
  destruct (name_at_first _ _ _ Hn) as (? & ? & _ & ?).
  unfold parseSRV. rewrite (P_bind_Return _ _ _ _ _ (rdata_pointer _ _ _ _ _ H ltac:(lia))).
  rewrite (P_bind_Return _ _ p priority p) by (apply GET_INT16_at; [done|by rewrite Nat.add_0_r]).
  rewrite (P_bind_Return _ _ p weight p) by (by apply GET_INT16_at).
  rewrite (P_bind_Return _ _ p port p) by (by apply GET_INT16_at).
  rewrite (P_bind_Return _ _ _ _ _ (incrementOffset_to 6 o p Hd Ho ltac:(lia))).
  rewrite (P_bind_Return _ _ _ _ _ (parseDomainName_at (o + 6) ls n (seek (o + 6)%nat p) Hd (seek_ofs (o + 6)%nat p) Hn)).
  by rewrite (u16_at_small _ _ Hb H1), (u16_at_small _ _ Hb H2), (u16_at_small _ _ Hb H3).
Qed.

Lemma parseNAPTR_at o t c len p order preference flags n1 service n2 regexp n3 ls n :
  are_bytes data → at_rdata p o t c len → u16_at data o order → u16_at data (o + 2) preference →
  string_at data (o + 4) flags n1 → string_at data n1 service n2 → string_at data n2 regexp n3 →
  name_at data n3 ls n →
  parseNAPTR now p =
    record now (RRecordNAPTR order preference flags service regexp (text ls)) (seek n p).
Proof.
  intros Hb H H1 H2 Hf Hs Hr Hn. pose proof H as (Hd & Ho & _).
  assert (o + 4 <= length data)%nat.
  { inversion Hf as [? ? Hl]. apply lookup_lt_Some in Hl. lia. }
  unfold parseNAPTR. rewrite (P_bind_Return _ _ _ _ _ (rdata_pointer _ _ _ _ _ H ltac:(lia))).
  rewrite (P_bind_Return _ _ p order p) by (apply GET_INT16_at; [done|by rewrite Nat.add_0_r]).
  rewrite (P_bind_Return _ _ p preference p) by (by apply GET_INT16_at).
  rewrite (P_bind_Return _ _ _ _ _ (incrementOffset_to 4 o p Hd Ho ltac:(lia))).
  rewrite (P_bind_Return _ _ _ _ _ (parseCharacterString_at (o + 4) _ n1 (seek (o + 4)%nat p) Hd (seek_ofs (o + 4)%nat p) Hf)).
  rewrite (P_bind_Return _ _ _ _ _ (parseCharacterString_at n1 _ n2 (seek n1 p) Hd (seek_ofs n1 p) Hs)).
  rewrite (P_bind_Return _ _ _ _ _ (parseCharacterString_at n2 _ n3 (seek n2 p) Hd (seek_ofs n2 p) Hr)).
  rewrite (P_bind_Return _ _ _ _ _ (parseDomainName_at n3 ls n (seek n3 p) Hd (seek_ofs n3 p) Hn)).
  by rewrite (u16_at_small _ _ Hb H1), (u16_at_small _ _ Hb H2).
Qed.

Lemma parse_rdata_at o t c len d p : are_bytes data → at_rdata p o t c len →
  rdata_at data c t o len d →
  parse_rdata now p =
    (Return (new_rr now (m_name p) (type_of d t) c (m_ttl p) d), seek (o + len)%nat p).
Proof.
  intros Hb H Hr. pose proof H as (Hd & Ho & Ht & Hc & _ & _). unfold parse_rdata.
  rewrite (P_bind_Return _ _ p c p) by (by rewrite <- Hc).
  rewrite (P_bind_Return _ _ p t p) by (by rewrite <- Ht).
  assert (∀ o' ls n, name_at data o' ls n → (o' + (n - o') = n)%nat) as Hto.
  { intros o' ls n Hn. destruct (name_at_first _ _ _ Hn) as (_ & _ & _ & ?). lia. }
  destruct Hr as [o Hin ?|o ls n Hin Hn|o ls n Hin Hn|o Hin ?|o pr we po ls n Hin H1 H2 H3 Hn
    |o or pf fl n1 sv n2 re n3 ls n Hin H1 H2 Hf Hs Hre Hn|t o l Hother ?];
    try (rewrite Hin in *; cbn [Z.eqb Pos.eqb andb ns_c_in ns_t_a ns_t_ns ns_t_cname ns_t_aaaa
           ns_t_srv ns_t_naptr]).
  - unfold parseA. rewrite (P_bind_Return _ _ _ _ _ (parse_address_at _ _ _ _ _ H ltac:(lia) ltac:(lia))).
    by rewrite record_eq, <- Hc.
  - unfold parseNS. rewrite (P_bind_Return _ _ _ _ _ (parseDomainName_at _ _ _ _ Hd Ho Hn)).
    by rewrite record_eq, (Hto _ _ _ Hn).
  - unfold parseCNAME. rewrite (P_bind_Return _ _ _ _ _ (parseDomainName_at _ _ _ _ Hd Ho Hn)).
    by rewrite record_eq, (Hto _ _ _ Hn).
  - unfold parseAAAA. rewrite (P_bind_Return _ _ _ _ _ (parse_address_at _ _ _ _ _ H ltac:(lia) ltac:(lia))).
    by rewrite record_eq.
  - rewrite (parseSRV_at _ _ _ _ _ _ _ _ _ _ Hb H H1 H2 H3 Hn), record_eq.
    destruct (name_at_first _ _ _ Hn) as (_ & _ & _ & ?). by replace (o + (n - o))%nat with n by lia.
  - rewrite (parseNAPTR_at _ _ _ _ _ _ _ _ _ _ _ _ _ _ _ Hb H H1 H2 Hf Hs Hre Hn), record_eq.
    destruct (name_at_first _ _ _ Hn) as (_ & _ & _ & ?). inversion Hf; inversion Hs; inversion Hre; subst.
    by match goal with |- (_, seek ?x _) = (_, seek ?y _) => replace y with x by lia end.
  - assert (∀ k, k ∈ [ns_t_a; ns_t_ns; ns_t_cname; ns_t_aaaa; ns_t_srv; ns_t_naptr] →
      (c =? ns_c_in) && (t =? k) = false) as Hk.
    { intros k Hk. destruct (Z.eqb_spec c ns_c_in), (Z.eqb_spec t k); try done. subst. by destruct Hother. }
    rewrite !Hk by (repeat constructor || (repeat (apply elem_of_list_here || apply elem_of_list_further))).
    unfold parseRR. rewrite (P_bind_Return _ _ _ _ _ (skip_rdata_at _ _ _ _ _ H ltac:(done))).
    rewrite record_eq. cbn. by rewrite Hc, Ht.
Qed.

(** What a record or a question leaves alone. *)
Definition kept (p p' : Parser) : Prop :=
  m_query p' = m_query p ∧ m_ancount p' = m_ancount p ∧ m_nscount p' = m_nscount p ∧
  m_arcount p' = m_arcount p.

Lemma P_bind_set {A} (f : Parser → Parser) (g : unit → P A) p : (set_ f ≫= g) p = g tt (f p).
Proof. done. Qed.
Lemma P_bind_get {A B} (f : Parser → A) (g : A → P B) p : (get f ≫= g) p = g (f p) p.
Proof. done. Qed.
Lemma P_bind_getPointer {A} (g : option nat → P A) p :
  (getPointer ≫= g) p = g (pointer (p_data p) (p_ofs p)) p.
Proof. done. Qed.

Lemma rdata_at_bound c t o len d : rdata_at data c t o len d → (o + len <= length data)%nat.
Proof.
  intros [| ? ? ? ? Hn| ? ? ? ? Hn| | ? ? ? ? ? ? ? ? ? ? Hn| ? ? ? ? ? ? ? ? ? ? ? ? ? ? Hf Hs Hr Hn|];
    try done; destruct (name_at_first _ _ _ Hn) as (_ & _ & _ & ?); try lia.
  inversion Hf; inversion Hs; inversion Hr; subst. lia.
Qed.

Lemma parseResourceRecord_at o r n p :
  are_bytes data → p_data p = data → p_ofs p = o → record_at data now o r n →
  ∃ p', parseResourceRecord now p = (Return (stored r), p') ∧ p_data p' = data ∧ p_ofs p' = n ∧
    kept p p'.
Proof.
  intros Hb Hd Ho H. destruct H as [o ls n1 t c ttl len d Hn Ht Hc Httl Hlen Hr]. subst o.
  pose proof (rdata_at_bound _ _ _ _ _ Hr). pose proof (u16_at_bound _ _ Hlen).
  unfold parseResourceRecord.
  rewrite (P_bind_Return _ _ _ _ _ (parseDomainName_at _ _ _ _ Hd eq_refl Hn)), P_bind_set. cbn beta.
  set (p1 := _ <| m_name := _ |>). rewrite P_bind_getPointer.
  assert (pointer (p_data p1) (p_ofs p1) = Some n1) as ->.
  { change (pointer (p_data p) n1 = Some n1). rewrite Hd. unfold pointer.
    by rewrite (proj2 (Nat.leb_gt _ _)) by lia. }
  rewrite (P_bind_Return _ _ p1 t p1) by (apply GET_INT16_at; [done|by rewrite Nat.add_0_r]).
  rewrite P_bind_set. cbn beta. set (p2 := _ <| m_type := _ |>).
  rewrite (P_bind_Return _ _ p2 c p2) by (by apply GET_INT16_at).
  rewrite P_bind_set. cbn beta. set (p3 := _ <| m_class := _ |>).
  rewrite (P_bind_Return _ _ p3 (i32 ttl) p3) by (by apply GET_INT32_at).
  rewrite P_bind_set. cbn beta. set (p4 := _ <| m_ttl := _ |>).
  rewrite (P_bind_Return _ _ p4 (Z.of_nat len) p4) by (by apply GET_INT16_at).
  rewrite P_bind_set. cbn beta. set (p5 := _ <| m_rdlength := _ |>).
  rewrite (P_bind_Return _ _ _ _ _ (incrementOffset_to 10 n1 p5 Hd eq_refl ltac:(lia))).
  rewrite P_bind_getPointer, P_bind_set. cbn beta. set (p6 := _ <| m_rdata := _ |>).
  rewrite (parse_rdata_at (n1 + 10) t c len d p6 Hb); [|unfold at_rdata; by rewrite <- Hd|done].
  eexists. split; [done|]. done.
Qed.

Lemma parseQuestion_at o q n p :
  p_data p = data → p_ofs p = o → question_at data o q n →
  ∃ p', parseQuestion p = (Return q, p') ∧ p_data p' = data ∧ p_ofs p' = n ∧ kept p p'.
Proof.
  intros Hd Ho H. destruct H as [o ls n1 t c Hn Ht Hc]. subst o. pose proof (u16_at_bound _ _ Hc).
  unfold parseQuestion.
  rewrite (P_bind_Return _ _ _ _ _ (parseDomainName_at _ _ _ _ Hd eq_refl Hn)).
  set (p1 := seek n1 p).
  rewrite (P_bind_Return _ _ _ _ _ (at_offset n1 p1 Hd eq_refl ltac:(lia))).
  rewrite (P_bind_Return _ _ p1 t p1) by (apply GET_INT16_at; [done|by rewrite Nat.add_0_r]).
  rewrite (P_bind_Return _ _ p1 c p1) by (by apply GET_INT16_at).
  rewrite (P_bind_Return _ _ _ _ _ (incrementOffset_to 4 n1 p1 Hd eq_refl ltac:(lia))).
  eexists. split; [done|]. done.
Qed.

(** *** Reading a section *)

Definition counts (p p' : Parser) : Prop :=
  m_ancount p' = m_ancount p ∧ m_nscount p' = m_nscount p ∧ m_arcount p' = m_arcount p.

Lemma section_at {A B} (at_ : nat → A → nat → Prop) (read : P B) (f : A → B) (add : B → Query → Query) o l n :
  (∀ o x n p, p_data p = data → p_ofs p = o → at_ o x n →
     ∃ p', read p = (Return (f x), p') ∧ p_data p' = data ∧ p_ofs p' = n ∧ kept p p') →
  many at_ o l n → ∀ p, p_data p = data → p_ofs p = o →
  ∃ p', times (length l) (x ← read; on_query (add x)) p = (Return tt, p') ∧ p_data p' = data ∧
    p_ofs p' = n ∧ m_query p' = foldl (flip add) (m_query p) (f <$> l) ∧ counts p p'.
Proof.
  intros Hread. induction 1 as [o|o x o1 l n Hx _ IH]; intros p Hd Ho.
  { exists p. repeat split; done. }
  destruct (Hread o x o1 p Hd Ho Hx) as (p1 & Hp1 & Hd1 & Ho1 & Hq & Hc1 & Hc2 & Hc3).
  set (p2 := p1 <| m_query ::= add (f x) |>).
  destruct (IH p2 Hd1 Ho1) as (p' & Hp' & Hd' & Ho' & Hq' & Hc1' & Hc2' & Hc3').
  exists p'. split.
  - cbn [times length].
    rewrite (P_bind_Return _ _ p tt p2); [done|]. by rewrite (P_bind_Return _ _ _ _ _ Hp1).
  - split; [done|]. split; [done|]. split.
    + rewrite Hq'. cbn. unfold flip. by rewrite <- Hq.
    + unfold counts. by rewrite Hc1', Hc2', Hc3', <- Hc1, <- Hc2, <- Hc3.
Qed.

(** *** Reading a message *)

Lemma parse_message qd an ns ar q : are_bytes data → message_at data now qd an ns ar →
  ∃ p', parse now (new q data) = (Return tt, p') ∧ m_query p' = holds q qd an ns ar.
Proof.
  intros Hb [o1 o2 o3 o4 H4 H6 H8 H10 Hqd Han Hns Har]. pose proof (u16_at_bound _ _ H10).
  set (p0 := new q data). unfold parse.
  assert (∃ p1, parseHeader p0 = (Return tt, p1) ∧ p_data p1 = data ∧ p_ofs p1 = 12%nat ∧
    m_query p1 = q ∧ m_qdcount p1 = Z.of_nat (length qd) ∧ m_ancount p1 = Z.of_nat (length an) ∧
    m_nscount p1 = Z.of_nat (length ns) ∧ m_arcount p1 = Z.of_nat (length ar))
    as (p1 & Hp1 & Hd1 & Ho1 & Hq1 & Hc0 & Hc1 & Hc2 & Hc3).
  { unfold parseHeader.
    rewrite (P_bind_Return _ _ _ _ _ (at_offset 0 p0 eq_refl eq_refl ltac:(lia))).
    rewrite (P_bind_Return _ _ p0 _ p0 (GET_INT16_at 0 4 _ p0 eq_refl H4)).
    rewrite (P_bind_Return _ _ p0 _ p0 (GET_INT16_at 0 6 _ p0 eq_refl H6)).
    rewrite (P_bind_Return _ _ p0 _ p0 (GET_INT16_at 0 8 _ p0 eq_refl H8)).
    rewrite (P_bind_Return _ _ p0 _ p0 (GET_INT16_at 0 10 _ p0 eq_refl H10)).
    rewrite P_bind_set. cbn beta. set (p1 := _ <| m_arcount := _ |>).
    rewrite (incrementOffset_to 12 0 p1 eq_refl eq_refl ltac:(lia)). eexists. split; [done|]. done. }
  rewrite (P_bind_Return _ _ _ _ _ Hp1).
  rewrite P_bind_get, Hc0, Nat2Z.id.
  destruct (section_at _ parseQuestion id addQuestion _ _ _ ltac:(apply parseQuestion_at) Hqd p1 Hd1 Ho1)
    as (p2 & Hp2 & Hd2 & Ho2 & Hq2 & Hk1 & Hk2 & Hk3).
  rewrite (P_bind_Return _ _ _ _ _ Hp2), P_bind_get, Hk1, Hc1, Nat2Z.id.
  pose proof (λ o r n p, parseResourceRecord_at o r n p Hb) as Hrr.
  destruct (section_at _ _ stored addAnswer _ _ _ Hrr Han p2 Hd2 Ho2)
    as (p3 & Hp3 & Hd3 & Ho3 & Hq3 & _ & Hk2' & Hk3').
  rewrite (P_bind_Return _ _ _ _ _ Hp3), P_bind_get, Hk2', Hk2, Hc2, Nat2Z.id.
  destruct (section_at _ _ stored addAuthority _ _ _ Hrr Hns p3 Hd3 Ho3)
    as (p4 & Hp4 & Hd4 & Ho4 & Hq4 & _ & _ & Hk3'').
  rewrite (P_bind_Return _ _ _ _ _ Hp4), P_bind_get, Hk3'', Hk3', Hk3, Hc3, Nat2Z.id.
  destruct (section_at _ _ stored addAdditional _ _ _ Hrr Har p4 Hd4 Ho4)
    as (p5 & Hp5 & _ & _ & Hq5 & _).
  exists p5. split; [done|]. unfold holds. by rewrite Hq5, Hq4, Hq3, Hq2, Hq1, list_fmap_id.
Qed.
End Facts.
End DnsFacts.

Module DnsProps.
Import Dns DnsLoop DnsGrammar DnsFacts.

(** *** When a message expires *)

Lemma sooner_le e l t : 0 < e → Forall (λ x, 0 < x) l →
  foldl sooner e l <= t ↔ e <= t ∨ Exists (λ x, x <= t) l.
Proof.
  intros He Hl. revert e He. induction Hl as [|x l Hx Hl IH]; intros e He; cbn [foldl].
  { rewrite Exists_nil. tauto. }
  rewrite Exists_cons, IH by (unfold sooner; case_match; lia).
  unfold sooner. rewrite (proj2 (Z.eqb_neq e 0)) by lia. cbn [orb].
  destruct (Z.ltb_spec x e); (split; [|intros [?|[?|?]]]; [|auto with lia..]); naive_solver lia.
Qed.

Lemma sooner_le_0 l t : Forall (λ x, 0 < x) l →
  foldl sooner 0 l <= t ↔ (l = [] ∧ 0 <= t) ∨ Exists (λ x, x <= t) l.
Proof.
  destruct 1 as [|x l Hx Hl]; [rewrite Exists_nil; naive_solver|].
  cbn [foldl]. change (sooner 0 x) with x. rewrite sooner_le, Exists_cons by done. naive_solver.
Qed.

Lemma foldl_kept {A B} (f : Query → B) (add : A → Query → Query) l q :
  (∀ x q, f (add x q) = f q) → f (foldl (flip add) q l) = f q.
Proof. intros H. revert q. induction l as [|x l IH]; intros q; [done|]. cbn. by rewrite IH, H. Qed.

Lemma foldl_added {A} (f : Query → list A) (add : A → Query → Query) l q :
  (∀ x q, f (add x q) = f q ++ [x]) → f (foldl (flip add) q l) = f q ++ l.
Proof.
  intros H. revert q. induction l as [|x l IH]; intros q; cbn; [by rewrite app_nil_r|].
  unfold flip at 1. by rewrite IH, H, <- app_assoc.
Qed.

Lemma foldl_expires (add : ResourceRecord → Query → Query) l q :
  (∀ x q, m_expires (add x q) = sooner (m_expires q) (rr_expires x)) →
  m_expires (foldl (flip add) q (stored <$> l)) = foldl sooner (m_expires q) (rr_expires <$> l).
Proof. intros H. revert q. induction l as [|x l IH]; intros q; [done|]. cbn. by rewrite IH, H. Qed.

Lemma holds_fields q qd an ns ar :
  m_question (holds q qd an ns ar) = m_question q ++ qd ∧
  m_answer (holds q qd an ns ar) = m_answer q ++ (stored <$> an) ∧
  m_authority (holds q qd an ns ar) = m_authority q ++ (stored <$> ns) ∧
  m_additional (holds q qd an ns ar) = m_additional q ++ (stored <$> ar) ∧
  m_expires (holds q qd an ns ar) = foldl sooner (m_expires q) (rr_expires <$> (an ++ ns ++ ar)).
Proof.
  unfold holds. split_and!.
  - rewrite !foldl_kept by done. by rewrite foldl_added.
  - do 2 rewrite foldl_kept by done. rewrite foldl_added by done. by rewrite foldl_kept.
  - rewrite foldl_kept by done. rewrite foldl_added by done. by rewrite !foldl_kept.
  - rewrite foldl_added by done. by rewrite !foldl_kept.
  - rewrite !foldl_expires by done. rewrite (foldl_kept m_expires) by done.
    by rewrite !fmap_app, !foldl_app.
Qed.


(** *** Messages that are not of the grammar *)

(** A first question whose name is a pointer to itself. *)
Definition self_pointer (data : bytes) : Prop :=
  (∃ v, u16_at data 4 v ∧ 0 < v) ∧ data !! 12%nat = Some 192 ∧ data !! 13%nat = Some 12.

Lemma header_ok data q v : u16_at data 4 v → (12 < length data)%nat →
  ∃ p1, (∀ A (g : unit → P A), (parseHeader ≫= g) (new q data) = g tt p1) ∧
    p_data p1 = data ∧ p_ofs p1 = 12%nat ∧ m_qdcount p1 = v.
Proof.
  intros Hv Hl. assert (∀ o, (o <= 10)%nat → ∃ v, u16_at data o v) as Hat.
  { intros o Ho. destruct (lookup_lt_is_Some_2 data o) as [x Hx]; [lia|].
    destruct (lookup_lt_is_Some_2 data (S o)) as [y Hy]; [lia|]. by exists (x * 256 + y), x, y. }
  destruct (Hat 6%nat) as [v6 H6]; [lia|]. destruct (Hat 8%nat) as [v8 H8]; [lia|].
  destruct (Hat 10%nat) as [v10 H10]; [lia|].
  eexists. split.
  - intros A g. apply P_bind_Return. unfold parseHeader. set (p0 := new q data).
    rewrite (P_bind_Return _ _ _ _ _ (at_offset data 0 p0 eq_refl eq_refl ltac:(lia))).
    rewrite (P_bind_Return _ _ p0 _ p0 (GET_INT16_at data 0 4 _ p0 eq_refl Hv)).
    rewrite (P_bind_Return _ _ p0 _ p0 (GET_INT16_at data 0 6 _ p0 eq_refl H6)).
    rewrite (P_bind_Return _ _ p0 _ p0 (GET_INT16_at data 0 8 _ p0 eq_refl H8)).
    rewrite (P_bind_Return _ _ p0 _ p0 (GET_INT16_at data 0 10 _ p0 eq_refl H10)).
    rewrite P_bind_set. cbn beta. set (p1 := _ <| m_arcount := _ |>).
    rewrite (incrementOffset_to data 12 0 p1 eq_refl eq_refl ltac:(lia)). reflexivity.
  - done.
Qed.

(** A message whose first question is named by a pointer to itself is never
    parsed: the loop over the labels of that name goes on for ever. *)
Theorem dns_pointer_loop data now q : self_pointer data →
  (parse now (new q data)).1 = Loops ∧
  ∀ k, name_loop k data (mk_name (Some 12%nat) 12 false 0 []) = Loops.
Proof.
  intros [(v & Hv & Hpos) [H12 H13]].
  assert (∀ k, name_loop k data (mk_name (Some 12%nat) 12 false 0 []) = Loops) as Hloop.
  { intros k. apply loops_iff. apply (cycle_forever data 1 _ (mk_name (Some 12%nat) 12 true 2 [])); [lia| |by split].
    apply nsteps_once. exists 192. split; [by apply deref_at|]. split; [lia|].
    exact (pointer_turn data 12 192 12 192 false 0 [] H12 ltac:(lia) H13 ltac:(unfold is_byte; lia) H12). }
  split; [|done]. pose proof (lookup_lt_Some _ _ _ H13).
  destruct (header_ok data q v Hv ltac:(lia)) as (p1 & Hhead & Hd & Ho & Hc).
  unfold parse. rewrite Hhead, P_bind_get, Hc.
  destruct (Z.to_nat v) as [|n] eqn:E; [lia|]. cbn [times].
  assert (parseDomainName p1 = (Loops, p1)) as Hn.
  { unfold parseDomainName. rewrite !P_bind_get, P_bind_getPointer, Hd, Ho.
    assert (pointer data 12 = Some 12%nat) as ->
      by (unfold pointer; by rewrite (proj2 (Nat.leb_gt _ _)) by lia).
    unfold give, mbind, P_bind, name_fuel. by rewrite Hloop. }
  unfold parseQuestion, mbind, P_bind. by rewrite Hn.
Qed.

(** A message shorter than the counts of its header is read past its end, or
    through a null pointer. *)
Lemma dns_short_message_fault data now q : (length data < 6)%nat →
  (parse now (new q data)).1 = Fault.
Proof.
  intros H. unfold parse, parseHeader, getPointer, pointer, get, mbind, P_bind. cbn [p_data p_ofs new].
  destruct (Nat.leb_spec (length data) 0); [done|]. unfold GET_INT16, mbind, P_bind, get, give, deref. cbn.
  destruct (data !! 4%nat); [|done]. by rewrite (lookup_ge_None_2 data 5) by lia.
Qed.

(** A label that ends with the message passes [validateLength], and the octet
    after it is read past the end of the message. *)
Theorem dns_label_at_end_fault data o len p :
  data !! o = Some len → 1 <= len <= 63 → (o + 1 + Z.to_nat len)%nat = length data →
  p_data p = data → p_ofs p = o → (parseDomainName p).1 = Fault.
Proof.
  intros H Hl He Hd Ho. pose proof (lookup_lt_Some _ _ _ H).
  unfold parseDomainName. rewrite !P_bind_get, P_bind_getPointer, Hd, Ho.
  unfold pointer. rewrite (proj2 (Nat.leb_gt _ _)) by lia. unfold give, mbind, P_bind, name_fuel.
  cbn [name_loop n_ptr]. rewrite (deref_at _ _ _ H), (proj2 (Z.eqb_neq len 0)) by lia.
  unfold name_turn. rewrite LABEL_LENGTH_label, (proj2 (Z.eqb_neq len (-1))) by lia.
  cbn [negb currOfs n_ptr]. unfold validateLength. rewrite (proj2 (Z.ltb_lt _ _)) by lia.
  cbn [negb advance fmap option_fmap option_map]. unfold octets. rewrite (proj2 (Nat.leb_le _ _)) by lia.
  cbn [deref]. by rewrite lookup_ge_None_2 by lia.
Qed.
End DnsProps.

Module DnsWitness.
Import Dns DnsGrammar DnsProps.

(** A query for the MMEs of a network: a compressed answer and an address. *)
Definition name : bytes := [3; 109; 109; 101; 3; 101; 112; 99; 0].
Definition data : bytes :=
  [0; 7; 129; 128; 0; 1; 0; 1; 0; 0; 0; 1] ++ name ++ [0; 35; 0; 1]
  ++ [192; 12; 0; 35; 0; 1; 0; 0; 0; 60; 0; 26; 0; 10; 0; 20; 1; 97;
      16; 120; 45; 51; 103; 112; 112; 45; 109; 109; 101; 58; 120; 45; 115; 49; 48; 0; 192; 12]
  ++ [2; 65; 98; 192; 16; 0; 1; 0; 1; 0; 0; 0; 30; 0; 4; 10; 0; 0; 1].
Definition mme : list bytes := [[109; 109; 101]; [101; 112; 99]].
Definition answers : list ResourceRecord :=
  [mk_rr (text mme) ns_t_naptr ns_c_in 60 1060
     (RRecordNAPTR 10 20 "a" "x-3gpp-mme:x-s10" "" (text mme))].
Definition addresses : list ResourceRecord :=
  [mk_rr (text [[65; 98]; [101; 112; 99]]) ns_t_a ns_c_in 30 1030 (RRecordA [10; 0; 0; 1])].

(** Reads the grammar off the octets. *)
Ltac byte_goal := first [reflexivity | by vm_compute | lia].
Ltac name_goal :=
  lazymatch goal with
  | |- name_at ?d ?o ?ls ?n =>
      let c := eval vm_compute in (d !! o) in
      lazymatch c with
      | Some 0 => exact (name_end d o eq_refl)
      | Some ?v =>
          let big := eval vm_compute in (192 <=? v) in
          lazymatch big with
          | true =>
              let lo := eval vm_compute in (default 0 (d !! S o)) in
              refine (name_pointer d o v lo _ _ eq_refl _ eq_refl _ _ _);
              [split; byte_goal|split; byte_goal|discriminate|name_goal]
          | false =>
              refine (name_label d o v _ _ eq_refl _ _); [split; byte_goal|name_goal]
          end
      end
  end.
Ltac u16_goal :=
  lazymatch goal with
  | |- u16_at ?d ?o _ =>
      let x := eval vm_compute in (default 0 (d !! o)) in
      let y := eval vm_compute in (default 0 (d !! S o)) in
      exists x, y; split_and!; reflexivity
  end.
Ltac string_goal :=
  lazymatch goal with
  | |- string_at ?d ?o _ _ =>
      let v := eval vm_compute in (default 0 (d !! o)) in
      refine (character_string d o v eq_refl _ _); [lia|cbn; lia]
  end.

Definition question : Question := mk_question (text mme) ns_t_naptr ns_c_in.

Lemma data_message : message_at data 1000 [question] answers [] addresses.
Proof.
  refine (a_message data 1000 _ _ _ _ 25 63 63 82 _ _ _ _ _ _ _ _); [u16_goal..| | |constructor|].
  - refine (many_cons _ 12 _ 25 _ _ _ (many_nil _ _)).
    refine (a_question data 12 mme 21 ns_t_naptr ns_c_in _ _ _); [name_goal|u16_goal..].
  - refine (many_cons _ 25 _ 63 _ _ _ (many_nil _ _)).
    refine (a_record data 1000 25 mme 27 ns_t_naptr ns_c_in 60 26 _ _ _ _ _ _ _);
      [name_goal|u16_goal|u16_goal|exists 0, 60; split_and!; [u16_goal..|done]|u16_goal|].
    refine (rd_naptr data ns_c_in 37 10 20 "a" 43 "x-3gpp-mme:x-s10" 60 "" 61 mme 63 eq_refl _ _ _ _ _ _);
      [u16_goal..|string_goal|string_goal|string_goal|name_goal].
  - refine (many_cons _ 63 _ 82 _ _ _ (many_nil _ _)).
    refine (a_record data 1000 63 _ 68 ns_t_a ns_c_in 30 4 _ _ _ _ _ _ _);
      [name_goal|u16_goal|u16_goal|exists 0, 30; split_and!; [u16_goal..|done]|u16_goal|].
    refine (rd_a data ns_c_in 78 eq_refl _). cbn. lia.
Qed.


Definition loop_data : bytes := [0; 1; 0; 0; 0; 1; 0; 0; 0; 0; 0; 0; 192; 12; 0; 1; 0; 1].
Lemma dns_pointer_loop_witness :
  (parse 0 (new (new_query ns_t_a "a") loop_data)).1 = Loops ∧
  ∀ k, name_loop k loop_data (mk_name (Some 12%nat) 12 false 0 []) = Loops.
Proof.
  apply (dns_pointer_loop loop_data 0 (new_query ns_t_a "a")).
  split; [|done]. exists 1. split; [|lia]. exists 0, 1. split_and!; reflexivity.
Defined.

Lemma dns_label_at_end_fault_witness :
  (parseDomainName (new (new_query ns_t_a "a") [3; 97; 98; 99])).1 = Fault.
Proof. by apply (dns_label_at_end_fault [3; 97; 98; 99] 0 3 (new (new_query ns_t_a "a") [3; 97; 98; 99])). Defined.
End DnsWitness.
