(* ===== verification/DnsCache.v ===== *)
(** * The DNS cache

    Models [CachedDNS::Cache] and [QueryProcessor] (util/src/cdnscache.cpp,
    util/include/cdnscache.h): queries answered from memory until they expire.
    [DnsCache] is one call after another; [DnsCacheThreads] the threads of the
    program calling at the same time. *)

From S2P Require Import Prelude Dns.
#[local] Open Scope Z_scope.

Module DnsCache.
Import Dns.

Definition ARES_SUCCESS : Z := 0.

(** What c-ares gives one query: the result of [ares_init], and the message it
    hands to the callback, which is empty when the query failed. *)
Record reply := mk_reply { init_status : Z; abuf : bytes }.

(** [m_cache] maps a key to the address of a query object. *)
Definition key : Type := Z * string.
Record cache := mk_cache { heap : gmap nat Query; fresh : nat; m_cache : gmap key nat }.
Definition empty_cache : cache := mk_cache ∅ 0 ∅.

Definition lookupQuery (k : key) (c : cache) : option nat := m_cache c !! k.

(** [QueryProcessor::execute] and the callback [process], which looks at the
    message alone and catches what the parser throws. *)
Definition execute (now : Z) (r : reply) (q : Query) : result (Z * Query) :=
  if negb (init_status r =? ARES_SUCCESS) then Return (init_status r, q)
  else match parse now (new q (abuf r)) with
       | (Return _, p) | (Raise, p) => Return (ARES_SUCCESS, m_query p)
       | (Fault, _) => Fault
       | (Loops, _) => Loops
       end.

(** [new Query(rtype, domain)] *)
Definition alloc (q : Query) (c : cache) : nat * cache :=
  (fresh c, c <| heap ::= insert (fresh c) q |> <| fresh ::= S |>).
(** The locked part of [processQuery]: the entry, and the one it replaces. *)
Definition install (k : key) (q : nat) (c : cache) : option nat * cache :=
  (m_cache c !! k, c <| m_cache ::= insert k q |>).
Definition delete_query (q : nat) (c : cache) : cache := c <| heap ::= delete q |>.

Definition processQuery (now : Z) (r : reply) (k : key) (c : cache) : result (option nat) * cache :=
  let '(q, c) := alloc (new_query k.1 k.2) c in
  match execute now r (new_query k.1 k.2) with
  | Return (status, x) =>
      if status =? ARES_SUCCESS then
        let '(old, c) := install k q (c <| heap ::= insert q x |>) in
        (Return (Some q), match old with Some o => delete_query o c | None => c end)
      else (Return None, delete_query q c)
  | Raise => (Raise, c)
  | Fault => (Fault, c)
  | Loops => (Loops, c)
  end.

(** [Cache::query]: the query and whether it came from the cache. *)
Definition query (now : Z) (r : reply) (k : key) (c : cache) : result (option nat * bool) * cache :=
  let miss :=
    let '(o, c') := processQuery now r k c in
    (match o with
     | Return q => Return (q, false) | Raise => Raise | Fault => Fault | Loops => Loops
     end, c') in
  match lookupQuery k c with
  | None => miss
  | Some q =>
      match heap c !! q with
      | None => (Fault, c)
      | Some x => if isExpired now x then miss else (Return (Some q, true), c)
      end
  end.

(** ** One call after another *)

(** Entries are live, and no two keys share one. *)
Record wf (c : cache) : Prop := {
  wf_live : ∀ k q, m_cache c !! k = Some q → is_Some (heap c !! q);
  wf_apart : ∀ k k' q, m_cache c !! k = Some q → m_cache c !! k' = Some q → k = k';
  wf_fresh : ∀ q, (fresh c <= q)%nat → heap c !! q = None }.

Lemma wf_empty : wf empty_cache.
Proof. split; intros *; by rewrite ?lookup_empty. Qed.

Lemma wf_replace c k q x : wf c → (fresh c <= q)%nat →
  wf (mk_cache (default id (delete <$> m_cache c !! k) (<[q := x]> (heap c))) (S q)
        (<[k := q]> (m_cache c))).
Proof.
  intros [Hl Ha Hf] Hq.
  assert (∀ k' q', m_cache c !! k' = Some q' → q' ≠ q) as Hne.
  { intros k' q' Hk' ->. destruct (Hl _ _ Hk') as [y Hy]. by rewrite Hf in Hy. }
  split; cbn.
  - intros k' q' Hk'. destruct (decide (k' = k)) as [->|Hk].
    + assert (q' = q) as -> by (by simplify_map_eq). destruct (m_cache c !! k) as [old|] eqn:E; cbn;
        [rewrite lookup_delete_ne by eauto|]; by simplify_map_eq.
    + rewrite lookup_insert_ne in Hk' by done. destruct (Hl _ _ Hk') as [y Hy].
      assert (<[q:=x]> (heap c) !! q' = Some y) as Hy' by (by rewrite lookup_insert_ne by (symmetry; eauto)).
      destruct (m_cache c !! k) as [old|] eqn:E; cbn; [|by rewrite Hy'].
      rewrite lookup_delete_ne; [by rewrite Hy'|]. intros ->. apply Hk. eauto.
  - intros k1 k2 q' H1 H2. destruct (decide (k1 = k)) as [->|], (decide (k2 = k)) as [->|];
      rewrite ?lookup_insert_ne in H1, H2 by done; simplify_map_eq;
      [done|exfalso; by eapply Hne..|eauto].
  - intros q' Hq'. destruct (m_cache c !! k) as [old|]; cbn; [apply lookup_delete_None; right|];
      rewrite lookup_insert_ne by lia; apply Hf; lia.
Qed.

(** What a call that returns leaves behind. *)
Lemma processQuery_eq now r k c : processQuery now r k c =
  match execute now r (new_query k.1 k.2) with
  | Return (status, x) =>
      if status =? ARES_SUCCESS then
        (Return (Some (fresh c)),
         mk_cache (default id (delete <$> m_cache c !! k) (<[fresh c := x]> (heap c))) (S (fresh c))
           (<[k := fresh c]> (m_cache c)))
      else (Return None, mk_cache (delete (fresh c) (heap c)) (S (fresh c)) (m_cache c))
  | Raise => (Raise, (alloc (new_query k.1 k.2) c).2)
  | Fault => (Fault, (alloc (new_query k.1 k.2) c).2)
  | Loops => (Loops, (alloc (new_query k.1 k.2) c).2)
  end.
Proof.
  destruct c as [h f m]. unfold processQuery, alloc, install, delete_query, set. cbn -[execute].
  destruct (execute now r _) as [[status x]| | |]; [|done..].
  case_match; [|by rewrite delete_insert_eq].
  destruct (m !! k); cbn; by rewrite insert_insert_eq.
Qed.

Lemma wf_drop c q : wf c → (fresh c <= q)%nat → wf (mk_cache (delete q (heap c)) (S q) (m_cache c)).
Proof.
  intros [Hl Ha Hf] Hq. split; cbn; [|done|].
  - intros k' q' Hk'. destruct (Hl _ _ Hk') as [y Hy]. rewrite lookup_delete_ne; [by rewrite Hy|].
    intros ->. by rewrite Hf in Hy.
  - intros q' Hq'. rewrite lookup_delete_None. right. apply Hf. lia.
Qed.

Lemma wf_alloc c x : wf c → wf (alloc x c).2.
Proof.
  intros [Hl Ha Hf]. split; cbn; [|done|].
  - intros k' q' Hk'. destruct (Hl _ _ Hk') as [y Hy].
    destruct (decide (fresh c = q')) as [<-|]; [by rewrite Hf in Hy|]. by rewrite lookup_insert_ne, Hy.
  - intros q' Hq'. rewrite lookup_insert_ne by lia. apply Hf. lia.
Qed.

Lemma processQuery_wf now r k c o c' : wf c → processQuery now r k c = (o, c') → wf c'.
Proof.
  intros H. rewrite processQuery_eq.
  destruct (execute now r _) as [[status x]| | |]; [case_match|..]; intros [= <- <-];
    auto using wf_replace, wf_drop; exact (wf_alloc _ _ H).
Qed.

(** A message whose records are all live, and there is one. *)
Definition live (now : Z) (rs : list ResourceRecord) : Prop :=
  rs ≠ [] ∧ Forall (λ r, now < rr_expires r) rs.

Lemma execute_message now r data q qd an ns ar : init_status r = ARES_SUCCESS → abuf r = data →
  are_bytes data → DnsGrammar.message_at data now qd an ns ar →
  execute now r q = Return (ARES_SUCCESS, DnsGrammar.holds q qd an ns ar).
Proof.
  intros Hi <- Hb Hm. destruct (DnsFacts.parse_message _ _ _ _ _ _ q Hb Hm) as (p & Hp & Hq).
  unfold execute. by rewrite Hi, Hp, Hq.
Qed.

Lemma isExpired_holds now t d qd an ns ar : Forall (λ r, 0 < rr_expires r) (an ++ ns ++ ar) →
  live now (an ++ ns ++ ar) → isExpired now (DnsGrammar.holds (new_query t d) qd an ns ar) = false.
Proof.
  intros Hpos [Hne Hlive]. destruct (DnsProps.holds_fields (new_query t d) qd an ns ar) as (_ & _ & _ & _ & H).
  unfold isExpired. apply Z.leb_gt. rewrite H.
  destruct (Z.lt_ge_cases now (foldl sooner (m_expires (new_query t d)) (rr_expires <$> an ++ ns ++ ar)))
    as [|Hle]; [done|].
  apply DnsProps.sooner_le_0 in Hle; [|by apply Forall_fmap].
  destruct Hle as [[Hnil _]|Hex]; [by apply fmap_nil_inv in Hnil|].
  apply Exists_exists in Hex as (e & (r & -> & Hr)%list_elem_of_fmap & He).
  rewrite Forall_forall in Hlive. specialize (Hlive r Hr). lia.
Qed.

(** The entry of a name. *)
Definition entry (c : cache) (k : key) (q : nat) (x : Query) : Prop :=
  m_cache c !! k = Some q ∧ heap c !! q = Some x.

Lemma processQuery_other now r k k' c q x : wf c → k' ≠ k → entry c k q x →
  entry (processQuery now r k' c).2 k q x.
Proof.
  intros Hwf Hk [Hc Hx]. rewrite processQuery_eq.
  assert (fresh c ≠ q) by (intros <-; by rewrite (wf_fresh _ Hwf) in Hx).
  assert (entry (alloc (new_query k'.1 k'.2) c).2 k q x) by (split; cbn; [done|by rewrite lookup_insert_ne]).
  destruct (execute now r _) as [[status y]| | |]; [case_match|..]; try done; split; cbn;
    rewrite ?lookup_insert_ne, ?lookup_delete_ne by done; try done.
  destruct (m_cache c !! k') as [old|] eqn:E; cbn; [|by rewrite lookup_insert_ne].
  rewrite lookup_delete_ne, lookup_insert_ne; [done|done|]. intros ->. apply Hk.
  by apply (wf_apart _ Hwf _ _ q).
Qed.

Lemma query_other now r k k' c q x : wf c → k' ≠ k → entry c k q x →
  wf (query now r k' c).2 ∧ entry (query now r k' c).2 k q x.
Proof.
  intros Hwf Hk He. pose proof (processQuery_other now r _ _ _ _ _ Hwf Hk He) as He'.
  unfold query. destruct (processQuery now r k' c) as [o c'] eqn:E.
  pose proof (processQuery_wf _ _ _ _ _ _ Hwf E). repeat case_match; done.
Qed.

(** C17: Once a name has been looked up and a message of the grammar came back, the
    same name is answered from the cache, with that message and without another
    query, as long as none of its records has expired -- whatever names were
    looked up in between. *)
Theorem cache_answers_until_expiry now now' r r' k c c1 q qd an ns ar :
  wf c → init_status r = ARES_SUCCESS → are_bytes (abuf r) →
  DnsGrammar.message_at (abuf r) now qd an ns ar →
  Forall (λ r, 0 < rr_expires r) (an ++ ns ++ ar) → live now' (an ++ ns ++ ar) →
  processQuery now r k c = (Return (Some q), c1) →
  ∀ l c2, foldl (λ c '(t, r, k'), (query t r k' c).2) c1 l = c2 →
    Forall (λ '(_, _, k'), k' ≠ k) l →
    query now' r' k c2 = (Return (Some q, true), c2) ∧
    heap c2 !! q = Some (DnsGrammar.holds (new_query k.1 k.2) qd an ns ar).
Proof.
  intros Hwf Hi Hb Hm Hpos Hlive Hq l c2 Hl Hk.
  set (x := DnsGrammar.holds (new_query k.1 k.2) qd an ns ar).
  assert (wf c1 ∧ entry c1 k q x) as Hc1.
  { pose proof (processQuery_wf _ _ _ _ _ _ Hwf Hq) as Hwf1. split; [done|].
    rewrite processQuery_eq, (execute_message _ _ _ _ _ _ _ _ Hi eq_refl Hb Hm) in Hq.
    cbn [Z.eqb ARES_SUCCESS] in Hq. injection Hq as <- <-. split; cbn; [by simplify_map_eq|].
    destruct (m_cache c !! k) as [old|] eqn:E; cbn; [|by simplify_map_eq].
    destruct (wf_live _ Hwf _ _ E) as [y Hy]. rewrite lookup_delete_ne; [by simplify_map_eq|].
    intros ->. by rewrite (wf_fresh _ Hwf) in Hy. }
  clear Hq Hwf. revert c1 Hl Hc1. induction Hk as [|[[t r1] k1] l Hk1 _ IH]; intros c1 Hl [Hw He].
  { cbn in Hl. subst c2. split; [|apply He]. destruct He as [Hk Hx].
    unfold query, lookupQuery. rewrite Hk, Hx. unfold x. by rewrite (isExpired_holds _ _ _ _ _ _ _ Hpos Hlive). }
  exact (IH _ Hl (query_other t r1 k k1 c1 q x Hw Hk1 He)).
Qed.

(** A query that fails hands an empty message to the callback, which parses it. *)
Lemma failed_query_faults now r q : init_status r = ARES_SUCCESS → abuf r = [] → execute now r q = Fault.
Proof.
  intros Hi Ha. unfold execute. rewrite Hi, Ha.
  pose proof (DnsProps.dns_short_message_fault [] now q ltac:(cbn; lia)) as H.
  change (new q []) with (new q []). destruct (parse now (new q [])) as [o p]. cbn in H. by subst.
Qed.
End DnsCache.

(** ** Threads

    Each thread calls [query] and then reads the object it was given.  The look-up
    and the replacement of an entry hold the cache's mutex; what [isExpired], the
    deletion of the replaced object and the caller's reads do, does not. *)

Module DnsCacheThreads.
Import Dns DnsCache.

Inductive pc :=
  | Idle
  | Looked (k : key) (q : option nat)
  | Asking (k : key) (q : nat)
  | Freeing (old q : nat)
  | Holding (q : nat).

(** [crashed]: a read through a dangling pointer, or outside a message. *)
Record sys := mk_sys { shared : cache; clock : Z; threads : list pc; crashed : bool }.
Definition init_sys (now : Z) (n : nat) : sys := mk_sys empty_cache now (replicate n Idle) false.

(** What one thread does next, given what the network says. *)
Inductive act (now : Z) : cache → pc → cache → pc → Prop :=
  | act_look c k : act now c Idle c (Looked k (lookupQuery k c))
  | act_hit c k q x : heap c !! q = Some x → isExpired now x = false →
      act now c (Looked k (Some q)) c (Holding q)
  | act_stale c k q x : heap c !! q = Some x → isExpired now x = true →
      act now c (Looked k (Some q)) (alloc (new_query k.1 k.2) c).2 (Asking k (fresh c))
  | act_miss c k : act now c (Looked k None) (alloc (new_query k.1 k.2) c).2 (Asking k (fresh c))
  | act_answer c k q r x :
      execute now r (new_query k.1 k.2) = Return (ARES_SUCCESS, x) →
      act now c (Asking k q) (install k q (c <| heap ::= insert q x |>)).2
        (match m_cache c !! k with Some old => Freeing old q | None => Holding q end)
  | act_no_channel c k q r status x :
      execute now r (new_query k.1 k.2) = Return (status, x) → status ≠ ARES_SUCCESS →
      act now c (Asking k q) (delete_query q c) Idle
  | act_free c old q y : heap c !! old = Some y →
      act now c (Freeing old q) (delete_query old c) (Holding q)
  | act_read c q x : heap c !! q = Some x → act now c (Holding q) c Idle.

Inductive fault (now : Z) (c : cache) : pc → Prop :=
  | fault_check k q : heap c !! q = None → fault now c (Looked k (Some q))
  | fault_parse k q r : execute now r (new_query k.1 k.2) = Fault → fault now c (Asking k q)
  | fault_free old q : heap c !! old = None → fault now c (Freeing old q)
  | fault_read q : heap c !! q = None → fault now c (Holding q).

Inductive step : sys → sys → Prop :=
  | step_thread now c c' l t t' l' : act now c t c' t' →
      step (mk_sys c now (l ++ t :: l') false) (mk_sys c' now (l ++ t' :: l') false)
  | step_fault now c l t l' : fault now c t →
      step (mk_sys c now (l ++ t :: l') false) (mk_sys c now (l ++ t :: l') true)
  | step_clock now now' c l : now <= now' → step (mk_sys c now l false) (mk_sys c now' l false).

(** *** Every object has one owner: the cache, or the thread that will free it *)

Definition owns (t : pc) : list nat :=
  match t with Asking _ q => [q] | Freeing old _ => [old] | _ => [] end.
Definition cached (c : cache) : list nat := (map_to_list (m_cache c)).*2.
Definition owned (s : sys) : list nat := cached (shared s) ++ (threads s ≫= owns).

Definition exactly (c : cache) (l : list nat) : Prop :=
  NoDup l ∧ (∀ q, q ∈ l ↔ is_Some (heap c !! q)) ∧ ∀ q, is_Some (heap c !! q) → (q < fresh c)%nat.

Lemma exactly_perm c l l' : l ≡ₚ l' → exactly c l → exactly c l'.
Proof.
  intros Hp (Hn & Hq & Hf). split; [by rewrite <- Hp|]. split; [|done]. intros q. by rewrite <- Hp.
Qed.

Lemma exactly_alloc c l x : exactly c l → exactly (alloc x c).2 (fresh c :: l).
Proof.
  intros (Hn & Hq & Hf). assert (heap c !! fresh c = None) as Hnew.
  { apply eq_None_not_Some. intros H. apply Hf in H. lia. }
  split; [constructor; [rewrite Hq, Hnew; by intros []|done]|]. split; intros q; cbn.
  - rewrite elem_of_cons, Hq. destruct (decide (q = fresh c)) as [->|].
    + simplify_map_eq. naive_solver.
    + rewrite lookup_insert_ne by done. naive_solver.
  - destruct (decide (q = fresh c)) as [->|]; [lia|]. rewrite lookup_insert_ne by done.
    intros H. apply Hf in H. lia.
Qed.

Lemma exactly_update c l q x : q ∈ l → exactly c l → exactly (c <| heap ::= insert q x |>) l.
Proof.
  intros Hl (Hn & Hq & Hf). split; [done|]. assert (is_Some (heap c !! q)) by (by apply Hq).
  split; intros q'; cbn; (destruct (decide (q = q')) as [<-|]; [|rewrite lookup_insert_ne by done; auto]).
  - split; [|done]. intros _. simplify_map_eq. eauto.
  - auto.
Qed.

Lemma exactly_delete c l q : exactly c (q :: l) → exactly (delete_query q c) l.
Proof.
  intros ([Hnot Hn]%NoDup_cons & Hq & Hf). split; [done|]. split; intros q'; cbn.
  - destruct (decide (q = q')) as [<-|Hne]; [rewrite lookup_delete_eq; split; [done|by intros []]|].
    rewrite lookup_delete_ne by done. rewrite <- Hq, elem_of_cons. naive_solver.
  - intros [y Hy]. apply lookup_delete_Some in Hy as [_ Hy]. eauto.
Qed.

Lemma exactly_same_heap c c' l : heap c' = heap c → fresh c' = fresh c → exactly c l → exactly c' l.
Proof. unfold exactly. intros -> ->. done. Qed.

(** What [install] does to the list of the cached objects. *)
Lemma cached_install k q c : ∃ l,
  cached c ≡ₚ (match m_cache c !! k with Some old => [old] | None => [] end) ++ l ∧
  cached (install k q c).2 ≡ₚ q :: l.
Proof.
  unfold cached, install. cbn. destruct (m_cache c !! k) as [old|] eqn:E.
  - exists (map_to_list (delete k (m_cache c))).*2. split.
    + by rewrite <- (map_to_list_delete _ _ _ E).
    + rewrite <- insert_delete_eq, map_to_list_insert; [done|]. by rewrite lookup_delete_eq.
  - exists (map_to_list (m_cache c)).*2. split; [done|]. by rewrite map_to_list_insert.
Qed.

Lemma owned_at c now l t l' b :
  owned (mk_sys c now (l ++ t :: l') b) ≡ₚ owns t ++ cached c ++ ((l ++ l') ≫= owns).
Proof.
  unfold owned. cbn. rewrite bind_app, bind_cons, bind_app.
  rewrite (Permutation_app_swap_app (l ≫= owns)). apply Permutation_app_swap_app.
Qed.

Lemma act_owned now c t c' t' rest : act now c t c' t' →
  exactly c (owns t ++ cached c ++ rest) → exactly c' (owns t' ++ cached c' ++ rest).
Proof.
  intros H Ho. destruct H; cbn [owns app] in *; try done.
  - by apply exactly_alloc.
  - by apply exactly_alloc.
  - destruct (cached_install k q (c <| heap ::= insert q x |>)) as (l & H1 & H2). cbn [m_cache] in H1.
    apply (exactly_same_heap (c <| heap ::= insert q x |>)); [done|done|].
    eapply exactly_perm, (exactly_update _ _ q x), Ho; [|by left].
    change (cached c ≡ₚ (match m_cache c !! k with Some old => [old] | None => [] end) ++ l) in H1.
    rewrite H2, H1. destruct (m_cache c !! k) as [old|]; cbn [owns app]; [apply Permutation_swap|done].
  - by apply exactly_delete.
  - by apply exactly_delete.
Qed.

Lemma exactly_init now n : exactly (shared (init_sys now n)) (owned (init_sys now n)).
Proof.
  unfold owned, cached, init_sys. cbn. rewrite map_to_list_empty. cbn.
  assert (replicate n Idle ≫= owns = []) as -> by (by induction n).
  split; [constructor|]. split; intros q; cbn; rewrite lookup_empty; [|by intros []].
  split; [by intros ?%elem_of_nil|by intros []].
Qed.

Lemma exactly_step s s' : step s s' → exactly (shared s) (owned s) → exactly (shared s') (owned s').
Proof.
  intros [now c c' l t t' l' H|now c l t l' _|now now' c l _] Ho; [|done|done]. cbn [shared] in *.
  eapply exactly_perm; [symmetry; apply owned_at|]. eapply act_owned; [done|].
  by eapply exactly_perm; [apply owned_at|].
Qed.

(** C18: In every interleaving of the threads each query object that exists is in the
    cache or in the hands of the one thread that will put it there or delete it:
    nothing is lost, and no object is deleted twice. *)
Theorem cache_objects_owned_once now n s : rtc step (init_sys now n) s →
  NoDup (owned s) ∧ (∀ q, is_Some (heap (shared s) !! q) ↔ q ∈ owned s) ∧
  ∀ l old q l', threads s = l ++ Freeing old q :: l' → is_Some (heap (shared s) !! old).
Proof.
  intros H. assert (exactly (shared s) (owned s)) as (Hn & Hq & _).
  { eapply (rtc_preserves step (λ s, exactly (shared s) (owned s)));
      [apply exactly_step|exact H|apply exactly_init]. }
  split; [done|]. split; [intros q; symmetry; apply Hq|].
  intros l old q l' Ht. apply Hq. destruct s as [c now' ts b]. cbn in Ht. subst ts.
  rewrite owned_at. cbn [owns app]. by left.
Qed.
End DnsCacheThreads.

Module DnsCacheWitness.
Import Dns DnsCache DnsCacheThreads.

Definition k0 : key := (ns_t_naptr, "mme.epc"%string).
Definition r0 : reply := mk_reply ARES_SUCCESS DnsWitness.data.
Definition x0 : Query :=
  Eval vm_compute in match execute 1000 r0 (new_query k0.1 k0.2) with Return (_, x) => x | _ => new_query 0 "" end.
Lemma executed : execute 1000 r0 (new_query k0.1 k0.2) = Return (ARES_SUCCESS, x0).
Proof. by vm_compute. Qed.

Lemma first_thread c c' t t' u : act 1000 c t c' t' →
  step (mk_sys c 1000 [t; u] false) (mk_sys c' 1000 [t'; u] false).
Proof. exact (step_thread 1000 c c' [] t t' [u]). Qed.
Lemma second_thread c c' t t' u : act 1000 c t c' t' →
  step (mk_sys c 1000 [u; t] false) (mk_sys c' 1000 [u; t'] false).
Proof. exact (step_thread 1000 c c' [u] t t' []). Qed.

(** The cache once both threads have missed, then with each answer in turn. *)
Definition c1 : cache := (alloc (new_query k0.1 k0.2) empty_cache).2.
Definition c2 : cache := (alloc (new_query k0.1 k0.2) c1).2.
Definition c3 : cache := (install k0 0 (c2 <| heap ::= insert 0%nat x0 |>)).2.
Definition c4 : cache := (install k0 1 (c3 <| heap ::= insert 1%nat x0 |>)).2.
Definition c5 : cache := delete_query 0 c4.

Lemma both_looked : rtc step (init_sys 1000 2) (mk_sys c3 1000 [Holding 0; Asking k0 1] false).
Proof.
  eapply rtc_l; [apply first_thread, act_look|]. eapply rtc_l; [apply second_thread, act_look|].
  eapply rtc_l; [apply first_thread; exact (act_miss 1000 empty_cache k0)|].
  eapply rtc_l; [apply second_thread; exact (act_miss 1000 c1 k0)|].
  apply rtc_once, first_thread. exact (act_answer 1000 c2 k0 0 r0 x0 executed).
Qed.

(** Two threads look up the same new name at the same time: the answer of the
    second replaces and deletes the query object the first was given, which then
    reads it. *)
Theorem cache_use_after_free : ∃ c q t,
  rtc step (init_sys 1000 2) (mk_sys c 1000 [Holding q; t] false) ∧
  heap c !! q = None ∧
  step (mk_sys c 1000 [Holding q; t] false) (mk_sys c 1000 [Holding q; t] true).
Proof.
  exists c5, 0%nat, (Holding 1). assert (heap c5 !! 0%nat = None) as Hnone by apply lookup_delete_eq.
  split; [|split; [done|exact (step_fault 1000 c5 [] (Holding 0) [Holding 1] (fault_read 1000 c5 0 Hnone))]].
  eapply rtc_r; [eapply rtc_r; [exact both_looked|]|].
  - apply second_thread. exact (act_answer 1000 c3 k0 1 r0 x0 executed).
  - apply second_thread. exact (act_free 1000 c4 0 1 x0 eq_refl).
Qed.

Lemma cache_objects_owned_once_witness :
  NoDup (owned (mk_sys c3 1000 [Holding 0; Asking k0 1] false)) ∧
  (∀ q, is_Some (heap c3 !! q) ↔ q ∈ owned (mk_sys c3 1000 [Holding 0; Asking k0 1] false)) ∧
  ∀ l old q l', [Holding 0; Asking k0 1] = l ++ Freeing old q :: l' → is_Some (heap c3 !! old).
Proof. exact (cache_objects_owned_once 1000 2 _ both_looked). Defined.

Definition c_after : cache := (processQuery 1000 r0 k0 empty_cache).2.
Lemma cache_answers_until_expiry_witness :
  query 1029 (mk_reply 1 []) k0 c_after = (Return (Some 0%nat, true), c_after) ∧
  heap c_after !! 0%nat =
    Some (DnsGrammar.holds (new_query k0.1 k0.2) [DnsWitness.question] DnsWitness.answers []
            DnsWitness.addresses).
Proof.
  apply (cache_answers_until_expiry 1000 1029 r0 (mk_reply 1 []) k0 empty_cache c_after 0%nat
    [DnsWitness.question] DnsWitness.answers [] DnsWitness.addresses) with (l := []).
  - exact wf_empty.
  - done.
  - apply (bool_decide_unpack _). vm_compute. exact I.
  - exact DnsWitness.data_message.
  - repeat constructor.
  - split; [done|]. repeat constructor.
  - vm_compute. reflexivity.
  - done.
  - constructor.
Defined.
End DnsCacheWitness.
