(* ===== verification/EpcNames.v ===== *)
(** * Names of the evolved packet core

    Models [EPC::Utility] (util/src/epc.cpp 24-819, util/include/epc.h): the DNS
    names of nodes and areas, the service and protocol tags of NAPTR records, and
    the Diameter services. *)

From S2P Require Import Prelude Cxx Codec.
#[local] Open Scope Z_scope.
#[local] Open Scope string_scope.

Module Utility.

(** ** DNS names *)

Definition APPEND_MNC (a : string) : string := "mnc" +:+ a +:+ ".".
Definition APPEND_MCC (a : string) : string := "mcc" +:+ a +:+ ".".
Definition APPEND_3GPPNETWORK : string := "3gppnetwork.org".

(** The arrays [PARSE_PLMNID] fills, as strings. *)
Definition mnc_of (plmnid : bytes) : string := string_of_bytes (take 3 (Plmn.PARSE_MNC plmnid)).
Definition mcc_of (plmnid : bytes) : string := string_of_bytes (take 3 (Plmn.PARSE_MCC plmnid)).

(** Each name exists twice, for an MNC and an MCC and for a PLMN identity. *)
Definition home_network (mnc mcc : string) : string :=
  APPEND_MNC mnc +:+ APPEND_MCC mcc +:+ APPEND_3GPPNETWORK.
Definition home_network_gprs (mnc mcc : string) : string :=
  APPEND_MNC mnc +:+ APPEND_MCC mcc +:+ "gprs".
Definition tai_fqdn (lb hb mnc mcc : string) : string :=
  "tac-lb" +:+ lb +:+ ".tac-hb" +:+ hb +:+ ".tac.epc." +:+ APPEND_MNC mnc +:+ APPEND_MCC mcc
  +:+ APPEND_3GPPNETWORK.
Definition mme_fqdn (mmec mmegi mnc mcc : string) : string :=
  "mmec" +:+ mmec +:+ ".mmegi" +:+ mmegi +:+ ".mme.epc." +:+ APPEND_MNC mnc +:+ APPEND_MCC mcc
  +:+ APPEND_3GPPNETWORK.
Definition mme_pool_fqdn (mmegi mnc mcc : string) : string :=
  "mmegi" +:+ mmegi +:+ ".mme.epc." +:+ APPEND_MNC mnc +:+ APPEND_MCC mcc +:+ APPEND_3GPPNETWORK.
Definition rai_fqdn (rac lac mnc mcc : string) : string :=
  "rac" +:+ rac +:+ ".lac" +:+ lac +:+ ".rac.epc." +:+ APPEND_MNC mnc +:+ APPEND_MCC mcc
  +:+ APPEND_3GPPNETWORK.
Definition rnc_fqdn (rnc mnc mcc : string) : string :=
  "rnc" +:+ rnc +:+ ".rnc.epc." +:+ APPEND_MNC mnc +:+ APPEND_MCC mcc +:+ APPEND_3GPPNETWORK.
Definition sgsn_fqdn (nri rac lac mnc mcc : string) : string :=
  "nri" +:+ nri +:+ ".rac" +:+ rac +:+ ".lac" +:+ lac +:+ ".rac.epc." +:+ APPEND_MNC mnc
  +:+ APPEND_MCC mcc +:+ APPEND_3GPPNETWORK.
Definition epc_nodes_domain_fqdn (mnc mcc : string) : string :=
  "node.epc." +:+ APPEND_MNC mnc +:+ APPEND_MCC mcc +:+ APPEND_3GPPNETWORK.
Definition epc_node_fqdn (node mnc mcc : string) : string :=
  node +:+ ".node.epc." +:+ APPEND_MNC mnc +:+ APPEND_MCC mcc +:+ APPEND_3GPPNETWORK.
Definition nonemergency_epdg_oi_fqdn (mnc mcc : string) : string :=
  "epdg.epc." +:+ APPEND_MNC mnc +:+ APPEND_MCC mcc +:+ "pub." +:+ APPEND_3GPPNETWORK.
Definition nonemergency_epdg_tai_fqdn (lb hb mnc mcc : string) : string :=
  "tac-lb" +:+ lb +:+ ".tac-hb" +:+ hb +:+ ".tac.epdg.epc." +:+ APPEND_MNC mnc +:+ APPEND_MCC mcc
  +:+ APPEND_3GPPNETWORK.
Definition nonemergency_epdg_lac_fqdn (lac mnc mcc : string) : string :=
  "lac" +:+ lac +:+ ".epdg.epc." +:+ APPEND_MNC mnc +:+ APPEND_MCC mcc +:+ "pub."
  +:+ APPEND_3GPPNETWORK.
Definition nonemergency_epdg_visitedcountry_fqdn (mcc : string) : string :=
  "epdg.epc." +:+ APPEND_MCC mcc +:+ "visited-country.pub." +:+ APPEND_3GPPNETWORK.
Definition emergency_epdg_oi_fqdn (mnc mcc : string) : string :=
  "sos.epdg.epc." +:+ APPEND_MNC mnc +:+ APPEND_MCC mcc +:+ "pub." +:+ APPEND_3GPPNETWORK.
Definition emergency_epdg_tai_fqdn (lb hb mnc mcc : string) : string :=
  "tac-lb" +:+ lb +:+ ".tac-hb" +:+ hb +:+ ".tac.sos.epdg.epc." +:+ APPEND_MNC mnc
  +:+ APPEND_MCC mcc +:+ "pub." +:+ APPEND_3GPPNETWORK.
Definition emergency_epdg_lac_fqdn (lac mnc mcc : string) : string :=
  "lac" +:+ lac +:+ ".sos.epdg.epc." +:+ APPEND_MNC mnc +:+ APPEND_MCC mcc +:+ "pub."
  +:+ APPEND_3GPPNETWORK.
Definition emergency_epdg_visitedcountry_fqdn (mcc : string) : string :=
  "sos.epdg.epc." +:+ APPEND_MCC mcc +:+ "visited-country.pub." +:+ APPEND_3GPPNETWORK.
Definition global_enodeb_id_fqdn (enb mcc : string) : string :=
  "enb" +:+ enb +:+ ".enb.epc." +:+ APPEND_MCC mcc +:+ "visited-country.pub." +:+ APPEND_3GPPNETWORK.
Definition local_homenetwork_fqdn (lhn mcc : string) : string :=
  "lhn" +:+ lhn +:+ ".lhn.epc." +:+ APPEND_MCC mcc +:+ "visited-country.pub." +:+ APPEND_3GPPNETWORK.
Definition epc (mnc mcc : string) : string :=
  "epc." +:+ APPEND_MNC mnc +:+ APPEND_MCC mcc +:+ APPEND_3GPPNETWORK.
Definition apn_fqdn (apnoi mnc mcc : string) : string :=
  apnoi +:+ ".apn.epc." +:+ APPEND_MNC mnc +:+ APPEND_MCC mcc +:+ APPEND_3GPPNETWORK.
Definition apn (apnoi mnc mcc : string) : string :=
  apnoi +:+ ".apn." +:+ APPEND_MNC mnc +:+ APPEND_MCC mcc +:+ "gprs".
Definition diameter_fqdn (mnc mcc : string) : string :=
  "diameter.epc." +:+ APPEND_MNC mnc +:+ APPEND_MCC mcc +:+ APPEND_3GPPNETWORK.

Definition home_network_plmn (p : bytes) := home_network (mnc_of p) (mcc_of p).
Definition home_network_gprs_plmn (p : bytes) := home_network_gprs (mnc_of p) (mcc_of p).
Definition tai_fqdn_plmn (lb hb : string) (p : bytes) := tai_fqdn lb hb (mnc_of p) (mcc_of p).
Definition mme_fqdn_plmn (mmec mmegi : string) (p : bytes) := mme_fqdn mmec mmegi (mnc_of p) (mcc_of p).
Definition mme_pool_fqdn_plmn (mmegi : string) (p : bytes) := mme_pool_fqdn mmegi (mnc_of p) (mcc_of p).
Definition rai_fqdn_plmn (rac lac : string) (p : bytes) := rai_fqdn rac lac (mnc_of p) (mcc_of p).
Definition rnc_fqdn_plmn (rnc : string) (p : bytes) := rnc_fqdn rnc (mnc_of p) (mcc_of p).
Definition sgsn_fqdn_plmn (nri rac lac : string) (p : bytes) :=
  sgsn_fqdn nri rac lac (mnc_of p) (mcc_of p).
Definition epc_nodes_domain_fqdn_plmn (p : bytes) := epc_nodes_domain_fqdn (mnc_of p) (mcc_of p).
Definition epc_node_fqdn_plmn (node : string) (p : bytes) := epc_node_fqdn node (mnc_of p) (mcc_of p).
Definition nonemergency_epdg_oi_fqdn_plmn (p : bytes) :=
  nonemergency_epdg_oi_fqdn (mnc_of p) (mcc_of p).
Definition nonemergency_epdg_tai_fqdn_plmn (lb hb : string) (p : bytes) :=
  nonemergency_epdg_tai_fqdn lb hb (mnc_of p) (mcc_of p).
Definition nonemergency_epdg_lac_fqdn_plmn (lac : string) (p : bytes) :=
  nonemergency_epdg_lac_fqdn lac (mnc_of p) (mcc_of p).
Definition nonemergency_epdg_visitedcountry_fqdn_plmn (p : bytes) :=
  nonemergency_epdg_visitedcountry_fqdn (mcc_of p).
Definition emergency_epdg_oi_fqdn_plmn (p : bytes) := emergency_epdg_oi_fqdn (mnc_of p) (mcc_of p).
Definition emergency_epdg_tai_fqdn_plmn (lb hb : string) (p : bytes) :=
  emergency_epdg_tai_fqdn lb hb (mnc_of p) (mcc_of p).
Definition emergency_epdg_lac_fqdn_plmn (lac : string) (p : bytes) :=
  emergency_epdg_lac_fqdn lac (mnc_of p) (mcc_of p).
Definition emergency_epdg_visitedcountry_fqdn_plmn (p : bytes) :=
  emergency_epdg_visitedcountry_fqdn (mcc_of p).
Definition global_enodeb_id_fqdn_plmn (enb : string) (p : bytes) :=
  global_enodeb_id_fqdn enb (mcc_of p).
Definition local_homenetwork_fqdn_plmn (lhn : string) (p : bytes) :=
  local_homenetwork_fqdn lhn (mcc_of p).
Definition epc_plmn (p : bytes) := epc (mnc_of p) (mcc_of p).
Definition apn_fqdn_plmn (apnoi : string) (p : bytes) := apn_fqdn apnoi (mnc_of p) (mcc_of p).
Definition apn_plmn (apnoi : string) (p : bytes) := apn apnoi (mnc_of p) (mcc_of p).
Definition diameter_fqdn_plmn (p : bytes) := diameter_fqdn (mnc_of p) (mcc_of p).

(** ** Services and protocols *)

Inductive AppServiceEnum :=
  | x_3gpp_unknown | x_3gpp_pgw | x_3gpp_sgw | x_3gpp_ggsn | x_3gpp_sgsn | x_3gpp_mme | x_3gpp_msc.
Inductive AppProtocolEnum :=
  | x_unknown | x_gn | x_gp | x_nq | x_nqprime | x_s10 | x_s11 | x_s12 | x_s1_mme | x_s1_u | x_s16
  | x_s2a_gtp | x_s2a_mipv4 | x_s2a_pmip | x_s2b_gtp | x_s2b_pmip | x_s2c_dsmip | x_s3 | x_s4
  | x_s5_gtp | x_s5_pmip | x_s6a | x_s8_gtp | x_s8_pmip | x_sv.
Inductive PGWAppProtocolEnum :=
  | pgw_x_gn | pgw_x_gp | pgw_x_s2a_gtp | pgw_x_s2a_mipv4 | pgw_x_s2a_pmip | pgw_x_s2b_gtp
  | pgw_x_s2b_pmip | pgw_x_s2c_dsmip | pgw_x_s5_gtp | pgw_x_s5_pmip | pgw_x_s8_gtp | pgw_x_s8_pmip.
Inductive SGWAppProtocolEnum :=
  | sgw_x_s11 | sgw_x_s12 | sgw_x_s1_u | sgw_x_s2a_pmip | sgw_x_s2b_pmip | sgw_x_s4 | sgw_x_s5_gtp
  | sgw_x_s5_pmip | sgw_x_s8_gtp | sgw_x_s8_pmip.
Inductive GGSNAppProtocolEnum := ggsn_x_gn | ggsn_x_gp.
Inductive SGSNAppProtocolEnum :=
  | sgsn_x_gn | sgsn_x_gp | sgsn_x_nqprime | sgsn_x_s16 | sgsn_x_s3 | sgsn_x_s4 | sgsn_x_sv.
Inductive MMEAppProtocolEnum :=
  | mme_x_gn | mme_x_gp | mme_x_nq | mme_x_s10 | mme_x_s11 | mme_x_s1_mme | mme_x_s3 | mme_x_s6a
  | mme_x_sv.
Inductive MSCAppProtocolEnum := msc_x_sv.

#[export] Instance AppServiceEnum_eq_dec : EqDecision AppServiceEnum.
Proof. solve_decision. Defined.
#[export] Instance AppProtocolEnum_eq_dec : EqDecision AppProtocolEnum.
Proof. solve_decision. Defined.

(** [getAppService] and [getAppProtocol], from text. *)
Definition getAppService (s : string) : AppServiceEnum :=
  if s =? "x-3gpp-pgw" then x_3gpp_pgw
  else if s =? "x-3gpp-sgw" then x_3gpp_sgw
  else if s =? "x-3gpp-ggsn" then x_3gpp_ggsn
  else if s =? "x-3gpp-sgsn" then x_3gpp_sgsn
  else if s =? "x-3gpp-mme" then x_3gpp_mme
  else if s =? "x-3gpp-msc" then x_3gpp_msc
  else x_3gpp_unknown.

Definition getAppProtocol (p : string) : AppProtocolEnum :=
  if p =? "x-gn" then x_gn
  else if p =? "x-gp" then x_gp
  else if p =? "x-nq" then x_nq
  else if p =? "x-nqprime" then x_nqprime
  else if p =? "x-s10" then x_s10
  else if p =? "x-s11" then x_s11
  else if p =? "x-s12" then x_s12
  else if p =? "x-s1-mme" then x_s1_mme
  else if p =? "x-s1-u" then x_s1_u
  else if p =? "x-s16" then x_s16
  else if p =? "x-s2a-gtp" then x_s2a_gtp
  else if p =? "x-s2a-mipv4" then x_s2a_mipv4
  else if p =? "x-s2a-pmip" then x_s2a_pmip
  else if p =? "x-s2b-gtp" then x_s2b_gtp
  else if p =? "x-s2b-pmip" then x_s2b_pmip
  else if p =? "x-s2c-dsmip" then x_s2c_dsmip
  else if p =? "x-s3" then x_s3
  else if p =? "x-s4" then x_s4
  else if p =? "x-s5-gtp" then x_s5_gtp
  else if p =? "x-s5-pmip" then x_s5_pmip
  else if p =? "x-s6a" then x_s6a
  else if p =? "x-s8-gtp" then x_s8_gtp
  else if p =? "x-s8-pmip" then x_s8_pmip
  else if p =? "x-sv" then x_sv
  else x_unknown.

(** And to text. *)
Definition service_name (s : AppServiceEnum) : string :=
  match s with
  | x_3gpp_pgw => "x-3gpp-pgw" | x_3gpp_sgw => "x-3gpp-sgw" | x_3gpp_ggsn => "x-3gpp-ggsn"
  | x_3gpp_sgsn => "x-3gpp-sgsn" | x_3gpp_mme => "x-3gpp-mme" | x_3gpp_msc => "x-3gpp-msc"
  | x_3gpp_unknown => "x-3gpp-unknown"
  end.
Definition protocol_name (p : AppProtocolEnum) : string :=
  match p with
  | x_gn => "x-gn" | x_gp => "x-gp" | x_nq => "x-nq" | x_nqprime => "x-nqprime" | x_s10 => "x-s10"
  | x_s11 => "x-s11" | x_s12 => "x-s12" | x_s1_mme => "x-s1-mme" | x_s1_u => "x-s1-u"
  | x_s16 => "x-s16" | x_s2a_gtp => "x-s2a-gtp" | x_s2a_mipv4 => "x-s2a-mipv4"
  | x_s2a_pmip => "x-s2a-pmip" | x_s2b_gtp => "x-s2b-gtp" | x_s2b_pmip => "x-s2b-pmip"
  | x_s2c_dsmip => "x-s2c-dsmip" | x_s3 => "x-s3" | x_s4 => "x-s4" | x_s5_gtp => "x-s5-gtp"
  | x_s5_pmip => "x-s5-pmip" | x_s6a => "x-s6a" | x_s8_gtp => "x-s8-gtp" | x_s8_pmip => "x-s8-pmip"
  | x_sv => "x-sv" | x_unknown => "x-unknown"
  end.

(** The protocols a kind of node may be asked for. *)
Definition pgw_protocol (p : PGWAppProtocolEnum) : AppProtocolEnum :=
  match p with
  | pgw_x_gn => x_gn | pgw_x_gp => x_gp | pgw_x_s2a_gtp => x_s2a_gtp
  | pgw_x_s2a_mipv4 => x_s2a_mipv4 | pgw_x_s2a_pmip => x_s2a_pmip | pgw_x_s2b_gtp => x_s2b_gtp
  | pgw_x_s2b_pmip => x_s2b_pmip | pgw_x_s2c_dsmip => x_s2c_dsmip | pgw_x_s5_gtp => x_s5_gtp
  | pgw_x_s5_pmip => x_s5_pmip | pgw_x_s8_gtp => x_s8_gtp | pgw_x_s8_pmip => x_s8_pmip
  end.
Definition sgw_protocol (p : SGWAppProtocolEnum) : AppProtocolEnum :=
  match p with
  | sgw_x_s11 => x_s11 | sgw_x_s12 => x_s12 | sgw_x_s1_u => x_s1_u | sgw_x_s2a_pmip => x_s2a_pmip
  | sgw_x_s2b_pmip => x_s2b_pmip | sgw_x_s4 => x_s4 | sgw_x_s5_gtp => x_s5_gtp
  | sgw_x_s5_pmip => x_s5_pmip | sgw_x_s8_gtp => x_s8_gtp | sgw_x_s8_pmip => x_s8_pmip
  end.
Definition ggsn_protocol (p : GGSNAppProtocolEnum) : AppProtocolEnum :=
  match p with ggsn_x_gn => x_gn | ggsn_x_gp => x_gp end.
Definition sgsn_protocol (p : SGSNAppProtocolEnum) : AppProtocolEnum :=
  match p with
  | sgsn_x_gn => x_gn | sgsn_x_gp => x_gp | sgsn_x_nqprime => x_nqprime | sgsn_x_s16 => x_s16
  | sgsn_x_s3 => x_s3 | sgsn_x_s4 => x_s4 | sgsn_x_sv => x_sv
  end.
Definition mme_protocol (p : MMEAppProtocolEnum) : AppProtocolEnum :=
  match p with
  | mme_x_gn => x_gn | mme_x_gp => x_gp | mme_x_nq => x_nq | mme_x_s10 => x_s10 | mme_x_s11 => x_s11
  | mme_x_s1_mme => x_s1_mme | mme_x_s3 => x_s3 | mme_x_s6a => x_s6a | mme_x_sv => x_sv
  end.
Definition msc_protocol (p : MSCAppProtocolEnum) : AppProtocolEnum := match p with msc_x_sv => x_sv end.

Lemma getAppService_name e : getAppService (service_name e) = e.
Proof. by destruct e. Qed.
Lemma getAppProtocol_name e : getAppProtocol (protocol_name e) = e.
Proof. by destruct e. Qed.

(** ** Diameter services *)

Inductive DiameterApplicationEnum :=
  | dia_app_unknown
  | dia_app_nasreq | dia_app_mobile_ipv4 | dia_app_base_accounting | dia_app_credit_control
  | dia_app_eap | dia_app_sip6 | dia_app_mobile_ipv6_ike | dia_app_mobile_ipv6_auth | dia_app_qos
  | dia_app_relay
  | dia_app_3gpp_sta | dia_app_3gpp_s6a | dia_app_3gpp_swm | dia_app_3gpp_s9
  | dia_app_wimax_wnaaada | dia_app_wimax_wnada | dia_app_wimax_wm4da | dia_app_wimax_wm6da
  | dia_app_wimax_wdda | dia_app_wimax_wlaada | dia_app_wimax_pcc_r3_p | dia_app_wimax_pcc_r3_ofc
  | dia_app_wimax_pcc_r3_ofc_prime | dia_app_wimax_pcc_r3_oc.
Inductive DiameterProtocolEnum :=
  | dia_protocol_unknown | dia_protocol_tcp | dia_protocol_sctp | dia_protocol_tls_tcp.
#[export] Instance DiameterApplicationEnum_eq_dec : EqDecision DiameterApplicationEnum.
Proof. solve_decision. Defined.
#[export] Instance DiameterProtocolEnum_eq_dec : EqDecision DiameterProtocolEnum.
Proof. solve_decision. Defined.

Definition getDiameterApplication (app : DiameterApplicationEnum) : Z :=
  match app with
  | dia_app_unknown => 0
  | dia_app_nasreq => 1
  | dia_app_mobile_ipv4 => 2
  | dia_app_base_accounting => 3
  | dia_app_credit_control => 4
  | dia_app_eap => 5
  | dia_app_sip6 => 6
  | dia_app_mobile_ipv6_ike => 7
  | dia_app_mobile_ipv6_auth => 8
  | dia_app_qos => 9
  | dia_app_relay => 4294967295
  | dia_app_3gpp_sta => 16777250
  | dia_app_3gpp_s6a => 16777251
  | dia_app_3gpp_swm => 16777264
  | dia_app_3gpp_s9 => 16777267
  | dia_app_wimax_wnaaada => 16777281
  | dia_app_wimax_wnada => 16777282
  | dia_app_wimax_wm4da => 16777283
  | dia_app_wimax_wm6da => 16777284
  | dia_app_wimax_wdda => 16777285
  | dia_app_wimax_wlaada => 16777286
  | dia_app_wimax_pcc_r3_p => 16777287
  | dia_app_wimax_pcc_r3_ofc => 16777288
  | dia_app_wimax_pcc_r3_ofc_prime => 16777289
  | dia_app_wimax_pcc_r3_oc => 16777290
  end.

Definition getDiameterProtocol (protocol : DiameterProtocolEnum) : string :=
  match protocol with
  | dia_protocol_tcp => "diameter.tcp"
  | dia_protocol_sctp => "diameter.sctp"
  | dia_protocol_tls_tcp => "diameter.tls.tcp"
  | dia_protocol_unknown => "unknown"
  end.

Definition getDiameterService (app : DiameterApplicationEnum) (protocol : DiameterProtocolEnum) : string :=
  "aaa+ap" +:+ dec (getDiameterApplication app) +:+ ":" +:+ getDiameterProtocol protocol.

(** Two pairs never share a service. *)
Lemma getDiameterService_inj app app' proto proto' :
  getDiameterService app proto = getDiameterService app' proto' → app = app' ∧ proto = proto'.
Proof.
  assert (∀ app proto, span ":" (getDiameterService app proto) =
    ("aaa+ap" +:+ dec (getDiameterApplication app), Some (getDiameterProtocol proto))) as H.
  { intros a p. change (getDiameterService a p) with (("aaa+ap" +:+ dec (getDiameterApplication a))
      +:+ String ":" (getDiameterProtocol p)). apply span_at.
    apply without_app. split; [by repeat split|]. apply dec_without; [change (ord ":") with 58; lia|by destruct a]. }
  intros E. pose proof (H app proto) as Hs. rewrite E, H in Hs. injection Hs as Ha Hp.
  split; [|by destruct proto, proto']. apply (inj (String.append _)) in Ha. unfold dec in Ha.
  apply (inj pretty) in Ha. by destruct app, app'.
Qed.
End Utility.

(** ** What a name stands for *)

Module NodeNames.
Import Utility.

Inductive node :=
  | HomeNetwork | HomeNetworkGprs
  | Tai (lb hb : string) | Mme (mmec mmegi : string) | MmePool (mmegi : string)
  | Rai (rac lac : string) | Rnc (rnc : string) | Sgsn (nri rac lac : string)
  | NodesDomain | Node (labels : list string)
  | EpdgOi | EpdgTai (lb hb : string) | EpdgLac (lac : string) | EpdgCountry
  | SosOi | SosTai (lb hb : string) | SosLac (lac : string) | SosCountry
  | Enb (enb : string) | Lhn (lhn : string)
  | Core | ApnFqdn (labels : list string) | Apn (labels : list string) | DiameterRealm.

Definition fqdn (n : node) (mnc mcc : string) : string :=
  match n with
  | HomeNetwork => home_network mnc mcc
  | HomeNetworkGprs => home_network_gprs mnc mcc
  | Tai lb hb => tai_fqdn lb hb mnc mcc
  | Mme mmec mmegi => mme_fqdn mmec mmegi mnc mcc
  | MmePool mmegi => mme_pool_fqdn mmegi mnc mcc
  | Rai rac lac => rai_fqdn rac lac mnc mcc
  | Rnc rnc => rnc_fqdn rnc mnc mcc
  | Sgsn nri rac lac => sgsn_fqdn nri rac lac mnc mcc
  | NodesDomain => epc_nodes_domain_fqdn mnc mcc
  | Node l => epc_node_fqdn (join "." l) mnc mcc
  | EpdgOi => nonemergency_epdg_oi_fqdn mnc mcc
  | EpdgTai lb hb => nonemergency_epdg_tai_fqdn lb hb mnc mcc
  | EpdgLac lac => nonemergency_epdg_lac_fqdn lac mnc mcc
  | EpdgCountry => nonemergency_epdg_visitedcountry_fqdn mcc
  | SosOi => emergency_epdg_oi_fqdn mnc mcc
  | SosTai lb hb => emergency_epdg_tai_fqdn lb hb mnc mcc
  | SosLac lac => emergency_epdg_lac_fqdn lac mnc mcc
  | SosCountry => emergency_epdg_visitedcountry_fqdn mcc
  | Enb enb => global_enodeb_id_fqdn enb mcc
  | Lhn lhn => local_homenetwork_fqdn lhn mcc
  | Core => epc mnc mcc
  | ApnFqdn l => apn_fqdn (join "." l) mnc mcc
  | Apn l => apn (join "." l) mnc mcc
  | DiameterRealm => diameter_fqdn mnc mcc
  end.

(** Whether the name says which network of the country. *)
Definition says_mnc (n : node) : bool :=
  match n with EpdgCountry | SosCountry | Enb _ | Lhn _ => false | _ => true end.

(** Arguments are single labels, or lists of labels. *)
Definition label (s : string) : Prop := without "." s.
Definition name_labels (l : list string) : Prop := l ≠ [] ∧ Forall label l.
Definition well_named (n : node) : Prop :=
  match n with
  | Tai a b | Mme a b | Rai a b | EpdgTai a b | SosTai a b => label a ∧ label b
  | MmePool a | Rnc a | EpdgLac a | SosLac a | Enb a | Lhn a => label a
  | Sgsn a b c => label a ∧ label b ∧ label c
  | Node l | ApnFqdn l | Apn l => name_labels l
  | _ => True
  end.

(** The labels, last one first. *)
Definition rlabels (n : node) (mnc mcc : string) : list string :=
  let net := ["org"; "3gppnetwork"; "mcc" +:+ mcc; "mnc" +:+ mnc] in
  let gprs := ["gprs"; "mcc" +:+ mcc; "mnc" +:+ mnc] in
  let pub := ["org"; "3gppnetwork"; "pub"; "mcc" +:+ mcc; "mnc" +:+ mnc] in
  let country := ["org"; "3gppnetwork"; "pub"; "visited-country"; "mcc" +:+ mcc] in
  let tac lb hb := ["tac-hb" +:+ hb; "tac-lb" +:+ lb] in
  match n with
  | HomeNetwork => net
  | HomeNetworkGprs => gprs
  | Tai lb hb => net ++ ["epc"; "tac"] ++ tac lb hb
  | Mme mmec mmegi => net ++ ["epc"; "mme"; "mmegi" +:+ mmegi; "mmec" +:+ mmec]
  | MmePool mmegi => net ++ ["epc"; "mme"; "mmegi" +:+ mmegi]
  | Rai rac lac => net ++ ["epc"; "rac"; "lac" +:+ lac; "rac" +:+ rac]
  | Rnc rnc => net ++ ["epc"; "rnc"; "rnc" +:+ rnc]
  | Sgsn nri rac lac => net ++ ["epc"; "rac"; "lac" +:+ lac; "rac" +:+ rac; "nri" +:+ nri]
  | NodesDomain => net ++ ["epc"; "node"]
  | Node l => (net ++ ["epc"; "node"]) ++ reverse l
  | EpdgOi => pub ++ ["epc"; "epdg"]
  | EpdgTai lb hb => net ++ ["epc"; "epdg"; "tac"] ++ tac lb hb
  | EpdgLac lac => pub ++ ["epc"; "epdg"; "lac" +:+ lac]
  | EpdgCountry => country ++ ["epc"; "epdg"]
  | SosOi => pub ++ ["epc"; "epdg"; "sos"]
  | SosTai lb hb => pub ++ ["epc"; "epdg"; "sos"; "tac"] ++ tac lb hb
  | SosLac lac => pub ++ ["epc"; "epdg"; "sos"; "lac" +:+ lac]
  | SosCountry => country ++ ["epc"; "epdg"; "sos"]
  | Enb enb => country ++ ["epc"; "enb"; "enb" +:+ enb]
  | Lhn lhn => country ++ ["epc"; "lhn"; "lhn" +:+ lhn]
  | Core => net ++ ["epc"]
  | ApnFqdn l => (net ++ ["epc"; "apn"]) ++ reverse l
  | Apn l => (gprs ++ ["apn"]) ++ reverse l
  | DiameterRealm => net ++ ["epc"; "diameter"]
  end.

Create HintDb names.
#[local] Hint Unfold home_network home_network_gprs tai_fqdn mme_fqdn mme_pool_fqdn rai_fqdn rnc_fqdn sgsn_fqdn
  epc_nodes_domain_fqdn epc_node_fqdn nonemergency_epdg_oi_fqdn nonemergency_epdg_tai_fqdn
  nonemergency_epdg_lac_fqdn nonemergency_epdg_visitedcountry_fqdn emergency_epdg_oi_fqdn
  emergency_epdg_tai_fqdn emergency_epdg_lac_fqdn emergency_epdg_visitedcountry_fqdn
  global_enodeb_id_fqdn local_homenetwork_fqdn apn_fqdn diameter_fqdn epc apn APPEND_MNC
  APPEND_MCC fqdn rlabels : names.
Lemma fqdn_labels n mnc mcc : well_named n → fqdn n mnc mcc = join "." (reverse (rlabels n mnc mcc)).
Proof.
  intros Hn. destruct n; autounfold with names; rewrite ?append_assoc; cbn zeta; try (vm_compute; reflexivity);
    (rewrite reverse_app, reverse_involutive, join_app; [reflexivity|apply Hn|done]).
Qed.

Lemma rlabels_ok n mnc mcc : well_named n → label mnc → label mcc → Forall label (rlabels n mnc mcc).
Proof.
  intros Hn Hmnc Hmcc.
  assert (∀ a b, label a → label b → label (a +:+ b)) as Happ by (intros; by apply without_app).
  destruct n; cbn in Hn |- *;
    repeat (apply Forall_cons; split); repeat apply Forall_nil_2;
    try (apply Forall_reverse, Hn); try (apply Happ; [by repeat split|]); try (by repeat split);
    repeat destruct Hn as [? Hn]; done.
Qed.

Lemma rlabels_inj n n' mnc mnc' mcc mcc' : well_named n → well_named n' →
  rlabels n mnc mcc = rlabels n' mnc' mcc' →
  n = n' ∧ mcc = mcc' ∧ (says_mnc n = true → mnc = mnc').
Proof.
  assert (∀ l : list string, name_labels l → reverse l ≠ []) as Hne.
  { intros l [Hl _] E. apply Hl. by apply (inj reverse). }
  intros Hn Hn' E. destruct n, n'; cbn in E; try discriminate E; try (injection E; clear E);
    intros; cbn in Hn, Hn'; try (by exfalso; eapply Hne; eauto);
    repeat match goal with
    | H : reverse _ = reverse _ |- _ => apply (inj reverse) in H
    | H : _ +:+ _ = _ +:+ _ |- _ => apply (inj (String.append _)) in H
    end; by subst.
Qed.

(** *** PLMN identities (TS 24.008): two or three digits of network code *)

Definition digits_text (l : list Z) : string := string_of_bytes ((λ d, 48 + d) <$> l).
Definition plmn_octets (m1 m2 m3 : Z) (mnc : list Z) : bytes :=
  match mnc with
  | [n1; n2] => [m2 * 16 + m1; 15 * 16 + m3; n2 * 16 + n1]
  | [n1; n2; n3] => [m2 * 16 + m1; n3 * 16 + m3; n2 * 16 + n1]
  | _ => []
  end.
Definition is_digit (d : Z) : Prop := 0 <= d <= 9.

Lemma plmn_nibbles h l : 0 <= h < 16 → 0 <= l < 16 →
  Plmn.LOW_NIBBLE (h * 16 + l) = l ∧ Plmn.HIGH_NIBBLE (h * 16 + l) = h.
Proof.
  intros Hh Hl.
  assert (Forall (λ h, Forall (λ l, Plmn.LOW_NIBBLE (h * 16 + l) = l ∧ Plmn.HIGH_NIBBLE (h * 16 + l) = h)
    (seqZ 0 16)) (seqZ 0 16)) as H by (apply (bool_decide_unpack _); vm_compute; exact I).
  rewrite Forall_forall in H. specialize (H h ltac:(apply elem_of_seqZ; lia)).
  rewrite Forall_forall in H. apply H, elem_of_seqZ. lia.
Qed.

(** A two-digit network code is written with a leading zero, as in the domain
    names of TS 23.003. *)
Lemma plmn_parse m1 m2 m3 mnc : is_digit m1 → is_digit m2 → is_digit m3 → Forall is_digit mnc →
  length mnc = 2%nat ∨ length mnc = 3%nat →
  mcc_of (plmn_octets m1 m2 m3 mnc) = digits_text [m1; m2; m3] ∧
  mnc_of (plmn_octets m1 m2 m3 mnc) = digits_text (replicate (3 - length mnc) 0 ++ mnc).
Proof.
  unfold is_digit. intros H1 H2 H3 Hd Hlen.
  destruct mnc as [|n1 [|n2 [|n3 [|]]]]; cbn in Hlen; try lia; clear Hlen;
    repeat (apply Forall_cons in Hd as [? Hd]); unfold mcc_of, mnc_of, Plmn.PARSE_MCC, Plmn.PARSE_MNC;
    cbn [plmn_octets lookup_total list_lookup_total];
    repeat match goal with
    | |- context [Plmn.LOW_NIBBLE (?h * 16 + ?l)] => rewrite (proj1 (plmn_nibbles h l ltac:(lia) ltac:(lia)))
    | |- context [Plmn.HIGH_NIBBLE (?h * 16 + ?l)] => rewrite (proj2 (plmn_nibbles h l ltac:(lia) ltac:(lia)))
    end;
    try (replace (n3 =? 15)%Z with false by lia);
    unfold digits_text; cbn; rewrite ?(Z.add_comm _ 48); split; reflexivity.
Qed.


End NodeNames.
