(* ===== verification/Epc.v ===== *)
(** * Node selection

    Models util/src/epc.cpp from 824 on and util/include/epc.h: canonical node
    names, the service field of NAPTR records, [NodeSelector::process], pairs of
    colocated nodes, and [DiameterSelector::process] with its SRV records. *)

From Stdlib Require Import Sorted.
From S2P Require Import Prelude Cxx Codec EpcNames Dns DnsCache.
#[local] Open Scope string_scope.
#[local] Open Scope Z_scope.
#[local] Open Scope list_scope.

(** ** Canonical node names *)

Module CanonicalNodeName.

Record t := mk { labels : list string; m_topon : bool; m_name : string }.

Definition setName (n : string) : t :=
  let '(_, arg, ss) := getline "." (istringstream n) "" in
  let topon := (arg =? "topon")%string in
  if negb topon && negb (arg =? "topoff")%string then mk [] topon n
  else
    let '(_, arg, ss) := getline "." ss arg in
    let '(ok, arg, _) := getline (chr 10) ss arg in
    if negb ok then mk [] topon ""
    else mk (if topon then reverse (getlines "." (istringstream arg)) else []) topon arg.

Fixpoint matching_labels (l r : list string) : Z :=
  match l, r with
  | a :: l', b :: r' => if (a =? b)%string then 1 + matching_labels l' r' else 0
  | _, _ => 0
  end.
Definition topologicalCompare (left right : t) : Z := matching_labels (labels left) (labels right).
End CanonicalNodeName.

(** ** The service field of a NAPTR record *)

Module AppService.
Import Utility.

Record AppProtocol := mk_protocol {
  m_rawProtocol : string; m_protocol : AppProtocolEnum; m_usageTypes : list Z }.
Definition new_AppProtocol : AppProtocol := mk_protocol "" x_unknown [].
Definition setProtocol (p : AppProtocolEnum) (ap : AppProtocol) : AppProtocol := ap <| m_protocol := p |>.
Definition addUsageType (ut : Z) (ap : AppProtocol) : AppProtocol :=
  ap <| m_usageTypes ::= (λ l, (l ++ [ut])%list) |>.
Definition findUsageType (ap : AppProtocol) (ut : Z) : bool := bool_decide (ut ∈ m_usageTypes ap).

Definition parse_protocol (rp : string) (ap : AppProtocol) : outcome AppProtocol :=
  let ap := ap <| m_rawProtocol := rp |> in
  let '(ok, arg, ss) := getline "+" (istringstream rp) "" in
  if negb ok then Ok ap
  else
    let ap := setProtocol (getAppProtocol arg) ap in
    let '(ok, arg, ss) := getline "-" ss arg in
    if ok && (arg =? "ue")%string then
      uts ← mapM (M := outcome) (λ a, atoi (bytes_of_string (upto_nul a))) (getlines "." ss);
      mret (foldl (λ ap ut, addUsageType ut ap) ap uts)
    else Ok ap.

Record AppService := mk_service {
  m_service : AppServiceEnum; m_protocols : list AppProtocol; m_rawService : string }.
Definition new_AppService : AppService := mk_service x_3gpp_unknown [] "".

Definition parse (rs : string) (s : AppService) : outcome AppService :=
  let s := s <| m_rawService := rs |> in
  let '(ok, arg, ss) := getline ":" (istringstream rs) "" in
  if negb ok then Ok s
  else
    let s := s <| m_service := getAppService arg |> in
    aps ← mapM (M := outcome) (λ a, parse_protocol a new_AppProtocol) (getlines ":" ss);
    mret (s <| m_protocols ::= (λ l, (l ++ aps)%list) |>).

Fixpoint find_protocol (l : list AppProtocol) (p : AppProtocolEnum) : option AppProtocol :=
  match l with
  | [] => None
  | ap :: l' => if decide (m_protocol ap = p) then Some ap else find_protocol l' p
  end.
Definition findProtocol (s : AppService) : AppProtocolEnum → option AppProtocol :=
  find_protocol (m_protocols s).

(** *** The text of a service (RFC 3958, TS 29.303): a tag and its protocols, each
    for some usage types or for all. *)
Definition protocol_text (p : AppProtocolEnum * list Z) : string :=
  protocol_name p.1 +:+ match p.2 with [] => "" | uts => "+ue-" +:+ join "." (dec <$> uts) end.
Definition service_text (e : AppServiceEnum) (ps : list (AppProtocolEnum * list Z)) : string :=
  join ":" (service_name e :: (protocol_text <$> ps)).
Definition usage_type (ut : Z) : Prop := 0 <= ut < 2 ^ 31.
Definition usage_types (ps : list (AppProtocolEnum * list Z)) : Prop :=
  Forall (λ p, Forall usage_type p.2) ps.

Definition protocol_of (p : AppProtocolEnum * list Z) : AppProtocol :=
  mk_protocol (protocol_text p) p.1 p.2.
Definition service_of (e : AppServiceEnum) (ps : list (AppProtocolEnum * list Z)) : AppService :=
  mk_service e (protocol_of <$> ps) (service_text e ps).
End AppService.

(** ** Node selection *)

(** What the program takes from the C library: the text of an address, and a
    random order for the [n]th list it shuffles. *)
Class Network := {
  inet_ntop : bytes → string;
  random_shuffle : nat → list string → list string }.

Module NodeSelector.
Import Utility AppService Dns.

Record NodeSelectorResult := mk_nsr {
  m_hostname : string; m_order : Z; m_preference : Z; m_port : Z;
  m_supported_protocols : list AppProtocol;
  m_ipv4_hosts : list string; m_ipv6_hosts : list string }.
Definition new_NodeSelectorResult : NodeSelectorResult := mk_nsr "" 0 0 0 [] [] [].

(** [NodeSelectorResultList::sort_compare] *)
Definition sort_compare (first second : NodeSelectorResult) : bool :=
  if m_order first <? m_order second then true
  else if m_order second <? m_order first then false
  else m_preference first <? m_preference second.

Record NodeSelector := mk_selector {
  m_domain : string; m_desiredService : AppServiceEnum;
  m_desiredProtocols : list AppProtocol; m_desiredUsageTypes : list Z;
  m_results : list NodeSelectorResult }.
Definition new_NodeSelector : NodeSelector := mk_selector "" x_3gpp_unknown [] [] [].

Definition setAppService (s : AppServiceEnum) (n : NodeSelector) : NodeSelector :=
  n <| m_desiredService := s |>.
Definition setDomainName (d : string) (n : NodeSelector) : NodeSelector := n <| m_domain := d |>.
Definition addDesiredUsageType (ut : Z) (n : NodeSelector) : NodeSelector :=
  n <| m_desiredUsageTypes ::= (λ l, (l ++ [ut])%list) |>.
Definition addDesiredProtocol (p : AppProtocolEnum) (n : NodeSelector) : NodeSelector :=
  n <| m_desiredProtocols ::= (λ l, (l ++ [setProtocol p new_AppProtocol])%list) |>.

(** *** The kinds of selectors *)

Definition selector (s : AppServiceEnum) (domain : string) : NodeSelector :=
  setDomainName domain (setAppService s new_NodeSelector).
Definition hex2 (b : Z) : string := string_of_bytes [Hex.hexc false (b / 16); Hex.hexc false (b mod 16)].

Definition MME_node (mmec mmegi mnc mcc : string) := selector x_3gpp_mme (mme_fqdn mmec mmegi mnc mcc).
Definition MME_node_plmn (mmec mmegi : string) (p : bytes) :=
  selector x_3gpp_mme (mme_fqdn_plmn mmec mmegi p).
Definition MME_pool (mmegi mnc mcc : string) := selector x_3gpp_mme (mme_pool_fqdn mmegi mnc mcc).
Definition MME_pool_plmn (mmegi : string) (p : bytes) := selector x_3gpp_mme (mme_pool_fqdn_plmn mmegi p).
Definition PGW (apnoi mnc mcc : string) := selector x_3gpp_pgw (apn_fqdn apnoi mnc mcc).
Definition PGW_plmn (apnoi : string) (p : bytes) := selector x_3gpp_pgw (apn_fqdn_plmn apnoi p).
Definition SGW_tac (lb hb : Z) (mnc mcc : string) :=
  selector x_3gpp_sgw (tai_fqdn (hex2 lb) (hex2 hb) mnc mcc).
Definition SGW_tac_plmn (lb hb : Z) (p : bytes) := selector x_3gpp_sgw (tai_fqdn_plmn (hex2 lb) (hex2 hb) p).
Definition SGW_tai (lb hb mnc mcc : string) := selector x_3gpp_sgw (tai_fqdn lb hb mnc mcc).
Definition SGW_tai_plmn (lb hb : string) (p : bytes) := selector x_3gpp_sgw (tai_fqdn_plmn lb hb p).
Definition SGW_node (node mnc mcc : string) := selector x_3gpp_sgw (epc_node_fqdn node mnc mcc).
Definition SGW_node_plmn (node : string) (p : bytes) := selector x_3gpp_sgw (epc_node_fqdn_plmn node p).
Definition MME_addDesiredProtocol (p : MMEAppProtocolEnum) := addDesiredProtocol (mme_protocol p).
Definition PGW_addDesiredProtocol (p : PGWAppProtocolEnum) := addDesiredProtocol (pgw_protocol p).
Definition SGW_addDesiredProtocol (p : SGWAppProtocolEnum) := addDesiredProtocol (sgw_protocol p).

(** *** [process] *)

Section Process.
Context `{Network}.

(** Casts to the class of a record: of another class, undefined. *)
Definition as_naptr (r : ResourceRecord) : outcome (Z * Z * string * string * string) :=
  match rr_data r with RRecordNAPTR o p f s _ repl => Ok (o, p, f, s, repl) | _ => UB end.
Definition as_a (r : ResourceRecord) : outcome bytes :=
  match rr_data r with RRecordA a => Ok a | _ => UB end.
Definition as_aaaa (r : ResourceRecord) : outcome bytes :=
  match rr_data r with RRecordAAAA a => Ok a | _ => UB end.

(** The addresses of a host among the additional records, by kind. *)
Definition add_address (name : string) (hosts : list string * list string) (r : ResourceRecord) :
    outcome (list string * list string) :=
  if (name =? rr_name r)%string then
    if rr_type r =? ns_t_a then a ← as_a r; mret ((hosts.1 ++ [inet_ntop a])%list, hosts.2)
    else if rr_type r =? ns_t_aaaa then
      a ← as_aaaa r; mret (hosts.1, (hosts.2 ++ [inet_ntop a])%list)
    else Ok hosts
  else Ok hosts.
Definition addresses (name : string) (additional : list ResourceRecord) :
    outcome (list string * list string) := foldM (add_address name) ([], []) additional.

(** One desired protocol: the protocol to add to the result, if any. *)
Definition supported (desired : list Z) (service : AppService) (dp : AppProtocol) : option AppProtocol :=
  match findProtocol service (m_protocol dp) with
  | Some sp =>
      let nsrap := setProtocol (m_protocol sp) new_AppProtocol in
      match m_usageTypes sp with
      | [] => Some nsrap
      | _ =>
          let nsrap := foldl (λ ap ut, if findUsageType sp ut then addUsageType ut ap else ap)
                         nsrap desired in
          match m_usageTypes nsrap with [] => None | _ => Some nsrap end
      end
  | None => None
  end.

(** One answer. *)
Definition evaluate (additional : list ResourceRecord) (n : NodeSelector) (r : ResourceRecord) :
    outcome NodeSelector :=
  naptr ← as_naptr r;
  let '(order, preference, _, service, replacement) := naptr in
  service ← AppService.parse service new_AppService;
  if decide (m_service service = m_desiredService n) then
    let nsr := new_NodeSelectorResult <| m_hostname := replacement |> <| m_order := order |>
                 <| m_preference := preference |>
                 <| m_supported_protocols :=
                      omap (supported (m_desiredUsageTypes n) service) (m_desiredProtocols n) |> in
    match m_supported_protocols nsr with
    | [] => Ok n
    | _ =>
        hosts ← addresses (m_hostname nsr) additional;
        let draws := (2 * length (m_results n))%nat in
        mret (n <| m_results ::= (λ l, (l ++
          [nsr <| m_ipv4_hosts := random_shuffle draws hosts.1 |>
               <| m_ipv6_hosts := random_shuffle (S draws) hosts.2 |>])%list) |>)
    end
  else Ok n.

Definition select (x : Query) (n : NodeSelector) : outcome NodeSelector :=
  n ← foldM (evaluate (m_additional x)) n (m_answer x);
  mret (n <| m_results ::= list_sort sort_compare |>).

(** The cache gives a pointer to the query, or none, which is not checked. *)
Definition process (now : Z) (r : DnsCache.reply) (n : NodeSelector) (c : DnsCache.cache) :
    result NodeSelector * DnsCache.cache :=
  let '(o, c) := DnsCache.query now r (ns_t_naptr, m_domain n) c in
  match o with
  | Return (Some q, _) =>
      match DnsCache.heap c !! q with
      | Some x => (match select x n with Ok n => Return n | _ => Fault end, c)
      | None => (Fault, c)
      end
  | Return (None, _) => (Fault, c)
  | Raise => (Raise, c)
  | Fault => (Fault, c)
  | Loops => (Loops, c)
  end.
End Process.
End NodeSelector.

(** ** Pairs of colocated nodes *)

Module Colocated.
Import NodeSelector CanonicalNodeName.

Inductive PairType := ptUnknown | ptColocated | ptTopologicalDistance | ptDNSPriority.
#[export] Instance PairType_eq_dec : EqDecision PairType.
Proof. solve_decision. Defined.
Definition pair_value (p : PairType) : Z :=
  match p with ptUnknown => 0 | ptColocated => 1 | ptTopologicalDistance => 2 | ptDNSPriority => 3 end.

Record ColocatedCandidate := mk_candidate {
  m_candidate1 : NodeSelectorResult; m_candidate2 : NodeSelectorResult;
  m_cnn1 : CanonicalNodeName.t; m_cnn2 : CanonicalNodeName.t;
  m_pairtype : PairType; m_topologicalMatches : Z }.

Definition new_candidate (c1 c2 : NodeSelectorResult) : ColocatedCandidate :=
  let cnn1 := setName (m_hostname c1) in
  let cnn2 := setName (m_hostname c2) in
  let pt := if (m_name cnn1 =? m_name cnn2)%string then ptColocated
            else if m_topon cnn1 && m_topon cnn2 then ptTopologicalDistance
            else ptDNSPriority in
  mk_candidate c1 c2 cnn1 cnn2 pt
    (match pt with ptTopologicalDistance => topologicalCompare cnn1 cnn2 | _ => 0 end).

Definition sort_compare (first second : ColocatedCandidate) : bool :=
  if pair_value (m_pairtype first) <? pair_value (m_pairtype second) then true
  else if pair_value (m_pairtype second) <? pair_value (m_pairtype first) then false
  else if m_order (m_candidate1 first) <? m_order (m_candidate1 second) then true
  else if m_order (m_candidate1 second) <? m_order (m_candidate1 first) then false
  else m_preference (m_candidate1 first) <? m_preference (m_candidate1 second).

(** [ColocatedCandidateList] *)
Definition pairs (l1 l2 : list NodeSelectorResult) : list ColocatedCandidate :=
  l1 ≫= λ c1, new_candidate c1 <$> l2.
Definition candidates (l1 l2 : list NodeSelectorResult) : list ColocatedCandidate :=
  list_sort sort_compare (pairs l1 l2).
End Colocated.

(** ** Diameter servers *)

Module DiameterSelector.
Import Utility Dns NodeSelector.

Record DiameterHost := mk_host { h_name : string; m_ipv4_addrs : list string; m_ipv6_addrs : list string }.
Record DiameterSrv := mk_srv { m_priority : Z; m_weight : Z; m_port : Z; m_host : DiameterHost }.

(** A vector of pointers, [None] when the object has been deleted. *)
Abbreviation DiameterSrvVector := (list (option DiameterSrv)).

Inductive naptr_info := DiameterNaptrA (host : DiameterHost) | DiameterNaptrS (srvs : DiameterSrvVector).
Record DiameterNaptr := mk_naptr {
  m_order : Z; m_preference : Z; m_service : string; m_replacement : string; m_info : naptr_info }.
Definition getOrder (n : DiameterNaptr) : Z := m_order n.
Definition getPreference (n : DiameterNaptr) : Z := m_order n.

(** [DiameterSrvVector::sort_compare] *)
Definition sort_compare (first second : DiameterSrv) : bool :=
  if m_priority first <? m_priority second then true
  else if m_priority second <? m_priority first then false
  else m_weight first <? m_weight second.

Section Sort.
(** [std::sort] leaves open in which order it puts equal elements; [rand first j]
    is the number drawn for place [j] of the range that starts at [first]. *)
Context (std_sort : list DiameterSrv → list DiameterSrv) (rand : Z → nat → Z).

(** [at(i)], and the object it points to. *)
Definition at_ (v : DiameterSrvVector) (i : Z) : outcome DiameterSrv :=
  if (0 <=? i) && (i <? Z.of_nat (length v)) then
    match v !! Z.to_nat i with Some (Some s) => Ok s | _ => UB end
  else Throw StdException.

(** The places left, each with the total of the weights up to it. *)
Fixpoint running_totals (v : DiameterSrvVector) (sorted ks : list Z) (total : Z) : outcome (list (Z * Z)) :=
  match ks with
  | [] => Ok []
  | k :: ks' =>
      if decide (k ∈ sorted) then running_totals v sorted ks' total
      else
        s ← at_ v k;
        l ← running_totals v sorted ks' (total + m_weight s);
        mret ((k, total + m_weight s) :: l)
  end.
Definition pick (v : DiameterSrvVector) (first last : Z) (sorted : list Z) (j : nat) : outcome (list Z) :=
  l ← running_totals v sorted (seqZ first (last - first + 1)) 0;
  let total := match list.last l with Some x => x.2 | None => 0 end in
  let val := Z.land (rand first j) total in
  mret (sorted ++ match filter (λ x, val <= x.2) l with x :: _ => [x.1] | [] => [] end)%list.

(** The objects of the range in a new order, into the range; the destructor of
    the vector that held them deletes them. *)
Definition reorder (v : DiameterSrvVector) (first last : Z) : outcome DiameterSrvVector :=
  sorted ← foldM (pick v first last) [] (seq 0 (Z.to_nat (last - first + 1)));
  newsorted ← mapM (M := outcome) (at_ v) sorted;
  if Z.of_nat (length newsorted) <? last - first + 1 then UB
  else mret (take (Z.to_nat first) v ++ replicate (Z.to_nat (last - first + 1)) None
             ++ drop (Z.to_nat (last + 1)) v)%list.

Record sort_state := mk_sort { vec : DiameterSrvVector; priority : Z; first : Z; last : Z }.

Definition sort_turn (s : sort_state) (i : Z) : outcome sort_state :=
  let size := Z.of_nat (length (vec s)) in
  boundary ← (if i =? size then Ok true
              else x ← at_ (vec s) i; mret (negb (m_priority x =? priority s)));
  if (boundary : bool) && negb (priority s =? -1) then
    v ← reorder (vec s) (first s) (last s);
    if i <? size then
      x ← at_ v i;
      mret (mk_sort v (m_priority x) i i)
    else mret (s <| vec := v |>)
  else mret (s <| last := i |>).

Definition sort_vector (l : list DiameterSrv) : outcome DiameterSrvVector :=
  let v := Some <$> std_sort l in
  s ← foldM sort_turn (mk_sort v (-1) (-1) (-1)) (Z.of_nat <$> seq 0 (S (length v)));
  mret (vec s).
End Sort.

Record DiameterSelector := mk_diameter {
  m_realm : string; m_application : DiameterApplicationEnum; m_protocol : DiameterProtocolEnum;
  m_results : list DiameterNaptr; draws : nat }.
Definition new_DiameterSelector : DiameterSelector :=
  mk_diameter "" dia_app_unknown dia_protocol_unknown [] 0.
Definition setRealm (realm : string) (d : DiameterSelector) := d <| m_realm := realm |>.
Definition setRealm_network (mnc mcc : string) := setRealm (diameter_fqdn mnc mcc).
Definition setRealm_plmn (p : bytes) := setRealm (diameter_fqdn_plmn p).
Definition setApplication (app : DiameterApplicationEnum) (d : DiameterSelector) :=
  d <| m_application := app |>.
Definition setProtocol (proto : DiameterProtocolEnum) (d : DiameterSelector) := d <| m_protocol := proto |>.

Section Process.
Context `{Network} (std_sort : list DiameterSrv → list DiameterSrv) (rand : nat → Z → nat → Z).

Definition as_srv (r : ResourceRecord) : outcome (Z * Z * Z * string) :=
  match rr_data r with RRecordSRV p w port t => Ok (p, w, port, t) | _ => UB end.

(** The addresses of a name, in random orders; [n] shuffles have been made. *)
Definition host_addresses (n : nat) (name : string) (additional : list ResourceRecord) :
    outcome (list string * list string) :=
  hosts ← addresses name additional;
  mret (random_shuffle n hosts.1, random_shuffle (S n) hosts.2).

(** One additional record, as a server of [replacement]. *)
Definition add_srv (replacement : string) (additional : list ResourceRecord)
    (acc : list DiameterSrv * nat) (r : ResourceRecord) : outcome (list DiameterSrv * nat) :=
  if (rr_type r =? ns_t_srv) && (rr_name r =? replacement)%string then
    srv ← as_srv r;
    let '(priority, weight, port, target) := srv in
    hosts ← host_addresses acc.2 target additional;
    (* the name is set when an additional record has it *)
    let name := if existsb (λ rr2, (rr_name rr2 =? target)%string) additional then target else "" in
    mret ((acc.1 ++ [mk_srv priority weight port (mk_host name hosts.1 hosts.2)])%list, S (S acc.2))
  else Ok acc.

Definition evaluate (service : string) (additional : list ResourceRecord) (d : DiameterSelector)
    (r : ResourceRecord) : outcome DiameterSelector :=
  naptr ← as_naptr r;
  let '(order, preference, flags, nservice, replacement) := naptr in
  if (nservice =? service)%string then
    if (flags =? "a")%string then
      hosts ← host_addresses (draws d) replacement additional;
      mret (d <| m_results ::= (λ l, (l ++ [mk_naptr order preference nservice replacement
               (DiameterNaptrA (mk_host replacement hosts.1 hosts.2))])%list) |>
              <| draws ::= λ n, S (S n) |>)
    else if (flags =? "s")%string then
      srvs ← foldM (add_srv replacement additional) ([], draws d) additional;
      v ← sort_vector std_sort (rand (length (m_results d))) srvs.1;
      mret (d <| m_results ::= (λ l, (l ++ [mk_naptr order preference nservice replacement
               (DiameterNaptrS v)])%list) |>
              <| draws := srvs.2 |>)
    else Ok d
  else Ok d.

Definition process (now : Z) (r : DnsCache.reply) (d : DiameterSelector) (c : DnsCache.cache) :
    result DiameterSelector * DnsCache.cache :=
  if decide (m_application d = dia_app_unknown) then (Return d, c)
  else if decide (m_protocol d = dia_protocol_unknown) then (Return d, c)
  else if (m_realm d =? "")%string then (Return d, c)
  else
    let service := getDiameterService (m_application d) (m_protocol d) in
    let '(o, c) := DnsCache.query now r (ns_t_naptr, m_realm d) c in
    match o with
    | Return (Some q, _) =>
        match DnsCache.heap c !! q with
        | Some x => (match foldM (evaluate service (m_additional x)) d (m_answer x) with
                     | Ok d => Return d
                     | _ => Fault
                     end, c)
        | None => (Fault, c)
        end
    | Return (None, _) => (Fault, c)
    | Raise => (Raise, c)
    | Fault => (Fault, c)
    | Loops => (Loops, c)
    end.
End Process.
End DiameterSelector.

(** ** What selection gives *)

Module EpcFacts.
Import Utility AppService CanonicalNodeName Dns.

(** *** Canonical names *)

Definition node_label (s : string) : Prop := without "." s ∧ without (chr 10) s ∧ s ≠ "".

Lemma setName_topon i l : without "." i → Forall node_label l → l ≠ [] →
  setName (join "." ("topon" :: i :: l)) = CanonicalNodeName.mk (reverse l) true (join "." l).
Proof.
  intros Hi Hl Hne. rewrite !join_cons by done. unfold setName.
  rewrite (getline_at "." "topon") by (by repeat split).
  change (("topon" =? "topon")%string) with true. cbn [negb andb].
  rewrite getline_at by done. destruct l as [|a l]; [done|].
  assert (join "." (a :: l) ≠ "") by (apply join_nonempty, (Forall_inv Hl)).
  rewrite getline_end; [|apply without_join; [done|]|done].
  2:{ eapply Forall_impl; [exact Hl|]. intros x Hx. apply Hx. }
  cbn [negb]. f_equal. f_equal. apply getlines_join.
  - eapply Forall_impl; [exact Hl|]. intros x Hx. apply Hx.
  - intros E. apply last_Some_elem_of in E. rewrite Forall_forall in Hl. by destruct (Hl _ E) as (_ & _ & ?).
Qed.

Lemma matching_labels_prefix l r : ∃ p a b, l = p ++ a ∧ r = p ++ b ∧
  matching_labels l r = Z.of_nat (length p) ∧ (∀ x, head a = Some x → head b ≠ Some x).
Proof.
  revert r. induction l as [|x l IH]; intros r; [by exists [], [], r|].
  destruct r as [|y r]; [by exists [], (x :: l), []|]. cbn [matching_labels].
  destruct (String.eqb_spec x y) as [->|Hne].
  - destruct (IH r) as (p & a & b & -> & -> & -> & H). exists (y :: p), a, b. split_and!; try done.
    cbn [length]. lia.
  - exists [], (x :: l), (y :: r). split_and!; try done. cbn. congruence.
Qed.

(** Two nodes are compared by how many labels their canonical names share,
    counted from the end. *)
Lemma topological_compare_suffix i i' l l' : without "." i → without "." i' →
  Forall node_label l → Forall node_label l' → l ≠ [] → l' ≠ [] →
  ∃ a a' common, l = a ++ common ∧ l' = a' ++ common ∧
    (∀ x, last a = Some x → last a' ≠ Some x) ∧
    topologicalCompare (setName (join "." ("topon" :: i :: l)))
      (setName (join "." ("topon" :: i' :: l'))) = Z.of_nat (length common).
Proof.
  intros Hi Hi' Hl Hl' Hn Hn'. rewrite !setName_topon by done. unfold topologicalCompare. cbn [labels].
  destruct (matching_labels_prefix (reverse l) (reverse l')) as (p & a & b & Ha & Hb & -> & H).
  exists (reverse a), (reverse b), (reverse p). rewrite <- !reverse_app, <- Ha, <- Hb, !reverse_involutive.
  split_and!; [done|done| |by rewrite length_reverse]. intros x. rewrite !last_reverse. apply H.
Qed.

(** *** Services *)

Lemma mapM_atoi uts : Forall usage_type uts →
  mapM (M := outcome) (λ a, atoi (bytes_of_string (upto_nul a))) (dec <$> uts) = Ok uts.
Proof.
  induction 1 as [|ut uts Hut _ IH]; [done|]. cbn. rewrite upto_nul_without.
  - rewrite atoi_dec by done. cbn. by rewrite IH.
  - apply dec_without; [by vm_compute; intros [??]; congruence|apply Hut].
Qed.

Lemma add_all uts ap : foldl (λ ap ut, addUsageType ut ap) ap uts =
  ap <| m_usageTypes ::= (λ l, l ++ uts) |>.
Proof.
  revert ap. induction uts as [|ut uts IH]; intros [r p l]; [by unfold set; cbn; rewrite app_nil_r|].
  cbn [foldl]. rewrite IH. unfold set; cbn. by rewrite <- (assoc_L (++)).
Qed.

Lemma parse_protocol_text p : Forall usage_type p.2 →
  parse_protocol (protocol_text p) new_AppProtocol = Ok (protocol_of p).
Proof.
  destruct p as [p uts]. intros Huts. cbn [snd] in Huts. unfold parse_protocol, protocol_of.
  assert (without "+" (protocol_name p) ∧ protocol_name p ≠ "") as [Hp Hne].
  { split; [|by destruct p]. destruct p; apply (bool_decide_unpack _); vm_compute; exact I. }
  destruct uts as [|ut uts].
  - assert (protocol_text (p, []) = protocol_name p) as -> by (by destruct p).
    rewrite getline_end by done. unfold getline at 1. cbn [good negb andb].
    by rewrite getAppProtocol_name.
  - change (protocol_text (p, ut :: uts)) with
      (protocol_name p +:+ String "+" ("ue" +:+ String "-" (join "." (dec <$> ut :: uts)))).
    rewrite getline_at by done. cbn [negb]. rewrite getline_at by (by repeat split).
    change (("ue" =? "ue")%string) with true. cbn [andb]. rewrite getlines_join.
    + rewrite mapM_atoi by done. cbn [mbind outcome_bind mret outcome_ret]. rewrite add_all.
      by rewrite getAppProtocol_name.
    + apply Forall_fmap. eapply Forall_impl; [exact Huts|]. intros x Hx.
      apply dec_without; [by vm_compute; intros [??]; congruence|apply Hx].
    + intros E. apply last_Some_elem_of, list_elem_of_fmap in E as (x & E & Hx).
      rewrite Forall_forall in Huts. destruct (dec_head x) as (c & l & Hc & _); [apply Huts, Hx|].
      by rewrite <- E in Hc.
Qed.

(** A service field that names a service and its protocols is read as that. *)
Lemma parse_service_text e ps : usage_types ps →
  AppService.parse (service_text e ps) new_AppService = Ok (service_of e ps).
Proof.
  intros Hps. unfold AppService.parse, service_text, service_of.
  assert (without ":" (service_name e) ∧ service_name e ≠ "") as [He Hne].
  { split; [|by destruct e]. destruct e; apply (bool_decide_unpack _); vm_compute; exact I. }
  destruct ps as [|p ps].
  - cbn [fmap list_fmap join]. rewrite getline_end by done. cbn [negb]. rewrite getlines_end. cbn.
    by rewrite getAppService_name.
  - rewrite join_cons by done. rewrite getline_at by done. cbn [negb]. rewrite getlines_join.
    + enough (mapM (M := outcome) (λ a, parse_protocol a new_AppProtocol) (protocol_text <$> p :: ps)
        = Ok (protocol_of <$> p :: ps)) as -> by (cbn; by rewrite getAppService_name).
      clear -Hps. induction Hps as [|q qs Hq _ IH]; [done|]. cbn -[parse_protocol protocol_text].
      rewrite parse_protocol_text by done. cbn -[parse_protocol protocol_text]. by rewrite IH.
    + apply Forall_fmap. eapply Forall_impl; [exact Hps|]. intros [q uts] Hq. apply without_app. split.
      * destruct q; apply (bool_decide_unpack _); vm_compute; exact I.
      * destruct uts; [done|]. apply without_app. split; [by repeat split|]. apply without_join; [done|].
        apply Forall_fmap. eapply Forall_impl; [exact Hq|]. intros x Hx.
        apply dec_without; [by vm_compute; intros [??]; congruence|apply Hx].
    + intros E. apply last_Some_elem_of, list_elem_of_fmap in E as ([q uts] & E & _). by destruct q.
Qed.

(** A service field that names a service and its protocols is read as that,
    whatever the usage types. *)
Theorem service_text_roundtrip e ps : usage_types ps →
  ∃ s, AppService.parse (service_text e ps) new_AppService = Ok s ∧ m_service s = e ∧
    (λ ap, (m_protocol ap, m_usageTypes ap)) <$> m_protocols s = ps.
Proof.
  intros Hps. exists (service_of e ps). split; [by apply parse_service_text|]. split; [done|].
  cbn [service_of m_protocols]. rewrite <- list_fmap_compose. etrans; [|apply list_fmap_id].
  apply list_fmap_ext. by intros i [p uts] _.
Qed.

(** *** Hosts *)

Section Hosts.
Context `{Network}.

(** A record of type A or AAAA has the address of its class. *)
Definition typed (r : ResourceRecord) : Prop :=
  (rr_type r = ns_t_a → ∃ a, rr_data r = RRecordA a) ∧
  (rr_type r = ns_t_aaaa → ∃ a, rr_data r = RRecordAAAA a).

(** The addresses of [name], IPv4 or IPv6. *)
Definition ipv4_of (name : string) (additional : list ResourceRecord) : list string :=
  omap (λ r, match rr_data r with RRecordA a => Some (inet_ntop a) | _ => None end)
    (List.filter (λ r, (name =? rr_name r)%string && (rr_type r =? ns_t_a)) additional).
Definition ipv6_of (name : string) (additional : list ResourceRecord) : list string :=
  omap (λ r, match rr_data r with RRecordAAAA a => Some (inet_ntop a) | _ => None end)
    (List.filter (λ r, (name =? rr_name r)%string && (rr_type r =? ns_t_aaaa)) additional).

Lemma ipv4_of_cons name r l : ipv4_of name (r :: l) = ipv4_of name [r] ++ ipv4_of name l.
Proof. unfold ipv4_of. change (r :: l) with ([r] ++ l). by rewrite List.filter_app, omap_app. Qed.
Lemma ipv6_of_cons name r l : ipv6_of name (r :: l) = ipv6_of name [r] ++ ipv6_of name l.
Proof. unfold ipv6_of. change (r :: l) with ([r] ++ l). by rewrite List.filter_app, omap_app. Qed.

Lemma add_address_typed name r h : typed r →
  NodeSelector.add_address name h r = Ok (h.1 ++ ipv4_of name [r], h.2 ++ ipv6_of name [r]).
Proof.
  destruct h as [h4 h6]. intros [H4 H6]. unfold NodeSelector.add_address, ipv4_of, ipv6_of.
  cbn [List.filter fst snd].
  destruct (name =? rr_name r)%string; cbn [andb omap list_omap]; [|by rewrite !app_nil_r].
  destruct (Z.eqb_spec (rr_type r) ns_t_a) as [E4|E4].
  - destruct (H4 E4) as [a Ha]. unfold NodeSelector.as_a. rewrite E4. cbn. by rewrite Ha, app_nil_r.
  - destruct (Z.eqb_spec (rr_type r) ns_t_aaaa) as [E6|E6]; [|cbn; by rewrite !app_nil_r].
    destruct (H6 E6) as [a Ha]. unfold NodeSelector.as_aaaa. cbn. by rewrite Ha, app_nil_r.
Qed.

Lemma addresses_typed name additional : Forall typed additional →
  NodeSelector.addresses name additional = Ok (ipv4_of name additional, ipv6_of name additional).
Proof.
  unfold NodeSelector.addresses. intros Ht.
  enough (∀ h, foldM (NodeSelector.add_address name) h additional =
    Ok (h.1 ++ ipv4_of name additional, h.2 ++ ipv6_of name additional)) as E by apply E.
  induction Ht as [|r l Hr _ IH]; intros h.
  { destruct h. unfold ipv4_of, ipv6_of. cbn. by rewrite !app_nil_r. }
  cbn [foldM]. rewrite add_address_typed by done. cbn [mbind outcome_bind]. rewrite IH.
  cbn [fst snd]. by rewrite (ipv4_of_cons _ r l), (ipv6_of_cons _ r l), !(assoc_L (++)).
Qed.
End Hosts.
End EpcFacts.

(** ** Selecting nodes *)

Module NodeSelection.
Import Utility AppService Dns NodeSelector EpcFacts.

(** A NAPTR record: the rest of it, and what its data say. *)
Record offer := mk_offer {
  header : ResourceRecord; o_order : Z; o_preference : Z; o_flags : string;
  o_service : AppServiceEnum; o_protocols : list (AppProtocolEnum * list Z);
  o_regexp : string; o_host : string }.
Definition record_of (o : offer) : ResourceRecord :=
  (header o) <| rr_data := RRecordNAPTR (o_order o) (o_preference o) (o_flags o)
                             (service_text (o_service o) (o_protocols o)) (o_regexp o) (o_host o) |>.

(** What an offer says of a protocol: nothing, or the usage types it is for (none: all). *)
Fixpoint offered (ps : list (AppProtocolEnum * list Z)) (p : AppProtocolEnum) : option (list Z) :=
  match ps with
  | [] => None
  | (q, uts) :: ps' => if decide (q = p) then Some uts else offered ps' p
  end.
(** A protocol asked for is served for all usage types, or for those asked for. *)
Definition served (desired : list Z) (ps : list (AppProtocolEnum * list Z)) (p : AppProtocolEnum) :
    option (list Z) :=
  match offered ps p with
  | None => None
  | Some [] => Some []
  | Some uts => match filter (λ ut, ut ∈ uts) desired with [] => None | us => Some us end
  end.
Definition serves (n : NodeSelector) (ps : list (AppProtocolEnum * list Z)) : list AppProtocol :=
  omap (λ dp, (λ us, mk_protocol "" (m_protocol dp) us) <$>
              served (m_desiredUsageTypes n) ps (m_protocol dp)) (m_desiredProtocols n).
(** The service is the one asked for, and so is at least one protocol. *)
Definition eligible (n : NodeSelector) (o : offer) : bool :=
  bool_decide (o_service o = m_desiredService n) && bool_decide (serves n (o_protocols o) ≠ []).

Lemma find_protocol_of ps p : find_protocol (protocol_of <$> ps) p =
  (λ uts, protocol_of (p, uts)) <$> offered ps p.
Proof.
  induction ps as [|[q uts] ps IH]; [done|]. cbn [fmap list_fmap find_protocol offered].
  cbn [protocol_of m_protocol fst]. case_decide; [by subst|apply IH].
Qed.

Lemma collect_usage sp desired ap :
  foldl (λ ap ut, if findUsageType sp ut then addUsageType ut ap else ap) ap desired =
  ap <| m_usageTypes ::= (λ l, l ++ filter (λ ut, ut ∈ m_usageTypes sp) desired) |>.
Proof.
  revert ap. induction desired as [|ut desired IH]; intros [r p l];
    [by unfold set; cbn; rewrite app_nil_r|].
  cbn [foldl]. rewrite IH. unfold findUsageType. rewrite filter_cons. unfold set.
  case_bool_decide; cbn; [rewrite decide_True by done|by rewrite decide_False by done].
  by rewrite <- (assoc_L (++)).
Qed.

Lemma supported_served desired e ps dp : supported desired (service_of e ps) dp =
  (λ us, mk_protocol "" (m_protocol dp) us) <$> served desired ps (m_protocol dp).
Proof.
  unfold supported, findProtocol, served, service_of. cbn [m_protocols]. rewrite find_protocol_of.
  destruct (offered ps (m_protocol dp)) as [uts|]; [|done]. cbn [fmap option_fmap option_map].
  cbn [protocol_of m_usageTypes m_protocol fst snd]. destruct uts as [|ut uts]; [done|].
  rewrite collect_usage. unfold set. cbn [m_usageTypes new_AppProtocol setProtocol app protocol_of snd].
  cbn. by destruct (filter _ desired).
Qed.

Section Selection.
Context `{Network}.
Hypothesis shuffle_perm : ∀ n l, random_shuffle n l ≡ₚ l.

(** The result an offer becomes. *)
Definition result_of (n : NodeSelector) (additional : list ResourceRecord) (o : offer)
    (r : NodeSelectorResult) : Prop :=
  m_hostname r = o_host o ∧ m_order r = o_order o ∧ m_preference r = o_preference o ∧
  m_supported_protocols r = serves n (o_protocols o) ∧
  m_ipv4_hosts r ≡ₚ ipv4_of (o_host o) additional ∧ m_ipv6_hosts r ≡ₚ ipv6_of (o_host o) additional.

Definition same_request (n n' : NodeSelector) : Prop :=
  m_domain n' = m_domain n ∧ m_desiredService n' = m_desiredService n ∧
  m_desiredProtocols n' = m_desiredProtocols n ∧ m_desiredUsageTypes n' = m_desiredUsageTypes n.

Lemma as_naptr_record o : as_naptr (record_of o) =
  Ok (o_order o, o_preference o, o_flags o, service_text (o_service o) (o_protocols o), o_host o).
Proof. done. Qed.

Lemma evaluate_offer n0 n additional o : same_request n0 n → Forall typed additional →
  usage_types (o_protocols o) →
  ∃ n', evaluate additional n (record_of o) = Ok n' ∧ same_request n0 n' ∧
    if eligible n0 o then ∃ r, result_of n0 additional o r ∧ m_results n' = m_results n ++ [r]
    else m_results n' = m_results n.
Proof using shuffle_perm.
  intros Hn Ht Hu. unfold evaluate. rewrite as_naptr_record. cbn [mbind outcome_bind].
  rewrite parse_service_text by done. cbn [mbind outcome_bind].
  change (m_service (service_of (o_service o) (o_protocols o))) with (o_service o).
  destruct Hn as (H1 & H2 & H3 & H4). unfold eligible. rewrite <- H2.
  destruct (decide (o_service o = m_desiredService n)) as [He|He];
    [rewrite bool_decide_true by done|rewrite bool_decide_false by done; eexists; split_and!; done].
  cbn [andb]. unfold serves. rewrite <- H3, <- H4.
  set (l := omap (supported _ _) _).
  assert (l = omap (λ dp, (λ us, mk_protocol "" (m_protocol dp) us) <$>
    served (m_desiredUsageTypes n) (o_protocols o) (m_protocol dp)) (m_desiredProtocols n)) as Hl.
  { apply list_omap_ext, Forall2_same_length_lookup_2; [done|]. intros i x y -> [= ->].
    apply supported_served. }
  rewrite <- Hl. clearbody l. unfold set, const. cbn [m_supported_protocols]. destruct l as [|p l].
  { rewrite bool_decide_false by (by intros []). by exists n. }
  rewrite bool_decide_true by done. cbn [m_hostname]. rewrite addresses_typed by done.
  cbn [mbind outcome_bind mret outcome_ret]. eexists. split; [done|]. split; [done|].
  eexists. split; [|done]. unfold result_of, serves. cbn. rewrite <- H3, <- H4, <- Hl, !shuffle_perm. done.
Qed.

Definition rank (r : NodeSelectorResult) : list Z := [m_order r; m_preference r].

Lemma results_ranked l : ranked rank (list_sort sort_compare l).
Proof.
  apply (list_sort_ranked _ _ 2); [|done]. intros x y. unfold sort_compare, rank, lex_less.
  repeat case_match; lia || done.
Qed.

(** C19: A node selector whose request the cache can answer returns the results it
    had and one for each eligible NAPTR record, with the addresses of its host,
    by order and then preference. *)
Theorem node_selection now r n c q hit c' x offers :
  DnsCache.query now r (ns_t_naptr, m_domain n) c = (Return (Some q, hit), c') →
  DnsCache.heap c' !! q = Some x →
  m_answer x = record_of <$> offers → Forall (λ o, usage_types (o_protocols o)) offers →
  Forall typed (m_additional x) →
  ∃ n' new, process now r n c = (Return n', c') ∧ same_request n n' ∧
    m_results n' ≡ₚ m_results n ++ new ∧ ranked rank (m_results n') ∧
    Forall2 (result_of n (m_additional x)) (List.filter (eligible n) offers) new.
Proof using shuffle_perm.
  intros Hq Hx Ha Hu Ht. unfold process. rewrite Hq, Hx. unfold select. rewrite Ha.
  destruct (foldM_results (λ n o, evaluate (m_additional x) n (record_of o)) m_results (eligible n)
    (result_of n (m_additional x)) (same_request n) offers n) as (n' & new & Hf & Hn' & Hres & Hrel).
  - intros b o Ho Hb. apply evaluate_offer; [done|done|]. rewrite Forall_forall in Hu. by apply Hu.
  - done.
  - rewrite foldM_fmap, Hf.
    cbn. eexists _, new. split; [done|]. split; [done|]. unfold set. cbn.
    split_and!; [by rewrite list_sort_perm, Hres|apply results_ranked|done].
Qed.
End Selection.
End NodeSelection.

(** ** Pairs *)

Module ColocatedFacts.
Import NodeSelector Colocated.

Definition rank (c : ColocatedCandidate) : list Z :=
  [pair_value (m_pairtype c); m_order (m_candidate1 c); m_preference (m_candidate1 c)].

(** What makes two nodes a pair of each type. *)
Definition pair_type_of (h1 h2 : string) : PairType :=
  let n1 := CanonicalNodeName.setName h1 in
  let n2 := CanonicalNodeName.setName h2 in
  if decide (CanonicalNodeName.m_name n1 = CanonicalNodeName.m_name n2) then ptColocated
  else if decide (CanonicalNodeName.m_topon n1 = true ∧ CanonicalNodeName.m_topon n2 = true)
  then ptTopologicalDistance else ptDNSPriority.

Lemma new_candidate_pairtype c1 c2 :
  m_pairtype (new_candidate c1 c2) = pair_type_of (m_hostname c1) (m_hostname c2).
Proof.
  unfold new_candidate, pair_type_of. cbn [m_pairtype].
  destruct (String.eqb_spec (CanonicalNodeName.m_name (CanonicalNodeName.setName (m_hostname c1)))
    (CanonicalNodeName.m_name (CanonicalNodeName.setName (m_hostname c2)))) as [E|E];
    [by rewrite decide_True|rewrite decide_False by done].
  destruct (CanonicalNodeName.m_topon _), (CanonicalNodeName.m_topon _); cbn;
    by repeat case_decide; naive_solver.
Qed.

(** Every pair of a node of one list and a node of the other is a candidate, once;
    colocated pairs come first, then those with topological names, and pairs of
    one type by the order and preference of their first node. *)
Theorem candidates_sorted l1 l2 :
  ((λ c, (m_candidate1 c, m_candidate2 c)) <$> candidates l1 l2) ≡ₚ
    (c1 ← l1; (λ c2, (c1, c2)) <$> l2) ∧
  Forall (λ c, m_pairtype c = pair_type_of (m_hostname (m_candidate1 c)) (m_hostname (m_candidate2 c)))
    (candidates l1 l2) ∧
  ranked rank (candidates l1 l2).
Proof.
  unfold candidates. split_and!.
  - rewrite list_sort_perm. unfold pairs. induction l1 as [|c1 l1 IH]; [done|]. cbn.
    rewrite fmap_app, IH. f_equiv. rewrite <- list_fmap_compose. done.
  - rewrite list_sort_perm. unfold pairs. apply Forall_bind, Forall_true. intros c1.
    apply Forall_fmap, Forall_true. intros c2. apply new_candidate_pairtype.
  - apply (list_sort_ranked _ _ 3); [|done]. intros x y. unfold sort_compare, rank, lex_less.
    repeat case_match; lia || done.
Qed.

(** Of two pairs with topological names, the one that shares more labels does not
    come first: the sort does not look at the matches. *)
Definition result (host : string) : NodeSelectorResult := new_NodeSelectorResult <| m_hostname := host |>.
Example topological_distance_ignored :
  (m_topologicalMatches <$> candidates [result "topon.s5.pgw1.paris.example"]
    [result "topon.s5.sgw1.lyon.sample"; result "topon.s5.sgw2.paris.example"]) = [0; 2].
Proof. reflexivity. Qed.
End ColocatedFacts.

(** ** Diameter servers *)

Module DiameterSelection.
Import Utility Dns NodeSelector DiameterSelector EpcFacts.

Definition rank (s : DiameterSrv) : list Z := [m_priority s; m_weight s].

Lemma sort_turn_idle rand v f n i : 0 <= i <= Z.of_nat (length v) →
  (∀ j, (j < length v)%nat → is_Some (v !! j ≫= id)) →
  sort_turn rand (mk_sort v (-1) f n) i = Ok (mk_sort v (-1) f i).
Proof.
  intros Hi Hv. unfold sort_turn. cbn [vec priority].
  assert (∃ b : bool, (if i =? Z.of_nat (length v) then Ok true
    else x ← at_ v i; mret (negb (m_priority x =? -1))) = Ok b) as [b ->].
  { destruct (Z.eqb_spec i (Z.of_nat (length v))) as [|Hne]; [by exists true|].
    destruct (Hv (Z.to_nat i) ltac:(lia)) as [x Hx]. unfold at_.
    replace ((0 <=? i) && (i <? Z.of_nat (length v))) with true by lia.
    destruct (v !! Z.to_nat i) as [[s|]|]; cbn in Hx |- *; [by eexists|done..]. }
  cbn [mbind outcome_bind]. by rewrite andb_false_r.
Qed.

Lemma sort_turns_idle rand v f n js : Forall (λ i, 0 <= i <= Z.of_nat (length v)) js →
  (∀ j, (j < length v)%nat → is_Some (v !! j ≫= id)) →
  ∃ l, foldM (sort_turn rand) (mk_sort v (-1) f n) js = Ok (mk_sort v (-1) f l).
Proof.
  intros Hjs Hv. revert n. induction Hjs as [|i js Hi _ IH]; intros n; [by exists n|].
  cbn [foldM]. rewrite sort_turn_idle by done. apply IH.
Qed.

Lemma sort_indices (v : DiameterSrvVector) :
  Forall (λ i, 0 <= i <= Z.of_nat (length v)) (Z.of_nat <$> seq 0 (S (length v))).
Proof. apply Forall_fmap, Forall_seq. intros j Hj. cbn. lia. Qed.
Lemma sort_objects (l : list DiameterSrv) j : (j < length (Some <$> l))%nat →
  is_Some ((Some <$> l) !! j ≫= id).
Proof.
  rewrite length_fmap, list_lookup_fmap. intros [x ->]%lookup_lt_is_Some. by eexists.
Qed.

(** RFC 2782 orders servers of one priority by a draw that favours heavy ones:
    the code that would do it is never reached. *)
Theorem srv_weights_ignored std_sort rand l :
  sort_vector std_sort rand l = Ok (Some <$> std_sort l).
Proof.
  unfold sort_vector. destruct (sort_turns_idle rand (Some <$> std_sort l) (-1) (-1)
    (Z.of_nat <$> seq 0 (S (length (Some <$> std_sort l))))) as [n Hn];
    [apply sort_indices|apply sort_objects|by rewrite Hn].
Qed.

Section Selection.
Context `{Network} (std_sort : list DiameterSrv → list DiameterSrv) (rand : nat → Z → nat → Z).
Hypothesis shuffle_perm : ∀ n l, random_shuffle n l ≡ₚ l.
Hypothesis sort_perm : ∀ l, std_sort l ≡ₚ l.
Hypothesis sort_ranked : ∀ l, ranked rank (std_sort l).

Definition is_naptr (r : ResourceRecord) : Prop :=
  ∃ o p f s re repl, rr_data r = RRecordNAPTR o p f s re repl.
Definition srv_typed (r : ResourceRecord) : Prop :=
  rr_type r = ns_t_srv → ∃ p w port t, rr_data r = RRecordSRV p w port t.

(** A record of the service, with a flag that says what it leads to. *)
Definition wanted (service : string) (r : ResourceRecord) : bool :=
  match rr_data r with
  | RRecordNAPTR _ _ f s _ _ => (s =? service)%string && ((f =? "a")%string || (f =? "s")%string)
  | _ => false
  end.
Definition is_srv (name : string) (r : ResourceRecord) : bool :=
  (rr_type r =? ns_t_srv) && (rr_name r =? name)%string.

Definition reaches (additional : list ResourceRecord) (name : string) (h : DiameterHost) : Prop :=
  m_ipv4_addrs h ≡ₚ ipv4_of name additional ∧ m_ipv6_addrs h ≡ₚ ipv6_of name additional.
Definition server_of (additional : list ResourceRecord) (r : ResourceRecord) (s : DiameterSrv) : Prop :=
  ∃ target, rr_data r = RRecordSRV (m_priority s) (m_weight s) (m_port s) target ∧
    (h_name (m_host s) = target ∨ Forall (λ r, rr_name r ≠ target) additional) ∧
    reaches additional target (m_host s).
Definition naptr_of (additional : list ResourceRecord) (r : ResourceRecord) (n : DiameterNaptr) : Prop :=
  ∃ f re, rr_data r =
      RRecordNAPTR (m_order n) (m_preference n) f (m_service n) re (m_replacement n) ∧
    match m_info n with
    | DiameterNaptrA h => f = "a" ∧ h_name h = m_replacement n ∧ reaches additional (m_replacement n) h
    | DiameterNaptrS v => f = "s" ∧ ∃ srvs found, v = Some <$> srvs ∧ ranked rank srvs ∧
        srvs ≡ₚ found ∧
        Forall2 (server_of additional) (List.filter (is_srv (m_replacement n)) additional) found
    end.

Lemma host_addresses_typed n name additional : Forall typed additional →
  host_addresses n name additional =
    Ok (random_shuffle n (ipv4_of name additional), random_shuffle (S n) (ipv6_of name additional)).
Proof. intros Ht. unfold host_addresses. by rewrite addresses_typed. Qed.

Lemma add_srv_results n repl additional : Forall typed additional → Forall srv_typed additional →
  ∃ found n', foldM (add_srv repl additional) ([], n) additional = Ok (found, n') ∧
    Forall2 (server_of additional) (List.filter (is_srv repl) additional) found.
Proof using shuffle_perm.
  intros Ht Hs.
  destruct (foldM_results (add_srv repl additional) fst (is_srv repl) (server_of additional)
    (λ _, True) additional ([], n)) as ([found n'] & new & Hf & _ & Hres & Hrel).
  - intros [l k] r Hr _. unfold add_srv, is_srv. destruct (rr_type r =? ns_t_srv) eqn:E; cbn [andb];
      [|by eexists]. destruct (rr_name r =? repl)%string; [|by eexists].
    rewrite Forall_forall in Hs. destruct (Hs r Hr ltac:(lia)) as (p & w & port & t & Hd).
    unfold as_srv. rewrite Hd. cbn [mbind outcome_bind]. rewrite host_addresses_typed by done.
    eexists. split; [done|]. split; [done|]. eexists. split; [|done].
    exists t. split; [done|]. unfold reaches. cbn. rewrite !shuffle_perm. split; [|done].
    destruct (existsb _ additional) eqn:Ex; [by left|right]. apply Forall_forall. intros r' Hr' E'.
    apply not_true_iff_false in Ex. apply Ex, existsb_exists. exists r'. split; [by apply list_elem_of_In|].
    by apply String.eqb_eq.
  - done.
  - cbn in Hres. subst. eauto.
Qed.

Lemma evaluate_naptr service additional d r : Forall typed additional → Forall srv_typed additional →
  is_naptr r →
  ∃ d', evaluate std_sort rand service additional d r = Ok d' ∧
    if wanted service r then ∃ n, naptr_of additional r n ∧ m_results d' = m_results d ++ [n]
    else m_results d' = m_results d.
Proof using shuffle_perm sort_perm sort_ranked.
  intros Ht Hs (o & p & f & s & re & repl & Hr). unfold evaluate, as_naptr, wanted. rewrite Hr.
  cbn [mbind outcome_bind]. destruct (s =? service)%string; cbn [andb]; [|by eexists].
  destruct (String.eqb_spec f "a") as [->|Ha]; cbn [orb].
  { rewrite host_addresses_typed by done. eexists. split; [done|]. eexists. split; [|done].
    exists "a", re. split; [done|]. cbn. unfold reaches. cbn. by rewrite !shuffle_perm. }
  destruct (String.eqb_spec f "s") as [->|Hf]; [|by eexists].
  destruct (add_srv_results (draws d) repl additional Ht Hs) as (found & n' & -> & Hfound).
  cbn [mbind outcome_bind fst]. destruct (sort_turns_idle (rand (length (m_results d)))
    (Some <$> std_sort found) (-1) (-1) (Z.of_nat <$> seq 0 (S (length (Some <$> std_sort found)))))
    as [k Hk].
  - apply sort_indices.
  - apply sort_objects.
  - unfold sort_vector. rewrite Hk. eexists. split; [done|]. eexists. split; [|done].
    exists "s", re. split; [done|]. cbn. split; [done|]. by exists (std_sort found), found.
Qed.

(** C20: A selector with a realm, an application and a protocol whose request the
    cache can answer adds one result for each NAPTR record of the service with a
    known flag, in the order of the answer, not of preference.  A result that
    leads to SRV records has them by priority and weight, with their addresses. *)
Theorem diameter_selection now r d c q hit c' x :
  m_application d ≠ dia_app_unknown → m_protocol d ≠ dia_protocol_unknown → m_realm d ≠ "" →
  DnsCache.query now r (ns_t_naptr, m_realm d) c = (Return (Some q, hit), c') →
  DnsCache.heap c' !! q = Some x →
  Forall is_naptr (m_answer x) → Forall typed (m_additional x) → Forall srv_typed (m_additional x) →
  ∃ d' new, process std_sort rand now r d c = (Return d', c') ∧
    m_results d' = m_results d ++ new ∧
    Forall2 (naptr_of (m_additional x))
      (List.filter (wanted (getDiameterService (m_application d) (m_protocol d))) (m_answer x)) new.
Proof using shuffle_perm sort_perm sort_ranked.
  intros Happ Hproto Hrealm Hq Hx Ha Ht Hs. unfold process. rewrite !decide_False by done.
  apply String.eqb_neq in Hrealm. rewrite Hrealm, Hq, Hx.
  set (service := getDiameterService _ _).
  destruct (foldM_results (evaluate std_sort rand service (m_additional x)) m_results (wanted service)
    (naptr_of (m_additional x)) (λ _, True) (m_answer x) d) as (d' & new & Hf & _ & Hres & Hrel).
  - intros b o Ho _. rewrite Forall_forall in Ha.
    destruct (evaluate_naptr service (m_additional x) b o Ht Hs (Ha o Ho)) as (b' & Hb & Hr).
    by exists b'.
  - done.
  - rewrite Hf. by exists d', new.
Qed.
End Selection.
End DiameterSelection.

(** ** Concrete requests *)

Module EpcWitness.
Import Utility AppService Dns NodeSelector EpcFacts.

#[local] Instance demo : Network := {|
  inet_ntop := λ a, join "." (dec <$> a);
  random_shuffle := λ _ l, reverse l |}.

Lemma demo_shuffle n l : random_shuffle n l ≡ₚ l.
Proof. apply reverse_Permutation. Qed.

Definition rr (name : string) (t : Z) (d : rdata) : ResourceRecord := mk_rr name t ns_c_in 60 100 d.
(** A cache that holds one answer, and no reply is needed. *)
Definition cache_of (domain : string) (x : Query) : DnsCache.cache :=
  DnsCache.mk_cache {[ 0%nat := x ]} 1 {[ (ns_t_naptr, domain) := 0%nat ]}.
Definition no_reply : DnsCache.reply := DnsCache.mk_reply 1 [].

Definition wanted_sgw : NodeSelector :=
  addDesiredUsageType 2 (SGW_addDesiredProtocol sgw_x_s5_gtp (SGW_node "sgw" "001" "001")).
Definition offer_of order pref e ps host : NodeSelection.offer :=
  NodeSelection.mk_offer (rr (m_domain wanted_sgw) ns_t_naptr RR) order pref "a" e ps "" host.
(** The second is for another usage type, the third for another service. *)
Definition demo_offers : list NodeSelection.offer :=
  [offer_of 20 5 x_3gpp_sgw [(x_s11, []); (x_s5_gtp, [1; 2])] "b.node";
   offer_of 10 1 x_3gpp_sgw [(x_s5_gtp, [3])] "c.node";
   offer_of 10 1 x_3gpp_pgw [(x_s5_gtp, [])] "d.node";
   offer_of 20 4 x_3gpp_sgw [(x_s5_gtp, [])] "a.node"].
Definition demo_additional : list ResourceRecord :=
  [rr "a.node" ns_t_a (RRecordA [10; 0; 0; 1]); rr "b.node" ns_t_a (RRecordA [10; 0; 0; 2]);
   rr "a.node" ns_t_a (RRecordA [10; 0; 0; 3])].
Definition demo_answer : Query :=
  mk_query ns_t_naptr (m_domain wanted_sgw) [] (NodeSelection.record_of <$> demo_offers) []
    demo_additional 100.

Lemma demo_query : DnsCache.query 50 no_reply (ns_t_naptr, m_domain wanted_sgw)
    (cache_of (m_domain wanted_sgw) demo_answer) =
  (Return (Some 0%nat, true), cache_of (m_domain wanted_sgw) demo_answer).
Proof. vm_compute. reflexivity. Qed.

Lemma demo_typed : Forall typed demo_additional.
Proof. repeat constructor; cbn; try discriminate; intros _; eexists; reflexivity. Qed.

Lemma demo_run : (λ r, (m_hostname r, m_order r, m_preference r, m_ipv4_hosts r)) <$>
  match (process 50 no_reply wanted_sgw (cache_of (m_domain wanted_sgw) demo_answer)).1 with
  | Return n => m_results n | _ => [] end =
  [("a.node", 20, 4, ["10.0.0.3"; "10.0.0.1"]); ("b.node", 20, 5, ["10.0.0.2"])].
Proof. vm_compute. reflexivity. Qed.

Lemma node_selection_witness : ∃ n' new,
  process 50 no_reply wanted_sgw (cache_of (m_domain wanted_sgw) demo_answer) =
    (Return n', cache_of (m_domain wanted_sgw) demo_answer) ∧
  NodeSelection.same_request wanted_sgw n' ∧ m_results n' ≡ₚ [] ++ new ∧
  ranked NodeSelection.rank (m_results n') ∧
  Forall2 (NodeSelection.result_of wanted_sgw demo_additional)
    (List.filter (NodeSelection.eligible wanted_sgw) demo_offers) new.
Proof.
  apply (NodeSelection.node_selection demo_shuffle 50 no_reply wanted_sgw _ 0%nat true _ demo_answer).
  - exact demo_query.
  - reflexivity.
  - reflexivity.
  - repeat constructor; cbn; discriminate.
  - exact demo_typed.
Defined.

Definition wanted_aaa : DiameterSelector.DiameterSelector :=
  DiameterSelector.setProtocol dia_protocol_sctp (DiameterSelector.setApplication dia_app_3gpp_s6a
    (DiameterSelector.setRealm_network "001" "001" DiameterSelector.new_DiameterSelector)).
Definition aaa_realm : string := DiameterSelector.m_realm wanted_aaa.
Definition aaa_service : string := "aaa+ap16777251:diameter.sctp".
Definition aaa_answers : list ResourceRecord :=
  [rr aaa_realm ns_t_naptr (RRecordNAPTR 30 1 "s" aaa_service "" "srv.node");
   rr aaa_realm ns_t_naptr (RRecordNAPTR 10 1 "a" aaa_service "" "a.node");
   rr aaa_realm ns_t_naptr (RRecordNAPTR 20 1 "u" aaa_service "" "b.node")].
Definition aaa_additional : list ResourceRecord :=
  demo_additional ++ [rr "srv.node" ns_t_srv (RRecordSRV 1 90 3868 "b.node");
                      rr "srv.node" ns_t_srv (RRecordSRV 1 10 3868 "a.node")].
Definition aaa_answer : Query := mk_query ns_t_naptr aaa_realm [] aaa_answers [] aaa_additional 100.
Definition demo_sort : list DiameterSelector.DiameterSrv → list DiameterSelector.DiameterSrv :=
  list_sort DiameterSelector.sort_compare.

Lemma demo_sort_ranked l : ranked DiameterSelection.rank (demo_sort l).
Proof.
  apply (list_sort_ranked _ _ 2); [|done].
  intros x y. unfold DiameterSelector.sort_compare, DiameterSelection.rank, lex_less.
  repeat case_match; lia || done.
Qed.

(** The lighter server comes first, whatever is drawn; the results are not in the
    order of their preference. *)
Lemma aaa_run : (λ n, (DiameterSelector.m_order n, match DiameterSelector.m_info n with
    | DiameterSelector.DiameterNaptrA h => [DiameterSelector.h_name h]
    | DiameterSelector.DiameterNaptrS v => omap (fmap (λ s, DiameterSelector.h_name (DiameterSelector.m_host s))) v
    end)) <$>
  match (DiameterSelector.process demo_sort (λ _ _ _, 0) 50 no_reply wanted_aaa
           (cache_of aaa_realm aaa_answer)).1 with
  | Return d => DiameterSelector.m_results d | _ => [] end =
  [(30, ["a.node"; "b.node"]); (10, ["a.node"])].
Proof. vm_compute. reflexivity. Qed.

Lemma diameter_selection_witness : ∃ d' new,
  DiameterSelector.process demo_sort (λ _ _ _, 0) 50 no_reply wanted_aaa (cache_of aaa_realm aaa_answer) =
    (Return d', cache_of aaa_realm aaa_answer) ∧
  DiameterSelector.m_results d' = [] ++ new ∧
  Forall2 (DiameterSelection.naptr_of aaa_additional)
    (List.filter (DiameterSelection.wanted aaa_service) aaa_answers) new.
Proof.
  apply (DiameterSelection.diameter_selection demo_sort (λ _ _ _, 0) demo_shuffle
    (list_sort_perm _) demo_sort_ranked 50 no_reply wanted_aaa _ 0%nat true _ aaa_answer);
    [discriminate|discriminate|discriminate|vm_compute; reflexivity|reflexivity|..].
  - repeat constructor; do 6 eexists; reflexivity.
  - repeat constructor; cbn; try discriminate; intros _; eexists; reflexivity.
  - repeat constructor; intros E; try discriminate E; do 4 eexists; reflexivity.
Defined.

Lemma service_text_roundtrip_witness :
  service_text x_3gpp_pgw [(x_s5_gtp, [1; 20]); (x_gn, [])] = "x-3gpp-pgw:x-s5-gtp+ue-1.20:x-gn" ∧
  ∃ s, AppService.parse (service_text x_3gpp_pgw [(x_s5_gtp, [1; 20]); (x_gn, [])]) new_AppService = Ok s ∧
    m_service s = x_3gpp_pgw ∧
    (λ ap, (m_protocol ap, m_usageTypes ap)) <$> m_protocols s = [(x_s5_gtp, [1; 20]); (x_gn, [])].
Proof.
  split; [reflexivity|]. apply service_text_roundtrip.
  repeat constructor; cbn; discriminate.
Defined.
End EpcWitness.
